(* ===== verification/_CoqProject ===== *)
-Q . S2P
Prelude.v
PyStr.v
Float64.v
PyDict.v
Broker.v
DurableStore.v
ExecState.v
ExecManager.v
OrderLifecycle.v
Idempotency.v
WalJournal.v
OperatingMode.v
SystemMode.v
SafetyState.v
OrderTypes.v
PyVal.v
FloatBounds.v
Reconciliation.v
CapitalManager.v
BrokerFailover.v
DomainInvariants.v
CorrelationGuard.v
RiskTypes.v
RiskService.v
Positions.v
PositionEntry.v
TradeFlow.v
MarginValidator.v
ExposureLimits.v
ExecutionGuards.v
StateManager.v
MandateService.v
MandateEnforcer.v
MarketWarmup.v
MarketSession.v
Reentry.v
ExpiryDay.v
StrikeSelector.v
ScaleIn.v
EquityTrader.v
ExecutionPolicy.v
IntradayMonitor.v
LoopWatchdog.v
NotificationFilters.v
MarketTrader.v
AssetTraders.v
TradingLoop.v
ConfigReload.v
PortfolioService.v
ReconEngine.v
BrokerTruth.v
StartupReconcile.v
PaperTrader.v
SmartRouter.v
BrokerState.v
EventStore.v
EventBus.v
HealingApproval.v
StrategyApproval.v
ManualSignal.v
SignalApproval.v
ExecutionService.v
RetryPolicy.v
BrokerGateway.v
OrderManager.v
CircuitBreaker.v
OrderQueries.v
RateLimiter.v
