(* ===== verification/Prelude.v ===== *)
(** * Verification of the trading platform: orders, risk and recovery

    The platform (src/) is a Python system that turns market data into
    trading signals and signals into orders.  This library models the part of
    it that must not go wrong once there is a signal: the decision to enter
    and to exit a position, the risk and exposure limits, the approval of
    signals and repairs, the order pipeline of [core/execution] and
    [core/services], the stores that make it survive a restart, and the
    reconciliation with the broker.

    ** How the parts interact

    [PositionService] (core/position_service.py) turns a signal into an
    order: gates, sizing, the durable record of the signal, two evaluations
    by the risk service, the margin check, and then the execution service;
    its monitor exits positions at their stops.  The risk service, the
    mandate, the exposure limiter and the execution guards read the safety
    state (hard halt, losing streak) and the session state.

    [ExecutionService.execute_order] (core/services/execution_service.py) is
    the centre of the order pipeline.  It asks the operating mode whether
    orders are allowed, derives an idempotency key, appends an intent to the
    write-ahead journal, asks the idempotency manager whether the key is a
    duplicate, saves a row in the durable execution store, marks the key in
    flight, and then makes one attempt: unless the hard halt is set, it
    creates or finds the state machine of the order in the machine manager,
    places the order with the broker, validates the answer and moves the
    machine; each move is persisted through a callback into the durable
    store.  The result is confirmed with the idempotency manager and engine,
    and written to the journal, the store and the audit cache.  Two sweepers
    (stale orders, missing acknowledgments) walk over the machines; a restart
    rebuilds the machines from the store, and the reconciliation services
    compare what is stored with the broker.  Beside this path stand the order
    manager with its broker gateway (a second, simpler pipeline), the smart
    router, the paper trader, the retry policy, the circuit breaker and the
    rate limiter; the event store keeps a hash chain of what happened.

    ** Files

    Foundations.
    - [Prelude] (this file): Python exceptions ([exn_class], [pyexn]), the
      monad [ST] of code that mutates a state and may raise, its laws, the
      relations [st_rel]/[preserves], [st_post] and [st_wp] with which runs
      are reasoned about, the clock, timestamps, tactics.
    - [PyStr], [Float64], [PyDict], [PyVal]: the strings, the IEEE 754
      doubles, the insertion-ordered dicts and SQLite tables, and the
      dynamically typed values of the source.  Built-in [sum] over floats is
      the class [PySum].  [FloatBounds]: how large a product or quotient of
      floats gets, so that converting it does not raise.

    Entering and leaving positions.
    - [Positions] and [PositionEntry] (core/position_service.py): the exits
      and the monitor; [enter_trade].  The services they call are records of
      operations ([risk_port], [exec_port], ...) over an arbitrary state, and
      [recorded] notes the calls an entry makes.
    - [TradeFlow]: [PositionEntry] with the risk service of [RiskService] as
      its [risk_port].
    - [RiskTypes], [RiskService] (core/ports/risk/risk_port.py,
      core/services/risk_service.py): the limits, the checks, the sizes; the
      sources of market and portfolio figures are the class [RiskEnv].
    - [CapitalManager] (core/capital_manager.py), [MarginValidator]
      (core/risk/margin_validator.py), [ExposureLimits]
      (core/exposure_limits.py), [ExecutionGuards]
      (core/execution_guards.py), [MandateService] (core/mandate_service.py).
    - [StateManager] and [PortfolioService] (core/state_manager.py,
      core/services/portfolio_service.py): the session state, its file and
      its recovery, and the accounts of the day in it.

    Approvals.
    - [HealingApproval] (core/self_healing/approval_workflow.py),
      [StrategyApproval] (core/strategy/approval_workflow.py),
      [ManualSignal] (core/manual_signal.py), [SignalApproval]
      (core/signal_approval_workflow.py): the queues of decisions a person
      makes, and what may happen without one.  Callbacks are the classes
      [HealEnv] and [Escalation].

    Gates.
    - [OperatingMode], [SystemMode], [SafetyState] (core/operating_mode.py,
      core/system_mode.py, core/safety_state.py).

    The order pipeline.
    - [OrderTypes] (core/ports/execution/execution_port.py,
      core/execution/broker_ack_validator.py): orders, results, validation.
    - [ExecutionService] and [OrderQueries]
      (core/services/execution_service.py): the first has [execute_order] and
      everything below it, on a state [manager * xworld] that holds all the
      parts it works on; the second has the operations on orders already
      placed.
    - [DurableStore] (core/execution/durable_state.py): the table
      [execution_state], a [dbase drow]; one definition per method.
    - [ExecState] and [ExecManager]
      (core/execution/deterministic_state_machine.py): [machine] is an
      [ExecutionStateMachine], [manager] an [ExecutionStateMachineManager];
      the persistence hook is a parameter.
    - [OrderLifecycle] (core/execution/order_lifecycle.py): the two sweeps.
    - [Idempotency] (core/execution/idempotency/manager.py and
      core/services/idempotency_engine.py): [idem] and [engine].
    - [WalJournal] (core/wal/journal.py on [AsyncDbWriter] of
      core/db_utils.py): [wal] is the table with the queue of writes still to
      be done; [worker_step] is one round of the writer's thread.
    - [RetryPolicy] (core/execution/retry_policy/): classification and the
      retry loop over an arbitrary operation.
    - [Broker], [BrokerGateway] (core/execution/broker_gateway.py,
      algo_router.py, core/adapters/base_adapter.py) and [OrderManager]
      (core/execution/order_manager.py): the second pipeline; the manager is
      proved against the interface [GatewayPort], which [gateway_port]
      implements with the gateway.  Its [OrderState] objects live in a shared
      store, and [thread_step] splits [execute_intent] where another thread
      can run.
    - [SmartRouter] (core/execution/smart_router.py): the choice among
      brokers, with the adapters as the class [Adapters]; [BrokerState]
      (core/execution/broker_state_handler.py): what to do after an error.
    - [PaperTrader] (core/services/paper_trader.py): simulated fills; random
      numbers and waits are the class [PaperEnv].
    - [CircuitBreaker], [RateLimiter] (core/services/circuit_breaker_service.py,
      rate_limiting_service.py).

    The session of the market and the loop over it.
    - [MarketSession] (core/datetime_ist.py): the configured hours;
      [MarketWarmup] (core/market_warmup.py): the first minutes;
      [Reentry] (core/reentry_evaluator.py): the trackers of re-entries;
      [MandateEnforcer] (core/mandate_enforcer.py): the older enforcer, which
      implements the [enforcer_port] of [MandateService] where its state can
      be found ([HasEnforcer]); [BrokerFailover] (core/broker_failover.py);
      [DomainInvariants] (core/domain_invariants.py).
    - [TradingLoop] (index_app/domains/trading/service.py): the cycle that
      fetches, evaluates, enters, monitors and reconciles, over a record
      [loop_port] of the functions the loop is given; [recorded] notes the
      calls it makes, and [recorded_faithful] says that this changes nothing.
    - [CorrelationGuard] (core/correlation_guard.py), [ExpiryDay]
      (core/expiry_day_controller.py), [StrikeSelector]
      (core/strike_selector.py), [ScaleIn] (core/scalein_manager.py): what
      an entry asks; [ExpiryDay] and [StrikeSelector] fill the ports of
      [PositionEntry].  [ExecutionPolicy] (core/execution_policy.py): the
      policy over tiers and sizes; [IntradayMonitor]
      (core/intraday_performance_monitor.py): the feedback of the session.
    - [EquityTrader] (core/equity_trader.py) trades shares by itself;
      [MarketTrader] is the engine that the traders of [AssetTraders]
      (core/commodity_trader.py, core/currency_trader.py,
      core/etf_trader.py, core/reit_trader.py) share, over a record [market]
      of what they differ in.
    - [LoopWatchdog] (core/loop_watchdog.py), [ConfigReload]
      (core/config_drift_reloader.py, core/soft_reload_common.py),
      [NotificationFilters] (core/notification_filters.py): what the loop
      runs beside its cycle.
    Reconciliation and history.
    - [Reconciliation] (core/execution/reconciliation/service.py), with the
      broker as the class [ReconPort]; [ReconEngine]
      (core/reconciliation_engine.py, reconciliation_controller.py);
      [BrokerTruth] (core/execution/broker_truth_reconciliation.py,
      continuous_reconciliation.py), over the record [truth_port];
      [StartupReconcile] (core/startup_reconciliation.py), over
      [startup_port] and the durable store.
    - [EventStore] (core/event_store/), with the hash as the class [Sha256];
      [EventBus] (core/execution/event_system.py), with [Handlers].

    A definition carries the name of the method it translates; where several
    files use a name, the file tells them apart.

    ** What the theorems show

    - An entry is checked, an exit closes: [PositionEntry.entry_is_checked],
      [halt_stops_entries], [filled_entry_booked]; with the real risk service
      [TradeFlow.order_within_limits]; [Positions.exits_only_close],
      [stop_is_exited], [failed_exits_forget].
    - Limits hold: [RiskService.allowed_is_checked], [breach_halts],
      [day_trades_bounded], [RiskTypes.update_risk_limit_safe],
      [CapitalManager.scale_bounds], [MarginValidator.with_position_agrees],
      [ExposureLimits.concentration_bounded], [snapshot_is_sums],
      [ExecutionGuards.guarded_trades_bounded], [guards_passed],
      [MandateService.mandate_allowed_means].
    - A person decides: [HealingApproval.approval_gates] (up to the colon
      that joins action and component, [approved_by_another_name]),
      [late_approval_blocks], [StrategyApproval.live_needs_two_approvals],
      [ManualSignal.signal_lifecycle], [SignalApproval.routing_safe],
      [escalated_once].
    - No order is sent twice: a key in flight or confirmed blocks the order,
      which is answered with the earlier result or as a duplicate
      ([ExecutionService.in_flight_order_blocks], [Idempotency.in_flight_guard]),
      so does a machine in progress ([order_in_progress_blocks]); a machine is
      submitted at most once over any history ([ExecState.single_submission])
      and follows an abstract life of unsent, live, in doubt, closed
      ([ExecState.Lifecycle.machine_refines_lifecycle]); the order manager
      places an intent once ([OrderManager.intent_placed_once]), also across
      a crash at any step of the call ([restart_places_nothing]; not after
      the order was filled, [filled_intent_placed_again]), and the retry loop
      calls again only after a failure known to be safe
      ([RetryPolicy.retry_only_after_safe], [BrokerState.retry_justified],
      [unknown_retries_bounded]).
    - Nothing is lost: a filled order is recorded in its machine, the durable
      store, the journal and the idempotency manager
      ([filled_order_recorded]), fills add up ([fills_complete]), a restart
      rebuilds every open order ([ExecManager.restart_recovers],
      [DurableStore.open_executions_exact]), the registry keeps its machines
      ([registry_invariant], [prune_only_terminal]), the journal is the
      sequential effect of the calls while it has room and its database
      answers ([WalJournal.wal_sequential]), a restart
      finds a session state that was ([StateManager.restart_finds_past_state],
      [recovery_rebuilds], [civil_roundtrip]), the accounts add up
      ([PortfolioService.daily_pnl_adds], [reset_once_a_day]), and the event
      store notices tampering ([EventStore.tampering_detected],
      [untampered_verifies]) and reloads what it wrote while no stream is
      longer than the file's cap ([reload_verifies]).
    - The gates hold: [gates_stop_orders], [SafetyState.halt_latched],
      [halt_lifted_by_cooled_clear], [OperatingMode.authority_guarded],
      [SystemMode.entries_follow_history].
    - Reconciliation says what it finds: [Reconciliation.clean_iff_agrees],
      [ambiguity_freezes], [ReconEngine.report_exact], [halts_on_conflict],
      [BrokerTruth.cycle_exact], [stale_is_fresh].
    - The sweeps, polls, routes and protections terminate and are exact:
      [OrderLifecycle.stale_timeout_exact], [ack_watchdog_exact],
      [OrderQueries.poll_terminates], [verify_fill_exact],
      [SmartRouter.selected_is_eligible], [round_robin_fair],
      [CircuitBreaker.open_fails_fast], [half_open_recovers],
      [RateLimiter.fixed_window_total], [BrokerGateway.twap_quantity],
      [EventBus.publish_reaches_all], [PaperTrader.paper_result_fits],
      [price_available], [shutdown_refuses].
    - The loop: [TradingLoop.entries_admitted], [cycle_gated],
      [alerts_exact]; [MandateEnforcer.enforcer_permission] (with
      [MandateService]), [enforcer_halts_for_good];
      [Reentry.reentries_bounded], [reentry_earned];
      [BrokerFailover.failover_justified], [failures_switch];
      [MarketWarmup.warmup_active_exact], [warmup_bounds_names];
      [MarketSession.windows_fit], [apply_whole];
      [DomainInvariants.check_all_exact], [violations_bounded].
    - Around an entry: [CorrelationGuard.guard_exact], [cache_is_window];
      [ExpiryDay.expiry_entry_exact], [gate_blocks_any_day] (with
      [PositionEntry]); [StrikeSelector.strike_out_of_the_money];
      [ScaleIn.legs_total]; [ExecutionPolicy.policy_exact],
      [granted_terms]; [IntradayMonitor.session_judged],
      [relaxes_on_wins].
    - The traders of other markets: [EquityTrader.executed_within_limit],
      [monitor_exact], [actionable_signal], [reentry_never_refused];
      [MarketTrader.market_within_limit], [entry_exit_roundtrip];
      [AssetTraders.etf_premium_bounded].
    - Beside the loop: [LoopWatchdog.ticks_report_gaps],
      [one_alert_per_stall]; [ConfigReload.only_safe_keys_reload],
      [patch_exact], [reload_settles]; [NotificationFilters.filter_exact],
      [heartbeats_spaced], [repeats_stay_silent].
    - Where the code does not do what it means to, a theorem says what it
      does: [submitted_order_lost], [saturated_commit_lost], [restart_exact],
      [persistence_outcomes], [overlapping_calls_place_twice],
      [twap_intents_collide], [half_open_wedges], [one_failure_opens],
      [Reconciliation.outage_marks_pending],
      [StartupReconcile.startup_repairs_nothing],
      [SmartRouter.failed_broker_quarantined],
      [EventStore.poisoned_store_raises], and further lemmas and examples in
      the files ([refused_fill_counts], [transition_origin_lost],
      [safe_mode_escapes], [put_profit_is_loss], [unread_table_is_clean],
      [unreadable_limit_allows], ...).
    - What a theorem demands is stated apart from the code: the books that
      agree, a price at its stop, an order that closes, a broken condition, a
      duplicate's answer are predicates of their own ([agrees], [at_stop],
      [closing_order], [breaks], [duplicate_answer], ...), compared with what
      the code computes only in the proofs.

    ** Conventions, bounds and fuel

    - Code is shallowly embedded: a method is a function of the state that
      returns [Ok] or [Raise] with the state it leaves; mutations made before
      a raise stay.  An [except] clause lists the classes it catches.
    - The clock is a stream of readings that nothing in the program sets;
      every call of [now_ist], [time.time] or [format_ts] of the source takes
      one, in the order of the source.  Instants are microseconds of IST;
      dates are computed from the day number ([StateManager.civil], a bijection
      by [civil_roundtrip]).  The two time zones the code mixes are
      [LocalZone] and [LocalIso].
    - A table is an ordered dict with a list of faults still to come: each
      call either happens as a whole or raises the next fault and leaves the
      table alone.  A theorem that needs an answering database says so
      ([quiet]).  The session file is written operation by operation, and a
      save can be cut short after any of them.
    - Locks: a method that holds its lock throughout is one atomic step.
      Where it does not ([OrderManager.execute_intent], the journal's writer,
      the TWAP threads) the steps are explicit and interleaved.
    - A service called through an object is a record of operations (or a
      class) over a state of its own; theorems hold for all of them, or name
      the behaviour they rely on.
    - Integers are unbounded, as in Python; floats are binary64 with the
      rounding of CPython; [float ** int], a C library function, is the
      parameter [PyPow].  Strings are ASCII, apart from fixed message texts.
    - Loops over collections are structural.  The retry loop runs over the
      attempts of its [range]; only [OrderQueries.poll_loop] has fuel, and
      [poll_terminates] says that one round per reading of the clock up to
      the first one out of time is enough.  The endless loops of threads are
      given as their rounds.
    - Logging, and the text of log records, is left out.

    ** What is not modelled, and the plan

    Key generation (a hash) and the best-effort copy of a filled order into
    the trade journal are parameters or absent in [execute_order], and so are
    the paper trader and the smart router there: they are modelled on their
    own.  Not modelled, with the reason:
    - the Greeks engine (exp, log and erf of the C library), the scoring of
      signals and strategies, indicators, machine learning and backtesting
      (numpy, pandas and statistical libraries);
    - signal tracking and analytics, which read what the modelled parts
      write and decide nothing about an order;
    - persistence, notification and market data services, adapters, HTTP and
      SQL drivers, web pages (I/O);
    - configuration, dependency injection, governance and reports. *)
From Stdlib Require Export ZArith Lia.
From stdpp Require Export base strings pretty option gmap sorting list.

#[global] Set Default Goal Selector "!".

Declare Scope py_scope.
Delimit Scope py_scope with py.
Open Scope Z_scope.

(** ** Python exceptions *)

(** The exception classes the modelled handlers tell apart in their
    [except] clauses; every other class is [OtherException] with its name. *)
Inductive exn_class :=
| KeyError | ValueError | TypeError | OSError | ConnectionError | TimeoutError
| RuntimeError | AttributeError | ImportError | IndexError
| JSONDecodeError | SqliteError | DatabaseError | PersistenceError
| ArithmeticError | ZeroDivisionError | OverflowError
| BrokerConnectionError | ReconciliationError
| OtherException (name : string).

#[global] Instance exn_class_eq_dec : EqDecision exn_class.
Proof. solve_decision. Defined.

(** [type(e).__name__] *)
Definition exn_name (c : exn_class) : string :=
  match c with
  | KeyError => "KeyError" | ValueError => "ValueError" | TypeError => "TypeError"
  | OSError => "OSError" | ConnectionError => "ConnectionError"
  | TimeoutError => "TimeoutError" | RuntimeError => "RuntimeError"
  | AttributeError => "AttributeError" | ImportError => "ImportError"
  | IndexError => "IndexError" | JSONDecodeError => "JSONDecodeError"
  | SqliteError => "Error" | DatabaseError => "DatabaseError"
  | ArithmeticError => "ArithmeticError" | ZeroDivisionError => "ZeroDivisionError"
  | OverflowError => "OverflowError" | BrokerConnectionError => "BrokerConnectionError"
  | ReconciliationError => "ReconciliationError"
  | PersistenceError => "PersistenceError" | OtherException n => n
  end.

(** [issubclass(c, d)] on the classes above ([DatabaseError],
    [BrokerConnectionError] and [ReconciliationError] are the application's
    classes of [core/exceptions.py], the first a [PersistenceError];
    [SqliteError] is [sqlite3.Error], a direct subclass of [Exception]). *)
Definition exn_isa (c d : exn_class) : bool :=
  bool_decide (c = d) ||
  match c, d with
  | ConnectionError, OSError | TimeoutError, OSError => true
  | JSONDecodeError, ValueError => true
  | DatabaseError, PersistenceError => true
  | ZeroDivisionError, ArithmeticError | OverflowError, ArithmeticError => true
  | _, _ => false
  end.

(** A raised exception: its class and [str(e)]. *)
Record pyexn := PyExn { exn_cls : exn_class; exn_msg : string }.

#[global] Instance pyexn_eq_dec : EqDecision pyexn.
Proof. solve_decision. Defined.

(** [except (c1, ..., cn)] catches [e]. *)
Definition catches (cs : list exn_class) (e : pyexn) : bool :=
  existsb (exn_isa (exn_cls e)) cs.

#[global] Arguments catches cs e : simpl never.

(** The outcome of a Python call: a value or a raised exception. *)
Inductive res (A : Type) :=
| Ok (a : A)
| Raise (e : pyexn).
Arguments Ok {A} a.
Arguments Raise {A} e.

(** Calls in a row, without effects. *)
Definition rbind {A B} (m : res A) (f : A → res B) : res B :=
  match m with Ok a => f a | Raise e => Raise e end.

Lemma rbind_inv {A B} (r : res A) (f : A → res B) b : rbind r f = Ok b → ∃ a, r = Ok a ∧ f a = Ok b.
Proof. destruct r; [|done]. cbn. eauto. Qed.
Ltac unbind H x E := apply rbind_inv in H as (x & E & H).

Definition is_ok {A} (r : res A) : bool :=
  match r with Ok _ => true | Raise _ => false end.

(** ** Effectful code: state and exceptions

    [ST S A] is code that reads and writes a state [S] and returns or
    raises; the state survives a raise, as Python's mutations do. *)
Definition ST (S A : Type) : Type := S → res A * S.

#[global] Instance st_ret {S} : MRet (ST S) := λ A a s, (Ok a, s).
#[global] Instance st_bind {S} : MBind (ST S) := λ A B f m s,
  match m s with
  | (Ok a, s') => f a s'
  | (Raise e, s') => (Raise e, s')
  end.

Definition st_get {S} : ST S S := λ s, (Ok s, s).
Definition st_gets {S A} (f : S → A) : ST S A := λ s, (Ok (f s), s).
Definition st_put {S} (s' : S) : ST S unit := λ _, (Ok (), s').
Definition st_modify {S} (f : S → S) : ST S unit := λ s, (Ok (), f s).
Definition st_raise {S A} (e : pyexn) : ST S A := λ s, (Raise e, s).

(** [try: m  except cs as e: h e] *)
Definition st_try {S A} (m : ST S A) (cs : list exn_class) (h : pyexn → ST S A) : ST S A :=
  λ s, match m s with
       | (Raise e, s') => if catches cs e then h e s' else (Raise e, s')
       | r => r
       end.

(** [except Exception] *)
Definition st_try_any {S A} (m : ST S A) (h : pyexn → ST S A) : ST S A :=
  λ s, match m s with
       | (Raise e, s') => h e s'
       | r => r
       end.

(** A result computed without effects. *)
Definition st_lift {S A} (r : res A) : ST S A := λ s, (r, s).

(** Code on a part of the state. *)
Definition st_zoom {S T A} (get : S → T) (put : T → S → S) (m : ST T A) : ST S A :=
  λ s, let '(r, t) := m (get s) in (r, put t s).

(** [for x in xs: body] with a break-free body. *)
Fixpoint st_iter {S A} (f : A → ST S unit) (xs : list A) : ST S unit :=
  match xs with
  | [] => mret ()
  | x :: xs' => f x ;; st_iter f xs'
  end.

(** Running [m] from [s] returns [a] and leaves [s']. *)
Definition returns {S A} (m : ST S A) (s : S) (a : A) (s' : S) : Prop := m s = (Ok a, s').

(** *** Equations of the monad *)

Create HintDb st.

Lemma st_bind_ok {S A B} (m : ST S A) (f : A → ST S B) s a s' :
  m s = (Ok a, s') → (m ≫= f) s = f a s'.
Proof. intros H. unfold mbind, st_bind. by rewrite H. Qed.

Lemma st_bind_raise {S A B} (m : ST S A) (f : A → ST S B) s e s' :
  m s = (Raise e, s') → (m ≫= f) s = (Raise e, s').
Proof. intros H. unfold mbind, st_bind. by rewrite H. Qed.

Lemma st_bind_assoc {S A B C} (m : ST S A) (f : A → ST S B) (g : B → ST S C) s :
  ((m ≫= f) ≫= g) s = (m ≫= (λ a, f a ≫= g)) s.
Proof. unfold mbind, st_bind. by destruct (m s) as [[]]. Qed.

Lemma st_iter_app {S A} (f : A → ST S unit) xs ys s :
  st_iter f (xs ++ ys) s = (st_iter f xs ;; st_iter f ys) s.
Proof.
  revert s. induction xs as [|x xs IH]; intros s; [done|].
  simpl. unfold mbind, st_bind in *.
  destruct (f x s) as [[[]|e] s']; [apply IH|done].
Qed.

(** An invariant of a left fold. *)
Lemma foldl_inv {A B} (P : A → Prop) (f : A → B → A) l a :
  P a → (∀ a b, b ∈ l → P a → P (f a b)) → P (foldl f a l).
Proof.
  revert a. induction l as [|b l IH]; intros a Ha Hf; [done|]. simpl. apply IH.
  - apply Hf; [apply list_elem_of_here|done].
  - intros a' b' Hb'. by apply Hf, list_elem_of_further.
Qed.

(** *** Preservation: every run of [m] relates the initial and final states
    by [R], whether [m] returns or raises. *)

Definition st_rel {S A} (R : S → S → Prop) (m : ST S A) : Prop := ∀ s, R s (m s).2.

(** An invariant is the relation "if it held, it holds". *)
Definition preserves {S A} (I : S → Prop) (m : ST S A) : Prop :=
  st_rel (λ s s', I s → I s') m.

Section st_rel.
Context {S : Type} (R : S → S → Prop) `{!PreOrder R}.

Lemma st_rel_ret {A} (a : A) : st_rel R (mret a).
Proof. intros s. simpl. reflexivity. Qed.
Lemma st_rel_raise {A} e : st_rel R (st_raise (A:=A) e).
Proof. intros s. simpl. reflexivity. Qed.
Lemma st_rel_gets {A} (f : S → A) : st_rel R (st_gets f).
Proof. intros s. simpl. reflexivity. Qed.
Lemma st_rel_get : st_rel R st_get.
Proof. intros s. simpl. reflexivity. Qed.
Lemma st_rel_modify f : (∀ s, R s (f s)) → st_rel R (st_modify f).
Proof. intros Hf s. simpl. apply Hf. Qed.
Lemma st_rel_bind {A B} (m : ST S A) (f : A → ST S B) :
  st_rel R m → (∀ a, st_rel R (f a)) → st_rel R (m ≫= f).
Proof.
  intros Hm Hf s. unfold mbind, st_bind. specialize (Hm s).
  destruct (m s) as [[a|e] s']; simpl in *; [|done].
  etransitivity; [done|apply Hf].
Qed.
Lemma st_rel_try {A} (m : ST S A) cs h :
  st_rel R m → (∀ e, st_rel R (h e)) → st_rel R (st_try m cs h).
Proof.
  intros Hm Hh s. unfold st_try. specialize (Hm s).
  destruct (m s) as [[a|e] s']; simpl in *; [done|].
  destruct (catches cs e); [|done]. etransitivity; [done|apply Hh].
Qed.
Lemma st_rel_try_any {A} (m : ST S A) h :
  st_rel R m → (∀ e, st_rel R (h e)) → st_rel R (st_try_any m h).
Proof.
  intros Hm Hh s. unfold st_try_any. specialize (Hm s).
  destruct (m s) as [[a|e] s']; simpl in *; [done|].
  etransitivity; [done|apply Hh].
Qed.
Lemma st_rel_iter {A} (f : A → ST S unit) xs :
  (∀ x, x ∈ xs → st_rel R (f x)) → st_rel R (st_iter f xs).
Proof.
  induction xs as [|x xs IH]; intros Hf; [apply st_rel_ret|]. simpl.
  apply st_rel_bind; [apply Hf, list_elem_of_here|].
  intros _. apply IH. intros y Hy. by apply Hf, list_elem_of_further.
Qed.
Lemma st_rel_if {A} (b : bool) (m1 m2 : ST S A) :
  (b = true → st_rel R m1) → (b = false → st_rel R m2) →
  st_rel R (if b then m1 else m2).
Proof. destruct b; auto. Qed.
End st_rel.

Lemma st_lift_rel {S A} (R : S → S → Prop) `{!PreOrder R} (r : res A) : st_rel R (st_lift r).
Proof. intros s. simpl. reflexivity. Qed.
#[export] Hint Resolve st_lift_rel : st.

(** Two runs in a row, each under its own relation. *)
Lemma st_rel_bind_trans {S A B} (R1 R2 R : S → S → Prop) (m : ST S A) (f : A → ST S B) :
  (∀ s1 s2, R1 s1 s2 → R s1 s2) → (∀ s1 s2 s3, R1 s1 s2 → R2 s2 s3 → R s1 s3) →
  st_rel R1 m → (∀ a, st_rel R2 (f a)) → st_rel R (m ≫= f).
Proof.
  intros H1 H12 Hm Hf s. unfold mbind, st_bind. specialize (Hm s).
  destruct (m s) as [[a|e] s']; simpl in *; [|by apply H1].
  eapply H12; [done|apply Hf].
Qed.

(** A run that returned, taken apart. *)
Lemma st_lift_inv {S A} (r : res A) (s s' : S) a : st_lift r s = (Ok a, s') → r = Ok a ∧ s' = s.
Proof. unfold st_lift. by intros [= -> ->]. Qed.
Lemma bind_inv {S A B} (m : ST S A) (f : A → ST S B) s b s' :
  (m ≫= f) s = (Ok b, s') → ∃ a s1, m s = (Ok a, s1) ∧ f a s1 = (Ok b, s').
Proof. unfold mbind, st_bind. destruct (m s) as [[a|e] s1]; [eauto|done]. Qed.
Lemma try_inv {S A} (m : ST S A) cs (h : pyexn → ST S A) s a s' :
  st_try m cs h s = (Ok a, s') →
  m s = (Ok a, s') ∨ ∃ e s1, m s = (Raise e, s1) ∧ catches cs e = true ∧ h e s1 = (Ok a, s').
Proof.
  unfold st_try. destruct (m s) as [[b|e] s1]; [by left|]. destruct (catches cs e) eqn:E; [eauto 10|done].
Qed.
Ltac inv_bind H x w1 H1 := apply bind_inv in H as (x & w1 & H1 & H).

(** [Q] holds of every value [m] returns. *)
Definition st_post {S A} (Q : A → Prop) (m : ST S A) : Prop :=
  ∀ s a s', m s = (Ok a, s') → Q a.

Section st_post.
Context {S : Type}.

Lemma st_post_ret {A} (Q : A → Prop) a : Q a → st_post Q (mret (M:=ST S) a).
Proof. by intros HQ s b s' [= <- <-]. Qed.
Lemma st_post_bind {A B} (Q : B → Prop) (m : ST S A) (f : A → ST S B) :
  (∀ a, st_post Q (f a)) → st_post Q (m ≫= f).
Proof.
  intros Hf s b s'. unfold mbind, st_bind. destruct (m s) as [[a|e] s1]; [|done]. apply Hf.
Qed.
Lemma st_post_seq {A B} (P : A → Prop) (Q : B → Prop) (m : ST S A) (f : A → ST S B) :
  st_post P m → (∀ a, P a → st_post Q (f a)) → st_post Q (m ≫= f).
Proof.
  intros Hm Hf s b s'. unfold mbind, st_bind. specialize (Hm s). destruct (m s) as [[a|e] s1]; [|done].
  apply Hf. by eapply Hm.
Qed.
Lemma st_post_try {A} (Q : A → Prop) (m : ST S A) cs h :
  st_post Q m → (∀ e, st_post Q (h e)) → st_post Q (st_try m cs h).
Proof.
  intros Hm Hh s a s'. unfold st_try. specialize (Hm s). destruct (m s) as [[b|e] s1].
  - intros [= <- <-]. by eapply Hm.
  - destruct (catches cs e); [apply Hh|done].
Qed.
End st_post.
#[export] Hint Resolve st_post_ret st_post_bind st_post_try : st.

(** [l[-n:]]: the last [n] items; all of them for [n = 0], and without the
    first [-n] for a negative one. *)
Definition last_items {A} (n : Z) (l : list A) : list A :=
  if 0 <? n then drop (Z.to_nat (Z.of_nat (length l) - n)) l else drop (Z.to_nat (- n)) l.
Lemma last_items_all {A} n (l : list A) : 0 < n → Z.of_nat (length l) <= n → last_items n l = l.
Proof. intros Hn Hl. unfold last_items. destruct (Z.ltb_spec 0 n); [|lia]. by replace (Z.to_nat _) with 0%nat by lia. Qed.
Lemma last_items_length {A} n (l : list A) : 0 < n → Z.of_nat (length (last_items n l)) = Z.min n (Z.of_nat (length l)).
Proof. intros Hn. unfold last_items. destruct (Z.ltb_spec 0 n); [|lia]. rewrite length_drop. lia. Qed.
(** Keeping the last [n] after each addition keeps the last [n]. *)
Lemma last_items_app {A} n (l k : list A) : 0 < n → last_items n (last_items n l ++ k) = last_items n (l ++ k).
Proof.
  intros Hn. unfold last_items. destruct (Z.ltb_spec 0 n); [|lia]. rewrite !length_app, length_drop.
  set (d := Z.to_nat (Z.of_nat (length l) - n)).
  replace (Z.to_nat (Z.of_nat (length l + length k) - n)) with (d + Z.to_nat (Z.of_nat (length l - d + length k) - n))%nat by lia.
  rewrite <- drop_drop. f_equal. by rewrite drop_app_le by lia.
Qed.
Lemma last_items_elem {A} n (l : list A) x : x ∈ last_items n l → x ∈ l.
Proof. unfold last_items. destruct (0 <? n); apply subseteq_drop. Qed.

(** *** What one run establishes

    [st_wp m s Q]: the outcome of [m] from [s], returned or raised, and the
    state it leaves satisfy [Q]. *)
Definition st_wp {S A} (m : ST S A) (s : S) (Q : res A → S → Prop) : Prop := Q (m s).1 (m s).2.

Lemma wp_bind {S A B} (m : ST S A) (f : A → ST S B) s Q :
  st_wp m s (λ r s', match r with Ok a => st_wp (f a) s' Q | Raise e => Q (Raise e) s' end) →
  st_wp (m ≫= f) s Q.
Proof. unfold st_wp, mbind, st_bind. by destruct (m s) as [[a|e] s']. Qed.

Lemma wp_try {S A} (m : ST S A) cs h s Q :
  st_wp m s (λ r s', match r with
                     | Ok a => Q (Ok a) s'
                     | Raise e => if catches cs e then st_wp (h e) s' Q else Q (Raise e) s'
                     end) →
  st_wp (st_try m cs h) s Q.
Proof. unfold st_wp, st_try. destruct (m s) as [[a|e] s']; simpl; [done|]. by destruct (catches cs e). Qed.

Lemma wp_zoom {S T A} (get : S → T) (put : T → S → S) (m : ST T A) s Q :
  st_wp m (get s) (λ r t, Q r (put t s)) → st_wp (st_zoom get put m) s Q.
Proof. unfold st_wp, st_zoom. by destruct (m (get s)). Qed.

Lemma wp_mono {S A} (m : ST S A) s (Q Q' : res A → S → Prop) :
  (∀ r s', Q r s' → Q' r s') → st_wp m s Q → st_wp m s Q'.
Proof. unfold st_wp. auto. Qed.

(** A computation whose outcome is known. *)
Lemma wp_eq {S A} (m : ST S A) s r s' (Q : res A → S → Prop) : m s = (r, s') → Q r s' → st_wp m s Q.
Proof. unfold st_wp. by intros ->. Qed.

(** One run with a known effect, then the rest. *)
Lemma wp_rel {S A B} (R : S → S → Prop) (m : ST S A) (f : A → ST S B) s Q :
  st_rel R m → (∀ e s', R s s' → Q (Raise e) s') → (∀ a s', R s s' → st_wp (f a) s' Q) → st_wp (m ≫= f) s Q.
Proof.
  intros Hm He Ha. apply wp_bind. unfold st_wp at 1. specialize (Hm s). destruct (m s) as [[a|e] s']; cbn in *; auto.
Qed.
Lemma wp_lift_bind {S A B} (r : res A) (f : A → ST S B) s Q :
  (∀ a, r = Ok a → st_wp (f a) s Q) → (∀ e, r = Raise e → Q (Raise e) s) → st_wp (st_lift r ≫= f) s Q.
Proof. intros Ha He. apply wp_bind. unfold st_wp at 1, st_lift. cbn. destruct r; auto. Qed.
Lemma wp_ret {S A} (a : A) (s : S) Q : Q (Ok a) s → st_wp (mret a) s Q.
Proof. done. Qed.

(** *** A counter beside a state

    [counted ok m] runs [m] and counts the results that are [ok]. *)
Definition on_first {S A} (m : ST S A) : ST (S * Z) A := st_zoom fst (λ x w, (x, w.2)) m.
Definition counted {S A} (ok : A → bool) (m : ST S A) : ST (S * Z) A :=
  a ← on_first m; st_modify (λ w, (w.1, w.2 + Z.b2z (ok a))) ;; mret a.
Lemma on_first_count {S A} (m : ST S A) : st_rel (λ w w', w'.2 = w.2) (on_first m).
Proof. intros [x n]. unfold on_first, st_zoom. by destruct (m _). Qed.
Lemma counted_count {S A} (ok : A → bool) (m : ST S A) w :
  (counted ok m w).2.2 = w.2 + match (counted ok m w).1 with Ok a => Z.b2z (ok a) | Raise _ => 0 end.
Proof. unfold counted, on_first, st_zoom, mbind, st_bind. destruct (m w.1) as [[a|e] x]; cbn; lia. Qed.

(** *** What a run notes

    A state with a trace [tr] of events: [yields m K] when [K] holds of the
    outcome of [m] and of the events it adds. *)
Section yields.
Context {S E : Type} {tr : S → list E}.

(** Steps that add no event. *)
Definition unnoted (s s' : S) : Prop := tr s' = tr s.
#[global] Instance unnoted_preorder : PreOrder unnoted.
Proof. split; [done|]. intros s1 s2 s3 H1 H2. unfold unnoted in *. congruence. Qed.
Definition yields {A} (m : ST S A) (K : res A → list E → Prop) : Prop :=
  ∀ s r s', m s = (r, s') → ∃ l, tr s' = tr s ++ l ∧ K r l.

Lemma yields_quiet {A} (m : ST S A) K : st_rel unnoted m → (∀ r, K r []) → yields m K.
Proof.
  intros H HK d r d' Em. specialize (H d). rewrite Em in H. exists []. split; [by rewrite app_nil_r|apply HK].
Qed.
Lemma yields_bind {A B} (m : ST S A) (f : A → ST S B) K1 K :
  yields m K1 → (∀ a l1, K1 (Ok a) l1 → yields (f a) (λ r l2, K r (l1 ++ l2))) →
  (∀ e l1, K1 (Raise e) l1 → K (Raise e) l1) → yields (m ≫= f) K.
Proof.
  intros Hm Hf He d r d' Em. unfold mbind, st_bind in Em. destruct (m d) as [[a|e] d1] eqn:E1.
  - destruct (Hm _ _ _ E1) as (l1 & C1 & K1'). destruct (Hf a l1 K1' _ _ _ Em) as (l2 & C2 & K2).
    exists (l1 ++ l2). split; [by rewrite C2, C1, app_assoc|done].
  - injection Em as <- <-. destruct (Hm _ _ _ E1) as (l1 & C1 & K1'). exists l1. split; [done|by apply He].
Qed.
Lemma yields_try {A} (m : ST S A) cs h K1 K :
  yields m K1 → (∀ a l, K1 (Ok a) l → K (Ok a) l) →
  (∀ e l, K1 (Raise e) l → catches cs e = true → yields (h e) (λ r l2, K r (l ++ l2))) →
  (∀ e l, K1 (Raise e) l → K (Raise e) l) → yields (st_try m cs h) K.
Proof.
  intros Hm Ha Hh He d r d' Em. unfold st_try in Em. destruct (m d) as [[a|e] d1] eqn:E1; destruct (Hm _ _ _ E1) as (l1 & C1 & K1').
  - injection Em as <- <-. exists l1. split; [done|by apply Ha].
  - destruct (catches cs e) eqn:Ec.
    + destruct (Hh e l1 K1' Ec _ _ _ Em) as (l2 & C2 & K2). exists (l1 ++ l2). split; [by rewrite C2, C1, app_assoc|done].
    + injection Em as <- <-. exists l1. split; [done|by apply He].
Qed.
Lemma yields_weaken {A} (m : ST S A) (K1 K : res A → list E → Prop) :
  yields m K1 → (∀ r l, K1 r l → K r l) → yields m K.
Proof. intros Hm HK d r d' Em. destruct (Hm _ _ _ Em) as (l & C & Hl). eauto. Qed.
(** An unnoted step before another. *)
Lemma yields_after {A B} (m : ST S A) (f : A → ST S B) K :
  st_rel unnoted m → (∀ e, K (Raise e) []) → (∀ a, yields (f a) K) → yields (m ≫= f) K.
Proof.
  intros Hm He Hf. eapply (yields_bind _ _ (λ _ l, l = [])); [by apply yields_quiet| |].
  - intros a l ->. apply Hf.
  - intros e l ->. apply He.
Qed.
Lemma yields_ret {A} (a : A) (K : res A → list E → Prop) : K (Ok a) [] → yields (mret a) K.
Proof. intros H d r d' [= <- <-]. exists []. by rewrite app_nil_r. Qed.
Lemma yields_raise {A} e (K : res A → list E → Prop) : K (Raise e) [] → yields (st_raise e) K.
Proof. intros H d r d' [= <- <-]. exists []. by rewrite app_nil_r. Qed.
End yields.
Arguments unnoted {S E} tr s s'.
Arguments yields {S E} tr {A} m K.

#[global] Instance preserves_preorder {S} (I : S → Prop) :
  PreOrder (λ s s' : S, I s → I s').
Proof. split; [by intros ?|intros ???; tauto]. Qed.

#[export] Hint Resolve st_rel_ret st_rel_raise st_rel_gets st_rel_get
  st_rel_modify st_rel_bind st_rel_try st_rel_try_any st_rel_if : st.

(** ** The wall clock

    [now_ist()], [time.time()] and [time_provider.format_ts()] read a clock
    that nothing in the program sets: successive readings are the current
    instant (integer microseconds) and the increments still to come. *)
Record clock := Clock { clk_now : Z; clk_steps : list Z }.

Definition clk_read (c : clock) : Z * clock :=
  (clk_now c,
   match clk_steps c with
   | [] => c
   | d :: ds => Clock (clk_now c + d) ds
   end).

#[global] Arguments clk_read c : simpl never.

(** The clock after [n] readings. *)
Definition clock_after (n : nat) (k : clock) : clock := Nat.iter n (λ k, (clk_read k).2) k.

Lemma clock_after_S n k : clock_after n (clk_read k).2 = clock_after (S n) k.
Proof. unfold clock_after. by rewrite Nat.iter_succ_r. Qed.
Lemma clock_after_add n m k : clock_after n (clock_after m k) = clock_after (n + m) k.
Proof. unfold clock_after. by rewrite Nat.iter_add. Qed.

(** States that carry a clock. *)
Class HasClock (W : Type) := { clock_of : W → clock; set_clock : clock → W → W }.

Definition now_ist {W} `{HasClock W} : ST W Z :=
  λ w, let '(t, c) := clk_read (clock_of w) in (Ok t, set_clock c w).

#[global] Instance clock_clock : HasClock clock :=
  {| clock_of := id; set_clock := λ c _, c |}.

Definition usec_per_sec : Z := 1000000.
Definition usec_per_hour : Z := 3600 * usec_per_sec.
(** IST is five hours and a half ahead of UTC. *)
Definition ist_offset : Z := 19800 * usec_per_sec.

Lemma now_ist_total {W} `{HasClock W} (w : W) :
  now_ist w = (Ok (clk_read (clock_of w)).1, set_clock (clk_read (clock_of w)).2 w).
Proof. unfold now_ist. by destruct (clk_read (clock_of w)). Qed.

(** A timestamp string is kept as what [datetime.fromisoformat] makes of it:
    an instant, or a text that does not parse. *)
Inductive tstamp := TsAt (us : Z) | TsRaw (s : string).

#[global] Instance tstamp_eq_dec : EqDecision tstamp.
Proof. solve_decision. Defined.

(** [time_provider.format_ts()]: the current instant cut to whole seconds. *)
Definition format_ts {W} `{HasClock W} : ST W tstamp :=
  t ← now_ist; mret (TsAt (t - t `mod` usec_per_sec)).

(** Its value and effect, as functions of the world. *)
Definition ts_of {W} `{HasClock W} (w : W) : tstamp :=
  let t := (clk_read (clock_of w)).1 in TsAt (t - t `mod` usec_per_sec).
Definition tick {W} `{HasClock W} (w : W) : W := set_clock (clk_read (clock_of w)).2 w.

Lemma format_ts_total {W} `{HasClock W} (w : W) : format_ts w = (Ok (ts_of w), tick w).
Proof. unfold format_ts, mbind, st_bind. by rewrite now_ist_total. Qed.

#[global] Arguments format_ts {W _} w : simpl never.
#[global] Arguments ts_of {W _} w : simpl never.
#[global] Arguments tick {W _} w : simpl never.

(** [datetime.fromisoformat(ts)]; the text that does not parse raises. *)
Definition fromisoformat (ts : tstamp) : res Z :=
  match ts with
  | TsAt t => Ok t
  | TsRaw s => Raise (PyExn ValueError (String.append "Invalid isoformat string: " s))
  end.

(** Truthiness of an optional string. *)
Definition truthy_str (s : string) : bool := negb (String.eqb s "").
Lemma truthy_str_spec s : truthy_str s = true ↔ s ≠ ""%string.
Proof. unfold truthy_str. rewrite negb_true_iff. apply String.eqb_neq. Qed.
Definition truthy_opt (o : option string) : bool :=
  match o with Some s => truthy_str s | None => false end.
(** [o or d] *)
Definition str_or (o : option string) (d : string) : string :=
  match o with Some s => if truthy_str s then s else d | None => d end.

Definition truthy_ts (ts : tstamp) : bool :=
  match ts with TsAt _ => true | TsRaw s => truthy_str s end.

(** ** Tactics *)

(** Case analysis on the scrutinee of the next [match] or [if], keeping its
    equation; [case_all] until none is left. *)
Ltac case_one :=
  match goal with
  | |- context [match ?x with _ => _ end] =>
      lazymatch x with context [match _ with _ => _ end] => fail | _ => destruct x eqn:? end
  end.
Ltac case_all := repeat (case_one; simpl in *; try congruence).

(** Decompose [st_rel R m] along the structure of [m]; [tac] closes the steps
    that need an argument of their own. *)
Ltac rel_step :=
  match goal with
  | |- st_rel _ (_ ≫= _) => apply st_rel_bind; [typeclasses eauto| |intros ?]
  | |- st_rel _ (st_try _ _ _) => apply st_rel_try; [typeclasses eauto| |intros ?]
  | |- st_rel _ (st_try_any _ _) => apply st_rel_try_any; [typeclasses eauto| |intros ?]
  | |- st_rel _ (mret _) => apply st_rel_ret; typeclasses eauto
  | |- st_rel _ (st_raise _) => apply st_rel_raise; typeclasses eauto
  | |- st_rel _ (st_gets _) => apply st_rel_gets; typeclasses eauto
  | |- st_rel _ st_get => apply st_rel_get; typeclasses eauto
  | |- st_rel _ (st_lift _) => apply st_lift_rel; typeclasses eauto
  | |- st_rel _ (match ?x with _ => _ end) => destruct x
  end.
Ltac rel_auto tac := repeat first [progress tac | rel_step].

(** Turn boolean hypotheses into propositions. *)
Ltac bools :=
  repeat match goal with
  | H : _ && _ = true |- _ => apply andb_true_iff in H as [? ?]
  | H : _ || _ = false |- _ => apply orb_false_iff in H as [? ?]
  | H : negb _ = true |- _ => apply negb_true_iff in H
  | H : negb _ = false |- _ => apply negb_false_iff in H
  | H : bool_decide _ = true |- _ => apply bool_decide_eq_true_1 in H
  | H : bool_decide _ = false |- _ => apply bool_decide_eq_false_1 in H
  | H : (_ <? _) = true |- _ => apply Z.ltb_lt in H
  | H : (_ <? _) = false |- _ => apply Z.ltb_ge in H
  | H : (_ <=? _) = true |- _ => apply Z.leb_le in H
  | H : (_ <=? _) = false |- _ => apply Z.leb_gt in H
  | H : (_ =? _) = true |- _ => apply Z.eqb_eq in H
  | H : (_ =? _) = false |- _ => apply Z.eqb_neq in H
  | H : String.eqb _ _ = true |- _ => apply String.eqb_eq in H
  | H : String.eqb _ _ = false |- _ => apply String.eqb_neq in H
  end.

(** Membership in a list of constants, by evaluation. *)
Ltac in_list := solve [apply (bool_decide_unpack _); vm_compute; exact I].
