(* ===== verification/PyStr.v ===== *)
(** * Strings of the modelled code

    [str.lower], [str.upper] and the substring test [x in s] on the ASCII
    characters (the texts they are applied to, exception messages and broker
    status words, are matched against ASCII patterns only), and the decimal
    form of an integer in an f-string. *)
From S2P Require Import Prelude.
From Stdlib Require Import Ascii.

(** [c.lower()] and [c.upper()] of one character *)
Definition lower_ascii (c : ascii) : ascii :=
  let n := nat_of_ascii c in
  if bool_decide (65 ≤ n ∧ n ≤ 90)%nat then ascii_of_nat (n + 32) else c.
Definition upper_ascii (c : ascii) : ascii :=
  let n := nat_of_ascii c in
  if bool_decide (97 ≤ n ∧ n ≤ 122)%nat then ascii_of_nat (n - 32) else c.

Fixpoint str_map (f : ascii → ascii) (s : string) : string :=
  match s with
  | EmptyString => EmptyString
  | String c s' => String (f c) (str_map f s')
  end.

Definition str_lower : string → string := str_map lower_ascii.
Definition str_upper : string → string := str_map upper_ascii.

(** [x in s] *)
Fixpoint str_contains (x s : string) : bool :=
  String.prefix x s ||
  match s with
  | EmptyString => false
  | String _ s' => str_contains x s'
  end.

(** [any(x in s for x in xs)] *)
Definition any_in (xs : list string) (s : string) : bool :=
  existsb (λ x, str_contains x s) xs.

(** The decimal form of an integer. *)
Definition str_of_Z (z : Z) : string := pretty z.

(** [s in xs] for a tuple or list of strings *)
Definition str_mem (s : string) (xs : list string) : bool := existsb (String.eqb s) xs.

(** [s[:n]] *)
Definition str_take (n : nat) (s : string) : string := String.substring 0 n s.

Lemma str_mem_spec s xs : str_mem s xs = true ↔ s ∈ xs.
Proof.
  unfold str_mem. rewrite existsb_exists. split.
  - intros (x & Hx & ->%String.eqb_eq). by apply list_elem_of_In.
  - intros Hs. exists s. split; [by apply list_elem_of_In|apply String.eqb_refl].
Qed.

Lemma prefix_app x s : String.prefix x (x +:+ s) = true.
Proof.
  induction x as [|c x IH]; simpl; [by destruct s|].
  destruct (ascii_dec c c); [done|congruence].
Qed.

Lemma prefix_spec x s : String.prefix x s = true ↔ ∃ t, s = x +:+ t.
Proof.
  split.
  - revert s. induction x as [|c x IH]; intros s; [by exists s|].
    destruct s as [|d s]; simpl; [done|].
    destruct (ascii_dec c d) as [->|]; [|done].
    intros [t ->]%IH. by exists t.
  - intros [t ->]. apply prefix_app.
Qed.

Lemma str_contains_eq x s :
  str_contains x s =
  String.prefix x s || match s with EmptyString => false | String _ s' => str_contains x s' end.
Proof. by destruct s. Qed.

(** The substring test finds exactly the texts with an occurrence. *)
Lemma str_contains_spec x s :
  str_contains x s = true ↔ ∃ l r, s = l +:+ (x +:+ r).
Proof.
  split.
  - induction s as [|c s IH]; rewrite str_contains_eq.
    + rewrite orb_false_r. intros [t Ht]%prefix_spec. by exists ""%string, t.
    + intros [[t Ht]%prefix_spec|H]%orb_true_iff.
      * by exists ""%string, t.
      * destruct (IH H) as (l & r & ->). by exists (String c l), r.
  - intros (l & r & ->). induction l as [|c l IH]; rewrite str_contains_eq.
    + apply orb_true_iff. left. apply (prefix_app x r).
    + simpl. by rewrite IH, orb_true_r.
Qed.

Lemma any_in_true xs s : any_in xs s = true ↔ ∃ x, x ∈ xs ∧ str_contains x s = true.
Proof.
  unfold any_in. rewrite existsb_exists.
  split; intros (x & Hx & ?); exists x; (split; [|done]); by apply list_elem_of_In.
Qed.

Example lower_ex : str_lower "Order REJECTED" = "order rejected"%string.
Proof. reflexivity. Qed.
Example contains_ex : any_in ["timeout"; "503"] "read timeout after 5s" = true.
Proof. reflexivity. Qed.
