(* ===== verification/Float64.v ===== *)
(** * Python floats

    A Python float is an IEEE 754 binary64 number; its operations are the
    ones of the Standard Library's [SpecFloat] at precision 53 and exponent
    bound 1024, rounding to nearest even.  Nothing is approximated: signed
    zeros, infinities and NaN behave as they do in CPython, so a comparison
    with NaN is false whatever the operator. *)
From S2P Require Import Prelude PyStr.
From Stdlib Require Export SpecFloat.

Abbreviation float64 := spec_float.

Definition prec64 : Z := 53.
Definition emax64 : Z := 1024.

Definition fadd (x y : float64) : float64 := SFadd prec64 emax64 x y.
Definition fsub (x y : float64) : float64 := SFsub prec64 emax64 x y.
Definition fmul (x y : float64) : float64 := SFmul prec64 emax64 x y.
Definition fdiv (x y : float64) : float64 := SFdiv prec64 emax64 x y.
Definition fabs (x : float64) : float64 := SFabs x.
Definition fopp (x : float64) : float64 := SFopp x.

Definition flt (x y : float64) : bool := SFltb x y.
Definition fle (x y : float64) : bool := SFleb x y.
Definition feqb (x y : float64) : bool := SFeqb x y.
Definition fgt (x y : float64) : bool := SFltb y x.
Definition fge (x y : float64) : bool := SFleb y x.

Definition f_inf : float64 := S754_infinity false.
Definition f_ninf : float64 := S754_infinity true.
Definition f_nan : float64 := S754_nan.
Definition f_zero : float64 := S754_zero false.

Definition is_nan (x : float64) : bool := match x with S754_nan => true | _ => false end.

(** [float(z)]: correctly rounded. *)
Definition f_of_Z (z : Z) : float64 := binary_normalize prec64 emax64 z 0 false.

(** A literal [m * 10^-k], correctly rounded; [int / int] of Python is the
    correctly rounded quotient too. *)
Definition f_of_ratio (n d : Z) : float64 :=
  match n, d with
  | Z0, Z0 => S754_nan
  | Z0, _ => S754_zero false
  | _, Z0 => S754_nan
  | _, _ =>
      let s := xorb (n <? 0) (d <? 0) in
      let '(mz, ez, lz) := SFdiv_core_binary prec64 emax64 (Z.abs n) 0 (Z.abs d) 0 in
      binary_round_aux prec64 emax64 s mz ez lz
  end.

(** [min(x, y)] and [max(x, y)] keep the first argument unless the second
    is strictly smaller (larger). *)
Definition py_min (x y : float64) : float64 := if flt y x then y else x.
Definition py_max (x y : float64) : float64 := if fgt y x then y else x.

Declare Scope f64_scope.
Delimit Scope f64_scope with f64.
Bind Scope f64_scope with spec_float.
Infix "+" := fadd : f64_scope.
Infix "-" := fsub : f64_scope.
Infix "*" := fmul : f64_scope.
Infix "/" := fdiv : f64_scope.
Infix "<?" := flt : f64_scope.
Infix "<=?" := fle : f64_scope.

(** The integer part of a finite float (truncation towards zero) and the
    nearest integer (ties to even), as [int(x)] and [round(x)] compute them;
    [None] where Python raises. *)
Definition f_trunc (x : float64) : option Z :=
  match x with
  | S754_zero _ => Some 0
  | S754_finite s m e =>
      let a := if 0 <=? e then Z.pos m * 2 ^ e else Z.pos m / 2 ^ (- e) in
      Some (if s then - a else a)
  | _ => None
  end.

Definition div_half_even (n d : Z) : Z :=
  let q := n / d in
  let r := n `mod` d in
  if 2 * r <? d then q
  else if d <? 2 * r then q + 1
  else if Z.even q then q else q + 1.

Definition f_round (x : float64) : option Z :=
  match x with
  | S754_zero _ => Some 0
  | S754_finite s m e =>
      let a := if 0 <=? e then Z.pos m * 2 ^ e else div_half_even (Z.pos m) (2 ^ (- e)) in
      Some (if s then - a else a)
  | _ => None
  end.

(** [f"{x:.0f}"] *)
Definition fmt_0f (x : float64) : string :=
  match x with
  | S754_nan => "nan"
  | S754_infinity s => if s then "-inf" else "inf"
  | S754_zero s => if s then "-0" else "0"
  | S754_finite s _ _ =>
      match f_round (fabs x) with
      | Some a => String.append (if s then "-" else "") (str_of_Z a)
      | None => ""
      end
  end.

(** [timedelta(seconds=x)] in microseconds: the integer part exactly, the
    fraction times 1e6 rounded to nearest even; [None] where Python raises. *)
Definition f_frac (x : float64) : float64 :=
  match f_trunc x with Some t => fsub x (f_of_Z t) | None => S754_nan end.
Definition timedelta_seconds (x : float64) : option Z :=
  match f_trunc x, f_round (fmul (f_frac x) (f_of_Z usec_per_sec)) with
  | Some t, Some u => Some (t * usec_per_sec + u)
  | _, _ => None
  end.

(** [td.total_seconds()] *)
Definition total_seconds (us : Z) : float64 := f_of_ratio us usec_per_sec.

(** [x ** n] for a float [x] and an integer [n] is the C library's [pow],
    which raises [OverflowError] out of range and [ZeroDivisionError] on a
    zero raised to a negative power; its rounding is the library's own, so
    it is a parameter of the code that uses it. *)
Class PyPow := { fpow : float64 → Z → res float64 }.

(** Repeated multiplication, exact for a power of two in range. *)
Definition pow_by_mul : PyPow := {|
  fpow x n := Ok (foldr fmul (f_of_Z 1) (replicate (Z.to_nat n) x)) |}.

(** [sum] of floats: from Python 3.12 on it compensates its rounding, so its
    result depends on the interpreter. *)
Class PySum := { fsum : list float64 → float64 }.
(** The plain sum from the left, of the interpreters before. *)
Definition sum_left : PySum := {| fsum := foldl fadd f_zero |}.

(** [time.time()]: seconds since the epoch; the clock reads local time,
    [ist_offset] ahead. *)
Definition epoch_seconds (t : Z) : float64 := f_of_ratio (t - ist_offset) usec_per_sec.
Definition time_time {W} `{HasClock W} : ST W float64 := t ← now_ist; mret (epoch_seconds t).

Lemma time_time_total {W} `{HasClock W} (w : W) :
  time_time w = (Ok (epoch_seconds (clk_read (clock_of w)).1), set_clock (clk_read (clock_of w)).2 w).
Proof. unfold time_time, mbind, st_bind. by rewrite now_ist_total. Qed.

#[global] Arguments time_time {W _} w : simpl never.

(** The [n]-th reading of the clock, as [time.time()] returns it. *)
Definition secs (n : nat) (k : clock) : float64 :=
  epoch_seconds (clk_now (clock_after n k)).

Lemma secs_S n k : secs n (clk_read k).2 = secs (S n) k.
Proof. unfold secs. by rewrite clock_after_S. Qed.

(** ** Comparison *)

Create Rewrite HintDb float.

Lemma flt_nan_l x : flt S754_nan x = false.
Proof. done. Qed.
Lemma flt_nan_r x : flt x S754_nan = false.
Proof. by destruct x. Qed.
Lemma fle_nan_l x : fle S754_nan x = false.
Proof. done. Qed.
Lemma fle_nan_r x : fle x S754_nan = false.
Proof. by destruct x. Qed.

#[export] Hint Rewrite flt_nan_l flt_nan_r fle_nan_l fle_nan_r : float.

(** Every float but NaN sits at a point of a linear order: sign and class
    first, then the signed exponent, then the signed mantissa. *)
Definition f_rank (x : float64) : Z * Z * Z :=
  match x with
  | S754_nan => (0, 0, 0)
  | S754_infinity true => (-2, 0, 0)
  | S754_finite true m e => (-1, - e, - Z.pos m)
  | S754_zero _ => (0, 0, 0)
  | S754_finite false m e => (1, e, Z.pos m)
  | S754_infinity false => (2, 0, 0)
  end.

Definition rank_lt (a b : Z * Z * Z) : Prop :=
  let '(a1, a2, a3) := a in
  let '(b1, b2, b3) := b in
  a1 < b1 ∨ (a1 = b1 ∧ (a2 < b2 ∨ (a2 = b2 ∧ a3 < b3))).

Lemma pos_compare_cont_eq m n : Pos.compare_cont Eq m n = (m ?= n)%positive.
Proof. done. Qed.

Lemma SFcompare_rank x y :
  is_nan x = false → is_nan y = false →
  match SFcompare x y with
  | Some Lt => rank_lt (f_rank x) (f_rank y)
  | Some Gt => rank_lt (f_rank y) (f_rank x)
  | Some Eq => f_rank x = f_rank y
  | None => False
  end.
Proof.
  destruct x as [sx|sx| |sx mx ex], y as [sy|sy| |sy my ey]; try done; intros _ _;
    destruct sx, sy; simpl; try done; try lia.
  - destruct (Z.compare_spec ex ey); simpl; [|lia|lia]. subst.
    rewrite pos_compare_cont_eq. destruct (Pos.compare_spec mx my); simpl; subst; try lia.
    done.
  - destruct (Z.compare_spec ex ey); simpl; [|lia|lia]. subst.
    rewrite pos_compare_cont_eq. destruct (Pos.compare_spec mx my); simpl; subst; try lia.
    done.
Qed.

Lemma rank_lt_irrefl a : ¬ rank_lt a a.
Proof. destruct a as [[? ?] ?]. simpl. lia. Qed.
Lemma rank_lt_trans a b c : rank_lt a b → rank_lt b c → rank_lt a c.
Proof. destruct a as [[? ?] ?], b as [[? ?] ?], c as [[? ?] ?]. simpl. lia. Qed.

Lemma flt_not_nan x y : flt x y = true → is_nan x = false ∧ is_nan y = false.
Proof. destruct x, y; try done; by destruct s. Qed.
Lemma fle_not_nan x y : fle x y = true → is_nan x = false ∧ is_nan y = false.
Proof. destruct x, y; try done; by destruct s. Qed.

Lemma flt_spec x y :
  flt x y = true ↔ is_nan x = false ∧ is_nan y = false ∧ rank_lt (f_rank x) (f_rank y).
Proof.
  split.
  - intros H. destruct (flt_not_nan _ _ H) as [Hx Hy].
    pose proof (SFcompare_rank x y Hx Hy) as Hc. unfold flt, SFltb in H.
    destruct (SFcompare x y) as [[]|]; done.
  - intros (Hx & Hy & Hr). pose proof (SFcompare_rank x y Hx Hy) as Hc.
    unfold flt, SFltb. destruct (SFcompare x y) as [[]|]; try done.
    + rewrite Hc in Hr. by apply rank_lt_irrefl in Hr.
    + by destruct (rank_lt_irrefl (f_rank x)); eapply rank_lt_trans.
Qed.

Lemma fle_spec x y :
  fle x y = true ↔ is_nan x = false ∧ is_nan y = false ∧ ¬ rank_lt (f_rank y) (f_rank x).
Proof.
  split.
  - intros H. destruct (fle_not_nan _ _ H) as [Hx Hy].
    pose proof (SFcompare_rank x y Hx Hy) as Hc. unfold fle, SFleb in H.
    split; [done|split; [done|]]. intros Hr.
    destruct (SFcompare x y) as [[]|]; try done.
    + rewrite Hc in Hr. by apply rank_lt_irrefl in Hr.
    + by destruct (rank_lt_irrefl (f_rank x)); eapply rank_lt_trans.
  - intros (Hx & Hy & Hr). pose proof (SFcompare_rank x y Hx Hy) as Hc.
    unfold fle, SFleb. by destruct (SFcompare x y) as [[]|].
Qed.

Lemma flt_irrefl x : flt x x = false.
Proof.
  destruct (flt x x) eqn:E; [|done]. apply flt_spec in E as (_ & _ & E).
  by apply rank_lt_irrefl in E.
Qed.
Lemma flt_trans x y z : flt x y = true → flt y z = true → flt x z = true.
Proof. rewrite !flt_spec. intros (?&?&?) (?&?&?). split_and!; eauto using rank_lt_trans. Qed.

(** On numbers (no NaN) the two comparisons are complementary. *)
Lemma fle_flt x y : is_nan x = false → is_nan y = false → fle x y = negb (flt y x).
Proof.
  intros Hx Hy. destruct (flt y x) eqn:E; simpl.
  - apply flt_spec in E as (_ & _ & E). destruct (fle x y) eqn:E'; [|done].
    by apply fle_spec in E' as (_ & _ & E').
  - apply fle_spec. split_and!; [done..|]. intros Hr.
    assert (flt y x = true) by (apply flt_spec; split_and!; done). congruence.
Qed.

Lemma fle_refl x : is_nan x = false → fle x x = true.
Proof. intros Hx. rewrite fle_flt by done. by rewrite flt_irrefl. Qed.

Lemma rank_not_lt_trans a b c : ¬ rank_lt b a → ¬ rank_lt c b → ¬ rank_lt c a.
Proof. destruct a as [[? ?] ?], b as [[? ?] ?], c as [[? ?] ?]. simpl. lia. Qed.

Lemma fle_trans x y z : fle x y = true → fle y z = true → fle x z = true.
Proof.
  rewrite !fle_spec. intros (?&?&?) (?&?&?). split_and!; [done..|].
  eapply rank_not_lt_trans; eauto.
Qed.
Lemma flt_fle x y : flt x y = true → fle x y = true.
Proof.
  intros H. destruct (flt_not_nan _ _ H). rewrite fle_flt by done.
  destruct (flt y x) eqn:E; [|done].
  pose proof (flt_trans _ _ _ H E) as Hc. by rewrite flt_irrefl in Hc.
Qed.
Lemma fle_flt_trans x y z : fle x y = true → flt y z = true → flt x z = true.
Proof.
  rewrite fle_spec, !flt_spec. intros (?&?&Hxy) (?&?&Hyz). split_and!; [done..|].
  revert Hxy Hyz. destruct (f_rank x) as [[??]?], (f_rank y) as [[??]?], (f_rank z) as [[??]?].
  simpl. lia.
Qed.

(** [min] never exceeds its first argument, whatever the second is. *)
Lemma py_min_le_l x y : is_nan x = false → fle (py_min x y) x = true.
Proof.
  intros Hx. unfold py_min. destruct (flt y x) eqn:E; [by apply flt_fle|by apply fle_refl].
Qed.
Lemma py_min_le_r x y : is_nan x = false → is_nan y = false → fle (py_min x y) y = true.
Proof.
  intros Hx Hy. unfold py_min. destruct (flt y x) eqn:E; [by apply fle_refl|].
  rewrite fle_flt by done. by rewrite E.
Qed.

Lemma fabs_opp_not_pos x : is_nan x = false → fle (fopp (fabs x)) f_zero = true.
Proof. by destruct x. Qed.

Lemma fsub_diag_zero x : is_nan x = false → (∀ s, x ≠ S754_infinity s) → feqb (fsub x x) f_zero = true.
Proof.
  destruct x as [s|s| |s m e]; try done; intros _ H.
  - by destruct s.
  - by destruct (H s).
  - unfold fsub, SFsub. rewrite Z.sub_diag. done.
Qed.
