(* ===== verification/PyDict.v ===== *)
(** * Python dictionaries and SQLite tables

    A [dict] keeps the insertion order of its keys: assigning to a present
    key keeps its position, a new key goes to the end, [del] removes it.
    The order is observable ([list(d.values())], [next(iter(d))]), so a
    dictionary is an association list with distinct keys; [dict_map] maps it
    to the finite map it implements.  A table of SQLite with a TEXT primary
    key is the same list in rowid order, where [INSERT OR REPLACE] moves the
    row to the end. *)
From S2P Require Import Prelude.

Record pydict (V : Type) := PyDict { items : list (string * V) }.
Arguments PyDict {V} items.
Arguments items {V} d : rename.

#[global] Instance pydict_empty V : Empty (pydict V) := PyDict [].

(** [d.get(k)] *)
Fixpoint assoc_get {V} (k : string) (l : list (string * V)) : option V :=
  match l with
  | [] => None
  | (k', v) :: l' => if String.eqb k k' then Some v else assoc_get k l'
  end.

(** [d[k] = v] *)
Fixpoint assoc_set {V} (k : string) (v : V) (l : list (string * V)) : list (string * V) :=
  match l with
  | [] => [(k, v)]
  | (k', v') :: l' => if String.eqb k k' then (k, v) :: l' else (k', v') :: assoc_set k v l'
  end.

(** [d.pop(k, None)] *)
Definition assoc_del {V} (k : string) (l : list (string * V)) : list (string * V) :=
  filter (λ p, p.1 ≠ k) l.

#[global] Instance pydict_lookup V : Lookup string V (pydict V) := λ k d, assoc_get k (items d).
#[global] Instance pydict_insert V : Insert string V (pydict V) :=
  λ k v d, PyDict (assoc_set k v (items d)).
#[global] Instance pydict_delete V : Delete string (pydict V) :=
  λ k d, PyDict (assoc_del k (items d)).

Definition dkeys {V} (d : pydict V) : list string := (items d).*1.
Definition dvalues {V} (d : pydict V) : list V := (items d).*2.
Definition dlen {V} (d : pydict V) : Z := Z.of_nat (length (items d)).
(** [k in d] *)
Definition dmem {V} (k : string) (d : pydict V) : bool := bool_decide (is_Some (d !! k)).

(** Keep the entries that satisfy a test: the loops that collect the keys of
    the others and delete them. *)
Definition dfilter {V} (f : string → V → bool) (d : pydict V) : pydict V :=
  PyDict (filter (λ p, f p.1 p.2 = true) (items d)).

(** [{k: f(v) for k, v in d.items()}] *)
Definition dmap {V W} (f : V → W) (d : pydict V) : pydict W := PyDict ((λ p, (p.1, f p.2)) <$> items d).

(** The invariant of a dictionary: no key twice. *)
Definition dict_wf {V} (d : pydict V) : Prop := NoDup (dkeys d).

#[global] Instance dict_wf_dec {V} (d : pydict V) : Decision (dict_wf d).
Proof. unfold dict_wf. apply _. Defined.

Lemma dmap_lookup {V W} (f : V → W) (d : pydict V) k : dmap f d !! k = f <$> d !! k.
Proof.
  unfold lookup, pydict_lookup, dmap. cbn. induction (items d) as [|[i v] l IH]; [done|]. cbn. by destruct (String.eqb k i).
Qed.

(** [INSERT OR REPLACE]: delete the row of that key, append the new one. *)
Definition tbl_replace {V} (k : string) (v : V) (d : pydict V) : pydict V :=
  PyDict (assoc_del k (items d) ++ [(k, v)]).

(** [UPDATE t SET ... WHERE key = k]: nothing happens without a row. *)
Definition tbl_update {V} (k : string) (f : V → V) (d : pydict V) : pydict V :=
  PyDict ((λ p, if String.eqb p.1 k then (p.1, f p.2) else p) <$> items d).

(** [ORDER BY key ASC]: a stable insertion sort on an integer column. *)
Fixpoint insert_by {A} (key : A → Z) (x : A) (l : list A) : list A :=
  match l with
  | [] => [x]
  | y :: l' => if key x <? key y then x :: l else y :: insert_by key x l'
  end.
Definition order_by {A} (key : A → Z) (l : list A) : list A :=
  foldl (λ acc x, insert_by key x acc) [] l.

Section dict.
Context {V : Type}.
Implicit Types (d : pydict V) (k : string) (v : V).

Lemma dict_lookup_empty k : (∅ : pydict V) !! k = None.
Proof. done. Qed.

Lemma assoc_get_set k v l : assoc_get k (assoc_set k v l) = Some v.
Proof.
  induction l as [|[k' v'] l IH]; simpl; [by rewrite String.eqb_refl|].
  destruct (String.eqb_spec k k'); simpl; [by rewrite String.eqb_refl|].
  by rewrite (proj2 (String.eqb_neq _ _)).
Qed.
Lemma assoc_get_set_ne k k' v l : k ≠ k' → assoc_get k' (assoc_set k v l) = assoc_get k' l.
Proof.
  intros Hk. induction l as [|[j w] l IH]; simpl.
  - by rewrite (proj2 (String.eqb_neq _ _)).
  - destruct (String.eqb_spec k j) as [->|]; simpl.
    + by rewrite (proj2 (String.eqb_neq k' j)).
    + by rewrite IH.
Qed.
Lemma assoc_get_del k (l : list (string * V)) : assoc_get k (assoc_del k l) = None.
Proof.
  induction l as [|[k' v'] l IH]; [done|]. unfold assoc_del in *. rewrite filter_cons. simpl.
  case_decide; [|done]. simpl. by rewrite (proj2 (String.eqb_neq k k')).
Qed.
Lemma assoc_get_del_ne k k' (l : list (string * V)) :
  k ≠ k' → assoc_get k' (assoc_del k l) = assoc_get k' l.
Proof.
  intros Hk. induction l as [|[j w] l IH]; [done|]. unfold assoc_del in *.
  rewrite filter_cons. simpl. case_decide; simpl; [by rewrite IH|].
  assert (j = k) as -> by (destruct (decide (j = k)); tauto).
  by rewrite (proj2 (String.eqb_neq k' k)).
Qed.

Lemma dict_lookup_insert_eq d k v : (<[k:=v]> d) !! k = Some v.
Proof. apply assoc_get_set. Qed.
Lemma dict_lookup_insert_ne d k k' v : k ≠ k' → (<[k:=v]> d) !! k' = d !! k'.
Proof. apply assoc_get_set_ne. Qed.
Lemma dict_lookup_delete_eq d k : delete k d !! k = None.
Proof. apply assoc_get_del. Qed.
Lemma dict_lookup_delete_ne d k k' : k ≠ k' → delete k d !! k' = d !! k'.
Proof. apply assoc_get_del_ne. Qed.

Lemma assoc_get_app k (l1 l2 : list (string * V)) :
  assoc_get k (l1 ++ l2) = match assoc_get k l1 with Some v => Some v | None => assoc_get k l2 end.
Proof. induction l1 as [|[j w] l IH]; [done|]. simpl. by destruct (String.eqb k j). Qed.

Lemma assoc_get_in k v (l : list (string * V)) : assoc_get k l = Some v → (k, v) ∈ l.
Proof.
  induction l as [|[j w] l IH]; [done|]. simpl. destruct (String.eqb_spec k j) as [->|].
  - intros [= ->]. apply list_elem_of_here.
  - intros H. by apply list_elem_of_further, IH.
Qed.
Lemma in_assoc_get k v (l : list (string * V)) :
  NoDup l.*1 → (k, v) ∈ l → assoc_get k l = Some v.
Proof.
  induction l as [|[j w] l IH]; simpl; [by intros _ ?%not_elem_of_nil|].
  intros [Hj Hnd]%NoDup_cons [Heq|Hin]%elem_of_cons.
  - injection Heq as -> ->. by rewrite String.eqb_refl.
  - destruct (String.eqb_spec k j) as [->|]; [|by apply IH].
    destruct Hj. by apply (list_elem_of_fmap_2 fst l (j, v)).
Qed.

Lemma tbl_lookup_replace_eq d k v : tbl_replace k v d !! k = Some v.
Proof.
  unfold lookup, pydict_lookup, tbl_replace; simpl. rewrite assoc_get_app, assoc_get_del.
  simpl. by rewrite String.eqb_refl.
Qed.
Lemma tbl_lookup_replace_ne d k k' v : k ≠ k' → tbl_replace k v d !! k' = d !! k'.
Proof.
  intros Hk. unfold lookup, pydict_lookup, tbl_replace; simpl.
  rewrite assoc_get_app, assoc_get_del_ne by done. destruct (assoc_get k' (items d)); [done|].
  simpl. by rewrite (proj2 (String.eqb_neq k' k)).
Qed.
Lemma tbl_lookup_update_eq d k f : tbl_update k f d !! k = f <$> d !! k.
Proof.
  unfold lookup, pydict_lookup, tbl_update; simpl.
  induction (items d) as [|[j w] l IH]; [done|]. simpl.
  destruct (String.eqb_spec j k) as [->|]; simpl; [by rewrite String.eqb_refl|].
  rewrite (proj2 (String.eqb_neq k j)) by done. exact IH.
Qed.
Lemma tbl_lookup_update_ne d k k' f : k ≠ k' → tbl_update k f d !! k' = d !! k'.
Proof.
  intros Hk. unfold lookup, pydict_lookup, tbl_update; simpl.
  induction (items d) as [|[j w] l IH]; [done|]. simpl.
  destruct (String.eqb_spec j k) as [->|]; simpl.
  - by rewrite (proj2 (String.eqb_neq k' k)).
  - destruct (String.eqb k' j); [done|exact IH].
Qed.
End dict.

Section dict_more.
Context {V : Type}.
Implicit Types (d : pydict V) (k : string) (v : V).

(** *** Well-formedness is preserved by every operation. *)

Lemma assoc_set_keys k v (l : list (string * V)) :
  (assoc_set k v l).*1 = l.*1 ∨ (assoc_set k v l).*1 = l.*1 ++ [k] ∧ assoc_get k l = None.
Proof.
  induction l as [|[j w] l IH]; simpl; [by right|].
  destruct (String.eqb_spec k j) as [->|]; simpl; [by left|].
  destruct IH as [IH|[IH Hk]]; [left; by f_equal|].
  right. split; [by f_equal|done].
Qed.

Lemma assoc_get_none k (l : list (string * V)) : assoc_get k l = None ↔ k ∉ l.*1.
Proof.
  induction l as [|[j w] l IH]; simpl; [split; [intros _; apply not_elem_of_nil|done]|].
  rewrite not_elem_of_cons. destruct (String.eqb_spec k j) as [->|].
  - split; [done|]. by intros [? _].
  - rewrite IH. tauto.
Qed.

Lemma dict_empty_wf : dict_wf (∅ : pydict V).
Proof. constructor. Qed.

Lemma dict_insert_wf d k v : dict_wf d → dict_wf (<[k:=v]> d).
Proof.
  unfold dict_wf, dkeys. simpl. intros Hd.
  destruct (assoc_set_keys k v (items d)) as [->|[-> Hk]]; [done|].
  apply NoDup_app. split; [done|]. split; [|apply NoDup_singleton].
  intros x Hx ->%list_elem_of_singleton. by apply assoc_get_none in Hk.
Qed.

Lemma filter_keys_sublist (P : string * V → Prop) `{∀ x, Decision (P x)} (l : list (string * V)) :
  sublist (filter P l).*1 l.*1.
Proof. apply fmap_sublist, sublist_filter. Qed.

Lemma dict_delete_wf d k : dict_wf d → dict_wf (delete k d).
Proof. unfold dict_wf, dkeys. simpl. intros Hd. eapply sublist_NoDup; [done|]. apply filter_keys_sublist. Qed.

Lemma dict_filter_wf f d : dict_wf d → dict_wf (dfilter f d).
Proof. unfold dict_wf, dkeys. simpl. intros Hd. eapply sublist_NoDup; [done|]. apply filter_keys_sublist. Qed.

Lemma tbl_replace_wf d k v : dict_wf d → dict_wf (tbl_replace k v d).
Proof.
  unfold dict_wf, dkeys. simpl. intros Hd. rewrite fmap_app. simpl.
  apply NoDup_app. split; [|split; [|apply NoDup_singleton]].
  - eapply sublist_NoDup; [done|]. apply filter_keys_sublist.
  - intros x Hx ->%list_elem_of_singleton.
    pose proof (assoc_get_del k (items d)) as Hk. by apply assoc_get_none in Hk.
Qed.

Lemma tbl_update_keys d k f : dkeys (tbl_update k f d) = dkeys d.
Proof.
  unfold dkeys, tbl_update. simpl. rewrite <- list_fmap_compose.
  apply list_fmap_ext. intros i [j w] _. simpl. by destruct (String.eqb j k).
Qed.
Lemma tbl_update_wf d k f : dict_wf d → dict_wf (tbl_update k f d).
Proof. unfold dict_wf. by rewrite tbl_update_keys. Qed.

(** *** The finite map a dictionary implements *)

Definition dict_map d : gmap string V := list_to_map (items d).

Lemma dict_map_lookup d k : dict_map d !! k = d !! k.
Proof.
  unfold dict_map, lookup at 2, pydict_lookup.
  induction (items d) as [|[j w] l IH]; simpl; [done|].
  destruct (String.eqb_spec k j) as [->|]; [apply lookup_insert_eq|].
  by rewrite lookup_insert_ne.
Qed.
Lemma dict_map_insert d k v : dict_map (<[k:=v]> d) = <[k:=v]> (dict_map d).
Proof.
  apply map_eq. intros j. rewrite dict_map_lookup. destruct (decide (k = j)) as [->|].
  - by rewrite dict_lookup_insert_eq, lookup_insert_eq.
  - by rewrite dict_lookup_insert_ne, lookup_insert_ne, dict_map_lookup.
Qed.
Lemma dict_map_delete d k : dict_map (delete k d) = delete k (dict_map d).
Proof.
  apply map_eq. intros j. rewrite dict_map_lookup. destruct (decide (k = j)) as [->|].
  - by rewrite dict_lookup_delete_eq, lookup_delete_eq.
  - by rewrite dict_lookup_delete_ne, lookup_delete_ne, dict_map_lookup.
Qed.
Lemma tbl_map_replace d k v : dict_map (tbl_replace k v d) = <[k:=v]> (dict_map d).
Proof.
  apply map_eq. intros j. rewrite dict_map_lookup. destruct (decide (k = j)) as [->|].
  - by rewrite tbl_lookup_replace_eq, lookup_insert_eq.
  - by rewrite tbl_lookup_replace_ne, lookup_insert_ne, dict_map_lookup.
Qed.

Lemma dict_items_lookup d k v : dict_wf d → (k, v) ∈ items d ↔ d !! k = Some v.
Proof. intros Hd. split; [by apply in_assoc_get|apply assoc_get_in]. Qed.

Lemma dict_values_elem d v : dict_wf d → v ∈ dvalues d ↔ ∃ k, d !! k = Some v.
Proof.
  intros Hd. unfold dvalues. rewrite list_elem_of_fmap. split.
  - intros ([k w] & -> & Hin). exists k. by apply dict_items_lookup.
  - intros [k Hk]. exists (k, v). split; [done|]. by apply dict_items_lookup.
Qed.

Lemma dict_filter_lookup f d k :
  dict_wf d → dfilter f d !! k = match d !! k with
                                 | Some v => if f k v then Some v else None
                                 | None => None
                                 end.
Proof.
  intros Hd. destruct (dfilter f d !! k) as [v|] eqn:E.
  - apply dict_items_lookup in E; [|by apply dict_filter_wf].
    apply list_elem_of_filter in E as [Hf Hin]. simpl in Hf.
    apply dict_items_lookup in Hin; [|done]. by rewrite Hin, Hf.
  - destruct (d !! k) as [v|] eqn:Hk; [|done]. destruct (f k v) eqn:Hf; [|done].
    exfalso. apply dict_items_lookup in Hk; [|done].
    assert ((k, v) ∈ items (dfilter f d)) as Hin by (by apply list_elem_of_filter).
    apply dict_items_lookup in Hin; [|by apply dict_filter_wf]. congruence.
Qed.
End dict_more.

Lemma dict_insert_id {V} (d : pydict V) k v : d !! k = Some v → <[k := v]> d = d.
Proof.
  destruct d as [l]. unfold lookup, pydict_lookup, insert, pydict_insert. simpl. intros H. f_equal.
  revert H. induction l as [|[j w] l IH]; simpl; [done|].
  destruct (String.eqb_spec k j) as [->|]; [by intros [= ->]|]. intros H. by rewrite IH.
Qed.

Lemma dict_delete_none {V} (d : pydict V) k : d !! k = None → delete k d = d.
Proof.
  destruct d as [l]. unfold lookup, pydict_lookup, delete, pydict_delete, assoc_del. simpl. intros H. f_equal.
  revert H. induction l as [|[j w] l IH]; simpl; [done|]. destruct (String.eqb_spec k j) as [->|Hne]; [done|].
  intros H. rewrite filter_cons, decide_True by (simpl; congruence). by rewrite IH.
Qed.

Lemma dict_delete_insert {V} (d : pydict V) k v : delete k (<[k := v]> d) = delete k d.
Proof.
  destruct d as [l]. unfold delete, pydict_delete, insert, pydict_insert, assoc_del. simpl. f_equal.
  induction l as [|[j w] l IH]; simpl; rewrite !filter_cons; simpl.
  { rewrite decide_False by tauto. done. }
  destruct (String.eqb_spec k j) as [->|Hne]; rewrite !filter_cons; simpl.
  - by rewrite !(decide_False (P:=j ≠ j)) by tauto.
  - rewrite !decide_True by congruence. by rewrite IH.
Qed.

Create HintDb dict.
#[export] Hint Resolve dict_empty_wf dict_insert_wf dict_delete_wf dict_filter_wf
  tbl_replace_wf tbl_update_wf : dict.

(** Two dictionaries with the same lookups are interchangeable wherever the
    order of the keys is not observed. *)
#[global] Instance pydict_equiv V : Equiv (pydict V) := λ d1 d2, ∀ k, d1 !! k = d2 !! k.
#[global] Instance pydict_equivalence V : Equivalence (≡@{pydict V}).
Proof.
  split; [by intros d k|by intros d1 d2 H k|intros d1 d2 d3 H1 H2 k; by rewrite H1].
Qed.
#[global] Instance dict_insert_proper V k (v : V) : Proper ((≡) ==> (≡)) (<[k:=v]> : pydict V → _).
Proof.
  intros d1 d2 H j. destruct (decide (k = j)) as [->|].
  - by rewrite !dict_lookup_insert_eq.
  - by rewrite !dict_lookup_insert_ne.
Qed.
#[global] Instance dict_delete_proper V k : Proper ((≡) ==> (≡)) (delete k : pydict V → _).
Proof.
  intros d1 d2 H j. destruct (decide (k = j)) as [->|].
  - by rewrite !dict_lookup_delete_eq.
  - by rewrite !dict_lookup_delete_ne.
Qed.
#[global] Instance dict_mem_proper V k : Proper ((≡) ==> (=)) (dmem (V:=V) k).
Proof. intros d1 d2 H. unfold dmem. by rewrite (H k). Qed.

(** A dictionary written out is well formed by evaluation. *)
Ltac dict_wf_eval := unfold dict_wf; apply (bool_decide_eq_true_1 _); vm_compute; reflexivity.

#[global] Arguments lookup {_ _ _ _} _ _ : simpl never.

(** Lookups of updated dictionaries, one rewriting step at a time. *)
Ltac dict_simp :=
  repeat first
    [ rewrite dict_lookup_insert_eq
    | rewrite dict_lookup_insert_ne by congruence
    | rewrite dict_lookup_delete_eq
    | rewrite dict_lookup_delete_ne by congruence
    | rewrite tbl_lookup_replace_eq
    | rewrite tbl_lookup_replace_ne by congruence
    | rewrite tbl_lookup_update_eq
    | rewrite tbl_lookup_update_ne by congruence ].

Lemma dmem_true {V} k (d : pydict V) : dmem k d = true ↔ ∃ v, d !! k = Some v.
Proof. unfold dmem. rewrite bool_decide_eq_true. done. Qed.
Lemma dmem_false {V} k (d : pydict V) : dmem k d = false ↔ d !! k = None.
Proof. unfold dmem. rewrite bool_decide_eq_false, <- eq_None_not_Some. done. Qed.

(** [len(d)] after [d[k] = v]. *)
Lemma dlen_insert_new {V} k (v : V) d : d !! k = None → dlen (<[k:=v]> d) = dlen d + 1.
Proof.
  unfold dlen. unfold lookup, pydict_lookup. simpl. intros Hk.
  enough (length (assoc_set k v (items d)) = S (length (items d))) as -> by lia.
  revert Hk. induction (items d) as [|[j w] l IH]; simpl; [done|].
  destruct (String.eqb k j); [done|]. intros. simpl. by rewrite IH.
Qed.
Lemma dlen_insert_old {V} k (v : V) d : is_Some (d !! k) → dlen (<[k:=v]> d) = dlen d.
Proof.
  unfold dlen. unfold lookup, pydict_lookup. simpl. intros Hk.
  enough (length (assoc_set k v (items d)) = length (items d)) as -> by lia.
  revert Hk. induction (items d) as [|[j w] l IH]; simpl; [by intros [? ?]|].
  destruct (String.eqb k j); [done|]. intros. simpl. by rewrite IH.
Qed.

(** ** A SQLite connection

    One call opens a connection, runs its statements and commits.  It either
    happens as a whole or raises and leaves the table as it was (SQLite's
    transactions); which calls raise is decided by the environment, so a
    database carries the outcomes still to come ([None]: the call succeeds;
    an exhausted list: every further call succeeds). *)
Record dbase (R : Type) := DBase { db_rows : pydict R; db_faults : list (option pyexn) }.
Arguments DBase {R} db_rows db_faults.
Arguments db_rows {R} d : rename.
Arguments db_faults {R} d : rename.

Definition db_run {R A} (f : pydict R → A * pydict R) : ST (dbase R) A := λ d,
  match db_faults d with
  | Some e :: fs => (Raise e, DBase (db_rows d) fs)
  | None :: fs => let '(a, r) := f (db_rows d) in (Ok a, DBase r fs)
  | [] => let '(a, r) := f (db_rows d) in (Ok a, DBase r [])
  end.

(** The two outcomes of a call. *)
Lemma db_run_inv {R A} (f : pydict R → A * pydict R) d :
  (∃ e, (db_run f d).1 = Raise e ∧ db_rows (db_run f d).2 = db_rows d) ∨
  ((db_run f d).1 = Ok (f (db_rows d)).1 ∧ db_rows (db_run f d).2 = (f (db_rows d)).2).
Proof.
  unfold db_run. destruct (db_faults d) as [|[e|] fs].
  - right. by destruct (f (db_rows d)).
  - left. by exists e.
  - right. by destruct (f (db_rows d)).
Qed.

Lemma db_run_quiet {R A} (f : pydict R → A * pydict R) d :
  db_faults d = [] →
  db_run f d = (Ok (f (db_rows d)).1, DBase (f (db_rows d)).2 []).
Proof. intros H. unfold db_run. rewrite H. by destruct (f (db_rows d)). Qed.

(** ** [ORDER BY] *)

Lemma insert_by_perm {A} (key : A → Z) x l : insert_by key x l ≡ₚ x :: l.
Proof.
  induction l as [|y l IH]; simpl; [done|]. destruct (key x <? key y); [done|].
  rewrite IH. apply Permutation_swap.
Qed.

Lemma order_by_perm {A} (key : A → Z) l : order_by key l ≡ₚ l.
Proof.
  unfold order_by. enough (∀ acc, foldl (λ acc x, insert_by key x acc) acc l ≡ₚ acc ++ l) as H.
  { by rewrite H. }
  induction l as [|x l IH]; intros acc; simpl; [by rewrite app_nil_r|].
  rewrite IH, insert_by_perm. simpl. by rewrite Permutation_middle.
Qed.

Definition sorted_by {A} (key : A → Z) : list A → Prop := StronglySorted (λ x y, key x ≤ key y).

Lemma insert_by_sorted {A} (key : A → Z) x l : sorted_by key l → sorted_by key (insert_by key x l).
Proof.
  unfold sorted_by. induction 1 as [|y l Hl IH Hy]; simpl; [repeat constructor|].
  destruct (Z.ltb_spec (key x) (key y)).
  - constructor; [by constructor|]. constructor; [lia|].
    eapply Forall_impl; [done|]. simpl. lia.
  - constructor; [done|]. rewrite (insert_by_perm key x l). constructor; [lia|done].
Qed.

Lemma order_by_sorted {A} (key : A → Z) l : sorted_by key (order_by key l).
Proof.
  unfold order_by. enough (∀ acc, sorted_by key acc →
    sorted_by key (foldl (λ acc x, insert_by key x acc) acc l)) as H by (apply H; constructor).
  induction l as [|x l IH]; intros acc Hacc; simpl; [done|]. by apply IH, insert_by_sorted.
Qed.
