(* ===== verification/Broker.v ===== *)
(** * The broker as the core sees it

    The order-handling code reaches a broker through an adapter object whose
    methods it calls, some of them only after [hasattr].  The adapter is
    outside the model: a [BrokerPort] gives, for a broker state [B], what
    each method does ([None] when the adapter has no such method), and the
    theorems hold for every instance.  [scripted] is a concrete broker that
    answers from a script and records the calls it gets. *)
From S2P Require Import Prelude PyStr Float64 PyDict.

Class BrokerPort (B : Type) := {
  (** [get_order_status(id)]: a status word, or [None] *)
  broker_get_order_status : option (string → ST B (option string));
  (** [cancel_order(id)] *)
  broker_cancel_order : option (string → ST B bool)
}.

(** The calls a scripted broker has received. *)
Inductive broker_call :=
| CallStatus (id : string)
| CallCancel (id : string)
| CallPlace (symbol : string) (qty : Z).

#[global] Instance broker_call_eq_dec : EqDecision broker_call.
Proof. solve_decision. Defined.

Record scripted := Scripted {
  sb_status : list (res (option string));
  sb_cancel : list (res bool);
  sb_calls : list broker_call
}.

(** The next answer of a script; an exhausted script gives the default. *)
Definition next_answer {A} (d : A) (l : list (res A)) : res A * list (res A) :=
  match l with [] => (Ok d, []) | r :: l' => (r, l') end.

#[global] Instance scripted_port : BrokerPort scripted := {|
  broker_get_order_status := Some (λ id b,
    let '(r, l) := next_answer None (sb_status b) in
    (r, Scripted l (sb_cancel b) (sb_calls b ++ [CallStatus id])));
  broker_cancel_order := Some (λ id b,
    let '(r, l) := next_answer false (sb_cancel b) in
    (r, Scripted (sb_status b) l (sb_calls b ++ [CallCancel id])))
|}.
