(* ===== verification/DurableStore.v ===== *)
(** * The durable execution store

    [core/execution/durable_state.py]: the table [execution_state] that keeps
    one row per intent across restarts, and the reconciliation of its open
    rows with the broker. *)
From S2P Require Import Prelude PyStr Float64 PyDict Broker.

(** ** Data *)

(** [ExecutionState(str, Enum)] of [durable_state.py] *)
Inductive dstate :=
| DPENDING | DSUBMITTED | DPARTIALLY_FILLED | DFILLED | DCANCELLED | DREJECTED
| DFAILED | DUNKNOWN.

#[global] Instance dstate_eq_dec : EqDecision dstate.
Proof. solve_decision. Defined.

(** The members in declaration order. *)
Definition dstate_all : list dstate :=
  [DPENDING; DSUBMITTED; DPARTIALLY_FILLED; DFILLED; DCANCELLED; DREJECTED; DFAILED; DUNKNOWN].

Definition dstate_value (s : dstate) : string :=
  match s with
  | DPENDING => "PENDING" | DSUBMITTED => "SUBMITTED"
  | DPARTIALLY_FILLED => "PARTIALLY_FILLED" | DFILLED => "FILLED"
  | DCANCELLED => "CANCELLED" | DREJECTED => "REJECTED" | DFAILED => "FAILED"
  | DUNKNOWN => "UNKNOWN"
  end.

(** [ExecutionState(text)]: [ValueError] when no member has that value. *)
Definition dstate_of_value (s : string) : res dstate :=
  match list_find (λ d, dstate_value d = s) dstate_all with
  | Some (_, d) => Ok d
  | None => Raise (PyExn ValueError (String.append s " is not a valid ExecutionState"))
  end.

(** [_TERMINAL_STATES] *)
Definition terminal_states : list dstate := [DFILLED; DCANCELLED; DREJECTED; DFAILED].

(** [DurableExecutionRecord] *)
Record drecord := DRecord {
  r_intent_id : string;
  r_client_order_id : string;
  r_symbol : string;
  r_direction : string;
  r_quantity : Z;
  r_strike_price : float64;
  r_state : dstate;
  r_broker_order_id : option string;
  r_filled_quantity : Z;
  r_average_price : float64;
  r_reject_reason : option string;
  r_created_at : Z;
  r_updated_at : Z;
  r_retry_count : Z
}.

(** A row of [execution_state]: the columns of the record, the state as its
    text; the instants are ISO texts of one width, which SQLite compares in
    the order of the instants. *)
Record drow := DRow {
  c_client_order_id : string;
  c_symbol : string;
  c_direction : string;
  c_quantity : Z;
  c_strike_price : float64;
  c_state : string;
  c_broker_order_id : option string;
  c_filled_quantity : Z;
  c_average_price : float64;
  c_reject_reason : option string;
  c_created_at : Z;
  c_updated_at : Z;
  c_retry_count : Z
}.

(** The store: the table behind its connection, and the wall clock. *)
Record estore := EStore { es_clk : clock; es_db : dbase drow }.

#[global] Instance estore_clock : HasClock estore :=
  {| clock_of := es_clk; set_clock := λ c w, EStore c (es_db w) |}.

Definition es_run {A} (f : pydict drow → A * pydict drow) : ST estore A :=
  st_zoom es_db (λ d w, EStore (es_clk w) d) (db_run f).

(** The exceptions every method catches. *)
Definition store_errors : list exn_class := [DatabaseError; SqliteError; OSError].

(** ** Operations *)

Definition record_row (r : drecord) : drow :=
  {| c_client_order_id := r_client_order_id r; c_symbol := r_symbol r;
     c_direction := r_direction r; c_quantity := r_quantity r;
     c_strike_price := r_strike_price r; c_state := dstate_value (r_state r);
     c_broker_order_id := r_broker_order_id r;
     c_filled_quantity := r_filled_quantity r;
     c_average_price := r_average_price r; c_reject_reason := r_reject_reason r;
     c_created_at := r_created_at r; c_updated_at := r_updated_at r;
     c_retry_count := r_retry_count r |}.

(** [_row_to_record] *)
Definition row_to_record (intent_id : string) (row : drow) : res drecord :=
  match dstate_of_value (c_state row) with
  | Ok st =>
      Ok {| r_intent_id := intent_id; r_client_order_id := c_client_order_id row;
            r_symbol := c_symbol row; r_direction := c_direction row;
            r_quantity := c_quantity row; r_strike_price := c_strike_price row;
            r_state := st; r_broker_order_id := c_broker_order_id row;
            r_filled_quantity := c_filled_quantity row;
            r_average_price := c_average_price row;
            r_reject_reason := c_reject_reason row;
            r_created_at := c_created_at row; r_updated_at := c_updated_at row;
            r_retry_count := c_retry_count row |}
  | Raise e => Raise e
  end.

(** [save_execution] *)
Definition save_execution (record : drecord) : ST estore bool :=
  st_try
    (es_run (λ t, ((), tbl_replace (r_intent_id record) (record_row record) t)) ;;
     mret true)
    store_errors
    (λ _, mret false).

(** [get_execution] *)
Definition get_execution (intent_id : string) : ST estore (option drecord) :=
  st_try
    (row ← es_run (λ t, (t !! intent_id, t));
     match row with
     | Some row => r ← st_lift (row_to_record intent_id row); mret (Some r)
     | None => mret None
     end)
    store_errors
    (λ _, mret None).

(** [[_row_to_record(row) for row in rows]] *)
Fixpoint rows_to_records (rows : list (string * drow)) : res (list drecord) :=
  match rows with
  | [] => Ok []
  | (k, row) :: rows' =>
      match row_to_record k row with
      | Ok r => match rows_to_records rows' with
                | Ok rs => Ok (r :: rs)
                | Raise e => Raise e
                end
      | Raise e => Raise e
      end
  end.

(** [WHERE state NOT IN (terminal) ORDER BY updated_at ASC] *)
Definition select_open (t : pydict drow) : list (string * drow) :=
  order_by (λ p, c_updated_at p.2)
    (filter (λ p, str_mem (c_state p.2) (dstate_value <$> terminal_states) = false) (items t)).

(** [get_non_terminal_executions] *)
Definition get_non_terminal_executions : ST estore (list drecord) :=
  st_try
    (rows ← es_run (λ t, (select_open t, t));
     st_lift (rows_to_records rows))
    store_errors
    (λ _, mret []).

(** [is_duplicate] *)
Definition is_duplicate (intent_id : string) : ST estore bool :=
  r ← get_execution intent_id;
  mret match r with
       | None => false
       | Some r => negb (bool_decide (r_state r ∈ terminal_states))
       end.

(** The row [update_state] writes: the state and the instant always, the
    other columns only when the argument is given (a string) or positive. *)
Definition update_row (state : dstate) (now : Z) (broker_order_id : option string)
    (filled_quantity : Z) (average_price : float64) (reject_reason : option string)
    (row : drow) : drow :=
  {| c_client_order_id := c_client_order_id row; c_symbol := c_symbol row;
     c_direction := c_direction row; c_quantity := c_quantity row;
     c_strike_price := c_strike_price row; c_state := dstate_value state;
     c_broker_order_id :=
       match broker_order_id with Some b => Some b | None => c_broker_order_id row end;
     c_filled_quantity := if 0 <? filled_quantity then filled_quantity else c_filled_quantity row;
     c_average_price := if fgt average_price f_zero then average_price else c_average_price row;
     c_reject_reason :=
       match reject_reason with Some b => Some b | None => c_reject_reason row end;
     c_created_at := c_created_at row; c_updated_at := now;
     c_retry_count := c_retry_count row |}.

(** [update_state] *)
Definition update_state (intent_id : string) (state : dstate)
    (broker_order_id : option string) (filled_quantity : Z) (average_price : float64)
    (reject_reason : option string) : ST estore bool :=
  st_try
    (now ← now_ist;
     es_run (λ t, ((), tbl_update intent_id
                         (update_row state now broker_order_id filled_quantity
                            average_price reject_reason) t)) ;;
     mret true)
    (store_errors ++ [ValueError])
    (λ _, mret false).

Definition incr_row (now : Z) (row : drow) : drow :=
  {| c_client_order_id := c_client_order_id row; c_symbol := c_symbol row;
     c_direction := c_direction row; c_quantity := c_quantity row;
     c_strike_price := c_strike_price row; c_state := c_state row;
     c_broker_order_id := c_broker_order_id row;
     c_filled_quantity := c_filled_quantity row;
     c_average_price := c_average_price row; c_reject_reason := c_reject_reason row;
     c_created_at := c_created_at row; c_updated_at := now;
     c_retry_count := c_retry_count row + 1 |}.

(** [increment_retry]: the update and the read back, each a call that may
    raise; the row count tells whether the row exists. *)
Definition increment_retry (intent_id : string) : ST estore Z :=
  st_try
    (now ← now_ist;
     n ← es_run (λ t, (dmem intent_id t, tbl_update intent_id (incr_row now) t));
     if n : bool then
       r ← es_run (λ t, (t !! intent_id, t));
       mret match r with Some row => c_retry_count row | None => 0 end
     else mret 0)
    store_errors
    (λ _, mret 0).

(** [clear_in_flight] *)
Definition clear_in_flight (intent_id : string) : ST estore bool :=
  update_state intent_id DFAILED None 0 f_zero (Some "Cleared for retry").

(** [cleanup_old_records] *)
Definition is_old_terminal (cutoff : Z) (row : drow) : bool :=
  str_mem (c_state row) (dstate_value <$> terminal_states) && (c_updated_at row <? cutoff).

Definition cleanup_old_records (hours : Z) : ST estore Z :=
  st_try
    (now ← now_ist;
     let cutoff := now - hours * usec_per_hour in
     es_run (λ t, let t' := dfilter (λ _ row, negb (is_old_terminal cutoff row)) t in
                  (dlen t - dlen t', t')))
    store_errors
    (λ _, mret 0).

(** [get_stats]: the number of rows in each state. *)
Definition count_state (s : dstate) (t : pydict drow) : Z :=
  Z.of_nat (length (filter (λ row, c_state row = dstate_value s) (dvalues t))).

Fixpoint stats_of (ss : list dstate) (acc : pydict Z) : ST estore (pydict Z) :=
  match ss with
  | [] => mret acc
  | s :: ss' =>
      n ← es_run (λ t, (count_state s t, t));
      stats_of ss' (<[dstate_value s := n]> acc)
  end.

Definition get_stats : ST estore (pydict Z) :=
  st_try (stats_of dstate_all ∅) store_errors (λ _, mret ∅).

(** ** Reconciliation with the broker *)

(** The counters of [reconcile_with_broker]'s result. *)
Record recon_result := ReconResult {
  n_checked : Z; n_filled : Z; n_still_pending : Z; n_unknown : Z; n_repaired : Z }.

Definition inc_filled r := ReconResult (n_checked r) (n_filled r + 1) (n_still_pending r) (n_unknown r) (n_repaired r).
Definition inc_pending r := ReconResult (n_checked r) (n_filled r) (n_still_pending r + 1) (n_unknown r) (n_repaired r).
Definition inc_unknown r := ReconResult (n_checked r) (n_filled r) (n_still_pending r) (n_unknown r + 1) (n_repaired r).
Definition inc_repaired r := ReconResult (n_checked r) (n_filled r) (n_still_pending r) (n_unknown r) (n_repaired r + 1).

Section reconcile.
Context {B : Type} `{!BrokerPort B}.

Definition on_store {A} (m : ST estore A) : ST (estore * B) A :=
  st_zoom fst (λ s w, (s, w.2)) m.
Definition on_broker {A} (m : ST B A) : ST (estore * B) A :=
  st_zoom snd (λ b w, (w.1, b)) m.

(** The body of the loop over the open records. *)
Definition reconcile_one (record : drecord) (results : recon_result) :
    ST (estore * B) recon_result :=
  match r_broker_order_id record with
  | Some bid =>
      if truthy_str bid then
        st_try
          (match broker_get_order_status with
           | Some get_order_status =>
               broker_status ← on_broker (get_order_status bid);
               match broker_status with
               | Some s =>
                   if str_mem s ["FILLED"; "COMPLETE"] then
                     on_store (update_state (r_intent_id record) DFILLED None
                                 (r_quantity record) f_zero None) ;;
                     mret (inc_filled results)
                   else if str_mem s ["CANCELLED"; "REJECTED"] then
                     st ← st_lift (dstate_of_value s);
                     on_store (update_state (r_intent_id record) st None 0 f_zero None) ;;
                     mret (inc_repaired results)
                   else mret results
               | None => mret results
               end
           | None => mret results
           end)
          (store_errors ++ [ConnectionError])
          (λ _, mret (inc_unknown results))
      else mret (inc_pending results)
  | None => mret (inc_pending results)
  end.

Fixpoint reconcile_loop (records : list drecord) (results : recon_result) :
    ST (estore * B) recon_result :=
  match records with
  | [] => mret results
  | r :: rs => results' ← reconcile_one r results; reconcile_loop rs results'
  end.

(** [reconcile_with_broker] *)
Definition reconcile_with_broker : ST (estore * B) recon_result :=
  non_terminal ← on_store get_non_terminal_executions;
  reconcile_loop non_terminal
    (ReconResult (Z.of_nat (length non_terminal)) 0 0 0 0).
End reconcile.

(** ** The invariant of the table

    No intent has two rows and every row holds the text of a member of the
    state enumeration, so no read raises [ValueError]. *)
Definition table_ok (t : pydict drow) : Prop :=
  dict_wf t ∧ ∀ k row, t !! k = Some row → ∃ s, c_state row = dstate_value s.

Definition store_ok (w : estore) : Prop := table_ok (db_rows (es_db w)).

Lemma dstate_of_value_value s : dstate_of_value (dstate_value s) = Ok s.
Proof. by destruct s. Qed.

Lemma dstate_of_value_ok t s : dstate_of_value t = Ok s → t = dstate_value s.
Proof.
  unfold dstate_of_value. destruct (list_find _ _) as [[i d]|] eqn:E; [|done].
  intros [= ->]. by apply list_find_Some in E as (_ & -> & _).
Qed.

Lemma table_ok_replace t k row s :
  table_ok t → c_state row = dstate_value s → table_ok (tbl_replace k row t).
Proof.
  intros [Hwf Ht] Hrow. split; [by apply tbl_replace_wf|].
  intros j r. destruct (decide (k = j)) as [->|]; dict_simp; [|apply Ht].
  intros [= <-]. eauto.
Qed.

Lemma table_ok_update t k f :
  table_ok t → (∀ row, (∃ s, c_state row = dstate_value s) → ∃ s, c_state (f row) = dstate_value s) →
  table_ok (tbl_update k f t).
Proof.
  intros [Hwf Ht] Hf. split; [by apply tbl_update_wf|].
  intros j r. destruct (decide (k = j)) as [->|]; dict_simp; [|apply Ht].
  intros (row & Hrow & ->)%fmap_Some. eauto.
Qed.

Lemma table_ok_filter t f : table_ok t → table_ok (dfilter f t).
Proof.
  intros [Hwf Ht]. split; [by apply dict_filter_wf|]. intros j r.
  rewrite dict_filter_lookup by done. destruct (t !! j) as [row|] eqn:Hj; [|done].
  destruct (f j row); [|done]. intros [= <-]. eauto.
Qed.

(** A call on the table: it raises and changes nothing, or it applies [f]. *)
Lemma es_run_inv {A} (f : pydict drow → A * pydict drow) w :
  es_clk (es_run f w).2 = es_clk w ∧
  ((∃ e, (es_run f w).1 = Raise e ∧ db_rows (es_db (es_run f w).2) = db_rows (es_db w)) ∨
   ((es_run f w).1 = Ok (f (db_rows (es_db w))).1 ∧
    db_rows (es_db (es_run f w).2) = (f (db_rows (es_db w))).2)).
Proof.
  unfold es_run, st_zoom. pose proof (db_run_inv f (es_db w)) as H.
  destruct (db_run f (es_db w)) as [r d]; simpl in *. split; [done|].
  destruct H as [(e & -> & ->)|[-> ->]]; [left; by exists e|by right].
Qed.

Lemma es_run_preserves {A} (f : pydict drow → A * pydict drow) :
  (∀ t, table_ok t → table_ok (f t).2) → preserves store_ok (es_run f).
Proof.
  intros Hf w. unfold store_ok. destruct (es_run_inv f w) as [_ [(e & _ & ->)|[_ ->]]]; auto.
Qed.

Lemma now_ist_store_ok : preserves store_ok now_ist.
Proof. intros w. unfold now_ist. by destruct (clk_read (clock_of w)). Qed.


#[export] Hint Resolve now_ist_store_ok es_run_preserves : st.

Ltac store_tac :=
  repeat first
    [ apply st_rel_ret; typeclasses eauto
    | apply st_lift_rel; typeclasses eauto
    | apply now_ist_store_ok
    | apply st_rel_bind; [typeclasses eauto| |intros ?]
    | apply st_rel_try; [typeclasses eauto| |intros ?]
    | apply es_run_preserves; intros ? ?; simpl
    | case_match
    | done ].

Lemma save_execution_ok r : preserves store_ok (save_execution r).
Proof.
  unfold save_execution, preserves. store_tac. by eapply table_ok_replace.
Qed.
Lemma get_execution_ok k : preserves store_ok (get_execution k).
Proof. unfold get_execution, preserves. store_tac. Qed.
Lemma get_non_terminal_ok : preserves store_ok get_non_terminal_executions.
Proof. unfold get_non_terminal_executions, preserves. store_tac. Qed.
Lemma update_state_ok k s b q p rr : preserves store_ok (update_state k s b q p rr).
Proof.
  unfold update_state, preserves. store_tac. apply table_ok_update; [done|]. eauto.
Qed.
Lemma increment_retry_ok k : preserves store_ok (increment_retry k).
Proof.
  unfold increment_retry, preserves. store_tac. apply table_ok_update; [done|]. eauto.
Qed.
Lemma cleanup_ok h : preserves store_ok (cleanup_old_records h).
Proof. unfold cleanup_old_records, preserves. store_tac. by apply table_ok_filter. Qed.
Lemma get_stats_ok : preserves store_ok get_stats.
Proof.
  unfold get_stats, preserves. store_tac.
Qed.
#[export] Hint Resolve save_execution_ok get_execution_ok get_non_terminal_ok update_state_ok
  increment_retry_ok cleanup_ok get_stats_ok : st.

(** *** Reads and writes of one intent *)

(** The connection answers every call. *)
Definition quiet (w : estore) : Prop := db_faults (es_db w) = [].

Lemma es_run_quiet {A} (f : pydict drow → A * pydict drow) w :
  quiet w →
  es_run f w = (Ok (f (db_rows (es_db w))).1, EStore (es_clk w) (DBase (f (db_rows (es_db w))).2 [])).
Proof. intros H. unfold es_run, st_zoom. by rewrite db_run_quiet. Qed.

Definition rows (w : estore) : pydict drow := db_rows (es_db w).

Lemma row_to_record_row r : row_to_record (r_intent_id r) (record_row r) = Ok r.
Proof. unfold row_to_record, record_row. simpl. rewrite dstate_of_value_value. by destruct r. Qed.

Lemma get_execution_quiet k w :
  quiet w →
  get_execution k w =
  (match rows w !! k with
   | Some row => match row_to_record k row with Ok r => Ok (Some r) | Raise e => Raise e end
   | None => Ok None
   end, w).
Proof.
  intros Hq. unfold get_execution, st_try, mbind, st_bind. rewrite es_run_quiet by done. simpl.
  assert (EStore (es_clk w) (DBase (db_rows (es_db w)) []) = w) as ->.
  { unfold quiet in Hq. destruct w as [c [rs fs]]. simpl in *. by subst. }
  unfold rows. destruct (db_rows (es_db w) !! k) as [row|]; simpl; [|done].
  unfold st_lift, row_to_record, dstate_of_value.
  by destruct (list_find _ dstate_all) as [[? ?]|].
Qed.

(** Under the invariant a read never raises, whatever the connection does. *)
Lemma row_to_record_ok k row : (∃ s, c_state row = dstate_value s) → ∃ r, row_to_record k row = Ok r.
Proof.
  intros [s Hs]. unfold row_to_record. rewrite Hs, dstate_of_value_value. eauto.
Qed.

Lemma rows_to_records_ok l :
  Forall (λ p : string * drow, ∃ s, c_state p.2 = dstate_value s) l →
  ∃ rs, rows_to_records l = Ok rs.
Proof.
  induction 1 as [|[k row] l Hrow _ [rs IH]]; [by exists []|]. simpl.
  destruct (row_to_record_ok k row Hrow) as [r ->]. rewrite IH. eauto.
Qed.

Lemma str_mem_terminal s :
  str_mem (dstate_value s) (dstate_value <$> terminal_states) = bool_decide (s ∈ terminal_states).
Proof. by destruct s. Qed.

Lemma select_open_elem t k row :
  dict_wf t →
  (k, row) ∈ select_open t ↔
  t !! k = Some row ∧ str_mem (c_state row) (dstate_value <$> terminal_states) = false.
Proof.
  intros Hwf. unfold select_open. rewrite order_by_perm, list_elem_of_filter. simpl.
  rewrite dict_items_lookup by done. tauto.
Qed.

Lemma rows_to_records_elem l rs r :
  rows_to_records l = Ok rs →
  r ∈ rs ↔ ∃ k row, (k, row) ∈ l ∧ row_to_record k row = Ok r.
Proof.
  revert rs. induction l as [|[k row] l IH]; intros rs; simpl.
  - intros [= <-]. split; [by intros H%not_elem_of_nil|]. by intros (k & row & H%not_elem_of_nil & _).
  - destruct (row_to_record k row) as [r0|] eqn:Hr; [|done].
    destruct (rows_to_records l) as [rs0|]; [|done]. intros [= <-].
    rewrite elem_of_cons, (IH rs0) by done. split.
    + intros [->|(j & w & Hin & Hw)]; [exists k, row|exists j, w]; by rewrite elem_of_cons; auto.
    + intros (j & w & [Heq|Hin]%elem_of_cons & Hw); [|eauto]. left. simplify_eq. congruence.
Qed.

Lemma get_non_terminal_quiet w :
  quiet w → get_non_terminal_executions w =
            (match rows_to_records (select_open (rows w)) with
             | Ok rs => Ok rs
             | Raise e => if catches store_errors e then Ok [] else Raise e
             end, w).
Proof.
  intros Hq. unfold get_non_terminal_executions, st_try, mbind, st_bind.
  rewrite es_run_quiet by done. simpl.
  assert (EStore (es_clk w) (DBase (db_rows (es_db w)) []) = w) as ->.
  { unfold quiet in Hq. destruct w as [c [rs fs]]. simpl in *. by subst. }
  unfold st_lift, rows. destruct (rows_to_records _) as [|e]; [done|].
  by case_match.
Qed.

Lemma row_to_record_inv k row r :
  row_to_record k row = Ok r →
  r_intent_id r = k ∧ c_state row = dstate_value (r_state r) ∧ r_updated_at r = c_updated_at row.
Proof.
  unfold row_to_record. destruct (dstate_of_value (c_state row)) as [s|] eqn:Hs; [|done].
  intros [= <-]. simpl. auto using dstate_of_value_ok.
Qed.

Lemma rows_to_records_sorted l rs :
  rows_to_records l = Ok rs →
  sorted_by (λ p : string * drow, c_updated_at p.2) l → sorted_by r_updated_at rs.
Proof.
  intros Hrs Hs. revert rs Hrs.
  induction Hs as [|[k row] l Hl IH Hle]; intros rs; simpl; [intros [= <-]; constructor|].
  destruct (row_to_record k row) as [r|] eqn:Hr; [|done].
  destruct (rows_to_records l) as [rs0|] eqn:Hl0; [|done]. intros [= <-].
  constructor; [by apply IH|]. apply Forall_forall. intros x Hx.
  apply (rows_to_records_elem _ _ _ Hl0) in Hx as (j & u & Hju & Hx).
  rewrite Forall_forall in Hle. specialize (Hle _ Hju). simpl in Hle.
  apply row_to_record_inv in Hr as (_ & _ & ->). by apply row_to_record_inv in Hx as (_ & _ & ->).
Qed.

Lemma select_open_readable w :
  store_ok w → ∃ rs, rows_to_records (select_open (rows w)) = Ok rs.
Proof.
  intros [Hwf Hst]. apply rows_to_records_ok, Forall_forall.
  intros [k row] Hin%select_open_elem; [|done]. simpl. by eapply Hst, Hin.
Qed.

(** What a restart loads: under the table's invariant and a database that
    answers, [get_non_terminal_executions] raises nothing, changes nothing
    and returns exactly the records that [get_execution] finds in a state
    outside the terminal ones, oldest update first. *)
Theorem open_executions_exact (w : estore) :
  store_ok w → quiet w →
  ∃ rs, get_non_terminal_executions w = (Ok rs, w) ∧
    (∀ r, r ∈ rs ↔ get_execution (r_intent_id r) w = (Ok (Some r), w) ∧
                   r_state r ∉ terminal_states) ∧
    sorted_by r_updated_at rs.
Proof.
  intros Hok Hq. destruct (select_open_readable w Hok) as [rs Hrs]. destruct Hok as [Hwf Hst].
  rewrite get_non_terminal_quiet, Hrs by done. exists rs. split; [done|]. split.
  - intros r. rewrite get_execution_quiet, (rows_to_records_elem _ _ _ Hrs) by done. split.
    + intros (k & row & [Hk Hopen]%select_open_elem & Hr); [|done].
      pose proof (row_to_record_inv _ _ _ Hr) as (-> & Hc & _).
      rewrite Hc, str_mem_terminal, bool_decide_eq_false in Hopen. by rewrite Hk, Hr.
    + intros [Hget Hopen]. destruct (rows w !! r_intent_id r) as [row|] eqn:Hk; [|done].
      destruct (row_to_record (r_intent_id r) row) as [r'|] eqn:Hr; simplify_eq/=.
      exists (r_intent_id r), row. split; [|done]. apply select_open_elem; [done|]. split; [done|].
      apply row_to_record_inv in Hr as (_ & -> & _).
      by rewrite str_mem_terminal, bool_decide_eq_false.
  - eapply rows_to_records_sorted; [done|]. apply order_by_sorted.
Qed.

(** *** Properties of the single operations *)

(** [save_execution] is atomic and readable back: either it reports [True]
    and [get_execution] finds exactly the saved record while the other
    intents keep theirs, or it does not and no row changed. *)
Theorem save_execution_roundtrip (r : drecord) (w : estore) :
  let '(res, w') := save_execution r w in
  (res = Ok true ∧
   (quiet w' → get_execution (r_intent_id r) w' = (Ok (Some r), w')) ∧
   ∀ k, k ≠ r_intent_id r → rows w' !! k = rows w !! k)
  ∨ (res ≠ Ok true ∧ rows w' = rows w).
Proof.
  unfold save_execution, st_try, mbind, st_bind.
  set (f := λ t : pydict drow, _). pose proof (es_run_inv f w) as [_ H].
  destruct (es_run f w) as [res w'] eqn:E. simpl in H.
  destruct H as [(e & -> & Hrows)|[-> Hrows]].
  - destruct (catches store_errors e); right; unfold rows; by rewrite Hrows.
  - simpl. left. split_and!; [done| |].
    + intros Hq. rewrite get_execution_quiet by done. unfold rows. rewrite Hrows. simpl.
      by rewrite tbl_lookup_replace_eq, row_to_record_row.
    + intros k Hk. unfold rows. rewrite Hrows. simpl. by dict_simp.
Qed.

(** The duplicate check fails open: when the read of an intent's row raises
    one of the caught errors, [is_duplicate] answers [False] whatever the
    table holds. *)
Theorem is_duplicate_fails_open (k : string) (w : estore) e fs :
  db_faults (es_db w) = Some e :: fs → catches store_errors e = true →
  (is_duplicate k w).1 = Ok false ∧ rows (is_duplicate k w).2 = rows w.
Proof.
  intros Hf He. unfold is_duplicate, get_execution, st_try, mbind, st_bind, es_run, st_zoom, db_run.
  rewrite Hf. simpl. by rewrite He.
Qed.

Definition open_row (row : drow) : bool :=
  negb (str_mem (c_state row) (dstate_value <$> terminal_states)).

Lemma open_row_state row s :
  c_state row = dstate_value s → open_row row = negb (bool_decide (s ∈ terminal_states)).
Proof. intros Hs. unfold open_row. by rewrite Hs, str_mem_terminal. Qed.

(** With a database that answers, it is exact. *)
Theorem is_duplicate_exact (k : string) (w : estore) :
  store_ok w → quiet w →
  is_duplicate k w = (Ok match rows w !! k with Some row => open_row row | None => false end, w).
Proof.
  intros [_ Hst] Hq. unfold is_duplicate, mbind, st_bind. rewrite get_execution_quiet by done.
  destruct (rows w !! k) as [row|] eqn:Hk; [|done].
  destruct (row_to_record_ok k row (Hst _ _ Hk)) as [r Hr]. rewrite Hr.
  apply row_to_record_inv in Hr as (_ & Hs & _). by rewrite (open_row_state _ _ Hs).
Qed.

(** [cleanup_old_records] removes only rows in a terminal state last updated
    before the cutoff; every open execution survives it, and the count it
    returns is the number of rows gone. *)
Theorem cleanup_keeps_open (hours : Z) (w : estore) :
  store_ok w →
  let '(res, w') := cleanup_old_records hours w in
  (∀ k row, rows w !! k = Some row → open_row row = true → rows w' !! k = Some row) ∧
  (∀ k row, rows w' !! k = Some row → rows w !! k = Some row) ∧
  (∀ n, res = Ok n → n = dlen (rows w) - dlen (rows w')).
Proof.
  intros [Hwf _]. unfold cleanup_old_records, st_try, mbind, st_bind, now_ist.
  destruct (clk_read (clock_of w)) as [now c].
  set (f := λ t : pydict drow, _). pose proof (es_run_inv f (set_clock c w)) as [_ H].
  destruct (es_run f (set_clock c w)) as [res w2] eqn:E. cbn [fst snd] in H.
  change (db_rows (es_db w2)) with (rows w2) in H.
  change (db_rows (es_db (set_clock c w))) with (rows w) in H.
  destruct H as [(e & -> & Hrows)|[-> Hrows]].
  - destruct (catches store_errors e); simpl; rewrite Hrows; split_and!; try done.
    intros n [= <-]. lia.
  - simpl. rewrite Hrows. simpl. split_and!.
    + intros k row Hk Ho. rewrite dict_filter_lookup, Hk by done.
      unfold is_old_terminal, open_row in *. apply negb_true_iff in Ho. by rewrite Ho.
    + intros k row. rewrite dict_filter_lookup by done. by repeat case_match.
    + intros n [= <-]. done.
Qed.

(** *** Reconciliation *)

Section reconcile_props.
Context {B : Type} `{!BrokerPort B}.
Implicit Types (w : estore * B).

(** Every row whose intent is outside [ids] stays as it is. *)
Definition same_outside (ids : list string) (w w' : estore * B) : Prop :=
  ∀ k, k ∉ ids → rows w'.1 !! k = rows w.1 !! k.

#[local] Instance same_outside_preorder ids : PreOrder (same_outside ids).
Proof.
  split; [by intros w k|]. intros w1 w2 w3 H1 H2 k Hk. by rewrite H2, H1.
Qed.

Lemma on_broker_outside {A} ids (m : ST B A) : st_rel (same_outside ids) (on_broker m).
Proof. intros w k _. unfold on_broker, st_zoom. by destruct (m w.2). Qed.

Lemma update_state_outside ids k s b q p rr :
  k ∈ ids → st_rel (same_outside ids) (on_store (update_state k s b q p rr)).
Proof.
  intros Hk w j Hj. unfold on_store, st_zoom, update_state, st_try, mbind, st_bind, now_ist.
  destruct (clk_read (clock_of w.1)) as [now c].
  set (f := λ t : pydict drow, _). pose proof (es_run_inv f (set_clock c w.1)) as [_ H].
  destruct (es_run f (set_clock c w.1)) as [res w2] eqn:E. cbn [fst snd] in H.
  destruct H as [(e & -> & Hrows)|[-> Hrows]].
  - by destruct (catches _ e); simpl; unfold rows; rewrite Hrows.
  - simpl. unfold rows. rewrite Hrows. simpl. rewrite tbl_lookup_update_ne; [done|].
    intros ->. done.
Qed.

Lemma reconcile_one_outside ids r n :
  r_intent_id r ∈ ids → st_rel (same_outside ids) (reconcile_one r n).
Proof.
  intros Hr. unfold reconcile_one. repeat first
    [ apply st_rel_ret; typeclasses eauto
    | apply st_lift_rel; typeclasses eauto
    | apply on_broker_outside
    | by apply update_state_outside
    | apply st_rel_bind; [typeclasses eauto| |intros ?]
    | apply st_rel_try; [typeclasses eauto| |intros ?]
    | case_match ].
Qed.

Lemma reconcile_loop_outside ids rs n :
  (∀ r, r ∈ rs → r_intent_id r ∈ ids) → st_rel (same_outside ids) (reconcile_loop rs n).
Proof.
  revert n. induction rs as [|r rs IH]; intros n Hrs; simpl;
    [apply st_rel_ret; typeclasses eauto|].
  apply st_rel_bind; [typeclasses eauto| |intros n'].
  - apply reconcile_one_outside, Hrs, list_elem_of_here.
  - apply IH. intros x Hx. by apply Hrs, list_elem_of_further.
Qed.

Definition total (n : recon_result) : Z :=
  n_filled n + n_still_pending n + n_unknown n + n_repaired n.

Lemma reconcile_one_result r n :
  st_post (λ n', n' ∈ [n; inc_filled n; inc_pending n; inc_unknown n; inc_repaired n])
    (reconcile_one r n).
Proof.
  unfold reconcile_one. repeat first
    [ apply st_post_ret; rewrite !elem_of_cons; tauto
    | apply st_post_bind; intros ?
    | apply st_post_try; [|intros ?]
    | case_match ].
Qed.

Lemma reconcile_one_total r n w n' :
  (reconcile_one r n w).1 = Ok n' → n_checked n' = n_checked n ∧ total n ≤ total n' ≤ total n + 1.
Proof.
  intros H. pose proof (reconcile_one_result r n w n' (reconcile_one r n w).2) as Hin.
  rewrite <- H in Hin. specialize (Hin (surjective_pairing _)).
  rewrite !elem_of_cons, elem_of_nil in Hin. unfold total.
  destruct Hin as [->|[->|[->|[->|[->|[]]]]]]; simpl; lia.
Qed.

Lemma reconcile_loop_total rs n w n' :
  (reconcile_loop rs n w).1 = Ok n' →
  n_checked n' = n_checked n ∧ total n ≤ total n' ≤ total n + Z.of_nat (length rs).
Proof.
  revert n w. induction rs as [|r rs IH]; intros n w; simpl; [intros [= ->]; lia|].
  unfold mbind, st_bind. pose proof (reconcile_one_total r n w) as H1.
  destruct (reconcile_one r n w) as [[n1|e] w1]; [|done]. intros H2.
  specialize (H1 n1 eq_refl). apply IH in H2. lia.
Qed.
End reconcile_props.

Lemma get_non_terminal_rows w : rows (get_non_terminal_executions w).2 = rows w.
Proof.
  unfold get_non_terminal_executions, st_try, mbind, st_bind.
  set (f := λ t : pydict drow, _). pose proof (es_run_inv f w) as [_ H].
  destruct (es_run f w) as [res w'] eqn:E. cbn [fst snd] in H.
  destruct H as [(e & -> & Hrows)|[-> Hrows]].
  - by destruct (catches _ e).
  - unfold st_lift. destruct (rows_to_records _); [done|]. by case_match.
Qed.

Lemma get_non_terminal_open w rs r :
  store_ok w → (get_non_terminal_executions w).1 = Ok rs → r ∈ rs →
  ∃ row, rows w !! r_intent_id r = Some row ∧ open_row row = true.
Proof.
  intros [Hwf _]. unfold get_non_terminal_executions, st_try, mbind, st_bind.
  set (f := λ t : pydict drow, _). pose proof (es_run_inv f w) as [_ H].
  destruct (es_run f w) as [res w'] eqn:E. cbn [fst snd] in H.
  destruct H as [(e & -> & Hrows)|[-> Hrows]].
  - case_match; intros [= <-] ?%not_elem_of_nil; done.
  - unfold st_lift. destruct (rows_to_records _) as [rs0|] eqn:Hrs.
    + intros [= <-] Hin. apply (rows_to_records_elem _ _ _ Hrs) in Hin as (k & row & Hk & Hr).
      apply select_open_elem in Hk as [Hk Ho]; [|done].
      apply row_to_record_inv in Hr as (-> & _). exists row. split; [done|].
      unfold open_row. by rewrite Ho.
    + case_match; [|done]. intros [= <-] ?%not_elem_of_nil. done.
Qed.

(** Reconciliation never touches a finished execution: for every broker and
    every sequence of database failures, and whether it returns or raises,
    the rows in a terminal state are the same afterwards; and when it
    returns, the rows it counted as filled, pending, unknown or repaired are
    at most the rows it checked. *)
Theorem reconcile_keeps_terminal {B} `{!BrokerPort B} (w : estore) (b : B) :
  store_ok w →
  let '(res, (w', _)) := reconcile_with_broker (w, b) in
  (∀ k row, rows w !! k = Some row → open_row row = false → rows w' !! k = Some row) ∧
  (∀ n, res = Ok n → 0 ≤ total n ≤ n_checked n).
Proof.
  intros Hok. unfold reconcile_with_broker. unfold mbind, st_bind, on_store at 1, st_zoom. cbn [fst snd].
  pose proof (get_non_terminal_rows w) as Hrows.
  pose proof (λ rs r, get_non_terminal_open w rs r Hok) as Hopen.
  destruct (get_non_terminal_executions w) as [[rs|e] w1]; simpl in Hrows, Hopen.
  2: { split; [by rewrite Hrows|done]. }
  pose proof (reconcile_loop_outside (r_intent_id <$> rs) rs
    (ReconResult (Z.of_nat (length rs)) 0 0 0 0)) as Hout.
  pose proof (reconcile_loop_total rs (ReconResult (Z.of_nat (length rs)) 0 0 0 0) (w1, b)) as Htot.
  specialize (Hout (λ r Hr, list_elem_of_fmap_2 _ _ _ Hr) (w1, b)).
  destruct (reconcile_loop rs _ (w1, b)) as [res [w2 b2]]. simpl in *. split.
  - intros k row Hk Ho. rewrite <- Hrows in Hk. rewrite <- Hk. apply Hout.
    intros (r & -> & Hr)%list_elem_of_fmap. destruct (Hopen rs r eq_refl Hr) as (row' & Hk' & Ho').
    rewrite Hrows in Hk. congruence.
  - intros n Hn. apply Htot in Hn. unfold total in *. simpl in *. lia.
Qed.

(** ** Concrete instances *)

Definition demo_row (s : dstate) (at_ : Z) (b : option string) : drow :=
  {| c_client_order_id := "OPB-1"; c_symbol := "NIFTY"; c_direction := "CALL"; c_quantity := 50;
     c_strike_price := f_of_Z 22000; c_state := dstate_value s; c_broker_order_id := b;
     c_filled_quantity := 0; c_average_price := f_zero; c_reject_reason := None;
     c_created_at := at_; c_updated_at := at_; c_retry_count := 0 |}.

(** Two open executions and a finished one. *)
Definition demo_store : estore :=
  EStore (Clock (1000 * usec_per_hour) [])
    (DBase (PyDict [("a", demo_row DSUBMITTED 2 (Some "B1")); ("b", demo_row DFILLED 1 None);
                    ("c", demo_row DPENDING 1 None)]) []).

Lemma demo_store_ok : store_ok demo_store.
Proof.
  split; [dict_wf_eval|]. intros k row Hk.
  assert (k = "a" ∨ k = "b" ∨ k = "c") as Hcases.
  { apply assoc_get_in, (list_elem_of_fmap_2 fst) in Hk. simpl in Hk.
    rewrite !elem_of_cons, elem_of_nil in Hk. tauto. }
  destruct Hcases as [->|[->| ->]]; vm_compute in Hk; injection Hk as <-;
    [by exists DSUBMITTED|by exists DFILLED|by exists DPENDING].
Defined.

Lemma open_executions_exact_witness :
  ∃ rs, get_non_terminal_executions demo_store = (Ok rs, demo_store) ∧
    (∀ r, r ∈ rs ↔ get_execution (r_intent_id r) demo_store = (Ok (Some r), demo_store) ∧
                   r_state r ∉ terminal_states) ∧
    sorted_by r_updated_at rs.
Proof. exact (open_executions_exact demo_store demo_store_ok eq_refl). Defined.

Lemma is_duplicate_exact_witness : is_duplicate "a" demo_store = (Ok true, demo_store).
Proof. exact (is_duplicate_exact "a" demo_store demo_store_ok eq_refl). Defined.

(** The open execution ["a"], read through a connection that fails once. *)
Definition demo_store_faulty : estore :=
  EStore (es_clk demo_store) (DBase (db_rows (es_db demo_store)) [Some (PyExn OSError "disk I/O error")]).

Lemma is_duplicate_fails_open_witness :
  (is_duplicate "a" demo_store_faulty).1 = Ok false ∧
  rows (is_duplicate "a" demo_store_faulty).2 = rows demo_store.
Proof.
  exact (is_duplicate_fails_open "a" demo_store_faulty (PyExn OSError "disk I/O error") []
           eq_refl eq_refl).
Defined.

Lemma cleanup_keeps_open_witness :
  let '(res, w') := cleanup_old_records 168 demo_store in
  (∀ k row, rows demo_store !! k = Some row → open_row row = true → rows w' !! k = Some row) ∧
  (∀ k row, rows w' !! k = Some row → rows demo_store !! k = Some row) ∧
  (∀ n, res = Ok n → n = dlen (rows demo_store) - dlen (rows w')).
Proof. exact (cleanup_keeps_open 168 demo_store demo_store_ok). Defined.

Lemma reconcile_keeps_terminal_witness :
  let '(res, (w', _)) := reconcile_with_broker (demo_store, Scripted [Ok (Some "COMPLETE")] [] []) in
  (∀ k row, rows demo_store !! k = Some row → open_row row = false → rows w' !! k = Some row) ∧
  (∀ n, res = Ok n → 0 ≤ total n ≤ n_checked n).
Proof.
  exact (reconcile_keeps_terminal demo_store (Scripted [Ok (Some "COMPLETE")] [] []) demo_store_ok).
Defined.
