(* ===== verification/ExecState.v ===== *)
(** * The execution state machine

    [core/execution/deterministic_state_machine.py], class
    [ExecutionStateMachine]: the life of one order, its transition table,
    the persistence hook and the recording of broker events. *)
From S2P Require Import Prelude PyStr Float64.

(** ** Data *)

Inductive ExecutionState :=
| INIT | PENDING_SUBMISSION | VALIDATED | PERSISTED | SUBMITTED | ACKNOWLEDGED
| PARTIAL_FILL | FILLED | REJECTED | CANCEL_PENDING | CANCELLED | FAILED
| UNKNOWN | RECONCILING.

#[global] Instance ExecutionState_eq_dec : EqDecision ExecutionState.
Proof. solve_decision. Defined.

Definition state_value (s : ExecutionState) : string :=
  match s with
  | INIT => "INIT" | PENDING_SUBMISSION => "PENDING_SUBMISSION"
  | VALIDATED => "VALIDATED" | PERSISTED => "PERSISTED" | SUBMITTED => "SUBMITTED"
  | ACKNOWLEDGED => "ACKNOWLEDGED" | PARTIAL_FILL => "PARTIAL_FILL"
  | FILLED => "FILLED" | REJECTED => "REJECTED" | CANCEL_PENDING => "CANCEL_PENDING"
  | CANCELLED => "CANCELLED" | FAILED => "FAILED" | UNKNOWN => "UNKNOWN"
  | RECONCILING => "RECONCILING"
  end.

Inductive TransitionResult :=
| SUCCESS | INVALID_TRANSITION | ALREADY_IN_STATE | PERSISTENCE_FAILED.

#[global] Instance TransitionResult_eq_dec : EqDecision TransitionResult.
Proof. solve_decision. Defined.

Definition VALID_TRANSITIONS (s : ExecutionState) : list ExecutionState :=
  match s with
  | INIT => [VALIDATED; FAILED]
  | PENDING_SUBMISSION => [VALIDATED; FAILED; UNKNOWN]
  | VALIDATED => [PERSISTED; FAILED]
  | PERSISTED => [SUBMITTED; FAILED]
  | SUBMITTED => [ACKNOWLEDGED; REJECTED; FAILED; UNKNOWN]
  | ACKNOWLEDGED => [PARTIAL_FILL; FILLED; CANCEL_PENDING; FAILED; UNKNOWN]
  | PARTIAL_FILL => [PARTIAL_FILL; FILLED; CANCEL_PENDING; FAILED; UNKNOWN]
  | CANCEL_PENDING => [CANCELLED; FILLED; FAILED]
  | FILLED => []
  | REJECTED => []
  | CANCELLED => []
  | FAILED => []
  | UNKNOWN => [RECONCILING]
  | RECONCILING => [FILLED; CANCELLED; FAILED; UNKNOWN]
  end.

(** [ExecutionStateMachine]; the hook itself is a parameter of the
    operations, the machine only knows whether it has one. *)
Record machine := Machine {
  m_intent_id : string;
  m_client_order_id : string;
  m_symbol : string;
  m_quantity : Z;
  m_price : float64;
  m_direction : string;
  m_state : ExecutionState;
  m_broker_order_id : option string;
  m_filled_quantity : Z;
  m_average_price : float64;
  m_error_message : option string;
  m_created_at : tstamp;
  m_updated_at : tstamp;
  m_submitted_at : option tstamp;
  m_acknowledged_at : option tstamp;
  m_filled_at : option tstamp;
  m_has_callback : bool
}.

Definition set_state (s : ExecutionState) (m : machine) : machine :=
  let '(Machine a b c d e f _ g h i j k l n o p q) := m in Machine a b c d e f s g h i j k l n o p q.
Definition set_broker_order_id (x : option string) (m : machine) : machine :=
  let '(Machine a b c d e f s _ h i j k l n o p q) := m in Machine a b c d e f s x h i j k l n o p q.
Definition set_fill (x : Z) (y : float64) (m : machine) : machine :=
  let '(Machine a b c d e f s g _ _ j k l n o p q) := m in Machine a b c d e f s g x y j k l n o p q.
Definition set_error_message (x : option string) (m : machine) : machine :=
  let '(Machine a b c d e f s g h i _ k l n o p q) := m in Machine a b c d e f s g h i x k l n o p q.
Definition set_updated_at (x : tstamp) (m : machine) : machine :=
  let '(Machine a b c d e f s g h i j k _ n o p q) := m in Machine a b c d e f s g h i j k x n o p q.
Definition set_submitted_at (x : tstamp) (m : machine) : machine :=
  let '(Machine a b c d e f s g h i j k l _ o p q) := m in Machine a b c d e f s g h i j k l (Some x) o p q.
Definition set_acknowledged_at (x : tstamp) (m : machine) : machine :=
  let '(Machine a b c d e f s g h i j k l n _ p q) := m in Machine a b c d e f s g h i j k l n (Some x) p q.
Definition set_filled_at (x : tstamp) (m : machine) : machine :=
  let '(Machine a b c d e f s g h i j k l n o _ q) := m in Machine a b c d e f s g h i j k l n o (Some x) q.
Definition set_has_callback (x : bool) (m : machine) : machine :=
  let '(Machine a b c d e f s g h i j k l n o p _) := m in Machine a b c d e f s g h i j k l n o p x.

(** The constructor with its defaults; [now] is the reading of the clock. *)
Definition new_machine (intent_id client_order_id symbol : string) (quantity : Z)
    (price : float64) (direction : string) (created updated : tstamp) : machine :=
  {| m_intent_id := intent_id; m_client_order_id := client_order_id;
     m_symbol := symbol; m_quantity := quantity; m_price := price;
     m_direction := direction; m_state := INIT; m_broker_order_id := None;
     m_filled_quantity := 0; m_average_price := f_zero; m_error_message := None;
     m_created_at := created; m_updated_at := updated; m_submitted_at := None;
     m_acknowledged_at := None; m_filled_at := None; m_has_callback := false |}.

(** ** Queries *)

Definition can_retry (m : machine) : bool := bool_decide (m_state m ∈ [FAILED; REJECTED]).
Definition is_terminal (m : machine) : bool :=
  bool_decide (m_state m ∈ [FILLED; REJECTED; CANCELLED; FAILED]).
Definition is_submitted (m : machine) : bool :=
  bool_decide (m_state m ∈ [SUBMITTED; ACKNOWLEDGED; PARTIAL_FILL]).

(** The states whose entry calls the persistence hook. *)
Definition persisted_states : list ExecutionState :=
  [PERSISTED; SUBMITTED; ACKNOWLEDGED; FILLED; FAILED].

(** The exceptions of the hook that [validate_transition] catches. *)
Definition persist_errors : list exn_class :=
  [KeyError; ValueError; TypeError; OSError; RuntimeError].

(** ** Operations

    A method runs on the machine and the rest of the world [W], which has
    the clock and which the persistence hook [persist] may change. *)
Section ops.
Context {W : Type} `{!HasClock W} (persist : machine → ST W unit).

Definition MT (A : Type) : Type := ST (machine * W) A.

Definition self : MT machine := st_gets fst.
Definition modify_self (f : machine → machine) : MT unit := st_modify (λ mw, (f mw.1, mw.2)).
Definition outside {A} (c : ST W A) : MT A := st_zoom snd (λ w mw, (mw.1, w)) c.

Definition validate_transition (new_state : ExecutionState) : MT (TransitionResult * string) :=
  m ← self;
  if bool_decide (new_state = m_state m) then
    mret (ALREADY_IN_STATE, String.append "Already in state " (state_value (m_state m)))
  else if negb (bool_decide (new_state ∈ VALID_TRANSITIONS (m_state m))) then
    mret (INVALID_TRANSITION,
          String.append "Cannot transition from "
            (String.append (state_value (m_state m))
               (String.append " to " (state_value new_state))))
  else
    let old_state := m_state m in
    modify_self (set_state new_state) ;;
    failed ←
      (if m_has_callback m && bool_decide (new_state ∈ persisted_states) then
         st_try
           (m' ← self; outside (persist m') ;; mret None)
           persist_errors
           (λ e, modify_self (set_state old_state) ;;
                 mret (Some (PERSISTENCE_FAILED, String.append "Critical: " (exn_msg e))))
       else mret None);
    match failed with
    | Some out => mret out
    | None =>
        ts ← outside format_ts;
        modify_self (set_updated_at ts) ;;
        mret (SUCCESS, String.append "Transitioned to " (state_value new_state))
    end.

Definition try_transition_to (new_state : ExecutionState) : MT bool :=
  r ← validate_transition new_state;
  mret (bool_decide (r.1 = SUCCESS)).

Definition record_submission (broker_order_id : string) : MT bool :=
  m ← self;
  if negb (bool_decide (m_state m = PERSISTED)) then mret false
  else
    modify_self (set_broker_order_id (Some broker_order_id)) ;;
    ts ← outside format_ts;
    modify_self (set_submitted_at ts) ;;
    try_transition_to SUBMITTED.

Definition record_acknowledgment : MT bool :=
  m ← self;
  if bool_decide (m_state m = SUBMITTED) then
    ts ← outside format_ts;
    modify_self (set_acknowledged_at ts) ;;
    try_transition_to ACKNOWLEDGED
  else mret false.

(** The weighted average of the fills so far and the new one. *)
Definition fill_average (avg : float64) (filled filled_qty : Z) (price : float64) : float64 :=
  let total_value := (avg * f_of_Z filled + price * f_of_Z filled_qty)%f64 in
  let new_total_qty := filled + filled_qty in
  if 0 <? new_total_qty then (total_value / f_of_Z new_total_qty)%f64 else f_zero.

Definition record_fill (filled_qty : Z) (price : float64) : MT bool :=
  modify_self (λ m, set_fill (m_filled_quantity m + filled_qty)
                      (fill_average (m_average_price m) (m_filled_quantity m) filled_qty price) m) ;;
  ts ← outside format_ts;
  modify_self (set_filled_at ts) ;;
  m ← self;
  if bool_decide (m_state m = ACKNOWLEDGED) then
    if m_quantity m <=? filled_qty then try_transition_to FILLED
    else try_transition_to PARTIAL_FILL
  else if bool_decide (m_state m = PARTIAL_FILL) then
    if m_quantity m <=? m_filled_quantity m then try_transition_to FILLED
    else mret true
  else mret false.

Definition record_partial_fill (filled_qty : Z) (price : float64) : MT bool :=
  record_fill filled_qty price.

Definition record_rejection (reason : string) : MT bool :=
  modify_self (set_error_message (Some reason)) ;;
  m ← self;
  if bool_decide (m_state m = SUBMITTED) then try_transition_to REJECTED
  else mret false.

Definition record_failure (reason : string) : MT bool :=
  modify_self (set_error_message (Some reason)) ;;
  try_transition_to FAILED.
End ops.

(** ** One transition, by cases *)

Section transition_props.
Context {W : Type} `{!HasClock W} (persist : machine → ST W unit).
Implicit Types (m : machine) (w : W).

Lemma set_state_set_state s s' m : set_state s (set_state s' m) = set_state s m.
Proof. by destruct m. Qed.
Lemma set_state_id m : set_state (m_state m) m = m.
Proof. by destruct m. Qed.

(** Whether entering [s] calls the hook. *)
Definition hooked (s : ExecutionState) (m : machine) : bool :=
  m_has_callback m && bool_decide (s ∈ persisted_states).

Lemma validate_transition_eq s m w :
  validate_transition persist s (m, w) =
  if bool_decide (s = m_state m) then
    (Ok (ALREADY_IN_STATE, String.append "Already in state " (state_value (m_state m))), (m, w))
  else if negb (bool_decide (s ∈ VALID_TRANSITIONS (m_state m))) then
    (Ok (INVALID_TRANSITION,
         String.append "Cannot transition from "
           (String.append (state_value (m_state m))
              (String.append " to " (state_value s)))), (m, w))
  else
    match (if hooked s m then persist (set_state s m) w else (Ok (), w)) with
    | (Ok _, w1) =>
        (Ok (SUCCESS, String.append "Transitioned to " (state_value s)),
         (set_updated_at (ts_of w1) (set_state s m), tick w1))
    | (Raise e, w1) =>
        if catches persist_errors e then
          (Ok (PERSISTENCE_FAILED, String.append "Critical: " (exn_msg e)), (m, w1))
        else (Raise e, (set_state s m, w1))
    end.
Proof.
  unfold validate_transition, mbind, st_bind, self, st_gets. simpl.
  destruct (bool_decide (s = m_state m)); [done|].
  destruct (bool_decide (s ∈ VALID_TRANSITIONS (m_state m))); [|done]. simpl.
  unfold hooked. destruct (m_has_callback m && bool_decide (s ∈ persisted_states)).
  - unfold st_try, outside, st_zoom, modify_self, st_modify. simpl.
    destruct (persist (set_state s m) w) as [[u|e] w1]; simpl.
    + done.
    + destruct (catches persist_errors e); [|done]. simpl.
      by rewrite set_state_set_state, set_state_id.
  - done.
Qed.
End transition_props.

(** ** Every method moves along the table *)

(** The state is the same, or one edge of [VALID_TRANSITIONS] further. *)
Definition same_state {W} (s s' : machine * W) : Prop := m_state s'.1 = m_state s.1.
Definition one_edge {W} (s s' : machine * W) : Prop :=
  m_state s'.1 = m_state s.1 ∨ m_state s'.1 ∈ VALID_TRANSITIONS (m_state s.1).

#[global] Instance same_state_preorder W : PreOrder (same_state (W:=W)).
Proof. split; [by intros ?|]. unfold same_state. intros ??? H1 H2. by rewrite H2. Qed.

Lemma same_one_edge {W} (s s' : machine * W) : same_state s s' → one_edge s s'.
Proof. by left. Qed.
Lemma same_then_edge {W} (s1 s2 s3 : machine * W) : same_state s1 s2 → one_edge s2 s3 → one_edge s1 s3.
Proof. unfold same_state, one_edge. by intros ->. Qed.

Section edges.
Context {W : Type} `{!HasClock W} (persist : machine → ST W unit).

Lemma m_state_set_updated_at ts m : m_state (set_updated_at ts m) = m_state m.
Proof. by destruct m. Qed.
Lemma m_state_set_state s m : m_state (set_state s m) = s.
Proof. by destruct m. Qed.

Lemma validate_transition_edge s : st_rel one_edge (validate_transition (W:=W) persist s).
Proof.
  intros [m w]. rewrite validate_transition_eq. unfold one_edge.
  destruct (bool_decide (s = m_state m)); [by left|].
  destruct (bool_decide (s ∈ VALID_TRANSITIONS (m_state m))) eqn:E; simpl; [|by left].
  apply bool_decide_eq_true in E.
  destruct (if hooked s m then _ else _) as [[u|e] w1]; simpl.
  - right. by rewrite m_state_set_updated_at, m_state_set_state.
  - destruct (catches persist_errors e); simpl; [by left|]. right. by rewrite m_state_set_state.
Qed.

Lemma try_transition_edge s : st_rel one_edge (try_transition_to (W:=W) persist s).
Proof.
  apply (st_rel_bind_trans one_edge same_state).
  - done.
  - unfold same_state, one_edge. by intros ??? ? ->.
  - apply validate_transition_edge.
  - intros r. apply st_rel_ret. apply _.
Qed.

Lemma self_same : st_rel same_state (self (W:=W)).
Proof. apply st_rel_gets. apply _. Qed.
Lemma outside_same {A} (c : ST W A) : st_rel same_state (outside c).
Proof. intros [m w]. unfold outside, st_zoom. simpl. by destruct (c w). Qed.
Lemma modify_self_same f :
  (∀ m, m_state (f m) = m_state m) → st_rel same_state (modify_self (W:=W) f).
Proof. intros Hf [m w]. apply Hf. Qed.
End edges.

(** Code that leaves the state alone, followed by at most one transition. *)
Ltac edge_tac :=
  repeat first
    [ apply try_transition_edge
    | apply (st_rel_bind_trans same_state one_edge);
        [apply same_one_edge|apply same_then_edge| |intros ?]
    | apply self_same
    | apply outside_same
    | apply modify_self_same; intros []; reflexivity
    | case_match
    | intros [? ?]; left; reflexivity ].

(** The public methods, as data: what a caller can do to a machine. *)
Inductive mop :=
| OpTransition (s : ExecutionState)
| OpSubmission (broker_order_id : string)
| OpAcknowledgment
| OpFill (filled_qty : Z) (price : float64)
| OpPartialFill (filled_qty : Z) (price : float64)
| OpRejection (reason : string)
| OpFailure (reason : string).

Section runs.
Context {W : Type} `{!HasClock W} (persist : machine → ST W unit).

Definition run_op (o : mop) : MT (W:=W) bool :=
  match o with
  | OpTransition s => try_transition_to persist s
  | OpSubmission b => record_submission persist b
  | OpAcknowledgment => record_acknowledgment persist
  | OpFill q p => record_fill persist q p
  | OpPartialFill q p => record_partial_fill persist q p
  | OpRejection r => record_rejection persist r
  | OpFailure r => record_failure persist r
  end.

(** A history of calls; a caller goes on after an exception. *)
Fixpoint run_ops (os : list mop) (s : machine * W) : list (mop * res bool) * (machine * W) :=
  match os with
  | [] => ([], s)
  | o :: os' =>
      let '(r, s1) := run_op o s in
      let '(rs, s2) := run_ops os' s1 in
      ((o, r) :: rs, s2)
  end.

Lemma run_op_edge o : st_rel one_edge (run_op o).
Proof.
  destruct o; simpl; unfold record_partial_fill, record_submission, record_acknowledgment,
    record_fill, record_rejection, record_failure; edge_tac.
Qed.
End runs.

(** ** At most one submission *)

(** The states before the order is with the broker. *)
Definition unsent (s : ExecutionState) : bool :=
  bool_decide (s ∈ [INIT; PENDING_SUBMISSION; VALIDATED; PERSISTED]).

(** The call moved the machine into SUBMITTED. *)
Definition submits (or : mop * res bool) : bool :=
  match or with
  | (OpSubmission _, Ok true) | (OpTransition SUBMITTED, Ok true) => true
  | _ => false
  end.

(** No transition leads back before the submission, and only PERSISTED
    orders are submitted. *)
Lemma edge_unsent s s' : s' ∈ VALID_TRANSITIONS s → unsent s' = true → unsent s = true.
Proof.
  intros H%(bool_decide_eq_true_2 _). revert H. destruct s, s'; vm_compute; congruence.
Qed.

Lemma edge_submitted s : SUBMITTED ∈ VALID_TRANSITIONS s → s = PERSISTED.
Proof. intros H%(bool_decide_eq_true_2 _). revert H. destruct s; vm_compute; congruence. Qed.

Lemma edge_terminal s s' :
  s ∈ [FILLED; REJECTED; CANCELLED; FAILED] → s' ∈ VALID_TRANSITIONS s → False.
Proof.
  intros H%(bool_decide_eq_true_2 _) H'%(bool_decide_eq_true_2 _). revert H H'.
  destruct s, s'; vm_compute; congruence.
Qed.

Section submission.
Context {W : Type} `{!HasClock W} (persist : machine → ST W unit).
Implicit Types (s : machine * W).

Lemma run_op_unsent o s : unsent (m_state (run_op persist o s).2.1) = true → unsent (m_state s.1) = true.
Proof.
  destruct (run_op_edge persist o s) as [-> |He]; [done|]. by apply edge_unsent.
Qed.

Lemma try_transition_success x s :
  (try_transition_to persist x s).1 = Ok true →
  x ∈ VALID_TRANSITIONS (m_state s.1) ∧ m_state (try_transition_to persist x s).2.1 = x.
Proof.
  destruct s as [m w]. unfold try_transition_to, mbind, st_bind.
  rewrite validate_transition_eq. destruct (bool_decide (x = m_state m)); [done|].
  destruct (bool_decide (x ∈ VALID_TRANSITIONS (m_state m))) eqn:E; [|done].
  apply bool_decide_eq_true in E. simpl.
  destruct (if hooked x m then _ else _) as [[u|e] w1]; simpl.
  - intros _. by rewrite m_state_set_updated_at, m_state_set_state.
  - by destruct (catches persist_errors e).
Qed.

Lemma run_op_submits o s :
  submits (o, (run_op persist o s).1) = true →
  unsent (m_state s.1) = true ∧ unsent (m_state (run_op persist o s).2.1) = false.
Proof.
  intros H. assert (∃ s1, same_state s s1 ∧ (run_op persist o s) = try_transition_to persist SUBMITTED s1
    ∧ (run_op persist o s).1 = Ok true) as (s1 & Hs & Ho & Hr).
  { destruct o as [[]|b| | | | |]; try (simpl in H; by repeat case_match).
    - exists s. split; [done|]. split; [done|]. simpl in *. by repeat case_match.
    - destruct s as [m w]. simpl in *. unfold record_submission, mbind, st_bind, self, st_gets in *.
      simpl in *. destruct (bool_decide (m_state m = PERSISTED)) eqn:E; simpl in *; [|done].
      eexists. split; [|split; [reflexivity|by repeat case_match]].
      unfold same_state. simpl. by destruct m. }
  rewrite Ho in *. apply try_transition_success in Hr as [Hv ->].
  rewrite Hs in Hv. by apply edge_submitted in Hv as ->.
Qed.

(** C11: Over any history of calls on one machine, whatever the persistence
    hook does and whichever calls raise, at most one call submits the
    order; and none does once the order has left the unsent states. *)
Theorem single_submission os s :
  (length (filter (λ or, submits or = true) (run_ops persist os s).1) ≤
   if unsent (m_state s.1) then 1 else 0)%nat.
Proof.
  revert s. induction os as [|o os IH]; intros s; simpl; [destruct (unsent _); lia|].
  pose proof (run_op_unsent o s) as Hmono. pose proof (run_op_submits o s) as Hsub.
  destruct (run_op persist o s) as [r s1]. specialize (IH s1).
  destruct (run_ops persist os s1) as [rs s2]. simpl in *. rewrite filter_cons.
  destruct (decide (submits (o, r) = true)) as [Hr|Hr].
  - destruct (Hsub Hr) as [-> Hs]. rewrite Hs in IH. simpl. lia.
  - destruct (unsent (m_state s1.1)); [by rewrite Hmono|]. destruct (unsent (m_state s.1)); lia.
Qed.

(** A finished machine stays in its state whatever is called on it. *)
Theorem terminal_absorbing os s :
  is_terminal s.1 = true → m_state (run_ops persist os s).2.1 = m_state s.1.
Proof.
  unfold is_terminal. revert s. induction os as [|o os IH]; intros s Ht; simpl; [done|].
  assert (m_state (run_op persist o s).2.1 = m_state s.1) as Hs.
  { destruct (run_op_edge persist o s) as [?|He]; [done|].
    apply bool_decide_eq_true in Ht. by destruct (edge_terminal _ _ Ht He). }
  destruct (run_op persist o s) as [r s1]. simpl in Hs. specialize (IH s1).
  destruct (run_ops persist os s1) as [rs s2]. simpl in *. rewrite IH; [done|by rewrite Hs].
Qed.
End submission.

(** ** Persistence and fills *)

Section persistence.
Context {W : Type} `{!HasClock W} (persist : machine → ST W unit).
Implicit Types (m : machine) (w : W).

(** Entering a persisted state is all or nothing exactly for the
    exceptions the code catches: the hook returns and the machine is in
    the new state; it raises one of them and the machine is as before,
    with [PERSISTENCE_FAILED]; it raises anything else and the exception
    escapes with the machine already in the new state. *)
Theorem persistence_outcomes s m w :
  s ∈ VALID_TRANSITIONS (m_state m) → s ≠ m_state m → hooked s m = true →
  match persist (set_state s m) w with
  | (Ok _, _) =>
      (∃ msg, (validate_transition persist s (m, w)).1 = Ok (SUCCESS, msg)) ∧
      m_state (validate_transition persist s (m, w)).2.1 = s
  | (Raise e, w') =>
      if catches persist_errors e then
        (∃ msg, (validate_transition persist s (m, w)).1 = Ok (PERSISTENCE_FAILED, msg)) ∧
        (validate_transition persist s (m, w)).2 = (m, w')
      else
        (validate_transition persist s (m, w)).1 = Raise e ∧
        m_state (validate_transition persist s (m, w)).2.1 = s
  end.
Proof.
  intros Hv Hne Hh. rewrite validate_transition_eq, Hh.
  rewrite bool_decide_eq_false_2, bool_decide_eq_true_2 by done. simpl.
  destruct (persist (set_state s m) w) as [[u|e] w'].
  - simpl. rewrite m_state_set_updated_at, m_state_set_state. eauto.
  - destruct (catches persist_errors e); simpl; [eauto|]. by rewrite m_state_set_state.
Qed.

Hypothesis persist_ok : ∀ m w, (persist m w).1 = Ok ().

Lemma try_transition_ok x m w :
  x ∈ VALID_TRANSITIONS (m_state m) → x ≠ m_state m →
  ∃ ts w', try_transition_to persist x (m, w) = (Ok true, (set_updated_at ts (set_state x m), w')).
Proof.
  intros Hv Hne. unfold try_transition_to, mbind, st_bind. rewrite validate_transition_eq.
  rewrite bool_decide_eq_false_2, bool_decide_eq_true_2 by done. simpl.
  pose proof (persist_ok (set_state x m) w) as Hok.
  destruct (hooked x m).
  - destruct (persist (set_state x m) w) as [r w1]. simpl in Hok. subst r. eauto.
  - eauto.
Qed.

(** An acknowledged order with [total] of its quantity filled so far. *)
Definition fill_inv (total : Z) (m : machine) : Prop :=
  m_filled_quantity m = total ∧
  ((m_state m = ACKNOWLEDGED ∧ total = 0) ∨
   (m_state m = PARTIAL_FILL ∧ total < m_quantity m) ∨
   (m_state m = FILLED ∧ m_quantity m <= total)).

Definition after_fill (q : Z) (p : float64) (ts : tstamp) (m : machine) : machine :=
  set_filled_at ts
    (set_fill (m_filled_quantity m + q)
       (fill_average (m_average_price m) (m_filled_quantity m) q p) m).

Lemma after_fill_fields q p ts m :
  m_filled_quantity (after_fill q p ts m) = m_filled_quantity m + q ∧
  m_quantity (after_fill q p ts m) = m_quantity m ∧
  m_state (after_fill q p ts m) = m_state m.
Proof. by destruct m. Qed.

Lemma moved_fields ts x m :
  m_filled_quantity (set_updated_at ts (set_state x m)) = m_filled_quantity m ∧
  m_quantity (set_updated_at ts (set_state x m)) = m_quantity m ∧
  m_state (set_updated_at ts (set_state x m)) = x.
Proof. by destruct m. Qed.

Lemma record_fill_eq q p m w :
  record_fill persist q p (m, w) =
  (let m1 := after_fill q p (ts_of w) m in
   if bool_decide (m_state m1 = ACKNOWLEDGED) then
     if m_quantity m1 <=? q then try_transition_to persist FILLED
     else try_transition_to persist PARTIAL_FILL
   else if bool_decide (m_state m1 = PARTIAL_FILL) then
     if m_quantity m1 <=? m_filled_quantity m1 then try_transition_to persist FILLED
     else mret true
   else mret false) (after_fill q p (ts_of w) m, tick w).
Proof. done. Qed.

(** The transition to [x] succeeds and keeps the quantities. *)
Ltac fill_to x :=
  match goal with
  | |- context [try_transition_to persist x (?m1, ?w1)] =>
      destruct (try_transition_ok x m1 w1) as (ts & w' & ->);
        [by match goal with H : m_state m1 = _ |- _ => rewrite H end; in_list
        |by match goal with H : m_state m1 = _ |- _ => rewrite H end|];
      destruct (moved_fields ts x m1) as (? & ? & ?);
      do 3 eexists; split; [done|]; unfold fill_inv;
      repeat match goal with H : m_state _ = _ |- _ => rewrite H end;
      repeat match goal with H : m_quantity _ = _ |- _ => rewrite H end
  end.

Lemma record_fill_step q p m w total :
  fill_inv total m → 0 < q →
  ∃ r m' w', record_fill persist q p (m, w) = (Ok r, (m', w')) ∧
    m_quantity m' = m_quantity m ∧ fill_inv (total + q) m' ∧ m_state m' ≠ ACKNOWLEDGED.
Proof.
  intros [Hf Hs] Hq. rewrite record_fill_eq. cbv zeta.
  destruct (after_fill_fields q p (ts_of w) m) as (Hf1 & Hq1 & Hs1).
  set (m1 := after_fill q p (ts_of w) m) in *. rewrite Hf in Hf1.
  destruct Hs as [[Hs Ht]|[[Hs Ht]|[Hs Ht]]]; rewrite Hs in Hs1; rewrite Hs1; simpl.
  - destruct (m_quantity m1 <=? q) eqn:E; bools; [fill_to FILLED|fill_to PARTIAL_FILL];
      split_and!; try done; try lia; right; [right|left]; (split; [done|lia]).
  - destruct (m_quantity m1 <=? m_filled_quantity m1) eqn:E; bools.
    + fill_to FILLED. split_and!; try done; try lia. right; right. split; [done|lia].
    + exists true, m1, (tick w). unfold fill_inv. rewrite Hs1. split_and!; try done.
      right; left. split; [done|lia].
  - exists false, m1, (tick w). unfold fill_inv. rewrite Hs1. split_and!; try done.
    right; right. split; [done|lia].
Qed.

Lemma run_fills_inv qps m w total :
  fill_inv total m → Forall (λ qp : Z * float64, 0 < qp.1) qps →
  let m' := (run_ops persist ((λ qp, OpFill qp.1 qp.2) <$> qps) (m, w)).2.1 in
  m_quantity m' = m_quantity m ∧
  fill_inv (total + foldr Z.add 0 qps.*1) m' ∧
  (qps ≠ [] → m_state m' ≠ ACKNOWLEDGED).
Proof.
  intros Hinv Hpos. revert m w total Hinv. induction Hpos as [|[q p] qps Hq _ IH];
    intros m w total Hinv; simpl.
  - rewrite Z.add_0_r. done.
  - destruct (record_fill_step q p m w total Hinv Hq) as (r & m1 & w1 & Hr & Hq1 & Hinv1 & Hne).
    rewrite Hr. specialize (IH m1 w1 _ Hinv1). rewrite Z.add_assoc.
    destruct (run_ops _ _ _) as [rs [m2 w2]] eqn:E. simpl in *. destruct IH as (H1 & H2 & H3).
    split_and!; [congruence|done|]. intros _. destruct qps; [|by apply H3].
    simpl in E. by injection E as _ <- _.
Qed.

End persistence.

Section fills.
Context {W : Type} `{!HasClock W} (persist : machine → ST W unit).
Implicit Types (m : machine) (w : W).

(** A transition that may fail in the hook: the state moves or it does not,
    the quantities stay. *)
Lemma try_transition_either x m w :
  let m' := (try_transition_to persist x (m, w)).2.1 in
  m_filled_quantity m' = m_filled_quantity m ∧ m_quantity m' = m_quantity m ∧
  (m_state m' = m_state m ∨ m_state m' = x).
Proof.
  unfold try_transition_to, mbind, st_bind. rewrite validate_transition_eq.
  destruct (bool_decide (x = m_state m)); [by split_and!; auto|].
  destruct (negb (bool_decide (x ∈ VALID_TRANSITIONS (m_state m)))); [by split_and!; auto|].
  destruct (if hooked x m then _ else _) as [[u|e] w1]; [|destruct (catches persist_errors e)]; destruct m; cbn; auto.
Qed.

(** What holds of the fills whatever the hook does: with [total] filled the
    order is open, and FILLED only when that covers it. *)
Definition fill_bound (n total : Z) (m : machine) : Prop :=
  m_filled_quantity m = total ∧ m_quantity m = n ∧
  m_state m ∈ [ACKNOWLEDGED; PARTIAL_FILL; FILLED] ∧ (m_state m = FILLED → n <= total).

Lemma record_fill_bound q p m w n total :
  fill_bound n total m → 0 <= total → 0 < q → fill_bound n (total + q) (record_fill persist q p (m, w)).2.1.
Proof.
  intros (Hf & Hn & Hs & Hd) Ht Hq. rewrite record_fill_eq. cbv zeta.
  destruct (after_fill_fields q p (ts_of w) m) as (Hf1 & Hq1 & Hs1).
  set (m1 := after_fill q p (ts_of w) m) in *. rewrite Hf in Hf1. rewrite Hn in Hq1.
  assert (∀ x, x = PARTIAL_FILL ∨ x = FILLED ∧ n <= total + q →
    fill_bound n (total + q) (try_transition_to persist x (m1, tick w)).2.1) as Hgo.
  { intros x Hx. destruct (try_transition_either x m1 (tick w)) as (E1 & E2 & E3). split_and!; [congruence|congruence| |].
    - destruct E3 as [->| ->]; [by rewrite Hs1|]. destruct Hx as [->|[-> _]]; in_list.
    - intros E. rewrite E in E3. destruct E3 as [E3|E3]; [rewrite Hs1 in E3; specialize (Hd (eq_sym E3)); lia|].
      destruct Hx as [->|[_ ?]]; [done|lia]. }
  assert (fill_bound n (total + q) m1) as Hstay.
  { split_and!; [done..|by rewrite Hs1|]. rewrite Hs1. intros E. specialize (Hd E). lia. }
  rewrite Hq1, Hf1. repeat case_match; bools; first [exact Hstay | apply Hgo; auto]; right; (split; [done|lia]).
Qed.
Lemma run_fills_bound qps : ∀ m w n total, fill_bound n total m → 0 <= total → Forall (λ qp : Z * float64, 0 < qp.1) qps →
  fill_bound n (total + foldr Z.add 0 qps.*1) (run_ops persist ((λ qp, OpFill qp.1 qp.2) <$> qps) (m, w)).2.1.
Proof.
  induction qps as [|[q p] qps IH]; intros m w n total H Ht Hpos; simpl; [by rewrite Z.add_0_r|].
  apply Forall_cons in Hpos as [Hq Hpos]. cbn [fst] in Hq.
  pose proof (record_fill_bound q p m w n total H Ht Hq) as H1. destruct (record_fill persist q p (m, w)) as [r [m1 w1]].
  specialize (IH m1 w1 n (total + q) H1 ltac:(lia) Hpos). destruct (run_ops _ _ _) as [rs [m2 w2]]. cbn [fst snd] in *.
  by rewrite Z.add_assoc.
Qed.

(** C32: The fills of an acknowledged order add up: whatever the sizes and the
    order of the (positive) fills, and whatever the persistence hook does,
    raising anything included, the machine holds their sum and is not FILLED
    before the sum reaches the order's quantity.  When every call of the hook
    succeeds it is FILLED exactly when the sum reaches the quantity, and
    PARTIAL_FILL before. *)
Theorem fills_complete m w (qps : list (Z * float64)) :
  m_state m = ACKNOWLEDGED → m_filled_quantity m = 0 → qps ≠ [] →
  Forall (λ qp : Z * float64, 0 < qp.1) qps →
  let m' := (run_ops persist ((λ qp, OpFill qp.1 qp.2) <$> qps) (m, w)).2.1 in
  let total := foldr Z.add 0 qps.*1 in
  m_filled_quantity m' = total ∧ m_quantity m' = m_quantity m ∧
  m_state m' ∈ [ACKNOWLEDGED; PARTIAL_FILL; FILLED] ∧ (m_state m' = FILLED → m_quantity m <= total) ∧
  ((∀ m w, (persist m w).1 = Ok ()) → m_state m' = if m_quantity m <=? total then FILLED else PARTIAL_FILL).
Proof.
  intros Hs Hf Hne Hpos. cbv zeta.
  assert (fill_bound (m_quantity m) 0 m) as H0 by (split_and!; [done|done|rewrite Hs; in_list|by rewrite Hs]).
  destruct (run_fills_bound qps m w _ 0 H0 ltac:(lia) Hpos) as (B1 & B2 & B3 & B4). rewrite Z.add_0_l in *.
  split_and!; [done..|]. intros Hok. pose proof (run_fills_inv persist Hok qps m w 0) as H.
  destruct H as (Hq & [Hfill Hst] & Hack); [by split; [|left]|done|]. simpl in *.
  rewrite <- Hq. destruct Hst as [[Hst _]|[[-> ?]|[-> ?]]].
  - by destruct (Hack Hne).
  - by rewrite (proj2 (Z.leb_gt _ _)).
  - by rewrite (proj2 (Z.leb_le _ _)).
Qed.
End fills.

(** A fill reported outside ACKNOWLEDGED and PARTIAL_FILL is refused but
    counted: the call answers [False], the state is unchanged, and the
    filled quantity has grown all the same; a repeated report counts again. *)
Theorem refused_fill_counts {W} `{!HasClock W} (persist : machine → ST W unit) q p m (w : W) :
  m_state m ≠ ACKNOWLEDGED → m_state m ≠ PARTIAL_FILL →
  let '(r, (m', _)) := record_fill persist q p (m, w) in
  r = Ok false ∧ m_state m' = m_state m ∧ m_filled_quantity m' = m_filled_quantity m + q.
Proof.
  intros H1 H2. rewrite record_fill_eq. cbv zeta.
  destruct (after_fill_fields q p (ts_of w) m) as (Hf & _ & Hs). rewrite Hs.
  rewrite !bool_decide_eq_false_2 by done. simpl. by rewrite Hs.
Qed.

(** ** The abstract life of an order *)

Module Lifecycle.
(** What a caller may rely on: an order is unsent, live at the broker, in
    doubt, or closed; it goes live once and a doubt is only resolved by
    closing. *)
Inductive phase := Unsent | Live | Ambiguous | Closed.

Inductive phase_step : phase → phase → Prop :=
| send : phase_step Unsent Live
| doubt p : p ≠ Closed → phase_step p Ambiguous
| close p : phase_step p Closed.

Definition phase_of (s : ExecutionState) : phase :=
  match s with
  | INIT | PENDING_SUBMISSION | VALIDATED | PERSISTED => Unsent
  | SUBMITTED | ACKNOWLEDGED | PARTIAL_FILL | CANCEL_PENDING => Live
  | UNKNOWN | RECONCILING => Ambiguous
  | FILLED | REJECTED | CANCELLED | FAILED => Closed
  end.

#[export] Hint Constructors phase_step : core.

Lemma edge_phase s s' :
  s' ∈ VALID_TRANSITIONS s → rtc phase_step (phase_of s) (phase_of s').
Proof.
  intros H%(bool_decide_eq_true_2 _).
  destruct s, s'; vm_compute in H; try congruence; simpl; try reflexivity;
    apply rtc_once; auto; by apply doubt.
Qed.

Lemma phase_closed p q : rtc phase_step p q → p = Closed → q = Closed.
Proof. induction 1 as [|p1 p2 p3 H _ IH]; [done|]. intros ->. by inversion H; subst; auto. Qed.

Lemma phase_ambiguous p q :
  rtc phase_step p q → p = Ambiguous → q = Ambiguous ∨ q = Closed.
Proof.
  induction 1 as [|p1 p2 p3 H Hr IH]; [by left|]. intros ->.
  inversion H; subst; [auto|]. right. by eapply phase_closed.
Qed.

(** C12: Refinement: any history of method calls, with any persistence hook,
    is a run of the abstract life; so an order in doubt never goes back to
    live or unsent. *)
Theorem machine_refines_lifecycle {W} `{!HasClock W} (persist : machine → ST W unit)
    (os : list mop) (s : machine * W) :
  let s' := (run_ops persist os s).2 in
  rtc phase_step (phase_of (m_state s.1)) (phase_of (m_state s'.1)) ∧
  (phase_of (m_state s.1) = Ambiguous →
   phase_of (m_state s'.1) = Ambiguous ∨ phase_of (m_state s'.1) = Closed).
Proof.
  enough (rtc phase_step (phase_of (m_state s.1)) (phase_of (m_state (run_ops persist os s).2.1)))
    as H by (split; [done|by apply phase_ambiguous]).
  revert s. induction os as [|o os IH]; intros s; simpl; [reflexivity|].
  pose proof (run_op_edge persist o s) as He.
  destruct (run_op persist o s) as [r s1]. specialize (IH s1).
  destruct (run_ops persist os s1) as [rs s2]. simpl in *.
  transitivity (phase_of (m_state s1.1)); [|done].
  destruct He as [-> |He]; [reflexivity|by apply edge_phase].
Qed.
End Lifecycle.

(** ** Concrete instances *)

Definition demo_machine (s : ExecutionState) : machine :=
  set_has_callback true (set_state s
    (new_machine "i1" "OPB-i1" "NIFTY" 50 (f_of_Z 100) "CALL" (TsAt 0) (TsAt 0))).

(** A hook that does nothing and one that fails. *)
Definition demo_hook : machine → ST clock unit := λ _, mret ().
Definition failing_hook : machine → ST clock unit := λ _, st_raise (PyExn OSError "disk full").

Lemma terminal_absorbing_witness :
  m_state (run_ops demo_hook [OpFill 10 f_zero; OpTransition INIT; OpFailure "x"]
             (demo_machine FILLED, Clock 0 [])).2.1 = FILLED.
Proof.
  exact (terminal_absorbing demo_hook [OpFill 10 f_zero; OpTransition INIT; OpFailure "x"]
           (demo_machine FILLED, Clock 0 []) eq_refl).
Defined.

Lemma persistence_outcomes_witness :
  (∃ msg, (validate_transition failing_hook PERSISTED (demo_machine VALIDATED, Clock 0 [])).1
          = Ok (PERSISTENCE_FAILED, msg)) ∧
  (validate_transition failing_hook PERSISTED (demo_machine VALIDATED, Clock 0 [])).2
  = (demo_machine VALIDATED, Clock 0 []).
Proof.
  refine (persistence_outcomes failing_hook PERSISTED (demo_machine VALIDATED) (Clock 0 []) _ _ eq_refl);
    [in_list|by vm_compute].
Defined.

Lemma fills_complete_witness :
  let m' := (run_ops demo_hook [OpFill 20 f_zero; OpFill 30 f_zero]
               (demo_machine ACKNOWLEDGED, Clock 0 [])).2.1 in
  m_filled_quantity m' = 50 ∧ m_state m' = FILLED.
Proof.
  destruct (fills_complete demo_hook (demo_machine ACKNOWLEDGED) (Clock 0 [])
              [(20, f_zero); (30, f_zero)] eq_refl eq_refl) as (H1 & _ & _ & _ & H2).
  - done.
  - repeat constructor.
  - split; [exact H1|exact (H2 (λ _ _, eq_refl))].
Defined.
(** A hook that fails keeps an order from being FILLED by the fills that
    cover it. *)
Example failed_hook_keeps_open :
  let m' := (run_ops failing_hook [OpFill 20 f_zero; OpFill 30 f_zero] (demo_machine ACKNOWLEDGED, Clock 0 [])).2.1 in
  m_filled_quantity m' = 50 ∧ m_state m' ≠ FILLED.
Proof. vm_compute. by split. Qed.

Lemma refused_fill_counts_witness :
  let '(r, (m', _)) := record_fill demo_hook 50 f_zero (demo_machine SUBMITTED, Clock 0 []) in
  r = Ok false ∧ m_state m' = SUBMITTED ∧ m_filled_quantity m' = 0 + 50.
Proof.
  refine (refused_fill_counts demo_hook 50 f_zero (demo_machine SUBMITTED) (Clock 0 []) _ _);
    by vm_compute.
Defined.
