(* ===== verification/ExecManager.v ===== *)
(** * The manager of execution state machines

    [core/execution/deterministic_state_machine.py], class
    [ExecutionStateMachineManager]: the machines by client order id, their
    creation, recovery after a restart, pruning, and the broker's answers. *)
From S2P Require Import Prelude PyStr Float64 PyDict DurableStore ExecState.

(** ** Data *)

Record manager := Manager { g_machines : pydict machine; g_has_callback : bool }.

Definition set_machines (d : pydict machine) (g : manager) : manager := Manager d (g_has_callback g).
Definition put_machine (k : string) (m : machine) (g : manager) : manager :=
  set_machines (<[k := m]> (g_machines g)) g.

(** [ExecutionStateMachineManager(persistence_callback)] *)
Definition new_manager (has_callback : bool) : manager := Manager ∅ has_callback.

(** [_generate_client_order_id] *)
Definition generate_client_order_id (intent_id : string) : string := String.append "OPB-" intent_id.

(** [state_map.get(rec.state.value, UNKNOWN)] of [recover_from_store] *)
Definition recovered_state (s : dstate) : ExecutionState :=
  match s with
  | DPENDING => PENDING_SUBMISSION
  | DSUBMITTED => SUBMITTED
  | DPARTIALLY_FILLED => PARTIAL_FILL
  | DFILLED => FILLED
  | DCANCELLED => CANCELLED
  | DREJECTED => REJECTED
  | DFAILED => FAILED
  | DUNKNOWN => UNKNOWN
  end.

(** ** Operations *)

Section manager.
Context {W : Type} `{!HasClock W} (persist : machine → ST W unit).

Definition GT (A : Type) : Type := ST (manager * W) A.

Definition mgr : GT manager := st_gets fst.
Definition modify_mgr (f : manager → manager) : GT unit := st_modify (λ gw, (f gw.1, gw.2)).
Definition in_world {A} (c : ST W A) : GT A := st_zoom snd (λ w gw, (gw.1, w)) c.

(** A call on the machine object registered under [k]. *)
Definition on_machine {A} (k : string) (op : MT (W:=W) A) : GT A := λ gw,
  match g_machines gw.1 !! k with
  | Some m => let '(r, (m', w')) := op (m, gw.2) in (r, (put_machine k m' gw.1, w'))
  | None => (Raise (PyExn KeyError k), gw)
  end.

(** The constructor reads the clock once per timestamp field. *)
Definition make_machine (intent_id client_order_id symbol : string) (quantity : Z)
    (price : float64) (direction : string) : GT machine :=
  created ← in_world format_ts;
  updated ← in_world format_ts;
  mret (new_machine intent_id client_order_id symbol quantity price direction created updated).

Definition create_or_get (intent_id symbol : string) (quantity : Z) (price : float64)
    (direction : string) : GT (machine * bool) :=
  let client_order_id := generate_client_order_id intent_id in
  g ← mgr;
  match g_machines g !! client_order_id with
  | Some existing => mret (existing, false)
  | None =>
      m0 ← make_machine intent_id client_order_id symbol quantity price direction;
      let m := set_has_callback (g_has_callback g) m0 in
      modify_mgr (put_machine client_order_id m) ;;
      mret (m, true)
  end.

Definition get_machine (client_order_id : string) : GT (option machine) :=
  g ← mgr; mret (g_machines g !! client_order_id).
Definition get_all : GT (list machine) := g ← mgr; mret (dvalues (g_machines g)).

(** The machine rebuilt from a durable record. *)
Definition recover_machine (callback : bool) (rec : drecord) (m0 : machine) : machine :=
  set_error_message (r_reject_reason rec)
    (set_fill (r_filled_quantity rec) (r_average_price rec)
       (set_broker_order_id (r_broker_order_id rec)
          (set_state (recovered_state (r_state rec))
             (set_has_callback callback m0)))).

Definition recover_one (rec : drecord) : GT bool :=
  let client_id := String.append "OPB-" (r_intent_id rec) in
  g ← mgr;
  match g_machines g !! client_id with
  | Some _ => mret false
  | None =>
      m0 ← make_machine (r_intent_id rec) client_id (r_symbol rec) (r_quantity rec)
             (r_strike_price rec) (r_direction rec);
      modify_mgr (put_machine client_id (recover_machine (g_has_callback g) rec m0)) ;;
      mret true
  end.

Fixpoint recover_loop (records : list drecord) (recovered : Z) : GT Z :=
  match records with
  | [] => mret recovered
  | r :: rs => new ← recover_one r; recover_loop rs (if new : bool then recovered + 1 else recovered)
  end.

Definition recover_errors : list exn_class :=
  [KeyError; ValueError; TypeError; OSError; AttributeError; RuntimeError].

(** [recover_from_store]; the argument is the store's
    [get_non_terminal_executions], [None] when there is no store. *)
Definition recover_from_store (store : option (ST W (list drecord))) : GT Z :=
  match store with
  | None => mret 0
  | Some get_open =>
      records ← st_try (rs ← in_world get_open; mret (Some rs)) recover_errors (λ _, mret None);
      match records with
      | None => mret 0
      | Some rs => recover_loop rs 0
      end
  end.

(** [prune_terminals] *)
Definition created_ts (m : machine) : float64 :=
  match m_created_at m with
  | TsAt t => epoch_seconds t
  | TsRaw _ => f_zero
  end.

Definition prunable (now_ts max_age_hours : float64) (m : machine) : bool :=
  is_terminal m &&
  (fgt (created_ts m) f_zero &&
   fgt (fsub now_ts (created_ts m)) (fmul max_age_hours (f_of_Z 3600))).

Definition prune_terminals (max_age_hours : float64) : GT Z :=
  now_ts ← in_world time_time;
  g ← mgr;
  let kept := dfilter (λ _ m, negb (prunable now_ts max_age_hours m)) (g_machines g) in
  modify_mgr (set_machines kept) ;;
  mret (dlen (g_machines g) - dlen kept).

(** [record_broker_query_result] *)
Definition record_broker_query_result (client_order_id : string)
    (broker_order_id : option string) (status : string) (filled_qty : Z)
    (avg_price : float64) : GT bool :=
  g ← mgr;
  match g_machines g !! client_order_id with
  | None => mret false
  | Some _ =>
      on_machine client_order_id
        (m ← self;
         (if truthy_opt broker_order_id && negb (truthy_opt (m_broker_order_id m))
          then modify_self (set_broker_order_id broker_order_id) else mret ()) ;;
         if String.eqb status "FILLED" then record_fill persist filled_qty avg_price
         else if String.eqb status "REJECTED" then record_rejection persist "Broker rejected"
         else if String.eqb status "CANCELLED" then try_transition_to persist CANCELLED
         else if bool_decide (m_state m = SUBMITTED) then record_acknowledgment persist
         else mret false)
  end.
End manager.

(** ** The singleton of the module *)

(** [get_execution_state_manager] and [reset_execution_state_manager] *)
Definition get_execution_state_manager (has_callback : bool) (singleton : option manager) :
    manager * option manager :=
  match singleton with
  | Some g => (g, Some g)
  | None => let g := new_manager has_callback in (g, Some g)
  end.
Definition reset_execution_state_manager (singleton : option manager) : option manager := None.

(** ** Machines keep their identity *)

(** The fields no method assigns. *)
Definition identity (m : machine) : string * string * string * Z * float64 * string * tstamp :=
  (m_intent_id m, m_client_order_id m, m_symbol m, m_quantity m, m_price m, m_direction m,
   m_created_at m).

Definition same_identity {W} (s s' : machine * W) : Prop := identity s'.1 = identity s.1.

#[global] Instance same_identity_preorder W : PreOrder (same_identity (W:=W)).
Proof. split; [by intros ?|]. unfold same_identity. intros ??? H1 H2. by rewrite H2. Qed.

Section identity.
Context {W : Type} `{!HasClock W} (persist : machine → ST W unit).

Lemma modify_self_identity f :
  (∀ m, identity (f m) = identity m) → st_rel same_identity (modify_self (W:=W) f).
Proof. intros Hf [m w]. apply Hf. Qed.
Lemma outside_identity {A} (c : ST W A) : st_rel same_identity (outside c).
Proof. intros [m w]. unfold outside, st_zoom. simpl. by destruct (c w). Qed.
Lemma self_identity : st_rel same_identity (self (W:=W)).
Proof. apply st_rel_gets. apply _. Qed.
End identity.

(** Assignments to other fields, calls to the hook and to the clock. *)
Ltac identity_tac :=
  repeat first
    [ apply st_rel_ret; typeclasses eauto
    | apply self_identity
    | apply outside_identity
    | apply modify_self_identity; intros []; reflexivity
    | apply st_rel_bind; [typeclasses eauto| |intros ?]
    | apply st_rel_try; [typeclasses eauto| |intros ?]
    | case_match ].

Section identity_ops.
Context {W : Type} `{!HasClock W} (persist : machine → ST W unit).

Lemma try_transition_identity x : st_rel same_identity (try_transition_to (W:=W) persist x).
Proof. unfold try_transition_to, validate_transition. identity_tac. Qed.

Lemma run_op_identity o : st_rel same_identity (run_op (W:=W) persist o).
Proof.
  destruct o; simpl; unfold record_partial_fill, record_submission, record_acknowledgment,
    record_fill, record_rejection, record_failure;
    repeat first [apply try_transition_identity | progress identity_tac].
Qed.
End identity_ops.

(** ** The invariant of the registry

    A key once, and every machine under the client order id derived from its
    intent. *)
Definition manager_ok (g : manager) : Prop :=
  dict_wf (g_machines g) ∧
  ∀ k m, g_machines g !! k = Some m →
    k = m_client_order_id m ∧ k = generate_client_order_id (m_intent_id m).

Lemma put_machine_id g k m : g_machines g !! k = Some m → put_machine k m g = g.
Proof. intros Hk. unfold put_machine. rewrite dict_insert_id by done. by destruct g. Qed.

Lemma append_inj (p s t : string) : String.append p s = String.append p t → s = t.
Proof. induction p as [|c p IH]; simpl; [done|]. intros [= H]. auto. Qed.

Lemma generate_client_order_id_inj i j :
  generate_client_order_id i = generate_client_order_id j → i = j.
Proof. apply append_inj. Qed.

Lemma put_machine_ok k m g :
  manager_ok g → k = m_client_order_id m → k = generate_client_order_id (m_intent_id m) →
  manager_ok (put_machine k m g).
Proof.
  intros [Hwf Hg] H1 H2. split; [by apply dict_insert_wf|].
  intros j m'. destruct (decide (k = j)) as [<-|]; simpl; dict_simp; [|apply Hg]. by intros [= <-].
Qed.

Section manager_props.
Context {W : Type} `{!HasClock W} (persist : machine → ST W unit).
Implicit Types (g : manager) (w : W) (m : machine).

Definition gw_ok (gw : manager * W) : Prop := manager_ok gw.1.

Lemma on_machine_ok {A} k (op : MT (W:=W) A) :
  st_rel same_identity op → preserves gw_ok (on_machine k op).
Proof.
  intros Hop [g w]. unfold gw_ok, on_machine. simpl. intros Hg.
  destruct (g_machines g !! k) as [m|] eqn:Hk; [|done].
  specialize (Hop (m, w)). destruct (op (m, w)) as [r [m' w']]. unfold same_identity, identity in Hop.
  simpl in *. injection Hop as Hi Hc _ _ _ _ _. destruct Hg as [Hwf Hg].
  destruct (Hg _ _ Hk). apply put_machine_ok; [by split|congruence..].
Qed.

Lemma in_world_ok {A} (c : ST W A) : preserves gw_ok (in_world c).
Proof. intros [g w]. unfold in_world, st_zoom. simpl. by destruct (c w). Qed.
Lemma modify_mgr_ok f :
  (∀ g, manager_ok g → manager_ok (f g)) → preserves gw_ok (modify_mgr (W:=W) f).
Proof. intros Hf [g w]. apply Hf. Qed.
Lemma mgr_ok_pres : preserves gw_ok (mgr (W:=W)).
Proof. by intros [g w]. Qed.

(** What [make_machine] returns: the constructor at two readings. *)
Lemma make_machine_eq i c s q p d g w :
  make_machine i c s q p d (g, w) =
  (Ok (new_machine i c s q p d (ts_of w) (ts_of (tick w))), (g, tick (tick w))).
Proof. done. Qed.

Lemma create_or_get_eq i s q p d g w :
  let k := generate_client_order_id i in
  create_or_get i s q p d (g, w) =
  match g_machines g !! k with
  | Some m => (Ok (m, false), (g, w))
  | None =>
      let m := set_has_callback (g_has_callback g)
                 (new_machine i k s q p d (ts_of w) (ts_of (tick w))) in
      (Ok (m, true), (put_machine k m g, tick (tick w)))
  end.
Proof.
  cbv zeta. unfold create_or_get, mbind at 1, st_bind, mgr, st_gets. simpl.
  by destruct (g_machines g !! generate_client_order_id i).
Qed.

(** *** Recovery *)

Definition record_key (r : drecord) : string := generate_client_order_id (r_intent_id r).

Definition recovered_machine (callback : bool) (r : drecord) (created updated : tstamp) : machine :=
  recover_machine callback r
    (new_machine (r_intent_id r) (record_key r) (r_symbol r) (r_quantity r)
       (r_strike_price r) (r_direction r) created updated).

Lemma recover_one_eq r g w :
  recover_one r (g, w) =
  match g_machines g !! record_key r with
  | Some _ => (Ok false, (g, w))
  | None =>
      (Ok true,
       (put_machine (record_key r)
          (recovered_machine (g_has_callback g) r (ts_of w) (ts_of (tick w))) g,
        tick (tick w)))
  end.
Proof.
  unfold recover_one, mbind at 1, st_bind, mgr, st_gets. simpl.
  unfold record_key, generate_client_order_id.
  by destruct (g_machines g !! String.append "OPB-" (r_intent_id r)).
Qed.

(** The loop: which machines there are afterwards. *)
Lemma recover_loop_spec rs n g w :
  NoDup (r_intent_id <$> rs) →
  ∃ n' g' w', recover_loop rs n (g, w) = (Ok n', (g', w')) ∧
    n' - n = dlen (g_machines g') - dlen (g_machines g) ∧
    g_has_callback g' = g_has_callback g ∧
    (∀ k m, g_machines g !! k = Some m → g_machines g' !! k = Some m) ∧
    (∀ k, (∀ r, r ∈ rs → record_key r ≠ k) → g_machines g' !! k = g_machines g !! k) ∧
    (∀ r, r ∈ rs → g_machines g !! record_key r = None →
       ∃ c u, g_machines g' !! record_key r = Some (recovered_machine (g_has_callback g) r c u)).
Proof.
  revert n g w. induction rs as [|r rs IH]; intros n g w Hnd; simpl.
  { exists n, g, w. split_and!; try done; [lia|]. by intros r ?%not_elem_of_nil. }
  apply NoDup_cons in Hnd as [Hr Hnd].
  assert (∀ r', r' ∈ rs → record_key r' ≠ record_key r) as Hne.
  { intros r' Hr' Heq%generate_client_order_id_inj. apply Hr. rewrite <- Heq.
    by apply list_elem_of_fmap_2. }
  unfold mbind, st_bind. rewrite recover_one_eq.
  destruct (g_machines g !! record_key r) as [m0|] eqn:Hk.
  - destruct (IH n g w Hnd) as (n' & g' & w' & -> & Hn & Hc & Hold & Hout & Hnew).
    exists n', g', w'. split_and!; [done..| |].
    + intros k Hrs. apply Hout. intros r' ?. by apply Hrs, list_elem_of_further.
    + intros r' [->|Hr']%elem_of_cons; [congruence|by apply Hnew].
  - set (m := recovered_machine _ _ _ _).
    destruct (IH (n + 1) (put_machine (record_key r) m g) (tick (tick w)) Hnd)
      as (n' & g' & w' & -> & Hn & Hc & Hold & Hout & Hnew).
    exists n', g', w'. simpl in *. rewrite dlen_insert_new in Hn by done.
    split_and!; [done|lia|done| | |].
    + intros k m' Hm'. apply Hold. simpl. rewrite dict_lookup_insert_ne; congruence.
    + intros k Hrs. rewrite Hout.
      * simpl. rewrite dict_lookup_insert_ne; [done|]. apply Hrs. by left.
      * intros r' ?. by apply Hrs, list_elem_of_further.
    + intros r' [->|Hr']%elem_of_cons.
      * intros _. exists (ts_of w), (ts_of (tick w)). apply Hold. simpl. by dict_simp.
      * intros Hr2. apply Hnew; [done|]. simpl. rewrite dict_lookup_insert_ne; [done|].
        by apply not_eq_sym, Hne.
Qed.
End manager_props.

(** ** Idempotent creation *)

(** Whatever the registry holds, [create_or_get] for an intent returns the
    machine registered under the intent's id, new exactly when there was
    none; a second call for the same intent, even with other order fields,
    returns that machine unchanged and changes nothing; and the machines of
    the other intents are untouched. *)
Theorem create_or_get_idempotent {W} `{!HasClock W} (i s s2 d d2 : string) (q q2 : Z)
    (p p2 : float64) (g : manager) (w : W) :
  ∃ m b g' w', create_or_get i s q p d (g, w) = (Ok (m, b), (g', w')) ∧
    g_machines g' !! generate_client_order_id i = Some m ∧
    b = bool_decide (g_machines g !! generate_client_order_id i = None) ∧
    create_or_get i s2 q2 p2 d2 (g', w') = (Ok (m, false), (g', w')) ∧
    ∀ j, j ≠ i → g_machines g' !! generate_client_order_id j
                 = g_machines g !! generate_client_order_id j.
Proof.
  rewrite create_or_get_eq. destruct (g_machines g !! generate_client_order_id i) as [m|] eqn:Hk.
  - exists m, false, g, w. rewrite create_or_get_eq, Hk. by rewrite bool_decide_eq_false_2.
  - cbv zeta. set (m := set_has_callback _ _). do 4 eexists. split; [done|].
    assert (g_machines (put_machine (generate_client_order_id i) m g)
              !! generate_client_order_id i = Some m) as Hm by apply dict_lookup_insert_eq.
    rewrite create_or_get_eq, Hm, bool_decide_eq_true_2 by done. split_and!; try done.
    intros j Hj. apply dict_lookup_insert_ne. by intros <-%generate_client_order_id_inj.
Qed.

(** ** Histories of the registry *)

(** What the rest of the program does to the manager. *)
Inductive gop :=
| GCreate (intent symbol : string) (quantity : Z) (price : float64) (direction : string)
| GCall (key : string) (o : mop)
| GRecover (records : res (list drecord))
| GQuery (key : string) (broker_id : option string) (status : string) (filled : Z) (avg : float64)
| GPrune (max_age_hours : float64).

Section histories.
Context {W : Type} `{!HasClock W} (persist : machine → ST W unit).

Definition discard {S A} (m : ST S A) : ST S unit := m ;; mret ().

Definition run_gop (o : gop) : ST (manager * W) unit :=
  match o with
  | GCreate i s q p d => discard (create_or_get i s q p d)
  | GCall k o => discard (on_machine k (run_op persist o))
  | GRecover r => discard (recover_from_store (Some (st_lift r)))
  | GQuery k b s f a => discard (record_broker_query_result persist k b s f a)
  | GPrune h => discard (prune_terminals h)
  end.

Fixpoint run_gops (os : list gop) (s : manager * W) : manager * W :=
  match os with [] => s | o :: os' => run_gops os' (run_gop o s).2 end.

(** The machine under [k] is there, keeps its identity and moves forward
    in the order's life. *)
Definition evolves (m m' : machine) : Prop :=
  identity m' = identity m ∧
  rtc Lifecycle.phase_step (Lifecycle.phase_of (m_state m)) (Lifecycle.phase_of (m_state m')).

#[local] Instance evolves_preorder : PreOrder evolves.
Proof.
  split; [by split|]. intros m1 m2 m3 [H1 H2] [H3 H4]. split; [congruence|by etransitivity].
Qed.

Definition keeps (gw gw' : manager * W) : Prop :=
  (manager_ok gw.1 → manager_ok gw'.1) ∧
  ∀ k m, g_machines gw.1 !! k = Some m →
    ∃ m', g_machines gw'.1 !! k = Some m' ∧ evolves m m'.

#[local] Instance keeps_preorder : PreOrder keeps.
Proof.
  split; [intros gw; split; [done|]; intros k m Hk; by exists m|].
  intros x y z [H1 K1] [H2 K2]. split; [tauto|]. intros k m (m1 & Hm1 & ?)%K1.
  apply K2 in Hm1 as (m2 & ? & ?). exists m2. split; [done|]. by etransitivity.
Qed.

Lemma on_machine_keeps {A} k (op : MT (W:=W) A) :
  st_rel same_identity op → st_rel one_edge op → st_rel keeps (on_machine k op).
Proof.
  intros Hid Hed gw. split; [apply on_machine_ok; done|]. intros j m Hj.
  specialize (Hid (m, gw.2)). specialize (Hed (m, gw.2)).
  unfold on_machine. destruct (g_machines gw.1 !! k) as [m0|] eqn:Hk; [|by exists m].
  destruct (decide (k = j)) as [->|Hne].
  - simplify_eq. destruct (op (m, gw.2)) as [r [m' w']]. simpl in *. exists m'.
    rewrite dict_lookup_insert_eq. split; [done|]. split; [done|].
    destruct Hed as [Hs|Hs]; simpl in Hs; [by rewrite Hs|]. by apply Lifecycle.edge_phase.
  - destruct (op (m0, gw.2)) as [r [m' w']]. simpl. exists m.
    by rewrite dict_lookup_insert_ne.
Qed.

Lemma in_world_keeps {A} (c : ST W A) : st_rel keeps (in_world c).
Proof.
  intros gw. unfold in_world, st_zoom. destruct (c gw.2). split; [done|]. intros k m ?. by exists m.
Qed.

Lemma put_new_keeps k m g w w' :
  g_machines g !! k = None → k = m_client_order_id m →
  k = generate_client_order_id (m_intent_id m) → keeps (g, w) (put_machine k m g, w').
Proof.
  intros Hk H1 H2. split; [intros Hg; by apply put_machine_ok|]. intros j m0 Hj. simpl in *.
  exists m0. rewrite dict_lookup_insert_ne; [done|]. intros ->. congruence.
Qed.

Lemma create_keeps i s q p d : st_rel keeps (create_or_get (W:=W) i s q p d).
Proof.
  intros [g w]. rewrite create_or_get_eq. destruct (g_machines g !! _) eqn:Hk; [done|].
  cbv zeta. by apply put_new_keeps.
Qed.

Lemma recover_one_keeps r : st_rel keeps (recover_one (W:=W) r).
Proof.
  intros [g w]. rewrite recover_one_eq. destruct (g_machines g !! _) eqn:Hk; [done|].
  by apply put_new_keeps.
Qed.

Lemma recover_loop_keeps rs n : st_rel keeps (recover_loop (W:=W) rs n).
Proof.
  revert n. induction rs as [|r rs IH]; intros n; simpl; [apply st_rel_ret; apply _|].
  apply st_rel_bind; [apply _|apply recover_one_keeps|intros b; apply IH].
Qed.

Lemma query_keeps k b s f a : st_rel keeps (record_broker_query_result (W:=W) persist k b s f a).
Proof.
  intros [g w]. unfold record_broker_query_result, mbind at 1, st_bind, mgr, st_gets. cbn [fst].
  destruct (g_machines g !! k); [|done]. apply on_machine_keeps.
  - repeat first [apply try_transition_identity
                 |apply (run_op_identity persist (OpFill f a))
                 |apply (run_op_identity persist (OpRejection "Broker rejected"))
                 |apply (run_op_identity persist OpAcknowledgment)
                 |progress identity_tac].
  - repeat first [apply (run_op_edge persist (OpFill f a))
                 |apply (run_op_edge persist (OpRejection "Broker rejected"))
                 |apply (run_op_edge persist OpAcknowledgment)
                 |progress edge_tac].
Qed.

Definition is_prune (o : gop) : bool := match o with GPrune _ => true | _ => false end.

Lemma discard_rel {S A} (R : S → S → Prop) `{!PreOrder R} (m : ST S A) :
  st_rel R m → st_rel R (discard m).
Proof. intros Hm. apply st_rel_bind; [done..|]. intros _. by apply st_rel_ret. Qed.

Lemma run_gop_keeps o : is_prune o = false → st_rel keeps (run_gop o).
Proof.
  intros Ho. destruct o as [i s q p d|k o|r|k b s f a|h]; simpl; [..|done]; apply discard_rel;
    try apply _.
  - apply create_keeps.
  - apply on_machine_keeps; [apply run_op_identity|apply run_op_edge].
  - apply st_rel_bind; [apply _| |].
    + apply st_rel_try; [apply _| |intros e; apply st_rel_ret; apply _].
      apply st_rel_bind; [apply _|apply in_world_keeps|intros ?; apply st_rel_ret; apply _].
    + intros [rs|]; [apply recover_loop_keeps|apply st_rel_ret; apply _].
  - apply query_keeps.
Qed.

Lemma prune_eq h g w :
  prune_terminals h (g, w) =
  (let now := epoch_seconds (clk_read (clock_of w)).1 in
   let kept := dfilter (λ _ m, negb (prunable now h m)) (g_machines g) in
   (Ok (dlen (g_machines g) - dlen kept), (set_machines kept g, tick w))).
Proof.
  unfold prune_terminals, in_world, st_zoom, time_time, mbind, st_bind, now_ist, tick.
  cbn [fst snd]. by destruct (clk_read (clock_of w)).
Qed.

Lemma prune_ok h : preserves gw_ok (prune_terminals (W:=W) h).
Proof.
  intros [g w]. rewrite prune_eq. unfold gw_ok. simpl. intros [Hwf Hg].
  split; [by apply dict_filter_wf|]. intros k m. simpl. rewrite dict_filter_lookup by done.
  destruct (g_machines g !! k) as [m'|] eqn:Hk; [|done]. case_match; [|done].
  intros [= <-]. by apply Hg.
Qed.
End histories.

Lemma recover_loop_world rs n g (st : estore) : rows (recover_loop rs n (g, st)).2.2 = rows st.
Proof.
  revert n g st. induction rs as [|r rs IH]; intros n g st; [done|]. simpl.
  unfold mbind, st_bind. rewrite recover_one_eq. destruct (g_machines g !! _); [apply IH|].
  by rewrite IH.
Qed.

Lemma row_to_record_fields k row r :
  row_to_record k row = Ok r →
  r_broker_order_id r = c_broker_order_id row ∧ r_filled_quantity r = c_filled_quantity row.
Proof.
  unfold row_to_record. destruct (dstate_of_value _); [|done]. by intros [= <-].
Qed.

Lemma dstate_value_inj s s' : dstate_value s = dstate_value s' → s = s'.
Proof. by destruct s, s'. Qed.

(** C33: The registry over any history of creations, calls, recoveries, broker
    answers and prunings, whatever the persistence hook does and whichever
    calls raise: every machine stays under the id of its own intent, and,
    prunings apart, no machine is lost or replaced: the machine under a key
    keeps its order's fields and only moves forward in the abstract life of
    the order. *)
Theorem registry_invariant {W} `{!HasClock W} (persist : machine → ST W unit) (os : list gop)
    (g : manager) (w : W) :
  manager_ok g →
  let g' := (run_gops persist os (g, w)).1 in
  manager_ok g' ∧
  (forallb (λ o, negb (is_prune o)) os = true →
   ∀ k m, g_machines g !! k = Some m → ∃ m', g_machines g' !! k = Some m' ∧ evolves m m').
Proof.
  cbv zeta. revert g w. induction os as [|o os IH]; intros g w Hg; simpl.
  { split; [done|]. intros _ k m ?. by exists m. }
  destruct (run_gop persist o (g, w)) as [r [g1 w1]] eqn:E. simpl.
  assert (manager_ok g1) as Hg1.
  { destruct (is_prune o) eqn:Ho.
    - destruct o; try done. pose proof (discard_rel _ _ (prune_ok max_age_hours) (g, w) Hg) as H.
      simpl in E. rewrite E in H. apply H.
    - pose proof (run_gop_keeps persist o Ho (g, w)) as [H _]. rewrite E in H. by apply H. }
  destruct (IH g1 w1 Hg1) as [H1 H2]. split; [done|].
  intros [Ho Hos]%andb_true_iff k m Hk. apply negb_true_iff in Ho.
  pose proof (run_gop_keeps persist o Ho (g, w)) as [_ H]. rewrite E in H.
  destruct (H k m Hk) as (m1 & Hm1 & Hid & Hrtc). destruct (H2 Hos k m1 Hm1) as (m2 & ? & ? & ?).
  exists m2. split; [done|]. split; [congruence|by etransitivity].
Qed.

(** Pruning removes exactly the machines that are finished and older than
    the limit, and reports how many; every machine still open stays. *)
Theorem prune_only_terminal {W} `{!HasClock W} (h : float64) (g : manager) (w : W) :
  manager_ok g →
  ∃ n g' w', prune_terminals h (g, w) = (Ok n, (g', w')) ∧
    n = dlen (g_machines g) - dlen (g_machines g') ∧
    ∀ k, g_machines g' !! k =
      match g_machines g !! k with
      | Some m => if is_terminal m && prunable (epoch_seconds (clk_read (clock_of w)).1) h m
                  then None else Some m
      | None => None
      end.
Proof.
  intros [Hwf _]. rewrite prune_eq. do 3 eexists. split; [done|]. split; [done|].
  intros k. simpl. rewrite dict_filter_lookup by done. destruct (g_machines g !! k) as [m|]; [|done].
  unfold prunable. by destruct (is_terminal m), (_ && _).
Qed.

(** ** Restart *)

Lemma rows_to_records_ids l rs : rows_to_records l = Ok rs → r_intent_id <$> rs = l.*1.
Proof.
  revert rs. induction l as [|[k row] l IH]; intros rs; simpl; [by intros [= <-]|].
  destruct (row_to_record k row) as [r|] eqn:Hr; [|done].
  destruct (rows_to_records l) as [rs0|]; [|done]. intros [= <-]. simpl.
  apply row_to_record_inv in Hr as (-> & _). f_equal. by apply IH.
Qed.

Lemma select_open_nodup t : dict_wf t → NoDup (select_open t).*1.
Proof.
  intros Hwf. unfold select_open. rewrite order_by_perm.
  eapply sublist_NoDup; [exact Hwf|]. apply filter_keys_sublist.
Qed.

Lemma recovered_open s : s ∉ terminal_states →
  recovered_state s ∉ [FILLED; REJECTED; CANCELLED; FAILED].
Proof.
  intros H%(bool_decide_eq_false_2 _). apply (bool_decide_unpack _). destruct s; vm_compute in *; done.
Qed.

(** C31: A restart on a readable store: every open row without a machine gets
    one, in the mapped, never finished state and with the row's fills and
    broker id, but with no submission time; machines already there, and all
    other intents, are untouched; the count is the number of machines added
    and the store is only read. *)
Theorem restart_recovers (g : manager) (st : estore) :
  manager_ok g → store_ok st → quiet st →
  ∃ n g' st', recover_from_store (Some get_non_terminal_executions) (g, st) = (Ok n, (g', st')) ∧
    rows st' = rows st ∧ n = dlen (g_machines g') - dlen (g_machines g) ∧
    (∀ k m, g_machines g !! k = Some m → g_machines g' !! k = Some m) ∧
    (∀ i row s, rows st !! i = Some row → c_state row = dstate_value s → s ∉ terminal_states →
       g_machines g !! generate_client_order_id i = None →
       ∃ m, g_machines g' !! generate_client_order_id i = Some m ∧
         m_state m = recovered_state s ∧ is_terminal m = false ∧
         m_filled_quantity m = c_filled_quantity row ∧
         m_broker_order_id m = c_broker_order_id row ∧ m_submitted_at m = None) ∧
    (∀ i, (∀ row, rows st !! i = Some row → open_row row = false) →
       g_machines g' !! generate_client_order_id i = g_machines g !! generate_client_order_id i).
Proof.
  intros Hg Hok Hq. destruct (select_open_readable st Hok) as [rs Hrs].
  unfold recover_from_store, mbind, st_bind, st_try, in_world, st_zoom. cbn [fst snd].
  rewrite (get_non_terminal_quiet st Hq), Hrs. simpl. destruct Hok as [Hwf Hst].
  destruct (recover_loop_spec rs 0 g st) as (n & g' & st' & Hrun & Hn & _ & Hold & Hout & Hnew).
  { rewrite (rows_to_records_ids _ _ Hrs). by apply select_open_nodup. }
  exists n, g', st'. rewrite Hrun. split; [done|].
  assert (rows st' = rows st) as Hrows.
  { pose proof (recover_loop_world rs 0 g st) as H. by rewrite Hrun in H. }
  split_and!; [done|lia|done| |].
  - intros i row s Hi Hs Hopen Hk.
    destruct (row_to_record_ok i row (ex_intro _ s Hs)) as [r Hr].
    assert (r ∈ rs) as Hin.
    { apply (rows_to_records_elem _ _ _ Hrs). exists i, row. split; [|done].
      apply select_open_elem; [done|]. split; [done|].
      by rewrite Hs, str_mem_terminal, bool_decide_eq_false. }
    pose proof (row_to_record_fields _ _ _ Hr) as (Hb & Hf).
    pose proof (row_to_record_inv _ _ _ Hr) as (Hi2 & Hs2 & _).
    assert (r_state r = s) as Hrs2 by (apply dstate_value_inj; congruence).
    destruct (Hnew r Hin) as (c & u & Hm); [by unfold record_key; rewrite Hi2|].
    unfold record_key in Hm. rewrite Hi2 in Hm. eexists. split; [exact Hm|]. simpl.
    rewrite Hrs2. split_and!; try done. apply bool_decide_eq_false_2. simpl.
    rewrite Hrs2. by apply recovered_open.
  - intros i Hi. apply Hout. intros r Hr Heq%generate_client_order_id_inj.
    apply (rows_to_records_elem _ _ _ Hrs) in Hr as (k & row & [Hk Ho]%select_open_elem & Hr); [|done].
    apply row_to_record_inv in Hr as (Hk2 & _). subst k. rewrite <- Heq in Hi.
    specialize (Hi _ Hk). unfold open_row in Hi. by rewrite Ho in Hi.
Qed.

(** ** The broker's word on a submitted order *)

(** Before the acknowledgment is recorded, the broker's FILLED and CANCELLED
    answers are refused: the call answers [False] and the machine stays
    SUBMITTED (a FILLED answer adds its quantity to the fills all the same,
    so a repeated one counts twice). *)
Theorem submitted_query_refused {W} `{!HasClock W} (persist : machine → ST W unit)
    (k status : string) (b : option string) (f : Z) (a : float64) (g : manager) (w : W) (m : machine) :
  g_machines g !! k = Some m → m_state m = SUBMITTED → status ∈ ["FILLED"; "CANCELLED"] →
  ∃ m' w', record_broker_query_result persist k b status f a (g, w)
           = (Ok false, (put_machine k m' g, w')) ∧
    m_state m' = SUBMITTED ∧
    m_filled_quantity m' =
      (if String.eqb status "FILLED" then m_filled_quantity m + f else m_filled_quantity m).
Proof.
  intros Hk Hs Hst. unfold record_broker_query_result, mbind at 1, st_bind, mgr, st_gets. cbn [fst].
  rewrite Hk. unfold on_machine. cbn [fst snd]. rewrite Hk.
  unfold mbind at 1, self, st_gets. cbn [fst].
  set (m1 := if truthy_opt b && negb (truthy_opt (m_broker_order_id m))
             then set_broker_order_id b m else m).
  assert (∀ A (c : MT (W:=W) A),
    ((if truthy_opt b && negb (truthy_opt (m_broker_order_id m))
      then modify_self (set_broker_order_id b) else mret ()) ;; c) (m, w) = c (m1, w)) as Hset.
  { intros A c. unfold m1. by destruct (_ && _). }
  assert (m_state m1 = SUBMITTED ∧ m_filled_quantity m1 = m_filled_quantity m) as [Hs1 Hf1].
  { unfold m1. destruct (_ && _); by destruct m. }
  rewrite Hset. apply elem_of_cons in Hst as [->| ->%list_elem_of_singleton]; simpl.
  - rewrite record_fill_eq. cbv zeta.
    destruct (after_fill_fields f a (ts_of w) m1) as (Hfill & _ & Hstate).
    rewrite Hstate, Hs1. simpl. do 2 eexists. split; [done|].
    rewrite Hfill, Hstate. by rewrite Hs1, Hf1.
  - unfold try_transition_to, mbind, st_bind. rewrite validate_transition_eq, Hs1. simpl. eauto.
Qed.

(** ** Concrete instances *)

(** A registry with a submitted and a filled order. *)
Definition demo_registered (i : string) (s : ExecutionState) : string * machine :=
  (generate_client_order_id i,
   set_state s (new_machine i (generate_client_order_id i) "NIFTY" 50 (f_of_Z 100) "CALL"
                  (TsAt 0) (TsAt 0))).
Definition demo_manager : manager :=
  Manager (PyDict [demo_registered "x" SUBMITTED; demo_registered "y" FILLED]) false.

Lemma demo_manager_ok : manager_ok demo_manager.
Proof.
  split; [dict_wf_eval|]. intros k m Hk%assoc_get_in.
  simpl in Hk. rewrite !elem_of_cons, elem_of_nil in Hk.
  destruct Hk as [Hk|[Hk|[]]]; injection Hk as -> ->; done.
Defined.

Lemma registry_invariant_witness :
  let os := [GCreate "z" "NIFTY" 50 f_zero "CALL"; GCall "OPB-x" OpAcknowledgment] in
  let g' := (run_gops demo_hook os (demo_manager, Clock 0 [])).1 in
  manager_ok g' ∧
  (forallb (λ o, negb (is_prune o)) os = true →
   ∀ k m, g_machines demo_manager !! k = Some m →
     ∃ m', g_machines g' !! k = Some m' ∧ evolves m m').
Proof.
  exact (registry_invariant demo_hook
    [GCreate "z" "NIFTY" 50 f_zero "CALL"; GCall "OPB-x" OpAcknowledgment]
    demo_manager (Clock 0 []) demo_manager_ok).
Defined.

Lemma prune_only_terminal_witness :
  ∃ n g' w', prune_terminals (f_of_Z 24) (demo_manager, Clock (1000 * usec_per_hour) [])
             = (Ok n, (g', w')) ∧
    n = dlen (g_machines demo_manager) - dlen (g_machines g') ∧
    ∀ k, g_machines g' !! k =
      match g_machines demo_manager !! k with
      | Some m => if is_terminal m && prunable (epoch_seconds (1000 * usec_per_hour)) (f_of_Z 24) m
                  then None else Some m
      | None => None
      end.
Proof.
  exact (prune_only_terminal (f_of_Z 24) demo_manager (Clock (1000 * usec_per_hour) []) demo_manager_ok).
Defined.

Lemma restart_recovers_witness :
  ∃ n g' st', recover_from_store (Some get_non_terminal_executions) (demo_manager, demo_store)
              = (Ok n, (g', st')) ∧
    rows st' = rows demo_store ∧ n = dlen (g_machines g') - dlen (g_machines demo_manager) ∧
    (∀ k m, g_machines demo_manager !! k = Some m → g_machines g' !! k = Some m) ∧
    (∀ i row s, rows demo_store !! i = Some row → c_state row = dstate_value s →
       s ∉ terminal_states → g_machines demo_manager !! generate_client_order_id i = None →
       ∃ m, g_machines g' !! generate_client_order_id i = Some m ∧
         m_state m = recovered_state s ∧ is_terminal m = false ∧
         m_filled_quantity m = c_filled_quantity row ∧
         m_broker_order_id m = c_broker_order_id row ∧ m_submitted_at m = None) ∧
    (∀ i, (∀ row, rows demo_store !! i = Some row → open_row row = false) →
       g_machines g' !! generate_client_order_id i
       = g_machines demo_manager !! generate_client_order_id i).
Proof. exact (restart_recovers demo_manager demo_store demo_manager_ok demo_store_ok eq_refl). Defined.

Lemma submitted_query_refused_witness :
  ∃ m' w', record_broker_query_result demo_hook "OPB-x" (Some "B1") "FILLED" 50 (f_of_Z 100)
             (demo_manager, Clock 0 [])
           = (Ok false, (put_machine "OPB-x" m' demo_manager, w')) ∧
    m_state m' = SUBMITTED ∧ m_filled_quantity m' = 0 + 50.
Proof.
  refine (submitted_query_refused demo_hook "OPB-x" "FILLED" (Some "B1") 50 (f_of_Z 100)
            demo_manager (Clock 0 []) (demo_registered "x" SUBMITTED).2 eq_refl eq_refl _).
  in_list.
Defined.
