(* ===== verification/OrderLifecycle.v ===== *)
(** * The order sweepers

    [core/execution/order_lifecycle.py]: the stale-order timeout and the
    acknowledgment watchdog, which walk over the machines of the manager and
    talk to the broker. *)
From S2P Require Import Prelude PyStr Float64 PyDict Broker DurableStore ExecState ExecManager.

(** ** Data *)

(** The counters of [run_stale_order_timeout]'s result. *)
Record stale_result := StaleResult {
  sr_checked : Z; sr_cancelled : Z; sr_already_terminal : Z; sr_errors : Z }.

Definition sr_inc_checked r := StaleResult (sr_checked r + 1) (sr_cancelled r) (sr_already_terminal r) (sr_errors r).
Definition sr_inc_cancelled r := StaleResult (sr_checked r) (sr_cancelled r + 1) (sr_already_terminal r) (sr_errors r).
Definition sr_inc_terminal r := StaleResult (sr_checked r) (sr_cancelled r) (sr_already_terminal r + 1) (sr_errors r).
Definition sr_inc_errors r := StaleResult (sr_checked r) (sr_cancelled r) (sr_already_terminal r) (sr_errors r + 1).

(** The counters of [run_ack_watchdog]'s result. *)
Record ack_result := AckResult {
  ar_checked : Z; ar_acknowledged : Z; ar_still_pending : Z; ar_errors : Z }.

Definition ar_inc_checked r := AckResult (ar_checked r + 1) (ar_acknowledged r) (ar_still_pending r) (ar_errors r).
Definition ar_inc_acknowledged r := AckResult (ar_checked r) (ar_acknowledged r + 1) (ar_still_pending r) (ar_errors r).
Definition ar_inc_pending r := AckResult (ar_checked r) (ar_acknowledged r) (ar_still_pending r + 1) (ar_errors r).
Definition ar_inc_errors r := AckResult (ar_checked r) (ar_acknowledged r) (ar_still_pending r) (ar_errors r + 1).

Definition stale_states : list ExecutionState :=
  [SUBMITTED; ACKNOWLEDGED; CANCEL_PENDING; PENDING_SUBMISSION; VALIDATED; PERSISTED].

(** The timestamp the age is measured from. *)
Definition last_activity (m : machine) : tstamp :=
  match m_submitted_at m with
  | Some ts => if truthy_ts ts then ts else m_updated_at m
  | None => m_updated_at m
  end.

Definition stale_message (age_seconds : float64) (s : ExecutionState) : string :=
  String.append "Stale order timeout ("
    (String.append (fmt_0f age_seconds)
       (String.append "s in " (String.append (state_value s) ")"))).

(** [datetime.fromisoformat] in the sweepers' [try]. *)
Definition parse_errors : list exn_class := [ValueError; TypeError].

(** ** Operations

    The result dictionary [R] is updated while the sweep goes on, next to
    the manager and the world, which has the broker and the persistence. *)
Section sweepers.
Context {W : Type} `{!HasClock W, !BrokerPort W} (persist : machine → ST W unit).

Section counters.
Context {R : Type}.
Definition LT (A : Type) : Type := ST (R * (manager * W)) A.
Definition count (f : R → R) : LT unit := st_modify (λ s, (f s.1, s.2)).
Definition in_mgr {A} (c : GT (W:=W) A) : LT A := st_zoom snd (λ gw s, (s.1, gw)) c.
Definition at_broker {A} (c : ST W A) : LT A := in_mgr (in_world c).
(** [datetime.fromisoformat(ts)], with the [except] that counts an error
    and goes to the next machine. *)
Definition parse_ts (ts : tstamp) (on_error : LT unit) : LT (option Z) :=
  st_try (t ← st_lift (fromisoformat ts); mret (Some t)) parse_errors
    (λ _, on_error ;; mret None).
End counters.
#[global] Arguments LT R A : clear implicits.

(** Cancelling at the broker: the listed exceptions are logged only. *)
Definition cancel_stale (broker_order_id : option string) : LT stale_result unit :=
  match broker_order_id, broker_cancel_order with
  | Some bid, Some cancel_order =>
      if truthy_str bid then
        st_try (at_broker (cancel_order bid) ;; mret ())
          [ValueError; OSError; ConnectionError] (λ _, mret ())
      else mret ()
  | _, _ => mret ()
  end.

(** One round of [run_stale_order_timeout]. *)
Definition stale_one (now : Z) (max_stale_seconds : float64) (k : string) : LT stale_result unit :=
  m ← in_mgr (on_machine k self);
  if is_terminal m then count sr_inc_terminal
  else if negb (bool_decide (m_state m ∈ stale_states)) then mret ()
  else
    last ← parse_ts (last_activity m) (count sr_inc_errors);
    match last with
    | None => mret ()
    | Some last =>
        let age_seconds := total_seconds (now - last) in
        if flt age_seconds max_stale_seconds then mret ()
        else
          count sr_inc_checked ;;
          cancel_stale (m_broker_order_id m) ;;
          in_mgr (on_machine k (record_failure persist (stale_message age_seconds (m_state m)))) ;;
          count sr_inc_cancelled
    end.

Definition stale_loop (max_stale_seconds : float64) : LT stale_result unit :=
  now ← at_broker now_ist;
  gw ← in_mgr st_get;
  st_iter (stale_one now max_stale_seconds) (dkeys (g_machines gw.1)).

(** [run_stale_order_timeout] *)
Definition run_stale_order_timeout (max_stale_seconds : float64) : GT (W:=W) stale_result := λ gw,
  match st_try (stale_loop max_stale_seconds) [ValueError; OSError; AttributeError]
          (λ _, count sr_inc_errors) (StaleResult 0 0 0 0, gw) with
  | (Ok _, (r, gw')) => (Ok r, gw')
  | (Raise e, (_, gw')) => (Raise e, gw')
  end.

(** The part of a watchdog round inside its [try]. *)
Definition ack_query (k : string) : LT ack_result unit :=
  m ← in_mgr (on_machine k self);
  if negb (truthy_opt (m_broker_order_id m)) then count ar_inc_errors
  else
    status ← match broker_get_order_status with
             | Some get_order_status => at_broker (get_order_status (str_or (m_broker_order_id m) ""))
             | None => st_raise (PyExn AttributeError "get_order_status")
             end;
    match status with
    | None => count ar_inc_pending
    | Some status =>
        let status_upper := str_upper status in
        if str_mem status_upper ["COMPLETE"; "FILLED"; "EXECUTED"] then
          in_mgr (on_machine k
            (record_acknowledgment persist ;; record_fill persist (m_quantity m) (m_price m))) ;;
          count ar_inc_acknowledged
        else if str_mem status_upper ["REJECTED"; "CANCELLED"; "EXPIRED"] then
          in_mgr (on_machine k (try_transition_to persist REJECTED)) ;;
          count ar_inc_acknowledged
        else count ar_inc_pending
    end.

(** One round of [run_ack_watchdog]. *)
Definition ack_one (now : Z) (max_ack_age_seconds : float64) (k : string) : LT ack_result unit :=
  m ← in_mgr (on_machine k self);
  if negb (bool_decide (m_state m = SUBMITTED)) then mret ()
  else
    match m_submitted_at m with
    | None => mret ()
    | Some ts =>
        submitted ← parse_ts ts (count ar_inc_errors);
        match submitted with
        | None => mret ()
        | Some submitted =>
            let age := total_seconds (now - submitted) in
            if flt age max_ack_age_seconds then mret ()
            else
              count ar_inc_checked ;;
              st_try (ack_query k) [ValueError; OSError; AttributeError]
                (λ _, count ar_inc_errors)
        end
    end.

Definition ack_loop (max_ack_age_seconds : float64) : LT ack_result unit :=
  gw ← in_mgr st_get;
  now ← at_broker now_ist;
  st_iter (ack_one now max_ack_age_seconds) (dkeys (g_machines gw.1)).

(** [run_ack_watchdog] *)
Definition run_ack_watchdog (max_ack_age_seconds : float64) : GT (W:=W) ack_result := λ gw,
  match ack_loop max_ack_age_seconds (AckResult 0 0 0 0, gw) with
  | (Ok _, (r, gw')) => (Ok r, gw')
  | (Raise e, (_, gw')) => (Raise e, gw')
  end.
End sweepers.

(** ** A sweep over all machines *)

Section sweep.
Context {W R C : Type} (body : string → LT (W:=W) R unit).
(** The case a machine falls in, its effect on the counters, and what the
    round does to the machine. *)
Context (cls : machine → C) (bump : C → R → R) (post : C → machine → machine → Prop).
Hypothesis body_spec : ∀ k m r g w, g_machines g !! k = Some m →
  ∃ m' w', body k (r, (g, w)) = (Ok (), (bump (cls m) r, (put_machine k m' g, w'))) ∧
           post (cls m) m m'.

Lemma sweep_loop l r g w :
  NoDup l.*1 → Forall (λ p : string * machine, g_machines g !! p.1 = Some p.2) l →
  ∃ g' w', st_iter body l.*1 (r, (g, w)) =
           (Ok (), (foldl (λ r c, bump c r) r (cls <$> l.*2), (g', w'))) ∧
    (∀ k, k ∉ l.*1 → g_machines g' !! k = g_machines g !! k) ∧
    ∀ k m, (k, m) ∈ l → ∃ m', g_machines g' !! k = Some m' ∧ post (cls m) m m'.
Proof.
  revert r g w. induction l as [|[k m] l IH]; intros r g w; cbn [fmap list_fmap st_iter fst snd foldl].
  { intros _ _. exists g, w. split; [done|]. split; [done|]. by intros k m ?%not_elem_of_nil. }
  intros [Hk Hnd]%NoDup_cons [Hm Hl]%Forall_cons. simpl in Hm.
  destruct (body_spec k m r g w Hm) as (m1 & w1 & Hb & Hpost).
  unfold mbind, st_bind. rewrite Hb.
  destruct (IH (bump (cls m) r) (put_machine k m1 g) w1) as (g' & w' & Hrun & Hout & Hin); [done| |].
  { rewrite Forall_forall in Hl |- *. intros [j n] Hj. simpl.
    rewrite dict_lookup_insert_ne; [by apply (Hl (j, n))|]. intros ->. apply Hk.
    by apply (list_elem_of_fmap_2 fst l (j, n)). }
  exists g', w'. split; [done|]. split.
  - intros j [Hj1 Hj2]%not_elem_of_cons. rewrite Hout by done. simpl.
    by rewrite dict_lookup_insert_ne by done.
  - intros j n [Heq|Hj]%elem_of_cons; [|by apply Hin]. simplify_eq.
    exists m1. split; [|done]. rewrite Hout by done. apply dict_lookup_insert_eq.
Qed.

(** The loop over the whole registry. *)
Lemma sweep_all r g w :
  dict_wf (g_machines g) →
  ∃ g' w', st_iter body (dkeys (g_machines g)) (r, (g, w)) =
           (Ok (), (foldl (λ r c, bump c r) r (cls <$> dvalues (g_machines g)), (g', w'))) ∧
    ∀ k, match g_machines g !! k with
         | Some m => ∃ m', g_machines g' !! k = Some m' ∧ post (cls m) m m'
         | None => g_machines g' !! k = None
         end.
Proof.
  intros Hwf. destruct (sweep_loop (items (g_machines g)) r g w) as (g' & w' & Hrun & Hout & Hin).
  - done.
  - apply Forall_forall. intros [k m] Hin. by apply dict_items_lookup.
  - exists g', w'. split; [done|]. intros k. destruct (g_machines g !! k) as [m|] eqn:Hk.
    + apply Hin. by apply dict_items_lookup.
    + rewrite <- Hk. apply Hout. by apply assoc_get_none in Hk.
Qed.
End sweep.

(** A read of the machine under [k]. *)
Lemma read_machine {W R} (r : R) (g : manager) (w : W) k m :
  g_machines g !! k = Some m → in_mgr (on_machine k self) (r, (g, w)) = (Ok m, (r, (g, w))).
Proof. intros Hk. unfold in_mgr, on_machine, st_zoom. simpl. rewrite Hk. simpl. by rewrite put_machine_id. Qed.

(** ** The stale-order timeout *)

Inductive stale_case := SweptTerminal | SweptOther | SweptBadTime | SweptYoung | SweptStale.

(** What the timeout makes of a machine at the instant [now]. *)
Definition stale_case_of (now : Z) (max_stale : float64) (m : machine) : stale_case :=
  if is_terminal m then SweptTerminal
  else if negb (bool_decide (m_state m ∈ stale_states)) then SweptOther
  else match last_activity m with
       | TsRaw _ => SweptBadTime
       | TsAt t => if flt (total_seconds (now - t)) max_stale then SweptYoung else SweptStale
       end.

Definition stale_bump (c : stale_case) : stale_result → stale_result :=
  match c with
  | SweptTerminal => sr_inc_terminal
  | SweptBadTime => sr_inc_errors
  | SweptStale => λ r, sr_inc_cancelled (sr_inc_checked r)
  | SweptOther | SweptYoung => id
  end.

Definition stale_post (c : stale_case) (m m' : machine) : Prop :=
  match c with
  | SweptStale => m_state m' = FAILED ∧ identity m' = identity m ∧ is_Some (m_error_message m')
  | _ => m' = m
  end.

Lemma stale_can_fail s : s ∈ stale_states → FAILED ∈ VALID_TRANSITIONS s.
Proof.
  intros H%(bool_decide_eq_true_2 _). apply (bool_decide_unpack _). revert H.
  by destruct s; vm_compute.
Qed.

Section stale.
Context {W : Type} `{!HasClock W, !BrokerPort W} (persist : machine → ST W unit).
Implicit Types (g : manager) (w : W) (m : machine).
Hypothesis persist_ok : ∀ m w, (persist m w).1 = Ok ().
Hypothesis cancel_ok : ∀ cancel, broker_cancel_order (B:=W) = Some cancel →
  ∀ id w e, (cancel id w).1 = Raise e → catches [ValueError; OSError; ConnectionError] e = true.

Lemma cancel_stale_quiet b r g w :
  ∃ w', cancel_stale b (r, (g, w)) = (Ok (), (r, (g, w'))).
Proof.
  unfold cancel_stale. destruct b as [bid|]; [|eauto].
  destruct broker_cancel_order as [cancel|] eqn:Hc; [|eauto].
  destruct (truthy_str bid); [|eauto]. pose proof (cancel_ok cancel eq_refl bid w) as H.
  unfold st_try, mbind, st_bind, at_broker, in_mgr, in_world, st_zoom. cbn [fst snd].
  destruct (cancel bid w) as [[x|e] w'] eqn:E; [eauto|].
  cbn [fst snd]. rewrite (H e) by done. eauto.
Qed.

Lemma record_failure_ok msg m w :
  FAILED ∈ VALID_TRANSITIONS (m_state m) →
  ∃ m' w', record_failure persist msg (m, w) = (Ok true, (m', w')) ∧
    m_state m' = FAILED ∧ identity m' = identity m ∧ m_error_message m' = Some msg.
Proof.
  intros Hv. unfold record_failure, mbind, st_bind, modify_self, st_modify. cbn [fst snd].
  set (m1 := set_error_message (Some msg) m).
  assert (m_state m1 = m_state m) as Hs by by destruct m.
  destruct (try_transition_ok persist persist_ok FAILED m1 w) as (ts & w' & H).
  - by rewrite Hs.
  - rewrite Hs. intros Heq. rewrite <- Heq in Hv. by apply not_elem_of_nil in Hv.
  - rewrite H. do 2 eexists. split; [done|]. by destruct m.
Qed.

Lemma stale_one_spec now mx k m r g w :
  g_machines g !! k = Some m →
  ∃ m' w', stale_one persist now mx k (r, (g, w)) =
           (Ok (), (stale_bump (stale_case_of now mx m) r, (put_machine k m' g, w'))) ∧
           stale_post (stale_case_of now mx m) m m'.
Proof.
  intros Hk. unfold stale_one, mbind at 1, st_bind at 1. rewrite (read_machine _ _ _ _ m Hk).
  unfold stale_case_of. destruct (is_terminal m).
  { exists m, w. by rewrite put_machine_id. }
  destruct (bool_decide (m_state m ∈ stale_states)) eqn:Hst; simpl.
  2: { exists m, w. by rewrite put_machine_id. }
  apply bool_decide_eq_true in Hst. unfold parse_ts, mbind, st_bind, st_try, st_lift.
  destruct (last_activity m) as [t|s]; cbn [fromisoformat]; simpl.
  2: { exists m, w. by rewrite put_machine_id. }
  destruct (flt (total_seconds (now - t)) mx); simpl.
  { exists m, w. by rewrite put_machine_id. }
  destruct (cancel_stale_quiet (m_broker_order_id m) (sr_inc_checked r) g w) as [w1 ->].
  unfold in_mgr, on_machine, st_zoom. cbn [fst snd]. rewrite Hk.
  destruct (record_failure_ok (stale_message (total_seconds (now - t)) (m_state m)) m w1)
    as (m' & w2 & -> & Hs & Hi & He); [by apply stale_can_fail|].
  exists m', w2. simpl. split_and!; try done.
Qed.
End stale.

(** The stale-order timeout, for a broker that raises nothing but what the
    sweep catches and a persistence hook that returns: it terminates
    normally; exactly the machines outside the finished, UNKNOWN, PARTIAL_FILL
    and RECONCILING states whose last activity is at least the limit old end
    up FAILED, with their order fields kept; every other machine is
    untouched; and the counters are the numbers of the cases. *)
Theorem stale_timeout_exact {W} `{!HasClock W, !BrokerPort W} (persist : machine → ST W unit)
    (mx : float64) (g : manager) (w0 : W) :
  (∀ m w, (persist m w).1 = Ok ()) →
  (∀ cancel, broker_cancel_order (B:=W) = Some cancel →
     ∀ id w e, (cancel id w).1 = Raise e → catches [ValueError; OSError; ConnectionError] e = true) →
  manager_ok g →
  let case := stale_case_of (clk_read (clock_of w0)).1 mx in
  ∃ g' w', run_stale_order_timeout persist mx (g, w0) =
           (Ok (foldl (λ r c, stale_bump c r) (StaleResult 0 0 0 0) (case <$> dvalues (g_machines g))),
            (g', w')) ∧
    ∀ k, match g_machines g !! k with
         | Some m => ∃ m', g_machines g' !! k = Some m' ∧ stale_post (case m) m m'
         | None => g_machines g' !! k = None
         end.
Proof.
  intros Hp Hc [Hwf _] case. unfold run_stale_order_timeout, stale_loop, st_try.
  unfold mbind, st_bind. unfold at_broker, in_mgr at 1 2, in_world, st_zoom. cbn [fst snd].
  rewrite now_ist_total. cbn [fst snd st_get].
  destruct (sweep_all _ _ _ _ (λ k m r g w, stale_one_spec persist Hp Hc (clk_read (clock_of w0)).1 mx k m r g w)
    (StaleResult 0 0 0 0) g (tick w0) Hwf) as (g' & w' & Hrun & Hpost).
  unfold tick in Hrun. rewrite Hrun. eauto.
Qed.

(** ** The acknowledgment watchdog *)

Inductive ack_case :=
| AckSkipped | AckBadTime | AckNoId | AckPending | AckFilled | AckRejected.

Section ack.
Context {W : Type} `{!HasClock W, !BrokerPort W} (persist : machine → ST W unit).
Implicit Types (g : manager) (w : W) (m : machine).

(** What the watchdog makes of a machine when the broker's word for an
    order is [answer]. *)
Definition ack_case_of (answer : string → option string) (now : Z) (mx : float64) (m : machine) :
    ack_case :=
  if negb (bool_decide (m_state m = SUBMITTED)) then AckSkipped
  else
    match m_submitted_at m with
    | None => AckSkipped
    | Some (TsRaw _) => AckBadTime
    | Some (TsAt t) =>
        if flt (total_seconds (now - t)) mx then AckSkipped
        else if negb (truthy_opt (m_broker_order_id m)) then AckNoId
        else match answer (str_or (m_broker_order_id m) "") with
             | None => AckPending
             | Some s =>
                 if str_mem (str_upper s) ["COMPLETE"; "FILLED"; "EXECUTED"] then AckFilled
                 else if str_mem (str_upper s) ["REJECTED"; "CANCELLED"; "EXPIRED"] then AckRejected
                 else AckPending
             end
    end.

Definition ack_bump (c : ack_case) (r : ack_result) : ack_result :=
  match c with
  | AckSkipped => r
  | AckBadTime => ar_inc_errors r
  | AckNoId => ar_inc_errors (ar_inc_checked r)
  | AckPending => ar_inc_pending (ar_inc_checked r)
  | AckFilled | AckRejected => ar_inc_acknowledged (ar_inc_checked r)
  end.

Definition ack_post (c : ack_case) (m m' : machine) : Prop :=
  match c with
  | AckFilled =>
      m_state m' = FILLED ∧ identity m' = identity m ∧
      m_filled_quantity m' = m_filled_quantity m + m_quantity m
  | AckRejected => m_state m' = REJECTED ∧ identity m' = identity m
  | _ => m' = m
  end.

Hypothesis persist_ok : ∀ m w, (persist m w).1 = Ok ().
Context (get_status : string → ST W (option string)) (answer : string → option string).
Hypothesis has_status : broker_get_order_status (B:=W) = Some get_status.
Hypothesis answers : ∀ id w, (get_status id w).1 = Ok (answer id).

(** Acknowledgment and fill of the whole quantity, from SUBMITTED. *)
Lemma ack_then_fill m w :
  m_state m = SUBMITTED →
  ∃ m' w', (record_acknowledgment persist ;; record_fill persist (m_quantity m) (m_price m)) (m, w)
           = (Ok true, (m', w')) ∧ ack_post AckFilled m m'.
Proof.
  intros Hs. unfold record_acknowledgment, mbind at 1, st_bind at 1, mbind at 1, st_bind at 1, self, st_gets.
  cbn [fst]. rewrite Hs. cbn [fst snd].
  change (bool_decide (SUBMITTED = SUBMITTED)) with true. cbv iota.
  unfold mbind, st_bind, outside, st_zoom, modify_self, st_modify. cbn [fst snd].
  rewrite format_ts_total. cbn [fst snd].
  set (m1 := set_acknowledged_at _ m).
  assert (m_state m1 = SUBMITTED ∧ identity m1 = identity m ∧
          m_filled_quantity m1 = m_filled_quantity m) as (Hs1 & Hi1 & Hf1) by by destruct m.
  destruct (try_transition_ok persist persist_ok ACKNOWLEDGED m1 (tick w)) as (ts & w1 & ->);
    [rewrite Hs1; in_list|by rewrite Hs1|].
  set (m2 := set_updated_at ts (set_state ACKNOWLEDGED m1)).
  assert (m_state m2 = ACKNOWLEDGED ∧ identity m2 = identity m ∧
          m_filled_quantity m2 = m_filled_quantity m) as (Hs2 & Hi2 & Hf2).
  { rewrite <- Hi1, <- Hf1. unfold m2. by destruct m1. }
  clearbody m2. rewrite record_fill_eq. cbv zeta.
  destruct (after_fill_fields (m_quantity m) (m_price m) (ts_of w1) m2) as (Hf3 & Hq3 & Hs3).
  assert (identity (after_fill (m_quantity m) (m_price m) (ts_of w1) m2) = identity m) as Hi3.
  { rewrite <- Hi2. by destruct m2. }
  set (m3 := after_fill _ _ _ _) in *. clearbody m3. rewrite Hs3, Hs2. simpl.
  assert (m_quantity m3 = m_quantity m) as -> by (unfold identity in Hi3; congruence).
  rewrite Z.leb_refl.
  destruct (try_transition_ok persist persist_ok FILLED m3 (tick w1)) as (ts2 & w3 & ->);
    [rewrite Hs3, Hs2; in_list|by rewrite Hs3, Hs2|].
  do 2 eexists. split; [done|]. rewrite <- Hi3, <- Hf2, <- Hf3. by destruct m3.
Qed.

Lemma reject_submitted m w :
  m_state m = SUBMITTED →
  ∃ m' w', try_transition_to persist REJECTED (m, w) = (Ok true, (m', w')) ∧
    ack_post AckRejected m m'.
Proof.
  intros Hs. destruct (try_transition_ok persist persist_ok REJECTED m w) as (ts & w' & ->);
    [rewrite Hs; in_list|by rewrite Hs|].
  do 2 eexists. split; [done|]. by destruct m.
Qed.

(** A call whose result is dropped, and a count. *)
Lemma call_and_count {A R} k (op : MT (W:=W) A) a (f : R → R) r g w m m' w' :
  g_machines g !! k = Some m → op (m, w) = (Ok a, (m', w')) →
  (in_mgr (on_machine k op) ;; count f) (r, (g, w)) = (Ok (), (f r, (put_machine k m' g, w'))).
Proof.
  intros Hk Hop. unfold mbind, st_bind, in_mgr, on_machine, st_zoom. simpl. by rewrite Hk, Hop.
Qed.

Lemma ack_query_spec now mx k m r g w :
  g_machines g !! k = Some m → m_state m = SUBMITTED →
  let c := ack_case_of answer now mx m in
  c ≠ AckSkipped → c ≠ AckBadTime →
  ∃ m' w', ack_query persist k (ar_inc_checked r, (g, w)) =
           (Ok (), (ack_bump c r, (put_machine k m' g, w'))) ∧ ack_post c m m'.
Proof.
  intros Hk Hs. cbv zeta. unfold ack_case_of. rewrite Hs.
  change (negb (bool_decide (SUBMITTED = SUBMITTED))) with false. cbv iota.
  destruct (m_submitted_at m) as [[t|t]|]; [|done..].
  destruct (flt _ mx); [done|]. intros _ _.
  unfold ack_query, mbind at 1, st_bind at 1. rewrite (read_machine _ _ _ _ m Hk).
  destruct (truthy_opt (m_broker_order_id m)); cbn [negb].
  2: { exists m, w. by rewrite put_machine_id. }
  rewrite has_status. pose proof (answers (str_or (m_broker_order_id m) "") w) as Ha.
  unfold mbind at 1, st_bind at 1, at_broker, in_mgr at 1, in_world, st_zoom. cbn [fst snd].
  destruct (get_status _ w) as [o w1]. simpl in Ha. subst o.
  destruct (answer _) as [s|]; [|exists m, w1; by rewrite put_machine_id].
  destruct (str_mem (str_upper s) ["COMPLETE"; "FILLED"; "EXECUTED"]).
  { destruct (ack_then_fill m w1 Hs) as (m' & w2 & Hop & Hpost). exists m', w2.
    split; [|done]. exact (call_and_count _ _ _ ar_inc_acknowledged (ar_inc_checked r) _ _ _ _ _ Hk Hop). }
  destruct (str_mem (str_upper s) ["REJECTED"; "CANCELLED"; "EXPIRED"]).
  { destruct (reject_submitted m w1 Hs) as (m' & w2 & Hop & Hpost). exists m', w2.
    split; [|done]. exact (call_and_count _ _ _ ar_inc_acknowledged (ar_inc_checked r) _ _ _ _ _ Hk Hop). }
  exists m, w1. by rewrite put_machine_id.
Qed.

Lemma ack_one_spec now mx k m r g w :
  g_machines g !! k = Some m →
  ∃ m' w', ack_one persist now mx k (r, (g, w)) =
           (Ok (), (ack_bump (ack_case_of answer now mx m) r, (put_machine k m' g, w'))) ∧
           ack_post (ack_case_of answer now mx m) m m'.
Proof.
  intros Hk. pose proof (ack_query_spec now mx k m r g w Hk) as Hq.
  unfold ack_one, mbind at 1, st_bind at 1. rewrite (read_machine _ _ _ _ m Hk).
  unfold ack_case_of in *. destruct (bool_decide (m_state m = SUBMITTED)) eqn:Hs; simpl in *.
  2: { exists m, w. by rewrite put_machine_id. }
  apply bool_decide_eq_true in Hs. specialize (Hq Hs).
  destruct (m_submitted_at m) as [[t|t]|]; simpl.
  - unfold parse_ts, mbind, st_bind, st_try, st_lift. cbn [fromisoformat]. simpl.
    destruct (flt (total_seconds (now - t)) mx); [exists m, w; by rewrite put_machine_id|].
    destruct Hq as (m' & w' & Hrun & Hpost).
    { by repeat case_match. }
    { by repeat case_match. }
    unfold st_try. simpl. rewrite Hrun. eauto.
  - exists m, w. by rewrite put_machine_id.
  - exists m, w. by rewrite put_machine_id.
Qed.
End ack.

(** The watchdog, for a broker whose word on an order does not change during
    the sweep and a persistence hook that returns: it terminates normally;
    exactly the SUBMITTED machines with a submission time at least the limit
    old and a broker id that the broker calls complete end up FILLED with
    the order's whole quantity added, those it calls rejected, cancelled or
    expired end up REJECTED, every other machine is untouched (so a machine
    recovered after a restart, which has no submission time, is never asked
    about); and the counters are the numbers of the cases. *)
Theorem ack_watchdog_exact {W} `{!HasClock W, !BrokerPort W} (persist : machine → ST W unit)
    (get_status : string → ST W (option string)) (answer : string → option string)
    (mx : float64) (g : manager) (w0 : W) :
  (∀ m w, (persist m w).1 = Ok ()) →
  broker_get_order_status (B:=W) = Some get_status →
  (∀ id w, (get_status id w).1 = Ok (answer id)) →
  manager_ok g →
  let case := ack_case_of answer (clk_read (clock_of w0)).1 mx in
  ∃ g' w', run_ack_watchdog persist mx (g, w0) =
           (Ok (foldl (λ r c, ack_bump c r) (AckResult 0 0 0 0) (case <$> dvalues (g_machines g))),
            (g', w')) ∧
    ∀ k, match g_machines g !! k with
         | Some m => ∃ m', g_machines g' !! k = Some m' ∧ ack_post (case m) m m'
         | None => g_machines g' !! k = None
         end.
Proof.
  intros Hp Hb Ha [Hwf _] case. unfold run_ack_watchdog, ack_loop.
  unfold mbind, st_bind. unfold at_broker, in_mgr at 1 2, in_world, st_zoom. cbn [fst snd st_get].
  rewrite now_ist_total. cbn [fst snd].
  destruct (sweep_all _ _ _ _
    (λ k m r g w, ack_one_spec persist Hp get_status answer Hb Ha (clk_read (clock_of w0)).1 mx k m r g w)
    (AckResult 0 0 0 0) g (tick w0) Hwf) as (g' & w' & Hrun & Hpost).
  unfold tick in Hrun. rewrite Hrun. eauto.
Qed.

(** ** Concrete instances *)

(** A world with a scripted broker and the clock. *)
#[global] Instance clocked_clock {B} : HasClock (clock * B) :=
  {| clock_of := fst; set_clock := λ c w, (c, w.2) |}.

(** A broker that refuses every cancellation and calls every order complete. *)
Definition steady_broker : Type := unit.
#[global] Instance steady_port : BrokerPort (clock * steady_broker) := {|
  broker_get_order_status := Some (λ id w, (Ok (Some "complete"), w));
  broker_cancel_order := Some (λ id w, (Raise (PyExn ConnectionError "down"), w))
|}.

Definition steady_hook : machine → ST (clock * steady_broker) unit := λ _, mret ().

(** An order submitted at 0, looked at an hour later. *)
Definition demo_sweep_manager : manager :=
  put_machine "OPB-x"
    (set_submitted_at (TsAt 0) (set_broker_order_id (Some "B1") (demo_registered "x" SUBMITTED).2))
    demo_manager.
Definition demo_sweep_world : clock * steady_broker := (Clock usec_per_hour [], ()).

Lemma demo_sweep_ok : manager_ok demo_sweep_manager.
Proof. by apply put_machine_ok; [apply demo_manager_ok|..]. Defined.

Lemma stale_timeout_exact_witness :
  let case := stale_case_of usec_per_hour (f_of_Z 300) in
  ∃ g' w', run_stale_order_timeout steady_hook (f_of_Z 300) (demo_sweep_manager, demo_sweep_world) =
           (Ok (StaleResult 1 1 1 0), (g', w')) ∧
    ∀ k, match g_machines demo_sweep_manager !! k with
         | Some m => ∃ m', g_machines g' !! k = Some m' ∧ stale_post (case m) m m'
         | None => g_machines g' !! k = None
         end.
Proof.
  refine (stale_timeout_exact steady_hook (f_of_Z 300) demo_sweep_manager demo_sweep_world
            (λ _ _, eq_refl) _ demo_sweep_ok).
  intros cancel [= <-] id w e [= <-]. reflexivity.
Defined.

Lemma ack_watchdog_exact_witness :
  let case := ack_case_of (λ _, Some "complete") usec_per_hour (f_of_Z 30) in
  ∃ g' w', run_ack_watchdog steady_hook (f_of_Z 30) (demo_sweep_manager, demo_sweep_world) =
           (Ok (AckResult 1 1 0 0), (g', w')) ∧
    ∀ k, match g_machines demo_sweep_manager !! k with
         | Some m => ∃ m', g_machines g' !! k = Some m' ∧ ack_post (case m) m m'
         | None => g_machines g' !! k = None
         end.
Proof.
  exact (ack_watchdog_exact steady_hook (λ id w, (Ok (Some "complete"), w)) (λ _, Some "complete")
           (f_of_Z 30) demo_sweep_manager demo_sweep_world (λ _ _, eq_refl) eq_refl
           (λ _ _, eq_refl) demo_sweep_ok).
Defined.
