(* ===== verification/Idempotency.v ===== *)
(** * Duplicate detection by idempotency key

    [core/execution/idempotency/manager.py] ([IdempotencyManager]: confirmed
    results and in-flight markers in memory, mirrored in SQLite) and
    [core/services/idempotency_engine.py] ([IdempotencyEngine]: a manager and
    a local cache of the latest results). *)
From S2P Require Import Prelude PyStr PyDict.

(** ** Data *)

(** A row of [idempotency_keys]. *)
Record irow (V : Type) := IRow { k_ts : Z; k_result : option V; k_status : string }.
Arguments IRow {V} k_ts k_result k_status.
Arguments k_ts {V} i : rename.
Arguments k_result {V} i : rename.
Arguments k_status {V} i : rename.

(** [IdempotencyManager]; the values are the results of orders. *)
Record idem (V : Type) := Idem {
  i_clk : clock;
  i_cache : pydict (Z * V);
  i_in_flight : pydict Z;
  i_cache_size : Z;
  i_expiry_hours : Z;
  i_persist : option (dbase (irow V))
}.
Arguments Idem {V} i_clk i_cache i_in_flight i_cache_size i_expiry_hours i_persist.
Arguments i_clk {V} i : rename.
Arguments i_cache {V} i : rename.
Arguments i_in_flight {V} i : rename.
Arguments i_cache_size {V} i : rename.
Arguments i_expiry_hours {V} i : rename.
Arguments i_persist {V} i : rename.

#[global] Instance idem_clock V : HasClock (idem V) :=
  {| clock_of := i_clk;
     set_clock := λ c s, Idem c (i_cache s) (i_in_flight s) (i_cache_size s) (i_expiry_hours s)
                           (i_persist s) |}.

Definition set_cache {V} (d : pydict (Z * V)) (s : idem V) : idem V :=
  Idem (i_clk s) d (i_in_flight s) (i_cache_size s) (i_expiry_hours s) (i_persist s).
Definition set_in_flight {V} (d : pydict Z) (s : idem V) : idem V :=
  Idem (i_clk s) (i_cache s) d (i_cache_size s) (i_expiry_hours s) (i_persist s).
Definition set_persist {V} (p : option (dbase (irow V))) (s : idem V) : idem V :=
  Idem (i_clk s) (i_cache s) (i_in_flight s) (i_cache_size s) (i_expiry_hours s) p.

(** The exceptions of the persistence that are logged only. *)
Definition idem_errors : list exn_class := [SqliteError; OSError; JSONDecodeError].

Definition usec_per_day : Z := 24 * usec_per_hour.

(** [ts > datetime('now', '-24 hours')] and its converse [<] as SQLite
    evaluates them: texts are compared, the stored one is an ISO text of the
    IST clock with a ["T"] after the date, the other one a UTC text with a
    blank there, so the order of the dates decides and on equal dates the
    stored text is the greater. *)
Definition sql_after (ts now : Z) : bool :=
  (now - ist_offset - 24 * usec_per_hour) / usec_per_day <=? ts / usec_per_day.

(** ** The manager *)

Section manager.
Context {V : Type}.

Definition IM (A : Type) : Type := ST (idem V) A.

(** A call on the table, when there is one. *)
Definition persist_run {A} (f : pydict (irow V) → A * pydict (irow V)) (default : A) : IM A := λ s,
  match i_persist s with
  | None => (Ok default, s)
  | Some d => let '(r, d') := db_run f d in (r, set_persist (Some d') s)
  end.

Definition persist_write (f : pydict (irow V) → pydict (irow V)) (errors : list exn_class) : IM unit :=
  st_try (persist_run (λ t, ((), f t)) ()) errors (λ _, mret ()).

(** [_cleanup] *)
Definition idem_cleanup : IM unit :=
  now ← now_ist;
  s ← st_get;
  st_modify (set_cache (dfilter
    (λ _ tv, negb (tv.1 <? now - i_expiry_hours s * usec_per_hour)) (i_cache s))) ;;
  now' ← now_ist;
  s ← st_get;
  st_modify (set_in_flight (dfilter
    (λ _ t, negb (t <? now' - usec_per_hour)) (i_in_flight s))).

(** [is_duplicate] *)
Definition idem_is_duplicate (key : string) : IM bool :=
  idem_cleanup ;;
  s ← st_get;
  mret (dmem key (i_cache s) || dmem key (i_in_flight s)).

(** [mark_in_flight] *)
Definition mark_in_flight (key : string) : IM unit :=
  now ← now_ist;
  s ← st_get;
  st_modify (set_in_flight (<[key := now]> (i_in_flight s))) ;;
  persist_write (tbl_replace key (IRow now None "in_flight")) idem_errors.

(** [del self._cache[next(iter(self._cache))]] *)
Definition evict_first (d : pydict (Z * V)) : pydict (Z * V) :=
  match items d with [] => d | (k, _) :: _ => delete k d end.

(** [confirm_execution] *)
Definition confirm_execution (key : string) (result : V) : IM unit :=
  now ← now_ist;
  s ← st_get;
  st_modify (set_in_flight (delete key (i_in_flight s))) ;;
  st_modify (λ s, set_cache (<[key := (now, result)]> (i_cache s)) s) ;;
  persist_write (tbl_replace key (IRow now (Some result) "confirmed")) idem_errors ;;
  st_modify (λ s, if i_cache_size s <? dlen (i_cache s)
                  then set_cache (evict_first (i_cache s)) s else s).

(** [clear_in_flight] *)
Definition idem_clear_in_flight (key : string) : IM unit :=
  s ← st_get;
  st_modify (set_in_flight (delete key (i_in_flight s))) ;;
  persist_write (dfilter (λ k r, negb (String.eqb k key && String.eqb (k_status r) "in_flight")))
    [SqliteError; OSError].

(** [get_result] *)
Definition idem_get_result (key : string) : IM (option V) :=
  idem_cleanup ;;
  s ← st_get;
  mret (snd <$> i_cache s !! key).

(** [store_result] *)
Definition idem_store_result (key : string) (result : V) : IM unit := confirm_execution key result.

(** What [json.loads(json.dumps(result, default=str))] makes of a result. *)
Context (reload : V → V).

(** The rows [_load_from_persistence] selects, in the order of the table. *)
Definition confirmed_rows (now : Z) (t : pydict (irow V)) : list (string * (Z * V)) :=
  omap (λ p : string * irow V,
    if String.eqb (k_status p.2) "confirmed" && sql_after (k_ts p.2) now
    then (λ v, (p.1, (k_ts p.2, reload v))) <$> k_result p.2
    else None) (items t).

Definition load_rows (rows : list (string * (Z * V))) (d : pydict (Z * V)) : pydict (Z * V) :=
  foldl (λ d p, <[p.1 := p.2]> d) d rows.

(** [_load_from_persistence] *)
Definition load_from_persistence : IM unit :=
  st_try
    (now ← now_ist;
     rows ← persist_run (λ t, (confirmed_rows now t, t)) [];
     st_modify (λ s, set_cache (load_rows rows (i_cache s)) s) ;;
     now' ← now_ist;
     persist_run (λ t, ((), dfilter (λ _ r,
       negb (String.eqb (k_status r) "in_flight" && negb (sql_after (k_ts r) now'))) t)) ())
    [SqliteError; OSError; JSONDecodeError; ValueError]
    (λ _, mret ()).

(** [IdempotencyManager(cache_size, expiry_hours, persistence_path)] on a
    table that a previous session left. *)
Definition new_idem (c : clock) (cache_size expiry_hours : Z) (p : option (dbase (irow V))) : idem V :=
  let s := Idem c ∅ ∅ cache_size expiry_hours p in
  match p with Some _ => (load_from_persistence s).2 | None => s end.
End manager.
Arguments IM V A : clear implicits.

(** ** The engine *)

Record engine (V : Type) := Engine {
  e_manager : idem V; e_cache : pydict (Z * V); e_cache_size : Z; e_expiry_hours : Z }.
Arguments Engine {V} e_manager e_cache e_cache_size e_expiry_hours.
Arguments e_manager {V} e : rename.
Arguments e_cache {V} e : rename.
Arguments e_cache_size {V} e : rename.
Arguments e_expiry_hours {V} e : rename.

Section engine.
Context {V : Type}.

Definition EM (A : Type) : Type := ST (engine V) A.

Definition on_manager {A} (m : IM V A) : EM A :=
  st_zoom e_manager (λ g e, Engine g (e_cache e) (e_cache_size e) (e_expiry_hours e)) m.
Definition modify_cache (f : pydict (Z * V) → pydict (Z * V)) : EM unit :=
  st_modify (λ e, Engine (e_manager e) (f (e_cache e)) (e_cache_size e) (e_expiry_hours e)).

(** [move_to_end(key, last=False)] after [d[key] = v] *)
Definition push_front (key : string) (v : Z * V) (d : pydict (Z * V)) : pydict (Z * V) :=
  PyDict ((key, v) :: items (delete key d)).

(** [while len(d) > n: d.popitem(last=True)]; with a negative [n] the loop
    goes on until [popitem] raises on the empty dictionary. *)
Definition trim_last (n : Z) (d : pydict (Z * V)) : pydict (Z * V) :=
  PyDict (take (Z.to_nat n) (items d)).

(** [_cleanup] *)
Definition engine_cleanup : EM unit :=
  st_try (on_manager idem_cleanup) [AttributeError; KeyError; ValueError]
    (λ _,
      now ← on_manager now_ist;
      e ← st_get;
      modify_cache (dfilter (λ _ tv, negb (tv.1 <? now - e_expiry_hours e * usec_per_hour)))).

(** [is_duplicate] *)
Definition engine_is_duplicate (key : string) : EM bool :=
  st_try (on_manager (idem_is_duplicate key)) [KeyError; ValueError; TypeError]
    (λ _, engine_cleanup ;; e ← st_get; mret (dmem key (e_cache e))).

(** [store_result] *)
Definition engine_store_result (key : string) (result : V) : EM unit :=
  st_try (on_manager (idem_store_result key result)) [KeyError; OSError; ValueError]
    (λ _, mret ()) ;;
  now ← on_manager now_ist;
  e ← st_get;
  modify_cache (λ d, trim_last (e_cache_size e) (push_front key (now, result) d)) ;;
  if e_cache_size e <? 0 then st_raise (PyExn KeyError "dictionary is empty") else mret ().

(** [get_result] *)
Definition engine_get_result (key : string) : EM (option V) :=
  st_try (on_manager (idem_get_result key)) [KeyError; ValueError; TypeError]
    (λ _, engine_cleanup ;; e ← st_get; mret (snd <$> e_cache e !! key)).

(** [mark_in_flight], [confirm_execution], [clear_in_flight] *)
Definition engine_mark_in_flight (key : string) : EM unit := on_manager (mark_in_flight key).
Definition engine_confirm_execution (key : string) (result : V) : EM unit :=
  on_manager (confirm_execution key result).
Definition engine_clear_in_flight (key : string) : EM unit := on_manager (idem_clear_in_flight key).
End engine.

(** ** Histories of the manager *)

Inductive iop (V : Type) :=
| IMark (key : string) | IConfirm (key : string) (result : V) | IClear (key : string)
| IQuery (key : string) | IGet (key : string).
Arguments IMark {V} key.
Arguments IConfirm {V} key result.
Arguments IClear {V} key.
Arguments IQuery {V} key.
Arguments IGet {V} key.

Section histories.
Context {V : Type}.
Implicit Types (s : idem V) (c : clock).

Definition drop_value {A} (m : IM V A) : IM V unit := m ;; mret ().

Definition run_iop (o : iop V) : IM V unit :=
  match o with
  | IMark k => mark_in_flight k
  | IConfirm k v => confirm_execution k v
  | IClear k => idem_clear_in_flight k
  | IQuery k => drop_value (idem_is_duplicate k)
  | IGet k => drop_value (idem_get_result k)
  end.

Fixpoint run_iops (os : list (iop V)) (s : idem V) : idem V :=
  match os with [] => s | o :: os' => run_iops os' (run_iop o s).2 end.

(** *** The parts of the state an operation reaches *)

Lemma persist_run_inv {A} (f : pydict (irow V) → A * pydict (irow V)) d0 s :
  let s' := (persist_run f d0 s).2 in
  i_clk s' = i_clk s ∧ i_cache s' = i_cache s ∧ i_in_flight s' = i_in_flight s ∧
  i_cache_size s' = i_cache_size s ∧ i_expiry_hours s' = i_expiry_hours s.
Proof. unfold persist_run. destruct (i_persist s) as [d|]; [|done]. by destruct (db_run f d). Qed.

Lemma persist_write_inv f es s :
  let s' := (persist_write f es s).2 in
  i_clk s' = i_clk s ∧ i_cache s' = i_cache s ∧ i_in_flight s' = i_in_flight s ∧
  i_cache_size s' = i_cache_size s ∧ i_expiry_hours s' = i_expiry_hours s.
Proof.
  unfold persist_write, st_try.
  pose proof (persist_run_inv (λ t, ((), f t)) () s) as H.
  destruct (persist_run _ () s) as [[[]|e] s']; [done|]. by destruct (catches es e).
Qed.

(** *** The clock never goes back *)

Definition forward c : Prop := Forall (λ d, 0 ≤ d) (clk_steps c).

Lemma clk_read_forward c :
  forward c → forward (clk_read c).2 ∧ clk_now c ≤ clk_now (clk_read c).2 ∧ (clk_read c).1 = clk_now c.
Proof.
  unfold forward, clk_read. destruct (clk_steps c) as [|d ds] eqn:E; simpl.
  - rewrite E. auto with lia.
  - intros [Hd Hds]%Forall_cons. auto with lia.
Qed.

(** The effect of [_cleanup], at its two readings. *)
Definition cleaned s : idem V :=
  let '(now, c1) := clk_read (i_clk s) in
  let '(now', c2) := clk_read c1 in
  Idem c2
    (dfilter (λ _ tv, negb (tv.1 <? now - i_expiry_hours s * usec_per_hour)) (i_cache s))
    (dfilter (λ _ t, negb (t <? now' - usec_per_hour)) (i_in_flight s))
    (i_cache_size s) (i_expiry_hours s) (i_persist s).

Lemma idem_cleanup_eq s : idem_cleanup s = (Ok (), cleaned s).
Proof.
  unfold idem_cleanup, cleaned, mbind, st_bind, now_ist. simpl.
  destruct (clk_read (i_clk s)) as [now c1]. simpl. by destruct (clk_read c1) as [now' c2].
Qed.

(** What a query answers, and when the window of an entry closes. *)
Definition live_entry (now : Z) (hours : Z) (t : Z) : bool := now - hours * usec_per_hour <=? t.

Lemma is_duplicate_eq key s :
  dict_wf (i_cache s) → dict_wf (i_in_flight s) →
  let now := (clk_read (i_clk s)).1 in
  let now' := (clk_read (clk_read (i_clk s)).2).1 in
  idem_is_duplicate key s =
  (Ok (match i_cache s !! key with Some (t, _) => live_entry now (i_expiry_hours s) t | None => false end ||
       match i_in_flight s !! key with Some t => live_entry now' 1 t | None => false end),
   cleaned s).
Proof.
  intros Hc Hf. cbv zeta. unfold idem_is_duplicate, mbind, st_bind. rewrite idem_cleanup_eq.
  unfold st_get, mret, st_ret. f_equal. f_equal. unfold cleaned, live_entry.
  destruct (clk_read (i_clk s)) as [now c1]. simpl. destruct (clk_read c1) as [now' c2]. simpl.
  unfold dmem. rewrite !dict_filter_lookup by done.
  assert (∀ x y, negb (x <? y) = (y <=? x)) as Hneg by (intros; by rewrite Z.ltb_antisym, negb_involutive).
  f_equal.
  - destruct (i_cache s !! key) as [[t v]|]; [|done]. simpl. rewrite Hneg. by destruct (_ <=? _).
  - destruct (i_in_flight s !! key) as [t|]; [|done]. rewrite Hneg.
    change (1 * usec_per_hour) with usec_per_hour. by destruct (_ <=? _).
Qed.

(** *** In-flight keys stay blocked *)

Definition hour : Z := usec_per_hour.

(** The key was marked at [t0], and either its marker is there or its hour
    is over. *)
Definition held (key : string) (t0 : Z) s : Prop :=
  forward (i_clk s) ∧ t0 ≤ clk_now (i_clk s) ∧ dict_wf (i_in_flight s) ∧
  (i_in_flight s !! key = Some t0 ∨ t0 + hour < clk_now (i_clk s)).

Lemma held_advance key t0 s s' :
  held key t0 s → forward (i_clk s') → clk_now (i_clk s) ≤ clk_now (i_clk s') →
  dict_wf (i_in_flight s') → i_in_flight s' !! key = i_in_flight s !! key → held key t0 s'.
Proof. intros (H1 & H2 & H3 & H4) Hf Hle Hwf Hk. split_and!; [done|lia|done|]. rewrite Hk. lia || (destruct H4; [by left|right; lia]). Qed.

Lemma cleaned_held key t0 s : held key t0 s → held key t0 (cleaned s).
Proof.
  intros (Hfw & Hle & Hwf & H). unfold cleaned.
  destruct (clk_read_forward _ Hfw) as (Hf1 & Hle1 & Ht1).
  destruct (clk_read (i_clk s)) as [now c1]. cbn [fst snd] in *.
  destruct (clk_read_forward _ Hf1) as (Hf2 & Hle2 & Ht2).
  destruct (clk_read c1) as [now' c2]. cbn [fst snd] in *.
  unfold held; simpl; split_and!; [done|lia|by apply dict_filter_wf|].
  destruct H as [H|H]; [|right; lia]. rewrite dict_filter_lookup, H by done.
  destruct (Z.ltb_spec t0 (now' - usec_per_hour)); simpl; [right|by left]. unfold hour. lia.
Qed.

(** The operations that may end the marker of [key]. *)
Definition releases (key : string) (o : iop V) : bool :=
  match o with
  | IMark k | IConfirm k _ | IClear k => String.eqb k key
  | IQuery _ | IGet _ => false
  end.

Lemma persist_write_held key t0 f es s : held key t0 s → held key t0 (persist_write f es s).2.
Proof.
  intros H. destruct (persist_write_inv f es s) as (Hc & _ & Hi & _).
  apply (held_advance _ _ s); [done|rewrite Hc; apply H|rewrite Hc; lia|rewrite Hi; apply H|by rewrite Hi].
Qed.

Lemma run_iop_held key t0 o s : releases key o = false → held key t0 s → held key t0 (run_iop o s).2.
Proof.
  intros Hr H. destruct o as [k|k v|k|k|k]; simpl in Hr; bools; cbn [run_iop].
  - unfold mark_in_flight, mbind, st_bind, st_get, st_modify. rewrite now_ist_total.
    apply persist_write_held. destruct H as (Hf & H). destruct (clk_read_forward _ Hf) as (Hf' & Hle & _).
    apply (held_advance _ _ s); [by split| | | |]; simpl; [done..| |];
      [by apply dict_insert_wf, H|by rewrite dict_lookup_insert_ne].
  - unfold confirm_execution, mbind, st_bind, st_get, st_modify. rewrite now_ist_total. simpl.
    match goal with |- context [persist_write ?f ?es ?x] =>
      assert (held key t0 x) as Hx; [|pose proof (persist_write_held _ _ f es x Hx) as Hy;
        destruct (persist_write f es x) as [[[]|e] s1]; simpl in *] end.
    + destruct H as (Hf & H). destruct (clk_read_forward _ Hf) as (Hf' & Hle & _).
      apply (held_advance _ _ s); [by split| | | |]; simpl; [done..| |];
        [by apply dict_delete_wf, H|by rewrite dict_lookup_delete_ne].
    + destruct (_ <? _); [|done]. by apply (held_advance _ _ s1); try done; apply Hy.
    + done.
  - unfold idem_clear_in_flight, mbind, st_bind, st_get, st_modify. simpl.
    apply persist_write_held. destruct H as (Hf & H).
    apply (held_advance _ _ s); [by split| | | |]; simpl; [done|lia| |];
      [by apply dict_delete_wf, H|by rewrite dict_lookup_delete_ne].
  - unfold drop_value, idem_is_duplicate, mbind, st_bind. rewrite idem_cleanup_eq. by apply cleaned_held.
  - unfold drop_value, idem_get_result, mbind, st_bind. rewrite idem_cleanup_eq. by apply cleaned_held.
Qed.

Lemma run_iops_held key t0 os s :
  forallb (λ o, negb (releases key o)) os = true → held key t0 s → held key t0 (run_iops os s).
Proof.
  revert s. induction os as [|o os IH]; intros s; simpl; [done|]. intros [Ho Hos]%andb_true_iff H.
  apply IH; [done|]. apply run_iop_held; [by apply negb_true_iff|done].
Qed.

Lemma mark_held key s :
  forward (i_clk s) → dict_wf (i_in_flight s) →
  held key (clk_now (i_clk s)) (mark_in_flight key s).2.
Proof.
  intros Hf Hwf. unfold mark_in_flight, mbind, st_bind, st_get, st_modify. rewrite now_ist_total.
  apply persist_write_held. destruct (clk_read_forward _ Hf) as (Hf' & Hle & Heq).
  split_and!; simpl; [done|done|by apply dict_insert_wf|]. left.
  rewrite <- Heq. apply dict_lookup_insert_eq.
Qed.

(** A query while the key is held: yes, unless its hour is over. *)
Lemma held_query key t0 s :
  held key t0 s → clk_now (i_clk (cleaned s)) ≤ t0 + hour →
  ∃ s', idem_is_duplicate key s = (Ok true, s').
Proof.
  intros H Hle. pose proof (cleaned_held _ _ _ H) as (_ & _ & _ & [Hk|Hk]); [|lia].
  unfold idem_is_duplicate, mbind, st_bind. rewrite idem_cleanup_eq. unfold st_get, mret, st_ret.
  eexists. do 2 f_equal. apply orb_true_iff. right. apply dmem_true. eauto.
Qed.
End histories.

(** C16: Once a key is marked in flight, every duplicate check on it within the
    hour answers [True], whatever else happens in between: marks,
    confirmations and clearings of other keys, expiry and eviction, failures
    of the persistence, in any number and order. *)
Theorem in_flight_guard {V} (key : string) (os : list (iop V)) (s : idem V) :
  forward (i_clk s) → dict_wf (i_in_flight s) →
  forallb (λ o, negb (releases key o)) os = true →
  let s' := run_iops os (mark_in_flight key s).2 in
  clk_now (i_clk (idem_is_duplicate key s').2) ≤ clk_now (i_clk s) + usec_per_hour →
  (idem_is_duplicate key s').1 = Ok true.
Proof.
  intros Hf Hwf Hos s' Hle.
  pose proof (run_iops_held key _ os _ Hos (mark_held key s Hf Hwf)) as H. fold s' in H.
  assert ((idem_is_duplicate key s').2 = cleaned s') as Hs.
  { unfold idem_is_duplicate, mbind, st_bind. by rewrite idem_cleanup_eq. }
  rewrite Hs in Hle. destruct (held_query key _ s' H Hle) as [s2 Hq]. by rewrite Hq.
Qed.

(** *** The cache stays within its bound *)

Section bounded.
Context {V : Type}.
Implicit Types (s : idem V).

Definition within s : Prop := dlen (i_cache s) ≤ Z.max 0 (i_cache_size s).

Lemma dlen_filter {A} (f : string → A → bool) (d : pydict A) : dlen (dfilter f d) ≤ dlen d.
Proof. unfold dlen. simpl. apply inj_le, length_filter. Qed.

Lemma dlen_insert_le {A} k (v : A) (d : pydict A) : dlen (<[k := v]> d) ≤ dlen d + 1.
Proof.
  destruct (d !! k) eqn:E; [rewrite dlen_insert_old by eauto; lia|].
  rewrite dlen_insert_new by done. lia.
Qed.

Lemma evict_first_len (d : pydict (Z * V)) : dlen (evict_first d) ≤ Z.max 0 (dlen d - 1).
Proof.
  unfold evict_first, dlen. destruct (items d) as [|[k v] l] eqn:E; simpl; [by rewrite E|].
  rewrite E. unfold assoc_del. rewrite filter_cons_False by (simpl; tauto).
  pose proof (length_filter (λ p : string * (Z * V), p.1 ≠ k) l). lia.
Qed.

Lemma cleaned_within s : within s → within (cleaned s).
Proof.
  unfold within, cleaned. destruct (clk_read (i_clk s)) as [now c1], (clk_read c1) as [now' c2]. simpl.
  pose proof (dlen_filter (λ _ tv, negb (tv.1 <? now - i_expiry_hours s * usec_per_hour)) (i_cache s)). lia.
Qed.

(** The failures still to come are of the classes the writes catch. *)
Definition mild s : Prop :=
  match i_persist s with
  | Some d => Forall (λ o, match o with Some e => catches idem_errors e = true | None => True end)
                (db_faults d)
  | None => True
  end.

Lemma db_run_faults {R A} (f : pydict R → A * pydict R) d :
  db_faults (db_run f d).2 = tail (db_faults d) ∧
  ∀ e, (db_run f d).1 = Raise e → head (db_faults d) = Some (Some e).
Proof.
  unfold db_run. destruct (db_faults d) as [|[e|] fs]; simpl.
  - by destruct (f (db_rows d)).
  - by split; [|intros ? [= ->]].
  - by destruct (f (db_rows d)).
Qed.

Lemma persist_write_mild f es s :
  mild s → mild (persist_write f es s).2 ∧
  (es = idem_errors → (persist_write f es s).1 = Ok ()).
Proof.
  unfold mild, persist_write, st_try, persist_run. intros Hm.
  destruct (i_persist s) as [d|] eqn:Hp; [|by simpl; rewrite Hp].
  pose proof (db_run_faults (λ t, ((), f t)) d) as [Hf He].
  destruct (db_run (λ t, ((), f t)) d) as [[[]|e] d']; cbn [fst snd] in Hf, He.
  - simpl. rewrite Hf. split; [|done]. by destruct Hm.
  - specialize (He e eq_refl). destruct (db_faults d) as [|o fs]; [done|]. simpl in *.
    injection He as ->. apply Forall_cons in Hm as [He Hm]. split.
    + by destruct (catches es e); simpl; rewrite Hf.
    + intros ->. by rewrite He.
Qed.

Lemma confirm_within k v s :
  mild s → within s → within (confirm_execution k v s).2 ∧ mild (confirm_execution k v s).2.
Proof.
  intros Hm Hw. unfold confirm_execution, mbind, st_bind, st_get, st_modify. rewrite now_ist_total.
  cbn [fst snd].
  match goal with |- context [persist_write ?f ?es ?x] =>
    destruct (persist_write_mild f es x) as [Hm' Hok]; [exact Hm|];
    pose proof (persist_write_inv f es x) as Hinv;
    specialize (Hok eq_refl); destruct (persist_write f es x) as [r s1]
  end.
  cbn [fst snd] in *. subst r. destruct Hinv as (_ & Hc & _ & Hn & _). cbn in Hc, Hn.
  unfold within in *. split.
  - destruct (Z.ltb_spec (i_cache_size s1) (dlen (i_cache s1))); simpl; [|lia].
    pose proof (evict_first_len (i_cache s1)) as He.
    pose proof (dlen_insert_le k ((clk_read (i_clk s)).1, v) (i_cache s)) as Hi.
    rewrite Hc in *. lia.
  - by destruct (_ <? _).
Qed.

Lemma run_iop_within o s : mild s → within s → within (run_iop o s).2 ∧ mild (run_iop o s).2.
Proof.
  assert (∀ s, mild s → mild (cleaned s)) as Hclean.
  { intros x. unfold mild, cleaned.
    destruct (clk_read (i_clk x)) as [now c1], (clk_read c1) as [now' c2]. done. }
  intros Hm Hw. destruct o as [k|k v|k|k|k]; cbn [run_iop]; [|by apply confirm_within|..].
  - unfold mark_in_flight, mbind, st_bind, st_get, st_modify. rewrite now_ist_total. cbn [fst snd].
    match goal with |- context [persist_write ?f ?es ?x] =>
      destruct (persist_write_mild f es x) as [Hm' _]; [exact Hm|];
      destruct (persist_write_inv f es x) as (_ & Hc & _ & Hn & _)
    end. split; [|done]. unfold within. rewrite Hc, Hn. done.
  - unfold idem_clear_in_flight, mbind, st_bind, st_get, st_modify. cbn [fst snd].
    match goal with |- context [persist_write ?f ?es ?x] =>
      destruct (persist_write_mild f es x) as [Hm' _]; [exact Hm|];
      destruct (persist_write_inv f es x) as (_ & Hc & _ & Hn & _)
    end. split; [|done]. unfold within. rewrite Hc, Hn. done.
  - unfold drop_value, idem_is_duplicate, mbind, st_bind. rewrite idem_cleanup_eq.
    split; [by apply cleaned_within|by apply Hclean].
  - unfold drop_value, idem_get_result, mbind, st_bind. rewrite idem_cleanup_eq.
    split; [by apply cleaned_within|by apply Hclean].
Qed.
End bounded.

(** The confirmed cache never outgrows its size, over any history and with
    any failures of the persistence that the writes catch. *)
Theorem cache_bounded {V} (os : list (iop V)) (s : idem V) :
  mild s → dlen (i_cache s) ≤ Z.max 0 (i_cache_size s) →
  dlen (i_cache (run_iops os s)) ≤ Z.max 0 (i_cache_size (run_iops os s)).
Proof.
  revert s. induction os as [|o os IH]; intros s Hm Hw; simpl; [done|].
  destruct (run_iop_within o s Hm Hw). by apply IH.
Qed.

(** *** A new session *)

Section restart.
Context {V : Type} (reload : V → V).
Implicit Types (t : pydict (irow V)).

Lemma load_rows_lookup l (d : pydict (Z * V)) k :
  NoDup l.*1 → load_rows l d !! k = match assoc_get k l with Some v => Some v | None => d !! k end.
Proof.
  unfold load_rows. revert d. induction l as [|[j v] l IH]; intros d; cbn [fmap list_fmap foldl fst snd]; [done|].
  intros [Hj Hl]%NoDup_cons. rewrite (IH _ Hl). simpl. destruct (String.eqb_spec k j) as [->|].
  - apply assoc_get_none in Hj. rewrite Hj. apply dict_lookup_insert_eq.
  - destruct (assoc_get k l); [done|]. by apply dict_lookup_insert_ne.
Qed.

Definition selected (now : Z) (r : irow V) : option (Z * V) :=
  if String.eqb (k_status r) "confirmed" && sql_after (k_ts r) now
  then (λ v, (k_ts r, reload v)) <$> k_result r else None.

Lemma confirmed_rows_eq now t :
  confirmed_rows reload now t = omap (λ p, pair p.1 <$> selected now p.2) (items t).
Proof.
  unfold confirmed_rows. apply list_omap_ext, Forall_Forall2_diag, Forall_forall. intros [k r] _.
  unfold selected. simpl. destruct (_ && _); [|done]. by destruct (k_result r).
Qed.

Lemma omap_keys_sublist (f : irow V → option (Z * V)) (l : list (string * irow V)) :
  sublist (omap (λ p, pair p.1 <$> f p.2) l).*1 l.*1.
Proof.
  induction l as [|[k r] l IH]; simpl; [constructor|].
  destruct (f r); simpl; by constructor.
Qed.

Lemma omap_assoc_get (f : irow V → option (Z * V)) (l : list (string * irow V)) k :
  NoDup l.*1 →
  assoc_get k (omap (λ p, pair p.1 <$> f p.2) l) = assoc_get k l ≫= f.
Proof.
  induction l as [|[j r] l IH]; cbn [fmap list_fmap fst]; [done|]. intros [Hj Hl]%NoDup_cons.
  simpl. destruct (String.eqb_spec k j) as [->|]; simpl.
  - destruct (f r) as [v|]; simpl; [by rewrite String.eqb_refl|].
    apply assoc_get_none. intros Hin. apply Hj. eapply elem_of_sublist; [apply Hin|].
    apply omap_keys_sublist.
  - destruct (f r) as [v|]; simpl; [|by apply IH]. rewrite (proj2 (String.eqb_neq k j)) by done. by apply IH.
Qed.

Lemma load_cache_lookup now t k :
  dict_wf t → load_rows (confirmed_rows reload now t) ∅ !! k = t !! k ≫= selected now.
Proof.
  intros Hwf. rewrite confirmed_rows_eq, load_rows_lookup.
  - rewrite omap_assoc_get by done. unfold lookup at 2, pydict_lookup. by destruct (_ ≫= _).
  - eapply sublist_NoDup; [exact Hwf|]. apply omap_keys_sublist.
Qed.

Lemma load_rows_wf l (d : pydict (Z * V)) : dict_wf d → dict_wf (load_rows l d).
Proof.
  unfold load_rows. revert d. induction l as [|p l IH]; intros d Hd; simpl; [done|].
  by apply IH, dict_insert_wf.
Qed.
End restart.

(** What a restarted manager knows, on a table that answers: exactly the
    keys confirmed within the last day.  An execution that was in flight when
    the previous session ended is not blocked, whatever its row says. *)
Theorem restart_exact {V} (reload : V → V) (key : string) (c : clock) (n h : Z) (t : pydict (irow V)) :
  dict_wf t → (∀ k r, t !! k = Some r → k_status r = "confirmed" → is_Some (k_result r)) →
  let s := new_idem reload c n h (Some (DBase t [])) in
  (idem_is_duplicate key s).1 =
  Ok match t !! key with
     | Some r => String.eqb (k_status r) "confirmed" && sql_after (k_ts r) (clk_now c)
                 && live_entry (clk_now (i_clk s)) h (k_ts r)
     | None => false
     end.
Proof.
  intros Hwf Hres s.
  assert (i_cache s = load_rows (confirmed_rows reload (clk_now c) t) ∅ ∧ i_in_flight s = ∅ ∧
          i_expiry_hours s = h) as (Hcache & Hfl & Hh).
  { unfold s. by destruct c as [t0 [|d1 [|d2 ds]]]. }
  rewrite is_duplicate_eq; [|rewrite Hcache; apply load_rows_wf, dict_empty_wf|rewrite Hfl; apply dict_empty_wf].
  cbn [fst]. rewrite Hcache, Hfl, Hh, load_cache_lookup, orb_false_r by done. f_equal.
  change (clk_read (i_clk s)).1 with (clk_now (i_clk s)).
  destruct (t !! key) as [r|] eqn:Hk; [|done]. cbn [mbind option_bind]. unfold selected.
  destruct (String.eqb (k_status r) "confirmed") eqn:Hs; [|done].
  apply String.eqb_eq in Hs. destruct (Hres _ _ Hk Hs) as [v ->].
  by destruct (sql_after (k_ts r) (clk_now c)).
Qed.

(** ** The engine's cache *)

(** Storing a result puts it at the front of the engine's cache, evicts from
    the back, and keeps the cache within its size, whatever the manager and
    its persistence do, as long as they raise only what the engine catches. *)
Lemma engine_store_front {V} (key : string) (v : V) (e : engine V) :
  0 < e_cache_size e →
  (idem_store_result key v (e_manager e)).1 = Ok () →
  ∃ t e', engine_store_result key v e = (Ok (), e') ∧
    head (items (e_cache e')) = Some (key, (t, v)) ∧ dlen (e_cache e') ≤ e_cache_size e'.
Proof.
  intros Hn Hok. unfold engine_store_result, st_try, on_manager, st_zoom, mbind, st_bind, modify_cache.
  destruct (idem_store_result key v (e_manager e)) as [r g]. simpl in Hok. subst r. cbn [fst snd].
  rewrite now_ist_total. cbn [fst snd st_get st_modify e_cache_size].
  unfold st_get, st_modify. cbn [fst snd e_cache_size].
  rewrite (proj2 (Z.ltb_ge _ _)) by lia. do 2 eexists. split; [done|]. cbn [e_cache e_cache_size].
  unfold trim_last, push_front, dlen. cbn [items]. destruct (Z.to_nat (e_cache_size e)) as [|m] eqn:E; [lia|].
  split; [done|]. cbn [take length]. rewrite length_take. lia.
Qed.

(** ** Concrete instances *)

Definition demo_idem : idem Z :=
  Idem (Clock 0 [1; 1; usec_per_sec; 1; 1]) ∅ ∅ 2 24 (Some (DBase ∅ [None; Some (PyExn OSError "io")])).

Lemma in_flight_guard_witness :
  (idem_is_duplicate "k"
     (run_iops [IMark "j"; IConfirm "j" 7; IQuery "x"] (mark_in_flight "k" demo_idem).2)).1 = Ok true.
Proof.
  refine (in_flight_guard "k" [IMark "j"; IConfirm "j" 7; IQuery "x"] demo_idem _ _ eq_refl _).
  - repeat constructor; vm_compute; done.
  - dict_wf_eval.
  - by vm_compute.
Defined.

Lemma cache_bounded_witness :
  dlen (i_cache (run_iops [IConfirm "a" 1; IConfirm "b" 2; IConfirm "c" 3] demo_idem)) ≤ 2.
Proof.
  refine (cache_bounded [IConfirm "a" 1; IConfirm "b" 2; IConfirm "c" 3] demo_idem _ _).
  - repeat constructor.
  - by vm_compute.
Defined.

(** A table with a confirmed order and one in flight. *)
Definition demo_keys : pydict (irow Z) :=
  PyDict [("done", IRow 0 (Some 5) "confirmed"); ("open", IRow 0 None "in_flight")].

Lemma restart_exact_witness :
  (idem_is_duplicate "open" (new_idem id (Clock usec_per_hour []) 10 24 (Some (DBase demo_keys [])))).1
  = Ok false.
Proof.
  refine (restart_exact id "open" (Clock usec_per_hour []) 10 24 demo_keys _ _); [dict_wf_eval|].
  intros k r Hk%assoc_get_in. simpl in Hk. rewrite !elem_of_cons, elem_of_nil in Hk.
  destruct Hk as [Hk|[Hk|[]]]; by injection Hk as -> ->.
Defined.
