(* ===== verification/WalJournal.v ===== *)
(** * The write-ahead intent journal

    [core/wal/journal.py]: the table [intents], written through a bounded
    queue that a background thread drains ([AsyncDbWriter] of
    [core/db_utils.py]) with a synchronous fallback when the queue is full. *)
From S2P Require Import Prelude PyStr Float64 PyDict.

(** ** Data *)

(** [IntentStatus] *)
Module IntentStatus.
Definition PENDING : string := "PENDING".
Definition COMMITTED : string := "COMMITTED".
Definition SETTLED : string := "SETTLED".
Definition FAILED : string := "FAILED".
End IntentStatus.

(** A JSON text is kept as the object it denotes. *)
Inductive jval := JStr (s : string) | JInt (z : Z) | JNum (x : float64) | JNull.
Definition jobj : Type := list (string * jval).

(** [Intent]; the instants are texts [str(now_ist())] of one format, whose
    order as texts is the order of the instants; [None] is the empty text. *)
Record intent := Intent {
  in_intent_id : string;
  in_action : string;
  in_params : jobj;
  in_risk_verdict : option jobj;
  in_config_snapshot_hash : string;
  in_correlation_id : string;
  in_status : string;
  in_created_at : option Z;
  in_committed_at : option Z;
  in_failed_at : option Z;
  in_error_message : string
}.

(** A row of [intents]. *)
Record wrow := WRow {
  w_action : string;
  w_params : jobj;
  w_risk_verdict : option jobj;
  w_config_snapshot_hash : string;
  w_correlation_id : string;
  w_status : string;
  w_created_at : Z;
  w_committed_at : option Z;
  w_failed_at : option Z;
  w_error_message : option string
}.

(** The write statements of the journal with their parameters
    ([WriteOperation]). *)
Inductive wop :=
| WInsert (intent_id : string) (row : wrow)
| WCommit (intent_id : string) (now : Z)
| WFail (intent_id : string) (now : Z) (error : string)
| WSettle (intent_id : string).

Definition wop_id (o : wop) : string :=
  match o with WInsert k _ | WCommit k _ | WFail k _ _ | WSettle k => k end.

(** The journal: the file both connections work on, the queue of the writer
    with its bound, and the count of changes of the primary connection. *)
Record wal := Wal {
  wl_clk : clock;
  wl_db : dbase wrow;
  wl_queue : list wop;
  wl_max_queue : nat;
  wl_errors : Z;
  wl_total_changes : Z
}.

#[global] Instance wal_clock : HasClock wal :=
  {| clock_of := wl_clk;
     set_clock := λ c w, Wal c (wl_db w) (wl_queue w) (wl_max_queue w) (wl_errors w)
                           (wl_total_changes w) |}.

Definition set_queue (q : list wop) (w : wal) : wal :=
  Wal (wl_clk w) (wl_db w) q (wl_max_queue w) (wl_errors w) (wl_total_changes w).
Definition set_db (d : dbase wrow) (w : wal) : wal :=
  Wal (wl_clk w) d (wl_queue w) (wl_max_queue w) (wl_errors w) (wl_total_changes w).
Definition add_error (w : wal) : wal :=
  Wal (wl_clk w) (wl_db w) (wl_queue w) (wl_max_queue w) (wl_errors w + 1) (wl_total_changes w).
Definition add_changes (n : Z) (w : wal) : wal :=
  Wal (wl_clk w) (wl_db w) (wl_queue w) (wl_max_queue w) (wl_errors w) (wl_total_changes w + n).

(** [WriteAheadJournal()] on a table; the queue holds 512 operations. *)
Definition new_wal (c : clock) (d : dbase wrow) : wal := Wal c d [] 512 0 0.

(** ** The statements *)

Definition with_status (s : string) (r : wrow) : wrow :=
  WRow (w_action r) (w_params r) (w_risk_verdict r) (w_config_snapshot_hash r)
    (w_correlation_id r) s (w_created_at r) (w_committed_at r) (w_failed_at r) (w_error_message r).
Definition with_committed_at (t : Z) (r : wrow) : wrow :=
  WRow (w_action r) (w_params r) (w_risk_verdict r) (w_config_snapshot_hash r)
    (w_correlation_id r) (w_status r) (w_created_at r) (Some t) (w_failed_at r) (w_error_message r).
Definition with_failure (t : Z) (e : string) (r : wrow) : wrow :=
  WRow (w_action r) (w_params r) (w_risk_verdict r) (w_config_snapshot_hash r)
    (w_correlation_id r) (w_status r) (w_created_at r) (w_committed_at r) (Some t) (Some e).

Definition settle_row (r : wrow) : wrow :=
  if String.eqb (w_status r) IntentStatus.COMMITTED then with_status IntentStatus.SETTLED r else r.

Definition apply_wop (o : wop) (t : pydict wrow) : pydict wrow :=
  match o with
  | WInsert k row => tbl_replace k row t
  | WCommit k now => tbl_update k (λ r, with_committed_at now (with_status IntentStatus.COMMITTED r)) t
  | WFail k now e => tbl_update k (λ r, with_failure now e (with_status IntentStatus.FAILED r)) t
  | WSettle k => tbl_update k settle_row t
  end.

(** The rows a statement changes, as [total_changes] counts them. *)
Definition changes_of (o : wop) (t : pydict wrow) : Z :=
  match o with
  | WInsert _ _ => 1
  | WCommit k _ | WFail k _ _ => if dmem k t then 1 else 0
  | WSettle k =>
      match t !! k with Some r => if String.eqb (w_status r) IntentStatus.COMMITTED then 1 else 0 | None => 0 end
  end.

(** ** Operations *)

Definition WM (A : Type) : Type := ST wal A.

Definition wal_db {A} (f : pydict wrow → A * pydict wrow) : WM A :=
  st_zoom wl_db set_db (db_run f).

(** [AsyncDbWriter.submit] of a running writer *)
Definition submit (o : wop) : WM bool :=
  w ← st_get;
  if (wl_max_queue w <=? length (wl_queue w))%nat then mret false
  else st_put (set_queue (wl_queue w ++ [o]) w) ;; mret true.

(** The synchronous write of [_fallback_execute] and of [append]. *)
Definition fallback_execute (o : wop) : WM unit :=
  n ← wal_db (λ t, (changes_of o t, apply_wop o t));
  st_modify (add_changes n).

(** Queue the write, or do it now. *)
Definition write (o : wop) : WM unit :=
  queued ← submit o;
  if queued : bool then mret () else fallback_execute o.

(** One round of the worker: take the first operation of the queue and run
    it; an error of the listed classes is counted and the write is gone,
    another one ends the thread. *)
Definition worker_errors : list exn_class := [SqliteError; OSError; ValueError].

Definition worker_step : WM unit :=
  w ← st_get;
  match wl_queue w with
  | [] => mret ()
  | o :: q =>
      st_put (set_queue q w) ;;
      st_try (wal_db (λ t, ((), apply_wop o t))) worker_errors (λ _, st_modify add_error)
  end.

(** The worker until the queue is empty ([flush], and the drain of [close]);
    [n] bounds the rounds. *)
Fixpoint drain (n : nat) : WM unit :=
  match n with O => mret () | S n' => worker_step ;; drain n' end.

(** [append]; [uuid] is the fresh identifier. *)
Definition insert_row (uuid : string) (now : Z) (i : intent) : wrow :=
  {| w_action := in_action i; w_params := in_params i;
     w_risk_verdict := match in_risk_verdict i with Some [] => None | v => v end;
     w_config_snapshot_hash := in_config_snapshot_hash i;
     w_correlation_id :=
       if truthy_str (in_correlation_id i) then in_correlation_id i else uuid;
     w_status := IntentStatus.PENDING;
     w_created_at := match in_created_at i with Some t => t | None => now end;
     w_committed_at := None; w_failed_at := None; w_error_message := None |}.

Definition append (i : intent) (uuid : string) : WM unit :=
  now ← match in_created_at i with Some t => mret t | None => now_ist end;
  write (WInsert (in_intent_id i) (insert_row uuid now i)).

(** [commit], [fail], [settle] *)
Definition commit (intent_id : string) : WM unit :=
  now ← now_ist; write (WCommit intent_id now).
Definition fail (intent_id error : string) : WM unit :=
  now ← now_ist; write (WFail intent_id now error).
Definition settle (intent_id : string) : WM unit := write (WSettle intent_id).

(** [_row_to_intent] *)
Definition row_to_intent (k : string) (r : wrow) : intent :=
  {| in_intent_id := k; in_action := w_action r; in_params := w_params r;
     in_risk_verdict := w_risk_verdict r; in_config_snapshot_hash := w_config_snapshot_hash r;
     in_correlation_id := w_correlation_id r; in_status := w_status r;
     in_created_at := Some (w_created_at r); in_committed_at := w_committed_at r;
     in_failed_at := w_failed_at r; in_error_message := str_or (w_error_message r) "" |}.

(** [_sync_read] with a writer: its [execute_sync] answers the empty list
    when SQLite fails, and an [OSError] or [ValueError] sends the read to
    the primary connection. *)
Definition sync_read {A} (f : pydict wrow → list A) : WM (list A) :=
  st_try (st_try (wal_db (λ t, (f t, t))) [SqliteError] (λ _, mret []))
    [SqliteError; OSError; ValueError]
    (λ _, wal_db (λ t, (f t, t))).

(** [SELECT * ... WHERE p ORDER BY created_at] *)
Definition select_intents (p : wrow → bool) (t : pydict wrow) : list intent :=
  (λ kr, row_to_intent kr.1 kr.2) <$>
    order_by (λ kr, w_created_at kr.2) (filter (λ kr, p kr.2 = true) (items t)).

(** [get_intent], [get_pending], [get_unsettled], [get_by_correlation] *)
Definition get_intent (intent_id : string) : WM (option intent) :=
  rows ← sync_read (λ t, match t !! intent_id with
                         | Some r => [row_to_intent intent_id r] | None => [] end);
  mret (head rows).
Definition get_pending : WM (list intent) :=
  sync_read (select_intents (λ r, String.eqb (w_status r) IntentStatus.PENDING)).
Definition get_unsettled : WM (list intent) :=
  sync_read (select_intents (λ r, String.eqb (w_status r) IntentStatus.COMMITTED)).
Definition get_by_correlation (correlation_id : string) : WM (list intent) :=
  sync_read (select_intents (λ r, String.eqb (w_correlation_id r) correlation_id)).

(** [count_by_status] *)
Definition add_count (d : pydict Z) (s : string) : pydict Z :=
  <[s := match d !! s with Some n => n + 1 | None => 1 end]> d.
Definition count_by_status : WM (pydict Z) :=
  rows ← sync_read (λ t, w_status <$> dvalues t);
  mret (foldl add_count ∅ rows).

(** [cleanup]; it returns the change count of the connection. *)
Definition wal_cleanup (max_age_hours : Z) : WM Z :=
  now ← now_ist;
  let cutoff := now - max_age_hours * usec_per_hour in
  n ← wal_db (λ t,
    let t' := dfilter (λ _ r, negb (String.eqb (w_status r) IntentStatus.SETTLED && (w_created_at r <? cutoff))) t in
    (dlen t - dlen t', t'));
  st_modify (add_changes n) ;;
  w ← st_get;
  mret (wl_total_changes w).

(** [close]: the writer drains its queue and stops. *)
Definition wal_close : WM unit :=
  w ← st_get; drain (length (wl_queue w)).

(** ** The journal as its callers see it

    The table once every queued write has been done. *)
Definition apply_all (os : list wop) (t : pydict wrow) : pydict wrow :=
  foldl (λ t o, apply_wop o t) t os.

Definition contents (w : wal) : pydict wrow := apply_all (wl_queue w) (db_rows (wl_db w)).

Lemma apply_all_app os os' t : apply_all (os ++ os') t = apply_all os' (apply_all os t).
Proof. apply foldl_app. Qed.

(** The calls and the rounds of the worker between them, in any order. *)
Inductive wal_event := EvAppend (i : intent) (uuid : string) | EvCommit (k : string)
  | EvFail (k e : string) | EvSettle (k : string) | EvWorker.

(** The write a call issues at the current reading of the clock. *)
Definition issued (ev : wal_event) (w : wal) : list wop :=
  let now := (clk_read (wl_clk w)).1 in
  match ev with
  | EvAppend i u => [WInsert (in_intent_id i) (insert_row u now i)]
  | EvCommit k => [WCommit k now]
  | EvFail k e => [WFail k now e]
  | EvSettle k => [WSettle k]
  | EvWorker => []
  end.

Definition run_event (ev : wal_event) : WM unit :=
  match ev with
  | EvAppend i u => append i u
  | EvCommit k => commit k
  | EvFail k e => fail k e
  | EvSettle k => settle k
  | EvWorker => worker_step
  end.

Fixpoint run_events (evs : list wal_event) (w : wal) : list wop * wal :=
  match evs with
  | [] => ([], w)
  | ev :: evs' =>
      let w1 := (run_event ev w).2 in
      let '(os, w2) := run_events evs' w1 in
      (issued ev w ++ os, w2)
  end.

(** No call of the history finds the queue full. *)
Fixpoint never_full (evs : list wal_event) (w : wal) : bool :=
  match evs with
  | [] => true
  | ev :: evs' =>
      match ev with EvWorker => true | _ => (length (wl_queue w) <? wl_max_queue w)%nat end &&
      never_full evs' (run_event ev w).2
  end.

Definition answering (w : wal) : Prop := db_faults (wl_db w) = [].

Lemma write_queued o w :
  (length (wl_queue w) < wl_max_queue w)%nat →
  write o w = (Ok (), set_queue (wl_queue w ++ [o]) w).
Proof.
  intros H. unfold write, submit, mbind, st_bind, st_get.
  by rewrite (proj2 (Nat.leb_gt _ _)).
Qed.

Lemma write_full o w :
  (wl_max_queue w <= length (wl_queue w))%nat → answering w →
  write o w = (Ok (), add_changes (changes_of o (db_rows (wl_db w)))
                        (set_db (DBase (apply_wop o (db_rows (wl_db w))) []) w)).
Proof.
  intros H Ha. unfold write, submit, mbind, st_bind, st_get.
  rewrite (proj2 (Nat.leb_le _ _)) by done. simpl.
  unfold fallback_execute, mbind, st_bind, wal_db, st_zoom. by rewrite db_run_quiet.
Qed.

Lemma worker_step_eq w :
  answering w →
  worker_step w =
  (Ok (), match wl_queue w with
          | [] => w
          | o :: q => set_db (DBase (apply_wop o (db_rows (wl_db w))) []) (set_queue q w)
          end).
Proof.
  intros Ha. unfold worker_step, mbind, st_bind, st_get. destruct (wl_queue w) as [|o q]; [done|].
  unfold st_put, st_try, wal_db, st_zoom. cbn [wl_db set_queue]. by rewrite db_run_quiet.
Qed.

(** A call that finds room queues its write. *)
Lemma run_event_room ev w :
  answering w → ev ≠ EvWorker → (length (wl_queue w) < wl_max_queue w)%nat →
  ∃ w', run_event ev w = (Ok (), w') ∧ answering w' ∧
    contents w' = apply_all (issued ev w) (contents w) ∧
    length (wl_queue w') = S (length (wl_queue w)) ∧ wl_max_queue w' = wl_max_queue w.
Proof.
  intros Ha Hev Hq.
  assert (∀ o c, ∃ w', write o (set_clock c w) = (Ok (), w') ∧ answering w' ∧
    contents w' = apply_wop o (contents w) ∧
    length (wl_queue w') = S (length (wl_queue w)) ∧ wl_max_queue w' = wl_max_queue w) as Hwr.
  { intros o c. rewrite write_queued by done. eexists. split; [done|]. split; [done|].
    split; [|split; [|done]].
    - unfold contents. cbn [wl_queue set_queue snd wl_db set_clock]. by rewrite apply_all_app.
    - cbn [wl_queue set_queue]. rewrite length_app. simpl. lia. }
  assert (set_clock (wl_clk w) w = w) as Hid by by destruct w.
  destruct ev as [i u|k|k e|k|]; cbn [run_event issued apply_all foldl]; [| | | |done].
  - unfold append. destruct (in_created_at i) as [t|] eqn:Ht; unfold mbind, st_bind; cbn [mret st_ret].
    + specialize (Hwr (WInsert (in_intent_id i) (insert_row u t i)) (wl_clk w)).
      rewrite Hid in Hwr. unfold mret, st_ret. unfold insert_row in *. by rewrite Ht in *.
    + rewrite now_ist_total. apply Hwr.
  - unfold commit, mbind, st_bind. rewrite now_ist_total. apply Hwr.
  - unfold fail, mbind, st_bind. rewrite now_ist_total. apply Hwr.
  - unfold settle. specialize (Hwr (WSettle k) (wl_clk w)). by rewrite Hid in Hwr.
Qed.

Lemma run_event_spec ev w :
  answering w →
  match ev with EvWorker => True | _ => (length (wl_queue w) < wl_max_queue w)%nat end →
  answering (run_event ev w).2 ∧
  contents (run_event ev w).2 = apply_all (issued ev w) (contents w).
Proof.
  intros Ha Hq. destruct ev as [i u|k|k e|k|];
    [match goal with |- context [run_event ?ev w] =>
       by destruct (run_event_room ev w Ha) as (w' & -> & ? & ? & _) end..|].
  cbn [run_event issued]. rewrite worker_step_eq by done. destruct (wl_queue w) as [|o q] eqn:E; [done|].
  split; [done|]. unfold contents. by rewrite E.
Qed.

Lemma drain_eq w :
  answering w → drain (length (wl_queue w)) w =
  (Ok (), set_db (DBase (contents w) []) (set_queue [] w)).
Proof.
  remember (wl_queue w) as q eqn:Hq. revert w Hq. induction q as [|o q IH]; intros w Hq Ha.
  - unfold contents. rewrite <- Hq. destruct w as [c [rs fs] q m e n]. simpl in *.
    unfold answering in Ha. simpl in Ha. by subst.
  - cbn [length drain]. unfold mbind, st_bind. rewrite worker_step_eq, <- Hq by done.
    rewrite IH by done. unfold contents. by rewrite <- Hq.
Qed.


Lemma apply_all_other os t k :
  Forall (λ o, wop_id o ≠ k) os → apply_all os t !! k = t !! k.
Proof.
  intros H. revert t. induction H as [|o os Ho _ IH]; intros t; [done|]. simpl. rewrite IH.
  destruct o; simpl in *; [by apply tbl_lookup_replace_ne|by apply tbl_lookup_update_ne..].
Qed.

(** With a full queue the fallback overtakes the queue: the commit of an
    intent whose append is still queued finds no row (or the previous one),
    and the queued append then writes the intent as PENDING; the commit is
    lost, although the call succeeded. *)
Theorem saturated_commit_lost (w : wal) (k : string) (row : wrow) (q1 q2 : list wop) :
  answering w → wl_queue w = q1 ++ WInsert k row :: q2 → Forall (λ o, wop_id o ≠ k) q2 →
  (wl_max_queue w <= length (wl_queue w))%nat →
  let '(r, w') := commit k w in
  r = Ok () ∧ db_rows (wl_db (wal_close w').2) !! k = Some row.
Proof.
  intros Ha Hq Hq2 Hfull. unfold commit, mbind, st_bind. rewrite now_ist_total, write_full by done.
  split; [done|]. unfold wal_close, mbind, st_bind, st_get. rewrite drain_eq by done.
  unfold contents. cbn [snd set_db wl_db db_rows wl_queue add_changes set_clock wal_clock].
  rewrite Hq, apply_all_app. cbn [apply_all foldl].
  change (foldl (λ t o, apply_wop o t) ?t q2) with (apply_all q2 t).
  rewrite apply_all_other by done. simpl. apply tbl_lookup_replace_eq.
Qed.

(** *** Reads *)

Lemma sync_read_eq {A} (f : pydict wrow → list A) w :
  answering w → sync_read f w = (Ok (f (db_rows (wl_db w))), w).
Proof.
  intros Ha. unfold sync_read, st_try, wal_db, st_zoom. rewrite db_run_quiet by done.
  destruct w as [c [rs fs] q m e n]. unfold answering in Ha. simpl in *. by subst.
Qed.

Lemma fmap_sorted {A B} (key : B → Z) (f : A → B) l :
  sorted_by (λ x, key (f x)) l → sorted_by key (f <$> l).
Proof.
  unfold sorted_by. induction 1 as [|x l Hl IH Hx]; simpl; constructor; [done|].
  by apply Forall_fmap.
Qed.

(** What crash recovery reads: the PENDING intents of the table, each as
    [get_intent] finds it, oldest first; writes still in the queue are not
    seen, and when SQLite fails the answer is the empty list. *)
Theorem get_pending_exact (w : wal) :
  dict_wf (db_rows (wl_db w)) →
  (answering w →
   ∃ l, get_pending w = (Ok l, w) ∧
     (∀ i, i ∈ l ↔ get_intent (in_intent_id i) w = (Ok (Some i), w) ∧ in_status i = IntentStatus.PENDING) ∧
     sorted_by (λ i, default 0 (in_created_at i)) l) ∧
  (∀ e fs, db_faults (wl_db w) = Some e :: fs → exn_cls e = SqliteError →
     (get_pending w).1 = Ok []).
Proof.
  intros Hwf. split.
  - intros Ha. unfold get_pending. rewrite sync_read_eq by done. eexists. split; [done|]. split.
    + intros i. unfold get_intent, mbind, st_bind. rewrite sync_read_eq by done.
      unfold select_intents. rewrite list_elem_of_fmap. split.
      * intros ([k r] & -> & Hin). rewrite order_by_perm in Hin.
        apply list_elem_of_filter in Hin as [Hs Hin]. apply dict_items_lookup in Hin; [|done].
        simpl in *. rewrite Hin. split; [done|]. by apply String.eqb_eq in Hs.
      * intros [Hg Hs]. destruct (db_rows (wl_db w) !! in_intent_id i) as [r|] eqn:Hk; [|done].
        injection Hg as Hi. exists (in_intent_id i, r). split; [done|].
        rewrite order_by_perm, list_elem_of_filter. split; [|by apply dict_items_lookup].
        rewrite <- Hi in Hs. simpl in Hs. simpl. by rewrite Hs.
    + apply fmap_sorted. simpl. apply order_by_sorted.
  - intros e fs Hf He. unfold get_pending, sync_read, st_try, wal_db, st_zoom, db_run. rewrite Hf.
    unfold catches. rewrite He. simpl. done.
Qed.

(** Cleanup removes only settled intents created before the cutoff; the
    number it returns is the connection's running total of changes, so it
    includes every synchronous write and every earlier cleanup. *)
Theorem cleanup_running_total (hours : Z) (w : wal) :
  answering w → dict_wf (db_rows (wl_db w)) →
  ∃ n w', wal_cleanup hours w = (Ok n, w') ∧
    n = wl_total_changes w + (dlen (db_rows (wl_db w)) - dlen (db_rows (wl_db w'))) ∧
    ∀ k, db_rows (wl_db w') !! k =
      match db_rows (wl_db w) !! k with
      | Some r => if String.eqb (w_status r) IntentStatus.SETTLED &&
                     (w_created_at r <? clk_now (wl_clk w) - hours * usec_per_hour)
                  then None else Some r
      | None => None
      end.
Proof.
  intros Ha Hwf. unfold wal_cleanup, mbind, st_bind. rewrite now_ist_total.
  unfold wal_db, st_zoom. rewrite db_run_quiet by done. do 2 eexists. split; [done|]. split; [done|].
  intros k. cbn. rewrite dict_filter_lookup by done. destruct (_ !! k) as [r|]; [|done].
  by destruct (_ && _).
Qed.

(** ** Concrete instances *)

Definition demo_intent (k : string) : intent :=
  {| in_intent_id := k; in_action := "place_order"; in_params := [("qty", JInt 50)];
     in_risk_verdict := None; in_config_snapshot_hash := ""; in_correlation_id := "";
     in_status := IntentStatus.PENDING; in_created_at := None; in_committed_at := None; in_failed_at := None;
     in_error_message := "" |}.

Definition demo_wal : wal := new_wal (Clock 0 [5; 5; 5]) (DBase ∅ []).

Definition demo_events : list wal_event :=
  [EvAppend (demo_intent "a") "u1"; EvWorker; EvAppend (demo_intent "b") "u2"; EvCommit "a"; EvWorker;
   EvFail "b" "no"; EvSettle "a"].


(** The database has to answer: a write that fails in the worker is logged
    and lost, although the call that queued it succeeded. *)
Example worker_error_loses :
  (run_events [EvAppend (demo_intent "a") "u1"; EvWorker] (new_wal (Clock 0 []) (DBase ∅ [Some (PyExn SqliteError "disk I/O error")]))).1 ≠ [] ∧
  contents (run_events [EvAppend (demo_intent "a") "u1"; EvWorker]
    (new_wal (Clock 0 []) (DBase ∅ [Some (PyExn SqliteError "disk I/O error")]))).2 = ∅.
Proof. vm_compute. split; [discriminate|reflexivity]. Qed.

(** A queue with room for one write, holding the append of ["a"]. *)
Definition demo_full_wal : wal :=
  Wal (Clock 9 []) (DBase ∅ []) [WInsert "a" (insert_row "u" 0 (demo_intent "a"))] 1 0 0.

Lemma saturated_commit_lost_witness :
  let '(r, w') := commit "a" demo_full_wal in
  r = Ok () ∧
  db_rows (wl_db (wal_close w').2) !! "a" = Some (insert_row "u" 0 (demo_intent "a")).
Proof.
  refine (saturated_commit_lost demo_full_wal "a" (insert_row "u" 0 (demo_intent "a")) [] []
            eq_refl eq_refl _ _); [constructor|by vm_compute].
Defined.

Definition demo_wal_rows : pydict wrow :=
  PyDict [("a", insert_row "u" 5 (demo_intent "a"));
          ("b", with_status IntentStatus.SETTLED (insert_row "v" 3 (demo_intent "b")))].

Lemma get_pending_exact_witness :
  ∃ l, get_pending (new_wal (Clock 0 []) (DBase demo_wal_rows [])) =
       (Ok l, new_wal (Clock 0 []) (DBase demo_wal_rows [])) ∧
    (∀ i, i ∈ l ↔ get_intent (in_intent_id i) (new_wal (Clock 0 []) (DBase demo_wal_rows []))
                  = (Ok (Some i), new_wal (Clock 0 []) (DBase demo_wal_rows [])) ∧
                  in_status i = IntentStatus.PENDING) ∧
    sorted_by (λ i, default 0 (in_created_at i)) l.
Proof.
  refine (proj1 (get_pending_exact (new_wal (Clock 0 []) (DBase demo_wal_rows [])) _) eq_refl).
  dict_wf_eval.
Defined.

Lemma cleanup_running_total_witness :
  ∃ n w', wal_cleanup 1 (Wal (Clock (2 * usec_per_hour) []) (DBase demo_wal_rows []) [] 512 0 7)
          = (Ok n, w') ∧
    n = 7 + (dlen demo_wal_rows - dlen (db_rows (wl_db w'))) ∧
    ∀ k, db_rows (wl_db w') !! k =
      match demo_wal_rows !! k with
      | Some r => if String.eqb (w_status r) IntentStatus.SETTLED &&
                     (w_created_at r <? 2 * usec_per_hour - 1 * usec_per_hour)
                  then None else Some r
      | None => None
      end.
Proof.
  refine (cleanup_running_total 1
    (Wal (Clock (2 * usec_per_hour) []) (DBase demo_wal_rows []) [] 512 0 7) eq_refl _).
  dict_wf_eval.
Defined.
