(* ===== verification/OperatingMode.v ===== *)
(** * The operating mode

    [core/operating_mode.py]: the execution authority of the session, its
    gates, its audited transitions and its freeze. *)
From S2P Require Import Prelude PyStr.

(** ** Data *)

Inductive OperatingMode :=
| SIGNAL_ONLY | BACKTEST | PAPER | SHADOW | LIVE_MANUAL_CONFIRM | FULL_AUTO.

#[global] Instance OperatingMode_eq_dec : EqDecision OperatingMode.
Proof. solve_decision. Defined.

Definition mode_value (m : OperatingMode) : string :=
  match m with
  | SIGNAL_ONLY => "SIGNAL_ONLY" | BACKTEST => "BACKTEST" | PAPER => "PAPER"
  | SHADOW => "SHADOW" | LIVE_MANUAL_CONFIRM => "LIVE_MANUAL_CONFIRM" | FULL_AUTO => "FULL_AUTO"
  end.

Definition MODE_AUTHORITY (m : OperatingMode) : Z :=
  match m with
  | SIGNAL_ONLY => 0 | BACKTEST => 1 | PAPER => 2 | SHADOW => 3
  | LIVE_MANUAL_CONFIRM => 4 | FULL_AUTO => 5
  end.

Inductive ExecutionAction :=
| GENERATE_SIGNAL | EVALUATE_RISK | SUBMIT_ORDER | CANCEL_ORDER | MODIFY_POSITION | CLOSE_ALL.

Definition action_value (a : ExecutionAction) : string :=
  match a with
  | GENERATE_SIGNAL => "GENERATE_SIGNAL" | EVALUATE_RISK => "EVALUATE_RISK"
  | SUBMIT_ORDER => "SUBMIT_ORDER" | CANCEL_ORDER => "CANCEL_ORDER"
  | MODIFY_POSITION => "MODIFY_POSITION" | CLOSE_ALL => "CLOSE_ALL"
  end.

Definition ACTION_MIN_MODE (a : ExecutionAction) : OperatingMode :=
  match a with
  | GENERATE_SIGNAL | EVALUATE_RISK | CLOSE_ALL => SIGNAL_ONLY
  | SUBMIT_ORDER | CANCEL_ORDER | MODIFY_POSITION => PAPER
  end.

Definition ACTION_LIVE_MIN_MODE (a : ExecutionAction) : option OperatingMode :=
  match a with
  | SUBMIT_ORDER | CANCEL_ORDER => Some LIVE_MANUAL_CONFIRM
  | _ => None
  end.

Record ModeTransition := MkTransition {
  mt_timestamp : Z; mt_from_mode : OperatingMode; mt_to_mode : OperatingMode;
  mt_reason : string; mt_authorized_by : string }.

Record mode_manager := ModeManager {
  om_clk : clock;
  om_mode : OperatingMode;
  om_enable_full_auto : bool;
  om_history : list ModeTransition;
  om_max_history : Z;
  om_frozen : bool
}.

#[global] Instance mode_manager_clock : HasClock mode_manager :=
  {| clock_of := om_clk;
     set_clock := λ c m, ModeManager c (om_mode m) (om_enable_full_auto m) (om_history m)
                           (om_max_history m) (om_frozen m) |}.

(** [OperatingModeManager(initial_mode, enable_full_auto, max_history)] *)
Definition new_mode_manager (c : clock) (initial : OperatingMode) (enable : bool) (max_history : Z) :
    mode_manager := ModeManager c initial enable [] max_history false.

Definition violation (msg : string) : pyexn := PyExn (OtherException "OperatingModeViolationError") msg.

(** ** Operations *)

Definition OM (A : Type) : Type := ST mode_manager A.

(** [_record_transition]: it reads [self._mode]. *)
Definition record_transition (to_mode : OperatingMode) (reason authorized_by : string) : OM unit :=
  now ← now_ist;
  m ← st_get;
  let history := om_history m ++ [MkTransition now (om_mode m) to_mode reason authorized_by] in
  let history := if om_max_history m <? Z.of_nat (length history) then tail history else history in
  st_put (ModeManager (om_clk m) (om_mode m) (om_enable_full_auto m) history (om_max_history m)
            (om_frozen m)).

Definition set_mode (mode : OperatingMode) (reason authorized_by : string) : OM unit :=
  m ← st_get;
  if om_frozen m then
    st_raise (violation (String.append "Cannot change mode: manager is frozen at " (mode_value (om_mode m))))
  else if bool_decide (mode = FULL_AUTO) && negb (om_enable_full_auto m) then
    st_raise (violation "FULL_AUTO mode requires --enable-full-auto flag or ENABLE_FULL_AUTO=true")
  else
    st_put (ModeManager (om_clk m) mode (om_enable_full_auto m) (om_history m) (om_max_history m)
              (om_frozen m)) ;;
    record_transition mode reason authorized_by.

Definition freeze : OM unit :=
  st_modify (λ m, ModeManager (om_clk m) (om_mode m) (om_enable_full_auto m) (om_history m)
                    (om_max_history m) true).

Definition requires_live_broker (m : mode_manager) : bool :=
  bool_decide (om_mode m ∈ [LIVE_MANUAL_CONFIRM; FULL_AUTO]).

Definition allows_execution (m : mode_manager) : bool * string :=
  match om_mode m with
  | SIGNAL_ONLY => (false, "SIGNAL_ONLY: Signal generation only, no execution")
  | BACKTEST => (false, "BACKTEST: Historical simulation, no live execution")
  | PAPER => (true, "PAPER: Paper execution allowed")
  | SHADOW => (true, "SHADOW: Shadow execution allowed (no real orders)")
  | LIVE_MANUAL_CONFIRM => (true, "LIVE_MANUAL_CONFIRM: Requires manual approval")
  | FULL_AUTO => (true, "FULL_AUTO: Full auto execution")
  end.

Definition allows_live_execution (m : mode_manager) : bool * string :=
  match om_mode m with
  | LIVE_MANUAL_CONFIRM => (true, "LIVE_MANUAL_CONFIRM: Live execution with manual approval")
  | FULL_AUTO => (true, "FULL_AUTO: Live auto execution")
  | mode => (false, String.append (mode_value mode) ": Live execution not allowed in this mode")
  end.

Definition requires_manual_approval (m : mode_manager) : bool :=
  bool_decide (om_mode m = LIVE_MANUAL_CONFIRM).

Definition can_perform (action : ExecutionAction) (m : mode_manager) : bool * string :=
  let mode := om_mode m in
  let min_mode := ACTION_MIN_MODE action in
  if MODE_AUTHORITY mode <? MODE_AUTHORITY min_mode then
    (false, String.append (mode_value mode) (String.append ": " (String.append (action_value action)
              (String.append " requires at least " (mode_value min_mode)))))
  else (true, ""%string).

Definition can_perform_live (action : ExecutionAction) (m : mode_manager) : bool * string :=
  let mode := om_mode m in
  match ACTION_LIVE_MIN_MODE action with
  | Some min_live =>
      if MODE_AUTHORITY mode <? MODE_AUTHORITY min_live then
        (false, String.append (mode_value mode) (String.append ": LIVE " (String.append (action_value action)
                  (String.append " requires at least " (mode_value min_live)))))
      else (true, ""%string)
  | None => (true, ""%string)
  end.

(** ** Histories of transitions *)

Inductive mode_op := SetMode (mode : OperatingMode) (reason authorized_by : string) | Freeze.

Definition run_mode_op (o : mode_op) : OM unit :=
  match o with SetMode mode r a => set_mode mode r a | Freeze => freeze end.

Fixpoint run_mode_ops (os : list mode_op) (m : mode_manager) : mode_manager :=
  match os with [] => m | o :: os' => run_mode_ops os' (run_mode_op o m).2 end.

(** What a call makes of the manager. *)
Lemma set_mode_eq mode r a m :
  set_mode mode r a m =
  if om_frozen m || (bool_decide (mode = FULL_AUTO) && negb (om_enable_full_auto m)) then
    ((set_mode mode r a m).1, m)
  else
    let '(now, c) := clk_read (om_clk m) in
    let h := om_history m ++ [MkTransition now mode mode r a] in
    (Ok (), ModeManager c mode (om_enable_full_auto m)
              (if om_max_history m <? Z.of_nat (length h) then tail h else h)
              (om_max_history m) (om_frozen m)).
Proof.
  unfold set_mode, mbind, st_bind, st_get. destruct (om_frozen m) eqn:Hf; [done|]. cbn [orb].
  destruct (bool_decide (mode = FULL_AUTO) && negb (om_enable_full_auto m)); [done|].
  unfold st_put, record_transition, mbind, st_bind, now_ist. simpl.
  by destruct (clk_read (om_clk m)).
Qed.

(** A session without the full-auto flag never reaches FULL_AUTO, and a
    frozen one never changes, whatever sequence of transitions is asked for
    and whichever of them raise. *)
Theorem authority_guarded (os : list mode_op) (m : mode_manager) :
  let m' := run_mode_ops os m in
  (om_enable_full_auto m = false → om_mode m ≠ FULL_AUTO → om_mode m' ≠ FULL_AUTO) ∧
  (om_frozen m = true → om_mode m' = om_mode m ∧ om_history m' = om_history m).
Proof.
  revert m. induction os as [|o os IH]; intros m; [done|]. cbn [run_mode_ops].
  destruct (IH (run_mode_op o m).2) as [IH1 IH2]. destruct o as [mode r a|]; cbn [run_mode_op] in *.
  - rewrite set_mode_eq in IH1, IH2 |- *.
    destruct (om_frozen m || (bool_decide (mode = FULL_AUTO) && negb (om_enable_full_auto m))) eqn:E;
      [done|].
    bools. destruct (clk_read (om_clk m)) as [now c]. cbn in IH1, IH2 |- *. split; [|intros ?; congruence].
    intros Hen _. apply IH1; [done|]. intros ->.
    match goal with H : _ && _ = false |- _ => rewrite bool_decide_eq_true_2, Hen in H by done end. done.
  - split; [exact IH1|]. intros _. by apply IH2.
Qed.

(** The audit trail does not say where a transition came from: every
    recorded transition names the new mode as its origin too. *)
Theorem transition_origin_lost (os : list mode_op) (m : mode_manager) :
  Forall (λ t, mt_from_mode t = mt_to_mode t) (om_history m) →
  Forall (λ t, mt_from_mode t = mt_to_mode t) (om_history (run_mode_ops os m)).
Proof.
  revert m. induction os as [|o os IH]; intros m Hm; [done|]. cbn [run_mode_ops]. apply IH.
  destruct o as [mode r a|]; cbn [run_mode_op]; [|done]. rewrite set_mode_eq.
  destruct (_ || _); [done|]. destruct (clk_read (om_clk m)) as [now c]. cbn [snd om_history].
  assert (Forall (λ t, mt_from_mode t = mt_to_mode t) (om_history m ++ [MkTransition now mode mode r a]))
    as H by (apply Forall_app; split; [done|by constructor]).
  destruct (_ <? _); [|done]. by destruct H.
Qed.

(** ** Concrete instances *)

Definition demo_modes : mode_manager := new_mode_manager (Clock 0 []) SIGNAL_ONLY false 100.

Lemma transition_origin_lost_witness :
  Forall (λ t, mt_from_mode t = mt_to_mode t)
    (om_history (run_mode_ops [SetMode PAPER "go" "op"; SetMode SHADOW "x" "op"] demo_modes)).
Proof.
  refine (transition_origin_lost [SetMode PAPER "go" "op"; SetMode SHADOW "x" "op"] demo_modes _).
  constructor.
Defined.
