(* ===== verification/SystemMode.v ===== *)
(** * The system mode

    [core/system_mode.py]: the operational mode that gates new entries and
    exits, and its transitions on broker and market events. *)
From S2P Require Import Prelude PyStr.

(** ** Data *)

Inductive SystemMode := NORMAL | DEGRADED | BROKER_DOWN | MARKET_HALTED | SAFE_MODE.

#[global] Instance SystemMode_eq_dec : EqDecision SystemMode.
Proof. solve_decision. Defined.

Inductive SystemModeReason :=
| STARTUP | BROKER_CONNECTED | BROKER_UNREACHABLE | API_ERROR | MARKET_CLOSED | MARKET_HOLIDAY
| HARD_HALT | MANUAL_INTERVENTION | CONSECUTIVE_LOSSES | DAILY_LOSS_LIMIT | RECONCILIATION_FAILED
| UNKNOWN_REASON.

(** [SystemState] with the manager's threshold and the clock. *)
Record sysmode := SysMode {
  sy_clk : clock;
  sy_mode : SystemMode;
  sy_reason : SystemModeReason;
  sy_reason_detail : string;
  sy_entered_at : Z;
  sy_last_transition : Z;
  sy_consecutive_failures : Z;
  sy_broker_reachable : bool;
  sy_market_open : bool;
  sy_broker_failure_threshold : Z
}.

#[global] Instance sysmode_clock : HasClock sysmode :=
  {| clock_of := sy_clk;
     set_clock := λ c s, SysMode c (sy_mode s) (sy_reason s) (sy_reason_detail s) (sy_entered_at s)
       (sy_last_transition s) (sy_consecutive_failures s) (sy_broker_reachable s) (sy_market_open s)
       (sy_broker_failure_threshold s) |}.

Definition sy_set_failures (n : Z) (s : sysmode) : sysmode :=
  SysMode (sy_clk s) (sy_mode s) (sy_reason s) (sy_reason_detail s) (sy_entered_at s)
    (sy_last_transition s) n (sy_broker_reachable s) (sy_market_open s) (sy_broker_failure_threshold s).
Definition sy_set_reachable (b : bool) (s : sysmode) : sysmode :=
  SysMode (sy_clk s) (sy_mode s) (sy_reason s) (sy_reason_detail s) (sy_entered_at s)
    (sy_last_transition s) (sy_consecutive_failures s) b (sy_market_open s) (sy_broker_failure_threshold s).
Definition sy_set_market (b : bool) (s : sysmode) : sysmode :=
  SysMode (sy_clk s) (sy_mode s) (sy_reason s) (sy_reason_detail s) (sy_entered_at s)
    (sy_last_transition s) (sy_consecutive_failures s) (sy_broker_reachable s) b (sy_broker_failure_threshold s).
Definition sy_set_detail (d : string) (s : sysmode) : sysmode :=
  SysMode (sy_clk s) (sy_mode s) (sy_reason s) d (sy_entered_at s)
    (sy_last_transition s) (sy_consecutive_failures s) (sy_broker_reachable s) (sy_market_open s)
    (sy_broker_failure_threshold s).
Definition sy_enter (m : SystemMode) (r : SystemModeReason) (d : string) (s : sysmode) : sysmode :=
  SysMode (sy_clk s) m r d (sy_entered_at s)
    (sy_last_transition s) (sy_consecutive_failures s) (sy_broker_reachable s) (sy_market_open s)
    (sy_broker_failure_threshold s).
Definition sy_set_transition (t : Z) (s : sysmode) : sysmode :=
  SysMode (sy_clk s) (sy_mode s) (sy_reason s) (sy_reason_detail s) (sy_entered_at s)
    t (sy_consecutive_failures s) (sy_broker_reachable s) (sy_market_open s) (sy_broker_failure_threshold s).

(** [SystemModeManager()]; the state's two timestamps and the manager's own
    are three readings. *)
Definition new_sysmode (threshold : Z) (c : clock) : sysmode :=
  let '(t1, c1) := clk_read c in
  let '(t2, c2) := clk_read c1 in
  let '(_, c3) := clk_read c2 in
  SysMode c3 NORMAL STARTUP "" t1 t2 0 true true threshold.

(** ** Operations

    The callback's exceptions are all caught and it gets no access to the
    state, so it is left out. *)
Definition YM (A : Type) : Type := ST sysmode A.

Definition transition_to (new_mode : SystemMode) (reason : SystemModeReason) (detail : string) : YM unit :=
  s ← st_get;
  if bool_decide (sy_mode s = new_mode) then st_modify (sy_set_detail detail)
  else
    st_modify (sy_enter new_mode reason detail) ;;
    now ← now_ist;
    st_modify (sy_set_transition now) ;;
    if bool_decide (new_mode = NORMAL) then st_modify (sy_set_failures 0) else mret ().

(** [reason or default] *)
Definition or_default (reason d : string) : string := str_or (Some reason) d.

Definition set_normal (reason : string) : YM unit :=
  transition_to NORMAL BROKER_CONNECTED (or_default reason "Broker connected").
Definition set_degraded (reason : string) : YM unit :=
  transition_to DEGRADED API_ERROR (or_default reason "Partial API failure").
Definition set_market_halted (reason : string) : YM unit :=
  transition_to MARKET_HALTED MARKET_CLOSED (or_default reason "Market closed or halted").
Definition set_safe_mode (reason : string) (from_hard_halt : bool) : YM unit :=
  if from_hard_halt then transition_to SAFE_MODE HARD_HALT (or_default reason "Hard halt triggered")
  else transition_to SAFE_MODE MANUAL_INTERVENTION (or_default reason "Manual safe mode intervention").

Definition set_broker_down (reason : string) : YM unit :=
  st_modify (λ s, sy_set_failures (sy_consecutive_failures s + 1) s) ;;
  s ← st_get;
  if sy_broker_failure_threshold s <=? sy_consecutive_failures s then
    transition_to BROKER_DOWN BROKER_UNREACHABLE
      (or_default reason (String.append "Broker unreachable after "
         (String.append (str_of_Z (sy_consecutive_failures s)) " failures")))
  else mret ().

Definition record_broker_success : YM unit :=
  s ← st_get;
  if bool_decide (sy_mode s = BROKER_DOWN) then
    st_modify (sy_set_failures 0) ;;
    st_modify (sy_set_reachable true) ;;
    transition_to NORMAL BROKER_CONNECTED "Broker restored"
  else mret ().

Definition record_broker_failure : YM unit :=
  st_modify (sy_set_reachable false) ;;
  set_broker_down "".

Definition check_market_status (is_open : bool) : YM unit :=
  st_modify (sy_set_market is_open) ;;
  s ← st_get;
  if negb is_open && bool_decide (sy_mode s = NORMAL) then
    transition_to MARKET_HALTED MARKET_CLOSED "Market closed"
  else mret ().

Definition can_enter_new_trade (s : sysmode) : bool * string :=
  match sy_mode s with
  | NORMAL => (true, ""%string)
  | DEGRADED => (false, String.append "System in DEGRADED mode: " (sy_reason_detail s))
  | BROKER_DOWN => (false, String.append "Broker unreachable: " (sy_reason_detail s))
  | MARKET_HALTED => (false, String.append "Market closed/halted: " (sy_reason_detail s))
  | SAFE_MODE => (false, String.append "SAFE_MODE active: " (sy_reason_detail s))
  end.

Definition can_reconcile (s : sysmode) : bool :=
  bool_decide (sy_mode s ∈ [NORMAL; DEGRADED; BROKER_DOWN]).

Definition can_exit_position (s : sysmode) : bool * string :=
  match sy_mode s with
  | NORMAL | DEGRADED => (true, ""%string)
  | BROKER_DOWN => (true, "Attempting exit in BROKER_DOWN mode - may fail"%string)
  | MARKET_HALTED => (false, "Cannot exit - market halted"%string)
  | SAFE_MODE => (true, "Exits allowed in SAFE_MODE"%string)
  end.

(** The singleton functions: without a manager everything is allowed. *)
Definition current_mode (g : option sysmode) : SystemMode :=
  match g with None => NORMAL | Some s => sy_mode s end.
Definition can_trade (g : option sysmode) : bool * string :=
  match g with None => (true, ""%string) | Some s => can_enter_new_trade s end.
Definition can_exit (g : option sysmode) : bool * string :=
  match g with None => (true, ""%string) | Some s => can_exit_position s end.

(** ** Events *)

Inductive sys_event :=
| SetNormal (reason : string) | SetDegraded (reason : string) | SetBrokerDown (reason : string)
| SetMarketHalted (reason : string) | SetSafeMode (reason : string) (from_hard_halt : bool)
| BrokerSuccess | BrokerFailure | MarketStatus (is_open : bool).

Definition run_sys_event (e : sys_event) : YM unit :=
  match e with
  | SetNormal r => set_normal r
  | SetDegraded r => set_degraded r
  | SetBrokerDown r => set_broker_down r
  | SetMarketHalted r => set_market_halted r
  | SetSafeMode r h => set_safe_mode r h
  | BrokerSuccess => record_broker_success
  | BrokerFailure => record_broker_failure
  | MarketStatus o => check_market_status o
  end.

Fixpoint run_sys_events (es : list sys_event) (s : sysmode) : sysmode :=
  match es with [] => s | e :: es' => run_sys_events es' (run_sys_event e s).2 end.

(** ** What the history says *)

(** The events that may open the system again. *)
Definition reopens (e : sys_event) : bool := match e with SetNormal _ | BrokerSuccess => true | _ => false end.
(** The events that close it at once. *)
Definition closes (e : sys_event) : bool :=
  match e with SetDegraded _ | SetMarketHalted _ | SetSafeMode _ _ | MarketStatus false => true | _ => false end.
(** A failed call of the broker, and how many a history has. *)
Definition broker_failed (e : sys_event) : bool := match e with SetBrokerDown _ | BrokerFailure => true | _ => false end.
Definition failures (es : list sys_event) : Z := Z.of_nat (length (filter (λ e, broker_failed e = true) es)).

(** Mode, failure count and threshold. *)
Definition sys_core (s : sysmode) : SystemMode * Z * Z :=
  (sy_mode s, sy_consecutive_failures s, sy_broker_failure_threshold s).
Lemma core_inv s m n t : sys_core s = (m, n, t) →
  sy_mode s = m ∧ sy_consecutive_failures s = n ∧ sy_broker_failure_threshold s = t.
Proof. unfold sys_core. by intros [= -> -> ->]. Qed.
Definition open (s : sysmode) : Prop := (can_enter_new_trade s).1 = true.
Lemma open_normal s : open s ↔ sy_mode s = NORMAL.
Proof. unfold open, can_enter_new_trade. by destruct (sy_mode s). Qed.

Lemma transition_to_core m r d s :
  sys_core (transition_to m r d s).2 =
  (if bool_decide (sy_mode s = m) then sys_core s
   else (m, if bool_decide (m = NORMAL) then 0 else sy_consecutive_failures s,
         sy_broker_failure_threshold s)).
Proof.
  unfold transition_to, mbind, st_bind, st_get.
  destruct (bool_decide (sy_mode s = m)); [done|].
  unfold st_modify. rewrite now_ist_total. by destruct (bool_decide (m = NORMAL)).
Qed.
Lemma transition_to_mode m r d s : sy_mode (transition_to m r d s).2 = m.
Proof.
  pose proof (transition_to_core m r d s) as H. case_bool_decide as E; unfold sys_core in H; by injection H as -> _ _.
Qed.
(** Elsewhere than to NORMAL the counts stay. *)
Lemma transition_to_counts m r d s : m ≠ NORMAL →
  sy_consecutive_failures (transition_to m r d s).2 = sy_consecutive_failures s ∧
  sy_broker_failure_threshold (transition_to m r d s).2 = sy_broker_failure_threshold s.
Proof.
  intros Hm. pose proof (transition_to_core m r d s) as H. rewrite (bool_decide_eq_false_2 (m = NORMAL)) in H by done.
  case_bool_decide; unfold sys_core in H; by injection H as _ -> ->.
Qed.
Lemma set_broker_down_core r s :
  sys_core (set_broker_down r s).2 =
  (if sy_broker_failure_threshold s <=? sy_consecutive_failures s + 1 then BROKER_DOWN else sy_mode s,
   sy_consecutive_failures s + 1, sy_broker_failure_threshold s).
Proof.
  unfold set_broker_down, mbind, st_bind, st_modify, st_get. cbn.
  destruct (_ <=? _); [|done]. unfold sys_core. rewrite transition_to_mode.
  match goal with |- context [transition_to ?m ?r ?d ?x] => by destruct (transition_to_counts m r d x ltac:(done)) as [-> ->] end.
Qed.
Lemma failed_core e s : broker_failed e = true →
  sys_core (run_sys_event e s).2 =
  (if sy_broker_failure_threshold s <=? sy_consecutive_failures s + 1 then BROKER_DOWN else sy_mode s,
   sy_consecutive_failures s + 1, sy_broker_failure_threshold s).
Proof.
  destruct e; try done; intros _; [apply set_broker_down_core|]. exact (set_broker_down_core "" (sy_set_reachable false s)).
Qed.
(** A success matters only in BROKER_DOWN. *)
Lemma success_core s :
  sys_core (run_sys_event BrokerSuccess s).2 =
  if bool_decide (sy_mode s = BROKER_DOWN) then (NORMAL, 0, sy_broker_failure_threshold s) else sys_core s.
Proof.
  cbn [run_sys_event]. unfold record_broker_success, mbind, st_bind, st_get, st_modify.
  case_bool_decide as E; [|done]. rewrite transition_to_core. cbn. rewrite E. done.
Qed.
Lemma market_core o s :
  sys_core (run_sys_event (MarketStatus o) s).2 =
  if o then sys_core s
  else (if bool_decide (sy_mode s = NORMAL) then MARKET_HALTED else sy_mode s, sy_consecutive_failures s, sy_broker_failure_threshold s).
Proof.
  cbn [run_sys_event]. unfold check_market_status, mbind, st_bind, st_get, st_modify. cbn [sy_mode sy_set_market].
  destruct o; [done|]. cbn [negb andb]. case_bool_decide as E; [|done].
  rewrite transition_to_core. cbn. rewrite E. done.
Qed.

(** Without an event that opens, the failures add up, a closed system stays
    closed, and each cause closes it. *)
Lemma closed_step e s : reopens e = false →
  sy_consecutive_failures (run_sys_event e s).2 = sy_consecutive_failures s + failures [e] ∧
  sy_broker_failure_threshold (run_sys_event e s).2 = sy_broker_failure_threshold s ∧
  (sy_mode s ≠ NORMAL ∨ closes e = true ∨
     broker_failed e = true ∧ sy_broker_failure_threshold s <= sy_consecutive_failures s + 1 →
   sy_mode (run_sys_event e s).2 ≠ NORMAL).
Proof.
  intros Hr. destruct (broker_failed e) eqn:Hf.
  { pose proof (failed_core e s Hf) as H. apply core_inv in H as (H1 & -> & ->).
    unfold failures. rewrite filter_cons, decide_True, filter_nil by done. split_and!; [done..|]. rewrite H1.
    destruct (_ <=? _) eqn:E; [done|]. bools. intros [?|[Hc|[_ ?]]]; [done|by destruct e|lia]. }
  assert (failures [e] = 0) as -> by (unfold failures; by rewrite filter_cons, decide_False, filter_nil by (by rewrite Hf)).
  rewrite Z.add_0_r. destruct e as [r|r|r|r|r h| | |o]; try done; cbn [run_sys_event].
  - unfold set_degraded. rewrite transition_to_mode. by destruct (transition_to_counts DEGRADED API_ERROR (or_default r "Partial API failure") s ltac:(done)) as [-> ->].
  - unfold set_market_halted. rewrite transition_to_mode. by destruct (transition_to_counts MARKET_HALTED MARKET_CLOSED (or_default r "Market closed or halted") s ltac:(done)) as [-> ->].
  - unfold set_safe_mode. destruct h; rewrite transition_to_mode.
    + by destruct (transition_to_counts SAFE_MODE HARD_HALT (or_default r "Hard halt triggered") s ltac:(done)) as [-> ->].
    + by destruct (transition_to_counts SAFE_MODE MANUAL_INTERVENTION (or_default r "Manual safe mode intervention") s ltac:(done)) as [-> ->].
  - pose proof (market_core o s) as H. cbn [run_sys_event] in H. destruct o; apply core_inv in H as (-> & -> & ->).
    + split_and!; [done..|]. by intros [?|[?|[? _]]].
    + split_and!; [done..|]. by case_bool_decide.
Qed.
(** Without an event that closes, an open system stays open while the
    failures are fewer than the threshold. *)
Lemma open_step e s : sy_mode s = NORMAL → closes e = false → 0 <= sy_consecutive_failures s →
  sy_consecutive_failures s + failures [e] < sy_broker_failure_threshold s →
  sy_mode (run_sys_event e s).2 = NORMAL ∧ 0 <= sy_consecutive_failures (run_sys_event e s).2 <= sy_consecutive_failures s + failures [e] ∧
  sy_broker_failure_threshold (run_sys_event e s).2 = sy_broker_failure_threshold s.
Proof.
  intros Hm Hc Hn Hlt. destruct (broker_failed e) eqn:Hf.
  { pose proof (failed_core e s Hf) as H. apply core_inv in H as (-> & -> & ->).
    unfold failures in *. rewrite filter_cons, decide_True, filter_nil in * by done. cbn in *.
    destruct (_ <=? _) eqn:E; bools; split_and!; (done || lia). }
  assert (failures [e] = 0) as Hz by (unfold failures; by rewrite filter_cons, decide_False, filter_nil by (by rewrite Hf)).
  rewrite Hz. destruct e as [r|r|r|r|r h| | |o]; try done; cbn [run_sys_event].
  - pose proof (transition_to_core NORMAL BROKER_CONNECTED (or_default r "Broker connected") s) as H.
    rewrite bool_decide_eq_true_2 in H by done. unfold set_normal. apply core_inv in H as (Hm' & -> & ->). rewrite Hm', Hm. split_and!; (done || lia).
  - pose proof (success_core s) as H. rewrite Hm, bool_decide_eq_false_2 in H by done. cbn [run_sys_event] in H. apply core_inv in H as (-> & -> & ->).
    split_and!; (done || lia).
  - destruct o; [|done]. pose proof (market_core true s) as H. cbn [run_sys_event] in H. apply core_inv in H as (-> & -> & ->). split_and!; (done || lia).
Qed.

Lemma failures_app es1 es2 : failures (es1 ++ es2) = failures es1 + failures es2.
Proof. unfold failures. rewrite filter_app, length_app. lia. Qed.
Lemma failures_nonneg es : 0 <= failures es.
Proof. unfold failures. lia. Qed.
Lemma run_app es1 es2 s : run_sys_events (es1 ++ es2) s = run_sys_events es2 (run_sys_events es1 s).
Proof. revert s. induction es1 as [|e es1 IH]; intros s; [done|]. cbn. apply IH. Qed.

(** The count of failures never falls below zero. *)
Lemma count_nonneg es : ∀ s, 0 <= sy_consecutive_failures s → 0 <= sy_consecutive_failures (run_sys_events es s).
Proof.
  induction es as [|e es IH]; intros s Hn; [done|]. cbn [run_sys_events]. apply IH. destruct (reopens e) eqn:Hr.
  - destruct e as [r| | | | | | |]; try done; cbn [run_sys_event].
    + pose proof (transition_to_core NORMAL BROKER_CONNECTED (or_default r "Broker connected") s) as H. unfold set_normal.
      case_bool_decide; apply core_inv in H as (_ & -> & _); done.
    + pose proof (success_core s) as H. cbn [run_sys_event] in H. case_bool_decide; apply core_inv in H as (_ & -> & _); done.
  - destruct (closed_step e s Hr) as (-> & _). pose proof (failures_nonneg [e]). lia.
Qed.

Lemma closed_run es : ∀ s, forallb (λ e, negb (reopens e)) es = true →
  sy_consecutive_failures (run_sys_events es s) = sy_consecutive_failures s + failures es ∧
  (sy_mode s ≠ NORMAL ∨ existsb closes es = true ∨
     0 < failures es ∧ sy_broker_failure_threshold s <= sy_consecutive_failures s + failures es →
   sy_mode (run_sys_events es s) ≠ NORMAL).
Proof.
  induction es as [|e es IH]; intros s; [intros _; split; [apply Zplus_0_r_reverse|intros [?|[?|[? _]]]; done]|].
  cbn [forallb existsb run_sys_events]. intros [Hr Hrs]%andb_true_iff. apply negb_true_iff in Hr.
  destruct (closed_step e s Hr) as (Hn & Ht & Hc). destruct (IH (run_sys_event e s).2 Hrs) as (Hn' & Hc').
  change (e :: es) with ([e] ++ es). rewrite failures_app. pose proof (failures_nonneg [e]). pose proof (failures_nonneg es).
  split; [rewrite Hn', Hn; lia|]. intros H1. apply Hc'. rewrite Ht, Hn.
  destruct H1 as [?|[Hx|[Hp Hle]]]; [left; auto| |].
  - apply orb_true_iff in Hx as [?|?]; [left; auto|right; by left].
  - destruct (decide (0 < failures es)) as [?|?]; [right; right; split; [done|lia]|].
    assert (failures es = 0) as Hz by lia. left. apply Hc. right; right.
    destruct (broker_failed e) eqn:Hf; [|exfalso; unfold failures in Hp at 1; rewrite filter_cons, decide_False, filter_nil in Hp by (by rewrite Hf); cbn in Hp; lia].
    split; [done|]. unfold failures in Hle at 1. rewrite filter_cons, decide_True, filter_nil in Hle by done. cbn in Hle. lia.
Qed.
Lemma open_run es : ∀ s, sy_mode s = NORMAL → forallb (λ e, negb (closes e)) es = true → 0 <= sy_consecutive_failures s →
  sy_consecutive_failures s + failures es < sy_broker_failure_threshold s → sy_mode (run_sys_events es s) = NORMAL.
Proof.
  induction es as [|e es IH]; intros s Hm; [done|]. cbn [forallb run_sys_events].
  intros [Hc Hcs]%andb_true_iff Hn. apply negb_true_iff in Hc. change (e :: es) with ([e] ++ es). rewrite failures_app.
  pose proof (failures_nonneg es). intros Hlt. destruct (open_step e s Hm Hc Hn ltac:(lia)) as (Hm' & Hn' & Ht).
  apply IH; [done|done|lia|]. rewrite Ht. lia.
Qed.


Lemma failures_in_a_row n s : (0 < n)%nat →
  sy_broker_failure_threshold s <= sy_consecutive_failures s + Z.of_nat n →
  sy_mode (run_sys_events (replicate n BrokerFailure) s) = BROKER_DOWN.
Proof.
  revert s. induction n as [|n IH]; intros s Hn Ht; [lia|]. cbn [replicate run_sys_events].
  pose proof (failed_core BrokerFailure s eq_refl) as H. apply core_inv in H as (Hm & Hc & Hth).
  destruct n as [|n]; [|apply IH; lia]. cbn [replicate run_sys_events]. rewrite Hm. by rewrite (proj2 (Z.leb_le _ _)) by lia.
Qed.

(** SAFE_MODE, even entered by a hard halt, is left without an operator:
    once enough broker calls in a row have failed, one that succeeds brings
    the system back to NORMAL, with new entries allowed. *)
Theorem safe_mode_escapes (n : nat) (reason : string) (s : sysmode) :
  (0 < n)%nat → sy_broker_failure_threshold s <= sy_consecutive_failures s + Z.of_nat n →
  sy_mode s ≠ SAFE_MODE →
  let s1 := run_sys_events [SetSafeMode reason true] s in
  let s2 := run_sys_events (replicate n BrokerFailure ++ [BrokerSuccess]) s1 in
  (can_enter_new_trade s1).1 = false ∧ sy_mode s2 = NORMAL ∧ (can_enter_new_trade s2).1 = true.
Proof.
  intros Hn Ht Hne. cbv zeta. set (s1 := run_sys_events [SetSafeMode reason true] s).
  assert (sy_mode s1 = SAFE_MODE) as Hm by apply transition_to_mode.
  assert (sy_mode (run_sys_events (replicate n BrokerFailure ++ [BrokerSuccess]) s1) = NORMAL) as H2.
  { rewrite run_app. pose proof (failures_in_a_row n s1 Hn) as H.
    destruct (transition_to_counts SAFE_MODE HARD_HALT (or_default reason "Hard halt triggered") s ltac:(done)) as [Hc Hth].
    pose proof (success_core (run_sys_events (replicate n BrokerFailure) s1)) as Hs.
    rewrite H, bool_decide_eq_true_2 in Hs; [|done|]; [exact (proj1 (core_inv _ _ _ _ Hs))|].
    change (sy_broker_failure_threshold (transition_to SAFE_MODE HARD_HALT (or_default reason "Hard halt triggered") s).2 <=
      sy_consecutive_failures (transition_to SAFE_MODE HARD_HALT (or_default reason "Hard halt triggered") s).2 + Z.of_nat n).
    rewrite Hc, Hth. exact Ht. }
  split_and!; [unfold can_enter_new_trade; by rewrite Hm|done|by apply open_normal].
Qed.

(** ** Concrete instances *)

Lemma safe_mode_escapes_witness :
  let s1 := run_sys_events [SetSafeMode "loss" true] (new_sysmode 3 (Clock 0 [])) in
  let s2 := run_sys_events (replicate 3 BrokerFailure ++ [BrokerSuccess]) s1 in
  (can_enter_new_trade s1).1 = false ∧ sy_mode s2 = NORMAL ∧ (can_enter_new_trade s2).1 = true.
Proof.
  refine (safe_mode_escapes 3 "loss" (new_sysmode 3 (Clock 0 [])) _ _ _);
    [lia|vm_compute; congruence|by vm_compute].
Defined.

(** A success that finds the broker up resets nothing: three failures with
    a success after each of the first two count as three. *)
Example successes_do_not_reset :
  sy_mode (run_sys_events [BrokerFailure; BrokerSuccess; BrokerFailure; BrokerSuccess; BrokerFailure] (new_sysmode 3 (Clock 0 []))) = BROKER_DOWN.
Proof. vm_compute. reflexivity. Qed.
(** The market that opens again does not open the system. *)
Example reopened_market_stays_halted :
  sy_mode (run_sys_events [MarketStatus false; MarketStatus true] (new_sysmode 3 (Clock 0 []))) = MARKET_HALTED.
Proof. vm_compute. reflexivity. Qed.

