(* ===== verification/SafetyState.v ===== *)
(** * The process-wide safety state

    [core/safety_state.py]: the hard halt with its reason, its clearing with
    a cooldown and an audit trail, the loss counter, the intraday loss limit
    and the kill file. *)
From S2P Require Import Prelude PyStr Float64.

(** ** Data *)

Record clear_entry := ClearEntry {
  ce_timestamp : Z; ce_source : string; ce_reason : string; ce_previous : string }.

(** The module's globals; [sf_mono] gives the readings of
    [time.monotonic()], in microseconds since boot. *)
Record safety := Safety {
  sf_clk : clock;
  sf_mono : clock;
  sf_halt : bool;
  sf_reason : string;
  sf_shutdown : bool;
  sf_history : list clear_entry;
  sf_last_clear : float64;
  sf_losses : Z;
  sf_pnl : float64;
  sf_loss_limit : float64
}.

#[global] Instance safety_clock : HasClock safety :=
  {| clock_of := sf_clk;
     set_clock := λ c s, Safety c (sf_mono s) (sf_halt s) (sf_reason s) (sf_shutdown s)
       (sf_history s) (sf_last_clear s) (sf_losses s) (sf_pnl s) (sf_loss_limit s) |}.

Definition set_halt (b : bool) (r : string) (s : safety) : safety :=
  Safety (sf_clk s) (sf_mono s) b r (sf_shutdown s) (sf_history s) (sf_last_clear s) (sf_losses s)
    (sf_pnl s) (sf_loss_limit s).
Definition set_mono (c : clock) (s : safety) : safety :=
  Safety (sf_clk s) c (sf_halt s) (sf_reason s) (sf_shutdown s) (sf_history s) (sf_last_clear s)
    (sf_losses s) (sf_pnl s) (sf_loss_limit s).
Definition set_clear (h : list clear_entry) (t : float64) (s : safety) : safety :=
  Safety (sf_clk s) (sf_mono s) (sf_halt s) (sf_reason s) (sf_shutdown s) h t (sf_losses s)
    (sf_pnl s) (sf_loss_limit s).
Definition set_losses (n : Z) (s : safety) : safety :=
  Safety (sf_clk s) (sf_mono s) (sf_halt s) (sf_reason s) (sf_shutdown s) (sf_history s)
    (sf_last_clear s) n (sf_pnl s) (sf_loss_limit s).
Definition set_pnl (p : float64) (s : safety) : safety :=
  Safety (sf_clk s) (sf_mono s) (sf_halt s) (sf_reason s) (sf_shutdown s) (sf_history s)
    (sf_last_clear s) (sf_losses s) p (sf_loss_limit s).
Definition set_limit (l : float64) (s : safety) : safety :=
  Safety (sf_clk s) (sf_mono s) (sf_halt s) (sf_reason s) (sf_shutdown s) (sf_history s)
    (sf_last_clear s) (sf_losses s) (sf_pnl s) l.
Definition set_shutdown (b : bool) (s : safety) : safety :=
  Safety (sf_clk s) (sf_mono s) (sf_halt s) (sf_reason s) b (sf_history s)
    (sf_last_clear s) (sf_losses s) (sf_pnl s) (sf_loss_limit s).

(** The module after import. *)
Definition new_safety (c mono : clock) : safety :=
  Safety c mono false "" false [] f_zero 0 f_zero (fopp f_inf).

Definition HALT_CLEAR_COOLDOWN : float64 := f_of_Z 60.

(** ** Operations *)

Definition FM (A : Type) : Type := ST safety A.

(** [time.monotonic()] *)
Definition monotonic : FM float64 := λ s,
  let '(t, c) := clk_read (sf_mono s) in (Ok (f_of_ratio t usec_per_sec), set_mono c s).

Definition is_hard_halted : FM bool := st_gets sf_halt.

(** [trip_hard_halt]; the structured log is left out. *)
Definition trip_hard_halt (reason source : string) : FM unit :=
  s ← st_get;
  if sf_halt s then mret ()
  else st_put (set_halt true
         (if truthy_str source then
            String.append "[" (String.append source (String.append "] " reason))
          else reason) s).

Definition record_trade_outcome (was_profit : bool) : FM Z :=
  st_modify (λ s, set_losses (if was_profit then 0 else sf_losses s + 1) s) ;;
  st_gets sf_losses.
Definition reset_consecutive_losses : FM unit := st_modify (set_losses 0).
Definition set_intraday_pnl (pnl : float64) : FM unit := st_modify (set_pnl pnl).
Definition reset_intraday_pnl : FM unit := st_modify (set_pnl f_zero).
Definition set_intraday_loss_limit (limit : float64) : FM unit :=
  st_modify (set_limit (fopp (fabs limit))).

Definition check_intraday_pnl_and_halt (source : string) : FM bool :=
  s ← st_get;
  if sf_halt s then mret true
  else
    let limit := sf_loss_limit s in
    if feqb limit (fopp f_inf) then mret false
    else
      let pnl := sf_pnl s in
      if flt pnl limit then
        trip_hard_halt
          (String.append "Intraday loss limit breached: P&L=" (String.append (fmt_0f pnl)
             (String.append " < limit=" (fmt_0f limit)))) source ;;
        mret true
      else mret false.

Definition clear_hard_halt (source reason : string) : FM unit :=
  now ← monotonic;
  s ← st_get;
  if flt (fsub now (sf_last_clear s)) HALT_CLEAR_COOLDOWN then mret ()
  else
    let previous := sf_reason s in
    st_modify (set_halt false "") ;;
    t ← now_ist;
    st_modify (λ s,
      let h := sf_history s ++ [ClearEntry t source reason previous] in
      set_clear (if (100 <? length h)%nat then tail h else h) now s).

(** [request_shutdown]: the event; the callbacks it then runs belong to
    other parts and their exceptions are all caught. *)
Definition request_shutdown : FM unit := st_modify (set_shutdown true).

(** [check_kill_file_and_halt] and a round of the watcher; [present] is the
    file's presence. *)
Definition check_kill_file_and_halt (present : bool) : FM unit :=
  if present then trip_hard_halt "STOP_TRADING file found in project root" "kill_file_check"
  else mret ().
Definition kill_file_watch (present : bool) : FM unit :=
  s ← st_get;
  if sf_shutdown s then mret ()
  else if present then
    trip_hard_halt "STOP_TRADING file found in project root" "kill_file_watcher" ;;
    request_shutdown
  else mret ().

(** ** Histories *)

Inductive safety_op :=
| OpTrip (reason source : string) | OpOutcome (was_profit : bool) | OpResetLosses
| OpSetPnl (p : float64) | OpResetPnl | OpSetLimit (l : float64) | OpCheckPnl (source : string)
| OpClear (source reason : string) | OpShutdown | OpKillFile (present : bool) | OpWatch (present : bool).

Definition run_safety_op (o : safety_op) : FM unit :=
  match o with
  | OpTrip r s => trip_hard_halt r s
  | OpOutcome b => record_trade_outcome b ;; mret ()
  | OpResetLosses => reset_consecutive_losses
  | OpSetPnl p => set_intraday_pnl p
  | OpResetPnl => reset_intraday_pnl
  | OpSetLimit l => set_intraday_loss_limit l
  | OpCheckPnl s => check_intraday_pnl_and_halt s ;; mret ()
  | OpClear s r => clear_hard_halt s r
  | OpShutdown => request_shutdown
  | OpKillFile p => check_kill_file_and_halt p
  | OpWatch p => kill_file_watch p
  end.

Fixpoint run_safety_ops (os : list safety_op) (s : safety) : safety :=
  match os with [] => s | o :: os' => run_safety_ops os' (run_safety_op o s).2 end.

Definition is_clear (o : safety_op) : bool := match o with OpClear _ _ => true | _ => false end.

Lemma trip_eq r src s :
  trip_hard_halt r src s =
  (Ok (), if sf_halt s then s else set_halt true
     (if truthy_str src then String.append "[" (String.append src (String.append "] " r)) else r) s).
Proof. unfold trip_hard_halt, mbind, st_bind, st_get. by destruct (sf_halt s). Qed.

(** An operation other than a clear keeps an active halt and its reason. *)
Lemma run_safety_op_halted o s :
  is_clear o = false → sf_halt s = true →
  sf_halt (run_safety_op o s).2 = true ∧ sf_reason (run_safety_op o s).2 = sf_reason s.
Proof.
  intros Ho Hs. destruct o; cbn [run_safety_op]; try done; try by rewrite trip_eq, Hs.
  - unfold check_intraday_pnl_and_halt, mbind, st_bind, st_get. by rewrite Hs.
  - unfold check_kill_file_and_halt. destruct present; [|done]. by rewrite trip_eq, Hs.
  - unfold kill_file_watch, mbind, st_bind, st_get. destruct (sf_shutdown s); [done|].
    destruct present; [|done]. rewrite trip_eq, Hs. done.
Qed.

Lemma run_safety_ops_halted os s :
  forallb (λ o, negb (is_clear o)) os = true → sf_halt s = true →
  sf_halt (run_safety_ops os s) = true ∧ sf_reason (run_safety_ops os s) = sf_reason s.
Proof.
  revert s. induction os as [|o os IH]; intros s; [done|].
  cbn [forallb run_safety_ops]. intros [Ho%negb_true_iff Hos]%andb_true_iff Hs.
  destruct (run_safety_op_halted o s Ho Hs) as [H1 H2]. rewrite <- H2. by apply IH.
Qed.
(** A trip leaves the halt active. *)
Lemma trip_halted r src s : sf_halt (trip_hard_halt r src s).2 = true.
Proof. rewrite trip_eq. simpl. by destruct (sf_halt s) eqn:?. Qed.

(** The hard halt is latched: once it is tripped, nothing but a clear lifts
    it or replaces its reason, in any sequence of P&L updates, trade
    outcomes, further trips, kill-file checks and shutdowns. *)
Theorem halt_latched (os : list safety_op) (r src : string) (s : safety) :
  forallb (λ o, negb (is_clear o)) os = true →
  let s1 := (trip_hard_halt r src s).2 in
  sf_halt (run_safety_ops os s1) = true ∧ sf_reason (run_safety_ops os s1) = sf_reason s1.
Proof.
  intros Hos s1. apply run_safety_ops_halted; [done|apply trip_halted].
Qed.

(** *** The cooldown *)

(** What a clear does: nothing within the cooldown; otherwise it lifts the
    halt, records itself and restarts the cooldown. *)
Lemma clear_eq src r s :
  let '(t, mc) := clk_read (sf_mono s) in
  let now := f_of_ratio t usec_per_sec in
  clear_hard_halt src r s =
  if flt (fsub now (sf_last_clear s)) HALT_CLEAR_COOLDOWN then (Ok (), set_mono mc s)
  else
    let '(wall, c) := clk_read (sf_clk s) in
    let h := sf_history s ++ [ClearEntry wall src r (sf_reason s)] in
    (Ok (), Safety c mc false "" (sf_shutdown s) (if (100 <? length h)%nat then tail h else h) now
              (sf_losses s) (sf_pnl s) (sf_loss_limit s)).
Proof.
  destruct (clk_read (sf_mono s)) as [t mc] eqn:E. unfold clear_hard_halt, mbind, st_bind, monotonic.
  rewrite E. unfold st_get. cbn [sf_last_clear set_mono]. destruct (flt _ _); [done|].
  unfold st_modify, now_ist. simpl. by destruct (clk_read (sf_clk s)).
Qed.

(** The audit trail holds at most the last hundred clears, and a halt is
    lifted only by a clear at least the cooldown after the previous one:
    whenever an operation takes the state from halted to not halted, it is a
    clear, the reading of the monotonic clock at it is not less than sixty
    seconds past the last clear, and it becomes the last clear. *)
Theorem halt_lifted_by_cooled_clear (o : safety_op) (s : safety) :
  (length (sf_history s) <= 100)%nat →
  let s' := (run_safety_op o s).2 in
  (length (sf_history s') <= 100)%nat ∧
  (sf_halt s = true → sf_halt s' = false →
   let now := f_of_ratio (clk_read (sf_mono s)).1 usec_per_sec in
   is_clear o = true ∧ sf_last_clear s' = now ∧
   flt (fsub now (sf_last_clear s)) HALT_CLEAR_COOLDOWN = false ∧
   ∃ e, last (sf_history s') = Some e ∧ ce_previous e = sf_reason s).
Proof.
  intros Hlen s'. destruct (is_clear o) eqn:Ho.
  - destruct o as [| | | | | | |src r| | |]; try done. unfold s'. cbn [run_safety_op].
    pose proof (clear_eq src r s) as Hc. destruct (clk_read (sf_mono s)) as [t mc].
    cbn zeta in Hc. rewrite Hc. cbn [fst]. destruct (flt _ _) eqn:E.
    { split; [done|]. cbn. congruence. }
    destruct (clk_read (sf_clk s)) as [wall c]. cbn [snd sf_history].
    set (e := ClearEntry wall src r (sf_reason s)). rewrite length_app. cbn [length].
    destruct (Nat.ltb_spec 100 (length (sf_history s) + 1)) as [Hl|Hl].
    + destruct (sf_history s) as [|e0 h] eqn:Eh; [simpl in Hl; lia|]. simpl in *.
      split; [rewrite length_app; simpl; lia|]. intros _ _. split_and!; try done.
      exists e. by rewrite last_snoc.
    + split; [rewrite length_app; simpl; lia|]. intros _ _. split_and!; try done.
      exists e. by rewrite last_snoc.
  - assert (sf_history s' = sf_history s) as Hh.
    { unfold s'. destruct o; cbn [run_safety_op]; try done; try (rewrite trip_eq; by destruct (sf_halt s)).
      - unfold check_intraday_pnl_and_halt, mbind, st_bind, st_get.
        destruct (sf_halt s) eqn:?; [done|]. destruct (feqb _ _); [done|].
        destruct (flt _ _); [|done]. rewrite trip_eq. by destruct (sf_halt s).
      - unfold check_kill_file_and_halt. destruct present; [|done]. rewrite trip_eq. by destruct (sf_halt s).
      - unfold kill_file_watch, mbind, st_bind, st_get. destruct (sf_shutdown s); [done|].
        destruct present; [|done]. rewrite trip_eq. by destruct (sf_halt s). }
    rewrite Hh. split; [done|]. intros Hs Hs'. unfold s' in Hs'.
    destruct (run_safety_op_halted o s Ho Hs). congruence.
Qed.

(** The intraday check on every kind of float: it answers [True] exactly when
    the halt is active already or the P&L compares below a finite or positive
    limit, and then the halt is active afterwards; a P&L or a limit that is
    not a number never trips it. *)
Theorem intraday_check_exact (source : string) (s : safety) :
  let breach := negb (feqb (sf_loss_limit s) (fopp f_inf)) && flt (sf_pnl s) (sf_loss_limit s) in
  let '(r, s') := check_intraday_pnl_and_halt source s in
  r = Ok (sf_halt s || breach) ∧ sf_halt s' = sf_halt s || breach ∧
  (is_nan (sf_pnl s) || is_nan (sf_loss_limit s) = true → breach = false).
Proof.
  cbv zeta. unfold check_intraday_pnl_and_halt, mbind, st_bind, st_get.
  assert (is_nan (sf_pnl s) || is_nan (sf_loss_limit s) = true →
    negb (feqb (sf_loss_limit s) (fopp f_inf)) && flt (sf_pnl s) (sf_loss_limit s) = false) as Hnan.
  { intros Hn. destruct (flt (sf_pnl s) (sf_loss_limit s)) eqn:E; [|by rewrite andb_false_r].
    apply flt_not_nan in E as [H1 H2]. by rewrite H1, H2 in Hn. }
  destruct (sf_halt s) eqn:Hs; [by split_and!|]. cbn [orb] in *.
  destruct (feqb _ _); [by split_and!|]. cbn [negb andb] in *.
  destruct (flt _ _); [|by split_and!]. rewrite trip_eq, Hs. done.
Qed.

(** ** Concrete instances *)

Definition demo_safety : safety := new_safety (Clock 0 []) (Clock (100 * usec_per_sec) []).

Lemma halt_latched_witness :
  let s1 := (trip_hard_halt "loss" "risk" demo_safety).2 in
  sf_halt (run_safety_ops [OpSetPnl f_nan; OpTrip "again" ""; OpCheckPnl "x"] s1) = true ∧
  sf_reason (run_safety_ops [OpSetPnl f_nan; OpTrip "again" ""; OpCheckPnl "x"] s1) = "[risk] loss"%string.
Proof.
  exact (halt_latched [OpSetPnl f_nan; OpTrip "again" ""; OpCheckPnl "x"] "loss" "risk" demo_safety eq_refl).
Defined.

Lemma halt_lifted_by_cooled_clear_witness :
  let s := (trip_hard_halt "loss" "risk" demo_safety).2 in
  let s' := (run_safety_op (OpClear "op" "ok") s).2 in
  (length (sf_history s') <= 100)%nat ∧
  (sf_halt s = true → sf_halt s' = false →
   let now := f_of_ratio (clk_read (sf_mono s)).1 usec_per_sec in
   is_clear (OpClear "op" "ok") = true ∧ sf_last_clear s' = now ∧
   flt (fsub now (sf_last_clear s)) HALT_CLEAR_COOLDOWN = false ∧
   ∃ e, last (sf_history s') = Some e ∧ ce_previous e = sf_reason s).
Proof.
  refine (halt_lifted_by_cooled_clear (OpClear "op" "ok") (trip_hard_halt "loss" "risk" demo_safety).2 _).
  vm_compute. lia.
Defined.
