(* ===== verification/OrderTypes.v ===== *)
(** * Orders, their results, and the validation of broker answers

    The data of [core/ports/execution/execution_port.py] and
    [core/execution/broker_ack_validator.py]. *)
From S2P Require Import Prelude PyStr Float64.
From Stdlib Require Import Ascii.

(** ** The port's data *)

Module OrderStatus.
Inductive t := PENDING | SUBMITTED | PARTIALLY_FILLED | FILLED | CANCELLED | REJECTED | EXPIRED.

#[global] Instance t_eq_dec : EqDecision t.
Proof. solve_decision. Defined.

Definition value (s : t) : string :=
  match s with
  | PENDING => "PENDING" | SUBMITTED => "SUBMITTED" | PARTIALLY_FILLED => "PARTIALLY_FILLED"
  | FILLED => "FILLED" | CANCELLED => "CANCELLED" | REJECTED => "REJECTED" | EXPIRED => "EXPIRED"
  end.
End OrderStatus.

Inductive ExecutionMode := MANUAL | AUTOMATIC | PAPER_MODE.

#[global] Instance ExecutionMode_eq_dec : EqDecision ExecutionMode.
Proof. solve_decision. Defined.

(** [OrderRequest]: the fields the execution service reads. *)
Record order_request := OrderRequest {
  rq_symbol : string;
  rq_direction : string;
  rq_strike_price : float64;
  rq_lot_size : Z;
  rq_order_type : string;
  rq_idempotency_key : option string
}.

Definition with_key (k : string) (r : order_request) : order_request :=
  OrderRequest (rq_symbol r) (rq_direction r) (rq_strike_price r) (rq_lot_size r) (rq_order_type r)
    (Some k).

(** [OrderResult] *)
Record order_result := OrderResult {
  or_order_id : string;
  or_status : OrderStatus.t;
  or_filled_quantity : Z;
  or_average_price : float64;
  or_commission : float64;
  or_timestamp : Z;
  or_reject_reason : option string;
  or_broker_order_id : option string;
  or_broker_timestamp : option Z
}.

(** [OrderResult(order_id=..., status=REJECTED, reject_reason=..., timestamp=...)] *)
Definition rejected (order_id : string) (reason : option string) (now : Z) : order_result :=
  OrderResult order_id OrderStatus.REJECTED 0 f_zero f_zero now reason None None.

(** [ExecutionContext]: the fields the execution service reads. *)
Record execution_context := ExecutionContext {
  cx_signal_id : string; cx_execution_mode : ExecutionMode }.
Definition default_context : execution_context := ExecutionContext "" AUTOMATIC.

(** ** Broker acknowledgments *)

Inductive BrokerType := KITE | ANGEL | PAPER_BROKER | UNKNOWN_BROKER.

Definition VALID_BROKER_STATUSES : list string :=
  ["COMPLETE"; "FILLED"; "REJECTED"; "CANCELLED"; "OPEN"; "PENDING"; "TRIGGER PENDING";
   "PARTIALLY FILLED"; "UNKNOWN"; "SUBMITTED"].

(** A field that should be a text: [None], a text, or a value of another
    type with its name. *)
Inductive pyfield := FNone | FStr (s : string) | FOther (type_name : string).

(** The acknowledgment dictionary; an absent key reads as [None]. *)
Record acknowledgment := Ack {
  ak_order_id : pyfield; ak_status : pyfield; ak_fill_price : option float64; ak_quantity : option Z }.

Record ack_validation := AckValidationResult {
  av_is_valid : bool; av_broker : BrokerType; av_order_id : option string;
  av_status : option string; av_error_message : option string; av_warnings : list string }.

(** [detect_broker_type] by the class name of the adapter. *)
Definition detect_broker_type (class_name : option string) : BrokerType :=
  match class_name with
  | None => UNKNOWN_BROKER
  | Some n =>
      let n := str_upper n in
      if str_contains "KITE" n then KITE
      else if str_contains "ANGEL" n || str_contains "SMART" n then ANGEL
      else if str_contains "PAPER" n then PAPER_BROKER
      else UNKNOWN_BROKER
  end.

(** [not s.strip()] on ASCII: only blanks. *)
Definition is_space (c : ascii) : bool :=
  let n := nat_of_ascii c in
  (bool_decide (9 ≤ n ∧ n ≤ 13) || bool_decide (28 ≤ n ∧ n ≤ 32))%nat.
Fixpoint blank (s : string) : bool :=
  match s with EmptyString => true | String c s' => is_space c && blank s' end.

Section validator.
(** [repr] of a float, for the error texts. *)
Context (repr_float : float64 → string).

(** [validate_order_id]: the error, or none. *)
Definition validate_order_id (order_id : pyfield) : option string :=
  match order_id with
  | FNone => Some "order_id is None"
  | FOther t => Some (String.append "order_id is " (String.append t ", not str"))
  | FStr s => if blank s then Some "order_id is empty" else None
  end%string.

(** [validate_status]: (is_valid, error, is_terminal). *)
Definition validate_status (status : pyfield) : bool * option string * bool :=
  match status with
  | FNone => (false, Some "status is None", false)
  | FOther t => (false, Some (String.append "status is " t), false)
  | FStr s =>
      let u := str_upper s in
      let is_terminal := str_mem u ["COMPLETE"; "FILLED"; "REJECTED"; "CANCELLED"; "UNKNOWN"] in
      if str_mem u VALID_BROKER_STATUSES then (true, None, is_terminal)
      else (true, Some (String.append "Unknown status: " s), is_terminal)
  end%string.

(** [validate_fill_price] of a number. *)
Definition validate_fill_price (price : option float64) : option string :=
  match price with
  | None => None
  | Some p =>
      if flt p f_zero then Some (String.append "negative fill price: " (repr_float p))
      else None
  end.

(** [validate_quantity] of an integer. *)
Definition validate_quantity (qty : option Z) : option string :=
  match qty with
  | None => None
  | Some q => if q <? 0 then Some (String.append "negative quantity: " (str_of_Z q)) else None
  end.

Definition field_text (f : pyfield) : option string := match f with FStr s => Some s | _ => None end.
Definition missing (f : pyfield) : bool := match f with FNone => true | _ => false end.

Definition invalid_ack (b : BrokerType) (order_id status : option string) (e : option string) : ack_validation :=
  AckValidationResult false b order_id status e [].

(** [f"{missing_fields}"] of the required fields that are missing. *)
Definition missing_text (order_id status : bool) : string :=
  match order_id, status with
  | true, true => "['order_id', 'status']" | true, false => "['order_id']"
  | false, true => "['status']" | false, false => "[]"
  end.

(** [validate_acknowledgment]; every broker requires the same two fields. *)
Definition validate_acknowledgment (a : acknowledgment) (broker : BrokerType) : ack_validation :=
  if missing (ak_order_id a) || missing (ak_status a) then
    invalid_ack broker None None
      (Some (String.append "Missing required fields: "
               (missing_text (missing (ak_order_id a)) (missing (ak_status a)))))
  else
    match validate_order_id (ak_order_id a) with
    | Some e => invalid_ack broker None None (Some e)
    | None =>
        let order_id := field_text (ak_order_id a) in
        let warnings :=
          match order_id with
          | Some s => if (String.length s <? 3)%nat then
              [String.append "Order ID suspiciously short: '" (String.append s "'")] else []
          | None => []
          end in
        let '(valid, error, _) := validate_status (ak_status a) in
        if negb valid then invalid_ack broker order_id None error
        else
          let status := field_text (ak_status a) in
          match validate_fill_price (ak_fill_price a) with
          | Some e => invalid_ack broker order_id status (Some e)
          | None =>
              match validate_quantity (ak_quantity a) with
              | Some e => invalid_ack broker order_id status (Some e)
              | None => AckValidationResult true broker order_id status None warnings
              end
          end
    end.

(** [validate_order_result] *)
Definition validate_order_result (r : order_result) (broker : BrokerType) : ack_validation :=
  validate_acknowledgment
    (Ack (FStr (or_order_id r)) (FStr (OrderStatus.value (or_status r)))
       (Some (or_average_price r)) (Some (or_filled_quantity r))) broker.

Lemma status_accepted (s : OrderStatus.t) :
  ∃ e t, validate_status (FStr (OrderStatus.value s)) = (true, e, t).
Proof. destruct s; do 2 eexists; vm_compute; reflexivity. Qed.

(** The validator accepts exactly the results with an order id that is not
    blank, an average price that does not compare below zero (NaN passes) and
    a quantity of at least zero; the status is never a ground for refusal. *)
Theorem order_result_valid_exact (r : order_result) (b : BrokerType) :
  av_is_valid (validate_order_result r b) =
  negb (blank (or_order_id r)) && negb (flt (or_average_price r) f_zero) &&
  (0 <=? or_filled_quantity r).
Proof.
  unfold validate_order_result, validate_acknowledgment.
  cbn [missing ak_order_id ak_status ak_fill_price ak_quantity orb validate_order_id].
  destruct (blank (or_order_id r)); [done|].
  destruct (status_accepted (or_status r)) as (e & t & ->). cbn [negb validate_fill_price andb].
  destruct (flt (or_average_price r) f_zero); [done|]. unfold validate_quantity.
  rewrite Z.ltb_antisym. by destruct (0 <=? or_filled_quantity r).
Qed.
End validator.
