(* ===== verification/PyVal.v ===== *)
(** * Values of unknown type

    Records that come from a broker, from a configuration file or from a
    signal are dictionaries whose values may be of any scalar type.  A
    [pyval] is such a value; the conversions and comparisons below are the
    ones of Python, with the exceptions they raise, and the formatting of
    floats is exact: [round], [str] and the [f] and [%] formats round the
    binary value itself, not an approximation of it. *)
From S2P Require Import Prelude PyStr Float64 PyDict OrderTypes.
From Stdlib Require Import Ascii.

Inductive pyval := VNone | VBool (b : bool) | VInt (z : Z) | VFloat (x : float64) | VStr (s : string).

#[global] Instance float64_eq_dec : EqDecision float64.
Proof. intros x y. unfold Decision. repeat decide equality. Defined.

#[global] Instance pyval_eq_dec : EqDecision pyval.
Proof. solve_decision. Defined.

(** A flat record, and [r.get(k, d)]. *)
Definition pyrec : Type := pydict pyval.
Definition rget (k : string) (d : pyval) (r : pyrec) : pyval := default d (r !! k).

Definition is_zero (x : float64) : bool := match x with S754_zero _ => true | _ => false end.
Definition is_finite (x : float64) : bool :=
  match x with S754_zero _ | S754_finite _ _ _ => true | _ => false end.

(** [bool(v)] *)
Definition truthy (v : pyval) : bool :=
  match v with
  | VNone => false
  | VBool b => b
  | VInt z => negb (z =? 0)
  | VFloat x => negb (is_zero x)
  | VStr s => truthy_str s
  end.

(** [v or d] *)
Definition v_or (v d : pyval) : pyval := if truthy v then v else d.

(** ** Comparison *)

(** The value of a finite float as a fraction [n / 2^k]. *)
Definition f_fraction (x : float64) : option (Z * Z) :=
  match x with
  | S754_zero _ => Some (0, 1)
  | S754_finite s m e =>
      let n := if s then Z.neg m else Z.pos m in
      Some (if 0 <=? e then (n * 2 ^ e, 1) else (n, 2 ^ (- e)))
  | _ => None
  end.

(** [z == x] compares the exact values. *)
Definition z_eq_f (z : Z) (x : float64) : bool :=
  match f_fraction x with Some (n, d) => n =? z * d | None => false end.

Definition as_num (v : pyval) : option (Z + float64) :=
  match v with
  | VBool b => Some (inl (Z.b2z b))
  | VInt z => Some (inl z)
  | VFloat x => Some (inr x)
  | _ => None
  end.

(** [a == b] *)
Definition py_eq (a b : pyval) : bool :=
  match as_num a, as_num b with
  | Some (inl x), Some (inl y) => x =? y
  | Some (inl x), Some (inr y) => z_eq_f x y
  | Some (inr x), Some (inl y) => z_eq_f y x
  | Some (inr x), Some (inr y) => feqb x y
  | None, None =>
      match a, b with
      | VNone, VNone => true
      | VStr s, VStr t => String.eqb s t
      | _, _ => false
      end
  | _, _ => false
  end.

(** ** Numbers out of texts *)

(** [s.strip()] on ASCII *)
Fixpoint lstrip (s : string) : string :=
  match s with
  | String c s' => if is_space c then lstrip s' else s
  | EmptyString => EmptyString
  end.
Fixpoint rstrip (s : string) : string :=
  match s with
  | String c s' =>
      match rstrip s' with
      | EmptyString => if is_space c then EmptyString else String c EmptyString
      | t => String c t
      end
  | EmptyString => EmptyString
  end.
Definition strip (s : string) : string := rstrip (lstrip s).

Definition digit (c : ascii) : option Z :=
  let n := nat_of_ascii c in
  if bool_decide (48 ≤ n ∧ n ≤ 57)%nat then Some (Z.of_nat n - 48) else None.

(** The leading digits, single underscores between digits allowed: their
    value, their number and the rest. *)
Fixpoint digits_from (acc n : Z) (s : string) : Z * Z * string :=
  match s with
  | String c s' =>
      match digit c with
      | Some d => digits_from (10 * acc + d) (n + 1) s'
      | None =>
          if Ascii.eqb c "_"%char && (0 <? n) then
            match s' with
            | String c2 s2 =>
                match digit c2 with
                | Some d => digits_from (10 * acc + d) (n + 1) s2
                | None => (acc, n, s)
                end
            | EmptyString => (acc, n, s)
            end
          else (acc, n, s)
      end
  | EmptyString => (acc, n, EmptyString)
  end.

Definition sign_of (s : string) : bool * string :=
  match s with
  | String c s' =>
      if Ascii.eqb c "-"%char then (true, s') else if Ascii.eqb c "+"%char then (false, s') else (false, s)
  | EmptyString => (false, s)
  end.

(** [int(s)] of a decimal text; [None] where it raises [ValueError]. *)
Definition z_of_str (s : string) : option Z :=
  let '(neg, s1) := sign_of (strip s) in
  match digits_from 0 0 s1 with
  | (z, n, EmptyString) => if 0 <? n then Some (if neg then - z else z) else None
  | _ => None
  end.

(** An exponent part, or nothing. *)
Definition exponent_of (s : string) : option Z :=
  match s with
  | EmptyString => Some 0
  | String c s' =>
      if Ascii.eqb (lower_ascii c) "e"%char then
        let '(neg, s1) := sign_of s' in
        match digits_from 0 0 s1 with
        | (z, n, EmptyString) => if 0 <? n then Some (if neg then - z else z) else None
        | _ => None
        end
      else None
  end.

(** [m * 10^k] as a float, correctly rounded; past the range of exponents
    the result is an infinity or a zero without the power being formed. *)
Definition f_of_decimal (neg : bool) (m k : Z) : float64 :=
  let x :=
    if m =? 0 then S754_zero false
    else if 400 <? k then S754_infinity false
    else if 0 <=? k then f_of_ratio (m * 10 ^ k) 1
    else f_of_ratio m (10 ^ (- k)) in
  if neg then fopp x else x.

(** [float(s)]; [None] where it raises [ValueError]. *)
Definition f_of_str (s : string) : option float64 :=
  let '(neg, s1) := sign_of (strip s) in
  let w := str_lower s1 in
  if String.eqb w "inf" || String.eqb w "infinity" then Some (S754_infinity neg)
  else if String.eqb w "nan" then Some S754_nan
  else
    let '(m, n, s2) := digits_from 0 0 s1 in
    match s2 with
    | String c s3 =>
        if Ascii.eqb c "."%char then
          let '(m2, n2, s4) :=
            match s3 with
            | String c3 _ => if digit c3 is Some _ then digits_from m 0 s3 else (m, 0, s3)
            | EmptyString => (m, 0, s3)
            end in
          if 0 <? n + n2 then
            match exponent_of s4 with Some k => Some (f_of_decimal neg m2 (k - n2)) | None => None end
          else None
        else if 0 <? n then
          match exponent_of s2 with Some k => Some (f_of_decimal neg m k) | None => None end
        else None
    | EmptyString => if 0 <? n then Some (f_of_decimal neg m 0) else None
    end.

(** [float(z)] raises beyond the largest float. *)
Definition float_of_Z (z : Z) : res float64 :=
  match f_of_Z z with
  | S754_infinity _ => Raise (PyExn OverflowError "int too large to convert to float")
  | x => Ok x
  end.

(** [int(x)] of a float: truncation, NaN and infinities raise. *)
Definition int_of_float (x : float64) : res Z :=
  match f_trunc x with
  | Some z => Ok z
  | None =>
      Raise (if is_nan x then PyExn ValueError "cannot convert float NaN to integer"
             else PyExn OverflowError "cannot convert float infinity to integer")
  end.

(** [round(x)] of a float *)
Definition round_float (x : float64) : res Z :=
  match f_round x with
  | Some z => Ok z
  | None => rbind (int_of_float x) (λ z, Ok z)
  end.

(** [type(v).__name__] *)
Definition type_name (v : pyval) : string :=
  match v with
  | VNone => "NoneType" | VBool _ => "bool" | VInt _ => "int" | VFloat _ => "float" | VStr _ => "str"
  end.

(** [int(v)] *)
Definition py_int (v : pyval) : res Z :=
  match v with
  | VNone =>
      Raise (PyExn TypeError
        "int() argument must be a string, a bytes-like object or a real number, not 'NoneType'")
  | VBool b => Ok (Z.b2z b)
  | VInt z => Ok z
  | VFloat x => int_of_float x
  | VStr s =>
      match z_of_str s with
      | Some z => Ok z
      | None =>
          Raise (PyExn ValueError
            (String.append "invalid literal for int() with base 10: '" (String.append s "'")))
      end
  end.

(** [float(v)] *)
Definition py_float (v : pyval) : res float64 :=
  match v with
  | VNone =>
      Raise (PyExn TypeError "float() argument must be a string or a real number, not 'NoneType'")
  | VBool b => Ok (f_of_Z (Z.b2z b))
  | VInt z => float_of_Z z
  | VFloat x => Ok x
  | VStr s =>
      match f_of_str s with
      | Some x => Ok x
      | None =>
          Raise (PyExn ValueError
            (String.append "could not convert string to float: '" (String.append s "'")))
      end
  end.

(** ** Arithmetic and order of mixed numbers *)

Definition type_error {A} (msg : string) : res A := Raise (PyExn TypeError msg).

(** The other operand of a float operation: an integer is converted first. *)
Definition num_operand (v : pyval) : res float64 :=
  match as_num v with
  | Some (inl z) => float_of_Z z
  | Some (inr x) => Ok x
  | None => type_error "unsupported operand type(s)"
  end.

(** [v * q] for an integer [q]; a text is repeated. *)
Definition v_times (v : pyval) (q : Z) : res pyval :=
  match v with
  | VStr s => Ok (VStr (foldr String.append "" (replicate (Z.to_nat q) s)))
  | _ =>
      match as_num v with
      | Some (inl z) => Ok (VInt (z * q))
      | Some (inr x) => rbind (float_of_Z q) (λ y, Ok (VFloat (x * y)%f64))
      | None => type_error "unsupported operand type(s) for *: 'NoneType' and 'int'"
      end
  end.
(** [v + n] for an integer [n]. *)
Definition v_plus (v : pyval) (n : Z) : res pyval :=
  match as_num v with
  | Some (inl z) => Ok (VInt (z + n))
  | Some (inr x) => rbind (float_of_Z n) (λ y, Ok (VFloat (x + y)%f64))
  | None => type_error "unsupported operand type(s) for +"
  end.

(** A float and an integer are compared by their exact values. *)
Definition f_lt_z (x : float64) (z : Z) : bool :=
  match x with
  | S754_infinity s => s
  | _ => match f_fraction x with Some (n, d) => n <? z * d | None => false end
  end.
Definition f_gt_z (x : float64) (z : Z) : bool :=
  match x with
  | S754_infinity s => negb s
  | _ => match f_fraction x with Some (n, d) => z * d <? n | None => false end
  end.
Definition f_ge_z (x : float64) (z : Z) : bool := negb (is_nan x) && negb (f_lt_z x z).

Definition not_ordered {A} (v : pyval) : res A :=
  type_error (String.append "'>' not supported between instances of '"
    (String.append (type_name v) "' and a number")).
(** [v > z], [v >= z] and [v < z] for an integer [z]. *)
Definition v_gt_z (v : pyval) (z : Z) : res bool :=
  match as_num v with
  | Some (inl n) => Ok (z <? n)
  | Some (inr x) => Ok (f_gt_z x z)
  | None => not_ordered v
  end.
Definition v_ge_z (v : pyval) (z : Z) : res bool :=
  match as_num v with
  | Some (inl n) => Ok (z <=? n)
  | Some (inr x) => Ok (f_ge_z x z)
  | None => not_ordered v
  end.
(** [x > v] for a float [x]. *)
Definition f_gt_v (x : float64) (v : pyval) : res bool :=
  match as_num v with
  | Some (inl z) => Ok (f_gt_z x z)
  | Some (inr y) => Ok (fgt x y)
  | None => not_ordered v
  end.

(** [a < b] and [a >= b]: numbers by their values, texts by their characters. *)
Definition v_lt (a b : pyval) : res bool :=
  match a, b with
  | VStr s, VStr t => Ok (String.ltb s t)
  | _, _ =>
      match as_num a, as_num b with
      | Some (inl x), Some (inl y) => Ok (x <? y)
      | Some (inl x), Some (inr y) => Ok (f_gt_z y x)
      | Some (inr x), Some (inl y) => Ok (f_lt_z x y)
      | Some (inr x), Some (inr y) => Ok (flt x y)
      | _, _ => not_ordered a
      end
  end.
Definition f_le_z (x : float64) (z : Z) : bool := negb (is_nan x) && negb (f_gt_z x z).
Definition v_ge (a b : pyval) : res bool :=
  match a, b with
  | VStr s, VStr t => Ok (negb (String.ltb s t))
  | _, _ =>
      match as_num a, as_num b with
      | Some (inl x), Some (inl y) => Ok (y <=? x)
      | Some (inl x), Some (inr y) => Ok (f_le_z y x)
      | Some (inr x), Some (inl y) => Ok (f_ge_z x y)
      | Some (inr x), Some (inr y) => Ok (fge x y)
      | _, _ => not_ordered a
      end
  end.

(** ** Rounding and formatting *)

Definition f_is_neg (x : float64) : bool :=
  match x with S754_zero s | S754_infinity s | S754_finite s _ _ => s | S754_nan => false end.

(** [|x| * 10^k], rounded half to even to an integer, for a finite [x]. *)
Definition scaled_round (k : Z) (x : float64) : Z :=
  match f_fraction (fabs x) with
  | Some (n, d) => div_half_even (n * 10 ^ k) d
  | None => 0
  end.

(** [round(x, k)] for [k >= 0]: the nearest decimal with [k] digits of the
    binary value, read back as a float; NaN and infinities are themselves. *)
Definition py_round (x : float64) (k : Z) : float64 :=
  if is_finite x then
    let y := f_of_ratio (scaled_round k x) (10 ^ k) in
    if f_is_neg x then fopp y else y
  else x.

(** The decimal digits of a natural number, padded on the left to [w]. *)
Fixpoint zeros (n : nat) : string := match n with O => "" | S n' => String "0" (zeros n') end.
Definition pad_left (w : nat) (s : string) : string :=
  String.append (zeros (w - String.length s)) s.

(** [n / 10^k] in decimal, with [k] digits after the point. *)
Definition decimal_text (n k : Z) : string :=
  if k =? 0 then str_of_Z n
  else
    String.append (str_of_Z (n / 10 ^ k))
      (String "." (pad_left (Z.to_nat k) (str_of_Z (n `mod` 10 ^ k)))).

Definition special_text (x : float64) : string :=
  match x with
  | S754_nan => "nan"
  | S754_infinity s => if s then "-inf" else "inf"
  | _ => ""
  end.

(** [f"{x:.kf}"] *)
Definition fmt_f (k : Z) (x : float64) : string :=
  if is_finite x then
    String.append (if f_is_neg x then "-" else "") (decimal_text (scaled_round k x) k)
  else special_text x.

(** [f"{x:+.kf}"] *)
Definition fmt_plus_f (k : Z) (x : float64) : string :=
  if f_is_neg x then fmt_f k x else String "+" (fmt_f k x).

(** [f"{x:.k%}"]: the product by 100 is a float multiplication. *)
Definition fmt_pct (k : Z) (x : float64) : string := String.append (fmt_f k (x * f_of_Z 100)%f64) "%".

(** [repr(x)]: the shortest decimal that reads back as [x], and of these the
    closest to it.  [decimal_exp] finds the [p] with [10^(p-1) <= n/d < 10^p]. *)
Fixpoint decimal_exp_up (fuel : nat) (n d p : Z) : Z :=
  match fuel with
  | O => p
  | S f => if d * 10 ^ p <=? n then decimal_exp_up f n d (p + 1) else p
  end.
Fixpoint decimal_exp_down (fuel : nat) (n d p : Z) : Z :=
  match fuel with
  | O => p
  | S f => if n * 10 ^ (1 - p) <? d then decimal_exp_down f n d (p - 1) else p
  end.
Definition decimal_exp (n d : Z) : Z :=
  if d <=? n then decimal_exp_up 310 n d 1 else decimal_exp_down 330 n d 0.

(** The candidates with [nd] digits around [n/d < 10^p], the closer first. *)
Definition digit_candidates (n d p nd : Z) : list Z :=
  let '(num, den) := if p <=? nd then (n * 10 ^ (nd - p), d) else (n, d * 10 ^ (p - nd)) in
  let lo := num / den in
  let near := div_half_even num den in
  if near =? lo then [lo; lo + 1] else [near; lo].

Fixpoint shortest (fuel : nat) (x : float64) (n d p nd : Z) : Z * Z :=
  match fuel with
  | O => (0, nd)
  | S f =>
      match filter (λ m, feqb (f_of_decimal false m (p - nd)) x = true) (digit_candidates n d p nd) with
      | m :: _ => (m, nd)
      | [] => shortest f x n d p (nd + 1)
      end
  end.

(** Trailing zeros dropped: a decimal [m] with [nd] digits. *)
Fixpoint drop_zeros (fuel : nat) (m nd : Z) : Z * Z :=
  match fuel with
  | O => (m, nd)
  | S f => if (1 <? nd) && (m `mod` 10 =? 0) then drop_zeros f (m / 10) (nd - 1) else (m, nd)
  end.

(** The digits [m] ([nd] of them), the point after the first [p]. *)
Definition repr_digits (m nd p : Z) : string :=
  let ds := str_of_Z m in
  if (-4 <? p) && (p <=? 16) then
    if p <=? 0 then String.append "0." (String.append (zeros (Z.to_nat (- p))) ds)
    else if nd <=? p then String.append ds (String.append (zeros (Z.to_nat (p - nd))) ".0")
    else String.append (String.substring 0 (Z.to_nat p) ds)
           (String "." (String.substring (Z.to_nat p) (Z.to_nat (nd - p)) ds))
  else
    let mant := if nd =? 1 then ds
                else String.append (str_take 1 ds)
                       (String "." (String.substring 1 (Z.to_nat (nd - 1)) ds)) in
    let e := p - 1 in
    String.append mant
      (String.append (if e <? 0 then "e-" else "e+") (pad_left 2 (str_of_Z (Z.abs e)))).

Definition repr_float (x : float64) : string :=
  match x with
  | S754_zero s => if s then "-0.0" else "0.0"
  | S754_finite s m e =>
      match f_fraction (fabs x) with
      | Some (n, d) =>
          let p := decimal_exp n d in
          let '(m1, nd1) := shortest 17 (fabs x) n d p 1 in
          let p1 := if 10 ^ nd1 <=? m1 then p + 1 else p in
          let '(m2, nd2) := drop_zeros 17 (if 10 ^ nd1 <=? m1 then m1 / 10 else m1) nd1 in
          String.append (if s then "-" else "") (repr_digits m2 nd2 p1)
      | None => ""
      end
  | _ => special_text x
  end.

(** [str(v)] *)
Definition py_str (v : pyval) : string :=
  match v with
  | VNone => "None"
  | VBool b => if b then "True" else "False"
  | VInt z => str_of_Z z
  | VFloat x => repr_float x
  | VStr s => s
  end.

(** ** Examples *)

Lemma repr_ex :
  repr_float (f_of_ratio 1 10) = "0.1" ∧ repr_float (f_of_Z 100000) = "100000.0" ∧
  repr_float (f_of_ratio 1 100000) = "1e-05" ∧ repr_float (f_of_Z (10 ^ 22)) = "1e+22" ∧
  repr_float (f_of_ratio (-123456) 1000) = "-123.456" ∧
  repr_float (fadd (f_of_ratio 1 10) (f_of_ratio 2 10)) = "0.30000000000000004".
Proof. vm_compute. done. Qed.

Lemma convert_ex :
  py_int (VStr " 1_000 ") = Ok 1000 ∧ is_ok (py_int (VStr "12.0")) = false ∧
  py_int (VFloat (f_of_ratio (-25) 10)) = Ok (-2) ∧ py_float (VStr "1.5e1") = Ok (f_of_Z 15) ∧
  fmt_f 2 (f_of_ratio 2675 1000) = "2.67" ∧ fmt_pct 1 (f_of_ratio 1 4) = "25.0%" ∧
  py_round (f_of_ratio 2675 1000) 2 = f_of_ratio 267 100.
Proof. vm_compute. done. Qed.

(** ** Lemmas *)

Lemma py_eq_int x y : py_eq (VInt x) (VInt y) = (x =? y).
Proof. done. Qed.

Lemma py_eq_nan x : py_eq (VFloat S754_nan) x = false.
Proof. by destruct x. Qed.

Lemma int_of_float_ok x : is_finite x = true → ∃ z, int_of_float x = Ok z.
Proof. unfold int_of_float. destruct x; try done; intros _; eexists; reflexivity. Qed.
