(* ===== verification/FloatBounds.v ===== *)
(** * How large a float gets

    Bounds on the results of float arithmetic, read off the mantissa and the
    exponent: [within b x] says that [x] is finite and its magnitude below
    [2 ^ b].  A product and a quotient of bounded floats are bounded, so
    that [int()] and [float()] of them do not raise. *)
From S2P Require Import Prelude PyStr Float64 PyDict PyVal.

(** ** Digits and shifts *)

Lemma digits_spec m : 2 ^ (Z.pos (digits2_pos m) - 1) <= Z.pos m < 2 ^ Z.pos (digits2_pos m).
Proof.
  induction m as [m IH|m IH|]; cbn [digits2_pos]; [..|done];
    rewrite Pos2Z.inj_succ; replace (Z.succ (Z.pos (digits2_pos m)) - 1) with (Z.succ (Z.pos (digits2_pos m) - 1)) by lia;
    rewrite !Z.pow_succ_r by lia; lia.
Qed.
Lemma digits_le m k : 0 <= m < 2 ^ k → 0 <= k → Zdigits2 m <= k.
Proof.
  destruct m as [|m|m]; cbn; [done| |lia]. intros [_ H] Hk. pose proof (digits_spec m) as [Hd _].
  assert (Z.pos (digits2_pos m) - 1 < k); [|lia]. apply (Z.pow_lt_mono_r_iff 2); lia.
Qed.
Lemma pow_nonneg_exp m k : 0 <= m < 2 ^ k → 0 < m → 0 <= k.
Proof. intros [_ H] Hm. destruct (decide (0 <= k)) as [?|?]; [done|]. rewrite Z.pow_neg_r in H by lia. lia. Qed.

Lemma shr_1_half mrs : 0 <= shr_m mrs → shr_m (shr_1 mrs) = shr_m mrs / 2.
Proof.
  destruct mrs as [[|[m|m|]|m] r s]; cbn; try done; intros _;
    change (Z.pos m~1) with (2 * Z.pos m + 1) || change (Z.pos m~0) with (2 * Z.pos m); Z.to_euclidean_division_equations; lia.
Qed.
Lemma iter_shr p : ∀ mrs, 0 <= shr_m mrs → shr_m (iter_pos shr_1 p mrs) = shr_m mrs / 2 ^ Z.pos p.
Proof.
  assert (∀ a i j, 0 <= i → 0 <= j → a / 2 ^ i / 2 ^ j = a / 2 ^ (i + j)) as Hd.
  { intros a i j Hi Hj. by rewrite Z.div_div, <- Z.pow_add_r by lia. }
  assert (∀ a i, 0 <= a → 0 <= i → 0 <= a / 2 ^ i) as Hn.
  { intros a i Ha Hi. apply Z.div_pos; lia. }
  induction p as [p IH|p IH|]; intros mrs Hm; cbn [iter_pos].
  - assert (0 <= shr_m (shr_1 mrs)) as H1 by (rewrite shr_1_half by done; apply Z.div_pos; lia).
    rewrite IH by (rewrite IH by done; apply Hn; lia). rewrite IH, shr_1_half by done.
    change (shr_m mrs / 2) with (shr_m mrs / 2 ^ 1). rewrite !Hd by lia. f_equal. f_equal. lia.
  - rewrite IH by (rewrite IH by done; apply Hn; lia). rewrite IH, Hd by (done || lia). f_equal. f_equal. lia.
  - by apply shr_1_half.
Qed.

Lemma shr_spec mrs e n : 0 <= shr_m mrs →
  let '(mrs', e') := shr mrs e n in shr_m mrs' = shr_m mrs / 2 ^ (e' - e) ∧ e' = e + Z.max 0 n.
Proof.
  intros Hm. unfold shr. destruct n as [|p|p]; cbn [Z.max Z.compare]; rewrite ?Z.add_0_r, ?Z.sub_diag, ?Z.div_1_r; [done| |done].
  split; [|lia]. rewrite iter_shr by done. f_equal. f_equal. lia.
Qed.

(** ** Rounding *)

Definition fexp64 : Z → Z := SpecFloat.fexp prec64 emax64.
Lemma fexp_eq e : fexp64 e = Z.max (e - 53) (-1074).
Proof. unfold fexp64, SpecFloat.fexp, SpecFloat.emin, prec64, emax64. lia. Qed.
Lemma record_of_loc_m m l : shr_m (shr_record_of_loc m l) = m.
Proof. by destruct l as [|[| |]]. Qed.

(** Shifting to the exponent of the format keeps the bound, and leaves no
    more than 53 digits. *)
Lemma shr_fexp_spec m e l b : 0 <= m < 2 ^ (b - e) → e <= b → -1000 <= b →
  let '(mrs, e') := shr_fexp prec64 emax64 m e l in
  0 <= shr_m mrs < 2 ^ (b - e') ∧ e <= e' <= b ∧ e' <= Z.max e (Z.max (b - 53) (-1074)) ∧ Zdigits2 (shr_m mrs) <= 53.
Proof.
  intros Hm He Hb. unfold shr_fexp. fold fexp64.
  pose proof (digits_le m (b - e) Hm ltac:(lia)) as Hd. assert (0 <= Zdigits2 m) as Hd0 by (by destruct m).
  pose proof (shr_spec (shr_record_of_loc m l) e (fexp64 (Zdigits2 m + e) - e)) as H. rewrite record_of_loc_m in H.
  destruct (shr _ _ _) as [mrs e']. destruct (H ltac:(lia)) as [-> He']. rewrite fexp_eq in He'. clear H.
  assert (m < 2 ^ Zdigits2 m) as Hlt by (destruct m as [|m|m]; [done|apply digits_spec|lia]).
  assert (0 <= m / 2 ^ (e' - e)) by (apply Z.div_pos; lia).
  split_and!; [done| |lia|lia|lia|].
  - apply Z.div_lt_upper_bound; [lia|]. rewrite <- Z.pow_add_r by lia. replace (e' - e + (b - e')) with (b - e) by lia. lia.
  - destruct (decide (m / 2 ^ (e' - e) = 0)) as [->|Hnz]; [done|]. apply digits_le; [|lia]. split; [done|].
    apply Z.div_lt_upper_bound; [lia|]. rewrite <- Z.pow_add_r by lia.
    eapply Z.lt_le_trans; [exact Hlt|]. apply Z.pow_le_mono_r; lia.
Qed.

(** ** Bounded floats *)

Definition within (b : Z) (x : float64) : Prop :=
  match x with S754_zero _ => True | S754_finite _ m e => Z.pos (digits2_pos m) + e <= b | _ => False end.
Lemma within_finite b x : within b x → is_finite x = true.
Proof. by destruct x. Qed.
Lemma within_mono a b x : a <= b → within a x → within b x.
Proof. destruct x; cbn; lia. Qed.

(** No more than 53 digits. *)
Definition short (x : float64) : Prop := match x with S754_finite _ m _ => Z.pos (digits2_pos m) <= 53 | _ => True end.

Lemma round_even_le m l : 0 <= m → m <= round_nearest_even m l <= m + 1.
Proof. intros H. destruct l as [|[| |]]; cbn; [lia| |lia|lia]. destruct (Z.even m); lia. Qed.

Lemma round_aux_short s m e l : 0 <= m → short (binary_round_aux prec64 emax64 s m e l).
Proof.
  intros Hm. unfold binary_round_aux.
  set (b := Z.max (Zdigits2 m + e) (Z.max e (-1000))).
  assert (0 <= m < 2 ^ (b - e)) as Hb.
  { split; [done|]. apply Z.lt_le_trans with (2 ^ Zdigits2 m); [destruct m as [|m|m]; [done|apply digits_spec|lia]|].
    apply Z.pow_le_mono_r; lia. }
  pose proof (shr_fexp_spec m e l b Hb ltac:(lia) ltac:(lia)) as H. destruct (shr_fexp _ _ m e l) as [mrs e1].
  destruct H as (H1 & He1 & _ & _). pose proof (round_even_le (shr_m mrs) (loc_of_shr_record mrs) ltac:(lia)) as Hr.
  set (m1 := round_nearest_even _ _) in *.
  assert (0 <= m1 < 2 ^ (b + 1 - e1)) as Hm1.
  { split; [lia|]. replace (b + 1 - e1) with (Z.succ (b - e1)) by lia. rewrite Z.pow_succ_r by lia.
    pose proof (Z.pow_pos_nonneg 2 (b - e1) ltac:(lia) ltac:(lia)). lia. }
  pose proof (shr_fexp_spec m1 e1 loc_Exact (b + 1) Hm1 ltac:(lia) ltac:(lia)) as H. destruct (shr_fexp _ _ m1 e1 _) as [mrs2 e2].
  destruct H as (_ & _ & _ & Hd). destruct (shr_m mrs2) as [|p|p]; [done| |done]. by destruct (e2 <=? _).
Qed.
Lemma round_aux_within s m e l b : 0 <= m < 2 ^ (b - e) → e <= b → -1000 <= b <= 900 →
  within (b + 1) (binary_round_aux prec64 emax64 s m e l).
Proof.
  intros Hm He Hb. unfold binary_round_aux.
  pose proof (shr_fexp_spec m e l b Hm He ltac:(lia)) as H. destruct (shr_fexp _ _ m e l) as [mrs e1].
  destruct H as (H1 & He1 & _ & _). pose proof (round_even_le (shr_m mrs) (loc_of_shr_record mrs) ltac:(lia)) as Hr.
  set (m1 := round_nearest_even _ _) in *.
  assert (0 <= m1 < 2 ^ (b + 1 - e1)) as Hm1.
  { split; [lia|]. replace (b + 1 - e1) with (Z.succ (b - e1)) by lia. rewrite Z.pow_succ_r by lia.
    pose proof (Z.pow_pos_nonneg 2 (b - e1) ltac:(lia) ltac:(lia)). lia. }
  pose proof (shr_fexp_spec m1 e1 loc_Exact (b + 1) Hm1 ltac:(lia) ltac:(lia)) as H. destruct (shr_fexp _ _ m1 e1 _) as [mrs2 e2].
  destruct H as (H2 & He2 & _ & _). destruct (shr_m mrs2) as [|p|p] eqn:Ep; [done| |lia].
  rewrite (proj2 (Z.leb_le _ _)) by (unfold prec64, emax64; lia). cbn.
  pose proof (digits_le (Z.pos p) (b + 1 - e2) H2 ltac:(lia)) as Hd. cbn in Hd. lia.
Qed.

(** ** Arithmetic *)

Lemma fmul_short x y : short (x * y)%f64.
Proof. destruct x, y; cbn; try done. by apply round_aux_short. Qed.
Lemma fmul_within a b x y : within a x → within b y → -1000 <= a + b <= 900 → within (a + b + 1) (x * y)%f64.
Proof.
  destruct x as [| | |sx mx ex], y as [| | |sy my ey]; cbn [within]; try done. intros Hx Hy Hb.
  unfold fmul, SFmul. apply round_aux_within; [|lia|done].
  pose proof (digits_spec mx) as [_ H1]. pose proof (digits_spec my) as [_ H2].
  split; [lia|]. apply Z.lt_le_trans with (2 ^ (Z.pos (digits2_pos mx) + Z.pos (digits2_pos my))).
  - rewrite Z.pow_add_r, Pos2Z.inj_mul by lia. by apply Z.mul_lt_mono_nonneg.
  - apply Z.pow_le_mono_r; lia.
Qed.

(** A quotient of positive integers scaled by powers of two, before it is
    rounded. *)
Lemma div_core_within m1 e1 m2 e2 a c : Z.pos (digits2_pos m1) + e1 <= a → c = Z.pos (digits2_pos m2) - 1 + e2 → -1000 <= a - c →
  let '(q, e, _) := SFdiv_core_binary prec64 emax64 (Z.pos m1) e1 (Z.pos m2) e2 in 0 <= q < 2 ^ (a - c - e) ∧ e <= a - c.
Proof.
  intros Ha -> Hac. unfold SFdiv_core_binary. cbn [Zdigits2]. fold fexp64.
  set (e := Z.min (fexp64 _) (e1 - e2)). set (s := e1 - e2 - e).
  assert (0 <= s) as Hs by lia.
  assert (e <= a - (Z.pos (digits2_pos m2) - 1 + e2)) as He by (unfold e; rewrite fexp_eq; lia).
  assert ((match s with Z0 => Z.pos m1 | Z.pos _ => Z.shiftl (Z.pos m1) s | Z.neg _ => 0 end) = Z.pos m1 * 2 ^ s) as ->.
  { destruct s as [|p|p] eqn:E; [cbn; lia| |lia]. by rewrite Z.shiftl_mul_pow2 by lia. }
  pose proof (Z_div_mod_full (Z.pos m1 * 2 ^ s) (Z.pos m2) ltac:(lia)) as H. destruct (Z.div_eucl _ _) as [q r].
  destruct H as [Hq Hr]. destruct (digits_spec m1) as [_ H1], (digits_spec m2) as [H2 _]. unfold Remainder in Hr.
  pose proof (Z.pow_pos_nonneg 2 s ltac:(lia) Hs) as Hps.
  assert (0 <= q) as Hq0 by nia. split; [|done]. split; [done|].
  apply (Z.mul_lt_mono_pos_r (2 ^ (Z.pos (digits2_pos m2) - 1))); [apply Z.pow_pos_nonneg; lia|].
  rewrite <- Z.pow_add_r by lia. apply Z.le_lt_trans with (Z.pos m1 * 2 ^ s); [nia|].
  apply Z.lt_le_trans with (2 ^ Z.pos (digits2_pos m1) * 2 ^ s); [nia|].
  rewrite <- Z.pow_add_r by lia. apply Z.pow_le_mono_r; lia.
Qed.
Lemma fdiv_within a c x s m e : within a x → c = Z.pos (digits2_pos m) - 1 + e → -1000 <= a - c <= 900 →
  within (a - c + 1) (x / S754_finite s m e)%f64.
Proof.
  destruct x as [| | |sx mx ex]; cbn [within]; try done. intros Hx Hc Hb. unfold fdiv, SFdiv.
  pose proof (div_core_within mx ex m e a c Hx Hc ltac:(lia)) as H. destruct (SFdiv_core_binary _ _ _ _ _ _) as [[q e'] l].
  destruct H as [H1 H2]. by apply round_aux_within.
Qed.

(** ** Integers *)

Lemma iter_xO p n : Z.pos (Pos.iter xO p n) = Z.pos p * 2 ^ Z.pos n.
Proof.
  induction n as [|n IH] using Pos.peano_ind; [cbn; lia|]. rewrite Pos.iter_succ, Pos2Z.inj_succ, Z.pow_succ_r by lia. lia.
Qed.
Lemma binary_round_within s p b : Z.pos p < 2 ^ b → 0 <= b <= 900 → within (b + 1) (binary_round prec64 emax64 s p 0).
Proof.
  intros Hp Hb. unfold binary_round, shl_align. set (e := SpecFloat.fexp _ _ _). destruct (e - 0) as [|d|d] eqn:E.
  1,2: apply round_aux_within; rewrite ?Z.sub_0_r; lia.
  apply round_aux_within; [|lia|lia]. rewrite iter_xO. split; [lia|].
  replace (b - e) with (b + Z.pos d) by lia. rewrite Z.pow_add_r by lia. nia.
Qed.
Lemma f_of_Z_within z b : Z.abs z < 2 ^ b → 0 <= b <= 900 → within (b + 1) (f_of_Z z).
Proof. intros Hz Hb. destruct z as [|p|p]; [done|..]; by apply binary_round_within. Qed.
Lemma float_of_Z_within z b : Z.abs z < 2 ^ b → 0 <= b <= 900 → ∃ x, float_of_Z z = Ok x ∧ within (b + 1) x.
Proof.
  intros Hz Hb. pose proof (f_of_Z_within z b Hz Hb) as H. unfold float_of_Z. destruct (f_of_Z z); [by eexists|done|done|by eexists].
Qed.

Lemma within_trunc b x : within b x → 0 <= b → ∃ z, int_of_float x = Ok z ∧ Z.abs z <= 2 ^ b.
Proof.
  intros Hx Hb. unfold int_of_float. destruct x as [s| | |s m e]; [|done|done|]; cbn [f_trunc].
  - eexists. split; [done|]. pose proof (Z.pow_pos_nonneg 2 b ltac:(lia) Hb). lia.
  - cbn in Hx. pose proof (digits_spec m) as [_ Hm]. eexists. split; [done|].
    assert (0 <= (if 0 <=? e then Z.pos m * 2 ^ e else Z.pos m / 2 ^ (- e)) <= 2 ^ b) as H; [|destruct s; lia].
    destruct (0 <=? e) eqn:E; bools.
    + pose proof (Z.pow_pos_nonneg 2 e ltac:(lia) E). split; [lia|].
      apply Z.le_trans with (2 ^ Z.pos (digits2_pos m) * 2 ^ e); [nia|]. rewrite <- Z.pow_add_r by lia. apply Z.pow_le_mono_r; lia.
    + split; [apply Z.div_pos; lia|]. apply Z.lt_le_incl, Z.div_lt_upper_bound; [lia|]. rewrite <- Z.pow_add_r by lia.
      apply Z.lt_le_trans with (2 ^ Z.pos (digits2_pos m)); [done|]. apply Z.pow_le_mono_r; lia.
Qed.

Lemma f_of_ratio_within n d b : Z.abs n < 2 ^ b → 0 <= b <= 800 → Z.pos (digits2_pos d) <= 800 → within (b + 1) (f_of_ratio n (Z.pos d)).
Proof.
  intros Hn Hb Hc. assert (∀ s p, Z.pos p < 2 ^ b →
    within (b + 1) (let '(q, e, l) := SFdiv_core_binary prec64 emax64 (Z.pos p) 0 (Z.pos d) 0 in binary_round_aux prec64 emax64 s q e l)) as H.
  { intros s p Hp. pose proof (digits_le (Z.pos p) b ltac:(lia) ltac:(lia)) as Hd. cbn [Zdigits2] in Hd.
    set (c := Z.pos (digits2_pos d) - 1 + 0). pose proof (div_core_within p 0 d 0 b c ltac:(lia) eq_refl ltac:(lia)) as H.
    destruct (SFdiv_core_binary _ _ _ _ _ _) as [[q e] l]. destruct H as [H1 H2].
    apply within_mono with (b - c + 1); [lia|]. apply round_aux_within; [done|done|lia]. }
  destruct n as [|p|p]; [done|..]; by apply H.
Qed.

(** ** A percentage *)

(** A value held between five and a hundred, if below a hundred, is
    bounded, whatever was held. *)
Definition clamped (x : float64) : float64 := py_max (f_of_Z 5) (py_min (f_of_Z 100) x).
Lemma clamped_within x : short x → flt (clamped x) (f_of_Z 100) = true → within 8 (clamped x).
Proof.
  intros Hx. unfold clamped, py_max, py_min.
  destruct (flt x (f_of_Z 100)) eqn:Hlt; [|by vm_compute]. destruct (fgt x (f_of_Z 5)) eqn:Hgt; [|by vm_compute].
  intros _. unfold flt, fgt, SFltb in *. assert (∃ m, f_of_Z 100 = S754_finite false m (-46)) as [m E] by (by eexists).
  rewrite E in Hlt. destruct x as [|[]| |[] mx ex]; try (vm_compute in Hgt; discriminate Hgt); [done|].
  cbn in Hlt, Hx |- *. destruct (ex ?= -46) eqn:Ec; [apply Z.compare_eq in Ec|change (ex < -46)%Z in Ec|done]; clear -Hx Ec; lia.
Qed.
