(* ===== verification/Reconciliation.v ===== *)
(** * Reconciliation of the order table with the broker

    [core/execution/reconciliation/service.py]: [ReconciliationService]
    compares its table [execution_orders] with the broker's order book and
    positions, repairs some differences, and freezes trading on others. *)
From S2P Require Import Prelude PyStr Float64 PyDict Broker PyVal.

(** ** Data *)

Inductive ReconciliationState :=
| ORPHAN_POSITION | STALE_ORDER | QUANTITY_MISMATCH | UNRECORDED_FILL | AMBIGUOUS.

#[global] Instance ReconciliationState_eq_dec : EqDecision ReconciliationState.
Proof. solve_decision. Defined.

Definition state_value (s : ReconciliationState) : string :=
  match s with
  | ORPHAN_POSITION => "ORPHAN_POSITION" | STALE_ORDER => "STALE_ORDER"
  | QUANTITY_MISMATCH => "QUANTITY_MISMATCH" | UNRECORDED_FILL => "UNRECORDED_FILL"
  | AMBIGUOUS => "AMBIGUOUS"
  end.

Inductive TradingFreezeReason :=
| RECONCILIATION_FAILED | ORPHAN_POSITIONS_DETECTED | STALE_ORDERS_UNRESOLVED
| QUANTITY_MISMATCH_UNRESOLVED | BROKER_UNAVAILABLE.

#[global] Instance TradingFreezeReason_eq_dec : EqDecision TradingFreezeReason.
Proof. solve_decision. Defined.

(** What an issue keeps of the broker's side: a value, or the dictionary of
    an unrecorded fill. *)
Inductive issue_value := IVal (v : pyval) | IFill (filled_qty price : pyval).

Record issue := ReconciliationIssue {
  is_type : ReconciliationState;
  is_order_id : option string;
  is_internal : pyval;
  is_broker : issue_value;
  is_description : string }.

Record recon_report := ReconciliationResult {
  rr_is_clean : bool;
  rr_issues : list issue;
  rr_freeze_reason : option TradingFreezeReason;
  rr_timestamp : Z;
  rr_broker_positions : Z;
  rr_internal_orders : Z;
  rr_repaired : Z }.

(** A row of [execution_orders] without its key [order_id] and without
    [notes], which nothing writes; instants are ISO texts that SQLite
    compares in the order of the instants. *)
Record orow := ORow {
  o_intent_id : string; o_symbol : string; o_direction : string;
  o_quantity : Z; o_filled_quantity : Z; o_average_price : float64; o_status : string;
  o_broker_order_id : option string; o_created_at : Z; o_updated_at : Z;
  o_idempotency_key : option string; o_is_reconciled : bool }.

(** The order book as the adapter returns it: a list, a dictionary with
    [data] or [orders] (present or not, possibly null), anything else. *)
Inductive book :=
| BookList (l : list pyrec)
| BookDict (data orders : option (option (list pyrec)))
| BookOther.

(** The adapter and the freeze callback, on a state [X] of their own: a
    method is [None] when [hasattr] says no; the [port_] ones are the methods
    of the adapter's [_port]. *)
Class ReconPort (X : Type) := {
  rp_get_order_book : option (ST X book);
  rp_port_get_order_book : option (ST X book);
  rp_get_positions : option (ST X (option (list pyrec)));
  rp_port_get_positions : option (ST X (option (list pyrec)));
  rp_freeze_callback : option (TradingFreezeReason → string → ST X unit)
}.

Section service.
Context {X : Type}.

(** The service, its database, the clock, and the adapter's own state. *)
Record rworld := RWorld {
  rw_clk : clock;
  rw_db : dbase orow;
  rw_auto_repair : bool;
  rw_frozen : bool;
  rw_reason : option TradingFreezeReason;
  rw_last : option recon_report;
  rw_ext : X }.

#[global] Instance rworld_clock : HasClock rworld :=
  {| clock_of := rw_clk;
     set_clock := λ c w, RWorld c (rw_db w) (rw_auto_repair w) (rw_frozen w) (rw_reason w) (rw_last w)
       (rw_ext w) |}.

Definition set_db (d : dbase orow) (w : rworld) : rworld :=
  RWorld (rw_clk w) d (rw_auto_repair w) (rw_frozen w) (rw_reason w) (rw_last w) (rw_ext w).
Definition set_frozen (b : bool) (r : option TradingFreezeReason) (w : rworld) : rworld :=
  RWorld (rw_clk w) (rw_db w) (rw_auto_repair w) b r (rw_last w) (rw_ext w).
Definition set_last (r : recon_report) (w : rworld) : rworld :=
  RWorld (rw_clk w) (rw_db w) (rw_auto_repair w) (rw_frozen w) (rw_reason w) (Some r) (rw_ext w).
Definition set_ext (x : X) (w : rworld) : rworld :=
  RWorld (rw_clk w) (rw_db w) (rw_auto_repair w) (rw_frozen w) (rw_reason w) (rw_last w) x.

Definition on_db {A} (f : pydict orow → A * pydict orow) : ST rworld A :=
  st_zoom rw_db set_db (db_run f).
Definition on_ext {A} (m : ST X A) : ST rworld A := st_zoom rw_ext set_ext m.

Context `{!ReconPort X}.

(** ** The freeze *)

(** [is_frozen] *)
Definition is_frozen : ST rworld (bool * option TradingFreezeReason) :=
  st_gets (λ w, (rw_frozen w, rw_reason w)).

(** [unfreeze] *)
Definition unfreeze : ST rworld unit := st_modify (set_frozen false None).

(** [_freeze_trading] *)
Definition freeze_trading (reason : TradingFreezeReason) (details : string) : ST rworld unit :=
  st_modify (set_frozen true (Some reason)) ;;
  match rp_freeze_callback with
  | Some cb =>
      st_try (on_ext (cb reason details)) [ValueError; TypeError; AttributeError; DatabaseError]
        (λ _, mret ())
  | None => mret ()
  end.

(** ** The table *)

Definition table_errors : list exn_class := [DatabaseError; SqliteError; OSError].

(** [record_order] *)
Definition record_order (order_id intent_id symbol direction : string) (quantity : Z) (status : string)
    (broker_order_id idempotency_key : option string) : ST rworld unit :=
  now ← now_ist;
  st_try
    (on_db (λ t, ((), tbl_replace order_id
       (ORow intent_id symbol direction quantity 0 f_zero status broker_order_id now now
          idempotency_key false) t)))
    (table_errors ++ [ValueError]) (λ _, mret ()).

Definition fill_row (filled_quantity : Z) (average_price : float64) (status : string) (now : Z)
    (r : orow) : orow :=
  ORow (o_intent_id r) (o_symbol r) (o_direction r) (o_quantity r) filled_quantity average_price status
    (o_broker_order_id r) (o_created_at r) now (o_idempotency_key r) false.

(** [update_order_fill] *)
Definition update_order_fill (order_id : string) (filled_quantity : Z) (average_price : float64)
    (status : string) : ST rworld unit :=
  now ← now_ist;
  st_try (on_db (λ t, ((), tbl_update order_id (fill_row filled_quantity average_price status now) t)))
    (table_errors ++ [ValueError]) (λ _, mret ()).

Definition terminal_status : list string := ["FILLED"; "CANCELLED"; "REJECTED"; "EXPIRED"; "COMPLETE"].

(** [SELECT * FROM execution_orders [WHERE status NOT IN ...] ORDER BY created_at] *)
Definition select_all (t : pydict orow) : list (string * orow) :=
  order_by (λ p, o_created_at p.2) (items t).
Definition select_pending (t : pydict orow) : list (string * orow) :=
  order_by (λ p, o_created_at p.2)
    (filter (λ p, str_mem (o_status p.2) terminal_status = false) (items t)).

(** [get_pending_orders], [get_all_orders] *)
Definition get_pending_orders : ST rworld (list (string * orow)) :=
  st_try (on_db (λ t, (select_pending t, t))) table_errors (λ _, mret []).
Definition get_all_orders : ST rworld (list (string * orow)) :=
  st_try (on_db (λ t, (select_all t, t))) table_errors (λ _, mret []).

Definition terminal_row (status : string) (now : Z) (r : orow) : orow :=
  ORow (o_intent_id r) (o_symbol r) (o_direction r) (o_quantity r) (o_filled_quantity r)
    (o_average_price r) status (o_broker_order_id r) (o_created_at r) now (o_idempotency_key r) true.

(** [_mark_order_terminal] *)
Definition mark_order_terminal (order_id status : string) : ST rworld unit :=
  now ← now_ist;
  on_db (λ t, ((), tbl_update order_id (terminal_row status now) t)).

(** ** The broker's side *)

Definition fetch_errors : list exn_class := [BrokerConnectionError; ConnectionError; OSError; ValueError].

(** The list in a book; [None] is the value [None] of the source, which
    [len] then refuses. *)
Definition book_orders (b : book) : option (list pyrec) :=
  match b with
  | BookList l => Some l
  | BookDict (Some data) _ => data
  | BookDict None (Some orders) => orders
  | BookDict None None => Some []
  | BookOther => Some []
  end.

(** [_fetch_broker_orders] *)
Definition fetch_broker_orders : ST rworld (option (list pyrec)) :=
  st_try
    (match rp_get_order_book with
     | Some get => b ← on_ext get; mret (book_orders b)
     | None =>
         match rp_port_get_order_book with
         | Some get => b ← on_ext get; mret (book_orders b)
         | None => mret (Some [])
         end
     end)
    fetch_errors (λ _, mret (Some [])).

(** [_fetch_broker_positions] *)
Definition fetch_broker_positions : ST rworld (list pyrec) :=
  st_try
    (match rp_get_positions with
     | Some get => p ← on_ext get; mret (default [] p)
     | None =>
         match rp_port_get_positions with
         | Some get => p ← on_ext get; mret (default [] p)
         | None => mret []
         end
     end)
    fetch_errors (λ _, mret []).

(** ** Detection *)

(** [o.get(k, o.get(k2, d))] *)
Definition rget2 (k k2 : string) (d : pyval) (o : pyrec) : pyval := rget k (rget k2 d o) o.

Definition broker_oid (o : pyrec) : string := py_str (rget2 "orderid" "order_id" (VStr "") o).
Definition broker_filled (o : pyrec) : pyval := rget2 "filledshares" "filled_quantity" (VInt 0) o.
Definition broker_price (o : pyrec) : pyval := rget2 "averageprice" "price" (VInt 0) o.
Definition broker_status (o : pyrec) : string :=
  str_upper (py_str (rget2 "orderstatus" "status" (VStr "") o)).
Definition position_symbol (p : pyrec) : pyval := rget2 "symbol" "tradingsymbol" (VStr "") p.
Definition position_qty (p : pyrec) : pyval := rget2 "quantity" "net_quantity" (VInt 0) p.

Definition joined (l : list string) : string := foldr String.append "" l.

(** [_detect_stale_orders] *)
Definition stale_issue (book_ids : list string) (p : string * orow) : option issue :=
  match o_broker_order_id p.2 with
  | Some bid =>
      if truthy_str bid && negb (str_mem bid book_ids) then
        Some (ReconciliationIssue STALE_ORDER (Some p.1) (VStr (o_status p.2)) (IVal (VStr "NOT_FOUND"))
          (joined ["Order "; p.1; " (broker: "; bid; ") not found in broker"]))
      else None
  | None => None
  end.
Definition detect_stale_orders (pending : list (string * orow)) (broker_orders : list pyrec) : list issue :=
  omap (stale_issue (broker_oid <$> broker_orders)) pending.

(** [_detect_orphan_positions] *)
Definition orphan_issue (symbols : list string) (pos : pyrec) : option issue :=
  let symbol := position_symbol pos in
  let qty := position_qty pos in
  if negb (py_eq qty (VInt 0)) &&
     negb (match symbol with VStr s => str_mem s symbols | _ => false end) then
    Some (ReconciliationIssue ORPHAN_POSITION None (VStr "NO_ORDER") (IVal qty)
      (joined ["Orphan position: "; py_str symbol; " x "; py_str qty; " in broker but no internal order"]))
  else None.
Definition detect_orphan_positions (positions : list pyrec) (internal : list (string * orow)) : list issue :=
  omap (orphan_issue (filter (λ s, truthy_str s = true) ((λ p, o_symbol p.2) <$> internal))) positions.

(** [internal_by_broker_id]: the last row of a broker id wins. *)
Definition by_broker_id (internal : list (string * orow)) : pydict (string * orow) :=
  foldl (λ d p, match o_broker_order_id p.2 with
                | Some bid => if truthy_str bid then <[bid := p]> d else d
                | None => d
                end) ∅ internal.

(** [_detect_quantity_mismatches]: [int] of the broker's value may raise. *)
Definition mismatch_issue (known : pydict (string * orow)) (o : pyrec) : res (option issue) :=
  let bid := broker_oid o in
  match known !! bid with
  | Some (oid, row) =>
      let broker_qty := broker_filled o in
      match py_int broker_qty with
      | Ok n =>
          Ok (if n =? o_filled_quantity row then None
              else Some (ReconciliationIssue QUANTITY_MISMATCH (Some oid) (VInt (o_filled_quantity row))
                     (IVal broker_qty)
                     (joined ["Mismatch for "; bid; ": internal="; str_of_Z (o_filled_quantity row);
                              ", broker="; py_str broker_qty])))
      | Raise e => Raise e
      end
  | None => Ok None
  end.
Fixpoint detect_mismatches (known : pydict (string * orow)) (broker_orders : list pyrec) : res (list issue) :=
  match broker_orders with
  | [] => Ok []
  | o :: os =>
      match mismatch_issue known o with
      | Ok i =>
          match detect_mismatches known os with
          | Ok l => Ok (match i with Some i => i :: l | None => l end)
          | Raise e => Raise e
          end
      | Raise e => Raise e
      end
  end.
Definition detect_quantity_mismatches (broker_orders : list pyrec) (internal : list (string * orow)) :
    res (list issue) :=
  detect_mismatches (by_broker_id internal) broker_orders.

(** [_detect_unrecorded_fills] *)
Definition fill_issue (known : pydict (string * orow)) (o : pyrec) : option issue :=
  let bid := broker_oid o in
  let status := broker_status o in
  if (str_contains "COMPLETE" status || str_contains "FILLED" status) && negb (dmem bid known) then
    let qty := broker_filled o in
    let price := broker_price o in
    Some (ReconciliationIssue UNRECORDED_FILL (Some bid) (VStr "NOT_FOUND") (IFill qty price)
      (joined ["Fill in broker not recorded internally: "; bid; " x "; py_str qty; " @ "; py_str price]))
  else None.
Definition detect_unrecorded_fills (broker_orders : list pyrec) (internal : list (string * orow)) : list issue :=
  omap (fill_issue (by_broker_id internal)) broker_orders.

(** [_detect_ambiguity] *)
Definition ambiguous_type (s : ReconciliationState) : bool :=
  match s with AMBIGUOUS | ORPHAN_POSITION | QUANTITY_MISMATCH => true | _ => false end.
Definition detect_ambiguity (issues : list issue) : bool :=
  (3 <? length issues)%nat || existsb (λ i, ambiguous_type (is_type i)) issues.

(** [_determine_freeze_reason] *)
Definition has_type (s : ReconciliationState) (issues : list issue) : bool :=
  existsb (λ i, bool_decide (is_type i = s)) issues.
Definition determine_freeze_reason (issues : list issue) : TradingFreezeReason :=
  if has_type ORPHAN_POSITION issues then ORPHAN_POSITIONS_DETECTED
  else if has_type STALE_ORDER issues then STALE_ORDERS_UNRESOLVED
  else if has_type QUANTITY_MISMATCH issues then QUANTITY_MISMATCH_UNRESOLVED
  else RECONCILIATION_FAILED.

(** [_format_issues] *)
Definition newline : string := String (Ascii.ascii_of_nat 10) "".
Fixpoint issue_lines (i : Z) (issues : list issue) : list string :=
  match issues with
  | [] => []
  | x :: xs =>
      joined [newline; "  "; str_of_Z i; ". "; state_value (is_type x); ": "; is_description x]
        :: issue_lines (i + 1) xs
  end.
Definition format_issues (issues : list issue) : string :=
  let n := Z.of_nat (length issues) in
  joined ([String.append "Total issues: " (str_of_Z n)] ++ issue_lines 1 (take 10 issues) ++
          (if 10 <? n then [joined [newline; "  ... and "; str_of_Z (n - 10); " more"]] else [])).

(** ** Repair *)

(** [_record_unrecorded_fill] *)
Definition record_unrecorded_fill (i : issue) : ST rworld unit :=
  match is_order_id i with
  | Some oid =>
      if truthy_str oid then
        match is_broker i with
        | IFill qty price =>
            q ← st_lift (py_int qty);
            p ← st_lift (py_float price);
            update_order_fill oid q p "FILLED"
        | IVal v => if truthy v then update_order_fill oid 0 f_zero "FILLED" else mret ()
        end
      else mret ()
  | None => mret ()
  end.

Definition repair_errors : list exn_class := table_errors ++ [AttributeError].

(** One issue of [_auto_repair]: the count after it. *)
Definition repair_one (i : issue) (repaired : Z) : ST rworld Z :=
  match is_type i with
  | STALE_ORDER =>
      st_try (mark_order_terminal (default "" (is_order_id i)) "UNKNOWN_STALE" ;; mret (repaired + 1))
        repair_errors (λ _, mret repaired)
  | UNRECORDED_FILL =>
      st_try (record_unrecorded_fill i ;; mret (repaired + 1)) repair_errors (λ _, mret repaired)
  | _ => mret repaired
  end.
Fixpoint auto_repair (issues : list issue) (repaired : Z) : ST rworld Z :=
  match issues with
  | [] => mret repaired
  | i :: l => n ← repair_one i repaired; auto_repair l n
  end.

(** ** [reconcile] *)

Definition reconcile_errors : list exn_class :=
  [ReconciliationError; DatabaseError; SqliteError; OSError; ValueError; KeyError].

(** [len(x)] of what may be [None] *)
Definition the_list {A} (l : option (list A)) : res (list A) :=
  match l with
  | Some l => Ok l
  | None => Raise (PyExn TypeError "object of type 'NoneType' has no len()")
  end.

Definition all_issues (broker_orders positions : list pyrec) (internal pending : list (string * orow)) :
    res (list issue) :=
  match detect_quantity_mismatches broker_orders internal with
  | Ok mism =>
      Ok (detect_stale_orders pending broker_orders ++ detect_orphan_positions positions internal ++
          mism ++ detect_unrecorded_fills broker_orders internal)
  | Raise e => Raise e
  end.

Definition no_issues (issues : list issue) : bool := match issues with [] => true | _ => false end.

Definition freeze_if_ambiguous (issues : list issue) : ST rworld unit :=
  if negb (no_issues issues) && detect_ambiguity issues then
    freeze_trading (determine_freeze_reason issues) (format_issues issues)
  else mret ().

(** What is left to do once the broker's side and the table are read. *)
Definition settle (issues : list issue) (positions internal : Z) : ST rworld recon_report :=
  w ← st_get;
  repaired ← (if rw_auto_repair w then auto_repair issues 0 else mret 0);
  let clean := no_issues issues in
  freeze_if_ambiguous issues ;;
  w ← st_get;
  now ← now_ist;
  let result :=
    ReconciliationResult clean issues (if clean then None else rw_reason w) now positions internal repaired in
  st_modify (set_last result) ;;
  mret result.

Definition reconcile_body : ST rworld recon_report :=
  book ← fetch_broker_orders;
  positions ← fetch_broker_positions;
  internal ← get_all_orders;
  broker_orders ← st_lift (the_list book);
  pending ← get_pending_orders;
  issues ← st_lift (all_issues broker_orders positions internal pending);
  settle issues (Z.of_nat (length positions)) (Z.of_nat (length internal)).

(** The [except] clause. *)
Definition reconcile_failed (e : pyexn) : ST rworld recon_report :=
  freeze_trading RECONCILIATION_FAILED (exn_msg e) ;;
  now ← now_ist;
  mret (ReconciliationResult false
    [ReconciliationIssue AMBIGUOUS None VNone (IVal VNone)
       (String.append "Reconciliation exception: " (exn_msg e))]
    (Some RECONCILIATION_FAILED) now 0 0 0).

Definition reconcile : ST rworld recon_report :=
  st_try reconcile_body reconcile_errors reconcile_failed.


(** ** What a clean comparison means *)

(** The row the service takes for a broker id: the last one that has it. *)
Definition row_of (bid : string) (internal : list (string * orow)) : option (string * orow) :=
  last (filter (λ p, o_broker_order_id p.2 = Some bid) internal).

(** The broker reports the order as done. *)
Definition reported_done (o : pyrec) : Prop :=
  str_contains "COMPLETE" (broker_status o) = true ∨ str_contains "FILLED" (broker_status o) = true.

(** The two sides agree: the broker knows every pending order that has a
    broker id, every open position belongs to the symbol of some order, the
    filled quantities are equal, and every order the broker reports as done
    is on record. *)
Record agrees (broker_orders positions : list pyrec) (internal pending : list (string * orow)) : Prop := {
  ag_known : ∀ p bid, p ∈ pending → o_broker_order_id p.2 = Some bid → bid ≠ "" →
    bid ∈ broker_oid <$> broker_orders;
  ag_positions : ∀ pos, pos ∈ positions → py_eq (position_qty pos) (VInt 0) = false →
    ∃ p, p ∈ internal ∧ o_symbol p.2 ≠ "" ∧ position_symbol pos = VStr (o_symbol p.2);
  ag_filled : ∀ o p, o ∈ broker_orders → broker_oid o ≠ "" → row_of (broker_oid o) internal = Some p →
    py_int (broker_filled o) = Ok (o_filled_quantity p.2);
  ag_recorded : ∀ o, o ∈ broker_orders → reported_done o →
    broker_oid o ≠ "" ∧ ∃ p, p ∈ internal ∧ o_broker_order_id p.2 = Some (broker_oid o)
}.

Lemma omap_nil_iff {A B} (f : A → option B) l : omap f l = [] ↔ ∀ x, x ∈ l → f x = None.
Proof.
  induction l as [|a l IH]; [split; [by intros _ ? ?%not_elem_of_nil|done]|].
  cbn [omap list_omap]. split.
  - intros H x [->|Hx]%elem_of_cons; destruct (f _) eqn:E; try done; by apply IH.
  - intros H. rewrite (H a) by apply list_elem_of_here. apply IH.
    intros x Hx. by apply H, list_elem_of_further.
Qed.

Lemma by_broker_id_lookup bid internal :
  by_broker_id internal !! bid = if truthy_str bid then row_of bid internal else None.
Proof.
  unfold by_broker_id, row_of.
  induction internal as [|p l IH] using rev_ind; [by destruct (truthy_str bid)|].
  rewrite foldl_snoc, filter_app, filter_cons, filter_nil. simpl.
  destruct (o_broker_order_id p.2) as [b|] eqn:Hb.
  - destruct (decide (Some b = Some bid)) as [[= ->]|Hne].
    + rewrite last_snoc. destruct (truthy_str bid) eqn:Ht; [by dict_simp|exact IH].
    + rewrite app_nil_r. destruct (truthy_str b); [|exact IH].
      rewrite dict_lookup_insert_ne by congruence. exact IH.
  - destruct (decide (None = Some bid)); [done|]. by rewrite app_nil_r.
Qed.

Lemma row_of_some bid internal :
  is_Some (row_of bid internal) ↔ ∃ p, p ∈ internal ∧ o_broker_order_id p.2 = Some bid.
Proof.
  unfold row_of. rewrite last_is_Some. split.
  - intros H. destruct (filter _ internal) as [|p l] eqn:E; [done|].
    assert (p ∈ p :: l) as Hp by apply list_elem_of_here. rewrite <- E in Hp.
    apply list_elem_of_filter in Hp as [??]. by exists p.
  - intros (p & Hp & Hb) E. assert (p ∈ filter (λ p, o_broker_order_id p.2 = Some bid) internal) as Hin
      by (by apply list_elem_of_filter). rewrite E in Hin. by apply not_elem_of_nil in Hin.
Qed.

Lemma stale_none ids p :
  stale_issue ids p = None ↔ ∀ bid, o_broker_order_id p.2 = Some bid → bid ≠ "" → bid ∈ ids.
Proof.
  unfold stale_issue. destruct (o_broker_order_id p.2) as [b|]; [|by split].
  destruct (truthy_str b) eqn:Ht; simpl.
  - apply truthy_str_spec in Ht. destruct (str_mem b ids) eqn:Hm; simpl.
    + apply str_mem_spec in Hm. split; [|done]. by intros _ ? [= <-].
    + split; [done|]. intros H. specialize (H b eq_refl Ht). apply str_mem_spec in H. congruence.
  - split; [|done]. intros _ bid [= <-] Hb. apply truthy_str_spec in Hb. congruence.
Qed.

Lemma orphan_none internal pos :
  orphan_issue (filter (λ s, truthy_str s = true) ((λ p, o_symbol p.2) <$> internal)) pos = None ↔
  (py_eq (position_qty pos) (VInt 0) = false →
   ∃ p : string * orow, p ∈ internal ∧ o_symbol p.2 ≠ "" ∧ position_symbol pos = VStr (o_symbol p.2)).
Proof.
  unfold orphan_issue. destruct (py_eq _ _); simpl; [by split|].
  destruct (position_symbol pos) as [| | | |s]; simpl;
    try (split; [done|]; intros H; by destruct (H eq_refl) as (? & _ & _ & [=])).
  destruct (str_mem s _) eqn:E; simpl.
  - split; [|done]. intros _ _. apply str_mem_spec, list_elem_of_filter in E as [Ht Hs].
    apply list_elem_of_fmap in Hs as (p & -> & Hp). apply truthy_str_spec in Ht. by exists p.
  - split; [done|]. intros H. destruct (H eq_refl) as (p & Hp & Hs & [= ->]).
    assert (str_mem (o_symbol p.2) (filter (λ s, truthy_str s = true) ((λ p, o_symbol p.2) <$> internal)) = true)
      as Hm; [|congruence].
    apply str_mem_spec, list_elem_of_filter. split; [by apply truthy_str_spec|].
    by apply (list_elem_of_fmap_2 (λ p : string * orow, o_symbol p.2)).
Qed.

Lemma mismatches_nil known orders :
  detect_mismatches known orders = Ok [] ↔ ∀ o, o ∈ orders → mismatch_issue known o = Ok None.
Proof.
  induction orders as [|o l IH]; [split; [by intros _ ? ?%not_elem_of_nil|done]|].
  cbn [detect_mismatches]. split.
  - intros H x [->|Hx]%elem_of_cons.
    + destruct (mismatch_issue known o) as [[i|]|]; [|done|done]. by destruct (detect_mismatches _ _).
    + destruct (mismatch_issue known o) as [[i|]|]; [by destruct (detect_mismatches _ _)| |done].
      destruct (detect_mismatches known l); [|done]. injection H as ->. by apply IH.
  - intros H. rewrite (H o) by apply list_elem_of_here.
    assert (detect_mismatches known l = Ok []) as ->; [|done].
    apply IH. intros x Hx. by apply H, list_elem_of_further.
Qed.

Lemma mismatch_none internal o :
  mismatch_issue (by_broker_id internal) o = Ok None ↔
  ∀ p, broker_oid o ≠ "" → row_of (broker_oid o) internal = Some p →
    py_int (broker_filled o) = Ok (o_filled_quantity p.2).
Proof.
  unfold mismatch_issue. rewrite by_broker_id_lookup. destruct (truthy_str (broker_oid o)) eqn:Ht.
  - apply truthy_str_spec in Ht. destruct (row_of _ _) as [[oid row]|]; [|by split].
    destruct (py_int (broker_filled o)) as [n|e]; simpl.
    + destruct (Z.eqb_spec n (o_filled_quantity row)) as [->|Hn]; split; try done.
      * by intros _ p _ [= <-].
      * intros H. specialize (H _ Ht eq_refl). simpl in H. congruence.
    + split; [done|]. intros H. by specialize (H _ Ht eq_refl).
  - split; [|done]. intros _ p Hb. apply truthy_str_spec in Hb. congruence.
Qed.

Lemma fill_none internal o :
  fill_issue (by_broker_id internal) o = None ↔
  (reported_done o → broker_oid o ≠ "" ∧ ∃ p, p ∈ internal ∧ o_broker_order_id p.2 = Some (broker_oid o)).
Proof.
  unfold fill_issue, reported_done. rewrite <- row_of_some, <- truthy_str_spec.
  unfold dmem. rewrite by_broker_id_lookup.
  destruct (str_contains "COMPLETE" _), (str_contains "FILLED" _), (truthy_str (broker_oid o)), (row_of _ _);
    simpl; (split; [intros H1 H2|intros H1]); try done; try (by destruct H2);
    try (specialize (H1 ltac:(auto)); destruct H1 as [? [??]]; done).
  all: split; [done|by eexists].
Qed.

Lemma all_issues_nil bo ps internal pending :
  all_issues bo ps internal pending = Ok [] ↔ agrees bo ps internal pending.
Proof.
  unfold all_issues, detect_quantity_mismatches.
  pose proof (mismatches_nil (by_broker_id internal) bo) as Hm.
  assert ((∀ o, o ∈ bo → mismatch_issue (by_broker_id internal) o = Ok None) ↔
          detect_mismatches (by_broker_id internal) bo = Ok []) as Hm' by (by symmetry). clear Hm.
  split.
  - intros H. destruct (detect_mismatches _ _) as [m|] eqn:E; [|done]. injection H as H.
    apply app_eq_nil in H as [H1 H]. apply app_eq_nil in H as [H2 H].
    apply app_eq_nil in H as [-> H4].
    unfold detect_stale_orders, detect_orphan_positions, detect_unrecorded_fills in *.
    pose proof (proj1 (omap_nil_iff _ _) H1) as H1'. pose proof (proj1 (omap_nil_iff _ _) H2) as H2'. pose proof (proj1 (omap_nil_iff _ _) H4) as H4'. split.
    + intros p bid Hp. by apply stale_none, H1'.
    + intros pos Hpos. by apply orphan_none, H2'.
    + intros o p Ho. by apply mismatch_none, Hm'.
    + intros o Ho. by apply fill_none, H4'.
  - intros [H1 H2 H3 H4].
    rewrite (proj1 Hm') by (intros o Ho; apply mismatch_none; eauto).
    unfold detect_stale_orders, detect_orphan_positions, detect_unrecorded_fills.
    rewrite (proj2 (omap_nil_iff (stale_issue _) _)) by (intros p Hp; apply stale_none; eauto).
    rewrite (proj2 (omap_nil_iff (orphan_issue _) _)) by (intros p Hp; apply orphan_none; eauto).
    rewrite (proj2 (omap_nil_iff (fill_issue _) _)) by (intros p Hp; apply fill_none; eauto).
    done.
Qed.

(** ** Runs *)

Definition quiet (w : rworld) : Prop := db_faults (rw_db w) = [].
Definition rows (w : rworld) : pydict orow := db_rows (rw_db w).

Lemma on_db_quiet {A} (f : pydict orow → A * pydict orow) w :
  quiet w → on_db f w = (Ok (f (rows w)).1, set_db (DBase (f (rows w)).2 []) w).
Proof. intros H. unfold on_db, st_zoom. by rewrite db_run_quiet. Qed.

Lemma set_db_same w : quiet w → set_db (DBase (rows w) []) w = w.
Proof. destruct w as [? [? ?] ? ? ? ? ?]. unfold quiet, rows, set_db. simpl. by intros ->. Qed.

Lemma get_all_quiet w : quiet w → get_all_orders w = (Ok (select_all (rows w)), w).
Proof. intros H. unfold get_all_orders, st_try. rewrite on_db_quiet by done. cbn [fst snd]. by rewrite set_db_same. Qed.
Lemma get_pending_quiet w : quiet w → get_pending_orders w = (Ok (select_pending (rows w)), w).
Proof. intros H. unfold get_pending_orders, st_try. rewrite on_db_quiet by done. cbn [fst snd]. by rewrite set_db_same. Qed.

(** The fetches change nothing but the adapter. *)
Definition same_service (w w' : rworld) : Prop := ∃ x, w' = set_ext x w.
#[local] Instance same_service_preorder : PreOrder same_service.
Proof.
  split; [by intros [?????? x]; exists x|]. by intros w1 w2 w3 [x ->] [y ->]; exists y.
Qed.
Lemma on_ext_same {A} (m : ST X A) : st_rel same_service (on_ext m).
Proof. intros w. unfold on_ext, st_zoom. destruct (m _) as [r x]. by exists x. Qed.
Lemma fetch_orders_same : st_rel same_service fetch_broker_orders.
Proof. unfold fetch_broker_orders. rel_auto ltac:(apply on_ext_same). Qed.
Lemma fetch_positions_same : st_rel same_service fetch_broker_positions.
Proof. unfold fetch_broker_positions. rel_auto ltac:(apply on_ext_same). Qed.

Lemma body_eq w w1 w2 bo ps :
  fetch_broker_orders w = (Ok (Some bo), w1) → fetch_broker_positions w1 = (Ok ps, w2) → quiet w →
  reconcile_body w =
  match all_issues bo ps (select_all (rows w)) (select_pending (rows w)) with
  | Ok issues => settle issues (Z.of_nat (length ps)) (Z.of_nat (length (select_all (rows w)))) w2
  | Raise e => (Raise e, w2)
  end.
Proof.
  intros H1 H2 Hq.
  pose proof (fetch_orders_same w) as [x1 Hx1]. rewrite H1 in Hx1. simpl in Hx1. subst w1.
  pose proof (fetch_positions_same (set_ext x1 w)) as [x2 Hx2]. rewrite H2 in Hx2. simpl in Hx2. subst w2.
  unfold reconcile_body. rewrite (st_bind_ok _ _ _ _ _ H1), (st_bind_ok _ _ _ _ _ H2).
  rewrite (st_bind_ok _ _ _ _ _ (get_all_quiet (set_ext x2 (set_ext x1 w)) Hq)).
  unfold the_list. rewrite (st_bind_ok (st_lift (Ok bo)) _ _ _ _ eq_refl).
  rewrite (st_bind_ok _ _ _ _ _ (get_pending_quiet (set_ext x2 (set_ext x1 w)) Hq)).
  change (rows (set_ext x2 (set_ext x1 w))) with (rows w).
  by destruct (all_issues _ _ _ _) as [issues|e].
Qed.

Lemma settle_clean ps n w :
  settle [] ps n w =
  (let r := ReconciliationResult true [] None (clk_read (rw_clk w)).1 ps n 0 in
   (Ok r, set_last r (set_clock (clk_read (rw_clk w)).2 w))).
Proof.
  unfold settle, mbind, st_bind, st_get. cbn [auto_repair no_issues].
  unfold now_ist. destruct (rw_auto_repair w); simpl; by destruct (clk_read (rw_clk w)).
Qed.

(** A report of [settle] says "clean" only when there is no issue. *)
Lemma settle_report issues ps n : st_post (λ r, rr_is_clean r = no_issues issues) (settle issues ps n).
Proof.
  unfold settle. repeat (apply st_post_bind; intros). by apply st_post_ret.
Qed.

Lemma failed_report e : st_post (λ r, rr_is_clean r = false ∧ detect_ambiguity (rr_issues r) = true) (reconcile_failed e).
Proof. unfold reconcile_failed. repeat (apply st_post_bind; intros). by apply st_post_ret. Qed.

(** C18: With a broker that answers both questions and a database that
    answers, a reconciliation reports "clean" exactly when the two sides
    agree: the broker knows every pending order that carries a
    broker id, every open position belongs to the symbol of a recorded order,
    the filled quantities of the orders both know are equal, and every order
    the broker reports as done is on record.  A clean run leaves the table
    and the freeze as they were. *)
Theorem clean_iff_agrees (w w1 w2 : rworld) (bo ps : list pyrec) :
  fetch_broker_orders w = (Ok (Some bo), w1) → fetch_broker_positions w1 = (Ok ps, w2) → quiet w →
  let agreement := agrees bo ps (select_all (rows w)) (select_pending (rows w)) in
  (agreement ↔ ∃ r w', reconcile w = (Ok r, w') ∧ rr_is_clean r = true) ∧
  (agreement → rows (reconcile w).2 = rows w ∧ is_frozen (reconcile w).2 = (Ok (rw_frozen w, rw_reason w), (reconcile w).2)).
Proof.
  intros H1 H2 Hq agreement. pose proof (body_eq _ _ _ _ _ H1 H2 Hq) as Hbody.
  pose proof (fetch_orders_same w) as [x1 Hx1]. rewrite H1 in Hx1. simpl in Hx1. subst w1.
  pose proof (fetch_positions_same (set_ext x1 w)) as [x2 Hx2]. rewrite H2 in Hx2. simpl in Hx2. subst w2.
  assert (agreement → ∃ r, rr_is_clean r = true ∧ reconcile w =
    (Ok r, set_last r (set_clock (clk_read (rw_clk w)).2 (set_ext x2 (set_ext x1 w))))) as Hag.
  { intros Hag. apply all_issues_nil in Hag. rewrite Hag, settle_clean in Hbody.
    unfold reconcile, st_try. rewrite Hbody. eexists. split; [|reflexivity]. done. }
  split; [split|].
  - intros H. destruct (Hag H) as (r & Hr & ->). eauto.
  - intros (r & w' & Hrun & Hclean). apply all_issues_nil. revert Hrun.
    unfold reconcile, st_try. rewrite Hbody. destruct (all_issues _ _ _ _) as [issues|e].
    + destruct (settle issues _ _ _) as [[r'|e] w3] eqn:Es.
      * intros [= <- <-]. rewrite (settle_report _ _ _ _ _ _ Es) in Hclean. by destruct issues.
      * destruct (catches _ e); [|done]. intros [Hr _]%failed_report. congruence.
    + destruct (catches _ e); [|done]. intros [Hr _]%failed_report. congruence.
  - intros H. by destruct (Hag H) as (r & Hr & ->).
Qed.

(** ** The freeze holds *)

(** The public operations that write. *)
Inductive rop :=
| RRecord (order_id intent_id symbol direction : string) (quantity : Z) (status : string)
    (broker_order_id idempotency_key : option string)
| RFill (order_id : string) (filled_quantity : Z) (average_price : float64) (status : string)
| RReconcile
| RUnfreeze.

Definition run_rop (o : rop) : ST rworld unit :=
  match o with
  | RRecord oid iid sym dir q st bid ik => record_order oid iid sym dir q st bid ik
  | RFill oid q p st => update_order_fill oid q p st
  | RReconcile => reconcile ;; mret ()
  | RUnfreeze => unfreeze
  end.
Definition run_rops (os : list rop) (w : rworld) : rworld := foldl (λ w o, (run_rop o w).2) w os.
Definition is_unfreeze (o : rop) : bool := match o with RUnfreeze => true | _ => false end.

Definition keeps_frozen (w w' : rworld) : Prop := rw_frozen w = true → rw_frozen w' = true.
#[local] Instance keeps_frozen_preorder : PreOrder keeps_frozen.
Proof. split; [by intros ??|]. unfold keeps_frozen. intros ???. tauto. Qed.

Lemma on_db_keeps {A} (f : pydict orow → A * pydict orow) : st_rel keeps_frozen (on_db f).
Proof. intros w Hw. unfold on_db, st_zoom. by destruct (db_run f _). Qed.
Lemma on_ext_keeps {A} (m : ST X A) : st_rel keeps_frozen (on_ext m).
Proof. intros w Hw. unfold on_ext, st_zoom. by destruct (m _). Qed.
Lemma now_keeps : st_rel keeps_frozen now_ist.
Proof. intros w Hw. by rewrite now_ist_total. Qed.

Ltac keeps := rel_auto ltac:(first [ apply on_db_keeps | apply on_ext_keeps | apply now_keeps ]).

Lemma freeze_keeps r d : st_rel keeps_frozen (freeze_trading r d).
Proof. unfold freeze_trading. keeps. by intros w _. Qed.
Lemma update_fill_keeps oid q p st : st_rel keeps_frozen (update_order_fill oid q p st).
Proof. unfold update_order_fill. keeps. Qed.
Lemma repair_keeps l n : st_rel keeps_frozen (auto_repair l n).
Proof.
  revert n. induction l as [|i l IH]; intros n; cbn [auto_repair]; keeps; [|apply IH].
  unfold repair_one, mark_order_terminal, record_unrecorded_fill. keeps; apply update_fill_keeps.
Qed.
Lemma settlement_keeps l ps n : st_rel keeps_frozen (settle l ps n).
Proof.
  unfold settle, freeze_if_ambiguous. keeps; try apply repair_keeps; try apply freeze_keeps; by intros w.
Qed.
Lemma body_keeps : st_rel keeps_frozen reconcile_body.
Proof.
  unfold reconcile_body, fetch_broker_orders, fetch_broker_positions, get_all_orders, get_pending_orders.
  keeps; apply settlement_keeps.
Qed.
Lemma run_rop_keeps o : is_unfreeze o = false → st_rel keeps_frozen (run_rop o).
Proof.
  destruct o; intros Ho; try done; cbn [run_rop];
    [unfold record_order; keeps|apply update_fill_keeps|].
  unfold reconcile, reconcile_failed. keeps; [apply body_keeps|apply freeze_keeps].
Qed.

Lemma run_rops_keeps os w :
  forallb (λ o, negb (is_unfreeze o)) os = true → rw_frozen w = true → rw_frozen (run_rops os w) = true.
Proof.
  revert w. induction os as [|o os IH]; intros w; [done|].
  cbn [forallb]. intros [Ho%negb_true_iff Hos]%andb_true_iff Hw. apply IH; [done|].
  by apply (run_rop_keeps o).
Qed.

(** A run that returns has frozen trading when its report is ambiguous. *)
Lemma freeze_froze r d w w' o : freeze_trading r d w = (o, w') → rw_frozen w' = true.
Proof.
  unfold freeze_trading. rewrite (st_bind_ok _ _ w () (set_frozen true (Some r) w)) by done.
  intros H. destruct rp_freeze_callback as [cb|]; [|by injection H as _ <-].
  assert (st_rel keeps_frozen (st_try (on_ext (cb r d)) [ValueError; TypeError; AttributeError; DatabaseError]
    (λ _, mret ()))) as Hk by keeps.
  specialize (Hk (set_frozen true (Some r) w)). rewrite H in Hk. by apply Hk.
Qed.

Lemma settle_froze l ps n w r w' :
  settle l ps n w = (Ok r, w') → rr_issues r = l ∧ (l ≠ [] → detect_ambiguity l = true → rw_frozen w' = true).
Proof.
  unfold settle. rewrite (st_bind_ok st_get _ w w w) by done. unfold mbind, st_bind.
  destruct ((if rw_auto_repair w then auto_repair l 0 else mret 0) w) as [[k|e] w1]; [|done].
  destruct (freeze_if_ambiguous l w1) as [[[]|e] w2] eqn:Ef; [|done]. unfold st_get.
  rewrite now_ist_total. simpl. intros [= <- <-]. split; [done|]. intros Hl Ha. simpl.
  unfold freeze_if_ambiguous in Ef. rewrite Ha in Ef.
  destruct l; [done|]. simpl in Ef. by apply freeze_froze in Ef.
Qed.

Lemma body_settle w r w' :
  reconcile_body w = (Ok r, w') → ∃ l ps n w1, settle l ps n w1 = (Ok r, w').
Proof.
  unfold reconcile_body, mbind at 1 2 3 4 5 6, st_bind.
  intros H. repeat (case_match; simplify_eq); eauto.
Qed.

(** What makes a report one that cannot be trusted: a position nobody
    ordered, two different quantities, a failure of the service itself, or
    more than three issues of any kind. *)
Definition cannot_be_trusted (l : list issue) : Prop :=
  (∃ i, i ∈ l ∧ (is_type i = ORPHAN_POSITION ∨ is_type i = QUANTITY_MISMATCH ∨ is_type i = AMBIGUOUS)) ∨ (3 < length l)%nat.
Lemma ambiguous_iff l : cannot_be_trusted l ↔ detect_ambiguity l = true.
Proof.
  unfold cannot_be_trusted, detect_ambiguity. rewrite orb_true_iff, Nat.ltb_lt, existsb_exists. split.
  - intros [(i & Hi & Ht)|?]; [right|by left]. exists i. split; [by apply list_elem_of_In|]. by destruct Ht as [->|[->| ->]].
  - intros [?|(i & Hi & Ht)]; [by right|left]. exists i. split; [by apply list_elem_of_In|].
    destruct (is_type i); try done; auto.
Qed.

(** C17: Whenever a reconciliation returns a report with an orphan position,
    a quantity mismatch, an internal failure, or more than three issues,
    trading is frozen, whatever the callback did, and no sequence of recorded
    orders, fills and further reconciliations, clean ones included, lifts the
    freeze. *)
Theorem ambiguity_freezes (w w' : rworld) (r : recon_report) (os : list rop) :
  reconcile w = (Ok r, w') → cannot_be_trusted (rr_issues r) →
  forallb (λ o, negb (is_unfreeze o)) os = true →
  rw_frozen (run_rops os w') = true.
Proof.
  intros Hrun Ha%ambiguous_iff Hos. apply run_rops_keeps; [done|]. revert Hrun. unfold reconcile, st_try.
  destruct (reconcile_body w) as [[r'|e] w1] eqn:Eb.
  - intros [= -> ->]. apply body_settle in Eb as (l & ps & n & w2 & Es).
    apply settle_froze in Es as [Hl Hf]. apply Hf; [|congruence].
    intros ->. by rewrite Hl in Ha.
  - destruct (catches _ e); [|done]. unfold reconcile_failed. unfold mbind at 1, st_bind.
    destruct (freeze_trading _ _ w1) as [[u|e'] w2] eqn:Ef; [|done].
    apply freeze_froze in Ef. unfold mbind, st_bind. rewrite now_ist_total. by intros [= _ <-].
Qed.

(** ** An unreachable broker

    A failed fetch of the order book reads as an empty book. *)

Lemma mark_quiet oid st w :
  quiet w →
  mark_order_terminal oid st w =
  (Ok (), set_db (DBase (tbl_update oid (terminal_row st (clk_read (rw_clk w)).1) (rows w)) [])
            (set_clock (clk_read (rw_clk w)).2 w)).
Proof.
  intros H. unfold mark_order_terminal, mbind, st_bind. rewrite now_ist_total.
  rewrite on_db_quiet; [done|exact H].
Qed.

Lemma rows_set_db t fs w : rows (set_db (DBase t fs) w) = t.
Proof. done. Qed.

(** Only stale orders, each under its id. *)
Definition all_stale (l : list issue) : Prop :=
  ∀ i, i ∈ l → is_type i = STALE_ORDER ∧ is_Some (is_order_id i).

Definition marked (row row' : orow) : Prop := o_status row' = "UNKNOWN_STALE" ∧ o_broker_order_id row' = o_broker_order_id row.

Lemma repair_stale l n w :
  quiet w → all_stale l →
  ∃ w', auto_repair l n w = (Ok (n + Z.of_nat (length l)), w') ∧ quiet w' ∧ rw_frozen w' = rw_frozen w ∧
    (∀ k row, rows w !! k = Some row → ∃ row', rows w' !! k = Some row' ∧
       (Some k ∈ is_order_id <$> l → marked row row') ∧ (o_status row = "UNKNOWN_STALE" → marked row row')).
Proof.
  revert n w. induction l as [|i l IH]; intros n w Hq Hl.
  - exists w. rewrite Z.add_0_r. split_and!; try done. intros k row Hk. exists row. split_and!; try done.
    by intros ?%not_elem_of_nil.
  - destruct (Hl i) as [Ht [oid Hoid]]; [apply list_elem_of_here|].
    set (w1 := set_db (DBase (tbl_update oid (terminal_row "UNKNOWN_STALE" (clk_read (rw_clk w)).1) (rows w)) [])
                 (set_clock (clk_read (rw_clk w)).2 w)).
    destruct (IH (n + 1) w1) as (w' & Hrun & Hq' & Hf & Hk); [done| |].
    { intros j Hj. by apply Hl, list_elem_of_further. }
    exists w'. cbn [auto_repair]. rewrite (st_bind_ok _ _ w (n + 1) w1).
    2:{ unfold repair_one. rewrite Ht, Hoid. simpl. unfold st_try, mbind, st_bind. by rewrite mark_quiet. }
    rewrite Hrun. split_and!; [by replace (n + 1 + _) with (n + Z.of_nat (length (i :: l))) by (simpl; lia)|done|done|].
    intros k row Hrow. destruct (decide (k = oid)) as [->|Hne].
    + destruct (Hk oid (terminal_row "UNKNOWN_STALE" (clk_read (rw_clk w)).1 row)) as (row' & H1 & _ & H3).
      { unfold w1. by rewrite rows_set_db, tbl_lookup_update_eq, Hrow. }
      exists row'. split; [done|]. split; intros _; by destruct (H3 eq_refl).
    + destruct (Hk k row) as (row' & H1 & H2 & H3).
      { unfold w1. by rewrite rows_set_db, tbl_lookup_update_ne by congruence. }
      exists row'. split_and!; [done| |done]. cbn [fmap list_fmap]. rewrite Hoid.
      intros [[= ->]|Hin]%elem_of_cons; [done|by apply H2].
Qed.

Definition has_broker_id (row : orow) : Prop := ∃ bid, o_broker_order_id row = Some bid ∧ bid ≠ "".

Lemma stale_outage p :
  stale_issue [] p =
  if (match o_broker_order_id p.2 with Some b => truthy_str b | None => false end) then
    Some (ReconciliationIssue STALE_ORDER (Some p.1) (VStr (o_status p.2)) (IVal (VStr "NOT_FOUND"))
      (joined ["Order "; p.1; " (broker: "; default "" (o_broker_order_id p.2); ") not found in broker"]))
  else None.
Proof. unfold stale_issue. destruct (o_broker_order_id p.2) as [b|]; [|done]. by destruct (truthy_str b). Qed.

Lemma stale_outage_list (pending : list (string * orow)) :
  all_stale (omap (stale_issue []) pending) ∧
  existsb (λ i, ambiguous_type (is_type i)) (omap (stale_issue []) pending) = false ∧
  (∀ p, p ∈ pending → has_broker_id p.2 → Some p.1 ∈ is_order_id <$> omap (stale_issue []) pending).
Proof.
  induction pending as [|q l (IH1 & IH2 & IH3)].
  - split_and!; [by intros ? ?%not_elem_of_nil|done|by intros ? ?%not_elem_of_nil].
  - cbn [omap list_omap]. rewrite stale_outage.
    destruct (match o_broker_order_id q.2 with Some b => truthy_str b | None => false end) eqn:Hb.
    + split_and!; [|done|].
      * intros i [->|Hi]%elem_of_cons; [by split; [|eexists]|by apply IH1].
      * intros p [->|Hp]%elem_of_cons Hbid; cbn [fmap list_fmap is_order_id]; [apply list_elem_of_here|].
        by apply list_elem_of_further, IH3.
    + split_and!; [done|done|]. intros p [->|Hp]%elem_of_cons Hbid; [|by apply IH3].
      destruct Hbid as (b & Eb & Hne). rewrite Eb in Hb. apply truthy_str_spec in Hne. congruence.
Qed.

Lemma outage_issues internal pending :
  all_issues [] [] internal pending = Ok (detect_stale_orders pending []).
Proof. unfold all_issues, detect_quantity_mismatches. simpl. by rewrite app_nil_r. Qed.

(** A freeze and the report of a failure leave the table alone. *)
Definition same_rows w w' : Prop := rows w' = rows w.
#[local] Instance same_rows_preorder : PreOrder same_rows.
Proof. split; [done|]. intros w1 w2 w3 H1 H2. unfold same_rows in *. congruence. Qed.
Lemma freeze_rows reason details : st_rel same_rows (freeze_trading reason details).
Proof.
  unfold freeze_trading. apply st_rel_bind; [typeclasses eauto|by intros w|intros _].
  destruct rp_freeze_callback as [cb|]; [|by intros w].
  apply st_rel_try; [typeclasses eauto| |by intros e w].
  intros w. unfold on_ext, st_zoom. by destruct (cb _ _ _).
Qed.
Lemma reconcile_failed_rows e : st_rel same_rows (reconcile_failed e).
Proof.
  unfold reconcile_failed. rel_auto ltac:(first [apply freeze_rows | intros w; by rewrite now_ist_total]).
Qed.

(** The repair of stale orders and what follows it. *)
Lemma settle_stale l ps n w :
  quiet w → rw_auto_repair w = true → all_stale l →
  existsb (λ i, ambiguous_type (is_type i)) l = false →
  st_wp (settle l ps n) w (λ o w1,
    (∀ k row, rows w !! k = Some row → Some k ∈ is_order_id <$> l →
       ∃ row', rows w1 !! k = Some row' ∧ marked row row') ∧
    ((length l ≤ 3)%nat → rw_frozen w1 = rw_frozen w ∧ ∃ r, o = Ok r ∧ rr_repaired r = Z.of_nat (length l)) ∧
    ((3 < length l)%nat → rw_frozen w1 = true)).
Proof.
  intros Hq Hr Hl Hamb.
  destruct (repair_stale l 0 w Hq Hl) as (w1 & Hrun & _ & Hf & Hk).
  unfold settle. apply wp_bind, (wp_eq _ _ (Ok w) w); [done|]. cbn beta iota. rewrite Hr.
  apply wp_bind, (wp_eq _ _ _ _ _ Hrun). cbn beta iota zeta.
  assert (∀ w2 : rworld, rows w2 = rows w1 → ∀ k row, rows w !! k = Some row → Some k ∈ is_order_id <$> l →
       ∃ row', rows w2 !! k = Some row' ∧ marked row row') as Hmark.
  { intros w2 E k row Hrow Hin. destruct (Hk k row Hrow) as (row' & H1 & H2 & _). exists row'. rewrite E.
    split; [exact H1|by apply H2]. }
  apply wp_bind. unfold freeze_if_ambiguous, detect_ambiguity. rewrite Hamb, orb_false_r.
  destruct (Nat.ltb_spec 3 (length l)) as [Hlen|Hlen].
  - assert (no_issues l = false) as -> by (destruct l; [simpl in Hlen; lia|done]). cbn [negb andb].
    pose proof (freeze_rows (determine_freeze_reason l) (format_issues l) w1) as Hfr.
    unfold st_wp at 1. destruct (freeze_trading _ _ w1) as [r0 w2] eqn:Ef.
    pose proof (freeze_froze _ _ _ _ _ Ef) as Hfz.
    cbn [fst snd] in *. destruct r0 as [[]|e].
    + unfold st_wp, mbind, st_bind, st_get, st_modify. rewrite now_ist_total. cbn [fst snd].
      split_and!; [by apply Hmark|lia|done].
    + split_and!; [by apply Hmark|lia|done].
  - rewrite andb_false_r. unfold st_wp, mbind, st_bind, mret, st_ret, st_get, st_modify. rewrite now_ist_total.
    cbn [fst snd]. split_and!; [by apply Hmark| |lia]. intros _. split; [done|]. by eexists.
Qed.

(** The broker's order book reads as empty: it is, or it cannot be fetched.
    So do the positions. *)
Definition empty_book (w : rworld) (x1 : X) : Prop :=
  ∃ get, rp_get_order_book = Some get ∧
    (get (rw_ext w) = (Ok (BookList []), x1) ∨ ∃ e, get (rw_ext w) = (Raise e, x1) ∧ catches fetch_errors e = true).
Definition empty_positions (x1 x2 : X) : Prop :=
  ∃ get, rp_get_positions = Some get ∧
    ((∃ p, get x1 = (Ok p, x2) ∧ default [] p = []) ∨ ∃ e, get x1 = (Raise e, x2) ∧ catches fetch_errors e = true).

Lemma empty_book_read w x1 : empty_book w x1 → fetch_broker_orders w = (Ok (Some []), set_ext x1 w).
Proof.
  intros (get & Hget & H). unfold fetch_broker_orders. rewrite Hget. unfold st_try, mbind, st_bind, on_ext, st_zoom.
  destruct H as [H|(e & H & Hc)]; rewrite H; [done|by rewrite Hc].
Qed.
Lemma empty_positions_read w x1 x2 :
  empty_positions x1 x2 → fetch_broker_positions (set_ext x1 w) = (Ok [], set_ext x2 w).
Proof.
  intros (get & Hget & H). unfold fetch_broker_positions. rewrite Hget. unfold st_try, mbind, st_bind, on_ext, st_zoom.
  cbn [rw_ext set_ext]. destruct H as [(p & H & Hp)|(e & H & Hc)]; rewrite H; [|by rewrite Hc].
  unfold mret, st_ret. by rewrite Hp.
Qed.

(** The orders of the table that should be alive at the broker. *)
Definition at_broker (row : orow) : bool :=
  negb (str_mem (o_status row) terminal_status) &&
  match o_broker_order_id row with Some b => truthy_str b | None => false end.
Definition orders_at_broker (w : rworld) : nat := length (filter (λ p, at_broker p.2 = true) (items (rows w))).

Lemma stale_length (pending : list (string * orow)) :
  length (omap (stale_issue []) pending) =
  length (filter (λ p, match o_broker_order_id p.2 with Some b => truthy_str b | None => false end = true) pending).
Proof.
  induction pending as [|q l IH]; [done|]. cbn [omap list_omap]. rewrite stale_outage, filter_cons.
  destruct (match o_broker_order_id q.2 with Some b => truthy_str b | None => false end); cbn; by rewrite ?IH.
Qed.
Lemma pending_stale w : length (detect_stale_orders (select_pending (rows w)) []) = orders_at_broker w.
Proof.
  unfold detect_stale_orders. cbn [fmap list_fmap]. rewrite stale_length. unfold select_pending, orders_at_broker.
  rewrite order_by_perm, list_filter_filter. f_equal. apply list_filter_iff. intros [k row]. unfold at_broker. cbn.
  rewrite andb_true_iff, negb_true_iff. tauto.
Qed.

(** C29: When the broker's order book and positions read as empty, because
    they are or because the connection is down, the service takes the book at
    its word: with auto-repair and a database that answers, every open order
    with a broker id is rewritten to UNKNOWN_STALE in the table; up to three
    of them are counted as repairs and trading is not frozen, with more than
    three it is. *)
Theorem outage_marks_pending (w : rworld) (x1 x2 : X) :
  empty_book w x1 → empty_positions x1 x2 →
  quiet w → dict_wf (rows w) → rw_auto_repair w = true →
  let out := reconcile w in
  (∀ oid row, rows w !! oid = Some row → at_broker row = true →
     ∃ row', rows out.2 !! oid = Some row' ∧ o_status row' = "UNKNOWN_STALE") ∧
  ((orders_at_broker w ≤ 3)%nat →
     rw_frozen out.2 = rw_frozen w ∧ ∃ r, out.1 = Ok r ∧ rr_repaired r = Z.of_nat (orders_at_broker w)) ∧
  ((3 < orders_at_broker w)%nat → rw_frozen out.2 = true).
Proof.
  intros Hb Hp Hq Hwf Hr. apply empty_book_read in Hb. apply (empty_positions_read w) in Hp. cbv zeta.
  pose proof (body_eq _ _ _ _ _ Hb Hp Hq) as Hbody. rewrite outage_issues in Hbody.
  destruct (stale_outage_list (select_pending (rows w))) as (Hst & Hamb & Hin).
  pose proof (settle_stale (detect_stale_orders (select_pending (rows w)) []) (Z.of_nat (length (A:=pyrec) []))
    (Z.of_nat (length (select_all (rows w)))) (set_ext x2 w) Hq Hr Hst Hamb) as Hs.
  rewrite pending_stale in Hs. unfold st_wp in Hs.
  unfold reconcile, st_try. rewrite Hbody.
  assert (∀ oid row, rows w !! oid = Some row → at_broker row = true →
    Some oid ∈ is_order_id <$> detect_stale_orders (select_pending (rows w)) []) as Hlist.
  { intros oid row Hrow [Hopen Hbid]%andb_true_iff. apply (Hin (oid, row)).
    - unfold select_pending. rewrite order_by_perm.
      apply list_elem_of_filter. split; [by apply negb_true_iff in Hopen|]. by apply dict_items_lookup.
    - unfold has_broker_id. cbn. destruct (o_broker_order_id row) as [b|]; [|done]. exists b. split; [done|].
      by apply truthy_str_spec. }
  destruct (settle _ _ _ _) as [o w1]. destruct Hs as (Hk & Hfew & Hmany). cbn [fst snd] in *.
  assert (∀ oid row, rows w !! oid = Some row → at_broker row = true →
     ∃ row', rows w1 !! oid = Some row' ∧ o_status row' = "UNKNOWN_STALE") as Hmark.
  { intros oid row Hrow Hat. destruct (Hk oid row Hrow (Hlist oid row Hrow Hat)) as (row' & H1 & [H2 _]). eauto. }
  destruct o as [r|e]; [by split_and!|].
  destruct (catches reconcile_errors e); [|by split_and!].
  pose proof (reconcile_failed_rows e w1) as Hfr. unfold same_rows in Hfr.
  split_and!.
  - by rewrite Hfr.
  - intros H. by destruct (Hfew H) as [_ (? & ? & _)].
  - intros H. specialize (Hmany H). unfold reconcile_failed, mbind, st_bind.
    destruct (freeze_trading _ _ w1) as [[[]|e'] w2] eqn:Ef; apply freeze_froze in Ef.
    + by rewrite now_ist_total.
    + done.
Qed.
End service.
Arguments rworld X : clear implicits.

(** ** Concrete runs *)

(** An adapter that answers from a script and keeps the freezes reported. *)
Record scripted_recon := ScriptedRecon {
  sr_books : list (res book);
  sr_positions : list (res (option (list pyrec)));
  sr_freezes : list (TradingFreezeReason * string) }.

Definition scripted_book : ST scripted_recon book := λ x,
  let '(r, l) := next_answer (BookList []) (sr_books x) in
  (r, ScriptedRecon l (sr_positions x) (sr_freezes x)).

#[global] Instance scripted_recon_port : ReconPort scripted_recon := {|
  rp_get_order_book := Some scripted_book;
  rp_port_get_order_book := None;
  rp_get_positions := Some (λ x,
    let '(r, l) := next_answer None (sr_positions x) in
    (r, ScriptedRecon (sr_books x) l (sr_freezes x)));
  rp_port_get_positions := None;
  rp_freeze_callback := Some (λ r d x,
    (Ok (), ScriptedRecon (sr_books x) (sr_positions x) (sr_freezes x ++ [(r, d)])))
|}.

Definition demo_row : orow :=
  ORow "I1" "NIFTY" "CALL" 50 50 (f_of_Z 120) "FILLED" (Some "B1") 1000 1000 None false.
Definition demo_open : orow :=
  ORow "I2" "BANKNIFTY" "PUT" 25 0 f_zero "SUBMITTED" (Some "B2") 2000 2000 None false.
Definition rec (l : list (string * pyval)) : pyrec := PyDict l.

Definition demo_world (books : list (res book)) (positions : list (res (option (list pyrec)))) :
    rworld scripted_recon :=
  RWorld (Clock 5000 []) (DBase (PyDict [("O1", demo_row); ("O2", demo_open)]) []) true false None None
    (ScriptedRecon books positions []).

Definition done_order : pyrec :=
  rec [("orderid", VStr "B1"); ("filledshares", VStr "50"); ("orderstatus", VStr "complete")].
Definition open_order : pyrec := rec [("order_id", VStr "B2"); ("status", VStr "open")].
Definition orphan_position : pyrec := rec [("tradingsymbol", VStr "SBIN"); ("net_quantity", VInt 300)].

Lemma clean_iff_agrees_witness :
  let w := demo_world [Ok (BookList [done_order; open_order])] [Ok None] in
  ∃ r w', reconcile w = (Ok r, w') ∧ rr_is_clean r = true.
Proof.
  intros w.
  apply (clean_iff_agrees w (set_ext (ScriptedRecon [] [Ok None] []) w)
    (set_ext (ScriptedRecon [] [] []) w) [done_order; open_order] []); [reflexivity..|].
  apply all_issues_nil. vm_compute. reflexivity.
Defined.

Lemma ambiguity_freezes_witness :
  let w := demo_world [Ok (BookList [done_order; open_order])] [Ok (Some [orphan_position])] in
  rw_frozen (run_rops [RReconcile] (reconcile w).2) = true.
Proof.
  intros w. destruct (reconcile w) as [[r|e] w'] eqn:E.
  - apply (ambiguity_freezes w w' r [RReconcile] E); [|reflexivity].
    revert E. vm_compute. intros [= <- _]. left. eexists. split; [left|auto].
  - exfalso. revert E. vm_compute. discriminate.
Defined.

Lemma outage_marks_pending_witness :
  let w := demo_world [Raise (PyExn ConnectionError "broker down")] [] in
  rw_frozen (reconcile w).2 = false ∧ ∃ r, (reconcile w).1 = Ok r ∧ rr_repaired r = 1.
Proof.
  intros w.
  destruct (outage_marks_pending w (ScriptedRecon [] [] []) (ScriptedRecon [] [] [])) as (_ & H & _);
    [| |reflexivity|dict_wf_eval|reflexivity|].
  - exists scripted_book. split; [reflexivity|]. right. eexists. split; reflexivity.
  - eexists. split; [reflexivity|]. left. eexists. split; reflexivity.
  - apply H. by vm_compute; lia.
Defined.

(** A table that cannot be read is taken for an empty one: with an open order
    that the broker has never heard of, the report is clean. *)
Example unread_table_is_clean :
  let fault := Some (PyExn SqliteError "locked") in
  let w := RWorld (Clock 5000 []) (DBase (PyDict [("O2"%string, demo_open)]) [fault; fault]) true false None None
             (ScriptedRecon [Ok (BookList [])] [Ok None] []) in
  (∃ r, (reconcile w).1 = Ok r ∧ rr_is_clean r = true) ∧
  ¬ agrees [] [] (select_all (rows w)) (select_pending (rows w)).
Proof.
  split; [eexists; split; vm_compute; reflexivity|]. intros [Hk _ _ _].
  apply (not_elem_of_nil "B2"%string), (Hk ("O2"%string, demo_open)); [repeat constructor|done|done].
Qed.

(** A broker that sends a null filled quantity for a known order stops the
    comparison with a [TypeError] that is not among the classes [reconcile]
    catches: it escapes and trading is not frozen. *)
Lemma null_quantity_escapes :
  let w := demo_world [Ok (BookList [rec [("orderid", VStr "B1"); ("filledshares", VNone)]])] [] in
  (∃ e, (reconcile w).1 = Raise e ∧ exn_cls e = TypeError) ∧ rw_frozen (reconcile w).2 = false.
Proof. vm_compute. split; [by eexists|done]. Qed.

(** A fill the table does not know is counted as repaired although its update
    is keyed by the broker's id and matches no row. *)
Lemma unrecorded_fill_not_recorded :
  let w := demo_world [Ok (BookList [done_order; open_order;
    rec [("orderid", VStr "B9"); ("filledshares", VInt 75); ("orderstatus", VStr "COMPLETE")]])] [] in
  ∃ r, (reconcile w).1 = Ok r ∧ rr_repaired r = 1 ∧ rows (reconcile w).2 = rows w.
Proof. vm_compute. by eexists. Qed.
