(* ===== verification/CapitalManager.v ===== *)
(** * Equity-aware scaling and tier-based sizing

    [core/capital_manager.py]: the equity record of [CapitalManager], the
    factor it derives from growth, drawdown, losing streak and daily loss,
    and its gate; [core/tier_engine.py] and [core/position_sizer.py]: the
    tiers of a score and the lots they allow. *)
From S2P Require Import Prelude PyStr Float64 PyDict PyVal SafetyState.

(** A literal with [k] decimals. *)
Definition lit (n k : Z) : float64 := f_of_ratio n (10 ^ k).

(** ** [CapitalManager] *)

Definition GROWTH_CAP : float64 := lit 150 2.
Definition DD_SCALE_FLOOR : float64 := lit 30 2.
Definition CONSEC_LOSS_2 : float64 := lit 75 2.
Definition CONSEC_LOSS_3 : float64 := lit 50 2.
Definition CONSEC_LOSS_4P : float64 := lit 25 2.
Definition DAILY_WARN_PCT : float64 := lit 60 2.

Record capital_state := CapitalState {
  cs_initial : float64; cs_current : float64; cs_peak : float64; cs_locked : float64;
  cs_daily_pnl : float64; cs_daily_count : Z; cs_consecutive : Z; cs_trades : Z; cs_wins : Z }.

Record capital_manager := CapManager {
  cm_max_daily_loss : float64;
  cm_max_dd : float64;
  cm_warn_pct : float64;
  cm_dd_enabled : bool;
  cm_state : capital_state }.

Definition with_state (st : capital_state) (m : capital_manager) : capital_manager :=
  CapManager (cm_max_daily_loss m) (cm_max_dd m) (cm_warn_pct m) (cm_dd_enabled m) st.

(** [__init__] *)
Definition new_manager (initial max_daily_loss max_drawdown_pct warn_pct : float64) (dd_enabled : bool) :
    res capital_manager :=
  if fge max_daily_loss f_zero then Raise (PyExn ValueError "max_daily_loss must be negative")
  else Ok (CapManager max_daily_loss max_drawdown_pct warn_pct dd_enabled
             (CapitalState initial initial initial f_zero f_zero 0 0 0 0)).

Definition f_one : float64 := f_of_Z 1.

(** [_drawdown_pct_unlocked] *)
Definition drawdown (st : capital_state) : float64 :=
  if fgt (cs_peak st) f_zero
  then py_max f_zero ((cs_peak st - cs_current st) / cs_peak st)%f64
  else f_zero.

Record scale_result := ScaleResult {
  sc_factor : float64; sc_lots : Z; sc_growth : float64; sc_dd_factor : float64;
  sc_consec_factor : float64; sc_daily_factor : float64; sc_dd_pct : float64; sc_reasoning : string }.

Definition growth_factor (st : capital_state) : float64 :=
  py_round (py_min GROWTH_CAP (py_max (lit 10 2) (cs_current st / py_max (cs_initial st) f_one)%f64)) 3.
Definition dd_factor (m : capital_manager) : float64 :=
  let dd := drawdown (cm_state m) in
  if negb (cm_dd_enabled m) then f_one
  else if fge dd (cm_max_dd m) then f_zero
  else if fgt dd f_zero then py_round (py_max DD_SCALE_FLOOR (f_one - dd / cm_max_dd m)%f64) 3
  else f_one.
Definition consec_factor (cl : Z) : float64 :=
  if 4 <=? cl then CONSEC_LOSS_4P else if 3 <=? cl then CONSEC_LOSS_3
  else if 2 <=? cl then CONSEC_LOSS_2 else f_one.
Definition daily_factor (m : capital_manager) : float64 :=
  let pnl := cs_daily_pnl (cm_state m) in
  let warn := (cm_max_daily_loss m * cm_warn_pct m)%f64 in
  if fle pnl warn && flt warn f_zero
  then py_round (py_max (lit 25 2) (f_one - (pnl / cm_max_daily_loss m) * lit 50 2)%f64) 3
  else f_one.

(** [math.floor(x)] *)
Definition py_floor (x : float64) : res Z :=
  match f_fraction x with
  | Some (n, d) => Ok (n / d)
  | None => Raise (if is_nan x then PyExn ValueError "cannot convert float NaN to integer"
                   else PyExn OverflowError "cannot convert float infinity to integer")
  end.

Fixpoint join (sep : string) (l : list string) : string :=
  match l with
  | [] => ""
  | [x] => x
  | x :: l' => String.append x (String.append sep (join sep l'))
  end.
Definition cat (l : list string) : string := foldr String.append "" l.

Definition scale_parts (m : capital_manager) (growth ddf cf df : float64) : list string :=
  let st := cm_state m in
  [cat ["growth="; fmt_f 2 growth]] ++
  (if flt ddf f_one then [cat ["dd="; fmt_pct 1 (drawdown st); "→dd_factor="; fmt_f 2 ddf]] else []) ++
  (if flt cf f_one then [cat ["consec_losses="; str_of_Z (cs_consecutive st); "→factor="; fmt_f 2 cf]] else []) ++
  (if flt df f_one then [cat ["daily_pnl="; fmt_plus_f 0 (cs_daily_pnl st); "→factor="; fmt_f 2 df]] else []).

(** The lots a factor leaves: at least one while the factor is positive. *)
Definition scaled_lots (base_lots max_lots : Z) (factor : float64) : res Z :=
  match float_of_Z base_lots with
  | Ok b =>
      match py_floor (b * factor)%f64 with
      | Ok n => Ok (if fgt factor f_zero then Z.max 1 (Z.min n max_lots) else 0)
      | Raise e => Raise e
      end
  | Raise e => Raise e
  end.

Definition combined_factor (growth ddf cf df : float64) : float64 :=
  py_max f_zero (py_min f_one (py_round (growth * ddf * cf * df)%f64 3)).

(** [scale] *)
Definition scale (base_lots max_lots : Z) (m : capital_manager) : res scale_result :=
  let st := cm_state m in
  let growth := growth_factor st in
  let ddf := dd_factor m in
  let cf := consec_factor (cs_consecutive st) in
  let df := daily_factor m in
  let factor := combined_factor growth ddf cf df in
  match scaled_lots base_lots max_lots factor with
  | Ok lots =>
      Ok (ScaleResult factor lots growth ddf cf df (drawdown st)
            (cat [str_of_Z base_lots; " lots × scale="; fmt_f 2 factor; " [";
                  join ", " (scale_parts m growth ddf cf df); "] → "; str_of_Z lots; " lots"]))
  | Raise e => Raise e
  end.

(** [record_trade] *)
Definition record_trade (net_pnl : float64) (is_winner : bool) (m : capital_manager) : capital_manager :=
  let st := cm_state m in
  let current := (cs_current st + net_pnl)%f64 in
  with_state
    (CapitalState (cs_initial st) current (py_max (cs_peak st) current) (cs_locked st)
       (cs_daily_pnl st + net_pnl)%f64 (cs_daily_count st + 1)
       (if is_winner then 0 else cs_consecutive st + 1) (cs_trades st + 1)
       (if is_winner then cs_wins st + 1 else cs_wins st)) m.

(** [reset_daily] *)
Definition reset_daily (m : capital_manager) : capital_manager :=
  let st := cm_state m in
  with_state (CapitalState (cs_initial st) (cs_current st) (cs_peak st) (cs_locked st) f_zero 0
                (cs_consecutive st) (cs_trades st) (cs_wins st)) m.

(** [lock_profits]: the amount locked. *)
Definition lock_profits (lock_pct : float64) (m : capital_manager) : float64 * capital_manager :=
  let st := cm_state m in
  let profit := (cs_current st - cs_initial st)%f64 in
  if fle profit f_zero then (f_zero, m)
  else
    let amount := py_round (profit * lock_pct)%f64 2 in
    (amount,
     with_state (CapitalState (cs_initial st) (cs_current st - amount)%f64 (cs_peak st)
                   (cs_locked st + amount)%f64 (cs_daily_pnl st) (cs_daily_count st)
                   (cs_consecutive st) (cs_trades st) (cs_wins st)) m).

(** [decide_trade_allowed]: it may trip the hard halt. *)
Definition decide_trade_allowed (m : capital_manager) : ST safety (bool * string) :=
  let st := cm_state m in
  if fle (cs_daily_pnl st) (cm_max_daily_loss m) then
    mret (false, cat ["Daily loss limit hit: "; fmt_plus_f 2 (cs_daily_pnl st); " <= ";
                      fmt_plus_f 2 (cm_max_daily_loss m)])
  else
    let dd := drawdown st in
    if fge dd (cm_max_dd m) then
      let msg := cat ["Max drawdown breached: "; fmt_pct 1 dd; " >= "; fmt_pct 1 (cm_max_dd m)] in
      trip_hard_halt msg "CapitalManager.decide_trade_allowed" ;; mret (false, msg)
    else if 5 <=? cs_consecutive st then
      let msg := cat ["Circuit breaker: "; str_of_Z (cs_consecutive st); " consecutive losses"] in
      trip_hard_halt msg "CapitalManager.decide_trade_allowed" ;; mret (false, msg)
    else mret (true, "OK").

(** [get_state] *)
Record capital_report := CapitalReport {
  cr_initial : float64; cr_current : float64; cr_peak : float64; cr_locked : float64;
  cr_daily_pnl : float64; cr_drawdown_pct : float64; cr_consecutive : Z; cr_trades : Z;
  cr_win_rate : float64; cr_return_pct : float64 }.
Definition hundred : float64 := f_of_Z 100.
Definition get_state (m : capital_manager) : capital_report :=
  let st := cm_state m in
  CapitalReport (cs_initial st) (py_round (cs_current st) 2) (py_round (cs_peak st) 2)
    (py_round (cs_locked st) 2) (py_round (cs_daily_pnl st) 2) (py_round (drawdown st * hundred)%f64 2)
    (cs_consecutive st) (cs_trades st)
    (if cs_trades st =? 0 then f_zero
     else py_round (f_of_ratio (cs_wins st) (cs_trades st) * hundred)%f64 1)
    (py_round ((cs_current st - cs_initial st) / py_max (cs_initial st) f_one * hundred)%f64 2).

(** ** Tiers *)

Definition TIER_STRONG_MIN : Z := 80.
Definition TIER_MODERATE_MIN : Z := 70.
Definition TIER_WEAK_MIN : Z := 60.

(** [classify_tier] *)
Definition classify_tier (strong_min moderate_min weak_min score : Z) : string :=
  if strong_min <=? score then "STRONG"
  else if moderate_min <=? score then "MODERATE"
  else if weak_min <=? score then "WEAK"
  else "IGNORE".

(** [TierRules] and [TIER_RULES] *)
Record tier_rules := TierRules {
  tr_position_pct : float64; tr_sl_mult_adj : float64; tr_tp_mult_adj : float64;
  tr_trail_enabled : bool; tr_trail_activate_pct : float64; tr_trail_from_peak_pct : float64;
  tr_max_bars_mult : float64; tr_partial_exit_enabled : bool; tr_partial_exit_pct : float64 }.
Definition TIER_RULES : pydict tier_rules := PyDict
  [("STRONG", TierRules (lit 100 2) (lit 100 2) (lit 100 2) true (lit 30 2) (lit 20 2) (lit 100 2) false f_zero);
   ("MODERATE", TierRules (lit 60 2) (lit 90 2) (lit 85 2) true (lit 20 2) (lit 25 2) (lit 75 2) true (lit 50 2));
   ("WEAK", TierRules (lit 30 2) (lit 80 2) (lit 65 2) false (lit 100 2) (lit 50 2) (lit 50 2) true (lit 75 2));
   ("IGNORE", TierRules f_zero (lit 100 2) (lit 100 2) false (lit 100 2) (lit 100 2) f_zero false f_zero)].

(** [adaptive_threshold] *)
Definition REGIME_THRESHOLD_ADJ : pydict Z := PyDict
  [("TRENDING", -5); ("NEUTRAL", 0); ("SIDEWAYS", 5); ("CHOPPY", 10); ("HIGH_VOLATILITY", 8); ("EVENT", 15)].
Definition adaptive_threshold (base : Z) (regime : string) : Z :=
  base + default 0 (REGIME_THRESHOLD_ADJ !! regime).

(** ** [PositionSizer] *)

Definition REGIME_SIZE_ADJ : pydict float64 := PyDict
  [("TRENDING", lit 100 2); ("NEUTRAL", lit 90 2); ("SIDEWAYS", lit 75 2); ("CHOPPY", lit 50 2);
   ("HIGH_VOLATILITY", lit 65 2); ("EVENT", lit 30 2); ("SIM", lit 90 2)].
Definition TIER_RANGES : pydict (Z * Z) := PyDict
  [("STRONG", (TIER_STRONG_MIN, 100)); ("MODERATE", (TIER_MODERATE_MIN, TIER_STRONG_MIN - 1));
   ("WEAK", (TIER_WEAK_MIN, TIER_MODERATE_MIN - 1)); ("IGNORE", (0, TIER_WEAK_MIN - 1))].

Record position_spec := PositionSpec {
  ps_tier_base : float64; ps_regime_adj : float64; ps_score_adj : float64; ps_effective : float64;
  ps_lots : Z }.

(** The place of a score within its tier, in [0, 1]. *)
Definition tier_norm (score lo hi : Z) : float64 :=
  py_max f_zero (py_min f_one
    (if lo <? hi then f_of_ratio (score - lo) (hi - lo) else if hi <=? score then f_one else f_zero)).

(** [max_lots] of a small account. *)
Definition BASE_CAPITAL : float64 := f_of_Z 100000.
Definition capital_lots (max_lots : Z) (capital : float64) : res Z :=
  if flt capital BASE_CAPITAL && fgt capital f_zero then
    match int_of_float (f_of_Z max_lots * (capital / BASE_CAPITAL))%f64 with
    | Ok n => Ok (Z.max 1 n)
    | Raise e => Raise e
    end
  else Ok max_lots.

(** [PositionSizer.calculate], without the text of its reasoning. *)
Definition calculate (score : Z) (tier regime : string) (max_lots : Z) (capital : float64) : res position_spec :=
  match TIER_RULES !! tier with
  | None => Ok (PositionSpec f_zero f_zero f_zero f_zero 0)
  | Some rules =>
      if feqb (tr_position_pct rules) f_zero then Ok (PositionSpec f_zero f_zero f_zero f_zero 0)
      else
        let tier_base := tr_position_pct rules in
        let regime_adj := default (lit 90 2) (REGIME_SIZE_ADJ !! regime) in
        let '(lo, hi) := default (60, 100) (TIER_RANGES !! tier) in
        let score_adj := (lit 90 2 + tier_norm score lo hi * lit 20 2)%f64 in
        let effective :=
          py_max f_zero (py_min f_one (py_round (tier_base * regime_adj * score_adj)%f64 4)) in
        match capital_lots max_lots capital with
        | Ok max_lots =>
            match int_of_float (effective * f_of_Z (Z.max 1 max_lots))%f64 with
            | Ok n => Ok (PositionSpec tier_base regime_adj score_adj effective (Z.max 1 n))
            | Raise e => Raise e
            end
        | Raise e => Raise e
        end
  end.

(** ** The scale factor *)

Lemma fmul_zero x s : is_finite x = true → is_zero (fmul x (S754_zero s)) = true ∧ is_zero (fmul (S754_zero s) x) = true.
Proof. by destruct x. Qed.

Lemma is_zero_inv x : is_zero x = true → ∃ s, x = S754_zero s.
Proof. destruct x; try done. by eexists. Qed.

Lemma zero_times x y : is_zero x = true → is_finite y = true → is_zero (fmul x y) = true.
Proof. intros [s ->]%is_zero_inv Hy. by apply fmul_zero. Qed.
Lemma times_zero x y : is_finite x = true → is_zero y = true → is_zero (fmul x y) = true.
Proof. intros Hx [s ->]%is_zero_inv. by apply fmul_zero. Qed.

Lemma py_round_zero x k : 0 ≤ k → is_zero x = true → is_zero (py_round x k) = true.
Proof.
  intros Hk [s ->]%is_zero_inv. unfold py_round. cbn [is_finite f_is_neg].
  change (scaled_round k (S754_zero s)) with 0. unfold f_of_ratio.
  assert (0 < 10 ^ k) by (apply Z.pow_pos_nonneg; lia). destruct (10 ^ k); try lia. by destruct s.
Qed.

Lemma consec_factor_finite cl : is_finite (consec_factor cl) = true.
Proof. unfold consec_factor. by destruct (4 <=? cl), (3 <=? cl), (2 <=? cl). Qed.

(** The clamp to [[0, 1]] holds for every float, NaN included. *)
Lemma clamp_unit x :
  let y := py_max f_zero (py_min f_one x) in fle f_zero y = true ∧ fle y f_one = true.
Proof.
  unfold py_max, py_min, fgt. cbn zeta. destruct (flt x f_one) eqn:E1.
  - destruct (SFltb f_zero x) eqn:E2; [split; by apply flt_fle|by vm_compute].
  - by vm_compute.
Qed.

Lemma clamp_zero x : is_zero x = true → fgt (py_max f_zero (py_min f_one x)) f_zero = false.
Proof. intros [s ->]%is_zero_inv. by destruct s. Qed.

Lemma scaled_lots_spec base max factor lots :
  scaled_lots base max factor = Ok lots →
  0 ≤ lots ≤ Z.max 1 max ∧ (lots = 0 ↔ fgt factor f_zero = false).
Proof.
  unfold scaled_lots. destruct (float_of_Z base) as [b|]; [|done].
  destruct (py_floor _) as [n|]; [|done]. intros [= <-].
  destruct (fgt factor f_zero); split; try lia; split; (done || lia).
Qed.

(** The scale factor is in [0, 1] whatever the equity record holds, NaN
    included; the scaled lots are never negative and never above the maximum
    (or one); they are zero exactly when the factor is not positive; and at
    or beyond the drawdown limit they are zero. *)
Theorem scale_bounds (base_lots max_lots : Z) (m : capital_manager) (r : scale_result) :
  scale base_lots max_lots m = Ok r →
  fle f_zero (sc_factor r) = true ∧ fle (sc_factor r) f_one = true ∧
  0 ≤ sc_lots r ≤ Z.max 1 max_lots ∧
  (sc_lots r = 0 ↔ fgt (sc_factor r) f_zero = false) ∧
  (cm_dd_enabled m = true → fge (drawdown (cm_state m)) (cm_max_dd m) = true →
   is_finite (sc_growth r) = true → is_finite (sc_daily_factor r) = true → sc_lots r = 0).
Proof.
  unfold scale. destruct (scaled_lots _ _ _) as [lots|e] eqn:El; [|done]. intros [= <-]. simpl.
  destruct (scaled_lots_spec _ _ _ _ El) as [Hb Hz].
  destruct (clamp_unit (py_round (growth_factor (cm_state m) * dd_factor m *
    consec_factor (cs_consecutive (cm_state m)) * daily_factor m)%f64 3)) as [H0 H1].
  split_and!; [exact H0|exact H1|lia|lia|exact Hz|].
  intros Hen Hdd Hg Hd. apply Hz. unfold combined_factor. apply clamp_zero, py_round_zero; [done|].
  apply zero_times; [|done].
  apply zero_times; [|apply consec_factor_finite]. apply times_zero; [done|].
  unfold dd_factor. by rewrite Hen, Hdd.
Qed.

(** A base of no lots becomes one lot when the factor is positive. *)
Lemma no_lots_become_one max m r :
  scale 0 max m = Ok r → fgt (sc_factor r) f_zero = true → 1 ≤ sc_lots r.
Proof.
  unfold scale. destruct (scaled_lots _ _ _) as [lots|e] eqn:El; [|done]. intros [= <-]. simpl. intros Hf.
  destruct (scaled_lots_spec _ _ _ _ El) as [Hb Hz]. destruct (decide (lots = 0)) as [H|H]; [|lia].
  apply Hz in H. congruence.
Qed.

(** ** Histories of the equity record *)

Inductive cap_op := CTrade (net_pnl : float64) (is_winner : bool) | CResetDaily | CLock (lock_pct : float64).

Definition run_cap (o : cap_op) (m : capital_manager) : capital_manager :=
  match o with
  | CTrade p w => record_trade p w m
  | CResetDaily => reset_daily m
  | CLock pct => (lock_profits pct m).2
  end.

(** The counters fit together. *)
Record equity_ok (st : capital_state) : Prop := {
  eq_wins : 0 ≤ cs_wins st ≤ cs_trades st;
  eq_streak : 0 ≤ cs_consecutive st ≤ cs_trades st - cs_wins st;
  eq_daily : 0 ≤ cs_daily_count st ≤ cs_trades st }.

(** The peak is no lower than the equity (a NaN is not lower). *)
Definition peak_ok (st : capital_state) : Prop := flt (cs_peak st) (cs_current st) = false.

Lemma run_cap_equity o m : equity_ok (cm_state m) → equity_ok (cm_state (run_cap o m)).
Proof.
  intros [H1 H2 H3]. destruct o as [p [] | |pct]; cbn [run_cap].
  1-3: by split; simpl; lia.
  unfold lock_profits. by destruct (fle _ _).
Qed.

Lemma run_cap_peak o m :
  match o with CLock _ => False | _ => True end → peak_ok (cm_state m) → peak_ok (cm_state (run_cap o m)).
Proof.
  unfold peak_ok. destruct o as [p w| |pct]; intros Ho Hm; cbn [run_cap record_trade reset_daily];
    [|exact Hm|done].
  simpl. unfold py_max, fgt. destruct (SFltb _ _) eqn:E; [apply flt_irrefl|exact E].
Qed.

Definition is_lock (o : cap_op) : bool := match o with CLock _ => true | _ => false end.

(** Over any history of trades, daily resets and profit locks the
    counters of the equity record fit together: wins, streak and the day's
    trades never exceed the trades, and streak and wins together do not
    either.  Over a history without a profit lock the peak never falls below
    the equity, so the drawdown is measured from the highest equity. *)
Theorem equity_invariant (os : list cap_op) (initial max_daily_loss dd warn : float64) (en : bool)
    (m : capital_manager) :
  new_manager initial max_daily_loss dd warn en = Ok m →
  equity_ok (cm_state (foldl (λ m o, run_cap o m) m os)) ∧
  (forallb (λ o, negb (is_lock o)) os = true → peak_ok (cm_state (foldl (λ m o, run_cap o m) m os))).
Proof.
  unfold new_manager. destruct (fge _ _); [done|]. intros [= <-]. split.
  - apply (foldl_inv (λ m, equity_ok (cm_state m))); [by split; simpl; lia|].
    intros m o _. apply run_cap_equity.
  - intros Hos. apply (foldl_inv (λ m, peak_ok (cm_state m))); [apply flt_irrefl|].
    intros m o Ho. apply run_cap_peak. rewrite forallb_forall in Hos.
    specialize (Hos o (proj1 (list_elem_of_In _ _) Ho)). by destruct o.
Qed.

(** What the gate allows. *)
Lemma decide_allowed_iff m s :
  (∃ msg, (decide_trade_allowed m s).1 = Ok (true, msg)) ↔
  fle (cs_daily_pnl (cm_state m)) (cm_max_daily_loss m) = false ∧
  fge (drawdown (cm_state m)) (cm_max_dd m) = false ∧ cs_consecutive (cm_state m) < 5.
Proof.
  unfold decide_trade_allowed. destruct (fle _ _); [split; [by intros [? [=]]|by intros []]|].
  destruct (fge _ _).
  { unfold mbind, st_bind. rewrite trip_eq. split; [by intros [? [=]]|by intros (_ & [=] & _)]. }
  destruct (Z.leb_spec 5 (cs_consecutive (cm_state m))).
  { unfold mbind, st_bind. rewrite trip_eq. split; [by intros [? [=]]|lia]. }
  split; [intros _; split_and!; (done || lia)|]. intros _. by eexists.
Qed.

(** ** Concrete runs *)

Definition demo_cap (current peak daily : Z) (streak : Z) : capital_manager :=
  CapManager (f_of_Z (-2000)) (lit 20 2) (lit 60 2) true
    (CapitalState (f_of_Z 100000) (f_of_Z current) (f_of_Z peak) f_zero (f_of_Z daily) 0 streak streak 0).

Lemma scale_bounds_witness :
  ∃ r, scale 10 10 (demo_cap 79000 100000 0 0) = Ok r ∧ sc_lots r = 0.
Proof.
  destruct (scale 10 10 (demo_cap 79000 100000 0 0)) as [r|e] eqn:E.
  - exists r. split; [reflexivity|].
    destruct (scale_bounds 10 10 (demo_cap 79000 100000 0 0) r E) as (_ & _ & _ & _ & H).
    apply H; [reflexivity|vm_compute; reflexivity| |];
      revert E; vm_compute; intros [= <-]; reflexivity.
  - exfalso. revert E. vm_compute. discriminate.
Defined.

Lemma equity_invariant_witness :
  ∃ m, new_manager (f_of_Z 100000) (f_of_Z (-2000)) (lit 20 2) (lit 60 2) true = Ok m ∧
       peak_ok (cm_state (foldl (λ m o, run_cap o m) m [CTrade (f_of_Z 500) true; CTrade (f_of_Z (-700)) false])).
Proof.
  destruct (new_manager (f_of_Z 100000) (f_of_Z (-2000)) (lit 20 2) (lit 60 2) true) as [m|e] eqn:E.
  - exists m. split; [reflexivity|].
    by apply (equity_invariant [CTrade (f_of_Z 500) true; CTrade (f_of_Z (-700)) false] _ _ _ _ _ m E).
  - exfalso. revert E. vm_compute. discriminate.
Defined.

(** The scaling of a run that sizing had already reduced to no lots orders
    one. *)
Lemma zero_base_orders_one : sc_lots <$> (match scale 0 0 (demo_cap 100000 100000 0 0) with Ok r => Some r | _ => None end) = Some 1.
Proof. vm_compute. reflexivity. Qed.

(** Locking profits lowers the equity and not the peak: taking half of a
    doubled account out reads as a drawdown of a quarter and trips the hard
    halt. *)
Lemma profit_lock_halts s :
  sf_halt s = false →
  let m := (lock_profits (lit 50 2) (demo_cap 200000 200000 0 0)).2 in
  ∃ msg, (decide_trade_allowed m s).1 = Ok (false, msg) ∧ sf_halt (decide_trade_allowed m s).2 = true.
Proof.
  intros Hs m. unfold decide_trade_allowed.
  change (fle (cs_daily_pnl (cm_state m)) (cm_max_daily_loss m)) with false.
  assert (fge (drawdown (cm_state m)) (cm_max_dd m) = true) as -> by (vm_compute; reflexivity).
  unfold mbind, st_bind. rewrite trip_eq, Hs. by eexists.
Qed.

(** ** Tier sizing *)

Definition lots_of (r : res position_spec) : Z := match r with Ok s => ps_lots s | Raise _ => -1 end.
Definition tier_of (score : Z) : string := classify_tier TIER_STRONG_MIN TIER_MODERATE_MIN TIER_WEAK_MIN score.

(** The regime enters through its multiplier only. *)
Definition regimes : list string := "OTHER" :: dkeys REGIME_SIZE_ADJ.
Lemma regime_cases regime :
  ∃ r, r ∈ regimes ∧ ∀ score tier max_lots capital,
    calculate score tier regime max_lots capital = calculate score tier r max_lots capital.
Proof.
  destruct (REGIME_SIZE_ADJ !! regime) as [v|] eqn:E.
  - exists regime. split; [|done]. apply list_elem_of_further.
    apply assoc_get_in in E. by apply (list_elem_of_fmap_2 fst _ (regime, v)).
  - exists "OTHER". split; [apply list_elem_of_here|]. intros. unfold calculate. rewrite E. reflexivity.
Qed.

Definition sized (regime : string) (max_lots score : Z) : Z :=
  lots_of (calculate score (tier_of score) regime max_lots BASE_CAPITAL).

Fixpoint nondecreasing (l : list Z) : bool :=
  match l with
  | x :: ((y :: _) as l') => (x <=? y) && nondecreasing l'
  | _ => true
  end.
Definition sizing_row (regime : string) (max_lots : Z) : bool :=
  let l := sized regime max_lots <$> seqZ 60 41 in
  forallb (λ n, (1 <=? n) && (n <=? max_lots)) l && nondecreasing l.

Lemma sizing_table : forallb (λ r, forallb (sizing_row r) (seqZ 1 3)) regimes = true.
Proof. vm_compute. reflexivity. Qed.

Lemma forallb_in {A} (f : A → bool) l x : forallb f l = true → x ∈ l → f x = true.
Proof. rewrite forallb_forall. intros H Hx. apply H. by apply list_elem_of_In. Qed.

Lemma nondecreasing_lookup l (i : nat) x y :
  nondecreasing l = true → l !! i = Some x → l !! S i = Some y → x ≤ y.
Proof.
  revert i. induction l as [|a [|b l] IH]; intros i; [done|by destruct i|].
  cbn [nondecreasing]. intros [H1%Z.leb_le H2]%andb_true_iff. destruct i as [|i]; simpl.
  - intros [= <-] [= <-]. done.
  - intros Hx Hy. by apply (IH i).
Qed.

Lemma sizing_row_spec r max_lots score :
  sizing_row r max_lots = true → 60 ≤ score < 100 →
  1 ≤ sized r max_lots score ≤ max_lots ∧ sized r max_lots score ≤ sized r max_lots (score + 1).
Proof.
  unfold sizing_row. generalize (sized r max_lots). intros f [Hb Hn]%andb_true_iff Hs.
  assert (∀ s (i : nat), s = 60 + Z.of_nat i → (i < 41)%nat → (f <$> seqZ 60 41) !! i = Some (f s)) as Hl.
  { intros s i -> Hi. rewrite list_lookup_fmap, (lookup_seqZ_lt 60 41 i) by lia. done. }
  split.
  - assert ((1 <=? f score) && (f score <=? max_lots) = true); [|bools; lia].
    apply (forallb_in (λ n, (1 <=? n) && (n <=? max_lots)) _ (f score) Hb).
    apply (list_elem_of_fmap_2 f), elem_of_seqZ. lia.
  - apply (nondecreasing_lookup _ (Z.to_nat (score - 60)) _ _ Hn); apply Hl; lia.
Qed.

(** For an account of the base capital, a tradeable score gets at least
    one lot and at most the maximum, in every regime, known or not, and a
    higher score never gets fewer lots, also across the bounds of the tiers. *)
Theorem tier_sizing_monotone (score max_lots : Z) (regime : string) :
  60 ≤ score < 100 → 1 ≤ max_lots ≤ 3 →
  1 ≤ sized regime max_lots score ≤ max_lots ∧ sized regime max_lots score ≤ sized regime max_lots (score + 1).
Proof.
  intros Hs Hm. destruct (regime_cases regime) as (r & Hr & Heq). 
  unfold sized. rewrite !Heq. apply sizing_row_spec; [|done].
  apply (forallb_in (sizing_row r) (seqZ 1 3)); [|apply elem_of_seqZ; lia].
  exact (forallb_in (λ r, forallb (sizing_row r) (seqZ 1 3)) regimes r sizing_table Hr).
Qed.

Lemma tier_sizing_monotone_witness :
  1 ≤ sized "CHOPPY" 3 79 ≤ 3.
Proof. apply (tier_sizing_monotone 79 3 "CHOPPY"); lia. Defined.
