(* ===== verification/BrokerFailover.v ===== *)
(** * The broker failover manager

    [BrokerFailoverManager] of [core/broker_failover.py]: failures are
    counted per broker, the active one is left for the next of the chain when
    it reaches the threshold, and after a while the first is tried again. *)
From S2P Require Import Prelude PyStr Float64 PyDict PyVal CapitalManager.

(** ** Data *)

(** [_BrokerState]; [is_active] is read nowhere. *)
Record broker_count := BrokerCount { bc_failures : Z; bc_last : float64 }.
Record failover_config := FailoverConfig { fc_enabled : bool; fc_threshold : Z; fc_chain : list string; fc_recovery : float64 }.
Definition default_failover : failover_config := FailoverConfig false 3 ["kite"; "angel"]%string (f_of_Z 15).

Record failover := Failover {
  fo_clk : clock; fo_cfg : failover_config; fo_states : pydict broker_count; fo_active : nat; fo_since : float64 }.
#[global] Instance failover_clock : HasClock failover :=
  {| clock_of := fo_clk; set_clock := λ k f, Failover k (fo_cfg f) (fo_states f) (fo_active f) (fo_since f) |}.
Definition set_states (d : pydict broker_count) (f : failover) : failover :=
  Failover (fo_clk f) (fo_cfg f) d (fo_active f) (fo_since f).
Definition set_active (i : nat) (since : float64) (f : failover) : failover :=
  Failover (fo_clk f) (fo_cfg f) (fo_states f) i since.
Definition FM (A : Type) : Type := ST failover A.

Definition no_failures : broker_count := BrokerCount 0 f_zero.
(** [__init__] *)
Definition new_failover (k : clock) (c : failover_config) : failover :=
  Failover k c (foldl (λ d b, <[b := no_failures]> d) ∅ (fc_chain c)) 0 f_zero.

(** ** Operations *)

(** The broker at the active place of the chain. *)
Definition at_active (f : failover) : option string := fc_chain (fo_cfg f) !! fo_active f.
(** [get_active_broker] *)
Definition get_active_broker (f : failover) : string :=
  match at_active f with Some b => b | None => default "kite"%string (head (fc_chain (fo_cfg f))) end.
Definition count_of (b : string) (f : failover) : Z := bc_failures (default no_failures (fo_states f !! b)).
Definition with_count (b : string) (n : Z) (f : failover) : failover :=
  set_states (<[b := BrokerCount n (bc_last (default no_failures (fo_states f !! b)))]> (fo_states f)) f.

(** [record_success] *)
Definition record_success (b : string) : FM unit :=
  st_modify (λ f, if dmem b (fo_states f) then with_count b 0 f else f).

(** The next place of the chain; a chain of no brokers has none. *)
Definition next_place (f : failover) : res nat :=
  match fc_chain (fo_cfg f) with
  | [] => Raise (PyExn ZeroDivisionError "integer modulo by zero")
  | l => Ok (S (fo_active f) `mod` length l)%nat
  end.
(** [record_failure]; [true] when it switched to the next broker. *)
Definition record_failure (b : string) : FM bool :=
  f ← st_get;
  if negb (fc_enabled (fo_cfg f)) then mret false
  else
    let n := count_of b f + 1 in
    t ← time_time;
    st_modify (λ f, set_states (<[b := BrokerCount n t]> (fo_states f)) f) ;;
    if negb (String.eqb b (default ""%string (at_active f))) then mret false
    else if n <? fc_threshold (fo_cfg f) then mret false
    else
      next ← st_lift (next_place f);
      if Nat.eqb next (fo_active f) then mret false
      else
        st_modify (λ f, set_states (<[b := BrokerCount 0 t]> (fo_states f)) f) ;;
        since ← time_time;
        st_modify (set_active next since) ;;
        mret true.

(** [maybe_recover]; [true] when it went back to the first broker. *)
Definition maybe_recover : FM bool :=
  f ← st_get;
  if negb (fc_enabled (fo_cfg f)) || Nat.eqb (fo_active f) 0 then mret false
  else
    t ← time_time;
    if fge ((t - fo_since f) / f_of_Z 60)%f64 (fc_recovery (fo_cfg f)) then st_modify (set_active 0 f_zero) ;; mret true
    else mret false.

(** [reset] *)
Definition clear_counts (d : pydict broker_count) : pydict broker_count :=
  foldl (λ d b, <[b := no_failures]> d) d (dkeys d).
Definition reset : FM unit := st_modify (λ f, set_active 0 f_zero (set_states (clear_counts (fo_states f)) f)).

(** [status] *)
Definition status (f : failover) : res (bool * string * nat * list (string * (Z * float64))) :=
  let rows := (λ p, (p.1, (bc_failures p.2, bc_last p.2))) <$> items (fo_states f) in
  match fc_chain (fo_cfg f), at_active f with
  | [], _ => Ok (fc_enabled (fo_cfg f), "none"%string, fo_active f, rows)
  | _, Some b => Ok (fc_enabled (fo_cfg f), b, fo_active f, rows)
  | _, None => Raise (PyExn IndexError "list index out of range")
  end.

(** ** Histories *)

Inductive failover_op := Succeeded (b : string) | Failed (b : string) | Recover | ResetAll.
Definition run_op (o : failover_op) : FM bool :=
  match o with
  | Succeeded b => record_success b ;; mret false
  | Failed b => record_failure b
  | Recover => maybe_recover
  | ResetAll => reset ;; mret false
  end.
Definition run_ops (os : list failover_op) (f : failover) : failover := foldl (λ f o, (run_op o f).2) f os.

(** The failures of [b] since it last succeeded, from the end of a history. *)
Definition streak_step (b : string) (n : Z) (o : failover_op) : Z :=
  match o with
  | Failed b' => if String.eqb b' b then n + 1 else n
  | Succeeded b' => if String.eqb b' b then 0 else n
  | ResetAll => 0
  | Recover => n
  end.
Definition streak (b : string) (os : list failover_op) : Z := foldl (streak_step b) 0 os.

(** What never changes, and that no broker counts more than its streak. *)
Record sound (c : failover_config) (os : list failover_op) (f : failover) : Prop := {
  so_cfg : fo_cfg f = c;
  so_place : fc_chain c ≠ [] → (fo_active f < length (fc_chain c))%nat;
  so_known : ∀ b, b ∈ fc_chain c → is_Some (fo_states f !! b);
  so_counts : ∀ b, 0 ≤ count_of b f ≤ streak b os }.

Lemma fold_none d bs b :
  (foldl (λ d b, <[b := no_failures]> d) d bs : pydict broker_count) !! b = if bool_decide (b ∈ bs) then Some no_failures else d !! b.
Proof.
  revert d. induction bs as [|x bs IH]; intros d; [done|]. cbn [foldl]. rewrite IH.
  destruct (decide (b = x)) as [->|Hne].
  - rewrite (bool_decide_eq_true_2 (x ∈ x :: bs)) by apply list_elem_of_here. rewrite dict_lookup_insert_eq. by case_bool_decide.
  - rewrite dict_lookup_insert_ne by done. repeat case_bool_decide; try done; exfalso; rewrite ?elem_of_cons in *; tauto.
Qed.
Lemma clear_lookup d b : clear_counts d !! b = (λ _, no_failures) <$> d !! b.
Proof.
  unfold clear_counts. rewrite fold_none. destruct (d !! b) as [v|] eqn:E; cbn.
  - rewrite bool_decide_eq_true_2; [done|]. apply dec_stable. intros H. apply assoc_get_none in H.
    unfold lookup, pydict_lookup in E. congruence.
  - rewrite bool_decide_eq_false_2; [done|]. by apply assoc_get_none.
Qed.

(** The counting half of a failure. *)
Definition counted (b : string) (f : failover) : failover :=
  let t := epoch_seconds (clk_read (clock_of f)).1 in
  let f := set_clock (clk_read (clock_of f)).2 f in
  set_states (<[b := BrokerCount (count_of b f + 1) t]> (fo_states f)) f.
(** The switch that may follow it. *)
Definition switched (b : string) (next : nat) (f : failover) : failover :=
  let f := counted b f in
  let f := with_count b 0 f in
  set_active next (epoch_seconds (clk_read (clock_of f)).1) (set_clock (clk_read (clock_of f)).2 f).

Lemma record_failure_eq b f : record_failure b f =
  if negb (fc_enabled (fo_cfg f)) then (Ok false, f)
  else if negb (String.eqb b (default ""%string (at_active f))) then (Ok false, counted b f)
  else if count_of b f + 1 <? fc_threshold (fo_cfg f) then (Ok false, counted b f)
  else match next_place f with
       | Raise e => (Raise e, counted b f)
       | Ok next => if Nat.eqb next (fo_active f) then (Ok false, counted b f) else (Ok true, switched b next f)
       end.
Proof.
  unfold record_failure. rewrite (st_bind_ok st_get _ f f f) by done. destruct (fc_enabled (fo_cfg f)); [|done]. cbv beta iota zeta delta [negb].
  rewrite (st_bind_ok _ _ _ _ _ (time_time_total f)). rewrite (st_bind_ok _ _ _ () (counted b f)) by done.
  destruct (String.eqb b _); [|done]. destruct (_ <? _); [done|].
  unfold next_place. destruct (fc_chain (fo_cfg f)) as [|x l] eqn:El; [done|].
  rewrite (st_bind_ok _ _ (counted b f) (S (fo_active f) `mod` length (x :: l))%nat (counted b f)) by done.
  destruct (Nat.eqb _ _); [done|].
  assert (st_modify (λ f0, set_states (<[b := BrokerCount 0 (epoch_seconds (clk_read (clock_of f)).1)]> (fo_states f0)) f0) (counted b f) =
    (Ok (), with_count b 0 (counted b f))) as E.
  { unfold st_modify, with_count, counted. cbn [fo_states set_states]. by rewrite dict_lookup_insert_eq. }
  rewrite (st_bind_ok _ _ _ _ _ E). rewrite (st_bind_ok _ _ _ _ _ (time_time_total _)). done.
Qed.

Lemma count_set b b' n f : count_of b' (with_count b n f) = if String.eqb b b' then n else count_of b' f.
Proof.
  unfold count_of, with_count. cbn [fo_states set_states]. destruct (String.eqb_spec b b') as [->|Hne].
  - by rewrite dict_lookup_insert_eq.
  - by rewrite dict_lookup_insert_ne.
Qed.
Lemma count_counted b b' f : count_of b' (counted b f) = if String.eqb b b' then count_of b f + 1 else count_of b' f.
Proof.
  unfold count_of at 1, counted. cbn [fo_states set_states]. destruct (String.eqb_spec b b') as [->|Hne].
  - by rewrite dict_lookup_insert_eq.
  - by rewrite dict_lookup_insert_ne.
Qed.
Lemma count_switched b b' next f : count_of b' (switched b next f) = if String.eqb b b' then 0 else count_of b' f.
Proof.
  unfold switched. cbv zeta. change (count_of b' (set_active _ _ (set_clock _ ?g))) with (count_of b' g).
  rewrite count_set, count_counted. by destruct (String.eqb b b').
Qed.
Lemma insert_known (b b' : string) (v : broker_count) (d : pydict broker_count) : is_Some (d !! b') → is_Some (<[b := v]> d !! b').
Proof. destruct (decide (b = b')) as [->|Hne]; [by rewrite dict_lookup_insert_eq|by rewrite dict_lookup_insert_ne]. Qed.
Lemma next_place_ok f n : next_place f = Ok n → (n < length (fc_chain (fo_cfg f)))%nat.
Proof.
  unfold next_place. destruct (fc_chain _) as [|x l] eqn:E; [done|]. intros H.
  assert (n = S (fo_active f) `mod` length (x :: l))%nat as -> by congruence. apply Nat.mod_upper_bound. done.
Qed.
Lemma streak_snoc b os o : streak b (os ++ [o]) = streak_step b (streak b os) o.
Proof. unfold streak. by rewrite foldl_app. Qed.

Lemma counted_sound c os b f : sound c os f → sound c (os ++ [Failed b]) (counted b f).
Proof.
  intros [H1 H2 H3 H4]. constructor; [done|done| |].
  - intros b' Hb. apply insert_known. auto.
  - intros b'. rewrite count_counted, streak_snoc. cbn [streak_step]. specialize (H4 b'). destruct (String.eqb_spec b b') as [->|]; lia.
Qed.
Lemma switched_sound c os b next f :
  sound c os f → next_place f = Ok next → sound c (os ++ [Failed b]) (switched b next f).
Proof.
  intros [H1 H2 H3 H4] Hn. apply next_place_ok in Hn. rewrite H1 in Hn. constructor; [done|done| |].
  - intros b' Hb. cbn. apply insert_known, insert_known. auto.
  - intros b'. rewrite count_switched, streak_snoc. cbn [streak_step]. specialize (H4 b'). destruct (String.eqb b b'); lia.
Qed.
Lemma disabled_sound c os b f : sound c os f → sound c (os ++ [Failed b]) f.
Proof.
  intros [H1 H2 H3 H4]. constructor; [done..|]. intros b'. rewrite streak_snoc. specialize (H4 b'). cbn. destruct (String.eqb b b'); lia.
Qed.
Lemma success_sound c os b f : sound c os f → sound c (os ++ [Succeeded b]) (run_op (Succeeded b) f).2.
Proof.
  change (run_op (Succeeded b) f).2 with (if dmem b (fo_states f) then with_count b 0 f else f).
  intros [H1 H2 H3 H4]. destruct (dmem b (fo_states f)) eqn:E.
  - constructor; [done|done| |].
    + intros b' Hb. apply insert_known. auto.
    + intros b'. rewrite count_set, streak_snoc. cbn [streak_step]. specialize (H4 b'). destruct (String.eqb b b'); lia.
  - constructor; [done..|]. intros b'. rewrite streak_snoc. cbn [streak_step]. specialize (H4 b').
    destruct (String.eqb_spec b b') as [->|]; [|lia]. apply dmem_false in E. unfold count_of. rewrite E. cbn. lia.
Qed.
Lemma recover_sound c os f : sound c os f → sound c (os ++ [Recover]) (run_op Recover f).2.
Proof.
  intros [H1 H2 H3 H4]. cbn [run_op]. unfold maybe_recover. rewrite (st_bind_ok st_get _ f f f) by done.
  assert (∀ b, 0 ≤ count_of b f ≤ streak b (os ++ [Recover])) as H5 by (intros b; rewrite streak_snoc; apply H4).
  destruct (_ || _); [by constructor|]. rewrite (st_bind_ok _ _ _ _ _ (time_time_total f)).
  destruct (fge _ _); [|by constructor]. constructor; [exact H1| |exact H3|exact H5].
  intros Hc. change (0 < length (fc_chain c))%nat. destruct (fc_chain c); [done|]. cbn [length]. lia.
Qed.
Lemma reset_sound c os f : sound c os f → sound c (os ++ [ResetAll]) (run_op ResetAll f).2.
Proof.
  intros [H1 H2 H3 H4]. constructor; [done| | |].
  - intros Hc. change (0 < length (fc_chain c))%nat. destruct (fc_chain c); [done|]. cbn [length]. lia.
  - intros b Hb. change (is_Some (clear_counts (fo_states f) !! b)). rewrite clear_lookup. by apply fmap_is_Some, H3.
  - intros b. rewrite streak_snoc. cbn [streak_step]. unfold count_of. change (fo_states (run_op ResetAll f).2) with (clear_counts (fo_states f)).
    rewrite clear_lookup. destruct (fo_states f !! b); cbn; lia.
Qed.
Lemma failure_sound c os b f : sound c os f → sound c (os ++ [Failed b]) (record_failure b f).2.
Proof.
  intros H. rewrite record_failure_eq. destruct (fc_enabled _); [cbn|by apply disabled_sound].
  destruct (String.eqb b _); [cbn|by apply counted_sound]. destruct (_ <? _); [by apply counted_sound|].
  destruct (next_place f) as [next|e] eqn:E; [|by apply counted_sound].
  destruct (Nat.eqb _ _); [by apply counted_sound|by apply switched_sound].
Qed.
Lemma op_sound c os o f : sound c os f → sound c (os ++ [o]) (run_op o f).2.
Proof. destruct o; [apply success_sound|apply failure_sound|apply recover_sound|apply reset_sound]. Qed.
Lemma new_sound k c : sound c [] (new_failover k c).
Proof.
  constructor; [done| | |].
  - intros Hc. change (0 < length (fc_chain c))%nat. destruct (fc_chain c); [done|]. cbn [length]. lia.
  - intros b Hb. unfold new_failover. cbn [fo_states]. rewrite fold_none, bool_decide_eq_true_2 by done. by eexists.
  - intros b. unfold count_of, new_failover. cbn [fo_states]. rewrite fold_none. case_bool_decide; [|rewrite dict_lookup_empty]; cbn; lia.
Qed.
Lemma run_sound k c os : sound c os (run_ops os (new_failover k c)).
Proof.
  induction os as [|o os IH] using rev_ind; [apply new_sound|].
  unfold run_ops. rewrite foldl_app. by apply op_sound.
Qed.
Lemma active_in_chain c os f : sound c os f → fc_chain c ≠ [] → fc_chain c !! fo_active f = Some (get_active_broker f).
Proof.
  intros [H1 H2 _ _] Hc. unfold get_active_broker, at_active. rewrite H1.
  destruct (fc_chain c !! fo_active f) eqn:E; [done|]. apply lookup_ge_None in E. specialize (H2 Hc). lia.
Qed.

(** A broker is left only for cause.  Over any history with a chain that
    is not empty, a recorded failure never raises; the broker in use is always
    one of the chain; and when a failure switches brokers, it was one of the
    broker in use, this broker has failed at least as often as the threshold
    since it last succeeded, and the one used next is its successor in the
    chain. *)
Theorem failover_justified (k : clock) (c : failover_config) (os : list failover_op) (b : string) :
  fc_chain c ≠ [] →
  let f := run_ops os (new_failover k c) in
  get_active_broker f ∈ fc_chain c ∧
  ∃ v f', record_failure b f = (Ok v, f') ∧
    (v = true →
       b = get_active_broker f ∧ fc_threshold c ≤ streak b (os ++ [Failed b]) ∧
       fc_chain c !! (S (fo_active f) `mod` length (fc_chain c))%nat = Some (get_active_broker f')).
Proof.
  intros Hc f. pose proof (run_sound k c os) as Hs. fold f in Hs. pose proof (active_in_chain _ _ _ Hs Hc) as Ha.
  split; [by eapply list_elem_of_lookup_2|]. pose proof (failure_sound c os b f Hs) as Hs'. revert Hs'.
  rewrite record_failure_eq. pose proof (so_cfg _ _ _ Hs) as Ec. rewrite Ec.
  destruct (fc_enabled c); cbn [negb]; [|by eexists false, _].
  destruct (String.eqb_spec b (default ""%string (at_active f))) as [Eb|]; cbn [negb]; [|by eexists false, _].
  destruct (Z.ltb_spec (count_of b f + 1) (fc_threshold c)) as [|Hn]; [by eexists false, _|].
  unfold next_place. rewrite Ec. destruct (fc_chain c) as [|x l] eqn:El; [done|].
  destruct (Nat.eqb _ _); [by eexists false, _|]. intros Hs'.
  eexists true, _. split; [done|]. intros _. split_and!.
  - rewrite Eb. unfold at_active, get_active_broker, at_active. rewrite Ec, El, Ha. done.
  - rewrite streak_snoc. cbn [streak_step]. rewrite String.eqb_refl. pose proof (so_counts _ _ _ Hs b). lia.
  - pose proof (active_in_chain _ _ _ Hs') as E. rewrite El in E. by apply E.
Qed.

(** *** Failures in a row *)

Lemma at_active_sound c os f : sound c os f → fc_chain c ≠ [] → at_active f = Some (get_active_broker f).
Proof. intros H Hc. unfold at_active. rewrite (so_cfg _ _ _ H). by eapply active_in_chain. Qed.
Lemma below_threshold b f :
  fc_enabled (fo_cfg f) = true → at_active f = Some b → count_of b f + 1 < fc_threshold (fo_cfg f) →
  (run_op (Failed b) f).2 = counted b f.
Proof.
  intros He Ha Hc. cbn [run_op]. rewrite record_failure_eq, He, Ha. cbn [negb default]. rewrite String.eqb_refl. cbn [negb].
  by rewrite (proj2 (Z.ltb_lt _ _) Hc).
Qed.
Lemma counting_stays b m : ∀ f,
  fc_enabled (fo_cfg f) = true → at_active f = Some b → count_of b f + Z.of_nat m < fc_threshold (fo_cfg f) →
  let f' := run_ops (replicate m (Failed b)) f in
  fo_cfg f' = fo_cfg f ∧ fo_active f' = fo_active f ∧ count_of b f' = count_of b f + Z.of_nat m.
Proof.
  induction m as [|m IH]; intros f He Ha Hc; [cbn; split_and!; [done..|lia]|].
  cbn [replicate]. unfold run_ops. cbn [foldl]. fold (run_ops (replicate m (Failed b))). rewrite below_threshold by (done || lia).
  destruct (IH (counted b f)) as (E1 & E2 & E3); [done|done| |].
  { rewrite count_counted, String.eqb_refl. change (fo_cfg (counted b f)) with (fo_cfg f). lia. }
  rewrite count_counted, String.eqb_refl in E3. change (fo_cfg (counted b f)) with (fo_cfg f) in E1.
  change (fo_active (counted b f)) with (fo_active f) in E2. split_and!; [done|done|etransitivity; [exact E3|lia]].
Qed.
Lemma next_differs i n : (1 < n)%nat → (i < n)%nat → (S i `mod` n)%nat ≠ i.
Proof.
  intros Hn Hi. destruct (decide (S i = n)) as [<-|].
  - rewrite Nat.Div0.mod_same. lia.
  - rewrite Nat.mod_small by lia. lia.
Qed.
Lemma at_threshold b f :
  fc_enabled (fo_cfg f) = true → at_active f = Some b → (1 < length (fc_chain (fo_cfg f)))%nat →
  count_of b f + 1 = fc_threshold (fo_cfg f) →
  fo_active (run_op (Failed b) f).2 = (S (fo_active f) `mod` length (fc_chain (fo_cfg f)))%nat.
Proof.
  intros He Ha Hl Hc. cbn [run_op]. rewrite record_failure_eq, He, Ha. cbn [negb default]. rewrite String.eqb_refl. cbn [negb].
  rewrite (proj2 (Z.ltb_ge _ _)) by lia. unfold next_place. pose proof (lookup_lt_Some _ _ _ Ha) as Hlt.
  destruct (fc_chain (fo_cfg f)) as [|x l] eqn:El; [cbn in Hl; lia|].
  pose proof (next_differs _ _ Hl Hlt) as Hne. apply Nat.eqb_neq in Hne. by rewrite Hne.
Qed.

(** Failures in a row switch brokers.  When the manager is enabled, the
    chain has two brokers or more and the count of the broker in use is below
    the threshold, so many failures of it as are missing to the threshold
    switch to its successor, and fewer leave it in use. *)
Theorem failures_switch (k : clock) (c : failover_config) (os : list failover_op) (n : nat) :
  fc_enabled c = true → (1 < length (fc_chain c))%nat →
  let f := run_ops os (new_failover k c) in
  let b := get_active_broker f in
  count_of b f + Z.of_nat n = fc_threshold c → 0 < Z.of_nat n →
  fo_active (run_ops (replicate n (Failed b)) f) = (S (fo_active f) `mod` length (fc_chain c))%nat ∧
  ∀ m, (m < n)%nat → fo_active (run_ops (replicate m (Failed b)) f) = fo_active f.
Proof.
  intros He Hl f b Hc Hn. pose proof (run_sound k c os) as Hs. fold f in Hs. pose proof (so_cfg _ _ _ Hs) as Ec.
  assert (at_active f = Some b) as Ha by (eapply at_active_sound; [done|destruct (fc_chain c); [cbn in Hl; lia|done]]).
  rewrite <- Ec in He, Hl, Hc |- *. split.
  - destruct n as [|n]; [lia|]. replace (S n) with (n + 1)%nat by lia. rewrite replicate_add. unfold run_ops. rewrite foldl_app. cbn [foldl replicate].
    fold (run_ops (replicate n (Failed b))). destruct (counting_stays b n f) as (E1 & E2 & E3); [done|done|lia|].
    set (g := run_ops (replicate n (Failed b)) f) in *. pose proof (at_threshold b g) as H. rewrite E1, E2, E3 in H.
    apply H; [done| |done|lia]. unfold at_active. by rewrite E1, E2.
  - intros m Hm. apply counting_stays; [done|done|lia].
Qed.

(** ** Concrete brokers *)

Definition two_brokers : failover_config := FailoverConfig true 3 ["kite"; "angel"]%string (f_of_Z 15).
Definition fresh : failover := new_failover (Clock 1700000000000000 [60000000; 60000000; 60000000; 60000000; 900000000]) two_brokers.
Definition trace (os : list failover_op) : list string := (λ n, get_active_broker (run_ops (take n os) fresh)) <$> seq 0 (S (length os)).

Example third_failure : trace [Failed "kite"; Failed "kite"; Succeeded "kite"; Failed "kite"; Failed "kite"; Failed "kite"]%string =
  ["kite"; "kite"; "kite"; "kite"; "kite"; "kite"; "angel"]%string.
Proof. vm_compute. reflexivity. Qed.
(** Failures of a broker not in use count: it is left again at the first
    failure after it was taken. *)
Example spare_failures_count :
  trace [Failed "angel"; Failed "angel"; Failed "angel"; Failed "kite"; Failed "kite"; Failed "kite"; Failed "angel"]%string =
  ["kite"; "kite"; "kite"; "kite"; "kite"; "kite"; "angel"; "kite"]%string.
Proof. vm_compute. reflexivity. Qed.
(** After the recovery time the first broker is used again. *)
Example recovers_to_first :
  trace [Failed "kite"; Failed "kite"; Failed "kite"; Recover; Recover]%string = ["kite"; "kite"; "kite"; "angel"; "angel"; "kite"]%string.
Proof. vm_compute. reflexivity. Qed.

Lemma failover_justified_witness :
  fc_chain two_brokers ≠ [] ∧
  get_active_broker (run_ops [Failed "kite"; Failed "kite"]%string fresh) ∈ fc_chain two_brokers.
Proof. split; [done|]. eapply (failover_justified _ two_brokers [Failed "kite"; Failed "kite"]%string "kite"). done. Defined.
Lemma failures_switch_witness :
  fc_enabled two_brokers = true ∧ fo_active (run_ops (replicate 3 (Failed "kite"%string)) (run_ops [] fresh)) = 1%nat.
Proof.
  split; [reflexivity|].
  apply (failures_switch (fo_clk fresh) two_brokers [] 3); [reflexivity|cbn; lia|vm_compute; reflexivity|lia].
Defined.
