(* ===== verification/DomainInvariants.v ===== *)
(** * The invariant engine

    [InvariantEngine] of [core/domain_invariants.py]: checks of a dictionary
    of values of any type, a history of violations and a halt flag of its
    own.  The file of the history, whose errors are swallowed, is left out. *)
From S2P Require Import Prelude PyStr Float64 PyDict PyVal CapitalManager.

(** ** Data *)

Inductive InvariantAction := LOG | WARN | HALT.
#[global] Instance action_eq_dec : EqDecision InvariantAction.
Proof. solve_decision. Defined.
Definition action_value (a : InvariantAction) : string := match a with LOG => "LOG" | WARN => "WARN" | HALT => "HALT" end.
(** [InvariantCheck]; the name is the key, the description is read nowhere. *)
Record inv_check := InvCheck { ic_action : InvariantAction; ic_enabled : bool }.
Record violation := Violation {
  vi_name : string; vi_message : string; vi_action : string; vi_severity : string; vi_value : pyval; vi_expected : string;
  vi_at : float64; vi_resolved : option float64 }.
Record check_report := CheckReport {
  cr_violations : list violation; cr_run : Z; cr_passed : Z; cr_failed : Z; cr_halt : bool; cr_at : float64 }.

Record invariants := Invariants { iv_clk : clock; iv_checks : pydict inv_check; iv_log : list violation; iv_halted : bool }.
#[global] Instance invariants_clock : HasClock invariants :=
  {| clock_of := iv_clk; set_clock := λ k i, Invariants k (iv_checks i) (iv_log i) (iv_halted i) |}.
Definition set_log (l : list violation) (i : invariants) : invariants := Invariants (iv_clk i) (iv_checks i) l (iv_halted i).
Definition set_halt (b : bool) (i : invariants) : invariants := Invariants (iv_clk i) (iv_checks i) (iv_log i) b.
Definition set_checks (d : pydict inv_check) (i : invariants) : invariants := Invariants (iv_clk i) d (iv_log i) (iv_halted i).
Definition IM (A : Type) : Type := ST invariants A.
Definition MAX_VIOLATIONS : Z := 500.
Definition default_checks : pydict inv_check := PyDict
  [("capital_non_negative", InvCheck HALT true); ("position_qty_non_negative", InvCheck HALT true);
   ("risk_within_limits", InvCheck HALT true); ("fill_qty_valid", InvCheck WARN true); ("pnl_not_nan", InvCheck WARN true);
   ("margin_non_negative", InvCheck HALT true); ("drawdown_within_limit", InvCheck HALT true)]%string.
(** [__init__] with the history that was loaded *)
Definition new_engine (k : clock) (history : list violation) : invariants := Invariants k default_checks history false.

(** ** A check *)

(** What is wrong: message, severity, value and condition. *)
Record wrong := Wrong { wr_message : string; wr_severity : string; wr_value : pyval; wr_expected : string }.
Definition below_zero (what field : string) (v : pyval) : res (option wrong) :=
  match v with
  | VNone => Ok None
  | _ => rbind (v_lt v (VInt 0)) (λ b,
      Ok (if b : bool then Some (Wrong (cat [what; " is negative: "; py_str v]) "CRITICAL" v (cat [field; " >= 0"])) else None))
  end.
(** [a > b] *)
Definition exceeds (a b : pyval) (w : res wrong) : res (option wrong) :=
  match a, b with
  | VNone, _ | _, VNone => Ok None
  | _, _ => rbind (v_lt b a) (λ x, if x : bool then rbind w (λ w, Ok (Some w)) else Ok None)
  end.
(** [f"{v:.1%}"] *)
Definition pct_text (v : pyval) : res string :=
  match v with
  | VStr _ => Raise (PyExn ValueError "Unknown format code '%' for object of type 'str'")
  | VNone => type_error "unsupported format string passed to NoneType.__format__"
  | _ => rbind (num_operand v) (λ x, Ok (fmt_pct 1 x))
  end.
Definition pnl_wrong (v : pyval) : option wrong :=
  match v with
  | VNone => None
  | VStr s => Some (Wrong (cat ["P&L has invalid type: "; type_name v]) "MEDIUM" (VStr s) "pnl must be a number")
  | VFloat x =>
      if is_finite x then None
      else Some (Wrong (cat ["P&L is NaN or infinite: "; repr_float x]) "MEDIUM" (VStr (repr_float x)) "pnl must be a finite number")
  | _ => None
  end.
(** [_evaluate_check] *)
Definition evaluate (name : string) (state : pyrec) : res (option wrong) :=
  let at_ k := rget k VNone state in
  if String.eqb name "capital_non_negative" then below_zero "Capital" "capital" (at_ "capital"%string)
  else if String.eqb name "position_qty_non_negative" then below_zero "Position quantity" "position_qty" (at_ "position_qty"%string)
  else if String.eqb name "risk_within_limits" then
    let risk := at_ "risk"%string in let most := at_ "max_risk"%string in
    exceeds risk most (Ok (Wrong (cat ["Risk "; py_str risk; " exceeds limit "; py_str most]) "HIGH" risk (cat ["risk <= "; py_str most])))
  else if String.eqb name "fill_qty_valid" then
    let fill := at_ "fill_qty"%string in let qty := at_ "order_qty"%string in
    exceeds fill qty (Ok (Wrong (cat ["Fill qty "; py_str fill; " > order qty "; py_str qty]) "HIGH" fill (cat ["fill_qty <= "; py_str qty])))
  else if String.eqb name "pnl_not_nan" then Ok (pnl_wrong (at_ "pnl"%string))
  else if String.eqb name "margin_non_negative" then below_zero "Margin" "margin" (at_ "margin"%string)
  else if String.eqb name "drawdown_within_limit" then
    let dd := at_ "drawdown"%string in let most := at_ "max_drawdown"%string in
    exceeds dd most (rbind (pct_text dd) (λ a, rbind (pct_text most) (λ b,
      Ok (Wrong (cat ["Drawdown "; a; " exceeds limit "; b]) "CRITICAL" dd (cat ["drawdown <= "; py_str most])))))
  else Ok None.

(** ** Operations *)

(** [_build_violation] at the time of the clock *)
Definition build_violation (name : string) (c : inv_check) (w : wrong) : IM violation :=
  t ← time_time;
  mret (Violation name (wr_message w) (action_value (ic_action c)) (wr_severity w) (wr_value w) (wr_expected w) t None).
Definition keep_newest (l : list violation) : list violation := drop (Z.to_nat (Z.of_nat (length l) - MAX_VIOLATIONS)) l.
Definition note_violation (v : violation) : IM unit := st_modify (λ i, set_log (keep_newest (iv_log i ++ [v])) i).
Definition trigger_halt : IM unit := st_modify (set_halt true).
Definition halts (v : violation) : bool := String.eqb (vi_action v) "HALT".
(** A check evaluated and, if violated, noted. *)
Definition check_one (name : string) (c : inv_check) (state : pyrec) : IM (option violation) :=
  w ← st_lift (evaluate name state);
  match w with
  | None => mret None
  | Some w => v ← build_violation name c w; note_violation v ;; mret (Some v)
  end.
Fixpoint check_each (cs : list (string * inv_check)) (state : pyrec) : IM (Z * list violation) :=
  match cs with
  | [] => mret (0, [])
  | (name, c) :: cs' =>
      if negb (ic_enabled c) then check_each cs' state
      else
        v ← check_one name c state;
        r ← check_each cs' state;
        mret (r.1 + 1, match v with Some v => v :: r.2 | None => r.2 end)
  end.
(** [check_all] *)
Definition check_all (state : pyrec) : IM check_report :=
  t ← time_time;
  i ← st_get;
  r ← check_each (items (iv_checks i)) state;
  let n := Z.of_nat (length r.2) in
  let halt := existsb halts r.2 in
  (if halt then trigger_halt else mret ()) ;;
  mret (CheckReport r.2 r.1 (r.1 - n) n halt t).
(** [check_invariant] *)
Definition check_invariant (name : string) (state : pyrec) : IM (option violation) :=
  i ← st_get;
  match iv_checks i !! name with
  | None => mret None
  | Some c =>
      v ← check_one name c state;
      match v with
      | Some v => (if halts v then trigger_halt else mret ()) ;; mret (Some v)
      | None => mret None
      end
  end.
(** [enable_check], [disable_check] *)
Definition switch_check (b : bool) (name : string) : IM bool :=
  i ← st_get;
  match iv_checks i !! name with
  | None => mret false
  | Some c => st_modify (λ i, set_checks (<[name := InvCheck (ic_action c) b]> (iv_checks i)) i) ;; mret true
  end.
Definition enable_check : string → IM bool := switch_check true.
Definition disable_check : string → IM bool := switch_check false.
(** [resolve_violation] *)
Definition resolved_at (t : float64) (v : violation) : violation :=
  Violation (vi_name v) (vi_message v) (vi_action v) (vi_severity v) (vi_value v) (vi_expected v) (vi_at v) (Some t).
Definition resolve_violation (n : Z) : IM bool :=
  i ← st_get;
  if (0 <=? n) && (n <? Z.of_nat (length (iv_log i))) then
    t ← time_time;
    st_modify (λ i, set_log (alter (resolved_at t) (Z.to_nat n) (iv_log i)) i) ;;
    mret true
  else mret false.
(** [clear_halt], [is_halted] *)
Definition clear_halt : IM unit := st_modify (set_halt false).
(** [get_violation_history]; a limit of zero is the whole list. *)
Definition get_violation_history (limit : Z) (unresolved : bool) (i : invariants) : list violation :=
  last_items limit (if unresolved then filter (λ v, vi_resolved v = None) (iv_log i) else iv_log i).
(** [get_stats] *)
Definition count_by (key : violation → string) (l : list violation) : pydict Z :=
  foldl (λ d v, <[key v := default 0 (d !! key v) + 1]> d) ∅ l.
Definition get_stats (i : invariants) : Z * Z * bool * Z * Z * pydict Z * pydict Z :=
  (Z.of_nat (length (iv_log i)), Z.of_nat (length (filter (λ v, vi_resolved v = None) (iv_log i))), iv_halted i, dlen (iv_checks i),
   Z.of_nat (length (filter (λ c, ic_enabled c = true) (dvalues (iv_checks i)))), count_by vi_action (iv_log i), count_by vi_severity (iv_log i)).

(** ** What a check of everything does *)

(** The conditions the checks are described by, said of the values: Python's
    [a < b] holds, a value that is missing is below nothing and above nothing,
    a profit is a finite number.  A name that is no check has no condition. *)
Definition less (a b : pyval) : bool := match v_lt a b with Ok x => x | Raise _ => false end.
Definition finite_number (v : pyval) : bool :=
  match v with VStr _ => false | VFloat x => is_finite x | _ => true end.
Definition conditions (state : pyrec) : list (string * bool) :=
  let value k := rget k VNone state in
  [("capital_non_negative", less (value "capital") (VInt 0));
   ("position_qty_non_negative", less (value "position_qty") (VInt 0));
   ("risk_within_limits", less (value "max_risk") (value "risk"));
   ("fill_qty_valid", less (value "order_qty") (value "fill_qty"));
   ("pnl_not_nan", negb (finite_number (value "pnl")));
   ("margin_non_negative", less (value "margin") (VInt 0));
   ("drawdown_within_limit", less (value "max_drawdown") (value "drawdown"))]%string.
Definition breaks (state : pyrec) (name : string) : bool := default false (PyDict (conditions state) !! name).
Definition violated (state : pyrec) (p : string * inv_check) : bool := ic_enabled p.2 && breaks state p.1.
(** The fields the conditions compare, but the profit, hold nothing or a
    number that fits a float. *)
Definition compared : list string :=
  ["capital"; "position_qty"; "risk"; "max_risk"; "fill_qty"; "order_qty"; "margin"; "drawdown"; "max_drawdown"]%string.
Definition plain (v : pyval) : Prop := v = VNone ∨ ∃ x, num_operand v = Ok x.
Definition comparable (state : pyrec) : Prop := Forall (λ k, plain (rget k VNone state)) compared.
Definition stops (state : pyrec) (p : string * inv_check) : bool := violated state p && bool_decide (ic_action p.2 = HALT).
Lemma action_halts a : String.eqb (action_value a) "HALT" = bool_decide (a = HALT).
Proof. by destruct a. Qed.

(** *** A check evaluates to its condition *)

Lemma plain_num v : plain v → v ≠ VNone → ∃ x n, num_operand v = Ok x ∧ as_num v = Some n.
Proof.
  intros [?|[x Hx]] Hv; [done|]. exists x. destruct (as_num v) as [n|] eqn:E; [by exists n|].
  unfold num_operand in Hx. by rewrite E in Hx.
Qed.
Lemma less_num a b : plain a → plain b → a ≠ VNone → b ≠ VNone → v_lt a b = Ok (less a b).
Proof.
  intros Ha Hb Na Nb. destruct (plain_num a Ha Na) as (x & n & _ & Ea), (plain_num b Hb Nb) as (y & m & _ & Eb).
  unfold less, v_lt. rewrite Ea, Eb. by destruct a, b, n, m.
Qed.
Lemma less_none a b : a = VNone ∨ b = VNone → less a b = false.
Proof. unfold less, v_lt. intros [-> | ->]; [by destruct b|]. destruct a; cbn; by repeat case_match. Qed.
Definition found (r : res (option wrong)) (b : bool) : Prop := ∃ w, r = Ok w ∧ (match w with Some _ => true | None => false end) = b.
Lemma below_zero_found what field v : plain v → found (below_zero what field v) (less v (VInt 0)).
Proof.
  intros Hv. unfold below_zero. destruct (decide (v = VNone)) as [->|Nv]; [by eexists|].
  assert (plain (VInt 0)) as H0 by (right; eexists; reflexivity). pose proof (less_num v (VInt 0) Hv H0 Nv ltac:(done)) as E.
  destruct v; try discriminate; rewrite E; cbn [rbind]; destruct (less _ _); by eexists.
Qed.
Lemma exceeds_found a b w : plain a → plain b → (a ≠ VNone → b ≠ VNone → ∃ x, w = Ok x) → found (exceeds a b w) (less b a).
Proof.
  intros Ha Hb Hw. unfold exceeds. destruct (decide (a = VNone)) as [->|Na]; [rewrite less_none by auto; by eexists|].
  destruct (decide (b = VNone)) as [->|Nb]; [rewrite less_none by auto; destruct a; (eexists; split; reflexivity)|].
  destruct (Hw Na Nb) as [x ->]. pose proof (less_num b a Hb Ha Nb Na) as E.
  destruct a; try done; destruct b; try discriminate; rewrite E; cbn [rbind]; destruct (less _ _); by eexists.
Qed.
Lemma pct_text_ok v : plain v → v ≠ VNone → ∃ s, pct_text v = Ok s.
Proof.
  intros Hv Nv. destruct (plain_num v Hv Nv) as (x & n & E & _). unfold pct_text. destruct v; try done; rewrite E; by eexists.
Qed.
Lemma pnl_found v : found (Ok (pnl_wrong v)) (negb (finite_number v)).
Proof. eexists. split; [reflexivity|]. destruct v as [|b|z|x|s]; try done. cbn. by destruct (is_finite x). Qed.
(** Every check of a state that can be compared has an answer, and finds
    something wrong exactly when its condition is broken. *)
Lemma evaluate_found name state : comparable state → found (evaluate name state) (breaks state name).
Proof.
  intros H. assert (∀ k, k ∈ compared → plain (rget k VNone state)) as Hp by (by apply Forall_forall).
  unfold breaks, conditions, lookup, pydict_lookup. cbn [items assoc_get].
  unfold evaluate. repeat case_match; first
    [ apply below_zero_found, Hp; in_list
    | apply pnl_found
    | by eexists
    | apply exceeds_found; [apply Hp; in_list|apply Hp; in_list|]; try (intros _ _; by eexists) ].
  intros N1 N2. edestruct pct_text_ok as [s1 ->]; [|exact N1|]; [apply Hp; in_list|].
  edestruct pct_text_ok as [s2 ->]; [|exact N2|]; [apply Hp; in_list|]. by eexists.
Qed.

(** A check, as a function of the engine. *)
Definition made (name : string) (c : inv_check) (w : wrong) (i : invariants) : violation :=
  Violation name (wr_message w) (action_value (ic_action c)) (wr_severity w) (wr_value w) (wr_expected w)
    (epoch_seconds (clk_read (clock_of i)).1) None.
Definition noted (v : violation) (i : invariants) : invariants :=
  set_log (keep_newest (iv_log i ++ [v])) (set_clock (clk_read (clock_of i)).2 i).
Lemma check_one_eq name c state i : check_one name c state i =
  match evaluate name state with
  | Raise e => (Raise e, i)
  | Ok None => (Ok None, i)
  | Ok (Some w) => (Ok (Some (made name c w i)), noted (made name c w i) i)
  end.
Proof.
  unfold check_one. destruct (evaluate name state) as [[w|]|e]; [|done|done].
  rewrite (st_bind_ok _ _ i (Some w) i) by done. unfold build_violation, mbind, st_bind. by rewrite time_time_total.
Qed.
Lemma check_each_exact state cs : comparable state → ∀ i,
  ∃ vs i', check_each cs state i = (Ok (Z.of_nat (length (filter (λ p, ic_enabled p.2 = true) cs)), vs), i') ∧
    vi_name <$> vs = (filter (λ p, violated state p = true) cs).*1 ∧ existsb halts vs = existsb (stops state) cs ∧
    iv_halted i' = iv_halted i ∧ iv_checks i' = iv_checks i.
Proof.
  intros Hs. induction cs as [|[name c] cs IH]; intros i; [by exists [], i|]. cbn [check_each existsb]. rewrite !filter_cons.
  destruct c as [act []]; cbn [ic_enabled ic_action fst snd negb].
  2:{ destruct (IH i) as (vs & i' & E & H). exists vs, i'. rewrite E, !decide_False by done. done. }
  destruct (evaluate_found name state Hs) as (w & Ew & Hw). pose proof (check_one_eq name (InvCheck act true) state i) as E1. rewrite Ew in E1.
  rewrite (decide_True (P := true = true)) by done.
  assert (violated state (name, InvCheck act true) = match w with Some _ => true | None => false end) as Ev.
  { unfold violated. cbn [ic_enabled fst snd andb]. by rewrite Hw. }
  unfold stops at 1. rewrite Ev. destruct w as [w|].
  - set (v := made _ _ _ _) in E1. destruct (IH (noted v i)) as (vs & i' & E & Hn & Hh & H1 & H2).
    exists (v :: vs), i'. split.
    { rewrite (st_bind_ok _ _ _ _ _ E1), (st_bind_ok _ _ _ _ _ E). unfold mret, st_ret. cbn [fst snd length]. repeat f_equal. lia. }
    rewrite decide_True by done. split_and!; [by rewrite fmap_cons, Hn| |done|done].
    cbn [existsb ic_action snd andb]. unfold halts at 1. cbn [vi_action v made ic_action]. by rewrite action_halts, Hh.
  - destruct (IH i) as (vs & i' & E & H). exists vs, i'. split.
    { rewrite (st_bind_ok _ _ _ _ _ E1), (st_bind_ok _ _ _ _ _ E). unfold mret, st_ret. cbn [fst snd length]. repeat f_equal. lia. }
    by rewrite decide_False by done.
Qed.

(** C36: A check of everything is exact.  Of a state whose compared fields
    hold nothing or numbers, the report lists exactly the enabled checks
    whose condition is broken, in order: a capital, a position or a margin
    below zero, a risk, a fill or a drawdown above its limit, a profit that is
    no finite number.  It calls for a halt exactly when one of them has the
    action HALT, and then the engine is halted, as it is when it was before. *)
Theorem check_all_exact (state : pyrec) (i : invariants) :
  comparable state →
  ∃ r i', check_all state i = (Ok r, i') ∧
    vi_name <$> cr_violations r = (filter (λ p, violated state p = true) (items (iv_checks i))).*1 ∧
    cr_halt r = existsb (stops state) (items (iv_checks i)) ∧
    iv_halted i' = iv_halted i || cr_halt r ∧
    cr_run r = Z.of_nat (length (filter (λ p, ic_enabled p.2 = true) (items (iv_checks i)))) ∧
    cr_passed r + cr_failed r = cr_run r.
Proof.
  intros Hcs. unfold check_all. rewrite (st_bind_ok _ _ _ _ _ (time_time_total i)). set (j := set_clock _ i).
  rewrite (st_bind_ok st_get _ j j j) by done. change (iv_checks j) with (iv_checks i).
  destruct (check_each_exact state (items (iv_checks i)) Hcs j) as (vs & i' & E & Hn & Hh & H1 & _). rewrite (st_bind_ok _ _ _ _ _ E). cbn [fst snd].
  change (iv_halted j) with (iv_halted i) in H1.
  destruct (existsb halts vs) eqn:Ex.
  - eexists _, _. split; [done|]. split_and!; [done|done|cbn; by rewrite orb_true_r|done|cbn; lia].
  - eexists _, _. split; [done|]. split_and!; [done|done|cbn; by rewrite orb_false_r|done|cbn; lia].
Qed.

(** ** The history is bounded *)

Inductive engine_op :=
  | CheckAll (state : pyrec) | CheckOne (name : string) (state : pyrec) | Switch (b : bool) (name : string) | Resolve (n : Z) | Clear.
Definition run_engine_op (o : engine_op) : IM unit :=
  match o with
  | CheckAll s => check_all s ;; mret ()
  | CheckOne n s => check_invariant n s ;; mret ()
  | Switch b n => switch_check b n ;; mret ()
  | Resolve n => resolve_violation n ;; mret ()
  | Clear => clear_halt
  end.
Definition run_engine (os : list engine_op) (i : invariants) : invariants := foldl (λ i o, (run_engine_op o i).2) i os.
Definition bounded_log (i i' : invariants) : Prop :=
  Z.of_nat (length (iv_log i)) ≤ MAX_VIOLATIONS → Z.of_nat (length (iv_log i')) ≤ MAX_VIOLATIONS.
#[local] Instance bounded_log_preorder : PreOrder bounded_log.
Proof. split; [by intros i|]. intros i1 i2 i3 H1 H2 H. auto. Qed.
Lemma keep_newest_len l : Z.of_nat (length (keep_newest l)) ≤ MAX_VIOLATIONS.
Proof. unfold keep_newest, MAX_VIOLATIONS. rewrite length_drop. lia. Qed.
Lemma same_log {A} (m : IM A) : (∀ i, length (iv_log (m i).2) = length (iv_log i)) → st_rel bounded_log m.
Proof. intros H i Hi. by rewrite H. Qed.
Lemma one_bounded name c state : st_rel bounded_log (check_one name c state).
Proof.
  intros i Hi. rewrite check_one_eq. destruct (evaluate name state) as [[w|]|e]; [apply keep_newest_len|exact Hi|exact Hi].
Qed.
Ltac log_bounded := rel_auto ltac:(idtac; match goal with
  | |- st_rel bounded_log (check_one _ _ _) => apply one_bounded
  | |- st_rel bounded_log time_time => apply same_log; intros ?; by rewrite time_time_total
  | |- st_rel bounded_log (st_modify _) => apply same_log; intros ?; cbn; rewrite ?length_alter; done
  | H : st_rel bounded_log ?m |- st_rel bounded_log ?m => exact H
  end).
Lemma each_bounded cs state : st_rel bounded_log (check_each cs state).
Proof. induction cs as [|[name c] cs IH]; cbn [check_each]; log_bounded. Qed.
(** The history of violations stays bounded: over any sequence of
    operations it keeps no more than the newest five hundred. *)
Theorem violations_bounded (os : list engine_op) (i : invariants) :
  Z.of_nat (length (iv_log i)) ≤ 500 → Z.of_nat (length (iv_log (run_engine os i))) ≤ 500.
Proof.
  intros Hi. unfold run_engine. apply foldl_inv; [done|]. intros j o _ Hj.
  assert (st_rel bounded_log (run_engine_op o)) as H; [|by apply H]. pose proof each_bounded.
  destruct o; cbn [run_engine_op]; unfold check_all, check_invariant, switch_check, resolve_violation, clear_halt, trigger_halt;
    log_bounded; auto.
Qed.

(** ** Concrete states *)

Definition engine : invariants := new_engine (Clock 1700000000000000 []) [].
Definition state_of (l : list (string * pyval)) : pyrec := PyDict l.
Definition checked (l : list (string * pyval)) : option (list string * bool) :=
  match (check_all (state_of l) engine).1 with Ok r => Some (vi_name <$> cr_violations r, cr_halt r) | Raise _ => None end.
Example negative_capital : checked [("capital", VInt (-1)); ("pnl", VFloat f_nan)]%string =
  Some (["capital_non_negative"; "pnl_not_nan"]%string, true).
Proof. vm_compute. reflexivity. Qed.
(** Values that are no numbers are not below zero, nor above a limit. *)
Example nan_passes : checked [("capital", VFloat f_nan); ("risk", VFloat f_nan); ("max_risk", VInt 5)]%string = Some ([], false).
Proof. vm_compute. reflexivity. Qed.
(** A value of the wrong type makes the check raise after the negative
    capital was noted and before the engine is halted. *)
Example halt_lost :
  let w := check_all (state_of [("capital", VInt (-1)); ("position_qty", VStr "ten")]%string) engine in
  (∃ e, w.1 = Raise e ∧ exn_cls e = TypeError) ∧ iv_halted w.2 = false ∧ vi_name <$> iv_log w.2 = ["capital_non_negative"%string].
Proof. vm_compute. split; [by eexists|done]. Qed.
Definition in_debt : pyrec := state_of [("capital", VInt (-1)); ("fill_qty", VInt 60); ("order_qty", VInt 50); ("risk", VInt 3); ("max_risk", VInt 5)]%string.
Lemma in_debt_comparable : comparable in_debt.
Proof. repeat (apply Forall_cons; split; [first [by left | right; by eexists]|]). by apply Forall_nil. Qed.
Lemma check_all_exact_witness :
  comparable in_debt ∧
  ∃ r i', check_all in_debt engine = (Ok r, i') ∧ cr_halt r = true ∧
    vi_name <$> cr_violations r = ["capital_non_negative"; "fill_qty_valid"]%string.
Proof.
  split; [exact in_debt_comparable|]. destruct (check_all_exact in_debt engine in_debt_comparable) as (r & i' & E & Hn & Hh & _).
  exists r, i'. split; [exact E|]. rewrite Hh, Hn. vm_compute. split; reflexivity.
Defined.
Lemma violations_bounded_witness :
  Z.of_nat (length (iv_log (run_engine (replicate 3 (CheckAll (state_of [("capital", VInt (-1))]%string))) engine))) <= 500.
Proof. apply violations_bounded. vm_compute. discriminate. Defined.
