(* ===== verification/CorrelationGuard.v ===== *)
(** * The correlation guard

    [core/correlation_guard.py]: the closing prices it keeps, and the check
    that a new position does not double an open one of a correlated index.
    [sum] and [**] of floats are the classes [PySum] and [PyPow]. *)
From S2P Require Import Prelude PyStr Float64 PyDict PyVal CapitalManager.

(** The recent closing prices of each name. *)
Abbreviation closes := (pydict (list float64)).

Section guard.
Context {PS : PySum} {PP : PyPow}.

(** ** The prices *)

Definition CACHE_MAX : Z := 60.
Definition CG (A : Type) : Type := ST closes A.
(** [deque.append] on a deque of at most [CACHE_MAX] *)
Definition push (q : list float64) (c : float64) : list float64 := last_items CACHE_MAX (q ++ [c]).
Definition positive (c : float64) : bool := fgt c f_zero.
(** [update_closes] *)
Definition update_closes (name : string) (cs : list float64) : CG unit :=
  st_modify (λ d, <[name := foldl push (default [] (d !! name)) (filter (λ c, positive c = true) cs)]> d).
(** [get_closes] *)
Definition get_closes (name : string) (n : Z) (d : closes) : list float64 :=
  match d !! name with
  | Some q => last_items n q
  | None => []
  end.

(** ** Correlation *)

(** [math.sqrt] *)
Definition f_sqrt (x : float64) : res float64 :=
  if flt x f_zero then Raise (PyExn ValueError "math domain error") else Ok (SFsqrt prec64 emax64 x).
Fixpoint squares (l : list float64) : res (list float64) :=
  match l with
  | [] => Ok []
  | x :: l => rbind (fpow x 2) (λ y, rbind (squares l) (λ ys, Ok (y :: ys)))
  end.
Definition mean (l : list float64) : float64 := (fsum l / f_of_Z (Z.of_nat (length l)))%f64.
Definition deviations (l : list float64) : list float64 := (λ x, (x - mean l)%f64) <$> l.
(** [pearson_r] *)
Definition pearson_r (s1 s2 : list float64) : res float64 :=
  let n := Z.min (Z.of_nat (length s1)) (Z.of_nat (length s2)) in
  if n <? 5 then Ok f_zero
  else
    let dx := deviations (last_items n s1) in
    let dy := deviations (last_items n s2) in
    let cov := fsum (zip_with fmul dx dy) in
    rbind (squares dx) (λ xs,
    rbind (squares dy) (λ ys,
    rbind (f_sqrt (fsum xs * fsum ys)%f64) (λ denom,
    Ok (if feqb denom f_zero then f_zero else py_round (cov / denom)%f64 4)))).

(** [are_correlated_pair] *)
Definition CORR_PAIRS : list (string * string) :=
  [("NIFTY", "BANKNIFTY"); ("NIFTY", "FINNIFTY"); ("BANKNIFTY", "FINNIFTY")]%string.
Definition are_correlated_pair (a b : string) : bool :=
  existsb (λ p : string * string, (String.eqb a p.1 && String.eqb b p.2) || (String.eqb a p.2 && String.eqb b p.1)) CORR_PAIRS.

(** ** The check *)

Record guard_config := GuardConfig { gc_threshold : float64; gc_warn : float64; gc_lookback : Z }.
Definition read_guard (c : pyrec) : res guard_config :=
  rbind (py_float (rget "correlation_threshold" (VFloat (lit 85 2)) c)) (λ t,
  rbind (py_float (rget "correlation_warn_threshold" (VFloat (lit 70 2)) c)) (λ w,
  rbind (py_int (rget "correlation_lookback_bars" (VInt 20) c)) (λ n, Ok (GuardConfig t w n)))).
Definition side_of (v : pyval) : string := str_upper (py_str v).
(** The two series, where they are to be compared. *)
Definition compared (g : guard_config) (new side : string) (p : string * pyrec) (d : closes) : option (list float64 * list float64) :=
  let a := get_closes new (gc_lookback g) d in
  let b := get_closes p.1 (gc_lookback g) d in
  if String.eqb p.1 new || negb (are_correlated_pair new p.1) || negb (String.eqb (side_of (rget "signal" (VStr "") p.2)) side)
     || (length a <? 5)%nat || (length b <? 5)%nat
  then None else Some (a, b).
Definition block_text (new other side : string) (r t : float64) : string :=
  cat ["Correlation guard: "; new; "/"; other; " both "; side; ", r="; fmt_f 3 r; " ≥ threshold="; fmt_f 2 t; " - blocked"].
Fixpoint check_each (g : guard_config) (new side : string) (ps : list (string * pyrec)) (d : closes) : res (bool * string) :=
  match ps with
  | [] => Ok (true, EmptyString)
  | p :: ps =>
      match compared g new side p d with
      | None => check_each g new side ps d
      | Some (a, b) =>
          rbind (pearson_r a b) (λ r,
            if fge r (gc_threshold g) then Ok (false, block_text new p.1 side r (gc_threshold g))
            else check_each g new side ps d)
      end
  end.
(** [check_portfolio_correlation] *)
Definition check_portfolio_correlation (new : string) (direction : pyval) (positions : pydict pyrec) (cfg : pyrec)
    (d : closes) : res (bool * string) :=
  if negb (truthy (rget "correlation_guard_enabled" (VBool true) cfg)) then Ok (true, EmptyString)
  else rbind (read_guard cfg) (λ g, check_each g new (side_of direction) (items positions) d).

(** [correlation_summary] *)
Record correlations := Correlations { cr_enabled : pyval; cr_threshold : pyval; cr_pairs : pydict float64 }.
Definition same_pair (p q : string * string) : bool := bool_decide (p = q) || bool_decide (p = (q.2, q.1)).
Fixpoint pairs_of {A} (l : list A) : list (A * A) :=
  match l with [] => [] | x :: l => (pair x <$> l) ++ pairs_of l end.
Fixpoint correlate (n : Z) (seen ps : list (string * string)) (d : closes) : res (list (string * float64)) :=
  match ps with
  | [] => Ok []
  | p :: ps =>
      if existsb (same_pair p) seen then correlate n seen ps d
      else
        rbind (pearson_r (get_closes p.1 n d) (get_closes p.2 n d)) (λ r,
        rbind (correlate n (p :: seen) ps d) (λ l, Ok ((cat [p.1; "/"; p.2], r) :: l)))
  end.
Definition correlation_summary (cfg : pyrec) (d : closes) : res correlations :=
  rbind (py_int (rget "correlation_lookback_bars" (VInt 20) cfg)) (λ n,
  rbind (correlate n [] (pairs_of (dkeys d)) d) (λ l,
  Ok (Correlations (rget "correlation_guard_enabled" (VBool true) cfg) (rget "correlation_threshold" (VFloat (lit 85 2)) cfg)
        (foldl (λ d p, <[p.1 := p.2]> d) ∅ l)))).
End guard.

Section proofs.
Context {PS : PySum} {PP : PyPow}.

(** ** The prices kept *)

(** The updates of a name, one after the other: the prices given for it. *)
Definition update : Type := string * list float64.
Definition run_updates (us : list update) (d : closes) : closes := foldl (λ d u, (update_closes u.1 u.2 d).2) d us.
Definition given (name : string) (us : list update) : list float64 :=
  filter (λ c, positive c = true) (us ≫= (λ u : update, if String.eqb u.1 name then u.2 else [])).

Lemma push_all cs q : foldl push (last_items CACHE_MAX q) cs = last_items CACHE_MAX (q ++ cs).
Proof.
  revert q. induction cs as [|c cs IH]; intros q; [by rewrite app_nil_r|]. cbn [foldl]. unfold push at 2.
  rewrite last_items_app by done. rewrite IH. by rewrite <- app_assoc.
Qed.
Lemma run_updates_snoc us u d : run_updates (us ++ [u]) d = (update_closes u.1 u.2 (run_updates us d)).2.
Proof. unfold run_updates. by rewrite foldl_app. Qed.
(** The prices kept are a window.  After any updates from an empty cache,
    the prices of a name are the last sixty positive ones it was given. *)
Theorem cache_is_window (us : list update) (name : string) :
  default [] (run_updates us ∅ !! name) = last_items CACHE_MAX (given name us).
Proof.
  induction us as [|u us IH] using rev_ind; [done|].
  rewrite run_updates_snoc. destruct u as [m cs]. unfold given in *. rewrite bind_app, filter_app.
  cbn [fst snd mbind list_bind app]. unfold update_closes, st_modify. cbn [snd]. destruct (String.eqb_spec m name) as [<-|Hn].
  - rewrite dict_lookup_insert_eq. cbn [default]. rewrite IH, push_all. by rewrite app_nil_r.
  - rewrite dict_lookup_insert_ne by done. rewrite IH. cbn. by rewrite app_nil_r.
Qed.

(** ** The coefficient is symmetric *)

Lemma fmul_comm x y : fmul x y = fmul y x.
Proof.
  unfold fmul, SFmul. destruct x as [sx|sx| |sx mx ex], y as [sy|sy| |sy my ey]; try (by rewrite xorb_comm); try done.
  by rewrite xorb_comm, Pos.mul_comm, Z.add_comm.
Qed.
Lemma zip_fmul_comm l k : zip_with fmul l k = zip_with fmul k l.
Proof. revert k. induction l as [|x l IH]; intros [|y k]; cbn; [done..|]. by rewrite fmul_comm, IH. Qed.
(** The order of the two series does not matter. *)
Theorem pearson_symmetric (x y : list float64) (r : float64) : pearson_r x y = Ok r → pearson_r y x = Ok r.
Proof.
  unfold pearson_r. rewrite (Z.min_comm (Z.of_nat (length y))). destruct (_ <? 5); [done|].
  destruct (squares (deviations (last_items _ x))) as [xs|] eqn:Ex; [|done].
  destruct (squares (deviations (last_items _ y))) as [ys|] eqn:Ey; [|done].
  cbn [rbind]. by rewrite (fmul_comm (fsum ys)), (zip_fmul_comm (deviations (last_items _ y))).
Qed.

(** ** The guard *)

Definition concern (g : guard_config) (new side : string) (d : closes) (p : string * pyrec) : Prop :=
  ∃ a b r, compared g new side p d = Some (a, b) ∧ pearson_r a b = Ok r ∧ fge r (gc_threshold g) = true.
Lemma check_each_spec g new side ps d b why :
  check_each g new side ps d = Ok (b, why) → (b = true ↔ ∀ p, p ∈ ps → ¬ concern g new side d p).
Proof.
  induction ps as [|p ps IH]; cbn [check_each]; intros H.
  { injection H as <- _. split; [|done]. intros _ p Hp. by apply not_elem_of_nil in Hp. }
  assert (¬ concern g new side d p → check_each g new side ps d = Ok (b, why) →
          (b = true ↔ ∀ q, q ∈ p :: ps → ¬ concern g new side d q)) as K.
  { intros Hp Hc. rewrite (IH Hc). split; [intros Ha q [->|Hq]%elem_of_cons; auto|]. intros Ha q Hq. apply Ha. by right. }
  destruct (compared g new side p d) as [[x y]|] eqn:Ec.
  2:{ apply K; [|done]. intros (? & ? & ? & E & _). congruence. }
  destruct (pearson_r x y) as [r|] eqn:Er; [|done]. cbn [rbind] in H. destruct (fge r _) eqn:Ef.
  - injection H as <- _. split; [done|]. intros Ha. exfalso. apply (Ha p); [by left|]. by exists x, y, r.
  - apply K; [|done]. intros (x' & y' & r' & E & E' & E''). rewrite Ec in E. injection E as <- <-. congruence.
Qed.
(** The guard allows exactly what is not correlated.  An enabled guard
    that answers allows a position if and only if none of the open positions
    is of a known correlated index, on the same side, with at least five
    prices kept for both and a coefficient of the prices at or above the
    threshold. *)
Theorem guard_exact (new : string) (direction : pyval) (positions : pydict pyrec) (cfg : pyrec) (g : guard_config)
    (d : closes) (b : bool) (why : string) :
  truthy (rget "correlation_guard_enabled" (VBool true) cfg) = true → read_guard cfg = Ok g →
  check_portfolio_correlation new direction positions cfg d = Ok (b, why) →
  (b = true ↔ ∀ p, p ∈ items positions → ¬ concern g new (side_of direction) d p).
Proof.
  intros He Hg. unfold check_portfolio_correlation. rewrite He, Hg. cbn [negb rbind]. apply check_each_spec.
Qed.
End proofs.

(** ** Concrete prices *)

#[local] Instance plain_sum : PySum := sum_left.
#[local] Instance plain_pow : PyPow := pow_by_mul.
Definition rising (n : nat) : list float64 := (λ i, f_of_Z (100 + Z.of_nat i)) <$> seq 0 n.
Definition zigzag (n : nat) : list float64 := (λ i, f_of_Z (100 + Z.of_nat (i mod 2))) <$> seq 0 n.
Definition held (name side : string) : pydict pyrec := PyDict [(name, PyDict [("signal", VStr side)])]%string.
Definition asked (prices : list update) (positions : pydict pyrec) : option bool :=
  match check_portfolio_correlation "BANKNIFTY" (VStr "CALL") positions ∅ (run_updates prices ∅) with
  | Ok (b, _) => Some b | Raise _ => None end.
Example same_way_blocked :
  asked [("NIFTY", rising 20); ("BANKNIFTY", rising 20)]%string (held "NIFTY" "call") = Some false ∧
  asked [("NIFTY", rising 20); ("BANKNIFTY", rising 20)]%string (held "NIFTY" "PUT") = Some true ∧
  asked [("NIFTY", rising 20); ("BANKNIFTY", zigzag 20)]%string (held "NIFTY" "CALL") = Some true ∧
  asked [("NIFTY", rising 4); ("BANKNIFTY", rising 20)]%string (held "NIFTY" "CALL") = Some true.
Proof. vm_compute. repeat split. Qed.
(** A cycle gives the whole frame again: early in the day the bars of the
    last look-back are counted twice, the prices of the other index not at
    the same bars. *)
Example bars_counted_twice :
  get_closes "NIFTY" 20 (run_updates [("NIFTY", rising 7); ("NIFTY", rising 8); ("NIFTY", rising 9)]%string ∅) =
  drop 4 (rising 7 ++ rising 8 ++ rising 9).
Proof. vm_compute. reflexivity. Qed.
(** An infinite price makes the coefficient no number, which blocks nothing. *)
Example infinite_price_passes :
  asked [("NIFTY", (rising 19 ++ [f_inf])%list); ("BANKNIFTY", (rising 19 ++ [f_inf])%list)]%string (held "NIFTY" "CALL") = Some true.
Proof. vm_compute. reflexivity. Qed.
Definition default_guard : guard_config := GuardConfig (lit 85 2) (lit 70 2) 20.
Lemma pearson_symmetric_witness : pearson_r (zigzag 9) (rising 6) = Ok f_zero ∨ ∃ r, pearson_r (zigzag 9) (rising 6) = Ok r.
Proof.
  right. destruct (pearson_r (rising 6) (zigzag 9)) as [r|e] eqn:E; [|vm_compute in E; discriminate].
  exists r. exact (pearson_symmetric _ _ _ E).
Defined.
Lemma guard_exact_witness :
  ¬ ∀ p, p ∈ items (held "NIFTY" "CALL") →
      ¬ concern default_guard "BANKNIFTY" "CALL" (run_updates [("NIFTY", rising 20); ("BANKNIFTY", rising 20)]%string ∅) p.
Proof.
  destruct (check_portfolio_correlation "BANKNIFTY" (VStr "CALL") (held "NIFTY" "CALL") ∅
    (run_updates [("NIFTY", rising 20); ("BANKNIFTY", rising 20)]%string ∅)) as [[b why]|e] eqn:E; [|vm_compute in E; discriminate].
  assert (b = false) as -> by (vm_compute in E; by injection E as <- _).
  intros H. pose proof (proj2 (guard_exact "BANKNIFTY" (VStr "CALL") (held "NIFTY" "CALL") ∅ default_guard _ false why eq_refl eq_refl E) H).
  discriminate.
Defined.
