(* ===== verification/RiskTypes.v ===== *)
(** * Data of the risk service, its limits and its position sizing

    [core/ports/risk/risk_port.py], the configuration of
    [core/services/risk_service.py] with its runtime changes, and the two
    managers of [core/risk/limits/manager.py] and
    [core/risk/sizing/manager.py]. *)
From S2P Require Import Prelude PyStr Float64 PyDict PyVal OrderTypes SafetyState CapitalManager.

(** ** The port's data *)

Inductive RiskDecision := ALLOWED | DENIED.

#[global] Instance RiskDecision_eq_dec : EqDecision RiskDecision.
Proof. solve_decision. Defined.

Record risk_evaluation := RiskEvaluation {
  re_decision : RiskDecision; re_reason : string;
  re_recommended : option Z; re_max_allowed : option Z; re_score : float64 }.

(** An evaluation without a size. *)
Definition verdict (d : RiskDecision) (reason : string) (score : float64) : risk_evaluation :=
  RiskEvaluation d reason None None score.

Record sizing_input := PositionSizingInput {
  si_symbol : string; si_entry_price : float64; si_stop_loss_price : float64;
  si_capital_available : float64; si_risk_per_trade : float64; si_lot_size : Z; si_volatility : float64 }.

Record risk_metrics := PortfolioRiskMetrics {
  pm_total_capital : float64; pm_used_capital : float64; pm_available_capital : float64;
  pm_daily_pnl : float64; pm_max_daily_loss : float64; pm_current_drawdown : float64;
  pm_max_drawdown : float64; pm_open_positions : Z; pm_max_open_positions : Z;
  pm_consecutive_losses : Z; pm_max_consecutive_losses : Z;
  pm_sector_exposure : pydict float64; pm_symbol_exposure : pydict float64 }.

(** ** Configuration *)

Record risk_config := RiskServiceConfig {
  rc_default_risk : float64; rc_max_risk : float64; rc_risk_mode : string; rc_fixed_amount : float64;
  rc_max_daily_loss : float64; rc_max_daily_trades : Z; rc_max_open : Z; rc_max_portfolio_risk : float64;
  rc_max_consecutive : Z; rc_loss_reset_hours : Z;
  rc_vix_low : float64; rc_vix_high : float64; rc_mult_low : float64; rc_mult_high : float64;
  rc_margin_factor : float64; rc_min_volume : float64; rc_max_spread : float64;
  rc_max_drawdown : float64; rc_drawdown_scale : bool; rc_vix_scale : bool;
  rc_portfolio_sl : float64; rc_single_loss : float64; rc_vix_halt : float64 }.

(** The defaults. *)
Definition default_config : risk_config :=
  RiskServiceConfig (lit 2 2) (lit 5 2) "PERCENT" (f_of_Z 150) (f_of_Z (-2000)) 10 1 (lit 25 2) 3 6
    (f_of_Z 15) (f_of_Z 35) (lit 12 1) (lit 6 1) (lit 8 1) (lit 5 1) (f_of_Z 2) (lit 20 2) true true
    (lit 75 2) (lit 8 2) (f_of_Z 30).

(** [LimitConfig] *)
Record limit_config := LimitConfig {
  lm_max_daily_loss : float64; lm_max_daily_trades : Z; lm_max_open : Z;
  lm_max_portfolio_risk : float64; lm_max_consecutive : Z }.

(** What [__init__] passes to the limits manager. *)
Definition limits_of (c : risk_config) : limit_config :=
  LimitConfig (rc_max_daily_loss c) (rc_max_daily_trades c) (rc_max_open c) (rc_max_portfolio_risk c)
    (rc_max_consecutive c).

(** The five limits that can be changed while running, with their bounds. *)
Inductive runtime_limit := LDailyLoss | LTradesDay | LMaxOpen | LPortfolioRisk | LConsecutive.

Definition field_map : pydict runtime_limit := PyDict
  [("MAX_DAILY_LOSS", LDailyLoss); ("MAX_TRADES_DAY", LTradesDay); ("MAX_OPEN", LMaxOpen);
   ("MAX_PORTFOLIO_RISK", LPortfolioRisk); ("MAX_CONSECUTIVE_LOSSES", LConsecutive)].

Definition with_limits (dl : float64) (tr op : Z) (pr : float64) (cl : Z) (c : risk_config) : risk_config :=
  RiskServiceConfig (rc_default_risk c) (rc_max_risk c) (rc_risk_mode c) (rc_fixed_amount c)
    dl tr op pr cl (rc_loss_reset_hours c) (rc_vix_low c) (rc_vix_high c) (rc_mult_low c) (rc_mult_high c)
    (rc_margin_factor c) (rc_min_volume c) (rc_max_spread c) (rc_max_drawdown c) (rc_drawdown_scale c)
    (rc_vix_scale c) (rc_portfolio_sl c) (rc_single_loss c) (rc_vix_halt c).

Definition get_limit (k : runtime_limit) (c : risk_config) : pyval :=
  match k with
  | LDailyLoss => VFloat (rc_max_daily_loss c)
  | LTradesDay => VInt (rc_max_daily_trades c)
  | LMaxOpen => VInt (rc_max_open c)
  | LPortfolioRisk => VFloat (rc_max_portfolio_risk c)
  | LConsecutive => VInt (rc_max_consecutive c)
  end.

(** The value written, once converted: a float for the two float limits. *)
Definition set_limit_cfg (k : runtime_limit) (z : Z) (x : float64) (c : risk_config) : risk_config :=
  match k with
  | LDailyLoss => with_limits x (rc_max_daily_trades c) (rc_max_open c) (rc_max_portfolio_risk c) (rc_max_consecutive c) c
  | LTradesDay => with_limits (rc_max_daily_loss c) z (rc_max_open c) (rc_max_portfolio_risk c) (rc_max_consecutive c) c
  | LMaxOpen => with_limits (rc_max_daily_loss c) (rc_max_daily_trades c) z (rc_max_portfolio_risk c) (rc_max_consecutive c) c
  | LPortfolioRisk => with_limits (rc_max_daily_loss c) (rc_max_daily_trades c) (rc_max_open c) x (rc_max_consecutive c) c
  | LConsecutive => with_limits (rc_max_daily_loss c) (rc_max_daily_trades c) (rc_max_open c) (rc_max_portfolio_risk c) z c
  end.
Definition set_limit_lim (k : runtime_limit) (z : Z) (x : float64) (l : limit_config) : limit_config :=
  match k with
  | LDailyLoss => LimitConfig x (lm_max_daily_trades l) (lm_max_open l) (lm_max_portfolio_risk l) (lm_max_consecutive l)
  | LTradesDay => LimitConfig (lm_max_daily_loss l) z (lm_max_open l) (lm_max_portfolio_risk l) (lm_max_consecutive l)
  | LMaxOpen => LimitConfig (lm_max_daily_loss l) (lm_max_daily_trades l) z (lm_max_portfolio_risk l) (lm_max_consecutive l)
  | LPortfolioRisk => LimitConfig (lm_max_daily_loss l) (lm_max_daily_trades l) (lm_max_open l) x (lm_max_consecutive l)
  | LConsecutive => LimitConfig (lm_max_daily_loss l) (lm_max_daily_trades l) (lm_max_open l) (lm_max_portfolio_risk l) z
  end.

Definition value_error {A} (msg : string) : res A := Raise (PyExn ValueError msg).

(** The conversion of a new value: to an integer without a fraction, or to a
    finite float; every failure is a [ValueError]. *)
Definition is_int_limit (k : runtime_limit) : bool :=
  match k with LTradesDay | LMaxOpen | LConsecutive => true | _ => false end.
Definition convert_int (key : string) (value : pyval) : res Z :=
  let invalid := value_error (cat ["Invalid value for "; key; ": "; py_str value]) in
  match py_float value with
  | Ok x => match int_of_float x with
            | Ok z => if z_eq_f z x then Ok z else invalid
            | Raise _ => invalid
            end
  | Raise _ => invalid
  end.
Definition convert_float (key : string) (value : pyval) : res float64 :=
  match py_float value with
  | Ok x => if is_finite x then Ok x else value_error (String.append key " must be a finite numeric value")
  | Raise _ => value_error (cat ["Invalid value for "; key; ": "; py_str value])
  end.

(** The bounds of a limit. *)
Definition int_limit_ok (key : string) (z : Z) : res Z :=
  if z <? 1 then value_error (String.append key " must be >= 1") else Ok z.
Definition max_loss_bound : float64 := lit (-1) 6.
Definition float_limit_ok (k : runtime_limit) (key : string) (x : float64) : res float64 :=
  match k with
  | LDailyLoss =>
      if fgt x max_loss_bound then value_error (String.append key " must be <= -1e-06") else Ok x
  | _ =>
      if flt x f_zero then value_error (String.append key " must be >= 0.0")
      else if fgt x f_one then value_error (String.append key " must be <= 1.0") else Ok x
  end.

Definition converted_limit (k : runtime_limit) (key : string) (value : pyval) : res (Z * float64) :=
  if is_int_limit k then
    match convert_int key value with
    | Ok z => match int_limit_ok key z with Ok z => Ok (z, f_zero) | Raise e => Raise e end
    | Raise e => Raise e
    end
  else
    match convert_float key value with
    | Ok x => match float_limit_ok k key x with Ok x => Ok (0, x) | Raise e => Raise e end
    | Raise e => Raise e
    end.

(** [update_risk_limit], on the two configurations it keeps in step: the
    previous value. *)
Definition update_risk_limit (name : string) (value : pyval) : ST (risk_config * limit_config) pyval := λ cs,
  let key := str_upper (strip name) in
  match field_map !! key with
  | None => (value_error (String.append "Unsupported runtime risk limit: " name), cs)
  | Some k =>
      match converted_limit k key value with
      | Ok (z, x) => (Ok (get_limit k cs.1), (set_limit_cfg k z x cs.1, set_limit_lim k z x cs.2))
      | Raise e => (Raise e, cs)
      end
  end.

(** ** [RiskLimitsManager] *)

Definition eval_text (a op b : string) : string := cat [a; op; b].

(** [check_daily_loss] *)
Definition check_daily_loss (l : limit_config) (daily_pnl : float64) : ST safety risk_evaluation :=
  if fle daily_pnl (lm_max_daily_loss l) then
    trip_hard_halt (cat ["Daily loss limit breached: "; repr_float daily_pnl; " <= "; repr_float (lm_max_daily_loss l)])
      "RiskLimitsManager.check_daily_loss" ;;
    mret (verdict DENIED (cat ["Daily loss limit reached: "; fmt_f 2 daily_pnl; " <= "; fmt_f 2 (lm_max_daily_loss l)]) f_one)
  else mret (verdict ALLOWED "Daily loss limit check passed" f_zero).

(** [check_consecutive_losses] *)
Definition check_consecutive_losses (l : limit_config) (n : Z) : ST safety risk_evaluation :=
  if lm_max_consecutive l <=? n then
    trip_hard_halt (cat ["Consecutive loss limit breached: "; str_of_Z n; " >= "; str_of_Z (lm_max_consecutive l)])
      "RiskLimitsManager.check_consecutive_losses" ;;
    mret (verdict DENIED (cat ["Consecutive loss limit reached: "; str_of_Z n; " >= "; str_of_Z (lm_max_consecutive l)]) f_one)
  else mret (verdict ALLOWED "Consecutive loss limit check passed" f_zero).

(** [check_portfolio_limits] *)
Definition check_portfolio_limits (l : limit_config) (open_count : Z) (current_risk : float64) : risk_evaluation :=
  if lm_max_open l <=? open_count then
    verdict DENIED (cat ["Maximum open positions reached: "; str_of_Z open_count; " >= "; str_of_Z (lm_max_open l)]) (lit 8 1)
  else if fgt current_risk (lm_max_portfolio_risk l) then
    verdict DENIED (cat ["Portfolio risk limit reached: "; fmt_pct 2 current_risk; " > "; fmt_pct 2 (lm_max_portfolio_risk l)]) (lit 9 1)
  else verdict ALLOWED "Portfolio limits check passed" (lit 1 1).

(** ** Sizing *)

(** [x / y], which raises on a zero divisor. *)
Definition py_div (x y : float64) : res float64 :=
  if is_zero y then Raise (PyExn ZeroDivisionError "float division by zero") else Ok (x / y)%f64.

(** [get_volatility_multiplier] and [_get_volatility_multiplier] *)
Definition get_volatility_multiplier (c : risk_config) (volatility : float64) : res float64 :=
  if fle volatility (rc_vix_low c) then Ok (rc_mult_low c)
  else if fge volatility (rc_vix_high c) then Ok (rc_mult_high c)
  else
    rbind (py_div (volatility - rc_vix_low c) (rc_vix_high c - rc_vix_low c))%f64 (λ ratio,
    let ratio := py_max f_zero (py_min f_one ratio) in
    Ok (rc_mult_low c + ratio * (rc_mult_high c - rc_mult_low c))%f64).

(** [calculate_size] of [PositionSizingManager] *)
Definition size_errors : list exn_class := [ValueError; TypeError; ZeroDivisionError].
Definition res_default {A} (d : A) (cs : list exn_class) (r : res A) : res A :=
  match r with Raise e => if catches cs e then Ok d else Raise e | _ => r end.

Definition calculate_size (i : sizing_input) (multiplier : float64) : res Z :=
  if fle (si_stop_loss_price i) f_zero || fle (si_entry_price i) f_zero then Ok 0
  else
    res_default 0 size_errors
      (let risk_amount := (si_capital_available i * si_risk_per_trade i)%f64 in
       let price_diff := fabs (si_entry_price i - si_stop_loss_price i)%f64 in
       if fle price_diff f_zero then Ok 0
       else
         rbind (py_div risk_amount (price_diff * f_of_Z (si_lot_size i))%f64) (λ raw,
         rbind (int_of_float raw) (λ n,
         rbind (int_of_float (f_of_Z (Z.max 1 n) * multiplier)%f64) (λ adjusted,
         Ok (Z.max 0 adjusted))))).

(** ** The two configurations stay in step *)

Definition in_step (cs : risk_config * limit_config) : Prop := cs.2 = limits_of cs.1.

Lemma set_limit_step k z x c : set_limit_lim k z x (limits_of c) = limits_of (set_limit_cfg k z x c).
Proof. by destruct k. Qed.

(** The limits a configuration may have at run time. *)
Record limits_ok (c : risk_config) : Prop := {
  lo_loss : is_finite (rc_max_daily_loss c) = true ∧ fgt (rc_max_daily_loss c) max_loss_bound = false;
  lo_trades : 1 ≤ rc_max_daily_trades c;
  lo_open : 1 ≤ rc_max_open c;
  lo_risk : is_finite (rc_max_portfolio_risk c) = true ∧ flt (rc_max_portfolio_risk c) f_zero = false ∧
            fgt (rc_max_portfolio_risk c) f_one = false;
  lo_consecutive : 1 ≤ rc_max_consecutive c }.

Lemma converted_ok k key v z x :
  converted_limit k key v = Ok (z, x) →
  if is_int_limit k then 1 ≤ z
  else is_finite x = true ∧
       match k with
       | LDailyLoss => fgt x max_loss_bound = false
       | _ => flt x f_zero = false ∧ fgt x f_one = false
       end.
Proof.
  unfold converted_limit. destruct (is_int_limit k) eqn:Ek.
  - destruct (convert_int key v) as [n|]; [|done]. unfold int_limit_ok.
    destruct (Z.ltb_spec n 1); [done|]. intros [= <- _]. done.
  - unfold convert_float. destruct (py_float v) as [y|]; [|done].
    destruct (is_finite y) eqn:Ey; [|done]. unfold float_limit_ok.
    destruct k; try discriminate Ek.
    + destruct (fgt y max_loss_bound) eqn:E1; [discriminate|]. intros [= _ <-]. exact (conj Ey E1).
    + destruct (flt y f_zero) eqn:E1; [discriminate|]. destruct (fgt y f_one) eqn:E2; [discriminate|].
      intros [= _ <-]. exact (conj Ey (conj E1 E2)).
Qed.

Lemma converted_error k key v e : converted_limit k key v = Raise e → exn_cls e = ValueError.
Proof.
  unfold converted_limit, convert_int, convert_float, int_limit_ok, float_limit_ok, value_error.
  repeat match goal with
  | |- context [match ?x with _ => _ end] =>
      lazymatch x with context [match _ with _ => _ end] => fail | _ => destruct x end
  end; intros H; (discriminate H || (injection H as <-; reflexivity)).
Qed.

(** A runtime change of a risk limit is all or nothing: it either raises
    [ValueError] and changes neither configuration, or it writes one limit,
    the same value in the service's and in the limits manager's
    configuration, so the two stay in step; and limits that were admissible
    (a negative daily loss, counts of at least one, a portfolio risk in
    [0, 1], all finite) stay admissible, whatever name and value are given. *)
Theorem update_risk_limit_safe (name : string) (value : pyval) (cs : risk_config * limit_config) :
  in_step cs → limits_ok cs.1 →
  let '(r, cs') := update_risk_limit name value cs in
  in_step cs' ∧ limits_ok cs'.1 ∧
  match r with
  | Raise e => exn_cls e = ValueError ∧ cs' = cs
  | Ok previous => ∃ k, field_map !! str_upper (strip name) = Some k ∧ previous = get_limit k cs.1 ∧
      ∀ k', k' ≠ k → get_limit k' cs'.1 = get_limit k' cs.1
  end.
Proof.
  intros Hs Hl. unfold update_risk_limit. destruct (field_map !! _) as [k|] eqn:Ek; [|by split_and!].
  destruct (converted_limit k _ value) as [[z x]|e] eqn:Ec.
  - apply converted_ok in Ec. split_and!.
    + unfold in_step in *. simpl. by rewrite Hs, set_limit_step.
    + destruct Hl as [H1 H2 H3 H4 H5]. destruct k; cbn [is_int_limit] in Ec;
        [exact (Build_limits_ok (set_limit_cfg LDailyLoss z x cs.1) Ec H2 H3 H4 H5)|exact (Build_limits_ok (set_limit_cfg LTradesDay z x cs.1) H1 Ec H3 H4 H5)
        |exact (Build_limits_ok (set_limit_cfg LMaxOpen z x cs.1) H1 H2 Ec H4 H5)|exact (Build_limits_ok (set_limit_cfg LPortfolioRisk z x cs.1) H1 H2 H3 Ec H5)
        |exact (Build_limits_ok (set_limit_cfg LConsecutive z x cs.1) H1 H2 H3 H4 Ec)].
    + exists k. split_and!; [done..|]. intros k' Hk. by destruct k, k'.
  - split_and!; [done..| |done]. by apply converted_error in Ec.
Qed.

Lemma update_risk_limit_safe_witness :
  in_step (update_risk_limit " max_open " (VStr "3") (default_config, limits_of default_config)).2 ∧
  rc_max_open (update_risk_limit " max_open " (VStr "3") (default_config, limits_of default_config)).2.1 = 3.
Proof.
  assert (limits_ok default_config) as Hl by (split; try (split_and!; reflexivity); simpl; lia).
  pose proof (update_risk_limit_safe " max_open " (VStr "3") (default_config, limits_of default_config)
    eq_refl Hl) as H.
  split; [exact (proj1 H)|reflexivity].
Defined.
