(* ===== verification/RiskService.v ===== *)
(** * The risk service

    [core/services/risk_service.py]: [RiskService] decides whether a signal
    may become a trade and how large it may be.  The sources of capital,
    positions, P&L, volatility, margin and VIX are injected callables, and
    the options Greeks engine is an object with one method: the class
    [RiskEnv] gives them on a state of their own. *)
From S2P Require Import Prelude PyStr Float64 PyDict PyVal OrderTypes SafetyState CapitalManager RiskTypes.

(** ** The service's surroundings *)

(** [PositionGreeksInput] *)
Record greeks_input := PositionGreeksInput {
  gi_symbol : string; gi_is_call : bool; gi_long : bool; gi_spot : float64; gi_strike : float64;
  gi_tte_days : float64; gi_iv : float64; gi_quantity_lots : Z }.

Inductive GreeksStatus := GREEKS_PASS | GREEKS_WARN | GREEKS_BLOCK.

Class RiskEnv (X : Type) := {
  re_get_capital : ST X float64;
  re_get_open_positions : ST X Z;
  re_get_daily_pnl : ST X float64;
  re_get_volatility : string → ST X float64;
  re_get_margin : string → pyval → ST X float64;
  re_get_live_vix : ST X float64;
  (** [check_pre_trade_greeks(proposed, existing)] *)
  re_check_greeks : greeks_input → list greeks_input → ST X (GreeksStatus * list string)
}.

(** A tracked position. *)
Record position := Position {
  po_quantity : Z; po_entry_price : float64; po_market_value : float64; po_timestamp : Z;
  po_is_call : bool; po_strike : float64; po_iv : float64; po_tte_days : float64 }.

Section service.
Context {X : Type}.

Record risk_world := RiskWorld {
  kw_safety : safety;
  kw_cfg : risk_config;
  kw_limits : limit_config;
  kw_index_map : pydict pyrec;
  kw_last_reset : Z;
  kw_peak_pnl : float64;
  kw_max_dd : float64;
  kw_positions : pydict position;
  kw_entries : list Z;
  kw_capital : option capital_manager;
  kw_ext : X }.

Definition set_safety (s : safety) (w : risk_world) : risk_world :=
  RiskWorld s (kw_cfg w) (kw_limits w) (kw_index_map w) (kw_last_reset w) (kw_peak_pnl w) (kw_max_dd w)
    (kw_positions w) (kw_entries w) (kw_capital w) (kw_ext w).
Definition set_config (c : risk_config * limit_config) (w : risk_world) : risk_world :=
  RiskWorld (kw_safety w) c.1 c.2 (kw_index_map w) (kw_last_reset w) (kw_peak_pnl w) (kw_max_dd w)
    (kw_positions w) (kw_entries w) (kw_capital w) (kw_ext w).
Definition set_last_reset (t : Z) (w : risk_world) : risk_world :=
  RiskWorld (kw_safety w) (kw_cfg w) (kw_limits w) (kw_index_map w) t (kw_peak_pnl w) (kw_max_dd w)
    (kw_positions w) (kw_entries w) (kw_capital w) (kw_ext w).
Definition set_tracking (peak dd : float64) (w : risk_world) : risk_world :=
  RiskWorld (kw_safety w) (kw_cfg w) (kw_limits w) (kw_index_map w) (kw_last_reset w) peak dd
    (kw_positions w) (kw_entries w) (kw_capital w) (kw_ext w).
Definition set_positions (p : pydict position) (w : risk_world) : risk_world :=
  RiskWorld (kw_safety w) (kw_cfg w) (kw_limits w) (kw_index_map w) (kw_last_reset w) (kw_peak_pnl w)
    (kw_max_dd w) p (kw_entries w) (kw_capital w) (kw_ext w).
Definition set_entries (l : list Z) (w : risk_world) : risk_world :=
  RiskWorld (kw_safety w) (kw_cfg w) (kw_limits w) (kw_index_map w) (kw_last_reset w) (kw_peak_pnl w)
    (kw_max_dd w) (kw_positions w) l (kw_capital w) (kw_ext w).
Definition set_capital (c : capital_manager) (w : risk_world) : risk_world :=
  RiskWorld (kw_safety w) (kw_cfg w) (kw_limits w) (kw_index_map w) (kw_last_reset w) (kw_peak_pnl w)
    (kw_max_dd w) (kw_positions w) (kw_entries w) (Some c) (kw_ext w).
Definition set_env (x : X) (w : risk_world) : risk_world :=
  RiskWorld (kw_safety w) (kw_cfg w) (kw_limits w) (kw_index_map w) (kw_last_reset w) (kw_peak_pnl w)
    (kw_max_dd w) (kw_positions w) (kw_entries w) (kw_capital w) x.

(** The clock is the one of the safety state. *)
#[global] Instance risk_world_clock : HasClock risk_world :=
  {| clock_of := λ w, sf_clk (kw_safety w);
     set_clock := λ c w, set_safety (set_clock c (kw_safety w)) w |}.

Definition RM (A : Type) : Type := ST risk_world A.
Definition on_env {A} (m : ST X A) : RM A := st_zoom kw_ext set_env m.
Definition on_safety {A} (m : ST safety A) : RM A := st_zoom kw_safety set_safety m.

Context `{!RiskEnv X}.

(** [update_risk_limit] of the running service *)
Definition update_limit (name : string) (value : pyval) : RM pyval :=
  st_zoom (λ w, (kw_cfg w, kw_limits w)) set_config (update_risk_limit name value).

(** ** Reading a signal *)

(** [safe_num(v, d)]: [float] with [d] for [None], NaN, an infinity, or a
    value that is no number; an integer beyond the floats raises. *)
Definition safe_num_opt (v : pyval) (d : option float64) : res (option float64) :=
  match v with
  | VNone => Ok d
  | _ =>
      match py_float v with
      | Ok x => Ok (if is_finite x then Some x else d)
      | Raise e => if catches [TypeError; ValueError] e then Ok d else Raise e
      end
  end.
Definition safe_num (v : pyval) (d : float64) : res float64 :=
  rbind (safe_num_opt v (Some d)) (λ o, Ok (default d o)).

(** [signal_data.get("direction", "").upper()] *)
Definition signal_direction (sig : pyrec) : res string :=
  match rget "direction" (VStr "") sig with
  | VStr s => Ok (str_upper s)
  | v => Raise (PyExn AttributeError (cat ["'"; type_name v; "' object has no attribute 'upper'"]))
  end.
Definition signal_num (key : string) (v : pyval) (d : float64) (sig : pyrec) : res float64 :=
  safe_num (rget key v sig) d.

(** [_get_lot_size] *)
Definition fallback_lots : pydict Z := PyDict
  [("NIFTY", 50); ("BANKNIFTY", 15); ("FINNIFTY", 40); ("SENSEX", 10)].
Definition get_lot_size (symbol : string) (map : pydict pyrec) : res Z :=
  let fallback := default 50 (fallback_lots !! symbol) in
  let configured := rget "lot" VNone (default ∅ (map !! str_upper symbol)) in
  if truthy configured then
    match py_int configured with
    | Ok n => Ok n
    | Raise e => if catches [TypeError; ValueError] e then Ok fallback else Raise e
    end
  else Ok fallback.
Definition lot_size_of (symbol : string) : RM Z := λ w, (get_lot_size symbol (kw_index_map w), w).

(** [_get_sector_for_symbol] *)
Definition sector_map : pydict string := PyDict
  [("NIFTY", "INDEX"); ("BANKNIFTY", "INDEX"); ("FINNIFTY", "INDEX"); ("RELIANCE", "ENERGY"); ("TCS", "IT");
   ("HDFCBANK", "FINANCIAL"); ("INFY", "IT"); ("ICICIBANK", "FINANCIAL"); ("KOTAKBANK", "FINANCIAL");
   ("LT", "INDUSTRIAL"); ("SBIN", "FINANCIAL"); ("BHARTIARTL", "TELECOM"); ("ASIANPAINT", "CONSUMER");
   ("MARUTI", "AUTOMOBILE"); ("HINDUNILVR", "CONSUMER"); ("AXISBANK", "FINANCIAL")].
Definition get_sector (symbol : string) : string := default "OTHER" (sector_map !! symbol).

(** ** Metrics *)

(** The exposures: per sector, per symbol, and in total. *)
Definition add_exposure (acc : pydict float64 * pydict float64 * float64) (p : string * position) :
    pydict float64 * pydict float64 * float64 :=
  let '(sectors, symbols, total) := acc in
  let e := po_market_value p.2 in
  let sector := get_sector p.1 in
  (<[sector := (default f_zero (sectors !! sector) + e)%f64]> sectors, <[p.1 := e]> symbols, (total + e)%f64).
Definition exposures (positions : pydict position) : pydict float64 * pydict float64 * float64 :=
  foldl add_exposure (∅, ∅, f_zero) (items positions).

(** What the metrics are when a source fails. *)
Definition blocking_metrics (c : risk_config) : risk_metrics :=
  PortfolioRiskMetrics f_zero f_zero f_zero (f_of_Z (-999999)) (rc_max_daily_loss c) f_one f_zero 999 0 999
    (rc_max_consecutive c) ∅ ∅.

Definition metric_errors : list exn_class := [KeyError; TypeError; ValueError; ZeroDivisionError].

(** The peak of the day's P&L and the deepest fall from it. *)
Definition track_pnl (daily_pnl : float64) (w : risk_world) : risk_world :=
  let drawdown := (kw_peak_pnl w - daily_pnl)%f64 in
  set_tracking (if fgt daily_pnl (kw_peak_pnl w) then daily_pnl else kw_peak_pnl w)
    (if fgt drawdown (kw_max_dd w) then drawdown else kw_max_dd w) w.

(** [get_portfolio_risk_metrics] *)
Definition get_portfolio_risk_metrics : RM risk_metrics :=
  st_try
    (capital ← on_env re_get_capital;
     daily_pnl ← on_env re_get_daily_pnl;
     open_positions ← on_env re_get_open_positions;
     w ← st_get;
     let drawdown := (kw_peak_pnl w - daily_pnl)%f64 in
     st_modify (track_pnl daily_pnl) ;;
     w ← st_get;
     let '(sectors, symbols, total) := exposures (kw_positions w) in
     mret (PortfolioRiskMetrics capital total (py_max f_zero (capital - total)%f64) daily_pnl
             (rc_max_daily_loss (kw_cfg w)) drawdown (kw_max_dd w) open_positions (rc_max_open (kw_cfg w))
             (sf_losses (kw_safety w)) (rc_max_consecutive (kw_cfg w)) sectors symbols))
    metric_errors
    (λ _, st_gets (λ w, blocking_metrics (kw_cfg w))).

(** ** Sizing *)

(** [validate_margin_requirements]; a failing source means no. *)
Definition not_positive (q : pyval) : bool :=
  match as_num q with Some (inl z) => z <=? 0 | Some (inr x) => fle x f_zero | None => false end.
Definition validate_margin_requirements (symbol : string) (quantity : pyval) (capital_available : float64) :
    RM bool :=
  st_try
    (if not_positive quantity then mret true
     else
       margin ← on_env (re_get_margin symbol quantity);
       w ← st_get;
       mret (fle margin (capital_available * rc_margin_factor (kw_cfg w))%f64))
    [TypeError; ValueError; AttributeError; OSError] (λ _, mret false).

(** [_get_max_lots_per_trade] *)
Definition lots_divisor : float64 := (lit 5 2 * f_of_Z 1000 * f_of_Z 50)%f64.
Definition max_lots_per_trade : RM Z :=
  capital ← on_env re_get_capital;
  w ← st_get;
  n ← st_lift (int_of_float ((capital * rc_max_risk (kw_cfg w)) / lots_divisor)%f64);
  mret (Z.max 1 n).

Definition lot_errors : list exn_class := [TypeError; ValueError; ZeroDivisionError; AttributeError].

(** [_calculate_max_lots_by_portfolio] *)
Definition max_lots_by_portfolio (c : risk_config) (i : sizing_input) (current : Z) : res Z :=
  res_default current lot_errors
    (let max_risk := (si_capital_available i * rc_max_portfolio_risk c)%f64 in
     let risk := (si_capital_available i * si_risk_per_trade i)%f64 in
     if fle risk f_zero then Ok current
     else if fgt risk max_risk then
       rbind (py_div max_risk risk) (λ scale,
       rbind (int_of_float (f_of_Z current * scale)%f64) (λ n, Ok (Z.max 1 n)))
     else Ok current).

(** [_calculate_max_lots_by_capital] *)
Definition max_lots_by_capital (c : risk_config) (i : sizing_input) : res Z :=
  res_default 0 lot_errors
    (let max_risk := (si_capital_available i * rc_max_risk c)%f64 in
     if fle (si_risk_per_trade i) f_zero then Ok 0
     else
       let price_diff := fabs (si_entry_price i - si_stop_loss_price i)%f64 in
       if fle price_diff f_zero || (si_lot_size i <=? 0) then Ok 0
       else
         rbind (py_div max_risk (price_diff * f_of_Z (si_lot_size i))%f64) (λ q,
         rbind (int_of_float q) (λ n, Ok (Z.max 0 n)))).

(** The lots that risk the intended amount at the stop, before any cap. *)
Definition base_lots (c : risk_config) (i : sizing_input) (price_diff : float64) : res Z :=
  let risk_amount := if String.eqb (str_upper (rc_risk_mode c)) "FIXED" then rc_fixed_amount c
                     else (si_capital_available i * si_risk_per_trade i)%f64 in
  rbind (py_div risk_amount (price_diff * f_of_Z (si_lot_size i))%f64) (λ raw,
  rbind (int_of_float raw) (λ n, Ok (Z.max 1 n))).

(** [calculate_position_size] *)
Definition calculate_position_size (i : sizing_input) : RM Z :=
  st_try
    (if fle (si_stop_loss_price i) f_zero || fle (si_entry_price i) f_zero then mret 0
     else
       w ← st_get;
       let c := kw_cfg w in
       let price_diff := fabs (si_entry_price i - si_stop_loss_price i)%f64 in
       if fle price_diff f_zero then mret 0
       else
         base ← st_lift (base_lots c i price_diff);
         mult ← st_lift (get_volatility_multiplier c (si_volatility i));
         adjusted ← st_lift (int_of_float (f_of_Z base * mult)%f64);
         by_portfolio ← st_lift (max_lots_by_portfolio c i adjusted);
         per_trade ← max_lots_per_trade;
         by_capital ← st_lift (max_lots_by_capital c i);
         mret (Z.max 0 (Z.min (Z.min (Z.min adjusted by_portfolio) per_trade) by_capital)))
    [ZeroDivisionError; TypeError; ValueError; AttributeError] (λ _, mret 0).

(** ** Trade counts *)

Definition usec_per_day : Z := 24 * usec_per_hour.
(** [now.replace(hour=0, minute=0, second=0, microsecond=0)] *)
Definition midnight (t : Z) : Z := t - t `mod` usec_per_day.

(** [record_trade_entry] *)
Definition record_trade_entry : RM unit :=
  now ← now_ist;
  st_modify (λ w, set_entries (kw_entries w ++ [now]) w).

Definition entries_since (t : Z) (l : list Z) : Z := Z.of_nat (length (filter (λ e, t ≤ e) l)).

(** [get_trades_today] *)
Definition get_trades_today : RM Z :=
  now ← now_ist;
  st_gets (λ w, entries_since (midnight now) (kw_entries w)).

(** ** The checks *)

Definition check_passed (what : string) (score : float64) : risk_evaluation := verdict ALLOWED what score.

(** [_check_daily_loss_limit] *)
Definition check_daily_loss_limit (m : risk_metrics) : RM risk_evaluation :=
  w ← st_get;
  let limit := rc_max_daily_loss (kw_cfg w) in
  if fle (pm_daily_pnl m) limit then
    on_safety (trip_hard_halt (cat ["Daily loss limit breached: "; repr_float (pm_daily_pnl m); " <= "; repr_float limit])
      "RiskService._check_daily_loss_limit") ;;
    mret (verdict DENIED (cat ["Daily loss limit reached: "; fmt_f 2 (pm_daily_pnl m); " <= "; fmt_f 2 limit]) f_one)
  else mret (check_passed "Daily loss limit check passed" f_zero).

(** [_check_consecutive_losses] *)
Definition check_consecutive (m : risk_metrics) : RM risk_evaluation :=
  w ← st_get;
  let limit := rc_max_consecutive (kw_cfg w) in
  let n := pm_consecutive_losses m in
  if limit <=? n then
    on_safety (trip_hard_halt (cat ["Consecutive loss limit breached: "; str_of_Z n; " >= "; str_of_Z limit])
      "RiskService._check_consecutive_losses") ;;
    mret (verdict DENIED (cat ["Consecutive loss limit reached: "; str_of_Z n; " >= "; str_of_Z limit]) f_one)
  else mret (check_passed "Consecutive loss limit check passed" f_zero).

(** [_check_daily_trade_count] *)
Definition check_daily_trade_count : RM risk_evaluation :=
  n ← get_trades_today;
  w ← st_get;
  let limit := rc_max_daily_trades (kw_cfg w) in
  mret (if limit <=? n then
          verdict DENIED (cat ["Daily trade count limit reached: "; str_of_Z n; " >= "; str_of_Z limit]) (lit 8 1)
        else check_passed "Daily trade count check passed" f_zero).

(** [_estimate_portfolio_risk] *)
Definition estimate_portfolio_risk : RM float64 :=
  st_try
    (m ← get_portfolio_risk_metrics;
     if fle (pm_total_capital m) f_zero then mret f_zero
     else st_lift (py_div (pm_used_capital m) (pm_total_capital m)))
    lot_errors (λ _, mret f_zero).

(** [_check_portfolio_limits] *)
Definition check_portfolio (m : risk_metrics) : RM risk_evaluation :=
  w ← st_get;
  let limit := rc_max_open (kw_cfg w) in
  if limit <=? pm_open_positions m then
    mret (verdict DENIED (cat ["Maximum open positions reached: "; str_of_Z (pm_open_positions m); " >= ";
                               str_of_Z limit]) (lit 8 1))
  else
    risk ← estimate_portfolio_risk;
    w ← st_get;
    let bound := rc_max_portfolio_risk (kw_cfg w) in
    mret (if fgt risk bound then
            verdict DENIED (cat ["Portfolio risk limit reached: "; fmt_pct 2 risk; " > "; fmt_pct 2 bound]) (lit 9 1)
          else check_passed "Portfolio limits check passed" (lit 1 1)).

(** A position as the Greeks engine takes it; [d_] are the signal's values,
    used where the stored one is no number. *)
Definition position_greeks (entry tte iv : float64) (p : string * position) : greeks_input :=
  let num x d := if is_finite x then x else d in
  PositionGreeksInput p.1 (po_is_call p.2) (0 <=? po_quantity p.2) (num (po_entry_price p.2) entry)
    (num (po_strike p.2) entry) (num (po_tte_days p.2) tte) (num (po_iv p.2) iv)
    (Z.max 1 (Z.abs (po_quantity p.2))).

(** [_check_greeks_limits] *)
Definition greeks_direction (direction : string) : option bool :=
  if str_mem direction ["CE"; "CALL"; "LONG"] then Some true
  else if str_mem direction ["PE"; "PUT"; "SHORT"] then Some false
  else None.
Definition greeks_errors : list exn_class := [ValueError; TypeError; AttributeError; KeyError; ArithmeticError].
Definition check_greeks (symbol : string) (sig : pyrec) : RM risk_evaluation :=
  st_try
    (direction ← st_lift (signal_direction sig);
     entry ← st_lift (signal_num "price" (VInt 0) f_zero sig);
     if negb (truthy_str direction) || fle entry f_zero then
       mret (check_passed "Greeks check skipped - missing direction or price" f_zero)
     else
       match greeks_direction direction with
       | None => mret (check_passed "Greeks check skipped - unknown option type" f_zero)
       | Some is_call =>
           let long := negb (str_mem direction ["SHORT"; "SELL"]) in
           tte ← st_lift (safe_num_opt (rget "tte_days" VNone sig) None);
           iv ← st_lift (safe_num_opt (rget "iv" VNone sig) None);
           strike ← st_lift (safe_num_opt (rget "strike" VNone sig) None);
           lots ← st_lift (rbind (signal_num "quantity" VNone f_one sig) int_of_float);
           let tte := default (f_of_Z 3) tte in
           let iv := default (lit 15 2) iv in
           let strike := default entry strike in
           w ← st_get;
           result ← on_env (re_check_greeks
             (PositionGreeksInput symbol is_call long entry strike tte iv (Z.max 1 lots))
             (position_greeks entry tte iv <$> items (kw_positions w)));
           let reasons := join "; " result.2 in
           mret match result.1 with
                | GREEKS_BLOCK => verdict DENIED (String.append "Greeks limit blocked: " reasons) (lit 9 1)
                | GREEKS_WARN => check_passed (String.append "Greeks limit warning: " reasons) (lit 4 1)
                | GREEKS_PASS => check_passed "Greeks limits check passed" f_zero
                end
       end)
    greeks_errors
    (λ e, mret (check_passed (String.append "Greeks check errored (non-blocking): " (exn_msg e)) (lit 2 1))).

(** [_check_margin_requirements]: the quantity it validates, the signal's or
    one sized by risk. *)
Definition risk_quantity (c : risk_config) (lot_size : Z) (entry : float64) (sig : pyrec) (m : risk_metrics) :
    res pyval :=
  let risk_amount := (pm_available_capital m * rc_default_risk c)%f64 in
  rbind (signal_num "stop_loss_pct" VNone (lit 5 2) sig) (λ pct,
  if fgt pct f_zero && fgt entry f_zero then
    let per_share := (entry * pct)%f64 in
    rbind (if fgt per_share f_zero then rbind (py_div risk_amount per_share) int_of_float else Ok 1) (λ n,
    Ok (VInt (Z.max 1 (Z.min n (lot_size * 5)))))
  else Ok (VInt 1)).
Definition intended_quantity (c : risk_config) (lot_size : Z) (entry : float64) (sig : pyrec) (m : risk_metrics) :
    res pyval :=
  rbind (safe_num_opt (rget "quantity" VNone sig) None) (λ q,
  match q with
  | Some x => if fle x f_zero then risk_quantity c lot_size entry sig m else Ok (VFloat x)
  | None => risk_quantity c lot_size entry sig m
  end).
Definition check_margin (symbol : string) (sig : pyrec) (m : risk_metrics) : RM risk_evaluation :=
  entry ← st_lift (signal_num "price" (VInt 0) f_zero sig);
  if fle entry f_zero then mret (verdict DENIED "Invalid price for margin check" (lit 5 1))
  else
    lot_size ← lot_size_of symbol;
    w ← st_get;
    quantity ← st_lift (intended_quantity (kw_cfg w) lot_size entry sig m);
    ok ← validate_margin_requirements symbol quantity (pm_available_capital m);
    mret (if ok : bool then check_passed "Margin requirements check passed" (lit 1 1)
          else verdict DENIED "Insufficient margin for position" (lit 7 1)).

(** [_check_trade_quality] *)
Definition check_quality (sig : pyrec) : RM risk_evaluation :=
  volume ← st_lift (signal_num "volume_ratio" VNone f_one sig);
  w ← st_get;
  let c := kw_cfg w in
  if flt volume (rc_min_volume c) then
    mret (verdict DENIED (cat ["Insufficient volume ratio: "; fmt_f 2 volume; " < "; fmt_f 2 (rc_min_volume c)]) (lit 6 1))
  else
    spread ← st_lift (signal_num "spread_pct" VNone f_zero sig);
    mret (if fgt spread (rc_max_spread c) then
            verdict DENIED (cat ["Excessive bid-ask spread: "; fmt_f 2 spread; "% > "; fmt_f 2 (rc_max_spread c); "%"]) (lit 6 1)
          else check_passed "Trade quality checks passed" (lit 1 1)).

(** [_check_position_sizing_limits]: it warns and never denies. *)
Definition check_sizing (sig : pyrec) : RM risk_evaluation :=
  entry ← st_lift (signal_num "price" (VInt 0) f_zero sig);
  stop ← st_lift (signal_num "stop_loss" (VInt 0) f_zero sig);
  if fgt entry f_zero && fgt stop f_zero then
    let price_diff := fabs (entry - stop)%f64 in
    mret (if flt price_diff (entry * lit 1 2)%f64 then
            RiskEvaluation ALLOWED
              (cat ["Very tight stop loss: "; fmt_pct 2 (price_diff / entry)%f64; " price distance"])
              (Some 1) None (lit 3 1)
          else check_passed "Position sizing limits check passed" f_zero)
  else mret (check_passed "Position sizing limits check passed" f_zero).

(** [_calculate_risk_score] *)
Definition risk_score_of (c : risk_config) (m : risk_metrics) (volatility strength : float64) : res float64 :=
  let s0 :=
    if flt (rc_max_daily_loss c) f_zero
    then (f_zero + py_min (lit 3 1) (fabs (pm_daily_pnl m) / fabs (rc_max_daily_loss c) * lit 3 1))%f64
    else f_zero in
  let s1 :=
    if fgt (pm_total_capital m) f_zero
    then (s0 + py_min (lit 2 1) (pm_used_capital m / pm_total_capital m * lit 2 1))%f64
    else s0 in
  let s2 := (s1 + py_min f_one (volatility / f_of_Z 50) * lit 2 1)%f64 in
  let s3 := (s2 + (hundred - strength) / hundred * lit 3 1)%f64 in
  Ok (py_min f_one (py_max f_zero s3)).
Definition calculate_risk_score (symbol : string) (sig : pyrec) (m : risk_metrics) : RM float64 :=
  st_try
    (volatility ← on_env (re_get_volatility symbol);
     strength ← st_lift (signal_num "strength" (VInt 50) (f_of_Z 50) sig);
     w ← st_get;
     st_lift (risk_score_of (kw_cfg w) m volatility strength))
    (KeyError :: lot_errors) (λ _, mret (lit 5 1)).

(** ** [evaluate_trade] *)

(** The checks in their order, up to the first that denies. *)
Fixpoint first_denied (checks : list (RM risk_evaluation)) : RM (option risk_evaluation) :=
  match checks with
  | [] => mret None
  | check :: checks' =>
      e ← check;
      if bool_decide (re_decision e = DENIED) then mret (Some e) else first_denied checks'
  end.
Definition risk_checks (symbol : string) (sig : pyrec) (m : risk_metrics) : list (RM risk_evaluation) :=
  [check_daily_loss_limit m; check_consecutive m; check_daily_trade_count; check_portfolio m;
   check_greeks symbol sig; check_margin symbol sig m; check_quality sig; check_sizing sig].

Definition evaluation_errors : list exn_class := [KeyError; TypeError; ValueError; AttributeError].
Definition evaluate_body (symbol : string) (sig : pyrec) (m : risk_metrics) : RM risk_evaluation :=
  direction ← st_lift (signal_direction sig);
  entry ← st_lift (signal_num "price" (VInt 0) f_zero sig);
  stop ← st_lift (signal_num "stop_loss" (VInt 0) f_zero sig);
  st_lift (signal_num "target" (VInt 0) f_zero sig) ;;
  st_lift (signal_num "strength" (VInt 0) f_zero sig) ;;
  if negb (truthy_str direction) || fle entry f_zero then
    mret (verdict DENIED "Invalid signal data: missing direction or price" f_zero)
  else
    denied ← first_denied (risk_checks symbol sig m);
    match denied with
    | Some e => mret e
    | None =>
        w ← st_get;
        lot_size ← lot_size_of symbol;
        volatility ← on_env (re_get_volatility symbol);
        size ← calculate_position_size
          (PositionSizingInput symbol entry stop (pm_available_capital m) (rc_default_risk (kw_cfg w)) lot_size
             volatility);
        score ← calculate_risk_score symbol sig m;
        mret (RiskEvaluation ALLOWED "All risk checks passed" (Some size) (Some size) score)
    end.
Definition evaluate_trade (symbol : string) (sig : pyrec) (m : risk_metrics) : RM risk_evaluation :=
  st_try (evaluate_body symbol sig m) evaluation_errors
    (λ e, mret (verdict DENIED (String.append "Risk evaluation error: " (exn_msg e)) f_one)).

(** ** Positions, days, equity *)

(** [update_position]: the optional values default as in the source. *)
Definition update_position (symbol : string) (quantity : Z) (entry_price : float64) (timestamp : Z)
    (option_type : string) (strike iv tte_days : option float64) : RM unit :=
  st_try
    (lot_size ← lot_size_of symbol;
     w ← st_get;
     let value := (f_of_Z quantity * entry_price * f_of_Z lot_size)%f64 in
     if quantity =? 0 then st_put (set_positions (delete symbol (kw_positions w)) w)
     else
       st_put (set_positions (<[symbol :=
         Position quantity entry_price value timestamp (negb (String.eqb option_type "PE"))
           (default entry_price strike) (default (lit 15 2) iv) (default (f_of_Z 3) tte_days)]>
         (kw_positions w)) w))
    evaluation_errors (λ _, mret ()).

(** [remove_position] *)
Definition remove_position (symbol : string) : RM unit :=
  st_modify (λ w, set_positions (delete symbol (kw_positions w)) w).

(** [reset_daily_metrics] *)
Definition reset_daily_metrics : RM unit :=
  st_modify (set_tracking f_zero f_zero) ;;
  now ← now_ist;
  w ← st_get;
  (if fge (total_seconds (now - kw_last_reset w) / f_of_Z 3600)%f64 (f_of_Z (rc_loss_reset_hours (kw_cfg w))) then
     on_safety reset_consecutive_losses ;;
     t ← now_ist;
     st_modify (set_last_reset t)
   else mret ()) ;;
  now ← now_ist;
  st_modify (λ w, set_entries (filter (λ e, midnight now ≤ e) (kw_entries w)) w).

(** [_get_capital_manager] *)
Definition get_capital_manager : RM capital_manager :=
  w ← st_get;
  match kw_capital w with
  | Some m => mret m
  | None =>
      capital ← on_env re_get_capital;
      w ← st_get;
      let c := kw_cfg w in
      m ← st_lift (new_manager capital (rc_max_daily_loss c) (rc_max_drawdown c) DAILY_WARN_PCT (rc_drawdown_scale c));
      st_modify (set_capital m) ;;
      mret m
  end.

Definition equity_errors : list exn_class := [ValueError; TypeError; AttributeError].

(** [scale_position]: on failure the lots pass unscaled. *)
Definition scale_position (base max : Z) : RM scale_result :=
  st_try (m ← get_capital_manager; st_lift (scale base max m)) equity_errors
    (λ _, mret (ScaleResult f_one base f_one f_one f_one f_one f_zero "Fallback: no scaling")).
(** [record_trade_result] *)
Definition record_trade_result (net_pnl : float64) (is_winner : bool) : RM unit :=
  st_try (m ← get_capital_manager; st_modify (set_capital (record_trade net_pnl is_winner m)))
    equity_errors (λ _, mret ()).
(** [lock_profits] *)
Definition service_lock_profits (lock_pct : float64) : RM float64 :=
  st_try
    (m ← get_capital_manager;
     let '(amount, m') := lock_profits lock_pct m in
     st_modify (set_capital m') ;; mret amount)
    equity_errors (λ _, mret f_zero).

(** [get_capital_state]: on failure the capital and the P&L as they are read. *)
Definition service_capital_state : RM (capital_report + float64 * float64) :=
  st_try (m ← get_capital_manager; mret (inl (get_state m))) equity_errors
    (λ _, capital ← on_env re_get_capital; pnl ← on_env re_get_daily_pnl; mret (inr (capital, pnl))).
(** [calculate_tier_position_size], without the text of its reasoning. *)
Definition calculate_tier_position_size (score : Z) (tier regime : string) (max_lots : Z) (capital : float64) :
    res position_spec :=
  match calculate score tier regime max_lots capital with
  | Ok s => Ok s
  | Raise e =>
      if catches [ImportError; ValueError; TypeError; AttributeError] e
      then Ok (PositionSpec f_zero f_zero f_zero f_zero 0)
      else Raise e
  end.

(** ** Policy gates *)

Definition minute_of_day (t : Z) : Z := (t `mod` usec_per_day) / (60 * usec_per_sec).

(** [is_in_trading_window], [should_skip_first_20_min], [should_skip_last_45_min] *)
Definition is_in_trading_window : RM bool :=
  now ← now_ist;
  let current := minute_of_day now in
  mret ((560 <=? current) && (current <=? 690) || (780 <=? current) && (current <=? 885)).
Definition should_skip_first_20_min : RM bool := now ← now_ist; mret (minute_of_day now <? 580).
Definition should_skip_last_45_min : RM bool := now ← now_ist; mret (875 <? minute_of_day now).

(** [get_min_score_for_regime] *)
Definition get_min_score_for_regime (regime : option string) : Z :=
  let reg := str_upper (str_or regime "") in
  if str_mem reg ["TRENDING"; "BULLISH"] then 68
  else if str_mem reg ["SIDEWAYS"; "NEUTRAL"] then 73
  else if str_mem reg ["RANGE"; "CHOPPY"] then 78
  else 73.

(** [should_block_false_signal] *)
Definition should_block_false_signal (score : Z) (iv_rank : float64) : bool :=
  (75 <=? score) && fgt iv_rank (f_of_Z 26).

(** [get_max_trades_per_day] *)
Definition get_max_trades_per_day (vix : option float64) (consecutive : Z) : RM Z :=
  v ← (match vix with Some v => mret v | None => on_env re_get_live_vix end);
  mret (if fgt v (f_of_Z 28) || (2 <=? consecutive) then 1 else if fgt v (f_of_Z 20) then 2 else 4).

(** [get_live_vix] *)
Definition get_live_vix : RM float64 :=
  st_try (on_env re_get_live_vix) [TypeError; ValueError; KeyError; AttributeError; OSError]
    (λ _, mret (f_of_Z 20)).

(** [health_check]: the live VIX and the metrics, or the text of any failure. *)
Definition service_health_check : RM ((float64 * risk_metrics) + string) :=
  st_try_any
    (on_env re_get_capital ;;
     on_env re_get_daily_pnl ;;
     on_env re_get_open_positions ;;
     vix ← get_live_vix;
     m ← get_portfolio_risk_metrics;
     mret (inl (vix, m)))
    (λ e, mret (inr (exn_msg e))).

(** [get_vix_size_multiplier] *)
Definition get_vix_size_multiplier (volatility : float64) : RM float64 :=
  w ← st_get;
  if rc_vix_scale (kw_cfg w) then st_lift (get_volatility_multiplier (kw_cfg w) volatility) else mret f_one.

(** [get_single_trade_loss_cap_lots] *)
Definition no_cap : Z := 1000000000.
Definition single_trade_cap (c : risk_config) (capital price_diff : float64) (lot_size : Z) : res Z :=
  res_default no_cap [TypeError; ValueError; ZeroDivisionError]
    (if fle price_diff f_zero || (lot_size <=? 0) || fle capital f_zero then Ok no_cap
     else
       rbind (py_div (capital * rc_single_loss c) (price_diff * f_of_Z lot_size))%f64 (λ q,
       rbind (int_of_float q) (λ n, Ok (Z.max 0 n)))).

(** [check_portfolio_sl_risk], [is_vix_soft_warning] *)
Definition check_portfolio_sl_risk (c : risk_config) (open_risk capital new_risk : float64) : bool :=
  if fle capital f_zero then true else fle (open_risk + new_risk)%f64 (capital * rc_portfolio_sl c)%f64.
Definition is_vix_soft_warning (c : risk_config) (vix : float64) : bool := fge vix (rc_vix_halt c).

(** [get_required_margin_per_lot] *)
Definition get_required_margin_per_lot (symbol : string) (price : float64) : RM float64 :=
  lot ← lot_size_of symbol;
  mret (price * f_of_Z lot * lit 20 2)%f64.

(** ** What an evaluation leaves alone *)

(** The configuration, the counted entries, the positions and the
    instruments stay; the clock only moves on by readings. *)
Record aside (w w' : risk_world) : Prop := {
  as_cfg : kw_cfg w' = kw_cfg w;
  as_entries : kw_entries w' = kw_entries w;
  as_positions : kw_positions w' = kw_positions w;
  as_map : kw_index_map w' = kw_index_map w;
  as_clock : ∃ k, clock_of w' = clock_after k (clock_of w) }.

#[local] Instance aside_preorder : PreOrder aside.
Proof.
  split; [by intros w; split; try done; exists 0%nat|].
  intros w1 w2 w3 [H1 H2 H3 H4 [k Hk]] [G1 G2 G3 G4 [j Hj]]. split; [congruence..|].
  exists (j + k)%nat. rewrite Hj, Hk. unfold clock_after. by rewrite Nat.iter_add.
Qed.

Lemma on_env_aside {A} (m : ST X A) : st_rel aside (on_env m).
Proof.
  intros w. unfold on_env, st_zoom. destruct (m (kw_ext w)) as [r x]. split; try done. by exists 0%nat.
Qed.
Lemma clock_aside : st_rel aside now_ist.
Proof. intros w. rewrite now_ist_total. split; try done. by exists 1%nat. Qed.
Lemma trip_aside r src : st_rel aside (on_safety (trip_hard_halt r src)).
Proof.
  intros w. unfold on_safety, st_zoom. rewrite trip_eq. simpl. destruct (sf_halt (kw_safety w)); split; try done;
    by exists 0%nat.
Qed.
Lemma lot_size_aside symbol : st_rel aside (lot_size_of symbol).
Proof. intros w. simpl. reflexivity. Qed.
Lemma track_aside pnl : st_rel aside (st_modify (track_pnl pnl)).
Proof. intros w. split; try done. by exists 0%nat. Qed.

Ltac asides := rel_auto ltac:(first [ apply on_env_aside | apply clock_aside | apply trip_aside | apply lot_size_aside
  | apply track_aside ]).

Lemma metrics_aside : st_rel aside get_portfolio_risk_metrics.
Proof.
  unfold get_portfolio_risk_metrics. asides.
Qed.
Lemma validate_margin_aside symbol q c : st_rel aside (validate_margin_requirements symbol q c).
Proof. unfold validate_margin_requirements. asides. Qed.
Lemma sizing_aside i : st_rel aside (calculate_position_size i).
Proof. unfold calculate_position_size, max_lots_per_trade. asides. Qed.
Lemma score_aside symbol sig m : st_rel aside (calculate_risk_score symbol sig m).
Proof. unfold calculate_risk_score. asides. Qed.

Lemma checks_aside symbol sig m : Forall (st_rel aside) (risk_checks symbol sig m).
Proof.
  unfold risk_checks. repeat apply Forall_cons_2; try by apply Forall_nil.
  - unfold check_daily_loss_limit. asides.
  - unfold check_consecutive. asides.
  - unfold check_daily_trade_count, get_trades_today. asides.
  - unfold check_portfolio, estimate_portfolio_risk. asides; apply metrics_aside.
  - unfold check_greeks. asides.
  - unfold check_margin. asides; apply validate_margin_aside.
  - unfold check_quality. asides.
  - unfold check_sizing. asides.
Qed.

Lemma first_denied_aside cs : Forall (st_rel aside) cs → st_rel aside (first_denied cs).
Proof. induction 1 as [|c cs Hc _ IH]; cbn [first_denied]; asides; done. Qed.

Lemma evaluate_aside symbol sig m : st_rel aside (evaluate_trade symbol sig m).
Proof.
  unfold evaluate_trade, evaluate_body. asides.
  - apply first_denied_aside, checks_aside.
  - apply sizing_aside.
  - apply score_aside.
Qed.

(** When no check denies, each of them ran, in a state that differs from the
    first only in what [aside] allows, and did not deny. *)
Lemma first_denied_none cs w w' :
  Forall (st_rel aside) cs → first_denied cs w = (Ok None, w') →
  aside w w' ∧ ∀ c, c ∈ cs → ∃ w1 w2 e, aside w w1 ∧ c w1 = (Ok e, w2) ∧ re_decision e = ALLOWED.
Proof.
  intros Hcs. revert w. induction Hcs as [|c cs Hc _ IH]; intros w.
  - intros [= <-]. split; [reflexivity|]. by intros ? ?%not_elem_of_nil.
  - cbn [first_denied]. unfold mbind, st_bind. specialize (Hc w).
    destruct (c w) as [[e|err] w1] eqn:Ec; [|done].
    destruct (bool_decide (re_decision e = DENIED)) eqn:Ed; [done|]. intros H.
    apply IH in H as [H1 H2]. simpl in Hc. split; [by etransitivity|].
    intros c' [->|Hc']%elem_of_cons.
    + exists w, w1, e. split_and!; [reflexivity|done|]. bools. by destruct (re_decision e).
    + destruct (H2 c' Hc') as (v1 & v2 & e' & G1 & G2 & G3). exists v1, v2, e'.
      split_and!; [by etransitivity|done|done].
Qed.

(** A check that stops the sequence denied. *)
Lemma first_denied_some cs w e w' : first_denied cs w = (Ok (Some e), w') → re_decision e = DENIED.
Proof.
  revert w. induction cs as [|c cs IH]; intros w; cbn [first_denied]; [done|].
  unfold mbind, st_bind. destruct (c w) as [[e1|err] w1]; [|done].
  destruct (bool_decide (re_decision e1 = DENIED)) eqn:Ed; [|apply IH].
  intros [= -> _]. by apply bool_decide_eq_true in Ed.
Qed.

(** ** What "allowed" means *)

(** A size [n] of lots is within the cap of the capital at risk: no lots, or
    no more than the whole part of the capital share [max_risk] over the loss
    of one lot between [entry] and [stop]. *)
Definition size_capped (max_risk : float64) (entry stop : float64) (lot n : Z) : Prop :=
  n = 0 ∨
  0 < n ∧ fle entry f_zero = false ∧ fle stop f_zero = false ∧ 0 < lot ∧
  ∃ q, int_of_float (max_risk / (fabs (entry - stop) * f_of_Z lot))%f64 = Ok q ∧ n ≤ q.

Lemma max_capital_positive c i k :
  max_lots_by_capital c i = Ok k → 0 < k →
  0 < si_lot_size i ∧
  int_of_float ((si_capital_available i * rc_max_risk c) /
    (fabs (si_entry_price i - si_stop_loss_price i) * f_of_Z (si_lot_size i)))%f64 = Ok k.
Proof.
  unfold max_lots_by_capital, res_default. destruct (fle (si_risk_per_trade i) f_zero); [intros [= <-]; lia|].
  destruct (fle (fabs _) f_zero || (si_lot_size i <=? 0)) eqn:E; [intros [= <-]; lia|].
  apply orb_false_iff in E as [_ E%Z.leb_gt]. unfold rbind, py_div. destruct (is_zero _); [intros H Hk|].
  { cbn in H. injection H as <-. lia. }
  destruct (int_of_float _) as [n|e]; [|destruct (catches _ e); [intros [= <-]; lia|done]].
  intros [= <-] Hk. split; [done|]. do 2 f_equal. lia.
Qed.

Lemma sizing_capped i w n w' :
  calculate_position_size i w = (Ok n, w') →
  size_capped (si_capital_available i * rc_max_risk (kw_cfg w))%f64 (si_entry_price i) (si_stop_loss_price i)
    (si_lot_size i) n.
Proof.
  unfold calculate_position_size, st_try. set (P := size_capped _ _ _ _).
  assert (∀ w1 : risk_world, (Ok 0, w1) = (Ok n, w') → P n) as H0.
  { intros w1 [= <- _]. by left. }
  destruct (fle (si_stop_loss_price i) f_zero) eqn:Hs; [apply H0|].
  destruct (fle (si_entry_price i) f_zero) eqn:He; [apply H0|]. cbn [orb].
  rewrite (st_bind_ok st_get _ w w w) by done.
  destruct (fle (fabs _) _); [apply H0|]. unfold mbind, st_bind, st_lift.
  destruct (base_lots _ _ _) as [base|e]; [|destruct (catches _ e); [apply H0|done]].
  destruct (get_volatility_multiplier _ _) as [mult|e]; [|destruct (catches _ e); [apply H0|done]].
  destruct (int_of_float _) as [adj|e]; [|destruct (catches _ e); [apply H0|done]].
  destruct (max_lots_by_portfolio _ _ _) as [bp|e]; [|destruct (catches _ e); [apply H0|done]].
  destruct (max_lots_per_trade w) as [[pt|e] w2]; [|destruct (catches _ e); [apply H0|done]].
  destruct (max_lots_by_capital _ _) as [bc|e] eqn:Ec; [|destruct (catches _ e); [apply H0|done]].
  intros [= <- _]. destruct (Z.le_gt_cases bc 0) as [Hbc|Hbc]; [left; lia|].
  destruct (max_capital_positive _ _ _ Ec Hbc) as [Hl Hq].
  set (m := Z.min _ bc). destruct (Z.le_gt_cases m 0); [left; lia|]. right.
  split_and!; [lia|done|done|done|]. exists bc. split; [done|]. unfold m. lia.
Qed.

(** A signal with a direction and a positive price. *)
Definition valid_signal (sig : pyrec) : Prop :=
  (∃ d, signal_direction sig = Ok d ∧ d ≠ "") ∧
  ∃ p, signal_num "price" (VInt 0) f_zero sig = Ok p ∧ fle p f_zero = false.

Lemma check_loss_allowed m w e w' :
  check_daily_loss_limit m w = (Ok e, w') → re_decision e = ALLOWED →
  fle (pm_daily_pnl m) (rc_max_daily_loss (kw_cfg w)) = false.
Proof.
  unfold check_daily_loss_limit. rewrite (st_bind_ok st_get _ w w w) by done.
  destruct (fle _ _); [|done]. intros (u & w1 & _ & H)%bind_inv. by injection H as <- _.
Qed.
Lemma check_consecutive_allowed m w e w' :
  check_consecutive m w = (Ok e, w') → re_decision e = ALLOWED →
  pm_consecutive_losses m < rc_max_consecutive (kw_cfg w).
Proof.
  unfold check_consecutive. rewrite (st_bind_ok st_get _ w w w) by done.
  destruct (Z.leb_spec (rc_max_consecutive (kw_cfg w)) (pm_consecutive_losses m)); [|done].
  intros (u & w1 & _ & H1)%bind_inv. by injection H1 as <- _.
Qed.
Lemma check_count_allowed w e w' :
  check_daily_trade_count w = (Ok e, w') → re_decision e = ALLOWED →
  entries_since (midnight (clk_now (clock_of w))) (kw_entries w) < rc_max_daily_trades (kw_cfg w).
Proof.
  unfold check_daily_trade_count, get_trades_today, mbind, st_bind. rewrite now_ist_total.
  unfold st_gets, st_get, mret, st_ret. simpl. intros [= <- _].
  change (clk_read (sf_clk (kw_safety w))).1 with (clk_now (sf_clk (kw_safety w))).
  destruct (Z.leb_spec (rc_max_daily_trades (kw_cfg w)) (entries_since (midnight (clk_now (sf_clk (kw_safety w)))) (kw_entries w)));
    [done|]. by intros _.
Qed.
Lemma check_portfolio_allowed m w e w' :
  check_portfolio m w = (Ok e, w') → re_decision e = ALLOWED → pm_open_positions m < rc_max_open (kw_cfg w).
Proof.
  unfold check_portfolio. rewrite (st_bind_ok st_get _ w w w) by done.
  destruct (Z.leb_spec (rc_max_open (kw_cfg w)) (pm_open_positions m)); [|done].
  by intros [= <- _].
Qed.
Lemma check_quality_allowed sig w e w' :
  check_quality sig w = (Ok e, w') → re_decision e = ALLOWED →
  ∃ v s, signal_num "volume_ratio" VNone f_one sig = Ok v ∧ signal_num "spread_pct" VNone f_zero sig = Ok s ∧
    flt v (rc_min_volume (kw_cfg w)) = false ∧ fgt s (rc_max_spread (kw_cfg w)) = false.
Proof.
  unfold check_quality. intros (v & w1 & [Hv ->]%st_lift_inv & H)%bind_inv.
  rewrite (st_bind_ok st_get _ w w w) in H by done.
  destruct (flt v _) eqn:E1; [by injection H as <- _|].
  apply bind_inv in H as (s & w2 & [Hs ->]%st_lift_inv & H).
  destruct (fgt s _) eqn:E2; injection H as <- _; [done|]. intros _. by exists v, s.
Qed.

(** The capital in use, as a share of the whole where that is positive, is
    within the limit. *)
Definition share_within (limit : float64) (m : risk_metrics) : Prop :=
  fle (pm_total_capital m) f_zero = true ∨ fgt (pm_used_capital m / pm_total_capital m)%f64 limit = false.
Lemma check_portfolio_share m w e w' pm w1 :
  check_portfolio m w = (Ok e, w') → re_decision e = ALLOWED → get_portfolio_risk_metrics w = (Ok pm, w1) →
  share_within (rc_max_portfolio_risk (kw_cfg w1)) pm.
Proof.
  unfold check_portfolio, share_within. rewrite (st_bind_ok st_get _ w w w) by done.
  destruct (_ <=? _); [by intros [= <- _]|]. intros H Ha Hm.
  destruct (fle (pm_total_capital pm) f_zero) eqn:Et; [by left|right].
  assert (estimate_portfolio_risk w = (Ok (pm_used_capital pm / pm_total_capital pm)%f64, w1)) as E.
  { unfold estimate_portfolio_risk, st_try. rewrite (st_bind_ok _ _ _ _ _ Hm), Et. unfold py_div, st_lift.
    assert (is_zero (pm_total_capital pm) = false) as ->; [|done]. by destruct (pm_total_capital pm) as [[]|[]| |]. }
  rewrite (st_bind_ok _ _ _ _ _ E), (st_bind_ok st_get _ w1 w1 w1) in H by done.
  destruct (fgt _ _); [|done]. by injection H as <- _.
Qed.

(** The quantity the margin is asked for is positive, and the one of the
    signal when that has a positive one. *)
Lemma intended_positive c lot p sig m q :
  intended_quantity c lot p sig m = Ok q →
  not_positive q = false ∧
  ∀ x, safe_num_opt (rget "quantity" VNone sig) None = Ok (Some x) → fle x f_zero = false → q = VFloat x.
Proof.
  unfold intended_quantity. destruct (safe_num_opt _ _) as [o|e]; [|done]. cbn [rbind].
  assert (∀ r, risk_quantity c lot p sig m = Ok r → not_positive r = false) as Hr.
  { intros r. unfold risk_quantity, rbind. destruct (signal_num _ _ _ _) as [pct|]; [|done].
    destruct (fgt pct f_zero && fgt p f_zero); [|by intros [= <-]].
    destruct (if fgt _ _ then _ else _) as [n|]; [|done]. intros [= <-]. cbn. lia. }
  destruct o as [x|]; [destruct (fle x f_zero) eqn:Ex|].
  - intros Hq. split; [by apply Hr|]. intros y [= <-]. by rewrite Ex.
  - intros [= <-]. split; [done|]. by intros y [= <-].
  - intros Hq. split; [by apply Hr|done].
Qed.
(** The margin source answered for the quantity, and its answer fits. *)
Definition margin_fits (symbol : string) (sig : pyrec) (available : float64) (w : risk_world) : Prop :=
  ∃ q margin x',
    (∀ x, safe_num_opt (rget "quantity" VNone sig) None = Ok (Some x) → fle x f_zero = false → q = VFloat x) ∧
    re_get_margin symbol q (kw_ext w) = (Ok margin, x') ∧
    fle margin (available * rc_margin_factor (kw_cfg w))%f64 = true.
Lemma check_margin_allowed symbol sig m w e w' :
  check_margin symbol sig m w = (Ok e, w') → re_decision e = ALLOWED → margin_fits symbol sig (pm_available_capital m) w.
Proof.
  unfold check_margin. intros (p & w1 & [Hp ->]%st_lift_inv & H)%bind_inv Ha.
  destruct (fle p f_zero); [by injection H as <- _|].
  apply bind_inv in H as (lot & w2 & Hlot & H). apply (f_equal snd) in Hlot. simpl in Hlot. subst w2.
  rewrite (st_bind_ok st_get _ w w w) in H by done.
  apply bind_inv in H as (q & w2 & [Hq ->]%st_lift_inv & H). apply intended_positive in Hq as [Hpos Hq].
  apply bind_inv in H as (ok & w2 & Hv & H). destruct ok; [|by injection H as <- _]. clear H.
  unfold validate_margin_requirements, st_try in Hv. rewrite Hpos in Hv. unfold mbind, st_bind, on_env, st_zoom in Hv.
  exists q. destruct (re_get_margin symbol q (kw_ext w)) as [[mg|err] x'] eqn:Em; cbn in Hv.
  - exists mg, x'. split; [done|]. split; [done|]. injection Hv as Hv _. by destruct w.
  - by destruct (catches _ err).
Qed.

(** How an evaluation comes to allow: every check ran on the way and passed,
    and the size is the sizing's. *)
Definition check_ran (w : risk_world) (c : RM risk_evaluation) : Prop :=
  ∃ w1 w2 e, aside w w1 ∧ c w1 = (Ok e, w2) ∧ re_decision e = ALLOWED.
Lemma allowed_inv symbol sig m w w' e :
  evaluate_trade symbol sig m w = (Ok e, w') → re_decision e = ALLOWED →
  valid_signal sig ∧ (∀ c, c ∈ risk_checks symbol sig m → check_ran w c) ∧
  ∃ p st lot vol n w2 w3, signal_num "price" (VInt 0) f_zero sig = Ok p ∧
    signal_num "stop_loss" (VInt 0) f_zero sig = Ok st ∧ get_lot_size symbol (kw_index_map w) = Ok lot ∧
    aside w w2 ∧ re_recommended e = Some n ∧
    calculate_position_size (PositionSizingInput symbol p st (pm_available_capital m) (rc_default_risk (kw_cfg w)) lot vol) w2
    = (Ok n, w3).
Proof.
  unfold evaluate_trade, st_try. destruct (evaluate_body _ _ _ w) as [[e'|err] w0] eqn:Eb.
  2:{ destruct (catches _ err); [|done]. by intros [= <- _]. }
  intros [= -> _] Ha. unfold evaluate_body in Eb.
  inv_bind Eb d w1 Hd. apply st_lift_inv in Hd as [Hd ->].
  inv_bind Eb p w1 Hp. apply st_lift_inv in Hp as [Hp ->].
  inv_bind Eb st w1 Hst. apply st_lift_inv in Hst as [Hst ->].
  inv_bind Eb u w1 Hu. apply st_lift_inv in Hu as [_ ->].
  inv_bind Eb u' w1 Hu. apply st_lift_inv in Hu as [_ ->].
  destruct (truthy_str d) eqn:Et; cbn [negb orb] in Eb; [|by injection Eb as <- _].
  destruct (fle p f_zero) eqn:Ep; [by injection Eb as <- _|].
  inv_bind Eb o w1 Hf. destruct o as [e1|].
  { injection Eb as <- _. apply first_denied_some in Hf. congruence. }
  apply first_denied_none in Hf as [Haside Hall]; [|apply checks_aside].
  apply truthy_str_spec in Et.
  rewrite (st_bind_ok st_get _ w1 w1 w1) in Eb by done.
  inv_bind Eb lot w2 Hlot. injection Hlot as Hlot <-.
  inv_bind Eb vol w3 Hvol. inv_bind Eb lots w4 Hsize. inv_bind Eb score w5 Hscore. injection Eb as <- _.
  pose proof (on_env_aside (re_get_volatility symbol) w1) as Av. rewrite Hvol in Av. simpl in Av.
  split_and!; [by split; eauto|exact Hall|].
  rewrite (as_map _ _ Haside) in Hlot. rewrite (as_cfg _ _ Haside) in Hsize.
  exists p, st, lot, vol, lots, w3, w4. split_and!; try done. by etransitivity.
Qed.

(** The count check of an allowed evaluation. *)
Lemma allowed_count symbol sig m w w' e :
  evaluate_trade symbol sig m w = (Ok e, w') → re_decision e = ALLOWED →
  ∃ k, entries_since (midnight (clk_now (clock_after k (clock_of w)))) (kw_entries w) <
       rc_max_daily_trades (kw_cfg w).
Proof.
  intros H Ha. destruct (allowed_inv _ _ _ _ _ _ H Ha) as (_ & Hc & _).
  destruct (Hc check_daily_trade_count) as (v5 & v6 & e3 & A3 & R3 & D3); [repeat constructor|].
  apply check_count_allowed in R3; [|done]. rewrite (as_cfg _ _ A3), (as_entries _ _ A3) in R3.
  destruct (as_clock _ _ A3) as [k Hk]. rewrite Hk in R3. by exists k.
Qed.

(** C9: The risk service fails closed.  If it allows a trade, the signal has
    a direction and a positive price, the day's P&L is not at the loss limit,
    the losing streak, the trades entered today (counted when the check ran)
    and the open positions are below their limits, the capital in use is
    within its share of the whole whenever the metrics could be read again,
    the margin source has answered with no more than its share of the
    available capital, volume and spread are within their limits, and the
    recommended size is zero or at most the capital share at risk over the
    loss of one lot at the stop.  No failure of the capital, P&L, margin or
    volatility sources can turn a refusal into a permission, whatever they
    answer.  The Greeks are not part of the statement: their check lets a
    failure pass. *)
Theorem allowed_is_checked (symbol : string) (sig : pyrec) (m : risk_metrics) (w w' : risk_world)
    (e : risk_evaluation) :
  evaluate_trade symbol sig m w = (Ok e, w') → re_decision e = ALLOWED →
  let c := kw_cfg w in
  valid_signal sig ∧
  fle (pm_daily_pnl m) (rc_max_daily_loss c) = false ∧
  pm_consecutive_losses m < rc_max_consecutive c ∧
  (∃ k, entries_since (midnight (clk_now (clock_after k (clock_of w)))) (kw_entries w) < rc_max_daily_trades c) ∧
  pm_open_positions m < rc_max_open c ∧
  (∃ w1, aside w w1 ∧ ∀ pm w2, get_portfolio_risk_metrics w1 = (Ok pm, w2) → share_within (rc_max_portfolio_risk c) pm) ∧
  (∃ w1, aside w w1 ∧ margin_fits symbol sig (pm_available_capital m) w1) ∧
  (∃ v s, signal_num "volume_ratio" VNone f_one sig = Ok v ∧ signal_num "spread_pct" VNone f_zero sig = Ok s ∧
     flt v (rc_min_volume c) = false ∧ fgt s (rc_max_spread c) = false) ∧
  ∃ n p st lot, re_recommended e = Some n ∧ signal_num "price" (VInt 0) f_zero sig = Ok p ∧
    signal_num "stop_loss" (VInt 0) f_zero sig = Ok st ∧ get_lot_size symbol (kw_index_map w) = Ok lot ∧
    size_capped (pm_available_capital m * rc_max_risk c)%f64 p st lot n.
Proof.
  intros H Ha. pose proof (allowed_count _ _ _ _ _ _ H Ha) as Hcount.
  destruct (allowed_inv _ _ _ _ _ _ H Ha)
    as (Hsig & Hc & p & st & lot & vol & n & w2 & w3 & Hp & Hst & Hlot & Av & Hn & Hsize).
  destruct (Hc (check_daily_loss_limit m)) as (v1 & v2 & e1 & A1 & R1 & D1); [repeat constructor|].
  destruct (Hc (check_consecutive m)) as (v3 & v4 & e2 & A2 & R2 & D2); [repeat constructor|].
  destruct (Hc (check_portfolio m)) as (v7 & v8 & e4 & A4 & R4 & D4); [repeat constructor|].
  destruct (Hc (check_quality sig)) as (v9 & v10 & e5 & A5 & R5 & D5); [repeat constructor|].
  destruct (Hc (check_margin symbol sig m)) as (v11 & v12 & e6 & A6 & R6 & D6); [repeat constructor|].
  apply check_loss_allowed in R1; [|done]. rewrite (as_cfg _ _ A1) in R1.
  apply check_consecutive_allowed in R2; [|done]. rewrite (as_cfg _ _ A2) in R2.
  assert (∀ pm u, get_portfolio_risk_metrics v7 = (Ok pm, u) → share_within (rc_max_portfolio_risk (kw_cfg u)) pm) as R4'
    by (intros pm u; by apply (check_portfolio_share m v7 e4 v8)).
  apply check_portfolio_allowed in R4; [|done]. rewrite (as_cfg _ _ A4) in R4.
  apply check_quality_allowed in R5; [|done]. rewrite (as_cfg _ _ A5) in R5.
  apply check_margin_allowed in R6; [|done].
  apply sizing_capped in Hsize. rewrite (as_cfg _ _ Av) in Hsize.
  split_and!; try done.
  - exists v7. split; [done|]. intros pm u Hm. pose proof (metrics_aside v7) as Am. rewrite Hm in Am. cbn in Am.
    rewrite <- (as_cfg _ _ A4), <- (as_cfg _ _ Am). by apply R4'.
  - by exists v11.
  - by exists n, p, st, lot.
Qed.

(** *** A breach stops trading *)

(** The signal's numbers convert: [evaluate_trade] reaches its checks. *)
Definition readable_signal (sig : pyrec) : Prop :=
  valid_signal sig ∧
  ∀ key, key ∈ ["stop_loss"; "target"; "strength"] → ∃ x, signal_num key (VInt 0) f_zero sig = Ok x.

Lemma evaluate_checks symbol sig m w :
  readable_signal sig →
  ∃ k, evaluate_body symbol sig m w = (first_denied (risk_checks symbol sig m) ≫= k) w ∧
    ∀ e w', k (Some e) w' = (Ok e, w').
Proof.
  intros [[(d & Hd & Hne) (p & Hp & Hpos)] Hnum].
  destruct (Hnum "stop_loss") as [st Hst]; [in_list|]. destruct (Hnum "target") as [t Ht]; [in_list|].
  destruct (Hnum "strength") as [g Hg]; [in_list|].
  unfold evaluate_body. rewrite Hd, Hp, Hst, Ht, Hg.
  assert (negb (truthy_str d) || fle p f_zero = false) as E.
  { rewrite Hpos. apply truthy_str_spec in Hne. by rewrite Hne. }
  eexists. split; [unfold mbind at 1 2 3 4 5, st_bind, st_lift; rewrite E; reflexivity|]. done.
Qed.

(** The two checks that trip the halt. *)
Definition loss_breached (m : risk_metrics) (c : risk_config) : bool :=
  fle (pm_daily_pnl m) (rc_max_daily_loss c).
Definition streak_breached (m : risk_metrics) (c : risk_config) : bool :=
  rc_max_consecutive c <=? pm_consecutive_losses m.

Lemma on_safety_trip r src w : ∃ s, on_safety (trip_hard_halt r src) w = (Ok (), set_safety s w) ∧ sf_halt s = true.
Proof.
  exists (trip_hard_halt r src (kw_safety w)).2. split; [|apply trip_halted].
  unfold on_safety, st_zoom. by rewrite trip_eq.
Qed.

Ltac take_trip w :=
  match goal with |- context [trip_hard_halt ?r ?src] =>
    let s := fresh "s" in let H := fresh in let Hh := fresh "Hh" in
    destruct (on_safety_trip r src w) as (s & H & Hh); rewrite (st_bind_ok _ _ _ _ _ H) end.

Lemma breach_denied symbol sig m w :
  loss_breached m (kw_cfg w) || streak_breached m (kw_cfg w) = true →
  ∃ e w', first_denied (risk_checks symbol sig m) w = (Ok (Some e), w') ∧ sf_halt (kw_safety w') = true.
Proof.
  intros Hb. unfold risk_checks. cbn [first_denied]. unfold loss_breached, streak_breached in Hb.
  destruct (fle (pm_daily_pnl m) (rc_max_daily_loss (kw_cfg w))) eqn:E1.
  - assert (∃ e w', check_daily_loss_limit m w = (Ok e, w') ∧ re_decision e = DENIED ∧ sf_halt (kw_safety w') = true)
      as (e & w' & H1 & H2 & H3).
    { unfold check_daily_loss_limit. rewrite (st_bind_ok st_get _ w w w) by done. rewrite E1. take_trip w.
      by eexists _, _. }
    exists e, w'. rewrite (st_bind_ok _ _ _ _ _ H1), H2. done.
  - cbn [orb] in Hb. rewrite (st_bind_ok _ _ w (check_passed "Daily loss limit check passed" f_zero) w).
    2:{ unfold check_daily_loss_limit. rewrite (st_bind_ok st_get _ w w w) by done. by rewrite E1. }
    change (bool_decide (re_decision (check_passed "Daily loss limit check passed" f_zero) = DENIED)) with false.
    cbv iota.
    assert (∃ e w', check_consecutive m w = (Ok e, w') ∧ re_decision e = DENIED ∧ sf_halt (kw_safety w') = true)
      as (e & w' & H1 & H2 & H3).
    { unfold check_consecutive. rewrite (st_bind_ok st_get _ w w w) by done. rewrite Hb. take_trip w.
      by eexists _, _. }
    exists e, w'. rewrite (st_bind_ok _ _ _ _ _ H1), H2. done.
Qed.

(** C10: A breached limit stops trading, not one trade.  When a readable
    signal is evaluated while the day's P&L is at or below the loss limit or
    the losing streak has reached its limit, the evaluation returns a denial,
    the hard halt is active afterwards, and it stays active through every
    history of the safety state that has no explicit clear. *)
Theorem breach_halts (symbol : string) (sig : pyrec) (m : risk_metrics) (w : risk_world) (os : list safety_op) :
  readable_signal sig →
  loss_breached m (kw_cfg w) || streak_breached m (kw_cfg w) = true →
  forallb (λ o, negb (is_clear o)) os = true →
  ∃ e w', evaluate_trade symbol sig m w = (Ok e, w') ∧ re_decision e = DENIED ∧
    sf_halt (run_safety_ops os (kw_safety w')) = true.
Proof.
  intros Hsig Hb Hos. destruct (evaluate_checks symbol sig m w Hsig) as (k & Hk & Hk').
  destruct (breach_denied symbol sig m w Hb) as (e & w' & Hf & Hh).
  exists e, w'. split_and!.
  - unfold evaluate_trade, st_try. rewrite Hk. unfold mbind, st_bind. by rewrite Hf, Hk'.
  - by eapply first_denied_some.
  - by apply run_safety_ops_halted.
Qed.

(** *** The trades of a day *)

(** What the callers do in a session: an attempt evaluates a signal on fresh
    metrics and, if it is allowed and the order is then filled, records the
    entry, as [PositionService.enter_trade] does. *)
Inductive day_op :=
| DayAttempt (symbol : string) (sig : pyrec) (filled : bool)
| DayMetrics
| DayUpdate (symbol : string) (quantity : Z) (price : float64) (ts : Z) (kind : string)
| DayRemove (symbol : string)
| DayReset.

Definition attempt (symbol : string) (sig : pyrec) (filled : bool) : RM unit :=
  m ← get_portfolio_risk_metrics;
  e ← evaluate_trade symbol sig m;
  if filled && bool_decide (re_decision e = ALLOWED) then record_trade_entry else mret ().
Definition run_day_op (o : day_op) : RM unit :=
  match o with
  | DayAttempt symbol sig filled => attempt symbol sig filled
  | DayMetrics => get_portfolio_risk_metrics ;; mret ()
  | DayUpdate symbol q p ts kind => update_position symbol q p ts kind None None None
  | DayRemove symbol => remove_position symbol
  | DayReset => reset_daily_metrics
  end.
Definition run_day (os : list day_op) (w : risk_world) : risk_world :=
  foldl (λ w o, (run_day_op o w).2) w os.

(** Every reading of the clock from here falls on the day that began at [d]. *)
Definition within_day (d : Z) (c : clock) : Prop := ∀ k, midnight (clk_now (clock_after k c)) = d.

(** The session's invariant. *)
Definition day_inv (d n : Z) (w : risk_world) : Prop :=
  within_day d (clock_of w) ∧ Z.max 0 (rc_max_daily_trades (kw_cfg w)) ≤ n ∧ entries_since d (kw_entries w) ≤ n.

Lemma within_day_after d c k : within_day d c → within_day d (clock_after k c).
Proof. intros H j. rewrite <- (H (j + k)%nat). unfold clock_after. by rewrite Nat.iter_add. Qed.
Lemma within_day_now d c : within_day d c → midnight (clk_read c).1 = d.
Proof. intros H. exact (H 0%nat). Qed.

Lemma aside_day d n w w' : aside w w' → day_inv d n w → day_inv d n w'.
Proof.
  intros [Hc He _ _ [k Hk]] (H1 & H2 & H3). unfold day_inv. rewrite Hc, He, Hk.
  split_and!; [by apply within_day_after|done..].
Qed.
Lemma aside_day_rel {A} d n (m : RM A) : st_rel aside m → st_rel (λ w w', day_inv d n w → day_inv d n w') m.
Proof. intros H w. apply aside_day, H. Qed.

Lemma entries_since_snoc d l t : entries_since d (l ++ [t]) ≤ entries_since d l + 1.
Proof.
  unfold entries_since. rewrite filter_app, length_app.
  pose proof (length_filter (λ e, d ≤ e) [t]). simpl in *. lia.
Qed.
Lemma entries_since_filter d l : entries_since d (filter (λ e, d ≤ e) l) = entries_since d l.
Proof.
  unfold entries_since. f_equal. f_equal. induction l as [|x l IH]; [done|].
  rewrite filter_cons. case_decide; [|done]. rewrite filter_cons_True by done. by f_equal.
Qed.

Lemma day_inv_entries d n w l :
  entries_since d l ≤ entries_since d (kw_entries w) → day_inv d n w → day_inv d n (set_entries l w).
Proof. intros Hl (H1 & H2 & H3). split_and!; [exact H1|exact H2|]. simpl. lia. Qed.
Lemma tick_aside w c : clock_of w = c → aside w (set_safety (set_clock (clk_read c).2 (kw_safety w)) w).
Proof. intros <-. split; try done. by exists 1%nat. Qed.

Lemma attempt_day d n symbol sig filled w : day_inv d n w → day_inv d n (attempt symbol sig filled w).2.
Proof.
  intros Hi. unfold attempt, mbind, st_bind.
  pose proof (aside_day d n _ _ (metrics_aside w) Hi) as Hm.
  destruct (get_portfolio_risk_metrics w) as [[m|?] w1]; [|exact Hm]. cbn [snd] in Hm. clear Hi w.
  pose proof (evaluate_aside symbol sig m w1) as Ha. destruct (evaluate_trade symbol sig m w1) as [[e|?] w2] eqn:Ee;
    cbn [snd] in Ha; [|by eapply aside_day].
  destruct filled; cbn [andb]; [|by eapply aside_day]. case_bool_decide as Hd; [|by eapply aside_day].
  destruct (allowed_count _ _ _ _ _ _ Ee Hd) as [k Hk]. destruct Hm as (Hday & Hlim & Hn).
  rewrite (Hday k) in Hk.
  unfold record_trade_entry, mbind, st_bind. rewrite now_ist_total. cbn [st_modify snd].
  destruct Ha as [Hc He _ _ [j Hj]].
  split_and!.
  - cbn. change (clk_read (sf_clk (kw_safety w2))).2 with (clock_after 1 (clock_of w2)).
    rewrite Hj. by apply within_day_after, within_day_after.
  - simpl. by rewrite Hc.
  - cbn [kw_entries set_entries]. change (kw_entries (set_clock _ w2)) with (kw_entries w2). rewrite He.
    etransitivity; [apply entries_since_snoc|]. lia.
Qed.

Ltac keep_day := let H1 := fresh in let H2 := fresh in let H3 := fresh in
  intros (H1 & H2 & H3); split_and!; [exact H1|exact H2|exact H3].

Lemma sweep_day d n :
  st_rel (λ w w', day_inv d n w → day_inv d n w')
    (now ← now_ist; st_modify (λ w, set_entries (filter (λ e, midnight now ≤ e) (kw_entries w)) w)).
Proof.
  intros w Hi. unfold mbind, st_bind. rewrite now_ist_total. cbn [st_modify snd].
  destruct Hi as (H1 & H2 & H3). rewrite (within_day_now _ _ H1). apply day_inv_entries.
  - by rewrite entries_since_filter.
  - split_and!; [|exact H2|exact H3]. exact (within_day_after _ _ 1 H1).
Qed.

Lemma day_op_inv d n o : st_rel (λ w w', day_inv d n w → day_inv d n w') (run_day_op o).
Proof.
  destruct o as [symbol sig filled| |symbol q p ts kind|symbol|]; cbn [run_day_op].
  - intros w. apply attempt_day.
  - apply st_rel_bind; [typeclasses eauto|apply aside_day_rel, metrics_aside|intros _].
    apply st_rel_ret. typeclasses eauto.
  - unfold update_position. intros w Hi. unfold st_try, mbind, st_bind, lot_size_of.
    destruct (get_lot_size _ _) as [lot|e]; cbn -[day_inv].
    + destruct (q =? 0); cbn -[day_inv]; revert Hi; keep_day.
    + by destruct (catches _ _).
  - intros w. unfold remove_position. cbn -[day_inv]. keep_day.
  - unfold reset_daily_metrics. apply st_rel_bind; [typeclasses eauto|intros w; cbn -[day_inv]; keep_day|intros _].
    apply st_rel_bind; [typeclasses eauto|apply aside_day_rel, clock_aside|intros now].
    apply st_rel_bind; [typeclasses eauto|apply st_rel_get; typeclasses eauto|intros w0].
    apply st_rel_bind; [typeclasses eauto| |intros _; apply sweep_day].
    destruct (fge _ _); [|apply st_rel_ret; typeclasses eauto].
    apply st_rel_bind; [typeclasses eauto|intros w; cbn -[day_inv]; keep_day|intros _].
    apply st_rel_bind; [typeclasses eauto|apply aside_day_rel, clock_aside|intros t].
    intros w. cbn -[day_inv]. keep_day.
Qed.

(** C30: The trades of a day are bounded.  In a session whose clock readings
    all fall on one day, whatever signals are tried, however metrics are
    read, positions updated and the daily reset run in between, and whatever
    the injected sources answer, the entries recorded since that day's
    midnight never exceed the daily trade limit (or the number there already
    were). *)
Theorem day_trades_bounded (d n : Z) (os : list day_op) (w : risk_world) :
  within_day d (clock_of w) →
  Z.max 0 (rc_max_daily_trades (kw_cfg w)) ≤ n → entries_since d (kw_entries w) ≤ n →
  entries_since d (kw_entries (run_day os w)) ≤ n.
Proof.
  intros H1 H2 H3. assert (day_inv d n (run_day os w)) as Hinv; [|by destruct Hinv as (_ & _ & ?)].
  unfold run_day. apply foldl_inv; [by split_and!|]. intros w' o _. apply day_op_inv.
Qed.
End service.
Arguments risk_world X : clear implicits.

(** ** A concrete service *)

(** Sources that answer from a record: capital, P&L, open positions. *)
Record demo_sources := DemoSources { ds_capital : float64; ds_pnl : float64; ds_open : Z }.
#[export] Instance demo_env : RiskEnv demo_sources := {
  re_get_capital := st_gets ds_capital;
  re_get_open_positions := st_gets ds_open;
  re_get_daily_pnl := st_gets ds_pnl;
  re_get_volatility := λ _, mret (f_of_Z 20);
  re_get_margin := λ _ _, mret (f_of_Z 100);
  re_get_live_vix := mret (f_of_Z 15);
  re_check_greeks := λ _ _, mret (GREEKS_PASS, [])
}.

Definition demo_risk_world (pnl : Z) (limit : Z) : risk_world demo_sources :=
  RiskWorld demo_safety (with_limits (f_of_Z (-2000)) limit 2 (lit 25 2) 3 default_config)
    (limits_of default_config) ∅ 0 f_zero f_zero ∅ [] None (DemoSources (f_of_Z 1000000) (f_of_Z pnl) 0).
Definition demo_signal : pyrec := PyDict
  [("direction", VStr "call"); ("price", VInt 100); ("stop_loss", VInt 90); ("target", VInt 120);
   ("strength", VInt 80); ("volume_ratio", VStr "1.5"); ("quantity", VInt 1)].
Definition demo_metrics (w : risk_world demo_sources) : risk_metrics :=
  match (get_portfolio_risk_metrics w).1 with Ok m => m | Raise _ => blocking_metrics (kw_cfg w) end.
Abbreviation demo_outcome w := (evaluate_trade "NIFTY" demo_signal (demo_metrics w) w).
Definition outcome_size (r : res risk_evaluation) : option (RiskDecision * option Z) :=
  match r with Ok e => Some (re_decision e, re_recommended e) | Raise _ => None end.

Example demo_allowed : outcome_size (demo_outcome (demo_risk_world 0 3)).1 = Some (ALLOWED, Some 20).
Proof. vm_compute. reflexivity. Qed.
Example demo_breached : outcome_size (demo_outcome (demo_risk_world (-2000) 3)).1 = Some (DENIED, None).
Proof. vm_compute. reflexivity. Qed.
(** A P&L that is not a number passes the loss check. *)
Example nan_pnl_allowed :
  let w := demo_risk_world 0 3 in
  let m := demo_metrics w in
  let m := PortfolioRiskMetrics (pm_total_capital m) (pm_used_capital m) (pm_available_capital m) f_nan
             (pm_max_daily_loss m) (pm_current_drawdown m) (pm_max_drawdown m) (pm_open_positions m)
             (pm_max_open_positions m) (pm_consecutive_losses m) (pm_max_consecutive_losses m) ∅ ∅ in
  outcome_size (evaluate_trade "NIFTY" demo_signal m w).1 = Some (ALLOWED, Some 20).
Proof. vm_compute. reflexivity. Qed.
(** A quantity beyond the floats is an [OverflowError], which no handler of
    the evaluation names. *)
Example huge_quantity_escapes :
  let w := demo_risk_world 0 3 in
  let sig := <["tte_days" := VInt (10 ^ 400)]> (<["direction" := VStr "X"]> demo_signal) in
  match (evaluate_trade "NIFTY" (<["strength" := VInt (10 ^ 400)]> sig) (demo_metrics w) w).1 with
  | Raise e => exn_cls e = OverflowError
  | Ok _ => False
  end.
Proof. vm_compute. reflexivity. Qed.

Lemma outcome_allowed (o : res risk_evaluation * risk_world demo_sources) k :
  outcome_size o.1 = Some (ALLOWED, k) → ∃ e, o = (Ok e, o.2) ∧ re_decision e = ALLOWED.
Proof. destruct o as [[e|err] w]; [|done]. intros [= H _]. by exists e. Qed.

Lemma allowed_is_checked_witness :
  ∃ e, (demo_outcome (demo_risk_world 0 3)).1 = Ok e ∧ pm_open_positions (demo_metrics (demo_risk_world 0 3)) < 2 ∧
    ∃ n p st lot, re_recommended e = Some n ∧ signal_num "price" (VInt 0) f_zero demo_signal = Ok p ∧
      signal_num "stop_loss" (VInt 0) f_zero demo_signal = Ok st ∧
      get_lot_size "NIFTY" (kw_index_map (demo_risk_world 0 3)) = Ok lot ∧
      size_capped (pm_available_capital (demo_metrics (demo_risk_world 0 3)) *
        rc_max_risk (kw_cfg (demo_risk_world 0 3)))%f64 p st lot n.
Proof.
  destruct (outcome_allowed _ _ demo_allowed) as (e & E & Ha).
  destruct (allowed_is_checked _ _ _ _ _ _ E Ha) as (_ & _ & _ & _ & H1 & _ & _ & _ & H2).
  exists e. split; [exact (f_equal fst E)|]. split; [exact H1|exact H2].
Defined.

Lemma demo_readable : readable_signal demo_signal.
Proof.
  split; [split|].
  - exists "CALL"%string. split; [reflexivity|discriminate].
  - eexists. split; vm_compute; reflexivity.
  - intros key Hk. rewrite !elem_of_cons, elem_of_nil in Hk.
    destruct Hk as [->|[->|[->|[]]]]; eexists; vm_compute; reflexivity.
Qed.

Lemma breach_halts_witness :
  let w := demo_risk_world (-2000) 3 in
  ∃ e w', evaluate_trade "NIFTY" demo_signal (demo_metrics w) w = (Ok e, w') ∧ re_decision e = DENIED ∧
    sf_halt (run_safety_ops [OpOutcome true; OpResetPnl; OpSetPnl f_zero; OpCheckPnl "x"] (kw_safety w')) = true.
Proof.
  intros w. refine (breach_halts "NIFTY" demo_signal (demo_metrics w) w
    [OpOutcome true; OpResetPnl; OpSetPnl f_zero; OpCheckPnl "x"] demo_readable _ eq_refl).
  vm_compute. reflexivity.
Defined.

(** A day's session: five attempts under a limit of three. *)
Definition demo_day : list day_op := [DayAttempt "NIFTY" demo_signal true; DayAttempt "NIFTY" demo_signal true; DayReset;
  DayAttempt "NIFTY" demo_signal true; DayMetrics; DayAttempt "NIFTY" demo_signal true; DayAttempt "NIFTY" demo_signal true].
Example demo_day_fills : entries_since 0 (kw_entries (run_day demo_day (demo_risk_world 0 3))) = 3.
Proof. vm_compute. reflexivity. Qed.
Lemma day_trades_bounded_witness :
  entries_since 0 (kw_entries (run_day demo_day (demo_risk_world 0 3))) <= 3.
Proof.
  refine (day_trades_bounded 0 3 demo_day (demo_risk_world 0 3) _ _ _); [|vm_compute; discriminate..].
  intros k. replace (clock_after k (clock_of (demo_risk_world 0 3))) with (Clock 0 []); [reflexivity|].
  induction k as [|k IH]; [reflexivity|]. unfold clock_after in *. rewrite Nat.iter_succ, <- IH. reflexivity.
Defined.
