(* ===== verification/Positions.v ===== *)
(** * Open positions: monitoring and exit

    The state of [PositionService] of [core/position_service.py], its
    services, and its exit side: [monitor_positions], [exit_position] and
    their helpers.  The entry gate is in [PositionEntry]. *)
From S2P Require Import Prelude PyStr Float64 PyDict PyVal OrderTypes SafetyState CapitalManager RiskTypes.

(** ** What the service is given *)

(** The arguments of an [OrderRequest]; every order is a market order. *)
Record order_call := OrderCall {
  oc_symbol : string; oc_direction : string; oc_strike : pyval; oc_lots : Z; oc_price : pyval; oc_key : string }.
(** The arguments of an [ExecutionContext]; exits pass none. *)
Record order_context := OrderContext {
  ox_signal_id : string; ox_strategy : string; ox_mode : ExecutionMode; ox_correlation : string }.

(** The arguments of [record_closed_trade]. *)
Record closed_trade := ClosedTrade {
  ct_ts : Z; ct_name : string; ct_direction : pyval; ct_entry : float64; ct_exit : float64; ct_qty : Z;
  ct_pnl : float64; ct_reason : string; ct_live : bool; ct_regime : pyval; ct_score : option Z; ct_version : string }.

(** The services run on their own state and on the process-wide safety
    state, which the risk service may trip. *)
Definition SX (X A : Type) : Type := ST (safety * X) A.

(** The operations of [RiskService] the position service calls. *)
Record risk_port (X : Type) := RiskPort {
  rp_metrics : SX X risk_metrics;
  rp_evaluate : string → pyrec → risk_metrics → SX X risk_evaluation;
  rp_trades_today : SX X Z;
  rp_scale : Z → Z → SX X Z;
  rp_vix_multiplier : float64 → SX X float64;
  rp_vix_soft : float64 → SX X bool;
  rp_margin_per_lot : string → pyval → SX X float64;
  rp_loss_cap : float64 → float64 → Z → SX X Z;
  rp_sl_risk_ok : float64 → float64 → float64 → SX X bool;
  rp_record_entry : string → SX X unit;
  rp_record_result : float64 → bool → SX X unit }.
Arguments rp_metrics {X}. Arguments rp_evaluate {X}. Arguments rp_trades_today {X}. Arguments rp_scale {X}.
Arguments rp_vix_multiplier {X}. Arguments rp_vix_soft {X}. Arguments rp_margin_per_lot {X}.
Arguments rp_loss_cap {X}. Arguments rp_sl_risk_ok {X}. Arguments rp_record_entry {X}.
Arguments rp_record_result {X}.

(** [ExecutionService]: [execute_order], and the number of orders still
    pending after [run_ack_watchdog]. *)
Record exec_port (X : Type) := ExecPort {
  xp_execute : order_call → option order_context → SX X order_result;
  xp_watchdog : SX X Z }.
Arguments xp_execute {X}. Arguments xp_watchdog {X}.

(** [PortfolioService] *)
Record portfolio_port (X : Type) := PortfolioPort {
  pp_available_margin : SX X float64;
  pp_update_pnl : float64 → SX X unit;
  pp_increment_trades : SX X unit }.
Arguments pp_available_margin {X}. Arguments pp_update_pnl {X}. Arguments pp_increment_trades {X}.

(** A tracker of re-entries after a stop loss. *)
Record reentry_port (X : Type) := ReentryPort {
  rt_has_stop : SX X bool;
  rt_record_reentry : SX X unit;
  rt_record_stop : pyval → pyval → SX X unit }.
Arguments rt_has_stop {X}. Arguments rt_record_reentry {X}. Arguments rt_record_stop {X}.

(** What the exit side needs; [None] is a service that was not given. *)
Record exit_services (X : Type) := ExitServices {
  es_risk : option (risk_port X);
  es_exec : option (exec_port X);
  es_portfolio : option (portfolio_port X);
  es_reentry : string → option (reentry_port X);
  es_ltp : option (string → SX X (option float64));
  es_notify : option (string → bool → SX X unit);
  (** [get_intraday_monitor(cfg).record_trade_close] *)
  es_intraday_close : float64 → bool → SX X unit;
  (** [record_closed_trade] on the configured database, if there is one *)
  es_trades_db : option (closed_trade → SX X unit) }.
Arguments es_risk {X}. Arguments es_exec {X}. Arguments es_portfolio {X}. Arguments es_reentry {X}.
Arguments es_ltp {X}. Arguments es_notify {X}. Arguments es_intraday_close {X}. Arguments es_trades_db {X}.

(** ** State *)

Record desk (X : Type) := Desk {
  dk_positions : pydict pyrec;
  dk_log : pydict string;
  dk_manual : gset string;
  dk_last_entry : pydict float64;
  dk_breakout : pydict pyrec;
  dk_safety : safety;
  dk_ext : X;
  (** The orders handed to the execution service so far; read by no
      operation. *)
  dk_sent : list order_call }.
Arguments Desk {X}. Arguments dk_positions {X}. Arguments dk_log {X}. Arguments dk_manual {X}.
Arguments dk_last_entry {X}. Arguments dk_breakout {X}. Arguments dk_safety {X}. Arguments dk_ext {X}.
Arguments dk_sent {X}.

Section desk.
Context {X : Type}.

Definition put_positions (p : pydict pyrec) (d : desk X) : desk X :=
  Desk p (dk_log d) (dk_manual d) (dk_last_entry d) (dk_breakout d) (dk_safety d) (dk_ext d) (dk_sent d).
Definition put_decision (name msg : string) (d : desk X) : desk X :=
  Desk (dk_positions d) (<[name := msg]> (dk_log d)) (dk_manual d) (dk_last_entry d) (dk_breakout d)
    (dk_safety d) (dk_ext d) (dk_sent d).
Definition put_manual (m : gset string) (d : desk X) : desk X :=
  Desk (dk_positions d) (dk_log d) m (dk_last_entry d) (dk_breakout d) (dk_safety d) (dk_ext d) (dk_sent d).
Definition put_last_entry (name : string) (t : float64) (d : desk X) : desk X :=
  Desk (dk_positions d) (dk_log d) (dk_manual d) (<[name := t]> (dk_last_entry d)) (dk_breakout d)
    (dk_safety d) (dk_ext d) (dk_sent d).
Definition put_world (p : safety * X) (d : desk X) : desk X :=
  Desk (dk_positions d) (dk_log d) (dk_manual d) (dk_last_entry d) (dk_breakout d) p.1 p.2 (dk_sent d).
Definition put_sent (l : list order_call) (d : desk X) : desk X :=
  Desk (dk_positions d) (dk_log d) (dk_manual d) (dk_last_entry d) (dk_breakout d) (dk_safety d) (dk_ext d) l.

#[global] Instance desk_clock : HasClock (desk X) :=
  {| clock_of := λ d, sf_clk (dk_safety d);
     set_clock := λ c d, put_world (set_clock c (dk_safety d), dk_ext d) d |}.

Definition DM (A : Type) : Type := ST (desk X) A.
(** A call of a service, and of [core/safety_state.py]. *)
Definition on_service {A} (m : SX X A) : DM A := st_zoom (λ d, (dk_safety d, dk_ext d)) put_world m.
Definition on_safety {A} (m : ST safety A) : DM A :=
  st_zoom dk_safety (λ s d, put_world (s, dk_ext d) d) m.

Definition soft_errors : list exn_class := [ValueError; TypeError; KeyError; AttributeError; IndexError; OSError].
(** [try: m  except soft_errors: pass] *)
Definition best_effort (m : DM unit) : DM unit := st_try m soft_errors (λ _, mret ()).
Definition when_given {P} (o : option P) (f : P → DM unit) : DM unit :=
  match o with Some p => f p | None => mret () end.

(** [_decision_log[name] = {"msg": msg}] *)
Definition log_decision (name msg : string) : DM unit := st_modify (put_decision name msg).

(** ** Configuration *)

Context (cfg : pyrec).

Definition flag (key : string) : bool := truthy (rget key (VBool false) cfg).
Definition cfg_float (key : string) (d : float64) : res float64 := py_float (rget key (VFloat d) cfg).
Definition cfg_int (key : string) (d : Z) : res Z := py_int (rget key (VInt d) cfg).
Definition sl_pct : res float64 := cfg_float "SL_PCT" (lit 92 2).
Definition target_pct : res float64 := cfg_float "TARGET_PCT" (lit 13 1).
Definition exit_order_retries : res Z := cfg_int "EXIT_ORDER_RETRIES" 3.

(** ** Exit *)

Context (sv : exit_services X) (live : bool).

(** [_send_notification] *)
Definition send_notification (m : string) (critical : bool) : DM unit :=
  when_given (es_notify sv) (λ send, best_effort (on_service (send m critical))).

(** [_get_underlying_ltp] *)
Definition get_underlying_ltp (name : string) : DM (option float64) :=
  match es_ltp sv with
  | Some resolve => st_try (on_service (resolve name)) soft_errors (λ _, mret None)
  | None => mret None
  end.
(** [ltp or d] *)
Definition price_or (o : option float64) (d : float64) : float64 :=
  match o with Some x => if is_zero x then d else x | None => d end.

(** [_read_position_under_lock]: the position with its direction, quantity,
    entry price and entry order. *)
Record held := Held {
  hd_pos : pyrec; hd_direction : pyval; hd_qty : Z; hd_entry : float64; hd_order : pyval }.
Definition read_position (name : string) : DM (option held) :=
  d ← st_get;
  match dk_positions d !! name with
  | Some p =>
      match items p with
      | [] => mret None
      | _ =>
          qty ← st_lift (py_int (rget "qty" (VInt 0) p));
          entry ← st_lift (py_float (rget "entry_price" (VInt 0) p));
          mret (Some (Held p (rget "direction" (VStr "CALL") p) qty entry (rget "entry_order_direction" (VStr "") p)))
      end
  | None => mret None
  end.

Definition exit_direction (h : held) : string :=
  if truthy (hd_order h) then (if py_eq (hd_order h) (VStr "BUY") then "SELL" else "BUY")
  else if py_eq (hd_direction h) (VStr "CALL") then "SELL" else "BUY".

(** The exit order; its key has no time in it. *)
Definition exit_key (name : string) (qty entry : Z) (reason : string) : string :=
  cat ["exit_"; name; "_"; str_of_Z qty; "_"; str_of_Z entry; "_"; reason].
Definition exit_order (name reason : string) (h : held) (price : float64) : res order_call :=
  rbind (int_of_float (hd_entry h)) (λ entry,
  Ok (OrderCall name (exit_direction h) (VFloat price) (hd_qty h) (VFloat price)
        (exit_key name (hd_qty h) entry reason))).

(** A call of [execute_order]. *)
Definition place (x : exec_port X) (o : order_call) (c : option order_context) : DM order_result :=
  st_modify (λ d, put_sent (dk_sent d ++ [o]) d) ;;
  on_service (xp_execute x o c).

Definition filled (r : order_result) : bool :=
  bool_decide (or_status r = OrderStatus.FILLED ∨ or_status r = OrderStatus.PARTIALLY_FILLED).

(** The exit price: the average of a fill, or the entry price. *)
Definition exit_fill (x : exec_port X) (o : order_call) (entry : float64) : DM float64 :=
  st_try
    (r ← place x o None;
     mret (if filled r then (if is_zero (or_average_price r) then entry else or_average_price r) else entry))
    soft_errors (λ _, mret entry).

Definition send_exit (o : order_call) (entry : float64) : DM float64 :=
  match es_exec sv with Some x => exit_fill x o entry | None => mret entry end.

(** The closed trade, written to the trades database. *)
Definition store_trade (name reason : string) (h : held) (exit_price pnl : float64) : DM unit :=
  when_given (es_trades_db sv) (λ record, best_effort
    (now ← now_ist;
     score ← (match rget "score" VNone (hd_pos h) with
              | VNone => mret None
              | v => s ← st_lift (py_int v); mret (Some s)
              end);
     on_service (record (ClosedTrade now name (hd_direction h) (hd_entry h) exit_price (hd_qty h) pnl reason live
       (rget "regime" VNone (hd_pos h)) score (py_str (rget "VERSION" (VStr "v2.60.0") cfg)))))).

(** What a successful exit reports to the other services. *)
Definition book_exit (name reason : string) (h : held) (exit_price pnl : float64) : DM unit :=
  let won := fgt pnl f_zero in
  when_given (es_portfolio sv) (λ p, best_effort
    (on_service (pp_update_pnl p pnl) ;; on_service (pp_increment_trades p))) ;;
  best_effort (on_safety (record_trade_outcome won) ;; mret ()) ;;
  (if flag "capital_manager_equity_scaling_enabled"
   then when_given (es_risk sv) (λ r, best_effort (on_service (rp_record_result r pnl won))) else mret ()) ;;
  (if flag "intraday_performance_monitor_enabled"
   then best_effort (on_service (es_intraday_close sv pnl won)) else mret ()) ;;
  store_trade name reason h exit_price pnl.

(** [_cleanup_position_entry] *)
Definition cleanup (name : string) (p : pyrec) (exit_failed : bool) : DM unit :=
  if exit_failed then
    let p1 := <["exit_failed" := VBool true]> p in
    st_modify (λ d, put_positions (<[name := p1]> (dk_positions d)) d) ;;
    n ← st_lift (v_plus (rget "exit_retries" (VInt 0) p1) 1);
    st_modify (λ d, put_positions (<[name := <["exit_retries" := n]> p1]> (dk_positions d)) d) ;;
    limit ← st_lift exit_order_retries;
    spent ← st_lift (v_ge_z n limit);
    if spent : bool then st_modify (λ d, put_positions (delete name (dk_positions d)) d) else mret ()
  else st_modify (λ d, put_positions (delete name (dk_positions d)) d).

(** [exit_position] *)
Definition exit_position (name reason : string) : DM unit :=
  h ← read_position name;
  match h with
  | None => mret ()
  | Some h =>
      ltp ← get_underlying_ltp name;
      o ← st_lift (exit_order name reason h (price_or ltp (hd_entry h)));
      exit_price ← send_exit o (hd_entry h);
      let exit_failed := feqb exit_price (hd_entry h) && negb (String.eqb reason "MANUAL") in
      pnl ← (if exit_failed then mret f_zero
             else q ← st_lift (float_of_Z (hd_qty h));
                  let pnl := ((exit_price - hd_entry h) * q)%f64 in
                  book_exit name reason h exit_price pnl ;; mret pnl);
      d ← st_get;
      (if dmem name (dk_positions d) then cleanup name (hd_pos h) exit_failed else mret ()) ;;
      st_lift exit_order_retries ;;
      if exit_failed then mret ()
      else send_notification (cat ["EXIT "; name; ": "; reason; " @ "; fmt_f 2 exit_price; " P&L="; fmt_f 0 pnl]) false
  end.

(** ** Monitoring *)

(** [_record_stop_loss] *)
Definition record_stop_loss (name : string) (p : pyrec) : DM unit :=
  when_given (es_reentry sv name) (λ t, best_effort
    (on_service (rt_record_stop t (rget "direction" (VStr "CALL") p) (rget "score" (VInt 0) p)))).

(** The peak of the underlying so far. *)
Definition with_peak (p : pyrec) (ltp : float64) : res pyrec :=
  let p1 := match rget "peak_underlying" VNone p with
            | VNone => <["trail_activated" := VBool false]> (<["peak_underlying" := VFloat ltp]> p)
            | _ => p
            end in
  let peak := rget "peak_underlying" VNone p1 in
  rbind (f_gt_v ltp peak) (λ higher,
  Ok (<["peak_underlying" := if higher : bool then VFloat ltp else peak]> p1)).

Record levels := Levels {
  lv_sl : float64; lv_target : float64; lv_trail : float64; lv_activate : float64; lv_take_profit : bool }.
Definition read_levels : res levels :=
  rbind sl_pct (λ sl, rbind target_pct (λ tg,
  rbind (cfg_float "TRAIL_PCT" (lit 93 2)) (λ tr, rbind (cfg_float "TRAIL_ACTIVATE" (lit 11 1)) (λ ac,
  Ok (Levels sl tg tr ac (truthy (rget "TAKE_PROFIT_AND_STOP" (VBool true) cfg))))))).

Definition f_two : float64 := f_of_Z 2.
Definition move_pct (ltp entry : float64) : float64 := ((ltp - entry) / entry)%f64.

(** Which exit a move asks for, before the trailing stop; [call] is
    [direction == "CALL"]. *)
Inductive exit_signal := STOP_HIT | TARGET_HIT | NO_HIT.
Definition fixed_exit (l : levels) (call : bool) (move : float64) : exit_signal :=
  if call then
    if fle move (fopp (f_one - lv_sl l)%f64) then STOP_HIT
    else if lv_take_profit l && fge move (lv_target l - f_one)%f64 then TARGET_HIT
    else NO_HIT
  else
    if fge move (f_one - lv_sl l)%f64 then STOP_HIT
    else if lv_take_profit l && fle move (fopp (lv_target l - f_one)%f64) then TARGET_HIT
    else NO_HIT.
(** The trailing stop: its activation, its level, and whether it is hit. *)
Definition trail_starts (l : levels) (call : bool) (move : float64) : bool :=
  if call then fge move (lv_activate l - f_one)%f64 else fle move (fopp (lv_activate l - f_one)%f64).
Definition trail_level (l : levels) (call : bool) (peak : float64) : float64 :=
  if call then (peak * lv_trail l)%f64 else (peak * (f_two - lv_trail l))%f64.
Definition trail_hit (l : levels) (call : bool) (peak ltp : float64) : bool :=
  if call then fle ltp (trail_level l call peak) else fge ltp (trail_level l call peak).

Definition trailing_exit (l : levels) (call : bool) (p : pyrec) (ltp : float64) : res bool :=
  if truthy (rget "trail_activated" VNone p)
  then rbind (num_operand (rget "peak_underlying" VNone p)) (λ peak, Ok (trail_hit l call peak ltp))
  else Ok false.

Definition set_position (name : string) (p : pyrec) : DM unit :=
  st_modify (λ d, put_positions (<[name := p]> (dk_positions d)) d).

(** The age limit of a position that no price has closed. *)
Definition check_age (name : string) (p : pyrec) : DM unit :=
  entry_time ← st_lift (py_float (rget "entry_time" (VInt 0) p));
  max_age ← st_lift (cfg_int "MAX_POSITION_AGE" 9999);
  if (max_age <? 9999) && fgt entry_time f_zero then
    now ← time_time;
    if f_ge_z ((now - entry_time) / f_of_Z 60)%f64 max_age then exit_position name "MAX_AGE" else mret ()
  else mret ().

(** The body of the loop for a position whose price is known. *)
Definition monitor_priced (name : string) (p : pyrec) (ltp : float64) : DM unit :=
  entry ← st_lift (py_float (rget "underlying_entry_price" (VInt 0) p));
  if fle entry f_zero then mret ()
  else
    l ← st_lift read_levels;
    let call := py_eq (rget "direction" (VStr "CALL") p) (VStr "CALL") in
    p1 ← st_lift (with_peak p ltp);
    set_position name p1 ;;
    m ← st_lift (py_div (ltp - entry)%f64 entry);
    match fixed_exit l call m with
    | STOP_HIT => record_stop_loss name p1 ;; exit_position name "SL_HIT"
    | TARGET_HIT => exit_position name "TARGET_HIT"
    | NO_HIT =>
        let p2 := if negb (truthy (rget "trail_activated" VNone p1)) && trail_starts l call m
                  then <["trail_activated" := VBool true]> p1 else p1 in
        set_position name p2 ;;
        hit ← st_lift (trailing_exit l call p2 ltp);
        if hit : bool then exit_position name "TRAIL_HIT" else check_age name p2
    end.

Definition monitor_one (np : string * pyrec) : DM unit :=
  st_try
    (ltp ← get_underlying_ltp np.1;
     match ltp with
     | None => mret ()
     | Some ltp => monitor_priced np.1 np.2 ltp
     end)
    soft_errors (λ _, mret ()).

(** [monitor_positions] *)
Definition monitor_positions : DM unit :=
  d ← st_get;
  st_iter monitor_one (items (dk_positions d)).
End desk.
Arguments DM : clear implicits.

(** ** What the exit side may do to the book *)

(** The terms of a trade, which nothing changes while it is open. *)
Definition trade_terms (p : pyrec) : pyval * pyval * pyval * pyval :=
  (rget "direction" (VStr "CALL") p, rget "qty" (VInt 0) p, rget "entry_price" (VInt 0) p,
   rget "entry_order_direction" (VStr "") p).
(** A text field of a position; anything but a text reads as [""]. *)
Definition text_of (v : pyval) : string := match v with VStr s => s | _ => "" end.
(** A position was bought when its entry order says so, or, without an entry
    order, when it is a call. *)
Definition was_bought (p : pyrec) : bool :=
  if truthy (rget "entry_order_direction" (VStr "") p)
  then String.eqb (text_of (rget "entry_order_direction" (VStr "") p)) "BUY"
  else String.eqb (text_of (rget "direction" (VStr "CALL") p)) "CALL".
(** What was bought is closed by selling, what was sold by buying. *)
Definition closing_side (p : pyrec) : string := if was_bought p then "SELL" else "BUY".
Definition closes (book : pydict pyrec) (o : order_call) : Prop :=
  ∃ p, book !! oc_symbol o = Some p ∧ py_int (rget "qty" (VInt 0) p) = Ok (oc_lots o) ∧ oc_direction o = closing_side p.

Lemma terms_side p q : trade_terms p = trade_terms q → closing_side p = closing_side q.
Proof. unfold trade_terms, closing_side, was_bought. intros [= H1 H2 H3 H4]. by rewrite H1, H4. Qed.
Lemma py_eq_text v s : s ≠ ""%string → py_eq v (VStr s) = String.eqb (text_of v) s.
Proof. intros Hs. destruct v; try done; by destruct s. Qed.
Lemma exit_direction_closes p h :
  hd_direction h = rget "direction" (VStr "CALL") p → hd_order h = rget "entry_order_direction" (VStr "") p →
  exit_direction h = closing_side p.
Proof.
  intros Hd Ho. unfold exit_direction, closing_side, was_bought. rewrite Hd, Ho, !py_eq_text by done.
  by destruct (truthy _).
Qed.
Lemma terms_qty p q : trade_terms p = trade_terms q → rget "qty" (VInt 0) p = rget "qty" (VInt 0) q.
Proof. by intros [=]. Qed.

Section exits.
Context {X : Type} (cfg : pyrec) (sv : exit_services X) (live : bool).

(** Positions only disappear or keep their terms, and every order sent
    closes a position of the book. *)
Definition only_closes (d d' : desk X) : Prop :=
  (∀ n p', dk_positions d' !! n = Some p' → ∃ p, dk_positions d !! n = Some p ∧ trade_terms p' = trade_terms p) ∧
  ∃ l, dk_sent d' = dk_sent d ++ l ∧ ∀ o, o ∈ l → closes (dk_positions d) o.
(** Only the position [n] is touched. *)
Definition only_at (n : string) (d d' : desk X) : Prop :=
  ∀ m, m ≠ n → dk_positions d' !! m = dk_positions d !! m.
Definition aside (d d' : desk X) : Prop := dk_positions d' = dk_positions d ∧ dk_sent d' = dk_sent d.

#[global] Instance aside_preorder : PreOrder aside.
Proof. split; [done|]. intros d1 d2 d3 [] []. split; congruence. Qed.
#[global] Instance only_at_preorder n : PreOrder (only_at n).
Proof. split; [by intros d m Hm|]. intros d1 d2 d3 H1 H2 m Hm. rewrite (H2 m Hm). exact (H1 m Hm). Qed.
#[global] Instance only_closes_preorder : PreOrder only_closes.
Proof.
  split.
  - intros d. split; [by eauto|]. exists []. split; [by rewrite app_nil_r|]. intros o Ho. by apply not_elem_of_nil in Ho.
  - intros d1 d2 d3 [P1 (l1 & S1 & C1)] [P2 (l2 & S2 & C2)]. split.
    + intros n p3 H3. destruct (P2 n p3 H3) as (p2 & H2 & T2). destruct (P1 n p2 H2) as (p1 & H1 & T1).
      exists p1. split; [done|]. by rewrite T2.
    + exists (l1 ++ l2). split; [by rewrite S2, S1, app_assoc|].
      intros o [Ho|Ho]%elem_of_app; [by apply C1|]. destruct (C2 o Ho) as (p2 & H2 & Q2 & D2).
      destruct (P1 _ _ H2) as (p1 & H1 & T1). exists p1. split_and!; [done| |].
      * by rewrite <- (terms_qty _ _ T1).
      * by rewrite D2, (terms_side _ _ T1).
Qed.

Lemma aside_closes d d' : aside d d' → only_closes d d'.
Proof.
  intros [P S]. split; [intros n p' H; rewrite P in H; by eauto|].
  exists []. split; [by rewrite S, app_nil_r|]. intros o Ho. by apply not_elem_of_nil in Ho.
Qed.
Lemma aside_at n d d' : aside d d' → only_at n d d'.
Proof. intros [P _] m _. by rewrite P. Qed.

Lemma service_aside {A} (m : SX X A) : st_rel aside (on_service m).
Proof. intros d. unfold on_service, st_zoom. by destruct (m _). Qed.
Lemma safety_aside {A} (m : ST safety A) : st_rel aside (on_safety m).
Proof. intros d. unfold on_safety, st_zoom. by destruct (m _). Qed.
Lemma clock_calm : st_rel aside now_ist.
Proof. intros d. by rewrite now_ist_total. Qed.
Lemma time_aside : st_rel aside time_time.
Proof. intros d. by rewrite time_time_total. Qed.
Lemma best_effort_aside (m : DM X unit) : st_rel aside m → st_rel aside (best_effort m).
Proof. intros H. unfold best_effort. rel_auto ltac:(exact H). Qed.
Lemma when_given_aside {P} (o : option P) (f : P → DM X unit) : (∀ p, st_rel aside (f p)) → st_rel aside (when_given o f).
Proof. intros H. unfold when_given. destruct o; [apply H|rel_auto idtac]. Qed.

Ltac aside_auto :=
  rel_auto ltac:(first
    [ apply service_aside | apply safety_aside | apply clock_calm | apply time_aside
    | apply best_effort_aside | apply when_given_aside; intros ? ]).

Lemma notify_aside m c : st_rel aside (send_notification sv m c).
Proof. unfold send_notification. aside_auto. Qed.
Lemma ltp_aside n : st_rel aside (get_underlying_ltp sv n).
Proof. unfold get_underlying_ltp. aside_auto. Qed.
Lemma book_exit_aside n r h x p : st_rel aside (book_exit cfg sv live n r h x p).
Proof. unfold book_exit, store_trade. aside_auto. Qed.
Lemma record_stop_aside n p : st_rel aside (record_stop_loss sv n p).
Proof. unfold record_stop_loss. aside_auto. Qed.

Definition fine (n : string) (d d' : desk X) : Prop := only_closes d d' ∧ only_at n d d'.
#[global] Instance fine_preorder n : PreOrder (fine n).
Proof. split; [by split|]. intros d1 d2 d3 [] []. split; by etransitivity. Qed.
Lemma aside_fine n d d' : aside d d' → fine n d d'.
Proof. split; [by apply aside_closes|by apply aside_at]. Qed.

(** A position replaced by one with the same terms, or removed. *)
Lemma replaced_fine n p p' d : dk_positions d !! n = Some p → trade_terms p' = trade_terms p →
  fine n d (put_positions (<[n := p']> (dk_positions d)) d).
Proof.
  intros Hp Ht. split; [split|].
  - intros m q Hq. cbn in Hq. destruct (decide (m = n)) as [->|Hm].
    + rewrite dict_lookup_insert_eq in Hq. injection Hq as <-. eauto.
    + rewrite dict_lookup_insert_ne in Hq by done. eauto.
  - exists []. split; [by rewrite app_nil_r|]. intros o Ho. by apply not_elem_of_nil in Ho.
  - intros m Hm. cbn. by apply dict_lookup_insert_ne.
Qed.
Lemma removed_fine n d : fine n d (put_positions (delete n (dk_positions d)) d).
Proof.
  split; [split|].
  - intros m q Hq. cbn in Hq. destruct (decide (m = n)) as [->|Hm]; [by rewrite dict_lookup_delete_eq in Hq|].
    rewrite dict_lookup_delete_ne in Hq by done. eauto.
  - exists []. split; [by rewrite app_nil_r|]. intros o Ho. by apply not_elem_of_nil in Ho.
  - intros m Hm. cbn. by apply dict_lookup_delete_ne.
Qed.
(** Fields that are no terms. *)
Lemma rget_insert_ne k k' v w p : k ≠ k' → rget k' w (<[k := v]> p) = rget k' w p.
Proof. intros H. unfold rget. f_equal. by apply dict_lookup_insert_ne. Qed.
Lemma terms_insert k v p :
  k ≠ "direction"%string → k ≠ "qty"%string → k ≠ "entry_price"%string → k ≠ "entry_order_direction"%string →
  trade_terms (<[k := v]> p) = trade_terms p.
Proof. intros H1 H2 H3 H4. unfold trade_terms. by rewrite !rget_insert_ne by done. Qed.

Lemma cleanup_fine n p q failed d :
  dk_positions d !! n = Some q → trade_terms p = trade_terms q →
  st_wp (cleanup (X:=X) cfg n p failed) d (λ _ d', fine n d d').
Proof.
  intros Hq Ht. unfold cleanup. destruct failed; [|apply removed_fine].
  set (p1 := <["exit_failed" := VBool true]> p).
  assert (trade_terms p1 = trade_terms q) as T1 by (unfold p1; rewrite terms_insert by done; done).
  pose proof (replaced_fine n q p1 d Hq T1) as F1. set (d1 := put_positions (<[n := p1]> (dk_positions d)) d) in F1.
  assert (dk_positions d1 !! n = Some p1) as H1 by apply dict_lookup_insert_eq.
  apply wp_bind. apply (wp_eq _ _ (Ok ()) d1); [done|]. cbn beta iota.
  apply wp_lift_bind; [intros v _|intros e _; exact F1].
  set (p2 := <["exit_retries" := v]> p1).
  assert (trade_terms p2 = trade_terms p1) as T2 by (unfold p2; by rewrite terms_insert by done).
  pose proof (replaced_fine n p1 p2 d1 H1 T2) as F2.
  set (d2 := put_positions (<[n := p2]> (dk_positions d1)) d1) in F2.
  apply wp_bind. apply (wp_eq _ _ (Ok ()) d2); [done|]. cbn beta iota.
  assert (fine n d d2) as F by (by etransitivity).
  apply wp_lift_bind; [intros lim _|intros e _; exact F].
  apply wp_lift_bind; [intros b _|intros e _; exact F].
  destruct b; [|exact F]. eapply wp_eq; [reflexivity|]. etransitivity; [exact F|apply removed_fine].
Qed.

(** The exit order is sent, whatever becomes of it. *)
Definition sent_one (o : order_call) (d d' : desk X) : Prop :=
  dk_positions d' = dk_positions d ∧ dk_sent d' = dk_sent d ++ [o].
Lemma place_sent x o c d : sent_one o d (place x o c d).2.
Proof. unfold place, mbind, st_bind, st_modify. cbn. unfold on_service, st_zoom. by destruct (xp_execute _ _ _ _). Qed.
Lemma exit_fill_sent x o e d : sent_one o d (exit_fill x o e d).2.
Proof.
  unfold exit_fill, st_try. unfold mbind, st_bind. pose proof (place_sent x o None d) as H.
  destruct (place x o None d) as [[r|ex] d']; cbn in *; [done|]. by destruct (catches _ _).
Qed.
Lemma send_exit_sent o e d : sent_one o d (send_exit sv o e d).2 ∨ (send_exit sv o e d).2 = d.
Proof. unfold send_exit. destruct (es_exec sv); [left; apply exit_fill_sent|by right]. Qed.
Lemma sent_fine n o (d d' : desk X) : sent_one o d d' → closes (dk_positions d) o → fine n d d'.
Proof.
  intros [P S] Ho. split; [split|intros m _; by rewrite P].
  - intros m q Hq. rewrite P in Hq. eauto.
  - exists [o]. split; [done|]. by intros o' ->%list_elem_of_singleton.
Qed.

(** A held position, as it is read. *)
Definition reads (p : pyrec) (h : held) : Prop :=
  hd_pos h = p ∧ hd_direction h = rget "direction" (VStr "CALL") p ∧ py_int (rget "qty" (VInt 0) p) = Ok (hd_qty h) ∧
  py_float (rget "entry_price" (VInt 0) p) = Ok (hd_entry h) ∧ hd_order h = rget "entry_order_direction" (VStr "") p.
Lemma read_position_eq n d r d' : read_position (X:=X) n d = (r, d') →
  d' = d ∧ match r with
           | Ok (Some h) => ∃ p, dk_positions d !! n = Some p ∧ reads p h
           | _ => True
           end.
Proof.
  unfold read_position. rewrite (st_bind_ok st_get _ d d d) by done. destruct (dk_positions d !! n) as [p|]; [|by intros [= <- <-]].
  destruct (items p); [by intros [= <- <-]|]. unfold mbind, st_bind, st_lift.
  destruct (py_int _) as [q|e] eqn:Eq; [|by intros [= <- <-]]. destruct (py_float _) as [x|e] eqn:Ex; [|by intros [= <- <-]].
  intros [= <- <-]. split; [done|]. exists p. by split_and!.
Qed.
Lemma exit_order_closes (d : desk X) n r h p price o :
  dk_positions d !! n = Some p → reads p h → exit_order n r h price = Ok o → closes (dk_positions d) o ∧ oc_symbol o = n.
Proof.
  intros Hp (E1 & E2 & E3 & E4 & E5). unfold exit_order, rbind. destruct (int_of_float _) as [z|]; [|done].
  intros [= <-]. split; [|done]. exists p. split_and!; [done|done|]. by apply exit_direction_closes.
Qed.

Lemma exit_fine n r d : fine n d (exit_position cfg sv live n r d).2.
Proof.
  change (st_wp (exit_position cfg sv live n r) d (λ _ d', fine n d d')). unfold exit_position.
  apply wp_bind. unfold st_wp at 1. destruct (read_position n d) as [rd d0] eqn:Er. cbn.
  apply read_position_eq in Er as [-> Hh]. destruct rd as [[h|]|e]; [|apply wp_ret; reflexivity|reflexivity]. destruct Hh as (p & Hp & Hr).
  eapply wp_rel; [apply ltp_aside|intros e d1 A1; exact (aside_fine n d d1 A1)|]. intros ltp d1 A1.
  apply wp_lift_bind; [intros o Ho|intros e _; by apply aside_fine].
  destruct (exit_order_closes d n r h p _ o Hp Hr Ho) as [Hc _].
  assert (∀ d2, (sent_one o d1 d2 ∨ d2 = d1) → fine n d d2 ∧ dk_positions d2 = dk_positions d) as Hstep.
  { destruct A1 as [P1 S1]. intros d2 [Hs| ->]; [|split; [by apply aside_fine|done]]. split; [|by destruct Hs as [-> _]].
    apply (sent_fine n o d d2); [|done]. destruct Hs as [P2 S2]. split; congruence. }
  apply wp_bind. destruct (Hstep _ (send_exit_sent o (hd_entry h) d1)) as [F2 P2]. unfold st_wp at 1.
  destruct (send_exit sv o (hd_entry h) d1) as [[ex|e] d2]; cbn in F2, P2; cbn; [|exact F2].
  set (failed := feqb ex (hd_entry h) && negb (String.eqb r "MANUAL")).
  eapply (wp_rel aside).
  { destruct failed; aside_auto. apply book_exit_aside. }
  { intros e d3 A3. etransitivity; [exact F2|by apply aside_fine]. }
  intros pnl d3 [P3 S3]. assert (fine n d d3) as F3 by (etransitivity; [exact F2|by apply aside_fine]).
  assert (dk_positions d3 !! n = Some p) as Hp3 by (by rewrite P3, P2).
  apply wp_bind. apply (wp_eq _ _ (Ok d3) d3); [done|]. cbn beta iota. apply wp_bind.
  replace (dmem n (dk_positions d3)) with true by (symmetry; apply dmem_true; eauto).
  eapply wp_mono; [|apply (cleanup_fine n (hd_pos h) p); [done|by destruct Hr as [-> _]]].
  intros [[]|e] d4 F4; cbn; [|by etransitivity].
  apply wp_lift_bind; [intros lim _|intros e _; by etransitivity].
  assert (fine n d d4) as F by (by etransitivity). destruct failed; [exact F|].
  unfold st_wp. etransitivity; [exact F|]. apply aside_fine, notify_aside.
Qed.

(** *** The loop *)

Lemma with_peak_terms p x p1 : with_peak p x = Ok p1 → trade_terms p1 = trade_terms p.
Proof.
  unfold with_peak, rbind.
  set (q := match rget "peak_underlying" VNone p with VNone => _ | _ => p end).
  assert (trade_terms q = trade_terms p) as Hq.
  { unfold q. destruct (rget _ _ p); try done. by rewrite !terms_insert. }
  destruct (f_gt_v _ _); [|done]. intros [= <-]. by rewrite terms_insert.
Qed.

(** The position [n] is in the book, with the terms of [p]. *)
Definition booked (n : string) (p : pyrec) (d : desk X) : Prop :=
  ∃ q, dk_positions d !! n = Some q ∧ trade_terms p = trade_terms q.
Lemma set_position_fine n p d : booked n p d →
  let d' := put_positions (<[n := p]> (dk_positions d)) d in fine n d d' ∧ dk_positions d' !! n = Some p.
Proof. intros (q & Hq & Ht). split; [by eapply replaced_fine|apply dict_lookup_insert_eq]. Qed.

Lemma check_age_fine n p d : fine n d (check_age cfg sv live n p d).2.
Proof.
  change (st_wp (check_age cfg sv live n p) d (λ _ d', fine n d d')). unfold check_age.
  apply wp_lift_bind; [intros et _|intros e _; reflexivity]. apply wp_lift_bind; [intros age _|intros e _; reflexivity].
  destruct (_ && _); [|apply wp_ret; reflexivity].
  eapply wp_rel; [apply time_aside|intros e d1 A1; by apply aside_fine|]. intros now d1 A1. unfold st_wp.
  etransitivity; [by apply aside_fine|]. destruct (f_ge_z _ _); [apply exit_fine|reflexivity].
Qed.
Lemma monitor_priced_fine n p x d : booked n p d → fine n d (monitor_priced cfg sv live n p x d).2.
Proof.
  intros Hb. change (st_wp (monitor_priced cfg sv live n p x) d (λ _ d', fine n d d')). unfold monitor_priced.
  apply wp_lift_bind; [intros entry _|intros e _; reflexivity]. destruct (fle entry f_zero); [apply wp_ret; reflexivity|].
  apply wp_lift_bind; [intros l _|intros e _; reflexivity]. cbv zeta.
  apply wp_lift_bind; [intros p1 Hp1|intros e _; reflexivity]. apply with_peak_terms in Hp1.
  destruct (set_position_fine n p1 d) as [F1 L1].
  { destruct Hb as (q & Hq & Ht). exists q. split; [done|]. by rewrite Hp1. }
  set (d1 := put_positions _ d) in F1, L1. apply wp_bind. apply (wp_eq _ _ (Ok ()) d1); [done|]. cbn beta iota.
  apply wp_lift_bind; [intros m _|intros e _; exact F1].
  destruct (fixed_exit _ _ _).
  - eapply wp_rel; [apply record_stop_aside| |].
    + intros e d2 A2. etransitivity; [exact F1|by apply aside_fine].
    + intros [] d2 A2. unfold st_wp. etransitivity; [exact F1|]. etransitivity; [by apply aside_fine|apply exit_fine].
  - unfold st_wp. etransitivity; [exact F1|apply exit_fine].
  - set (p2 := if _ && _ then _ else p1).
    assert (trade_terms p2 = trade_terms p1) as T2 by (unfold p2; destruct (_ && _); [by rewrite terms_insert|done]).
    destruct (set_position_fine n p2 d1) as [F2 L2]; [by exists p1|].
    set (d2 := put_positions _ d1) in F2, L2. apply wp_bind. apply (wp_eq _ _ (Ok ()) d2); [done|]. cbn beta iota.
    assert (fine n d d2) as F by (by etransitivity).
    apply wp_lift_bind; [intros hit _|intros e _; exact F].
    unfold st_wp. etransitivity; [exact F|]. destruct hit; [apply exit_fine|apply check_age_fine].
Qed.
Lemma monitor_one_fine n p d : dk_positions d !! n = Some p → fine n d (monitor_one cfg sv live (n, p) d).2.
Proof.
  intros Hp. change (st_wp (monitor_one cfg sv live (n, p)) d (λ _ d', fine n d d')). unfold monitor_one. cbn [fst snd].
  apply wp_try. eapply wp_mono; [|eapply (wp_rel aside _ _ _ (λ _ d', fine n d d')); [apply ltp_aside| |]].
  - intros [[]|e] d' F; [done|]. by destruct (catches _ _).
  - intros e d1 A1. by apply aside_fine.
  - intros [x|] d1 A1; [|by apply wp_ret, aside_fine]. unfold st_wp. etransitivity; [by apply aside_fine|].
    apply monitor_priced_fine. exists p. split; [|done]. by destruct A1 as [-> _].
Qed.
Lemma monitor_loop_fine l d :
  NoDup l.*1 → (∀ n p, (n, p) ∈ l → dk_positions d !! n = Some p) → only_closes d (st_iter (monitor_one cfg sv live) l d).2.
Proof.
  revert d. induction l as [|[n p] l IH]; intros d Hd Hl; [reflexivity|]. cbn [st_iter].
  apply NoDup_cons in Hd as [Hn Hd]. destruct (monitor_one_fine n p d) as [F At]; [apply Hl, list_elem_of_here|].
  unfold mbind, st_bind. destruct (monitor_one _ _ _ (n, p) d) as [[[]|e] d1]; cbn in F, At; [|done].
  etransitivity; [exact F|]. apply IH; [done|]. intros m q Hq. rewrite At; [by apply Hl, list_elem_of_further|].
  intros ->. apply Hn. apply list_elem_of_fmap. by exists (n, q).
Qed.

(** The book stays a dictionary. *)
Definition book_wf (d : desk X) : Prop := dict_wf (dk_positions d).
Lemma aside_wf {A} (m : DM X A) : st_rel aside m → preserves book_wf m.
Proof. intros H d. destruct (H d) as [P _]. unfold book_wf. by rewrite P. Qed.
Lemma positions_wf f : (∀ p, dict_wf p → dict_wf (f p)) → preserves book_wf (st_modify (λ d : desk X, put_positions (f (dk_positions d)) d)).
Proof. intros H d. apply H. Qed.
Ltac wf_step :=
  first [ apply aside_wf; solve [aside_auto | apply ltp_aside | apply notify_aside | apply book_exit_aside | apply record_stop_aside]
        | apply positions_wf; intros; solve [by apply dict_insert_wf | by apply dict_delete_wf] ].
Lemma cleanup_wf n p b : preserves book_wf (cleanup (X:=X) cfg n p b).
Proof. unfold cleanup, preserves. rel_auto ltac:(wf_step). Qed.
Lemma send_exit_wf o e : preserves book_wf (send_exit sv o e).
Proof. intros d. unfold book_wf. destruct (send_exit_sent o e d) as [[-> _]| ->]; done. Qed.
Lemma exit_wf n r : preserves book_wf (exit_position cfg sv live n r).
Proof.
  unfold exit_position, preserves. rel_auto ltac:(first
    [ wf_step | apply cleanup_wf | apply send_exit_wf
    | intros d; destruct (read_position n d) as [rd d'] eqn:E; by apply read_position_eq in E as [-> _] ]).
Qed.
Lemma monitor_wf : preserves book_wf (monitor_positions cfg sv live).
Proof.
  unfold monitor_positions, preserves. rel_auto ltac:(idtac). apply st_rel_iter; [typeclasses eauto|]. intros [n p] _.
  unfold monitor_one, monitor_priced, check_age, set_position.
  rel_auto ltac:(first [ wf_step | apply exit_wf ]).
Qed.

(** Rounds of monitoring and exits asked for by name, in any order; an
    exception ends the operation that raised it. *)
Inductive exit_op := Monitor | Exit (name reason : string).
Definition run_exit_op (o : exit_op) : DM X unit :=
  match o with Monitor => monitor_positions cfg sv live | Exit n r => exit_position cfg sv live n r end.
Definition run_exits (os : list exit_op) (d : desk X) : desk X := foldl (λ d o, (run_exit_op o d).2) d os.

Lemma exit_op_closes o d : book_wf d → only_closes d (run_exit_op o d).2 ∧ book_wf (run_exit_op o d).2.
Proof.
  intros Hd. destruct o as [|n r]; cbn [run_exit_op].
  - split; [|by apply monitor_wf]. unfold monitor_positions. rewrite (st_bind_ok st_get _ d d d) by done.
    apply monitor_loop_fine; [exact Hd|]. intros n p Hin. by apply dict_items_lookup.
  - split; [apply exit_fine|by apply exit_wf].
Qed.

(** C4: The exit side only closes.  Over any history of monitoring rounds
    and exits, with services that answer, fail or raise in any way, no
    position appears, none changes its direction, quantity, entry price or
    entry order, and every order sent closes a position that was open when
    the history began, in its full quantity: it sells one whose entry order
    was a BUY (or, without an entry order, a call) and buys any other. *)
Theorem exits_only_close (os : list exit_op) (d : desk X) :
  dict_wf (dk_positions d) → only_closes d (run_exits os d).
Proof.
  intros Hd. assert (only_closes d (run_exits os d) ∧ book_wf (run_exits os d)) as [? _]; [|done].
  unfold run_exits. apply (foldl_inv (λ d', only_closes d d' ∧ book_wf d')); [by split|].
  intros d' o _ [C W]. destruct (exit_op_closes o d' W) as [C' W']. split; [by etransitivity|done].
Qed.

(** *** A stop is acted upon *)

(** The orders sent only grow; most steps send none. *)
Definition grows (d d' : desk X) : Prop := ∃ l, dk_sent d' = dk_sent d ++ l.
Definition silent (d d' : desk X) : Prop := dk_sent d' = dk_sent d.
#[global] Instance silent_preorder : PreOrder silent.
Proof. split; [done|]. intros d1 d2 d3 H1 H2. unfold silent in *. congruence. Qed.
Lemma grows_sent d d' o : grows d d' → o ∈ dk_sent d → o ∈ dk_sent d'.
Proof. intros [l ->] H. apply elem_of_app. by left. Qed.
Lemma closes_grows d d' : only_closes d d' → grows d d'.
Proof. intros [_ (l & E & _)]. by exists l. Qed.
Lemma aside_silent {A} (m : DM X A) : st_rel aside m → st_rel silent m.
Proof. intros H d. by destruct (H d). Qed.
Lemma cleanup_silent n p b : st_rel silent (cleanup (X:=X) cfg n p b).
Proof. unfold cleanup. rel_auto ltac:(apply st_rel_modify; done). Qed.

(** A source of prices that always answers. *)
Definition quoted (price : string → option float64) : Prop :=
  ∃ resolve, es_ltp sv = Some resolve ∧ ∀ n s, resolve n s = (Ok (price n), s).
Lemma quoted_ltp price n d : quoted price → get_underlying_ltp sv n d = (Ok (price n), d).
Proof.
  intros (resolve & E & H). unfold get_underlying_ltp. rewrite E. unfold st_try, on_service, st_zoom. rewrite H. by destruct d.
Qed.

(** The order that closes [p] for the given reason. *)
Definition closing_order (n reason : string) (p : pyrec) (o : order_call) : Prop :=
  oc_symbol o = n ∧ oc_direction o = closing_side p ∧ py_int (rget "qty" (VInt 0) p) = Ok (oc_lots o) ∧
  ∃ z, oc_key o = exit_key n (oc_lots o) z reason.

Lemma read_held n p h d : dk_positions d !! n = Some p → items p ≠ [] → reads p h → read_position (X:=X) n d = (Ok (Some h), d).
Proof.
  intros Hp Hi (E1 & E2 & E3 & E4 & E5). unfold read_position. rewrite (st_bind_ok st_get _ d d d), Hp by done.
  destruct (items p) eqn:E; [done|]. rewrite E3, E4. unfold mbind, st_bind, st_lift. destruct h. cbn in *. by subst.
Qed.
Lemma exit_sends price x n r p h d :
  quoted price → es_exec sv = Some x → dk_positions d !! n = Some p → items p ≠ [] → reads p h →
  is_ok (int_of_float (hd_entry h)) = true →
  ∃ o, o ∈ dk_sent (exit_position cfg sv live n r d).2 ∧ closing_order n r p o.
Proof.
  intros Hq Hx Hp Hi Hr Hz. unfold exit_position. rewrite (st_bind_ok _ _ _ _ _ (read_held n p h d Hp Hi Hr)).
  rewrite (st_bind_ok _ _ _ _ _ (quoted_ltp price n d Hq)).
  destruct (int_of_float (hd_entry h)) as [z|] eqn:Ez; [|done].
  set (o := OrderCall n (exit_direction h) (VFloat (price_or (price n) (hd_entry h))) (hd_qty h)
              (VFloat (price_or (price n) (hd_entry h))) (exit_key n (hd_qty h) z r)).
  assert (exit_order n r h (price_or (price n) (hd_entry h)) = Ok o) as Eo by (unfold exit_order; by rewrite Ez).
  rewrite Eo. rewrite (st_bind_ok _ _ _ _ _ (eq_refl : st_lift (Ok o) d = (Ok o, d))).
  exists o. split.
  - match goal with |- _ ∈ dk_sent (?m d).2 => change (st_wp m d (λ _ d', o ∈ dk_sent d')) end.
    apply wp_bind. unfold st_wp at 1. unfold send_exit. rewrite Hx. pose proof (exit_fill_sent x o (hd_entry h) d) as [_ S].
    destruct (exit_fill x o (hd_entry h) d) as [[ex|e] d1]; cbn in S; cbn; [|rewrite S; set_solver].
    match goal with |- st_wp ?m _ _ => assert (st_rel silent m) as Hs end.
    { rel_auto ltac:(first [apply cleanup_silent | apply aside_silent; solve [aside_auto | apply book_exit_aside | apply notify_aside]]). }
    unfold st_wp. rewrite (Hs d1), S. set_solver.
  - destruct Hr as (E1 & E2 & E3 & E4 & E5). split_and!; [done| |done|by exists z].
    by apply exit_direction_closes.
Qed.

(** The price [x] of the underlying has moved from [u] to the stop: for a
    call down by at least the share [1 - sl] of [u], for any other position
    up by at least that share. *)
Definition stop_reached (p : pyrec) (sl x u : float64) : Prop :=
  let move := ((x - u) / u)%f64 in
  let share := (f_one - sl)%f64 in
  (rget "direction" (VStr "CALL") p = VStr "CALL" ∧ fle move (fopp share) = true) ∨
  (rget "direction" (VStr "CALL") p ≠ VStr "CALL" ∧ fge move share = true).

(** A position whose price is at its stop, with [SL_PCT] of the
    configuration; the configuration and the position can be read. *)
Definition at_stop (price : string → option float64) (n : string) (p : pyrec) : Prop :=
  ∃ x u sl h,
    price n = Some x ∧ py_float (rget "underlying_entry_price" (VInt 0) p) = Ok u ∧ fle u f_zero = false ∧
    py_float (rget "SL_PCT" (VFloat (lit 92 2)) cfg) = Ok sl ∧ stop_reached p sl x u ∧
    is_ok (read_levels cfg) = true ∧ is_ok (with_peak p x) = true ∧
    reads p h ∧ is_ok (int_of_float (hd_entry h)) = true.
Lemma stop_is_hit p sl x u l :
  py_float (rget "SL_PCT" (VFloat (lit 92 2)) cfg) = Ok sl → read_levels cfg = Ok l → stop_reached p sl x u →
  fixed_exit l (py_eq (rget "direction" (VStr "CALL") p) (VStr "CALL")) (move_pct x u) = STOP_HIT.
Proof.
  unfold read_levels, sl_pct, cfg_float, rbind at 1. intros -> Hl Hs.
  assert (lv_sl l = sl) as Hsl.
  { unfold rbind in Hl. repeat (case_match; [|done]). by simplify_eq. }
  rewrite py_eq_text by done. unfold fixed_exit, move_pct. rewrite Hsl. destruct Hs as [[-> Hf]|[Hd Hf]].
  - by rewrite Hf.
  - rewrite (proj2 (String.eqb_neq _ _)); [by rewrite Hf|]. intros Ht. apply Hd. destruct (rget _ _ p); try done.
    by cbn in Ht; subst.
Qed.

Lemma soft_raise (m : DM X unit) d e d' : best_effort m d = (Raise e, d') → catches soft_errors e = false.
Proof.
  unfold best_effort, st_try. destruct (m d) as [[a|e1] d1]; [done|]. destruct (catches soft_errors e1) eqn:E; [done|].
  by intros [= <- <-].
Qed.
Lemma record_stop_raise n p d e d' : record_stop_loss sv n p d = (Raise e, d') → catches soft_errors e = false.
Proof. unfold record_stop_loss, when_given. destruct (es_reentry sv n); [apply soft_raise|done]. Qed.

Lemma reads_terms p p' h : trade_terms p = trade_terms p' → reads p h →
  reads p' (Held p' (hd_direction h) (hd_qty h) (hd_entry h) (hd_order h)).
Proof.
  intros Ht (E1 & E2 & E3 & E4 & E5). unfold trade_terms in Ht. injection Ht as T1 T2 T3 T4. unfold reads. cbn.
  rewrite <- T1, <- T2, <- T3, <- T4. by split_and!.
Qed.
Lemma insert_items k v (p : pyrec) : items (<[k := v]> p) ≠ [].
Proof.
  intros E. assert ((<[k := v]> p) !! k = Some v) as H by apply dict_lookup_insert_eq. unfold lookup, pydict_lookup in H. by rewrite E in H.
Qed.
Lemma with_peak_items p x p1 : with_peak p x = Ok p1 → items p1 ≠ [].
Proof. unfold with_peak, rbind. destruct (f_gt_v _ _); [|done]. intros [= <-]. apply insert_items. Qed.

Lemma stop_sends price x n p d :
  quoted price → es_exec sv = Some x → dk_positions d !! n = Some p → at_stop price n p →
  is_ok (monitor_one cfg sv live (n, p) d).1 = true →
  ∃ o, o ∈ dk_sent (monitor_one cfg sv live (n, p) d).2 ∧ closing_order n "SL_HIT" p o.
Proof.
  intros Hq Hx Hp (y & u & sl & h & Ey & Eu & Hu & Esl & Hs & El & Ep & Hr & Hz).
  destruct (read_levels cfg) as [l|] eqn:El'; [|done]. destruct (with_peak p y) as [p1|] eqn:Ep'; [|done].
  pose proof (stop_is_hit p sl y u l Esl El' Hs) as Ef. clear El Ep. rename El' into El, Ep' into Ep.
  unfold monitor_one. cbn [fst snd]. set (body := get_underlying_ltp sv n ≫= _).
  set (d1 := put_positions (<[n := p1]> (dk_positions d)) d).
  assert (body d = (record_stop_loss sv n p1 ;; exit_position cfg sv live n "SL_HIT") d1) as Eb.
  { unfold body. rewrite (st_bind_ok _ _ _ _ _ (quoted_ltp price n d Hq)), Ey. unfold monitor_priced.
    rewrite Eu, (st_bind_ok _ _ d u d), Hu by done. rewrite El, (st_bind_ok _ _ d l d) by done. cbv zeta.
    rewrite Ep, (st_bind_ok _ _ d p1 d) by done. rewrite (st_bind_ok _ _ d () d1) by done.
    assert (py_div (y - u)%f64 u = Ok (move_pct y u)) as ->.
    { unfold py_div, move_pct. destruct u as [[]|[]| |]; cbn in Hu; try done. }
    rewrite (st_bind_ok _ _ d1 (move_pct y u) d1) by done. by rewrite Ef. }
  unfold st_try. rewrite Eb. unfold mbind, st_bind.
  pose proof (record_stop_aside n p1 d1) as [P2 S2].
  destruct (record_stop_loss sv n p1 d1) as [[[]|e] d2] eqn:Es; cbn in P2, S2.
  - intros _. pose proof (with_peak_terms p y p1 Ep) as Ht.
    assert (dk_positions d2 !! n = Some p1) as Hp2 by (rewrite P2; apply dict_lookup_insert_eq).
    destruct (exit_sends price x n "SL_HIT" p1 (Held p1 (hd_direction h) (hd_qty h) (hd_entry h) (hd_order h)) d2) as (o & Ho & C1 & C2 & C3 & C4);
      [done..|by eapply with_peak_items|by eapply reads_terms|done|].
    exists o. split.
    + destruct (exit_position cfg sv live n "SL_HIT" d2) as [[[]|e] d3]; cbn in Ho; [done|]. by destruct (catches _ _).
    + split_and!; [done|by rewrite C2, (terms_side _ _ Ht)|by rewrite <- (terms_qty _ _ Ht)|done].
  - rewrite (record_stop_raise _ _ _ _ _ Es). done.
Qed.

Lemma loop_sends price x n p l d :
  quoted price → es_exec sv = Some x → NoDup l.*1 → (∀ m q, (m, q) ∈ l → dk_positions d !! m = Some q) →
  (n, p) ∈ l → at_stop price n p → is_ok (st_iter (monitor_one cfg sv live) l d).1 = true →
  ∃ o, o ∈ dk_sent (st_iter (monitor_one cfg sv live) l d).2 ∧ closing_order n "SL_HIT" p o.
Proof.
  intros Hq Hx. revert d. induction l as [|[m q] l IH]; intros d Hd Hl Hin Hs; [by apply not_elem_of_nil in Hin|].
  cbn [st_iter]. apply NoDup_cons in Hd as [Hm Hd]. pose proof (Hl m q (list_elem_of_here _ _)) as Hmq.
  destruct (monitor_one_fine m q d Hmq) as [F At]. pose proof (stop_sends price x n p d Hq Hx) as Hstop.
  unfold mbind, st_bind. destruct (monitor_one cfg sv live (m, q) d) as [[[]|e] d1] eqn:E1; cbn in F, At; [|done].
  assert (∀ m' q', (m', q') ∈ l → dk_positions d1 !! m' = Some q') as Hl1.
  { intros m' q' Hq'. rewrite At; [by apply Hl, list_elem_of_further|]. intros ->. apply Hm, list_elem_of_fmap. by exists (m, q'). }
  apply elem_of_cons in Hin as [[= -> ->]|Hin]; [|by apply IH]. intros _.
  rewrite E1 in Hstop. destruct Hstop as (o & Ho & Hc); [done..|]. exists o. split; [|done].
  eapply grows_sent; [|exact Ho]. apply closes_grows. by apply monitor_loop_fine.
Qed.

(** C5: A stop loss is acted upon.  With a source of prices that always
    answers, a round of monitoring that completes has sent, for every open
    position whose price is at its stop (a call whose underlying fell by the
    share [1 - SL_PCT] of its entry price, any other position whose
    underlying rose by it), an order that closes it in full, with the reason
    of the stop in its key, whatever the execution service and the others
    answered. *)
Theorem stop_is_exited (price : string → option float64) (x : exec_port X) (n : string) (p : pyrec) (d : desk X) :
  dict_wf (dk_positions d) → quoted price → es_exec sv = Some x → dk_positions d !! n = Some p → at_stop price n p →
  is_ok (monitor_positions cfg sv live d).1 = true →
  ∃ o, o ∈ dk_sent (monitor_positions cfg sv live d).2 ∧ closing_order n "SL_HIT" p o.
Proof.
  intros Hd Hq Hx Hp Hs. unfold monitor_positions. rewrite (st_bind_ok st_get _ d d d) by done.
  apply (loop_sends price x n p); [done..| |by apply dict_items_lookup|done].
  intros m q Hin. by apply dict_items_lookup.
Qed.

(** *** Exits that are never filled *)

Definition refusing (x : exec_port X) : Prop := ∀ o c s, ∃ r s', xp_execute x o c s = (Ok r, s') ∧ filled r = false.

Lemma feqb_refl y : is_nan y = false → feqb y y = true.
Proof.
  intros Hy. pose proof (SFcompare_rank y y Hy Hy) as H. unfold feqb, SFeqb.
  destruct (SFcompare y y) as [[]|]; [done|..|done]; by apply rank_lt_irrefl in H.
Qed.
Lemma refused_fill x o e d : refusing x → ∃ d', exit_fill x o e d = (Ok e, d') ∧ sent_one o d d'.
Proof.
  intros Hx. pose proof (exit_fill_sent x o e d) as Hs. set (d1 := put_sent (dk_sent d ++ [o]) d).
  destruct (Hx o None (dk_safety d1, dk_ext d1)) as (r & s' & E & Hf).
  assert (exit_fill x o e d = (Ok e, put_world s' d1)) as Ee.
  { unfold exit_fill, st_try, place, mbind, st_bind, st_modify. cbv beta iota. fold d1. unfold on_service, st_zoom.
    rewrite E. cbn. by rewrite Hf. }
  rewrite Ee in *. eauto.
Qed.

(** What a refused exit leaves of the position after [i] earlier ones. *)
Definition left_after (n : string) (p : pyrec) (k i : Z) (d : desk X) : Prop :=
  if k <=? i then dk_positions d !! n = None
  else ∃ p', dk_positions d !! n = Some p' ∧ items p' ≠ [] ∧ trade_terms p' = trade_terms p ∧
         rget "exit_retries" (VInt 0) p' = VInt i.

Lemma refused_exit price x n r p h k i d :
  quoted price → es_exec sv = Some x → refusing x → reads p h → is_ok (int_of_float (hd_entry h)) = true →
  r ≠ "MANUAL"%string → exit_order_retries cfg = Ok k → i < k → left_after n p k i d →
  left_after n p k (i + 1) (exit_position cfg sv live n r d).2.
Proof.
  intros Hq Hx Hno Hr Hz Hman Hk Hi Hleft. unfold left_after in Hleft. rewrite (proj2 (Z.leb_gt k i)) in Hleft by lia.
  destruct Hleft as (p' & Hp & Hne & Ht & Hret). symmetry in Ht. pose proof (reads_terms p p' h Ht Hr) as Hr'.
  set (h' := Held p' (hd_direction h) (hd_qty h) (hd_entry h) (hd_order h)) in Hr'.
  unfold exit_position. rewrite (st_bind_ok _ _ _ _ _ (read_held n p' h' d Hp Hne Hr')).
  rewrite (st_bind_ok _ _ _ _ _ (quoted_ltp price n d Hq)).
  change (hd_entry h') with (hd_entry h). unfold exit_order. change (hd_entry h') with (hd_entry h).
  assert (is_nan (hd_entry h) = false) as Hnan by (destruct (hd_entry h); done).
  destruct (int_of_float (hd_entry h)) as [z|] eqn:Ez; [|done]. cbn [rbind].
  set (o := OrderCall _ _ _ _ _ _). rewrite (st_bind_ok _ _ d o d) by done.
  destruct (refused_fill x o (hd_entry h) d Hno) as (d1 & Ef & [P1 _]).
  unfold send_exit. rewrite Hx. rewrite (st_bind_ok _ _ _ _ _ Ef).
  rewrite feqb_refl by done. rewrite (proj2 (String.eqb_neq r "MANUAL")) by done. cbn [negb andb].
  rewrite (st_bind_ok _ _ d1 f_zero d1), (st_bind_ok st_get _ d1 d1 d1) by done.
  rewrite (proj2 (dmem_true n (dk_positions d1))) by (rewrite P1; eauto).
  set (p1 := <["exit_failed" := VBool true]> p'). set (p2 := <["exit_retries" := VInt (i + 1)]> p1).
  set (d2 := put_positions (<[n := p1]> (dk_positions d1)) d1). set (d3 := put_positions (<[n := p2]> (dk_positions d2)) d2).
  assert (cleanup (X:=X) cfg n (hd_pos h') true d1 =
    (Ok (), if k <=? i + 1 then put_positions (delete n (dk_positions d3)) d3 else d3)) as Ec.
  { assert (rget "exit_retries" (VInt 0) p1 = VInt i) as E1 by (unfold p1; by rewrite rget_insert_ne).
    unfold cleanup. change (hd_pos h') with p'. cbv zeta. change (<["exit_failed" := VBool true]> p') with p1.
    rewrite (st_bind_ok _ _ d1 () d2), E1, (st_bind_ok _ _ d2 (VInt (i + 1)) d2) by done.
    change (<["exit_retries" := VInt (i + 1)]> p1) with p2.
    rewrite (st_bind_ok _ _ d2 () d3) by done. rewrite Hk, (st_bind_ok _ _ d3 k d3) by done.
    rewrite (st_bind_ok _ _ d3 (k <=? i + 1) d3) by done. by destruct (k <=? i + 1). }
  rewrite (st_bind_ok _ _ _ _ _ Ec). rewrite Hk. set (d4 := if k <=? i + 1 then _ else _).
  rewrite (st_bind_ok _ _ d4 k d4) by done. cbn [snd mret st_ret]. unfold left_after, d4. destruct (k <=? i + 1).
  - cbn. apply dict_lookup_delete_eq.
  - exists p2. split_and!.
    + apply dict_lookup_insert_eq.
    + apply insert_items.
    + unfold p2, p1. by rewrite !terms_insert.
    + unfold p2, rget. by rewrite (dict_lookup_insert_eq p1 "exit_retries").
Qed.

(** An exit that is never filled drops the position.  When the broker
    refuses every exit order, [EXIT_ORDER_RETRIES] calls of [exit_position]
    take the position out of the book, although nothing has closed it. *)
Theorem failed_exits_forget (price : string → option float64) (x : exec_port X) (n r : string) (p : pyrec) (h : held) (k : Z) (d : desk X) :
  quoted price → es_exec sv = Some x → refusing x → dk_positions d !! n = Some p → items p ≠ [] → reads p h →
  is_ok (int_of_float (hd_entry h)) = true → rget "exit_retries" (VInt 0) p = VInt 0 →
  r ≠ "MANUAL"%string → exit_order_retries cfg = Ok k → 0 < k →
  dk_positions (run_exits (replicate (Z.to_nat k) (Exit n r)) d) !! n = None.
Proof.
  intros Hq Hx Hno Hp Hne Hr Hz Hret Hman Hk Hpos.
  assert (∀ m : nat, Z.of_nat m ≤ k → left_after n p k (Z.of_nat m) (run_exits (replicate m (Exit n r)) d)) as H.
  { induction m as [|m IH]; intros Hm.
    - unfold left_after. rewrite (proj2 (Z.leb_gt k (Z.of_nat 0))) by lia. by exists p.
    - rewrite replicate_S_end. unfold run_exits. rewrite foldl_app. cbn [foldl].
      replace (Z.of_nat (S m)) with (Z.of_nat m + 1) by lia. apply (refused_exit price x n r p h); [done..|lia|]. apply IH. lia. }
  specialize (H (Z.to_nat k)). rewrite Z2Nat.id in H by lia. specialize (H ltac:(lia)). unfold left_after in H.
  by rewrite Z.leb_refl in H.
Qed.
End exits.

(** ** Concrete books *)

Definition no_service {X A} (a : A) : SX X A := mret a.
(** A broker that fills at [fill], or refuses. *)
Definition demo_exec (fill : option Z) : exec_port unit := {|
  xp_execute o _ := no_service
    (match fill with
     | Some p => OrderResult "1" OrderStatus.FILLED (oc_lots o) (f_of_Z p) f_zero 0 None None None
     | None => rejected "1" (Some "refused"%string) 0
     end);
  xp_watchdog := no_service 0 |}.
Definition demo_exits (quote : Z) (fill : option Z) : exit_services unit := {|
  es_risk := None; es_exec := Some (demo_exec fill); es_portfolio := None; es_reentry := λ _, None;
  es_ltp := Some (λ _, no_service (Some (f_of_Z quote))); es_notify := None;
  es_intraday_close := λ _ _, no_service (); es_trades_db := None |}.

Definition demo_position (direction order : string) : pyrec := PyDict
  [("direction", VStr direction); ("qty", VInt 50); ("entry_price", VFloat (f_of_Z 20000));
   ("underlying_entry_price", VFloat (f_of_Z 20000)); ("entry_order_direction", VStr order); ("score", VInt 80)].
Definition demo_desk (direction order : string) : desk unit :=
  Desk (PyDict [("NIFTY", demo_position direction order)]) ∅ ∅ ∅ ∅ demo_safety () [].

(** A round of monitoring at each of the quotes, fills at the quote. *)
Definition rounds (quotes : list Z) (d : desk unit) : desk unit :=
  foldl (λ d q, (monitor_positions ∅ (demo_exits q (Some q)) false d).2) d quotes.
Definition sent_keys (d : desk unit) : list string := oc_key <$> dk_sent d.

(** A fall of eight percent closes a call; a put that was sold and is bought
    back at a profit is counted as a loss. *)
Example stop_round : sent_keys (rounds [19000; 18400] (demo_desk "CALL" "BUY")) = ["exit_NIFTY_50_20000_SL_HIT"%string].
Proof. vm_compute. reflexivity. Qed.
Example put_profit_is_loss :
  let d := rounds [13900] (demo_desk "PUT" "SELL") in
  sent_keys d = ["exit_NIFTY_50_20000_TARGET_HIT"%string] ∧ oc_direction <$> dk_sent d = ["BUY"%string] ∧
  sf_losses (dk_safety d) = sf_losses (dk_safety (demo_desk "PUT" "SELL")) + 1.
Proof. vm_compute. done. Qed.
(** The trailing stop of a put uses the highest price, so a put gives all its
    profit back where a call is closed. *)
Example put_never_trails :
  sent_keys (rounds [23000; 25000; 20100] (demo_desk "CALL" "BUY")) = ["exit_NIFTY_50_20000_TRAIL_HIT"%string] ∧
  sent_keys (rounds [17000; 15000; 19900; 21000] (demo_desk "PUT" "SELL")) = [].
Proof. vm_compute. done. Qed.
(** A direction in lower case is bought as a call and watched as a put. *)
Example lower_case_call : sent_keys (rounds [21700] (demo_desk "call" "BUY")) = ["exit_NIFTY_50_20000_SL_HIT"%string].
Proof. vm_compute. reflexivity. Qed.
(** An exit filled at the entry price counts as failed: the position stays
    and is sold again. *)
Example filled_at_entry :
  let d := (exit_position ∅ (demo_exits 20000 (Some 20000)) false "NIFTY" "MAX_AGE" (demo_desk "CALL" "BUY")).2 in
  dkeys (dk_positions d) = ["NIFTY"%string] ∧
  length (dk_sent (exit_position ∅ (demo_exits 20000 (Some 20000)) false "NIFTY" "MAX_AGE" d).2) = 2%nat.
Proof. vm_compute. done. Qed.

Definition ok_or {A} (d : A) (r : res A) : A := match r with Ok a => a | Raise _ => d end.
Lemma demo_book_wf direction order : dict_wf (dk_positions (demo_desk direction order)).
Proof. dict_wf_eval. Qed.
Lemma demo_quoted q f : quoted (demo_exits q f) (λ _, Some (f_of_Z q)).
Proof. by eexists. Qed.
Definition demo_held : held :=
  Held (demo_position "CALL" "BUY") (VStr "CALL") 50 (f_of_Z 20000) (VStr "BUY").
Lemma demo_reads : reads (demo_position "CALL" "BUY") demo_held.
Proof. by vm_compute. Qed.

Lemma exits_only_close_witness :
  dict_wf (dk_positions (demo_desk "CALL" "BUY")) ∧
  only_closes (demo_desk "CALL" "BUY")
    (run_exits ∅ (demo_exits 18000 (Some 18000)) false [Monitor; Exit "NIFTY" "MANUAL"] (demo_desk "CALL" "BUY")).
Proof. split; [apply demo_book_wf|]. apply exits_only_close, demo_book_wf. Defined.

Lemma stop_is_exited_witness :
  ∃ o, o ∈ dk_sent (monitor_positions ∅ (demo_exits 18000 (Some 18000)) false (demo_desk "CALL" "BUY")).2 ∧
    closing_order "NIFTY" "SL_HIT" (demo_position "CALL" "BUY") o.
Proof.
  apply (stop_is_exited ∅ (demo_exits 18000 (Some 18000)) false (λ _, Some (f_of_Z 18000)) (demo_exec (Some 18000))).
  - apply demo_book_wf.
  - apply demo_quoted.
  - done.
  - done.
  - exists (f_of_Z 18000), (f_of_Z 20000), (lit 92 2), demo_held.
    split_and!; try (vm_compute; reflexivity); [|apply demo_reads]. left. by vm_compute.
  - by vm_compute.
Defined.

Lemma failed_exits_forget_witness :
  dk_positions (run_exits ∅ (demo_exits 18000 None) false (replicate (Z.to_nat 3) (Exit "NIFTY" "SL_HIT"))
    (demo_desk "CALL" "BUY")) !! "NIFTY"%string = None.
Proof.
  apply (failed_exits_forget ∅ (demo_exits 18000 None) false (λ _, Some (f_of_Z 18000)) (demo_exec None) "NIFTY" "SL_HIT"
    (demo_position "CALL" "BUY") demo_held 3).
  - apply demo_quoted.
  - reflexivity.
  - intros o c s. by do 2 eexists.
  - reflexivity.
  - discriminate.
  - apply demo_reads.
  - by vm_compute.
  - reflexivity.
  - discriminate.
  - reflexivity.
  - lia.
Defined.
