(* ===== verification/PositionEntry.v ===== *)
(** * The entry gate of a trade

    [enter_trade] of [core/position_service.py] with its helpers: the gates
    before an order, the size, the signal's durable record, the submission
    under the state lock, and the position it stores.  The order in which
    the gates are asked is the one of the source. *)
From S2P Require Import Prelude PyStr Float64 PyDict PyVal OrderTypes SafetyState CapitalManager RiskTypes Positions.
From Stdlib Require Import Ascii.

(** ** The services of the entry side *)

Record warmup_port (X : Type) := WarmupPort {
  wu_can_enter : string → SX X bool; wu_max_text : string; wu_adjusted : Z → SX X Z }.
Arguments wu_can_enter {X}. Arguments wu_max_text {X}. Arguments wu_adjusted {X}.

(** [ExpiryDayController]: the reason and session of a refusal, whether the
    day is an expiry day, and the weekday of expiry. *)
Record expiry_port (X : Type) := ExpiryPort {
  ex_refusal : SX X (option (string * string)); ex_is_expiry_day : string → SX X bool; ex_weekday : string → SX X Z }.
Arguments ex_refusal {X}. Arguments ex_is_expiry_day {X}. Arguments ex_weekday {X}.

(** The fields a live quote of an option adds to the signal. *)
Record option_quote := OptionQuote { oq_bid : pyval; oq_ask : pyval; oq_oi : pyval; oq_volume : pyval; oq_symbol : pyval }.

(** [core/strike_selector.py] and [core/live_option_quotes.py] *)
Record strike_port (X : Type) := StrikePort {
  sp_step : string → SX X pyval;
  sp_dte_check : Z → SX X (bool * string);
  sp_select : Z → string → Z → string → float64 → Z → SX X Z;
  sp_quote : string → Z → string → SX X (option option_quote) }.
Arguments sp_step {X}. Arguments sp_dte_check {X}. Arguments sp_select {X}. Arguments sp_quote {X}.

(** The signal tracker, the recipients of a signal, and their
    notification. *)
Record tracker_port (X : Type) := TrackerPort {
  tk_levels : float64 → string → pyval → pyval → pyval → SX X (pyval * pyval * pyval);
  tk_recipients : string → string → string → SX X (list string);
  tk_record : pyrec → option (list string) → SX X pyval;
  tk_record_plain : pyrec → SX X pyval;
  tk_dispatch : pyrec → string → option (list string) → SX X unit;
  tk_active : string → SX X (option string) }.
Arguments tk_levels {X}. Arguments tk_recipients {X}. Arguments tk_record {X}. Arguments tk_record_plain {X}.
Arguments tk_dispatch {X}. Arguments tk_active {X}.

Record entry_services (X : Type) := EntryServices {
  en_exit : exit_services X;
  (** whether the file STOP_TRADING is there *)
  en_kill_file : SX X bool;
  en_audit : option (string → string → SX X unit);
  en_news : option (SX X (string * string));
  en_warmup : option (warmup_port X);
  en_expiry : option (expiry_port X);
  en_time_of_day : pyval → SX X (bool * string);
  (** [check_and_refresh], where it is enabled and there is a broker *)
  en_token : option (SX X unit);
  en_mandate : option (string → pyval → SX X Z);
  (** [get_intraday_monitor(cfg).get_current_params().position_size_mult] *)
  en_size_mult : SX X float64;
  (** the message of a refused margin *)
  en_margin : option (float64 → float64 → Z → pyval → string → SX X (option string));
  en_strike : strike_port X;
  en_liquidity : float64 → float64 → pyval → pyval → SX X (bool * option string);
  en_tracker : tracker_port X }.
Arguments en_exit {X}. Arguments en_kill_file {X}. Arguments en_audit {X}. Arguments en_news {X}.
Arguments en_warmup {X}. Arguments en_expiry {X}. Arguments en_time_of_day {X}. Arguments en_token {X}.
Arguments en_mandate {X}. Arguments en_size_mult {X}. Arguments en_margin {X}. Arguments en_strike {X}.
Arguments en_liquidity {X}. Arguments en_tracker {X}.

(** A signal: its fields, and the list of its soft blocks. *)
Record trade_signal := TradeSignal { ts_fields : pyrec; ts_soft_blocks : list string }.
Definition put_fields (r : pyrec) (s : trade_signal) : trade_signal := TradeSignal r (ts_soft_blocks s).

(** The settings of the service beside the configuration dictionary. *)
Record entry_settings := EntrySettings {
  st_signal_max_age : Z; st_manual_only : bool; st_mode : string; st_broker_enabled : bool }.

(** [v1 or v2 or ...], a text in upper case *)
Definition upper_of (v : pyval) : string := str_upper (py_str v).
(** [s.replace(".", "_")] *)
Definition dots_to_underscores (s : string) : string := str_map (λ c, if Ascii.eqb c "."%char then "_"%char else c) s.

(** [core/execution/broker_exceptions.py]: which of the two classes that
    halt an exception without an error code falls into, by its text. *)
Definition classify_broker_exception (e : pyexn) : option string :=
  let m := str_lower (exn_msg e) in
  if any_in ["timeout"; "timed out"] m then None
  else if any_in ["connection"; "network"; "reset"] m then None
  else if any_in ["rate limit"] m then None
  else if any_in ["auth"; "token"; "session"] m then Some "AuthExpiredError"%string
  else if any_in ["margin"; "insufficient"] m then None
  else if any_in ["rejected"; "invalid"] m then Some "OrderRejectedError"%string
  else None.

(** [is_in_auction_session] of [core/datetime_ist.py], minutes of the day *)
Definition usec_per_min : Z := 60 * usec_per_sec.
Definition auction_at (t : Z) : bool :=
  let m := (t `mod` (24 * usec_per_hour)) / usec_per_min in
  ((540 <=? m) && (m <? 555)) || ((930 <=? m) && (m <? 945)).

(** [now.weekday()]; the epoch was a Thursday. *)
Definition weekday (t : Z) : Z := (t / (24 * usec_per_hour) + 3) `mod` 7.

Section entry.
Context {X : Type} (cfg : pyrec) (sv : entry_services X) (se : entry_settings).

(** ** Qualification *)

Definition threshold (key fallback : string) (d : Z) : pyval := rget key (rget fallback (VInt d) cfg) cfg.
Definition tier_of (r : pyrec) : string :=
  upper_of (v_or (v_or (rget "tier" VNone r) (rget "strength" VNone r)) (VStr "")).
Definition score_or (r : pyrec) (d : Z) : pyval :=
  match rget "score" VNone r with VNone => v_or (rget "raw_score" VNone r) (VInt d) | v => v end.

(** [_is_qualified_signal] *)
Definition is_qualified_signal (r : pyrec) : res bool :=
  if String.eqb (upper_of (v_or (rget "signal" VNone r) (VStr ""))) "HOLD" then Ok false
  else
    let tier := tier_of r in
    rbind (py_float (score_or r 0)) (λ score,
    rbind (py_float (threshold "TIER_MODERATE_MIN" "MODERATE_THRESHOLD" 70)) (λ bar,
    Ok (if str_mem tier ["STRONG"; "MODERATE"] then true
        else if str_mem tier ["WEAK"; "IGNORE"] then false
        else fge score bar))).

(** ** The durable record of a signal *)

Definition setdefault (k : string) (v : pyval) (r : pyrec) : pyrec :=
  match r !! k with Some _ => r | None => <[k := v]> r end.
Definition index_names : list string := ["NIFTY"; "BANKNIFTY"; "FINNIFTY"; "MIDCPNIFTY"; "SENSEX"].

Definition category_of (name : string) (asset : option string) (r : pyrec) : string :=
  let cat := upper_of (v_or (rget "category" VNone r) (VStr "")) in
  if truthy_str cat then cat
  else match asset with
       | Some a => a
       | None => if str_mem name index_names then "INDEX_OPTIONS" else "LARGE_CAP_EQUITY"
       end.
Definition tier_for (score : Z) (r : pyrec) : res string :=
  let tier := tier_of r in
  if str_mem tier ["STRONG"; "MODERATE"; "WEAK"; "IGNORE"] then Ok tier
  else
    rbind (py_int (threshold "TIER_STRONG_MIN" "STRONG_THRESHOLD" 80)) (λ strong,
    rbind (py_int (threshold "TIER_MODERATE_MIN" "MODERATE_THRESHOLD" 70)) (λ moderate,
    rbind (py_int (threshold "TIER_WEAK_MIN" "AI_THRESHOLD" 60)) (λ weak,
    Ok (if strong <=? score then "STRONG"%string else if moderate <=? score then "MODERATE"%string
        else if weak <=? score then "WEAK"%string else "IGNORE"%string)))).

(** The record sent to the tracker, with its category, tier and strategy;
    [order_direction] and [price] are those of a submission. *)
Record tracked_signal := TrackedSignal { tr_fields : pyrec; tr_direction : string; tr_category : string;
  tr_tier : string; tr_strategy : string }.
Definition signal_record (name : string) (asset order_direction : option string) (price : option pyval) (s : trade_signal) :
    DM X tracked_signal :=
  let r := setdefault "symbol" (VStr name) (ts_fields s) in
  let direction := str_upper (str_or (Some (py_str (v_or (rget "direction" VNone r) (VStr ""))))
                                (str_or order_direction "CALL")) in
  let r := setdefault "direction" (VStr direction) r in
  price_val ← st_lift (py_float (v_or (v_or (rget "price" VNone (ts_fields s)) (default VNone price)) (VFloat f_zero)));
  let r := setdefault "price" (VFloat price_val) (setdefault "entry_price" (VFloat price_val) r) in
  lv ← on_service (tk_levels (en_tracker sv) price_val direction (rget "stop_loss" VNone r) (rget "target_1" VNone r)
                     (rget "target_2" VNone r));
  let '(sl, t1, t2) := lv in
  let r := setdefault "target_2" t2 (setdefault "target_1" t1 (setdefault "stop_loss" sl r)) in
  let cat := category_of name asset r in
  let r := setdefault "category" (VStr cat) r in
  score ← st_lift (py_int (score_or r 80));
  let r := setdefault "raw_score" (VInt score) (setdefault "score" (VInt score) r) in
  tier ← st_lift (tier_for score r);
  let r := setdefault "tier" (VStr tier) r in
  let strategy := py_str (v_or (v_or (rget "strategy_name" VNone r) (rget "strategy" VNone r)) (VStr "position_service")) in
  let r := setdefault "strategy_name" (VStr strategy) (setdefault "strategy" (VStr strategy) r) in
  mret (TrackedSignal r direction cat tier strategy).

(** [str(x or "").strip()] *)
Definition id_text (v : pyval) : string := strip (py_str (v_or v (VStr ""))).

(** [_dispatch_signal_notifications]: every exception is caught. *)
Definition dispatch_signal (r : pyrec) (id : string) (users : option (list string)) : DM X unit :=
  st_try_any (on_service (tk_dispatch (en_tracker sv) r id users)) (λ _, mret ()).

(** The id of the opportunity's active signal, for a suppressed duplicate. *)
Definition opportunity_key (name direction cat strategy : string) : string :=
  String.append (str_upper name) (String.append "|" (String.append direction (String.append "|"
    (String.append cat (String.append "|" (str_lower strategy)))))).
Definition blank_id (o : option string) : bool := match o with Some s => negb (truthy_str (strip s)) | None => true end.
Definition active_signal (name : string) (order_direction : option string) (t : tracked_signal) : DM X string :=
  let dir := upper_of (v_or (rget "direction" VNone (tr_fields t)) (VStr (tr_direction t))) in
  let key := py_str (v_or (rget "opportunity_key" VNone (tr_fields t))
                       (VStr (opportunity_key name dir (tr_category t) (tr_strategy t)))) in
  a ← on_service (tk_active (en_tracker sv) key);
  a ← (match order_direction with
       | Some o =>
           if blank_id a && truthy_str o && negb (String.eqb (str_upper o) dir)
           then on_service (tk_active (en_tracker sv) (opportunity_key name (str_upper o) (tr_category t) (tr_strategy t)))
           else mret a
       | None => mret a
       end);
  mret (strip (default "" a)).

(** [_ensure_signal_persisted]: the id, and the signal with it. *)
Definition with_id (id : string) (s : trade_signal) : trade_signal :=
  if truthy_str id then put_fields (<["signal_id" := VStr id]> (ts_fields s)) s else s.
Definition record_signal (name : string) (asset order_direction : option string) (price : option pyval) (s : trade_signal) :
    DM X (string * trade_signal) :=
  t ← signal_record name asset order_direction price s;
  users ← st_try_any (l ← on_service (tk_recipients (en_tracker sv) (tr_category t) (tr_tier t) name); mret (Some l))
            (λ _, mret None);
  v ← st_try (on_service (tk_record (en_tracker sv) (tr_fields t) users)) [TypeError]
        (λ _, on_service (tk_record_plain (en_tracker sv) (tr_fields t)));
  if truthy_str (id_text v) then
    dispatch_signal (tr_fields t) (id_text v) users ;;
    mret (id_text v, with_id (id_text v) s)
  else
    id ← active_signal name order_direction t;
    mret (id, with_id id s).
Definition ensure_signal_persisted (name : string) (asset order_direction : option string) (price : option pyval) (force : bool)
    (s : trade_signal) : DM X (string * trade_signal) :=
  let id := id_text (rget "signal_id" VNone (ts_fields s)) in
  if truthy_str id then mret (id, s)
  else
    qualified ← (if force then mret true else st_lift (is_qualified_signal (ts_fields s)));
    if qualified : bool then record_signal name asset order_direction price s else mret (""%string, s).

(** ** The gates

    Each answers whether it blocks the entry, after noting why; most let the
    entry pass when their service fails. *)

Definition ex_services : exit_services X := en_exit sv.
Definition block (name msg : string) : DM X bool := log_decision name msg ;; mret true.
Definition fail_open (m : DM X bool) : DM X bool := st_try m soft_errors (λ _, mret false).
Definition gate {P} (o : option P) (f : P → DM X bool) : DM X bool :=
  match o with Some p => fail_open (f p) | None => mret false end.

Definition audit (kind trace : string) : DM X unit :=
  when_given (en_audit sv) (λ a, best_effort (on_service (a kind trace))).

Definition intraday_gate (name : string) : DM X bool :=
  tripped ← on_safety (check_intraday_pnl_and_halt "enter_trade");
  if tripped : bool then block name "INTRADAY_LOSS_LIMIT - hard halt tripped" else mret false.

Definition news_gate (name : string) : DM X bool :=
  gate (en_news sv) (λ news,
    n ← on_service news;
    if str_mem n.1 ["HIGH"; "EXTREME"] then block name (cat ["NEWS_BLOCK: "; n.1; " - "; n.2]) else mret false).

Definition warmup_gate (name : string) : DM X bool :=
  gate (en_warmup sv) (λ w,
    ok ← on_service (wu_can_enter w name);
    if ok : bool then mret false
    else block name (cat ["WARMUP_BLOCK: max entries ("; wu_max_text w; ") reached in warm-up"])).

Definition cooldown_gate (name : string) : DM X bool :=
  if flag cfg "general_cooldown_enabled" then
    fail_open
      (d ← st_get;
       secs ← st_lift (cfg_int cfg "COOLDOWN" 300);
       match dk_last_entry d !! name with
       | None => mret false
       | Some last =>
           now ← time_time;
           if f_lt_z (now - last)%f64 secs then
             now ← time_time;
             block name (cat ["COOLDOWN_BLOCK: "; fmt_f 0 (now - last)%f64; "s since last entry < "; str_of_Z secs; "s cooldown"])
           else mret false
       end)
  else mret false.

(** [asset_type is None or asset_type == AssetType.INDEX_OPTIONS] *)
Definition is_index_options (asset : option string) : bool :=
  match asset with Some a => String.eqb a "INDEX_OPTIONS" | None => true end.

Definition expiry_gate (name : string) (asset : option string) : DM X bool :=
  if is_index_options asset then
    gate (en_expiry sv) (λ e,
      r ← on_service (ex_refusal e);
      match r with
      | Some (reason, session) => block name (cat ["EXPIRY_BLOCK: "; reason; " (session="; session; ")"])
      | None => mret false
      end)
  else mret false.

Definition expiry_count_gate (name : string) (asset : option string) : DM X bool :=
  match es_risk ex_services with
  | Some risk =>
      if is_index_options asset && flag cfg "expiry_max_trades_enabled" then
        gate (en_expiry sv) (λ e,
          day ← on_service (ex_is_expiry_day e name);
          if day : bool then
            cap ← st_lift (cfg_int cfg "EXPIRY_MAX_TRADES" 2);
            n ← on_service (rp_trades_today risk);
            if cap <=? n then
              block name (cat ["EXPIRY_MAX_TRADES_BLOCK: "; str_of_Z n; " trades today >= expiry-day cap of "; str_of_Z cap])
            else mret false
          else mret false)
      else mret false
  | None => mret false
  end.

Definition auction_gate (name : string) (asset : option string) : DM X bool :=
  if is_index_options asset then
    now ← now_ist;
    if auction_at now then block name "AUCTION_BLOCK: Entry blocked during NSE auction session" else mret false
  else mret false.

Definition recon_gate (name : string) : DM X bool :=
  if flag cfg "force_pre_trade_recon_enabled" then
    gate (es_exec ex_services) (λ x,
      n ← on_service (xp_watchdog x);
      if 0 <? n then block name (cat ["PRE_TRADE_RECON_BLOCK: "; str_of_Z n; " orders still unacknowledged by broker"])
      else mret false)
  else mret false.

Definition time_gate (name : string) (s : trade_signal) : DM X bool :=
  if flag cfg "time_of_day_hard_block_enabled" then
    fail_open
      (a ← on_service (en_time_of_day sv (rget "regime" VNone (ts_fields s)));
       if a.1 : bool then mret false else block name (cat ["TIME_OF_DAY_BLOCK: "; a.2]))
  else mret false.

(** The risk evaluation fails closed. *)
Definition risk_gate (name trace : string) (s : trade_signal) : DM X bool :=
  match es_risk ex_services with
  | None => mret false
  | Some risk =>
      st_try
        (m ← on_service (rp_metrics risk);
         e ← on_service (rp_evaluate risk name (ts_fields s) m);
         if bool_decide (re_decision e = DENIED) then
           log_decision name (cat ["RISK_BLOCK: "; re_reason e; " (score="; fmt_f 2 (re_score e); ")"]) ;;
           audit "risk_block" trace ;; mret true
         else mret false)
        soft_errors
        (λ e, block name (cat ["RISK_EVAL_ERROR: "; exn_msg e; " - trade blocked (fail-closed)"]))
  end.

(** The ages of the breakout and of the signal. *)
Definition breakout_limit : res Z :=
  if flag cfg "breakout_timeout_enabled" then
    match cfg_int cfg "BREAKOUT_TIMEOUT" 1800 with
    | Raise e => if catches [ValueError; TypeError] e then Ok (st_signal_max_age se) else Raise e
    | r => r
    end
  else Ok (st_signal_max_age se).
Definition stale_gate (name : string) (s : trade_signal) : DM X bool :=
  d ← st_get;
  let confirmed := match dk_breakout d !! name with Some bs => rget "confirmed_ts" VNone bs | None => VNone end in
  t0 ← time_time;
  let signal_ts := rget "signal_ts" (VFloat t0) (ts_fields s) in
  now ← time_time;
  limit ← st_lift breakout_limit;
  old ← (match confirmed with
         | VNone => mret None
         | v => c ← st_lift (num_operand v);
                mret (if f_gt_z (now - c)%f64 limit then Some (now - c)%f64 else None)
         end);
  match old with
  | Some age => block name (cat ["stale - confirmed_ts "; fmt_f 0 age; "s old"])
  | None =>
      ts ← st_lift (num_operand signal_ts);
      if f_gt_z (now - ts)%f64 (st_signal_max_age se) then block name (cat ["stale - signal_ts "; fmt_f 0 (now - ts)%f64; "s old"])
      else mret false
  end.

(** Gates in a row: the first that blocks ends the entry. *)
Fixpoint first_block (gs : list (DM X bool)) : DM X bool :=
  match gs with
  | [] => mret false
  | g :: gs' => b ← g; if b : bool then mret true else first_block gs'
  end.
Definition entry_gates (name trace : string) (asset : option string) (s : trade_signal) : list (DM X bool) :=
  [intraday_gate name; news_gate name; warmup_gate name; cooldown_gate name; expiry_gate name asset;
   expiry_count_gate name asset; auction_gate name asset; recon_gate name; time_gate name s;
   risk_gate name trace s; stale_gate name s].

(** ** Manual mode *)

Definition is_manual : bool :=
  st_manual_only se || str_mem (str_upper (st_mode se)) ["MANUAL"; "MANUAL_ONLY"; "SIGNAL_ONLY"; "SIGNALS_ONLY"].

(** [_build_manual_signal_message] *)
Definition level_text (direction : string) (price : pyval) : res string :=
  match
    rbind (sl_pct cfg) (λ sl, rbind (target_pct cfg) (λ tg, rbind (num_operand price) (λ p,
    let at_ k := (p * (if String.eqb direction "PUT" then f_two - k else k))%f64 in
    Ok (cat ["SL: "; fmt_f 2 (at_ sl); " | Target: "; fmt_f 2 (at_ tg)]))))
  with
  | Raise e => if catches [ValueError; TypeError; ZeroDivisionError] e then Ok ""%string else Raise e
  | r => r
  end.
Definition newline : string := String (ascii_of_nat 10) EmptyString.
Definition or_na (v : pyval) : string := match v with VNone => "N/A" | _ => py_str v end.
Definition manual_message (name : string) (s : trade_signal) (price rr : pyval) : res string :=
  let r := ts_fields s in
  let direction := upper_of (rget "direction" (VStr "CALL") r) in
  rbind (level_text direction price) (λ levels,
  let score := rget "score" VNone r in
  let tier := rget "tier" VNone r in
  let header := cat ["[MANUAL SIGNAL] "; name; " "; direction;
    if truthy tier || negb (bool_decide (score = VNone))
    then cat [" (Tier: "; py_str (v_or tier (VStr "N/A")); ", Score: "; or_na score; ")"] else ""] in
  let line2 := if truthy_str levels then cat ["Entry: "; py_str price; " | "; levels; " | RR="; py_str rr]
               else cat ["Entry: "; py_str price; " | RR="; py_str rr] in
  let parts :=
    (if truthy (rget "regime" VNone r) then [cat ["Regime: "; py_str (rget "regime" VNone r)]] else []) ++
    (match rget "vix" VNone r with VNone => [] | v => [cat ["VIX: "; py_str v]] end) in
  let lines := [header; line2] ++ (match parts with [] => [] | _ => [String.concat " | " parts] end) ++
    (match ts_soft_blocks s with [] => [] | l => [cat ["Caution: "; String.concat ", " l]] end) in
  Ok (String.concat newline lines)).

(** The signal is announced once and never ordered. *)
Definition manual_entry (name : string) (s : trade_signal) : DM X unit :=
  let r := ts_fields s in
  if truthy (rget "breakout_ok" (VBool true) r) then
    let price := rget "price" (VFloat f_zero) r in
    let rr := match rget "rr" (rget "rr_ratio" (rget "risk_reward_ratio" (VFloat f_zero) r) r) r with
              | VNone => VFloat f_zero | v => v end in
    msg ← st_lift (manual_message name s price rr);
    d ← st_get;
    (if bool_decide (msg ∈ dk_manual d) then mret ()
     else send_notification ex_services msg false ;; st_modify (λ d, put_manual ({[msg]} ∪ dk_manual d) d)) ;;
    log_decision name msg
  else log_decision name "MANUAL SIGNAL BLOCKED: breakout_ok false".

(** ** Size *)

Definition half : float64 := lit 5 1.
(** [int(qty * x)] *)
Definition scaled (qty : Z) (x : float64) : res Z := rbind (float_of_Z qty) (λ q, int_of_float (q * x)%f64).

(** [_get_position_size] *)
Definition get_position_size (name : string) (price : pyval) (asset : option string) : DM X Z :=
  match en_mandate sv with
  | Some mandate =>
      qty ← on_service (mandate name price);
      match asset with
      | Some a =>
          if str_mem a ["ETF"; "REIT"; "INVIT"] then n ← st_lift (scaled qty half); mret (Z.max 1 n)
          else if String.eqb a "SME" then mret 1 else mret qty
      | None => mret qty
      end
  | None => mret 1
  end.

(** An adjustment of the size that is skipped when it fails. *)
Definition or_keep (qty : Z) (m : DM X Z) : DM X Z := st_try m soft_errors (λ _, mret qty).
Definition when_risk (qty : Z) (enabled : bool) (f : risk_port X → DM X Z) : DM X Z :=
  match es_risk ex_services with
  | Some risk => if enabled then or_keep qty (f risk) else mret qty
  | None => mret qty
  end.
Definition vix_of (s : trade_signal) : res float64 := py_float (rget "vix" (VFloat (f_of_Z 15)) (ts_fields s)).

Definition warmup_size (qty : Z) : DM X Z :=
  match en_warmup sv with Some w => or_keep qty (on_service (wu_adjusted w qty)) | None => mret qty end.
Definition capital_size (qty : Z) : DM X Z :=
  when_risk qty (flag cfg "capital_manager_equity_scaling_enabled") (λ risk, on_service (rp_scale risk qty qty)).
Definition session_size (qty : Z) : DM X Z :=
  if flag cfg "intraday_performance_monitor_enabled" then
    or_keep qty (m ← on_service (en_size_mult sv); n ← st_lift (scaled qty m); mret (Z.max 0 n))
  else mret qty.
Definition vix_size (s : trade_signal) (qty : Z) : DM X Z :=
  when_risk qty (truthy (rget "VIX_SIZE_SCALE" (VBool true) cfg)) (λ risk,
    v ← st_lift (vix_of s);
    m ← on_service (rp_vix_multiplier risk v);
    n ← st_lift (scaled qty m);
    mret (Z.max 0 n)).
(** The soft warning, which changes nothing. *)
Definition vix_warning (name : string) (s : trade_signal) : DM X unit :=
  when_given (es_risk ex_services) (λ risk, best_effort
    (v ← st_lift (vix_of s);
     warn ← on_service (rp_vix_soft risk v);
     if warn : bool then
       send_notification ex_services
         (cat ["VIX_SOFT_WARNING: "; name; " entry at VIX="; fmt_f 1 v; " (>= soft threshold)"]) false
     else mret ())).

Definition sizing_errors : list exn_class := soft_errors ++ [ZeroDivisionError].
Definition base_capital : res float64 := cfg_float cfg "BASE_CAPITAL" (f_of_Z 100000).
(** [abs(price - price * sl_pct)] *)
Definition stop_distance (price : pyval) (sl : float64) : res float64 :=
  rbind (num_operand price) (λ p, Ok (fabs (p - p * sl)%f64)).

(** The cap on the loss of one trade. *)
Definition loss_cap (price : pyval) (qty : Z) : DM X Z :=
  match es_risk ex_services with
  | Some risk =>
      if flag cfg "max_single_trade_loss_pct_enabled" then
        pos ← st_lift (v_gt_z price 0);
        if pos : bool then
          st_try
            (sl ← st_lift (sl_pct cfg);
             diff ← st_lift (stop_distance price sl);
             capital ← st_lift base_capital;
             cap ← on_service (rp_loss_cap risk capital diff 1);
             mret (Z.min qty cap))
            sizing_errors (λ _, mret qty)
        else mret qty
      else mret qty
  | None => mret qty
  end.

Definition entry_size (name : string) (s : trade_signal) (price : pyval) (asset : option string) : DM X Z :=
  qty ← get_position_size name price asset;
  qty ← warmup_size qty;
  qty ← capital_size qty;
  qty ← session_size qty;
  qty ← vix_size s qty;
  vix_warning name s ;;
  loss_cap price qty.

(** The risk of the open positions at their stops. *)
Definition position_risk (sl : float64) (p : pyrec) : res float64 :=
  rbind (py_float (v_or (rget "underlying_entry_price" (rget "entry_price" (VFloat f_zero) p) p) (VFloat f_zero))) (λ e,
  rbind (py_float (v_or (rget "qty" (VInt 0) p) (VInt 0))) (λ q,
  Ok (fabs (e - e * sl) * q)%f64)).
Fixpoint open_risk (sl acc : float64) (ps : list pyrec) : res float64 :=
  match ps with
  | [] => Ok acc
  | p :: ps' => rbind (position_risk sl p) (λ r, open_risk sl (acc + r)%f64 ps')
  end.
Definition portfolio_risk_gate (name : string) (price : pyval) (qty : Z) : DM X bool :=
  match es_risk ex_services with
  | Some risk =>
      if flag cfg "portfolio_max_sl_risk_pct_enabled" then
        pos ← st_lift (v_gt_z price 0);
        if (pos : bool) && (0 <? qty) then
          st_try
            (sl ← st_lift (sl_pct cfg);
             diff ← st_lift (stop_distance price sl);
             q ← st_lift (float_of_Z qty);
             d ← st_get;
             held ← st_lift (open_risk sl f_zero (dvalues (dk_positions d)));
             capital ← st_lift base_capital;
             ok ← on_service (rp_sl_risk_ok risk held capital (diff * q)%f64);
             if ok : bool then mret false
             else block name "PORTFOLIO_SL_RISK_BLOCK: combined open-position stop-loss risk would exceed PORTFOLIO_MAX_SL_RISK_PCT of capital")
            sizing_errors (λ _, mret false)
        else mret false
      else mret false
  | None => mret false
  end.

(** ** Strike *)

(** [_resolve_dte] *)
Definition resolve_dte (name : string) : DM X Z :=
  expiry ← (match en_expiry sv with
            | Some e => st_try (on_service (ex_weekday e name)) [ValueError; TypeError; AttributeError] (λ _, mret 3)
            | None => mret 3
            end);
  now ← now_ist;
  mret ((expiry - weekday now) `mod` 7).

(** [round(price / step)] and the strike at the money. *)
Definition true_div (v : pyval) (d : Z) : res float64 :=
  match as_num v with
  | Some (inl z) => match f_of_ratio z d with
                    | S754_infinity _ => Raise (PyExn OverflowError "integer division result too large for a float")
                    | x => Ok x
                    end
  | Some (inr x) => rbind (float_of_Z d) (λ y, Ok (x / y)%f64)
  | None => type_error "unsupported operand type(s) for /"
  end.
Definition at_the_money (price : pyval) (step : Z) : res Z :=
  if 0 <? step then rbind (true_div price step) (λ q, rbind (round_float q) (λ n, Ok (n * step))) else py_int price.

Definition add_quote (q : option_quote) (s : trade_signal) : trade_signal :=
  put_fields (<["option_symbol" := oq_symbol q]> (<["volume" := oq_volume q]> (<["oi" := oq_oi q]>
    (<["ask" := oq_ask q]> (<["bid" := oq_bid q]> (ts_fields s)))))) s.
Definition live_quote (name : string) (strike : Z) (side : string) (s : trade_signal) : DM X trade_signal :=
  match es_exec ex_services with
  | Some _ =>
      if flag cfg "live_option_quotes_enabled" then
        st_try (q ← on_service (sp_quote (en_strike sv) name strike side);
                mret (match q with Some q => add_quote q s | None => s end))
          soft_errors (λ _, mret s)
      else mret s
  | None => mret s
  end.
(** The strike is put into the signal; [None] is a refusal by the days to
    expiry. *)
Definition select_strike (name : string) (price : pyval) (side : string) (s : trade_signal) : DM X (option trade_signal) :=
  raw ← on_service (sp_step (en_strike sv) name);
  step ← st_lift (py_int raw);
  atm ← st_lift (at_the_money price step);
  dte ← resolve_dte name;
  ok ← on_service (sp_dte_check (en_strike sv) dte);
  if ok.1 : bool then
    v ← st_lift (vix_of s);
    strike ← on_service (sp_select (en_strike sv) atm side step (py_str (rget "tier" (VStr "MODERATE") (ts_fields s))) v dte);
    s' ← live_quote name strike side (put_fields (<["strike" := VInt strike]> (ts_fields s)) s);
    mret (Some s')
  else log_decision name (cat ["STRIKE_BLOCK: "; ok.2]) ;; mret None.
Definition strike_step (name : string) (price : pyval) (asset : option string) (s : trade_signal) : DM X (option trade_signal) :=
  if is_index_options asset && flag cfg "strike_selector_enabled" then
    st_try (select_strike name price (upper_of (rget "direction" (VStr "CALL") (ts_fields s))) s) soft_errors (λ _, mret (Some s))
  else mret (Some s).

(** ** Submission *)

(** The outcome of [_submit_order_under_lock]: a [TradeBlockError] with its
    reason and message, or the broker's answer. *)
Inductive submission := Blocked (reason message : string) | Answered (r : order_result).

Definition margin_wrap {A} (what : string) (m : DM X A) (cs : list exn_class) : DM X A :=
  st_try m cs (λ e, st_raise (PyExn ValueError (cat [what; exn_msg e]))).

(** Margin: what is there, what a lot needs, and the validator's verdict. *)
Definition available_margin : DM X float64 :=
  match es_portfolio ex_services with
  | Some p => st_try (on_service (pp_available_margin p)) soft_errors (λ _, mret f_zero)
  | None => mret f_zero
  end.
Definition margin_per_lot (name : string) (price : pyval) (qty : Z) : DM X float64 :=
  total ← st_lift (v_times price qty);
  base ← st_lift (num_operand total);
  let base := (base * lit 2 1)%f64 in
  match es_risk ex_services with
  | Some risk => st_try (on_service (rp_margin_per_lot risk name price)) soft_errors (λ _, mret base)
  | None => mret base
  end.
Definition margin_refusal (name : string) (price : pyval) (qty : Z) : DM X (option string) :=
  avail ← available_margin;
  per_lot ← margin_per_lot name price qty;
  match en_margin sv with
  | Some validate =>
      margin_wrap "Margin validation failed: " (on_service (validate avail per_lot qty price name)) soft_errors
  | None => mret None
  end.

(** The second risk evaluation, under the lock. *)
Definition risk_refusal (name : string) (s : trade_signal) : DM X (option string) :=
  match es_risk ex_services with
  | Some risk =>
      margin_wrap "Risk re-eval failed: "
        (m ← on_service (rp_metrics risk);
         e ← on_service (rp_evaluate risk name (ts_fields s) m);
         mret (if bool_decide (re_decision e = DENIED) then Some (re_reason e) else None))
        [ValueError; TypeError; KeyError]
  | None => mret None
  end.

(** [_check_liquidity_gate] *)
Definition quote_of (r : pyrec) : option (float64 * float64) :=
  match rget "bid" VNone r, rget "ask" VNone r with
  | VNone, _ | _, VNone => None
  | b, a =>
      match py_float b, py_float a with
      | Ok b, Ok a => if fle b f_zero || fle a f_zero then None else Some (b, a)
      | _, _ => None
      end
  end.
Definition liquidity_refusal (s : trade_signal) : DM X (option string) :=
  match quote_of (ts_fields s) with
  | None => mret None
  | Some (b, a) =>
      r ← on_service (en_liquidity sv b a (rget "oi" (VInt 0) (ts_fields s)) (rget "volume" (VInt 0) (ts_fields s)));
      mret (if r.1 : bool then None else Some (default "" r.2))
  end.

Definition port_mode : ExecutionMode :=
  let m := str_upper (if truthy_str (st_mode se) then st_mode se else "MANUAL") in
  if String.eqb m "PAPER" then PAPER_MODE
  else if str_mem m ["AUTO"; "AUTOMATIC"] then AUTOMATIC else MANUAL.

Definition entry_order (name side key : string) (price : pyval) (qty : Z) (s : trade_signal) : order_call :=
  OrderCall name side (rget "strike" price (ts_fields s)) qty price key.
Definition entry_context (id key : string) (s : trade_signal) : order_context :=
  OrderContext id
    (py_str (v_or (v_or (rget "strategy_name" VNone (ts_fields s)) (rget "strategy" VNone (ts_fields s))) (VStr "position_service")))
    port_mode (py_str (v_or (rget "correlation_id" VNone (ts_fields s)) (VStr key))).

(** The checks in a row; the first refusal blocks. *)
Definition or_refused {A} (reason : string) (m : DM X (option string)) (text : string → string) (k : DM X (submission * A)) (a : A) :
    DM X (submission * A) :=
  r ← m;
  match r with
  | Some why => mret (Blocked reason (text why), a)
  | None => k
  end.
Definition submit_order (name side key : string) (price : pyval) (qty : Z) (s : trade_signal) : DM X (submission * trade_signal) :=
  p ← (let id := id_text (rget "signal_id" VNone (ts_fields s)) in
       if truthy_str id then mret (id, s)
       else ensure_signal_persisted name None (Some side) (Some price) true s);
  let '(id, s) := p in
  if negb (truthy_str id) then
    mret (Blocked "signal_persistence" "SIGNAL_PERSISTENCE_BLOCK: durable signal_id unavailable", s)
  else
    or_refused "margin" (margin_refusal name price qty) (String.append "MARGIN_BLOCK: ")
      (or_refused "risk" (risk_refusal name s) (String.append "RISK_BLOCK_POST_LOCK: ")
        (or_refused "liquidity" (liquidity_refusal s) (String.append "LIQUIDITY_BLOCK: ")
          (match es_exec ex_services with
           | None => st_raise (PyExn RuntimeError "No execution service available")
           | Some x => r ← place x (entry_order name side key price qty s) (Some (entry_context id key s)); mret (Answered r, s)
           end) s) s) s.

(** ** The stored position *)

(** [_store_position] *)
Definition stored_position (r : pyrec) (price : pyval) (qty : Z) (side key order_id : string) (asset : pyval) (underlying now : float64) : res pyrec :=
  rbind (py_int (rget "strike" (rget "price" price r) r)) (λ strike,
  rbind (py_int (rget "score" (VInt 0) r)) (λ score,
  Ok (PyDict
    [("direction", rget "direction" (VStr "CALL") r); ("qty", VInt qty); ("entry_price", price);
     ("underlying_entry_price", VFloat underlying); ("entry_time", VFloat now); ("order_id", VStr order_id);
     ("signal", rget "direction" (VStr "CALL") r); ("strike", VInt strike); ("idempotency_key", VStr key);
     ("entry_order_direction", VStr side); ("score", VInt score); ("asset_type", asset)]))).
Definition store_position (name side key : string) (price : pyval) (qty : Z) (s : trade_signal) (asset : option string) (r : order_result) :
    DM X unit :=
  ltp ← get_underlying_ltp ex_services name;
  underlying ← (match ltp with
                | Some x => if is_zero x then st_lift (py_float price) else mret x
                | None => st_lift (py_float price)
                end);
  now ← time_time;
  let type := match asset with Some a => VStr a | None => rget "asset_type" (VStr "INDEX_OPTIONS") (ts_fields s) end in
  p ← st_lift (stored_position (ts_fields s) price qty side key (or_order_id r) type underlying now);
  set_position name p ;;
  when_given (es_reentry ex_services name) (λ t,
    stopped ← on_service (rt_has_stop t);
    if stopped : bool then best_effort (on_service (rt_record_reentry t)) else mret ()).

(** ** [enter_trade] *)

Definition order_side (direction : string) : string :=
  if String.eqb direction "CALL" then "BUY" else if String.eqb direction "PUT" then "SELL" else direction.

(** What follows the answer of the broker. *)
Definition settle_entry (name side key : string) (price : pyval) (qty : Z) (asset : option string) (o : submission * trade_signal) : DM X unit :=
  match o.1 with
  | Blocked reason message =>
      let text := cat [str_upper reason; "_BLOCK: "] in
      log_decision name (cat [text; message]) ;;
      send_notification ex_services (cat [text; name; " - "; message]) true
  | Answered r =>
      if filled r then
        store_position name side key price qty o.2 asset r ;;
        when_given (es_risk ex_services) (λ risk, best_effort (on_service (rp_record_entry risk name))) ;;
        now ← time_time;
        st_modify (put_last_entry name now) ;;
        log_decision name (cat ["Executed: "; or_order_id r])
      else
        log_decision name (cat ["Blocked/Failed: ";
          str_or (or_reject_reason r) (cat ["OrderStatus."; OrderStatus.value (or_status r)])])
  end.

(** A failing submission: a broken authorisation or a rejection halts. *)
Definition entry_failed (name : string) (e : pyexn) : DM X (option (submission * trade_signal)) :=
  match classify_broker_exception e with
  | Some c =>
      log_decision name (cat ["BROKER_ERROR: "; c]) ;;
      on_safety (trip_hard_halt (cat ["Margin check failed: "; c]) "") ;; mret None
  | None => log_decision name (cat ["ORDER_FAILED: "; exn_msg e]) ;; mret None
  end.

(** From the size to the answer. *)
Definition execute_entry (name : string) (asset : option string) (s : trade_signal) : DM X unit :=
  (match en_token sv with Some refresh => best_effort (on_service refresh) | None => mret () end) ;;
  let price := rget "price" (VFloat f_zero) (ts_fields s) in
  qty ← entry_size name s price asset;
  blocked ← portfolio_risk_gate name price qty;
  if blocked : bool then mret ()
  else
    let direction := rget "direction" (VStr "CALL") (ts_fields s) in
    let side := order_side (upper_of direction) in
    s ← strike_step name price asset s;
    match s with
    | None => mret ()
    | Some s =>
        now ← time_time;
        let ts := dots_to_underscores (py_str (rget "signal_ts" (rget "timestamp" (VFloat now) (ts_fields s)) (ts_fields s))) in
        let key := cat [name; "_"; py_str direction; "_"; str_of_Z qty; "_"; ts] in
        o ← st_try (r ← submit_order name side key price qty s; mret (Some r)) soft_errors (entry_failed name);
        match o with
        | Some o => settle_entry name side key price qty asset o
        | None => mret ()
        end
    end.

Definition persist_qualified (name : string) (asset : option string) (s : trade_signal) : DM X trade_signal :=
  qualified ← st_lift (is_qualified_signal (ts_fields s));
  if qualified : bool then
    st_try_any (p ← ensure_signal_persisted name asset None None false s; mret p.2) (λ _, mret s)
  else mret s.

Definition enter_trade (name : string) (asset : option string) (s : trade_signal) : DM X unit :=
  present ← on_service (en_kill_file sv);
  on_safety (check_kill_file_and_halt present) ;;
  now ← time_time;
  let ts := dots_to_underscores (py_str (rget "signal_ts" (rget "timestamp" (VFloat now) (ts_fields s)) (ts_fields s))) in
  let trace := cat [name; "_"; py_str (rget "direction" (VStr "CALL") (ts_fields s)); "_"; ts] in
  audit "enter_trade" trace ;;
  halted ← on_safety is_hard_halted;
  if halted : bool then log_decision name "HARD HALT ACTIVE - blocked"
  else
    s ← persist_qualified name asset s;
    blocked ← first_block (entry_gates name trace asset s);
    if blocked : bool then mret ()
    else if is_manual then manual_entry name s
    else execute_entry name asset s.
End entry.

(** ** The calls of an entry

    [recorded sv] behaves as [sv] and notes the verdicts of the risk service
    (with the state in which it was asked, and what it was asked) and of the
    margin validator, and every order handed to the execution service, in
    the order of the calls. *)
Inductive call (X : Type) :=
| CRisk (at_ : safety * X) (fields : pyrec) (m : risk_metrics) (d : RiskDecision)
| CMargin (refusal : option string)
| CPlaced (o : order_call) (c : option order_context).
Arguments CRisk {X}. Arguments CMargin {X}. Arguments CPlaced {X}.

Section recorded.
Context {X : Type}.

Definition lift {A} (m : SX X A) : SX (X * list (call X)) A := λ p,
  let '(r, (s, x)) := m (p.1, p.2.1) in (r, (s, (x, p.2.2))).
Definition noting {A} (f : safety * X → A → list (call X)) (m : SX X A) : SX (X * list (call X)) A := λ p,
  let '(r, (s, x)) := m (p.1, p.2.1) in
  (r, (s, (x, p.2.2 ++ match r with Ok a => f (p.1, p.2.1) a | Raise _ => [] end))).
Definition note (c : call X) : SX (X * list (call X)) unit := λ p, (Ok (), (p.1, (p.2.1, p.2.2 ++ [c]))).

Definition recorded_risk (r : risk_port X) : risk_port (X * list (call X)) := {|
  rp_metrics := lift (rp_metrics r);
  rp_evaluate n s m := noting (λ p e, [CRisk p s m (re_decision e)]) (rp_evaluate r n s m);
  rp_trades_today := lift (rp_trades_today r); rp_scale a b := lift (rp_scale r a b);
  rp_vix_multiplier v := lift (rp_vix_multiplier r v); rp_vix_soft v := lift (rp_vix_soft r v);
  rp_margin_per_lot n p := lift (rp_margin_per_lot r n p); rp_loss_cap a b c := lift (rp_loss_cap r a b c);
  rp_sl_risk_ok a b c := lift (rp_sl_risk_ok r a b c); rp_record_entry n := lift (rp_record_entry r n);
  rp_record_result p w := lift (rp_record_result r p w) |}.
Definition recorded_exec (x : exec_port X) : exec_port (X * list (call X)) := {|
  xp_execute o c := note (CPlaced o c) ;; lift (xp_execute x o c); xp_watchdog := lift (xp_watchdog x) |}.
Definition recorded_portfolio (p : portfolio_port X) : portfolio_port (X * list (call X)) := {|
  pp_available_margin := lift (pp_available_margin p); pp_update_pnl a := lift (pp_update_pnl p a);
  pp_increment_trades := lift (pp_increment_trades p) |}.
Definition recorded_reentry (t : reentry_port X) : reentry_port (X * list (call X)) := {|
  rt_has_stop := lift (rt_has_stop t); rt_record_reentry := lift (rt_record_reentry t);
  rt_record_stop d s := lift (rt_record_stop t d s) |}.
Definition recorded_exit (sv : exit_services X) : exit_services (X * list (call X)) := {|
  es_risk := recorded_risk <$> es_risk sv; es_exec := recorded_exec <$> es_exec sv;
  es_portfolio := recorded_portfolio <$> es_portfolio sv; es_reentry n := recorded_reentry <$> es_reentry sv n;
  es_ltp := (λ f n, lift (f n)) <$> es_ltp sv; es_notify := (λ f m c, lift (f m c)) <$> es_notify sv;
  es_intraday_close p w := lift (es_intraday_close sv p w);
  es_trades_db := (λ f t, lift (f t)) <$> es_trades_db sv |}.
Definition recorded_warmup (w : warmup_port X) : warmup_port (X * list (call X)) := {|
  wu_can_enter n := lift (wu_can_enter w n); wu_max_text := wu_max_text w; wu_adjusted q := lift (wu_adjusted w q) |}.
Definition recorded_expiry (e : expiry_port X) : expiry_port (X * list (call X)) := {|
  ex_refusal := lift (ex_refusal e); ex_is_expiry_day n := lift (ex_is_expiry_day e n);
  ex_weekday n := lift (ex_weekday e n) |}.
Definition recorded_strike (p : strike_port X) : strike_port (X * list (call X)) := {|
  sp_step n := lift (sp_step p n); sp_dte_check d := lift (sp_dte_check p d);
  sp_select a b c d e f := lift (sp_select p a b c d e f); sp_quote a b c := lift (sp_quote p a b c) |}.
Definition recorded_tracker (t : tracker_port X) : tracker_port (X * list (call X)) := {|
  tk_levels a b c d e := lift (tk_levels t a b c d e); tk_recipients a b c := lift (tk_recipients t a b c);
  tk_record r u := lift (tk_record t r u); tk_record_plain r := lift (tk_record_plain t r);
  tk_dispatch r i u := lift (tk_dispatch t r i u); tk_active k := lift (tk_active t k) |}.
Definition recorded (sv : entry_services X) : entry_services (X * list (call X)) := {|
  en_exit := recorded_exit (en_exit sv); en_kill_file := lift (en_kill_file sv);
  en_audit := (λ f k t, lift (f k t)) <$> en_audit sv; en_news := lift <$> en_news sv;
  en_warmup := recorded_warmup <$> en_warmup sv; en_expiry := recorded_expiry <$> en_expiry sv;
  en_time_of_day v := lift (en_time_of_day sv v); en_token := lift <$> en_token sv;
  en_mandate := (λ f n p, lift (f n p)) <$> en_mandate sv; en_size_mult := lift (en_size_mult sv);
  en_margin := (λ f a b q p n, noting (λ _ r, [CMargin r]) (f a b q p n)) <$> en_margin sv;
  en_strike := recorded_strike (en_strike sv); en_liquidity a b o v := lift (en_liquidity sv a b o v);
  en_tracker := recorded_tracker (en_tracker sv) |}.

Definition calls (d : desk (X * list (call X))) : list (call X) := (dk_ext d).2.
End recorded.

(** ** What an entry needs *)

Section gated.
Context {X : Type} (cfg : pyrec) (sv : entry_services X) (se : entry_settings).
Abbreviation RS := (recorded sv).
Abbreviation D := (desk (X * list (call X))).

(** Steps that make no noted call. *)
Abbreviation unnoted := (unnoted (calls (X:=X))).
Lemma lift_unnoted {A} (m : SX X A) : st_rel unnoted (on_service (lift m)).
Proof. intros d. unfold on_service, st_zoom, lift. cbn. by destruct (m _) as [r [s x]]. Qed.
Lemma safety_unnoted {A} (m : ST safety A) : st_rel unnoted (on_safety (X:=X * list (call X)) m).
Proof. intros d. unfold on_safety, st_zoom. by destruct (m _). Qed.
Lemma now_unnoted : st_rel unnoted (now_ist (W:=D)).
Proof. intros d. by rewrite now_ist_total. Qed.
Lemma time_unnoted : st_rel unnoted (time_time (W:=D)).
Proof. intros d. by rewrite time_time_total. Qed.
Lemma modify_unnoted f : (∀ d : D, calls (f d) = calls d) → st_rel unnoted (st_modify f).
Proof. intros H d. apply H. Qed.
Lemma when_unnoted {P} (o : option P) (f : P → DM (X * list (call X)) unit) :
  (∀ p, o = Some p → st_rel unnoted (f p)) → st_rel unnoted (when_given o f).
Proof. intros H. destruct o; [by apply H|]. apply st_rel_ret; typeclasses eauto. Qed.
Lemma gate_unnoted {P} (o : option P) (f : P → DM (X * list (call X)) bool) :
  (∀ p, o = Some p → st_rel unnoted (f p)) → st_rel unnoted (gate o f).
Proof.
  intros H. destruct o; [|apply st_rel_ret; typeclasses eauto]. unfold gate, fail_open. rel_auto ltac:(by apply H).
Qed.
Ltac given H := cbn in H; apply fmap_Some in H as (? & _ & ->).
Ltac quiet_step :=
  first
    [ apply lift_unnoted | apply safety_unnoted | apply now_unnoted | apply time_unnoted
    | apply modify_unnoted; intros ?; reflexivity
    | apply when_unnoted; let p := fresh "p" in let H := fresh "H" in intros p H; given H; cbn
    | apply gate_unnoted; let p := fresh "p" in let H := fresh "H" in intros p H; given H; cbn ].
Ltac quiet := rel_auto ltac:(first [quiet_step | progress unfold best_effort, block, log_decision, fail_open]).

Lemma notify_unnoted m c : st_rel unnoted (send_notification (recorded_exit (en_exit sv)) m c).
Proof. unfold send_notification. quiet. Qed.
Lemma ltp_unnoted n : st_rel unnoted (get_underlying_ltp (recorded_exit (en_exit sv)) n).
Proof. unfold get_underlying_ltp. cbn. destruct (es_ltp _); cbn; quiet. Qed.
Lemma audit_unnoted k t : st_rel unnoted (audit RS k t).
Proof. unfold audit. quiet. Qed.

(** The calls a step makes. *)
Abbreviation yields := (yields (calls (X:=X))).

Definition unplaced (l : list (call X)) : Prop := ∀ o c, CPlaced o c ∉ l.
Lemma unplaced_nil : unplaced [].
Proof. intros o c H. by apply not_elem_of_nil in H. Qed.
Lemma unplaced_app l1 l2 : unplaced l1 → unplaced l2 → unplaced (l1 ++ l2).
Proof. intros H1 H2 o c [H|H]%elem_of_app; [by eapply H1|by eapply H2]. Qed.
Lemma unplaced_verdict p f m v : unplaced [CRisk p f m v].
Proof. intros o c H%list_elem_of_singleton. done. Qed.
Lemma unplaced_margin v : unplaced [CMargin v].
Proof. intros o c H%list_elem_of_singleton. done. Qed.

(** A check: no order in it, and [ok] holds of what it adds when it passes
    with the answer [good]. *)
Definition nothing (l : list (call X)) : Prop := l = [].
Definition check {A} (good : A) (ok : list (call X) → Prop) (r : res A) (l : list (call X)) : Prop :=
  unplaced l ∧ (r = Ok good → ok l).
Lemma quiet_check {A} (m : DM (X * list (call X)) A) good : st_rel unnoted m → yields m (check good nothing).
Proof. intros H. apply yields_quiet; [done|]. intros r. split; [apply unplaced_nil|done]. Qed.

(** An evaluation, with the metrics the service had just given, that allowed
    the trade, where there is a risk service; the margin's consent, where
    there is a validator. *)
Definition allowed_at (risk : risk_port X) (n : string) (p : safety * X) (f : pyrec) (m : risk_metrics) : Prop :=
  (∃ p0, rp_metrics risk p0 = (Ok m, p)) ∧ ∃ e, (rp_evaluate risk n f m p).1 = Ok e ∧ re_decision e = ALLOWED.
Definition risk_allows (n : string) (l : list (call X)) : Prop :=
  match es_risk (en_exit sv) with
  | Some risk => ∃ p f m, l = [CRisk p f m ALLOWED] ∧ allowed_at risk n p f m
  | None => l = []
  end.
Definition margin_consents (l : list (call X)) : Prop :=
  l = match en_margin sv with Some _ => [CMargin None] | None => [] end.

(** The checks of a list, one after the other. *)
Inductive each_ok : list (list (call X) → Prop) → list (call X) → Prop :=
| each_nil : each_ok [] []
| each_cons ok oks l ls : ok l → each_ok oks ls → each_ok (ok :: oks) (l ++ ls).
Lemma first_block_yields (gs : list (DM (X * list (call X)) bool)) oks :
  Forall2 (λ g ok, yields g (check false ok)) gs oks → yields (first_block gs) (check false (each_ok oks)).
Proof.
  induction 1 as [|g ok gs oks Hg _ IH]; cbn [first_block].
  - apply yields_ret. split; [apply unplaced_nil|]. intros _. constructor.
  - eapply yields_bind; [exact Hg| |].
    + intros [|] k [U G].
      * apply yields_ret. rewrite app_nil_r. by split.
      * eapply yields_weaken; [exact IH|]. intros r k2 [U2 G2]. split; [by apply unplaced_app|]. intros Hr.
        constructor; [by apply G|by apply G2].
    + intros e k [U _]. by split.
Qed.

(** The evaluation of a signal, and the validation of its margin. *)
Lemma service_yields {A} (f : safety * X → A → list (call X)) (m : SX X A) :
  yields (on_service (noting f m)) (λ r l, ∃ p, r = (m p).1 ∧ l = match r with Ok a => f p a | Raise _ => [] end).
Proof.
  intros d r d'. unfold on_service, st_zoom, noting. set (p := ((dk_safety d, dk_ext d).1, (dk_safety d, dk_ext d).2.1)).
  destruct (m p) as [v [s' x']] eqn:E. intros [= <- <-]. eexists. split; [done|]. exists p. by rewrite E.
Qed.
Lemma denied_or_allowed e : bool_decide (re_decision e = DENIED) = false → re_decision e = ALLOWED.
Proof. intros H. bools. by destruct (re_decision e). Qed.
(** An unnoted call and a noted one right after it. *)
Lemma service_pair {A B C} (f : A → safety * X → B → list (call X)) (m : SX X A) (m2 : A → SX X B)
    (g : A → B → DM (X * list (call X)) C) K :
  (∀ e, K (Raise e) []) →
  (∀ p0 a p1 b, m p0 = (Ok a, p1) → (m2 a p1).1 = Ok b → yields (g a b) (λ r l, K r (f a p1 b ++ l))) →
  yields (a ← on_service (lift m); b ← on_service (noting (f a) (m2 a)); g a b) K.
Proof.
  intros He Hg d r d' E. unfold mbind at 1, st_bind at 1, on_service at 1, st_zoom, lift in E.
  set (p0 := ((dk_safety d, dk_ext d).1, (dk_safety d, dk_ext d).2.1)) in E.
  destruct (m p0) as [[a|e] [s1 x1]] eqn:E1; [|injection E as <- <-; exists []; split; [by rewrite app_nil_r|apply He]].
  unfold mbind, st_bind, on_service, st_zoom, noting in E. cbn in E.
  destruct (m2 a (s1, x1)) as [[b|e] [s2 x2]] eqn:E2; [|injection E as <- <-; exists []; split; [done|apply He]].
  destruct (Hg p0 a (s1, x1) b E1 (f_equal fst E2) _ _ _ E) as (l & C1 & Hl).
  eexists. split; [|exact Hl]. rewrite C1. cbn. by rewrite app_assoc.
Qed.
Lemma evaluated_ok risk n f m p0 p e :
  es_risk (en_exit sv) = Some risk → rp_metrics risk p0 = (Ok m, p) → (rp_evaluate risk n f m p).1 = Ok e → re_decision e = ALLOWED →
  risk_allows n [CRisk p f m (re_decision e)].
Proof.
  intros Hr Hm He Ha. unfold risk_allows. rewrite Hr. exists p, f, m. split; [by rewrite Ha|]. split; [by exists p0|by exists e].
Qed.

Lemma risk_gate_yields n t s : yields (risk_gate RS n t s) (check false (risk_allows n)).
Proof.
  unfold risk_gate, ex_services. cbn. destruct (es_risk (en_exit sv)) as [risk|] eqn:Er; cbn.
  2:{ eapply yields_weaken; [apply quiet_check; quiet|]. intros r l [U H]. split; [done|]. intros Hr. unfold risk_allows. rewrite Er. by apply H. }
  eapply (yields_try _ _ _ (check false (risk_allows n))).
  - apply (service_pair (λ m p e, [CRisk p (ts_fields s) m (re_decision e)]) (rp_metrics risk) (rp_evaluate risk n (ts_fields s)));
      [by intros e; split; [apply unplaced_nil|]|].
    intros p0 m p e Hm He. destruct (bool_decide _) eqn:Ed.
    + eapply (yields_bind _ _ (λ _ l, l = [])); [apply yields_quiet; [quiet|done]| |].
      { intros _ l ->. eapply (yields_bind _ _ (λ _ l, l = [])); [apply yields_quiet; [apply audit_unnoted|done]| |].
        - intros _ l ->. apply yields_ret. split; [apply unplaced_verdict|done].
        - intros e1 l ->. split; [apply unplaced_verdict|done]. }
      intros e1 l ->. split; [apply unplaced_verdict|done].
    + apply yields_ret. cbn. split; [apply unplaced_verdict|]. intros _. eapply evaluated_ok; [done..|by apply denied_or_allowed].
  - done.
  - intros e l [U _] _. unfold block. eapply (yields_bind _ _ (λ _ l, l = [])); [apply yields_quiet; [quiet|done]| |].
    + intros _ k ->. apply yields_ret. rewrite !app_nil_r. by split.
    + intros e1 k ->. rewrite app_nil_r. by split.
  - intros e l [U _]. by split.
Qed.
Lemma gates_yield n t a s : yields (first_block (entry_gates cfg RS se n t a s)) (check false (risk_allows n)).
Proof.
  eapply yields_weaken; [apply (first_block_yields _
    [nothing; nothing; nothing; nothing; nothing; nothing; nothing; nothing; nothing; risk_allows n; nothing])|].
  - unfold entry_gates. repeat (apply Forall2_cons; split); [..|apply Forall2_nil; done];
      first [apply risk_gate_yields | apply quiet_check].
    + unfold intraday_gate. quiet.
    + unfold news_gate. quiet.
    + unfold warmup_gate. quiet.
    + unfold cooldown_gate. quiet.
    + unfold expiry_gate. quiet.
    + unfold expiry_count_gate, ex_services. cbn. destruct (es_risk (en_exit sv)); cbn; quiet.
    + unfold auction_gate. quiet.
    + unfold recon_gate, ex_services. quiet.
    + unfold time_gate. quiet.
    + unfold stale_gate. quiet.
  - intros r l [U H]. split; [done|]. intros Hr. specialize (H Hr).
    repeat match goal with H : each_ok (_ :: _) _ |- _ => inversion H; clear H; subst | H : each_ok [] _ |- _ => inversion H; clear H; subst end.
    unfold nothing in *. subst. cbn. by rewrite !app_nil_r.
Qed.

(** *** Steps that place nothing *)

Lemma try_any_unnoted {A} (m : DM (X * list (call X)) A) h :
  st_rel unnoted m → (∀ e, st_rel unnoted (h e)) → st_rel unnoted (st_try_any m h).
Proof. intros Hm Hh. apply st_rel_try_any; [typeclasses eauto|done..]. Qed.
Lemma record_signal_unnoted n a o p s : st_rel unnoted (record_signal cfg RS n a o p s).
Proof. unfold record_signal, signal_record, dispatch_signal, active_signal. quiet. Qed.
Lemma persisted_unnoted n a o p f s : st_rel unnoted (ensure_signal_persisted cfg RS n a o p f s).
Proof. unfold ensure_signal_persisted. quiet; apply record_signal_unnoted. Qed.
Lemma persist_unnoted n a s : st_rel unnoted (persist_qualified cfg RS n a s).
Proof. unfold persist_qualified. quiet; apply persisted_unnoted. Qed.

Ltac risk_case := unfold when_risk, ex_services; cbn; destruct (es_risk (en_exit sv)); cbn; unfold or_keep; quiet.
Lemma size_unnoted n s p a : st_rel unnoted (entry_size cfg RS n s p a).
Proof.
  unfold entry_size. rel_auto ltac:(idtac).
  - unfold get_position_size. cbn. destruct (en_mandate sv); cbn; quiet.
  - unfold warmup_size. cbn. destruct (en_warmup sv); cbn; unfold or_keep; quiet.
  - unfold capital_size. risk_case.
  - unfold session_size, or_keep. quiet.
  - unfold vix_size. risk_case.
  - unfold vix_warning, ex_services. quiet; apply notify_unnoted.
  - unfold loss_cap. risk_case.
Qed.
Lemma portfolio_gate_unnoted n p q : st_rel unnoted (portfolio_risk_gate cfg RS n p q).
Proof. unfold portfolio_risk_gate. risk_case. Qed.
Lemma dte_unnoted n : st_rel unnoted (resolve_dte RS n).
Proof. unfold resolve_dte. cbn. destruct (en_expiry sv); cbn; quiet. Qed.
Lemma quote_unnoted n k side s : st_rel unnoted (live_quote cfg RS n k side s).
Proof. unfold live_quote, ex_services. cbn. destruct (es_exec (en_exit sv)); cbn; quiet. Qed.
Lemma strike_unnoted n p a s : st_rel unnoted (strike_step cfg RS n p a s).
Proof. unfold strike_step, select_strike. quiet; first [apply dte_unnoted|apply quote_unnoted]. Qed.
Lemma settle_unnoted n side key p q a o : st_rel unnoted (settle_entry RS n side key p q a o).
Proof.
  unfold settle_entry, store_position, set_position, ex_services. quiet; first [apply notify_unnoted|apply ltp_unnoted|idtac].
Qed.
Lemma failed_unnoted n e : st_rel unnoted (entry_failed (X:=X*list (call X)) n e).
Proof. unfold entry_failed. quiet. Qed.

(** *** Submission *)

Lemma margin_yields n p q : yields (margin_refusal RS n p q) (check None margin_consents).
Proof.
  unfold margin_refusal. apply yields_after; [|by intros e; split; [apply unplaced_nil|]|].
  { unfold available_margin, ex_services. cbn. destruct (es_portfolio (en_exit sv)); cbn; quiet. }
  intros avail. apply yields_after; [|by intros e; split; [apply unplaced_nil|]|].
  { unfold margin_per_lot. risk_case. }
  intros per. unfold margin_consents. cbn. destruct (en_margin sv) as [v|]; cbn; [|apply quiet_check; quiet].
  unfold margin_wrap. eapply yields_try; [apply service_yields|..].
  - intros r l (p0 & _ & ->). split; [apply unplaced_margin|]. by intros [= ->].
  - intros e l (p0 & _ & ->) _. apply yields_raise. rewrite app_nil_r. split; [apply unplaced_nil|done].
  - intros e l (p0 & _ & ->). split; [apply unplaced_nil|done].
Qed.
Lemma recheck_yields n s : yields (risk_refusal RS n s) (check None (risk_allows n)).
Proof.
  unfold risk_refusal, ex_services. cbn. destruct (es_risk (en_exit sv)) as [risk|] eqn:Er; cbn.
  2:{ eapply yields_weaken; [apply quiet_check; quiet|]. intros r l [U H]. split; [done|]. intros Hr. unfold risk_allows. rewrite Er. by apply H. }
  unfold margin_wrap. eapply (yields_try _ _ _ (check None (risk_allows n))).
  - apply (service_pair (λ m p e, [CRisk p (ts_fields s) m (re_decision e)]) (rp_metrics risk) (rp_evaluate risk n (ts_fields s)));
      [by intros e; split; [apply unplaced_nil|]|].
    intros p0 m p e Hm He. apply yields_ret. rewrite app_nil_r. split; [apply unplaced_verdict|].
    destruct (bool_decide _) eqn:Ed; [done|]. intros _. eapply evaluated_ok; [done..|by apply denied_or_allowed].
  - done.
  - intros e l [U _] _. apply yields_raise. rewrite app_nil_r. by split.
  - intros e l [U _]. by split.
Qed.
Lemma liquidity_yields s : yields (liquidity_refusal RS s) (check None nothing).
Proof. apply quiet_check. unfold liquidity_refusal. quiet. Qed.

(** What a submission, and the entry around it, may add: no order, or
    one after the calls [before]. *)
Definition order_for (n side : string) (o : order_call) (c : order_context) : Prop :=
  oc_symbol o = n ∧ oc_direction o = side ∧ truthy_str (ox_signal_id c) = true.
Definition submits {A} (n side : string) (before : list (call X) → Prop) (r : res A) (l : list (call X)) : Prop :=
  unplaced l ∨ ∃ k o c, l = k ++ [CPlaced o (Some c)] ∧ before k ∧ order_for n side o c.
(** [P] and then [Q] *)
Definition then_ok (P Q : list (call X) → Prop) (l : list (call X)) : Prop := ∃ l1 l2, l = l1 ++ l2 ∧ P l1 ∧ Q l2.

Lemma refused_yields {A} reason text (m : DM (X * list (call X)) (option string)) k (a : A) n side ok before :
  yields m (check None ok) → yields k (submits n side before) →
  yields (or_refused reason m text k a) (submits n side (then_ok ok before)).
Proof.
  intros Hm Hk. unfold or_refused. eapply yields_bind; [exact Hm| |intros e l [U _]; by left].
  intros [why|] l [U G]; [apply yields_ret; rewrite app_nil_r; by left|].
  eapply yields_weaken; [exact Hk|]. intros r l2 [U2|(k2 & o & c & -> & B & O)]; [left; by apply unplaced_app|].
  right. exists (l ++ k2), o, c. split_and!; [by rewrite app_assoc| |done]. exists l, k2. split_and!; auto.
Qed.

Lemma place_yields x o c : yields (place (recorded_exec x) o c) (λ r l, l = [CPlaced o c]).
Proof.
  intros d r d' E. unfold place in E. rewrite (st_bind_ok _ _ d () (put_sent (dk_sent d ++ [o]) d)) in E by done.
  unfold on_service, st_zoom, recorded_exec, note, lift in E. cbn in E. unfold mbind, st_bind in E. cbn in E.
  destruct (xp_execute x o c _) as [v [s' x']]. injection E as <- <-. eexists. by split.
Qed.
(** The checks of a submission. *)
Definition checked (n : string) : list (call X) → Prop :=
  then_ok margin_consents (then_ok (risk_allows n) (then_ok nothing nothing)).
Lemma submit_yields n side key p q s : yields (submit_order cfg RS se n side key p q s) (submits n side (checked n)).
Proof.
  unfold submit_order. apply yields_after; [|intros e; left; apply unplaced_nil|].
  { quiet; apply persisted_unnoted. }
  intros [id s']. destruct (truthy_str id) eqn:Hid; cbn [negb]; [|apply yields_ret; left; apply unplaced_nil].
  apply refused_yields; [apply margin_yields|]. apply refused_yields; [apply recheck_yields|].
  apply refused_yields; [apply liquidity_yields|].
  unfold ex_services. cbn. destruct (es_exec (en_exit sv)) as [x|]; cbn; [|apply yields_raise; left; apply unplaced_nil].
  eapply yields_bind; [apply place_yields| |].
  - intros r l ->. apply yields_ret. right. exists []. do 2 eexists. by rewrite app_nil_r.
  - intros e l ->. right. exists []. do 2 eexists. done.
Qed.

Definition direction_of (s : trade_signal) : pyval := rget "direction" (VStr "CALL") (ts_fields s).
Lemma execute_yields n a s :
  yields (execute_entry cfg RS se n a s) (submits n (order_side (upper_of (direction_of s))) (checked n)).
Proof.
  unfold execute_entry. apply yields_after; [|intros e; left; apply unplaced_nil|].
  { cbn. destruct (en_token sv); cbn; quiet. }
  intros []. apply yields_after; [apply size_unnoted|intros e; left; apply unplaced_nil|]. intros qty.
  apply yields_after; [apply portfolio_gate_unnoted|intros e; left; apply unplaced_nil|].
  intros [|]; [apply yields_ret; left; apply unplaced_nil|].
  apply yields_after; [apply strike_unnoted|intros e; left; apply unplaced_nil|].
  intros [s'|]; [|apply yields_ret; left; apply unplaced_nil].
  apply yields_after; [apply time_unnoted|intros e; left; apply unplaced_nil|]. intros now.
  set (side := order_side _). set (key := cat _).
  eapply (yields_bind _ _ (λ _ l, submits n side (checked n) (Ok ()) l)).
  - eapply (yields_try _ _ _ (λ _ l, submits n side (checked n) (Ok ()) l)).
    + eapply yields_bind; [apply submit_yields| |done].
      intros o l H. apply yields_ret. by rewrite app_nil_r.
    + done.
    + intros e l H _. apply yields_quiet; [apply failed_unnoted|]. intros r. by rewrite app_nil_r.
    + done.
  - intros o l H. apply yields_quiet; [|intros r; by rewrite app_nil_r]. destruct o; [apply settle_unnoted|quiet].
  - done.
Qed.

(** Persisting a signal adds no more than its id. *)
Lemma with_id_direction id s : direction_of (with_id id s) = direction_of s.
Proof.
  unfold with_id, direction_of. destruct (truthy_str id); [|done]. cbn. apply rget_insert_ne. discriminate.
Qed.
Lemma persisted_direction n a s : st_post (λ s', direction_of s' = direction_of s) (persist_qualified cfg RS n a s).
Proof.
  unfold persist_qualified. apply st_post_bind. intros [|]; [|by apply st_post_ret].
  intros d s' d'. unfold st_try_any. match goal with |- context [?m d] => destruct (m d) as [[s1|e] d1] eqn:E end.
  - intros [= <- <-]. inv_bind E p d2 E2. injection E as <- <-. unfold ensure_signal_persisted in E2. cbv zeta in E2.
    destruct (truthy_str _); [by injection E2 as <- <-|]. inv_bind E2 b d3 E3. destruct b; [|by injection E2 as <- <-].
    unfold record_signal in E2. inv_bind E2 t d4 E4. inv_bind E2 u d5 E5. inv_bind E2 v d6 E6.
    destruct (truthy_str (id_text v)).
    + inv_bind E2 x d7 E7. injection E2 as <- <-. apply with_id_direction.
    + inv_bind E2 i d7 E7. injection E2 as <- <-. apply with_id_direction.
  - by intros [= <- <-].
Qed.

Lemma entry_yields n a s :
  yields (enter_trade cfg RS se n a s) (λ r l, unplaced l ∨ is_manual se = false ∧
    ∃ k o c, l = k ++ [CPlaced o (Some c)] ∧ then_ok (risk_allows n) (checked n) k ∧
      order_for n (order_side (upper_of (direction_of s))) o c).
Proof.
  unfold enter_trade. assert (unplaced []) as U by apply unplaced_nil.
  apply yields_after; [cbn; quiet|intros e; by left|]. intros present.
  apply yields_after; [quiet|intros e; by left|]. intros []. apply yields_after; [quiet|intros e; by left|]. intros now.
  apply yields_after; [apply audit_unnoted|intros e; by left|]. intros [].
  apply yields_after; [quiet|intros e; by left|]. intros [|]; [apply yields_quiet; [quiet|intros r; by left]|].
  eapply (yields_bind _ _ (λ r l, l = [] ∧ ∀ s', r = Ok s' → direction_of s' = direction_of s)).
  { intros d0 r d' E. exists []. split; [rewrite app_nil_r; pose proof (persist_unnoted n a s d0) as P; by rewrite E in P|].
    split; [done|]. intros s' ->. by eapply persisted_direction. }
  2:{ intros e l [-> _]. by left. }
  intros s' l [-> Hs]. specialize (Hs s' eq_refl).
  eapply yields_bind; [apply gates_yield| |intros e l [Ug _]; by left].
  intros [|] l [Ug G]; [apply yields_ret; left; by rewrite app_nil_r|]. cbn [app].
  destruct (is_manual se); [apply yields_quiet; [|intros r; rewrite app_nil_r; by left]|].
  { unfold manual_entry, ex_services. quiet; apply notify_unnoted. }
  eapply yields_weaken; [apply execute_yields|]. intros r k [Uk|(k2 & o & c & -> & B & O)].
  - left. by apply unplaced_app.
  - right. split; [done|]. exists (l ++ k2), o, c. rewrite Hs in O. split_and!; [by rewrite app_assoc| |done].
    exists l, k2. split_and!; auto.
Qed.

(** C3: No order without its checks.  Whatever the services answer, an entry
    places at most one order, never in a manual mode, and when it places one
    the noted calls of the entry are exactly: an evaluation of the
    risk service, on metrics it has just computed, that allows the trade, the
    margin validator's consent, a second such evaluation, and the order, for the instrument and the side of
    the signal and under a durable signal id. *)
Theorem entry_is_checked (n : string) (a : option string) (s : trade_signal) (d : D) :
  ∃ l, calls (enter_trade cfg RS se n a s d).2 = calls d ++ l ∧
    (unplaced l ∨
     is_manual se = false ∧
     ∃ l1 l2 l3 o c, l = l1 ++ l2 ++ l3 ++ [CPlaced o (Some c)] ∧
       risk_allows n l1 ∧ margin_consents l2 ∧ risk_allows n l3 ∧ order_for n (order_side (upper_of (direction_of s))) o c).
Proof.
  destruct (entry_yields n a s d _ _ (surjective_pairing _)) as (l & C & [U|(Hm & k & o & c & -> & B & O)]); exists l || eexists; (split; [exact C|]).
  - by left.
  - right. split; [done|]. destruct B as (l1 & k2 & -> & H1 & l2 & k3 & -> & H2 & l3 & k4 & -> & H3 & l4 & l5 & -> & -> & ->).
    exists l1, l2, l3, o, c. split_and!; try done. by rewrite !app_nil_r, <- !app_assoc.
Qed.
End gated.

(** ** A hard halt, and the book *)

Section halt.
Context {X : Type} (cfg : pyrec) (sv : entry_services X) (se : entry_settings).

(** A service that does not clear the halt. *)
Definition keeps_halt {A} (m : SX X A) : Prop := ∀ p, sf_halt p.1 = true → sf_halt (m p).2.1 = true.
(** Nothing is sent or booked, and a halt stays. *)
Definition still (d d' : desk X) : Prop :=
  aside d d' ∧ (sf_halt (dk_safety d) = true → sf_halt (dk_safety d') = true).
#[global] Instance still_preorder : PreOrder still.
Proof. split; [by split|]. intros d1 d2 d3 [A1 H1] [A2 H2]. split; [by etransitivity|auto]. Qed.
Lemma service_still {A} (m : SX X A) : keeps_halt m → st_rel still (on_service m).
Proof.
  intros Hm d. split; [apply service_aside|]. unfold on_service, st_zoom. intros H.
  specialize (Hm (dk_safety d, dk_ext d) H). by destruct (m _).
Qed.
Lemma kill_check_still b : st_rel still (on_safety (X:=X) (check_kill_file_and_halt b)).
Proof.
  intros d. split; [apply safety_aside|]. unfold on_safety, st_zoom, check_kill_file_and_halt, trip_hard_halt, mbind, st_bind, st_get, st_put.
  intros H. destruct b; cbn; [rewrite H|]; done.
Qed.

(** A hard halt stops entries.  While the halt is set, an entry sends no
    order and changes no position, the halt stays, and the decision log says
    why, provided the audit and the look at the kill file leave the halt
    alone. *)
Theorem halt_stops_entries (n : string) (a : option string) (s : trade_signal) (d : desk X) :
  keeps_halt (en_kill_file sv) → (∀ f k t, en_audit sv = Some f → keeps_halt (f k t)) → sf_halt (dk_safety d) = true →
  let '(r, d') := enter_trade cfg sv se n a s d in
  dk_sent d' = dk_sent d ∧ dk_positions d' = dk_positions d ∧ sf_halt (dk_safety d') = true ∧
  (r = Ok () → dk_log d' !! n = Some "HARD HALT ACTIVE - blocked"%string).
Proof.
  intros Hk Ha Hd.
  assert (st_wp (enter_trade cfg sv se n a s) d (λ r d', still d d' ∧
            (r = Ok () → dk_log d' !! n = Some "HARD HALT ACTIVE - blocked"%string))) as H.
  { unfold enter_trade. eapply wp_rel; [by apply service_still|by intros e d1 H1|]. intros present d1 H1.
    eapply wp_rel; [apply kill_check_still|intros e d2 H2; split; [by etransitivity|done]|]. intros [] d2 H2.
    eapply (wp_rel still).
    { intros d0. split; [apply time_aside|]. intros H0. by rewrite time_time_total. }
    { intros e d3 H3. split; [etransitivity; [exact H1|by etransitivity]|done]. }
    intros now d3 H3. cbv zeta. eapply (wp_rel still).
    { unfold audit, when_given. destruct (en_audit sv) as [f|] eqn:Ef; [|apply st_rel_ret; typeclasses eauto].
      unfold best_effort. rel_auto ltac:(apply service_still; by eapply Ha). }
    { intros e d4 H4. split; [etransitivity; [exact H1|etransitivity; [exact H2|by etransitivity]]|done]. }
    intros [] d4 H4. assert (still d d4) as H by (etransitivity; [exact H1|etransitivity; [exact H2|by etransitivity]]).
    assert (sf_halt (dk_safety d4) = true) as H4t by by apply H.
    apply wp_bind. apply (wp_eq _ _ (Ok true) d4).
    { unfold on_safety, st_zoom, is_hard_halted, st_gets. rewrite H4t. by destruct d4. }
    cbn beta iota. eapply wp_eq; [reflexivity|]. split; [exact H|]. intros _. apply dict_lookup_insert_eq. }
  unfold st_wp in H. destruct (enter_trade cfg sv se n a s d) as [r d']. cbn in H.
  destruct H as [[[P S] Hh] L]. split_and!; auto.
Qed.

Lemma run_calm {A} (m : DM X A) d v d' : st_rel aside m → m d = (v, d') → aside d d'.
Proof. intros H E. specialize (H d). by rewrite E in H. Qed.
Ltac calm := rel_auto ltac:(first
  [ apply service_aside | apply safety_aside | apply clock_calm | apply time_aside | apply best_effort_aside
  | apply when_given_aside; intros ? | apply st_rel_modify; intros ?; split; reflexivity | apply ltp_aside ]).

(** A filled entry is booked.  When what follows the broker's answer
    completes and the answer is a fill, the instrument has a position with
    the direction of the signal, the size and price of the entry and its
    order side, so that the exit closes it with the opposite side; every
    other position is untouched, and no further order was sent. *)
Theorem filled_entry_booked (n side key : string) (price : pyval) (q : Z) (a : option string) (r : order_result) (s : trade_signal)
    (d d' : desk X) :
  settle_entry sv n side key price q a (Answered r, s) d = (Ok (), d') → filled r = true →
  (∃ p, dk_positions d' !! n = Some p ∧ trade_terms p = (direction_of s, VInt q, price, VStr side) ∧
     (side ≠ ""%string → closing_side p = if String.eqb side "BUY" then "SELL"%string else "BUY"%string)) ∧
  only_at n d d' ∧ dk_sent d' = dk_sent d.
Proof.
  intros E Hf. unfold settle_entry in E. cbn [fst snd] in E. rewrite Hf in E.
  inv_bind E u1 d1 E1. unfold store_position in E1. inv_bind E1 ltp d2 E2. inv_bind E1 und d3 E3. inv_bind E1 now d4 E4.
  inv_bind E1 p d5 E5. apply st_lift_inv in E5 as [Ep ->]. inv_bind E1 u2 d6 E6.
  assert (aside d d4) as [P4 S4].
  { etransitivity; [|etransitivity]; [eapply run_calm; [|exact E2]|eapply run_calm; [|exact E3]|eapply run_calm; [|exact E4]]; calm. }
  unfold set_position, st_modify in E6. injection E6 as <- <-. set (d6 := put_positions _ d4) in *.
  assert (aside d6 d') as [P6 S6].
  { etransitivity; [eapply run_calm; [|exact E1]; calm|]. eapply run_calm; [|exact E]. unfold log_decision. calm. }
  assert (dk_positions d' = <[n := p]> (dk_positions d)) as P by (rewrite P6; unfold d6; cbn; by rewrite P4).
  split; [|split].
  - exists p. split; [rewrite P; apply dict_lookup_insert_eq|].
    unfold stored_position, rbind in Ep. destruct (py_int _); [|done]. destruct (py_int _); [|done]. injection Ep as <-.
    split; [done|]. intros Hs. by destruct side.
  - intros m Hm. rewrite P. by apply dict_lookup_insert_ne.
  - by rewrite S6.
Qed.
End halt.

(** ** Concrete entries *)

Definition demo_risk (mult : float64) : risk_port unit := {|
  rp_metrics := no_service (PortfolioRiskMetrics f_zero f_zero f_zero f_zero f_zero f_zero f_zero 0 1 0 3 ∅ ∅);
  rp_evaluate _ _ _ := no_service (verdict ALLOWED "ok" f_zero);
  rp_trades_today := no_service 0; rp_scale _ b := no_service b; rp_vix_multiplier _ := no_service mult;
  rp_vix_soft _ := no_service false; rp_margin_per_lot _ _ := no_service f_zero; rp_loss_cap _ _ _ := no_service 1;
  rp_sl_risk_ok _ _ _ := no_service true; rp_record_entry _ := no_service (); rp_record_result _ _ := no_service () |}.
Definition demo_tracker : tracker_port unit := {|
  tk_levels _ _ a b c := no_service (a, b, c); tk_recipients _ _ _ := no_service []; tk_record _ _ := no_service (VStr "S1");
  tk_record_plain _ := no_service (VStr "S1"); tk_dispatch _ _ _ := no_service (); tk_active _ := no_service None |}.
Definition demo_strike : strike_port unit := {|
  sp_step _ := no_service (VInt 50); sp_dte_check _ := no_service (true, ""%string);
  sp_select atm _ _ _ _ _ := no_service atm; sp_quote _ _ _ := no_service None |}.
(** A desk whose margin validator answers as given. *)
Definition demo_entry (mult : float64) (margin : SX unit (option string)) : entry_services unit := {|
  en_exit := {| es_risk := Some (demo_risk mult); es_exec := Some (demo_exec (Some 200)); es_portfolio := None;
                es_reentry := λ _, None; es_ltp := None; es_notify := None; es_intraday_close := λ _ _, no_service ();
                es_trades_db := None |};
  en_kill_file := no_service false; en_audit := None; en_news := None; en_warmup := None; en_expiry := None;
  en_time_of_day _ := no_service (true, ""%string); en_token := None; en_mandate := Some (λ _ _, no_service 1);
  en_size_mult := no_service f_one; en_margin := Some (λ _ _ _ _ _, margin); en_strike := demo_strike;
  en_liquidity _ _ _ _ := no_service (true, None); en_tracker := demo_tracker |}.
Definition demo_auto : entry_settings := EntrySettings 90 false "AUTO" true.
Definition demo_trade_signal (extra : list (string * pyval)) : trade_signal :=
  TradeSignal (PyDict ([("direction", VStr "CALL"); ("price", VFloat (f_of_Z 200)); ("tier", VStr "STRONG"); ("score", VInt 85)] ++ extra)) [].
(** Noon of a trading day, then a reading a second. *)
Definition noon : clock := Clock (20000 * 24 * usec_per_hour + 12 * usec_per_hour) (replicate 40 usec_per_sec).
Definition empty_desk : desk unit := Desk ∅ ∅ ∅ ∅ ∅ (new_safety noon noon) () [].
Definition stamped : list (string * pyval) := [("signal_ts", VFloat (epoch_seconds (clk_now noon)))].

Definition enter (mult : float64) (margin : SX unit (option string)) (extra : list (string * pyval)) (d : desk unit) : res unit * desk unit :=
  enter_trade ∅ (demo_entry mult margin) demo_auto "NIFTY" None (demo_trade_signal extra) d.
Definition consent : SX unit (option string) := no_service None.
Definition booked_names (d : desk unit) : list string := dkeys (dk_positions d).

Example one_entry :
  let '(r, d) := enter f_one consent stamped empty_desk in
  r = Ok () ∧ oc_direction <$> dk_sent d = ["BUY"%string] ∧ booked_names d = ["NIFTY"%string].
Proof. vm_compute. done. Qed.
(** The multiplier of the volatility can bring the size to zero: the order
    is placed all the same. *)
Example zero_lots_ordered :
  oc_lots <$> dk_sent (enter (lit 5 1) consent stamped empty_desk).2 = [0].
Proof. vm_compute. reflexivity. Qed.
(** A strike that is no number is noticed after the order was filled: the
    position is not booked. *)
Example filled_not_booked :
  let '(r, d) := enter f_one consent (stamped ++ [("strike", VStr "22000CE")]) empty_desk in
  is_ok r = false ∧ length (dk_sent d) = 1%nat ∧ booked_names d = [].
Proof. vm_compute. done. Qed.
(** A signal without a time has a new key each time it is seen, and the
    second entry replaces the position of the first. *)
Example untimed_signal_twice :
  let d1 := (enter f_one consent [] empty_desk).2 in
  let d2 := (enter f_one consent [] d1).2 in
  length (remove_dups (oc_key <$> dk_sent d2)) = 2%nat ∧ booked_names d2 = ["NIFTY"%string].
Proof. vm_compute. done. Qed.
(** A failure of the margin validator whose text mentions a session is taken
    for an expired authorisation, and halts all trading. *)
Example session_text_halts :
  let '(r, d) := enter f_one (λ p, (Raise (PyExn KeyError "'session_margin'"), p)) stamped empty_desk in
  r = Ok () ∧ dk_sent d = [] ∧ sf_halt (dk_safety d) = true.
Proof. vm_compute. done. Qed.

Definition halted_desk : desk unit :=
  put_world ((trip_hard_halt "test" "" (dk_safety empty_desk)).2, ()) empty_desk.
Lemma halt_stops_entries_witness :
  dk_sent (enter_trade ∅ (demo_entry f_one consent) demo_auto "NIFTY" None (demo_trade_signal stamped) halted_desk).2 = [].
Proof.
  pose proof (halt_stops_entries ∅ (demo_entry f_one consent) demo_auto "NIFTY" None (demo_trade_signal stamped) halted_desk
    ltac:(by intros p H) ltac:(discriminate) eq_refl) as H.
  destruct (enter_trade _ _ _ _ _ _ _) as [r d']. apply H.
Defined.
Definition demo_fill : order_result := OrderResult "1" OrderStatus.FILLED 1 (f_of_Z 200) f_zero 0 None None None.
Lemma filled_entry_booked_witness :
  ∃ p, dk_positions (settle_entry (demo_entry f_one consent) "NIFTY" "BUY" "k" (VFloat (f_of_Z 200)) 1 None
         (Answered demo_fill, demo_trade_signal stamped) empty_desk).2 !! "NIFTY"%string = Some p ∧ closing_side p = "SELL"%string.
Proof.
  destruct (settle_entry (demo_entry f_one consent) "NIFTY" "BUY" "k" (VFloat (f_of_Z 200)) 1 None
    (Answered demo_fill, demo_trade_signal stamped) empty_desk) as [v d'] eqn:E.
  assert (v = Ok ()) as -> by (apply (f_equal fst) in E; vm_compute in E; by subst).
  destruct (filled_entry_booked _ _ _ _ _ _ _ _ _ _ _ E eq_refl) as [(p & Hp & _ & Hs) _].
  exists p. split; [exact Hp|]. by apply Hs.
Defined.
