(* ===== verification/TradeFlow.v ===== *)
(** * Entries over the risk service

    [PositionService] of [core/position_service.py] is given its risk service
    as an object; [PositionEntry] proves what an entry does against any such
    object.  This file gives it the [RiskService] of
    [core/services/risk_service.py] and states what an order then implies
    about the limits, the counted entries and the sources of that service. *)
From S2P Require Import Prelude PyStr Float64 PyDict PyVal OrderTypes SafetyState CapitalManager RiskTypes RiskService Positions PositionEntry.

Section flow.
Context {Y : Type} `{!RiskEnv Y}.

(** The two services share the process-wide safety state. *)
Definition with_service {A} (m : RM (X:=Y) A) : SX (risk_world Y) A := λ p,
  let '(r, w) := m (set_safety p.1 p.2) in (r, (kw_safety w, w)).
Definition of_config {A} (f : risk_config → A) : RM (X:=Y) A := st_gets (λ w, f (kw_cfg w)).

(** [get_required_margin_per_lot] on the price of a signal, which may be an
    integer: [price * lot_size * 0.20]. *)
Definition required_margin (symbol : string) (price : pyval) : RM (X:=Y) float64 :=
  lot ← lot_size_of symbol;
  v ← st_lift (v_times price lot);
  x ← st_lift (num_operand v);
  mret (x * lit 20 2)%f64.

Definition risk_service : risk_port (risk_world Y) := {|
  rp_metrics := with_service get_portfolio_risk_metrics;
  rp_evaluate n s m := with_service (evaluate_trade n s m);
  rp_trades_today := with_service get_trades_today;
  rp_scale base max := with_service (r ← scale_position base max; mret (sc_lots r));
  rp_vix_multiplier v := with_service (get_vix_size_multiplier v);
  rp_vix_soft v := with_service (of_config (λ c, is_vix_soft_warning c v));
  rp_margin_per_lot n p := with_service (required_margin n p);
  rp_loss_cap capital diff lot := with_service (c ← of_config id; st_lift (single_trade_cap c capital diff lot));
  rp_sl_risk_ok held capital risk := with_service (of_config (λ c, check_portfolio_sl_risk c held capital risk));
  rp_record_entry _ := with_service record_trade_entry;
  rp_record_result pnl w := with_service (record_trade_result pnl w) |}.

Lemma with_service_inv {A} (m : RM (X:=Y) A) p r p' :
  with_service m p = (r, p') → m (set_safety p.1 p.2) = (r, p'.2) ∧ p'.1 = kw_safety p'.2.
Proof. unfold with_service. destruct (m _) as [r' w]. by intros [= -> <-]. Qed.

(** The limits that hold of a world and its metrics when a trade is allowed. *)
Definition within_limits (m : risk_metrics) (w : risk_world Y) : Prop :=
  let c := kw_cfg w in
  fle (pm_daily_pnl m) (rc_max_daily_loss c) = false ∧
  pm_consecutive_losses m < rc_max_consecutive c ∧
  pm_open_positions m < rc_max_open c ∧
  ∃ k, entries_since (midnight (clk_now (clock_after k (clock_of w)))) (kw_entries w) < rc_max_daily_trades c.

(** Reading the metrics leaves the safety state the service ran on. *)
Lemma allowed_within n f m p :
  allowed_at risk_service n p f m →
  ∃ w0, get_portfolio_risk_metrics w0 = (Ok m, p.2) ∧ valid_signal f ∧ within_limits m p.2.
Proof.
  intros ((p0 & Hm) & e & He & Ha). apply with_service_inv in Hm as [Hm Hs].
  destruct (rp_evaluate risk_service n f m p) as [r p1] eqn:E. cbn in He. subst r.
  apply with_service_inv in E as [E _]. rewrite Hs in E.
  replace (set_safety (kw_safety p.2) p.2) with p.2 in E by by destruct p.2.
  exists (set_safety p0.1 p0.2). split; [done|].
  pose proof (allowed_count _ _ _ _ _ _ E Ha) as Hcount.
  destruct (allowed_inv _ _ _ _ _ _ E Ha) as (Hsig & Hc & _). split; [done|].
  destruct (Hc (check_daily_loss_limit m)) as (v1 & v2 & e1 & A1 & R1 & D1); [repeat constructor|].
  destruct (Hc (check_consecutive m)) as (v3 & v4 & e2 & A2 & R2 & D2); [repeat constructor|].
  destruct (Hc (check_portfolio m)) as (v7 & v8 & e4 & A4 & R4 & D4); [repeat constructor|].
  apply check_loss_allowed in R1; [|done]. rewrite (as_cfg _ _ A1) in R1.
  apply check_consecutive_allowed in R2; [|done]. rewrite (as_cfg _ _ A2) in R2.
  apply check_portfolio_allowed in R4; [|done]. rewrite (as_cfg _ _ A4) in R4.
  by split_and!.
Qed.

Context (cfg : pyrec) (sv : entry_services (risk_world Y)) (se : entry_settings).

(** C6: An order keeps the limits of the risk service.  When the position
    service runs with the risk service of the platform and an entry places
    an order, the risk service was asked twice on metrics it had just
    computed, and each time, in the state it was then in, the signal it was
    shown had a direction and a positive price, the day's P&L was above the
    loss limit, and the losing streak, the open positions and the entries
    counted today were below their limits. *)
Theorem order_within_limits (n : string) (a : option string) (s : trade_signal)
    (d : desk (risk_world Y * list (call (risk_world Y)))) (o : order_call) (c : option order_context) :
  es_risk (en_exit sv) = Some risk_service → calls d = [] →
  CPlaced o c ∈ calls (enter_trade cfg (recorded sv) se n a s d).2 →
  oc_symbol o = n ∧ oc_direction o = order_side (upper_of (direction_of s)) ∧
  ∃ p1 f1 m1 l p2 f2 m2,
    calls (enter_trade cfg (recorded sv) se n a s d).2 =
      [CRisk p1 f1 m1 ALLOWED] ++ l ++ [CRisk p2 f2 m2 ALLOWED; CPlaced o c] ∧
    margin_consents sv l ∧
    (∃ w0, get_portfolio_risk_metrics w0 = (Ok m1, p1.2)) ∧ valid_signal f1 ∧ within_limits m1 p1.2 ∧
    (∃ w0, get_portfolio_risk_metrics w0 = (Ok m2, p2.2)) ∧ valid_signal f2 ∧ within_limits m2 p2.2.
Proof.
  intros Hr Hd Hin. destruct (entry_yields cfg sv se n a s d _ _ (surjective_pairing _)) as (l & C & H).
  rewrite C, Hd in Hin |- *. cbn [app] in *. destruct H as [U|(_ & k & o' & c' & -> & B & O1 & O2 & O3)]; [by destruct (U _ _ Hin)|].
  destruct B as (l1 & k2 & -> & H1 & l2 & k3 & -> & H2 & l3 & k4 & -> & H3 & l4 & l5 & -> & -> & ->).
  unfold risk_allows in H1, H3. rewrite Hr in H1, H3. destruct H1 as (p1 & f1 & m1 & -> & A1), H3 as (p2 & f2 & m2 & -> & A2).
  assert (@CPlaced (risk_world Y) o c = CPlaced o' (Some c')) as [= -> ->].
  { clear -H2 Hin. unfold margin_consents in H2. rewrite !elem_of_app, !list_elem_of_singleton in Hin.
    destruct Hin as [[Hin|[Hin|[Hin|[Hin|Hin]]]]|Hin]; try done; [|by apply elem_of_nil in Hin..].
    destruct (en_margin sv); subst l2; [by apply list_elem_of_singleton in Hin|by apply elem_of_nil in Hin]. }
  apply allowed_within in A1 as (w1 & M1 & V1 & L1), A2 as (w2 & M2 & V2 & L2).
  split_and!; [done..|]. exists p1, f1, m1, l2, p2, f2, m2. split_and!; eauto.
  rewrite H, H0. cbn. by rewrite <- app_assoc.
Qed.
End flow.

(** ** A concrete day *)

Definition answers {X A} (a : A) : SX X A := no_service a.
Definition fills : exec_port (risk_world demo_sources) := {|
  xp_execute o _ := answers (OrderResult "1" OrderStatus.FILLED (oc_lots o) (f_of_Z 100) f_zero 0 None None None);
  xp_watchdog := answers 0 |}.
Definition flow_services : entry_services (risk_world demo_sources) := {|
  en_exit := {| es_risk := Some risk_service; es_exec := Some fills; es_portfolio := None; es_reentry := λ _, None;
                es_ltp := None; es_notify := None; es_intraday_close := λ _ _, answers (); es_trades_db := None |};
  en_kill_file := answers false; en_audit := None; en_news := None; en_warmup := None; en_expiry := None;
  en_time_of_day _ := answers (true, ""%string); en_token := None; en_mandate := Some (λ _ _, answers 1);
  en_size_mult := answers f_one; en_margin := Some (λ _ _ _ _ _, answers None);
  en_strike := {| sp_step _ := answers (VInt 50); sp_dte_check _ := answers (true, ""%string);
                  sp_select atm _ _ _ _ _ := answers atm; sp_quote _ _ _ := answers None |};
  en_liquidity _ _ _ _ := answers (true, None);
  en_tracker := {| tk_levels _ _ a b c := answers (a, b, c); tk_recipients _ _ _ := answers [];
                   tk_record _ _ := answers (VStr "S1"); tk_record_plain _ := answers (VStr "S1");
                   tk_dispatch _ _ _ := answers (); tk_active _ := answers None |} |}.
Definition flow_signal : trade_signal :=
  TradeSignal (<["signal_ts" := VFloat (epoch_seconds (clk_now noon))]> (<["score" := VInt 85]> (<["tier" := VStr "STRONG"]> demo_signal))) [].
Definition flow_desk {L} (limit : Z) (l : L) : desk (risk_world demo_sources * L) :=
  Desk ∅ ∅ ∅ ∅ ∅ (new_safety noon noon) (demo_risk_world 0 limit, l) [].
Definition flow_entry (name : string) (d : desk (risk_world demo_sources * list (call (risk_world demo_sources)))) :=
  (enter_trade ∅ (recorded flow_services) demo_auto name None flow_signal d).2.

(** Under a limit of two, the third entry of the day is refused by the risk
    service. *)
Example day_of_entries :
  let d := flow_entry "FINNIFTY" (flow_entry "BANKNIFTY" (flow_entry "NIFTY" (flow_desk 2 []))) in
  oc_symbol <$> dk_sent d = ["NIFTY"; "BANKNIFTY"]%string ∧ length (kw_entries (dk_ext d).1) = 2%nat ∧
  dkeys (dk_positions d) = ["NIFTY"; "BANKNIFTY"]%string.
Proof. vm_compute. done. Qed.

Abbreviation flow_calls :=
  (calls (X:=risk_world demo_sources) (enter_trade ∅ (recorded flow_services) demo_auto "NIFTY" None flow_signal (flow_desk 2 [])).2).
Definition placed_in {X} (l : list (call X)) : option (order_call * option order_context) :=
  match last l with Some (CPlaced o c) => Some (o, c) | _ => None end.
Lemma placed_in_elem {X} (l : list (call X)) o c : placed_in l = Some (o, c) → CPlaced o c ∈ l.
Proof.
  unfold placed_in. destruct (last l) as [[]|] eqn:E; [done..| |done]. intros [= -> ->].
  apply last_Some in E as [k ->]. apply elem_of_app. right. by apply list_elem_of_singleton.
Qed.
Example flow_order : oc_symbol ∘ fst <$> placed_in flow_calls = Some "NIFTY"%string.
Proof. vm_compute. reflexivity. Qed.
Lemma order_within_limits_witness :
  ∃ o c, CPlaced o c ∈ flow_calls ∧ oc_symbol o = "NIFTY"%string ∧ ∃ p m, within_limits (Y:=demo_sources) m p.
Proof.
  pose proof flow_order as H. destruct (placed_in flow_calls) as [[o c]|] eqn:E; [|discriminate H].
  apply placed_in_elem in E. exists o, c. split; [exact E|].
  destruct (order_within_limits ∅ flow_services demo_auto "NIFTY" None flow_signal (flow_desk 2 []) o c eq_refl eq_refl E) as (H1 & _ & H2).
  split; [exact H1|]. destruct H2 as (p1 & f1 & m1 & l & p2 & f2 & m2 & _ & _ & _ & _ & _ & _ & _ & H2).
  exists p2.2, m2. exact H2.
Defined.
