(* ===== verification/MarginValidator.v ===== *)
(** * Margin validation

    [MarginValidator] of [core/risk/margin_validator.py]: whether the margin
    left after a trade stays above a reserve.  Logging is left out. *)
From S2P Require Import Prelude PyStr Float64 PyDict PyVal CapitalManager.

(** [MarginValidationResult] *)
Record margin_result := MarginValidationResult {
  mr_allowed : bool; mr_required : float64; mr_available : float64; mr_post : float64; mr_reserve : float64;
  mr_error : option string; mr_warning : option string }.

(** The two settings: [MARGIN_SAFETY_RESERVE_PCT], [MARGIN_WARNING_PCT]. *)
Record margin_settings := MarginSettings { ms_reserve_pct : float64; ms_warn_pct : float64 }.
Definition default_margin : margin_settings := MarginSettings (lit 5 2) (lit 80 2).

Section validator.
Context (c : margin_settings).

Definition usage (required available : float64) : float64 :=
  if fgt available f_zero then (required / available)%f64 else f_zero.
(** The decision once the required margin is known. *)
Definition decide_margin (required available : float64) (error warning : float64 → float64 → string) : margin_result :=
  let post := (available - required)%f64 in
  let reserve := (available * ms_reserve_pct c)%f64 in
  if flt post reserve then MarginValidationResult false required available post reserve (Some (error post reserve)) None
  else
    MarginValidationResult true required available post reserve None
      (if fgt (usage required available) (ms_warn_pct c) then Some (warning (usage required available) available) else None).

(** [validate]; the price is not used. *)
Definition validate (available per_lot : float64) (quantity : Z) (name : string) : res margin_result :=
  if quantity <=? 0 then
    Ok (MarginValidationResult false f_zero available f_zero f_zero (Some "Invalid quantity: must be positive"%string) None)
  else
    rbind (float_of_Z quantity) (λ q,
    let required := (per_lot * q)%f64 in
    Ok (decide_margin required available
      (λ post reserve, cat ["MARGIN INSUFFICIENT for "; name; ": Need "; fmt_f 2 required; ", Have "; fmt_f 2 available;
                            ", Post-trade buffer "; fmt_f 2 post; " below safety reserve "; fmt_f 2 reserve])
      (λ used _, cat ["MARGIN WARNING for "; name; ": Using "; fmt_pct 1 used; " of available margin (";
                      fmt_f 2 required; " of "; fmt_f 2 available; ")"]))).

(** [validate_with_position] *)
Definition validate_with_position (available existing per_lot : float64) (quantity : Z) (name : string) : res margin_result :=
  rbind (float_of_Z quantity) (λ q,
  let required := (existing + per_lot * q)%f64 in
  Ok (decide_margin required available
    (λ _ _, cat ["MARGIN INSUFFICIENT for "; name; " (with existing position): Need "; fmt_f 2 required;
                 ", Have "; fmt_f 2 available])
    (λ used _, cat ["MARGIN WARNING: Using "; fmt_pct 1 used; " of available margin"]))).

(** ** What a consent means *)

(** The margin after the trade and the reserve, as the validator computes
    them. *)
Definition post_trade (available per_lot q : float64) : float64 := (available - per_lot * q)%f64.
Definition reserve (available : float64) : float64 := (available * ms_reserve_pct c)%f64.

(** A consent is for a positive number of lots, and the margin left after
    them is not below the reserve. *)
Lemma validate_allowed available per_lot quantity name r :
  validate available per_lot quantity name = Ok r → mr_allowed r = true →
  0 < quantity ∧ ∃ q, float_of_Z quantity = Ok q ∧ mr_required r = (per_lot * q)%f64 ∧
    flt (post_trade available per_lot q) (reserve available) = false.
Proof.
  unfold validate. destruct (Z.leb_spec quantity 0); [by intros [= <-]|]. destruct (float_of_Z quantity) as [q|e] eqn:E; [|done].
  cbn. unfold decide_margin. intros [= <-]. destruct (flt _ _) eqn:Ef; [done|]. intros _.
  split; [done|]. exists q. by split_and!.
Qed.
(** A refusal says why, a consent does not. *)
Lemma validate_error available per_lot quantity name r :
  validate available per_lot quantity name = Ok r → mr_allowed r = false ↔ is_Some (mr_error r).
Proof.
  unfold validate. destruct (quantity <=? 0); [by intros [= <-]|]. destruct (float_of_Z quantity) as [q|e]; [|done].
  cbn. unfold decide_margin. intros [= <-]. destruct (flt _ _); cbn; [by split|]. split; [done|]. by intros [? [=]].
Qed.

(** [0.0 + x] is [x] unless [x] is a negative zero. *)
Lemma fadd_zero_l (x : float64) : f_is_neg x = false → fadd f_zero x = x.
Proof. by destruct x as [[]|[]| |[]]. Qed.

(** The two validations agree.  With no margin in use yet, validating a
    trade beside the existing positions and validating it alone have the same
    decision, required margin, buffer and reserve, for every positive number
    of lots whose margin is not negative. *)
Theorem with_position_agrees (available per_lot : float64) (quantity : Z) (name : string) (r : margin_result) :
  validate available per_lot quantity name = Ok r → 0 < quantity → f_is_neg (mr_required r) = false →
  ∃ r', validate_with_position available f_zero per_lot quantity name = Ok r' ∧
    (mr_allowed r', mr_required r', mr_available r', mr_post r', mr_reserve r') =
    (mr_allowed r, mr_required r, mr_available r, mr_post r, mr_reserve r) ∧
    (is_Some (mr_warning r') ↔ is_Some (mr_warning r)).
Proof.
  unfold validate, validate_with_position. destruct (Z.leb_spec quantity 0); [lia|].
  destruct (float_of_Z quantity) as [q|e]; [|done]. cbn [rbind]. intros [= <-] _ Hn. unfold decide_margin in *.
  rewrite fadd_zero_l by by destruct (flt _ _).
  eexists. split; [reflexivity|]. destruct (flt _ _); [by split|]. split; [done|]. cbn. by destruct (fgt _ _).
Qed.
End validator.

(** ** Concrete validations *)

Definition allowed_of (r : res margin_result) : option bool := match r with Ok r => Some (mr_allowed r) | Raise _ => None end.
Example margin_enough : allowed_of (validate default_margin (f_of_Z 1000) (f_of_Z 100) 9 "NIFTY") = Some true.
Proof. vm_compute. reflexivity. Qed.
Example margin_short : allowed_of (validate default_margin (f_of_Z 1000) (f_of_Z 96) 10 "NIFTY") = Some false.
Proof. vm_compute. reflexivity. Qed.
(** A margin that is no number passes, as does a reduction by any amount. *)
Example nan_margin_allowed : allowed_of (validate default_margin f_nan (f_of_Z 100) 1000 "NIFTY") = Some true.
Proof. vm_compute. reflexivity. Qed.
Example negative_addition_allowed :
  allowed_of (validate_with_position default_margin (f_of_Z 1000) (f_of_Z 900) (f_of_Z 100) (-5) "NIFTY") = Some true.
Proof. vm_compute. reflexivity. Qed.

Lemma with_position_agrees_witness :
  ∃ r', validate_with_position default_margin (f_of_Z 1000) f_zero (f_of_Z 100) 9 "NIFTY" = Ok r' ∧ mr_allowed r' = true.
Proof.
  destruct (validate default_margin (f_of_Z 1000) (f_of_Z 100) 9 "NIFTY") as [r|e] eqn:E; [|vm_compute in E; discriminate E].
  destruct (with_position_agrees default_margin _ _ _ _ r E ltac:(lia)) as (r' & E' & [= H1 _ _ _ _] & _).
  { vm_compute in E. injection E as <-. reflexivity. }
  exists r'. split; [exact E'|]. rewrite H1. vm_compute in E. injection E as <-. reflexivity.
Defined.
