(* ===== verification/ExposureLimits.v ===== *)
(** * Exposure concentration limits

    [ExposureConcentrationLimiter] of [core/exposure_limits.py]: the value
    held per symbol, expiry, direction and strategy, as shares of the
    capital. *)
From S2P Require Import Prelude PyStr Float64 PyDict PyVal CapitalManager.

(** A tracked position. *)
Record tracked := Tracked {
  ex_expiry : string; ex_direction : string; ex_strategy : string; ex_value : float64; ex_updated : Z }.

(** The limits, in percent of the capital. *)
Record exposure_config := ExposureConfig {
  xl_symbol : float64; xl_expiry : float64; xl_direction : float64; xl_strategy : float64 }.
Definition default_exposure : exposure_config := ExposureConfig (f_of_Z 30) (f_of_Z 50) (f_of_Z 80) (f_of_Z 40).

Record limiter := Limiter { xl_clk : clock; xl_limits : exposure_config; xl_positions : pydict tracked }.
#[export] Instance limiter_clock : HasClock limiter :=
  {| clock_of := xl_clk; set_clock := λ k l, Limiter k (xl_limits l) (xl_positions l) |}.
Definition set_tracked (p : pydict tracked) (l : limiter) : limiter := Limiter (xl_clk l) (xl_limits l) p.

(** [update_position] *)
Definition update_position (symbol expiry direction strategy : string) (value : float64) : ST limiter unit :=
  if fle value f_zero then st_modify (λ l, set_tracked (delete symbol (xl_positions l)) l)
  else
    now ← now_ist;
    st_modify (λ l, set_tracked (<[symbol := Tracked expiry direction strategy value now]> (xl_positions l)) l).
(** [remove_position], [reset] *)
Definition remove_position (symbol : string) : ST limiter unit :=
  st_modify (λ l, set_tracked (delete symbol (xl_positions l)) l).
Definition reset : ST limiter unit := st_modify (set_tracked ∅).

(** [ExposureSnapshot], without its time *)
Record snapshot := ExposureSnapshot {
  xs_total : float64; xs_symbol : pydict float64; xs_expiry : pydict float64; xs_direction : pydict float64;
  xs_strategy : pydict float64 }.
(** [d[k] = d.get(k, 0) + value] *)
Definition add_to (k : string) (v : float64) (d : pydict float64) : pydict float64 :=
  <[k := (default f_zero (d !! k) + v)%f64]> d.
Definition add_position (s : snapshot) (p : string * tracked) : snapshot :=
  let v := ex_value p.2 in
  ExposureSnapshot (xs_total s + v)%f64 (<[p.1 := v]> (xs_symbol s)) (add_to (ex_expiry p.2) v (xs_expiry s))
    (add_to (ex_direction p.2) v (xs_direction s)) (add_to (ex_strategy p.2) v (xs_strategy s)).
(** [get_exposure_snapshot] *)
Definition get_exposure_snapshot (l : limiter) : snapshot :=
  foldl add_position (ExposureSnapshot f_zero ∅ ∅ ∅ ∅) (items (xl_positions l)).

(** [ExposureCheckResult] *)
Record check_result := ExposureCheckResult {
  xr_allowed : bool; xr_reason : string; xr_current : float64; xr_limit : float64; xr_reduction : float64 }.

Definition hundred : float64 := f_of_Z 100.
Definition percent (value capital : float64) : float64 := (value / capital * hundred)%f64.

Section check.
Context `{!PySum}.

(** The values of the positions of one kind, and their sum. *)
Definition values_of (f : tracked → bool) (l : limiter) : list float64 :=
  ex_value <$> filter (λ p, f p = true) (dvalues (xl_positions l)).
Definition held (f : tracked → bool) (l : limiter) : float64 := fsum (values_of f l).

Definition refuse (what : string) (pct limit reduction : float64) : check_result :=
  ExposureCheckResult false (cat [what; " exposure "; fmt_f 1 pct; "% > "; repr_float limit; "% limit"]) pct limit reduction.

(** [check_limits] *)
Definition check_limits (symbol expiry direction strategy : string) (new_value capital : float64) (l : limiter) : check_result :=
  if fle capital f_zero then ExposureCheckResult true "No capital" f_zero f_zero f_zero
  else
    let c := xl_limits l in
    let total := (held (λ _, true) l + new_value)%f64 in
    let on_symbol := (default f_zero (ex_value <$> xl_positions l !! symbol) + new_value)%f64 in
    let on_expiry := (held (λ p, String.eqb (ex_expiry p) expiry) l + new_value)%f64 in
    let on_direction := (held (λ p, String.eqb (ex_direction p) direction) l + new_value)%f64 in
    let on_strategy := (held (λ p, String.eqb (ex_strategy p) strategy) l + new_value)%f64 in
    if fgt (percent on_symbol capital) (xl_symbol c) then
      refuse "Symbol" (percent on_symbol capital) (xl_symbol c) (on_symbol - (capital * xl_symbol c / hundred))%f64
    else if fgt (percent on_expiry capital) (xl_expiry c) then
      refuse "Expiry" (percent on_expiry capital) (xl_expiry c) f_zero
    else if fgt (percent on_direction capital) (xl_direction c) then
      refuse "Direction" (percent on_direction capital) (xl_direction c) f_zero
    else if fgt (percent on_strategy capital) (xl_strategy c) then
      refuse "Strategy" (percent on_strategy capital) (xl_strategy c) f_zero
    else ExposureCheckResult true "All exposure limits OK" (if fgt capital f_zero then percent total capital else f_zero) f_zero f_zero.
End check.

(** ** The snapshot is the sums *)

Definition summed (key : tracked → string) (k : string) (ps : list (string * tracked)) : list float64 :=
  ex_value <$> filter (λ p, String.eqb (key p) k = true) ps.*2.
Lemma summed_app key k ps qs : summed key k (ps ++ qs) = summed key k ps ++ summed key k qs.
Proof. unfold summed. by rewrite fmap_app, filter_app, fmap_app. Qed.

Lemma add_to_lookup (k j : string) v d :
  default f_zero (add_to k v d !! j) = if String.eqb k j then (default f_zero (d !! j) + v)%f64 else default f_zero (d !! j).
Proof.
  unfold add_to. destruct (String.eqb_spec k j) as [->|Hne]; [by rewrite dict_lookup_insert_eq|by rewrite dict_lookup_insert_ne].
Qed.

(** One of the three running sums of the snapshot. *)
Definition kind_of (key : tracked → string) (get : snapshot → pydict float64) : Prop :=
  ∀ s p, get (add_position s p) = add_to (key p.2) (ex_value p.2) (get s).
Lemma fold_sums key get : kind_of key get → ∀ ps s k,
  default f_zero (get (foldl add_position s ps) !! k) = foldl fadd (default f_zero (get s !! k)) (summed key k ps).
Proof.
  intros Hk ps. induction ps as [|p ps IH]; intros s k; [done|]. cbn [foldl]. rewrite IH, Hk, add_to_lookup.
  unfold summed. rewrite fmap_cons, filter_cons. destruct (String.eqb (key p.2) k); by case_decide.
Qed.
Lemma fold_total ps : ∀ s, xs_total (foldl add_position s ps) = foldl fadd (xs_total s) (ex_value <$> ps.*2).
Proof. induction ps as [|p ps IH]; intros s; [done|]. cbn. by rewrite IH. Qed.
Lemma fold_symbol ps : ∀ s k, NoDup ps.*1 →
  xs_symbol (foldl add_position s ps) !! k = match assoc_get k ps with Some p => Some (ex_value p) | None => xs_symbol s !! k end.
Proof.
  induction ps as [|[j p] ps IH]; intros s k Hnd; [done|]. apply NoDup_cons in Hnd as [Hj Hnd]. cbn [foldl assoc_get].
  rewrite IH by done. cbn [add_position xs_symbol fst snd]. destruct (String.eqb_spec k j) as [->|Hne].
  - change (j ∉ ps.*1) in Hj. apply assoc_get_none in Hj. rewrite Hj. by rewrite dict_lookup_insert_eq.
  - by rewrite dict_lookup_insert_ne by congruence.
Qed.

(** What the running sums start from is the sum of nothing. *)
Definition by_kind (key : tracked → string) (k : string) (l : limiter) : list float64 := summed key k (items (xl_positions l)).
Lemma snapshot_kind key get l k : kind_of key get → get (ExposureSnapshot f_zero ∅ ∅ ∅ ∅) = ∅ →
  default f_zero (get (get_exposure_snapshot l) !! k) = foldl fadd f_zero (by_kind key k l).
Proof. intros Hk H0. unfold get_exposure_snapshot. by rewrite (fold_sums key), H0, dict_lookup_empty. Qed.

(** The snapshot is the sums.  For every symbol, expiry, direction and
    strategy, what the snapshot says is held is the left-to-right sum of the
    values of the tracked positions of that kind, nothing being recorded for
    a kind with no position; and the total is the sum of them all. *)
Theorem snapshot_is_sums (l : limiter) (k : string) :
  dict_wf (xl_positions l) →
  let s := get_exposure_snapshot l in
  xs_symbol s !! k = ex_value <$> xl_positions l !! k ∧
  default f_zero (xs_expiry s !! k) = foldl fadd f_zero (by_kind ex_expiry k l) ∧
  default f_zero (xs_direction s !! k) = foldl fadd f_zero (by_kind ex_direction k l) ∧
  default f_zero (xs_strategy s !! k) = foldl fadd f_zero (by_kind ex_strategy k l) ∧
  xs_total s = foldl fadd f_zero (ex_value <$> dvalues (xl_positions l)).
Proof.
  intros Hwf s. split_and!; [|by apply snapshot_kind..|apply fold_total].
  unfold s, get_exposure_snapshot. rewrite fold_symbol by done.
  change (assoc_get k (items (xl_positions l))) with (xl_positions l !! k). by destruct (xl_positions l !! k).
Qed.

(** ** An allowed addition stays within the limits *)

Lemma assoc_set_new {V} k (v : V) (l : list (string * V)) : k ∉ l.*1 → assoc_set k v l = l ++ [(k, v)].
Proof.
  induction l as [|[j w] l IH]; [done|]. intros Hk. cbn in Hk. apply not_elem_of_cons in Hk as [Hj Hk]. cbn [assoc_set].
  apply String.eqb_neq in Hj. rewrite Hj. by rewrite IH.
Qed.
Lemma held_kind `{!PySum} (Hsum : ∀ vs, fsum vs = foldl fadd f_zero vs) key k l :
  held (λ p, String.eqb (key p) k) l = foldl fadd f_zero (by_kind key k l).
Proof. unfold held. by rewrite Hsum. Qed.
Lemma by_kind_new key k l symbol p : xl_positions l !! symbol = None →
  by_kind key k (set_tracked (<[symbol := p]> (xl_positions l)) l) =
  by_kind key k l ++ (if String.eqb (key p) k then [ex_value p] else []).
Proof.
  intros Hn. unfold by_kind. cbn [xl_positions set_tracked]. apply assoc_get_none in Hn.
  replace (items (<[symbol := p]> (xl_positions l))) with (items (xl_positions l) ++ [(symbol, p)]) by (by rewrite <- assoc_set_new).
  rewrite summed_app. f_equal. unfold summed. cbn [fmap list_fmap snd]. rewrite filter_cons, filter_nil.
  destruct (String.eqb (key p) k); by case_decide.
Qed.

(** The shares of the snapshot: none above its limit. *)
Definition within (capital : float64) (l : limiter) : Prop :=
  let s := get_exposure_snapshot l in
  ∀ k, fgt (percent (default f_zero (xs_symbol s !! k)) capital) (xl_symbol (xl_limits l)) = false ∧
       fgt (percent (default f_zero (xs_expiry s !! k)) capital) (xl_expiry (xl_limits l)) = false ∧
       fgt (percent (default f_zero (xs_direction s !! k)) capital) (xl_direction (xl_limits l)) = false ∧
       fgt (percent (default f_zero (xs_strategy s !! k)) capital) (xl_strategy (xl_limits l)) = false.

Lemma kind_kept key get capital limit l symbol p new :
  kind_of key get → get (ExposureSnapshot f_zero ∅ ∅ ∅ ∅) = ∅ → xl_positions l !! symbol = None → ex_value p = new →
  (∀ k, fgt (percent (default f_zero (get (get_exposure_snapshot l) !! k)) capital) limit = false) →
  fgt (percent (foldl fadd f_zero (by_kind key (key p) l) + new)%f64 capital) limit = false →
  ∀ k, fgt (percent (default f_zero (get (get_exposure_snapshot (set_tracked (<[symbol := p]> (xl_positions l)) l)) !! k)) capital) limit = false.
Proof.
  intros Hk H0 Hn Hv Hall Hnew k. rewrite (snapshot_kind key) by done. rewrite by_kind_new by done.
  destruct (String.eqb_spec (key p) k) as [<-|_].
  - rewrite foldl_app. cbn. by rewrite Hv.
  - rewrite app_nil_r, <- (snapshot_kind key get) by done. apply Hall.
Qed.

(** An offer: what [check_limits] is asked, and what is then tracked. *)
Record offer := Offer {
  of_symbol : string; of_expiry : string; of_direction : string; of_strategy : string; of_value : float64 }.

Section offers.
Context `{!PySum}.

(** Ask, and track what was allowed. *)
Definition accept (capital : float64) (o : offer) : ST limiter bool := λ l,
  let r := check_limits (of_symbol o) (of_expiry o) (of_direction o) (of_strategy o) (of_value o) capital l in
  if xr_allowed r then
    (update_position (of_symbol o) (of_expiry o) (of_direction o) (of_strategy o) (of_value o) ;; mret true) l
  else (Ok false, l).
Definition accept_all (capital : float64) (os : list offer) (l : limiter) : limiter :=
  foldl (λ l o, (accept capital o l).2) l os.

Lemma check_allowed symbol expiry direction strategy v capital l :
  fle capital f_zero = false → xr_allowed (check_limits symbol expiry direction strategy v capital l) = true →
  let c := xl_limits l in
  fgt (percent (default f_zero (ex_value <$> xl_positions l !! symbol) + v)%f64 capital) (xl_symbol c) = false ∧
  fgt (percent (held (λ p, String.eqb (ex_expiry p) expiry) l + v)%f64 capital) (xl_expiry c) = false ∧
  fgt (percent (held (λ p, String.eqb (ex_direction p) direction) l + v)%f64 capital) (xl_direction c) = false ∧
  fgt (percent (held (λ p, String.eqb (ex_strategy p) strategy) l + v)%f64 capital) (xl_strategy c) = false.
Proof.
  intros Hc. unfold check_limits. rewrite Hc. cbv zeta. destruct (fgt _ (xl_symbol _)); [done|].
  destruct (fgt _ (xl_expiry _)); [done|]. destruct (fgt _ (xl_direction _)); [done|].
  by destruct (fgt _ (xl_strategy _)).
Qed.

(** The invariant: tracked symbols are the accepted ones, shares within. *)
Definition inv (capital : float64) (c : exposure_config) (seen : list string) (l : limiter) : Prop :=
  dict_wf (xl_positions l) ∧ xl_limits l = c ∧ (∀ k, k ∈ dkeys (xl_positions l) → k ∈ seen) ∧ within capital l.
Lemma accept_inv capital c seen o l :
  (∀ vs, fsum vs = foldl fadd f_zero vs) → fle capital f_zero = false → of_symbol o ∉ seen →
  inv capital c seen l → inv capital c (of_symbol o :: seen) (accept capital o l).2.
Proof.
  intros Hsum Hc Hseen (Hwf & Hl & Hk & Hw).
  assert (inv capital c (of_symbol o :: seen) l) as Hkeep by (split_and!; [done..| |done]; intros k Hin; right; by apply Hk).
  unfold accept. destruct (xr_allowed _) eqn:Ha; [|exact Hkeep]. apply check_allowed in Ha as (A1 & A2 & A3 & A4); [|done].
  assert (of_symbol o ∉ dkeys (xl_positions l)) as Hnew by auto.
  assert (xl_positions l !! of_symbol o = None) as Hn by by apply assoc_get_none.
  rewrite Hn in A1. rewrite !held_kind in A2, A3, A4 by done.
  unfold update_position. destruct (fle (of_value o) f_zero) eqn:Hv.
  - change (inv capital c (of_symbol o :: seen) (set_tracked (delete (of_symbol o) (xl_positions l)) l)).
    rewrite dict_delete_none by done. unfold set_tracked. by destruct l.
  - unfold mbind, st_bind. rewrite now_ist_total. cbn -[get_exposure_snapshot]. set (p := Tracked _ _ _ _ _).
    set (l1 := set_tracked (<[of_symbol o := p]> (xl_positions l)) l).
    change (inv capital c (of_symbol o :: seen) (set_clock (clk_read (xl_clk l)).2 l1)).
    assert (inv capital c (of_symbol o :: seen) l1); [|done].
    split_and!; [by apply dict_insert_wf|done| |].
    + intros k Hin. unfold l1, dkeys in Hin. cbn in Hin. unfold insert, pydict_insert in Hin. cbn in Hin.
      rewrite assoc_set_new in Hin by done. rewrite fmap_app in Hin. apply elem_of_app in Hin as [Hin|Hin].
      * right. by apply Hk.
      * apply list_elem_of_singleton in Hin as ->. left.
    + assert (∀ P1 P2 P3 P4 : string → Prop, (∀ k, P1 k) → (∀ k, P2 k) → (∀ k, P3 k) → (∀ k, P4 k) →
                ∀ k, P1 k ∧ P2 k ∧ P3 k ∧ P4 k) as Hall by (intros; by split_and!).
      unfold within. apply Hall; clear Hall.
      * intros k. destruct (snapshot_is_sums l1 k) as (-> & _); [by apply dict_insert_wf|].
        destruct (snapshot_is_sums l k Hwf) as (E & _). destruct (Hw k) as (W & _). rewrite E in W.
        unfold l1. cbn [xl_positions set_tracked xl_limits]. destruct (decide (k = of_symbol o)) as [->|Hne].
        -- rewrite dict_lookup_insert_eq. cbn. cbn in A1. rewrite Hl in *.
           destruct (of_value o) as [[]|[]| |[]]; try done.
        -- by rewrite dict_lookup_insert_ne by done.
      * apply (kind_kept ex_expiry xs_expiry capital _ l (of_symbol o) p (of_value o)); try done. apply Hw.
      * apply (kind_kept ex_direction xs_direction capital _ l (of_symbol o) p (of_value o)); try done. apply Hw.
      * apply (kind_kept ex_strategy xs_strategy capital _ l (of_symbol o) p (of_value o)); try done. apply Hw.
Qed.

(** With the offer added to what is held of its symbol, expiry, direction and
    strategy, each share of the capital is within its limit, in the sums and
    quotients of the code. *)
Definition offer_within (capital : float64) (c : exposure_config) (o : offer) (l : limiter) : Prop :=
  let share held := percent (held + of_value o)%f64 capital in
  let values f := fsum (ex_value <$> filter (λ p, f p = true) (dvalues (xl_positions l))) in
  fgt (share (default f_zero (ex_value <$> xl_positions l !! of_symbol o))) (xl_symbol c) = false ∧
  fgt (share (values (λ p, String.eqb (ex_expiry p) (of_expiry o)))) (xl_expiry c) = false ∧
  fgt (share (values (λ p, String.eqb (ex_direction p) (of_direction o)))) (xl_direction c) = false ∧
  fgt (share (values (λ p, String.eqb (ex_strategy p) (of_strategy o)))) (xl_strategy c) = false.

Lemma accept_keeps_limits capital o l : xl_limits (accept capital o l).2 = xl_limits l.
Proof.
  unfold accept. destruct (xr_allowed _); [|done]. unfold update_position. destruct (fle _ _); [done|].
  unfold mbind, st_bind. by rewrite now_ist_total.
Qed.
Lemma accept_all_limits capital os l : xl_limits (accept_all capital os l) = xl_limits l.
Proof.
  unfold accept_all. apply (foldl_inv (λ l', xl_limits l' = xl_limits l)); [done|].
  intros l' o _ <-. apply accept_keeps_limits.
Qed.

(** C26: Concentration stays bounded.  From no positions, over any sequence of
    offers each asked of the limiter and tracked if allowed: whatever way
    [sum] rounds, an offer changes what is tracked only when each share of
    the capital with it is within its limit; and on an interpreter whose
    [sum] adds from the left (before Python 3.12), for offers of different
    symbols, no symbol, expiry, direction or strategy of the snapshot ever
    has a share above its limit, in the floating-point sums and quotients of
    the code itself. *)
Theorem concentration_bounded (capital : float64) (c : exposure_config) (k0 : clock) (os : list offer) :
  fle capital f_zero = false →
  (∀ os1 o os2, os = os1 ++ o :: os2 →
     let l := accept_all capital os1 (Limiter k0 c ∅) in
     xl_positions (accept capital o l).2 = xl_positions l ∨ offer_within capital c o l) ∧
  ((∀ vs, fsum vs = foldl fadd f_zero vs) → within capital (Limiter k0 c ∅) → NoDup (of_symbol <$> os) →
   within capital (accept_all capital os (Limiter k0 c ∅))).
Proof.
  intros Hc. split.
  - intros os1 o os2 _ l. pose proof (accept_all_limits capital os1 (Limiter k0 c ∅)) as Hl. fold l in Hl. cbn in Hl.
    unfold accept. destruct (xr_allowed _) eqn:Ha; [right|by left].
    apply check_allowed in Ha; [|done]. rewrite Hl in Ha. exact Ha.
  - intros Hsum H0 Hnd.
    assert (∀ os seen l, inv capital c seen l → (∀ o, o ∈ os → of_symbol o ∉ seen) → NoDup (of_symbol <$> os) →
              ∃ seen', inv capital c seen' (accept_all capital os l)) as Hrun.
    { clear -Hsum Hc. intros os. induction os as [|o os IH]; intros seen l Hl Hs Hnd; [by exists seen|].
      apply NoDup_cons in Hnd as [Ho Hnd]. cbn. eapply IH; [|idtac|done].
      - apply (accept_inv capital c seen); [done|done| |done]. apply Hs. left.
      - intros o' Ho'. apply not_elem_of_cons. split; [|apply Hs; by right].
        intros E. apply Ho. rewrite <- E. apply list_elem_of_fmap. by exists o'. }
    destruct (Hrun os [] (Limiter k0 c ∅)) as (seen & _ & _ & _ & H4); [| |done|done].
    + split_and!; [apply dict_empty_wf|done|done|done].
    + intros o _. by apply not_elem_of_nil.
Qed.
End offers.

(** ** Concrete limits *)

#[local] Instance plain_sum : PySum := sum_left.
Definition no_positions : limiter := Limiter (Clock 0 []) default_exposure ∅.
Definition lakh : float64 := f_of_Z 100000.
Definition a_call (symbol expiry strategy : string) (v : Z) : offer := Offer symbol expiry "CALL" strategy (f_of_Z v).

(** Each under thirty percent alone; the expiry's half stops the second. *)
Definition some_offers : list offer :=
  [a_call "NIFTY" "W1" "straddle" 28000; a_call "BANKNIFTY" "W1" "condor" 25000; a_call "FINNIFTY" "W2" "straddle" 12000].
Example accepted_symbols : dkeys (xl_positions (accept_all lakh some_offers no_positions)) = ["NIFTY"; "FINNIFTY"]%string.
Proof. vm_compute. reflexivity. Qed.

(** A value that is no number is tracked, and from then on nothing is
    refused: not even a position of many times the capital. *)
Example nan_value_disables :
  let l := accept_all lakh [Offer "NIFTY" "W1" "CALL" "straddle" f_nan; a_call "BANKNIFTY" "W1" "straddle" 25000] no_positions in
  xr_allowed (check_limits "NIFTY" "W1" "CALL" "straddle" (f_of_Z 10000000) lakh l) = true.
Proof. vm_compute. reflexivity. Qed.
(** Without capital everything is allowed. *)
Example no_capital_allows : xr_allowed (check_limits "NIFTY" "W1" "CALL" "straddle" lakh f_zero no_positions) = true.
Proof. vm_compute. reflexivity. Qed.
(** A second position in a symbol replaces the first, in whatever expiry:
    the sums forget it. *)
Example second_position_replaces :
  let l := (update_position "NIFTY" "W2" "PUT" "condor" (f_of_Z 1000) (accept_all lakh some_offers no_positions)).2 in
  dlen (xs_expiry (get_exposure_snapshot l)) = 1 ∧ xs_direction (get_exposure_snapshot l) !! "PUT"%string = Some (f_of_Z 1000).
Proof. vm_compute. done. Qed.

Lemma snapshot_is_sums_witness :
  xs_strategy (get_exposure_snapshot (accept_all lakh some_offers no_positions)) !! "straddle"%string = Some (f_of_Z 40000).
Proof.
  destruct (snapshot_is_sums (accept_all lakh some_offers no_positions) "straddle" ltac:(dict_wf_eval)) as (_ & _ & _ & H & _).
  destruct (xs_strategy _ !! _) as [v|] eqn:E; [|vm_compute in E; discriminate E].
  f_equal. etransitivity; [exact H|]. vm_compute. reflexivity.
Defined.
Lemma concentration_bounded_witness : within lakh (accept_all lakh some_offers no_positions).
Proof.
  apply (concentration_bounded lakh default_exposure (Clock 0 []) some_offers).
  - reflexivity.
  - reflexivity.
  - intros k. split_and!; vm_compute; reflexivity.
  - apply (bool_decide_unpack _). vm_compute. exact I.
Defined.
