(* ===== verification/ExecutionGuards.v ===== *)
(** * Execution guards

    [ExecutionGuards] of [core/execution_guards.py]: the checks of a price,
    its slippage and age, of the frequency of trades and of the losing
    streak, which is the one of the process-wide safety state.  Logging is
    left out. *)
From S2P Require Import Prelude PyStr Float64 PyDict PyVal SafetyState CapitalManager RiskService.
From Stdlib Require Import Ascii.

(** [TradeFrequencyRecord] *)
Record frequency_record := TradeFrequencyRecord {
  fr_timestamp : Z; fr_symbol : string; fr_direction : string; fr_qty : Z; fr_pnl : float64 }.

Record guard_config := GuardConfig {
  gc_slippage : float64; gc_quote_age : float64; gc_max_trades : Z; gc_interval : Z; gc_max_losses : Z;
  gc_late : string; gc_late_mult : float64; gc_zero_ok : bool }.
Definition default_guards : guard_config := GuardConfig (f_of_Z 2) (f_of_Z 2) 10 30 3 "14:30" (lit 5 1) false.
(** [deque(maxlen=1000)] *)
Definition HISTORY_MAX : nat := 1000.

(** The details of a result: values, or a record of them. *)
Definition details : Type := pydict (pyval + pyrec).
Record guard_result := GuardResult { gr_passed : bool; gr_reason : string; gr_details : pyrec }.

(** [datetime.strptime(s, "%H:%M")]: one or two digits on either side of the
    colon, below 24 and 60. *)
Definition two_digits (s : string) : option Z :=
  match s with
  | String a EmptyString => digit a
  | String a (String b EmptyString) =>
      match digit a, digit b with Some x, Some y => Some (10 * x + y) | _, _ => None end
  | _ => None
  end.
Fixpoint split_colon (s : string) : option (string * string) :=
  match s with
  | EmptyString => None
  | String c s' =>
      if Ascii.eqb c ":"%char then Some (EmptyString, s')
      else match split_colon s' with Some (a, b) => Some (String c a, b) | None => None end
  end.
Definition parse_hh_mm (s : string) : option Z :=
  match split_colon s with
  | Some (h, m) =>
      match two_digits h, two_digits m with
      | Some h, Some m => if (h <? 24) && (m <? 60) then Some ((h * 60 + m) * 60 * usec_per_sec) else None
      | _, _ => None
      end
  | None => None
  end.

Section guards.
Context {X : Type}.

Record guards := Guards {
  gd_cfg : guard_config;
  gd_history : list frequency_record;
  gd_last : option Z;
  gd_safety : safety;
  gd_ext : X }.
#[global] Instance guards_clock : HasClock guards :=
  {| clock_of := λ g, sf_clk (gd_safety g);
     set_clock := λ k g, Guards (gd_cfg g) (gd_history g) (gd_last g) (set_clock k (gd_safety g)) (gd_ext g) |}.
Definition put_gsafety (s : safety) (g : guards) : guards := Guards (gd_cfg g) (gd_history g) (gd_last g) s (gd_ext g).
Definition put_gext (x : X) (g : guards) : guards := Guards (gd_cfg g) (gd_history g) (gd_last g) (gd_safety g) x.
Definition put_trades (h : list frequency_record) (t : option Z) (g : guards) : guards :=
  Guards (gd_cfg g) h t (gd_safety g) (gd_ext g).

Definition GM (A : Type) : Type := ST guards A.
Definition on_gsafety {A} (m : ST safety A) : GM A := st_zoom gd_safety put_gsafety m.

(** The callback for violations, where one is set. *)
Context (alert : option (string → ST X unit)).
Definition alerted (reason : string) : GM unit :=
  match alert with Some f => st_zoom gd_ext put_gext (f reason) | None => mret () end.

Definition passed (d : pyrec) : guard_result := GuardResult true "" d.

(** [_check_price_sanitizer] *)
Definition check_price (symbol : string) (price : option float64) : GM guard_result :=
  c ← st_gets gd_cfg;
  let fail reason := GuardResult false reason (PyDict [("symbol", VStr symbol);
                       ("price", match price with Some p => VFloat p | None => VNone end)]) in
  mret
    (match price with
     | None => fail (cat ["Null price for "; symbol])
     | Some p =>
         if is_nan p then fail (cat ["NaN price for "; symbol])
         else if feqb (fabs p) f_inf then fail (cat ["Inf price for "; symbol])
         else if flt p f_zero then fail (cat ["Negative price for "; symbol; ": "; repr_float p])
         else if feqb p f_zero && negb (gc_zero_ok c) then fail (cat ["Zero price for "; symbol])
         else passed (PyDict [("price", VFloat p)])
     end).

(** [_check_slippage_guard] *)
Definition deviation (model live : float64) : float64 := (fabs (live - model) / model * f_of_Z 100)%f64.
Definition check_slippage (symbol : string) (model live : float64) : GM guard_result :=
  c ← st_gets gd_cfg;
  if fle model f_zero || fle live f_zero then mret (passed ∅)
  else
    let pct := deviation model live in
    if fgt pct (gc_slippage c) then
      let reason := cat ["Slippage guard: "; symbol; " live="; repr_float live; " vs model="; repr_float model; " (";
                         fmt_f 2 pct; "% > "; repr_float (gc_slippage c); "%)"] in
      alerted reason ;;
      mret (GuardResult false reason (PyDict [("symbol", VStr symbol); ("model_price", VFloat model); ("live_price", VFloat live);
              ("deviation_pct", VFloat pct); ("threshold_pct", VFloat (gc_slippage c))]))
    else mret (passed (PyDict [("deviation_pct", VFloat pct)])).

(** [_check_stale_data] *)
Definition check_stale (symbol : string) (quote : option Z) : GM guard_result :=
  match quote with
  | None => mret (passed ∅)
  | Some t =>
      c ← st_gets gd_cfg;
      now ← now_ist;
      let age := total_seconds (now - t) in
      if fgt age (gc_quote_age c) then
        let reason := cat ["Stale quote: "; symbol; " age="; fmt_f 1 age; "s > "; repr_float (gc_quote_age c); "s"] in
        alerted reason ;;
        mret (GuardResult false reason (PyDict [("symbol", VStr symbol); ("quote_age_seconds", VFloat age);
                ("max_age_seconds", VFloat (gc_quote_age c))]))
      else mret (passed (PyDict [("quote_age_seconds", VFloat age)]))
  end.

(** The trades of the day of [now]. *)
Definition count_today (now : Z) (g : guards) : Z := entries_since (midnight now) (fr_timestamp <$> gd_history g).

(** [_check_trade_frequency] *)
Definition too_soon (now : Z) (g : guards) : option float64 :=
  match gd_last g with
  | Some t => let s := total_seconds (now - t) in if f_lt_z s (gc_interval (gd_cfg g)) then Some s else None
  | None => None
  end.
Definition check_frequency : GM guard_result :=
  now ← now_ist;
  g ← st_get;
  mret
    (match too_soon now g with
     | Some s =>
         GuardResult false (cat ["Trade frequency: "; fmt_f 0 s; "s < "; str_of_Z (gc_interval (gd_cfg g)); "s min interval"])
           (PyDict [("seconds_since_last_trade", VFloat s)])
     | None =>
         let n := count_today now g in
         let cap := gc_max_trades (gd_cfg g) in
         if cap <=? n then
           GuardResult false (cat ["Trade frequency: "; str_of_Z n; " trades today >= "; str_of_Z cap; " limit"])
             (PyDict [("trades_today", VInt n); ("limit", VInt cap)])
         else passed (PyDict [("trades_today", VInt n)])
     end).

(** [_check_consecutive_losses] *)
Definition check_losses : GM guard_result :=
  g ← st_get;
  let streak := sf_losses (gd_safety g) in
  let cap := gc_max_losses (gd_cfg g) in
  mret
    (if cap <=? streak then
       GuardResult false (cat ["Consecutive losses: "; str_of_Z streak; " >= "; str_of_Z cap; " limit"])
         (PyDict [("consecutive_losses", VInt streak); ("limit", VInt cap)])
     else passed (PyDict [("consecutive_losses", VInt streak)])).

(** [_get_time_based_multiplier] *)
Definition time_multiplier : GM float64 :=
  c ← st_gets gd_cfg;
  match parse_hh_mm (gc_late c) with
  | None => mret f_one
  | Some threshold =>
      now ← now_ist;
      mret (if threshold <=? now `mod` usec_per_day then gc_late_mult c else f_one)
  end.

(** [check_all_guards] *)
Definition guards_verdict : Type := bool * string * details.
Definition flat (d : pyrec) : details := PyDict ((λ p, (p.1, inl p.2)) <$> items d).
Definition or_failed (m : GM guard_result) (about : pyrec → details) (k : GM guards_verdict) : GM guards_verdict :=
  r ← m;
  if gr_passed r then k else mret (false, gr_reason r, about (gr_details r)).
Definition check_all_guards (symbol : string) (model : float64) (live : option float64) (quote : option Z) : GM guards_verdict :=
  or_failed (check_price symbol live) flat
    (or_failed (check_slippage symbol model (default f_zero live)) (λ d, PyDict [("slippage_check", inr d)])
      (or_failed (check_stale symbol quote) (λ d, PyDict [("stale_check", inr d)])
        (or_failed check_frequency (λ _, ∅)
          (or_failed check_losses (λ _, ∅)
            (m ← time_multiplier;
             mret (true, ""%string, if flt m f_one then PyDict [("time_multiplier", inl (VFloat m))] else ∅)))))).

(** [record_trade]: the oldest record falls out of a full history. *)
Definition push_record (r : frequency_record) (h : list frequency_record) : list frequency_record :=
  let h' := h ++ [r] in if (HISTORY_MAX <? length h')%nat then tail h' else h'.
Definition record_trade (symbol direction : string) (qty : Z) (pnl : float64) : GM unit :=
  t ← now_ist;
  st_modify (λ g, put_trades (push_record (TradeFrequencyRecord t symbol direction qty pnl) (gd_history g)) (gd_last g) g) ;;
  t ← now_ist;
  st_modify (λ g, put_trades (gd_history g) (Some t) g) ;;
  on_gsafety (record_trade_outcome (fge pnl f_zero)) ;;
  mret ().
(** [record_win], [record_loss] *)
Definition record_win : GM unit := on_gsafety (record_trade_outcome true) ;; mret ().
Definition record_loss : GM unit := on_gsafety (record_trade_outcome false) ;; mret ().
(** [reset_daily] *)
Definition reset_daily : GM unit :=
  st_modify (λ g, put_trades [] (gd_last g) g) ;;
  on_gsafety reset_consecutive_losses ;;
  st_modify (λ g, put_trades (gd_history g) None g).
(** [get_trades_today] *)
Definition get_trades_today : GM Z := now ← now_ist; g ← st_get; mret (count_today now g).
(** [health_check] *)
Definition health_check : GM (Z * Z * Z * Z * float64) :=
  g ← st_get;
  n ← get_trades_today;
  m ← time_multiplier;
  mret (sf_losses (gd_safety g), gc_max_losses (gd_cfg g), n, gc_max_trades (gd_cfg g), m).

(** ** What passing the guards means *)

(** The clock moves by readings, the alert may do what it likes to its own
    state; the rest stays. *)
Record watching (g g' : guards) : Prop := {
  wt_cfg : gd_cfg g' = gd_cfg g;
  wt_history : gd_history g' = gd_history g;
  wt_last : gd_last g' = gd_last g;
  wt_losses : sf_losses (gd_safety g') = sf_losses (gd_safety g);
  wt_clock : ∃ k, clock_of g' = clock_after k (clock_of g) }.
#[local] Instance watching_preorder : PreOrder watching.
Proof.
  split; [by intros g; split; try done; exists 0%nat|].
  intros g1 g2 g3 [H1 H2 H3 H4 [k Hk]] [G1 G2 G3 G4 [j Hj]]. split; [congruence..|].
  exists (j + k)%nat. rewrite Hj, Hk. unfold clock_after. by rewrite Nat.iter_add.
Qed.
Lemma clock_watching : st_rel watching now_ist.
Proof. intros g. rewrite now_ist_total. split; try done. by exists 1%nat. Qed.
Lemma alert_watching r : st_rel watching (alerted r).
Proof.
  unfold alerted. destruct alert as [f|]; [|apply st_rel_ret; typeclasses eauto].
  intros g. unfold st_zoom. destruct (f r _). split; try done. by exists 0%nat.
Qed.
Ltac watch := rel_auto ltac:(first [apply clock_watching | apply alert_watching]).
Lemma price_watching s p : st_rel watching (check_price s p).
Proof. unfold check_price. watch. Qed.
Lemma slippage_watching s m l : st_rel watching (check_slippage s m l).
Proof. unfold check_slippage. watch. Qed.
Lemma stale_watching s q : st_rel watching (check_stale s q).
Proof. unfold check_stale. watch. Qed.
Lemma frequency_watching : st_rel watching check_frequency.
Proof. unfold check_frequency. watch. Qed.
Lemma losses_watching : st_rel watching check_losses.
Proof. unfold check_losses. watch. Qed.
Lemma multiplier_watching : st_rel watching time_multiplier.
Proof. unfold time_multiplier. watch. Qed.

(** A check that passed, in some state on the way. *)
Definition passed_in (m : GM guard_result) (g : guards) : Prop :=
  ∃ g1 r g2, watching g g1 ∧ m g1 = (Ok r, g2) ∧ gr_passed r = true.
Lemma passed_later m g g1 : watching g g1 → passed_in m g1 → passed_in m g.
Proof. intros W (a & r & b & W1 & R). exists a, r, b. split; [by etransitivity|done]. Qed.
Lemma or_failed_inv m about k g d g' :
  st_rel watching m → or_failed m about k g = (Ok (true, ""%string, d), g') →
  ∃ g1, watching g g1 ∧ k g1 = (Ok (true, ""%string, d), g') ∧ passed_in m g.
Proof.
  intros Hm E. unfold or_failed in E. inv_bind E r g1 E1. pose proof (Hm g) as W. rewrite E1 in W. cbn in W.
  destruct (gr_passed r) eqn:Hp; [|done]. exists g1. split_and!; [done|exact E|]. by exists g, r, g1.
Qed.

Lemma price_passed s p g : passed_in (check_price s p) g →
  ∃ x, p = Some x ∧ is_nan x = false ∧ feqb (fabs x) f_inf = false ∧ flt x f_zero = false ∧
    (feqb x f_zero = false ∨ gc_zero_ok (gd_cfg g) = true).
Proof.
  intros (g1 & r & g2 & W & E & Hp). unfold check_price in E. injection E as <- _. rewrite (wt_cfg _ _ W) in Hp.
  destruct p as [x|]; [|done]. exists x. destruct (is_nan x); [done|]. destruct (feqb (fabs x) f_inf); [done|].
  destruct (flt x f_zero); [done|]. split_and!; try done. destruct (feqb x f_zero); [|by left]. right.
  by destruct (gc_zero_ok _).
Qed.
Lemma slippage_passed s model live g : passed_in (check_slippage s model live) g →
  fle model f_zero = true ∨ fle live f_zero = true ∨ fgt (deviation model live) (gc_slippage (gd_cfg g)) = false.
Proof.
  intros (g1 & r & g2 & W & E & Hp). unfold check_slippage in E. rewrite (st_bind_ok _ _ g1 (gd_cfg g1) g1) in E by done.
  rewrite (wt_cfg _ _ W) in E. destruct (fle model f_zero); [by left|]. destruct (fle live f_zero); [by right; left|].
  cbn [orb] in E. destruct (fgt _ _); [|by right; right]. inv_bind E u g3 E3. by injection E as <- _.
Qed.
Lemma stale_passed s t g : passed_in (check_stale s (Some t)) g →
  ∃ k, fgt (total_seconds (clk_now (clock_after k (clock_of g)) - t)) (gc_quote_age (gd_cfg g)) = false.
Proof.
  intros (g1 & r & g2 & W & E & Hp). unfold check_stale in E. rewrite (st_bind_ok _ _ g1 (gd_cfg g1) g1) in E by done.
  rewrite (wt_cfg _ _ W) in E. unfold mbind, st_bind in E. rewrite now_ist_total in E. destruct (wt_clock _ _ W) as [k Hk].
  exists k. rewrite <- Hk. change (clk_now (clock_of g1)) with (clk_read (clock_of g1)).1.
  destruct (fgt _ _); [|done]. destruct (alerted _ _) as [[[]|e] g3]; by inversion E; subst.
Qed.
Lemma frequency_passed g : passed_in check_frequency g →
  ∃ k, let now := clk_now (clock_after k (clock_of g)) in
    too_soon now g = None ∧ count_today now g < gc_max_trades (gd_cfg g).
Proof.
  intros (g1 & r & g2 & W & E & Hp). unfold check_frequency, mbind, st_bind in E. rewrite now_ist_total in E.
  unfold st_get in E. injection E as <- _. destruct (wt_clock _ _ W) as [k Hk]. exists k. rewrite <- Hk. cbv zeta.
  change (clk_now (clock_of g1)) with (clk_read (clock_of g1)).1. set (now := (clk_read (clock_of g1)).1) in *.
  destruct W as [W1 W2 W3 _ _]. unfold too_soon, count_today in *. cbn [gd_last gd_cfg gd_history set_clock guards_clock] in Hp.
  rewrite W1, W2, W3 in Hp. destruct (match gd_last g with Some _ => _ | None => None end); [done|]. split; [done|].
  destruct (_ <=? _) eqn:Hb in Hp; [done|]. by apply Z.leb_gt in Hb.
Qed.
Lemma losses_passed g : passed_in check_losses g → sf_losses (gd_safety g) < gc_max_losses (gd_cfg g).
Proof.
  intros (g1 & r & g2 & W & E & Hp). unfold check_losses in E. injection E as <- _. destruct W as [W1 _ _ W4 _].
  rewrite W1, W4 in Hp. by destruct (Z.leb_spec (gc_max_losses (gd_cfg g)) (sf_losses (gd_safety g))).
Qed.

(** Passing the guards means every limit held.  If [check_all_guards]
    passes, the live price is there and is a finite number that is not
    negative, its deviation from the model's price (where both are positive)
    and the age of the quote (where it has one) are not above their limits,
    the last trade is not too recent and the trades of the day are below the
    daily limit, at a reading of the clock during the call, and the losing
    streak is below its limit; and nothing but the clock and the alert's own
    state has changed. *)
Theorem guards_passed (symbol : string) (model : float64) (live : option float64) (quote : option Z) (g g' : guards) (d : details) :
  check_all_guards symbol model live quote g = (Ok (true, ""%string, d), g') →
  let c := gd_cfg g in
  (∃ p, live = Some p ∧ is_nan p = false ∧ feqb (fabs p) f_inf = false ∧ flt p f_zero = false ∧
     (feqb p f_zero = false ∨ gc_zero_ok c = true) ∧
     (fle model f_zero = true ∨ fle p f_zero = true ∨ fgt (deviation model p) (gc_slippage c) = false)) ∧
  (∀ t, quote = Some t →
     ∃ k, fgt (total_seconds (clk_now (clock_after k (clock_of g)) - t)) (gc_quote_age c) = false) ∧
  (∃ k, let now := clk_now (clock_after k (clock_of g)) in too_soon now g = None ∧ count_today now g < gc_max_trades c) ∧
  sf_losses (gd_safety g) < gc_max_losses c ∧
  watching g g'.
Proof.
  intros E. unfold check_all_guards in E.
  apply or_failed_inv in E as (g1 & W1 & E & P1); [|apply price_watching].
  apply or_failed_inv in E as (g2 & W2 & E & P2); [|apply slippage_watching].
  apply or_failed_inv in E as (g3 & W3 & E & P3); [|apply stale_watching].
  apply or_failed_inv in E as (g4 & W4 & E & P4); [|apply frequency_watching].
  apply or_failed_inv in E as (g5 & W5 & E & P5); [|apply losses_watching].
  assert (watching g g2) as W02 by by etransitivity.
  assert (watching g g3) as W03 by by etransitivity.
  assert (watching g g4) as W04 by by etransitivity.
  apply (passed_later _ g) in P2, P3, P4, P5; [|done..].
  destruct (price_passed _ _ _ P1) as (p & -> & H1 & H2 & H3 & H4).
  split_and!.
  - exists p. split_and!; try done. by apply (slippage_passed symbol).
  - intros t ->. by apply (stale_passed symbol).
  - by apply frequency_passed.
  - by apply losses_passed.
  - etransitivity; [exact W04|]. etransitivity; [exact W5|].
    pose proof (multiplier_watching g5) as W6. inv_bind E m g6 E6. rewrite E6 in W6. by injection E as _ <-.
Qed.

(** ** A day of guarded trades *)

(** A trade tried: it is recorded when the guards pass. *)
Record trial := Trial {
  tl_symbol : string; tl_model : float64; tl_live : option float64; tl_quote : option Z;
  tl_direction : string; tl_qty : Z; tl_pnl : float64 }.
Inductive guard_op := Try (t : trial) | Win | Loss | Health.
Definition try_trade (t : trial) : GM bool :=
  v ← check_all_guards (tl_symbol t) (tl_model t) (tl_live t) (tl_quote t);
  if v.1.1 : bool then record_trade (tl_symbol t) (tl_direction t) (tl_qty t) (tl_pnl t) ;; mret true else mret false.
(** The number of trades the operations record. *)
Definition run_guard_op (o : guard_op) (g : guards) : nat * guards :=
  match o with
  | Try t => let '(r, g') := try_trade t g in (match r with Ok true => 1%nat | _ => 0%nat end, g')
  | Win => (0%nat, (record_win g).2)
  | Loss => (0%nat, (record_loss g).2)
  | Health => (0%nat, (health_check g).2)
  end.
Fixpoint run_guard_ops (os : list guard_op) (g : guards) : nat * guards :=
  match os with
  | [] => (0%nat, g)
  | o :: os' => let '(n, g1) := run_guard_op o g in let '(m, g2) := run_guard_ops os' g1 in ((n + m)%nat, g2)
  end.

(** The history holds exactly the [n] trades recorded so far, all of the day
    [d]. *)
Definition day_state (d : Z) (cfg : guard_config) (n : nat) (g : guards) : Prop :=
  gd_cfg g = cfg ∧ within_day d (clock_of g) ∧ length (gd_history g) = n ∧
  Forall (λ r, d ≤ fr_timestamp r) (gd_history g) ∧ Z.of_nat n ≤ Z.max 0 (gc_max_trades cfg).
Lemma watching_day d c n g g' : watching g g' → day_state d c n g → day_state d c n g'.
Proof.
  intros [W1 W2 _ _ [k Hk]] (H1 & H2 & H3 & H4 & H5). unfold day_state. rewrite W1, W2, Hk.
  split_and!; [done|by apply within_day_after|done..].
Qed.
Lemma entries_all d (l : list Z) : Forall (λ t, d ≤ t) l → entries_since d l = Z.of_nat (length l).
Proof. intros H. unfold entries_since. f_equal. induction H as [|t l Ht _ IH]; [done|]. rewrite filter_cons_True by done. cbn. by rewrite IH. Qed.

Lemma check_rel s m l q : st_rel watching (check_all_guards s m l q).
Proof.
  unfold check_all_guards, or_failed.
  rel_auto ltac:(first [apply price_watching|apply slippage_watching|apply stale_watching|apply frequency_watching
    |apply losses_watching|apply multiplier_watching]).
Qed.
Lemma passed_count s model live quote d' (v : guards_verdict) g g' cfg n d :
  check_all_guards s model live quote g = (Ok v, g') → v.1.1 = true → day_state d cfg n g →
  v = (true, ""%string, d') → Z.of_nat n < gc_max_trades cfg.
Proof.
  intros E _ (H1 & H2 & H3 & H4 & H5) ->. unfold check_all_guards in E.
  apply or_failed_inv in E as (g1 & W1 & E & _); [|apply price_watching].
  apply or_failed_inv in E as (g2 & W2 & E & _); [|apply slippage_watching].
  apply or_failed_inv in E as (g3 & W3 & E & _); [|apply stale_watching].
  apply or_failed_inv in E as (g4 & W4 & E & P); [|apply frequency_watching].
  assert (watching g g3) as W by (etransitivity; [exact W1|by etransitivity]).
  apply (passed_later _ _ _ W), frequency_passed in P as (k & _ & P).
  rewrite H1 in P. unfold count_today in P. rewrite (H2 k), entries_all, length_fmap, H3 in P; [done|].
  by apply Forall_fmap.
Qed.
(** A verdict that passes gives no reason. *)
Lemma verdict_shape s model live quote g v g' :
  check_all_guards s model live quote g = (Ok v, g') → v.1.1 = true → ∃ d, v = (true, ""%string, d).
Proof.
  intros E Hv. unfold check_all_guards, or_failed in E.
  inv_bind E r1 g1 E1. destruct (gr_passed r1); [|by injection E as <- _]. inv_bind E r2 g2 E2. destruct (gr_passed r2); [|by injection E as <- _].
  inv_bind E r3 g3 E3. destruct (gr_passed r3); [|by injection E as <- _]. inv_bind E r4 g4 E4. destruct (gr_passed r4); [|by injection E as <- _].
  inv_bind E r5 g5 E5. destruct (gr_passed r5); [|by injection E as <- _]. inv_bind E m g6 E6. injection E as <- _. by eexists.
Qed.

Lemma record_day d c n s dir q pnl g : Z.of_nat (S n) ≤ 1000 → Z.of_nat n < gc_max_trades c → day_state d c n g →
  ∃ g', record_trade s dir q pnl g = (Ok (), g') ∧ day_state d c (S n) g'.
Proof.
  intros Hn Hc (H1 & H2 & H3 & H4 & H5). unfold record_trade.
  rewrite (st_bind_ok _ _ _ _ _ (now_ist_total g)). set (t := (clk_read (clock_of g)).1).
  set (g1 := set_clock (clk_read (clock_of g)).2 g). set (r := TradeFrequencyRecord t s dir q pnl).
  assert (push_record r (gd_history g1) = gd_history g ++ [r]) as Hp.
  { unfold push_record. change (gd_history g1) with (gd_history g). rewrite length_app. cbn [length].
    unfold HISTORY_MAX. destruct (Nat.ltb_spec 1000 (length (gd_history g) + 1)); [lia|done]. }
  rewrite (st_bind_ok _ _ g1 () (put_trades (gd_history g ++ [r]) (gd_last g1) g1)) by by rewrite <- Hp.
  set (g2 := put_trades _ _ _). rewrite (st_bind_ok _ _ _ _ _ (now_ist_total g2)).
  eexists. split; [reflexivity|]. split_and!; cbn; [done| | |..].
  - change (clk_read (clk_read (sf_clk (gd_safety g))).2).2 with (clock_after 2 (clock_of g)). by apply within_day_after.
  - rewrite length_app. cbn. lia.
  - apply Forall_app. split; [done|]. apply Forall_singleton. cbn. unfold t. rewrite <- (within_day_now _ _ H2).
    unfold midnight. pose proof (Z.mod_pos_bound (clk_read (clock_of g)).1 usec_per_day ltac:(done)). lia.
  - lia.
Qed.
Lemma try_day d c n t g : gc_max_trades c ≤ 1000 → day_state d c n g →
  day_state d c (n + (run_guard_op (Try t) g).1) (run_guard_op (Try t) g).2.
Proof.
  intros Hc Hd. cbn [run_guard_op]. unfold try_trade, mbind, st_bind.
  pose proof (check_rel (tl_symbol t) (tl_model t) (tl_live t) (tl_quote t) g) as W.
  destruct (check_all_guards _ _ _ _ g) as [[v|e] g1] eqn:E; cbn [snd] in W.
  2:{ rewrite Nat.add_0_r. by apply (watching_day _ _ _ _ _ W). }
  destruct v.1.1 eqn:Hv; [|rewrite Nat.add_0_r; by apply (watching_day _ _ _ _ _ W)].
  destruct (verdict_shape _ _ _ _ _ _ _ E Hv) as [dv ->].
  assert (Z.of_nat n < gc_max_trades c) as Hn by by eapply passed_count.
  destruct (record_day d c n (tl_symbol t) (tl_direction t) (tl_qty t) (tl_pnl t) g1) as (g2 & -> & H2); [lia|done| |].
  - by apply (watching_day _ _ _ _ _ W).
  - cbn. by rewrite Nat.add_1_r.
Qed.
Lemma op_day d c n o g : gc_max_trades c ≤ 1000 → day_state d c n g →
  day_state d c (n + (run_guard_op o g).1) (run_guard_op o g).2.
Proof.
  intros Hc Hd. destruct o as [t| | |]; [by apply try_day|..]; cbn [run_guard_op fst snd]; rewrite Nat.add_0_r.
  1-2: exact Hd.
  apply (watching_day _ _ _ g); [|done]. revert g Hd. assert (st_rel watching health_check) as H by
    (unfold health_check, get_trades_today; rel_auto ltac:(first [apply clock_watching|apply multiplier_watching])).
  intros g _. apply H.
Qed.

(** The guards bound the trades of a day.  On a day that starts with an
    empty history, whatever trades are tried (each recorded when the guards
    pass), whatever prices, quotes and profits they have, and however wins,
    losses and health checks come in between, no more trades pass than the
    daily limit, provided the limit is not above the thousand records the
    history holds. *)
Theorem guarded_trades_bounded (d : Z) (os : list guard_op) (g : guards) :
  within_day d (clock_of g) → gd_history g = [] → gc_max_trades (gd_cfg g) ≤ 1000 →
  Z.of_nat (run_guard_ops os g).1 ≤ Z.max 0 (gc_max_trades (gd_cfg g)).
Proof.
  intros Hd Hh Hc.
  assert (∀ n g0, day_state d (gd_cfg g) n g0 → day_state d (gd_cfg g) (n + (run_guard_ops os g0).1) (run_guard_ops os g0).2) as Hrun.
  { induction os as [|o os IH]; intros n g0 H0; [by rewrite Nat.add_0_r|]. cbn.
    pose proof (op_day _ _ _ o _ Hc H0) as H1. destruct (run_guard_op o g0) as [k g1]. cbn [fst snd] in H1.
    specialize (IH _ _ H1). destruct (run_guard_ops os g1) as [m g2]. cbn [fst snd] in *. by rewrite Nat.add_assoc. }
  destruct (Hrun 0%nat g) as (_ & _ & _ & _ & H5); [|exact H5]. split_and!; try done.
  - by rewrite Hh.
  - rewrite Hh. constructor.
  - lia.
Qed.

(** A limit above the history's length never refuses. *)
Lemma limit_above_history (g : guards) :
  (length (gd_history g) ≤ HISTORY_MAX)%nat → Z.of_nat HISTORY_MAX < gc_max_trades (gd_cfg g) → gd_last g = None →
  ∃ r g', check_frequency g = (Ok r, g') ∧ gr_passed r = true.
Proof.
  intros Hl Hc Hn. unfold check_frequency, mbind, st_bind. rewrite now_ist_total. unfold st_get, mret, st_ret.
  set (now := (clk_read (clock_of g)).1). set (g1 := set_clock _ g).
  eexists _, _. split; [reflexivity|]. unfold too_soon. change (gd_last g1) with (gd_last g). rewrite Hn.
  destruct (Z.leb_spec (gc_max_trades (gd_cfg g1)) (count_today now g1)) as [H|H]; [|done]. exfalso.
  change (gd_cfg g1) with (gd_cfg g) in H. unfold count_today, entries_since in H. change (gd_history g1) with (gd_history g) in H.
  pose proof (length_filter (λ e, midnight now ≤ e) (fr_timestamp <$> gd_history g)) as Hf. rewrite length_fmap in Hf.
  cbn in H, Hf. lia.
Qed.
Lemma push_bounded r h : (length h ≤ HISTORY_MAX → length (push_record r h) ≤ HISTORY_MAX)%nat.
Proof.
  intros H. unfold push_record. destruct (Nat.ltb_spec HISTORY_MAX (length (h ++ [r]))) as [H1|H1]; [|done].
  rewrite length_app in H1. cbn [length] in H1. destruct h as [|x h]; cbn [app tail]; [cbn; lia|]. rewrite length_app. cbn [length] in *. lia.
Qed.
End guards.
Arguments guards X : clear implicits.

(** ** Concrete guards *)

Definition guard_safety (steps : list Z) : safety := new_safety (Clock (12 * usec_per_hour) steps) (Clock 0 []).
Definition demo_guards (c : guard_config) (steps : list Z) : guards unit := Guards c [] None (guard_safety steps) ().
Definition loud : option (string → ST unit unit) := None.
Definition a_trial (model live : Z) (pnl : float64) : guard_op :=
  Try (Trial "NIFTY" (f_of_Z model) (Some (f_of_Z live)) None "CALL" 1 pnl).
Definition slow_day : list Z := replicate 60 (20 * usec_per_sec).
Definition limited (n : Z) : guard_config := GuardConfig (f_of_Z 2) (f_of_Z 2) n 30 3 "14:30" (lit 5 1) false.

(** Six trials, twenty seconds a reading, under a limit of three. *)
Definition demo_day : list guard_op := replicate 6 (a_trial 100 101 f_one).
Example guarded_day : (run_guard_ops loud demo_day (demo_guards (limited 3) slow_day)).1 = 3%nat.
Proof. vm_compute. reflexivity. Qed.
(** Two trades at one instant: the interval refuses the second. *)
Example guarded_instant : (run_guard_ops loud demo_day (demo_guards (limited 3) [])).1 = 1%nat.
Proof. vm_compute. reflexivity. Qed.
(** A trade that breaks even ends a losing streak. *)
Example break_even_resets :
  sf_losses (gd_safety (run_guard_ops loud [Loss; Loss; a_trial 100 101 f_zero] (demo_guards (limited 3) slow_day)).2) = 0.
Proof. vm_compute. reflexivity. Qed.
(** The late size is advice in the details; a threshold that does not parse
    means no late session. *)
Definition late_multiplier (text : string) : option (pyval + pyrec) :=
  let c := GuardConfig (f_of_Z 2) (f_of_Z 2) 3 30 3 text (lit 5 1) false in
  match (check_all_guards loud "NIFTY" (f_of_Z 100) (Some (f_of_Z 101)) None (demo_guards c [])).1 with
  | Ok v => v.2 !! "time_multiplier"%string
  | Raise _ => None
  end.
Example late_thresholds :
  late_multiplier "11:59" = Some (inl (VFloat (lit 5 1))) ∧ late_multiplier "14:30" = None ∧ late_multiplier "11.59" = None.
Proof. vm_compute. done. Qed.

Lemma guards_passed_witness :
  ∃ d g', check_all_guards loud "NIFTY" (f_of_Z 100) (Some (f_of_Z 101)) None (demo_guards (limited 3) []) = (Ok (true, ""%string, d), g') ∧
    sf_losses (gd_safety (demo_guards (limited 3) [])) < 3.
Proof.
  eexists _, _. split; [vm_compute; reflexivity|].
  refine (proj1 (proj2 (proj2 (proj2 (guards_passed loud "NIFTY" (f_of_Z 100) (Some (f_of_Z 101)) None (demo_guards (limited 3) []) _ _ _))))).
  vm_compute. reflexivity.
Defined.
Lemma guarded_trades_bounded_witness : Z.of_nat (run_guard_ops loud demo_day (demo_guards (limited 3) [])).1 <= 3.
Proof.
  refine (guarded_trades_bounded loud 0 demo_day (demo_guards (limited 3) []) _ eq_refl _).
  - intros k. replace (clock_after k (clock_of (demo_guards (limited 3) []))) with (Clock (12 * usec_per_hour) []); [reflexivity|].
    induction k as [|k IH]; [reflexivity|]. unfold clock_after in *. rewrite Nat.iter_succ, <- IH. reflexivity.
  - vm_compute. discriminate.
Defined.
