(* ===== verification/StateManager.v ===== *)
(** * The session state and its file

    [StateManager] of [core/state_manager.py]: a dictionary, written to a
    JSON file after every change by way of a temporary file, and rebuilt
    from the trade database when the file cannot be read.  The optional
    callbacks of the constructor are absent, as in the process-wide
    instance.  JSON gives back what was written: keys are texts, and values
    are numbers, texts, [None] and the dictionary of positions. *)
From S2P Require Import Prelude PyStr Float64 PyDict PyVal CapitalManager.

(** ** Dates as texts

    [str(date)]: the civil date of a day number (days since the epoch). *)
Definition civil (days : Z) : Z * Z * Z :=
  let z := days + 719468 in
  let era := z / 146097 in
  let doe := z `mod` 146097 in
  let yoe := (doe - doe / 1460 + doe / 36524 - doe / 146096) / 365 in
  let doy := doe - (365 * yoe + yoe / 4 - yoe / 100) in
  let mp := (5 * doy + 2) / 153 in
  let m := if mp <? 10 then mp + 3 else mp - 9 in
  (yoe + era * 400 + (if m <=? 2 then 1 else 0), m, doy - (153 * mp + 2) / 5 + 1).
(** The day number of a date, and that it undoes [civil]. *)
Definition days_of_civil (d : Z * Z * Z) : Z :=
  let '(y, m, d) := d in
  let y := if m <=? 2 then y - 1 else y in
  let yoe := y `mod` 400 in
  let doy := (153 * (if 2 <? m then m - 3 else m + 9) + 2) / 5 + d - 1 in
  y / 400 * 146097 + (yoe * 365 + yoe / 4 - yoe / 100 + doy) - 719468.
Definition two (n : Z) : string := pad_left 2 (str_of_Z n).
Definition date_text (d : Z * Z * Z) : string :=
  let '(y, m, d) := d in cat [pad_left 4 (str_of_Z y); "-"; two m; "-"; two d].
Definition usec_in_day : Z := 24 * usec_per_hour.
(** [str(time_provider.today())] *)
Definition day_text (t : Z) : string := date_text (civil (t / usec_in_day)).

(** [time_provider.format_ts()] as a text *)
Definition stamp_text (t : Z) : string :=
  let sec := (t `mod` usec_in_day) / usec_per_sec in
  cat [day_text t; " "; two (sec / 3600); ":"; two ((sec / 60) `mod` 60); ":"; two (sec `mod` 60)].

Example dates : day_text 0 = "1970-01-01"%string ∧ day_text (19782 * usec_in_day) = "2024-02-29"%string ∧
  stamp_text (20819 * usec_in_day + 34 * 3600 * usec_per_sec / 10) = "2027-01-01 03:24:00"%string.
Proof. vm_compute. done. Qed.

(** ** State and file *)

Inductive sval := SV (v : pyval) | SPositions (p : pydict pyrec).
Abbreviation sdict := (pydict sval).

(** A file: absent, some text that is no JSON, or a state. *)
Inductive file := Missing | Garbled | Holds (s : sdict).
Record disk := Disk { dk_main : file; dk_tmp : file }.

(** A row of [SELECT symbol, qty, entry_price FROM trades WHERE exit_ts IS
    NULL]. *)
Record open_trade := OpenTrade { ot_symbol : string; ot_qty : pyval; ot_entry : pyval }.

(** The writes of a save still to come may be cut short: after how many
    operations on files. *)
Record store := Store {
  so_clk : clock; so_state : sdict; so_disk : disk; so_trades : option (list open_trade); so_cuts : list (option nat) }.
#[export] Instance store_clock : HasClock store :=
  {| clock_of := so_clk; set_clock := λ k s, Store k (so_state s) (so_disk s) (so_trades s) (so_cuts s) |}.
Definition put_state (d : sdict) (s : store) : store := Store (so_clk s) d (so_disk s) (so_trades s) (so_cuts s).
Definition put_disk (d : disk) (cuts : list (option nat)) (s : store) : store :=
  Store (so_clk s) (so_state s) d (so_trades s) cuts.

(** [save_state], operation by operation: open the temporary file, which
    empties it, dump the state, and move it over the file.  A failure is
    caught and leaves what was done so far, as a crash does. *)
Inductive file_op := OpenTmp | Dump (s : sdict) | Move.
Definition file_step (d : disk) (o : file_op) : disk :=
  match o with
  | OpenTmp => Disk (dk_main d) Garbled
  | Dump s => Disk (dk_main d) (Holds s)
  | Move => match dk_tmp d with Missing => d | f => Disk f Missing end
  end.
Definition save_ops (s : sdict) : list file_op := [OpenTmp; Dump s; Move].
Definition run_ops (os : list file_op) (d : disk) : disk := foldl file_step d os.
Definition save_state : ST store unit := λ s,
  let ops := save_ops (so_state s) in
  match so_cuts s with
  | Some n :: cuts => (Ok (), put_disk (run_ops (take n ops) (so_disk s)) cuts s)
  | None :: cuts => (Ok (), put_disk (run_ops ops (so_disk s)) cuts s)
  | [] => (Ok (), put_disk (run_ops ops (so_disk s)) [] s)
  end.

(** [get], [set] *)
Definition get (key : string) (d : pyval) : ST store sval := st_gets (λ s, default (SV d) (so_state s !! key)).
Definition set (key : string) (v : sval) : ST store unit :=
  st_modify (λ s, put_state (<[key := v]> (so_state s)) s) ;; save_state.

(** The positions of the open trades: a later row of a symbol replaces an
    earlier one. *)
Definition position_record (t : open_trade) : pyrec := PyDict [("qty", ot_qty t); ("entry_price", ot_entry t)].
Definition recovered (ts : list open_trade) : pydict pyrec :=
  foldl (λ d t, <[ot_symbol t := position_record t]> d) ∅ ts.
Definition confirmed (broker : option (list string)) (d : pydict pyrec) : pydict pyrec :=
  match broker with Some names => dfilter (λ k _, str_mem k names) d | None => d end.
(** [recover_state_from_db]; without an answer from the database nothing
    happens. *)
Definition recover_state_from_db (broker : option (list string)) : ST store unit :=
  s ← st_get;
  match so_trades s with
  | None => mret ()
  | Some ts =>
      st_modify (λ s, put_state (<["recovery_mode" := SV (VBool true)]> (<["active_positions" := SPositions (confirmed broker (recovered ts))]> (so_state s))) s) ;;
      t ← now_ist;
      st_modify (λ s, put_state (<["last_recovery_ts" := SV (VStr (stamp_text t))]> (so_state s)) s) ;;
      save_state
  end.
(** [load_state] *)
Definition load_state : ST store unit :=
  s ← st_get;
  match dk_main (so_disk s) with
  | Holds d => st_put (put_state d s)
  | Missing => st_put (put_state ∅ s)
  | Garbled => recover_state_from_db None
  end.

(** The losing streak and its record. *)
Definition int_of (o : option sval) : Z := match o with Some (SV (VInt n)) => n | _ => 0 end.
Definition set_consecutive_losses (n : Z) : ST store unit :=
  st_modify (λ s, put_state (<["max_consecutive_losses" := SV (VInt (Z.max (int_of (so_state s !! "max_consecutive_losses"%string)) n))]> (so_state s)) s) ;;
  st_modify (λ s, put_state (<["consecutive_losses" := SV (VInt n)]> (so_state s)) s) ;;
  save_state.
Definition get_consecutive_losses : ST store Z := st_gets (λ s, int_of (so_state s !! "consecutive_losses"%string)).
Definition reset_consecutive_losses : ST store unit :=
  st_modify (λ s, put_state (<["consecutive_losses" := SV (VInt 0)]> (so_state s)) s) ;; save_state.

(** [session_recovery_report] *)
Record recovery_report := SessionRecoveryReport {
  sr_local : Z; sr_broker : Z; sr_matched : Z; sr_aligned : bool; sr_note : string }.
Definition active_positions (s : store) : list string :=
  match so_state s !! "active_positions"%string with Some (SPositions p) => dkeys p | _ => [] end.
Definition session_recovery_report (broker : option (list string)) : ST store recovery_report :=
  st_gets (λ s,
    let l := remove_dups (active_positions s) in
    let b := remove_dups (default [] broker) in
    let matched := Z.of_nat (length (filter (λ k, k ∈ b) l)) in
    let aligned := matched =? Z.of_nat (length l) in
    SessionRecoveryReport (Z.of_nat (length l)) (Z.of_nat (length b)) matched aligned
      (if aligned then "Aligned" else "Mismatch detected")).

(** ** Dates go round *)

(** Year and day within one era of four centuries, years starting in March. *)
Definition yoe_of (doe : Z) : Z := (doe - doe / 1460 + doe / 36524 - doe / 146096) / 365.
Lemma yoe_bound doe : 0 ≤ doe < 146097 → 0 ≤ yoe_of doe < 400.
Proof. intros H. unfold yoe_of. Z.to_euclidean_division_equations; lia. Qed.
Lemma doy_bound doe : 0 ≤ doe < 146097 → 0 ≤ doe - (365 * yoe_of doe + yoe_of doe / 4 - yoe_of doe / 100) ≤ 366.
Proof.
  intros H. pose proof (yoe_bound doe H) as Hy.
  assert (365 * yoe_of doe ≤ doe - doe / 1460 + doe / 36524 - doe / 146096 < 365 * yoe_of doe + 365)
    by (unfold yoe_of; Z.to_euclidean_division_equations; lia).
  generalize dependent (yoe_of doe). intros yoe Hy Hd. Z.to_euclidean_division_equations; lia.
Qed.
(** Back from the months, which start in March too. *)
Lemma days_of_march era yoe doy : 0 ≤ yoe < 400 → 0 ≤ doy ≤ 366 →
  let mp := (5 * doy + 2) / 153 in
  let m := if mp <? 10 then mp + 3 else mp - 9 in
  days_of_civil (yoe + era * 400 + (if m <=? 2 then 1 else 0), m, doy - (153 * mp + 2) / 5 + 1) =
  era * 146097 + (yoe * 365 + yoe / 4 - yoe / 100 + doy) - 719468.
Proof.
  intros Hy Hd mp m. assert (0 ≤ mp ≤ 11) as Hm by (unfold mp; Z.to_euclidean_division_equations; lia).
  unfold days_of_civil.
  replace (if m <=? 2 then yoe + era * 400 + (if m <=? 2 then 1 else 0) - 1 else yoe + era * 400 + (if m <=? 2 then 1 else 0))
    with (yoe + era * 400) by (destruct (m <=? 2); lia).
  rewrite Z.mod_add, Z.div_add, (Z.mod_small yoe), (Z.div_small yoe) by lia.
  replace (if 2 <? m then m - 3 else m + 9) with mp.
  2:{ unfold m. destruct (Z.ltb_spec mp 10); [destruct (Z.ltb_spec 2 (mp + 3)); lia|destruct (Z.ltb_spec 2 (mp - 9)); lia]. }
  cbv zeta. lia.
Qed.
(** A day has one date.  The date computed for a day determines the day:
    converting back gives it, for every day before and after the epoch. *)
Theorem civil_roundtrip (days : Z) : days_of_civil (civil days) = days.
Proof.
  unfold civil. set (z := days + 719468). pose proof (Z.mod_pos_bound z 146097 ltac:(lia)) as Hb.
  pose proof (Z.div_mod z 146097 ltac:(lia)) as Hz. cbv zeta. fold (yoe_of (z `mod` 146097)).
  rewrite days_of_march; [lia|by apply yoe_bound|by apply doy_bound].
Qed.

(** ** The file survives *)

(** Wherever a save is cut short, the file holds the old content or the new
    state; a save that is not cut short leaves the new state. *)
Lemma save_atomic (n : nat) (s : sdict) (d : disk) :
  dk_main (run_ops (take n (save_ops s)) d) = dk_main d ∨ dk_main (run_ops (take n (save_ops s)) d) = Holds s.
Proof. destruct n as [|[|[|[|n]]]]; cbn; by auto. Qed.
Lemma save_done (s : sdict) (d : disk) : run_ops (save_ops s) d = Disk (Holds s) Missing.
Proof. done. Qed.
Lemma save_eq w : ∃ d cuts, save_state w = (Ok (), put_disk d cuts w) ∧ (dk_main d = dk_main (so_disk w) ∨ dk_main d = Holds (so_state w)).
Proof.
  unfold save_state. destruct (so_cuts w) as [|[n|] cuts]; eexists _, _; (split; [reflexivity|]).
  - by right.
  - apply save_atomic.
  - by right.
Qed.

(** The states of a run of changes, the first one first. *)
Definition sets (l : list (string * sval)) (w : store) : store := foldl (λ w p, (set p.1 p.2 w).2) w l.
Fixpoint states_of (l : list (string * sval)) (s : sdict) : list sdict :=
  s :: match l with [] => [] | p :: l' => states_of l' (<[p.1 := p.2]> s) end.
Lemma set_eq k v w : ∃ d cuts, set k v w = (Ok (), put_disk d cuts (put_state (<[k := v]> (so_state w)) w)) ∧
  (dk_main d = dk_main (so_disk w) ∨ dk_main d = Holds (<[k := v]> (so_state w))).
Proof.
  unfold set. rewrite (st_bind_ok _ _ w () (put_state (<[k := v]> (so_state w)) w)) by done.
  destruct (save_eq (put_state (<[k := v]> (so_state w)) w)) as (d & cuts & -> & H). by exists d, cuts.
Qed.
Lemma sets_file l : ∀ w, (dk_main (so_disk (sets l w)) = dk_main (so_disk w) ∨
  ∃ s, dk_main (so_disk (sets l w)) = Holds s ∧ s ∈ states_of l (so_state w)) ∧
  so_state (sets l w) ∈ states_of l (so_state w).
Proof.
  induction l as [|[k v] l IH]; intros w; [by split; [left|left]|]. cbn [sets foldl fst snd states_of].
  destruct (set_eq k v w) as (d & cuts & -> & H). cbn [snd].
  set (w1 := put_disk d cuts (put_state (<[k := v]> (so_state w)) w)). destruct (IH w1) as [I1 I2].
  change (so_state w1) with (<[k := v]> (so_state w)) in *. change (so_disk w1) with d in *. split; [|by right].
  change (foldl _ w1 l) with (sets l w1). destruct I1 as [I1|(s & I1 & Hs)].
  - rewrite I1. destruct H as [H|H]; [by left|]. right. eexists. split; [exact H|]. right. destruct l; left.
  - right. exists s. split; [done|by right].
Qed.

(** C19: A restart finds a state that was.  After any run of changes, however
    many of the saves were cut short and wherever, loading gives the state
    before the run or the state after one of its changes, never a mixture
    and never the loss of what the file held before. *)
Theorem restart_finds_past_state (l : list (string * sval)) (w : store) :
  dk_main (so_disk w) = Holds (so_state w) →
  let w1 := sets l w in
  ∃ s, load_state w1 = (Ok (), put_state s w1) ∧ s ∈ states_of l (so_state w).
Proof.
  intros H w1. destruct (sets_file l w) as [F _]. fold w1 in F.
  assert (∃ s, dk_main (so_disk w1) = Holds s ∧ s ∈ states_of l (so_state w)) as (s & E & Hs).
  { destruct F as [F|F]; [|exact F]. exists (so_state w). split; [by rewrite F|]. destruct l; left. }
  exists s. split; [|done]. unfold load_state, mbind, st_bind, st_get. by rewrite E.
Qed.
Lemma uncut_last (k : string) (v : sval) (w : store) :
  (so_cuts w = [] ∨ ∃ cuts, so_cuts w = None :: cuts) → dk_main (so_disk (set k v w).2) = Holds (so_state (set k v w).2).
Proof.
  intros H. unfold set. rewrite (st_bind_ok _ _ w () (put_state (<[k := v]> (so_state w)) w)) by done.
  unfold save_state. cbn [so_cuts put_state]. by destruct H as [->|[cuts ->]].
Qed.

(** ** Recovery *)

(** The open positions of the database, by their last row. *)
Lemma recovered_last ts (k : string) : ∀ d : pydict pyrec, foldl (λ (d : pydict pyrec) t, <[ot_symbol t := position_record t]> d) d ts !! k =
  match last (filter (λ t, ot_symbol t = k) ts) with Some t => Some (position_record t) | None => d !! k end.
Proof.
  induction ts as [|t ts IH]; intros d; [done|]. cbn [foldl]. rewrite IH, filter_cons. case_decide as Hk.
  - rewrite last_cons. destruct (last _); [done|]. subst k. by rewrite dict_lookup_insert_eq.
  - destruct (last _); [done|]. by rewrite dict_lookup_insert_ne.
Qed.
Lemma recovered_wf ts : dict_wf (recovered ts).
Proof. unfold recovered. apply foldl_inv; [apply dict_empty_wf|]. intros d t _. apply dict_insert_wf. Qed.
(** What recovery rebuilds.  When the database answers, the recovered
    state has, for every symbol, the quantity and price of its last open
    trade, unless a broker's list is given and does not have the symbol;
    the mark of recovery is set, and the rest of the state is as before. *)
Theorem recovery_rebuilds (broker : option (list string)) (ts : list open_trade) (w w' : store) :
  so_trades w = Some ts → recover_state_from_db broker w = (Ok (), w') →
  (∃ p, so_state w' !! "active_positions"%string = Some (SPositions p) ∧
    ∀ k, p !! k = (if match broker with Some names => str_mem k names | None => true end
                   then position_record <$> last (filter (λ t, ot_symbol t = k) ts) else None)) ∧
  so_state w' !! "recovery_mode"%string = Some (SV (VBool true)) ∧
  ∀ k, k ∉ ["active_positions"; "recovery_mode"; "last_recovery_ts"]%string → so_state w' !! k = so_state w !! k.
Proof.
  intros Ht E. unfold recover_state_from_db in E. rewrite (st_bind_ok st_get _ w w w), Ht in E by done.
  set (p := confirmed broker (recovered ts)) in E.
  set (w1 := put_state (<["recovery_mode" := SV (VBool true)]> (<["active_positions" := SPositions p]> (so_state w))) w).
  rewrite (st_bind_ok _ _ w () w1) in E by done. rewrite (st_bind_ok _ _ _ _ _ (now_ist_total w1)) in E.
  set (w2 := set_clock _ w1) in E. set (t := (clk_read (clock_of w1)).1) in E.
  set (w3 := put_state (<["last_recovery_ts" := SV (VStr (stamp_text t))]> (so_state w2)) w2).
  rewrite (st_bind_ok _ _ w2 () w3) in E by done. destruct (save_eq w3) as (d & cuts & E3 & _).
  rewrite E3 in E. injection E as <-. cbn [so_state put_disk].
  change (so_state w3) with (<["last_recovery_ts" := SV (VStr (stamp_text t))]> (<["recovery_mode" := SV (VBool true)]>
    (<["active_positions" := SPositions p]> (so_state w)))). split_and!.
  - exists p. split; [rewrite !dict_lookup_insert_ne by done; apply dict_lookup_insert_eq|]. intros k. unfold p, confirmed, recovered.
    destruct broker as [names|].
    + rewrite dict_filter_lookup, recovered_last by apply recovered_wf.
      by destruct (str_mem k names), (last _).
    + rewrite recovered_last. by destruct (last _).
  - rewrite dict_lookup_insert_ne by done. apply dict_lookup_insert_eq.
  - intros k Hk. rewrite !not_elem_of_cons in Hk. destruct Hk as (H1 & H2 & H3 & _). by rewrite !dict_lookup_insert_ne by congruence.
Qed.

(** The report is aligned when every local position is at the broker. *)
Lemma aligned_iff broker (w : store) r w' : session_recovery_report broker w = (Ok r, w') →
  sr_aligned r = true ↔ ∀ k, k ∈ active_positions w → k ∈ default [] broker.
Proof.
  unfold session_recovery_report, st_gets. intros [= <- _]. cbn [sr_aligned]. rewrite Z.eqb_eq.
  set (l := remove_dups (active_positions w)). set (b := remove_dups (default [] broker)).
  rewrite Nat2Z.inj_iff. split.
  - intros H k Hk. assert (k ∈ filter (λ k, k ∈ b) l) as Hin.
    { destruct (decide (k ∈ b)) as [Hb|Hb]; [apply list_elem_of_filter; split; [done|by apply elem_of_remove_dups]|]. exfalso.
      apply elem_of_remove_dups in Hk. fold l in Hk. apply list_elem_of_split in Hk as (l1 & l2 & El). rewrite El in H.
      rewrite filter_app, filter_cons, decide_False, !length_app in H by done. cbn in H.
      pose proof (length_filter (λ k, k ∈ b) l1). pose proof (length_filter (λ k, k ∈ b) l2). lia. }
    apply list_elem_of_filter in Hin as [Hin _]. unfold b in Hin. by rewrite elem_of_remove_dups in Hin.
  - intros H. assert (∀ j, j ∈ l → j ∈ b) as Hl by
      (intros j Hj; unfold b; apply elem_of_remove_dups, H; unfold l in Hj; by rewrite elem_of_remove_dups in Hj).
    clear H. clearbody l b. induction l as [|j l IH]; [done|]. rewrite filter_cons_True by (apply Hl; left). cbn. f_equal.
    apply IH. intros i Hi. apply Hl. by right.
Qed.

(** ** Concrete stores *)

Definition profit (x : Z) : string * sval := ("net_daily_pnl"%string, SV (VFloat (f_of_Z x))).
(** Two saves, the second cut before its move. *)
Definition cut_store : store := Store (Clock 0 []) ∅ (Disk (Holds ∅) Missing) None [None; Some 1%nat].
Example cut_save_keeps_first :
  so_state (load_state (sets [profit 1; profit 2] cut_store)).2 !! "net_daily_pnl"%string = Some (SV (VFloat (f_of_Z 1))).
Proof. vm_compute. reflexivity. Qed.
Lemma restart_finds_past_state_witness :
  ∃ s, load_state (sets [profit 1; profit 2] cut_store) = (Ok (), put_state s (sets [profit 1; profit 2] cut_store)) ∧
       s ∈ states_of [profit 1; profit 2] ∅.
Proof. exact (restart_finds_past_state [profit 1; profit 2] cut_store eq_refl). Defined.
Lemma recovery_rebuilds_witness :
  let w := Store (Clock 0 []) ∅ (Disk Garbled Missing) (Some [OpenTrade "NIFTY" (VInt 2) (VInt 100); OpenTrade "OLD" (VInt 1) (VInt 5)]) [] in
  ∃ p, so_state (recover_state_from_db (Some ["NIFTY"%string]) w).2 !! "active_positions"%string = Some (SPositions p) ∧
    p !! "OLD"%string = None.
Proof.
  intros w. destruct (recover_state_from_db (Some ["NIFTY"%string]) w) as [r w'] eqn:E.
  assert (r = Ok ()) as -> by (vm_compute in E; by injection E as <- _).
  destruct (recovery_rebuilds (Some ["NIFTY"%string]) _ w w' eq_refl E) as ((p & H1 & H2) & _).
  exists p. split; [exact H1|]. rewrite H2. reflexivity.
Defined.
