(* ===== verification/MandateService.v ===== *)
(** * The mandate service

    [MandateService] of [core/mandate_service.py], over the risk service of
    [RiskService]: the market's status, the size of a position, and the
    consolidated gate of trade entries.  The warm-up manager and the legacy
    enforcer are given as operations on the surroundings of the risk
    service. *)
From S2P Require Import Prelude PyStr Float64 PyDict PyVal SafetyState CapitalManager RiskTypes RiskService StateManager.

(** [MandateEnforcer], the fallback. *)
Record enforcer_port (W : Type) := EnforcerPort {
  me_position_size : float64 → string → float64 → ST W pyval;
  me_can_trade : ST W (bool * string);
  me_in_window : ST W bool;
  me_skip_first : ST W bool;
  me_skip_last : ST W bool;
  me_min_score : string → ST W Z;
  me_false_signal : Z → float64 → ST W bool;
  me_status : ST W pyrec }.
Arguments me_position_size {W}. Arguments me_can_trade {W}. Arguments me_in_window {W}. Arguments me_skip_first {W}.
Arguments me_skip_last {W}. Arguments me_min_score {W}. Arguments me_false_signal {W}. Arguments me_status {W}.

(** Gates in a row: [None] passes on, a text refuses. *)
Fixpoint first_refusal {S} (gs : list (ST S (option string))) : ST S (option string) :=
  match gs with
  | [] => mret None
  | g :: gs' => r ← g; match r with Some why => mret (Some why) | None => first_refusal gs' end
  end.
(** When none refuses, each was passed in a state on the way. *)
Lemma first_refusal_none {S} (R : S → S → Prop) `{!PreOrder R} (gs : list (ST S (option string))) :
  (∀ g, g ∈ gs → ∀ w w', g w = (Ok None, w') → R w w') →
  ∀ w w', first_refusal gs w = (Ok None, w') → R w w' ∧ ∀ g, g ∈ gs → ∃ w1 w2, R w w1 ∧ g w1 = (Ok None, w2).
Proof.
  induction gs as [|g gs IH]; intros Hgs w w' E; cbn in E.
  - injection E as ->. split; [done|]. intros g Hg. by apply elem_of_nil in Hg.
  - inv_bind E r w1 E1. destruct r as [why|]; [done|].
    assert (R w w1) as A by (eapply Hgs; [apply list_elem_of_here|exact E1]).
    destruct (IH (λ g' Hg', Hgs g' (list_elem_of_further _ _ _ Hg')) _ _ E) as [A2 P]. split; [by etransitivity|].
    intros g' [->|Hin]%elem_of_cons; [by exists w, w1|].
    destruct (P _ Hin) as (w2 & w3 & A3 & E3). exists w2, w3. split; [by etransitivity|done].
Qed.

(** When the list raises, one of its gates has raised, after others that
    passed. *)
Lemma first_refusal_raise {S} (R : S → S → Prop) `{!PreOrder R} (gs : list (ST S (option string))) :
  (∀ g, g ∈ gs → ∀ w w', g w = (Ok None, w') → R w w') →
  ∀ w e w', first_refusal gs w = (Raise e, w') → ∃ g w1, g ∈ gs ∧ R w w1 ∧ g w1 = (Raise e, w').
Proof.
  induction gs as [|g gs IH]; intros Hg w e w' E; [done|]. cbn [first_refusal] in E. unfold mbind, st_bind in E.
  destruct (g w) as [[[why|]|e1] w1] eqn:E1; [done| |].
  - destruct (IH (λ g' Hin, Hg g' (list_elem_of_further _ _ _ Hin)) _ _ _ E) as (g' & w2 & Hin & Hr & E2).
    exists g', w2. split; [by apply list_elem_of_further|]. split; [|done].
    etransitivity; [|exact Hr]. eapply Hg; [apply list_elem_of_here|done].
  - injection E as <- <-. exists g, w. split; [apply list_elem_of_here|]. by split.
Qed.

Section mandate.
Context {X : Type} `{!RiskEnv X}.
Context (cfg : pyrec) (with_risk : bool) (warmup : option (RM (X:=X) Z)) (enforcer : option (enforcer_port (risk_world X))).
Context (holidays : list string).

Definition soft : list exn_class := [ValueError; TypeError; KeyError; AttributeError; IndexError; OSError].
Definition enforcer_soft : list exn_class := [ValueError; TypeError; AttributeError; IndexError; OSError].

(** [market_status] *)
Definition weekday_of (t : Z) : Z := (t / usec_per_day + 3) `mod` 7.
Definition status_at (t : Z) : string :=
  if 5 <=? weekday_of t then "CLOSED"
  else if str_mem (day_text t) holidays then "HOLIDAY"
  else if (555 <=? minute_of_day t) && (minute_of_day t <=? 920) then "OPEN" else "CLOSED".
Definition market_status : RM (X:=X) string := now ← now_ist; mret (status_at now).

(** A step that is tried where there is a service, with what follows its
    failure or its absence. *)
Definition tried {A} (present : bool) (m : RM (X:=X) A) (cs : list exn_class) (otherwise : RM (X:=X) A) : RM (X:=X) A :=
  if present then st_try m cs (λ _, otherwise) else otherwise.
Definition with_enforcer {A} (f : enforcer_port (risk_world X) → RM (X:=X) A) (otherwise : RM (X:=X) A) : RM (X:=X) A :=
  match enforcer with Some e => st_try (f e) enforcer_soft (λ _, otherwise) | None => otherwise end.

(** [get_position_size] *)
Definition risk_size (name : string) (entry sl_pct : float64) : RM (X:=X) Z :=
  m ← get_portfolio_risk_metrics;
  c ← st_gets kw_cfg;
  lot ← lot_size_of name;
  vix ← get_live_vix;
  calculate_position_size
    (PositionSizingInput name entry (entry * sl_pct)%f64 (pm_available_capital m) (rc_default_risk c) lot vix).
Definition get_position_size (name : string) (entry : float64) : RM (X:=X) Z :=
  sl_pct ← st_lift (py_float (rget "SL_PCT" (VFloat (lit 92 2)) cfg));
  tried with_risk (risk_size name entry sl_pct) soft
    (with_enforcer (λ e, v ← me_position_size e entry "SIDEWAYS" (f_one - sl_pct)%f64; st_lift (py_int v))
       (mret 1)).

(** [_check_hard_stops_via_risk]: a failure means no stop. *)
Definition hard_stops : RM (X:=X) (bool * string) :=
  tried with_risk
    (m ← get_portfolio_risk_metrics;
     if fle (pm_daily_pnl m) (pm_max_daily_loss m) then
       mret (false, cat ["Daily loss limit: "; fmt_f 2 (pm_daily_pnl m); " <= "; fmt_f 2 (pm_max_daily_loss m)])
     else if pm_max_consecutive_losses m <=? pm_consecutive_losses m then
       mret (false, cat ["Consecutive losses: "; str_of_Z (pm_consecutive_losses m); " >= "; str_of_Z (pm_max_consecutive_losses m)])
     else
       vix ← get_live_vix;
       mret (if fgt vix (f_of_Z 35) then (false, cat ["VIX too high: "; fmt_f 1 vix; " > 35"]) else (true, "OK"%string)))
    soft (mret (true, "OK"%string)).

Definition refuse_if (b : bool) (why : string) : option string := if b then Some (String.append "MANDATE_BLOCK: " why) else None.
Definition adjusted (min_score : Z) : RM (X:=X) Z :=
  match warmup with Some w => a ← w; mret (min_score + a) | None => mret min_score end.
Definition below_score (regime : string) (score min_score : Z) : option string :=
  refuse_if (score <? min_score) (cat ["Score "; str_of_Z score; " < "; str_of_Z min_score; " for "; regime]).
Definition false_signal (b : bool) (score : Z) (iv_rank : float64) : option string :=
  refuse_if b (cat ["False signal (score="; str_of_Z score; ", iv="; repr_float iv_rank; ")"]).
Definition outside : string := "Outside trading window".
Definition first_minutes : string := "First 20 minutes".
Definition last_minutes : string := "Last 45 minutes".

Definition window_gate : RM (X:=X) (option string) := b ← is_in_trading_window; mret (refuse_if (negb b) outside).
Definition first_gate : RM (X:=X) (option string) := b ← should_skip_first_20_min; mret (refuse_if b first_minutes).
Definition last_gate : RM (X:=X) (option string) := b ← should_skip_last_45_min; mret (refuse_if b last_minutes).
Definition score_gate (regime : string) (score : Z) : RM (X:=X) (option string) :=
  n ← adjusted (get_min_score_for_regime (Some regime)); mret (below_score regime score n).
Definition signal_gate (score : Z) (iv_rank : float64) : RM (X:=X) (option string) :=
  mret (false_signal (should_block_false_signal score iv_rank) score iv_rank).
(** The trades of the day, as the open positions. *)
Definition count_gate : RM (X:=X) (option string) :=
  m ← get_portfolio_risk_metrics;
  vix ← get_live_vix;
  cap ← get_max_trades_per_day (Some vix) (pm_consecutive_losses m);
  mret (refuse_if (cap <=? pm_open_positions m)
          (cat ["Max trades today ("; str_of_Z (pm_open_positions m); " >= "; str_of_Z cap; ")"])).
Definition stop_gate : RM (X:=X) (option string) := r ← hard_stops; mret (refuse_if (negb r.1) r.2).
Definition risk_gates (regime : string) (score : Z) (iv_rank : float64) : list (RM (X:=X) (option string)) :=
  [window_gate; first_gate; last_gate; score_gate regime score; signal_gate score iv_rank; count_gate; stop_gate].

Definition ge_status (r : pyrec) : res bool := v_ge (rget "trades_today" (VInt 0) r) (rget "max_trades_today" (VInt 99) r).
Definition enforcer_gates (e : enforcer_port (risk_world X)) (regime : string) (score : Z) (iv_rank : float64) :
    list (RM (X:=X) (option string)) :=
  [(r ← me_can_trade e; mret (refuse_if (negb r.1) r.2));
   (b ← me_in_window e; mret (refuse_if (negb b) outside));
   (b ← me_skip_first e; mret (refuse_if b first_minutes));
   (b ← me_skip_last e; mret (refuse_if b last_minutes));
   (n ← me_min_score e regime; n ← adjusted n; mret (below_score regime score n));
   (b ← me_false_signal e score iv_rank; mret (false_signal b score iv_rank));
   (r ← me_status e; b ← st_lift (ge_status r); mret (refuse_if b "Max trades today reached"))].

(** [check_mandate_trade_allowed] *)
Definition allowed_text : string := "MANDATE_ALLOWED".
Definition answer (o : option string) : bool * string := match o with Some why => (false, why) | None => (true, allowed_text) end.
Definition check_mandate_trade_allowed (regime : string) (score : Z) (iv_rank : float64) : RM (X:=X) (bool * string) :=
  tried with_risk (o ← first_refusal (risk_gates regime score iv_rank); mret (answer o)) soft
    (with_enforcer (λ e, o ← first_refusal (enforcer_gates e regime score iv_rank); mret (answer o))
       (mret (true, "MANDATE_ALLOWED (no enforcer)"%string))).

(** [get_mandate_status]: the counts, whether trading is possible and the
    regimes; or the enforcer's own dictionary. *)
Record mandate_status := MandateStatus { mt_today : Z; mt_max : Z; mt_can_trade : bool; mt_regimes : list string }.
Definition get_mandate_status : RM (X:=X) (mandate_status + pyrec) :=
  tried with_risk
    (m ← get_portfolio_risk_metrics;
     vix ← get_live_vix;
     cap ← get_max_trades_per_day (Some vix) (pm_consecutive_losses m);
     c ← st_gets kw_cfg;
     mret (inl (MandateStatus (pm_open_positions m) cap (pm_open_positions m <? rc_max_open c)
             ["TRENDING"; "BULLISH"; "SIDEWAYS"]%string)))
    soft
    (with_enforcer (λ e, r ← me_status e; mret (inr r))
       (mret (inl (MandateStatus 0 99 true ["TRENDING"; "SIDEWAYS"]%string)))).
End mandate.

(** *** What a permission means *)

Section proofs.
Context {X : Type} `{!RiskEnv X}.
Context (cfg : pyrec) (warmup : option (RM (X:=X) Z)) (enforcer : option (enforcer_port (risk_world X))).
(** The warm-up changes no more than a clock and sources. *)
Hypothesis warmup_aside : ∀ m, warmup = Some m → st_rel aside m.
Implicit Type w : risk_world X.

#[local] Instance aside_preorder : PreOrder (aside (X:=X)).
Proof.
  split; [by intros w; split; try done; exists 0%nat|].
  intros w1 w2 w3 [H1 H2 H3 H4 [k Hk]] [G1 G2 G3 G4 [j Hj]]. split; [congruence..|].
  exists (j + k)%nat. rewrite Hj, Hk. unfold clock_after. by rewrite Nat.iter_add.
Qed.
Ltac still := rel_auto ltac:(first [apply on_env_aside | apply clock_aside | apply metrics_aside]).
Lemma vix_aside : st_rel aside (get_live_vix (X:=X)).
Proof. unfold get_live_vix. still. Qed.
Lemma stops_aside : st_rel aside (hard_stops (X:=X) true).
Proof. unfold hard_stops, tried. rel_auto ltac:(first [apply metrics_aside|apply vix_aside]). Qed.
Lemma gates_aside regime score iv : Forall (st_rel aside) (risk_gates true warmup regime score iv).
Proof.
  unfold risk_gates. repeat (apply Forall_cons; split); [..|apply Forall_nil; done].
  - unfold window_gate, is_in_trading_window. still.
  - unfold first_gate, should_skip_first_20_min. still.
  - unfold last_gate, should_skip_last_45_min. still.
  - unfold score_gate, adjusted. destruct warmup as [m|]; [|still]. pose proof (warmup_aside m eq_refl). still. done.
  - unfold signal_gate. still.
  - unfold count_gate, get_max_trades_per_day. rel_auto ltac:(first [apply metrics_aside|apply vix_aside]).
  - unfold stop_gate. rel_auto ltac:(apply stops_aside).
Qed.

(** A gate that let the trade pass, in some state on the way. *)
Definition gate_passed w (g : RM (X:=X) (option string)) : Prop := ∃ w1 w2, aside w w1 ∧ g w1 = (Ok None, w2).
Lemma refuse_none b why : refuse_if b why = None → b = false.
Proof. by destruct b. Qed.
Lemma at_reading (w1 w : risk_world X) (P : Z → Prop) :
  aside w w1 → P (clk_read (clock_of w1)).1 → ∃ k, P (clk_now (clock_after k (clock_of w))).
Proof. intros [_ _ _ _ [k Hk]] H. exists k. rewrite <- Hk. exact H. Qed.

(** What the mandate lets pass.  If the gate of the mandate service
    answers that a trade is allowed, with no enforcer behind it, the
    trading window held at a reading of the clock, at others the first
    twenty minutes were over and the last forty-five had not begun, the
    score is not below the regime's, raised by the warm-up, the signal is
    not a false one, and there were fewer open positions than the trades
    the volatility and the losing streak allow. *)
Theorem mandate_allowed_means (regime : string) (score : Z) (iv_rank : float64) (w w' : risk_world X) :
  enforcer = None →
  check_mandate_trade_allowed true warmup enforcer regime score iv_rank w = (Ok (true, allowed_text), w') →
  (∃ k, let t := minute_of_day (clk_now (clock_after k (clock_of w))) in (560 ≤ t ≤ 690) ∨ (780 ≤ t ≤ 885)) ∧
  (∃ k, 580 ≤ minute_of_day (clk_now (clock_after k (clock_of w)))) ∧
  (∃ k, minute_of_day (clk_now (clock_after k (clock_of w))) ≤ 875) ∧
  (∃ w1 w2 n, aside w w1 ∧ adjusted warmup (get_min_score_for_regime (Some regime)) w1 = (Ok n, w2) ∧ n ≤ score) ∧
  should_block_false_signal score iv_rank = false ∧
  ∃ w1 w2 m v cap, aside w w1 ∧ count_gate w1 = (Ok None, w2) ∧ (get_portfolio_risk_metrics w1).1 = Ok m ∧
    pm_open_positions m < cap ∧
    cap = (if fgt v (f_of_Z 28) || (2 <=? pm_consecutive_losses m) then 1 else if fgt v (f_of_Z 20) then 2 else 4).
Proof.
  intros -> E. unfold check_mandate_trade_allowed, tried, st_try, with_enforcer in E.
  destruct ((o ← first_refusal _; _) w) as [[r|e] w0] eqn:E0.
  2:{ by destruct (catches soft e). }
  injection E as -> ->. inv_bind E0 o w1 E1. destruct o as [why|]; [done|]. clear E0.
  assert (∀ g, g ∈ risk_gates true warmup regime score iv_rank → ∀ u u', g u = (Ok None, u') → aside u u') as Hg.
  { intros g Hin u u' Eu. pose proof (proj1 (Forall_forall _ _) (gates_aside regime score iv_rank) g Hin u) as A. by rewrite Eu in A. }
  destruct (first_refusal_none aside _ Hg _ _ E1) as [_ P].
  assert (gate_passed w window_gate) as P1 by (apply P; repeat constructor).
  assert (gate_passed w first_gate) as P2 by (apply P; repeat constructor).
  assert (gate_passed w last_gate) as P3 by (apply P; repeat constructor).
  assert (gate_passed w (score_gate warmup regime score)) as P4 by (apply P; repeat constructor).
  assert (gate_passed w (signal_gate score iv_rank)) as P5 by (apply P; repeat constructor).
  assert (gate_passed w count_gate) as P6 by (apply P; repeat constructor).
  split_and!.
  - destruct P1 as (a & b & A & R). unfold window_gate, is_in_trading_window, mbind, st_bind in R. rewrite now_ist_total in R.
    injection R as R _. apply refuse_none, negb_false_iff in R.
    apply (at_reading a w (λ t, (560 ≤ minute_of_day t ≤ 690) ∨ (780 ≤ minute_of_day t ≤ 885)) A).
    rewrite orb_true_iff, !andb_true_iff, !Z.leb_le in R. exact R.
  - destruct P2 as (a & b & A & R). unfold first_gate, should_skip_first_20_min, mbind, st_bind in R. rewrite now_ist_total in R.
    injection R as R _. apply refuse_none in R. apply (at_reading a w (λ t, 580 ≤ minute_of_day t) A). apply Z.ltb_ge in R. exact R.
  - destruct P3 as (a & b & A & R). unfold last_gate, should_skip_last_45_min, mbind, st_bind in R. rewrite now_ist_total in R.
    injection R as R _. apply refuse_none in R. apply (at_reading a w (λ t, minute_of_day t ≤ 875) A). apply Z.ltb_ge in R. exact R.
  - destruct P4 as (a & b & A & R). unfold score_gate in R. inv_bind R n c Rn. injection R as R _.
    apply refuse_none in R. exists a, c, n. split_and!; [done|done|]. by apply Z.ltb_ge in R.
  - destruct P5 as (a & b & A & R). injection R as R _. by apply refuse_none in R.
  - destruct P6 as (a & b & A & R). pose proof R as R0. unfold count_gate in R. inv_bind R m c Rm. inv_bind R v d Rv.
    inv_bind R cap f Rc. injection R as R _. apply refuse_none in R. unfold get_max_trades_per_day in Rc.
    injection Rc as Rc _. exists a, b, m, v, cap. split_and!; [done..| | |done].
    + by rewrite Rm.
    + by apply Z.leb_gt in R.
Qed.
End proofs.

(** [get_wait_reason_components]: the reasons a signal waits; the five after
    the score are looked at only when the score is too low. *)
Definition num_or (key : string) (d : float64) (r : pyrec) : res float64 := py_float (v_or (rget key (VFloat d) r) (VFloat d)).
Definition nine99 : float64 := f_of_Z 999.
Definition low_score_reasons (r : pyrec) : res (list string) :=
  rbind (num_or "adx" nine99 r) (λ adx,
  rbind (num_or "rr" nine99 r) (λ rr,
  rbind (num_or "vix" f_zero r) (λ vix,
  rbind (num_or "mins_to_eod" nine99 r) (λ eod,
  rbind (num_or "cooldown_s" f_zero r) (λ cooldown,
  let on (b : bool) (s : string) := if b then [s] else [] in
  Ok (on (String.eqb (str_upper (py_str (rget "regime" (VStr "") r))) "CHOPPY" || flt adx (f_of_Z 14)) "ADX" ++
      on (flt rr (lit 15 1)) "RR" ++ on (fgt vix (f_of_Z 27)) "VIX" ++ on (flt eod (f_of_Z 40)) "EOD" ++
      on (fgt cooldown f_zero) "Cooldown")))))).
Definition get_wait_reason_components (sd : option pyrec) : res (string * list string) :=
  match sd with
  | None => Ok ("WAIT"%string, [])
  | Some r =>
      let status := str_upper (py_str (rget "market_status" (VStr "") r)) in
      let market := if truthy_str status && negb (String.eqb status "OPEN") then ["Market"%string] else [] in
      let score := rget "score" VNone r in
      let threshold := rget "threshold" VNone r in
      rbind (match score, threshold with
             | VNone, _ | _, VNone => Ok ["Score"%string]
             | _, _ => rbind (v_lt score threshold) (λ low,
                       if low : bool then rbind (low_score_reasons r) (λ l, Ok ("Score"%string :: l)) else Ok [])
             end) (λ rest,
      match market ++ rest with
      | [] => Ok ("PASS"%string, [])
      | l => Ok (String.append "WAIT: " (String.concat ", " (firstn 2 l)), l)
      end)
  end.

(** ** Concrete mandates *)

(** A quiet instant at [h:m] with the entries and open positions given. *)
Definition at_minute (n : Z) (entries : list Z) (open : Z) : risk_world demo_sources :=
  RiskWorld (new_safety (Clock (n * 60 * usec_per_sec) []) (Clock 0 [])) default_config (limits_of default_config) ∅ 0 f_zero f_zero ∅
    entries None (DemoSources (f_of_Z 1000000) f_zero open).
Definition mandate (n : Z) (entries : list Z) (open : Z) : res (bool * string) :=
  (check_mandate_trade_allowed true None None "TRENDING" 80 (f_of_Z 20) (at_minute n entries open)).1.

(** The window opens at 9:20 but the first twenty minutes last to 9:40; it
    closes at 14:45 but the last minutes begin at 14:36. *)
Example effective_window :
  (λ n, mandate n [] 0) <$> [579; 580; 690; 691; 875; 876] =
  [Ok (false, "MANDATE_BLOCK: First 20 minutes"); Ok (true, allowed_text); Ok (true, allowed_text);
   Ok (false, "MANDATE_BLOCK: Outside trading window"); Ok (true, allowed_text);
   Ok (false, "MANDATE_BLOCK: Last 45 minutes")]%string.
Proof. vm_compute. reflexivity. Qed.
(** The trades of the day are not counted: with fifty entries today and no
    open position, another trade is allowed. *)
Example closed_trades_uncounted :
  mandate 600 (replicate 50 (590 * 60 * usec_per_sec)) 0 = Ok (true, allowed_text) ∧
  mandate 600 [] 4 = Ok (false, "MANDATE_BLOCK: Max trades today (4 >= 4)"%string).
Proof. vm_compute. done. Qed.
(** With a score that is high enough no other reason to wait is looked at. *)
Definition fearful (score : Z) : pyrec :=
  PyDict [("market_status", VStr "OPEN"); ("score", VInt score); ("threshold", VInt 70); ("vix", VFloat (f_of_Z 40));
          ("cooldown_s", VFloat (f_of_Z 100))].
Example good_score_hides :
  get_wait_reason_components (Some (fearful 80)) = Ok ("PASS"%string, []) ∧
  get_wait_reason_components (Some (fearful 60)) = Ok ("WAIT: Score, VIX"%string, ["Score"; "VIX"; "Cooldown"]%string).
Proof. vm_compute. done. Qed.

(** With no service at all every trade is allowed. *)
Lemma no_services_allow {X} `{!RiskEnv X} warmup regime score iv (w : risk_world X) :
  (check_mandate_trade_allowed false warmup None regime score iv w).1 = Ok (true, "MANDATE_ALLOWED (no enforcer)"%string).
Proof. done. Qed.

Lemma mandate_allowed_means_witness :
  ∃ k, 580 <= minute_of_day (clk_now (clock_after k (clock_of (at_minute 600 [] 0)))).
Proof.
  destruct (check_mandate_trade_allowed true None None "TRENDING" 80 (f_of_Z 20) (at_minute 600 [] 0)) as [r w'] eqn:E.
  assert (r = Ok (true, allowed_text)) as ->.
  { change (fst (r, w') = Ok (true, allowed_text)). rewrite <- E. vm_compute. reflexivity. }
  assert (∀ m, (None : option (RM (X:=demo_sources) Z)) = Some m → st_rel aside m) as Hn by done.
  exact (proj1 (proj2 (mandate_allowed_means None None Hn "TRENDING" 80 (f_of_Z 20) _ _ eq_refl E))).
Defined.
