(* ===== verification/MandateEnforcer.v ===== *)
(** * The legacy mandate enforcer

    [ProductionMandateEnforcer] of [core/mandate_enforcer.py], over the
    process-wide safety state, and as the [enforcer_port] that
    [MandateService] falls back to.  Amounts and volatility are floats. *)
From S2P Require Import Prelude PyStr Float64 PyDict PyVal SafetyState CapitalManager RiskTypes RiskService MandateService.

(** ** Data *)

(** [MandateState], with the configured drawdown; [last_event_time] is read
    nowhere. *)
Record mandate_state := MandateState {
  md_capital : float64; md_peak : float64; md_daily : float64; md_weekly : float64; md_last_trade : option Z;
  md_trades : Z; md_vix : float64; md_stale : Z; md_halted : bool; md_max_drawdown : pyval }.
Definition set_halted (m : mandate_state) : mandate_state :=
  MandateState (md_capital m) (md_peak m) (md_daily m) (md_weekly m) (md_last_trade m) (md_trades m) (md_vix m) (md_stale m)
    true (md_max_drawdown m).
Definition set_traded (last : option Z) (n : Z) (m : mandate_state) : mandate_state :=
  MandateState (md_capital m) (md_peak m) (md_daily m) (md_weekly m) last n (md_vix m) (md_stale m) (md_halted m) (md_max_drawdown m).
Definition set_market (vix : float64) (stale : Z) (m : mandate_state) : mandate_state :=
  MandateState (md_capital m) (md_peak m) (md_daily m) (md_weekly m) (md_last_trade m) (md_trades m) vix stale (md_halted m) (md_max_drawdown m).
Definition set_money (capital peak daily weekly : float64) (m : mandate_state) : mandate_state :=
  MandateState capital peak daily weekly (md_last_trade m) (md_trades m) (md_vix m) (md_stale m) (md_halted m) (md_max_drawdown m).

(** The safety state and the enforcer's own. *)
Definition ES : Type := safety * mandate_state.
Definition EM (A : Type) : Type := ST ES A.
#[global] Instance es_clock : HasClock ES := {| clock_of := λ w, clock_of w.1; set_clock := λ k w, (set_clock k w.1, w.2) |}.
Definition on_halt {A} (m : ST safety A) : EM A := st_zoom fst (λ s w, (s, w.2)) m.
Definition own : EM mandate_state := st_gets snd.
Definition change (f : mandate_state → mandate_state) : EM unit := st_modify (λ w, (w.1, f w.2)).
(** [__init__] *)
Definition new_enforcer (capital : float64) (max_drawdown : pyval) : mandate_state :=
  MandateState capital capital f_zero f_zero None 0 (f_of_Z 20) 0 false max_drawdown.

(** ** Operations *)

(** [update_market], [update_capital], [reset_daily] *)
Definition update_market (vix : float64) (age : Z) : EM unit := change (set_market vix age).
Definition update_capital (capital daily weekly : float64) : EM unit :=
  change (λ m, set_money capital (py_max (md_peak m) capital) daily weekly m).
Definition reset_daily : EM unit := change (λ m, set_traded (md_last_trade m) 0 m).
(** [_trigger_hard_halt] *)
Definition trigger_hard_halt (reason : string) : EM unit :=
  change set_halted ;; on_halt (trip_hard_halt reason "ProductionMandateEnforcer").
(** [record_trade] *)
Definition record_trade (pnl : float64) : EM unit :=
  now ← now_ist;
  change (λ m, set_traded (Some now) (md_trades m + 1) m) ;;
  n ← on_halt (record_trade_outcome (fge pnl f_zero));
  if 3 <=? n then trigger_hard_halt (cat [str_of_Z n; " consecutive losses"]) else mret ().

Definition TWO_HOURS : Z := 2 * usec_per_hour.
(** [can_trade], gate by gate: [None] passes on. *)
Definition halted_gate : EM (option string) := m ← own; mret (if md_halted m then Some "HARD_HALT: System halted"%string else None).
Definition drawdown_gate : EM (option string) :=
  m ← own;
  max_dd ← st_lift (py_float (md_max_drawdown m));
  drawdown ← st_lift (py_div (md_peak m - md_capital m)%f64 (md_peak m));
  if fge drawdown max_dd then
    trigger_hard_halt (cat ["Max drawdown "; fmt_pct 0 max_dd; " reached"]) ;;
    mret (Some (cat ["MAX_DRAWDOWN: "; fmt_pct 0 max_dd; " protection triggered"]))
  else mret None.
Definition daily_gate : EM (option string) :=
  m ← own;
  loss ← st_lift (py_div (fopp (md_daily m)) (md_capital m));
  mret (if fge loss (lit 25 3) then Some (cat ["DAILY_STOP: 2.5% hit ("; fmt_pct 1 loss; ")"]) else None).
Definition weekly_gate : EM (option string) :=
  m ← own;
  loss ← st_lift (py_div (fopp (md_weekly m)) (md_capital m));
  if fge loss (lit 5 2) then
    trigger_hard_halt "Weekly circuit breaker 5% hit" ;; mret (Some "WEEKLY_CIRCUIT: 5% hit - trading halted"%string)
  else mret None.
Definition streak_gate : EM (option string) :=
  n ← on_halt (st_gets sf_losses);
  m ← own;
  match md_last_trade m with
  | Some t =>
      if 3 <=? n then now ← now_ist; mret (if now <? t + TWO_HOURS then Some "LOSS_STREAK_COOLDOWN: 2 hours"%string else None)
      else mret None
  | None => mret None
  end.
Definition vix_gate : EM (option string) :=
  m ← own; mret (if fge (md_vix m) (f_of_Z 30) then Some (cat ["VIX_HARD_BLOCK: "; repr_float (md_vix m); " >= 30"]) else None).
Definition data_gate : EM (option string) :=
  m ← own; mret (if 30 <=? md_stale m then Some (cat ["DATA_STALE: "; str_of_Z (md_stale m); "s"]) else None).
Definition gates : list (EM (option string)) := [halted_gate; drawdown_gate; daily_gate; weekly_gate; streak_gate; vix_gate; data_gate].
Definition passed : string := "MANDATE_CHECK_PASSED".
Definition can_trade : EM (bool * string) :=
  r ← first_refusal gates; mret match r with Some why => (false, why) | None => (true, passed) end.

(** [get_position_size] *)
Definition risk_multiplier (regime : string) : float64 :=
  let reg := str_upper regime in
  if str_mem reg ["TRENDING"; "BULLISH"] then lit 12 1
  else if str_mem reg ["SIDEWAYS"; "NEUTRAL"] then lit 85 2
  else if str_mem reg ["RANGE"; "CHOPPY"] then lit 75 2 else lit 5 1.
Definition get_position_size (entry : float64) (regime : string) (sl_pct : float64) : EM Z :=
  m ← own;
  if fle (md_capital m) f_zero then mret 0
  else
    let amount := (md_capital m * (lit 15 3 * risk_multiplier regime))%f64 in
    let per_lot := (entry * sl_pct)%f64 in
    if fgt per_lot f_zero then
      lots ← st_lift (rbind (py_div amount per_lot) int_of_float);
      mret (Z.max 1 (Z.min lots 25))
    else mret 1.
(** [get_max_daily_loss], [get_max_trades_today] *)
Definition get_max_daily_loss : EM float64 := m ← own; mret (fopp (md_capital m) * lit 25 3)%f64.
Definition get_max_trades_today : EM Z :=
  m ← own;
  n ← on_halt (st_gets sf_losses);
  mret (if fgt (md_vix m) (f_of_Z 28) || (2 <=? n) then 1 else if fgt (md_vix m) (f_of_Z 20) then 2 else 4).
(** [should_skip_first_20_min], [should_skip_last_45_min], [is_in_trading_window] *)
Definition should_skip_first_20_min : EM bool := now ← now_ist; mret (minute_of_day now <? 580).
Definition should_skip_last_45_min : EM bool := now ← now_ist; mret (875 <? minute_of_day now).
Definition is_in_trading_window : EM bool :=
  now ← now_ist;
  let t := minute_of_day now in mret ((560 <=? t) && (t <=? 690) || (780 <=? t) && (t <=? 885)).
(** [get_min_score], [should_block_false_signal] *)
Definition get_min_score (regime : string) : Z :=
  let reg := str_upper regime in
  if str_mem reg ["TRENDING"; "BULLISH"] then 68
  else if str_mem reg ["SIDEWAYS"; "NEUTRAL"] then 73
  else if str_mem reg ["RANGE"; "CHOPPY"] then 78 else 73.
Definition should_block_false_signal (score : Z) (iv_rank : float64) : bool := (75 <=? score) && fgt iv_rank (f_of_Z 26).
(** [get_status] *)
Definition get_status : EM pyrec :=
  m ← own;
  dd ← st_lift (py_div (md_peak m - md_capital m)%f64 (md_peak m));
  n ← on_halt (st_gets sf_losses);
  mret (PyDict [("capital", VFloat (md_capital m)); ("equity_peak", VFloat (md_peak m)); ("drawdown_pct", VFloat dd);
                ("daily_pnl", VFloat (md_daily m)); ("consecutive_losses", VInt n); ("vix", VFloat (md_vix m));
                ("hard_halted", VBool (md_halted m)); ("trades_today", VInt (md_trades m))]%string).

(** ** Behind the mandate service *)

(** Where the sources of the risk service hold the enforcer. *)
Class HasEnforcer (X : Type) := {
  enforcer_of : X → mandate_state;
  put_enforcer : mandate_state → X → X;
  enforcer_kept : ∀ x, put_enforcer (enforcer_of x) x = x }.
Definition on_enforcer {X} `{HasEnforcer X} {A} (m : EM A) : RM (X:=X) A :=
  st_zoom (λ w, (kw_safety w, enforcer_of (kw_ext w))) (λ e w, set_safety e.1 (set_env (put_enforcer e.2 (kw_ext w)) w)) m.
Definition enforcer_port_of {X} `{HasEnforcer X} : enforcer_port (risk_world X) := {|
  me_position_size entry regime sl := on_enforcer (n ← get_position_size entry regime sl; mret (VInt n));
  me_can_trade := on_enforcer can_trade;
  me_in_window := on_enforcer is_in_trading_window;
  me_skip_first := on_enforcer should_skip_first_20_min;
  me_skip_last := on_enforcer should_skip_last_45_min;
  me_min_score regime := mret (get_min_score regime);
  me_false_signal score iv := mret (should_block_false_signal score iv);
  me_status := on_enforcer get_status |}.

(** ** What the gates of the enforcer mean *)

(** Only the clock has been read. *)
Definition waited (w w' : ES) : Prop := ∃ k, w' = set_clock (clock_after k (clock_of w)) w.
Lemma set_clock_id (w : ES) : set_clock (clock_of w) w = w.
Proof. destruct w as [[] m]. done. Qed.
#[local] Instance waited_preorder : PreOrder waited.
Proof.
  split; [intros w; exists 0%nat; symmetry; apply (set_clock_id w)|].
  intros w1 w2 w3 [k ->] [j ->]. exists (j + k)%nat. destruct w1 as [[] m]. cbn. unfold clock_after. by rewrite Nat.iter_add.
Qed.
Lemma waited_clock (w : ES) : waited w (set_clock (clk_read (clock_of w)).2 w).
Proof. by exists 1%nat. Qed.
(** What the gates demand of the enforcer's state and the losing streak. *)
Definition fit_to_trade (m : mandate_state) : Prop :=
  md_halted m = false ∧ fge (md_vix m) (f_of_Z 30) = false ∧ md_stale m < 30 ∧
  is_zero (md_peak m) = false ∧ is_zero (md_capital m) = false ∧
  fge (fopp (md_daily m) / md_capital m)%f64 (lit 25 3) = false ∧
  fge (fopp (md_weekly m) / md_capital m)%f64 (lit 5 2) = false ∧
  ∃ max_dd, py_float (md_max_drawdown m) = Ok max_dd ∧ fge ((md_peak m - md_capital m) / md_peak m)%f64 max_dd = false.
(** Fewer than three losses in a row, no trade yet, or two hours ago at a reading. *)
Definition cooled (w : ES) : Prop :=
  sf_losses w.1 < 3 ∨ md_last_trade w.2 = None ∨
  ∃ t k, md_last_trade w.2 = Some t ∧ t + TWO_HOURS ≤ clk_now (clock_after k (clock_of w)).

(** The configured drawdown is a number, or a text of one. *)
Definition readable (m : mandate_state) : Prop := is_ok (py_float (md_max_drawdown m)) = true.
(** An exception that the mandate service does not take for the absence of an
    enforcer. *)
Definition loud (e : pyexn) : Prop := catches enforcer_soft e = false.

Lemma py_div_raise x y e : py_div x y = Raise e → loud e.
Proof. unfold py_div. destruct (is_zero y); [|done]. by intros [= <-]. Qed.
Lemma halt_raise why w e w' : trigger_hard_halt why w = (Raise e, w') → loud e.
Proof.
  unfold trigger_hard_halt, change, on_halt, trip_hard_halt, mbind, st_bind, st_modify, st_zoom, st_get. cbn.
  by destruct (sf_halt _).
Qed.
Lemma gate_raise g w e w' : g ∈ gates → readable w.2 → g w = (Raise e, w') → loud e.
Proof.
  unfold gates, readable. rewrite !elem_of_cons, elem_of_nil.
  intros [-> | [-> | [-> | [-> | [-> | [-> | [-> | []]]]]]]] Hr.
  - unfold halted_gate, own, mbind, st_bind, st_gets. by destruct (md_halted _).
  - unfold drawdown_gate, own. rewrite (st_bind_ok _ _ w w.2 w) by done.
    destruct (py_float _) as [x|]; [|done]. rewrite (st_bind_ok _ _ w x w) by done.
    destruct (py_div _ _) as [d|e1] eqn:Ed; [|intros [= <- <-]; by eapply py_div_raise].
    rewrite (st_bind_ok _ _ w d w) by done. destruct (fge d x); [|done].
    unfold mbind, st_bind. destruct (trigger_hard_halt _ w) as [[[]|e1] w1] eqn:Et; [done|].
    intros [= <- <-]. by eapply halt_raise.
  - unfold daily_gate, own. rewrite (st_bind_ok _ _ w w.2 w) by done.
    destruct (py_div _ _) as [d|e1] eqn:Ed; [|intros [= <- <-]; by eapply py_div_raise].
    by rewrite (st_bind_ok _ _ w d w).
  - unfold weekly_gate, own. rewrite (st_bind_ok _ _ w w.2 w) by done.
    destruct (py_div _ _) as [d|e1] eqn:Ed; [|intros [= <- <-]; by eapply py_div_raise].
    rewrite (st_bind_ok _ _ w d w) by done. destruct (fge d _); [|done].
    unfold mbind, st_bind. destruct (trigger_hard_halt _ w) as [[[]|e1] w1] eqn:Et; [done|].
    intros [= <- <-]. by eapply halt_raise.
  - unfold streak_gate, own, on_halt, st_zoom, mbind, st_bind, st_gets. cbn. destruct (md_last_trade _); [|done].
    destruct (3 <=? _); [|done]. by rewrite now_ist_total.
  - done.
  - done.
Qed.

Lemma py_div_ok x y z : py_div x y = Ok z → is_zero y = false ∧ z = (x / y)%f64.
Proof. unfold py_div. destruct (is_zero y); [done|]. by intros [= <-]. Qed.
Lemma halted_pass w w' : halted_gate w = (Ok None, w') → w' = w ∧ md_halted w.2 = false.
Proof.
  unfold halted_gate. intros E. inv_bind E m w1 E1. injection E1 as <- <-. destruct (md_halted w.2); [done|]. by injection E as <-.
Qed.
Lemma drawdown_pass w w' : drawdown_gate w = (Ok None, w') →
  w' = w ∧ is_zero (md_peak w.2) = false ∧
  ∃ x, py_float (md_max_drawdown w.2) = Ok x ∧ fge ((md_peak w.2 - md_capital w.2) / md_peak w.2)%f64 x = false.
Proof.
  unfold drawdown_gate. intros E. inv_bind E m w1 E1. injection E1 as <- <-. inv_bind E x w2 E2. apply st_lift_inv in E2 as [E2 ->].
  inv_bind E dd w3 E3. apply st_lift_inv in E3 as [E3 ->]. apply py_div_ok in E3 as [Hz ->].
  destruct (fge _ x) eqn:Ef.
  - inv_bind E u w4 E4. done.
  - injection E as <-. split_and!; [done|done|]. by exists x.
Qed.
Lemma daily_pass w w' : daily_gate w = (Ok None, w') →
  w' = w ∧ is_zero (md_capital w.2) = false ∧ fge (fopp (md_daily w.2) / md_capital w.2)%f64 (lit 25 3) = false.
Proof.
  unfold daily_gate. intros E. inv_bind E m w1 E1. injection E1 as <- <-. inv_bind E x w2 E2. apply st_lift_inv in E2 as [E2 ->].
  apply py_div_ok in E2 as [Hz ->]. destruct (fge _ _) eqn:Ef; [done|]. by injection E as <-.
Qed.
Lemma weekly_pass w w' : weekly_gate w = (Ok None, w') →
  w' = w ∧ fge (fopp (md_weekly w.2) / md_capital w.2)%f64 (lit 5 2) = false.
Proof.
  unfold weekly_gate. intros E. inv_bind E m w1 E1. injection E1 as <- <-. inv_bind E x w2 E2. apply st_lift_inv in E2 as [E2 ->].
  apply py_div_ok in E2 as [Hz ->]. destruct (fge _ _) eqn:Ef; [by inv_bind E u w4 E4|]. by injection E as <-.
Qed.
Lemma streak_pass w w' : streak_gate w = (Ok None, w') → waited w w' ∧ cooled w.
Proof.
  unfold streak_gate. intros E. inv_bind E n w1 E1. injection E1 as <- <-. replace (w.1, w.2) with w in E by by destruct w.
  inv_bind E m w2 E2. injection E2 as <- <-. unfold cooled. destruct (md_last_trade w.2) as [t|].
  2:{ injection E as <-. split; [done|]. by right; left. }
  destruct (Z.leb_spec 3 (sf_losses w.1)).
  2:{ injection E as <-. split; [done|]. left. lia. }
  rewrite (st_bind_ok _ _ _ _ _ (now_ist_total w)) in E.
  change (clk_read (clock_of w)).1 with (clk_now (clock_of w)) in E. destruct (Z.ltb_spec (clk_now (clock_of w)) (t + TWO_HOURS)); [done|].
  injection E as <-. split; [apply waited_clock|]. right; right. by exists t, 0%nat.
Qed.
Lemma vix_pass w w' : vix_gate w = (Ok None, w') → w' = w ∧ fge (md_vix w.2) (f_of_Z 30) = false.
Proof.
  unfold vix_gate. intros E. inv_bind E m w1 E1. injection E1 as <- <-. destruct (fge _ _); [done|]. by injection E as <-.
Qed.
Lemma data_pass w w' : data_gate w = (Ok None, w') → w' = w ∧ md_stale w.2 < 30.
Proof.
  unfold data_gate. intros E. inv_bind E m w1 E1. injection E1 as <- <-. destruct (Z.leb_spec 30 (md_stale w.2)); [done|]. by injection E as <-.
Qed.
Lemma gates_waited g : g ∈ gates → ∀ w w', g w = (Ok None, w') → waited w w'.
Proof.
  unfold gates. rewrite !elem_of_cons, elem_of_nil. intros [-> | [-> | [-> | [-> | [-> | [-> | [-> | []]]]]]]] w w' E.
  - by apply halted_pass in E as [-> _].
  - by apply drawdown_pass in E as [-> _].
  - by apply daily_pass in E as [-> _].
  - by apply weekly_pass in E as [-> _].
  - by apply streak_pass in E as [? _].
  - by apply vix_pass in E as [-> _].
  - by apply data_pass in E as [-> _].
Qed.
Lemma can_trade_inv w w' t : can_trade w = (Ok (true, t), w') → waited w w' ∧ fit_to_trade w.2 ∧ cooled w.
Proof.
  unfold can_trade. intros E. inv_bind E r w1 E1. destruct r as [why|]; [done|]. injection E as <- <-.
  destruct (first_refusal_none waited gates gates_waited _ _ E1) as [Hw P]. split; [done|].
  assert (∀ w1, waited w w1 → w1.2 = w.2 ∧ sf_losses w1.1 = sf_losses w.1) as Hs by (intros w0 [k ->]; by destruct w as [[] ?]).
  assert (∀ g, g ∈ gates → ∃ u u', waited w u ∧ u.2 = w.2 ∧ g u = (Ok None, u')) as Q.
  { intros g Hin. destruct (P g Hin) as (u & u' & Hu & Eu). exists u, u'. by destruct (Hs u Hu). }
  destruct (Q halted_gate) as (u1 & v1 & _ & U1 & E2); [repeat constructor|]. apply halted_pass in E2 as [_ E2].
  destruct (Q drawdown_gate) as (u2 & v2 & _ & U2 & E3); [repeat constructor|]. apply drawdown_pass in E3 as (_ & E3 & E3').
  destruct (Q daily_gate) as (u3 & v3 & _ & U3 & E4); [repeat constructor|]. apply daily_pass in E4 as (_ & E4 & E4').
  destruct (Q weekly_gate) as (u4 & v4 & _ & U4 & E5); [repeat constructor|]. apply weekly_pass in E5 as (_ & E5).
  destruct (Q streak_gate) as (u5 & v5 & W5 & U5 & E6); [repeat constructor|]. apply streak_pass in E6 as (_ & E6).
  destruct (Q vix_gate) as (u6 & v6 & _ & U6 & E7); [repeat constructor|]. apply vix_pass in E7 as (_ & E7).
  destruct (Q data_gate) as (u7 & v7 & _ & U7 & E8); [repeat constructor|]. apply data_pass in E8 as (_ & E8).
  rewrite U1 in E2. rewrite U2 in E3, E3'. rewrite U3 in E4, E4'. rewrite U4 in E5. rewrite U6 in E7. rewrite U7 in E8.
  split; [by split_and!|]. destruct W5 as [k ->]. destruct E6 as [H|[H|(t & j & H1 & H2)]].
  - left. by destruct w as [[] ?].
  - right; left. by destruct w as [[] ?].
  - right; right. exists t, (j + k)%nat. split; [by destruct w as [[] ?]|]. unfold clock_after in *. rewrite Nat.iter_add.
    by destruct w as [[] ?].
Qed.

Lemma can_trade_raise w e w' : readable w.2 → can_trade w = (Raise e, w') → loud e.
Proof.
  intros Hr. unfold can_trade, mbind, st_bind. destruct (first_refusal gates w) as [[[why|]|e1] w1] eqn:E; [done|done|].
  intros [= <- <-]. destruct (first_refusal_raise waited gates gates_waited _ _ _ E) as (g & w2 & Hin & [k ->] & Eg).
  eapply gate_raise; [exact Hin| |exact Eg]. by destruct w.
Qed.

(** ** Halted for good *)

Inductive enforcer_op :=
  | Market (vix : float64) (age : Z) | Capital (capital daily weekly : float64) | Trade (pnl : float64) | NewDay | Ask
  | Elsewhere (f : safety → safety).
Definition run_enforcer_op (o : enforcer_op) (w : ES) : ES :=
  match o with
  | Market v a => (update_market v a w).2
  | Capital c d k => (update_capital c d k w).2
  | Trade p => (record_trade p w).2
  | NewDay => (reset_daily w).2
  | Ask => (can_trade w).2
  | Elsewhere f => (f w.1, w.2)
  end.
Definition run_enforcer (os : list enforcer_op) (w : ES) : ES := foldl (λ w o, run_enforcer_op o w) w os.

Definition stays_halted (w w' : ES) : Prop := md_halted w.2 = true → md_halted w'.2 = true.
#[local] Instance stays_halted_preorder : PreOrder stays_halted.
Proof. split; [by intros w|]. intros w1 w2 w3 H1 H2 H. auto. Qed.
Lemma on_halt_stays {A} (m : ST safety A) : st_rel stays_halted (on_halt m).
Proof. intros w H. unfold on_halt, st_zoom. by destruct (m w.1). Qed.
Lemma clock_stays : st_rel stays_halted now_ist.
Proof. intros w H. rewrite now_ist_total. exact H. Qed.
Lemma change_stays f : (∀ m, md_halted m = true → md_halted (f m) = true) → st_rel stays_halted (change f).
Proof. intros Hf w H. by apply Hf. Qed.
Ltac halted_still := rel_auto ltac:(idtac; match goal with
  | |- st_rel stays_halted (on_halt _) => apply on_halt_stays
  | |- st_rel stays_halted now_ist => apply clock_stays
  | |- st_rel stays_halted (change _) => apply change_stays; by intros []
  end).
Lemma trigger_stays why : st_rel stays_halted (trigger_hard_halt why).
Proof. unfold trigger_hard_halt. halted_still. Qed.
Lemma record_stays pnl : st_rel stays_halted (record_trade pnl).
Proof. unfold record_trade, trigger_hard_halt. halted_still. Qed.
Lemma halted_refuses w : md_halted w.2 = true → can_trade w = (Ok (false, "HARD_HALT: System halted"%string), w).
Proof.
  intros H. assert (halted_gate w = (Ok (Some "HARD_HALT: System halted"%string), w)) as E.
  { unfold halted_gate. rewrite (st_bind_ok own _ w w.2 w) by done. by rewrite H. }
  unfold can_trade, gates. cbn [first_refusal]. unfold mbind, st_bind. by rewrite E.
Qed.

(** The enforcer halts for good.  Once it has halted, no sequence of
    market data, capital updates, trades, new days and questions, and nothing
    that happens to the safety state in between, such as the operator
    clearing the hard halt, makes it allow a trade again. *)
Theorem enforcer_halts_for_good (os : list enforcer_op) (w : ES) :
  md_halted w.2 = true →
  can_trade (run_enforcer os w) = (Ok (false, "HARD_HALT: System halted"%string), run_enforcer os w).
Proof.
  intros H. apply halted_refuses. unfold run_enforcer. apply foldl_inv; [done|]. intros u o _ Hu. destruct o; cbn [run_enforcer_op].
  - exact Hu.
  - exact Hu.
  - by apply record_stays.
  - exact Hu.
  - by rewrite halted_refuses.
  - exact Hu.
Qed.

(** The size is bounded.  A size of the enforcer is zero without capital,
    and otherwise at least one lot and at most twenty-five; nothing changes. *)
Theorem enforcer_size_bounds (entry : float64) (regime : string) (sl : float64) (w w' : ES) (n : Z) :
  get_position_size entry regime sl w = (Ok n, w') →
  w' = w ∧ if fle (md_capital w.2) f_zero then n = 0 else 1 ≤ n ≤ 25.
Proof.
  unfold get_position_size. intros E. inv_bind E m w1 E1. injection E1 as <- <-. destruct (fle (md_capital w.2) f_zero).
  - by injection E as <- <-.
  - destruct (fgt _ _).
    + inv_bind E lots w2 E2. apply st_lift_inv in E2 as [_ ->]. injection E as <- <-. split; [done|lia].
    + injection E as <- <-. split; [done|lia].
Qed.

(** ** The permission of the mandate service *)

Section composed.
Context {X : Type} `{!RiskEnv X} `{!HasEnforcer X}.
Implicit Type w : risk_world X.

Definition es_of (w : risk_world X) : ES := (kw_safety w, enforcer_of (kw_ext w)).
Definition moved (w w' : risk_world X) : Prop := ∃ k, w' = set_clock (clock_after k (clock_of w)) w.
#[local] Instance moved_preorder : PreOrder moved.
Proof.
  split; [intros w; exists 0%nat; by destruct w as [[]]|].
  intros w1 w2 w3 [k ->] [j ->]. exists (j + k)%nat. destruct w1 as [[]]. cbn. unfold clock_after. by rewrite Nat.iter_add.
Qed.
Lemma on_enforcer_waited {A} (m : EM A) w w' a :
  on_enforcer m w = (Ok a, w') → (∀ e', m (es_of w) = (Ok a, e') → waited (es_of w) e') →
  moved w w' ∧ ∃ e', m (es_of w) = (Ok a, e').
Proof.
  unfold on_enforcer, st_zoom. fold (es_of w). destruct (m (es_of w)) as [r e'] eqn:E. intros [= -> <-] H.
  destruct (H _ eq_refl) as [k ->]. split; [|by eexists]. exists k. destruct w as [[]]. unfold es_of. cbn.
  by rewrite enforcer_kept.
Qed.
Lemma reads_clock (f : Z → bool) e b e' : (now ← now_ist; mret (f now)) e = (Ok b, e') → waited e e' ∧ b = f (clk_now (clock_of e)).
Proof. rewrite (st_bind_ok _ _ _ _ _ (now_ist_total e)). intros [= <- <-]. split; [apply waited_clock|done]. Qed.
Lemma status_cap e r e' : get_status e = (Ok r, e') → e' = e ∧ ge_status r = Ok (99 <=? md_trades e.2).
Proof.
  unfold get_status. intros E. inv_bind E m w1 E1. injection E1 as <- <-. inv_bind E dd w2 E2. apply st_lift_inv in E2 as [_ ->].
  inv_bind E n w3 E3. injection E3 as <- <-. injection E as <- <-. split; [by destruct e|]. done.
Qed.

Lemma refused b why w w' : (mret (refuse_if b why) : RM (X:=X) _) w = (Ok None, w') → w' = w ∧ b = false.
Proof. intros [= E <-]. by apply refuse_none in E. Qed.
Lemma asked_pass w w' :
  (r ← on_enforcer can_trade; mret (refuse_if (negb r.1) r.2)) w = (Ok None, w') →
  moved w w' ∧ fit_to_trade (es_of w).2 ∧ cooled (es_of w).
Proof.
  intros E. inv_bind E r w1 E1. apply refused in E as [-> E]. destruct r as [b t]. apply negb_false_iff in E. cbn in E. subst b.
  destruct (on_enforcer_waited _ _ _ _ E1) as [Hm (e' & He)]; [by intros e' [? _]%can_trade_inv|].
  by apply can_trade_inv in He as (_ & ? & ?).
Qed.
Lemma timed_pass (f : Z → bool) (neg : bool → bool) why w w' :
  (b ← on_enforcer (now ← now_ist; mret (f now)); mret (refuse_if (neg b) why)) w = (Ok None, w') →
  moved w w' ∧ neg (f (clk_now (clock_of w))) = false.
Proof.
  intros E. inv_bind E b w1 E1. apply refused in E as [-> E].
  destruct (on_enforcer_waited _ _ _ _ E1) as [Hm (e' & He)]; [by intros e' [? _]%reads_clock|].
  apply reads_clock in He as [_ ->]. done.
Qed.
Lemma status_pass w w' why :
  (r ← on_enforcer get_status; b ← st_lift (ge_status r); mret (refuse_if b why)) w = (Ok None, w') →
  moved w w' ∧ md_trades (es_of w).2 < 99.
Proof.
  intros E. inv_bind E r w1 E1. inv_bind E b w2 E2. apply st_lift_inv in E2 as [E2 ->]. apply refused in E as [-> ->].
  destruct (on_enforcer_waited _ _ _ _ E1) as [Hm (e' & He)].
  { intros e' [-> _]%status_cap. reflexivity. }
  apply status_cap in He as [_ He]. rewrite He in E2. injection E2 as E2. apply Z.leb_gt in E2. done.
Qed.
Lemma pure_pass (o : option string) w w' : (mret o : RM (X:=X) _) w = (Ok None, w') → w' = w ∧ o = None.
Proof. by intros [= -> <-]. Qed.

(** An exception of the enforcer behind the service is one of its own. *)
Lemma on_enforcer_raise {A} (m : EM A) w e w' : on_enforcer m w = (Raise e, w') → ∃ e', m (es_of w) = (Raise e, e').
Proof.
  unfold on_enforcer, st_zoom. fold (es_of w). destruct (m (es_of w)) as [r e'] eqn:E. intros [= -> <-]. by eexists.
Qed.
Lemma status_raise u e u' : get_status u = (Raise e, u') → loud e.
Proof.
  unfold get_status, own. rewrite (st_bind_ok _ _ u u.2 u) by done.
  destruct (py_div _ _) as [d|e1] eqn:Ed; [|intros [= <- <-]; by eapply py_div_raise].
  by rewrite (st_bind_ok _ _ u d u).
Qed.
Lemma enforcer_gate_raise g regime score iv w e w' :
  g ∈ enforcer_gates None enforcer_port_of regime score iv → readable (es_of w).2 → g w = (Raise e, w') → loud e.
Proof.
  unfold enforcer_gates. rewrite !elem_of_cons, elem_of_nil.
  assert (∀ A B (m : EM A) (f : A → RM (X:=X) B), (∀ (u : ES) e u', readable u.2 → m u = (Raise e, u') → loud e) →
    (∀ a e u', m (es_of w) = (Ok a, u') → ∀ v v', f a v = (Raise e, v') → loud e) →
    readable (es_of w).2 → (a ← on_enforcer m; f a) w = (Raise e, w') → loud e) as Hon.
  { intros A B m f Hm Hf Hr. unfold mbind, st_bind. destruct (on_enforcer m w) as [[a|e1] w1] eqn:E1.
    - unfold on_enforcer, st_zoom in E1. fold (es_of w) in E1. destruct (m (es_of w)) as [r u'] eqn:E.
      injection E1 as -> <-. intros Ef. by eapply Hf.
    - intros [= <- <-]. apply on_enforcer_raise in E1 as [u' E1]. by eapply Hm. }
  assert (∀ f : Z → bool, ∀ (u : ES) e u', readable u.2 → (now ← now_ist; mret (f now)) u = (Raise e, u') → loud e) as Hclk.
  { intros f u e1 u' _. by rewrite (st_bind_ok _ _ _ _ _ (now_ist_total u)). }
  intros [-> | [-> | [-> | [-> | [-> | [-> | [-> | []]]]]]]] Hr.
  - apply Hon; [by intros ????; apply can_trade_raise|done|done].
  - apply Hon; [by intros ????; eapply Hclk|done|done].
  - apply Hon; [by intros ????; eapply Hclk|done|done].
  - apply Hon; [by intros ????; eapply Hclk|done|done].
  - done.
  - done.
  - apply Hon; [intros ???? ; by apply status_raise| |done].
    intros r e1 u' Es v v'. apply status_cap in Es as [_ ->].
    by rewrite (st_bind_ok _ _ v (99 <=? md_trades (es_of w).2) v).
Qed.

(** The least score of a regime: 68, but 73 unless it is trending or bullish,
    and 78 when it ranges. *)
Definition score_suffices (regime : string) (score : Z) : Prop :=
  68 ≤ score ∧
  (str_upper regime ∉ ["TRENDING"; "BULLISH"]%string → 73 ≤ score) ∧
  (str_upper regime ∈ ["RANGE"; "CHOPPY"]%string → 78 ≤ score).
Lemma min_score_suffices regime score : get_min_score regime ≤ score → score_suffices regime score.
Proof.
  unfold get_min_score, score_suffices, str_mem. rewrite !elem_of_cons, !elem_of_nil.
  set (u := str_upper regime). clearbody u. cbn [existsb].
  destruct (String.eqb_spec u "TRENDING") as [E1|E1], (String.eqb_spec u "BULLISH") as [E2|E2],
    (String.eqb_spec u "SIDEWAYS") as [E3|E3], (String.eqb_spec u "NEUTRAL") as [E4|E4],
    (String.eqb_spec u "RANGE") as [E5|E5], (String.eqb_spec u "CHOPPY") as [E6|E6]; subst; try done;
    cbn; intros H; (split; [lia|]); split; intros Hin; try lia; exfalso; intuition congruence.
Qed.

(** C8: What a permission means.  With neither a risk service nor a warm-up,
    and a configured drawdown that is a number, when the mandate service over
    the enforcer allows a trade, in whatever words, the enforcer is not
    halted, drawdown, daily and weekly loss, volatility and the age of the
    data are below their limits, the losing streak has cooled down, the
    window and its margins held at readings of the clock, the score reaches
    the least one of the regime and the signal is not a strong one at a high
    volatility rank; but of the trades of the day it is only known that they
    are fewer than ninety-nine, as [get_status] does not report the
    maximum. *)
Theorem enforcer_permission (regime : string) (score : Z) (iv_rank : float64) (w w' : risk_world X) (words : string) :
  readable (enforcer_of (kw_ext w)) →
  check_mandate_trade_allowed false None (Some enforcer_port_of) regime score iv_rank w = (Ok (true, words), w') →
  fit_to_trade (enforcer_of (kw_ext w)) ∧ cooled (es_of w) ∧
  (∃ k, let t := minute_of_day (clk_now (clock_after k (clock_of w))) in (560 ≤ t ≤ 690) ∨ (780 ≤ t ≤ 885)) ∧
  (∃ k, 580 ≤ minute_of_day (clk_now (clock_after k (clock_of w)))) ∧
  (∃ k, minute_of_day (clk_now (clock_after k (clock_of w))) ≤ 875) ∧
  score_suffices regime score ∧ ¬ (75 ≤ score ∧ fgt iv_rank (f_of_Z 26) = true) ∧
  md_trades (enforcer_of (kw_ext w)) < 99.
Proof.
  intros Hread. unfold check_mandate_trade_allowed, tried, with_enforcer.
  set (gs := enforcer_gates None enforcer_port_of regime score iv_rank). intros E.
  assert (∀ g, g ∈ gs → ∀ u u', g u = (Ok None, u') → moved u u') as Hg.
  { intros g. unfold gs, enforcer_gates. rewrite !elem_of_cons, elem_of_nil.
    intros [-> | [-> | [-> | [-> | [-> | [-> | [-> | []]]]]]]] u u' Eu.
    - by apply asked_pass in Eu as [? _].
    - by apply (timed_pass _ negb) in Eu as [? _].
    - by apply (timed_pass _ id) in Eu as [? _].
    - by apply (timed_pass _ id) in Eu as [? _].
    - by apply pure_pass in Eu as [-> _].
    - by apply pure_pass in Eu as [-> _].
    - by apply status_pass in Eu as [? _]. }
  apply try_inv in E as [E|(e & w1 & E1 & Hc & _)].
  2:{ exfalso. unfold mbind, st_bind in E1. destruct (first_refusal gs w) as [[o|e1] w2] eqn:E2; [done|].
      injection E1 as -> ->. destruct (first_refusal_raise moved gs Hg _ _ _ E2) as (g & w3 & Hin & [k ->] & Eg).
      assert (loud e) as Hl; [|unfold loud in Hl; congruence].
      eapply enforcer_gate_raise; [exact Hin| |exact Eg]. by destruct w as [[]]. }
  inv_bind E o w1 E1. destruct o as [why|]; [done|]. clear E.
  destruct (first_refusal_none moved gs Hg _ _ E1) as [_ P].
  assert (∀ g, g ∈ gs → ∃ k u', g (set_clock (clock_after k (clock_of w)) w) = (Ok None, u')) as Q.
  { intros g Hin. destruct (P g Hin) as (u & u' & [k ->] & Eu). by exists k, u'. }
  clear P Hg E1. unfold gs, enforcer_gates in Q. clear gs.
  destruct (Q _ ltac:(apply list_elem_of_here)) as (k1 & u1 & A1). apply asked_pass in A1 as (_ & Hfit & Hcool).
  destruct (Q _ ltac:(do 1 apply list_elem_of_further; apply list_elem_of_here)) as (k2 & u2 & A2). apply (timed_pass _ negb) in A2 as [_ A2].
  destruct (Q _ ltac:(do 2 apply list_elem_of_further; apply list_elem_of_here)) as (k3 & u3 & A3). apply (timed_pass _ id) in A3 as [_ A3].
  destruct (Q _ ltac:(do 3 apply list_elem_of_further; apply list_elem_of_here)) as (k4 & u4 & A4). apply (timed_pass _ id) in A4 as [_ A4].
  destruct (Q _ ltac:(do 4 apply list_elem_of_further; apply list_elem_of_here)) as (k5 & u5 & A5). apply pure_pass in A5 as [_ A5].
  destruct (Q _ ltac:(do 5 apply list_elem_of_further; apply list_elem_of_here)) as (k6 & u6 & A6). apply pure_pass in A6 as [_ A6].
  destruct (Q _ ltac:(do 6 apply list_elem_of_further; apply list_elem_of_here)) as (k7 & u7 & A7). apply status_pass in A7 as [_ A7].
  split_and!.
  - destruct w as [[]]. exact Hfit.
  - destruct Hcool as [H|[H|(t & j & H1 & H2)]]; [left|right; left|right; right]; [by destruct w as [[]]..|].
    exists t, (j + k1)%nat. split; [by destruct w as [[]]|]. unfold clock_after in *. rewrite Nat.iter_add. by destruct w as [[]].
  - exists k2. apply negb_false_iff, orb_true_iff in A2. rewrite !andb_true_iff, !Z.leb_le in A2. destruct w as [[]]. exact A2.
  - exists k3. apply Z.ltb_ge in A3. destruct w as [[]]. exact A3.
  - exists k4. apply Z.ltb_ge in A4. destruct w as [[]]. exact A4.
  - apply refuse_none in A5. apply min_score_suffices. by apply Z.ltb_ge in A5.
  - apply refuse_none in A6. unfold should_block_false_signal in A6. intros [H1 H2]. rewrite H2, (proj2 (Z.leb_le _ _)) in A6 by done.
    done.
  - destruct w as [[]]. exact A7.
Qed.
End composed.

(** ** Concrete enforcers *)

#[local] Instance no_sources : RiskEnv mandate_state := {
  re_get_capital := mret (f_of_Z 1000000); re_get_open_positions := mret 0; re_get_daily_pnl := mret f_zero;
  re_get_volatility := λ _, mret (f_of_Z 20); re_get_margin := λ _ _, mret (f_of_Z 100); re_get_live_vix := mret (f_of_Z 15);
  re_check_greeks := λ _ _, mret (GREEKS_PASS, []) }.
#[local] Instance is_enforcer : HasEnforcer mandate_state := {
  enforcer_of := id; put_enforcer := λ m _, m; enforcer_kept := λ x, eq_refl }.

(** At 10:00, with the state given. *)
Definition at_ten (m : mandate_state) : risk_world mandate_state :=
  RiskWorld (new_safety (Clock (600 * 60 * usec_per_sec) []) (Clock 0 [])) default_config (limits_of default_config) ∅ 0 f_zero f_zero ∅
    [] None m.
Definition asked (m : mandate_state) : res (bool * string) :=
  (check_mandate_trade_allowed false None (Some enforcer_port_of) "TRENDING" 70 (f_of_Z 20) (at_ten m)).1.
Definition steady : mandate_state := new_enforcer (f_of_Z 5000) (VFloat (lit 12 2)).
Definition busy : mandate_state := set_traded None 50 steady.

(** Fifty trades today, where the limit of the day would be four. *)
Example busy_day_allowed : asked busy = Ok (true, allowed_text) ∧ (get_max_trades_today (es_of (at_ten busy))).1 = Ok 4.
Proof. vm_compute. done. Qed.
(** A configured drawdown that is no number is taken for the absence of the
    enforcer: a loss of a fifth of the capital passes, and so does anything. *)
Example unreadable_limit_allows :
  asked (set_money (f_of_Z 4000) (f_of_Z 5000) f_zero f_zero (new_enforcer (f_of_Z 5000) (VStr "12%"))) =
    Ok (true, "MANDATE_ALLOWED (no enforcer)"%string) ∧
  (asked (set_money (f_of_Z 4000) (f_of_Z 5000) f_zero f_zero steady)) =
    Ok (false, "MANDATE_BLOCK: MAX_DRAWDOWN: 12% protection triggered"%string).
Proof. vm_compute. done. Qed.
(** Without capital the division is not caught: the question raises. *)
Example no_capital_raises : asked (new_enforcer f_zero (VFloat (lit 12 2))) = Raise (PyExn ZeroDivisionError "float division by zero").
Proof. vm_compute. reflexivity. Qed.
(** An eighth of the capital lost. *)
Example drawdown_halts :
  let w := (can_trade (es_of (at_ten (set_money (f_of_Z 4375) (f_of_Z 5000) f_zero f_zero steady)))).2 in
  md_halted w.2 = true ∧ sf_halt w.1 = true.
Proof. vm_compute. done. Qed.

Lemma enforcer_halts_for_good_witness :
  md_halted (set_halted steady) = true ∧
  let w := run_enforcer [Elsewhere (set_halt false ""); NewDay; Capital (f_of_Z 9000) f_zero f_zero] (es_of (at_ten (set_halted steady))) in
  can_trade w = (Ok (false, "HARD_HALT: System halted"%string), w).
Proof.
  split; [reflexivity|].
  apply (enforcer_halts_for_good [Elsewhere (set_halt false ""); NewDay; Capital (f_of_Z 9000) f_zero f_zero]
           (es_of (at_ten (set_halted steady)))). reflexivity.
Defined.
Lemma enforcer_size_bounds_witness :
  ∃ n w', get_position_size (f_of_Z 100) "TRENDING" (lit 8 2) (es_of (at_ten steady)) = (Ok n, w') ∧ 1 <= n <= 25.
Proof.
  destruct (get_position_size (f_of_Z 100) "TRENDING" (lit 8 2) (es_of (at_ten steady))) as [r w'] eqn:E.
  assert (r = Ok 11) as ->.
  { change (fst (r, w') = Ok 11). rewrite <- E. vm_compute. reflexivity. }
  exists 11, w'. split; [reflexivity|]. exact (proj2 (enforcer_size_bounds _ _ _ _ _ _ E)).
Defined.
Lemma enforcer_permission_witness : md_trades busy < 99.
Proof.
  destruct (check_mandate_trade_allowed false None (Some enforcer_port_of) "TRENDING" 70 (f_of_Z 20) (at_ten busy)) as [r w'] eqn:E.
  assert (r = Ok (true, allowed_text)) as ->.
  { change (fst (r, w') = Ok (true, allowed_text)). rewrite <- E. vm_compute. reflexivity. }
  exact (proj2 (proj2 (proj2 (proj2 (proj2 (proj2 (proj2 (enforcer_permission "TRENDING" 70 (f_of_Z 20) (at_ten busy) _ _ eq_refl E)))))))).
Defined.
