(* ===== verification/MarketWarmup.v ===== *)
(** * The warm-up at market open

    [MarketWarmup] of [core/market_warmup.py]: until a quarter of an hour
    after the open, entries are smaller, need a better score, and are
    counted.  Instants are microseconds of IST, so a day is the instant
    divided by the length of a day. *)
From S2P Require Import Prelude PyStr Float64 PyDict PyVal CapitalManager RiskService MandateService.

(** ** Data *)

Record warmup_config := WarmupConfig {
  wc_enabled : bool; wc_minutes : Z; wc_size : float64; wc_boost : Z; wc_max_trades : Z }.
Definition default_warmup : warmup_config := WarmupConfig true 15 (lit 5 1) 10 2.

Record warmup := Warmup {
  wu_clk : clock; wu_cfg : warmup_config; wu_entries : pydict float64; wu_day : option Z; wu_end : option Z }.
#[global] Instance warmup_clock : HasClock warmup :=
  {| clock_of := wu_clk; set_clock := λ k w, Warmup k (wu_cfg w) (wu_entries w) (wu_day w) (wu_end w) |}.
Definition set_marks (d : pydict float64) (w : warmup) : warmup := Warmup (wu_clk w) (wu_cfg w) d (wu_day w) (wu_end w).
Definition set_session (day fin : option Z) (w : warmup) : warmup := Warmup (wu_clk w) (wu_cfg w) (wu_entries w) day fin.
Definition UP (A : Type) : Type := ST warmup A.

(** ** Operations *)

Definition day_of (t : Z) : Z := t / usec_per_day.
Definition minutes (n : Z) : Z := n * 60 * usec_per_sec.
(** 09:15 of the day of an instant. *)
Definition open_of (t : Z) : Z := day_of t * usec_per_day + minutes (9 * 60 + 15).
(** [_market_open_today] *)
Definition market_open_today : UP (option Z) := now ← now_ist; mret (if 5 <=? weekday_of now then None else Some (open_of now)).
(** [_maybe_reset_day]; the open is computed from a second reading. *)
Definition maybe_reset_day : UP unit :=
  now ← now_ist;
  w ← st_get;
  if bool_decide (wu_day w = Some (day_of now)) then mret ()
  else
    st_modify (λ w, set_session (Some (day_of now)) (wu_end w) (set_marks ∅ w)) ;;
    o ← market_open_today;
    st_modify (λ w, set_session (wu_day w) ((λ t, t + minutes (wc_minutes (wu_cfg w))) <$> o) w).
(** [is_warmup_active] *)
Definition is_warmup_active : UP bool :=
  w ← st_get;
  if negb (wc_enabled (wu_cfg w)) then mret false
  else
    maybe_reset_day ;;
    w ← st_get;
    match wu_end w with
    | None => mret false
    | Some e => now ← now_ist; mret (now <? e)
    end.
(** The entries of the last hour; the clock is read for each. *)
Fixpoint recent_entries (ts : list float64) : UP Z :=
  match ts with
  | [] => mret 0
  | t :: ts' => now ← time_time; n ← recent_entries ts'; mret (if flt (now - t)%f64 (f_of_Z 3600) then 1 + n else n)
  end.
(** [can_enter] *)
Definition can_enter (name : string) : UP bool :=
  w ← st_get;
  if negb (wc_enabled (wu_cfg w)) then mret true
  else
    active ← is_warmup_active;
    if negb active then mret true
    else
      w ← st_get;
      n ← recent_entries (dvalues (wu_entries w));
      mret (negb (wc_max_trades (wu_cfg w) <=? n)).
(** [try_mark_entry] *)
Definition try_mark_entry (name : string) : UP bool :=
  ok ← can_enter name;
  if negb ok then mret false
  else
    t ← time_time;
    st_modify (λ w, set_marks (<[name := t]> (wu_entries w)) w) ;;
    mret true.
(** What a throttled quantity is, and what it is otherwise. *)
Definition throttled {A} (on off : A) : UP A :=
  w ← st_get;
  if negb (wc_enabled (wu_cfg w)) then mret off
  else active ← is_warmup_active; mret (if active : bool then on else off).
(** [position_size_mult], [score_threshold_adjustment] *)
Definition position_size_mult : UP float64 := w ← st_get; throttled (wc_size (wu_cfg w)) f_one.
Definition score_threshold_adjustment : UP Z := w ← st_get; throttled (wc_boost (wu_cfg w)) 0.
(** [adjusted_position_size] *)
Definition adjusted_position_size (base : Z) : UP Z :=
  w ← st_get;
  on ← throttled true false;
  if negb on then mret base
  else x ← st_lift (float_of_Z base); n ← st_lift (round_float (x * wc_size (wu_cfg w))%f64); mret (Z.max 1 n).
(** [reset_day] *)
Definition reset_day : UP unit := st_modify (λ w, set_session None None (set_marks ∅ w)).

(** [status]: activity, the entries and the time that remains. *)
Definition remaining_text (left : Z) : string :=
  cat [str_of_Z (Z.max 0 (left / usec_per_sec / 60)); "m "; str_of_Z (Z.max 0 ((left / usec_per_sec) `mod` 60)); "s"].
Definition status : UP (bool * Z * string) :=
  active ← is_warmup_active;
  w ← st_get;
  text ← (match wu_end w with
          | Some e => if active : bool then now ← now_ist; mret (remaining_text (e - now)) else mret ""%string
          | None => mret ""%string
          end);
  mret (active, dlen (wu_entries w), text).

(** ** Activity is exact *)

(** The readings of a call fall on one day. *)
Definition one_day (k : clock) : Prop := ∃ d, ∀ n, day_of (clk_now (clock_after n k)) = d.
(** The recorded end belongs to the recorded day. *)
Definition end_of (c : warmup_config) (d : Z) : option Z :=
  if 5 <=? (d + 3) `mod` 7 then None else Some (d * usec_per_day + minutes (9 * 60 + 15) + minutes (wc_minutes c)).
Definition session_ok (w : warmup) : Prop := ∀ d, wu_day w = Some d → wu_end w = end_of (wu_cfg w) d.

Lemma day_of_weekday t : weekday_of t = (day_of t + 3) `mod` 7.
Proof. done. Qed.
Lemma reset_day_eq w d :
  session_ok w → (∀ n, day_of (clk_now (clock_after n (clock_of w))) = d) →
  ∃ k m, maybe_reset_day w = (Ok (), Warmup k (wu_cfg w) m (Some d) (end_of (wu_cfg w) d)) ∧
    k = clock_after (if bool_decide (wu_day w = Some d) then 1 else 2) (clock_of w) ∧
    (wu_day w = Some d → m = wu_entries w) ∧ (wu_day w ≠ Some d → m = ∅).
Proof.
  intros Hok Hd. pose proof (Hd 0%nat) as H0. pose proof (Hd 1%nat) as H1.
  unfold maybe_reset_day. rewrite (st_bind_ok _ _ _ _ _ (now_ist_total w)). unfold mbind at 1, st_bind at 1, st_get.
  change (clk_read (clock_of w)).1 with (clk_now (clock_of w)). change (day_of (clk_now (clock_of w))) with (day_of (clk_now (clock_after 0 (clock_of w)))).
  rewrite H0. change (wu_day (set_clock _ w)) with (wu_day w). case_bool_decide as E.
  - eexists _, (wu_entries w). split_and!; [|reflexivity|done|done].
    unfold mret, st_ret. f_equal. rewrite <- (Hok _ E), <- E. by destruct w.
  - eexists _, ∅. split_and!; [|reflexivity|done|done].
    unfold market_open_today, mbind, st_bind, st_modify. rewrite now_ist_total. cbn -[clk_read day_of weekday_of open_of minutes].
    assert (∀ u, day_of u = d → ((λ t, t + minutes (wc_minutes (wu_cfg w))) <$> (if 5 <=? weekday_of u then None else Some (open_of u))) = end_of (wu_cfg w) d) as Hu.
    { intros u Hu. unfold end_of, open_of. rewrite day_of_weekday, Hu. by destruct (5 <=? _). }
    unfold set_session, set_marks. cbn. f_equal. f_equal. apply Hu. exact H1.
Qed.
(** Activity is exact.  When the readings of a call fall on one day, the
    call answers, and says that the warm-up is active exactly when it is
    enabled, the day is no Saturday or Sunday, and the last reading is before
    the end: 09:15 and the configured minutes.  The night before the open
    counts as warm-up.  The configuration stays, and what is recorded of the
    day stays right. *)
Theorem warmup_active_exact (w : warmup) (d : Z) :
  session_ok w → (∀ n, day_of (clk_now (clock_after n (clock_of w))) = d) →
  ∃ b w' n, is_warmup_active w = (Ok b, w') ∧ session_ok w' ∧ wu_cfg w' = wu_cfg w ∧
    (b = true ↔ wc_enabled (wu_cfg w) = true ∧ (d + 3) `mod` 7 < 5 ∧
       clk_now (clock_after n (clock_of w)) < d * usec_per_day + minutes (9 * 60 + 15 + wc_minutes (wu_cfg w))).
Proof.
  intros Hok Hd. unfold is_warmup_active. rewrite (st_bind_ok st_get _ w w w) by done.
  destruct (wc_enabled (wu_cfg w)); cbn [negb];
    [|exists false, w, 0%nat; split_and!; [done..|]; split; [done|by intros [[=] _]]].
  destruct (reset_day_eq w d Hok Hd) as (k & m & E & Hk & _). rewrite (st_bind_ok _ _ _ _ _ E). clear E.
  set (w1 := Warmup k _ _ _ _). assert (session_ok w1) as Hok1 by (intros d' [= <-]; done).
  rewrite (st_bind_ok st_get _ w1 w1 w1) by done. change (wu_end w1) with (end_of (wu_cfg w) d). unfold end_of at 1.
  destruct (Z.leb_spec 5 ((d + 3) `mod` 7)) as [|Hw].
  - exists false, w1, 0%nat. split_and!; [done..|]. split; [done|]. lia.
  - rewrite (st_bind_ok _ _ _ _ _ (now_ist_total w1)). eexists _, _, (if bool_decide (wu_day w = Some d) then 1 else 2)%nat. split; [done|]. split_and!; [exact Hok1|done|].
    change (clk_read (clock_of w1)).1 with (clk_now k). rewrite Hk, Z.ltb_lt. unfold minutes, usec_per_sec. split; [intros|intros (_ & _ & ?)]; [split_and!; [done..|]|]; lia.
Qed.

(** ** Entries are counted *)

(** From a clock on: one day, before the end of its warm-up, less than an hour. *)
Record morning (c : warmup_config) (d : Z) (k : clock) : Prop := {
  mo_day : ∀ n, day_of (clk_now (clock_after n k)) = d;
  mo_early : ∀ n, clk_now (clock_after n k) < d * usec_per_day + minutes (9 * 60 + 15 + wc_minutes c);
  mo_hour : ∀ i j, (i ≤ j)%nat → flt (epoch_seconds (clk_now (clock_after j k)) - epoch_seconds (clk_now (clock_after i k)))%f64 (f_of_Z 3600) = true }.

Definition at_reading (k : clock) (n : nat) (t : float64) : Prop := ∃ i, (i < n)%nat ∧ t = epoch_seconds (clk_now (clock_after i k)).
(** The state of a morning after [n] readings of its clock. *)
Record marked (c : warmup_config) (d : Z) (k : clock) (n : nat) (w : warmup) : Prop := {
  mk_clock : clock_of w = clock_after n k;
  mk_cfg : wu_cfg w = c;
  mk_session : session_ok w;
  mk_entries : wu_day w = Some d → dlen (wu_entries w) ≤ Z.max 0 (wc_max_trades c) ∧ Forall (at_reading k n) (dvalues (wu_entries w)) }.

Lemma after_after n m k : clock_after n (clock_after m k) = clock_after (n + m) k.
Proof. unfold clock_after. by rewrite Nat.iter_add. Qed.
Lemma recent_all c d k ts : ∀ n w, morning c d k → clock_of w = clock_after n k → Forall (at_reading k n) ts →
  recent_entries ts w = (Ok (Z.of_nat (length ts)), set_clock (clock_after (length ts + n) k) w).
Proof.
  induction ts as [|t ts IH]; intros n w Hm Hk Hts; cbn [recent_entries].
  - unfold mret, st_ret. f_equal. cbn [length]. rewrite Nat.add_0_l, <- Hk. by destruct w.
  - apply Forall_cons in Hts as [(i & Hi & ->) Hts]. rewrite (st_bind_ok _ _ _ _ _ (time_time_total w)).
    set (w1 := set_clock _ w). assert (clock_of w1 = clock_after (S n) k) as Hk1.
    { change (clock_of w1) with (clock_after 1 (clock_of w)). by rewrite Hk, after_after. }
    rewrite (st_bind_ok _ _ _ _ _ (IH (S n) w1 Hm Hk1 ltac:(eapply Forall_impl; [exact Hts|]; intros t (j & ? & ->); exists j; split; [lia|done]))).
    rewrite Hk. change (clk_read (clock_after n k)).1 with (clk_now (clock_after n k)). rewrite (mo_hour _ _ _ Hm i n) by lia.
    unfold mret, st_ret. f_equal; [f_equal; cbn [length]; lia|]. cbn [length]. by replace (S (length ts) + n)%nat with (length ts + S n)%nat by lia.
Qed.

Lemma insert_values (name : string) (t : float64) (d : pydict float64) (P : float64 → Prop) :
  P t → Forall P (dvalues d) → Forall P (dvalues (<[name := t]> d)).
Proof.
  intros Ht. unfold dvalues, insert, pydict_insert. cbn [items]. induction (items d) as [|[k v] l IH]; intros Hl; cbn in *.
  - by constructor.
  - apply Forall_cons in Hl as [Hv Hl]. destruct (String.eqb name k); constructor; auto.
Qed.
Lemma insert_length (name : string) (t : float64) (d : pydict float64) : dlen (<[name := t]> d) ≤ dlen d + 1.
Proof.
  destruct (d !! name) as [v|] eqn:E; [rewrite dlen_insert_old by (by eexists)|rewrite dlen_insert_new by done]; lia.
Qed.

Lemma active_morning c d k n w :
  wc_enabled c = true → (d + 3) `mod` 7 < 5 → morning c d k → marked c d k n w →
  ∃ n' m, is_warmup_active w = (Ok true, Warmup (clock_after n' k) c m (Some d) (end_of c d)) ∧ (n ≤ n')%nat ∧
    dlen m ≤ Z.max 0 (wc_max_trades c) ∧ Forall (at_reading k n') (dvalues m).
Proof.
  intros He Hw Hm [Hk Hc Hs Hent]. unfold is_warmup_active. rewrite (st_bind_ok st_get _ w w w), Hc, He by done. cbn [negb].
  assert (∀ i, day_of (clk_now (clock_after i (clock_of w))) = d) as Hd by (intros i; rewrite Hk, after_after; apply (mo_day _ _ _ Hm)).
  destruct (reset_day_eq w d Hs Hd) as (k' & m & E & Hk' & Hsame & Hnew). rewrite (st_bind_ok _ _ _ _ _ E). clear E.
  set (w1 := Warmup k' _ _ _ _). rewrite (st_bind_ok st_get _ w1 w1 w1) by done. change (wu_end w1) with (end_of (wu_cfg w) d).
  rewrite Hk, after_after in Hk'. unfold end_of at 1. rewrite (proj2 (Z.leb_gt _ _) Hw).
  rewrite (st_bind_ok _ _ _ _ _ (now_ist_total w1)). change (clk_read (clock_of w1)) with (clk_read k').
  set (j := ((if bool_decide (wu_day w = Some d) then 1 else 2) + n)%nat) in *.
  exists (S j), m. change (clk_read k').1 with (clk_now k'). pose proof (mo_early _ _ _ Hm j) as Hearly. rewrite <- Hk' in Hearly.
  rewrite (proj2 (Z.ltb_lt _ _)).
  2:{ rewrite Hc. unfold minutes, usec_per_sec in *. lia. }
  split_and!.
  - unfold mret, st_ret. f_equal. unfold w1. rewrite Hc. cbn. f_equal. rewrite Hk'. change (clk_read (clock_after j k)).2 with (clock_after 1 (clock_after j k)). by rewrite after_after.
  - unfold j. case_bool_decide; lia.
  - destruct (decide (wu_day w = Some d)) as [Ed|Ed]; [rewrite (Hsame Ed); by apply Hent|]. rewrite (Hnew Ed). change (dlen (∅ : pydict float64)) with 0. lia.
  - destruct (decide (wu_day w = Some d)) as [Ed|Ed]; [rewrite (Hsame Ed)|rewrite (Hnew Ed); constructor].
    eapply Forall_impl; [by apply Hent|]. intros t (i & ? & ->). exists i. split; [unfold j; case_bool_decide; lia|done].
Qed.
Lemma mark_step c d k n name w :
  wc_enabled c = true → (d + 3) `mod` 7 < 5 → morning c d k → marked c d k n w →
  ∃ b w' m, try_mark_entry name w = (Ok b, w') ∧ wu_day w' = Some d ∧ marked c d k m w'.
Proof.
  intros He Hw Hm Hmk. pose proof Hmk as [_ Hc _ _].
  destruct (active_morning c d k n w He Hw Hm Hmk) as (n1 & m & E & Hn & Hlen & Hts).
  set (w1 := Warmup _ _ _ _ _) in E. assert (session_ok w1) as Hok by (by intros d' [= <-]).
  pose proof (recent_all c d k (dvalues m) n1 w1 Hm eq_refl Hts) as Er. set (w2 := set_clock _ w1) in Er.
  set (n2 := (length (dvalues m) + n1)%nat) in *.
  assert (can_enter name w = (Ok (negb (wc_max_trades c <=? Z.of_nat (length (dvalues m)))), w2)) as Ec.
  { unfold can_enter. rewrite (st_bind_ok st_get _ w w w), Hc, He by done. cbn [negb]. rewrite (st_bind_ok _ _ _ _ _ E). cbn [negb].
    rewrite (st_bind_ok st_get _ w1 w1 w1) by done. change (wu_entries w1) with m. by rewrite (st_bind_ok _ _ _ _ _ Er). }
  assert (Forall (at_reading k n2) (dvalues m)) as Hts2.
  { eapply Forall_impl; [exact Hts|]. intros t (i & ? & ->). exists i. split; [unfold n2; lia|done]. }
  unfold try_mark_entry. rewrite (st_bind_ok _ _ _ _ _ Ec). destruct (Z.leb_spec (wc_max_trades c) (Z.of_nat (length (dvalues m)))) as [|Hlt]; cbn [negb].
  - exists false, w2, n2. split_and!; [done..|]. constructor; [done|done|exact Hok|done].
  - rewrite (st_bind_ok _ _ _ _ _ (time_time_total w2)). eexists true, _, (S n2). split_and!; [reflexivity|done|].
    constructor; [|done|exact Hok|].
    + change (clock_after 1 (clock_of w2) = clock_after (S n2) k). change (clock_of w2) with (clock_after n2 k). by rewrite after_after.
    + intros _. unfold dvalues in Hlt. rewrite length_fmap in Hlt. split.
      * etransitivity; [apply insert_length|]. change (wu_entries _) with m. change (dlen m) with (Z.of_nat (length (items m))). lia.
      * apply insert_values; [|eapply Forall_impl; [exact Hts2|]; intros t (i & ? & ->); exists i; split; [lia|done]].
        exists n2. split; [lia|]. done.
Qed.

(** The warm-up counts names.  On a morning (a working day, before the
    end of the warm-up, less than an hour long), whatever entries are tried
    one after the other, no call fails, and there are never more names marked
    than the configured number of trades. *)
Theorem warmup_bounds_names (c : warmup_config) (d : Z) (k : clock) (names : list string) :
  wc_enabled c = true → (d + 3) `mod` 7 < 5 → morning c d k →
  let w := Warmup k c ∅ None None in
  (st_iter (λ n, try_mark_entry n ;; mret ()) names w).1 = Ok () ∧
  dlen (wu_entries (st_iter (λ n, try_mark_entry n ;; mret ()) names w).2) ≤ Z.max 0 (wc_max_trades c).
Proof.
  intros He Hw Hm w. assert (marked c d k 0 w) as H0 by (by constructor).
  assert (dlen (wu_entries w) ≤ Z.max 0 (wc_max_trades c)) as Hl by (change (dlen (wu_entries w)) with 0; lia).
  revert H0 Hl. generalize w. generalize 0%nat. clear w. induction names as [|n names IH]; intros i w Hmk Hl; [done|].
  destruct (mark_step c d k i n w He Hw Hm Hmk) as (b & w' & m & E & Hd & Hmk'). cbn [st_iter].
  assert ((try_mark_entry n ;; mret ()) w = (Ok (), w')) as E' by (by rewrite (st_bind_ok _ _ _ _ _ E)).
  rewrite (st_bind_ok _ _ _ _ _ E'). apply (IH m w' Hmk'). by apply (mk_entries _ _ _ _ _ Hmk').
Qed.

(** ** A concrete morning *)

(** Thursday 2026-01-01, 09:16. *)
Definition new_year : Z := 20454.
Definition at_916 : clock := Clock (new_year * usec_per_day + minutes 556) [minutes 1; minutes 1].
Definition opening : warmup := Warmup at_916 default_warmup ∅ None None.
Definition marks (names : list string) : list (res bool) :=
  (foldl (λ a n, let '(r, w) := try_mark_entry n a.2 in (a.1 ++ [r], w)) ([], opening) names).1.
Example third_name_waits : marks ["NIFTY"; "BANKNIFTY"; "FINNIFTY"]%string = [Ok true; Ok true; Ok false].
Proof. vm_compute. reflexivity. Qed.
(** A name that enters again is not counted again. *)
Example same_name_again : marks ["NIFTY"; "NIFTY"; "NIFTY"; "NIFTY"]%string = [Ok true; Ok true; Ok true; Ok true].
Proof. vm_compute. reflexivity. Qed.
(** At five in the morning the warm-up is active. *)
Example active_at_night :
  (is_warmup_active (Warmup (Clock (new_year * usec_per_day + minutes 300) []) default_warmup ∅ None None)).1 = Ok true.
Proof. vm_compute. reflexivity. Qed.

Lemma morning_opening : morning default_warmup new_year at_916.
Proof.
  assert (∀ n, clk_now (clock_after n at_916) = clk_now (clock_after (Nat.min n 2) at_916)) as H.
  { intros [|[|n]]; [done..|]. rewrite Nat.min_r by lia. induction n as [|n IH]; [done|].
    rewrite <- IH. change (clock_after (S (S (S n))) at_916) with (clk_read (clock_after (S (S n)) at_916)).2.
    assert (∀ m, clk_steps (clock_after (S (S m)) at_916) = []) as Hs.
    { intros m. induction m as [|m IHm]; [done|]. change (clock_after (S (S (S m))) at_916) with (clk_read (clock_after (S (S m)) at_916)).2.
      unfold clk_read. by rewrite IHm. }
    unfold clk_read. by rewrite Hs. }
  assert (∀ n, Nat.min n 2 = 0 ∨ Nat.min n 2 = 1 ∨ Nat.min n 2 = 2)%nat as Hc by lia.
  constructor.
  - intros n. rewrite (H n). by destruct (Hc n) as [-> | [-> | ->]]; vm_compute.
  - intros n. rewrite (H n). by destruct (Hc n) as [-> | [-> | ->]]; vm_compute.
  - intros i j _. rewrite (H i), (H j). by destruct (Hc i) as [-> | [-> | ->]], (Hc j) as [-> | [-> | ->]]; vm_compute.
Qed.
Lemma warmup_active_exact_witness :
  session_ok opening ∧ ∃ b w' n, is_warmup_active opening = (Ok b, w') ∧ session_ok w' ∧ wu_cfg w' = wu_cfg opening ∧
    (b = true ↔ wc_enabled default_warmup = true ∧ (new_year + 3) `mod` 7 < 5 ∧
       clk_now (clock_after n at_916) < new_year * usec_per_day + minutes (9 * 60 + 15 + wc_minutes default_warmup)).
Proof. split; [by intros d [=]|]. apply (warmup_active_exact opening new_year); [by intros d [=]|]. apply (mo_day _ _ _ morning_opening). Defined.
Lemma warmup_bounds_names_witness :
  (new_year + 3) `mod` 7 < 5 ∧
  (st_iter (λ n, try_mark_entry n ;; mret ()) ["NIFTY"; "TCS"; "INFY"]%string opening).1 = Ok ().
Proof.
  split; [reflexivity|].
  exact (proj1 (warmup_bounds_names default_warmup new_year at_916 ["NIFTY"; "TCS"; "INFY"]%string eq_refl eq_refl morning_opening)).
Defined.
