(* ===== verification/MarketSession.v ===== *)
(** * The trading session of the exchange

    [core/datetime_ist.py]: the session hours every gate reads, their
    configuration, and the windows computed from them.  Instants are
    microseconds of IST, times of day microseconds since midnight.  The
    auction windows are [PositionEntry.auction_at]. *)
From S2P Require Import Prelude PyStr Float64 PyDict PyVal CapitalManager RiskService MandateService MarketWarmup.

(** ** Data *)

Definition hm : Type := Z * Z.
(** The module's variables. *)
Record session := Session {
  ss_open : hm; ss_close : hm; ss_continuous : hm; ss_closed : hm; ss_block : hm; ss_post_open : Z; ss_early : hm;
  ss_saturday : bool }.
Definition standard_session : session := Session (9, 15) (15, 20) (9, 20) (15, 30) (15, 0) 10 (10, 15) false.

(** [datetime.time(h, m)] *)
Definition valid_hm (t : hm) : bool := (0 <=? t.1) && (t.1 <? 24) && (0 <=? t.2) && (t.2 <? 60).
Definition at_hm (t : hm) : Z := minutes (t.1 * 60 + t.2).
(** [_hm_to_time] *)
Definition hm_to_time (t : hm) : res Z :=
  if negb ((0 <=? t.1) && (t.1 <? 24)) then Raise (PyExn ValueError "hour must be in 0..23")
  else if negb ((0 <=? t.2) && (t.2 <? 60)) then Raise (PyExn ValueError "minute must be in 0..59")
  else Ok (at_hm t).

(** [configure_nse_cash_session]; what is not given stays. *)
Definition configure (open close : hm) (continuous closed block : option hm) (post : option Z) (early : option hm) (saturday : option bool)
    (s : session) : session :=
  Session open close (default (ss_continuous s) continuous) (default (ss_closed s) closed) (default (ss_block s) block)
    (default (ss_post_open s) (Z.max 0 <$> post)) (default (ss_early s) early) (default (ss_saturday s) saturday).

(** [(int(cfg.get(h, ..)), int(cfg.get(m, ..)))] *)
Definition read_hm (h m : string) (d : hm) (cfg : pyrec) : res hm :=
  rbind (py_int (rget h (VInt d.1) cfg)) (λ x, rbind (py_int (rget m (VInt d.2) cfg)) (λ y, Ok (x, y))).
Definition read_session (cfg : pyrec) (s : session) : res session :=
  rbind (read_hm "NSE_CASH_SESSION_START_HOUR" "NSE_CASH_SESSION_START_MINUTE" (9, 15) cfg) (λ open,
  rbind (read_hm "NSE_CASH_SESSION_END_HOUR" "NSE_CASH_SESSION_END_MINUTE" (15, 20) cfg) (λ close,
  rbind (read_hm "NSE_CONTINUOUS_TRADE_START_HOUR" "NSE_CONTINUOUS_TRADE_START_MINUTE" (9, 20) cfg) (λ cont,
  rbind (read_hm "NSE_MARKET_STATUS_CLOSED_HOUR" "NSE_MARKET_STATUS_CLOSED_MINUTE" (15, 30) cfg) (λ closed,
  rbind (read_hm "NSE_BLOCK_NEW_ENTRIES_FROM_HOUR" "NSE_BLOCK_NEW_ENTRIES_FROM_MINUTE" (15, 0) cfg) (λ block,
  rbind (py_int (rget "NSE_POST_OPEN_NO_TRADE_MINUTES" (VInt 10) cfg)) (λ post,
  rbind (read_hm "NSE_EARLY_SESSION_END_HOUR" "NSE_EARLY_SESSION_END_MINUTE" (10, 15) cfg) (λ early,
  Ok (configure open close (Some cont) (Some closed) (Some block) (Some post) (Some early)
        (Some (truthy (rget "NSE_SATURDAY_ALLOWED" (VBool false) cfg))) s)))))))).
(** [apply_nse_session_from_cfg]: on an error the standard hours, with the
    Saturdays as they were. *)
Definition standard_hours (s : session) : session :=
  configure (9, 15) (15, 20) (Some (9, 20)) (Some (15, 30)) (Some (15, 0)) (Some 10) (Some (10, 15)) None s.
Definition apply_nse_session_from_cfg (cfg : pyrec) : ST session unit :=
  st_try (s ← st_get; s' ← st_lift (read_session cfg s); st_put s') [ValueError; TypeError; KeyError; IndexError]
    (λ _, st_modify standard_hours).
(** [set_saturday_allowed] *)
Definition set_saturday_allowed (b : bool) : ST session unit :=
  st_modify (λ s, Session (ss_open s) (ss_close s) (ss_continuous s) (ss_closed s) (ss_block s) (ss_post_open s) (ss_early s) b).

(** [nse_cash_open_time] and its siblings *)
Definition nse_cash_open_time (s : session) : res Z := hm_to_time (ss_open s).
Definition nse_cash_close_time (s : session) : res Z := hm_to_time (ss_close s).
Definition nse_continuous_open_time (s : session) : res Z := hm_to_time (ss_continuous s).
Definition nse_schedule_closed_time (s : session) : res Z := hm_to_time (ss_closed s).
Definition nse_block_new_entries_from_time (s : session) : res Z := hm_to_time (ss_block s).
Definition nse_early_session_end_time (s : session) : res Z := hm_to_time (ss_early s).

(** ** Windows *)

Definition time_of (t : Z) : Z := t `mod` usec_per_day.
Definition between (lo t hi : Z) : bool := (lo <=? t) && (t <=? hi).
(** [is_nse_cash_session] *)
Definition is_nse_cash_session (now : Z) (s : session) : res bool :=
  if (5 <=? weekday_of now) && negb ((weekday_of now =? 5) && ss_saturday s) then Ok false
  else rbind (nse_cash_open_time s) (λ lo, rbind (nse_cash_close_time s) (λ hi, Ok (between lo (time_of now) hi))).
(** [is_nse_continuous_trading_window] *)
Definition is_nse_continuous_trading_window (t : Z) (s : session) : res bool :=
  rbind (nse_continuous_open_time s) (λ lo, rbind (nse_cash_close_time s) (λ hi, Ok (between lo t hi))).

(** Days from 2000-01-01 to the ends of the calendar. *)
Definition DAYS_BEFORE : Z := 730119.
Definition DAYS_AFTER : Z := 2921940.
(** A time of day on 2000-01-01 moved by minutes, and its time of day. *)
Definition shifted (t n : Z) : res Z :=
  let x := t + minutes n in
  if (x <? - DAYS_BEFORE * usec_per_day) || (DAYS_AFTER * usec_per_day <=? x) then Raise (PyExn OverflowError "date value out of range")
  else Ok (x `mod` usec_per_day).
(** [is_nse_post_open_no_trade_zone] *)
Definition is_nse_post_open_no_trade_zone (t : Z) (s : session) : res bool :=
  rbind (nse_cash_open_time s) (λ lo, rbind (shifted lo (ss_post_open s)) (λ hi, Ok (between lo t hi))).
(** [mins_until_nse_cash_close] *)
Definition mins_until_nse_cash_close (now : Z) (s : session) : res float64 :=
  rbind (nse_cash_close_time s) (λ hi,
  Ok (py_max f_zero (total_seconds (now - time_of now + hi - now) / f_of_Z 60)%f64)).
(** [nse_close_safety_start_time] *)
Definition nse_close_safety_start_time (safety : Z) (s : session) : res Z :=
  rbind (nse_cash_close_time s) (λ hi, shifted hi (- Z.max 0 safety)).

(** ** What they say *)

Definition session_wf (s : session) : Prop :=
  valid_hm (ss_open s) = true ∧ valid_hm (ss_close s) = true ∧ valid_hm (ss_continuous s) = true ∧ valid_hm (ss_closed s) = true ∧
  valid_hm (ss_block s) = true ∧ valid_hm (ss_early s) = true ∧ 0 ≤ ss_post_open s.
Lemma hm_to_time_ok t : valid_hm t = true → hm_to_time t = Ok (at_hm t).
Proof.
  unfold valid_hm, hm_to_time. rewrite !andb_true_iff. intros [[[-> ->] ->] ->]. done.
Qed.
Lemma at_hm_day t : valid_hm t = true → 0 ≤ at_hm t < usec_per_day.
Proof.
  unfold valid_hm. rewrite !andb_true_iff, !Z.leb_le, !Z.ltb_lt. unfold at_hm, minutes, usec_per_day, usec_per_hour, usec_per_sec. lia.
Qed.
(** The days of trading. *)
Definition trading_day (s : session) (now : Z) : Prop := weekday_of now < 5 ∨ weekday_of now = 5 ∧ ss_saturday s = true.
Lemma cash_session_spec s now : session_wf s →
  ∃ b, is_nse_cash_session now s = Ok b ∧
    (b = true ↔ trading_day s now ∧ at_hm (ss_open s) ≤ time_of now ≤ at_hm (ss_close s)).
Proof.
  intros (H1 & H2 & _). unfold is_nse_cash_session, trading_day. unfold nse_cash_open_time, nse_cash_close_time.
  rewrite !hm_to_time_ok by done. cbn [rbind]. unfold between.
  destruct (Z.leb_spec 5 (weekday_of now)), (Z.eqb_spec (weekday_of now) 5), (ss_saturday s); cbn [andb negb]; eexists; (split; [done|]);
    rewrite ?andb_true_iff, ?Z.leb_le; (split; [intros|intros [[?|[??]] ?]]); try done; try lia; split; (tauto || lia).
Qed.

(** The windows fit together.  In a well-formed session every question
    about the clock has an answer.  Where continuous trading does not start
    before the open, its window on a trading day lies in the cash session;
    the minutes to the close are the time that is left, or zero; and while the
    no-trade zone after the open does not reach past midnight, it is the time
    from the open to that many minutes later. *)
Theorem windows_fit (s : session) (now : Z) :
  session_wf s → at_hm (ss_open s) ≤ at_hm (ss_continuous s) → at_hm (ss_open s) + minutes (ss_post_open s) < usec_per_day →
  ∃ cash cont zone mins,
    is_nse_cash_session now s = Ok cash ∧ is_nse_continuous_trading_window (time_of now) s = Ok cont ∧
    is_nse_post_open_no_trade_zone (time_of now) s = Ok zone ∧ mins_until_nse_cash_close now s = Ok mins ∧
    (cont = true → trading_day s now → cash = true) ∧
    (zone = true ↔ at_hm (ss_open s) ≤ time_of now ≤ at_hm (ss_open s) + minutes (ss_post_open s)) ∧
    mins = py_max f_zero (total_seconds (at_hm (ss_close s) - time_of now) / f_of_Z 60)%f64.
Proof.
  intros Hwf Ho Hp. destruct (cash_session_spec s now Hwf) as (cash & E & Hc). destruct Hwf as (H1 & H2 & H3 & _ & _ & _ & H7).
  pose proof (at_hm_day _ H1). unfold is_nse_continuous_trading_window, is_nse_post_open_no_trade_zone, mins_until_nse_cash_close.
  unfold nse_continuous_open_time, nse_cash_close_time, nse_cash_open_time. rewrite !hm_to_time_ok by done. cbn [rbind]. unfold shifted.
  assert (0 ≤ minutes (ss_post_open s)) by (unfold minutes, usec_per_sec; lia).
  assert (0 < usec_per_day) by done.
  assert (DAYS_AFTER * usec_per_day = 2921940 * usec_per_day) as Ea by done.
  assert (DAYS_BEFORE * usec_per_day = 730119 * usec_per_day) as Eb by done.
  rewrite (proj2 (Z.ltb_ge _ _)), (proj2 (Z.leb_gt _ _)) by lia. cbn [orb rbind]. rewrite Z.mod_small by lia.
  do 4 eexists. split_and!; [exact E|done|done|done| | |].
  - unfold between. rewrite andb_true_iff, !Z.leb_le. intros [] Ht. apply Hc. split; [done|]. lia.
  - unfold between. by rewrite andb_true_iff, !Z.leb_le.
  - do 3 f_equal. lia.
Qed.

(** A configuration is applied whole or not at all.  If every entry can be
    read, the session is the configured one; if one cannot, for a reason that
    is handled, it is the standard hours, with the Saturdays as before. *)
Theorem apply_whole (cfg : pyrec) (s : session) :
  match read_session cfg s with
  | Ok s' => apply_nse_session_from_cfg cfg s = (Ok (), s')
  | Raise e => apply_nse_session_from_cfg cfg s =
      if catches [ValueError; TypeError; KeyError; IndexError] e then (Ok (), standard_hours s) else (Raise e, s)
  end.
Proof.
  unfold apply_nse_session_from_cfg, st_try, mbind, st_bind, st_get, st_lift. destruct (read_session cfg s) as [s'|e]; [done|].
  by destruct (catches _ e).
Qed.
Lemma standard_hours_wf s : session_wf (standard_hours s).
Proof. by vm_compute. Qed.

(** ** Concrete sessions *)

Definition configured (cfg : list (string * pyval)) : session := (apply_nse_session_from_cfg (PyDict cfg) standard_session).2.
(** A Thursday at 10:00. *)
Definition ten_o_clock : Z := new_year * usec_per_day + minutes 600.
Example open_at_ten : is_nse_cash_session ten_o_clock standard_session = Ok true.
Proof. vm_compute. reflexivity. Qed.
(** An hour that does not exist is taken; every question then raises. *)
Example bad_hour_accepted :
  is_nse_cash_session ten_o_clock (configured [("NSE_CASH_SESSION_END_HOUR", VInt 25)]%string) =
  Raise (PyExn ValueError "hour must be in 0..23").
Proof. vm_compute. reflexivity. Qed.
(** An entry that cannot be read keeps the special Saturday of before. *)
Example saturday_survives :
  ss_saturday (apply_nse_session_from_cfg (PyDict [("NSE_SATURDAY_ALLOWED", VBool false); ("NSE_CASH_SESSION_END_HOUR", VNone)]%string)
    (set_saturday_allowed true standard_session).2).2 = true.
Proof. vm_compute. reflexivity. Qed.
(** A safety window longer than the day so far wraps round midnight. *)
Example safety_wraps : nse_close_safety_start_time 1000 standard_session = Ok (minutes (22 * 60 + 40)).
Proof. vm_compute. reflexivity. Qed.
Lemma windows_fit_witness :
  session_wf standard_session ∧ ∃ cash, is_nse_cash_session ten_o_clock standard_session = Ok cash.
Proof.
  split; [by vm_compute|].
  destruct (windows_fit standard_session ten_o_clock) as (cash & _ & _ & _ & E & _); [by vm_compute..|]. by exists cash.
Defined.
