(* ===== verification/Reentry.v ===== *)
(** * Re-entries after a stop loss

    [ReentryTracker] of [core/reentry_evaluator.py]: one tracker per index
    remembers the last stop loss and decides whether a new entry is
    warranted.  The clock is the one of whoever asks. *)
From S2P Require Import Prelude PyStr Float64 PyDict PyVal CapitalManager.

(** ** Data *)

Record tracker := Tracker {
  rt_name : string; rt_sl_at : option float64; rt_direction : option string; rt_score : Z; rt_today : Z; rt_wins : Z; rt_losses : Z }.
Definition new_tracker (name : string) : tracker := Tracker name None None 0 0 0 0.
Record reentry_decision := ReentryDecision {
  rd_allowed : bool; rd_reason : string; rd_cooldown : Z; rd_required : Z; rd_original : Z; rd_current : Z; rd_intact : bool }.
(** The configuration, read at each evaluation. *)
Record reentry_config := ReentryConfig { ec_enabled : bool; ec_cooldown : Z; ec_boost : Z; ec_max : Z; ec_same : bool }.
Definition read_reentry (c : pyrec) : res reentry_config :=
  rbind (py_float (rget "reentry_cooldown_mins" (VInt 15) c)) (λ mins,
  rbind (int_of_float (mins * f_of_Z 60)%f64) (λ cooldown,
  rbind (py_int (rget "reentry_score_boost" (VInt 5) c)) (λ boost,
  rbind (py_int (rget "max_reentries_per_day" (VInt 1) c)) (λ most,
  Ok (ReentryConfig (truthy (rget "reentry_enabled" (VBool false) c)) cooldown boost most
        (truthy (rget "reentry_same_direction_only" (VBool true) c))))))).

(** ** Operations *)

(** [record_outcome], [record_reentry], [reset_daily] *)
Definition record_outcome (profit : bool) (t : tracker) : tracker :=
  Tracker (rt_name t) (rt_sl_at t) (rt_direction t) (rt_score t) (rt_today t) (rt_wins t + Z.b2z profit) (rt_losses t + Z.b2z (negb profit)).
Definition record_reentry (t : tracker) : tracker :=
  Tracker (rt_name t) (rt_sl_at t) (rt_direction t) (rt_score t) (rt_today t + 1) (rt_wins t) (rt_losses t).
Definition reset_daily (t : tracker) : tracker := Tracker (rt_name t) None None 0 0 (rt_wins t) (rt_losses t).
Section clocked.
Context {W : Type} `{!HasClock W}.

(** [record_stop_loss]: the time and the direction are kept when the score
    is no number. *)
Definition record_stop_loss (direction : string) (score : pyval) (t : tracker) : ST W (res unit * tracker) :=
  now ← time_time;
  let t1 := Tracker (rt_name t) (Some now) (Some (str_upper direction)) (rt_score t) (rt_today t) (rt_wins t) (rt_losses t) in
  mret (match py_int score with
        | Ok n => (Ok (), Tracker (rt_name t1) (rt_sl_at t1) (rt_direction t1) n (rt_today t1) (rt_wins t1) (rt_losses t1))
        | Raise e => (Raise e, t1)
        end).
Definition none_or (o : option string) : string := default "None"%string o.
(** [evaluate_reentry] *)
Definition evaluate_reentry (score : Z) (direction : string) (cfg : pyrec) (t : tracker) : ST W reentry_decision :=
  c ← st_lift (read_reentry cfg);
  let dir := str_upper direction in
  let required := rt_score t + ec_boost c in
  let intact := bool_decide (Some dir = rt_direction t) in
  let no reason cooldown := ReentryDecision false reason cooldown required (rt_score t) score intact in
  let first reason := ReentryDecision true reason 0 0 0 score true in
  if negb (ec_enabled c) then mret (first "reentry_enabled=false (pass-through)"%string)
  else
    match rt_sl_at t with
    | None => mret (first "First entry (no prior SL today)"%string)
    | Some at_ =>
        now ← time_time;
        let elapsed := (now - at_)%f64 in
        if f_lt_z elapsed (ec_cooldown c) then
          k ← st_lift (float_of_Z (ec_cooldown c));
          left ← st_lift (int_of_float (k - elapsed)%f64);
          mret (no (cat ["Cooldown: "; str_of_Z left; "s remaining"]) left)
        else if ec_same c && negb intact then
          mret (no (cat ["Direction changed: original="; none_or (rt_direction t); " current="; dir]) 0)
        else if score <? required then
          mret (no (cat ["Score "; str_of_Z score; " < required "; str_of_Z required; " (original "; str_of_Z (rt_score t); " + boost ";
                         str_of_Z (ec_boost c); ")"]) 0)
        else if ec_max c <=? rt_today t then
          mret (no (cat ["Max re-entries reached ("; str_of_Z (rt_today t); "/"; str_of_Z (ec_max c); ")"]) 0)
        else
          e ← st_lift (int_of_float elapsed);
          mret (ReentryDecision true
                  (cat ["Re-entry allowed: score="; str_of_Z score; " dir="; dir; " cooldown_elapsed="; str_of_Z e; "s"])
                  0 required (rt_score t) score true)
    end.
End clocked.
(** [build_reentry_trackers] *)
Definition build_reentry_trackers (names : list string) : pydict tracker := foldl (λ d n, <[n := new_tracker n]> d) ∅ names.

(** ** What an evaluation allows *)

(** A re-entry is earned.  When re-entries are evaluated and there was a
    stop loss today, an entry is allowed only after the cooldown at a reading
    of the clock, in the same direction where that is asked for, with a score
    above the one that was stopped by the boost, and with re-entries left. *)
Theorem reentry_earned {W} `{!HasClock W} (score : Z) (direction : string) (cfg : pyrec) (t : tracker) (w w' : W) (d : reentry_decision) :
  evaluate_reentry score direction cfg t w = (Ok d, w') → rd_allowed d = true →
  ∃ c, read_reentry cfg = Ok c ∧
    (ec_enabled c = false ∨ rt_sl_at t = None ∨
     ∃ at_, rt_sl_at t = Some at_ ∧ f_lt_z (epoch_seconds (clk_now (clock_of w)) - at_)%f64 (ec_cooldown c) = false ∧
       (ec_same c = true → rt_direction t = Some (str_upper direction)) ∧
       rt_score t + ec_boost c ≤ score ∧ rt_today t < ec_max c).
Proof.
  unfold evaluate_reentry. intros E Ha. inv_bind E c w1 E1. apply st_lift_inv in E1 as [E1 ->]. exists c. split; [done|].
  destruct (ec_enabled c); [|by left]. cbn [negb] in E. right. destruct (rt_sl_at t) as [at_|]; [|by left].
  right. exists at_. split; [done|]. rewrite (st_bind_ok _ _ _ _ _ (time_time_total w)) in E.
  change (clk_read (clock_of w)).1 with (clk_now (clock_of w)) in E. destruct (f_lt_z _ _).
  { inv_bind E k w2 E2. inv_bind E l w3 E3. injection E as <- _. done. }
  split; [done|]. destruct (ec_same c && negb _) eqn:Es; [injection E as <- _; done|].
  destruct (Z.ltb_spec score (rt_score t + ec_boost c)); [injection E as <- _; done|].
  destruct (Z.leb_spec (ec_max c) (rt_today t)); [injection E as <- _; done|].
  split_and!; [|done|done]. intros Hs. rewrite Hs in Es. apply negb_false_iff in Es. by apply bool_decide_eq_true_1 in Es as <-.
Qed.

(** ** Re-entries of a day *)

(** A day of one index: an entry that is allowed counts as a re-entry when a
    stop loss has been recorded, as the position service counts it. *)
Record desk_day := DeskDay { dd_clk : clock; dd_tracker : tracker }.
#[local] Instance desk_day_clock : HasClock desk_day := {| clock_of := dd_clk; set_clock := λ k d, DeskDay k (dd_tracker d) |}.
Definition set_tracker (t : tracker) (d : desk_day) : desk_day := DeskDay (dd_clk d) t.
Inductive day_op := Stopped (direction : string) (score : Z) | TryEntry (score : Z) (direction : string) | Closed (profit : bool).
Definition run_day_op (cfg : pyrec) (o : day_op) : ST desk_day unit :=
  d ← st_get;
  match o with
  | Stopped dir n => r ← record_stop_loss dir (VInt n) (dd_tracker d); st_modify (set_tracker r.2)
  | TryEntry n dir =>
      e ← evaluate_reentry n dir cfg (dd_tracker d);
      if rd_allowed e && bool_decide (is_Some (rt_sl_at (dd_tracker d))) then st_modify (set_tracker (record_reentry (dd_tracker d))) else mret ()
  | Closed b => st_modify (set_tracker (record_outcome b (dd_tracker d)))
  end.
Definition run_day (cfg : pyrec) (os : list day_op) (d : desk_day) : desk_day := foldl (λ d o, (run_day_op cfg o d).2) d os.

Lemma evaluate_keeps score dir cfg t (d : desk_day) : dd_tracker (evaluate_reentry score dir cfg t d).2 = dd_tracker d.
Proof.
  assert (st_rel (λ d d', dd_tracker d' = dd_tracker d) (evaluate_reentry score dir cfg t)) as H; [|apply H].
  assert (PreOrder (λ d d' : desk_day, dd_tracker d' = dd_tracker d)) by (split; [done|]; intros a b e; congruence).
  unfold evaluate_reentry. rel_auto ltac:(idtac; match goal with |- st_rel _ time_time => intros ?; by rewrite time_time_total end).
Qed.
Lemma record_keeps dir n t (d : desk_day) :
  ∃ t', record_stop_loss dir (VInt n) t d = (Ok (Ok (), t'), set_clock (clk_read (clock_of d)).2 d) ∧ rt_today t' = rt_today t.
Proof. unfold record_stop_loss. rewrite (st_bind_ok _ _ _ _ _ (time_time_total d)). cbn. by eexists. Qed.

(** C20: Re-entries are bounded.  On a day of an index with re-entries
    enabled, whatever stop losses, outcomes and tries of an entry follow each
    other, no more re-entries are counted than the configured number. *)
Theorem reentries_bounded (cfg : pyrec) (c : reentry_config) (os : list day_op) (d : desk_day) :
  read_reentry cfg = Ok c → ec_enabled c = true → rt_today (dd_tracker d) ≤ Z.max 0 (ec_max c) →
  rt_today (dd_tracker (run_day cfg os d)) ≤ Z.max 0 (ec_max c).
Proof.
  intros Hc He Hd. unfold run_day. apply foldl_inv; [done|]. intros e o _ Hi. unfold run_day_op.
  rewrite (st_bind_ok st_get _ e e e) by done. destruct o as [dir n|n dir|b].
  - destruct (record_keeps dir n (dd_tracker e) e) as (t' & E & Ht). rewrite (st_bind_ok _ _ _ _ _ E). cbn. by rewrite Ht.
  - pose proof (evaluate_keeps n dir cfg (dd_tracker e) e) as Hk. unfold mbind, st_bind.
    destruct (evaluate_reentry n dir cfg (dd_tracker e) e) as [[r|x] e'] eqn:E; cbn [snd] in Hk; [|cbn; by rewrite Hk].
    destruct (rd_allowed r) eqn:Ha; cbn [andb]; [|cbn; by rewrite Hk].
    case_bool_decide as Hs; [|cbn; by rewrite Hk]. cbn. destruct (read_reentry cfg) as [c'|] eqn:Ec; [|done]. injection Hc as ->.
    revert E Ha. unfold evaluate_reentry. rewrite Ec. unfold mbind at 1, st_bind at 1, st_lift at 1. rewrite He. cbn [negb].
    destruct Hs as [at_ ->]. rewrite (st_bind_ok _ _ _ _ _ (time_time_total e)). destruct (f_lt_z _ _).
    { intros E. inv_bind E k w2 E2. inv_bind E l w3 E3. by injection E as <- _. }
    destruct (_ && _); [by intros [= <- _]|]. destruct (_ <? _); [by intros [= <- _]|].
    destruct (Z.leb_spec (ec_max c) (rt_today (dd_tracker e))); [by intros [= <- _]|]. lia.
  - exact Hi.
Qed.

(** ** A concrete day *)

Definition enabled : pyrec := PyDict [("reentry_enabled", VBool true)]%string.
Definition settings : reentry_config := ReentryConfig true 900 5 1 true.
Lemma enabled_settings : read_reentry enabled = Ok settings.
Proof. vm_compute. reflexivity. Qed.
(** Ten minutes between readings. *)
Definition slow : desk_day := DeskDay (Clock 1700000000000000 (replicate 8 600000000)) (new_tracker "NIFTY").
Definition counts (os : list day_op) : list Z := (λ n, rt_today (dd_tracker (run_day enabled (take n os) slow))) <$> seq 0 (S (length os)).
(** After ten minutes the cooldown still runs; then the score must be five
    better, the direction the same, and one re-entry is all. *)
Example one_reentry : counts [TryEntry 70 "CALL"; Stopped "CALL" 70; TryEntry 80 "CALL"; TryEntry 74 "CALL"; TryEntry 80 "PUT";
  TryEntry 75 "call"; TryEntry 90 "CALL"]%string = [0; 0; 0; 0; 0; 0; 1; 1].
Proof. vm_compute. reflexivity. Qed.
Lemma reentries_bounded_witness :
  read_reentry enabled = Ok settings ∧
  rt_today (dd_tracker (run_day enabled [Stopped "CALL" 70; TryEntry 80 "CALL"; TryEntry 90 "CALL"; TryEntry 95 "CALL"]%string slow)) <= 1.
Proof.
  split; [exact enabled_settings|].
  apply (reentries_bounded enabled settings _ slow enabled_settings); [reflexivity|vm_compute; discriminate].
Defined.
Lemma reentry_earned_witness :
  let t := Tracker "NIFTY" (Some (epoch_seconds 1699990000000000)) (Some "CALL"%string) 70 0 0 0 in
  ∃ d w', evaluate_reentry 80 "CALL" enabled t (Clock 1700000000000000 []) = (Ok d, w') ∧ rd_allowed d = true ∧ rt_score t + 5 <= 80.
Proof.
  intros t. destruct (evaluate_reentry 80 "CALL" enabled t (Clock 1700000000000000 [])) as [r w'] eqn:E.
  assert (∃ d, r = Ok d ∧ rd_allowed d = true) as (d & -> & Ha).
  { change (∃ d, fst (r, w') = Ok d ∧ rd_allowed d = true). rewrite <- E. vm_compute. eexists. split; reflexivity. }
  exists d, w'. split; [reflexivity|]. split; [exact Ha|].
  destruct (reentry_earned _ _ _ _ _ _ _ E Ha) as (c & Hc & [H|[H|(at_ & H & _ & _ & Hs & _)]]).
  - rewrite enabled_settings in Hc. injection Hc as <-. discriminate.
  - discriminate.
  - rewrite enabled_settings in Hc. injection Hc as <-. exact Hs.
Defined.
