(* ===== verification/ExpiryDay.v ===== *)
(** * The controls of expiry days

    [core/expiry_day_controller.py]: when positions may be entered on the day
    an index option expires, and when they should be closed; and the object
    the position service asks. *)
From S2P Require Import Prelude PyStr Float64 PyDict PyVal SafetyState CapitalManager MandateService MarketWarmup MarketSession StateManager Positions PositionEntry.

Inductive StrategyType := DIRECTIONAL | SPREAD | STRADDLE | IRON_CONDOR | OPTIONS_SELLING | UNKNOWN_STRATEGY.
Inductive ExpirySession := MORNING | MIDDAY | CAUTION | BLOCKED.
#[global] Instance StrategyType_eq_dec : EqDecision StrategyType.
Proof. solve_decision. Defined.
#[global] Instance ExpirySession_eq_dec : EqDecision ExpirySession.
Proof. solve_decision. Defined.
Definition session_value (s : ExpirySession) : string :=
  match s with MORNING => "MORNING" | MIDDAY => "MIDDAY" | CAUTION => "CAUTION" | BLOCKED => "BLOCKED" end.

Definition INDEX_EXPIRY_MAP : pydict Z :=
  PyDict [("NIFTY", 3); ("BANKNIFTY", 3); ("FINNIFTY", 3); ("MIDCPNIFTY", 3); ("SENSEX", 4); ("BANKEX", 4)]%string.
Definition DEFAULT_EXPIRY_WEEKDAY : Z := 3.

Record expiry_result := ExpiryResult {
  er_allowed : bool; er_session : ExpirySession; er_reason : string; er_risk : string; er_warnings : list string }.

(** Times of day are microseconds since midnight. *)
Definition CAUTION_START : Z := minutes (12 * 60 + 30).
Definition BLOCK_AFTER : Z := minutes (13 * 60).
Definition CLOSE_ALL_BY : Z := minutes (14 * 60 + 30).
Record controller := Controller { ct_strategy : StrategyType; ct_enabled : bool; ct_caution : Z; ct_block : Z }.
Definition new_controller (s : StrategyType) (enabled : bool) (caution block : option Z) : controller :=
  Controller s enabled (default CAUTION_START caution) (default BLOCK_AFTER block).
Definition create_expiry_controller (s : StrategyType) (enabled : bool) : controller := new_controller s enabled None None.
Definition set_strategy_type (s : StrategyType) (c : controller) : controller := Controller s (ct_enabled c) (ct_caution c) (ct_block c).

(** [get_expiry_weekday], [get_index_expiry_weekday] *)
Definition get_index_expiry_weekday (index : string) : Z := default DEFAULT_EXPIRY_WEEKDAY (INDEX_EXPIRY_MAP !! str_upper index).
Definition get_expiry_weekday (index : option string) : Z :=
  match index with Some i => get_index_expiry_weekday i | None => DEFAULT_EXPIRY_WEEKDAY end.
(** [str] of a time of day *)
Definition time_text (t : Z) : string :=
  let s := t / usec_per_sec in
  cat ([two (s / 3600); ":"%string; two ((s / 60) `mod` 60); ":"%string; two (s `mod` 60)] ++
       (if t `mod` usec_per_sec =? 0 then [] else ["."%string; pad_left 6 (str_of_Z (t `mod` usec_per_sec))])).

(** [_get_caution_risk_level] *)
Definition get_caution_risk_level (s : StrategyType) : string :=
  match s with OPTIONS_SELLING | IRON_CONDOR | SPREAD => "HIGH" | STRADDLE => "MEDIUM" | _ => "LOW" end.

(** What [can_enter_position] answers at a moment it looks at. *)
Definition enter_at (c : controller) (now : Z) : expiry_result :=
  let t := time_of now in
  if ct_block c <=? t then
    ExpiryResult false BLOCKED (cat ["Entry blocked after "; time_text (ct_block c); " on expiry day"]) "HIGH"
      ["Expiry day entry window closed"%string]
  else if ct_caution c <=? t then
    let began := cat ["Caution period started at "; time_text (ct_caution c)] in
    match ct_strategy c with
    | OPTIONS_SELLING =>
        ExpiryResult false CAUTION "Options selling blocked in caution period" "HIGH" [began; "High gamma risk for short options"%string]
    | s =>
        ExpiryResult true CAUTION "Entry allowed with caution" (get_caution_risk_level s)
          (began :: (if decide (s = IRON_CONDOR) then ["Iron condor risky in caution - consider closing"%string] else []))
    end
  else ExpiryResult true (if t <? minutes (12 * 60) then MORNING else MIDDAY) "Entry allowed in morning/midday" "LOW" [].

Section clocked.
Context {W : Type} `{!HasClock W}.
Definition moment (now : option Z) : ST W Z := match now with Some t => mret t | None => now_ist end.
Definition is_expiry_day (date : option Z) (index : option string) : ST W bool :=
  t ← moment date; mret (weekday_of t =? get_expiry_weekday index).
Definition can_enter_position (c : controller) (now : option Z) (index : option string) : ST W expiry_result :=
  if negb (ct_enabled c) then mret (ExpiryResult true MORNING "Expiry controls disabled" "LOW" [])
  else
    t ← moment now;
    match index with
    | Some i =>
        day ← is_expiry_day (Some t) (Some i);
        if day : bool then mret (enter_at c t)
        else mret (ExpiryResult true MORNING (cat ["Today is not "; str_upper i; " expiry day"]) "LOW" [])
    | None => mret (enter_at c t)
    end.
Definition should_close_positions (now : option Z) (index : option string) : ST W (bool * string) :=
  t ← moment now;
  day ← match index with Some i => is_expiry_day (Some t) (Some i) | None => mret true end;
  if (day : bool) && (CLOSE_ALL_BY <=? time_of t) then mret (true, cat ["Close all positions before "; time_text CLOSE_ALL_BY])
  else mret (false, EmptyString).
(** [now.replace(hour=14, minute=30) - 30 minutes]: the seconds stay. *)
Definition get_closing_warning_time (now : option Z) : ST W (option Z) :=
  t ← moment now;
  let w := t - time_of t + CLOSE_ALL_BY + time_of t `mod` minutes 1 - minutes 30 in
  mret (if t <? w then Some w else None).
Definition get_expiry_week_type (date : option Z) : ST W string :=
  t ← moment date;
  let d := (civil (t / usec_in_day)).2 in
  mret (if 25 <=? d then "MONTHLY"%string else if 18 <=? d then "WEEKLY_3"%string else if 11 <=? d then "WEEKLY_2"%string
        else "WEEKLY_1"%string).
End clocked.

(** [estimate_premium_decay] *)
Definition estimate_premium_decay (premium : float64) (dte : Z) (hours : float64) : float64 :=
  if (dte <=? 0) || fle hours f_zero then f_zero
  else
    let hourly := (lit 7 2 / lit 65 1)%f64 in
    py_max f_zero (premium * (f_one - (hourly * hours / f_of_Z 24)))%f64.

(** ** What the position service is given *)

(** [PositionService] asks without naming the index. *)
Definition on_clock {X A} (m : ST safety A) : SX X A := st_zoom fst (λ s w, (s, w.2)) m.
Definition expiry_port_of {X} (c : controller) : expiry_port X := {|
  ex_refusal := r ← on_clock (can_enter_position c None None);
                mret (if er_allowed r then None else Some (er_reason r, session_value (er_session r)));
  ex_is_expiry_day n := on_clock (is_expiry_day None (Some n));
  ex_weekday n := mret (get_expiry_weekday (Some n)) |}.

(** ** Theorems *)

Definition open_hours (c : controller) (t : Z) : Prop :=
  time_of t < ct_block c ∧ (time_of t < ct_caution c ∨ ct_strategy c ≠ OPTIONS_SELLING).
Lemma enter_at_allowed c t : er_allowed (enter_at c t) = true ↔ open_hours c t.
Proof.
  unfold enter_at, open_hours. cbv zeta. destruct (Z.leb_spec (ct_block c) (time_of t)); [split; [done|lia]|].
  destruct (Z.leb_spec (ct_caution c) (time_of t)).
  - destruct (decide (ct_strategy c = OPTIONS_SELLING)) as [->|Hs].
    + split; [done|]. intros [_ [?|?]]; [lia|done].
    + assert (er_allowed (enter_at c t) = true) as Ha.
      { unfold enter_at. destruct (Z.leb_spec (ct_block c) (time_of t)); [lia|].
        destruct (Z.leb_spec (ct_caution c) (time_of t)); [|lia]. by destruct (ct_strategy c). }
      revert Ha. unfold enter_at. destruct (Z.leb_spec (ct_block c) (time_of t)); [lia|].
      destruct (Z.leb_spec (ct_caution c) (time_of t)); [|lia]. intros ->. split; [|done]. intros _. split; [done|by right].
  - split; [|done]. intros _. split; [done|by left].
Qed.
(** When an index may be entered.  A controller allows an entry for a
    named index at a moment if and only if it is switched off, or the moment
    is not on the index's expiry weekday, or it is before the hour of the
    block and, when options are sold, before the hour of caution. *)
Theorem expiry_entry_exact {W} `{!HasClock W} (c : controller) (now : Z) (index : string) (w : W) :
  ∃ r, can_enter_position c (Some now) (Some index) w = (Ok r, w) ∧
    (er_allowed r = true ↔
       ct_enabled c = false ∨ weekday_of now ≠ get_index_expiry_weekday index ∨ open_hours c now).
Proof.
  unfold can_enter_position, is_expiry_day, moment, mbind, st_bind, mret, st_ret. destruct (ct_enabled c) eqn:E; cbn [negb].
  2:{ eexists. split; [done|]. split; [by left|done]. }
  cbn [get_expiry_weekday]. destruct (Z.eqb_spec (weekday_of now) (get_index_expiry_weekday index)).
  - eexists. split; [done|]. rewrite enter_at_allowed. split; [by right; right|]. by intros [?|[?|?]].
  - eexists. split; [done|]. split; [by right; left|done].
Qed.

Lemma can_enter_unnamed {W} `{!HasClock W} c (w : W) : ct_enabled c = true →
  can_enter_position c None None w = (Ok (enter_at c (clk_now (clock_of w))), set_clock (clk_read (clock_of w)).2 w).
Proof. intros Hc. unfold can_enter_position. rewrite Hc. cbn [negb moment]. by rewrite (st_bind_ok _ _ _ _ _ (now_ist_total w)). Qed.
Lemma enter_at_blocked c t : ct_block c <= time_of t →
  enter_at c t = ExpiryResult false BLOCKED (cat ["Entry blocked after "; time_text (ct_block c); " on expiry day"]) "HIGH"
    ["Expiry day entry window closed"%string].
Proof. intros H. unfold enter_at. by destruct (Z.leb_spec (ct_block c) (time_of t)); [|lia]. Qed.
(** The position service is refused on every day.  It asks without an
    index, so with the controls on its expiry gate blocks an entry of an
    index option from the hour of the block to midnight, whatever the day of
    the week, and says that it is an expiry day. *)
Theorem gate_blocks_any_day {X} (sv : entry_services X) (c : controller) (name : string) (asset : option string) (d : desk X) :
  en_expiry sv = Some (expiry_port_of c) → ct_enabled c = true → is_index_options asset = true →
  ct_block c <= time_of (clk_now (clock_of (dk_safety d))) →
  let '(r, d') := expiry_gate sv name asset d in
  r = Ok true ∧ dk_log d' !! name =
    Some (cat ["EXPIRY_BLOCK: "; cat ["Entry blocked after "; time_text (ct_block c); " on expiry day"]; " (session="; "BLOCKED"; ")"]).
Proof.
  intros He Hc Ha Ht. unfold expiry_gate. rewrite Ha, He. unfold gate, fail_open, st_try.
  assert (on_service (ex_refusal (expiry_port_of c)) d =
    (Ok (Some (cat ["Entry blocked after "; time_text (ct_block c); " on expiry day"], "BLOCKED"%string)),
     put_world (set_clock (clk_read (clock_of (dk_safety d))).2 (dk_safety d), dk_ext d) d)) as E.
  { unfold on_service, st_zoom. cbn [expiry_port_of ex_refusal]. unfold mbind, st_bind, on_clock, st_zoom. cbn [fst snd].
    rewrite can_enter_unnamed by done. by rewrite enter_at_blocked. }
  rewrite (st_bind_ok _ _ _ _ _ E). split; [done|]. apply dict_lookup_insert_eq.
Qed.

(** ** Concrete days *)

Definition directional : controller := create_expiry_controller DIRECTIONAL true.
Definition selling : controller := create_expiry_controller OPTIONS_SELLING true.
(** The day number of new year's day 2026, a Thursday. *)
Definition on_day (d n : Z) : Z := (new_year + d) * usec_in_day + minutes n.
Definition may_enter (c : controller) (now : Z) (index : string) : option bool :=
  match (can_enter_position c (Some now) (Some index) (Clock 0 [])).1 with Ok r => Some (er_allowed r) | Raise _ => None end.
Example thursday :
  (λ n, may_enter directional (on_day 0 n) "nifty") <$> [11 * 60; 12 * 60 + 45; 13 * 60] = [Some true; Some true; Some false] ∧
  (λ n, may_enter selling (on_day 0 n) "NIFTY") <$> [11 * 60; 12 * 60 + 45; 13 * 60] = [Some true; Some false; Some false] ∧
  (λ d, may_enter directional (on_day d 840) "SENSEX") <$> [0; 1; 2] = [Some true; Some false; Some true].
Proof. vm_compute. repeat split. Qed.
(** A desk whose clock reads two in the afternoon of the Monday after. *)
Definition afternoon : clock := Clock (on_day 4 840) [].
Definition monday_desk : desk unit := Desk ∅ ∅ ∅ ∅ ∅ (new_safety afternoon afternoon) () [].
Definition with_expiry (c : controller) (sv : entry_services unit) : entry_services unit := {|
  en_exit := en_exit sv; en_kill_file := en_kill_file sv; en_audit := en_audit sv; en_news := en_news sv; en_warmup := en_warmup sv;
  en_expiry := Some (expiry_port_of c); en_time_of_day := en_time_of_day sv; en_token := en_token sv; en_mandate := en_mandate sv;
  en_size_mult := en_size_mult sv; en_margin := en_margin sv; en_strike := en_strike sv; en_liquidity := en_liquidity sv;
  en_tracker := en_tracker sv |}.
Lemma expiry_entry_exact_witness :
  ∃ r, can_enter_position selling (Some (on_day 0 765)) (Some "NIFTY"%string) (Clock 0 []) = (Ok r, Clock 0 []) ∧
    er_allowed r ≠ true.
Proof.
  destruct (expiry_entry_exact selling (on_day 0 765) "NIFTY" (Clock 0 [])) as (r & E & H). exists r. split; [exact E|].
  rewrite H. intros [F|[F|[_ [F|F]]]]; vm_compute in F; [discriminate|by apply F|discriminate|by apply F].
Defined.
Lemma gate_blocks_any_day_witness :
  weekday_of (clk_now afternoon) = 0 ∧
  (expiry_gate (with_expiry directional (demo_entry f_one consent)) "NIFTY" None monday_desk).1 = Ok true.
Proof.
  split; [vm_compute; reflexivity|].
  pose proof (gate_blocks_any_day (with_expiry directional (demo_entry f_one consent)) directional "NIFTY" None monday_desk
    eq_refl eq_refl eq_refl ltac:(vm_compute; discriminate)) as H.
  destruct (expiry_gate _ _ _ _) as [r d']. by destruct H as [-> _].
Defined.
