(* ===== verification/StrikeSelector.v ===== *)
(** * The strike of a new option

    [core/strike_selector.py], with [atm_delta] of
    [core/option_premium_model.py]: how far out of the money an option is
    bought, and the gate on the days to its expiry; and the part of
    [strike_port] they give the position service. *)
From S2P Require Import Prelude PyStr Float64 PyDict PyVal CapitalManager Positions PositionEntry.

(** [_cfg_int], [_cfg_float] *)
Definition or_default {A} (r : res A) (d : A) : res A :=
  match r with Ok a => Ok a | Raise e => if catches [TypeError; ValueError] e then Ok d else Raise e end.
Definition cfg_int (cfg : pyrec) (key : string) (d : Z) : res Z :=
  or_default (rbind (py_int (rget key (VInt d) cfg)) (λ n, Ok (Z.max 0 n))) d.
Definition cfg_float (cfg : pyrec) (key : string) (d : float64) : res float64 := or_default (py_float (rget key (VFloat d) cfg)) d.

(** [atm_delta] *)
Definition atm_delta (vix : float64) (dte : Z) : res float64 :=
  rbind (float_of_Z (Z.max 0 (7 - dte))) (λ days,
  let dte_adj := (fopp (lit 8 3) * days)%f64 in
  let vol_adj := (fopp (lit 1 3) * py_max f_zero (vix - f_of_Z 20))%f64 in
  Ok (py_round (py_max (lit 35 2) (py_min (lit 55 2) (lit 50 2 + dte_adj + vol_adj)))%f64 3)).

(** [_otm_steps_for_tier] *)
Definition otm_steps_for_tier (tier : string) (cfg : pyrec) : res Z :=
  let t := str_upper tier in
  if String.eqb t "STRONG" then cfg_int cfg "otm_step_offset_strong" 1
  else if String.eqb t "MODERATE" then cfg_int cfg "otm_step_offset_moderate" 0
  else if String.eqb t "WEAK" then cfg_int cfg "otm_step_offset_weak" 0
  else cfg_int cfg "otm_step_offset" 0.
(** [_otm_steps_for_delta] *)
Definition otm_steps_for_delta (atm_d target per_step : float64) (max_steps : Z) : res Z :=
  if fle per_step f_zero || fle atm_d target then Ok 0
  else rbind (round_float ((atm_d - target) / per_step)%f64) (λ n, Ok (Z.max 0 (Z.min n max_steps))).
(** [_apply_vega_cap] *)
Definition apply_vega_cap (steps : Z) (vix : float64) (cfg : pyrec) : res Z :=
  rbind (cfg_float cfg "vega_cap_vix_threshold" (f_of_Z 30)) (λ t, Ok (if fgt vix t && (0 <? steps) then steps - 1 else steps)).
(** [_apply_otm_direction] *)
Definition apply_otm_direction (atm steps : Z) (direction : string) (step : Z) : Z :=
  if steps <=? 0 then atm
  else if String.eqb (str_upper direction) "CALL" then atm + steps * step
  else atm - steps * step.

Definition mode_of (cfg : pyrec) : string := str_upper (py_str (rget "strike_selection_mode" (VStr "ATM") cfg)).
(** The steps taken out of the money, and what is said of them. *)
Definition otm_steps (tier : string) (vix : float64) (dte : Z) (cfg : pyrec) : res (Z * string) :=
  rbind (cfg_int cfg "max_otm_steps" 3) (λ max_steps,
  if String.eqb (mode_of cfg) "OTM" then
    rbind (otm_steps_for_tier tier cfg) (λ n, rbind (apply_vega_cap n vix cfg) (λ n,
    let steps := Z.min n max_steps in
    Ok (steps, cat ["OTM tier="; tier; " steps="; str_of_Z steps; " vix="; fmt_f 1 vix])))
  else if String.eqb (mode_of cfg) "DELTA" then
    rbind (atm_delta vix dte) (λ atm_d,
    rbind (cfg_float cfg "strike_target_delta" (lit 40 2)) (λ target,
    rbind (cfg_float cfg "delta_per_step" (lit 8 2)) (λ per_step,
    rbind (otm_steps_for_delta atm_d target per_step max_steps) (λ n,
    rbind (apply_vega_cap n vix cfg) (λ steps,
    rbind (float_of_Z steps) (λ f,
    let approx := py_round (atm_d - f * per_step)%f64 3 in
    Ok (steps, cat ["DELTA target="; fmt_f 2 target; " atm_d="; fmt_f 3 atm_d; " steps="; str_of_Z steps; " approx_d="; fmt_f 3 approx;
                    " dte="; str_of_Z dte])))))))
  else Ok (0, "ATM (default)"%string)).
(** [select_strike] *)
Definition select_strike (atm : Z) (direction : string) (step : Z) (tier : string) (vix : float64) (dte : Z) (cfg : pyrec) :
    res (Z * string) :=
  rbind (otm_steps tier vix dte cfg) (λ r, Ok (apply_otm_direction atm r.1 direction step, r.2)).
(** [dte_entry_check] *)
Definition dte_entry_check (dte : Z) (cfg : pyrec) : res (bool * string) :=
  rbind (cfg_int cfg "min_dte_for_entry" 1) (λ least,
  rbind (cfg_int cfg "theta_bleed_warn_dte" 2) (λ _,
  Ok (if dte <? least then (false, cat ["DTE="; str_of_Z dte; " < min_dte_for_entry="; str_of_Z least; " - theta too high"])
      else (true, EmptyString)))).
(** [strike_summary] *)
Record summary := Summary {
  su_mode : string; su_atm : Z; su_selected : Z; su_otm_steps : Z; su_dte_allowed : bool; su_reason : string; su_dte_reason : string }.
Definition strike_summary (atm : Z) (direction : string) (step : Z) (tier : string) (vix : float64) (dte : Z) (cfg : pyrec) : res summary :=
  rbind (select_strike atm direction step tier vix dte cfg) (λ r,
  rbind (dte_entry_check dte cfg) (λ ok,
  if step =? 0 then Raise (PyExn ZeroDivisionError "integer division or modulo by zero")
  else
    let away := if String.eqb (str_upper direction) "CALL" then r.1 - atm else atm - r.1 in
    Ok (Summary (mode_of cfg) atm r.1 (away / step) ok.1 r.2 ok.2))).

(** What [PositionService] is given; the step of an index and the live quote
    come from elsewhere. *)
Definition strike_port_of {X} (cfg : pyrec) (step : string → SX X pyval) (quote : string → Z → string → SX X (option option_quote)) :
    strike_port X := {|
  sp_step := step; sp_quote := quote;
  sp_dte_check dte := st_lift (dte_entry_check dte cfg);
  sp_select atm side step tier vix dte := st_lift (rbind (select_strike atm side step tier vix dte cfg) (λ r, Ok r.1)) |}.

(** ** Theorems *)

Lemma cfg_int_pos cfg key d n : 0 <= d → cfg_int cfg key d = Ok n → 0 <= n.
Proof.
  intros Hd. unfold cfg_int, or_default. destruct (py_int _) as [m|e]; cbn.
  - intros [= <-]. lia.
  - destruct (catches _ e); [|done]. by intros [= <-].
Qed.
Lemma vega_cap_bound n vix cfg m : 0 <= n → apply_vega_cap n vix cfg = Ok m → 0 <= m <= n.
Proof.
  intros Hn H. unfold apply_vega_cap in H. unbind H t E. injection H as <-. destruct (fgt vix t); cbn [andb]; [|lia].
  destruct (Z.ltb_spec 0 n); lia.
Qed.
Lemma otm_steps_bound tier vix dte cfg steps tag :
  otm_steps tier vix dte cfg = Ok (steps, tag) → ∃ m, cfg_int cfg "max_otm_steps" 3 = Ok m ∧ 0 <= steps <= m.
Proof.
  unfold otm_steps. intros H. unbind H m E. exists m. split; [exact E|]. apply cfg_int_pos in E as Hm; [|done].
  destruct (String.eqb (mode_of cfg) "OTM"); [|destruct (String.eqb (mode_of cfg) "DELTA")].
  - unbind H n En. unbind H k Ek. injection H as <- _.
    assert (0 <= n) by (unfold otm_steps_for_tier in En; repeat (destruct (String.eqb _ _)); by eapply cfg_int_pos in En).
    apply vega_cap_bound in Ek; lia.
  - unbind H d Ed. unbind H t Et. unbind H s Es. unbind H n En. unbind H k Ek. unbind H f Ef. injection H as <- _.
    assert (0 <= n <= m).
    { unfold otm_steps_for_delta in En. destruct (_ || _); [injection En as <-; lia|]. unbind En z Ez. injection En as <-. lia. }
    apply vega_cap_bound in Ek; lia.
  - injection H as <- _. lia.
Qed.
(** The strike is at or out of the money, and not too far.  A strike that
    is selected is a whole number of steps above the one at the money for a
    call and below it for a put, and no more steps than the configured
    maximum. *)
Theorem strike_out_of_the_money (atm step dte : Z) (direction tier tag : string) (vix : float64) (cfg : pyrec) (strike : Z) :
  select_strike atm direction step tier vix dte cfg = Ok (strike, tag) →
  ∃ n m, cfg_int cfg "max_otm_steps" 3 = Ok m ∧ 0 <= n <= m ∧
    strike = (if String.eqb (str_upper direction) "CALL" then atm + n * step else atm - n * step).
Proof.
  unfold select_strike. intros H. unbind H r E. destruct r as [n tg]. injection H as <- <-.
  apply otm_steps_bound in E as (m & E & Hn). exists n, m. split; [exact E|]. split; [exact Hn|]. cbn [fst].
  unfold apply_otm_direction. destruct (Z.leb_spec n 0); [|done]. assert (n = 0) as -> by lia. by destruct (String.eqb _ _); rewrite ?Z.add_0_r, ?Z.sub_0_r.
Qed.
(** The summary tells the steps.  For a positive grid the number of steps
    in the summary is the number the selection took. *)
Theorem summary_tells_steps (atm step dte : Z) (direction tier : string) (vix : float64) (cfg : pyrec) (s : summary) :
  0 < step → strike_summary atm direction step tier vix dte cfg = Ok s →
  ∃ tag, otm_steps tier vix dte cfg = Ok (su_otm_steps s, tag).
Proof.
  intros Hs. unfold strike_summary, select_strike. intros H. unbind H r E. unbind H ok Eo. destruct (Z.eqb_spec step 0) as [?|_]; [lia|].
  injection H as <-. cbn. unbind E q Er. injection E as <-. destruct q as [n tg]. cbn. exists tg. rewrite Er. do 2 f_equal.
  apply otm_steps_bound in Er as (m & _ & Hn). unfold apply_otm_direction. destruct (Z.leb_spec n 0).
  - assert (n = 0) as -> by lia. destruct (String.eqb _ _); by rewrite Z.sub_diag, Z.div_0_l by lia.
  - destruct (String.eqb _ _).
    + replace (atm + n * step - atm) with (n * step) by lia. by rewrite Z.div_mul by lia.
    + replace (atm - (atm - n * step)) with (n * step) by lia. by rewrite Z.div_mul by lia.
Qed.

(** ** Concrete strikes *)

Definition mode (m : string) (more : list (string * pyval)) : pyrec := PyDict (("strike_selection_mode", VStr m) :: more)%string.
Definition pick (cfg : pyrec) (direction tier : string) (vix dte : Z) : option Z :=
  match select_strike 22000 direction 50 tier (f_of_Z vix) dte cfg with Ok r => Some r.1 | Raise _ => None end.
Example strikes :
  pick ∅ "CALL" "STRONG" 15 3 = Some 22000 ∧ pick (mode "otm" []) "call" "STRONG" 15 3 = Some 22050 ∧
  pick (mode "otm" []) "PUT" "strong" 15 3 = Some 21950 ∧ pick (mode "otm" []) "CALL" "STRONG" 35 3 = Some 22000 ∧
  pick (mode "delta" []) "CALL" "WEAK" 15 7 = Some 22050.
Proof. vm_compute. repeat split. Qed.
(** The reduction in a high volatility comes before the cap in the mode OTM:
    with more steps than the cap it has no effect. *)
Example reduction_before_cap :
  pick (mode "otm" [("otm_step_offset_strong", VInt 5)]%string) "CALL" "STRONG" 35 3 = Some 22150 ∧
  pick (mode "otm" [("otm_step_offset_strong", VInt 5)]%string) "CALL" "STRONG" 15 3 = Some 22150.
Proof. vm_compute. repeat split. Qed.
(** A number of steps that is infinite is not among the errors expected. *)
Example infinite_steps :
  select_strike 22000 "CALL" 50 "STRONG" f_zero 3 (PyDict [("max_otm_steps", VFloat f_inf)]%string) =
    Raise (PyExn OverflowError "cannot convert float infinity to integer").
Proof. vm_compute. reflexivity. Qed.
Lemma strike_out_of_the_money_witness : ∃ n m, cfg_int (mode "OTM" []) "max_otm_steps" 3 = Ok m ∧ 0 <= n <= m ∧ 22050 = 22000 + n * 50.
Proof.
  destruct (select_strike 22000 "CALL" 50 "STRONG" (f_of_Z 15) 3 (mode "OTM" [])) as [[k tag]|e] eqn:E; [|vm_compute in E; discriminate].
  assert (k = 22050) as -> by (vm_compute in E; by injection E as <- _).
  destruct (strike_out_of_the_money _ _ _ _ _ _ _ _ _ E) as (n & m & H). exists n, m. exact H.
Defined.
Lemma summary_tells_steps_witness :
  ∃ s tag, strike_summary 22000 "PUT" 50 "STRONG" (f_of_Z 15) 3 (mode "OTM" []) = Ok s ∧
    otm_steps "STRONG" (f_of_Z 15) 3 (mode "OTM" []) = Ok (su_otm_steps s, tag).
Proof.
  destruct (strike_summary 22000 "PUT" 50 "STRONG" (f_of_Z 15) 3 (mode "OTM" [])) as [s|e] eqn:E; [|vm_compute in E; discriminate].
  destruct (summary_tells_steps 22000 50 3 "PUT" "STRONG" (f_of_Z 15) (mode "OTM" []) s ltac:(lia) E) as [tag H].
  exists s, tag. split; [reflexivity|exact H].
Defined.
