(* ===== verification/ScaleIn.v ===== *)
(** * Entries in two legs

    [core/scalein_manager.py]: the lots of the two legs, the trigger and the
    deadline of the second, and the average price. *)
From S2P Require Import Prelude PyStr Float64 PyDict PyVal CapitalManager StrikeSelector.

Record scalein := ScaleInState {
  si_trade : string; si_entry : float64; si_direction : string; si_trigger : float64; si_timeout : float64;
  si_leg1 : Z; si_leg2 : Z; si_completed : bool; si_leg2_price : float64 }.

Definition is_enabled (cfg : pyrec) : bool := truthy (rget "scalein_enabled" (VBool false) cfg).
Definition qualifies (score : Z) (cfg : pyrec) : res bool :=
  if negb (is_enabled cfg) then Ok false
  else rbind (py_int (rget "scalein_min_score" (VInt 80) cfg)) (λ least, Ok (least <=? score)).
(** [leg1_lots], [leg2_lots] *)
Definition leg1_lots (total : Z) (cfg : pyrec) : res Z :=
  rbind (py_float (rget "scalein_first_pct" (VFloat (lit 5 1)) cfg)) (λ pct,
  rbind (float_of_Z total) (λ t, rbind (int_of_float (t * pct)%f64) (λ n, Ok (Z.max 1 n)))).
Definition leg2_lots (total : Z) (cfg : pyrec) : res Z := rbind (leg1_lots total cfg) (λ l1, Ok (Z.max 1 (total - l1))).
(** [create_state] *)
Definition create_state {W} `{!HasClock W} (trade : string) (entry : float64) (total : Z) (direction : string) (cfg : pyrec) : ST W scalein :=
  pullback ← st_lift (py_float (rget "scalein_pullback_pct" (VFloat (lit 3 3)) cfg));
  mins ← st_lift (py_int (rget "scalein_timeout_mins" (VInt 5) cfg));
  l1 ← st_lift (leg1_lots total cfg);
  l2 ← st_lift (leg2_lots total cfg);
  now ← time_time;
  secs ← st_lift (float_of_Z (mins * 60));
  let up := str_upper direction in
  let trigger := if String.eqb up "CALL" then (entry * (f_one - pullback))%f64 else (entry * (f_one + pullback))%f64 in
  mret (ScaleInState trade entry up (py_round trigger 2) (now + secs)%f64 l1 l2 false f_zero).
(** [should_fill_leg2] *)
Definition due_at (s : scalein) (price t : float64) : bool :=
  fge t (si_timeout s) || (String.eqb (si_direction s) "CALL" && fle price (si_trigger s))
  || (String.eqb (si_direction s) "PUT" && fge price (si_trigger s)).
Definition should_fill_leg2 {W} `{!HasClock W} (s : scalein) (price : float64) (now : option float64) : ST W bool :=
  if si_completed s then mret false
  else t ← match now with Some t => mret t | None => time_time end; mret (due_at s price t).
(** [compute_avg_price] *)
Definition compute_avg_price (s : scalein) (fill : float64) : res float64 :=
  let total := si_leg1 s + si_leg2 s in
  if total =? 0 then Ok fill
  else
    rbind (float_of_Z (si_leg1 s)) (λ a, rbind (float_of_Z (si_leg2 s)) (λ b, rbind (float_of_Z total) (λ t,
    Ok (py_round ((si_entry s * a + fill * b) / t)%f64 2)))).

(** ** Theorems *)

(** The two legs are the order, or one lot more.  Each leg has at least
    one lot; together they are the lots of the order when the first leg
    leaves a lot for the second, and otherwise exactly one lot more than the
    first leg. *)
Theorem legs_total (total l1 l2 : Z) (cfg : pyrec) :
  leg1_lots total cfg = Ok l1 → leg2_lots total cfg = Ok l2 →
  1 <= l1 ∧ 1 <= l2 ∧ l1 + l2 = Z.max total (l1 + 1).
Proof.
  intros H1. unfold leg2_lots. rewrite H1. intros [= <-]. unfold leg1_lots in H1. unbind H1 p Ep. unbind H1 t Et. unbind H1 n En.
  injection H1 as <-. lia.
Qed.
(** The second leg is filled at its deadline at the latest. *)
Lemma filled_at_timeout {W} `{!HasClock W} s price t (w : W) :
  si_completed s = false → fge t (si_timeout s) = true → should_fill_leg2 s price (Some t) w = (Ok true, w).
Proof. intros Hc Ht. unfold should_fill_leg2, mbind, st_bind, mret, st_ret, due_at. by rewrite Hc, Ht. Qed.

(** ** Concrete legs *)

Definition legs (total : Z) (pct : pyval) : option (Z * Z) :=
  let cfg := PyDict [("scalein_first_pct", pct)]%string in
  match leg1_lots total cfg, leg2_lots total cfg with Ok a, Ok b => Some (a, b) | _, _ => None end.
(** An order of one lot becomes two; so does one that is all first leg. *)
Example one_lot_doubled : legs 4 (VFloat (lit 5 1)) = Some (2, 2) ∧ legs 5 (VFloat (lit 5 1)) = Some (2, 3) ∧
  legs 1 (VFloat (lit 5 1)) = Some (1, 1) ∧ legs 4 (VFloat f_one) = Some (4, 1).
Proof. vm_compute. repeat split. Qed.
(** Half-way a call waits for the price, or for five minutes. *)
Definition pending : option scalein :=
  match (create_state "T1" (f_of_Z 200) 4 "call" ∅ (Clock 1700000000000000 [])).1 with Ok s => Some s | Raise _ => None end.
Example waits_for_price :
  match pending with
  | Some s => si_trigger s = lit 1994 1 ∧
      (λ p, due_at s p (epoch_seconds 1700000000000000)) <$> [f_of_Z 200; lit 1994 1] = [false; true] ∧
      due_at s (f_of_Z 210) (epoch_seconds 1700000300000000) = true ∧ compute_avg_price s (f_of_Z 199) = Ok (lit 1995 1)
  | None => False end.
Proof. vm_compute. repeat split. Qed.
Lemma legs_total_witness : legs 1 (VFloat (lit 5 1)) = Some (1, 1) ∧ 1 + 1 = Z.max 1 (1 + 1).
Proof.
  split; [vm_compute; reflexivity|].
  apply (legs_total 1 1 1 (PyDict [("scalein_first_pct", VFloat (lit 5 1))]%string)); vm_compute; reflexivity.
Defined.
