(* ===== verification/EquityTrader.v ===== *)
(** * The equity trader

    [core/equity_trader.py]: positions in shares, funds and trusts, with a
    daily limit, re-entry trackers, and a monitor; and the score of a share
    from its indicators.  The functions the trader is given are a record of
    operations; an asset map of the configuration is a record, since its
    values are dicts. *)
From S2P Require Import Prelude PyStr Float64 PyDict PyVal CapitalManager RiskService MandateService MarketWarmup StateManager Reentry.

(** ** Configuration *)

Inductive asset := EQUITY | ETF | REIT | INVIT | SME.
#[global] Instance asset_eq_dec : EqDecision asset.
Proof. solve_decision. Defined.
Definition asset_name (a : asset) : string :=
  match a with EQUITY => "EQUITY" | ETF => "ETF" | REIT => "REIT" | INVIT => "INVIT" | SME => "SME" end.
Definition assets : list asset := [EQUITY; ETF; REIT; INVIT; SME].

(** The keys of one class: [<A>_ENABLED], [<A>_MAP], and for shares and
    funds [<A>_PRIORITY] and [<A>_DEFAULT_QTY]. *)
Record class_config := ClassConfig {
  ac_enabled : option pyval; ac_map : pydict pyrec; ac_priority : option (list string); ac_qty : option pyval }.
Record trader_config := TraderConfig { tc_class : asset → class_config; tc_values : pyrec }.
Definition has_priority (a : asset) : bool := match a with EQUITY | ETF => true | _ => false end.
(** [_build_asset_symbols] *)
Definition build_asset_symbols (cfg : trader_config) (a : asset) : list string :=
  let c := tc_class cfg a in
  if negb (truthy (default (VBool (bool_decide (a = EQUITY))) (ac_enabled c))) then []
  else
    match (if has_priority a then ac_priority c else None) with
    | Some priority =>
        filter (λ s, match ac_map c !! s with Some r => truthy (rget "enabled" (VBool true) r) | None => false end = true) priority
    | None => (filter (λ p : string * pyrec, truthy (rget "enabled" (VBool false) p.2) = true) (items (ac_map c))).*1
    end.

(** What the constructor computes. *)
Record trader_settings := TraderSettings {
  ts_all : list string; ts_equity : list string; ts_index : pydict asset;
  ts_sl : float64; ts_target : float64; ts_max : Z; ts_qty : Z; ts_qtys : asset → Z; ts_cfg : pyrec }.
Definition class_qty (cfg : trader_config) (a : asset) : res Z :=
  if has_priority a then py_int (default (VInt 1) (ac_qty (tc_class cfg a))) else Ok 1.
Definition read_trader (cfg : trader_config) : res trader_settings :=
  let v := tc_values cfg in
  let symbols := build_asset_symbols cfg in
  rbind (py_float (rget "EQUITY_SL_PCT" (VFloat (lit 95 2)) v)) (λ sl,
  rbind (py_float (rget "EQUITY_TARGET_PCT" (VFloat (lit 105 2)) v)) (λ target,
  rbind (py_int (rget "EQUITY_MAX_DAILY_TRADES" (VInt 5) v)) (λ most,
  rbind (class_qty cfg EQUITY) (λ qty,
  rbind (class_qty cfg ETF) (λ etf,
  Ok (TraderSettings (assets ≫= symbols) (symbols EQUITY)
        (foldl (λ d a, foldl (λ d s, <[s := a]> d) d (symbols a)) ∅ assets)
        sl target most qty (λ a, match a with EQUITY => qty | ETF => etf | _ => 1 end) v)))))).

(** ** The trader *)

Record eq_position := EqPosition {
  ep_direction : string; ep_qty : Z; ep_entry : float64; ep_time : float64; ep_score : Z; ep_reason : string;
  ep_peak : float64; ep_class : string; ep_current : option float64 }.
Section world.
Context {X : Type}.
Record trader := Trader {
  tr_clk : clock; tr_positions : pydict eq_position; tr_trades : Z; tr_day : option string;
  tr_trackers : pydict tracker; tr_running : bool; tr_ext : X }.
#[global] Instance trader_clock : HasClock trader :=
  {| clock_of := tr_clk;
     set_clock := λ k t, Trader k (tr_positions t) (tr_trades t) (tr_day t) (tr_trackers t) (tr_running t) (tr_ext t) |}.
Definition put_positions (p : pydict eq_position) (t : trader) : trader :=
  Trader (tr_clk t) p (tr_trades t) (tr_day t) (tr_trackers t) (tr_running t) (tr_ext t).
Definition put_trades (n : Z) (t : trader) : trader :=
  Trader (tr_clk t) (tr_positions t) n (tr_day t) (tr_trackers t) (tr_running t) (tr_ext t).
Definition put_day (d : string) (t : trader) : trader :=
  Trader (tr_clk t) (tr_positions t) (tr_trades t) (Some d) (tr_trackers t) (tr_running t) (tr_ext t).
Definition put_trackers (r : pydict tracker) (t : trader) : trader :=
  Trader (tr_clk t) (tr_positions t) (tr_trades t) (tr_day t) r (tr_running t) (tr_ext t).
Definition put_running (b : bool) (t : trader) : trader :=
  Trader (tr_clk t) (tr_positions t) (tr_trades t) (tr_day t) (tr_trackers t) b (tr_ext t).
Definition put_ext (x : X) (t : trader) : trader :=
  Trader (tr_clk t) (tr_positions t) (tr_trades t) (tr_day t) (tr_trackers t) (tr_running t) x.
End world.
Arguments trader X : clear implicits.
Abbreviation TM X := (ST (trader X)).
(** The functions given to the constructor. *)
Record trader_port (X : Type) := TraderPort {
  tp_price : string → ST X (option float64);
  tp_entry : option (string → string → Z → float64 → ST X bool);
  tp_exit : option (string → Z → float64 → ST X unit);
  tp_send : string → ST X unit }.
Arguments tp_price {X}. Arguments tp_entry {X}. Arguments tp_exit {X}. Arguments tp_send {X}.

Definition new_trader {X} (k : clock) (s : trader_settings) (x : X) : trader X :=
  Trader k ∅ 0 None (build_reentry_trackers (ts_all s)) false x.

Section trader.
Context {X : Type} (s : trader_settings) (p : trader_port X).
Definition call {A} (m : ST X A) : TM X A := st_zoom tr_ext put_ext m.
Definition trade_errors : list exn_class := [ValueError; TypeError; OSError].

(** [_is_market_open] *)
Definition open_at (t : Z) : bool := (weekday_of t <? 5) && (9 * 60 + 15 <=? minute_of_day t) && (minute_of_day t <? 15 * 60 + 30).
Definition is_market_open : TM X bool := now ← now_ist; mret (open_at now).
(** [can_trade] *)
Definition can_trade : TM X (bool * string) :=
  match ts_equity s with
  | [] => mret (false, "No equity symbols configured"%string)
  | _ =>
      open ← is_market_open;
      if negb open then mret (false, "Market closed"%string)
      else
        t ← st_get;
        if ts_max s <=? tr_trades t then mret (false, cat ["Max daily trades ("; str_of_Z (ts_max s); ") reached"])
        else mret (true, "Trading allowed"%string)
  end.
(** [get_position_size] *)
Definition get_position_size (symbol : string) (price : float64) : Z :=
  if fle price f_zero then ts_qty s else ts_qtys s (default EQUITY (ts_index s !! symbol)).
(** [enter_position], up to the execution: the price and the lots *)
Definition usable (price : option float64) : option float64 :=
  match price with Some x => if fle x f_zero then None else Some x | None => None end.
Definition reentry_allows (symbol direction : string) (score : Z) : TM X bool :=
  t ← st_get;
  match tr_trackers t !! symbol with
  | Some rt => d ← evaluate_reentry score direction (ts_cfg s) rt; mret (rd_allowed d)
  | None => mret true
  end.
Definition executed (symbol direction : string) (qty : Z) (price : float64) : TM X bool :=
  match tp_entry p with
  | Some f => st_try (call (f symbol direction qty price)) trade_errors (λ _, mret false)
  | None => mret true
  end.
Definition class_of (symbol : string) : string := match ts_index s !! symbol with Some a => asset_name a | None => "UNKNOWN" end.
Definition book (symbol direction : string) (score : Z) (reason : string) (qty : Z) (price : float64) : TM X unit :=
  now ← time_time;
  st_modify (λ t, put_trades (tr_trades t + 1)
    (put_positions (<[symbol := EqPosition direction qty price now score reason price (class_of symbol) None]> (tr_positions t)) t)).
Definition enter_position (symbol direction : string) (score : Z) (reason : string) : TM X bool :=
  open ← is_market_open;
  if negb open then mret false
  else
    t ← st_get;
    if ts_max s <=? tr_trades t then mret false
    else if dmem symbol (tr_positions t) then mret false
    else
      again ← reentry_allows symbol direction score;
      if negb again then mret false
      else
        quote ← call (tp_price p symbol);
        match usable quote with
        | None => mret false
        | Some price =>
            let qty := get_position_size symbol price in
            ok ← executed symbol direction qty price;
            if negb ok then mret false
            else
              book symbol direction score reason qty price ;;
              call (tp_send p (cat ["[EQUITY] Entered "; symbol; " ["; class_of symbol; "] "; direction; " x"; str_of_Z qty; " @ ";
                                    fmt_f 2 price])) ;;
              mret true
        end.
(** [_record_trade_outcome] *)
Definition record_trade_outcome (symbol : string) (profit : bool) : TM X unit :=
  st_modify (λ t, match tr_trackers t !! symbol with
                  | Some rt => put_trackers (<[symbol := record_outcome profit rt]> (tr_trackers t)) t
                  | None => t
                  end).
(** [exit_position]; a price of zero is no price. *)
Definition exit_price (q : eq_position) (quote : option float64) : float64 :=
  match quote with Some x => if is_zero x then ep_entry q else x | None => ep_entry q end.
Definition exit_pnl (q : eq_position) (current : float64) : res float64 :=
  rbind (float_of_Z (ep_qty q)) (λ n,
    Ok (if String.eqb (ep_direction q) "SELL" then (ep_entry q - current) * n else (current - ep_entry q) * n)%f64).
Definition exit_position (symbol reason : string) : TM X bool :=
  t ← st_get;
  match tr_positions t !! symbol with
  | None => mret false
  | Some q =>
      st_modify (λ t, put_positions (delete symbol (tr_positions t)) t) ;;
      quote ← call (tp_price p symbol);
      let current := exit_price q quote in
      pnl ← st_lift (exit_pnl q current);
      (match tp_exit p with
       | Some f => st_try (call (f symbol (ep_qty q) current)) trade_errors (λ _, mret ())
       | None => mret ()
       end) ;;
      call (tp_send p (cat ["[EQUITY] Exited "; symbol; ": "; reason; " @ "; fmt_f 2 current; " P&L="; fmt_0f pnl])) ;;
      record_trade_outcome symbol (fgt pnl f_zero) ;;
      mret true
  end.

(** [_monitor_positions] *)
Definition touch (current : float64) (q : eq_position) : eq_position :=
  EqPosition (ep_direction q) (ep_qty q) (ep_entry q) (ep_time q) (ep_score q) (ep_reason q)
    (if fgt current (ep_peak q) then current else ep_peak q) (ep_class q) (Some current).
Definition move_pct (q : eq_position) (current : float64) : float64 :=
  if fgt (ep_entry q) f_zero then ((current - ep_entry q) / ep_entry q)%f64 else f_zero.
Definition exit_reason (q : eq_position) (current : float64) : option string :=
  let move := move_pct q current in
  let stop := (f_one - ts_sl s)%f64 in
  let gain := (ts_target s - f_one)%f64 in
  if String.eqb (ep_direction q) "BUY" then
    if fle move (fopp stop) then Some "SL_HIT"%string else if fge move gain then Some "TARGET_HIT"%string else None
  else
    if fge move stop then Some "SL_HIT"%string else if fle move (fopp gain) then Some "TARGET_HIT"%string else None.
Definition monitor_one (symbol : string) : TM X unit :=
  t ← st_get;
  match tr_positions t !! symbol with
  | None => mret ()
  | Some q =>
      quote ← call (tp_price p symbol);
      match usable quote with
      | None => mret ()
      | Some current =>
          if fle (ep_entry q) f_zero then mret ()
          else
            st_modify (λ t, match tr_positions t !! symbol with
                            | Some q' => put_positions (<[symbol := touch current q']> (tr_positions t)) t
                            | None => t
                            end) ;;
            match exit_reason q current with
            | Some why => exit_position symbol why ;; mret ()
            | None => mret ()
            end
      end
  end.
Definition monitor_positions : TM X unit := t ← st_get; st_iter monitor_one (dkeys (tr_positions t)).
(** [_reset_daily_if_needed] *)
Definition reset_daily_if_needed : TM X unit :=
  now ← now_ist;
  let today := day_text now in
  st_modify (λ t, if bool_decide (tr_day t = Some today) then t
                  else put_trackers (dmap reset_daily (tr_trackers t)) (put_trades 0 (put_day today t))).
(** One round of [_run_loop]; [start] and [stop]. *)
Definition loop_round : TM X unit := st_try (reset_daily_if_needed ;; monitor_positions) trade_errors (λ _, mret ()).
Definition start : TM X unit :=
  t ← st_get;
  if tr_running t then mret ()
  else st_modify (put_running true) ;; call (tp_send p (cat ["[EQUITY] Trader started ("; str_of_Z (Z.of_nat (length (ts_all s))); " symbols)"])).
Definition stop : TM X unit := st_modify (put_running false).
(** [status]: the positions of each class *)
Definition positions_by_class (t : trader X) : pydict Z :=
  foldl (λ d q, <[ep_class q := default 0 (d !! ep_class q) + 1]> d) ∅ (dvalues (tr_positions t)).
End trader.

(** ** The score of a share *)

(** What [FeatureEngine] computes from the frame. *)
Record indicators := Indicators {
  in_price : float64; in_vwap : float64; in_atr : float64; in_vol_ratio : float64; in_rsi : float64; in_histogram : float64;
  in_adx : float64; in_d10 : float64; in_d30 : float64; in_ema : string }.
Record eq_signal := EqSignal {
  sg_symbol : string; sg_direction : option string; sg_score : Z; sg_strength : string; sg_components : list (string * Z);
  sg_features : list string; sg_regime : string; sg_atr_pct : float64; sg_volatility : string; sg_momentum : float64;
  sg_indicators : indicators }.

Definition regime_of (adx : float64) : string :=
  if flt adx (f_of_Z 15) then "WEAK" else if fgt adx (f_of_Z 25) then "TRENDING" else if flt adx (f_of_Z 20) then "CHOPPY" else "NEUTRAL".
Definition trend_direction (ema : string) : option string :=
  if String.eqb ema "UP" then Some "BUY"%string else if String.eqb ema "DOWN" then Some "SELL"%string else None.
(** [(a and direction == "BUY") or (b and direction == "SELL")] *)
Definition with_trend (dir : option string) (a b : bool) : bool :=
  (a && bool_decide (dir = Some "BUY"%string)) || (b && bool_decide (dir = Some "SELL"%string)).
Definition points (b : bool) (n : Z) : Z := if b then n else 0.
(** [min(most, base + int(min(1.0, x) * scale))] *)
Definition graded (most base scale : Z) (x : float64) : res Z :=
  rbind (int_of_float (py_min f_one x * f_of_Z scale)%f64) (λ n, Ok (Z.min most (base + n))).
Definition vwap_points (i : indicators) (dir : option string) : res Z :=
  if with_trend dir (fgt (in_price i) (in_vwap i)) (flt (in_price i) (in_vwap i)) then
    graded 15 5 10 (fabs (in_price i - in_vwap i) / py_max (in_vwap i) f_one / lit 5 3)%f64
  else Ok 0.
Definition volume_points (i : indicators) : res Z :=
  if fge (in_vol_ratio i) (lit 12 1) then graded 12 3 9 ((in_vol_ratio i - lit 12 1) / lit 12 1)%f64 else Ok 0.
Definition in_zone (lo x hi : Z) (v : float64) : bool := fle (f_of_Z lo) v && fle v (f_of_Z hi).
Definition penalty (regime : string) : Z := if String.eqb regime "CHOPPY" then 8 else if String.eqb regime "WEAK" then 15 else 0.
Definition atr_points (i : indicators) : Z := points (fgt (in_atr i) (in_price i * lit 1 3)%f64) 5.
Definition adx_points (i : indicators) : Z := points (fge (in_adx i) (f_of_Z 25)) 5.
(** The parts of the score, in the order they are added. *)
Definition components (i : indicators) : res (list (string * Z)) :=
  let dir := trend_direction (in_ema i) in
  let pos x := fgt x f_zero in
  let neg x := flt x f_zero in
  rbind (vwap_points i dir) (λ vwap,
  rbind (volume_points i) (λ volume,
  Ok [("ema_trend", points (bool_decide (is_Some dir)) 15); ("vwap", vwap);
      ("momentum", points (with_trend dir (pos (in_d10 i)) (neg (in_d10 i))) 10);
      ("momentum_30", points (with_trend dir (pos (in_d30 i)) (neg (in_d30 i))) 8);
      ("volume", volume);
      ("rsi_bonus", points (with_trend dir (in_zone 40 0 70 (in_rsi i)) (in_zone 30 0 60 (in_rsi i))) 8);
      ("atr_floor", atr_points i);
      ("macd", points (with_trend dir (pos (in_histogram i)) (neg (in_histogram i))) 5);
      ("adx_trend", adx_points i);
      ("regime_penalty", - penalty (regime_of (in_adx i)))]%string)).
Definition total (l : list (string * Z)) : Z := foldr (λ p n, p.2 + n) 0 l.
Definition strength_of (score : Z) : option string :=
  if 75 <=? score then Some "STRONG"%string else if 55 <=? score then Some "MODERATE"%string else if 35 <=? score then Some "WEAK"%string
  else None.
(** [evaluate_equity_signal], after the frame *)
Definition evaluate_indicators (symbol : string) (i : indicators) : res (option eq_signal) :=
  if fle (in_price i) f_zero then Ok None
  else
    rbind (components i) (λ comps,
    let regime := regime_of (in_adx i) in
    (** a penalty does not take the score below 0 *)
    let raw := total comps + penalty regime in
    let score := Z.min 100 (Z.max 0 (if 0 <? penalty regime then Z.max 0 (raw - penalty regime) else raw)) in
    match strength_of score with
    | None => Ok None
    | Some strength =>
        let rel := (in_atr i / py_max (in_price i) f_one)%f64 in
        Ok (Some (EqSignal symbol (trend_direction (in_ema i)) score strength comps
          (filter (λ p : string * Z, 0 <= p.2) comps).*1 regime (py_round (rel * f_of_Z 100)%f64 2)
          (if fgt rel (lit 2 2) then "HIGH" else "NORMAL") (py_round (in_d10 i / py_max (in_price i) f_one * f_of_Z 100)%f64 2) i))
    end).
Definition signal_errors : list exn_class := [ValueError; TypeError; KeyError; IndexError; AttributeError].
Definition evaluate_equity_signal (symbol : string) (rows : option Z) (read : res indicators) : res (option eq_signal) :=
  match rows with
  | None => Ok None
  | Some n =>
      if n <? 30 then Ok None
      else
        match rbind read (evaluate_indicators symbol) with
        | Raise e => if catches signal_errors e then Ok None else Raise e
        | r => r
        end
  end.
(** The dictionary of a signal, as far as the trading loop reads it. *)
Definition signal_record (s : eq_signal) : pyrec :=
  PyDict [("direction", match sg_direction s with Some d => VStr d | None => VNone end); ("score", VInt (sg_score s));
          ("price", VFloat (in_price (sg_indicators s))); ("strength", VStr (sg_strength s)); ("regime", VStr (sg_regime s));
          ("rsi", VFloat (py_round (in_rsi (sg_indicators s)) 1)); ("symbol", VStr (sg_symbol s))]%string.

(** ** An actionable signal *)

Lemma graded_le most base scale x n : graded most base scale x = Ok n → n <= most.
Proof. unfold graded. destruct (int_of_float _); [|done]. intros [= <-]. lia. Qed.
Lemma points_le b n : 0 <= n → 0 <= points b n <= n.
Proof. destruct b; cbn; lia. Qed.
Lemma vwap_le i dir n : vwap_points i dir = Ok n → n <= 15.
Proof. unfold vwap_points. destruct (with_trend _ _ _); [apply graded_le|by intros [= <-]]. Qed.
Lemma volume_le i n : volume_points i = Ok n → n <= 12.
Proof. unfold volume_points. destruct (fge _ _); [apply graded_le|by intros [= <-]]. Qed.
(** Without a trend only volume, range and strength of the trend count. *)
Lemma components_le i comps : components i = Ok comps →
  total comps <= 83 ∧ (trend_direction (in_ema i) = None → total comps <= 22).
Proof.
  unfold components. cbv zeta. destruct (vwap_points i _) as [v|] eqn:Ev; [|done]. destruct (volume_points i) as [u|] eqn:Eu; [|done].
  cbn [rbind]. intros [= <-]. cbn [total foldr snd]. apply vwap_le in Ev as Hv. apply volume_le in Eu.
  assert (0 <= penalty (regime_of (in_adx i))) by (unfold penalty; repeat (destruct (String.eqb _ _)); lia).
  pose proof (points_le (bool_decide (is_Some (trend_direction (in_ema i)))) 15 ltac:(lia)).
  pose proof (λ a b, points_le (with_trend (trend_direction (in_ema i)) a b)) as W.
  pose proof (W (fgt (in_d10 i) f_zero) (flt (in_d10 i) f_zero) 10 ltac:(lia)).
  pose proof (W (fgt (in_d30 i) f_zero) (flt (in_d30 i) f_zero) 8 ltac:(lia)).
  pose proof (W (in_zone 40 0 70 (in_rsi i)) (in_zone 30 0 60 (in_rsi i)) 8 ltac:(lia)).
  pose proof (W (fgt (in_histogram i) f_zero) (flt (in_histogram i) f_zero) 5 ltac:(lia)).
  assert (0 <= atr_points i <= 5) by (apply points_le; lia).
  assert (0 <= adx_points i <= 5) by (apply points_le; lia).
  split; [lia|]. intros Hn. rewrite Hn in *. unfold vwap_points, with_trend in *. cbn in Ev. rewrite !andb_false_r in *. cbn in *.
  injection Ev as <-. lia.
Qed.
(** An actionable signal has a side.  When the evaluation gives a signal,
    its direction is BUY or SELL, its score is the sum of its parts and lies
    between 35 and 83, and the strength is the one of that score. *)
Theorem actionable_signal (symbol : string) (rows : option Z) (read : res indicators) (g : eq_signal) :
  evaluate_equity_signal symbol rows read = Ok (Some g) →
  (sg_direction g = Some "BUY"%string ∨ sg_direction g = Some "SELL"%string) ∧
  sg_score g = total (sg_components g) ∧ 35 <= sg_score g <= 83 ∧ strength_of (sg_score g) = Some (sg_strength g).
Proof.
  unfold evaluate_equity_signal. destruct rows as [n|]; [|done]. destruct (n <? 30); [done|].
  destruct read as [i|e]; cbn [rbind]; [|by destruct (catches _ e)].
  destruct (evaluate_indicators symbol i) as [o|e] eqn:E; [|by destruct (catches _ e)]. intros [= ->].
  unfold evaluate_indicators in E. destruct (fle _ _); [done|]. destruct (components i) as [comps|] eqn:Ec; [|done]. cbn [rbind] in E.
  destruct (components_le i comps Ec) as [Hm Hn]. cbv zeta in E.
  assert (0 <= penalty (regime_of (in_adx i))) as Hp by (unfold penalty; repeat (destruct (String.eqb _ _)); lia).
  set (score := Z.min 100 _) in E. destruct (strength_of score) as [st|] eqn:Es; [|done]. injection E as <-. cbn.
  assert (35 <= score) as Hs by (unfold strength_of in Es; destruct (Z.leb_spec 75 score), (Z.leb_spec 55 score), (Z.leb_spec 35 score); lia || done).
  assert (score = total comps) as Ht by (revert Hs; unfold score; destruct (Z.ltb_spec 0 (penalty (regime_of (in_adx i)))); lia).
  split; [|by split; [|split; [lia|]]]. unfold trend_direction in *. destruct (String.eqb _ "UP"); [by left|].
  destruct (String.eqb _ "DOWN"); [by right|]. specialize (Hn eq_refl). lia.
Qed.

(** ** The tracker never says no *)

Section histories.
Context {X : Type} (s : trader_settings) (p : trader_port X).
Inductive trader_op :=
| Enter (symbol direction : string) (score : Z) (reason : string) | Exit (symbol reason : string) | Monitor | Round | Start | Stop.
Definition run_op (o : trader_op) : TM X unit :=
  match o with
  | Enter n d k r => enter_position s p n d k r ;; mret ()
  | Exit n r => exit_position p n r ;; mret ()
  | Monitor => monitor_positions s p
  | Round => loop_round s p
  | Start => start s p
  | Stop => stop
  end.
(** What is done goes on after an exception of one call. *)
Definition run_ops (os : list trader_op) (t : trader X) : trader X := foldl (λ t o, (run_op o t).2) t os.

Definition untold (t : trader X) : Prop := ∀ n rt, tr_trackers t !! n = Some rt → rt_sl_at rt = None.
Definition keeps_untold (t t' : trader X) : Prop := untold t → untold t'.
#[local] Instance keeps_untold_preorder : PreOrder keeps_untold.
Proof. split; [by intros ? ?|intros ? ? ? H1 H2 ?; auto]. Qed.
Lemma trackers_same (t t' : trader X) : tr_trackers t' = tr_trackers t → keeps_untold t t'.
Proof. unfold keeps_untold, untold. by intros ->. Qed.
Lemma call_untold {A} (m : ST X A) : st_rel keeps_untold (call m).
Proof. intros t. apply trackers_same. unfold call, st_zoom. by destruct (m _). Qed.
Lemma clock_untold {A} (m : TM X A) (f : trader X → A) :
  (∀ t, m t = (Ok (f t), set_clock (clk_read (clock_of t)).2 t)) → st_rel keeps_untold m.
Proof. intros H t. rewrite H. by apply trackers_same. Qed.
Lemma now_untold : st_rel keeps_untold (now_ist (W:=trader X)).
Proof. eapply clock_untold, now_ist_total. Qed.
Lemma time_untold : st_rel keeps_untold (time_time (W:=trader X)).
Proof. eapply clock_untold, time_time_total. Qed.
Lemma modify_untold f : (∀ t, untold t → untold (f t)) → st_rel keeps_untold (st_modify f).
Proof. intros H t. exact (H t). Qed.
Lemma outcome_untold n b : st_rel keeps_untold (record_trade_outcome n b).
Proof.
  apply modify_untold. intros t H. destruct (tr_trackers t !! n) as [rt|] eqn:E; [|done]. intros m r. cbn.
  destruct (decide (m = n)) as [->|Hn].
  - rewrite dict_lookup_insert_eq. intros [= <-]. cbn. by eapply H.
  - rewrite dict_lookup_insert_ne by done. apply H.
Qed.
Lemma reentry_untold n d k : st_rel keeps_untold (reentry_allows (X:=X) s n d k).
Proof.
  unfold reentry_allows, evaluate_reentry. rel_auto ltac:(first [apply time_untold | apply call_untold]).
Qed.
Ltac tellnot := rel_auto ltac:(first
  [ apply call_untold | apply now_untold | apply time_untold | apply outcome_untold | apply reentry_untold
  | apply modify_untold; intros t Ht; repeat case_match; exact Ht ]).
Lemma exit_untold n r : st_rel keeps_untold (exit_position p n r).
Proof. unfold exit_position. tellnot. Qed.
Lemma enter_untold n d k r : st_rel keeps_untold (enter_position s p n d k r).
Proof. unfold enter_position, is_market_open, executed, book. tellnot. Qed.
Lemma monitor_untold : st_rel keeps_untold (monitor_positions s p).
Proof.
  unfold monitor_positions. apply st_rel_bind; [typeclasses eauto|tellnot|]. intros t. apply st_rel_iter; [typeclasses eauto|].
  intros n _. unfold monitor_one. rel_auto ltac:(first [apply exit_untold | apply call_untold | apply modify_untold; intros u Hu; repeat case_match; exact Hu]).
Qed.
Lemma reset_untold : st_rel keeps_untold (reset_daily_if_needed (X:=X)).
Proof.
  unfold reset_daily_if_needed. apply st_rel_bind; [typeclasses eauto|apply now_untold|]. intros now. apply modify_untold. intros t H.
  case_bool_decide; [done|]. intros n rt. cbn. rewrite dmap_lookup. destruct (tr_trackers t !! n); [|done]. by intros [= <-].
Qed.
Lemma run_op_untold o : st_rel keeps_untold (run_op o).
Proof.
  destruct o; cbn [run_op]; unfold loop_round, start, stop;
    rel_auto ltac:(first [apply enter_untold | apply exit_untold | apply monitor_untold | apply reset_untold | apply call_untold
                         | apply modify_untold; intros t Ht; exact Ht]).
Qed.
Lemma build_untold names : ∀ n rt, build_reentry_trackers names !! n = Some rt → rt_sl_at rt = None.
Proof.
  unfold build_reentry_trackers. induction names as [|m names IH] using rev_ind; [done|]. rewrite foldl_app. cbn.
  intros n rt. destruct (decide (n = m)) as [->|Hn].
  - rewrite dict_lookup_insert_eq. by intros [= <-].
  - rewrite dict_lookup_insert_ne by done. apply IH.
Qed.
(** No stop loss delays a re-entry.  Whatever a trader does from its
    start, exits at a stop loss included, its re-entry trackers were told of
    no stop loss: asked whether a symbol may be entered again, they never
    refuse. *)
Theorem reentry_never_refused (k : clock) (x : X) (os : list trader_op) (symbol direction : string) (score : Z) :
  (reentry_allows s symbol direction score (run_ops os (new_trader k s x))).1 ≠ Ok false.
Proof.
  assert (untold (run_ops os (new_trader k s x))) as H.
  { unfold run_ops. apply foldl_inv; [exact (build_untold _)|]. intros t o _ Ht. by apply run_op_untold. }
  set (t := run_ops os _) in *. clearbody t. unfold reentry_allows, mbind, st_bind, st_get. destruct (tr_trackers t !! symbol) as [rt|] eqn:E.
  - specialize (H _ _ E). unfold evaluate_reentry, mbind, st_bind, st_lift. destruct (read_reentry _) as [c|]; [|done]. cbv zeta.
    destruct (ec_enabled c); cbn [negb]; [|done]. by rewrite H.
  - done.
Qed.
End histories.

(** ** The daily limit *)

(** [counting p] behaves as [p] and counts the entries that were executed. *)
Section counting.
Context {X : Type} (s : trader_settings).
Definition counting (p : trader_port X) : trader_port (X * Z) := {|
  tp_price n := on_first (tp_price p n);
  tp_entry := (λ f n d q x, counted id (f n d q x)) <$> tp_entry p;
  tp_exit := (λ f n q x, on_first (f n q x)) <$> tp_exit p;
  tp_send m := on_first (tp_send p m) |}.
Context (p : trader_port X).
Abbreviation W := (trader (X * Z)).
Definition made (t : W) : Z := (tr_ext t).2.
(** No more entries than the counter grew by, and the counter within the
    limit once it has grown. *)
Definition within (t t' : W) : Prop :=
  made t' - made t <= tr_trades t' - tr_trades t ∧ tr_trades t <= tr_trades t' <= Z.max (tr_trades t) (ts_max s).
#[local] Instance within_preorder : PreOrder within.
Proof. split; [intros t; unfold within; lia|]. intros t1 t2 t3. unfold within. lia. Qed.
(** Steps that count nothing. *)
Definition idle (t t' : W) : Prop := made t' = made t ∧ tr_trades t' = tr_trades t.
#[local] Instance idle_preorder : PreOrder idle.
Proof. split; [by split|]. intros t1 t2 t3 [? ?] [? ?]. split; congruence. Qed.
Lemma first_idle {A} (m : ST X A) : st_rel idle (call (on_first m)).
Proof. intros t. unfold call, st_zoom, on_first, st_zoom. destruct (m _). by split. Qed.
Lemma now_idle : st_rel idle (now_ist (W:=W)).
Proof. intros t. by rewrite now_ist_total. Qed.
Lemma time_idle : st_rel idle (time_time (W:=W)).
Proof. intros t. by rewrite time_time_total. Qed.
Lemma modify_idle f : (∀ t : W, idle t (f t)) → st_rel idle (st_modify f).
Proof. intros H t. apply H. Qed.
Lemma allows_idle n d k : st_rel idle (reentry_allows (X:=X * Z) s n d k).
Proof. unfold reentry_allows, evaluate_reentry. rel_auto ltac:(apply time_idle). Qed.
Lemma outcome_idle n b : st_rel idle (record_trade_outcome (X:=X * Z) n b).
Proof. apply modify_idle. intros t. by destruct (tr_trackers t !! n). Qed.
Lemma exit_idle n r : st_rel idle (exit_position (counting p) n r).
Proof.
  unfold exit_position. cbn [counting tp_exit tp_send tp_price]. destruct (tp_exit p); cbn [fmap option_fmap option_map];
  rel_auto ltac:(first [apply first_idle | apply outcome_idle | apply modify_idle; intros t; by split]).
Qed.
Lemma monitor_idle : st_rel idle (monitor_positions s (counting p)).
Proof.
  unfold monitor_positions. apply st_rel_bind; [typeclasses eauto|apply st_rel_get; typeclasses eauto|]. intros t.
  apply st_rel_iter; [typeclasses eauto|]. intros n _. unfold monitor_one. cbn [counting tp_price].
  rel_auto ltac:(first [apply exit_idle | apply first_idle | apply modify_idle; intros u; repeat case_match; by split]).
Qed.
(** An executed entry is one of the counter; then it is booked. *)
Definition one_more (t : W) (r : res bool) (t' : W) : Prop :=
  tr_trades t' = tr_trades t ∧ made t' <= made t + (match r with Ok true => 1 | _ => 0 end).
Lemma executed_one n d q x (t : W) : one_more t (executed (counting p) n d q x t).1 (executed (counting p) n d q x t).2.
Proof.
  unfold executed. cbn [counting tp_entry]. destruct (tp_entry p) as [f|]; cbn [fmap option_fmap option_map]; [|split; cbn; [done|lia]].
  unfold st_try, call, st_zoom, counted, on_first, st_zoom, mbind, st_bind. destruct (f n d q x _) as [[b|e] y]; cbn.
  - split; [done|]. unfold made. cbn. destruct b; cbn; lia.
  - destruct (catches _ e); cbn; (split; [done|]; unfold made; cbn; lia).
Qed.
Lemma idle_within {A} (m : ST W A) : st_rel idle m → st_rel within m.
Proof. intros H t. destruct (H t) as [? ?]. unfold within. lia. Qed.
(** After idle steps, what began with room for one more. *)
Definition room (t : W) : Prop := tr_trades t < ts_max s.
(** Idle steps from a state like [t0]. *)
Lemma wp_idle {A B} (m : TM (X * Z) A) (f : A → TM (X * Z) B) (t0 t : W) Q :
  st_rel idle m → idle t0 t → (∀ e t', idle t0 t' → Q (Raise e) t') → (∀ a t', idle t0 t' → st_wp (f a) t' Q) → st_wp (m ≫= f) t Q.
Proof.
  intros Hm H0 He Hf. apply (wp_rel idle); [exact Hm|intros e t' H; apply He; by etransitivity|intros a t' H; apply Hf; by etransitivity].
Qed.
Lemma booked_within n d k r q x (t0 t : W) :
  tr_trades t0 < ts_max s → tr_trades t = tr_trades t0 → made t <= made t0 + 1 →
  st_wp (book s n d k r q x ;; call (tp_send (counting p) (cat ["[EQUITY] Entered "; n; " ["; class_of s n; "] "; d; " x"; str_of_Z q; " @ "; fmt_f 2 x])) ;;
         mret true) t (λ _ t', within t0 t').
Proof.
  intros Hr Ht Hm. unfold book. apply wp_bind. set (b := (_ ≫= _) : TM (X * Z) unit).
  assert (∃ u, b t = (Ok (), u) ∧ tr_trades u = tr_trades t + 1 ∧ made u = made t) as (u & E & Hu & Hmu).
  { unfold b. rewrite (st_bind_ok _ _ _ _ _ (time_time_total t)). by eexists. }
  apply (wp_eq _ _ _ _ _ E). apply wp_bind. pose proof (first_idle (tp_send p (cat ["[EQUITY] Entered "; n; " ["; class_of s n; "] "; d; " x"; str_of_Z q; " @ "; fmt_f 2 x])) u) as I.
  unfold st_wp. cbn [counting tp_send]. destruct (call _ u) as [[[]|e] v]; cbn [fst snd mret st_ret] in *; unfold within; destruct I; lia.
Qed.
Lemma enter_within n d k r : st_rel within (enter_position s (counting p) n d k r).
Proof.
  intros t0. change (st_wp (enter_position s (counting p) n d k r) t0 (λ _ t', within t0 t')).
  assert (∀ t', idle t0 t' → within t0 t') as I by (intros t' []; unfold within; lia).
  unfold enter_position. apply (wp_idle _ _ t0); [unfold is_market_open; rel_auto ltac:(apply now_idle)|reflexivity|auto|].
  intros [|] t1 H1; cbn [negb]; [|exact (I _ H1)]. apply wp_bind. cbn. destruct (Z.leb_spec (ts_max s) (tr_trades t1)); [exact (I _ H1)|].
  destruct (dmem n _); [exact (I _ H1)|]. apply (wp_idle _ _ t0); [apply allows_idle|done|auto|]. intros [|] t2 H2; cbn [negb]; [|exact (I _ H2)].
  apply (wp_idle _ _ t0); [apply first_idle|done|auto|]. intros quote t3 H3. destruct (usable quote) as [x|]; [|exact (I _ H3)]. cbv zeta.
  apply wp_bind. pose proof (executed_one n d (get_position_size s n x) x t3) as [O1 O2]. unfold st_wp at 1.
  destruct (executed (counting p) n d (get_position_size s n x) x t3) as [[b|e] t4]; cbn [fst snd] in *.
  - destruct b; cbn [negb].
    + apply booked_within; destruct H1, H3; [lia|congruence|lia].
    + destruct H3. unfold st_wp, within. cbn. lia.
  - destruct H3. unfold within. lia.
Qed.

(** The operations of a day: no round of the thread comes between, which is
    what begins another day. *)
Definition same_day (o : trader_op) : Prop := o ≠ Round.
Lemma run_op_within o : same_day o → st_rel within (run_op s (counting p) o).
Proof.
  intros Ho. destruct o; cbn [run_op]; [|apply idle_within..]; try (by destruct Ho).
  - apply st_rel_bind; [typeclasses eauto|apply enter_within|]. intros _. apply st_rel_ret. typeclasses eauto.
  - rel_auto ltac:(apply exit_idle).
  - apply monitor_idle.
  - unfold start. rel_auto ltac:(first [apply first_idle | apply modify_idle; intros t; by split]).
  - unfold stop. apply modify_idle. intros t. by split.
Qed.
(** The daily limit holds.  Between two resets, whatever entries, exits,
    monitoring and failures of the callbacks come, no more entries are
    executed than the daily limit leaves. *)
Theorem executed_within_limit (os : list trader_op) (t : W) :
  Forall same_day os → made (run_ops s (counting p) os t) - made t <= Z.max 0 (ts_max s - tr_trades t).
Proof.
  intros Ho. assert (within t (run_ops s (counting p) os t)) as H.
  { unfold run_ops. apply foldl_inv; [reflexivity|]. intros u o Hin Hu. etransitivity; [exact Hu|].
    apply run_op_within. by eapply Forall_forall in Ho. }
  unfold within in H. lia.
Qed.
End counting.

(** ** The monitor *)

Section monitor.
Context {X : Type} (s : trader_settings) (p : trader_port X) (quote : string → option float64).
(** Callbacks that answer: the price is [quote], messages are sent, an exit
    fails with an error the trader handles at most. *)
Record answering := Answering {
  an_price : ∀ n x, tp_price p n x = (Ok (quote n), x);
  an_send : ∀ m x, is_ok (tp_send p m x).1 = true;
  an_exit : ∀ f n q c x, tp_exit p = Some f → match (f n q c x).1 with Ok _ => True | Raise e => catches trade_errors e = true end }.
Context (A : answering).
(** The price [c] has moved from the entry to the stop or to the target: for
    a purchase down by at least the share [1 - SL], or up by at least
    [TARGET - 1]; for a sale the other way round. *)
Definition at_a_level (q : eq_position) (c : float64) : Prop :=
  let move := ((c - ep_entry q) / ep_entry q)%f64 in
  let loss := (f_one - ts_sl s)%f64 in
  let gain := (ts_target s - f_one)%f64 in
  (ep_direction q = "BUY"%string ∧ (fle move (fopp loss) = true ∨ fge move gain = true)) ∨
  (ep_direction q ≠ "BUY"%string ∧ (fge move loss = true ∨ fle move (fopp gain) = true)).
(** [q'] is [q] with the price [c] seen: the highest price is at least it. *)
Definition seen_at (c : float64) (q q' : eq_position) : Prop :=
  q' = EqPosition (ep_direction q) (ep_qty q) (ep_entry q) (ep_time q) (ep_score q) (ep_reason q)
         (ep_peak q') (ep_class q) (Some c) ∧
  (fgt c (ep_peak q) = true ∧ ep_peak q' = c ∨ fgt c (ep_peak q) = false ∧ ep_peak q' = ep_peak q).
(** What is to become of a position: without a positive price, or without a
    positive entry price, nothing; at a level it goes; otherwise it is seen. *)
Definition watched (n : string) (q : eq_position) (o : option eq_position) : Prop :=
  match quote n with
  | Some c =>
      if fle c f_zero || fle (ep_entry q) f_zero then o = Some q
      else (at_a_level q c ∧ o = None) ∨ (¬ at_a_level q c ∧ ∃ q', o = Some q' ∧ seen_at c q q')
  | None => o = Some q
  end.
Definition becomes (n : string) (o o' : option eq_position) : Prop :=
  match o with Some q => watched n q o' | None => o' = None end.
(** A position with a quantity that is a float and an entry price that is a
    number. *)
Definition fits_float (q : eq_position) : Prop := is_nan (ep_entry q) = false ∧ ∃ f, float_of_Z (ep_qty q) = Ok f.

Lemma positive_price x : is_nan x = false → fle x f_zero = false → fgt x f_zero = true.
Proof. by destruct x as [[]|[]| |[] ? ?]. Qed.
Lemma level_reason q c : is_nan (ep_entry q) = false → fle (ep_entry q) f_zero = false →
  (at_a_level q c ↔ ∃ why, exit_reason s q c = Some why).
Proof.
  intros Hn Hp. unfold at_a_level, exit_reason, move_pct. rewrite positive_price by done. cbv zeta.
  set (m := ((c - ep_entry q) / ep_entry q)%f64). set (loss := (f_one - ts_sl s)%f64). set (gain := (ts_target s - f_one)%f64).
  destruct (String.eqb_spec (ep_direction q) "BUY") as [Hd|Hd].
  - destruct (fle m (fopp loss)); [by split; eauto|]. destruct (fge m gain); [by split; eauto|].
    split; [|by intros [? ?]]. by intros [[_ [?|?]]|[? _]].
  - destruct (fge m loss); [by split; eauto|]. destruct (fle m (fopp gain)); [by split; eauto|].
    split; [|by intros [? ?]]. by intros [[? _]|[_ [?|?]]].
Qed.
Lemma touch_seen c q : seen_at c q (touch c q).
Proof. unfold seen_at, touch. cbn. split; [done|]. destruct (fgt c (ep_peak q)); auto. Qed.

Lemma price_known n (t : trader X) : call (tp_price p n) t = (Ok (quote n), t).
Proof. unfold call, st_zoom. rewrite (an_price A). by destruct t. Qed.
Lemma send_answers m (t : trader X) : ∃ x, call (tp_send p m) t = (Ok (), put_ext x t).
Proof.
  unfold call, st_zoom. pose proof (an_send A m (tr_ext t)) as H. destruct (tp_send p m _) as [[[]|] x]; [|done]. by exists x.
Qed.
Lemma exit_answers n q c (t : trader X) :
  ∃ x, (match tp_exit p with Some f => st_try (call (f n q c)) trade_errors (λ _, mret ()) | None => mret () end) t = (Ok (), put_ext x t).
Proof.
  destruct (tp_exit p) as [f|] eqn:E; [|exists (tr_ext t); by destruct t]. unfold st_try, call, st_zoom.
  pose proof (an_exit A f n q c (tr_ext t) E) as H. destruct (f n q c _) as [[[]|e] x]; cbn in H; [|rewrite H]; by exists x.
Qed.
Lemma exit_deletes n r (t : trader X) q : tr_positions t !! n = Some q → fits_float q →
  ∃ t', exit_position p n r t = (Ok true, t') ∧ tr_positions t' = delete n (tr_positions t).
Proof.
  intros Hq [_ [f Hf]]. unfold exit_position. rewrite (st_bind_ok st_get _ t t t) by done. rewrite Hq.
  set (t1 := put_positions (delete n (tr_positions t)) t). rewrite (st_bind_ok _ _ t () t1) by done.
  rewrite (st_bind_ok _ _ _ _ _ (price_known n t1)). cbv zeta.
  destruct (exit_pnl q (exit_price q (quote n))) as [pnl|] eqn:Ep; [|unfold exit_pnl in Ep; by rewrite Hf in Ep].
  rewrite (st_bind_ok (st_lift _) _ t1 pnl t1) by done.
  destruct (exit_answers n (ep_qty q) (exit_price q (quote n)) t1) as [x E]. rewrite (st_bind_ok _ _ _ _ _ E).
  match goal with |- context [call (tp_send p ?m)] => destruct (send_answers m (put_ext x t1)) as [y E2] end.
  rewrite (st_bind_ok _ _ _ _ _ E2). eexists. split; [reflexivity|]. by destruct (tr_trackers _ !! n).
Qed.
Lemma monitor_one_exact n (t : trader X) : (∀ q, tr_positions t !! n = Some q → fits_float q) →
  ∃ t', monitor_one s p n t = (Ok (), t') ∧ becomes n (tr_positions t !! n) (tr_positions t' !! n) ∧
    ∀ m, m ≠ n → tr_positions t' !! m = tr_positions t !! m.
Proof.
  intros Hf. unfold monitor_one, becomes. rewrite (st_bind_ok st_get _ t t t) by done.
  destruct (tr_positions t !! n) as [q|] eqn:Eq; [|exists t; by rewrite Eq].
  rewrite (st_bind_ok _ _ _ _ _ (price_known n t)). unfold watched. cbn [usable].
  destruct (quote n) as [c|]; [|exists t; by rewrite Eq]. cbn [usable].
  destruct (fle c f_zero); [exists t; by rewrite Eq|]. cbn [orb].
  destruct (fle (ep_entry q) f_zero) eqn:Ep; [exists t; by rewrite Eq|].
  set (t1 := put_positions (<[n := touch c q]> (tr_positions t)) t).
  assert (st_modify (λ t, match tr_positions t !! n with Some q' => put_positions (<[n := touch c q']> (tr_positions t)) t | None => t end) t =
          (Ok (), t1)) as E1 by (unfold st_modify; by rewrite Eq).
  rewrite (st_bind_ok _ _ _ _ _ E1). destruct (Hf _ eq_refl) as [Hn _]. pose proof (level_reason q c Hn Ep) as Hl.
  destruct (exit_reason s q c) as [why|].
  - destruct (exit_deletes n why t1 (touch c q)) as (t2 & E2 & D); [apply dict_lookup_insert_eq|exact (Hf _ eq_refl)|].
    rewrite (st_bind_ok _ _ _ _ _ E2). exists t2. split; [done|]. rewrite D. split.
    + left. split; [apply Hl; eauto|apply dict_lookup_delete_eq].
    + intros m Hm. rewrite dict_lookup_delete_ne by done. apply dict_lookup_insert_ne. done.
  - exists t1. split; [done|]. split.
    + right. split; [by intros [why ?]%Hl|]. exists (touch c q). split; [apply dict_lookup_insert_eq|apply touch_seen].
    + intros m Hm. by apply dict_lookup_insert_ne.
Qed.
(** C22: The monitor does what it says.  With callbacks that answer, a look at
    the positions closes exactly those whose price, if it is a positive
    number, has moved from their entry price to the stop or the target of
    their side (a purchase loses downwards, a sale upwards), keeps the others
    with the new price and their highest price, and leaves those without a
    price as they were; no position appears. *)
Theorem monitor_exact (t : trader X) :
  dict_wf (tr_positions t) → (∀ n q, tr_positions t !! n = Some q → fits_float q) →
  ∃ t', monitor_positions s p t = (Ok (), t') ∧ ∀ n, becomes n (tr_positions t !! n) (tr_positions t' !! n).
Proof.
  intros Hw Hf. unfold monitor_positions. rewrite (st_bind_ok st_get _ t t t) by done.
  assert (∀ ns u, NoDup ns → (∀ n, n ∈ ns → tr_positions u !! n = tr_positions t !! n) →
    ∃ t', st_iter (monitor_one s p) ns u = (Ok (), t') ∧
      ∀ n, if decide (n ∈ ns) then becomes n (tr_positions t !! n) (tr_positions t' !! n)
           else tr_positions t' !! n = tr_positions u !! n) as H.
  { induction ns as [|n ns IH]; intros u Hn Hu; [by exists u|]. apply NoDup_cons in Hn as [Hn Hns].
    destruct (monitor_one_exact n u) as (u' & E & D & O). { intros q. rewrite Hu by (by left). apply Hf. }
    cbn [st_iter]. rewrite (st_bind_ok _ _ _ _ _ E). destruct (IH u' Hns) as (t' & E' & D').
    { intros m Hm. rewrite O by (intros ->; done). apply Hu. by right. }
    exists t'. split; [exact E'|]. intros m. specialize (D' m). destruct (decide (m ∈ ns)) as [Hm|Hm].
    - by rewrite decide_True by (by right).
    - rewrite D'. destruct (decide (m = n)) as [->|Hmn].
      + rewrite decide_True by (by left). by rewrite <- Hu by (by left).
      + rewrite decide_False by (intros [?|?]%elem_of_cons; done). by apply O. }
  destruct (H (dkeys (tr_positions t)) t Hw (λ _ _, eq_refl)) as (t' & E & D). exists t'. split; [exact E|].
  intros n. specialize (D n). case_decide as Hn; [done|]. rewrite D. unfold becomes.
  destruct (tr_positions t !! n) as [q|] eqn:E2; [|done]. exfalso. apply Hn.
  unfold dkeys. apply (list_elem_of_fmap_2 fst _ (n, q)). by apply dict_items_lookup.
Qed.
End monitor.

(** ** A concrete trader *)

Definition shares : trader_config := TraderConfig
  (λ a, match a with
        | EQUITY => ClassConfig None (PyDict [("TCS", ∅); ("INFY", ∅)])%string (Some ["TCS"; "INFY"; "ITC"])%string None
        | _ => ClassConfig None ∅ None None end)
  (PyDict [("reentry_enabled", VBool true); ("EQUITY_MAX_DAILY_TRADES", VInt 2)])%string.
Definition shares_settings : trader_settings :=
  TraderSettings ["TCS"; "INFY"]%string ["TCS"; "INFY"]%string (PyDict [("TCS", EQUITY); ("INFY", EQUITY)])%string (lit 95 2) (lit 105 2) 2 1 (λ _, 1)
    (tc_values shares).
Example read_shares : match read_trader shares with
  | Ok s => ts_all s = ts_all shares_settings ∧ ts_equity s = ts_equity shares_settings ∧ ts_index s = ts_index shares_settings ∧
      ts_sl s = lit 95 2 ∧ ts_target s = lit 105 2 ∧ ts_max s = 2 ∧ ts_qty s = 1
  | Raise _ => False end.
Proof. vm_compute. repeat split. Qed.
(** The state of the callbacks is the price of everything. *)
Definition paper_port (exit : option (string → Z → float64 → ST float64 unit)) : trader_port float64 := {|
  tp_price _ x := (Ok (Some x), x); tp_entry := None; tp_exit := exit; tp_send _ := mret () |}.
(** Ten o'clock of a Thursday. *)
Definition ten : clock := Clock (new_year * usec_per_day + minutes 600) [].
Definition at_100 : trader float64 := new_trader ten shares_settings (f_of_Z 100).
Definition buy (n : string) : trader_op := Enter n "BUY" 70 "signal_pipeline".
Definition day_run (p : trader_port float64) (prices : list (float64 * trader_op)) : trader float64 :=
  foldl (λ t q, (run_op shares_settings p q.2 (put_ext q.1 t)).2) at_100 prices.
Definition plain_port : trader_port float64 := paper_port None.
(** Stopped at six per cent, and entered again at once. *)
Example stopped_and_back :
  dkeys (tr_positions (day_run plain_port [(f_of_Z 100, buy "TCS")])) = ["TCS"%string] ∧
  dkeys (tr_positions (day_run plain_port [(f_of_Z 100, buy "TCS"); (f_of_Z 94, Monitor)])) = [] ∧
  dkeys (tr_positions (day_run plain_port [(f_of_Z 100, buy "TCS"); (f_of_Z 94, Monitor); (f_of_Z 94, buy "TCS")])) = ["TCS"%string].
Proof. vm_compute. repeat split. Qed.
Example third_refused :
  tr_trades (day_run plain_port [(f_of_Z 100, buy "TCS"); (f_of_Z 100, Exit "TCS" "MANUAL"); (f_of_Z 100, buy "INFY"); (f_of_Z 100, buy "TCS")]) = 2.
Proof. vm_compute. reflexivity. Qed.
(** The broker refuses the exit: the position is forgotten all the same. *)
Example failed_exit_forgets :
  dkeys (tr_positions (day_run (paper_port (Some (λ _ _ _, st_raise (PyExn OSError "connection reset"))))
    [(f_of_Z 100, buy "TCS"); (f_of_Z 94, Monitor)])) = [].
Proof. vm_compute. reflexivity. Qed.
(** Bought at a price that is no number, a position has no stop. *)
Example no_number_no_stop :
  dkeys (tr_positions (day_run plain_port [(f_nan, buy "TCS"); (f_of_Z 1, Monitor); (f_of_Z 900, Monitor)])) = ["TCS"%string].
Proof. vm_compute. reflexivity. Qed.
(** Funds without shares: nothing may be traded. *)
Definition funds : trader_config := TraderConfig
  (λ a, match a with
        | EQUITY => ClassConfig (Some (VBool false)) ∅ None None
        | ETF => ClassConfig (Some (VBool true)) (PyDict [("NIFTYBEES", ∅)])%string (Some ["NIFTYBEES"]%string) None
        | _ => ClassConfig None ∅ None None end) ∅.
Example funds_never_traded : match read_trader funds with
  | Ok s => ts_all s = ["NIFTYBEES"%string] ∧ (can_trade s at_100).1 = Ok (false, "No equity symbols configured"%string)
  | Raise _ => False end.
Proof. vm_compute. repeat split. Qed.

Definition rising_share : indicators :=
  Indicators (f_of_Z 101) (f_of_Z 100) f_one (lit 24 1) (f_of_Z 60) f_one (f_of_Z 30) f_one f_one "UP".
Example best_score : match evaluate_equity_signal "TCS" (Some 30) (Ok rising_share) with
  | Ok (Some g) => sg_score g = 83 ∧ sg_direction g = Some "BUY"%string ∧ sg_strength g = "STRONG"%string
  | _ => False end.
Proof. vm_compute. repeat split. Qed.
Lemma actionable_signal_witness :
  ∃ g, evaluate_equity_signal "TCS" (Some 30) (Ok rising_share) = Ok (Some g) ∧ sg_score g = total (sg_components g).
Proof.
  destruct (evaluate_equity_signal "TCS" (Some 30) (Ok rising_share)) as [[g|]|e] eqn:E; [|vm_compute in E; discriminate..].
  exists g. split; [reflexivity|]. apply (actionable_signal _ _ _ _ E).
Defined.
Lemma executed_within_limit_witness :
  made (run_ops shares_settings (counting plain_port) [buy "TCS"; Monitor; buy "INFY"; Stop]%string
    (Trader ten ∅ 0 None ∅ false (f_of_Z 100, 0))) <= 2.
Proof.
  pose proof (executed_within_limit shares_settings plain_port [buy "TCS"; Monitor; buy "INFY"; Stop]%string
    (Trader ten ∅ 0 None ∅ false (f_of_Z 100, 0))) as H.
  rewrite Z.sub_0_r in H. apply H. by repeat constructor.
Defined.
Definition fixed_port : trader_port unit := {|
  tp_price _ x := (Ok (Some (f_of_Z 94)), x); tp_entry := None; tp_exit := None; tp_send _ := mret () |}.
Definition held_share : eq_position := EqPosition "BUY" 1 (f_of_Z 100) f_zero 70 EmptyString (f_of_Z 100) "EQUITY" None.
Definition holding : trader unit := Trader ten (PyDict [("TCS", held_share)])%string 1 None ∅ true ().
Lemma fixed_answers : answering fixed_port (λ _, Some (f_of_Z 94)).
Proof. by split. Qed.
Lemma monitor_exact_witness : ∃ t', monitor_positions shares_settings fixed_port holding = (Ok (), t') ∧ tr_positions t' !! "TCS"%string = None.
Proof.
  destruct (monitor_exact shares_settings fixed_port _ fixed_answers holding) as (t' & E & H).
  - vm_compute. repeat constructor. by intros ?%not_elem_of_nil.
  - intros n q Hq. assert (q = held_share) as ->.
    { revert Hq. cbn. unfold lookup, pydict_lookup. cbn. destruct (String.eqb n "TCS"); [by intros [= <-]|done]. }
    split; [reflexivity|]. eexists. vm_compute. reflexivity.
  - exists t'. split; [exact E|]. destruct (H "TCS"%string) as [[_ H1]|[H1 _]]; [exact H1|].
    destruct H1. left. split; [reflexivity|]. left. vm_compute. reflexivity.
Defined.
