(* ===== verification/ExecutionPolicy.v ===== *)
(** * The policy between a signal and its order

    [core/execution_policy.py], with [tier_bounds_from_config] and
    [get_tier_rules] of [core/tier_engine.py]: whether a signal is traded,
    with how many lots, and how its stop and target are adjusted.  The
    tiers and the sizer are those of [CapitalManager]. *)
From S2P Require Import Prelude PyStr Float64 PyDict PyVal CapitalManager Positions PositionEntry.

(** ** The configuration *)

(** A rule of [custom_skip_rules]: its scalars, and its list of regimes. *)
Record skip_rule := SkipRule { sr_fields : pyrec; sr_regimes : option (list string) }.
(** The configuration, its section [execution_policy], and the rules of
    that section. *)
Record policy_config := PolicyConfig { pc_values : pyrec; pc_policy : pyrec; pc_rules : list skip_rule }.

Record bounds := Bounds { bd_strong : Z; bd_moderate : Z; bd_weak : Z }.
Definition tier_bounds_from_config (cfg : pyrec) : res bounds :=
  rbind (py_int (rget "TIER_STRONG_MIN" (VInt TIER_STRONG_MIN) cfg)) (λ s,
  rbind (py_int (rget "TIER_MODERATE_MIN" (VInt TIER_MODERATE_MIN) cfg)) (λ m,
  rbind (py_int (rget "TIER_WEAK_MIN" (VInt TIER_WEAK_MIN) cfg)) (λ w, Ok (Bounds s m w)))).
Definition tier_in (b : bounds) (score : Z) : string := classify_tier (bd_strong b) (bd_moderate b) (bd_weak b) score.
(** [get_tier_rules] *)
Definition get_tier_rules (b : bounds) (score : Z) : res tier_rules :=
  match TIER_RULES !! tier_in b score with
  | Some r => Ok r
  | None => Raise (PyExn KeyError (tier_in b score))
  end.

Definition WEAK_SKIP_REGIMES : list string := ["SIDEWAYS"; "CHOPPY"; "EVENT"].
Definition MODERATE_SIZE_CUT_REGIMES : list string := ["HIGH_VOLATILITY"; "SIDEWAYS"].

(** ** The quality of a signal *)

Definition REGIME_ADJ : pydict float64 := PyDict
  [("TRENDING", lit 5 2); ("NEUTRAL", f_zero); ("SIDEWAYS", fopp (lit 10 2)); ("CHOPPY", fopp (lit 15 2));
   ("HIGH_VOLATILITY", fopp (lit 5 2)); ("EVENT", fopp (lit 20 2))]%string.
(** [(n / d)] of two integers *)
Definition int_ratio (n d : Z) : res float64 :=
  match f_of_ratio n d with
  | S754_infinity _ => Raise (PyExn OverflowError "integer division result too large for a float")
  | x => Ok x
  end.
Definition capped (most lo width x : float64) : float64 := if fge x lo then py_min most ((x - lo) / width * most)%f64 else f_zero.
Definition healthy_rsi (direction : string) (rsi : float64) : bool :=
  let zone lo hi := fle (f_of_Z lo) rsi && fle rsi (f_of_Z hi) in
  (String.eqb direction "CALL" && zone 40 70) || (String.eqb direction "PUT" && zone 30 60).
Definition regime_named (r : pyrec) : string :=
  py_str (v_or (rget "mkt_regime" VNone r) (rget "regime" (VStr "NEUTRAL") r)).
Definition breakout_ok (r : pyrec) : bool := truthy (rget "breakout_ok" (VBool false) r).
(** [_quality_score] *)
Definition quality_score (r : pyrec) : res float64 :=
  rbind (py_int (rget "score" (VInt 0) r)) (λ score,
  rbind (py_float (rget "vol_ratio" (VFloat f_zero) r)) (λ vol,
  rbind (py_float (rget "adx" (VFloat f_zero) r)) (λ adx,
  rbind (py_float (rget "rsi" (VFloat (f_of_Z 50)) r)) (λ rsi,
  rbind (int_ratio (score - TIER_WEAK_MIN) (100 - TIER_WEAK_MIN)) (λ part,
  let q0 := (f_zero + py_min f_one (py_max f_zero part) * lit 40 2)%f64 in
  let q1 := (q0 + if breakout_ok r then lit 20 2 else f_zero)%f64 in
  let q2 := (q1 + capped (lit 15 2) f_one (f_of_Z 2) vol)%f64 in
  let q3 := (q2 + capped (lit 15 2) (f_of_Z 10) (f_of_Z 20) adx)%f64 in
  let q4 := if healthy_rsi (py_str (rget "direction" (VStr "CALL") r)) rsi then (q3 + lit 10 2)%f64 else q3 in
  let q5 := (q4 + default f_zero (REGIME_ADJ !! regime_named r))%f64 in
  Ok (py_round (py_max f_zero (py_min f_one q5)) 3)))))).

(** ** The configured rules *)

Definition tier_order : pydict Z := PyDict [("IGNORE", 0); ("WEAK", 1); ("MODERATE", 2); ("STRONG", 3)]%string.
Definition rank_of (v : pyval) : Z := match v with VStr s => default 0 (tier_order !! s) | _ => 0 end.
(** [_eval_skip_rule] *)
Definition eval_skip_rule (r : pyrec) (regime : string) (rule : skip_rule) (cfg : pyrec) : res bool :=
  rbind (py_int (rget "score" (VInt 0) r)) (λ score,
  rbind (py_float (rget "vol_ratio" (VFloat f_zero) r)) (λ _,
  rbind (tier_bounds_from_config cfg) (λ b,
  let f := sr_fields rule in
  rbind (match f !! "score_max"%string with Some v => rbind (py_int v) (λ most, Ok (most <? score)) | None => Ok false end) (λ above,
  Ok (negb above
      && (if truthy (rget "require_breakout" VNone f) && negb (breakout_ok r) then true
          else negb (dmem "require_breakout" f))
      && match sr_regimes rule with Some l => str_mem regime l | None => true end
      && match f !! "tier_max"%string with Some v => rank_of (VStr (tier_in b score)) <=? rank_of v | None => true end))))).
Fixpoint first_rule (r : pyrec) (regime : string) (cfg : pyrec) (rules : list skip_rule) : res (option skip_rule) :=
  match rules with
  | [] => Ok None
  | rule :: rest => rbind (eval_skip_rule r regime rule cfg) (λ b, if b then Ok (Some rule) else first_rule r regime cfg rest)
  end.

(** ** The decision *)

Record decision := Decision {
  ed_trade : bool; ed_tier : string; ed_spec : option position_spec; ed_sl_mult : float64; ed_tp_mult : float64;
  ed_trail_enabled : bool; ed_trail_activate : float64; ed_trail_from_peak : float64; ed_partial_enabled : bool;
  ed_partial_pct : float64; ed_max_bars : float64; ed_mode : string; ed_reasons : list string; ed_quality : float64 }.
Definition lots_of (d : decision) : Z := match ed_spec d with Some s => ps_lots s | None => 0 end.
Definition position_pct (d : decision) : float64 := match ed_spec d with Some s => ps_effective s | None => f_zero end.
Definition skip (tier reason : string) : decision :=
  Decision false tier None f_one f_one true (lit 30 2) (lit 20 2) false f_zero f_one "SKIP" [reason] f_zero.

(** [int(config.get(..))] *)
Definition quality_min (cfg : policy_config) : res Z :=
  py_int (rget "quality_min_score" (rget "QUALITY_MIN_SCORE" (VInt 68) (pc_values cfg)) (pc_policy cfg)).
Definition trade_weak (cfg : policy_config) : bool :=
  truthy (rget "trade_weak" (rget "TIER_TRADE_WEAK" (VBool false) (pc_values cfg)) (pc_policy cfg)).
(** The first reason to leave a signal; the configured rules come last. *)
Definition vetoed (r : pyrec) (cfg : policy_config) (regime : string) (score : Z) (b : bounds) : res (option string) :=
  let tier_is t := String.eqb (tier_in b score) t in
  if tier_is "WEAK" && negb (trade_weak cfg) then Ok (Some "WEAK tier disabled (trade_weak=False)"%string)
  else if tier_is "WEAK" && str_mem regime WEAK_SKIP_REGIMES then Ok (Some (cat ["WEAK signal blocked in "; regime; " regime"]))
  else
    rbind (quality_min cfg) (λ q_min,
    if (score <? q_min) && negb (breakout_ok r) then
      Ok (Some (cat ["Quality filter: score "; str_of_Z score; " < "; str_of_Z q_min; " with no breakout confirmation"]))
    else if tier_is "MODERATE" && String.eqb regime "CHOPPY" then Ok (Some "MODERATE signal in CHOPPY regime - insufficient conviction"%string)
    else
      rbind (first_rule r regime (pc_values cfg) (pc_rules cfg)) (λ hit,
      Ok ((λ rule, cat ["Custom rule: "; py_str (rget "name" (VStr "unnamed") (sr_fields rule))]) <$> hit))).
(** The cut of a moderate signal *)
Definition cut_size (tier regime : string) (s : position_spec) : res position_spec :=
  if String.eqb tier "MODERATE" && str_mem regime MODERATE_SIZE_CUT_REGIMES then
    rbind (float_of_Z (ps_lots s)) (λ f, rbind (int_of_float (f * lit 70 2)%f64) (λ n,
    Ok (PositionSpec (ps_tier_base s) (ps_regime_adj s) (ps_score_adj s) (py_round (ps_effective s * lit 70 2)%f64 4) (Z.max 1 n))))
  else Ok s.
Definition mode_for (tier : string) (soft : list string) (partial : bool) : string :=
  if String.eqb tier "STRONG" && bool_decide (soft = []) then "FULL"
  else if String.eqb tier "MODERATE" then (if partial then "PARTIAL" else "FULL")
  else "REDUCED".
Definition tightened (regime : string) (most x : float64) : float64 := if String.eqb regime "HIGH_VOLATILITY" then py_min x most else x.
(** What a traded signal is given; the line that lists the soft blocks is
    left out of the reasons. *)
Definition grant (s : trade_signal) (cfg : policy_config) (regime : string) (max_lots : Z) (capital : float64) (score : Z) (b : bounds) :
    res decision :=
  let tier := tier_in b score in
  rbind (quality_score (ts_fields s)) (λ quality,
  rbind (py_float (rget "atr" (VFloat f_zero) (ts_fields s))) (λ _,
  rbind (calculate score tier regime max_lots capital) (λ spec,
  rbind (cut_size tier regime spec) (λ spec,
  rbind (get_tier_rules b score) (λ rules,
  let partial := tr_partial_exit_enabled rules && truthy (rget "PARTIAL_EXIT_ENABLED" (VBool true) (pc_values cfg)) in
  Ok (Decision true tier (Some spec)
        (tightened regime (lit 85 2) (tr_sl_mult_adj rules)) (tightened regime (lit 75 2) (tr_tp_mult_adj rules))
        (tr_trail_enabled rules) (tr_trail_activate_pct rules) (tr_trail_from_peak_pct rules) partial
        (tr_partial_exit_pct rules) (tr_max_bars_mult rules) (mode_for tier (ts_soft_blocks s) partial)
        [cat ["tier="; tier; " score="; str_of_Z score; " regime="; regime];
         cat ["position="; fmt_pct 0 (ps_effective spec); " ("; str_of_Z (ps_lots spec); "/"; str_of_Z max_lots; " lots)"];
         cat ["quality="; fmt_f 2 quality]] quality)))))).
(** [ExecutionPolicy.apply] *)
Definition apply (s : trade_signal) (cfg : policy_config) (regime : string) (max_lots : Z) (capital : float64) : res decision :=
  rbind (py_int (rget "score" (VInt 0) (ts_fields s))) (λ score,
  rbind (tier_bounds_from_config (pc_values cfg)) (λ b,
  let tier := tier_in b score in
  if String.eqb tier "IGNORE" then
    Ok (skip tier (cat ["score "; str_of_Z score; " below WEAK_MIN "; str_of_Z (bd_weak b); " - IGNORE tier"]))
  else
    rbind (vetoed (ts_fields s) cfg regime score b) (λ v,
    match v with Some why => Ok (skip tier why) | None => grant s cfg regime max_lots capital score b end))).
(** [enrich_signal_with_policy]: the fields merged into the signal, and the
    reasons. *)
Definition enriched (d : decision) : list (string * pyval) :=
  [("exec_tier", VStr (ed_tier d)); ("exec_trade", VBool (ed_trade d)); ("exec_mode", VStr (ed_mode d));
   ("exec_lots", VInt (lots_of d)); ("exec_position_pct", VFloat (py_round (position_pct d * f_of_Z 100)%f64 1));
   ("exec_quality", VFloat (ed_quality d)); ("exec_sl_mult", VFloat (ed_sl_mult d)); ("exec_tp_mult", VFloat (ed_tp_mult d))]%string.
Definition enrich_signal_with_policy (s : trade_signal) (cfg : policy_config) (max_lots : Z) (capital : float64) :
    res (trade_signal * list string) :=
  let r := ts_fields s in
  let regime := py_str (v_or (v_or (rget "mkt_regime" VNone r) (rget "regime" VNone r)) (VStr "NEUTRAL")) in
  rbind (apply s cfg regime max_lots capital) (λ d,
  Ok (put_fields (foldl (λ r p, <[p.1 := p.2]> r) r (enriched d)) s, ed_reasons d)).

(** ** Theorems *)

Lemma first_rule_none r regime cfg rules :
  first_rule r regime cfg rules = Ok None ↔ Forall (λ rule, eval_skip_rule r regime rule cfg = Ok false) rules.
Proof.
  induction rules as [|rule rest IH]; cbn; [by split|]. rewrite Forall_cons.
  destruct (eval_skip_rule r regime rule cfg) as [[]|e]; cbn; [by split; [|intros [? _]]| |by split; [|intros [? _]]].
  rewrite IH. naive_solver.
Qed.
Lemma rbind_none {A B} (m : res (option A)) (f : A → B) : rbind m (λ o, Ok (f <$> o)) = Ok None ↔ m = Ok None.
Proof. destruct m as [[]|]; cbn; split; congruence. Qed.

(** What a signal must pass. *)
Record passes (r : pyrec) (cfg : policy_config) (regime : string) (score : Z) (b : bounds) (q_min : Z) : Prop := {
  ps_tier : tier_in b score ≠ "IGNORE"%string;
  ps_weak : tier_in b score = "WEAK"%string → trade_weak cfg = true ∧ regime ∉ WEAK_SKIP_REGIMES;
  ps_quality : q_min <= score ∨ breakout_ok r = true;
  ps_choppy : tier_in b score = "MODERATE"%string → regime ≠ "CHOPPY"%string;
  ps_rules : Forall (λ rule, eval_skip_rule r regime rule (pc_values cfg) = Ok false) (pc_rules cfg) }.
Lemma veto_if {A} (c : bool) (x : A) (m : res (option A)) : (if c then Ok (Some x) else m) = Ok None ↔ c = false ∧ m = Ok None.
Proof. destruct c; naive_solver. Qed.
Lemma vetoed_none r cfg regime score b q_min : quality_min cfg = Ok q_min → tier_in b score ≠ "IGNORE"%string →
  vetoed r cfg regime score b = Ok None ↔ passes r cfg regime score b q_min.
Proof.
  intros Hq Hi. unfold vetoed. rewrite Hq. cbn [rbind]. rewrite !veto_if, rbind_none, first_rule_none.
  rewrite !andb_false_iff, !negb_false_iff, !String.eqb_neq, Z.ltb_ge.
  assert (str_mem regime WEAK_SKIP_REGIMES = false ↔ regime ∉ WEAK_SKIP_REGIMES) as ->
    by (rewrite <- str_mem_spec; by destruct (str_mem _ _)).
  split; [|intros [_ Hw Hk Hm HF];
    destruct (decide (tier_in b score = "WEAK"%string)), (decide (tier_in b score = "MODERATE"%string)); intuition eauto].
  intros (H1 & H2 & H3 & H4 & H5). split; [done| |done| |done]; naive_solver.
Qed.
Lemma grant_trades s cfg regime m cap score b d : grant s cfg regime m cap score b = Ok d → ed_trade d = true.
Proof. unfold grant. intros H. unbind H q E1. unbind H a Ea. unbind H sp E2. unbind H cs Ec. unbind H r Er. by injection H as <-. Qed.
(** Which signals are traded.  A decision that is reached is to trade
    exactly when the score is in a tier, a weak signal is allowed and not in
    a regime without direction, the score is good enough or the breakout
    confirmed, a moderate signal is not in a choppy market, and none of the
    configured rules applies. *)
Theorem policy_exact (s : trade_signal) (cfg : policy_config) (regime : string) (max_lots score q_min : Z) (capital : float64)
    (b : bounds) (d : decision) :
  py_int (rget "score" (VInt 0) (ts_fields s)) = Ok score → tier_bounds_from_config (pc_values cfg) = Ok b →
  quality_min cfg = Ok q_min → apply s cfg regime max_lots capital = Ok d →
  ed_trade d = true ↔ passes (ts_fields s) cfg regime score b q_min.
Proof.
  intros Hs Hb Hq H. unfold apply in H. rewrite Hs, Hb in H. cbn [rbind] in H.
  destruct (String.eqb_spec (tier_in b score) "IGNORE") as [Hi|Hi]; [injection H as <-; split; [done|by intros []]|].
  unbind H v Ev. rewrite <- vetoed_none by done. rewrite Ev. destruct v as [why|].
  - by injection H as <-.
  - by apply grant_trades in H as ->.
Qed.

(** The rules of a tier leave the stop and the target where they are or
    bring them closer. *)
Lemma tier_terms b score r regime : get_tier_rules b score = Ok r →
  fle (tightened regime (lit 85 2) (tr_sl_mult_adj r)) f_one = true ∧ fle (tightened regime (lit 75 2) (tr_tp_mult_adj r)) f_one = true.
Proof.
  unfold get_tier_rules, tier_in, classify_tier.
  destruct (_ <=? _); [|destruct (_ <=? _); [|destruct (_ <=? _)]]; intros [= <-]; unfold tightened;
    destruct (String.eqb regime "HIGH_VOLATILITY"); vm_compute; by split.
Qed.
Lemma calculate_lots score b regime m cap sp : tier_in b score ≠ "IGNORE"%string →
  calculate score (tier_in b score) regime m cap = Ok sp → 1 <= ps_lots sp.
Proof.
  intros Hi H. unfold calculate in H.
  assert (∃ r, TIER_RULES !! tier_in b score = Some r ∧ feqb (tr_position_pct r) f_zero = false) as (r & Er & Ez).
  { unfold tier_in, classify_tier in *. repeat (destruct (_ <=? _); [eexists; split; [reflexivity|by vm_compute]|]). done. }
  rewrite Er, Ez in H. destruct (default (60, 100) (TIER_RANGES !! tier_in b score)) as [lo hi].
  destruct (capital_lots m cap) as [ml|]; [|done]. destruct (int_of_float _) as [n|]; [|done]. injection H as <-. cbn. lia.
Qed.
(** The terms of a decision.  A signal that is traded has at least one
    lot, and neither its stop nor its target is moved away; one that is left
    has no lots and the mode SKIP. *)
Theorem granted_terms (s : trade_signal) (cfg : policy_config) (regime : string) (max_lots : Z) (capital : float64) (d : decision) :
  apply s cfg regime max_lots capital = Ok d →
  if ed_trade d then 1 <= lots_of d ∧ ed_mode d ≠ "SKIP"%string ∧ fle (ed_sl_mult d) f_one = true ∧ fle (ed_tp_mult d) f_one = true
  else lots_of d = 0 ∧ ed_mode d = "SKIP"%string.
Proof.
  unfold apply. intros H. unbind H score Es. unbind H b Eb. destruct (String.eqb_spec (tier_in b score) "IGNORE") as [Hi|Hi].
  { by injection H as <-. }
  unbind H v Ev. destruct v as [why|]; [by injection H as <-|]. apply grant_trades in H as Ht. rewrite Ht.
  unfold grant in H. unbind H q E1. unbind H a Ea. unbind H sp Esp. unbind H cs Ec. unbind H r Er. injection H as <-.
  apply calculate_lots in Esp; [|done]. apply (tier_terms _ _ _ regime) in Er as [Hsl Htp].
  split_and!; [|unfold mode_for; by repeat case_match|exact Hsl|exact Htp].
  unfold lots_of. cbn. unfold cut_size in Ec. destruct (_ && _); [|by injection Ec as <-].
  unbind Ec f Ef. unbind Ec n En. injection Ec as <-. cbn. lia.
Qed.

(** ** Concrete signals *)

Definition signal_of (score : Z) (more : list (string * pyval)) (soft : list string) : trade_signal :=
  TradeSignal (PyDict (("score", VInt score) :: more)%string) soft.
Definition no_policy : policy_config := PolicyConfig ∅ ∅ [].
Definition decided (s : trade_signal) (cfg : policy_config) (regime : string) (max_lots : Z) : option (bool * string * Z) :=
  match apply s cfg regime max_lots (f_of_Z 100000) with Ok d => Some (ed_trade d, ed_mode d, lots_of d) | Raise _ => None end.
Example scores_and_regimes :
  decided (signal_of 85 [] []) no_policy "TRENDING" 5 = Some (true, "FULL", 4)%string ∧
  decided (signal_of 75 [] []) no_policy "NEUTRAL" 5 = Some (true, "PARTIAL", 2)%string ∧
  decided (signal_of 75 [] []) no_policy "CHOPPY" 5 = Some (false, "SKIP", 0)%string ∧
  decided (signal_of 65 [] []) no_policy "TRENDING" 5 = Some (false, "SKIP", 0)%string ∧
  decided (signal_of 59 [] []) no_policy "TRENDING" 5 = Some (false, "SKIP", 0)%string.
Proof. vm_compute. repeat split. Qed.
(** The cut of a moderate signal leaves a single lot as it is, and soft
    blocks change the mode of a strong one but not its lots. *)
Example cut_leaves_one_lot :
  decided (signal_of 75 [] []) no_policy "SIDEWAYS" 1 = Some (true, "PARTIAL", 1)%string ∧
  decided (signal_of 85 [] ["late"]%string) no_policy "TRENDING" 5 = Some (true, "REDUCED", 4)%string.
Proof. vm_compute. repeat split. Qed.
(** A rule that says [require_breakout: false] never applies, whatever else
    it says. *)
Lemma rule_switched_off r regime cfg rule v : sr_fields rule !! "require_breakout"%string = Some v → truthy v = false →
  eval_skip_rule r regime rule cfg ≠ Ok true.
Proof.
  intros Hv Ht H. unfold eval_skip_rule in H. unbind H a Ea. unbind H f Ef. unbind H b Eb. unbind H k Ek. injection H as H.
  unfold rget in H. rewrite Hv in H. cbn in H. rewrite Ht in H. cbn in H.
  assert (dmem "require_breakout" (sr_fields rule) = true) as Hd by (apply dmem_true; eauto). rewrite Hd in H.
  by rewrite andb_false_r in H.
Qed.
Definition flat_rule (more : list (string * pyval)) : policy_config :=
  PolicyConfig ∅ ∅ [SkipRule (PyDict (("name", VStr "flat") :: more)%string) (Some ["SIDEWAYS"]%string)].
Example flat_rule_applies :
  decided (signal_of 85 [] []) (flat_rule []) "SIDEWAYS" 5 = Some (false, "SKIP", 0)%string ∧
  decided (signal_of 85 [] []) (flat_rule [("require_breakout", VBool false)]%string) "SIDEWAYS" 5 = Some (true, "FULL", 3)%string.
Proof. vm_compute. repeat split. Qed.
Lemma policy_exact_witness : ∃ d, apply (signal_of 75 [] []) no_policy "NEUTRAL" 5 (f_of_Z 100000) = Ok d ∧
  (ed_trade d = true ↔ passes (ts_fields (signal_of 75 [] [])) no_policy "NEUTRAL" 75 (Bounds 80 70 60) 68).
Proof.
  destruct (apply (signal_of 75 [] []) no_policy "NEUTRAL" 5 (f_of_Z 100000)) as [d|e] eqn:E; [|vm_compute in E; discriminate].
  exists d. split; [reflexivity|].
  apply (policy_exact (signal_of 75 [] []) no_policy "NEUTRAL" 5 75 68 (f_of_Z 100000) (Bounds 80 70 60) d); [reflexivity..|exact E].
Defined.
Lemma granted_terms_witness : ∃ d, apply (signal_of 85 [] []) no_policy "HIGH_VOLATILITY" 5 (f_of_Z 100000) = Ok d ∧
  (if ed_trade d then 1 <= lots_of d ∧ ed_mode d ≠ "SKIP"%string ∧ fle (ed_sl_mult d) f_one = true ∧ fle (ed_tp_mult d) f_one = true
   else lots_of d = 0 ∧ ed_mode d = "SKIP"%string).
Proof.
  destruct (apply (signal_of 85 [] []) no_policy "HIGH_VOLATILITY" 5 (f_of_Z 100000)) as [d|e] eqn:E; [|vm_compute in E; discriminate].
  exists d. split; [reflexivity|]. exact (granted_terms _ _ _ _ _ _ E).
Defined.
