(* ===== verification/IntradayMonitor.v ===== *)
(** * The feedback of the session's results

    [IntradayPerformanceMonitor] of [core/intraday_performance_monitor.py]:
    from the trades closed today it derives a level, and from the level a
    boost of the score threshold and a factor of the size. *)
From S2P Require Import Prelude PyStr Float64 PyDict PyVal CapitalManager RiskService MandateService MarketWarmup.

(** ** Data *)

Inductive level := NORMAL | CAUTIOUS | DEFENSIVE.
#[global] Instance level_eq_dec : EqDecision level.
Proof. solve_decision. Defined.
Definition level_name (l : level) : string :=
  match l with NORMAL => "NORMAL" | CAUTIOUS => "CAUTIOUS" | DEFENSIVE => "DEFENSIVE" end.
Definition rank (l : level) : Z := match l with NORMAL => 0 | CAUTIOUS => 1 | DEFENSIVE => 2 end.
(** [AdaptationParams] and [IntradayStats] *)
Record adaptation := Adaptation { ad_boost : Z; ad_mult : float64; ad_reason : string; ad_level : level }.
Definition NORMAL_PARAMS : adaptation := Adaptation 0 f_one "Normal session" NORMAL.
Record intraday_stats := IntradayStats {
  is_trades : Z; is_wins : Z; is_losses : Z; is_win_rate : float64; is_consecutive : Z; is_avg_pnl : float64; is_level : level }.

Definition trade : Type := float64 * bool.
Record monitor := Monitor {
  im_clk : clock; im_cfg : pyrec; im_day : option Z; im_trades : list trade; im_streak : Z; im_level : level }.
#[global] Instance monitor_clock : HasClock monitor :=
  {| clock_of := im_clk; set_clock := λ k m, Monitor k (im_cfg m) (im_day m) (im_trades m) (im_streak m) (im_level m) |}.
Definition new_monitor (k : clock) (cfg : pyrec) : monitor := Monitor k cfg None [] 0 NORMAL.
Definition set_level (l : level) (m : monitor) : monitor := Monitor (im_clk m) (im_cfg m) (im_day m) (im_trades m) (im_streak m) l.
Definition set_day (d : Z) (m : monitor) : monitor := Monitor (im_clk m) (im_cfg m) (Some d) (im_trades m) (im_streak m) (im_level m).
Definition IM (A : Type) : Type := ST monitor A.

(** The configuration, read at each adaptation. *)
Record adapt_config := AdaptConfig {
  ac_min : Z; ac_def_rate : float64; ac_cau_rate : float64; ac_def_mult : float64; ac_cau_mult : float64; ac_def_boost : Z; ac_cau_boost : Z }.
Definition read_adapt (c : pyrec) : res adapt_config :=
  rbind (py_int (rget "intraday_min_trades_to_adapt" (VInt 3) c)) (λ n,
  rbind (py_float (rget "intraday_defensive_win_rate" (VFloat (lit 25 2)) c)) (λ dr,
  rbind (py_float (rget "intraday_cautious_win_rate" (VFloat (lit 40 2)) c)) (λ cr,
  rbind (py_float (rget "intraday_defensive_size_mult" (VFloat (lit 50 2)) c)) (λ dm,
  rbind (py_float (rget "intraday_cautious_size_mult" (VFloat (lit 75 2)) c)) (λ cm,
  rbind (py_int (rget "intraday_defensive_score_boost" (VInt 10) c)) (λ db,
  rbind (py_int (rget "intraday_cautious_score_boost" (VInt 5) c)) (λ cb, Ok (AdaptConfig n dr cr dm cm db cb)))))))).

(** ** Operations *)

(** [_reset_state], [reset_daily], [update_config] *)
Definition reset_state (m : monitor) : monitor := Monitor (im_clk m) (im_cfg m) (im_day m) [] 0 NORMAL.
Definition update_config (c : pyrec) (m : monitor) : monitor := Monitor (im_clk m) c (im_day m) (im_trades m) (im_streak m) (im_level m).
(** [_roll_session_if_new_day] *)
Definition roll_session : IM unit :=
  now ← now_ist;
  st_modify (λ m, if bool_decide (im_day m = Some (day_of now)) then m else reset_state (set_day (day_of now) m)).

Definition count (l : list trade) : Z := Z.of_nat (length l).
Definition wins (l : list trade) : Z := count (filter (λ t : trade, t.2 = true) l).
(** [wins / n] *)
Definition win_rate (l : list trade) : res float64 :=
  if count l =? 0 then Raise (PyExn ZeroDivisionError "division by zero") else Ok (f_of_ratio (wins l) (count l)).
(** The last three trades all won. *)
Definition three_wins (l : list trade) : bool := (3 <=? count l) && forallb snd (last_items 3 l).
Definition relaxed (l : level) : level := match l with DEFENSIVE => CAUTIOUS | _ => NORMAL end.
Definition escalated (c : adapt_config) (rate : float64) (l : level) : level :=
  if flt rate (ac_def_rate c) then DEFENSIVE
  else if flt rate (ac_cau_rate c) then match l with DEFENSIVE => DEFENSIVE | _ => CAUTIOUS end
  else l.
Definition next_level (c : adapt_config) (ts : list trade) (rate : float64) (l : level) : level :=
  escalated c rate (if three_wins ts then relaxed l else l).
Definition params_of (c : adapt_config) (n : Z) (rate : float64) (l : level) : adaptation :=
  let reason := cat ["Win rate "; fmt_pct 0 rate; " over "; str_of_Z n; " trades (d<"; fmt_pct 0 (ac_def_rate c); " c<";
                     fmt_pct 0 (ac_cau_rate c); ")"] in
  match l with
  | DEFENSIVE => Adaptation (ac_def_boost c) (ac_def_mult c) reason DEFENSIVE
  | CAUTIOUS => Adaptation (ac_cau_boost c) (ac_cau_mult c) reason CAUTIOUS
  | NORMAL => NORMAL_PARAMS
  end.
(** [_compute_adaptation] *)
Definition compute_adaptation : IM adaptation :=
  m ← st_get;
  if negb (truthy (rget "intraday_monitor_enabled" (VBool true) (im_cfg m))) then mret NORMAL_PARAMS
  else
    c ← st_lift (read_adapt (im_cfg m));
    if count (im_trades m) <? ac_min c then mret NORMAL_PARAMS
    else
      rate ← st_lift (win_rate (im_trades m));
      let l := next_level c (im_trades m) rate (im_level m) in
      st_modify (set_level l) ;;
      mret (params_of c (count (im_trades m)) rate l).
(** [record_trade_close] *)
Definition add_trade (t : trade) (m : monitor) : monitor :=
  Monitor (im_clk m) (im_cfg m) (im_day m) (im_trades m ++ [t]) (if t.2 then 0 else im_streak m + 1) (im_level m).
Definition record_trade_close (pnl : pyval) (won : bool) : IM adaptation :=
  roll_session ;;
  p ← st_lift (py_float pnl);
  st_modify (add_trade (p, won)) ;;
  compute_adaptation.
(** [get_current_params] *)
Definition get_current_params : IM adaptation := roll_session ;; compute_adaptation.
(** [get_stats] *)
Definition get_stats `{!PySum} : IM intraday_stats :=
  roll_session ;;
  p ← compute_adaptation;
  m ← st_get;
  let ts := im_trades m in
  let n := count ts in
  avg ← st_lift (if n =? 0 then Ok f_zero else rbind (float_of_Z n) (λ k, Ok (py_round (fsum (fst <$> ts) / k)%f64 2)));
  mret (IntradayStats n (wins ts) (n - wins ts) (if n =? 0 then f_zero else py_round (f_of_ratio (wins ts) n) 4)
          (im_streak m) avg (ad_level p)).
(** [get_intraday_monitor] of a monitor that exists, and what the entry of
    a position asks it. *)
Definition get_intraday_monitor (cfg : option pyrec) : IM unit :=
  match cfg with Some c => st_modify (update_config c) | None => mret () end.
Definition session_size_mult (cfg : pyrec) : IM float64 :=
  get_intraday_monitor (Some cfg) ;; p ← get_current_params; mret (ad_mult p).

(** ** Histories of a session *)

Inductive monitor_op := Close (pnl : pyval) (won : bool) | Read | Stats | NewDay.
Section history.
Context `{HPS : !PySum}.

Definition run_op (o : monitor_op) : IM unit :=
  match o with
  | Close p w => record_trade_close p w ;; mret ()
  | Read => get_current_params ;; mret ()
  | Stats => get_stats ;; mret ()
  | NewDay => st_modify reset_state
  end.
Definition run_ops (os : list monitor_op) (m : monitor) : monitor := foldl (λ m o, (run_op o m).2) m os.

(** The losses since the last win. *)
Definition streak_of (l : list trade) : Z := foldl (λ n (t : trade), if t.2 then 0 else n + 1) 0 l.
(** The level a win rate asks for by itself. *)
Definition demanded_at (c : adapt_config) (r : float64) : level :=
  if flt r (ac_def_rate c) then DEFENSIVE else if flt r (ac_cau_rate c) then CAUTIOUS else NORMAL.
Definition demanded (c : adapt_config) (l : list trade) : level :=
  match win_rate l with Ok r => demanded_at c r | Raise _ => NORMAL end.
Definition enough (c : adapt_config) (l : list trade) : Prop := ac_min c <= count l ∧ 0 < count l.
Record session_ok (cfg : pyrec) (c : adapt_config) (m : monitor) : Prop := {
  so_cfg : im_cfg m = cfg;
  so_streak : im_streak m = streak_of (im_trades m);
  so_level : enough c (im_trades m) → rank (demanded c (im_trades m)) <= rank (im_level m) }.

Lemma rank_le l l' : rank l <= rank l' ↔ (l = NORMAL ∨ l' = DEFENSIVE ∨ l = l').
Proof. destruct l, l'; cbn; split; try lia; try tauto; intros [|[|]]; congruence. Qed.
Lemma escalated_demands c r l : rank (demanded_at c r) <= rank (escalated c r l).
Proof. unfold escalated, demanded_at. destruct (flt r (ac_def_rate c)); [done|]. destruct (flt r (ac_cau_rate c)); destruct l; cbn; lia. Qed.
Lemma next_level_drop c ts r l : rank (next_level c ts r l) < rank l →
  three_wins ts = true ∧ rank (next_level c ts r l) = rank l - 1.
Proof.
  unfold next_level, escalated. destruct (three_wins ts), (flt r (ac_def_rate c)), (flt r (ac_cau_rate c)); destruct l; cbn; lia || by split.
Qed.

Section fixed.
Variables (cfg : pyrec) (c : adapt_config).
Hypothesis Hcfg : read_adapt cfg = Ok c.
Hypothesis Hon : truthy (rget "intraday_monitor_enabled" (VBool true) cfg) = true.

(** Everything but the demand of the win rate, which an added trade may
    break until the level is computed. *)
Definition counted (m : monitor) : Prop := im_cfg m = cfg ∧ im_streak m = streak_of (im_trades m).
Lemma compute_ok m : counted m → session_ok cfg c (compute_adaptation m).2.
Proof.
  intros [Hc Hs]. unfold compute_adaptation, mbind, st_bind, st_get, st_lift. rewrite Hc, Hon, Hcfg. cbn [negb].
  destruct (Z.ltb_spec (count (im_trades m)) (ac_min c)) as [Hl|Hl]; [by split; [..|intros []; cbn in *; lia]|].
  unfold win_rate. destruct (Z.eqb_spec (count (im_trades m)) 0) as [Hz|Hz]; cbn; [by split; [..|intros []; cbn in *; lia]|].
  split; [exact Hc|exact Hs|]. intros _. cbn. unfold demanded, win_rate. destruct (Z.eqb_spec (count (im_trades m)) 0); [done|].
  apply escalated_demands.
Qed.
Lemma roll_ok m : session_ok cfg c m → session_ok cfg c (roll_session m).2.
Proof.
  intros [Hc Hs Hl]. unfold roll_session, mbind, st_bind. rewrite now_ist_total. cbn.
  case_bool_decide; split; cbn; [exact Hc|exact Hs|exact Hl|exact Hc|done|]. intros []; unfold count in *; cbn in *; lia.
Qed.
Lemma add_counted m t : counted m → counted (add_trade t m).
Proof. intros [Hc Hs]. split; [exact Hc|]. cbn. unfold streak_of in *. rewrite foldl_app. cbn. by rewrite Hs. Qed.
Lemma ok_counted m : session_ok cfg c m → counted m.
Proof. by intros []. Qed.
Lemma close_ok p w m : session_ok cfg c m → session_ok cfg c (record_trade_close p w m).2.
Proof.
  intros H. unfold record_trade_close, mbind, st_bind, st_lift. apply roll_ok in H.
  destruct (roll_session m) as [[[]|e] m1]; [|exact H]. destruct (py_float p) as [x|e]; [|exact H]. cbn.
  by apply compute_ok, add_counted, ok_counted.
Qed.
Lemma read_ok m : session_ok cfg c m → session_ok cfg c (get_current_params m).2.
Proof.
  intros H. unfold get_current_params, mbind, st_bind. apply roll_ok in H. destruct (roll_session m) as [[[]|e] m1]; [|exact H].
  by apply compute_ok, ok_counted.
Qed.
Lemma read_stats m : (get_stats m).2 = (get_current_params m).2.
Proof.
  unfold get_stats, get_current_params, mbind, st_bind, st_get, st_lift. destruct (roll_session m) as [[[]|e] m1]; [|done].
  destruct (compute_adaptation m1) as [[a|e] m2]; [|done]. by destruct (if count (im_trades m2) =? 0 then _ else _).
Qed.
Lemma run_op_state o m : (run_op o m).2 =
  match o with Close p w => (record_trade_close p w m).2 | Read | Stats => (get_current_params m).2 | NewDay => reset_state m end.
Proof.
  destruct o as [p w| | |]; cbn; unfold mbind, st_bind; [destruct (record_trade_close p w m) as [[]]|..];
    [done..|destruct (get_current_params m) as [[]]; done| |done].
  rewrite <- read_stats. by destruct (get_stats m) as [[]].
Qed.
Lemma run_op_ok o m : session_ok cfg c m → session_ok cfg c (run_op o m).2.
Proof.
  intros H. rewrite run_op_state. destruct o; [by apply close_ok|by apply read_ok..|].
  destruct H as [Hc _ _]. split; cbn; [exact Hc|done|]. intros []; unfold count in *; cbn in *; lia.
Qed.
End fixed.

(** What an operation may do to the level within a day. *)
Definition level_step (m m' : monitor) : Prop :=
  im_day m' = im_day m → rank (im_level m') < rank (im_level m) →
  three_wins (im_trades m') = true ∧ rank (im_level m') = rank (im_level m) - 1.
Lemma compute_step m : let m' := (compute_adaptation m).2 in
  im_day m' = im_day m ∧ im_trades m' = im_trades m ∧
  (rank (im_level m') < rank (im_level m) → three_wins (im_trades m) = true ∧ rank (im_level m') = rank (im_level m) - 1).
Proof.
  unfold compute_adaptation, mbind, st_bind, st_get, st_lift.
  destruct (negb _); [cbn; split_and!; (done || lia)|]. destruct (read_adapt _) as [c|]; [|cbn; split_and!; (done || lia)].
  destruct (_ <? _); [cbn; split_and!; (done || lia)|]. destruct (win_rate _) as [r|]; [|cbn; split_and!; (done || lia)].
  cbn. split_and!; [done..|apply next_level_drop].
Qed.
Lemma roll_step m : let m' := (roll_session m).2 in
  (roll_session m).1 = Ok () ∧ (im_day m' = im_day m → im_trades m' = im_trades m ∧ im_level m' = im_level m).
Proof.
  unfold roll_session, mbind, st_bind. rewrite now_ist_total. cbn. case_bool_decide as Hd; cbn in *; [done|]. split; [done|]. congruence.
Qed.
Lemma read_step m : level_step m (get_current_params m).2.
Proof.
  unfold get_current_params, mbind, st_bind. pose proof (roll_step m) as [Hr Hs]. destruct (roll_session m) as [r m1]. cbn in Hr, Hs. subst r.
  pose proof (compute_step m1) as (Hd & Ht & Hl). intros Hday. rewrite Hd in Hday. destruct (Hs Hday) as [_ <-]. by rewrite Ht.
Qed.
Lemma close_step p w m : level_step m (record_trade_close p w m).2.
Proof.
  unfold record_trade_close, mbind, st_bind, st_lift. pose proof (roll_step m) as [Hr Hs]. destruct (roll_session m) as [r m1]. cbn in Hr, Hs. subst r.
  destruct (py_float p) as [x|e]; cbn; [|intros Hday; destruct (Hs Hday) as [_ ->]; lia].
  pose proof (compute_step (add_trade (x, w) m1)) as (Hd & Ht & Hl). intros Hday. rewrite Hd in Hday. destruct (Hs Hday) as [_ <-].
  rewrite Ht. exact Hl.
Qed.

(** C23: The session is represented faithfully and never judged too well.  Over
    any history of closed trades, readings, statistics and resets, the
    streak is the number of losses since the last win, and once there are
    enough trades the level is at least the one their win rate asks for. *)
Theorem session_judged (k : clock) (cfg : pyrec) (c : adapt_config) (os : list monitor_op) :
  read_adapt cfg = Ok c → truthy (rget "intraday_monitor_enabled" (VBool true) cfg) = true →
  session_ok cfg c (run_ops os (new_monitor k cfg)).
Proof.
  intros Hc Hon. apply (foldl_inv (session_ok cfg c)); [|intros m o _; by apply run_op_ok].
  split; [done..|]. intros []; unfold count in *; cbn in *; lia.
Qed.
(** The level relaxes on wins only.  Within a day an operation other than
    a reset lowers the level at most by one step, and only when the last
    three trades all won. *)
Theorem relaxes_on_wins (m : monitor) (o : monitor_op) : o ≠ NewDay → level_step m (run_op o m).2.
Proof. intros Ho. rewrite run_op_state. destruct o; [apply close_step|apply read_step..|done]. Qed.
End history.

(** ** Concrete sessions *)

#[local] Instance plain_sum : PySum := sum_left.
Definition nine : clock := Clock (new_year * usec_per_day + minutes 600) [].
Definition results (l : list bool) : list monitor_op := (λ w : bool, Close (VFloat (f_of_Z (if w then 50 else -50))) w) <$> l.
Definition session_after (l : list monitor_op) : level * Z := let m := run_ops l (new_monitor nine ∅) in (im_level m, im_streak m).
Example losing_session :
  session_after (results [false; false]) = (NORMAL, 2) ∧ session_after (results [false; false; false]) = (DEFENSIVE, 3) ∧
  session_after (results [true; false; false]) = (CAUTIOUS, 2) ∧
  session_after (results [false; false; false; false; true; true; true]) = (CAUTIOUS, 0).
Proof. vm_compute. repeat split. Qed.
(** Reading the level relaxes it: three wins are enough for two steps. *)
Example reading_relaxes :
  session_after (results [false; false; false; false; true; true; true] ++ [Read]) = (NORMAL, 0).
Proof. vm_compute. repeat split. Qed.
(** A good win rate without three wins in a row does not relax it. *)
Example defensive_for_the_day :
  session_after (results ([false; false; false] ++ concat (replicate 6 [true; true; false]))) = (DEFENSIVE, 1).
Proof. vm_compute. repeat split. Qed.
(** With no least number of trades the first reading divides by zero. *)
Example no_trades_divide : ∃ m, get_current_params (new_monitor nine (PyDict [("intraday_min_trades_to_adapt", VInt 0)]%string)) =
  (Raise (PyExn ZeroDivisionError "division by zero"), m).
Proof. eexists. vm_compute. reflexivity. Qed.
Lemma session_judged_witness : ∃ c, read_adapt ∅ = Ok c ∧
  session_ok ∅ c (run_ops (results [true; false; false]) (new_monitor nine ∅)) ∧
  enough c (im_trades (run_ops (results [true; false; false]) (new_monitor nine ∅))).
Proof.
  eexists. split; [vm_compute; reflexivity|]. split; [apply session_judged; vm_compute; reflexivity|]. by vm_compute.
Defined.
Lemma relaxes_on_wins_witness :
  let m := run_ops (results [false; false; false; false; true; true]) (new_monitor nine ∅) in
  rank (im_level (run_op (Close (VInt 50) true) m).2) < rank (im_level m) ∧ level_step m (run_op (Close (VInt 50) true) m).2.
Proof. cbn zeta. split; [by vm_compute|]. by apply relaxes_on_wins. Defined.
