(* ===== verification/LoopWatchdog.v ===== *)
(** * The watchdog of the loop

    [LoopWatchdog] of [core/loop_watchdog.py], which reports a stalled loop
    once, and the tick of [TradingLoopService] that asks it and then feeds
    it.  The clock is [time.monotonic]. *)
From S2P Require Import Prelude PyStr Float64 PyDict PyVal CapitalManager.

Section watchdog.
Context {X : Type}.

(** ** State *)

Record watchdog := Watchdog {
  wd_clk : clock; wd_cfg : pyrec; wd_notify : option (string → ST X unit); wd_last : float64; wd_alerted : bool; wd_ext : X }.
#[global] Instance watchdog_clock : HasClock watchdog :=
  {| clock_of := wd_clk; set_clock := λ k w, Watchdog k (wd_cfg w) (wd_notify w) (wd_last w) (wd_alerted w) (wd_ext w) |}.
Definition set_beat (t : float64) (w : watchdog) : watchdog := Watchdog (wd_clk w) (wd_cfg w) (wd_notify w) t false (wd_ext w).
Definition set_alerted (w : watchdog) : watchdog := Watchdog (wd_clk w) (wd_cfg w) (wd_notify w) (wd_last w) true (wd_ext w).
Definition set_ext (x : X) (w : watchdog) : watchdog := Watchdog (wd_clk w) (wd_cfg w) (wd_notify w) (wd_last w) (wd_alerted w) x.
Definition DM (A : Type) : Type := ST watchdog A.

(** ** Operations *)

(** [__init__] *)
Definition new_watchdog (k : clock) (cfg : pyrec) (notify : option (string → ST X unit)) (x : X) : watchdog :=
  set_beat (secs 0 k) (Watchdog (clock_after 1 k) cfg notify f_zero false x).
Definition heartbeat : DM unit := t ← time_time; st_modify (set_beat t).
Definition update_config (c : pyrec) (w : watchdog) : watchdog := Watchdog (wd_clk w) c (wd_notify w) (wd_last w) (wd_alerted w) (wd_ext w).
Definition set_notify_fn (n : option (string → ST X unit)) (w : watchdog) : watchdog :=
  Watchdog (wd_clk w) (wd_cfg w) n (wd_last w) (wd_alerted w) (wd_ext w).
(** [_timeout] *)
Definition timeout (c : pyrec) : res float64 :=
  match py_float (rget "WATCHDOG_TIMEOUT" (VInt 300) c) with
  | Raise e => if catches [ValueError; TypeError] e then Ok (f_of_Z 300) else Raise e
  | r => r
  end.
(** [get_lag] *)
Definition get_lag : DM float64 := t ← time_time; w ← st_get; mret (t - wd_last w)%f64.
Definition stall_text (elapsed limit : float64) : string :=
  cat ["Scan loop stalled: "; fmt_0f elapsed; "s since last heartbeat (timeout="; fmt_0f limit; "s)"].
Definition notify_errors : list exn_class := [ValueError; TypeError; KeyError; AttributeError; IndexError; OSError].
Definition notify (msg : string) : DM unit :=
  w ← st_get;
  match wd_notify w with
  | Some f => st_try (st_zoom wd_ext set_ext (f msg)) notify_errors (λ _, mret ())
  | None => mret ()
  end.
Definition enabled (c : pyrec) : bool := truthy (rget "loop_watchdog_enabled" (VBool false) c).
(** [check] *)
Definition check : DM bool :=
  w ← st_get;
  if negb (enabled (wd_cfg w)) then mret false
  else
    elapsed ← get_lag;
    limit ← st_lift (timeout (wd_cfg w));
    let stalled := fge elapsed limit in
    (if stalled && negb (wd_alerted w) then st_modify set_alerted ;; notify (stall_text elapsed limit) else mret ()) ;;
    mret stalled.
(** [_loop_watchdog_tick] of the loop, with [get_loop_watchdog] on an
    existing watchdog. *)
Definition get_loop_watchdog (cfg : option pyrec) (n : option (string → ST X unit)) (w : watchdog) : watchdog :=
  let w1 := match cfg with Some c => update_config c w | None => w end in
  match n with Some _ => set_notify_fn n w1 | None => w1 end.
Definition watchdog_tick (cfg : pyrec) (send : option (string → ST X unit)) : DM unit :=
  st_modify (get_loop_watchdog (Some cfg) send) ;; check ;; heartbeat.
End watchdog.
Arguments watchdog X : clear implicits.
Arguments DM X A : clear implicits.

(** ** One alert for a stall *)

Section alerts.
Context {X : Type}.

(** The notifications of a watchdog, counted. *)
Definition counting (f : string → ST X unit) (msg : string) : ST (X * Z) unit :=
  st_modify (λ x, (x.1, x.2 + 1)) ;; on_first (f msg).
Abbreviation W := (watchdog (X * Z)).
Definition sent (w : W) : Z := (wd_ext w).2.

Inductive watchdog_op := Beat | Ask | Lag | Config (c : pyrec) | Notify (f : option (string → ST X unit)).
Definition run_op (o : watchdog_op) : DM (X * Z) unit :=
  match o with
  | Beat => heartbeat
  | Ask => check ;; mret ()
  | Lag => get_lag ;; mret ()
  | Config c => st_modify (update_config c)
  | Notify f => st_modify (set_notify_fn (counting <$> f))
  end.
Definition run_ops (os : list watchdog_op) (w : W) : W := foldl (λ w o, (run_op o w).2) w os.
Definition beat_of (o : watchdog_op) : Z := match o with Beat => 1 | _ => 0 end.
Definition beats (os : list watchdog_op) : Z := foldr (λ o n, beat_of o + n) 0 os.

(** A watchdog whose notifications are counted, and the notifications that
    are not yet answered by a heartbeat. *)
Definition counts (w : W) : Prop := ∃ f, wd_notify w = counting <$> f.
Definition settled (w : W) : Z := sent w - Z.b2z (wd_alerted w).
Definition moves (d : Z) (w w' : W) : Prop := counts w → counts w' ∧ settled w' <= settled w + d.

Lemma lag_moves (w : W) : (get_lag w).2 = set_clock (clk_read (wd_clk w)).2 w ∧ ∃ t, (get_lag w).1 = Ok t.
Proof. unfold get_lag, mbind, st_bind, st_get. rewrite time_time_total. cbn. eauto. Qed.
Lemma counting_one f msg x : ∃ r y, counting f msg x = (r, (y, x.2 + 1)).
Proof.
  unfold counting, on_first, st_zoom, st_modify, mbind, st_bind. cbn. destruct (f msg x.1) as [r y]. by eexists _, _.
Qed.
Lemma notify_settled msg (w : W) : counts w →
  wd_notify (notify msg w).2 = wd_notify w ∧ sent (notify msg w).2 <= sent w + 1 ∧ wd_alerted (notify msg w).2 = wd_alerted w.
Proof.
  intros [f Hf]. unfold notify, mbind, st_bind, st_get. rewrite Hf. destruct f as [f|]; cbn; [|split_and!; (done || lia)].
  unfold st_try, st_zoom. destruct (counting_one f msg (wd_ext w)) as (r & y & E). rewrite E.
  destruct r as [[]|e]; cbn; [|destruct (catches _ e)]; cbn; (split_and!; [done|unfold sent; cbn; lia|done]).
Qed.
Lemma check_moves (w : W) : moves 0 w (check w).2.
Proof.
  intros Hc. change (st_wp check w (λ _ w', counts w' ∧ settled w' <= settled w + 0)).
  assert (counts w ∧ settled w <= settled w + 0) as Hw by (split; [done|lia]).
  unfold check. apply wp_bind. apply (wp_eq _ _ (Ok w) w); [done|]. cbn beta iota.
  destruct (negb _); [exact Hw|]. apply wp_bind. destruct (lag_moves w) as [E2 [t E1]].
  apply (wp_eq _ _ (Ok t) (set_clock (clk_read (wd_clk w)).2 w)); [by rewrite <- E1, <- E2; destruct (get_lag w)|]. cbn beta iota.
  apply wp_lift_bind; [intros l _|done]. apply wp_bind. destruct (fge t l && negb (wd_alerted w)) eqn:E; [|exact Hw].
  apply andb_true_iff in E as [_ Ha%negb_true_iff]. apply wp_bind. set (w1 := set_clock _ w).
  destruct (notify_settled (stall_text t l) (set_alerted w1)) as (Hn & Hs & Hl); [exact Hc|].
  apply (wp_eq _ _ (Ok ()) (set_alerted w1)); [done|]. cbn beta iota.
  assert (counts (notify (stall_text t l) (set_alerted w1)).2 ∧ settled (notify (stall_text t l) (set_alerted w1)).2 <= settled w + 0).
  { split; [unfold counts; rewrite Hn; exact Hc|]. unfold settled. rewrite Hl, Ha. change (sent (set_alerted w1)) with (sent w) in Hs.
    change (wd_alerted (set_alerted w1)) with true. unfold Z.b2z. lia. }
  apply (wp_eq _ _ (notify (stall_text t l) (set_alerted w1)).1 (notify (stall_text t l) (set_alerted w1)).2); [by destruct (notify _ _)|].
  by destruct (notify _ _) as [[[]|e] w3].
Qed.
Lemma run_op_moves o (w : W) : moves (beat_of o) w (run_op o w).2.
Proof.
  intros Hc. destruct o as [| | |c|f]; cbn [run_op beat_of].
  - unfold heartbeat, mbind, st_bind. rewrite time_time_total. cbn. split; [exact Hc|]. unfold settled, sent. cbn. destruct (wd_alerted w); cbn; lia.
  - unfold mbind, st_bind. apply check_moves in Hc. by destruct (check w) as [[]].
  - unfold mbind, st_bind. destruct (lag_moves w) as [E _]. destruct (get_lag w) as [[] w1]; cbn in *; subst w1;
      (split; [exact Hc|unfold settled, sent; cbn; lia]).
  - cbn. split; [exact Hc|]. unfold settled, sent. cbn. lia.
  - cbn. split; [by exists f|]. unfold settled, sent. cbn. lia.
Qed.
(** A stall is reported once.  However a watchdog is asked, fed and
    configured anew, and whatever its notifications answer, it notifies at
    most once more than it got heartbeats. *)
Theorem one_alert_per_stall (k : clock) (cfg : pyrec) (f : option (string → ST X unit)) (x : X) (os : list watchdog_op) :
  sent (run_ops os (new_watchdog k cfg (counting <$> f) (x, 0))) <= beats os + 1.
Proof.
  assert (moves (beats os) (new_watchdog k cfg (counting <$> f) (x, 0)) (run_ops os (new_watchdog k cfg (counting <$> f) (x, 0)))) as H.
  { generalize (new_watchdog k cfg (counting <$> f) (x, 0)) as w. unfold run_ops. induction os as [|o os IH]; intros w Hc; cbn [foldl beats foldr]; [split; [exact Hc|lia]|].
    destruct (run_op_moves o w Hc) as [H1 H2]. destruct (IH _ H1) as [H3 H4]. split; [exact H3|]. fold (beats os). lia. }
  destruct H as [_ H]; [by exists f|]. unfold settled in H. cbn in H. destruct (wd_alerted _); cbn in H; lia.
Qed.
End alerts.

(** ** The ticks of the loop *)

Definition note (msg : string) : ST (list string) unit := st_modify (λ l, l ++ [msg]).
Fixpoint ticks (cfg : pyrec) (n : nat) : DM (list string) unit :=
  match n with O => mret () | S n' => ticks cfg n' ;; watchdog_tick cfg (Some note) end.
(** The report of a gap, where there is one. *)
Definition gap_report (limit gap : float64) : list string := if fge gap limit then [stall_text gap limit] else [].
Definition gap (k : clock) (i : nat) : float64 := (secs (2 * i + 1) k - secs (2 * i) k)%f64.

Lemma check_notes (cfg : pyrec) (limit : float64) (w : watchdog (list string)) :
  enabled cfg = true → timeout cfg = Ok limit → wd_cfg w = cfg → wd_notify w = Some note → wd_alerted w = false →
  ∃ b, check w = (Ok b, Watchdog (clock_after 1 (wd_clk w)) cfg (Some note) (wd_last w) b
                          (wd_ext w ++ gap_report limit (secs 0 (wd_clk w) - wd_last w)%f64)).
Proof.
  destruct w as [k c n l a x]. cbn. intros Hon Hl -> -> ->. exists (fge (secs 0 k - l)%f64 limit).
  unfold check, get_lag, mbind, st_bind, st_get, st_lift. cbn -[enabled timeout]. rewrite Hon. cbn [negb].
  rewrite time_time_total. cbn -[timeout fge]. rewrite Hl. unfold secs, gap_report. cbn -[fge stall_text].
  destruct (fge _ limit); cbn; [done|]. by rewrite app_nil_r.
Qed.
Lemma tick_exact (cfg : pyrec) (limit : float64) (w : watchdog (list string)) :
  enabled cfg = true → timeout cfg = Ok limit → wd_alerted w = false →
  watchdog_tick cfg (Some note) w =
    (Ok (), Watchdog (clock_after 2 (wd_clk w)) cfg (Some note) (secs 1 (wd_clk w)) false
              (wd_ext w ++ gap_report limit (secs 0 (wd_clk w) - wd_last w)%f64)).
Proof.
  intros Hon Hl Ha. set (w1 := get_loop_watchdog (Some cfg) (Some note) w).
  destruct (check_notes cfg limit w1) as [b E]; [done..|].
  change (watchdog_tick cfg (Some note) w) with ((check ≫= λ _, heartbeat) w1). unfold mbind, st_bind at 1. rewrite E.
  unfold heartbeat, mbind, st_bind. rewrite time_time_total. done.
Qed.
(** C25: The loop reports its gaps.  Over any number of cycles of an enabled
    loop the watchdog has reported exactly the gaps between a heartbeat and
    the next cycle that reach the timeout, each with its length, in order. *)
Theorem ticks_report_gaps (cfg : pyrec) (limit : float64) (k : clock) (n : nat) :
  enabled cfg = true → timeout cfg = Ok limit →
  wd_ext (ticks cfg n (new_watchdog k cfg (Some note) [])).2 = concat ((λ i, gap_report limit (gap k i)) <$> seq 0 n).
Proof.
  intros Hon Hl.
  assert (ticks cfg n (new_watchdog k cfg (Some note) []) =
    (Ok (), Watchdog (clock_after (2 * n + 1) k) cfg (Some note) (secs (2 * n) k) false (concat ((λ i, gap_report limit (gap k i)) <$> seq 0 n)))) as ->.
  2: done.
  induction n as [|n IH]; [done|]. cbn [ticks]. unfold mbind, st_bind. rewrite IH. rewrite (tick_exact cfg limit) by done. cbn [wd_clk wd_last wd_ext].
  rewrite seq_S, fmap_app, concat_app. cbn [fmap list_fmap concat Nat.add]. rewrite app_nil_r.
  assert (∀ i, secs i (clock_after (2 * n + 1) k) = secs (2 * n + 1 + i) k) as Hs.
  { intros i. unfold secs. by rewrite clock_after_add, Nat.add_comm. }
  unfold gap. rewrite !Hs, Nat.add_0_r, clock_after_add. replace (2 * n + 1 + 1)%nat with (2 * S n)%nat by lia.
  by replace (2 + (2 * n + 1))%nat with (2 * S n + 1)%nat by lia.
Qed.

(** ** Concrete loops *)

Definition watched : pyrec := PyDict [("loop_watchdog_enabled", VBool true)]%string.
(** Seconds between the readings: constructor, check, heartbeat, check, ... *)
Definition readings (steps : list Z) : clock := Clock ist_offset ((λ s, s * usec_per_sec) <$> steps).
Definition reported (steps : list Z) (n : nat) : list string := wd_ext (ticks watched n (new_watchdog (readings steps) watched (Some note) [])).2.
Example slow_cycle_reported :
  reported [30; 0; 30; 0; 400; 0; 30] 4 = ["Scan loop stalled: 400s since last heartbeat (timeout=300s)"%string] ∧
  reported [30; 0; 30; 0; 299; 0; 30] 4 = [] ∧ reported [300; 0; 301] 2 =
    ["Scan loop stalled: 300s since last heartbeat (timeout=300s)"; "Scan loop stalled: 301s since last heartbeat (timeout=300s)"]%string.
Proof. vm_compute. repeat split. Qed.
Lemma ticks_report_gaps_witness :
  enabled watched = true ∧ timeout watched = Ok (f_of_Z 300) ∧ gap (readings [400; 0; 30]) 0 = f_of_Z 400 ∧
  wd_ext (ticks watched 2 (new_watchdog (readings [400; 0; 30]) watched (Some note) [])).2 =
    concat ((λ i, gap_report (f_of_Z 300) (gap (readings [400; 0; 30]) i)) <$> seq 0 2).
Proof.
  split_and!; [vm_compute; reflexivity..|]. apply ticks_report_gaps; vm_compute; reflexivity.
Defined.
