(* ===== verification/NotificationFilters.v ===== *)
(** * Filters and schedules of the notifications

    [core/notification_filters.py]: which messages go out, and when the
    heartbeat and the periodic summary are due.  Sending, and the text of a
    summary, are operations over a world [X]. *)
From S2P Require Import Prelude PyStr Float64 PyDict PyVal CapitalManager.

(** ** Trade alerts *)

Definition STRICT_TRADE_MARKERS : list string :=
  ["ENTRY"; "EXIT"; "ENTERED"; "EXITED"; "STOP LOSS"; "SL HIT"; "TARGET HIT"; "P&L="; "STOPPED OUT"; "[MANUAL SIGNAL]";
   "TRADE ENTERED"; "TRADE EXITED"]%string.
Definition LOOSE_EXTRA_MARKERS : list string := ["SIGNAL"; "TRADE"; "POSITION"; " BUY "; " SELL "; "BLOCK"]%string.
(** [_is_trade_alert] *)
Definition is_trade_alert (msg : string) (strict : bool) : bool :=
  let upper := cat [" "; str_upper msg; " "] in
  any_in STRICT_TRADE_MARKERS upper || (negb strict && any_in LOOSE_EXTRA_MARKERS upper).

(** ** State *)

Section filters.
Context {X : Type}.
(** The cache of the module, the two gates of the loop, and the rest. *)
Record notifier := Notifier {
  nf_clk : clock; nf_cache : pydict float64; nf_heart : option float64; nf_summary : option float64; nf_ext : X }.
#[global] Instance notifier_clock : HasClock notifier :=
  {| clock_of := nf_clk; set_clock := λ k n, Notifier k (nf_cache n) (nf_heart n) (nf_summary n) (nf_ext n) |}.
Definition set_cache (c : pydict float64) (n : notifier) : notifier := Notifier (nf_clk n) c (nf_heart n) (nf_summary n) (nf_ext n).
Definition set_heart (t : option float64) (n : notifier) : notifier := Notifier (nf_clk n) (nf_cache n) t (nf_summary n) (nf_ext n).
Definition set_summary (t : option float64) (n : notifier) : notifier := Notifier (nf_clk n) (nf_cache n) (nf_heart n) t (nf_ext n).
Definition set_ext (x : X) (n : notifier) : notifier := Notifier (nf_clk n) (nf_cache n) (nf_heart n) (nf_summary n) x.
Definition NM (A : Type) : Type := ST notifier A.
Definition new_notifier (k : clock) (x : X) : notifier := Notifier k ∅ None None x.

(** ** The filter *)

Definition safe_errors : list exn_class := [ValueError; TypeError; KeyError; AttributeError; IndexError; OSError].
Definition or_now (now : option float64) : NM float64 := match now with Some t => mret t | None => time_time end.
(** [_DedupeCache.is_duplicate], [reset] *)
Definition MAX_ENTRIES : Z := 500.
Definition remember (msg : string) (ttl now : float64) (c : pydict float64) : pydict float64 :=
  let c1 := <[msg := now]> c in
  if MAX_ENTRIES <? dlen c1 then dfilter (λ _ v, fge v (now - py_max ttl f_one * f_of_Z 10)%f64) c1 else c1.
Definition is_duplicate (msg : string) (ttl : float64) (now : option float64) : NM bool :=
  t ← or_now now;
  n ← st_get;
  st_modify (set_cache (remember msg ttl t (nf_cache n))) ;;
  mret (match nf_cache n !! msg with Some last => flt (t - last)%f64 ttl | None => false end).
Definition reset_dedupe_cache : NM unit := st_modify (set_cache ∅).
(** [should_send_notification] *)
Definition opted (key : string) (d : bool) (cfg : pyrec) : bool := truthy (rget key (VBool d) cfg).
Definition should_send (msg : string) (critical : bool) (cfg : pyrec) : NM bool :=
  st_try
    (if negb (opted "notification_filters_enabled" false cfg) then mret true
     else if critical then mret true
     else if opted "TG_QUIET_MODE" true cfg then mret false
     else if opted "TG_TRADE_ONLY" true cfg && negb (is_trade_alert msg (opted "TG_TRADE_ALERTS_STRICT" true cfg)) then mret false
     else
       ttl ← st_lift (py_float (rget "TG_CACHE_TTL_SEC" (VInt 55) cfg));
       again ← (if fgt ttl f_zero then is_duplicate msg ttl None else mret false);
       mret (negb again))
    safe_errors (λ _, mret true).

(** ** The schedules *)

(** [IntervalGate.due]; a gate that never fired is due. *)
Definition due (last : option float64) (interval : float64) (now : option float64) : NM bool :=
  t ← or_now now;
  mret (match last with None => true | Some l => fge (t - l)%f64 (py_max f_one interval) end).
Definition send_ext {A} (m : ST X A) : NM A := st_zoom nf_ext set_ext m.
(** One of the two schedules: its gate, its configured interval, and what
    it does when it is due. *)
Definition scheduled (gate : notifier → option float64) (put : option float64 → notifier → notifier) (switch key : string)
    (cfg : pyrec) (now : option float64) (fire : option (NM unit)) : NM bool :=
  st_try
    (match fire with
     | None => mret false
     | Some fire =>
         if negb (opted switch false cfg) then mret false
         else
           interval ← st_lift (py_float (rget key (VInt 3600) cfg));
           n ← st_get;
           ready ← due (gate n) interval now;
           if negb ready then mret false
           else
             fire ;;
             t ← or_now now;
             st_modify (put (Some t)) ;;
             mret true
     end) safe_errors (λ _, mret false).
(** [maybe_send_heartbeat] *)
Definition maybe_send_heartbeat (cfg : pyrec) (send : option (string → ST X unit)) (now : option float64) : NM bool :=
  scheduled nf_heart set_heart "TG_HEARTBEAT_ENABLED" "TG_HEARTBEAT_INTERVAL" cfg now
    ((λ f, send_ext (f "Heartbeat: bot is alive and scanning."%string)) <$> send).
(** [maybe_send_periodic_summary] *)
Definition maybe_send_periodic_summary (cfg : pyrec) (send : option (string → ST X unit)) (summary : string → string → ST X string)
    (now : option float64) : NM bool :=
  scheduled nf_summary set_summary "TG_PERIODIC_SUMMARY_TELEGRAM" "TG_PERIODIC_SUMMARY_INTERVAL_SEC" cfg now
    ((λ f, text ← send_ext (summary (py_str (rget "DB_PATH" (VStr "db/trades.db") cfg)) (py_str (rget "EXECUTION_MODE" (VStr "PAPER") cfg)));
           send_ext (f (cat ["Periodic summary:"; String (Ascii.ascii_of_nat 10) EmptyString; text]))) <$> send).
End filters.
Arguments notifier X : clear implicits.
Arguments NM X A : clear implicits.

(** ** Theorems *)

Section theorems.
Context {X : Type}.

(** The message was recorded less than the time to live ago. *)
Definition fresh (msg : string) (ttl : float64) (n : notifier X) : Prop :=
  ∃ last, nf_cache n !! msg = Some last ∧ flt (secs 0 (nf_clk n) - last)%f64 ttl = true.
Lemma duplicate_eq msg ttl (n : notifier X) : is_duplicate msg ttl None n =
  (Ok (match nf_cache n !! msg with Some last => flt (secs 0 (nf_clk n) - last)%f64 ttl | None => false end),
   Notifier (clock_after 1 (nf_clk n)) (remember msg ttl (secs 0 (nf_clk n)) (nf_cache n)) (nf_heart n) (nf_summary n) (nf_ext n)).
Proof. unfold is_duplicate, or_now, mbind, st_bind. by rewrite time_time_total. Qed.
(** Which messages go out.  With a configured time to live, a message is
    sent exactly when the filters are off, or it is critical, or neither the
    quiet mode nor the restriction to trade alerts stops it and the same
    message was not asked for within the time to live. *)
Theorem filter_exact (msg : string) (critical : bool) (cfg : pyrec) (ttl : float64) (n : notifier X) :
  py_float (rget "TG_CACHE_TTL_SEC" (VInt 55) cfg) = Ok ttl →
  ∃ b, (should_send msg critical cfg n).1 = Ok b ∧
    (b = true ↔ opted "notification_filters_enabled" false cfg = false ∨ critical = true ∨
       opted "TG_QUIET_MODE" true cfg = false ∧
       (opted "TG_TRADE_ONLY" true cfg = true → is_trade_alert msg (opted "TG_TRADE_ALERTS_STRICT" true cfg) = true) ∧
       (fgt ttl f_zero = true → ¬ fresh msg ttl n)).
Proof.
  intros Ht. unfold should_send, st_try. destruct (opted "notification_filters_enabled" false cfg); cbn [negb]; [|exists true; split; [done|tauto]].
  destruct critical; [exists true; split; [done|tauto]|].
  destruct (opted "TG_QUIET_MODE" true cfg); [exists false; split; [done|naive_solver]|].
  destruct (opted "TG_TRADE_ONLY" true cfg); cbn [andb].
  1: destruct (is_trade_alert msg _); cbn [negb]; [|exists false; split; [done|naive_solver]].
  all: unfold mbind, st_bind, st_lift; rewrite Ht; destruct (fgt ttl f_zero);
    [rewrite duplicate_eq; eexists; split; [done|]|exists true; split; [done|naive_solver]].
  all: unfold fresh; destruct (nf_cache n !! msg) as [last|]; [destruct (flt _ ttl) eqn:E|]; cbn; (split; intros H; try done).
  all: try (destruct H as [H|[H|(_ & _ & H)]]; [done..|]; destruct (H eq_refl); eauto).
  all: right; right; split_and!; [done..|]; intros _ (l & [= <-] & Hl); congruence.
Qed.
(** A critical message always goes out. *)
Lemma critical_sent msg cfg (n : notifier X) : should_send msg true cfg n = (Ok true, n).
Proof. unfold should_send, st_try. by destruct (opted _ _ _). Qed.

(** *** Spacing *)

Section spacing.
Variables (cfg : pyrec) (interval : float64) (send : option (string → ST X unit)).
Hypothesis interval_read : py_float (rget "TG_HEARTBEAT_INTERVAL" (VInt 3600) cfg) = Ok interval.

(** The times at which heartbeats went out, when the loop asks at the
    times [ts]. *)
Fixpoint beats (ts : list float64) (n : notifier X) : list float64 :=
  match ts with
  | [] => []
  | t :: ts' =>
      let '(r, n') := maybe_send_heartbeat cfg send (Some t) n in
      (match r with Ok true => [t] | _ => [] end) ++ beats ts' n'
  end.
Fixpoint spaced (last : option float64) (l : list float64) : Prop :=
  match l with
  | [] => True
  | t :: l' => match last with Some a => fge (t - a)%f64 (py_max f_one interval) = true | None => True end ∧ spaced (Some t) l'
  end.
Lemma heartbeat_cases t (n : notifier X) : let '(r, n') := maybe_send_heartbeat cfg send (Some t) n in
  if match r with Ok true => true | _ => false end
  then nf_heart n' = Some t ∧ match nf_heart n with Some a => fge (t - a)%f64 (py_max f_one interval) = true | None => True end
  else nf_heart n' = nf_heart n.
Proof.
  unfold maybe_send_heartbeat, scheduled, st_try. destruct send as [f|]; [|done]. cbn [fmap option_fmap option_map].
  destruct (opted "TG_HEARTBEAT_ENABLED" false cfg); cbn [negb]; [|done].
  unfold mbind, st_bind, st_lift. rewrite interval_read. unfold st_get, due, mbind, st_bind, or_now, mret, st_ret.
  destruct (match nf_heart n with Some _ => _ | None => _ end) eqn:E; cbn [negb]; [|done].
  unfold send_ext, st_zoom. destruct (f _ (nf_ext n)) as [[[]|e] x]; cbn; [split; [done|by destruct (nf_heart n)]|].
  by destruct (catches _ e).
Qed.
(** Heartbeats are spaced.  However often the loop asks, and whatever
    sending answers, two heartbeats that go out are at least the configured
    interval, and at least a second, apart. *)
Theorem heartbeats_spaced (ts : list float64) (n : notifier X) : spaced (nf_heart n) (beats ts n).
Proof.
  revert n. induction ts as [|t ts IH]; intros n; [done|]. cbn [beats]. pose proof (heartbeat_cases t n) as H.
  destruct (maybe_send_heartbeat cfg send (Some t) n) as [r n']. specialize (IH n').
  destruct r as [[]|e]; cbn [app] in *; [|by rewrite <- H..]. destruct H as [H1 H2]. split; [exact H2|]. by rewrite <- H1.
Qed.
End spacing.

(** *** Repeated messages *)

(** The answers to a message asked for again and again. *)
Fixpoint asks (msg : string) (ttl : float64) (k : nat) (n : notifier X) : list (res bool) :=
  match k with O => [] | S k' => let '(r, n') := is_duplicate msg ttl None n in r :: asks msg ttl k' n' end.
Lemma asks_again msg ttl j : ∀ (n : notifier X) (last : float64),
  nf_cache n !! msg = Some last → dlen (nf_cache n) <= MAX_ENTRIES → flt (secs 0 (nf_clk n) - last)%f64 ttl = true →
  (∀ i, (i < j)%nat → flt (secs (S i) (nf_clk n) - secs i (nf_clk n))%f64 ttl = true) →
  asks msg ttl (S j) n = replicate (S j) (Ok true).
Proof.
  induction j as [|j IH]; intros n last Hm Hd H0 Hs; cbn [asks]; rewrite duplicate_eq, Hm, H0; [done|].
  cbn [replicate]. f_equal.
  assert (remember msg ttl (secs 0 (nf_clk n)) (nf_cache n) = <[msg := secs 0 (nf_clk n)]> (nf_cache n)) as ->.
  { unfold remember. cbn zeta. rewrite dlen_insert_old by eauto. by rewrite (proj2 (Z.ltb_ge _ _) Hd). }
  eapply IH; cbn [nf_cache nf_clk].
  - apply dict_lookup_insert_eq.
  - by rewrite dlen_insert_old by eauto.
  - unfold secs. rewrite clock_after_add. apply (Hs 0%nat). lia.
  - intros i Hi. unfold secs. rewrite !clock_after_add, !Nat.add_1_r. apply (Hs (S i)). lia.
Qed.
(** A message that keeps coming is never sent again.  When the asks for a
    new message follow each other within the time to live, every one after
    the first is a duplicate, for however long it goes on: each ask renews
    the record. *)
Theorem repeats_stay_silent (msg : string) (ttl : float64) (n : notifier X) (j : nat) :
  nf_cache n !! msg = None → dlen (nf_cache n) < MAX_ENTRIES →
  (∀ i, (i <= j)%nat → flt (secs (S i) (nf_clk n) - secs i (nf_clk n))%f64 ttl = true) →
  asks msg ttl (S (S j)) n = Ok false :: replicate (S j) (Ok true).
Proof.
  intros Hm Hd Hs. cbn [asks]. rewrite duplicate_eq, Hm. f_equal.
  assert (remember msg ttl (secs 0 (nf_clk n)) (nf_cache n) = <[msg := secs 0 (nf_clk n)]> (nf_cache n)) as ->.
  { unfold remember. cbn zeta. rewrite dlen_insert_new by done. by rewrite (proj2 (Z.ltb_ge _ _)) by lia. }
  eapply asks_again; cbn [nf_cache nf_clk].
  - apply dict_lookup_insert_eq.
  - rewrite dlen_insert_new by done. lia.
  - unfold secs. rewrite clock_after_add. apply (Hs 0%nat). lia.
  - intros i Hi. unfold secs. rewrite !clock_after_add, !Nat.add_1_r. apply (Hs (S i)). lia.
Qed.
End theorems.

(** ** Concrete messages *)

Definition filters (l : list (string * pyval)) : pyrec := PyDict (("notification_filters_enabled", VBool true) :: l)%string.
Definition each (secs : Z) : notifier unit := new_notifier (Clock ist_offset (replicate 20 (secs * usec_per_sec))) ().
Definition goes_out (msg : string) (l : list (string * pyval)) : option bool :=
  match (should_send msg false (filters l) (each 1)).1 with Ok b => Some b | Raise _ => None end.
Example which_go_out :
  goes_out "EXIT NIFTY: SL" [] = Some false ∧
  goes_out "EXIT NIFTY: SL" [("TG_QUIET_MODE", VBool false)]%string = Some true ∧
  goes_out "New signal for NIFTY" [("TG_QUIET_MODE", VBool false)]%string = Some false ∧
  goes_out "New signal for NIFTY" [("TG_QUIET_MODE", VBool false); ("TG_TRADE_ALERTS_STRICT", VBool false)]%string = Some true ∧
  goes_out "Market is not exited" [("TG_QUIET_MODE", VBool false)]%string = Some true.
Proof. vm_compute. repeat split. Qed.
Definition hourly : pyrec := PyDict [("TG_HEARTBEAT_ENABLED", VBool true); ("TG_HEARTBEAT_INTERVAL", VInt 60)]%string.
Definition quiet_send : option (string → ST unit unit) := Some (λ _, mret ()).
Example beats_every_minute :
  beats hourly quiet_send (f_of_Z <$> [0; 30; 59; 60; 100; 125; 130]) (each 1) = f_of_Z <$> [0; 60; 125].
Proof. vm_compute. reflexivity. Qed.
Lemma filter_exact_witness :
  ∃ b, (should_send "EXIT NIFTY" false (filters [("TG_QUIET_MODE", VBool false)])%string (each 1)).1 = Ok b ∧
    (b = true ↔ opted "notification_filters_enabled" false (filters [("TG_QUIET_MODE", VBool false)])%string = false ∨ false = true ∨
       opted "TG_QUIET_MODE" true (filters [("TG_QUIET_MODE", VBool false)])%string = false ∧
       (opted "TG_TRADE_ONLY" true (filters [("TG_QUIET_MODE", VBool false)])%string = true →
        is_trade_alert "EXIT NIFTY" (opted "TG_TRADE_ALERTS_STRICT" true (filters [("TG_QUIET_MODE", VBool false)])%string) = true) ∧
       (fgt (f_of_Z 55) f_zero = true → ¬ fresh "EXIT NIFTY" (f_of_Z 55) (each 1))).
Proof. apply (filter_exact "EXIT NIFTY" false (filters [("TG_QUIET_MODE", VBool false)])%string (f_of_Z 55) (each 1)). vm_compute. reflexivity. Defined.
Lemma heartbeats_spaced_witness :
  spaced (f_of_Z 60) (nf_heart (each 1)) (beats hourly quiet_send (f_of_Z <$> [0; 30; 60]) (each 1)) ∧
  beats hourly quiet_send (f_of_Z <$> [0; 30; 60]) (each 1) = f_of_Z <$> [0; 60].
Proof. split; [apply heartbeats_spaced; vm_compute; reflexivity|vm_compute; reflexivity]. Defined.
Lemma repeats_stay_silent_witness : asks "Data feed stale" (f_of_Z 55) 6 (each 50) = Ok false :: replicate 5 (Ok true).
Proof.
  apply repeats_stay_silent; [reflexivity|vm_compute; reflexivity|].
  intros i Hi. do 5 (destruct i as [|i]; [vm_compute; reflexivity|]). lia.
Defined.
