(* ===== verification/MarketTrader.v ===== *)
(** * The trader of a market

    The trading engine that [core/commodity_trader.py],
    [core/currency_trader.py], [core/etf_trader.py] and [core/reit_trader.py]
    share but for their data: a record [market] holds what they differ in,
    [AssetTraders] the four of them.  The functions a trader is given are
    a record of operations over a world [X]. *)
From S2P Require Import Prelude PyStr Float64 PyDict PyVal CapitalManager RiskService MandateService MarketWarmup StateManager Reentry.

(** ** Configuration *)

(** The scalars, and for a prefix [P] the dict [P_MAP] and the list
    [P_PRIORITY]. *)
Record market_config := MarketConfig { mc_values : pyrec; mc_map : string → pydict pyrec; mc_priority : string → option (list string) }.
Definition is_on (r : pyrec) : bool := truthy (rget "enabled" (VBool true) r).
Definition build_symbols (prefix : string) (standard : list string) (c : market_config) : list string :=
  if negb (truthy (rget (cat [prefix; "_ENABLED"]) (VBool false) (mc_values c))) then []
  else filter (λ s, match mc_map c prefix !! s with Some r => is_on r | None => false end = true) (default standard (mc_priority c prefix)).
Record market_settings := MarketSettings {
  se_symbols : list string; se_sl : float64; se_target : float64; se_max : Z; se_qty : Z; se_cfg : pyrec }.
Definition read_settings (prefix : string) (sl target : float64) (most qty : Z) (symbols : list string) (c : market_config) : res market_settings :=
  let get k d := rget (cat [prefix; k]) d (mc_values c) in
  rbind (py_float (get "_SL_PCT"%string (VFloat sl))) (λ sl,
  rbind (py_float (get "_TARGET_PCT"%string (VFloat target))) (λ target,
  rbind (py_int (get "_MAX_DAILY_TRADES"%string (VInt most))) (λ most,
  rbind (py_int (get "_DEFAULT_QTY"%string (VInt qty))) (λ qty, Ok (MarketSettings symbols sl target most qty (mc_values c)))))).

(** ** Positions *)

(** What only one kind of market records. *)
Inductive detail :=
| Contract (expiry : string)
| Fund (nav expense premium aum : float64)
| Trust (nav yield : float64) (trust_type sector : string) (aum : float64).
Record holding := Holding {
  ho_direction : string; ho_qty : Z; ho_entry : float64; ho_current : float64; ho_time : float64; ho_score : Z; ho_reason : string;
  ho_detail : detail }.
Section book.
Context {X : Type}.
Record book := Book {
  bk_clk : clock; bk_holdings : pydict holding; bk_trades : Z; bk_day : option string; bk_trackers : pydict tracker; bk_running : bool;
  bk_ext : X }.
#[global] Instance book_clock : HasClock book :=
  {| clock_of := bk_clk;
     set_clock := λ k b, Book k (bk_holdings b) (bk_trades b) (bk_day b) (bk_trackers b) (bk_running b) (bk_ext b) |}.
Definition put_holdings (h : pydict holding) (b : book) : book :=
  Book (bk_clk b) h (bk_trades b) (bk_day b) (bk_trackers b) (bk_running b) (bk_ext b).
Definition put_trades (n : Z) (b : book) : book :=
  Book (bk_clk b) (bk_holdings b) n (bk_day b) (bk_trackers b) (bk_running b) (bk_ext b).
Definition put_day (d : string) (b : book) : book :=
  Book (bk_clk b) (bk_holdings b) (bk_trades b) (Some d) (bk_trackers b) (bk_running b) (bk_ext b).
Definition put_trackers (r : pydict tracker) (b : book) : book :=
  Book (bk_clk b) (bk_holdings b) (bk_trades b) (bk_day b) r (bk_running b) (bk_ext b).
Definition put_running (r : bool) (b : book) : book :=
  Book (bk_clk b) (bk_holdings b) (bk_trades b) (bk_day b) (bk_trackers b) r (bk_ext b).
Definition put_ext (x : X) (b : book) : book :=
  Book (bk_clk b) (bk_holdings b) (bk_trades b) (bk_day b) (bk_trackers b) (bk_running b) x.
Definition new_book (k : clock) (s : market_settings) (x : X) : book := Book k ∅ 0 None (build_reentry_trackers (se_symbols s)) false x.
End book.
Arguments book X : clear implicits.
Abbreviation BM X := (ST (book X)).

(** The functions given to the constructor, and what a market differs in:
    its hours, what it records of a position (or why it does not enter), what
    the monitor updates, and the text of an entry. *)
Record market_port (X : Type) := MarketPort {
  mp_price : string → ST X (option float64);
  mp_nav : string → ST X (option float64);
  mp_entry : option (string → string → Z → float64 → ST X bool);
  mp_exit : option (string → Z → float64 → ST X unit);
  mp_send : string → ST X unit }.
Record market (X : Type) := Market {
  mk_tag : string; mk_none : string; mk_open : Z; mk_close : Z;
  mk_prepare : string → float64 → string → ST X (string + detail);
  mk_refresh : string → float64 → detail → ST X detail;
  mk_text : detail → string * string }.
Arguments mp_price {X}. Arguments mp_nav {X}. Arguments mp_entry {X}. Arguments mp_exit {X}. Arguments mp_send {X}.
Arguments mk_tag {X}. Arguments mk_none {X}. Arguments mk_open {X}. Arguments mk_close {X}. Arguments mk_prepare {X}.
Arguments mk_refresh {X}. Arguments mk_text {X}.

(** ** Operations *)

Section trader.
Context {X : Type} (m : market X) (s : market_settings) (p : market_port X).
Definition call {A} (f : ST X A) : BM X A := st_zoom bk_ext put_ext f.
Definition say (parts : list string) : BM X unit := call (mp_send p (cat ("[" :: mk_tag m :: "] " :: parts)%string)).
Definition trade_errors : list exn_class := [ValueError; TypeError; OSError].
(** [_is_market_open] *)
Definition open_at (t : Z) : bool := (weekday_of t <? 5) && (mk_open m <=? minute_of_day t) && (minute_of_day t <? mk_close m).
Definition is_market_open : BM X bool := now ← now_ist; mret (open_at now).
(** [can_trade] *)
Definition can_trade : BM X (bool * string) :=
  match se_symbols s with
  | [] => mret (false, mk_none m)
  | _ =>
      open ← is_market_open;
      if negb open then mret (false, "Market closed"%string)
      else
        b ← st_get;
        if se_max s <=? bk_trades b then mret (false, cat ["Max daily trades ("; str_of_Z (se_max s); ") reached"])
        else mret (true, "Trading allowed"%string)
  end.
(** [price if price > 0 else (get_price(symbol) or ..)] *)
Definition price_or (given : float64) (symbol : string) (d : float64) : BM X float64 :=
  if fgt given f_zero then mret given
  else q ← call (mp_price p symbol); mret (match q with Some x => if is_zero x then d else x | None => d end).
Definition reentry_allows (symbol direction : string) (score : Z) : BM X bool :=
  b ← st_get;
  match bk_trackers b !! symbol with
  | Some rt => d ← evaluate_reentry score direction (se_cfg s) rt; mret (rd_allowed d)
  | None => mret true
  end.
Definition executed (symbol direction : string) (qty : Z) (price : float64) : BM X bool :=
  match mp_entry p with
  | Some f => st_try (call (f symbol direction qty price)) trade_errors (λ _, mret false)
  | None => mret true
  end.
Definition hold (symbol direction : string) (qty : Z) (price : float64) (score : Z) (reason : string) (d : detail) : BM X unit :=
  now ← time_time;
  st_modify (λ b, put_trades (bk_trades b + 1)
    (put_holdings (<[symbol := Holding direction qty price price now score reason d]> (bk_holdings b)) b)).
(** [enter_position] *)
Definition enter_position (symbol direction : string) (score : Z) (given : float64) (reason : string) (qty : Z) (expiry : string) :
    BM X bool :=
  open ← is_market_open;
  if negb open then mret false
  else
    b ← st_get;
    if se_max s <=? bk_trades b then mret false
    else if dmem symbol (bk_holdings b) then mret false
    else
      again ← reentry_allows symbol direction score;
      if negb again then mret false
      else
        price ← price_or given symbol f_zero;
        if fle price f_zero then mret false
        else
          let lots := if 0 <? qty then qty else se_qty s in
          prepared ← call (mk_prepare m symbol price expiry);
          match prepared with
          | inl why => say [symbol; why] ;; mret false
          | inr d =>
              ok ← executed symbol direction lots price;
              if negb ok then mret false
              else
                hold symbol direction lots price score reason d ;;
                say ["Entered "; symbol; (mk_text m d).1; " "; direction; " x"; str_of_Z lots; " @ "; fmt_f 2 price; (mk_text m d).2] ;;
                mret true
          end.
(** [exit_position] *)
Definition pnl_of (h : holding) (price : float64) : res float64 :=
  rbind (float_of_Z (ho_qty h)) (λ n,
    Ok (if String.eqb (ho_direction h) "SELL" then (ho_entry h - price) * n else (price - ho_entry h) * n)%f64).
Definition record_outcome_of (symbol : string) (profit : bool) : BM X unit :=
  st_modify (λ b, match bk_trackers b !! symbol with
                  | Some rt => put_trackers (<[symbol := record_outcome profit rt]> (bk_trackers b)) b
                  | None => b
                  end).
Definition exit_position (symbol reason : string) (given : float64) : BM X bool :=
  b ← st_get;
  match bk_holdings b !! symbol with
  | None => mret false
  | Some h =>
      st_modify (λ b, put_holdings (delete symbol (bk_holdings b)) b) ;;
      price ← price_or given symbol (ho_entry h);
      pnl ← st_lift (pnl_of h price);
      (match mp_exit p with
       | Some f => st_try (call (f symbol (ho_qty h) price)) trade_errors (λ _, mret ())
       | None => mret ()
       end) ;;
      say ["Exited "; symbol; ": "; reason; " @ "; fmt_f 2 price; " P&L="; fmt_0f pnl] ;;
      record_outcome_of symbol (fgt pnl f_zero) ;;
      mret true
  end.
(** [_monitor_positions] *)
Definition move_of (h : holding) (price : float64) : float64 :=
  let move := ((price - ho_entry h) / py_max (ho_entry h) (lit 1 2))%f64 in
  if String.eqb (ho_direction h) "SELL" then fopp move else move.
Definition exit_reason (h : holding) (price : float64) : option string :=
  if fle (move_of h price) (fopp (f_one - se_sl s)%f64) then Some "SL_HIT"%string
  else if fge (move_of h price) (se_target s - f_one)%f64 then Some "TARGET_HIT"%string
  else None.
Definition touch (price : float64) (d : detail) (h : holding) : holding :=
  Holding (ho_direction h) (ho_qty h) (ho_entry h) price (ho_time h) (ho_score h) (ho_reason h) d.
Definition monitor_one (symbol : string) : BM X unit :=
  b ← st_get;
  match bk_holdings b !! symbol with
  | None => mret ()
  | Some h =>
      quote ← call (mp_price p symbol);
      match quote with
      | None => mret ()
      | Some price =>
          if fle price f_zero then mret ()
          else
            d ← call (mk_refresh m symbol price (ho_detail h));
            st_modify (λ b, match bk_holdings b !! symbol with
                            | Some h => put_holdings (<[symbol := touch price d h]> (bk_holdings b)) b
                            | None => b
                            end) ;;
            match exit_reason h price with
            | Some why => exit_position symbol why price ;; mret ()
            | None => mret ()
            end
      end
  end.
Definition monitor_positions : BM X unit := b ← st_get; st_iter monitor_one (dkeys (bk_holdings b)).
(** [_reset_daily_if_needed], a round of [_run_loop], [start], [stop] *)
Definition reset_daily_if_needed : BM X unit :=
  now ← now_ist;
  let today := day_text now in
  st_modify (λ b, if bool_decide (bk_day b = Some today) then b
                  else put_trackers (dmap reset_daily (bk_trackers b)) (put_trades 0 (put_day today b))).
Definition loop_round : BM X unit := st_try (reset_daily_if_needed ;; monitor_positions) trade_errors (λ _, mret ()).
Definition start : BM X unit :=
  b ← st_get;
  if bk_running b then mret ()
  else st_modify (put_running true) ;; say ["Trader started ("; str_of_Z (Z.of_nat (length (se_symbols s))); " symbols)"].
Definition stop : BM X unit := st_modify (put_running false).
(** [status]: the profit of the open positions at their last prices *)
Definition open_pnl (h : holding) : res float64 :=
  rbind (float_of_Z (ho_qty h)) (λ n,
    Ok ((ho_current h - ho_entry h) * n * (if String.eqb (ho_direction h) "SELL" then f_of_Z (-1) else f_one))%f64).
Fixpoint all_pnl (l : list holding) : res (list float64) :=
  match l with [] => Ok [] | h :: l' => rbind (open_pnl h) (λ x, rbind (all_pnl l') (λ xs, Ok (x :: xs))) end.
Definition total_pnl `{!PySum} (b : book X) : res float64 := rbind (all_pnl (dvalues (bk_holdings b))) (λ l, Ok (py_round (fsum l) 2)).
End trader.

(** ** Histories *)

Section histories.
Context {X : Type} (m : market X) (s : market_settings) (p : market_port X).
Inductive trader_op :=
| Enter (symbol direction : string) (score : Z) (given : float64) (reason : string) (qty : Z) (expiry : string)
| Exit (symbol reason : string) (given : float64) | Monitor | Round | Start | Stop.
Definition run_op (o : trader_op) : BM X unit :=
  match o with
  | Enter n d k x r q e => enter_position m s p n d k x r q e ;; mret ()
  | Exit n r x => exit_position m p n r x ;; mret ()
  | Monitor => monitor_positions m s p
  | Round => loop_round m s p
  | Start => start m s p
  | Stop => stop
  end.
Definition run_ops (os : list trader_op) (b : book X) : book X := foldl (λ b o, (run_op o b).2) b os.
End histories.

(** ** The daily limit *)

Section counting.
Context {X : Type} (m : market X) (s : market_settings) (p : market_port X).
(** The same market and functions, counting the entries that were executed. *)
Definition counting_port : market_port (X * Z) := {|
  mp_price n := on_first (mp_price p n); mp_nav n := on_first (mp_nav p n);
  mp_entry := (λ f n d q x, counted id (f n d q x)) <$> mp_entry p;
  mp_exit := (λ f n q x, on_first (f n q x)) <$> mp_exit p;
  mp_send t := on_first (mp_send p t) |}.
Definition counting_market : market (X * Z) := {|
  mk_tag := mk_tag m; mk_none := mk_none m; mk_open := mk_open m; mk_close := mk_close m;
  mk_prepare n x e := on_first (mk_prepare m n x e); mk_refresh n x d := on_first (mk_refresh m n x d); mk_text := mk_text m |}.
Abbreviation W := (book (X * Z)).
Definition made (b : W) : Z := (bk_ext b).2.
(** Steps that count nothing. *)
Definition still (b b' : W) : Prop := made b' = made b ∧ bk_trades b' = bk_trades b.
#[local] Instance still_preorder : PreOrder still.
Proof. split; [by split|]. intros b1 b2 b3 [? ?] [? ?]. split; congruence. Qed.
(** No more entries than the counter grew by, and the counter within the
    limit once it has grown. *)
Definition within (b b' : W) : Prop :=
  made b' - made b <= bk_trades b' - bk_trades b ∧ bk_trades b <= bk_trades b' <= Z.max (bk_trades b) (se_max s).
#[local] Instance within_preorder : PreOrder within.
Proof. split; [intros b; unfold within; lia|]. intros b1 b2 b3. unfold within. lia. Qed.
Lemma still_within b b' : still b b' → within b b'.
Proof. intros []. unfold within. lia. Qed.

Lemma call_still {A} (f : ST (X * Z) A) : st_rel (λ w w', w'.2 = w.2) f → st_rel still (call f).
Proof. intros H b. unfold call, st_zoom. specialize (H (bk_ext b)). destruct (f _) as [r x]. by split. Qed.
Lemma first_still {A} (f : ST X A) : st_rel still (call (on_first f)).
Proof. apply call_still, on_first_count. Qed.
Lemma now_still : st_rel still (now_ist (W:=W)).
Proof. intros b. by rewrite now_ist_total. Qed.
Lemma time_still : st_rel still (time_time (W:=W)).
Proof. intros b. by rewrite time_time_total. Qed.
Lemma modify_still f : (∀ b : W, still b (f b)) → st_rel still (st_modify f).
Proof. intros H b. apply H. Qed.
Ltac idly := rel_auto ltac:(first
  [ apply first_still | apply now_still | apply time_still | apply modify_still; intros ?; repeat case_match; by split ]).
Lemma say_still t : st_rel still (say counting_market counting_port t).
Proof. unfold say. cbn [counting_port mp_send]. apply first_still. Qed.
Lemma price_still x n d : st_rel still (price_or counting_port x n d).
Proof. unfold price_or. cbn [counting_port mp_price]. idly. Qed.
Lemma allows_still n d k : st_rel still (reentry_allows (X:=X * Z) s n d k).
Proof. unfold reentry_allows, evaluate_reentry. idly. Qed.
Lemma exit_still n r x : st_rel still (exit_position counting_market counting_port n r x).
Proof.
  unfold exit_position, record_outcome_of. cbn [counting_port mp_exit]. destruct (mp_exit p); cbn [fmap option_fmap option_map];
    rel_auto ltac:(first [apply first_still | apply say_still | apply price_still | apply modify_still; intros ?; repeat case_match; by split]).
Qed.
Lemma monitor_still : st_rel still (monitor_positions counting_market s counting_port).
Proof.
  unfold monitor_positions. apply st_rel_bind; [typeclasses eauto|apply st_rel_get; typeclasses eauto|]. intros b.
  apply st_rel_iter; [typeclasses eauto|]. intros n _. unfold monitor_one. cbn [counting_port mp_price counting_market mk_refresh].
  rel_auto ltac:(first [apply exit_still | apply first_still | apply modify_still; intros ?; repeat case_match; by split]).
Qed.
Lemma executed_once n d q x (b : W) : let '(r, b') := executed counting_port n d q x b in
  bk_trades b' = bk_trades b ∧ made b' <= made b + match r with Ok true => 1 | _ => 0 end.
Proof.
  unfold executed. cbn [counting_port mp_entry]. destruct (mp_entry p) as [f|]; cbn [fmap option_fmap option_map]; [|cbn; lia].
  unfold st_try, call, st_zoom, made. pose proof (counted_count id (f n d q x) (bk_ext b)) as H.
  destruct (counted id (f n d q x) (bk_ext b)) as [[[|]|e] y]; cbn in *; [lia..|]. destruct (catches _ e); cbn; lia.
Qed.
(** Idle steps from a state like [b0], then the rest. *)
Lemma wp_still {A B} (f : BM (X * Z) A) (g : A → BM (X * Z) B) (b0 b : W) : st_rel still f → still b0 b →
  (∀ a b', still b0 b' → st_wp (g a) b' (λ _, within b0)) → st_wp (f ≫= g) b (λ _, within b0).
Proof.
  intros Hf H0 Hg. apply (wp_rel still); [exact Hf|intros e b' H; apply still_within; by etransitivity|intros a b' H; apply Hg; by etransitivity].
Qed.
Lemma entry_within n d k x r q e : st_rel within (enter_position counting_market s counting_port n d k x r q e).
Proof.
  intros b0. change (st_wp (enter_position counting_market s counting_port n d k x r q e) b0 (λ _, within b0)).
  assert (∀ b, still b0 b → within b0 b) as I by (intros b; apply still_within).
  unfold enter_position. apply wp_still; [unfold is_market_open; idly|reflexivity|].
  intros [|] b1 H1; cbn [negb]; [|exact (I _ H1)]. apply wp_bind. apply (wp_eq _ _ (Ok b1) b1); [done|]. cbn beta iota.
  destruct (Z.leb_spec (se_max s) (bk_trades b1)); [exact (I _ H1)|]. destruct (dmem n _); [exact (I _ H1)|].
  apply wp_still; [apply allows_still|done|]. intros [|] b2 H2; cbn [negb]; [|exact (I _ H2)].
  apply wp_still; [apply price_still|done|]. intros price b3 H3. destruct (fle price f_zero); [exact (I _ H3)|]. cbv zeta.
  apply wp_still; [apply first_still|done|]. intros [why|dt] b4 H4; [apply wp_still; [apply say_still|done|]; intros [] b5 H5; exact (I _ H5)|].
  set (lots := if 0 <? q then q else se_qty s). apply wp_bind. unfold st_wp at 1. pose proof (executed_once n d lots price b4) as O.
  destruct (executed counting_port n d lots price b4) as [[[|]|er] b5]; cbn [fst snd negb] in *; destruct O as [O1 O2], H1, H4.
  2,3: unfold st_wp, within; cbn; lia.
  apply wp_bind. unfold hold. apply wp_bind. apply (wp_eq _ _ _ _ _ (time_time_total b5)). cbn beta iota.
  eapply (wp_eq _ _ (Ok ())); [reflexivity|]. cbn beta iota. set (b6 := put_trades _ _). apply wp_bind. unfold st_wp at 1.
  pose proof (say_still ["Entered "; n; (mk_text m dt).1; " "; d; " x"; str_of_Z lots; " @ "; fmt_f 2 price; (mk_text m dt).2]%string b6) as [S1 S2].
  assert (bk_trades b6 = bk_trades b5 + 1 ∧ made b6 = made b5) as [T1 T2] by done.
  cbn [counting_market mk_text]. destruct (say _ _ _ b6) as [[[]|er] b7]; cbn [fst snd] in *; unfold st_wp, within; cbn; lia.
Qed.
(** The operations of a day: no round of the thread, which begins another. *)
Definition same_day (o : trader_op) : Prop := o ≠ Round.
Lemma op_within o : same_day o → st_rel within (run_op counting_market s counting_port o).
Proof.
  intros Ho. assert (∀ {A} (f : BM (X * Z) A), st_rel still f → st_rel within f) as I by (intros A f H b; apply still_within, H).
  destruct o; cbn [run_op]; [|apply I..]; try (by destruct Ho).
  - apply st_rel_bind; [typeclasses eauto|apply entry_within|]. intros _. apply st_rel_ret. typeclasses eauto.
  - rel_auto ltac:(apply exit_still).
  - apply monitor_still.
  - unfold start. rel_auto ltac:(first [apply say_still | apply modify_still; intros b; by split]).
  - apply modify_still. intros b. by split.
Qed.
(** C21: The daily limit of every market.  Between two resets, whatever
    entries, exits, monitoring and failures of the functions come, no more
    entries are executed than the daily limit leaves, in any market. *)
Theorem market_within_limit (os : list trader_op) (b : W) :
  Forall same_day os → made (run_ops counting_market s counting_port os b) - made b <= Z.max 0 (se_max s - bk_trades b).
Proof.
  intros Ho. assert (within b (run_ops counting_market s counting_port os b)) as H.
  { unfold run_ops. apply foldl_inv; [reflexivity|]. intros u o Hin Hu. etransitivity; [exact Hu|].
    apply op_within. by eapply Forall_forall in Ho. }
  unfold within in H. lia.
Qed.
End counting.

(** ** Entries and exits *)

Section books.
Context {X : Type} (m : market X) (s : market_settings) (p : market_port X).
(** Steps that touch neither the positions nor the counter. *)
Definition calm (b b' : book X) : Prop := bk_holdings b' = bk_holdings b ∧ bk_trades b' = bk_trades b.
#[local] Instance calm_preorder : PreOrder calm.
Proof. split; [by split|]. intros b1 b2 b3 [? ?] [? ?]. split; congruence. Qed.
Lemma call_calm {A} (f : ST X A) : st_rel calm (call f).
Proof. intros b. unfold call, st_zoom. by destruct (f _). Qed.
Lemma time_calm : st_rel calm (time_time (W:=book X)).
Proof. intros b. by rewrite time_time_total. Qed.
Lemma modify_calm f : (∀ b : book X, calm b (f b)) → st_rel calm (st_modify f).
Proof. intros H b. apply H. Qed.
Ltac calmly := rel_auto ltac:(first [apply call_calm | apply time_calm | apply modify_calm; intros ?; repeat case_match; by split]).
Lemma price_calm x n d : st_rel calm (price_or p x n d).
Proof. unfold price_or. calmly. Qed.
Lemma allows_calm n d k : st_rel calm (reentry_allows (X:=X) s n d k).
Proof. unfold reentry_allows, evaluate_reentry. calmly. Qed.
Lemma executed_calm n d q x : st_rel calm (executed p n d q x).
Proof. unfold executed. calmly. Qed.
Lemma say_calm t : st_rel calm (say m p t).
Proof. apply call_calm. Qed.
Lemma calm_run {A} (f : BM X A) b r b' : st_rel calm f → f b = (r, b') → calm b b'.
Proof. intros H E. specialize (H b). by rewrite E in H. Qed.

(** What an entry that succeeds has done. *)
Record entered (n d : string) (k : Z) (r e : string) (lots : Z) (b b' : book X) : Prop := {
  en_new : bk_holdings b !! n = None;
  en_room : bk_trades b < se_max s;
  en_open : ∃ t, open_at m t = true;
  en_booked : ∃ price t dt y y', fle price f_zero = false ∧ mk_prepare m n price e y = (Ok (inr dt), y') ∧
    bk_holdings b' = <[n := Holding d lots price price t k r dt]> (bk_holdings b) ∧ bk_trades b' = bk_trades b + 1 }.
Lemma entered_inv n d k x r q e b b' : enter_position m s p n d k x r q e b = (Ok true, b') →
  entered n d k r e (if 0 <? q then q else se_qty s) b b'.
Proof.
  unfold enter_position, is_market_open. intros H. inv_bind H open b1 H1. inv_bind H1 now b0 Hn. rewrite now_ist_total in Hn.
  injection Hn as <- <-. injection H1 as <- <-. destruct (open_at m _) eqn:Eo; [|done]. cbn [negb] in H. inv_bind H b2 b3 H2.
  injection H2 as <- <-. destruct (se_max s <=? _) eqn:El; [done|].
  apply Z.leb_gt in El.
  destruct (dmem n _) eqn:Em; [done|]. inv_bind H again b4 H4. apply calm_run in H4 as [C4 T4]; [|apply allows_calm].
  destruct again; [|done]. cbn [negb] in H. inv_bind H price b5 H5. apply calm_run in H5 as [C5 T5]; [|apply price_calm].
  destruct (fle price f_zero) eqn:Ep; [done|]. cbv zeta in H. set (lots := if 0 <? q then q else se_qty s) in *. inv_bind H prep b6 H6.
  assert (∃ y, mk_prepare m n price e (bk_ext b5) = (Ok prep, y)) as [y Ey].
  { unfold call, st_zoom in H6. destruct (mk_prepare m n price e (bk_ext b5)) as [w y]. injection H6 as -> _. eauto. }
  apply calm_run in H6 as [C6 T6]; [|apply call_calm]. destruct prep as [why|dt]; [inv_bind H u b7 H7; done|].
  inv_bind H ok b7 H7. apply calm_run in H7 as [C7 T7]; [|apply executed_calm]. destruct ok; [|done]. cbn [negb] in H.
  inv_bind H u b8 H8. unfold hold in H8. inv_bind H8 t b9 H9. apply calm_run in H9 as [C9 T9]; [|apply time_calm].
  injection H8 as _ <-. inv_bind H v b10 H10. apply calm_run in H10 as [C10 T10]; [|apply say_calm]. injection H as <-.
  cbn [bk_holdings bk_trades put_trades put_holdings set_clock book_clock] in *.
  split; [by apply dmem_false|lia|eauto|]. exists price, t, dt, (bk_ext b5), y. split_and!; [done|done|congruence|lia].
Qed.
Lemma exit_removes n r x b h : bk_holdings b !! n = Some h →
  bk_holdings (exit_position m p n r x b).2 = delete n (bk_holdings b) ∧ bk_trades (exit_position m p n r x b).2 = bk_trades b.
Proof.
  intros Hh. change (st_wp (exit_position m p n r x) b (λ _ b', bk_holdings b' = delete n (bk_holdings b) ∧ bk_trades b' = bk_trades b)).
  unfold exit_position. apply wp_bind. apply (wp_eq _ _ (Ok b) b); [done|]. cbn beta iota. rewrite Hh.
  apply wp_bind. eapply (wp_eq _ _ (Ok ())); [reflexivity|]. cbn beta iota. set (b1 := put_holdings _ b).
  assert (∀ f : BM X bool, st_rel calm f → st_wp f b1 (λ _ b', bk_holdings b' = delete n (bk_holdings b) ∧ bk_trades b' = bk_trades b)) as I
    by (intros f Hf; exact (Hf b1)).
  apply I.
  rel_auto ltac:(first [apply price_calm | apply say_calm | apply call_calm | unfold record_outcome_of; apply modify_calm; intros ?; repeat case_match; by split]).
Qed.
(** An entry and its exit.  A position that was entered and is then
    exited, whatever the functions answer to the exit, leaves the positions
    as they were before the entry, and one more trade counted. *)
Theorem entry_exit_roundtrip (n d why r e : string) (k q : Z) (given x : float64) (b b1 : book X) :
  enter_position m s p n d k given r q e b = (Ok true, b1) →
  bk_holdings (exit_position m p n why x b1).2 = bk_holdings b ∧ bk_trades (exit_position m p n why x b1).2 = bk_trades b + 1.
Proof.
  intros [Hn _ _ (price & t & dt & y & y' & _ & _ & Hb & Ht)]%entered_inv.
  destruct (exit_removes n why x b1 (Holding d (if 0 <? q then q else se_qty s) price price t k r dt)) as [-> ->].
  - rewrite Hb. apply dict_lookup_insert_eq.
  - rewrite Hb, dict_delete_insert, dict_delete_none by done. by split.
Qed.
End books.

(** ** Concrete markets *)

Definition plain_market {X} : market X := {|
  mk_tag := "DEMO"; mk_none := "No symbols"; mk_open := 9 * 60; mk_close := 15 * 60 + 30;
  mk_prepare _ _ e := mret (inr (Contract e)); mk_refresh _ _ d := mret d; mk_text _ := (EmptyString, EmptyString) |}.
Definition plain_settings : market_settings := MarketSettings ["GOLD"; "SILVER"; "COPPER"]%string (lit 97 2) (lit 105 2) 2 1 ∅.
(** The world is the price of everything. *)
Definition plain_port : market_port float64 := {|
  mp_price _ := x ← st_get; mret (Some x); mp_nav _ := mret None; mp_entry := Some (λ _ _ _ _, mret true); mp_exit := None;
  mp_send _ := mret () |}.
Definition at_ten (x : Z) : book float64 :=
  new_book (Clock (new_year * usec_per_day + minutes 600) []) plain_settings (f_of_Z x).
Definition buys (l : list string) : list trader_op := (λ n, Enter n "BUY" 70 f_zero "signal" 0 EmptyString) <$> l.
Definition held_after (os : list trader_op) (x y : Z) : list string * Z :=
  let b := run_ops plain_market plain_settings plain_port os (at_ten x) in
  let b' := (monitor_positions plain_market plain_settings plain_port (put_ext (f_of_Z y) b)).2 in
  (dkeys (bk_holdings b'), bk_trades b').
Example stop_and_target :
  held_after (buys ["GOLD"; "SILVER"; "COPPER"]%string) 100 100 = (["GOLD"; "SILVER"]%string, 2) ∧
  held_after (buys ["GOLD"]%string) 100 98 = (["GOLD"]%string, 1) ∧
  held_after (buys ["GOLD"]%string) 100 96 = ([], 1) ∧ held_after (buys ["GOLD"]%string) 100 106 = ([], 1).
Proof. vm_compute. repeat split. Qed.
(** A price that is not a number is taken for an order, and no stop is ever
    reached with it. *)
Definition nan_book : book float64 := put_ext f_nan (at_ten 100).
Example nan_price_entered :
  (enter_position plain_market plain_settings plain_port "GOLD" "BUY" 70 f_zero "signal" 0 EmptyString nan_book).1 = Ok true ∧
  (λ h, exit_reason plain_settings h (f_of_Z 1)) <$>
    dvalues (bk_holdings (run_ops plain_market plain_settings plain_port (buys ["GOLD"]%string) nan_book)) = [None].
Proof. vm_compute. split; reflexivity. Qed.
Definition counted_book : book (float64 * Z) :=
  new_book (Clock (new_year * usec_per_day + minutes 600) []) plain_settings (f_of_Z 100, 0).
Lemma market_within_limit_witness :
  made (run_ops (counting_market plain_market) plain_settings (counting_port plain_port) (buys ["GOLD"; "SILVER"; "COPPER"]%string) counted_book)
    - made counted_book <= Z.max 0 (se_max plain_settings - bk_trades counted_book) ∧
  made (run_ops (counting_market plain_market) plain_settings (counting_port plain_port) (buys ["GOLD"; "SILVER"; "COPPER"]%string) counted_book) = 2.
Proof.
  split; [|vm_compute; reflexivity].
  apply market_within_limit. repeat (constructor; [discriminate|]). constructor.
Defined.
Definition entered_gold : book float64 :=
  (enter_position plain_market plain_settings plain_port "GOLD" "BUY" 70 f_zero "signal" 0 EmptyString (at_ten 100)).2.
Lemma entry_exit_roundtrip_witness :
  bk_holdings (exit_position plain_market plain_port "GOLD" "MANUAL" f_zero entered_gold).2 = bk_holdings (at_ten 100) ∧
  bk_trades (exit_position plain_market plain_port "GOLD" "MANUAL" f_zero entered_gold).2 = bk_trades (at_ten 100) + 1.
Proof.
  apply (entry_exit_roundtrip plain_market plain_settings plain_port "GOLD" "BUY" "MANUAL" "signal" EmptyString 70 0 f_zero f_zero (at_ten 100) entered_gold).
  vm_compute. reflexivity.
Defined.
