(* ===== verification/AssetTraders.v ===== *)
(** * The traders of commodities, currencies, funds and trusts

    [core/commodity_trader.py], [core/currency_trader.py],
    [core/etf_trader.py] and [core/reit_trader.py]: four markets for the
    engine of [MarketTrader], with their hours, defaults, and what they
    record of a position. *)
From S2P Require Import Prelude PyStr Float64 PyDict PyVal CapitalManager RiskService MandateService MarketWarmup StateManager Reentry MarketTrader.

(** ** Commodity futures: open until half past eleven in the evening *)

Definition commodity_priority : list string := ["GOLD"; "SILVER"; "CRUDEOIL"; "NATURALGAS"; "COPPER"]%string.
Definition commodity_symbols (c : market_config) : list string := build_symbols "COMMODITY" commodity_priority c.
Definition commodity_settings (c : market_config) : res market_settings :=
  read_settings "COMMODITY" (lit 97 2) (lit 105 2) 10 1 (commodity_symbols c) c.
(** A contract records its expiry; no margin is ever set. *)
Definition commodity_market {X} : market X := {|
  mk_tag := "COMMODITY"; mk_none := "No commodity symbols configured"; mk_open := 9 * 60; mk_close := 23 * 60 + 30;
  mk_prepare _ _ expiry := mret (inr (Contract expiry)); mk_refresh _ _ d := mret d; mk_text _ := (EmptyString, EmptyString) |}.

Section commodity.
Context {X : Type} (p : market_port X) (s : market_settings).
Definition commodity_is_market_open : BM X bool := is_market_open commodity_market.
Definition commodity_can_trade : BM X (bool * string) := can_trade commodity_market s.
Definition commodity_enter_position (symbol direction : string) (score : Z) (given : float64) (reason : string) (qty : Z) (expiry : string) : BM X bool :=
  enter_position commodity_market s p symbol direction score given reason qty expiry.
Definition commodity_exit_position (symbol reason : string) (given : float64) : BM X bool := exit_position commodity_market p symbol reason given.
Definition commodity_monitor_positions : BM X unit := monitor_positions commodity_market s p.
Definition commodity_reset_daily : BM X unit := reset_daily_if_needed.
Definition commodity_loop_round : BM X unit := loop_round commodity_market s p.
Definition commodity_start : BM X unit := start commodity_market s p.
Definition commodity_stop : BM X unit := stop.
Definition commodity_total_pnl `{!PySum} (b : book X) : res float64 := total_pnl b.
End commodity.

(** ** Currency futures *)

Definition currency_priority : list string := ["USDINR"; "EURINR"; "GBPINR"; "JPYINR"]%string.
Definition currency_symbols (c : market_config) : list string := build_symbols "CURRENCY" currency_priority c.
Definition currency_settings (c : market_config) : res market_settings :=
  read_settings "CURRENCY" (lit 98 2) (lit 103 2) 10 1000 (currency_symbols c) c.
Definition currency_market {X} : market X := {|
  mk_tag := "CURRENCY"; mk_none := "No currency symbols configured"; mk_open := 9 * 60; mk_close := 15 * 60 + 30;
  mk_prepare _ _ expiry := mret (inr (Contract expiry)); mk_refresh _ _ d := mret d; mk_text _ := (EmptyString, EmptyString) |}.

Section currency.
Context {X : Type} (p : market_port X) (s : market_settings).
Definition currency_is_market_open : BM X bool := is_market_open currency_market.
Definition currency_can_trade : BM X (bool * string) := can_trade currency_market s.
Definition currency_enter_position (symbol direction : string) (score : Z) (given : float64) (reason : string) (qty : Z) (expiry : string) : BM X bool :=
  enter_position currency_market s p symbol direction score given reason qty expiry.
Definition currency_exit_position (symbol reason : string) (given : float64) : BM X bool := exit_position currency_market p symbol reason given.
Definition currency_monitor_positions : BM X unit := monitor_positions currency_market s p.
Definition currency_reset_daily : BM X unit := reset_daily_if_needed.
Definition currency_loop_round : BM X unit := loop_round currency_market s p.
Definition currency_start : BM X unit := start currency_market s p.
Definition currency_stop : BM X unit := stop.
Definition currency_total_pnl `{!PySum} (b : book X) : res float64 := total_pnl b.
End currency.

(** ** Funds *)

Definition etf_priority : list string := ["NIFTYBEES"; "BANKBEES"; "GOLDBEES"; "SILVERBEES"; "LIQUIDBEES"]%string.
Definition etf_symbols (c : market_config) : list string := build_symbols "ETF" etf_priority c.
Definition meta_of (c : market_config) (prefix symbol : string) : pyrec := default ∅ (mc_map c prefix !! symbol).
(** The expense ratios, read by the constructor. *)
Fixpoint expense_ratios (c : market_config) (symbols : list string) (d : pydict float64) : res (pydict float64) :=
  match symbols with
  | [] => Ok d
  | n :: ns => rbind (py_float (rget "expense_ratio" (VFloat f_zero) (meta_of c "ETF" n))) (λ x, expense_ratios c ns (<[n := x]> d))
  end.
Definition etf_settings (c : market_config) : res (market_settings * pydict float64) :=
  rbind (read_settings "ETF" (lit 95 2) (lit 105 2) 5 1 (etf_symbols c) c) (λ s,
  rbind (expense_ratios c (se_symbols s) ∅) (λ d, Ok (s, d))).
(** [get_nav(symbol) or price]; the premium of the price over the value *)
Definition nav_or {X} (p : market_port X) (symbol : string) (price : float64) : ST X float64 :=
  q ← mp_nav p symbol; mret (match q with Some x => if is_zero x then price else x | None => price end).
Definition premium_of (price nav : float64) : float64 :=
  if fgt nav f_zero then ((price - nav) / py_max nav (lit 1 2))%f64 else f_zero.
Definition percent_text (x : float64) : string := fmt_f 1 (x * f_of_Z 100)%f64.
Definition etf_prepare {X} (p : market_port X) (c : market_config) (ratios : pydict float64) (symbol : string) (price : float64) : ST X (string + detail) :=
  nav ← nav_or p symbol price;
  let premium := premium_of price nav in
  aum ← st_lift (py_float (rget "aum_crores" (VFloat f_zero) (meta_of c "ETF" symbol)));
  mret (if fgt premium (lit 2 2) then inl (cat [": premium "; percent_text premium; "% > 2%, skipped"])
        else inr (Fund nav (default f_zero (ratios !! symbol)) premium aum)).
Definition etf_refresh {X} (p : market_port X) (symbol : string) (price : float64) (d : detail) : ST X detail :=
  match d with
  | Fund _ e _ a => nav ← nav_or p symbol price; mret (Fund nav e (premium_of price nav) a)
  | d => mret d
  end.
Definition etf_text (d : detail) : string * string :=
  match d with
  | Fund nav _ premium _ => (EmptyString, cat [" (NAV="; fmt_f 2 nav; ", prem="; percent_text premium; "%)"])
  | _ => (EmptyString, EmptyString)
  end.
Definition etf_market {X} (p : market_port X) (c : market_config) (ratios : pydict float64) : market X := {|
  mk_tag := "ETF"; mk_none := "No ETF symbols configured"; mk_open := 9 * 60 + 15; mk_close := 15 * 60 + 30;
  mk_prepare n x _ := etf_prepare p c ratios n x; mk_refresh := etf_refresh p; mk_text := etf_text |}.
(** [_avg_premium] *)
Definition premium_in (h : holding) : float64 := match ho_detail h with Fund _ _ x _ => x | _ => f_zero end.
Definition avg_premium {X} `{!PySum} (b : book X) : res float64 :=
  match dvalues (bk_holdings b) with
  | [] => Ok f_zero
  | l => rbind (float_of_Z (Z.of_nat (length l))) (λ n, Ok (fsum (premium_in <$> l) / n)%f64)
  end.

Section etf.
Context {X : Type} (p : market_port X) (c : market_config) (ratios : pydict float64) (s : market_settings).
Definition etf_is_market_open : BM X bool := is_market_open (etf_market p c ratios).
Definition etf_can_trade : BM X (bool * string) := can_trade (etf_market p c ratios) s.
Definition etf_enter_position (symbol direction : string) (score : Z) (given : float64) (reason : string) (qty : Z) : BM X bool :=
  enter_position (etf_market p c ratios) s p symbol direction score given reason qty EmptyString.
Definition etf_exit_position (symbol reason : string) (given : float64) : BM X bool := exit_position (etf_market p c ratios) p symbol reason given.
Definition etf_monitor_positions : BM X unit := monitor_positions (etf_market p c ratios) s p.
Definition etf_reset_daily : BM X unit := reset_daily_if_needed.
Definition etf_loop_round : BM X unit := loop_round (etf_market p c ratios) s p.
Definition etf_start : BM X unit := start (etf_market p c ratios) s p.
Definition etf_stop : BM X unit := stop.
Definition etf_total_pnl `{!PySum} (b : book X) : res float64 := total_pnl b.
End etf.

(** ** Real-estate and infrastructure trusts *)

Definition reit_priority : list string := ["EMBASSY"; "MINDSPACE"; "BROOKFIELD"]%string.
Definition invit_priority : list string := ["IRBINVIT"; "POWERGRID_INVIT"; "INDUCT_INVIT"]%string.
(** [_init_trust_types], [_build_all_symbols], [_get_trust_type] *)
Definition init_trust_types (c : market_config) : pydict string :=
  foldl (λ d t, foldl (λ d (q : string * pyrec), if is_on q.2 then <[q.1 := t]> d else d) d (items (mc_map c t))) ∅ ["REIT"; "INVIT"]%string.
Definition reit_symbols (c : market_config) : list string := build_symbols "REIT" reit_priority c ++ build_symbols "INVIT" invit_priority c.
Definition get_trust_type (c : market_config) (symbol : string) : string := default "REIT"%string (init_trust_types c !! symbol).
Definition reit_settings (c : market_config) : res market_settings :=
  read_settings "REIT" (lit 93 2) (lit 107 2) 5 1 (reit_symbols c) c.
Definition reit_prepare {X} (p : market_port X) (c : market_config) (symbol : string) (price : float64) : ST X (string + detail) :=
  let trust := get_trust_type c symbol in
  nav ← nav_or p symbol price;
  let meta := meta_of c (if String.eqb trust "REIT" then "REIT" else "INVIT") symbol in
  yield ← st_lift (py_float (rget "distribution_yield" (VFloat f_zero) meta));
  aum ← st_lift (py_float (rget "aum_crores" (VFloat f_zero) meta));
  mret (inr (Trust nav yield trust (py_str (rget "sector" (VStr EmptyString) meta)) aum)).
Definition reit_text (d : detail) : string * string :=
  match d with Trust _ _ trust _ _ => (cat [" ["; trust; "]"], EmptyString) | _ => (EmptyString, EmptyString) end.
Definition reit_market {X} (p : market_port X) (c : market_config) : market X := {|
  mk_tag := "REIT"; mk_none := "No REIT/InvIT symbols configured"; mk_open := 9 * 60 + 15; mk_close := 15 * 60 + 30;
  mk_prepare n x _ := reit_prepare p c n x; mk_refresh _ _ d := mret d; mk_text := reit_text |}.
(** [get_sector_exposure] *)
Definition sector_of (h : holding) : string :=
  match ho_detail h with Trust _ _ trust sector _ => if truthy_str sector then sector else trust | _ => EmptyString end.
Fixpoint exposures (l : list holding) (d : pydict float64) : res (pydict float64) :=
  match l with
  | [] => Ok d
  | h :: l' =>
      rbind (float_of_Z (ho_qty h)) (λ n,
      let sec := sector_of h in
      exposures l' (<[sec := (default f_zero (d !! sec) + fabs (n * ho_current h))%f64]> d))
  end.
Definition get_sector_exposure {X} (b : book X) : res (pydict float64) := exposures (dvalues (bk_holdings b)) ∅.

Section reit.
Context {X : Type} (p : market_port X) (c : market_config) (s : market_settings).
Definition reit_is_market_open : BM X bool := is_market_open (reit_market p c).
Definition reit_can_trade : BM X (bool * string) := can_trade (reit_market p c) s.
Definition reit_enter_position (symbol direction : string) (score : Z) (given : float64) (reason : string) (qty : Z) : BM X bool :=
  enter_position (reit_market p c) s p symbol direction score given reason qty EmptyString.
Definition reit_exit_position (symbol reason : string) (given : float64) : BM X bool := exit_position (reit_market p c) p symbol reason given.
Definition reit_monitor_positions : BM X unit := monitor_positions (reit_market p c) s p.
Definition reit_reset_daily : BM X unit := reset_daily_if_needed.
Definition reit_loop_round : BM X unit := loop_round (reit_market p c) s p.
Definition reit_start : BM X unit := start (reit_market p c) s p.
Definition reit_stop : BM X unit := stop.
Definition reit_total_pnl `{!PySum} (b : book X) : res float64 := total_pnl b.
End reit.

(** ** Theorems *)

(** No fund is bought far above its value.  An entry in a fund that
    succeeds holds it at a price whose premium over the value it was given
    is not above two per cent; without a value the premium counts as zero. *)
Theorem etf_premium_bounded {X} (p : market_port X) (c : market_config) (ratios : pydict float64) (s : market_settings)
    (symbol direction reason : string) (score qty : Z) (given : float64) (b b' : book X) :
  etf_enter_position p c ratios s symbol direction score given reason qty b = (Ok true, b') →
  ∃ h nav e premium aum, bk_holdings b' !! symbol = Some h ∧ ho_detail h = Fund nav e premium aum ∧
    premium = premium_of (ho_entry h) nav ∧ fgt premium (lit 2 2) = false.
Proof.
  intros [_ _ _ (price & t & dt & y & y' & _ & Hd & Hb & _)]%entered_inv. cbn [etf_market mk_prepare] in Hd.
  unfold etf_prepare in Hd. inv_bind Hd nav y1 Hn. cbv zeta in Hd. inv_bind Hd aum y2 Ha.
  destruct (fgt (premium_of price nav) (lit 2 2)) eqn:E; [done|]. injection Hd as <- _.
  do 5 eexists. rewrite Hb, dict_lookup_insert_eq. split; [reflexivity|]. cbn. by split_and!.
Qed.
(** The type of a trust is the map it is enabled in; the later map wins. *)
Lemma trust_types_total c symbol : get_trust_type c symbol = "REIT"%string ∨ get_trust_type c symbol = "INVIT"%string.
Proof.
  unfold get_trust_type, init_trust_types. set (P := λ d : pydict string, default "REIT"%string (d !! symbol) = "REIT"%string ∨
    default "REIT"%string (d !! symbol) = "INVIT"%string).
  assert (∀ t l d, t = "REIT"%string ∨ t = "INVIT"%string → P d → P (foldl (λ d (q : string * pyrec), if is_on q.2 then <[q.1 := t]> d else d) d l)) as H.
  { intros t l d Ht Hd. apply (foldl_inv P); [exact Hd|]. intros d' [n r] _ Hd'. cbn. destruct (is_on r); [|done]. unfold P.
    destruct (decide (n = symbol)) as [->|Hn]; [rewrite dict_lookup_insert_eq; exact Ht|by rewrite dict_lookup_insert_ne]. }
  cbn [foldl]. apply H; [by right|]. apply H; [by left|]. by left.
Qed.

(** ** Concrete traders *)

Definition one_fund : market_config := {|
  mc_values := PyDict [("ETF_ENABLED", VBool true); ("REIT_ENABLED", VBool true); ("INVIT_ENABLED", VBool true)]%string;
  mc_map n := if String.eqb n "ETF" then PyDict [("NIFTYBEES", PyDict [("expense_ratio", VFloat (lit 5 4))])]%string
              else if String.eqb n "REIT" then PyDict [("EMBASSY", PyDict [("sector", VStr "office")]); ("IRBINVIT", ∅)]%string
              else if String.eqb n "INVIT" then PyDict [("IRBINVIT", ∅)]%string else ∅;
  mc_priority _ := None |}.
(** The world is the price and the value of everything. *)
Definition valued_port : market_port (float64 * option float64) := {|
  mp_price _ := x ← st_get; mret (Some x.1); mp_nav _ := x ← st_get; mret x.2; mp_entry := Some (λ _ _ _ _, mret true); mp_exit := None;
  mp_send _ := mret () |}.
Definition fund_settings : market_settings := MarketSettings ["NIFTYBEES"]%string (lit 95 2) (lit 105 2) 5 1 (mc_values one_fund).
Definition buy_fund (price : Z) (nav : option Z) : res bool * book (float64 * option float64) :=
  etf_enter_position valued_port one_fund (PyDict [("NIFTYBEES", lit 5 4)]%string) fund_settings "NIFTYBEES" "BUY" 70 f_zero "signal" 0
    (new_book (Clock (new_year * usec_per_day + minutes 600) []) fund_settings (f_of_Z price, f_of_Z <$> nav)).
Example settings_of_funds : etf_settings one_fund = Ok (fund_settings, PyDict [("NIFTYBEES", lit 5 4)]%string).
Proof. vm_compute. reflexivity. Qed.
(** Above two per cent it is left; without a value, or with a value of
    zero, it is bought at any price. *)
Example fund_premiums :
  (buy_fund 101 (Some 100)).1 = Ok true ∧ (buy_fund 103 (Some 100)).1 = Ok false ∧ (buy_fund 103 None).1 = Ok true ∧
  (buy_fund 103 (Some (-5))).1 = Ok true.
Proof. vm_compute. repeat split. Qed.
Example symbols_of_trusts :
  reit_symbols one_fund = ["EMBASSY"; "IRBINVIT"]%string ∧ get_trust_type one_fund "EMBASSY" = "REIT"%string ∧
  get_trust_type one_fund "IRBINVIT" = "INVIT"%string ∧ etf_symbols one_fund = ["NIFTYBEES"]%string.
Proof. vm_compute. repeat split. Qed.
(** The hours of the four markets, in minutes of a Thursday. *)
Definition opens (f : Z → bool) (l : list Z) : list bool := (λ n, f (new_year * usec_per_day + minutes n)) <$> l.
Example hours_of_markets :
  opens (open_at (commodity_market (X:=unit))) [539; 540; 930; 1409; 1410] = [false; true; true; true; false] ∧
  opens (open_at (currency_market (X:=unit))) [539; 540; 929; 930] = [false; true; true; false] ∧
  opens (open_at (etf_market valued_port one_fund ∅)) [554; 555; 929; 930] = [false; true; true; false].
Proof. vm_compute. repeat split. Qed.
Lemma etf_premium_bounded_witness :
  ∃ h nav e premium aum, bk_holdings (buy_fund 101 (Some 100)).2 !! "NIFTYBEES"%string = Some h ∧ ho_detail h = Fund nav e premium aum ∧
    premium = premium_of (ho_entry h) nav ∧ fgt premium (lit 2 2) = false.
Proof.
  apply (etf_premium_bounded valued_port one_fund (PyDict [("NIFTYBEES", lit 5 4)]%string) fund_settings "NIFTYBEES" "BUY" "signal" 70 0 f_zero
    (new_book (Clock (new_year * usec_per_day + minutes 600) []) fund_settings (f_of_Z 101, f_of_Z <$> Some 100))).
  vm_compute. reflexivity.
Defined.
