(* ===== verification/TradingLoop.v ===== *)
(** * The trading loop

    [TradingLoopService] of [index_app/domains/trading/service.py]: the cycle
    that looks at the market, evaluates signals, enters, monitors and
    reconciles.  What the loop is given as functions and objects is a record
    of operations over the whole world, so that they may share its state; a
    data frame is a type [F] of which the loop reads the number of rows. *)
From S2P Require Import Prelude PyStr Float64 PyDict PyVal CapitalManager MandateService StateManager.

(** ** The world *)

Section world.
Context {X : Type}.
Record loop_world := LoopWorld {
  lw_clk : clock; lw_shutdown : bool; lw_decisions : pydict string; lw_counts : pydict Z; lw_alerted : list string; lw_date : string;
  lw_rounds : Z; lw_ext : X }.
#[global] Instance loop_clock : HasClock loop_world :=
  {| clock_of := lw_clk;
     set_clock := λ k w, LoopWorld k (lw_shutdown w) (lw_decisions w) (lw_counts w) (lw_alerted w) (lw_date w) (lw_rounds w) (lw_ext w) |}.
Definition set_decision (name msg : string) (w : loop_world) : loop_world :=
  LoopWorld (lw_clk w) (lw_shutdown w) (<[name := msg]> (lw_decisions w)) (lw_counts w) (lw_alerted w) (lw_date w) (lw_rounds w) (lw_ext w).
Definition set_alerts (counts : pydict Z) (alerted : list string) (date : string) (w : loop_world) : loop_world :=
  LoopWorld (lw_clk w) (lw_shutdown w) (lw_decisions w) counts alerted date (lw_rounds w) (lw_ext w).
Definition set_rounds (n : Z) (w : loop_world) : loop_world :=
  LoopWorld (lw_clk w) (lw_shutdown w) (lw_decisions w) (lw_counts w) (lw_alerted w) (lw_date w) n (lw_ext w).
Definition LM (A : Type) : Type := ST loop_world A.
End world.
Arguments loop_world X : clear implicits.
Arguments LM X A : clear implicits.

(** The equity trader, where there is one. *)
Record equity_port (X F : Type) := EquityPort {
  eq_can_trade : LM X (bool * string);
  eq_symbols : LM X (list string);
  eq_holds : string → LM X bool;
  eq_signal : string → F → LM X (option pyrec);
  eq_enter : string → pyval → pyval → LM X unit;
  eq_monitor : LM X unit }.
(** Everything the loop is given. *)
Record loop_port (X F : Type) := LoopPort {
  lo_rows : F → option Z;
  lo_halted : LM X bool;
  lo_market : LM X string;
  lo_fetch : string → LM X F;
  lo_vix : LM X float64;
  lo_signal : string → F → float64 → LM X pyrec;
  lo_held : string → LM X bool;
  lo_mandate : pyval → Z → LM X (bool * string);
  (** the tracker of an index, where there is one *)
  lo_reentry : string → Z → pyval → LM X (option (bool * string));
  lo_correlation : string → pyval → LM X (bool * string);
  lo_enter : string → pyrec → LM X unit;
  lo_monitor : LM X unit;
  lo_reconcile : LM X unit;
  lo_wait : float64 → LM X unit;
  lo_heartbeat : option (LM X unit);
  lo_closes : option (string → F → LM X unit);
  lo_oi : option (LM X unit);
  lo_invariants : option (LM X unit);
  lo_send : option (string → LM X unit);
  lo_notify : option (string → string → string → LM X unit);
  lo_equity : option (equity_port X F);
  (** the opt-in recorders of other modules *)
  lo_watchdog : LM X unit; lo_drift : LM X unit; lo_lake : string → F → LM X unit; lo_outcomes : LM X unit; lo_sweep : LM X unit;
  lo_periodic : LM X unit }.
Arguments eq_can_trade {X F}. Arguments eq_symbols {X F}. Arguments eq_holds {X F}. Arguments eq_signal {X F}.
Arguments eq_enter {X F}. Arguments eq_monitor {X F}.
Arguments lo_rows {X F}. Arguments lo_halted {X F}. Arguments lo_market {X F}. Arguments lo_fetch {X F}. Arguments lo_vix {X F}.
Arguments lo_signal {X F}. Arguments lo_held {X F}. Arguments lo_mandate {X F}. Arguments lo_reentry {X F}.
Arguments lo_correlation {X F}. Arguments lo_enter {X F}. Arguments lo_monitor {X F}. Arguments lo_reconcile {X F}.
Arguments lo_wait {X F}. Arguments lo_heartbeat {X F}. Arguments lo_closes {X F}. Arguments lo_oi {X F}. Arguments lo_invariants {X F}.
Arguments lo_send {X F}. Arguments lo_notify {X F}. Arguments lo_equity {X F}. Arguments lo_watchdog {X F}. Arguments lo_drift {X F}.
Arguments lo_lake {X F}. Arguments lo_outcomes {X F}. Arguments lo_sweep {X F}. Arguments lo_periodic {X F}.

Definition loop_errors : list exn_class := [ValueError; TypeError; KeyError; AttributeError; IndexError; OSError].

Section loop.
Context {X F : Type} (cfg : pyrec) (indices : list string) (p : loop_port X F).

(** An optional function, and one that must not disturb the loop. *)
Definition if_given (m : option (LM X unit)) : LM X unit := match m with Some m => m | None => mret () end.
Definition quietly (cs : list exn_class) (m : LM X unit) : LM X unit := st_try m cs (λ _, mret ()).
Definition opted (key : string) (m : LM X unit) : LM X unit :=
  if truthy (rget key (VBool false) cfg) then quietly loop_errors m else mret ().
Definition send (msg : string) : LM X unit := match lo_send p with Some f => f msg | None => mret () end.
Definition notify (msg severity category : string) : LM X unit :=
  match lo_notify p with Some f => f msg severity category | None => mret () end.
Definition decide_log (name msg : string) : LM X unit := st_modify (set_decision name msg).

(** [_record_heartbeat], [_loop_watchdog_tick], [_config_drift_auto_reload_tick] *)
Definition record_heartbeat : LM X unit := quietly [ValueError; TypeError; OSError] (if_given (lo_heartbeat p)).
Definition loop_watchdog_tick : LM X unit := opted "loop_watchdog_enabled" (lo_watchdog p).
Definition config_drift_tick : LM X unit := opted "config_drift_auto_reload_enabled" (lo_drift p).
(** [_record_exception_and_maybe_alert] *)
Definition count_exception (name today : string) (threshold : Z) : LM X (option Z) :=
  st_modify (λ w, if String.eqb today (lw_date w) then w else set_alerts ∅ [] today w) ;;
  w ← st_get;
  let n := default 0 (lw_counts w !! name) + 1 in
  let alert := (threshold <=? n) && negb (str_mem name (lw_alerted w)) in
  st_modify (λ w, set_alerts (<[name := n]> (lw_counts w)) (if alert then lw_alerted w ++ [name] else lw_alerted w) (lw_date w) w) ;;
  mret (if alert then Some n else None).
Definition record_exception (name : string) : LM X unit :=
  quietly loop_errors
    (now ← now_ist;
     threshold ← st_lift (py_int (rget "EXCEPTION_ALERT_THRESHOLD" (VInt 10) cfg));
     if threshold <=? 0 then mret ()
     else
       alert ← count_exception name (day_text now) threshold;
       match alert with
       | Some n =>
           let msg := cat ["Exception alert: "; name; " occurred "; str_of_Z n; "x in the trading loop today (threshold=";
                           str_of_Z threshold; ")"] in
           send msg ;; notify msg "WARNING" "system"
       | None => mret ()
       end).

(** ** A cycle *)

(** [_fetch_all_frames]; two frames for one index: the later. *)
Definition enough (n : Z) (f : F) : bool := match lo_rows p f with Some r => n <=? r | None => false end.
Definition fetch_one (name : string) : LM X F :=
  held ← lo_held p name;
  f ← lo_fetch p name;
  opted "timeseries_lake_enabled" (if enough 1 f then lo_lake p name f else mret ()) ;;
  (if negb held && enough 1 f then quietly loop_errors (match lo_closes p with Some g => g name f | None => mret () end) else mret ()) ;;
  mret f.
Fixpoint fetch_all (names : list string) : LM X (pydict F) :=
  match names with
  | [] => mret ∅
  | n :: ns => f ← fetch_one n; d ← fetch_all ns; mret (match d !! n with Some _ => d | None => <[n := f]> d end)
  end.
(** [_update_signal_outcomes_tick], [_record_oi_snapshots],
    [_maybe_sweep_stale_signals], [_maybe_send_periodic_notifications] *)
Definition update_outcomes : LM X unit := opted "signal_outcome_tracking_enabled" (lo_outcomes p).
Definition record_oi : LM X unit := quietly loop_errors (if_given (lo_oi p)).
Definition sweep_stale : LM X unit := quietly (loop_errors ++ [RuntimeError]) (lo_sweep p).
Definition periodic_notifications : LM X unit :=
  match lo_send p with Some _ => quietly loop_errors (lo_periodic p) | None => mret () end.

(** A signal that is worth looking at: its score. *)
Definition score_of (s : pyrec) : res Z := py_int (rget "score" (VInt 0) s).
Definition threshold : res Z := py_int (rget "AI_THRESHOLD" (VInt 60) cfg).
Definition no_signal (s : pyrec) : bool := (dlen s =? 0) || py_eq (rget "signal" VNone s) (VStr "HOLD").
Definition direction_of (s : pyrec) : pyval := rget "direction" (VStr "CALL") s.
(** The gates of one index, after the data: the signal that may be entered. *)
Definition gated_signal (name : string) (f : F) (vix : float64) : LM X (option (pyrec * Z)) :=
  s ← lo_signal p name f vix;
  if no_signal s then mret None
  else
    score ← st_lift (score_of s);
    least ← st_lift threshold;
    if score <? least then mret None
    else
      m ← lo_mandate p (rget "regime" (VStr "SIDEWAYS") s) score;
      if negb m.1 then mret None
      else
        r ← lo_reentry p name score (direction_of s);
        match r with
        | Some (false, why) => decide_log name (String.append "REENTRY_BLOCK: " why) ;; mret None
        | _ =>
            c ← lo_correlation p name (direction_of s);
            if negb c.1 then decide_log name (String.append "CORRELATION_BLOCK: " c.2) ;; mret None
            else mret (Some (s, score))
        end.
Definition evaluate_one (name : string) (frames : pydict F) (vix : float64) : LM X unit :=
  held ← lo_held p name;
  if held : bool then mret ()
  else
    match frames !! name with
    | Some f =>
        if enough 30 f then
          g ← gated_signal name f vix;
          match g with
          | Some (s, score) =>
              lo_enter p name s ;;
              notify (cat ["Trade entered: "; name; " "; py_str (direction_of s); " score="; str_of_Z score]) "INFO" "trade"
          | None => mret ()
          end
        else mret ()
    | None => mret ()
    end.
(** [_evaluate_and_enter_trades] *)
Fixpoint evaluate_and_enter (names : list string) (frames : pydict F) (vix : float64) : LM X unit :=
  match names with
  | [] => mret ()
  | n :: ns =>
      halted ← lo_halted p;
      if halted : bool then mret () else evaluate_one n frames vix ;; evaluate_and_enter ns frames vix
  end.

(** [_evaluate_equity_trades] *)
Definition equity_one (eq : equity_port X F) (symbol : string) : LM X unit :=
  held ← eq_holds eq symbol;
  if held : bool then mret ()
  else
    f ← lo_fetch p symbol;
    if negb (enough 20 f) then mret ()
    else
      s ← eq_signal eq symbol f;
      match s with
      | None => mret ()
      | Some s =>
          let score := rget "score" (VInt 0) s in
          least ← st_lift threshold;
          low ← st_lift (v_lt score (VInt least));
          if low : bool then mret ()
          else
            let direction := rget "direction" (VStr "BUY") s in
            decide_log symbol (cat ["EQUITY_SIGNAL: "; py_str direction; " score="; py_str score; " rsi="; py_str (rget "rsi" (VStr "?") s)]) ;;
            eq_enter eq symbol direction score
      end.
Fixpoint equity_each (eq : equity_port X F) (symbols : list string) : LM X unit :=
  match symbols with
  | [] => mret ()
  | s :: ss => halted ← lo_halted p; if halted : bool then mret () else equity_one eq s ;; equity_each eq ss
  end.
Definition evaluate_equity : LM X unit :=
  match lo_equity p with
  | None => mret ()
  | Some eq =>
      quietly loop_errors
        (a ← eq_can_trade eq;
         if negb a.1 then mret () else symbols ← eq_symbols eq; equity_each eq symbols)
  end.
(** [_monitor_positions_with_equity] *)
Definition monitor_positions_with_equity : LM X unit :=
  lo_monitor p ;;
  match lo_equity p with Some eq => quietly [ValueError; TypeError; OSError] (eq_monitor eq) | None => mret () end.

(** [_execute_cycle] *)
Definition trading_part : LM X unit :=
  frames ← fetch_all indices;
  update_outcomes ;;
  vix ← lo_vix p;
  record_oi ;;
  evaluate_and_enter indices frames vix ;;
  evaluate_equity ;;
  monitor_positions_with_equity ;;
  lo_reconcile p ;;
  periodic_notifications.
Definition execute_cycle : LM X unit :=
  status ← lo_market p;
  if negb (String.eqb status "OPEN") then
    sweep_stale ;; lo_wait p (f_of_Z (if String.eqb status "HOLIDAY" then 300 else 60))
  else
    halted ← lo_halted p;
    if halted : bool then
      notify "Hard halt active — skipping cycle" "WARNING" "risk" ;;
      n ← st_lift (py_int (rget "SCAN_INTERVAL" (VInt 30) cfg));
      lo_wait p (f_of_Z n)
    else trading_part.

(** ** The loop *)

(** One round of [run]. *)
Definition invariant_check : LM X unit :=
  st_modify (λ w, set_rounds (lw_rounds w + 1) w) ;;
  w ← st_get;
  match lo_invariants p with
  | Some m => if 30 <=? lw_rounds w then st_modify (set_rounds 0) ;; quietly loop_errors m else mret ()
  | None => mret ()
  end.
Definition run_round (interval : Z) : LM X unit :=
  start ← time_time;
  record_heartbeat ;;
  loop_watchdog_tick ;;
  config_drift_tick ;;
  st_try execute_cycle loop_errors (λ e, record_exception (exn_name (exn_cls e))) ;;
  invariant_check ;;
  now ← time_time;
  lo_wait p (py_max f_one (f_of_Z interval - (now - start))%f64).
(** [run], for at most [n] rounds. *)
Fixpoint run_rounds (n : nat) (interval : Z) : LM X unit :=
  match n with
  | O => mret ()
  | S n' => w ← st_get; if lw_shutdown w then mret () else run_round interval ;; run_rounds n' interval
  end.
Definition run (n : nat) : LM X unit :=
  k ← st_lift (py_int (rget "SCAN_INTERVAL" (VInt 30) cfg));
  send "Bot started — entering trading loop" ;;
  notify "Bot started — entering trading loop" "INFO" "system" ;;
  st_modify (set_rounds 0) ;;
  run_rounds n (Z.max 5 k) ;;
  send "Bot shutting down" ;;
  notify "Bot shutting down" "INFO" "system".
End loop.

(** ** The calls of a cycle

    [recorded p] behaves as [p] and notes, in the order of the calls, what
    the loop asked, what it was answered, and what it did. *)
Inductive event :=
| EMarket (status : string)
| EHalt (halted : bool)
| EHeld (name : string) (held : bool)
| ESignal (name : string) (s : pyrec)
| EMandate (regime : pyval) (score : Z) (allowed : bool)
| EReentry (name : string) (score : Z) (direction : pyval) (allowed : option bool)
| ECorrelation (name : string) (direction : pyval) (allowed : bool)
| EEnter (name : string) (s : pyrec)
| EEquity (symbol : string)
| EMonitor
| EReconcile.

Section recorded.
Context {X F : Type}.
Definition with_ext {Y Z} (w : loop_world Y) (x : Z) : loop_world Z :=
  LoopWorld (lw_clk w) (lw_shutdown w) (lw_decisions w) (lw_counts w) (lw_alerted w) (lw_date w) (lw_rounds w) x.
Definition noting {A} (es : A → list event) (m : LM X A) : LM (X * list event) A := λ w,
  let '(r, w') := m (with_ext w (lw_ext w).1) in
  (r, with_ext w' (lw_ext w', (lw_ext w).2 ++ match r with Ok a => es a | Raise _ => [] end)).
Definition lift {A} (m : LM X A) : LM (X * list event) A := λ w,
  let '(r, w') := m (with_ext w (lw_ext w).1) in (r, with_ext w' (lw_ext w', (lw_ext w).2)).
(** An action, noted before it is done. *)
Definition doing (e : event) (m : LM X unit) : LM (X * list event) unit :=
  st_modify (λ w, with_ext w ((lw_ext w).1, (lw_ext w).2 ++ [e])) ;; lift m.

Definition recorded_equity (q : equity_port X F) : equity_port (X * list event) F := {|
  eq_can_trade := lift (eq_can_trade q); eq_symbols := lift (eq_symbols q); eq_holds s := lift (eq_holds q s);
  eq_signal s f := lift (eq_signal q s f); eq_enter s d n := doing (EEquity s) (eq_enter q s d n);
  eq_monitor := lift (eq_monitor q) |}.
Definition recorded (p : loop_port X F) : loop_port (X * list event) F := {|
  lo_rows := lo_rows p; lo_halted := noting (λ b, [EHalt b]) (lo_halted p);
  lo_market := noting (λ s, [EMarket s]) (lo_market p);
  lo_fetch n := lift (lo_fetch p n); lo_vix := lift (lo_vix p);
  lo_signal n f v := noting (λ s, [ESignal n s]) (lo_signal p n f v);
  lo_held n := noting (λ b, [EHeld n b]) (lo_held p n);
  lo_mandate r s := noting (λ a, [EMandate r s a.1]) (lo_mandate p r s);
  lo_reentry n s d := noting (λ a, [EReentry n s d (fst <$> a)]) (lo_reentry p n s d);
  lo_correlation n d := noting (λ a, [ECorrelation n d a.1]) (lo_correlation p n d);
  lo_enter n s := doing (EEnter n s) (lo_enter p n s);
  lo_monitor := doing EMonitor (lo_monitor p); lo_reconcile := doing EReconcile (lo_reconcile p);
  lo_wait t := lift (lo_wait p t); lo_heartbeat := lift <$> lo_heartbeat p;
  lo_closes := (λ g n f, lift (g n f)) <$> lo_closes p; lo_oi := lift <$> lo_oi p; lo_invariants := lift <$> lo_invariants p;
  lo_send := (λ g s, lift (g s)) <$> lo_send p; lo_notify := (λ g a b c, lift (g a b c)) <$> lo_notify p;
  lo_equity := recorded_equity <$> lo_equity p; lo_watchdog := lift (lo_watchdog p); lo_drift := lift (lo_drift p);
  lo_lake n f := lift (lo_lake p n f); lo_outcomes := lift (lo_outcomes p); lo_sweep := lift (lo_sweep p);
  lo_periodic := lift (lo_periodic p) |}.
Definition events (w : loop_world (X * list event)) : list event := (lw_ext w).2.
End recorded.

(** ** What an entry of an index needs *)

Section gated.
Context {X F : Type} (cfg : pyrec) (indices : list string) (p : loop_port X F).
Abbreviation RP := (recorded p).
Abbreviation unnoted := (unnoted (events (X:=X))).
Abbreviation yields := (yields (events (X:=X))).
Abbreviation RM := (LM (X * list event)).

Lemma loop_lift_unnoted {A} (m : LM X A) : st_rel unnoted (lift m).
Proof. intros w. unfold lift. by destruct (m _) as [r w']. Qed.
Lemma loop_now_unnoted : st_rel unnoted (now_ist (W:=loop_world (X * list event))).
Proof. intros d. by rewrite now_ist_total. Qed.
Lemma loop_time_unnoted : st_rel unnoted (time_time (W:=loop_world (X * list event))).
Proof. intros d. by rewrite time_time_total. Qed.
Lemma loop_modify_unnoted f : (∀ d, events (f d) = events (X:=X) d) → st_rel unnoted (st_modify f).
Proof. intros H d. apply H. Qed.
Lemma if_given_unnoted (m : option (LM X unit)) : st_rel unnoted (if_given (lift <$> m)).
Proof. destruct m; [apply loop_lift_unnoted|]. apply st_rel_ret. typeclasses eauto. Qed.
Lemma quietly_unnoted cs (m : RM unit) : st_rel unnoted m → st_rel unnoted (quietly cs m).
Proof. intros H. unfold quietly. rel_auto ltac:(apply H). Qed.
Lemma send_unnoted msg : st_rel unnoted (send RP msg).
Proof. unfold send. cbn. destruct (lo_send p); [apply loop_lift_unnoted|]. apply st_rel_ret. typeclasses eauto. Qed.
Lemma loop_notify_unnoted a b c : st_rel unnoted (notify RP a b c).
Proof. unfold notify. cbn. destruct (lo_notify p); [apply loop_lift_unnoted|]. apply st_rel_ret. typeclasses eauto. Qed.
Ltac quiet := rel_auto ltac:(first
  [ apply loop_lift_unnoted | apply if_given_unnoted | apply loop_now_unnoted | apply loop_time_unnoted | apply send_unnoted | apply loop_notify_unnoted
  | apply quietly_unnoted | apply loop_modify_unnoted; intros ?; repeat case_match; reflexivity | progress unfold opted, decide_log ]).

Lemma noting_yields {A} (es : A → list event) (m : LM X A) :
  yields (noting es m) (λ r l, match r with Ok a => l = es a | Raise _ => l = [] end).
Proof. intros w r w'. unfold noting. destruct (m _) as [[a|e] w1]; intros [= <- <-]; eexists; (split; [reflexivity|done]). Qed.
Lemma doing_yields e (m : LM X unit) : yields (doing e m) (λ _ l, l = [e]).
Proof.
  eapply (yields_bind _ _ (λ _ l, l = [e])); [|intros [] l ->|done].
  - intros w r w' [= <- <-]. by exists [e].
  - by apply yields_quiet; [apply loop_lift_unnoted|].
Qed.
(** A question, and what is done with the answer. *)
Lemma asked {A B} (es : A → list event) (m : LM X A) (f : A → RM B) K :
  (∀ e, K (Raise e) []) → (∀ a, yields (f a) (λ r l, K r (es a ++ l))) → yields (noting es m ≫= f) K.
Proof.
  intros He Hf. eapply yields_bind; [apply noting_yields| |].
  - intros a l ->. apply Hf.
  - intros e l ->. apply He.
Qed.

Definition plain (l : list event) : Prop := ∀ n s, EEnter n s ∉ l.
Lemma plain_nil : plain [].
Proof. intros n s H. by apply not_elem_of_nil in H. Qed.
Lemma plain_cons e l : (∀ n s, e ≠ EEnter n s) → plain l → plain (e :: l).
Proof. intros He Hl n s [H|H]%elem_of_cons; [by apply (He n s)|by eapply Hl]. Qed.
(** The answers that admit an entry, in the order of the questions. *)
Definition admission (name : string) (s : pyrec) (l : list event) : Prop :=
  ∃ score least r,
    no_signal s = false ∧ score_of s = Ok score ∧ threshold cfg = Ok least ∧ least <= score ∧ r ≠ Some false ∧
    l = [EHalt false; EHeld name false; ESignal name s; EMandate (rget "regime" (VStr "SIDEWAYS") s) score true;
         EReentry name score (direction_of s) r; ECorrelation name (direction_of s) true].
(** Entries only at the end of an admission of their own. *)
Inductive gated : list event → Prop :=
| gated_nil : gated []
| gated_plain e l : (∀ n s, e ≠ EEnter n s) → gated l → gated (e :: l)
| gated_entry n s a l : admission n s a → gated l → gated (a ++ EEnter n s :: l).
Lemma gated_of_plain l : plain l → gated l.
Proof.
  induction l as [|e l IH]; intros H; [constructor|]. constructor.
  - intros n s ->. apply (H n s). set_solver.
  - apply IH. intros n s Hl. apply (H n s). set_solver.
Qed.
Lemma gated_app l1 l2 : gated l1 → gated l2 → gated (l1 ++ l2).
Proof.
  induction 1; intros H2; [done|by constructor; auto|]. rewrite <- app_assoc. constructor; auto.
Qed.
Lemma admission_plain n s a : admission n s a → plain a.
Proof. intros (score & least & r & _ & _ & _ & _ & _ & ->). repeat (apply plain_cons; [done|]). apply plain_nil. Qed.
(** What [gated] says of any entry. *)
Lemma gated_split l l1 n s l2 : gated l → l = l1 ++ EEnter n s :: l2 → ∃ l0 a, l1 = l0 ++ a ∧ admission n s a.
Proof.
  intros H. revert l1. induction H as [|e l He H IH|m t a l Ha H IH]; intros l1 E.
  - by destruct l1.
  - destruct l1 as [|e1 l1]; injection E as -> E; [by destruct (He n s)|].
    destruct (IH _ E) as (l0 & a & -> & A). by exists (e1 :: l0), a.
  - apply app_eq_inv in E as [(k & E1 & E2)|(k & -> & E2)].
    + destruct k as [|x k]; [|exfalso].
      * rewrite app_nil_r in E1. injection E2 as -> -> ->. subst. exists [], l1. by split.
      * injection E2 as <- ->. apply (admission_plain _ _ _ Ha n s). subst. set_solver.
    + destruct k as [|x k]; cbn in E2.
      * injection E2 as <- <- _. exists [], a. by rewrite app_nil_r.
      * injection E2 as _ E2. destruct (IH _ E2) as (l0 & b & -> & A). exists (a ++ x :: l0), b. by rewrite <- app_assoc.
Qed.

(** Along the code. *)
Lemma fetch_one_yields n : yields (fetch_one cfg RP n) (λ _ l, plain l).
Proof.
  unfold fetch_one. apply asked; [intros; apply plain_nil|]. intros b. apply yields_quiet.
  - cbn. destruct (lo_closes p); cbn; quiet.
  - intros r. repeat (apply plain_cons; [done|]). apply plain_nil.
Qed.
Lemma plain_app l1 l2 : plain l1 → plain l2 → plain (l1 ++ l2).
Proof. intros H1 H2 n s [H|H]%elem_of_app; [by eapply H1|by eapply H2]. Qed.
Lemma plain_bind {A B} (m : RM A) (f : A → RM B) :
  yields m (λ _ l, plain l) → (∀ a, yields (f a) (λ _ l, plain l)) → yields (m ≫= f) (λ _ l, plain l).
Proof.
  intros Hm Hf. eapply yields_bind; [exact Hm| |done]. intros a l Hl.
  eapply yields_weaken; [apply Hf|]. intros r k Hk. by apply plain_app.
Qed.
Lemma gated_bind {A B} (m : RM A) (f : A → RM B) :
  yields m (λ _ l, gated l) → (∀ a, yields (f a) (λ _ l, gated l)) → yields (m ≫= f) (λ _ l, gated l).
Proof.
  intros Hm Hf. eapply yields_bind; [exact Hm| |done]. intros a l Hl.
  eapply yields_weaken; [apply Hf|]. intros r k Hk. by apply gated_app.
Qed.
Lemma gated_plainly {A} (m : RM A) : yields m (λ _ l, plain l) → yields m (λ _ l, gated l).
Proof. intros H. eapply yields_weaken; [exact H|]. intros r l Hl. by apply gated_of_plain. Qed.
Lemma plain_quiet {A} (m : RM A) : st_rel unnoted m → yields m (λ _ l, plain l).
Proof. intros H. apply yields_quiet; [done|]. intros _. apply plain_nil. Qed.
Lemma fetch_all_yields ns : yields (fetch_all cfg RP ns) (λ _ l, plain l).
Proof.
  induction ns as [|n ns IH]; [apply plain_quiet; quiet|]. cbn. apply plain_bind; [apply fetch_one_yields|].
  intros f. apply plain_bind; [apply IH|]. intros d. apply plain_quiet. quiet.
Qed.

(** The questions of one index: an admitted signal answers them all. *)
Definition signal_asked (name : string) (r : res (option (pyrec * Z))) (l : list event) : Prop :=
  plain l ∧ ∀ s score, r = Ok (Some (s, score)) → admission name s (EHalt false :: EHeld name false :: l).
Lemma gated_signal_yields name f v : yields (gated_signal cfg RP name f v) (signal_asked name).
Proof.
  assert (∀ l, plain l → signal_asked name (Ok None) l) as N by by split.
  assert (∀ e l, plain l → signal_asked name (Raise e) l) as E by by split.
  assert (plain []) as P0 by apply plain_nil.
  unfold gated_signal. apply asked; [auto|]. intros s. destruct (no_signal s) eqn:Es.
  { apply yields_ret. apply N. by apply plain_cons. }
  eapply (yields_bind _ _ (λ r l, l = [] ∧ score_of s = r)).
  { intros w r w' [= <- <-]. exists []. by rewrite app_nil_r. }
  2:{ intros e l [-> _]. apply E. by apply plain_cons. }
  intros score l [-> Hs]. eapply (yields_bind _ _ (λ r l, l = [] ∧ threshold cfg = r)).
  { intros w r w' [= <- <-]. exists []. by rewrite app_nil_r. }
  2:{ intros e l [-> _]. apply E. by apply plain_cons. }
  intros least l [-> Hl]. destruct (score <? least) eqn:Hle; [apply yields_ret, N; by apply plain_cons|].
  apply asked; [intros e; apply E; by apply plain_cons|]. intros m. destruct m.1; cbn [negb].
  2:{ apply yields_ret, N. by repeat (apply plain_cons; [done|]). }
  apply asked; [intros e; apply E; by repeat (apply plain_cons; [done|])|]. intros r.
  assert (∀ o (why : string), o ≠ Some false →
    yields (c ← lo_correlation RP name (direction_of s);
            if negb c.1 then decide_log name (String.append "CORRELATION_BLOCK: " c.2) ;; mret None else mret (Some (s, score)))
      (λ r l, signal_asked name r ([ESignal name s] ++ [] ++ [] ++ [EMandate (rget "regime" (VStr "SIDEWAYS") s) score true] ++
                                   [EReentry name score (direction_of s) o] ++ l))) as K.
  { intros o why Ho. apply asked; [intros e; apply E; by repeat (apply plain_cons; [done|])|]. intros c.
    destruct c.1; cbn [negb].
    - apply yields_ret. split; [by repeat (apply plain_cons; [done|])|]. intros s0 sc [= <- <-].
      exists score, least, o. split_and!; try done. by apply Z.ltb_ge.
    - apply yields_after; [quiet|intros e; apply E|intros _; apply yields_ret, N]; by repeat (apply plain_cons; [done|]). }
  destruct r as [[[] why]|]; [by apply (K (Some true))| |by apply (K None EmptyString)].
  apply yields_after; [quiet|intros e; apply E|intros _; apply yields_ret, N]; by repeat (apply plain_cons; [done|]).
Qed.
Lemma evaluate_one_yields name fs v : yields (evaluate_one cfg RP name fs v) (λ _ l, gated (EHalt false :: l)).
Proof.
  assert (∀ l, plain l → gated (EHalt false :: l)) as G by (intros l H; apply gated_of_plain; by apply plain_cons).
  assert (plain []) as P0 by apply plain_nil.
  unfold evaluate_one. apply asked; [intros; apply G, plain_nil|]. intros [|].
  { apply yields_ret, G. by apply plain_cons. }
  destruct (fs !! name) as [f|]; [|apply yields_ret, G; by apply plain_cons].
  destruct (enough RP 30 f); [|apply yields_ret, G; by apply plain_cons].
  eapply yields_bind; [apply gated_signal_yields| |intros e l [P _]; apply G; by apply plain_cons].
  intros [[s score]|] l [P A]; [|apply yields_ret, G; rewrite app_nil_r; by apply plain_cons].
  eapply (yields_weaken _ (λ _ k, k = [EEnter name s])).
  - apply (yields_bind _ _ (λ _ k, k = [EEnter name s])); [apply doing_yields| |done].
    intros [] k ->. apply yields_quiet; [quiet|done].
  - intros r k ->. exact (gated_entry name s _ [] (A s score eq_refl) gated_nil).
Qed.
Lemma halted_or {A} (m : RM A) (a : A) :
  yields m (λ _ l, gated (EHalt false :: l)) →
  yields (halted ← lo_halted RP; if halted : bool then mret a else m) (λ _ l, gated l).
Proof.
  intros Hm. apply asked; [intros; constructor|]. intros [|].
  - apply yields_ret. apply gated_plain; [done|constructor].
  - eapply yields_weaken; [exact Hm|]. done.
Qed.
Lemma gated_then {A B} (m : RM A) (f : A → RM B) :
  yields m (λ _ l, gated (EHalt false :: l)) → (∀ a, yields (f a) (λ _ l, gated l)) → yields (m ≫= f) (λ _ l, gated (EHalt false :: l)).
Proof.
  intros Hm Hf. eapply yields_bind; [exact Hm| |done]. intros a l Hl.
  eapply yields_weaken; [apply Hf|]. intros r k Hk. by apply (gated_app (_ :: l) k).
Qed.
Lemma evaluate_all_yields ns fs v : yields (evaluate_and_enter cfg RP ns fs v) (λ _ l, gated l).
Proof.
  induction ns as [|n ns IH]; [apply gated_plainly, plain_quiet; quiet|]. cbn [evaluate_and_enter]. apply halted_or.
  apply gated_then; [apply evaluate_one_yields|]. intros _. apply IH.
Qed.
Lemma doing_plain e m : (∀ n s, e ≠ EEnter n s) → yields (doing e m) (λ _ l, plain l).
Proof. intros He. eapply yields_weaken; [apply doing_yields|]. intros r l ->. by apply plain_cons; [|apply plain_nil]. Qed.
Lemma equity_one_yields eq s : lo_equity p = Some eq → yields (equity_one cfg RP (recorded_equity eq) s) (λ _ l, plain l).
Proof.
  intros _. unfold equity_one. apply plain_bind; [apply plain_quiet; quiet|]. intros [|]; [apply plain_quiet; quiet|].
  apply plain_bind; [apply plain_quiet; quiet|]. intros f. destruct (negb _); [apply plain_quiet; quiet|].
  apply plain_bind; [apply plain_quiet; quiet|]. intros [sg|]; [|apply plain_quiet; quiet]. cbv zeta.
  apply plain_bind; [apply plain_quiet; quiet|]. intros least. apply plain_bind; [apply plain_quiet; quiet|].
  intros [|]; [apply plain_quiet; quiet|]. apply plain_bind; [apply plain_quiet; quiet|]. intros _. by apply doing_plain.
Qed.
Lemma plain_try {A} (m : RM A) cs (h : pyexn → RM A) :
  yields m (λ _ l, plain l) → (∀ e, yields (h e) (λ _ l, plain l)) → yields (st_try m cs h) (λ _ l, plain l).
Proof.
  intros Hm Hh. eapply yields_try; [exact Hm|done| |done]. intros e l Hl _.
  eapply yields_weaken; [apply Hh|]. intros r k Hk. by apply plain_app.
Qed.
Lemma equity_yields : yields (evaluate_equity cfg RP) (λ _ l, plain l).
Proof.
  unfold evaluate_equity. cbn. destruct (lo_equity p) as [eq|] eqn:Eq; cbn; [|apply plain_quiet; quiet].
  unfold quietly. apply plain_try; [|intros e; apply plain_quiet; quiet].
  apply plain_bind; [apply plain_quiet; quiet|]. intros a. destruct (negb a.1); [apply plain_quiet; quiet|].
  apply plain_bind; [apply plain_quiet; quiet|]. intros ss. induction ss as [|s ss IH]; [apply plain_quiet; quiet|]. cbn [equity_each].
  apply asked; [intros; apply plain_nil|]. intros b. eapply yields_weaken; [|intros r l Hl; apply plain_cons; [done|exact Hl]].
  destruct b; [apply plain_quiet; quiet|]. apply plain_bind; [by apply equity_one_yields|]. intros _. apply IH.
Qed.
Lemma monitor_yields : yields (monitor_positions_with_equity RP) (λ _ l, l = [EMonitor]).
Proof.
  unfold monitor_positions_with_equity. eapply yields_bind; [apply doing_yields| |done]. intros [] l ->.
  apply yields_quiet; [|done]. cbn. destruct (lo_equity p); cbn; quiet.
Qed.
Lemma oi_unnoted : st_rel unnoted (record_oi RP).
Proof. unfold record_oi. quiet. Qed.
Lemma periodic_unnoted : st_rel unnoted (periodic_notifications RP).
Proof. unfold periodic_notifications. cbn. destruct (lo_send p); cbn; quiet. Qed.

(** The shape of a cycle: nothing but the first questions when the market is
    not open or the halt is set; else the index entries of [body], and, when
    the cycle completes, the monitoring and the reconciliation at its end. *)
Definition at_rest (l : list event) : Prop := plain l ∧ EMonitor ∉ l ∧ EReconcile ∉ l ∧ (∀ s, EEquity s ∉ l).
Definition cycle_shape (r : res unit) (l : list event) : Prop :=
  at_rest l ∨ ∃ k, l = EMarket "OPEN" :: EHalt false :: k ∧ gated k ∧ (r = Ok () → ∃ k', k = k' ++ [EMonitor; EReconcile]).

Lemma trading_part_yields :
  yields (trading_part cfg indices RP) (λ r l, gated l ∧ (r = Ok () → ∃ l', l = l' ++ [EMonitor; EReconcile])).
Proof.
  assert (∀ {A} (m : RM A) (f : A → RM unit),
    yields m (λ _ l, gated l) → (∀ a, yields (f a) (λ r l, gated l ∧ (r = Ok () → ∃ l', l = l' ++ [EMonitor; EReconcile]))) →
    yields (m ≫= f) (λ r l, gated l ∧ (r = Ok () → ∃ l', l = l' ++ [EMonitor; EReconcile]))) as B.
  { intros A m f Hm Hf. eapply yields_bind; [exact Hm| |by intros]. intros a l Hl.
    eapply yields_weaken; [apply Hf|]. intros r k [Hk E]. split; [by apply gated_app|].
    intros Hr. destruct (E Hr) as [k' ->]. exists (l ++ k'). by rewrite app_assoc. }
  assert (∀ {A} (m : RM A), st_rel unnoted m → yields m (λ _ l, gated l)) as Q.
  { intros A m H. by apply gated_plainly, plain_quiet. }
  unfold trading_part. apply B; [apply gated_plainly, fetch_all_yields|]. intros fs.
  apply B; [apply Q; unfold update_outcomes; quiet|]. intros _. apply B; [apply Q; quiet|]. intros v.
  apply B; [apply Q, oi_unnoted|]. intros _. apply B; [apply evaluate_all_yields|]. intros _.
  apply B; [apply gated_plainly, equity_yields|]. intros _.
  assert (gated [EMonitor]) as GM by (apply gated_plain; [done|constructor]).
  assert (gated [EMonitor; EReconcile]) as GR by (apply gated_plain; [done|]; apply gated_plain; [done|constructor]).
  eapply yields_bind; [apply monitor_yields| |by intros e l ->]. intros _ l ->.
  apply (yields_bind _ _ (λ _ l, l = [EReconcile])); [apply doing_yields| |by intros e l ->]. intros _ l ->.
  apply yields_quiet; [apply periodic_unnoted|]. intros r. split; [exact GR|]. intros _. by exists [].
Qed.
Lemma cycle_yields : yields (execute_cycle cfg indices RP) cycle_shape.
Proof.
  assert (∀ l r, (∀ e, e ∈ l → (∃ s, e = EMarket s) ∨ (∃ b, e = EHalt b)) → cycle_shape r l) as R.
  { intros l r H. left.
    split_and!; [intros n s Hin|intros Hin|intros Hin|intros s Hin]; destruct (H _ Hin) as [[? ?]|[? ?]]; discriminate. }
  unfold execute_cycle. apply asked; [intros e; apply R; set_solver|]. intros st.
  destruct (String.eqb st "OPEN") eqn:Eo; cbn [negb].
  - apply String.eqb_eq in Eo as ->. apply asked; [intros e; apply R; set_solver|]. intros [|].
    + apply yields_quiet; [quiet|]. intros r. apply R. set_solver.
    + eapply yields_weaken; [apply trading_part_yields|]. intros r l [G E]. right. by exists l.
  - apply yields_quiet; [unfold sweep_stale; quiet|]. intros r. apply R. set_solver.
Qed.

(** A cycle does nothing unless the market is open and the halt is off.
    The calls of a cycle are either questions about the market and the halt
    only, with no entry, no monitoring and no reconciliation, or they start
    with the answers OPEN and not halted; and then, when the cycle completes,
    they end with the monitoring of the positions and the reconciliation. *)
Theorem cycle_gated (w w' : loop_world (X * list event)) (r : res unit) :
  execute_cycle cfg indices RP w = (r, w') →
  ∃ l, events w' = events w ++ l ∧
    (at_rest l ∨ ∃ k, l = EMarket "OPEN" :: EHalt false :: k ∧ (r = Ok () → ∃ k', k = k' ++ [EMonitor; EReconcile])).
Proof.
  intros E. destruct (cycle_yields _ _ _ E) as (l & C & [H|(k & -> & G & M)]); eexists; (split; [exact C|]).
  - by left.
  - right. by exists k.
Qed.

Lemma shape_gated r l : cycle_shape r l → gated l.
Proof.
  intros [(P & _)|(k & -> & G & _)]; [by apply gated_of_plain|]. by repeat (apply gated_plain; [done|]).
Qed.
Lemma exception_unnoted n : st_rel unnoted (record_exception cfg RP n).
Proof. unfold record_exception, count_exception. quiet. Qed.
Lemma invariant_unnoted : st_rel unnoted (invariant_check RP).
Proof.
  unfold invariant_check. change (lo_invariants RP) with (lift <$> lo_invariants p).
  rel_step; [quiet|]. rel_step; [quiet|]. destruct (lo_invariants p) as [m|]; cbn [fmap option_fmap option_map]; [|quiet].
  destruct (30 <=? _); [|quiet]. rel_step; [quiet|]. apply quietly_unnoted, loop_lift_unnoted.
Qed.
Lemma round_yields k : yields (run_round cfg indices RP k) (λ _ l, gated l).
Proof.
  unfold run_round. assert (∀ {A} (m : RM A), st_rel unnoted m → yields m (λ _ l, gated l)) as Q.
  { intros A m H. by apply gated_plainly, plain_quiet. }
  apply gated_bind; [apply Q; quiet|]. intros t. apply gated_bind; [apply Q; unfold record_heartbeat; quiet|]. intros _.
  apply gated_bind; [apply Q; unfold loop_watchdog_tick; quiet|]. intros _.
  apply gated_bind; [apply Q; unfold config_drift_tick; quiet|]. intros _.
  apply gated_bind; [|intros _; apply Q; apply st_rel_bind; [typeclasses eauto|apply invariant_unnoted|intros _; quiet]].
  eapply yields_try; [apply cycle_yields|by intros [] l H%shape_gated| |by intros e l H%shape_gated].
  intros e l H%shape_gated _. apply yields_quiet; [apply exception_unnoted|]. intros r. by rewrite app_nil_r.
Qed.
Lemma rounds_yields n k : yields (run_rounds cfg indices RP n k) (λ _ l, gated l).
Proof.
  induction n as [|n IH]; [apply gated_plainly, plain_quiet; quiet|]. cbn [run_rounds].
  apply gated_bind; [apply gated_plainly, plain_quiet; quiet|]. intros w.
  destruct (lw_shutdown w); [apply gated_plainly, plain_quiet; quiet|]. apply gated_bind; [apply round_yields|done].
Qed.

(** C7: Every entry of the loop is admitted.  Whatever the functions given to
    it answer and however many rounds it runs, each time the trading loop
    enters an index, the calls just before are, in this order: no hard halt,
    no position in that index, a signal for it that is not to hold and whose score
    reaches the threshold, the consent of the mandate for that score, no
    refusal of the index's re-entry tracker, and the consent of the correlation guard. *)
Theorem entries_admitted (n : nat) (w w' : loop_world (X * list event)) (r : res unit) :
  run cfg indices RP n w = (r, w') →
  ∃ l, events w' = events w ++ l ∧
    ∀ l1 name s l2, l = l1 ++ EEnter name s :: l2 → ∃ l0 a, l1 = l0 ++ a ∧ admission name s a.
Proof.
  assert (yields (run cfg indices RP n) (λ _ l, gated l)) as Y.
  { assert (∀ {A} (m : RM A), st_rel unnoted m → yields m (λ _ l, gated l)) as Q.
    { intros A m H. by apply gated_plainly, plain_quiet. }
    unfold run. apply gated_bind; [apply Q; quiet|]. intros k. apply gated_bind; [apply Q; quiet|]. intros _.
    apply gated_bind; [apply Q; quiet|]. intros _. apply gated_bind; [apply Q; quiet|]. intros _.
    apply gated_bind; [apply rounds_yields|]. intros _. apply Q. quiet. }
  intros E. destruct (Y _ _ _ E) as (l & C & G). exists l. split; [exact C|].
  intros l1 name s l2 El. by eapply gated_split.
Qed.
End gated.

(** ** The recording changes nothing

    Forgetting the trace, the loop with the recorded functions does what the
    loop does. *)
Section faithful.
Context {X F : Type} (cfg : pyrec) (indices : list string) (p : loop_port X F).
Abbreviation RP := (recorded p).
Abbreviation RM := (LM (X * list event)).
Definition forget (w : loop_world (X * list event)) : loop_world X := with_ext w (lw_ext w).1.
Definition same {A} (m' : RM A) (m : LM X A) : Prop := ∀ w, m (forget w) = ((m' w).1, forget (m' w).2).

Lemma same_bind {A B} (m' : RM A) m (f' : A → RM B) f : same m' m → (∀ a, same (f' a) (f a)) → same (m' ≫= f') (m ≫= f).
Proof.
  intros Hm Hf w. unfold mbind, st_bind. rewrite Hm. destruct (m' w) as [[a|e] w1]; [|done]. apply Hf.
Qed.
Lemma same_get {B} (f' : loop_world (X * list event) → RM B) f : (∀ w, same (f' w) (f (forget w))) → same (st_get ≫= f') (st_get ≫= f).
Proof. intros H w. apply (H w). Qed.
Lemma same_ret {A} (a : A) : same (mret a) (mret a).
Proof. done. Qed.
Lemma same_st_lift {A} (r : res A) : same (st_lift r) (st_lift r).
Proof. done. Qed.
Lemma same_modify f' f : (∀ w, f (forget w) = forget (f' w)) → same (st_modify f') (st_modify f).
Proof. intros H w. unfold st_modify. by rewrite H. Qed.
Lemma same_try {A} (m' : RM A) m cs h' h : same m' m → (∀ e, same (h' e) (h e)) → same (st_try m' cs h') (st_try m cs h).
Proof.
  intros Hm Hh w. unfold st_try. rewrite Hm. destruct (m' w) as [[a|e] w1]; [done|]. cbn. destruct (catches cs e); [apply Hh|done].
Qed.
Lemma same_lift {A} (m : LM X A) : same (lift m) m.
Proof. intros w. unfold lift. change (with_ext w (lw_ext w).1) with (forget w). destruct (m (forget w)) as [r [? ? ? ? ? ? ? ?]]. done. Qed.
Lemma same_noting {A} es (m : LM X A) : same (noting es m) m.
Proof. intros w. unfold noting. change (with_ext w (lw_ext w).1) with (forget w). destruct (m (forget w)) as [r [? ? ? ? ? ? ? ?]]. done. Qed.
Lemma same_doing e (m : LM X unit) : same (doing e m) m.
Proof. intros w. exact (same_lift m (with_ext w ((lw_ext w).1, (lw_ext w).2 ++ [e]))). Qed.
Lemma same_now : same now_ist now_ist.
Proof. intros w. by rewrite !now_ist_total. Qed.
Lemma same_time : same time_time time_time.
Proof. intros w. by rewrite !time_time_total. Qed.
Lemma same_if {A} (b : bool) (m1' m2' : RM A) m1 m2 : same m1' m1 → same m2' m2 → same (if b then m1' else m2') (if b then m1 else m2).
Proof. by destruct b. Qed.
Lemma same_given (m : option (LM X unit)) : same (if_given (lift <$> m)) (if_given m).
Proof. destruct m; [apply same_lift|done]. Qed.
Lemma same_send msg : same (send RP msg) (send p msg).
Proof. unfold send. cbn [recorded lo_send]. destruct (lo_send p); [apply same_lift|done]. Qed.
Lemma same_notify a b c : same (notify RP a b c) (notify p a b c).
Proof. unfold notify. cbn [recorded lo_notify]. destruct (lo_notify p); [apply same_lift|done]. Qed.
Ltac same_step :=
  lazymatch goal with
  | |- same (quietly _ _) _ => unfold quietly
  | |- same (opted _ _ _) _ => unfold opted
  | |- same (decide_log _ _) _ => unfold decide_log
  | |- same (if_given _) _ => apply same_given
  | |- same (send _ _) _ => apply same_send
  | |- same (notify _ _ _ _) _ => apply same_notify
  | |- same (mret _) _ => apply same_ret
  | |- same (st_lift _) _ => apply same_st_lift
  | |- same now_ist _ => apply same_now
  | |- same time_time _ => apply same_time
  | |- same (st_modify _) _ => apply same_modify; intros ?; first [reflexivity | unfold forget, with_ext; cbn; repeat case_match; reflexivity]
  | |- same (st_get ≫= _) _ => apply same_get; intros ?
  | |- same (_ ≫= _) _ => apply same_bind; [|intros ?]
  | |- same (st_try _ _ _) _ => apply same_try; [|intros ?]
  | |- same (if _ then _ else _) _ => apply same_if
  | |- same (match ?x with _ => _ end) _ => destruct x
  | |- same ?m _ => first [apply same_lift | apply same_noting | apply same_doing]
  end.
Ltac sim := repeat same_step.

Lemma fetch_one_same n : same (fetch_one cfg RP n) (fetch_one cfg p n).
Proof. unfold fetch_one. cbn [recorded lo_held lo_fetch lo_lake lo_closes]. destruct (lo_closes p); cbn [fmap option_fmap option_map]; sim. Qed.
Lemma fetch_all_same ns : same (fetch_all cfg RP ns) (fetch_all cfg p ns).
Proof. induction ns; [done|]. cbn [fetch_all]. apply same_bind; [apply fetch_one_same|]. intros f. apply same_bind; [done|]. intros d. sim. Qed.
Lemma gated_signal_same n f v : same (gated_signal cfg RP n f v) (gated_signal cfg p n f v).
Proof. unfold gated_signal. sim. Qed.
Lemma evaluate_one_same n fs v : same (evaluate_one cfg RP n fs v) (evaluate_one cfg p n fs v).
Proof.
  unfold evaluate_one. apply same_bind; [apply same_noting|]. intros h. apply same_if; [done|]. destruct (fs !! n); [|done].
  apply same_if; [|done]. apply same_bind; [apply gated_signal_same|]. intros g. sim.
Qed.
Lemma evaluate_all_same ns fs v : same (evaluate_and_enter cfg RP ns fs v) (evaluate_and_enter cfg p ns fs v).
Proof.
  induction ns; [done|]. cbn [evaluate_and_enter]. apply same_bind; [apply same_noting|]. intros h. apply same_if; [done|].
  apply same_bind; [apply evaluate_one_same|done].
Qed.
Lemma equity_each_same eq ss : same (equity_each cfg RP (recorded_equity eq) ss) (equity_each cfg p eq ss).
Proof.
  induction ss; [done|]. cbn [equity_each]. apply same_bind; [apply same_noting|]. intros h. apply same_if; [done|].
  apply same_bind; [|done]. unfold equity_one. cbv zeta. sim.
Qed.
Lemma equity_same : same (evaluate_equity cfg RP) (evaluate_equity cfg p).
Proof.
  unfold evaluate_equity. cbn [recorded lo_equity]. destruct (lo_equity p) as [eq|]; cbn [fmap option_fmap option_map]; [|done].
  apply same_try; [|done]. apply same_bind; [apply same_lift|]. intros a. apply same_if; [done|].
  apply same_bind; [apply same_lift|]. intros ss. apply equity_each_same.
Qed.
Lemma monitor_same : same (monitor_positions_with_equity RP) (monitor_positions_with_equity p).
Proof.
  unfold monitor_positions_with_equity. apply same_bind; [apply same_doing|]. intros _. cbn [recorded lo_equity].
  destruct (lo_equity p); cbn [fmap option_fmap option_map]; sim.
Qed.
Lemma periodic_same : same (periodic_notifications RP) (periodic_notifications p).
Proof. unfold periodic_notifications. cbn [recorded lo_send]. destruct (lo_send p); cbn [fmap option_fmap option_map]; sim. Qed.
Lemma cycle_same : same (execute_cycle cfg indices RP) (execute_cycle cfg indices p).
Proof.
  unfold execute_cycle. apply same_bind; [apply same_noting|]. intros st. apply same_if; [unfold sweep_stale; sim|].
  apply same_bind; [apply same_noting|]. intros h. apply same_if; [sim|]. unfold trading_part, update_outcomes, record_oi.
  apply same_bind; [apply fetch_all_same|]. intros fs. apply same_bind; [sim|]. intros _. apply same_bind; [sim|]. intros v.
  apply same_bind; [sim|]. intros _. apply same_bind; [apply evaluate_all_same|]. intros _. apply same_bind; [apply equity_same|].
  intros _. apply same_bind; [apply monitor_same|]. intros _. apply same_bind; [apply same_doing|]. intros _. apply periodic_same.
Qed.
Lemma round_same k : same (run_round cfg indices RP k) (run_round cfg indices p k).
Proof.
  unfold run_round, record_heartbeat, loop_watchdog_tick, config_drift_tick. apply same_bind; [sim|]. intros t.
  do 3 (apply same_bind; [sim|]; intros _). apply same_bind.
  { apply same_try; [apply cycle_same|]. intros e. unfold record_exception, count_exception. cbv zeta. sim. }
  intros _. apply same_bind; [|intros _; sim]. unfold invariant_check. apply same_bind; [sim|]. intros _. apply same_get. intros w.
  cbn [recorded lo_invariants]. destruct (lo_invariants p); cbn [fmap option_fmap option_map]; sim.
Qed.

(** The recorded loop is the loop: dropping the trace, both give the same
    answer and leave the same world. *)
Theorem recorded_faithful (n : nat) (w : loop_world (X * list event)) :
  run cfg indices p n (forget w) = ((run cfg indices RP n w).1, forget (run cfg indices RP n w).2).
Proof.
  enough (same (run cfg indices RP n) (run cfg indices p n)) as H by apply H.
  unfold run. apply same_bind; [sim|]. intros k. do 3 (apply same_bind; [sim|]; intros _).
  apply same_bind; [|intros _; sim]. induction n as [|n IH]; [done|]. cbn [run_rounds]. apply same_get. intros w0.
  apply same_if; [done|]. apply same_bind; [apply round_same|done].
Qed.
End faithful.

(** ** Alerts *)

Section alerts.
Context {X : Type} (today : string) (threshold : Z).
(** The names of the errors of a day, one after the other. *)
Fixpoint count_all (names : list string) : LM X (list (option Z)) :=
  match names with
  | [] => mret []
  | n :: ns => a ← count_exception n today threshold; r ← count_all ns; mret (a :: r)
  end.
(** What is to be alerted: an error that is the [threshold]-th of its name. *)
Definition occurrences (n : string) (l : list string) : Z := Z.of_nat (length (filter (n =.) l)).
Fixpoint due (before names : list string) : list (option Z) :=
  match names with
  | [] => []
  | n :: ns => let k := occurrences n (before ++ [n]) in (if k =? threshold then Some k else None) :: due (before ++ [n]) ns
  end.
(** The counters of a day on which [l] happened. *)
Definition counted (l : list string) (w : loop_world X) : Prop :=
  lw_date w = today ∧
  ∀ n, default 0 (lw_counts w !! n) = occurrences n l ∧ (n ∈ lw_alerted w ↔ threshold <= occurrences n l).
Lemma occurrences_app n m l : occurrences n (l ++ [m]) = occurrences n l + (if String.eqb n m then 1 else 0).
Proof.
  unfold occurrences. rewrite filter_app, length_app. destruct (String.eqb_spec n m) as [->|Hn].
  - rewrite filter_cons_True by done. cbn. lia.
  - rewrite filter_cons_False by done. cbn. lia.
Qed.
Lemma count_step n l w : 0 < threshold → counted l w →
  count_exception n today threshold w =
    (Ok (if occurrences n (l ++ [n]) =? threshold then Some threshold else None), (count_exception n today threshold w).2) ∧
  counted (l ++ [n]) (count_exception n today threshold w).2.
Proof.
  intros Ht [Hd H]. unfold count_exception, mbind, st_bind, st_modify, st_get, mret, st_ret. rewrite Hd, String.eqb_refl. cbn.
  destruct (H n) as [Hc Ha]. rewrite Hc. rewrite occurrences_app, String.eqb_refl.
  assert (str_mem n (lw_alerted w) = bool_decide (threshold <= occurrences n l)) as ->.
  { apply eq_bool_prop_intro. rewrite bool_decide_spec, <- Ha. rewrite <- str_mem_spec. by destruct (str_mem _ _). }
  case_bool_decide as Hb; cbn [negb].
  - rewrite andb_false_r. destruct (_ =? threshold) eqn:E; [lia|]. split; [done|]. split; [done|]. intros m. cbn.
    rewrite occurrences_app. destruct (String.eqb_spec m n) as [->|Hm].
    + rewrite dict_lookup_insert_eq. cbn. split; [done|]. rewrite Ha. lia.
    + rewrite dict_lookup_insert_ne by congruence. rewrite Z.add_0_r. apply H.
  - rewrite andb_true_r. destruct (threshold <=? occurrences n l + 1) eqn:E.
    + assert (occurrences n l + 1 = threshold) as -> by lia. rewrite Z.eqb_refl. split; [done|]. split; [done|]. intros m. cbn.
      rewrite occurrences_app, elem_of_app, list_elem_of_singleton. destruct (String.eqb_spec m n) as [->|Hm].
      * rewrite dict_lookup_insert_eq. cbn. split; [lia|]. split; [lia|by right].
      * rewrite dict_lookup_insert_ne by congruence. rewrite Z.add_0_r. destruct (H m) as [? <-]. split; [done|]. tauto.
    + destruct (_ =? threshold) eqn:E2; [lia|]. split; [done|]. split; [done|]. intros m. cbn.
      rewrite occurrences_app. destruct (String.eqb_spec m n) as [->|Hm].
      * rewrite dict_lookup_insert_eq. cbn. split; [done|]. rewrite Ha. lia.
      * rewrite dict_lookup_insert_ne by congruence. rewrite Z.add_0_r. apply H.
Qed.
Lemma count_all_due before names w : 0 < threshold → counted before w → (count_all names w).1 = Ok (due before names).
Proof.
  intros Ht. revert before w. induction names as [|n ns IH]; intros before w H; [done|]. cbn [count_all due]. cbv zeta.
  destruct (count_step n before w Ht H) as [E C]. rewrite (st_bind_ok _ _ _ _ _ E).
  specialize (IH _ _ C). destruct (count_all ns _) as [r w2] eqn:Ea. cbn in IH. subst r.
  rewrite (st_bind_ok _ _ _ _ _ Ea). cbn. destruct (_ =? threshold) eqn:E2; [|done]. by apply Z.eqb_eq in E2 as ->.
Qed.
(** One alert a day for each kind of error.  On a new day, however the
    errors of the cycles come, an alert is due exactly at the error that is
    the threshold-th of its name that day, and says that number. *)
Theorem alerts_exact (names : list string) (w : loop_world X) :
  0 < threshold → lw_date w ≠ today → (count_all names w).1 = Ok (due [] names).
Proof.
  intros Ht Hd. assert (∀ w', (∃ c a, w' = set_alerts c a today w ∧ counted [] w') → (count_all names w').1 = Ok (due [] names)) as H.
  { intros w' (c & a & _ & C). by apply count_all_due. }
  destruct names as [|n ns]; [done|].
  assert (count_exception (X:=X) n today threshold w = count_exception n today threshold (set_alerts ∅ [] today w)) as E.
  { unfold count_exception, mbind, st_bind, st_modify, st_get, mret, st_ret. rewrite String.eqb_refl.
    destruct (String.eqb_spec today (lw_date w)); [congruence|]. done. }
  rewrite <- (H (set_alerts ∅ [] today w)).
  - cbn [count_all]. unfold mbind, st_bind. by rewrite E.
  - exists ∅, []. split; [done|]. split; [done|]. intros m. cbn. split; [done|].
    split; [by intros []%elem_of_nil|]. unfold occurrences. cbn. lia.
Qed.
End alerts.

(** ** A concrete loop *)

(** Its world is the list of the indices held; a frame is its number of rows. *)
Definition demo_entered (n : string) : LM (list string) unit :=
  st_modify (λ w, with_ext w (lw_ext w ++ [n])).
Definition demo_port (status : string) (halted : bool) : loop_port (list string) Z := {|
  lo_rows := Some; lo_halted := mret halted; lo_market := mret status;
  lo_fetch _ := mret 40; lo_vix := mret (f_of_Z 15);
  lo_signal n _ _ := if String.eqb n "FINNIFTY" then st_raise (PyExn KeyError "Close")
                     else mret (PyDict [("signal", VStr "BUY"); ("score", VInt (if String.eqb n "NIFTY" then 80 else 50))]%string);
  lo_held n := st_gets (λ w, str_mem n (lw_ext w)); lo_mandate _ _ := mret (true, "MANDATE_ALLOWED"%string);
  lo_reentry _ _ _ := mret None; lo_correlation _ _ := mret (true, EmptyString);
  lo_enter n _ := demo_entered n; lo_monitor := mret (); lo_reconcile := mret (); lo_wait _ := mret ();
  lo_heartbeat := None; lo_closes := None; lo_oi := None; lo_invariants := None; lo_send := None; lo_notify := None;
  lo_equity := None; lo_watchdog := mret (); lo_drift := mret (); lo_lake _ _ := mret (); lo_outcomes := mret ();
  lo_sweep := mret (); lo_periodic := mret () |}.
Definition demo_world (held : list string) : loop_world (list string * list event) :=
  LoopWorld (Clock 1700000000000000 []) false ∅ ∅ [] EmptyString 0 (held, []).
(** What the loop does, of the events of [n] rounds. *)
Definition acts (e : event) : bool := match e with EEnter _ _ | EEquity _ | EMonitor | EReconcile => true | _ => false end.
Definition demo_run (status : string) (halted : bool) (indices : list string) (n : nat) : list event :=
  events (run ∅ indices (recorded (demo_port status halted)) n (demo_world [])).2.
Definition nifty_signal : pyrec := PyDict [("signal", VStr "BUY"); ("score", VInt 80)]%string.
Example two_rounds : filter (λ e, acts e = true) (demo_run "OPEN" false ["NIFTY"; "BANKNIFTY"]%string 2) =
  [EEnter "NIFTY" nifty_signal; EMonitor; EReconcile; EMonitor; EReconcile].
Proof. vm_compute. reflexivity. Qed.
(** Positions are not monitored while the market is not open or the hard halt
    is set, and not in a cycle in which the signal of one index fails. *)
Example unmonitored_outside : filter (λ e, acts e = true) (demo_run "PRE_OPEN" false ["NIFTY"]%string 3) = [] ∧
  filter (λ e, acts e = true) (demo_run "OPEN" true ["NIFTY"]%string 3) = [] ∧
  filter (λ e, acts e = true) (demo_run "OPEN" false ["NIFTY"; "FINNIFTY"]%string 3) = [EEnter "NIFTY" nifty_signal].
Proof. vm_compute. repeat split. Qed.

Lemma demo_trace :
  demo_run "OPEN" false ["NIFTY"]%string 1 =
    take 9 (demo_run "OPEN" false ["NIFTY"]%string 1) ++ EEnter "NIFTY" nifty_signal :: [EMonitor; EReconcile].
Proof. vm_compute. reflexivity. Qed.
Lemma entries_admitted_witness :
  ∃ l0 a, take 9 (demo_run "OPEN" false ["NIFTY"]%string 1) = l0 ++ a ∧ admission ∅ "NIFTY" nifty_signal a.
Proof.
  destruct (run ∅ ["NIFTY"]%string (recorded (demo_port "OPEN" false)) 1 (demo_world [])) as [r w'] eqn:E.
  destruct (entries_admitted _ _ _ _ _ _ _ E) as (l & C & A). change (events w' = l) in C.
  apply (A (take 9 (demo_run "OPEN" false ["NIFTY"]%string 1)) "NIFTY"%string nifty_signal [EMonitor; EReconcile]).
  rewrite <- demo_trace, <- C. unfold demo_run. by rewrite E.
Defined.
Lemma cycle_gated_witness :
  ∃ r w', execute_cycle ∅ ["NIFTY"]%string (recorded (demo_port "OPEN" true)) (demo_world []) = (r, w') ∧ at_rest (events w').
Proof.
  destruct (execute_cycle _ _ _ _) as [r w'] eqn:E. exists r, w'. split; [done|].
  assert (events w' = [EMarket "OPEN"; EHalt true]) as Ew.
  { change w' with (r, w').2. rewrite <- E. vm_compute. reflexivity. }
  destruct (cycle_gated _ _ _ _ _ _ E) as (l & C & [H|(k & -> & _)]).
  - by rewrite C.
  - rewrite Ew in C. discriminate C.
Defined.
Lemma alerts_exact_witness :
  (count_all (X:=unit) "2023-11-14" 2 ["KeyError"; "ValueError"; "KeyError"; "KeyError"]%string
     (LoopWorld (Clock 0 []) false ∅ ∅ [] EmptyString 0 ())).1 = Ok [None; None; Some 2; None].
Proof.
  rewrite (alerts_exact (X:=unit) "2023-11-14" 2 ["KeyError"; "ValueError"; "KeyError"; "KeyError"]%string);
    [vm_compute; reflexivity|lia|discriminate].
Defined.
