(* ===== verification/ConfigReload.v ===== *)
(** * Reloading the configuration while the loop runs

    [ConfigDriftReloader] of [core/config_drift_reloader.py] over
    [core/soft_reload_common.py]: when the file has changed, the keys of an
    allowlist are taken over into the shared configuration, the others are
    only reported.  A value is a scalar.  The order in which Python walks
    over a set of keys is an argument [keys]. *)
From S2P Require Import Prelude PyStr Float64 PyDict PyVal CapitalManager MandateService StateManager TradingLoop.

Definition IMMUTABLE_RELOAD_KEYS : list string :=
  ["MAX_DAILY_LOSS"; "MAX_DRAWDOWN"; "SL_PCT"; "TARGET_PCT"; "TRAIL_PCT"; "PORTFOLIO_MAX_SL_RISK_PCT"; "MAX_SINGLE_TRADE_LOSS_PCT";
   "MAX_CONSECUTIVE_LOSSES"; "VIX_HALT_THRESHOLD"; "VIX_BLOCK_THRESHOLD"; "PAPER_MODE"; "EXECUTION_MODE"; "MANUAL_SIGNALS_ONLY";
   "BROKER_DRIVER"; "BROKER_API_ENABLED"; "live_trading_lockout_enabled"]%string.
Definition SAFE_RELOAD_KEYS : list string :=
  ["BREAKOUT_BONUS"; "MACD_BONUS"; "VWAP_RECLAIM_BONUS"; "TG_COOLDOWN_SECS"; "TG_HEARTBEAT_INTERVAL"; "AI_THRESHOLD";
   "IV_SPIKE_THRESHOLD"; "VOL_RATIO_MIN"]%string.

(** ** The shared primitives *)

(** [new_cfg[k] != old_cfg.get(k)] *)
Definition differs (old : pyrec) (k : string) (v : pyval) : bool := negb (py_eq v (rget k VNone old)).
(** [partition_soft_reload_changes] *)
Definition partition_changes (old new : pyrec) (immutable safe : list string) : list string * list string * list string :=
  let changed := fst <$> filter (λ p : string * pyval, differs old p.1 p.2 = true) (items new) in
  (changed, filter (λ k, k ∈ immutable) changed, filter (λ k, (k ∉ safe) ∧ (k ∉ immutable)) changed).
(** [soft_reload_diff_entry] *)
Record diff_row := DiffRow { df_key : string; df_old : pyval; df_new : pyval }.
Definition diff_entry (k : string) (old new : pyval) : string * diff_row :=
  (cat [k; ":"; py_str old; "→"; py_str new], DiffRow k old new).
Definition candidates (old new : pyrec) (keys : list string) : list (string * pyval) :=
  omap (λ k, match new !! k with Some v => if differs old k v then Some (k, v) else None | None => None end) keys.
Fixpoint patch_all (l : list (string * pyval)) (cfg : pyrec) : list (string * diff_row) * pyrec :=
  match l with
  | [] => ([], cfg)
  | (k, v) :: l' => let '(log, cfg') := patch_all l' (<[k := v]> cfg) in (diff_entry k (rget k VNone cfg) v :: log, cfg')
  end.
(** [apply_safe_key_patch]; a refusal of the validator changes nothing. *)
Inductive patch_log := Patched (rows : list diff_row) | Rejected (errors keys : list string).
Definition merged (l : list (string * pyval)) (cfg : pyrec) : pyrec := foldl (λ c p, <[p.1 := p.2]> c) cfg l.
Definition apply_safe_key_patch (old new : pyrec) (keys : list string) (validator : option (pyrec → list string)) :
    list string * patch_log * pyrec :=
  let l := candidates old new keys in
  let refused := match validator with Some f => if bool_decide (l = []) then [] else f (merged l old) | None => [] end in
  match refused with
  | [] => let '(log, cfg) := patch_all l old in (log.*1, Patched log.*2, cfg)
  | errors => ([], Rejected errors l.*1, old)
  end.

(** ** The reloader *)

Record reload_report := ReloadReport { rr_reloaded : list string; rr_blocked : list string; rr_ignored : list string }.
Definition no_change : reload_report := ReloadReport [] [] [].
Record reloader := Reloader { rl_cfg : pyrec; rl_mtime : option float64 }.
(** The file, where there is one: its time, and what reading it gives. *)
Definition file : Type := option (float64 * res pyrec).
Definition reload_errors : list exn_class := [OSError; ValueError; TypeError; KeyError; AttributeError].
Section reload.
Variable keys : list string.

(** [check] *)
Definition reload_now (disk : pyrec) : ST reloader reload_report :=
  s ← st_get;
  let '(_, blocked, ignored) := partition_changes (rl_cfg s) disk IMMUTABLE_RELOAD_KEYS SAFE_RELOAD_KEYS in
  let '(reloaded, _, cfg) := apply_safe_key_patch (rl_cfg s) disk keys None in
  st_modify (λ s, Reloader cfg (rl_mtime s)) ;;
  mret (ReloadReport reloaded blocked ignored).
Definition check (f : file) : ST reloader reload_report :=
  st_try
    (match f with
     | None => mret no_change
     | Some (mtime, content) =>
         s ← st_get;
         if match rl_mtime s with Some t => feqb mtime t | None => false end then mret no_change
         else
           st_modify (λ s, Reloader (rl_cfg s) (Some mtime)) ;;
           disk ← st_lift content;
           reload_now disk
     end) reload_errors (λ _, mret no_change).
End reload.
Definition new_reloader (cfg : pyrec) : reloader := Reloader cfg None.

(** ** Theorems *)

Lemma patch_all_merged l cfg : (patch_all l cfg).2 = merged l cfg.
Proof.
  revert cfg. induction l as [|[k v] l IH]; intros cfg; [done|]. cbn. specialize (IH (<[k := v]> cfg)).
  by destruct (patch_all l (<[k := v]> cfg)).
Qed.
Lemma merged_lookup l cfg k : NoDup l.*1 → merged l cfg !! k = match assoc_get k l with Some v => Some v | None => cfg !! k end.
Proof.
  revert cfg. induction l as [|[j v] l IH]; intros cfg Hnd; [done|]. cbn in Hnd. apply NoDup_cons in Hnd as [Hj Hnd].
  change (merged ((j, v) :: l) cfg) with (merged l (<[j := v]> cfg)). rewrite IH by done. cbn.
  destruct (String.eqb_spec k j) as [->|Hk].
  - rewrite (proj2 (assoc_get_none j l) Hj). apply dict_lookup_insert_eq.
  - destruct (assoc_get k l); [done|]. by apply dict_lookup_insert_ne.
Qed.
Definition candidate (old new : pyrec) (k : string) : option pyval := v ← new !! k; if differs old k v then Some v else None.
Lemma candidates_get old new keys k :
  assoc_get k (candidates old new keys) = if decide (k ∈ keys) then candidate old new k else None.
Proof.
  assert (candidates old new keys = omap (λ j, pair j <$> candidate old new j) keys) as ->.
  { unfold candidates, candidate. apply list_omap_ext. apply Forall_Forall2_diag. apply Forall_forall. intros j _.
    destruct (new !! j) as [v|]; [|done]. cbn. by destruct (differs old j v). }
  induction keys as [|j keys IH]; cbn; [by rewrite decide_False by apply not_elem_of_nil|].
  destruct (String.eqb_spec k j) as [->|Hk].
  - rewrite decide_True by apply list_elem_of_here. destruct (candidate old new j) as [v|] eqn:E; cbn; [by rewrite String.eqb_refl|].
    rewrite IH. by destruct (decide _).
  - apply String.eqb_neq in Hk as Hb. destruct (candidate old new j) as [v|]; cbn; rewrite ?Hb, IH;
      (destruct (decide (k ∈ keys)); [rewrite decide_True by (by right)|rewrite decide_False by (by rewrite elem_of_cons; intros [])]; done).
Qed.
Lemma candidates_nil old new keys : (∀ k v, k ∈ keys → new !! k = Some v → differs old k v = false) → candidates old new keys = [].
Proof.
  unfold candidates. induction keys as [|j keys IH]; intros H; [done|]. cbn.
  rewrite IH by (intros k v Hk; apply H; by right). destruct (new !! j) as [v|] eqn:E; [|done]. by rewrite (H j v (list_elem_of_here _ _) E).
Qed.
Lemma candidates_nodup old new keys : NoDup keys → NoDup (candidates old new keys).*1.
Proof.
  intros Hnd. unfold candidates. induction Hnd as [|j keys Hj _ IH]; cbn; [constructor|].
  destruct (new !! j) as [v|]; [|exact IH]. destruct (differs old j v); [|exact IH]. cbn. constructor; [|exact IH].
  intros (p & -> & Hp)%list_elem_of_fmap. apply list_elem_of_omap in Hp as (i & Hi & Hp). destruct (new !! i) as [w|]; [|done].
  destruct (differs old i w); [|done]. injection Hp as <-. done.
Qed.
Lemma patched_lookup old new keys k : NoDup keys →
  (patch_all (candidates old new keys) old).2 !! k =
    match (if decide (k ∈ keys) then candidate old new k else None) with Some v => Some v | None => old !! k end.
Proof. intros Hnd. rewrite patch_all_merged, merged_lookup by (by apply candidates_nodup). by rewrite candidates_get. Qed.

Lemma apply_free old new keys :
  apply_safe_key_patch old new keys None =
    ((patch_all (candidates old new keys) old).1.*1, Patched (patch_all (candidates old new keys) old).1.*2, (patch_all (candidates old new keys) old).2).
Proof. unfold apply_safe_key_patch. by destruct (patch_all _ _). Qed.

(** What a patch does.  Without a refusal the configuration afterwards
    has, for every key, the new value where the key is in the allowlist and
    the new value is a different one, and otherwise what it had: whatever
    the order of the keys, so two orders give equivalent dictionaries. *)
Theorem patch_exact (old new : pyrec) (keys keys' : list string) :
  NoDup keys → keys ≡ₚ keys' →
  (∀ k, (apply_safe_key_patch old new keys None).2 !! k =
     match new !! k with Some v => if bool_decide (k ∈ keys) && differs old k v then Some v else old !! k | None => old !! k end) ∧
  (apply_safe_key_patch old new keys None).2 ≡ (apply_safe_key_patch old new keys' None).2.
Proof.
  intros Hnd Hp. assert (∀ ks, NoDup ks → ks ≡ₚ keys → ∀ k, (apply_safe_key_patch old new ks None).2 !! k =
     match new !! k with Some v => if bool_decide (k ∈ keys) && differs old k v then Some v else old !! k | None => old !! k end) as H.
  { intros ks Hks Hkk k. rewrite apply_free. cbn. rewrite patched_lookup by done. unfold candidate.
    rewrite (decide_ext (k ∈ ks) (k ∈ keys)) by (by rewrite Hkk).
    destruct (decide (k ∈ keys)); [rewrite bool_decide_true by done|rewrite bool_decide_false by done]; destruct (new !! k) as [v|]; cbn; try done.
    by destruct (differs old k v). }
  split; [by apply H|]. intros k. rewrite (H keys), (H keys'); [done|by rewrite <- Hp|by symmetry|done|done].
Qed.
Section history.
Variable keys : list string.
Hypothesis keys_nodup : NoDup keys.
Hypothesis keys_safe : keys ≡ₚ SAFE_RELOAD_KEYS.

Definition run_checks (fs : list file) (s : reloader) : reloader := foldl (λ s f, (check keys f s).2) s fs.
Lemma reload_now_eq disk s : reload_now keys disk s =
  (Ok (ReloadReport (patch_all (candidates (rl_cfg s) disk keys) (rl_cfg s)).1.*1
         (partition_changes (rl_cfg s) disk IMMUTABLE_RELOAD_KEYS SAFE_RELOAD_KEYS).1.2
         (partition_changes (rl_cfg s) disk IMMUTABLE_RELOAD_KEYS SAFE_RELOAD_KEYS).2),
   Reloader (patch_all (candidates (rl_cfg s) disk keys) (rl_cfg s)).2 (rl_mtime s)).
Proof.
  unfold reload_now, mbind, st_bind, st_get. cbn beta iota. rewrite apply_free. by destruct (partition_changes _ _ _ _) as [[? ?] ?].
Qed.
(** What a check leaves: what it had, or the patch of the file it read. *)
Lemma check_leaves f s : rl_cfg (check keys f s).2 = rl_cfg s ∨
  ∃ t disk, f = Some (t, Ok disk) ∧ rl_cfg (check keys f s).2 = (patch_all (candidates (rl_cfg s) disk keys) (rl_cfg s)).2.
Proof.
  unfold check, st_try. destruct f as [[t content]|]; [|by left]. unfold mbind, st_bind, st_get. cbn beta iota.
  destruct (match rl_mtime s with Some _ => _ | None => _ end); [by left|]. unfold st_modify, st_lift. destruct content as [disk|e].
  - rewrite reload_now_eq. right. by eexists _, _.
  - left. cbn. by destruct (catches _ e).
Qed.
(** C24: Only the allowlist is ever reloaded.  Whatever is found on the disk
    and whenever, a key that is not in the allowlist keeps its value for as
    long as the process runs; so does every key that must not be reloaded. *)
Theorem only_safe_keys_reload (cfg : pyrec) (fs : list file) (k : string) :
  k ∉ SAFE_RELOAD_KEYS ∨ k ∈ IMMUTABLE_RELOAD_KEYS → rl_cfg (run_checks fs (new_reloader cfg)) !! k = cfg !! k.
Proof.
  intros Hk. assert (k ∉ keys) as Hn.
  { rewrite keys_safe. destruct Hk as [Hk|Hk]; [exact Hk|].
    assert (Forall (λ k, k ∉ SAFE_RELOAD_KEYS) IMMUTABLE_RELOAD_KEYS) as HF by (apply (bool_decide_unpack _); vm_compute; exact I).
    by apply (proj1 (Forall_forall _ _) HF). }
  apply (foldl_inv (λ s, rl_cfg s !! k = cfg !! k)); [done|]. intros s f _ IH.
  destruct (check_leaves f s) as [->|(t & disk & _ & ->)]; [exact IH|]. rewrite patched_lookup by done. by rewrite decide_False.
Qed.
(** A reload settles.  When the file has been read, reading the same
    content again reloads nothing, and the safe keys it sets are equal to
    what it says. *)
Theorem reload_settles (disk : pyrec) (s s' : reloader) (r : reload_report) :
  (∀ k v, disk !! k = Some v → py_eq v v = true) → reload_now keys disk s = (Ok r, s') →
  (∀ k v, k ∈ SAFE_RELOAD_KEYS → disk !! k = Some v → differs (rl_cfg s') k v = false) ∧
  ∃ r', reload_now keys disk s' = (Ok r', s') ∧ rr_reloaded r' = [].
Proof.
  intros Heq. rewrite reload_now_eq. intros [= _ <-]. cbn [rl_cfg].
  assert (∀ k v, k ∈ keys → disk !! k = Some v → differs (patch_all (candidates (rl_cfg s) disk keys) (rl_cfg s)).2 k v = false) as H.
  { intros k v Hk Hv. unfold differs, rget. rewrite patched_lookup, decide_True by done. unfold candidate. rewrite Hv. cbn.
    destruct (differs (rl_cfg s) k v) eqn:Ed; cbn; [by rewrite (Heq k v Hv)|exact Ed]. }
  split; [intros k v Hk; apply H; by rewrite keys_safe|].
  assert (candidates (patch_all (candidates (rl_cfg s) disk keys) (rl_cfg s)).2 disk keys = []) as Hc.
  { by apply candidates_nil. }
  eexists. rewrite reload_now_eq. cbn [rl_cfg rl_mtime]. rewrite Hc. split; [reflexivity|done].
Qed.
End history.

(** ** Concrete files *)

Definition running : pyrec := PyDict [("AI_THRESHOLD", VInt 60); ("SL_PCT", VFloat (lit 92 2)); ("WATCHDOG_TIMEOUT", VInt 300)]%string.
Definition saved (t : Z) (l : list (string * pyval)) : file := Some (f_of_Z t, Ok (PyDict l)).
Definition after (fs : list file) : pyrec := rl_cfg (run_checks SAFE_RELOAD_KEYS fs (new_reloader running)).
Example reloads_threshold_only :
  check SAFE_RELOAD_KEYS (saved 1 [("AI_THRESHOLD", VInt 65); ("SL_PCT", VFloat (lit 80 2)); ("WATCHDOG_TIMEOUT", VInt 60)]%string)
    (new_reloader running) =
  (Ok (ReloadReport ["AI_THRESHOLD:60→65"] ["SL_PCT"] ["WATCHDOG_TIMEOUT"])%string,
   Reloader (<["AI_THRESHOLD"%string := VInt 65]> running) (Some (f_of_Z 1))).
Proof. vm_compute. reflexivity. Qed.
(** A file that cannot be parsed is not read again until it is written
    again; a key removed from the file keeps its value. *)
Example half_written_lost :
  after [Some (f_of_Z 1, Raise (PyExn ValueError "Expecting value")); saved 1 [("AI_THRESHOLD", VInt 65)]%string] = running ∧
  after [saved 1 [("AI_THRESHOLD", VInt 65)]%string; saved 2 []] = <["AI_THRESHOLD"%string := VInt 65]> running.
Proof. vm_compute. split; reflexivity. Qed.
(** Values are not validated: a text in the place of the threshold is taken
    over, and from then on the loop raises at every signal. *)
Example bad_threshold_taken :
  ∃ msg, threshold (after [saved 1 [("AI_THRESHOLD", VStr "high")]%string]) = Raise (PyExn ValueError msg).
Proof. eexists. vm_compute. reflexivity. Qed.
Lemma patch_exact_witness :
  (∀ k, (apply_safe_key_patch running (PyDict [("AI_THRESHOLD", VInt 65)]%string) SAFE_RELOAD_KEYS None).2 !! k =
     match PyDict [("AI_THRESHOLD", VInt 65)]%string !! k with
     | Some v => if bool_decide (k ∈ SAFE_RELOAD_KEYS) && differs running k v then Some v else running !! k
     | None => running !! k end) ∧
  (apply_safe_key_patch running (PyDict [("AI_THRESHOLD", VInt 65)]%string) SAFE_RELOAD_KEYS None).2 ≡
  (apply_safe_key_patch running (PyDict [("AI_THRESHOLD", VInt 65)]%string) (reverse SAFE_RELOAD_KEYS) None).2.
Proof.
  apply (patch_exact running (PyDict [("AI_THRESHOLD", VInt 65)]%string) SAFE_RELOAD_KEYS (reverse SAFE_RELOAD_KEYS)).
  - apply (bool_decide_unpack _). vm_compute. exact I.
  - symmetry. apply reverse_Permutation.
Defined.
Lemma only_safe_keys_reload_witness :
  after [saved 1 [("SL_PCT", VFloat f_zero); ("AI_THRESHOLD", VInt 65)]%string] !! "SL_PCT"%string = running !! "SL_PCT"%string.
Proof.
  apply only_safe_keys_reload; [apply (bool_decide_unpack _); vm_compute; exact I|reflexivity|right; apply (bool_decide_unpack _); vm_compute; exact I].
Defined.
Lemma reload_settles_witness :
  (∀ k v, k ∈ SAFE_RELOAD_KEYS → PyDict [("AI_THRESHOLD", VInt 65)]%string !! k = Some v →
     differs (rl_cfg (reload_now SAFE_RELOAD_KEYS (PyDict [("AI_THRESHOLD", VInt 65)]%string) (new_reloader running)).2) k v = false) ∧
  ∃ r', reload_now SAFE_RELOAD_KEYS (PyDict [("AI_THRESHOLD", VInt 65)]%string)
      (reload_now SAFE_RELOAD_KEYS (PyDict [("AI_THRESHOLD", VInt 65)]%string) (new_reloader running)).2 =
    (Ok r', (reload_now SAFE_RELOAD_KEYS (PyDict [("AI_THRESHOLD", VInt 65)]%string) (new_reloader running)).2) ∧ rr_reloaded r' = [].
Proof.
  eapply reload_settles with (s := new_reloader running).
  - apply (bool_decide_unpack _). vm_compute. exact I.
  - reflexivity.
  - intros k v. unfold lookup, pydict_lookup. cbn. destruct (String.eqb k "AI_THRESHOLD"); [|done]. by intros [= <-].
  - rewrite reload_now_eq. reflexivity.
Defined.
