(* ===== verification/PortfolioService.v ===== *)
(** * The portfolio service

    [PortfolioService] of [core/services/portfolio_service.py]: capital,
    margin, profit and trade count of the day, kept in the state manager of
    [StateManager]. *)
From S2P Require Import Prelude PyStr Float64 PyDict PyVal CapitalManager StateManager.

Section service.
Context (cfg : pyrec).

Definition PM (A : Type) : Type := ST store A.
Definition sv_float (v : sval) : res float64 :=
  match v with SV v => py_float v | SPositions _ => type_error "float() argument must be a string or a real number, not 'dict'" end.
Definition sv_int (v : sval) : res Z :=
  match v with SV v => py_int v | SPositions _ => type_error "int() argument must be a string, a bytes-like object or a real number, not 'dict'" end.
(** [float(state_manager.get(key, d))] *)
Definition get_float (key : string) (d : float64) : PM float64 := v ← get key (VFloat d); st_lift (sv_float v).
Definition put_float (key : string) (x : float64) : PM unit := set key (SV (VFloat x)).

(** [_base_capital], converted by the constructor *)
Definition base_of : res float64 := py_float (rget "BASE_CAPITAL" (VFloat (f_of_Z 100000)) cfg).

Definition get_capital : PM float64 :=
  own ← st_lift base_of;
  base ← st_lift (py_float (rget "BASE_CAPITAL" (VFloat own) cfg));
  get_float "capital" base.
Definition blocked : PM float64 := get_float "blocked_margin" f_zero.
Definition get_available_margin : PM float64 :=
  capital ← get_capital; b ← blocked; mret (py_max f_zero (capital - b)%f64).
Definition block_margin (amount : float64) : PM unit := b ← blocked; put_float "blocked_margin" (b + amount)%f64.
Definition release_margin (amount : float64) : PM unit :=
  b ← blocked; put_float "blocked_margin" (py_max f_zero (b - amount)%f64).
Definition set_capital (v : float64) : PM unit := put_float "capital" v.
Definition get_daily_pnl : PM float64 := get_float "net_daily_pnl" f_zero.
Definition update_daily_pnl (amount : float64) : PM unit := p ← get_daily_pnl; put_float "net_daily_pnl" (p + amount)%f64.
Definition get_trade_count : PM Z := v ← get "trade_count" (VInt 0); st_lift (sv_int v).
Definition increment_trade_count : PM unit := n ← get_trade_count; set "trade_count" (SV (VInt (n + 1))).
Definition get_pending_adjustment : PM float64 := get_float "capital_adj_pending" f_zero.
Definition clear_pending_adjustment : PM unit := put_float "capital_adj_pending" f_zero.

(** [handle_daily_reset]; a pending adjustment is only logged. *)
Definition sv_truthy (v : sval) : bool := match v with SV v => truthy v | SPositions p => 0 <? dlen p end.
Definition is_text (v : sval) (s : string) : bool := match v with SV (VStr t) => String.eqb t s | _ => false end.
Definition handle_daily_reset : PM bool :=
  t ← now_ist;
  let today := day_text t in
  last ← get "last_reset_day" VNone;
  if sv_truthy last && negb (is_text last today) then
    get "capital_adj_pending" (VFloat f_zero) ;;
    put_float "net_daily_pnl" f_zero ;;
    set "trade_count" (SV (VInt 0)) ;;
    put_float "capital_adj_pending" f_zero ;;
    set "last_reset_day" (SV (VStr today)) ;;
    mret true
  else
    (if sv_truthy last then mret () else set "last_reset_day" (SV (VStr today))) ;;
    mret false.

(** [get_session_state] *)
Definition get_session_state : PM (float64 * float64 * Z * sval * float64) :=
  c ← get_capital; p ← get_daily_pnl; n ← get_trade_count; l ← get "last_reset_day" VNone; a ← get_pending_adjustment;
  mret (c, p, n, l, a).
End service.

(** ** The day's accounts *)

(** What is under a key. *)
Definition at_key (k : string) (w : store) : option sval := so_state w !! k.
Lemma put_float_eq k x w : ∃ d cuts, put_float k x w = (Ok (), put_disk d cuts (put_state (<[k := SV (VFloat x)]> (so_state w)) w)).
Proof. destruct (set_eq k (SV (VFloat x)) w) as (d & cuts & E & _). by exists d, cuts. Qed.
Lemma get_float_eq k x w : so_state w !! k = Some (SV (VFloat x)) → get_float k f_zero w = (Ok x, w).
Proof. intros H. unfold get_float. rewrite (st_bind_ok _ _ w (SV (VFloat x)) w); [done|]. unfold get, st_gets. by rewrite H. Qed.

(** The profit of a day adds up.  Profits booked one after the other
    leave their left-to-right sum, added to what was there; the trade count
    and every other key are as before, and no booking fails, whatever becomes
    of the file. *)
Theorem daily_pnl_adds (l : list float64) (w : store) (x : float64) :
  at_key "net_daily_pnl" w = Some (SV (VFloat x)) →
  let '(r, w') := st_iter update_daily_pnl l w in
  r = Ok () ∧ at_key "net_daily_pnl" w' = Some (SV (VFloat (foldl fadd x l))) ∧
  ∀ k, k ≠ "net_daily_pnl"%string → at_key k w' = at_key k w.
Proof.
  revert w x. induction l as [|a l IH]; intros w x H; [by split_and!|].
  destruct (put_float_eq "net_daily_pnl" (x + a)%f64 w) as (d & cuts & E).
  assert (update_daily_pnl a w = (Ok (), put_disk d cuts (put_state (<["net_daily_pnl"%string := SV (VFloat (x + a)%f64)]> (so_state w)) w))) as E1.
  { unfold update_daily_pnl, get_daily_pnl. by rewrite (st_bind_ok _ _ w x w) by by apply get_float_eq. }
  cbn [st_iter]. rewrite (st_bind_ok _ _ _ _ _ E1). set (w1 := put_disk _ _ _).
  specialize (IH w1 (x + a)%f64). destruct (st_iter update_daily_pnl l w1) as [r w'].
  destruct IH as (-> & H2 & H3); [unfold at_key; apply dict_lookup_insert_eq|]. split_and!; [done|exact H2|].
  intros k Hk. rewrite H3 by done. unfold at_key. by apply dict_lookup_insert_ne.
Qed.

Lemma append_ne s t : t ≠ ""%string → String.append s t ≠ ""%string.
Proof. by destruct s. Qed.
Lemma day_text_truthy t : truthy_str (day_text t) = true.
Proof.
  apply truthy_str_spec. unfold day_text. destruct (civil _) as [[y m] d]. unfold date_text, cat. cbn [foldr].
  apply append_ne. discriminate.
Qed.
(** The keys a reset may change. *)
Definition reset_keys : list string := ["net_daily_pnl"; "trade_count"; "capital_adj_pending"; "last_reset_day"].
Lemma set_at k v w w' : set k v w = (Ok (), w') →
  at_key k w' = Some v ∧ (∀ j, j ≠ k → at_key j w' = at_key j w) ∧ clock_of w' = clock_of w.
Proof.
  destruct (set_eq k v w) as (d & cuts & -> & _). intros [= <-]. unfold at_key. cbn [so_state put_disk put_state].
  split_and!; [apply dict_lookup_insert_eq|intros j Hj; by apply dict_lookup_insert_ne|done].
Qed.
Lemma reset_eq w : let today := day_text (clk_now (clock_of w)) in
  match handle_daily_reset w with
  | (Ok b, w1) =>
      at_key "last_reset_day" w1 = Some (SV (VStr today)) ∧ (∀ k, k ∉ reset_keys → at_key k w1 = at_key k w) ∧
      clock_of w1 = (clk_read (clock_of w)).2 ∧
      b = (let l := default (SV VNone) (at_key "last_reset_day" w) in sv_truthy l && negb (is_text l today)) ∧
      if b then at_key "net_daily_pnl" w1 = Some (SV (VFloat f_zero)) ∧ at_key "trade_count" w1 = Some (SV (VInt 0)) ∧
                at_key "capital_adj_pending" w1 = Some (SV (VFloat f_zero))
      else ∀ k, k ≠ "last_reset_day"%string → at_key k w1 = at_key k w
  | (Raise _, _) => False
  end.
Proof.
  intros today. unfold handle_daily_reset. rewrite (st_bind_ok _ _ _ _ _ (now_ist_total w)).
  set (w0 := set_clock _ w). change (clk_read (clock_of w)).1 with (clk_now (clock_of w)). fold today.
  set (l := default (SV VNone) (at_key "last_reset_day" w)). rewrite (st_bind_ok _ _ w0 l w0) by done.
  destruct (sv_truthy l && negb (is_text l today)) eqn:Hl.
  - rewrite (st_bind_ok _ _ w0 (default (SV (VFloat f_zero)) (at_key "capital_adj_pending" w0)) w0) by done. unfold put_float.
    destruct (set "net_daily_pnl" (SV (VFloat f_zero)) w0) as [[[]|e] w1] eqn:E1.
    2:{ destruct (set_eq "net_daily_pnl" (SV (VFloat f_zero)) w0) as (d & cuts & E & _). congruence. }
    rewrite (st_bind_ok _ _ _ _ _ E1). destruct (set "trade_count" (SV (VInt 0)) w1) as [[[]|e] w2] eqn:E2.
    2:{ destruct (set_eq "trade_count" (SV (VInt 0)) w1) as (d & cuts & E & _). congruence. }
    rewrite (st_bind_ok _ _ _ _ _ E2). destruct (set "capital_adj_pending" (SV (VFloat f_zero)) w2) as [[[]|e] w3] eqn:E3.
    2:{ destruct (set_eq "capital_adj_pending" (SV (VFloat f_zero)) w2) as (d & cuts & E & _). congruence. }
    rewrite (st_bind_ok _ _ _ _ _ E3). destruct (set "last_reset_day" (SV (VStr today)) w3) as [[[]|e] w4] eqn:E4.
    2:{ destruct (set_eq "last_reset_day" (SV (VStr today)) w3) as (d & cuts & E & _). congruence. }
    rewrite (st_bind_ok _ _ _ _ _ E4). unfold mret, st_ret. cbn -[clock_of at_key].
    apply set_at in E1 as (A1 & B1 & C1), E2 as (A2 & B2 & C2), E3 as (A3 & B3 & C3), E4 as (A4 & B4 & C4).
    split_and!; [done| |by rewrite C4, C3, C2, C1|done|..].
    + intros k Hk. unfold reset_keys in Hk. rewrite !not_elem_of_cons in Hk. destruct Hk as (H1 & H2 & H3 & H4 & _). by rewrite B4, B3, B2, B1.
    + by rewrite B4, B3, B2.
    + by rewrite B4, B3.
    + by rewrite B4.
  - destruct (sv_truthy l) eqn:Ht.
    + cbn in Hl. apply negb_false_iff in Hl. unfold l in Hl, Ht.
      assert (at_key "last_reset_day" w = Some (SV (VStr today))) as Hat.
      { destruct (at_key "last_reset_day" w) as [[[]|]|]; try done. cbn in Hl. apply String.eqb_eq in Hl. by rewrite Hl. }
      unfold mret, st_bind, mbind, st_ret. cbn -[clock_of at_key]. by split_and!.
    + destruct (set "last_reset_day" (SV (VStr today)) w0) as [[[]|e] w1] eqn:E1.
      2:{ destruct (set_eq "last_reset_day" (SV (VStr today)) w0) as (d & cuts & E & _). congruence. }
      rewrite (st_bind_ok _ _ _ _ _ E1). unfold mret, st_ret. cbn -[clock_of at_key]. apply set_at in E1 as (A1 & B1 & C1). split_and!; [done| |done|done|].
      * intros k Hk. unfold reset_keys in Hk. rewrite !not_elem_of_cons in Hk. destruct Hk as (_ & _ & _ & H4 & _). by rewrite B1.
      * intros k Hk. by rewrite B1.
Qed.

(** The day is reset once.  [handle_daily_reset] never fails; it says
    that a reset took place exactly when a day was recorded before and it is
    another one; then profit, trade count and pending adjustment are zero,
    otherwise they are as before.  Either way today is the recorded day, so
    that a second call on the same day resets nothing and leaves every key
    alone. *)
Theorem reset_once_a_day (w : store) :
  let today := day_text (clk_now (clock_of w)) in
  let last := default (SV VNone) (at_key "last_reset_day" w) in
  ∃ w1, handle_daily_reset w = (Ok (sv_truthy last && negb (is_text last today)), w1) ∧
    at_key "last_reset_day" w1 = Some (SV (VStr today)) ∧
    (if sv_truthy last && negb (is_text last today)
     then at_key "net_daily_pnl" w1 = Some (SV (VFloat f_zero)) ∧ at_key "trade_count" w1 = Some (SV (VInt 0)) ∧
          at_key "capital_adj_pending" w1 = Some (SV (VFloat f_zero))
     else ∀ k, k ≠ "last_reset_day"%string → at_key k w1 = at_key k w) ∧
    (day_text (clk_now (clock_of w1)) = today →
     ∃ w2, handle_daily_reset w1 = (Ok false, w2) ∧ ∀ k, at_key k w2 = at_key k w1).
Proof.
  intros today last. pose proof (reset_eq w) as H. fold today in H. destruct (handle_daily_reset w) as [[b|e] w1]; [|done].
  destruct H as (H1 & H2 & H3 & Hb & H4). fold last in Hb. cbv zeta in Hb. rewrite <- Hb. exists w1. split_and!; [done..|].
  intros Hd. pose proof (reset_eq w1) as G. rewrite Hd in G. destruct (handle_daily_reset w1) as [[b2|e] w2]; [|done].
  destruct G as (G1 & G2 & G3 & Gb & G4). rewrite H1 in Gb. cbn in Gb. rewrite String.eqb_refl, andb_false_r in Gb. subst b2.
  exists w2. split; [done|]. intros k. destruct (decide (k = "last_reset_day"%string)) as [->|Hk]; [by rewrite G1, H1|by apply G4].
Qed.

(** ** Concrete accounts *)

Definition demo_store (l : list (string * sval)) (now : Z) : store :=
  Store (Clock now []) (PyDict l) (Disk (Holds (PyDict l)) Missing) (Some []) [].
Definition read_pnl (w : store) : option sval := at_key "net_daily_pnl" w.

(** Two threads that book a profit each: both read before either writes, and
    one booking is gone. *)
Definition interleaved (a b : float64) : PM unit :=
  p ← get_daily_pnl; q ← get_daily_pnl;
  put_float "net_daily_pnl" (p + a)%f64 ;; put_float "net_daily_pnl" (q + b)%f64.
Example lost_booking :
  read_pnl (st_iter update_daily_pnl [f_of_Z 100; f_of_Z (-500)] (demo_store [profit 0] 0)).2 = Some (SV (VFloat (f_of_Z (-400)))) ∧
  read_pnl (interleaved (f_of_Z (-500)) (f_of_Z 100) (demo_store [profit 0] 0)).2 = Some (SV (VFloat (f_of_Z 100))).
Proof. vm_compute. done. Qed.
(** A state whose day was never recorded keeps the profit it has. *)
Example first_day_keeps :
  let '(r, w) := handle_daily_reset (demo_store [profit (-900)] 0) in r = Ok false ∧ read_pnl w = Some (SV (VFloat (f_of_Z (-900)))).
Proof. vm_compute. done. Qed.
(** The state of recovery from the database: two open trades of one symbol
    make one position, and the day's loss is forgotten with the file. *)
Example recovery_forgets :
  let t q := OpenTrade "NIFTY" (VInt q) (VInt 100) in
  let w := Store (Clock 0 []) (PyDict [profit (-900)]) (Disk Garbled Missing) (Some [t 1; t 3]) [] in
  let w1 := (load_state (put_state ∅ w)).2 in
  read_pnl w1 = None ∧
  (match at_key "active_positions" w1 with Some (SPositions p) => p !! "NIFTY"%string | _ => None end) =
    Some (PyDict [("qty", VInt 3); ("entry_price", VInt 100)]).
Proof. vm_compute. done. Qed.
(** A position the broker holds and the platform does not know is no
    mismatch. *)
Example unknown_position_aligned :
  sr_note <$> (match (session_recovery_report (Some ["NIFTY"]) (demo_store [] 0)).1 with Ok r => Some r | Raise _ => None end) =
  Some "Aligned"%string.
Proof. vm_compute. reflexivity. Qed.

Lemma daily_pnl_adds_witness :
  at_key "net_daily_pnl" (st_iter update_daily_pnl [f_of_Z 100; f_of_Z (-500)] (demo_store [profit 0] 0)).2 =
  Some (SV (VFloat (f_of_Z (-400)))).
Proof.
  pose proof (daily_pnl_adds [f_of_Z 100; f_of_Z (-500)] (demo_store [profit 0] 0) (f_of_Z 0) eq_refl) as H.
  destruct (st_iter _ _ _) as [r w']. destruct H as (_ & H & _). refine (eq_trans H _). vm_compute. reflexivity.
Defined.
