(* ===== verification/ReconEngine.v ===== *)
(** * Comparing positions with the broker

    [ReconciliationEngine] of [core/reconciliation_engine.py], which reports
    how the tracked positions differ from the broker's, and
    [ReconciliationController] of [core/reconciliation_controller.py], which
    halts trading when a quantity differs. *)
From S2P Require Import Prelude PyStr Float64 PyDict PyVal CapitalManager SafetyState.

(** ** The engine *)

(** [ReconciliationItem], [ReconciliationReport] *)
Record recon_item := ReconciliationItem {
  ri_symbol : string; ri_ok : bool; ri_local_qty : Z; ri_broker_qty : Z; ri_local_price : float64;
  ri_broker_price : float64; ri_note : string; ri_qty_mismatch : bool }.
Record engine_report := EngineReport { er_ok : bool; er_items : list recon_item; er_mismatches : Z }.

Record engine_config := EngineConfig { eg_tolerance : float64; eg_halts : bool; eg_broker_only : bool }.
Definition default_engine : engine_config := EngineConfig (lit 5 2) true true.

(** What the broker answers: a dictionary of rows, or a list whose entries
    may not be dictionaries. *)
Inductive broker_snapshot := ByName (d : pydict (option pyrec)) | Rows (l : list (option pyrec)).

Definition row_symbol (r : pyrec) : string :=
  py_str (v_or (rget "tradingsymbol" VNone r) (v_or (rget "symbol" VNone r) (v_or (rget "name" VNone r) (VStr "")))).
Definition add_row (acc : pydict pyrec) (row : option pyrec) : pydict pyrec :=
  match row with
  | Some r => if truthy_str (row_symbol r) then <[row_symbol r := r]> acc else acc
  | None => acc
  end.
(** [_normalize] *)
Definition normalize (s : broker_snapshot) : pydict pyrec :=
  match s with
  | ByName d => PyDict ((λ p, (p.1, default ∅ p.2)) <$> items d)
  | Rows l => foldl add_row ∅ l
  end.

(** [try: int(v)  except (TypeError, ValueError, KeyError): 0] *)
Definition lenient : list exn_class := [TypeError; ValueError; KeyError].
Definition or_else {A} (d : A) (r : res A) : res A :=
  match r with Raise e => if catches lenient e then Ok d else Raise e | _ => r end.
Definition lenient_int (v : pyval) : res Z := or_else 0 (py_int v).
Definition lenient_float (v : pyval) : res float64 := or_else f_zero (py_float v).
Definition broker_qty_of (r : pyrec) : res Z :=
  lenient_int (v_or (rget "qty" VNone r) (v_or (rget "quantity" VNone r) (VInt 0))).
Definition broker_price_of (r : pyrec) : res float64 :=
  lenient_float (v_or (rget "avg_price" VNone r) (v_or (rget "average_price" VNone r) (v_or (rget "price" VNone r) (VFloat f_zero)))).
Definition local_qty_of (r : pyrec) : res Z := lenient_int (v_or (rget "qty" VNone r) (VInt 0)).
Definition local_price_of (r : pyrec) : res float64 := lenient_float (v_or (rget "entry" VNone r) (VFloat f_zero)).

Section engine.
Context (c : engine_config).

Definition difference (local broker : float64) : float64 := (fabs (local - broker) / local)%f64.
Definition price_differs (local broker : float64) : bool :=
  fgt local f_zero && fgt broker f_zero && fgt (difference local broker) (eg_tolerance c).

(** One position, compared; with the mismatches it adds. *)
Definition compare (symbol : string) (local row : pyrec) : res (recon_item * Z) :=
  rbind (local_qty_of local) (λ lq, rbind (broker_qty_of row) (λ bq,
  rbind (local_price_of local) (λ lp, rbind (broker_price_of row) (λ bp,
  let qty_ok := lq =? bq in
  let differs := price_differs lp bp in
  let note := (if qty_ok then [] else ["qty mismatch"%string]) ++
              (if differs then [String.append "price mismatch " (fmt_pct 2 (difference lp bp))] else []) ++
              (if (bq =? 0) && (0 <? lq) then ["broker empty"%string] else []) in
  Ok (ReconciliationItem symbol (qty_ok && negb differs) lq bq (py_round lp 4) (py_round bp 4) (String.concat ", " note) (negb qty_ok),
      (if qty_ok then 0 else 1) + (if differs then 1 else 0)))))).
(** A position only the broker has. *)
Definition broker_only (local : pydict pyrec) (symbol : string) (row : pyrec) : res (option recon_item) :=
  if dmem symbol local then Ok None
  else
    rbind (broker_qty_of row) (λ q,
    if q <=? 0 then Ok None
    else rbind (broker_price_of row) (λ p,
      Ok (Some (ReconciliationItem symbol false 0 q f_zero (py_round p 4) "broker-only position (not in bot state)" false)))).

Fixpoint compare_all (broker : pydict pyrec) (l : list (string * pyrec)) : res (list recon_item * Z) :=
  match l with
  | [] => Ok ([], 0)
  | (s, local) :: l' =>
      rbind (compare s local (default ∅ (broker !! s))) (λ r,
      rbind (compare_all broker l') (λ rest, Ok (r.1 :: rest.1, r.2 + rest.2)))
  end.
Fixpoint broker_only_all (local : pydict pyrec) (l : list (string * pyrec)) : res (list recon_item) :=
  match l with
  | [] => Ok []
  | (s, row) :: l' =>
      rbind (broker_only local s row) (λ o,
      rbind (broker_only_all local l') (λ rest, Ok (match o with Some i => i :: rest | None => rest end)))
  end.

(** [reconcile_positions], on what [broker_snapshot_fn] answered. *)
Definition reconcile_positions (snapshot : broker_snapshot) (local : pydict pyrec) : res engine_report :=
  let broker := normalize snapshot in
  rbind (compare_all broker (items local)) (λ mine,
  rbind (if eg_broker_only c then broker_only_all local (items broker) else Ok []) (λ theirs,
  let items := mine.1 ++ theirs in
  let mismatches := mine.2 + Z.of_nat (length theirs) in
  Ok (EngineReport
        ((mismatches =? 0) || negb (eg_halts c) && forallb (λ i, ri_ok i || ri_qty_mismatch i) items)
        items mismatches))).

(** ** What an untroubled report means *)

(** A tracked position agrees with the broker's row. *)
Definition agrees (local row : pyrec) : Prop :=
  ∃ q lp bp, local_qty_of local = Ok q ∧ broker_qty_of row = Ok q ∧ local_price_of local = Ok lp ∧
    broker_price_of row = Ok bp ∧ price_differs lp bp = false.
Lemma compare_count s local row i n : compare s local row = Ok (i, n) → 0 ≤ n ∧ (n = 0 ↔ agrees local row).
Proof.
  unfold compare, agrees. destruct (local_qty_of local) as [lq|]; [|done]. destruct (broker_qty_of row) as [bq|]; [|done].
  destruct (local_price_of local) as [lp|]; [|done]. destruct (broker_price_of row) as [bp|]; [|done]. cbn [rbind].
  intros [= _ <-]. destruct (Z.eqb_spec lq bq) as [->|Hq], (price_differs lp bp) eqn:Hd; (split; [done|]); split; try done.
  - intros (q & lp' & bp' & _ & _ & [= <-] & [= <-] & H). congruence.
  - intros _. by exists bq, lp, bp.
  - intros (q & lp' & bp' & [= <-] & [= <-] & _). done.
  - intros (q & lp' & bp' & [= <-] & [= <-] & _). done.
Qed.
Lemma compare_all_count broker l its n : compare_all broker l = Ok (its, n) →
  0 ≤ n ∧ (n = 0 ↔ ∀ s local, (s, local) ∈ l → agrees local (default ∅ (broker !! s))).
Proof.
  revert its n. induction l as [|[s local] l IH]; intros its n E.
  - injection E as <- <-. split; [done|]. split; [|done]. intros _ s local H. by apply elem_of_nil in H.
  - cbn [compare_all] in E. destruct (compare s local _) as [[i k]|] eqn:E1; [|done]. cbn [rbind] in E.
    destruct (compare_all broker l) as [[its' m]|]; [|done]. injection E as <- <-. destruct (IH _ _ eq_refl) as [Hm Im].
    apply compare_count in E1 as [Hk Ik]. cbn [snd]. split; [lia|]. split.
    + intros H. assert (k = 0 ∧ m = 0) as [Hk0 Hm0] by lia. intros s' local' [[= -> ->]|Hin]%elem_of_cons; [by apply Ik|].
      by apply Im.
    + intros H. assert (k = 0) by (apply Ik, H; left). assert (m = 0) by (apply Im; intros s' l' Hin; apply H; by right). lia.
Qed.
Lemma broker_only_none local s row : broker_only local s row = Ok None ↔
  (dmem s local = true ∨ ∃ q, broker_qty_of row = Ok q ∧ q ≤ 0).
Proof.
  unfold broker_only. destruct (dmem s local) eqn:Hm; [by split; auto|]. destruct (broker_qty_of row) as [q|e]; cbn [rbind].
  - destruct (Z.leb_spec q 0).
    + split; [|done]. intros _. right. by exists q.
    + destruct (broker_price_of row); cbn; (split; [done|]); intros [?|(q' & [= <-] & ?)]; (done || lia).
  - split; [done|]. intros [?|(q' & ? & ?)]; done.
Qed.
Lemma broker_only_all_nil local l its : broker_only_all local l = Ok its →
  its = [] ↔ ∀ s row, (s, row) ∈ l → dmem s local = true ∨ ∃ q, broker_qty_of row = Ok q ∧ q ≤ 0.
Proof.
  revert its. induction l as [|[s row] l IH]; intros its E.
  - injection E as <-. split; [|done]. intros _ s row H. by apply elem_of_nil in H.
  - cbn [broker_only_all] in E. destruct (broker_only local s row) as [o|] eqn:E1; [|done]. cbn [rbind] in E.
    destruct (broker_only_all local l) as [rest|]; [|done]. injection E as <-. specialize (IH _ eq_refl). destruct o as [i|].
    + split; [done|]. intros H. exfalso. assert (broker_only local s row = Ok None) by (apply broker_only_none, H; left). congruence.
    + rewrite IH. split.
      * intros H s' row' [[= -> ->]|Hin]%elem_of_cons; [by apply broker_only_none|by apply H].
      * intros H s' row' Hin. apply H. by right.
Qed.

(** A report without mismatches is exact.  When the comparison completes,
    it counts no mismatch exactly if every tracked position has the broker's
    quantity and a price within the tolerance wherever both prices are
    positive, and, where these are reported, the broker holds no positive
    quantity of any symbol that is not tracked.  Under the default settings
    the report is in order exactly then. *)
Theorem report_exact (snapshot : broker_snapshot) (local : pydict pyrec) (r : engine_report) :
  reconcile_positions snapshot local = Ok r →
  let broker := normalize snapshot in
  (er_mismatches r = 0 ↔
     (∀ s p, (s, p) ∈ items local → agrees p (default ∅ (broker !! s))) ∧
     (eg_broker_only c = true → ∀ s row, (s, row) ∈ items broker → dmem s local = true ∨ ∃ q, broker_qty_of row = Ok q ∧ q ≤ 0)) ∧
  (eg_halts c = true → er_ok r = true ↔ er_mismatches r = 0).
Proof.
  unfold reconcile_positions. set (broker := normalize snapshot).
  destruct (compare_all broker (items local)) as [[mine n]|] eqn:E1; [|done]. cbn [rbind fst snd].
  apply compare_all_count in E1 as [Hn In]. destruct (eg_broker_only c) eqn:Hb.
  - destruct (broker_only_all local (items broker)) as [theirs|] eqn:E2; [|done]. cbn [rbind]. intros [= <-]. cbn.
    apply broker_only_all_nil in E2. split.
    + rewrite <- In. split.
      * intros H. assert (length theirs = 0%nat) as Hl by lia. apply nil_length_inv in Hl. split; [lia|]. intros _. by apply E2.
      * intros [H1 H2]. assert (theirs = []) as -> by (apply E2; by apply H2). cbn. lia.
    + intros ->. rewrite orb_false_r. apply Z.eqb_eq.
  - cbn [rbind]. intros [= <-]. cbn. rewrite Z.add_0_r. split.
    + rewrite <- In. split; [by intros H|by intros [H _]].
    + intros ->. rewrite orb_false_r. apply Z.eqb_eq.
Qed.
End engine.

(** ** The controller *)

(** [int(...)] is not applied here: quantities are compared as they are. *)
Definition qty_of (r : pyrec) : pyval := rget "qty" (VInt 0) r.
(** The reason for a halt: both sides hold something, and not the same. *)
Definition qty_conflict (name : string) (broker local : pyval) : res (option string) :=
  if py_eq broker local then Ok None
  else
    rbind (v_gt_z broker 0) (λ b,
    if b : bool then
      rbind (v_gt_z local 0) (λ l,
      Ok (if l : bool then Some (cat ["qty mismatch: broker="; py_str broker; " vs local="; py_str local; " for "; name]) else None))
    else Ok None).

Record controller_config := ControllerConfig { cc_broker_enabled : bool; cc_halt_on_mismatch : bool }.
(** The execution service: [run_ack_watchdog], and [reconcile_pending_orders]
    where it has one; their reports are only logged. *)
Record recon_exec (X : Type) := ReconExec { rx_watchdog : ST X unit; rx_pending : option (ST X unit) }.
Arguments rx_watchdog {X}. Arguments rx_pending {X}.

Section controller.
Context {X : Type} (c : controller_config).
(** The reconciler of the broker's truth, where there is one; the legacy
    broker's [get_position_qty]; the execution service. *)
Context (truth : option (ST X (pydict pyrec))) (legacy : string → pyval → pyval → ST X pyval) (exec : option (recon_exec X)).

Definition CM (A : Type) : Type := ST (safety * X) A.
Definition outside {A} (m : ST X A) : CM A := st_zoom snd (λ x p, (p.1, x)) m.
Definition trip (reason : string) : CM unit := st_zoom fst (λ s p, (s, p.2)) (trip_hard_halt reason "").
Definition soft : list exn_class := [ValueError; TypeError; KeyError; AttributeError; IndexError; OSError].

(** The first conflict trips the halt and ends the walk. *)
Fixpoint walk (quantity : string → pyrec → CM pyval) (l : list (string * pyrec)) : CM unit :=
  match l with
  | [] => mret ()
  | (name, p) :: l' =>
      b ← quantity name p;
      o ← st_lift (qty_conflict name b (qty_of p));
      match o with Some reason => trip reason | None => walk quantity l' end
  end.
Definition from_truth (d : pydict pyrec) (name : string) (_ : pyrec) : CM pyval :=
  mret (match d !! name with Some r => qty_of r | None => VInt 0 end).
Definition from_legacy (name : string) (p : pyrec) : CM pyval :=
  st_try (outside (legacy name (rget "signal" (VStr "") p) (rget "strike" (VInt 0) p))) soft (λ _, mret (VInt 0)).

(** [_reconcile_via_broker_truth], [_reconcile_via_legacy_broker] *)
Definition via_truth (fetch : ST X (pydict pyrec)) (positions : pydict pyrec) : CM unit :=
  st_try (d ← outside fetch; walk (from_truth d) (items positions)) soft (λ _, mret ()).
Definition via_legacy (positions : pydict pyrec) : CM unit := walk from_legacy (items positions).
(** [reconcile_live_positions] *)
Definition reconcile_live_positions (positions : pydict pyrec) : CM unit :=
  if negb (cc_broker_enabled c && cc_halt_on_mismatch c) then mret ()
  else match truth with Some fetch => via_truth fetch positions | None => via_legacy positions end.
(** [periodic_reconcile] *)
Definition periodic_reconcile : CM unit :=
  match exec with
  | None => mret ()
  | Some x =>
      st_try (outside (rx_watchdog x) ;; match rx_pending x with Some m => outside m | None => mret () end)
        [ValueError; TypeError; KeyError; OSError] (λ _, mret ())
  end.

(** Quantities that are integers. *)
Definition int_qty (d : pydict pyrec) : Prop := ∀ name p, (name, p) ∈ items d → ∃ n, qty_of p = VInt n.
Definition conflict (d : pydict pyrec) (name : string) (p : pyrec) : Prop :=
  ∃ r b l, d !! name = Some r ∧ qty_of r = VInt b ∧ qty_of p = VInt l ∧ b ≠ l ∧ 0 < b ∧ 0 < l.

Lemma qty_conflict_int name b l : qty_conflict name (VInt b) (VInt l) =
  Ok (if bool_decide (b ≠ l ∧ 0 < b ∧ 0 < l)
      then Some (cat ["qty mismatch: broker="; str_of_Z b; " vs local="; str_of_Z l; " for "; name]) else None).
Proof.
  unfold qty_conflict. rewrite py_eq_int. destruct (Z.eqb_spec b l) as [->|Hne].
  { rewrite bool_decide_eq_false_2 by tauto. done. }
  cbn. destruct (Z.ltb_spec 0 b); cbn; [|by rewrite bool_decide_eq_false_2 by lia].
  destruct (Z.ltb_spec 0 l); [by rewrite bool_decide_eq_true_2|by rewrite bool_decide_eq_false_2 by lia].
Qed.
Lemma lookup_qty d name : dict_wf d → int_qty d → ∃ b, match d !! name with Some r => qty_of r | None => VInt 0 end = VInt b ∧
  ∀ r, d !! name = Some r → qty_of r = VInt b.
Proof.
  intros Hwf Hi. destruct (d !! name) as [r|] eqn:E; [|by exists 0].
  destruct (Hi name r) as [b Hb]; [by apply dict_items_lookup|]. exists b. split; [done|]. by intros r' [= <-].
Qed.
Lemma trip_eq' reason (p : safety * X) : ∃ s, trip reason p = (Ok (), (s, p.2)) ∧ sf_halt s = true.
Proof.
  unfold trip, st_zoom, trip_hard_halt, mbind, st_bind, st_get, st_put. destruct (sf_halt p.1) eqn:E; cbn.
  - by exists p.1.
  - eexists. split; [reflexivity|done].
Qed.
Lemma walk_truth d l : dict_wf d → int_qty d → (∀ name p, (name, p) ∈ l → ∃ n, qty_of p = VInt n) → ∀ p0 : safety * X,
  ∃ s, walk (from_truth d) l p0 = (Ok (), (s, p0.2)) ∧
    (sf_halt s = true ↔ sf_halt p0.1 = true ∨ ∃ name p, (name, p) ∈ l ∧ conflict d name p).
Proof.
  intros Hwf Hd. induction l as [|[name p] l IH]; intros Hl p0.
  { exists p0.1. split; [by destruct p0|]. split; [by left|]. intros [H|(name & p & H & _)]; [done|by apply elem_of_nil in H]. }
  cbn [walk]. destruct (lookup_qty d name Hwf Hd) as (b & Hb & Hr). destruct (Hl name p) as [n Hn]; [left|].
  rewrite (st_bind_ok _ _ p0 (VInt b) p0) by (unfold from_truth; by rewrite Hb). rewrite Hn, qty_conflict_int.
  case_bool_decide as Hc.
  - rewrite (st_bind_ok _ _ p0 _ p0) by done. destruct (trip_eq' (cat ["qty mismatch: broker="; str_of_Z b; " vs local="; str_of_Z n; " for "; name]) p0) as (s & -> & Hs).
    exists s. split; [done|]. split; [|done]. intros _. right. exists name, p. split; [left|].
    destruct (d !! name) as [r|] eqn:Er; [|injection Hb as <-; lia]. exists r, b, n. by split_and!; try tauto.
  - rewrite (st_bind_ok _ _ p0 None p0) by done. destruct (IH ltac:(intros m q Hm; apply (Hl m); by right) p0) as (s & -> & Hs).
    exists s. split; [done|]. rewrite Hs. split.
    + intros [?|(m & q & Hin & ?)]; [by left|]. right. exists m, q. split; [by right|done].
    + intros [?|(m & q & [[= -> ->]|Hin]%elem_of_cons & Hq)]; [by left| |].
      * exfalso. destruct Hq as (r & b' & l' & E1 & E2 & E3 & H1 & H2 & H3). rewrite (Hr r E1) in E2. rewrite Hn in E3.
        injection E2 as <-. injection E3 as <-. tauto.
      * right. by exists m, q.
Qed.

(** A differing quantity halts.  When the reconciler of the broker's
    truth answers, and quantities are integers, the comparison of live
    positions completes, and trading is halted afterwards exactly if it was
    before or some position has, here and at the broker, two different
    positive quantities; a position one of the two does not have is no
    reason. *)
Theorem halts_on_conflict (positions d : pydict pyrec) (fetch : ST X (pydict pyrec)) (s : safety) (x x' : X) :
  cc_broker_enabled c = true → cc_halt_on_mismatch c = true → truth = Some fetch → fetch x = (Ok d, x') →
  dict_wf d → int_qty d → int_qty positions →
  ∃ s', reconcile_live_positions positions (s, x) = (Ok (), (s', x')) ∧
    (sf_halt s' = true ↔ sf_halt s = true ∨ ∃ name p, (name, p) ∈ items positions ∧ conflict d name p).
Proof.
  intros H1 H2 H3 Hf Hwf Hd Hp. unfold reconcile_live_positions. rewrite H1, H2, H3. cbn [andb negb]. unfold via_truth, st_try.
  rewrite (st_bind_ok _ _ (s, x) d (s, x')) by (unfold outside, st_zoom; cbn; by rewrite Hf).
  destruct (walk_truth d (items positions) Hwf Hd Hp (s, x')) as (s' & -> & Hs). by exists s'.
Qed.
End controller.

(** ** Concrete comparisons *)

Definition held (q : Z) (entry : Z) : pyrec := PyDict [("qty", VInt q); ("entry", VFloat (f_of_Z entry))].
Definition at_broker (q : Z) (price : Z) : option pyrec := Some (PyDict [("quantity", VInt q); ("average_price", VFloat (f_of_Z price))]).
Definition summary (r : res engine_report) : option (bool * Z) := match r with Ok r => Some (er_ok r, er_mismatches r) | Raise _ => None end.
Definition engine_of (halts : bool) : engine_config := EngineConfig (lit 5 2) halts true.

Example engine_reports :
  let local := PyDict [("NIFTY", held 2 100); ("SENSEX", held 1 50)] in
  summary (reconcile_positions (engine_of true) (ByName (PyDict [("NIFTY", at_broker 2 103); ("SENSEX", at_broker 1 50)])) local) = Some (true, 0) ∧
  summary (reconcile_positions (engine_of true) (ByName (PyDict [("NIFTY", at_broker 3 100); ("TCS", at_broker 1 50)])) local) = Some (false, 3).
Proof. vm_compute. done. Qed.
(** With halting off, a position whose price is wrong too counts as one that
    only differs in quantity, and the report is in order. *)
Example wrong_price_excused :
  let local := PyDict [("NIFTY", held 2 100)] in
  summary (reconcile_positions (engine_of false) (ByName (PyDict [("NIFTY", at_broker 3 500)])) local) = Some (true, 2) ∧
  summary (reconcile_positions (engine_of false) (ByName (PyDict [("NIFTY", at_broker 2 500)])) local) = Some (false, 1).
Proof. vm_compute. done. Qed.
(** A short position only the broker holds is not reported. *)
Example short_unreported :
  summary (reconcile_positions (engine_of true) (Rows [Some (PyDict [("symbol", VStr "NIFTY"); ("qty", VInt (-75))])]) ∅) = Some (true, 0).
Proof. vm_compute. reflexivity. Qed.

Definition live : controller_config := ControllerConfig true true.
Definition truth_of (l : list (string * pyrec)) : ST unit (pydict pyrec) := mret (PyDict l).
Definition no_legacy (_ : string) (_ _ : pyval) : ST unit pyval := mret (VInt 0).
Definition halted_by (local broker : list (string * pyrec)) : bool :=
  sf_halt (reconcile_live_positions live (Some (truth_of broker)) no_legacy (PyDict local) (demo_safety, ())).2.1.
Definition only_qty (q : pyval) : pyrec := PyDict [("qty", q)].
(** A quantity that is no number ends the walk before the real conflict. *)
Example unreadable_quantity_hides :
  halted_by [("A", only_qty (VInt 2))] [("A", only_qty (VInt 1))] = true ∧
  halted_by [("B", only_qty VNone); ("A", only_qty (VInt 2))] [("A", only_qty (VInt 1)); ("B", only_qty (VInt 1))] = false ∧
  halted_by [("A", only_qty (VInt 2))] [] = false.
Proof. vm_compute. done. Qed.

Lemma report_exact_witness :
  ∃ r, reconcile_positions default_engine (ByName (PyDict [("NIFTY", at_broker 2 103)])) (PyDict [("NIFTY", held 2 100)]) = Ok r ∧
    agrees default_engine (held 2 100) (default ∅ (at_broker 2 103)).
Proof.
  destruct (reconcile_positions default_engine (ByName (PyDict [("NIFTY", at_broker 2 103)])) (PyDict [("NIFTY", held 2 100)])) as [r|e] eqn:E.
  2:{ vm_compute in E. discriminate E. }
  exists r. split; [reflexivity|]. destruct (report_exact default_engine _ _ r E) as [H _].
  apply (proj1 (proj1 H ltac:(vm_compute in E; injection E as <-; reflexivity)) "NIFTY"%string). left.
Defined.
Lemma halts_on_conflict_witness :
  ∃ s', reconcile_live_positions live (Some (truth_of [("A"%string, only_qty (VInt 1))])) no_legacy (PyDict [("A"%string, only_qty (VInt 2))]) (demo_safety, ()) = (Ok (), (s', ())) ∧
    sf_halt s' = true.
Proof.
  destruct (halts_on_conflict live (Some (truth_of [("A"%string, only_qty (VInt 1))])) no_legacy (PyDict [("A"%string, only_qty (VInt 2))])
    (PyDict [("A"%string, only_qty (VInt 1))]) (truth_of [("A"%string, only_qty (VInt 1))]) demo_safety () () eq_refl eq_refl eq_refl eq_refl) as (s' & E & H).
  - dict_wf_eval.
  - intros name p Hin. apply list_elem_of_singleton in Hin as [= -> ->]. by eexists.
  - intros name p Hin. apply list_elem_of_singleton in Hin as [= -> ->]. by eexists.
  - exists s'. split; [exact E|]. apply H. right. exists "A"%string, (only_qty (VInt 2)). split; [left|].
    exists (only_qty (VInt 1)), 1, 2. split_and!; try reflexivity; lia.
Defined.
