(* ===== verification/BrokerTruth.v ===== *)
(** * The broker's truth, and its continuous comparison

    [BrokerTruthReconciler] of [core/execution/broker_truth_reconciliation.py]
    caches the broker's positions for some seconds and compares single
    orders; [ContinuousReconciliation] of
    [core/execution/continuous_reconciliation.py] walks over the local
    positions round after round.  The broker's port, the alerts, the audit
    journal and the callback are operations on a state of their own. *)
From S2P Require Import Prelude PyStr Float64 PyDict PyVal CapitalManager SystemMode.

Inductive ReconciliationStatus := MATCH | MISMATCH | BROKER_ONLY | INTERNAL_ONLY | STALE | ERROR.
#[export] Instance status_eq_dec : EqDecision ReconciliationStatus.
Proof. solve_decision. Defined.

(** [ReconciliationResult]; the source is always the broker's API. *)
Record truth_result := TruthResult {
  tr_status : ReconciliationStatus; tr_internal : option pyrec; tr_broker : option pyrec;
  tr_details : option string; tr_at : tstamp }.

(** The broker's port: [None] is what [positions or {}] replaces. *)
Record truth_port (X : Type) := TruthPort {
  tp_positions : ST X (option (pydict pyrec));
  tp_orders : ST X (option (pydict pyrec));
  tp_funds : ST X pyrec;
  tp_healthy : option (ST X unit) }.
Arguments tp_positions {X}. Arguments tp_orders {X}. Arguments tp_funds {X}. Arguments tp_healthy {X}.

Section truth.
Context {X : Type} (port : truth_port X) (max_staleness : Z) (alert : option (string → ST X unit)).

Record truth := Truth { bt_clk : clock; bt_cache : pydict pyrec; bt_time : option Z; bt_ext : X }.
#[global] Instance truth_clock : HasClock truth :=
  {| clock_of := bt_clk; set_clock := λ k t, Truth k (bt_cache t) (bt_time t) (bt_ext t) |}.
Definition set_cache (d : pydict pyrec) (at_ : Z) (t : truth) : truth := Truth (bt_clk t) d (Some at_) (bt_ext t).
Definition TR (A : Type) : Type := ST truth A.
Definition on_port {A} (m : ST X A) : TR A := st_zoom bt_ext (λ x t, Truth (bt_clk t) (bt_cache t) (bt_time t) x) m.

Definition port_errors : list exn_class := [ValueError; TypeError; OSError; AttributeError; ConnectionError].
(** [_fetch_broker_positions], [_fetch_broker_orders]: a failure is nothing. *)
Definition fetch (m : ST X (option (pydict pyrec))) : TR (pydict pyrec) :=
  st_try (o ← on_port m; mret (default ∅ o)) port_errors (λ _, mret ∅).

(** The age of the cache, and whether it is to be fetched again. *)
Definition cache_age (now : Z) (t : truth) : option float64 := (λ t0, total_seconds (now - t0)) <$> bt_time t.
Definition too_old (age : option float64) : bool :=
  match age with Some a => f_gt_z a max_staleness | None => true end.
Definition refreshed (now : Z) : TR (option float64) :=
  t ← st_get;
  let age := cache_age now t in
  (if too_old age then d ← fetch (tp_positions port); st_modify (set_cache d now) else mret ()) ;;
  mret age.

Definition alerted (msg : string) : TR unit := match alert with Some f => on_port (f msg) | None => mret () end.
(** [cache_age and ...]: an age of zero is false. *)
Definition flagged_stale (age : option float64) : bool :=
  match age with Some a => negb (is_zero a) && f_gt_z a max_staleness | None => false end.

(** [get_authoritative_position] *)
Definition get_authoritative_position (symbol : string) : TR truth_result :=
  now ← now_ist;
  age ← refreshed now;
  pos ← st_gets (λ t, bt_cache t !! symbol);
  at_ ← format_ts;
  if flagged_stale age then
    alerted (cat ["STALE_POSITION_DATA: "; symbol; " cache age "; fmt_f 0 (default f_zero age); "s"]) ;;
    mret (TruthResult STALE None pos None at_)
  else mret (TruthResult MATCH None pos None at_).
(** [get_all_authoritative_positions] *)
Definition get_all_authoritative_positions : TR (pydict pyrec) :=
  now ← now_ist; refreshed now ;; st_gets bt_cache.
(** [get_authoritative_balance] *)
Definition get_authoritative_balance : TR (pyval * pyval * pyval) :=
  st_try
    (f ← on_port (tp_funds port);
     let field k := rget k (VInt 0) f in
     mret (field "available_cash", field "used_margin", field "total_value")%string)
    port_errors (λ _, mret (VInt 0, VInt 0, VInt 0)).

Definition internal_record (id : string) (state : pyval) : pyrec := PyDict [("client_order_id", VStr id); ("state", state)].
(** [reconcile_order] *)
Definition reconcile_order (id : string) (internal : pyval) : TR truth_result :=
  orders ← fetch (tp_orders port);
  match orders !! id with
  | None =>
      at_ ← format_ts;
      mret (TruthResult INTERNAL_ONLY (Some (internal_record id internal)) None (Some (cat ["Order "; id; " not found in broker"])) at_)
  | Some o =>
      let state := rget "status" (VStr "UNKNOWN") o in
      if py_eq state internal then at_ ← format_ts; mret (TruthResult MATCH None (Some o) None at_)
      else
        let why := cat ["State mismatch: internal="; py_str internal; ", broker="; py_str state] in
        alerted (cat ["ORDER_STATE_MISMATCH: "; id; " - "; why]) ;;
        at_ ← format_ts;
        mret (TruthResult MISMATCH (Some (internal_record id internal)) (Some o) (Some why) at_)
  end.
(** [force_refresh] *)
Definition force_refresh : TR unit :=
  d ← fetch (tp_positions port);
  st_modify (λ t, Truth (bt_clk t) d (bt_time t) (bt_ext t)) ;;
  now ← now_ist;
  st_modify (λ t, Truth (bt_clk t) (bt_cache t) (Some now) (bt_ext t)).

(** ** What an answer rests on *)

(** [age] below is what the call computes from its first reading. *)
Definition age_now (t : truth) : option float64 := cache_age (clk_now (bt_clk t)) t.
Lemma refreshed_cases now (t t' : truth) r : refreshed now t = (r, t') →
  if too_old (cache_age now t)
  then match fetch (tp_positions port) t with
       | (Ok d, t1) => r = Ok (cache_age now t) ∧ t' = set_cache d now t1
       | (Raise e, t1) => r = Raise e ∧ t' = t1
       end
  else r = Ok (cache_age now t) ∧ t' = t.
Proof.
  unfold refreshed. rewrite (st_bind_ok st_get _ t t t) by done. cbv zeta. destruct (too_old _).
  - unfold mbind, st_bind. destruct (fetch _ t) as [[d|e] t1]; by intros [= <- <-].
  - by intros [= <- <-].
Qed.
Lemma flagged_old age : flagged_stale age = true → too_old age = true.
Proof. destruct age as [a|]; [|done]. cbn. by intros [_ H]%andb_true_iff. Qed.
Lemma flagged_iff age : flagged_stale age = true ↔ ∃ a, age = Some a ∧ is_zero a = false ∧ f_gt_z a max_staleness = true.
Proof.
  destruct age as [a|]; cbn; [|by split; [done|intros (? & ? & _)]]. rewrite andb_true_iff, negb_true_iff.
  split; [intros [H1 H2]; by exists a|by intros (a' & [= <-] & H1 & H2)].
Qed.

(** Stale means just fetched.  An answer of [get_authoritative_position]
    is marked stale exactly when there was a cache and it was too old, and
    then the position in the answer is one this very call has just fetched
    (or the lack of one where the fetch failed), while an answer from the
    cache of an earlier call is never marked. *)
Theorem stale_is_fresh (symbol : string) (t t' : truth) (r : truth_result) :
  get_authoritative_position symbol t = (Ok r, t') →
  (tr_status r = STALE ↔ flagged_stale (age_now t) = true) ∧
  (tr_status r = STALE ∨ tr_status r = MATCH) ∧
  (tr_status r = STALE →
     ∃ d t1, fetch (tp_positions port) (set_clock (clk_read (bt_clk t)).2 t) = (Ok d, t1) ∧ tr_broker r = d !! symbol) ∧
  (too_old (age_now t) = false → tr_status r = MATCH ∧ tr_broker r = bt_cache t !! symbol).
Proof.
  unfold get_authoritative_position. intros E. rewrite (st_bind_ok _ _ _ _ _ (now_ist_total t)) in E.
  change (clk_read (clock_of t)).1 with (clk_now (bt_clk t)) in E. set (now := clk_now (bt_clk t)) in *.
  set (t0 := set_clock (clk_read (clock_of t)).2 t) in E. inv_bind E age t1 E1. apply refreshed_cases in E1.
  change (cache_age now t0) with (age_now t) in E1. rewrite (st_bind_ok _ _ t1 (bt_cache t1 !! symbol) t1) in E by done.
  rewrite (st_bind_ok _ _ _ _ _ (format_ts_total t1)) in E. change (set_clock (clk_read (bt_clk t)).2 t) with t0.
  assert (age = age_now t ∧ (tr_status r = STALE ↔ flagged_stale (age_now t) = true) ∧
          (tr_status r = STALE ∨ tr_status r = MATCH) ∧ tr_broker r = bt_cache t1 !! symbol) as (-> & H1 & H2 & H3).
  { assert (age = age_now t) as ->.
    { destruct (too_old (age_now t)); [destruct (fetch _ t0) as [[d|e] t2]|]; by destruct E1 as [[= <-] _]. }
    split; [done|]. destruct (flagged_stale (age_now t)).
    - inv_bind E u t2 E2. injection E as <- _. cbn. split_and!; [done|by left|done].
    - injection E as <- _. cbn. split_and!; [done|by right|done]. }
  split_and!; [done|done| |].
  - intros Hs. apply H1, flagged_old in Hs. rewrite Hs in E1. destruct (fetch _ t0) as [[d|e] t2]; [|by destruct E1].
    destruct E1 as [_ ->]. exists d, t2. split; [done|]. exact H3.
  - intros Hf. rewrite Hf in E1. destruct E1 as [_ ->]. split; [|exact H3]. destruct H2 as [Hs|?]; [|done].
    apply H1, flagged_old in Hs. congruence.
Qed.
End truth.
Arguments truth X : clear implicits.

(** ** Rounds of comparison *)

(** [ReconciliationIssue], [ReconciliationReport] *)
Record cycle_issue := CycleIssue {
  ci_at : Z; ci_type : string; ci_description : option string; ci_broker : option pyrec; ci_local : option pyrec; ci_manual : bool }.
Record cycle_report := CycleReport {
  cy_at : Z; cy_orders : Z; cy_positions : Z; cy_issues : list cycle_issue; cy_reachable : bool }.

Record cycle_config := CycleConfig { cg_active : Z; cg_idle : Z; cg_enabled : bool }.
Definition default_cycle : cycle_config := CycleConfig 30 300 true.

Section continuous.
Context {X : Type} (port : truth_port X) (max_staleness : Z) (alert : option (string → ST X unit)) (c : cycle_config).
(** [audit_log] and the callback for issues. *)
Context (audit : cycle_issue → ST X unit) (callback : option (cycle_issue → ST X unit)).

(** The service, with the positions the state manager holds and the mode of
    the system. *)
Record service := Service {
  cs_truth : truth X; cs_issues : list cycle_issue; cs_last : option Z; cs_running : bool; cs_stop : bool;
  cs_mode : option sysmode; cs_positions : pydict pyrec }.
#[global] Instance service_clock : HasClock service :=
  {| clock_of := λ s, bt_clk (cs_truth s);
     set_clock := λ k s, Service (set_clock k (cs_truth s)) (cs_issues s) (cs_last s) (cs_running s) (cs_stop s) (cs_mode s) (cs_positions s) |}.
Definition put_truth (t : truth X) (s : service) : service :=
  Service t (cs_issues s) (cs_last s) (cs_running s) (cs_stop s) (cs_mode s) (cs_positions s).
Definition put_issues (l : list cycle_issue) (s : service) : service :=
  Service (cs_truth s) l (cs_last s) (cs_running s) (cs_stop s) (cs_mode s) (cs_positions s).
Definition put_last (t : Z) (s : service) : service :=
  Service (cs_truth s) (cs_issues s) (Some t) (cs_running s) (cs_stop s) (cs_mode s) (cs_positions s).
Definition put_running (r stop : bool) (s : service) : service :=
  Service (cs_truth s) (cs_issues s) (cs_last s) r stop (cs_mode s) (cs_positions s).
Definition VM (A : Type) : Type := ST service A.
Definition with_truth {A} (m : ST (truth X) A) : VM A := st_zoom cs_truth put_truth m.
Definition ask {A} (m : ST X A) : VM A := with_truth (on_port m).

Definition item_errors : list exn_class := [OSError; ConnectionError; ValueError; TypeError; AttributeError; KeyError].
Definition cycle_errors : list exn_class := [OSError; ConnectionError; ValueError; TypeError; AttributeError].
(** The dictionary of an answer that may be missing. *)
Definition filled_row (o : option pyrec) : option pyrec := match o with Some r => if 0 <? dlen r then Some r else None | None => None end.
Definition broker_quantity (r : pyrec) : pyval := v_or (rget "quantity" (VInt 0) r) (rget "qty" (VInt 0) r).
Definition local_quantity (p : pyrec) : pyval := rget "qty" (VInt 0) p.

(** [_reconcile_order] *)
Definition check_order (order : pyrec) : VM (option cycle_issue) :=
  st_try
    (let id := v_or (rget "broker_order_id" VNone order) (rget "order_id" VNone order) in
     if negb (truthy id) then mret None
     else
       r ← with_truth (reconcile_order port alert (py_str id) (rget "status" (VStr "UNKNOWN") order));
       match tr_status r with
       | MISMATCH => now ← now_ist; mret (Some (CycleIssue now "status_drift" (tr_details r) (tr_broker r) (tr_internal r) true))
       | INTERNAL_ONLY =>
           now ← now_ist;
           mret (Some (CycleIssue now "orphan_order" (Some (cat ["Order "; py_str id; " in local but not in broker"])) None (tr_internal r) true))
       | _ => mret None
       end)
    item_errors (λ _, mret None).
(** [_reconcile_position] *)
Definition check_position (symbol : string) (p : pyrec) : VM (option cycle_issue) :=
  st_try
    (r ← with_truth (get_authoritative_position port max_staleness alert symbol);
     match filled_row (tr_broker r) with
     | None =>
         if 0 <? dlen p then
           now ← now_ist;
           mret (Some (CycleIssue now "missing_position" (Some (cat ["Position "; symbol; " in local but not at broker"])) None (Some p) true))
         else mret None
     | Some row =>
         if py_eq (local_quantity p) (broker_quantity row) then mret None
         else
           now ← now_ist;
           mret (Some (CycleIssue now "position_mismatch"
             (Some (cat ["Position "; symbol; " qty mismatch: local="; py_str (local_quantity p); ", broker="; py_str (broker_quantity row)]))
             (Some row) (Some p) true))
     end)
    item_errors (λ _, mret None).

Fixpoint collect {A} (f : A → VM (option cycle_issue)) (l : list A) : VM (list cycle_issue) :=
  match l with
  | [] => mret []
  | x :: l' => o ← f x; rest ← collect f l'; mret (match o with Some i => i :: rest | None => rest end)
  end.
(** [_get_local_orders]: the store it imports does not exist in
    [core/execution/durable_state.py], and the failed import is caught. *)
Definition local_orders : list pyrec := [].
(** [_check_broker_connectivity] *)
Definition reachable : VM bool :=
  match tp_healthy port with
  | Some m => st_try (ask m ;; mret true) [AttributeError; TypeError; OSError; ConnectionError] (λ _, mret false)
  | None => mret true
  end.
(** [_run_cycle] *)
Definition run_cycle : VM cycle_report :=
  start ← now_ist;
  st_try
    (ok ← reachable;
     orders ← collect check_order local_orders;
     s ← st_get;
     positions ← collect (λ p, check_position p.1 p.2) (items (cs_positions s));
     mret (CycleReport start (Z.of_nat (length local_orders)) (dlen (cs_positions s)) (orders ++ positions) ok))
    cycle_errors (λ _, mret (CycleReport start 0 0 [] true)).

(** [_handle_issue] *)
Definition handle_issue (i : cycle_issue) : VM unit :=
  st_modify (λ s, put_issues (cs_issues s ++ [i]) s) ;;
  ask (audit i) ;;
  match callback with
  | Some f => st_try (ask (f i)) [TypeError; ValueError; OSError] (λ _, mret ())
  | None => mret ()
  end.

(** One round of [_run_loop], and how long it then waits. *)
Definition run_round : VM Z :=
  now_ist ;;
  s ← st_get;
  let interval := if (can_trade (cs_mode s)).1 then cg_active c else cg_idle c in
  st_try
    (r ← run_cycle;
     st_iter handle_issue (cy_issues r) ;;
     now ← now_ist;
     st_modify (put_last now))
    [OSError; ConnectionError; TimeoutError; ValueError; TypeError; AttributeError] (λ _, mret ()) ;;
  mret interval.
(** [_run_loop]: [stops] says of each wait whether it was interrupted. *)
Fixpoint run_loop (stops : list bool) : VM (list Z) :=
  match stops with
  | [] => mret []
  | stop :: stops' =>
      s ← st_get;
      if cs_running s && negb (cs_stop s) then
        w ← run_round;
        if stop : bool then mret [w] else ws ← run_loop stops'; mret (w :: ws)
      else mret []
  end.
(** [start]: whether a thread was started; [stop] *)
Definition start : VM bool :=
  s ← st_get;
  if negb (cg_enabled c) || cs_running s then mret false
  else st_modify (put_running true (cs_stop s)) ;; mret true.
Definition stop : VM unit := st_modify (put_running false true).

(** ** What a round reports *)

(** The kind of issue a position is, against the broker's rows. *)
Definition judged (d : pydict pyrec) (symbol : string) (p : pyrec) : option string :=
  match filled_row (d !! symbol) with
  | None => if 0 <? dlen p then Some "missing_position"%string else None
  | Some row => if py_eq (local_quantity p) (broker_quantity row) then None else Some "position_mismatch"%string
  end.

Definition answers_with (d : pydict pyrec) : Prop := ∀ x, ∃ x', tp_positions port x = (Ok (Some d), x').
Definition alerts_pass : Prop := ∀ f, alert = Some f → ∀ msg x, ∃ x', f msg x = (Ok (), x').
(** The cache is empty or has the broker's rows. *)
Definition cached (d : pydict pyrec) (t : truth X) : Prop := bt_time t = None ∨ bt_cache t = d.

Lemma refreshed_answer d now (t : truth X) : answers_with d → cached d t →
  ∃ age t', refreshed port max_staleness now t = (Ok age, t') ∧ bt_cache t' = d.
Proof.
  intros Ha Hc. unfold refreshed. rewrite (st_bind_ok st_get _ t t t) by done. cbv zeta.
  destruct (too_old max_staleness (cache_age now t)) eqn:Ho.
  - unfold fetch. destruct (Ha (bt_ext t)) as (x' & Hx).
    exists (cache_age now t), (set_cache d now (Truth (bt_clk t) (bt_cache t) (bt_time t) x')). split; [|done].
    unfold mbind, st_bind, st_try, on_port, st_zoom. by rewrite Hx.
  - exists (cache_age now t), t. split; [done|]. destruct Hc as [Hc|Hc]; [|done].
    unfold cache_age in Ho. rewrite Hc in Ho. done.
Qed.
Lemma position_answer d symbol (t : truth X) : answers_with d → alerts_pass → cached d t →
  ∃ r t', get_authoritative_position port max_staleness alert symbol t = (Ok r, t') ∧ tr_broker r = d !! symbol ∧ cached d t'.
Proof.
  intros Ha Hal Hc. unfold get_authoritative_position. rewrite (st_bind_ok _ _ _ _ _ (now_ist_total t)).
  set (t0 := set_clock (clk_read (clock_of t)).2 t). assert (cached d t0) as Hc0 by by destruct Hc; [left|right].
  destruct (refreshed_answer d (clk_read (clock_of t)).1 t0 Ha Hc0) as (age & t1 & E1 & Hd).
  rewrite (st_bind_ok _ _ _ _ _ E1), (st_bind_ok _ _ t1 (bt_cache t1 !! symbol) t1) by done.
  rewrite (st_bind_ok _ _ _ _ _ (format_ts_total t1)). set (t2 := tick t1).
  assert (bt_cache t2 = d) as Hd2 by exact Hd. rewrite Hd. destruct (flagged_stale max_staleness age).
  - set (msg := cat _). assert (∃ t3, alerted alert msg t2 = (Ok (), t3) ∧ bt_cache t3 = d) as (t3 & E3 & H3).
    { unfold alerted. destruct alert as [f|] eqn:Ef; [|by exists t2]. destruct (Hal f Ef msg (bt_ext t2)) as (x' & Hx).
      unfold on_port, st_zoom. rewrite Hx. eexists. split; [reflexivity|exact Hd2]. }
    rewrite (st_bind_ok _ _ _ _ _ E3). eexists _, t3. split; [reflexivity|]. split; [done|by right].
  - eexists _, t2. split; [reflexivity|]. split; [done|by right].
Qed.
Lemma check_judged d symbol p (s : service) : answers_with d → alerts_pass → cached d (cs_truth s) →
  ∃ o s', check_position symbol p s = (Ok o, s') ∧ ci_type <$> o = judged d symbol p ∧ cached d (cs_truth s') ∧
    cs_positions s' = cs_positions s.
Proof.
  intros Ha Hal Hc. destruct (position_answer d symbol (cs_truth s) Ha Hal Hc) as (r & t' & E & Hb & Hc').
  unfold check_position, st_try. rewrite (st_bind_ok _ _ s r (put_truth t' s)) by (unfold with_truth, st_zoom; by rewrite E).
  rewrite Hb. unfold judged. destruct (filled_row (d !! symbol)) as [row|].
  - destruct (py_eq _ _); [by exists None, (put_truth t' s)|]. rewrite (st_bind_ok _ _ _ _ _ (now_ist_total (put_truth t' s))).
    eexists _, _. split; [reflexivity|]. by split_and!.
  - destruct (0 <? dlen p); [|by exists None, (put_truth t' s)]. rewrite (st_bind_ok _ _ _ _ _ (now_ist_total (put_truth t' s))).
    eexists _, _. split; [reflexivity|]. by split_and!.
Qed.
Lemma collect_judged d l : answers_with d → alerts_pass → ∀ s : service, cached d (cs_truth s) →
  ∃ is_ s', collect (λ p, check_position p.1 p.2) l s = (Ok is_, s') ∧ ci_type <$> is_ = omap (λ p, judged d p.1 p.2) l ∧ cached d (cs_truth s').
Proof.
  intros Ha Hal. induction l as [|[k p] l IH]; intros s Hc; [by exists [], s|]. cbn [collect fst snd].
  destruct (check_judged d k p s Ha Hal Hc) as (o & s1 & E1 & Ho & Hc1 & _). rewrite (st_bind_ok _ _ _ _ _ E1).
  destruct (IH s1 Hc1) as (rest & s2 & E2 & Hr & Hc2). rewrite (st_bind_ok _ _ _ _ _ E2).
  eexists _, s2. split; [reflexivity|]. split; [|done]. cbn. rewrite <- Ho, <- Hr. by destruct o.
Qed.

(** A round reports the positions that differ, and no order.  While the
    broker answers with the same rows throughout and its health check does
    not fail, a round looks at every local position and reports exactly those
    the broker does not have and those it has in another quantity, in the
    order of the positions; it looks at no order at all. *)
Theorem cycle_exact (d : pydict pyrec) (s : service) :
  answers_with d → alerts_pass → cached d (cs_truth s) → (∀ m, tp_healthy port = Some m → ∀ x, ∃ x', m x = (Ok (), x')) →
  ∃ r s', run_cycle s = (Ok r, s') ∧ cy_orders r = 0 ∧ cy_positions r = dlen (cs_positions s) ∧
    ci_type <$> cy_issues r = omap (λ p, judged d p.1 p.2) (items (cs_positions s)).
Proof.
  intros Ha Hal Hc Hh. unfold run_cycle. rewrite (st_bind_ok _ _ _ _ _ (now_ist_total s)).
  set (s0 := set_clock (clk_read (clock_of s)).2 s). unfold st_try.
  assert (∃ b s1, reachable s0 = (Ok b, s1) ∧ cached d (cs_truth s1) ∧ cs_positions s1 = cs_positions s) as (b & s1 & E1 & C1 & P1).
  { unfold reachable. destruct (tp_healthy port) as [m|] eqn:Em; [|by exists true, s0].
    destruct (Hh m eq_refl (bt_ext (cs_truth s0))) as (x' & Hx). set (t0 := cs_truth s0) in *.
    exists true, (put_truth (Truth (bt_clk t0) (bt_cache t0) (bt_time t0) x') s0). split; [|split; [exact Hc|done]].
    unfold st_try, mbind, st_bind, ask, with_truth, on_port, st_zoom. fold t0. by rewrite Hx. }
  rewrite (st_bind_ok _ _ _ _ _ E1), (st_bind_ok _ _ s1 [] s1) by done. rewrite (st_bind_ok st_get _ s1 s1 s1) by done.
  destruct (collect_judged d (items (cs_positions s1)) Ha Hal s1 C1) as (is_ & s2 & E2 & H2 & _).
  rewrite (st_bind_ok _ _ _ _ _ E2). eexists _, s2. split; [reflexivity|]. cbn. rewrite P1 in *. by split_and!.
Qed.

(** After [stop], a new [start] says that it runs, and its thread does
    nothing. *)
Lemma restart_does_nothing (s : service) (stops : list bool) : cg_enabled c = true →
  let s1 := (stop s).2 in
  start s1 = (Ok true, put_running true true s1) ∧
  ∃ r s2, run_loop stops (put_running true true s1) = (r, s2) ∧ r = Ok [] ∧ s2 = put_running true true s1.
Proof.
  intros Hc s1. split.
  - unfold start. rewrite (st_bind_ok st_get _ s1 s1 s1) by done. by rewrite Hc.
  - destruct stops; (eexists _, _; split; [reflexivity|done]).
Qed.
End continuous.
Arguments service X : clear implicits.

(** ** Concrete brokers *)

Definition row (q : Z) : pyrec := PyDict [("quantity", VInt q)].
Definition own (q : Z) : pyrec := PyDict [("qty", VInt q)].
(** A broker that fails as long as its state says so. *)
Definition demo_port (l : list (string * pyrec)) : truth_port nat := {|
  tp_positions n := match n with O => (Ok (Some (PyDict l)), O) | S n' => (Raise (PyExn ConnectionError "down"), n') end;
  tp_orders := mret None; tp_funds := mret ∅; tp_healthy := None |}.
Definition demo_truth (failures : nat) (steps : list Z) : truth nat := Truth (Clock 0 steps) ∅ None failures.
Definition demo_service (failures : nat) (positions : list (string * pyrec)) : service nat :=
  Service (demo_truth failures []) [] None true false None (PyDict positions).
Definition kinds (r : res cycle_report) : option (list string) := match r with Ok r => Some (ci_type <$> cy_issues r) | Raise _ => None end.
Definition demo_cycle (failures : nat) (l positions : list (string * pyrec)) : option (list string) :=
  kinds (run_cycle (demo_port l) 30 None (demo_service failures positions)).1.

Example cycle_kinds :
  demo_cycle 0 [("A", row 1); ("B", row 2)] [("A", own 1); ("B", own 1); ("C", own 1)] = Some ["position_mismatch"; "missing_position"]%string.
Proof. vm_compute. reflexivity. Qed.
(** One failed call, and for half a minute every position counts as missing
    at the broker. *)
Example outage_looks_empty : demo_cycle 1 [("A", row 1)] [("A", own 1)] = Some ["missing_position"%string].
Proof. vm_compute. reflexivity. Qed.
(** Positions only the broker has are not looked for. *)
Example broker_only_unseen : demo_cycle 0 [("A", row 1)] [] = Some [].
Proof. vm_compute. reflexivity. Qed.
(** The second answer, forty seconds later, is fetched anew and called stale. *)
Definition two_answers : option (ReconciliationStatus * ReconciliationStatus) :=
  let ask := get_authoritative_position (demo_port [("A"%string, row 1)]) 30 None "A" in
  match (r1 ← ask; r2 ← ask; mret (tr_status r1, tr_status r2)) (demo_truth 0 [20000000; 20000000]) with
  | (Ok r, _) => Some r
  | _ => None
  end.
Example second_is_stale : two_answers = Some (MATCH, STALE).
Proof. vm_compute. reflexivity. Qed.

Lemma stale_is_fresh_witness :
  ∃ r, (get_authoritative_position (demo_port [("A"%string, row 1)]) 30 None "A" (Truth (Clock 40000000 []) ∅ (Some 0) 0%nat)).1 = Ok r ∧
    tr_status r = STALE.
Proof.
  destruct (get_authoritative_position (demo_port [("A"%string, row 1)]) 30 None "A" (Truth (Clock 40000000 []) ∅ (Some 0) 0%nat)) as [[r|e] t'] eqn:E.
  2:{ vm_compute in E. discriminate E. }
  exists r. split; [reflexivity|].
  apply (proj1 (stale_is_fresh (demo_port [("A"%string, row 1)]) 30 None "A" _ t' r E)). vm_compute. reflexivity.
Defined.
(** A broker that always answers. *)
Definition steady : truth_port nat := {|
  tp_positions n := (Ok (Some (PyDict [("A"%string, row 1)])), n); tp_orders := mret None; tp_funds := mret ∅; tp_healthy := None |}.
Lemma cycle_exact_witness :
  ∃ r s', run_cycle steady 30 None (demo_service 0 [("B"%string, own 1)]) = (Ok r, s') ∧ cy_orders r = 0 ∧
    ci_type <$> cy_issues r = ["missing_position"%string].
Proof.
  destruct (cycle_exact steady 30 None (PyDict [("A"%string, row 1)]) (demo_service 0 [("B"%string, own 1)])) as (r & s' & E & H1 & _ & H2).
  - intros x. exists x. reflexivity.
  - discriminate.
  - left. reflexivity.
  - discriminate.
  - exists r, s'. split; [exact E|]. split; [exact H1|]. rewrite H2. vm_compute. reflexivity.
Defined.
