(* ===== verification/StartupReconcile.v ===== *)
(** * Reconciliation at startup

    [StartupReconciler] of [core/startup_reconciliation.py], over the durable
    store of [DurableStore] and the broker's port: is the broker reachable,
    is the token valid, and do orders and positions agree.  It hands the new
    state to the store as a text, where [update_state] asks for the value of
    a state: an [AttributeError], which only the reconciler catches. *)
From S2P Require Import Prelude PyStr Float64 PyDict PyVal DurableStore.

(** [ReconciliationResult] *)
Record startup_result := StartupResult {
  su_clean : bool; su_reachable : bool; su_auth : bool; su_orders : bool; su_positions : bool;
  su_errors : list string; su_warnings : list string }.
Definition nothing_yet : startup_result := StartupResult false false false false false [] [].

(** The broker's port: the methods it has.  A health that is no dictionary
    counts as healthy. *)
Record startup_port (X : Type) := StartupPort {
  sb_health : option (ST X (option pyrec));
  sb_token : option (ST X pyval);
  sb_status : option (string → ST X pyval);
  sb_positions : option (ST X Z) }.
Arguments sb_health {X}. Arguments sb_token {X}. Arguments sb_status {X}. Arguments sb_positions {X}.

Section startup.
Context {X : Type} (broker : option (startup_port X)) (has_store : bool).

Definition UM (A : Type) : Type := ST (estore * X) A.
Definition on_estore {A} (m : ST estore A) : UM A := st_zoom fst (λ s p, (s, p.2)) m.
Definition on_port {A} (m : ST X A) : UM A := st_zoom snd (λ x p, (p.1, x)) m.

(** [update_state(intent_id, "FILLED", filled_quantity=...)]: the connection
    is opened, then [state.value] fails. *)
Definition update_state_text (intent_id : string) : ST estore bool :=
  st_try
    (es_run (λ t, ((), t)) ;;
     st_raise (PyExn AttributeError "'str' object has no attribute 'value'"))
    (store_errors ++ [ValueError]) (λ _, mret false).

(** [_check_broker_reachable], [_check_auth_valid] *)
Definition check_reachable (p : startup_port X) : UM bool :=
  st_try
    (match sb_health p with
     | Some m => h ← on_port m; mret (match h with Some h => py_eq (rget "status" VNone h) (VStr "healthy") | None => true end)
     | None => mret true
     end)
    [AttributeError; TypeError; ValueError; OSError; ConnectionError] (λ _, mret false).
Definition check_auth (p : startup_port X) : UM bool :=
  st_try (match sb_token p with Some m => v ← on_port m; mret (truthy v) | None => mret true end)
    [AttributeError; TypeError; OSError] (λ _, mret false).

(** [_reconcile_orders] *)
Definition order_errors : list exn_class := [ValueError; TypeError; AttributeError; KeyError; OSError].
Definition is_filled (v : pyval) : bool := py_eq v (VStr "FILLED") || py_eq v (VStr "COMPLETE").
Definition reconcile_record (status : string → ST X pyval) (r : drecord) : UM unit :=
  match r_broker_order_id r with
  | Some id =>
      if truthy_str id then
        st_try
          (v ← on_port (status id);
           if is_filled v then on_estore (update_state_text (r_intent_id r)) ;; mret () else mret ())
          order_errors (λ _, mret ())
      else mret ()
  | None => mret ()
  end.
Definition reconcile_orders (p : startup_port X) : UM bool :=
  if negb has_store then mret true
  else
    st_try
      (pending ← on_estore get_non_terminal_executions;
       match pending, sb_status p with
       | [], _ | _, None => mret true
       | _, Some status => st_iter (reconcile_record status) pending ;; mret true
       end)
      order_errors (λ _, mret false).
(** [_reconcile_positions]: a failure is a success. *)
Definition reconcile_positions (p : startup_port X) : UM bool :=
  st_try (match sb_positions p with Some m => on_port m ;; mret true | None => mret true end)
    [AttributeError; TypeError; ValueError; OSError] (λ _, mret true).

(** [reconcile] *)
Definition reconcile : UM startup_result :=
  match broker with
  | None => mret (StartupResult false false false false false [] ["No broker port configured"%string])
  | Some p =>
      reachable ← check_reachable p;
      if negb reachable then mret (StartupResult false false false false false ["Broker not reachable"%string] [])
      else
        auth ← check_auth p;
        if negb auth then mret (StartupResult false true false false false ["Auth token invalid"%string] [])
        else
          orders ← reconcile_orders p;
          positions ← reconcile_positions p;
          mret (StartupResult (orders && positions) true true orders positions [] [])
  end.

(** ** What it does *)

(** The rows of the store stay. *)
Definition same_rows (w w' : estore * X) : Prop := rows w'.1 = rows w.1.
#[local] Instance same_rows_preorder : PreOrder same_rows.
Proof. split; [done|]. intros w1 w2 w3 H1 H2. unfold same_rows in *. congruence. Qed.
Lemma port_same {A} (m : ST X A) : st_rel same_rows (on_port m).
Proof. intros w. unfold on_port, st_zoom. by destruct (m w.2). Qed.
Lemma text_same k : st_rel same_rows (on_estore (update_state_text k)).
Proof.
  intros w. unfold on_estore, st_zoom, same_rows, update_state_text, st_try, mbind, st_bind.
  set (f := λ t : pydict drow, _). pose proof (es_run_inv f w.1) as [_ H].
  destruct (es_run f w.1) as [r w']. cbn [fst snd] in H. destruct H as [(e & -> & Hr)|[-> Hr]]; cbn.
  - by destruct (catches _ e).
  - done.
Qed.
Lemma pending_same : st_rel same_rows (on_estore get_non_terminal_executions).
Proof.
  intros w. unfold on_estore, st_zoom, same_rows. pose proof (get_non_terminal_rows w.1) as H.
  by destruct (get_non_terminal_executions w.1).
Qed.
Lemma record_same status r : st_rel same_rows (reconcile_record status r).
Proof. unfold reconcile_record. rel_auto ltac:(first [apply port_same|apply text_same]). Qed.
Lemma orders_same p : st_rel same_rows (reconcile_orders p).
Proof.
  unfold reconcile_orders. rel_auto ltac:(first [apply pending_same|apply record_same|apply st_rel_iter; [typeclasses eauto|intros; apply record_same]]).
Qed.

(** Nothing is repaired.  Whatever the broker answers, and whatever fails
    on the way, the reconciliation at startup changes no row of the durable
    store: an execution the broker reports as filled stays open, and the
    answer can still be that all is clean. *)
Theorem startup_repairs_nothing (w : estore * X) :
  let '(r, w') := reconcile w in
  rows w'.1 = rows w.1 ∧ (∀ s, r = Ok s → su_clean s = true → su_reachable s = true ∧ su_auth s = true ∧ su_orders s = true).
Proof.
  assert (st_rel same_rows reconcile) as H.
  { unfold reconcile, check_reachable, check_auth, reconcile_positions. rel_auto ltac:(first [apply port_same|apply orders_same]). }
  specialize (H w). destruct (reconcile w) as [r w'] eqn:E. split; [exact H|]. intros s -> Hs. clear H.
  unfold reconcile in E. destruct broker as [p|]; [|by injection E as <- _].
  inv_bind E b1 w1 E1. destruct b1; [|by injection E as <- _]. inv_bind E b2 w2 E2. destruct b2; [|by injection E as <- _].
  inv_bind E b3 w3 E3. inv_bind E b4 w4 E4. injection E as <- _. cbn in *. by apply andb_true_iff in Hs as [-> _].
Qed.

(** Every pending execution is asked for, and none of them gets through. *)
Lemma filled_is_error (k : string) (s : estore) : quiet s → (update_state_text k s).1 = Raise (PyExn AttributeError "'str' object has no attribute 'value'").
Proof.
  intros Hq. unfold update_state_text, st_try, mbind, st_bind. rewrite es_run_quiet by done. reflexivity.
Qed.
End startup.

(** ** A concrete start *)

Definition says (status : string) : startup_port unit := {|
  sb_health := None; sb_token := None; sb_status := Some (λ _, mret (VStr status));
  sb_positions := Some (st_raise (PyExn OSError "no route")) |}.
(** The broker reports the order as filled, the positions cannot be read:
    clean, and the order is still open. *)
Example filled_order_stays_open :
  let '(r, w) := reconcile (Some (says "FILLED")) true (demo_store, ()) in
  match r with
  | Ok s => su_clean s = true ∧ c_state <$> rows w.1 !! "a"%string = Some "SUBMITTED"%string
  | Raise _ => False
  end.
Proof. vm_compute. done. Qed.

Lemma startup_repairs_nothing_witness :
  rows (reconcile (Some (says "FILLED")) true (demo_store, ())).2.1 = rows demo_store.
Proof.
  pose proof (startup_repairs_nothing (Some (says "FILLED")) true (demo_store, ())) as H.
  destruct (reconcile (Some (says "FILLED")) true (demo_store, ())) as [r w']. exact (proj1 H).
Defined.
