(* ===== verification/PaperTrader.v ===== *)
(** * The paper trader

    [PaperTrader] of [core/services/paper_trader.py] with
    [predict_slippage] of [core/slippage_model.py]: orders are filled against
    prices that walk at random.  The random numbers, the wait that a shutdown
    interrupts and the hash of a symbol come from [PaperEnv]; [math.sqrt] is
    the correctly rounded square root. *)
From S2P Require Import Prelude PyStr Float64 PyDict PyVal FloatBounds CapitalManager OrderTypes.

Class PaperEnv (X : Type) := {
  pe_uniform : float64 → float64 → ST X float64;
  pe_gauss : float64 → float64 → ST X float64;
  (** whether the shutdown came during a wait of so many seconds *)
  pe_wait : float64 → ST X bool;
  pe_hash : string → Z
}.

(** ** Data *)

Record symbol_meta := SymbolMeta { sm_price : float64; sm_volatility : float64; sm_spread : float64; sm_lot : Z; sm_oi : Z }.
Definition meta_of (price vol spread lot oi : Z) : symbol_meta := SymbolMeta (f_of_Z price) (lit vol 3) (lit spread 3) lot oi.
Definition SYMBOL_META : pydict symbol_meta := PyDict
  [("NIFTY", meta_of 23500 8 5 50 150); ("BANKNIFTY", meta_of 50500 10 8 25 80); ("FINNIFTY", meta_of 22000 7 4 40 60);
   ("NIFTYIT", meta_of 35000 12 10 25 20); ("RELIANCE", meta_of 3000 15 10 250 200); ("TCS", meta_of 3900 12 8 150 100);
   ("HDFCBANK", meta_of 1650 14 10 200 180); ("INFY", meta_of 1600 16 12 300 120); ("ICICIBANK", meta_of 1150 15 12 300 160);
   ("KOTAKBANK", meta_of 1750 13 10 150 80); ("SBIN", meta_of 800 18 15 350 200); ("LT", meta_of 3600 14 10 150 90);
   ("BHARTIARTL", meta_of 1300 14 12 300 100); ("ASIANPAINT", meta_of 2700 12 10 200 50); ("MARUTI", meta_of 11500 11 8 50 30);
   ("HINDUNILVR", meta_of 2500 10 8 200 70); ("AXISBANK", meta_of 1100 16 13 300 130)].
Definition DEFAULT_META : symbol_meta := meta_of 1000 15 10 100 50.
Definition get_meta (symbol : string) : symbol_meta := default DEFAULT_META (SYMBOL_META !! symbol).

Inductive paper_type := MARKET | LIMIT | STOP_LOSS | STOP_LOSS_MARKET.
(** The fields of an [OrderRequest] the paper trader reads. *)
Record paper_order := PaperOrder { po_symbol : string; po_direction : string; po_type : paper_type; po_lot : Z; po_price : option float64 }.

(** [_compute_indian_commission] *)
Record charges := Charges {
  ch_brokerage : float64; ch_stt : float64; ch_exchange : float64; ch_gst : float64; ch_sebi : float64; ch_stamp : float64; ch_total : float64 }.
Definition round2 (x : float64) : float64 := py_round x 2.
Definition indian_commission (value : float64) (is_options is_intraday : bool) : charges :=
  let brokerage := round2 (py_min (value * lit 3 4)%f64 (f_of_Z 20)) in
  let stt := round2 (value * (if is_options then lit 5 4 else if is_intraday then lit 25 5 else lit 1 3))%f64 in
  let exchange := round2 (value * lit 2 5)%f64 in
  let gst := round2 ((brokerage + exchange) * lit 18 2)%f64 in
  let sebi := round2 (value * lit 1 6)%f64 in
  let stamp := round2 (value * lit 2 5)%f64 in
  Charges brokerage stt exchange gst sebi stamp (round2 (f_zero + brokerage + stt + exchange + gst + sebi + stamp)%f64).
Definition is_option_symbol (symbol : string) : bool := str_contains "NIFTY" symbol.

(** [SlippageModel], [predict_slippage] *)
Record slippage_model := SlippageModel { sl_intercept : float64; sl_lot : float64; sl_spread : float64 }.
Definition predict_slippage (lot spread : float64) (m : option slippage_model) : float64 :=
  match m with
  | None => f_zero
  | Some m => py_round (py_max f_zero (sl_intercept m + sl_lot m * lot + sl_spread m * spread)%f64) 4
  end.

Record paper_config := PaperConfig {
  pc_delay_ms : Z; pc_slippage : float64; pc_cache_max : Z; pc_walk : bool; pc_partial : bool; pc_impact : bool;
  pc_spread : bool; pc_model : option slippage_model }.
Definition default_paper : paper_config := PaperConfig 50 (lit 5 2) 50 true true true true None.

Section trader.
Context {X : Type} `{!PaperEnv X} (c : paper_config).

Record paper := Paper {
  pt_clk : clock; pt_prices : pydict float64; pt_times : pydict Z; pt_drift : pydict float64; pt_impact : pydict float64;
  pt_fills : pydict (list float64); pt_shutdown : bool; pt_ext : X }.
#[global] Instance paper_clock : HasClock paper :=
  {| clock_of := pt_clk;
     set_clock := λ k p, Paper k (pt_prices p) (pt_times p) (pt_drift p) (pt_impact p) (pt_fills p) (pt_shutdown p) (pt_ext p) |}.
Definition set_market (prices : pydict float64) (times : pydict Z) (drift impact : pydict float64) (p : paper) : paper :=
  Paper (pt_clk p) prices times drift impact (pt_fills p) (pt_shutdown p) (pt_ext p).
Definition set_fills (f : pydict (list float64)) (p : paper) : paper :=
  Paper (pt_clk p) (pt_prices p) (pt_times p) (pt_drift p) (pt_impact p) f (pt_shutdown p) (pt_ext p).
Definition set_shutdown (b : bool) (p : paper) : paper :=
  Paper (pt_clk p) (pt_prices p) (pt_times p) (pt_drift p) (pt_impact p) (pt_fills p) b (pt_ext p).
Definition set_paper_ext (x : X) (p : paper) : paper :=
  Paper (pt_clk p) (pt_prices p) (pt_times p) (pt_drift p) (pt_impact p) (pt_fills p) (pt_shutdown p) x.
Definition PT (A : Type) : Type := ST paper A.
Definition on_random {A} (m : ST X A) : PT A := st_zoom pt_ext set_paper_ext m.

(** ** Prices *)

(** [_evict_oldest_if_needed] *)
Fixpoint evict (n : nat) (p : paper) : paper :=
  match n, items (pt_prices p) with
  | S n', (k, _) :: _ =>
      evict n' (set_market (delete k (pt_prices p)) (delete k (pt_times p)) (delete k (pt_drift p)) (delete k (pt_impact p)) p)
  | _, _ => p
  end.
Definition evict_oldest (p : paper) : paper := evict (Z.to_nat (dlen (pt_prices p) - pc_cache_max c)) p.

(** A tick may move the price by at most a twentieth. *)
Definition bounded_tick (current moved : float64) : float64 :=
  py_min (py_max moved (current * lit 95 2)%f64) (current * lit 105 2)%f64.
(** A step of the random walk. *)
Definition walk_price (symbol : string) (m : symbol_meta) (current : float64) (now : Z) : PT unit :=
  p ← st_get;
  let last := default now (pt_times p !! symbol) in
  let elapsed := py_max (lit 1 1) (total_seconds (now - last)) in
  let step := (sm_volatility m * SFsqrt prec64 emax64 (elapsed / f_of_Z 60))%f64 in
  noise ← on_random (pe_gauss f_zero step);
  pull ← on_random (pe_gauss f_zero (step * lit 3 1)%f64);
  let drift := (default f_zero (pt_drift p !! symbol) * lit 95 2 + pull)%f64 in
  let impact := default f_zero (pt_impact p !! symbol) in
  st_modify (λ p, set_market (<[symbol := round2 (bounded_tick current (current + noise + drift + impact)%f64)]> (pt_prices p))
    (<[symbol := now]> (pt_times p)) (<[symbol := drift]> (pt_drift p)) (<[symbol := (impact * lit 9 1)%f64]> (pt_impact p)) p).
(** [get_current_price] *)
Definition get_current_price (symbol : string) : PT float64 :=
  now ← now_ist;
  let m := get_meta symbol in
  p ← st_get;
  match pt_prices p !! symbol with
  | None =>
      st_modify (λ p, set_market (<[symbol := sm_price m]> (pt_prices p)) (<[symbol := now]> (pt_times p)) (pt_drift p) (pt_impact p) p) ;;
      d ← on_random (pe_gauss f_zero (sm_volatility m));
      st_modify (λ p, set_market (pt_prices p) (pt_times p) (<[symbol := d]> (pt_drift p)) (pt_impact p) p) ;;
      st_modify evict_oldest ;;
      mret (sm_price m)
  | Some current =>
      (if pc_walk c then walk_price symbol m current now else mret ()) ;;
      st_modify evict_oldest ;;
      p ← st_get;
      match pt_prices p !! symbol with
      | Some v => mret v
      | None => st_raise (PyExn KeyError symbol)
      end
  end.
(** [_evolve_price] *)
Definition evolve_price (symbol : string) (base : float64) : PT float64 :=
  if pc_walk c then get_current_price symbol else mret base.

(** [shutdown], [reset] *)
Definition shutdown : PT unit := st_modify (set_shutdown true).
Definition reset : PT unit := st_modify (λ p, set_fills ∅ (set_market ∅ ∅ ∅ ∅ p)).

(** ** Fills *)

Definition oi_value (m : symbol_meta) : float64 := (f_of_Z (sm_oi m * 100000) * sm_price m)%f64.
Definition FILL_WINDOW : Z := 5.
(** The share of an order that is filled, before the random part. *)
Definition base_fill (recent : Z) (ratio : float64) : float64 :=
  let by_rate := if 20 <? recent then f_of_Z (Z.max 20 (100 - recent * 2)) else f_of_Z 100 in
  if fgt ratio (lit 1 2)
  then py_min by_rate (py_max (f_of_Z 10) (f_of_Z 100 * (lit 1 2 / py_max ratio (lit 1 4)))%f64) else by_rate.
(** [_compute_fill_pct] *)
Definition compute_fill_pct (symbol : string) (value : float64) : PT float64 :=
  if negb (pc_partial c) then mret (f_of_Z 100)
  else if fle value f_zero then mret (f_of_Z 100)
  else
    let ratio := (value / py_max (oi_value (get_meta symbol)) f_one)%f64 in
    p ← st_get;
    t ← time_time;
    let cutoff := (t - f_of_Z (FILL_WINDOW * 60))%f64 in
    let fresh := filter (λ v, fgt v cutoff = true) (default [] (pt_fills p !! symbol)) in
    let base := base_fill (Z.of_nat (length fresh)) ratio in
    t ← time_time;
    let stored := fresh ++ [t] in
    st_modify (λ p, set_fills (<[symbol := drop (length stored - 100) stored]> (pt_fills p)) p) ;;
    pct ← (if fge base (f_of_Z 100) then mret (f_of_Z 100) else u ← on_random (pe_uniform (lit 9 1) f_one); mret (base * u)%f64);
    mret (py_max (f_of_Z 5) (py_min (f_of_Z 100) pct)).

(** The truthy price of an order. *)
Definition given_price (o : paper_order) : option float64 :=
  match po_price o with Some x => if is_zero x then None else Some x | None => None end.
Definition is_buy (o : paper_order) : bool := String.eqb (str_upper (po_direction o)) "BUY".
Definition half_spread (o : paper_order) (base : float64) : float64 :=
  (base * (if pc_spread c then sm_spread (get_meta (po_symbol o)) / f_of_Z 100 else f_zero) / f_of_Z 2)%f64.
Definition bid_of (o : paper_order) (base : float64) : float64 := (base - half_spread o base)%f64.
Definition ask_of (o : paper_order) (base : float64) : float64 := (base + half_spread o base)%f64.

(** The price of a market order: the far side of the spread and slippage. *)
Definition market_price (o : paper_order) (base : float64) : res float64 :=
  rbind (match pc_model c with
         | None => Ok (pc_slippage c)
         | Some m => rbind (float_of_Z (po_lot o)) (λ lot, Ok (predict_slippage lot (sm_spread (get_meta (po_symbol o))) (Some m)))
         end) (λ pct,
  let slip := (base * (pct / f_of_Z 100))%f64 in
  Ok (py_max (lit 1 2) (if is_buy o then ask_of o base + slip else bid_of o base - slip)%f64)).
(** A limit order, filled at once or not at all. *)
Definition limit_fill (o : paper_order) (base limit : float64) : option float64 :=
  if is_buy o then (if fge limit (ask_of o base) then Some (py_min limit (ask_of o base)) else None)
  else (if fle limit (bid_of o base) then Some (py_max limit (bid_of o base)) else None).
Definition stop_fill (o : paper_order) (base : float64) : option float64 :=
  let trigger := default base (given_price o) in
  if is_buy o then (if fge base trigger then Some (ask_of o base) else None)
  else (if fle base trigger then Some (bid_of o base) else None).
(** [_compute_fill_price_with_spread]: the price and the share filled. *)
Definition whole (o : option float64) : option (float64 * float64) := (λ p, (p, f_of_Z 100)) <$> o.
Definition compute_fill (o : paper_order) (base : float64) : PT (option (float64 * float64)) :=
  match po_type o with
  | MARKET =>
      price ← st_lift (market_price o base);
      lot ← st_lift (float_of_Z (po_lot o));
      pct ← compute_fill_pct (po_symbol o) (price * lot)%f64;
      mret (Some (price, pct))
  | LIMIT => mret (match given_price o with None => Some (base, f_of_Z 100) | Some l => whole (limit_fill o base l) end)
  | STOP_LOSS | STOP_LOSS_MARKET => mret (whole (stop_fill o base))
  end.
(** [_apply_market_impact] *)
Definition apply_impact (symbol direction : string) (notional base : float64) : PT unit :=
  let points := (base * (notional / py_max (oi_value (get_meta symbol)) f_one * lit 1 1))%f64 in
  st_modify (λ p,
    let old := default f_zero (pt_impact p !! symbol) in
    let moved := if String.eqb direction "BUY" then (old + points)%f64 else (old - points)%f64 in
    let most := (base * lit 2 3)%f64 in
    set_market (pt_prices p) (pt_times p) (pt_drift p) (<[symbol := py_max (fopp most) (py_min most moved)]> (pt_impact p)) p).

(** ** An order *)

(** [self._shutdown_event.wait(seconds)] *)
Definition wait_for (seconds : float64) : PT bool :=
  p ← st_get;
  if pt_shutdown p then mret true
  else b ← on_random (pe_wait seconds); (if b : bool then st_modify (set_shutdown true) else mret ()) ;; mret b.
Definition refuse (id reason : string) : PT order_result := now ← now_ist; mret (rejected id (Some reason) now).
Definition circuit_limit (o : paper_order) (base : float64) : option string :=
  match given_price o with
  | Some x =>
      if fgt (fabs (x - base) / base)%f64 (lit 20 2)
      then Some (cat ["Order price "; repr_float x; " exceeds ±20% circuit limit from "; repr_float base]) else None
  | None => None
  end.
(** The result of a fill of [pct] percent. *)
Definition filled_result (id : string) (lot : Z) (price pct total : float64) : PT order_result :=
  if flt pct (f_of_Z 100) then
    l ← st_lift (float_of_Z lot);
    n ← st_lift (int_of_float (l * pct / f_of_Z 100)%f64);
    let q := Z.max 1 n in
    qf ← st_lift (float_of_Z q);
    lf ← st_lift (float_of_Z (Z.max lot 1));
    now ← now_ist;
    mret (OrderResult id OrderStatus.PARTIALLY_FILLED q (round2 price) (round2 (total * qf / lf)%f64) now None None None)
  else
    now ← now_ist;
    mret (OrderResult id OrderStatus.FILLED lot (round2 price) (round2 total) now None None None).
Definition fill_order (o : paper_order) (base price pct : float64) (id : string) : PT order_result :=
  lot ← st_lift (float_of_Z (po_lot o));
  let notional := (price * lot)%f64 in
  (if pc_impact c && fgt notional (f_of_Z 500000) then apply_impact (po_symbol o) (str_upper (po_direction o)) notional base else mret ()) ;;
  filled_result id (po_lot o) price pct (ch_total (indian_commission notional (is_option_symbol (po_symbol o)) true)).
Definition order_number (symbol : string) : PT string :=
  t ← time_time;
  n ← st_lift (int_of_float (t * f_of_Z 1000)%f64);
  mret (cat ["paper_"; str_of_Z n; "_"; pad_left 4 (str_of_Z (pe_hash symbol `mod` 10000))]).
Definition execute_body (o : paper_order) : PT order_result :=
  base ← get_current_price (po_symbol o);
  if fle base f_zero then refuse "price_error" (cat ["Invalid base price "; repr_float base; " for "; po_symbol o])
  else
    match circuit_limit o base with
    | Some why => refuse "circuit_block" why
    | None =>
        u ← on_random (pe_uniform (lit 5 1) (f_of_Z 2));
        ms ← st_lift (float_of_Z (pc_delay_ms c));
        let delay := py_max (f_of_Z 5) (py_min (ms * u)%f64 (f_of_Z 5000)) in
        stopped ← wait_for (delay / f_of_Z 1000)%f64;
        if stopped : bool then refuse "shutdown" "Shutdown requested during paper fill delay"
        else
          current ← evolve_price (po_symbol o) base;
          id ← order_number (po_symbol o);
          f ← compute_fill o current;
          match f with
          | None =>
              now ← now_ist;
              mret (OrderResult id OrderStatus.PENDING 0 f_zero f_zero now (Some "Limit order not executed — price not reached"%string) None None)
          | Some (price, pct) => fill_order o base price pct id
          end
    end.
(** [execute] *)
Definition execute (o : paper_order) : PT order_result :=
  st_try (execute_body o) [ValueError; OSError; AttributeError; ConnectionError] (λ e, refuse "paper_error" (exn_msg e)).

(** [get_commission_breakdown], [get_market_snapshot] *)
Definition get_commission_breakdown (symbol : string) (price : float64) (qty : Z) : res charges :=
  rbind (float_of_Z qty) (λ q, Ok (indian_commission (price * q)%f64 (is_option_symbol symbol) true)).
Record market_snapshot := MarketSnapshot {
  sn_last : float64; sn_bid : float64; sn_ask : float64; sn_spread : float64; sn_spread_pct : float64; sn_volatility : float64; sn_lot : Z; sn_at : Z }.
Definition get_market_snapshot (symbol : string) : PT market_snapshot :=
  let m := get_meta symbol in
  price ← get_current_price symbol;
  let spread := (price * sm_spread m / f_of_Z 100)%f64 in
  now ← now_ist;
  mret (MarketSnapshot (round2 price) (round2 (price - spread / f_of_Z 2)%f64) (round2 (price + spread / f_of_Z 2)%f64) (round2 spread)
          (py_round (sm_spread m) 4) (py_round (sm_volatility m) 4) (sm_lot m) now).
(** [_compute_fill_price] *)
Definition compute_fill_price (o : paper_order) : PT (option float64) :=
  price ← get_current_price (po_symbol o);
  f ← compute_fill o price;
  mret (fst <$> f).

(** ** The price cache *)

Definition gauss_total : Prop := ∀ a b x, ∃ v x', pe_gauss a b x = (Ok v, x').
(** At most so many prices are kept. *)
Definition cache_ok (p : paper) : Prop := dlen (pt_prices p) ≤ pc_cache_max c.

Lemma evict_len n : ∀ p, dlen (pt_prices (evict n p)) ≤ Z.max 0 (dlen (pt_prices p) - Z.of_nat n).
Proof.
  induction n as [|n IH]; intros p; [cbn; lia|]. cbn [evict]. destruct (items (pt_prices p)) as [|[k v] l] eqn:El.
  { unfold dlen. rewrite El. cbn. lia. }
  etransitivity; [apply IH|]. cbn [pt_prices set_market]. unfold dlen. rewrite El.
  unfold delete, pydict_delete, assoc_del. rewrite El. cbn [items]. rewrite filter_cons, decide_False by (cbn; tauto).
  pose proof (length_filter (λ p : string * float64, p.1 ≠ k) l). cbn [length]. lia.
Qed.
Lemma evict_oldest_ok p : 0 ≤ pc_cache_max c → cache_ok (evict_oldest p).
Proof. intros H. unfold cache_ok, evict_oldest. pose proof (evict_len (Z.to_nat (dlen (pt_prices p) - pc_cache_max c)) p). lia. Qed.
Lemma evict_nothing p : cache_ok p → evict_oldest p = p.
Proof. unfold cache_ok, evict_oldest. intros H. replace (Z.to_nat _) with 0%nat by lia. done. Qed.

Lemma walk_eq symbol m current now p : gauss_total → ∃ p', walk_price symbol m current now p = (Ok (), p') ∧
  ∃ x, pt_prices p' = <[symbol := round2 (bounded_tick current x)]> (pt_prices p).
Proof.
  intros Hg. unfold walk_price. rewrite (st_bind_ok st_get _ p p p) by done. cbv zeta.
  set (step := (_ * SFsqrt _ _ _)%f64). destruct (Hg f_zero step (pt_ext p)) as (v1 & x1 & E1).
  rewrite (st_bind_ok _ _ p v1 (set_paper_ext x1 p)) by (unfold on_random, st_zoom; by rewrite E1).
  destruct (Hg f_zero (step * lit 3 1)%f64 x1) as (v2 & x2 & E2).
  rewrite (st_bind_ok _ _ _ v2 (set_paper_ext x2 (set_paper_ext x1 p))) by (unfold on_random, st_zoom; cbn [pt_ext set_paper_ext]; by rewrite E2).
  eexists. split; [reflexivity|]. eexists. reflexivity.
Qed.

(** A price is always there.  While the cache holds no more prices than
    it may, asking for a price never fails and leaves it so.  The first price
    of a symbol is the listed one; a later one is what the cache had, moved
    within the bounds of a tick when prices walk. *)
Theorem price_available (symbol : string) (p : paper) :
  gauss_total → 0 ≤ pc_cache_max c → cache_ok p →
  ∃ v p', get_current_price symbol p = (Ok v, p') ∧ cache_ok p' ∧
    match pt_prices p !! symbol with
    | None => v = sm_price (get_meta symbol)
    | Some current => if pc_walk c then ∃ x, v = round2 (bounded_tick current x) else v = current
    end.
Proof.
  intros Hg Hmax Hok. unfold get_current_price. rewrite (st_bind_ok _ _ _ _ _ (now_ist_total p)).
  set (p0 := set_clock _ p). rewrite (st_bind_ok st_get _ p0 p0 p0) by done. change (pt_prices p0) with (pt_prices p).
  destruct (pt_prices p !! symbol) as [current|] eqn:E.
  - assert (∃ p1 v, (if pc_walk c then walk_price symbol (get_meta symbol) current (clk_read (clock_of p)).1 else mret ()) p0 = (Ok (), p1) ∧
      cache_ok p1 ∧ pt_prices p1 !! symbol = Some v ∧ if pc_walk c then ∃ x, v = round2 (bounded_tick current x) else v = current) as (p1 & v & E1 & Hok1 & Hv & Hw).
    { destruct (pc_walk c).
      - destruct (walk_eq symbol (get_meta symbol) current (clk_read (clock_of p)).1 p0 Hg) as (p1 & E1 & x & Hx).
        exists p1, (round2 (bounded_tick current x)). split_and!; [done| | |by exists x].
        + unfold cache_ok. rewrite Hx. rewrite dlen_insert_old by (change (pt_prices p0) with (pt_prices p); by rewrite E). exact Hok.
        + rewrite Hx. apply dict_lookup_insert_eq.
      - exists p0, current. by split_and!. }
    rewrite (st_bind_ok _ _ _ _ _ E1), (st_bind_ok _ _ p1 () p1) by (unfold st_modify; by rewrite evict_nothing).
    rewrite (st_bind_ok st_get _ p1 p1 p1), Hv by done. by exists v, p1.
  - set (p1 := set_market (<[symbol := sm_price (get_meta symbol)]> (pt_prices p0)) (<[symbol := (clk_read (clock_of p)).1]> (pt_times p0)) (pt_drift p0) (pt_impact p0) p0).
    rewrite (st_bind_ok _ _ p0 () p1) by done.
    destruct (Hg f_zero (sm_volatility (get_meta symbol)) (pt_ext p1)) as (d & x' & Ed).
    rewrite (st_bind_ok _ _ p1 d (set_paper_ext x' p1)) by (unfold on_random, st_zoom; by rewrite Ed).
    eexists _, _. split; [reflexivity|]. split; [by apply evict_oldest_ok|done].
Qed.

(** *** Runs of operations *)

Inductive paper_op := AskPrice (symbol : string) | Order (o : paper_order) | Snapshot (symbol : string) | Stop | Reset.
Definition run_paper_op (o : paper_op) : PT unit :=
  match o with
  | AskPrice s => get_current_price s ;; mret ()
  | Order o => execute o ;; mret ()
  | Snapshot s => get_market_snapshot s ;; mret ()
  | Stop => shutdown
  | Reset => reset
  end.
Definition run_paper (os : list paper_op) (p : paper) : paper := foldl (λ p o, (run_paper_op o p).2) p os.

Definition keeps_cache (p p' : paper) : Prop := cache_ok p → cache_ok p'.
#[local] Instance keeps_cache_preorder : PreOrder keeps_cache.
Proof. split; [by intros p|]. intros p1 p2 p3 H1 H2 H. auto. Qed.
Lemma same_prices_cache {A} (m : PT A) : (∀ p, pt_prices (m p).2 = pt_prices p) → st_rel keeps_cache m.
Proof. intros H p Hp. unfold cache_ok. by rewrite H. Qed.
Lemma random_cache {A} (m : ST X A) : st_rel keeps_cache (on_random m).
Proof. apply same_prices_cache. intros p. unfold on_random, st_zoom. by destruct (m _). Qed.
Lemma clock_cache : st_rel keeps_cache now_ist.
Proof. apply same_prices_cache. intros p. by rewrite now_ist_total. Qed.
Lemma time_cache : st_rel keeps_cache time_time.
Proof. apply same_prices_cache. intros p. by rewrite time_time_total. Qed.
Lemma price_cache symbol : gauss_total → 0 ≤ pc_cache_max c → st_rel keeps_cache (get_current_price symbol).
Proof. intros Hg Hm p Hp. by destruct (price_available symbol p Hg Hm Hp) as (v & p' & -> & H & _). Qed.
Ltac cached := rel_auto ltac:(idtac; match goal with
  | |- st_rel keeps_cache (on_random _) => apply random_cache
  | |- st_rel keeps_cache now_ist => apply clock_cache
  | |- st_rel keeps_cache time_time => apply time_cache
  | |- st_rel keeps_cache (st_lift _) => apply st_lift_rel; typeclasses eauto
  | |- st_rel keeps_cache (st_modify _) => apply st_rel_modify; intros ? ?; assumption
  | H : st_rel keeps_cache ?m |- st_rel keeps_cache ?m => exact H
  | |- st_rel keeps_cache (match ?x with _ => _ end) => destruct x
  end).
Lemma fill_cache o base : st_rel keeps_cache (compute_fill o base).
Proof. unfold compute_fill, compute_fill_pct. cached. Qed.
Lemma order_cache o base price pct id : st_rel keeps_cache (fill_order o base price pct id).
Proof. unfold fill_order, apply_impact, filled_result. cached. Qed.
Lemma refuse_cache id why : st_rel keeps_cache (refuse id why).
Proof. unfold refuse. cached. Qed.
Lemma number_cache symbol : st_rel keeps_cache (order_number symbol).
Proof. unfold order_number. cached. Qed.
Lemma wait_cache s : st_rel keeps_cache (wait_for s).
Proof. unfold wait_for. cached. Qed.
Lemma execute_cache o : gauss_total → 0 ≤ pc_cache_max c → st_rel keeps_cache (execute o).
Proof.
  intros Hg Hm. pose proof (price_cache (po_symbol o) Hg Hm) as Hp. pose proof fill_cache. pose proof order_cache.
  pose proof refuse_cache. pose proof number_cache. pose proof wait_cache.
  unfold execute. apply st_rel_try; [typeclasses eauto| |intros e; auto]. unfold execute_body, evolve_price. cached; auto.
Qed.
Lemma paper_cache_bounded (os : list paper_op) (p : paper) :
  gauss_total → 0 ≤ pc_cache_max c → cache_ok p → cache_ok (run_paper os p).
Proof.
  intros Hg Hm Hp. unfold run_paper. apply foldl_inv; [done|]. intros p1 o _. destruct o; cbn [run_paper_op].
  - pose proof (price_cache symbol Hg Hm). assert (st_rel keeps_cache (get_current_price symbol ;; mret ())) as H1 by cached. apply H1.
  - pose proof (execute_cache o Hg Hm). assert (st_rel keeps_cache (execute o ;; mret ())) as H1 by cached. apply H1.
  - pose proof (price_cache symbol Hg Hm).
    assert (st_rel keeps_cache (get_market_snapshot symbol ;; mret ())) as H1 by (unfold get_market_snapshot; cached). apply H1.
  - by intros H.
  - intros _. exact Hm.
Qed.

(** ** What an order comes to *)

(** A limit order fills at its limit or better. *)
Lemma limit_keeps_limit o base limit price : is_nan limit = false →
  limit_fill o base limit = Some price → if is_buy o then fle price limit = true else fge price limit = true.
Proof.
  unfold limit_fill. intros Hn. destruct (is_buy o).
  - destruct (fge limit (ask_of o base)); [|done]. intros [= <-]. by apply py_min_le_l.
  - destruct (fle limit (bid_of o base)); [|done]. intros [= <-]. unfold py_max.
    destruct (fgt (bid_of o base) limit) eqn:E; [exact (flt_fle _ _ E)|exact (fle_refl _ Hn)].
Qed.

Definition partly_filled (pct : float64) : bool := flt pct (f_of_Z 100).
(** Only a market order is filled in part, and it is never left open. *)
Definition fill_fits (o : paper_order) (f : option (float64 * float64)) : Prop :=
  match f with
  | Some (_, pct) => partly_filled pct = true → po_type o = MARKET ∧ pc_partial c = true
  | None => po_type o ≠ MARKET
  end.
Lemma whole_fits o f : po_type o ≠ MARKET → fill_fits o (whole f).
Proof. by destruct f. Qed.
Lemma pct_post symbol value : st_post (λ pct, partly_filled pct = true → pc_partial c = true) (compute_fill_pct symbol value).
Proof.
  intros p pct p'. unfold compute_fill_pct. destruct (pc_partial c); [done|]. cbn. by intros [= <- _].
Qed.
Lemma fill_post o base : st_post (fill_fits o) (compute_fill o base).
Proof.
  unfold compute_fill. destruct (po_type o) eqn:Et.
  - do 2 (apply st_post_bind; intros ?). eapply st_post_seq; [apply pct_post|]. intros pct H. apply st_post_ret. cbn. auto.
  - apply st_post_ret. destruct (given_price o); [apply whole_fits|]; by rewrite ?Et.
  - apply st_post_ret, whole_fits. by rewrite Et.
  - apply st_post_ret, whole_fits. by rewrite Et.
Qed.

(** The result of an order and the order agree. *)
Definition result_fits (o : paper_order) (r : order_result) : Prop :=
  match or_status r with
  | OrderStatus.FILLED => or_filled_quantity r = po_lot o
  | OrderStatus.PARTIALLY_FILLED => 1 ≤ or_filled_quantity r ∧ po_type o = MARKET ∧ pc_partial c = true
  | OrderStatus.PENDING => or_filled_quantity r = 0 ∧ po_type o ≠ MARKET
  | OrderStatus.REJECTED => or_filled_quantity r = 0 ∧ or_reject_reason r ≠ None
  | _ => False
  end.
Lemma refuse_fits o id why : st_post (result_fits o) (refuse id why).
Proof. unfold refuse. apply st_post_bind. intros now. by apply st_post_ret. Qed.
Lemma order_fits o base price pct id : fill_fits o (Some (price, pct)) → st_post (result_fits o) (fill_order o base price pct id).
Proof.
  intros H. unfold fill_order. apply st_post_bind. intros lot. apply st_post_bind. intros _.
  unfold filled_result. cbn in H. unfold partly_filled in H. destruct (flt pct (f_of_Z 100)).
  - do 5 (apply st_post_bind; intros ?). apply st_post_ret. cbn. destruct H; [done|]. split_and!; [lia|done..].
  - apply st_post_bind. intros now. by apply st_post_ret.
Qed.
Lemma execute_fits (o : paper_order) : st_post (result_fits o) (execute o).
Proof.
  unfold execute. apply st_post_try; [|intros e; apply refuse_fits]. unfold execute_body.
  apply st_post_bind. intros base. destruct (fle base f_zero); [apply refuse_fits|].
  destruct (circuit_limit o base); [apply refuse_fits|]. cbv zeta.
  do 3 (apply st_post_bind; intros ?). destruct a1; [apply refuse_fits|].
  do 2 (apply st_post_bind; intros ?). eapply st_post_seq; [apply fill_post|]. intros [[price pct]|] Hf.
  - by apply order_fits.
  - apply st_post_bind. intros now. by apply st_post_ret.
Qed.

(** *** Every order gets a result *)

(** The other sources of randomness answer. *)
Definition uniform_total : Prop := ∀ a b x, ∃ v x', pe_uniform a b x = (Ok v, x').
Definition wait_total : Prop := ∀ t x, ∃ v x', pe_wait t x = (Ok v, x').
(** The clock shows dates, and a number is no larger than a machine word. *)
Definition small (z : Z) : Prop := Z.abs z < 2 ^ 62.
Definition dated (p : paper) : Prop := ∀ n, small (clk_now (clock_after n (pt_clk p))).
Definition fit (p : paper) : Prop := cache_ok p ∧ dated p.
(** A computation that returns, from any such state to another. *)
Definition returns {A} (m : PT A) (Q : A → Prop) : Prop := ∀ p, fit p → ∃ v p', m p = (Ok v, p') ∧ fit p' ∧ Q v.

Lemma returns_bind {A B} (m : PT A) (f : A → PT B) Q R : returns m Q → (∀ a, Q a → returns (f a) R) → returns (m ≫= f) R.
Proof.
  intros Hm Hf p Hp. destruct (Hm p Hp) as (v & p1 & E & Hp1 & Hv). destruct (Hf v Hv p1 Hp1) as (w & p2 & E2 & H).
  exists w, p2. by rewrite (st_bind_ok _ _ _ _ _ E).
Qed.
Lemma returns_ret {A} (a : A) (Q : A → Prop) : Q a → returns (mret a) Q.
Proof. intros H p Hp. by exists a, p. Qed.
Lemma returns_get {B} (f : paper → PT B) R : (∀ p, returns (f p) R) → returns (st_get ≫= f) R.
Proof. intros H p Hp. exact (H p p Hp). Qed.
Lemma returns_modify f : (∀ p, fit p → fit (f p)) → returns (st_modify f) (λ _, True).
Proof. intros H p Hp. exists (), (f p). by split_and!; [|apply H|]. Qed.
Lemma returns_lift {A} (r : res A) (Q : A → Prop) : (∃ a, r = Ok a ∧ Q a) → returns (st_lift r) Q.
Proof. intros (a & -> & H) p Hp. by exists a, p. Qed.
Lemma returns_random {A} (m : ST X A) : (∀ x, ∃ v x', m x = (Ok v, x')) → returns (on_random m) (λ _, True).
Proof.
  intros H p Hp. destruct (H (pt_ext p)) as (v & x & E). exists v, (set_paper_ext x p).
  by split_and!; [unfold on_random, st_zoom; rewrite E|..].
Qed.
Lemma fit_read p : fit p → fit (set_clock (clk_read (clock_of p)).2 p).
Proof.
  intros [Hc Hd]. split; [exact Hc|]. intros n. change (pt_clk _) with (clk_read (pt_clk p)).2. rewrite clock_after_S. apply Hd.
Qed.
Lemma returns_now : returns now_ist (λ _, True).
Proof. intros p Hp. rewrite now_ist_total. eexists _, _. split; [reflexivity|]. split; [by apply fit_read|done]. Qed.
(** A reading of the time is below [2 ^ 64] seconds. *)
Lemma returns_time : returns time_time (within 64).
Proof.
  intros p Hp. rewrite time_time_total. eexists _, _. split; [reflexivity|]. split; [by apply fit_read|].
  destruct Hp as [_ Hd]. specialize (Hd 0%nat). unfold small in Hd. apply (f_of_ratio_within _ _ 63); [|lia|by vm_compute].
  unfold clk_read, clock_of, paper_clock, clock_after, ist_offset, usec_per_sec in *. cbn [fst Nat.iter nat_rect Nat.iter] in *. lia.
Qed.

Definition keeps_dates (p p' : paper) : Prop := dated p → dated p'.
#[local] Instance keeps_dates_preorder : PreOrder keeps_dates.
Proof. split; [by intros p|]. intros p1 p2 p3 H1 H2 H. auto. Qed.
Lemma same_clock {A} (m : PT A) : (∀ p, pt_clk (m p).2 = pt_clk p) → st_rel keeps_dates m.
Proof. intros H p Hp n. rewrite H. apply Hp. Qed.
Lemma evict_clock n : ∀ p, pt_clk (evict n p) = pt_clk p.
Proof. induction n as [|n IH]; intros p; [done|]. cbn. destruct (items (pt_prices p)) as [|[k v] l]; [done|]. by rewrite IH. Qed.
Lemma random_dates {A} (m : ST X A) : st_rel keeps_dates (on_random m).
Proof. apply same_clock. intros p. unfold on_random, st_zoom. by destruct (m _). Qed.
Lemma now_dates : st_rel keeps_dates now_ist.
Proof. intros p Hp n. rewrite now_ist_total. change (pt_clk _) with (clk_read (pt_clk p)).2. rewrite clock_after_S. apply Hp. Qed.
Lemma evict_dates : st_rel keeps_dates (st_modify evict_oldest).
Proof. apply same_clock. intros p. apply evict_clock. Qed.
Ltac dates := rel_auto ltac:(idtac; match goal with
  | |- st_rel keeps_dates (on_random _) => apply random_dates
  | |- st_rel keeps_dates now_ist => apply now_dates
  | |- st_rel keeps_dates (st_modify evict_oldest) => apply evict_dates
  | |- st_rel keeps_dates (st_modify _) => apply st_rel_modify; intros ? ?; assumption
  end).
Lemma price_dates symbol : st_rel keeps_dates (get_current_price symbol).
Proof. unfold get_current_price, walk_price. dates. Qed.

Section settled.
Hypothesis (Hgauss : gauss_total) (Huniform : uniform_total) (Hwait : wait_total) (Hmax : 0 ≤ pc_cache_max c).

Lemma returns_price symbol : returns (get_current_price symbol) (λ _, True).
Proof.
  intros p [Hc Hd]. pose proof (price_dates symbol p Hd) as Hd'.
  destruct (price_available symbol p Hgauss Hmax Hc) as (v & p' & E & Hc' & _). rewrite E in Hd'. by exists v, p'.
Qed.
Lemma returns_refuse id why : returns (refuse id why) (λ _, True).
Proof. unfold refuse. eapply returns_bind; [apply returns_now|]. intros now _. by apply returns_ret. Qed.
Lemma returns_wait t : returns (wait_for t) (λ _, True).
Proof.
  unfold wait_for. apply returns_get. intros p. destruct (pt_shutdown p); [by apply returns_ret|].
  eapply returns_bind; [apply returns_random, Hwait|]. intros b _.
  eapply (returns_bind _ _ (λ _, True)); [|intros ? _; by apply returns_ret]. destruct b; [|by apply returns_ret].
  apply returns_modify; intros ? H'; exact H'.
Qed.
Lemma returns_number symbol : returns (order_number symbol) (λ _, True).
Proof.
  unfold order_number. eapply returns_bind; [apply returns_time|]. intros t Ht.
  eapply (returns_bind _ _ (λ _, True)); [|intros n _; by apply returns_ret]. apply returns_lift.
  assert (within 11 (f_of_Z 1000)) as H by (apply (f_of_Z_within 1000 10); lia).
  destruct (within_trunc _ _ (fmul_within _ _ _ _ Ht H ltac:(lia)) ltac:(lia)) as (z & -> & _). by exists z.
Qed.

(** The share of a partial fill is a bounded number. *)
Definition share_ok (pct : float64) : Prop := partly_filled pct = true → within 8 pct.
Lemma share_whole : share_ok (f_of_Z 100).
Proof. by vm_compute. Qed.
Lemma returns_pct symbol value : returns (compute_fill_pct symbol value) share_ok.
Proof.
  unfold compute_fill_pct. destruct (negb (pc_partial c)); [apply returns_ret, share_whole|].
  destruct (fle value f_zero); [apply returns_ret, share_whole|]. cbv zeta. apply returns_get. intros p.
  eapply returns_bind; [apply returns_time|]. intros t1 _. eapply returns_bind; [apply returns_time|]. intros t2 _.
  eapply returns_bind; [apply returns_modify; intros ? H'; exact H'|]. intros _ _.
  eapply (returns_bind _ _ short).
  - destruct (fge _ _); [by apply returns_ret|]. eapply returns_bind; [apply returns_random, Huniform|]. intros u _.
    apply returns_ret, fmul_short.
  - intros pct Hp. apply returns_ret. intros H. by apply clamped_within.
Qed.

Section order.
Context (o : paper_order).
Hypothesis (Hlot : small (po_lot o)) (Hdelay : small (pc_delay_ms c)).

Lemma small_float z : small z → ∃ x, float_of_Z z = Ok x ∧ within 63 x.
Proof. intros H. apply (float_of_Z_within z 62); [exact H|lia]. Qed.
Lemma returns_fill base : returns (compute_fill o base)
  (λ f, match f with Some (_, pct) => share_ok pct | None => True end).
Proof.
  destruct (small_float _ Hlot) as (lot & El & _). unfold compute_fill. destruct (po_type o).
  - eapply (returns_bind _ _ (λ _, True)).
    { apply returns_lift. unfold market_price. destruct (pc_model c); [rewrite El|]; by eexists. }
    intros price _. eapply (returns_bind _ _ (λ _, True)); [apply returns_lift; rewrite El; by eexists|].
    intros l _. eapply returns_bind; [apply returns_pct|]. intros pct H. by apply returns_ret.
  - apply returns_ret. destruct (given_price o) as [l|]; [|apply share_whole]. unfold whole. destruct (limit_fill o base l); [apply share_whole|done].
  - apply returns_ret. unfold whole. destruct (stop_fill o base); [apply share_whole|done].
  - apply returns_ret. unfold whole. destruct (stop_fill o base); [apply share_whole|done].
Qed.
Lemma returns_filled id price pct total : share_ok pct → returns (filled_result id (po_lot o) price pct total) (λ _, True).
Proof.
  intros Hp. unfold filled_result. unfold share_ok, partly_filled in Hp. destruct (flt pct (f_of_Z 100)).
  2: { eapply returns_bind; [apply returns_now|]. intros now _. by apply returns_ret. }
  specialize (Hp eq_refl). eapply (returns_bind _ _ (within 63)); [apply returns_lift, small_float, Hlot|]. intros l Hl.
  eapply (returns_bind _ _ (λ n, Z.abs n <= 2 ^ 67)).
  { apply returns_lift, within_trunc; [|lia].
    assert (∃ m, f_of_Z 100 = S754_finite false m (-46) ∧ digits2_pos m = 53%positive) as (m & -> & Hm) by (by eexists).
    apply (fdiv_within 72 6); [exact (fmul_within _ _ _ _ Hl Hp ltac:(lia))|by rewrite Hm|lia]. }
  intros n Hn. eapply (returns_bind _ _ (λ _, True)).
  { apply returns_lift. destruct (float_of_Z_within (Z.max 1 n) 68 ltac:(lia) ltac:(lia)) as (x & -> & _). by eexists. }
  intros qf _. eapply (returns_bind _ _ (λ _, True)).
  { apply returns_lift. unfold small in Hlot. destruct (float_of_Z_within (Z.max (po_lot o) 1) 62 ltac:(lia) ltac:(lia)) as (x & -> & _). by eexists. }
  intros lf _. eapply returns_bind; [apply returns_now|]. intros now _. by apply returns_ret.
Qed.
Lemma returns_order base price pct id : share_ok pct → returns (fill_order o base price pct id) (λ _, True).
Proof.
  intros Hp. unfold fill_order. eapply (returns_bind _ _ (within 63)); [apply returns_lift, small_float, Hlot|]. intros lot _.
  eapply (returns_bind _ _ (λ _, True)); [|intros _ _; by apply returns_filled].
  destruct (_ && _); [|by apply returns_ret]. apply returns_modify; intros ? H'; exact H'.
Qed.
Lemma returns_body : returns (execute_body o) (λ _, True).
Proof.
  unfold execute_body. eapply returns_bind; [apply returns_price|]. intros base _.
  destruct (fle base f_zero); [apply returns_refuse|]. destruct (circuit_limit o base); [apply returns_refuse|].
  eapply returns_bind; [apply returns_random, Huniform|]. intros u _.
  eapply (returns_bind _ _ (within 63)); [apply returns_lift, small_float, Hdelay|]. intros ms _. cbv zeta.
  eapply returns_bind; [apply returns_wait|]. intros stopped _. destruct stopped; [apply returns_refuse|].
  eapply (returns_bind _ _ (λ _, True)); [unfold evolve_price; destruct (pc_walk c); [apply returns_price|by apply returns_ret]|].
  intros current _. eapply returns_bind; [apply returns_number|]. intros id _.
  eapply returns_bind; [apply returns_fill|]. intros [[price pct]|] Hf; [by apply returns_order|].
  eapply returns_bind; [apply returns_now|]. intros now _. by apply returns_ret.
Qed.
End order.
End settled.

(** C28: Every order gets a result that fits it.  While the random sources
    answer, the clock shows dates, the price cache is within its size and
    the lot and the delay are no larger than a machine word, [execute]
    returns, whatever the prices, the shares and the draws come to: filled
    for the whole quantity, filled in part for at least one (a market order,
    with partial fills enabled), left open with nothing filled (never a
    market order), or refused with a reason and nothing filled. *)
Theorem paper_result_fits (o : paper_order) (p : paper) :
  gauss_total → uniform_total → wait_total → 0 ≤ pc_cache_max c → cache_ok p → dated p →
  small (po_lot o) → small (pc_delay_ms c) →
  ∃ r p', execute o p = (Ok r, p') ∧ result_fits o r ∧ cache_ok p' ∧ dated p'.
Proof.
  intros Hg Hu Hw Hm Hc Hd Hl Hs. destruct (returns_body Hg Hu Hw Hm o Hl Hs p (conj Hc Hd)) as (r & p' & E & [Hc' Hd'] & _).
  assert (execute o p = (Ok r, p')) as E' by (unfold execute, st_try; by rewrite E).
  exists r, p'. split_and!; [done| |done|done]. exact (execute_fits o p r p' E').
Qed.

(** *** After a shutdown *)

Definition keeps_shutdown (p p' : paper) : Prop := pt_shutdown p = true → pt_shutdown p' = true.
#[local] Instance keeps_shutdown_preorder : PreOrder keeps_shutdown.
Proof. split; [by intros p|]. intros p1 p2 p3 H1 H2 H. auto. Qed.
Lemma evict_shutdown n : ∀ p, pt_shutdown (evict n p) = pt_shutdown p.
Proof. induction n as [|n IH]; intros p; [done|]. cbn. destruct (items (pt_prices p)) as [|[k v] l]; [done|]. by rewrite IH. Qed.
Lemma same_shutdown {A} (m : PT A) : (∀ p, pt_shutdown (m p).2 = pt_shutdown p) → st_rel keeps_shutdown m.
Proof. intros H p Hp. by rewrite H. Qed.
Lemma random_shutdown {A} (m : ST X A) : st_rel keeps_shutdown (on_random m).
Proof. apply same_shutdown. intros p. unfold on_random, st_zoom. by destruct (m _). Qed.
Lemma clock_shutdown : st_rel keeps_shutdown now_ist.
Proof. apply same_shutdown. intros p. by rewrite now_ist_total. Qed.
Lemma evict_modify : st_rel keeps_shutdown (st_modify evict_oldest).
Proof. apply same_shutdown. intros p. apply evict_shutdown. Qed.
Ltac stays_shut := rel_auto ltac:(idtac; match goal with
  | |- st_rel keeps_shutdown (on_random _) => apply random_shutdown
  | |- st_rel keeps_shutdown now_ist => apply clock_shutdown
  | |- st_rel keeps_shutdown (st_modify evict_oldest) => apply evict_modify
  | |- st_rel keeps_shutdown (st_modify _) => apply st_rel_modify; intros ? ?; assumption
  end).
Lemma price_shutdown symbol : st_rel keeps_shutdown (get_current_price symbol).
Proof. unfold get_current_price, walk_price. stays_shut. Qed.
(** Nothing trades after a shutdown: once it is requested every order
    that returns is refused, and it stays requested. *)
Theorem shutdown_refuses (o : paper_order) (p : paper) : pt_shutdown p = true →
  st_wp (execute o) p (λ r p', ∀ v, r = Ok v → or_status v = OrderStatus.REJECTED ∧ or_filled_quantity v = 0).
Proof.
  intros Hp. apply wp_try.
  assert (∀ id why p, st_wp (refuse id why) p (λ r _, ∀ v, r = Ok v → or_status v = OrderStatus.REJECTED ∧ or_filled_quantity v = 0)) as Hr.
  { intros id why q. unfold refuse. unfold st_wp. rewrite (st_bind_ok _ _ _ _ _ (now_ist_total q)). by intros v [= <-]. }
  eapply wp_mono with (Q := λ r p', ∀ v, r = Ok v → or_status v = OrderStatus.REJECTED ∧ or_filled_quantity v = 0).
  { intros [v|e] q H; [exact H|]. destruct (catches _ e); [apply Hr|by intros v [=]]. }
  unfold execute_body. apply wp_bind. pose proof (price_shutdown (po_symbol o) p Hp) as Hs. unfold st_wp at 1.
  destruct (get_current_price (po_symbol o) p) as [[base|e] p1]; cbn [fst snd] in *; [|by intros v [=]].
  destruct (fle base f_zero); [apply Hr|]. destruct (circuit_limit o base); [apply Hr|]. cbv zeta.
  apply wp_bind. pose proof (random_shutdown (pe_uniform (lit 5 1) (f_of_Z 2)) p1 Hs) as Hu. unfold st_wp at 1.
  destruct (on_random _ p1) as [[u|e] p2]; cbn [fst snd] in *; [|by intros v [=]].
  apply wp_bind. unfold st_wp at 1, st_lift at 1 2. destruct (float_of_Z (pc_delay_ms c)) as [ms|e]; cbn [fst snd]; [|by intros v [=]].
  apply wp_bind, (wp_eq _ _ (Ok true) p2); [|apply Hr]. unfold wait_for.
  rewrite (st_bind_ok st_get _ p2 p2 p2), Hu by done. done.
Qed.
End trader.
Arguments paper X : clear implicits.
#[global] Arguments PT X A : clear implicits.

(** ** A quiet market, as an example

    Every draw is in the middle of its range and nothing interrupts a wait. *)
#[local] Instance quiet_market : PaperEnv unit := {
  pe_uniform := λ a b x, (Ok ((a + b) / f_of_Z 2)%f64, x);
  pe_gauss := λ mean _ x, (Ok mean, x);
  pe_wait := λ _ x, (Ok false, x);
  pe_hash := λ _, 4242
}.
Definition opened : paper unit := Paper (Clock 1700000000000000 [1000; 1000]) ∅ ∅ ∅ ∅ ∅ false tt.
Definition shut : paper unit := set_shutdown true opened.
Definition buy_nifty (t : paper_type) (price : option float64) : paper_order := PaperOrder "NIFTY" "buy" t 50 price.
Definition result_line (r : res order_result) : option (OrderStatus.t * Z * string) :=
  match r with Ok r => Some (or_status r, or_filled_quantity r, repr_float (or_average_price r)) | Raise _ => None end.

Example market_buy_fills :
  result_line (execute default_paper (buy_nifty MARKET None) opened).1 = Some (OrderStatus.FILLED, 50, "23512.34").
Proof. vm_compute. reflexivity. Qed.
(** A limit below the ask stays open; one above fills at the ask. *)
Example limit_waits :
  result_line (execute default_paper (buy_nifty LIMIT (Some (f_of_Z 23490))) opened).1 = Some (OrderStatus.PENDING, 0, "0.0").
Proof. vm_compute. reflexivity. Qed.
(** A symbol name without NIFTY in it is charged as shares. *)
Example charges_by_name :
  (λ r, repr_float (ch_stt r)) <$> match get_commission_breakdown "RELIANCE2450CE" (f_of_Z 100) 250 with Ok r => Some r | _ => None end = Some "6.25"
  ∧ (λ r, repr_float (ch_stt r)) <$> match get_commission_breakdown "NIFTY23500CE" (f_of_Z 100) 250 with Ok r => Some r | _ => None end = Some "12.5".
Proof. split; vm_compute; reflexivity. Qed.

(** A lot that no float holds is not refused: the error escapes. *)
Example huge_lot_escapes : match (execute default_paper (PaperOrder "NIFTY" "buy" MARKET (10 ^ 400) None) opened).1 with
  | Raise e => exn_cls e = OverflowError | Ok _ => False end.
Proof. vm_compute. reflexivity. Qed.
Lemma quiet_gauss : gauss_total (X := unit).
Proof. intros a b x. by exists a, x. Qed.
Lemma price_available_witness :
  cache_ok default_paper opened ∧
  ∃ v p', get_current_price default_paper "NIFTY" opened = (Ok v, p') ∧ cache_ok default_paper p' ∧ v = sm_price (get_meta "NIFTY").
Proof.
  split; [vm_compute; discriminate|].
  apply (price_available default_paper "NIFTY" opened quiet_gauss); vm_compute; discriminate.
Defined.
Lemma shutdown_refuses_witness :
  pt_shutdown shut = true ∧
  st_wp (execute default_paper (buy_nifty MARKET None)) shut
    (λ r _, ∀ v, r = Ok v → or_status v = OrderStatus.REJECTED ∧ or_filled_quantity v = 0).
Proof. split; [reflexivity|]. apply (shutdown_refuses default_paper (buy_nifty MARKET None) shut). reflexivity. Defined.

Lemma opened_dated : dated opened.
Proof.
  assert (∀ n, clock_after n (Clock 1700000000002000 []) = Clock 1700000000002000 []) as H.
  { induction n as [|n IH]; [done|]. by rewrite <- clock_after_S. }
  intros n. unfold opened. cbn [pt_clk]. destruct n as [|[|n]]; [by vm_compute|by vm_compute|].
  rewrite <- !clock_after_S. change ((clk_read (clk_read _).2).2) with (Clock 1700000000002000 []). by rewrite H.
Qed.
Lemma paper_result_fits_witness :
  let o := buy_nifty MARKET None in
  ∃ r p', execute default_paper o opened = (Ok r, p') ∧ result_fits default_paper o r ∧ cache_ok default_paper p' ∧ dated p'.
Proof.
  apply (paper_result_fits default_paper (buy_nifty MARKET None) opened).
  - exact quiet_gauss.
  - intros a b x. by eexists _, _.
  - intros t x. by eexists _, _.
  - vm_compute. discriminate.
  - vm_compute. discriminate.
  - exact opened_dated.
  - reflexivity.
  - reflexivity.
Defined.
