(* ===== verification/SmartRouter.v ===== *)
(** * The smart router

    [core/execution/smart_router.py]: [SmartRouter] chooses the broker of an
    order and sends it there.  The broker adapters (registered objects with
    [place_order], [get_order_status] and [health_check]) are the class
    [Adapters] on a state of their own. *)
From S2P Require Import Prelude PyStr Float64 PyDict PyVal CapitalManager.

(** The three calls the router makes; a method an adapter lacks, or whose
    arguments do not fit, raises. *)
Class Adapters X := {
  (** [adapter.health_check(9999)]: the ["status"] of the dictionary it
      returns, [None] for another value or without one *)
  ad_health_check : string → Z → ST X (option string);
  (** [str(adapter.get_order_status("_test_"))] *)
  ad_get_order_status : string → string → ST X string;
  (** [adapter.place_order(symbol, direction, qty, strike)] *)
  ad_place_order : string → string → string → Z → Z → ST X (option string)
}.

(** ** Data *)

Record router_config := RouterConfig {
  ro_strategy : string; ro_preferred : string; ro_blacklist : list string;
  ro_fees : pydict float64; ro_timeout : float64 }.
Definition default_router_config : router_config := RouterConfig "lowest_fee" "" [] ∅ (f_of_Z 30).

Definition DEFAULT_FEES : pydict float64 := PyDict
  [("KITE", f_of_Z 20); ("ANGEL", f_of_Z 15); ("PAPER", f_zero)].

(** The keys of the configuration dictionary that [__init__] reads. *)
Record router_options := RouterOptions {
  op_strategy : option string; op_preferred : option string; op_blacklist : option (list string);
  op_fee_weights : option (pydict float64); op_timeout : option float64;
  op_broker_fees : option (pydict float64); op_router_strategy : option string; op_router_timeout : option float64 }.

(** [d.update(e)] *)
Definition dupdate {V} (d e : pydict V) : pydict V := foldl (λ d p, <[p.1 := p.2]> d) d (items e).

Definition config_of (o : router_options) : router_config :=
  let fees := default ∅ (op_fee_weights o) in
  RouterConfig (default (default "lowest_fee" (op_strategy o)) (op_router_strategy o))
    (default "" (op_preferred o)) (default [] (op_blacklist o))
    (dupdate fees (default ∅ (op_broker_fees o)))
    (default (default (f_of_Z 30) (op_timeout o)) (op_router_timeout o)).

Record broker_score := BrokerScore {
  bs_broker : string; bs_score : float64; bs_fee : float64; bs_health : float64; bs_latency : float64;
  bs_execution : float64; bs_available : bool }.

Record route_result := RouteResult {
  rr_success : bool; rr_broker : string; rr_order_id : string; rr_fee : float64; rr_latency : float64;
  rr_error : string }.

Section router.
Context {X : Type}.

Record router := Router {
  rt_names : list string;
  rt_cfg : router_config;
  rt_health : pydict bool;
  rt_latency : pydict (list float64);
  rt_fills : pydict (list bool);
  rt_last : pydict float64;
  rt_index : Z;
  rt_clk : clock;
  rt_ext : X }.

Definition put_health (h : pydict bool) (w : router) : router :=
  Router (rt_names w) (rt_cfg w) h (rt_latency w) (rt_fills w) (rt_last w) (rt_index w) (rt_clk w) (rt_ext w).
Definition put_latency (l : pydict (list float64)) (w : router) : router :=
  Router (rt_names w) (rt_cfg w) (rt_health w) l (rt_fills w) (rt_last w) (rt_index w) (rt_clk w) (rt_ext w).
Definition put_fills (f : pydict (list bool)) (w : router) : router :=
  Router (rt_names w) (rt_cfg w) (rt_health w) (rt_latency w) f (rt_last w) (rt_index w) (rt_clk w) (rt_ext w).
Definition put_last (l : pydict float64) (w : router) : router :=
  Router (rt_names w) (rt_cfg w) (rt_health w) (rt_latency w) (rt_fills w) l (rt_index w) (rt_clk w) (rt_ext w).
Definition put_index (i : Z) (w : router) : router :=
  Router (rt_names w) (rt_cfg w) (rt_health w) (rt_latency w) (rt_fills w) (rt_last w) i (rt_clk w) (rt_ext w).
Definition put_clk (c : clock) (w : router) : router :=
  Router (rt_names w) (rt_cfg w) (rt_health w) (rt_latency w) (rt_fills w) (rt_last w) (rt_index w) c (rt_ext w).
Definition put_ext (x : X) (w : router) : router :=
  Router (rt_names w) (rt_cfg w) (rt_health w) (rt_latency w) (rt_fills w) (rt_last w) (rt_index w) (rt_clk w) x.

#[global] Instance router_clock : HasClock router := {| clock_of := rt_clk; set_clock := put_clk |}.

Definition TM (A : Type) : Type := ST router A.
Definition on_adapter {A} (m : ST X A) : TM A := st_zoom rt_ext put_ext m.

Context `{Had : !Adapters X, Hsum : !PySum}.

(** [__init__]: each broker starts healthy at a reading of the clock. *)
Definition init_last : list string → clock → pydict float64 * clock :=
  let fix go (d : pydict float64) names c :=
    match names with
    | [] => (d, c)
    | name :: names' => let '(t, c') := clk_read c in go (<[name := epoch_seconds t]> d) names' c'
    end in go ∅.
Definition new_router (names : list string) (o : option router_options) (c : clock) (x : X) : router :=
  let '(last, c') := init_last names c in
  Router names (match o with Some o => config_of o | None => default_router_config end)
    (PyDict ((λ n, (n, true)) <$> names)) (PyDict ((λ n, (n, [])) <$> names)) (PyDict ((λ n, (n, [])) <$> names))
    last 0 c' x.

(** [from_broker_adapters]: the names the adapters are registered under. *)
Definition adapter_names (primary : option string) (secondary : option (option string)) : list string :=
  let p := str_upper (str_or primary "PRIMARY") in
  match secondary with
  | None => [p]
  | Some s => let s := str_upper (str_or s "SECONDARY") in if String.eqb p s then [p] else [p; s]
  end.

(** ** Availability *)

Definition probe_errors : list exn_class := [AttributeError; TypeError; OSError; ConnectionError].
Definition blacklisted (name : string) (w : router) : bool := str_mem name (ro_blacklist (rt_cfg w)).
Definition healthy (name : string) (w : router) : bool := default true (rt_health w !! name).
(** Seconds since the broker was last seen healthy. *)
Definition since_healthy (now : float64) (name : string) (w : router) : float64 :=
  (now - default f_zero (rt_last w !! name))%f64.

(** The health check of a broker whose timeout has passed: does it answer
    ["healthy"]? *)
Definition recheck (now : float64) (name : string) : TM bool :=
  st_try
    (h ← on_adapter (ad_health_check name 9999);
     if bool_decide (h = Some "healthy") then
       st_modify (λ w, put_health (<[name := true]> (rt_health w)) w) ;;
       st_modify (λ w, put_last (<[name := now]> (rt_last w)) w) ;;
       mret true
     else mret false)
    probe_errors (λ _, mret false).

(** The probe of the adapter: whatever it answers, the broker stays available. *)
Definition probe (name : string) : TM unit :=
  st_try (on_adapter (ad_get_order_status name "_test_") ;; mret ()) probe_errors (λ _, mret ()).

(** Is this broker available? *)
Definition is_available (now : float64) (name : string) : TM bool :=
  w ← st_get;
  if blacklisted name w then mret false
  else if negb (healthy name w) && flt (since_healthy now name w) (ro_timeout (rt_cfg w)) then mret false
  else
    ok ← (if healthy name w then mret true else recheck now name);
    if ok : bool then probe name ;; mret true else mret false.
Fixpoint scan (now : float64) (names : list string) : TM (list string) :=
  match names with
  | [] => mret []
  | name :: names' =>
      ok ← is_available now name;
      rest ← scan now names';
      mret (if ok : bool then name :: rest else rest)
  end.
(** [available_brokers] *)
Definition available_brokers : TM (list string) :=
  now ← time_time; names ← st_gets rt_names; scan now names.

(** ** Scores *)

Definition all_fees (w : router) : pydict float64 := dupdate DEFAULT_FEES (ro_fees (rt_cfg w)).
(** The fee that selection compares. *)
Definition fee_of (w : router) (broker : string) : float64 := default (f_of_Z 20) (all_fees w !! broker).
(** [max(all_fees.values())] *)
Definition max_fee (fees : pydict float64) : float64 :=
  match dvalues fees with [] => f_of_Z 20 | x :: l => foldl py_max x l end.

Definition count_true (l : list bool) : Z := Z.of_nat (length (filter (λ b, b = true) l)).
Definition mean_latency (l : list float64) : float64 := (fsum l / f_of_Z (Z.of_nat (length l)))%f64.
Definition fill_ratio (l : list bool) : float64 := f_of_ratio (count_true l) (Z.of_nat (length l)).

Definition fee_score (w : router) (broker : string) : float64 :=
  let top := max_fee (all_fees w) in
  if fgt top f_zero then (f_one - fee_of w broker / top)%f64 else f_one.
Definition latency_score (w : router) (broker : string) : float64 :=
  match default [] (rt_latency w !! broker) with
  | [] => lit 5 1
  | l => py_max f_zero (f_one - mean_latency l / f_of_Z 1000)%f64
  end.
Definition execution_score (w : router) (broker : string) : float64 :=
  match default [] (rt_fills w !! broker) with [] => lit 5 1 | l => fill_ratio l end.

(** [score_broker] *)
Definition score_broker (broker : string) : TM (option broker_score) :=
  w ← st_get;
  if blacklisted broker w || negb (str_mem broker (rt_names w)) then mret None
  else
    available ← available_brokers;
    w ← st_get;
    let ok := str_mem broker available in
    let fee := fee_score w broker in
    let health := if ok then f_one else f_zero in
    let latency := latency_score w broker in
    let execution := execution_score w broker in
    let score := (fee * lit 35 2 + health * lit 30 2 + latency * lit 15 2 + execution * lit 20 2)%f64 in
    mret (Some (BrokerScore broker (py_round score 4) (py_round fee 4) (py_round health 4)
                  (py_round latency 4) (py_round execution 4) ok)).

(** ** Selection *)

(** [min(available, key=fee)]: the first of the smallest. *)
Definition min_by (key : string → float64) (x : string) (l : list string) : string :=
  foldl (λ best b, if flt (key b) (key best) then b else best) x l.
(** [_select_lowest_fee] *)
Definition select_lowest_fee (x : string) (l : list string) : TM string := st_gets (λ w, min_by (fee_of w) x l).
(** [_select_round_robin] *)
Definition select_round_robin (x : string) (l : list string) : TM string :=
  w ← st_get;
  let idx := rt_index w `mod` Z.of_nat (length (x :: l)) in
  st_modify (put_index ((rt_index w + 1) `mod` 1000)) ;;
  mret (default x ((x :: l) !! Z.to_nat idx)).
(** [_select_weighted] *)
Fixpoint weigh (best : string) (best_score : float64) (l : list string) : TM string :=
  match l with
  | [] => mret best
  | b :: l' =>
      s ← score_broker b;
      match s with
      | Some s => if fgt (bs_score s) best_score then weigh b (bs_score s) l' else weigh best best_score l'
      | None => weigh best best_score l'
      end
  end.
Definition select_weighted (x : string) (l : list string) : TM string := weigh x (f_of_Z (-1)) (x :: l).

(** [select_broker] *)
Definition select_broker : TM (option string) :=
  available ← available_brokers;
  match available with
  | [] => mret None
  | x :: l =>
      w ← st_get;
      let preferred := ro_preferred (rt_cfg w) in
      if truthy_str preferred && str_mem preferred available then mret (Some preferred)
      else
        let strategy := ro_strategy (rt_cfg w) in
        b ← (if String.eqb strategy "lowest_fee" then select_lowest_fee x l
             else if String.eqb strategy "round_robin" then select_round_robin x l
             else if String.eqb strategy "weighted" then select_weighted x l
             else mret x);
        mret (Some b)
  end.

(** ** Routing *)

(** [l[-n:]] when it is longer than [n] *)
Definition keep_last {A} (n : nat) (l : list A) : list A :=
  if (n <? length l)%nat then drop (length l - n) l else l.

Definition failure (broker error : string) (latency : float64) : route_result :=
  RouteResult false broker "" f_zero latency error.
Definition push_fill (broker : string) (ok : bool) (w : router) : router :=
  put_fills (<[broker := default [] (rt_fills w !! broker) ++ [ok]]> (rt_fills w)) w.
Definition push_latency (broker : string) (x : float64) (w : router) : router :=
  put_latency (<[broker := keep_last 50 (default [] (rt_latency w !! broker) ++ [x])]> (rt_latency w)) w.
(** Milliseconds since [start]. *)
Definition elapsed_ms (start : float64) : TM float64 :=
  t ← time_time; mret ((t - start) * f_of_Z 1000)%f64.
(** The fee reported: here an unknown broker's is zero. *)
Definition fee_charged (broker : string) (w : router) : float64 :=
  match ro_fees (rt_cfg w) !! broker with
  | Some f => f
  | None => default f_zero (DEFAULT_FEES !! broker)
  end.

Definition route_errors : list exn_class := [ValueError; TypeError; OSError; ConnectionError; RuntimeError].
(** [route_order] *)
Definition route_order (broker symbol direction : string) (qty strike : Z) : TM route_result :=
  start ← time_time;
  w ← st_get;
  if negb (str_mem broker (rt_names w)) then
    mret (failure broker (cat ["Broker '"; broker; "' not registered"]) f_zero)
  else
    st_try
      (order_id ← on_adapter (ad_place_order broker symbol direction qty strike);
       elapsed ← elapsed_ms start;
       st_modify (push_latency broker elapsed) ;;
       match order_id with
       | Some id =>
           if truthy_str id then
             st_modify (λ w, put_health (<[broker := true]> (rt_health w)) w) ;;
             now ← time_time;
             st_modify (λ w, put_last (<[broker := now]> (rt_last w)) w) ;;
             fee ← st_gets (fee_charged broker);
             mret (RouteResult true broker id fee (py_round elapsed 1) "")
           else
             st_modify (push_fill broker false) ;;
             mret (failure broker "Broker returned no order ID" (py_round elapsed 1))
       | None =>
           st_modify (push_fill broker false) ;;
           mret (failure broker "Broker returned no order ID" (py_round elapsed 1))
       end)
      route_errors
      (λ e,
        elapsed ← elapsed_ms start;
        st_modify (λ w, put_health (<[broker := false]> (rt_health w)) w) ;;
        st_modify (push_fill broker false) ;;
        mret (failure broker (String.append "Order placement failed: " (exn_msg e)) (py_round elapsed 1))).

(** [route_to_best] *)
Definition route_to_best (symbol direction : string) (qty strike : Z) : TM route_result :=
  broker ← select_broker;
  match broker with
  | None => mret (failure "" "No available broker found" f_zero)
  | Some b => route_order b symbol direction qty strike
  end.

(** [record_fill] *)
Definition record_fill (broker : string) (success : bool) : TM unit :=
  st_modify (λ w,
    put_fills (<[broker := keep_last 100 (default [] (rt_fills w !! broker) ++ [success])]> (rt_fills w)) w).

(** [health_check] *)
Record broker_row := BrokerRow { br_available : bool; br_score : float64; br_latency : float64; br_fill_rate : float64 }.
Record router_report := RouterReport {
  rp_status : string; rp_total : Z; rp_available : Z; rp_strategy : string; rp_rows : pydict broker_row }.
Definition broker_row_of (available : list string) (name : string) : TM broker_row :=
  score ← score_broker name;
  w ← st_get;
  let latencies := default [] (rt_latency w !! name) in
  let fills := default [] (rt_fills w !! name) in
  mret (BrokerRow (str_mem name available)
          (match score with Some s => bs_score s | None => f_zero end)
          (py_round (fsum latencies / f_of_Z (Z.max (Z.of_nat (length latencies)) 1))%f64 1)
          (match fills with [] => lit 5 1 | _ => py_round (fill_ratio fills) 3 end)).
Fixpoint broker_rows (available names : list string) (acc : pydict broker_row) : TM (pydict broker_row) :=
  match names with
  | [] => mret acc
  | name :: names' => row ← broker_row_of available name; broker_rows available names' (<[name := row]> acc)
  end.
Definition health_check : TM router_report :=
  available ← available_brokers;
  w ← st_get;
  rows ← broker_rows available (rt_names w) ∅;
  mret (RouterReport (match available with [] => "degraded" | _ => "healthy" end)
          (Z.of_nat (length (rt_names w))) (Z.of_nat (length available)) (ro_strategy (rt_cfg w)) rows).

(** ** What a scan leaves and finds *)

(** The registration, the configuration, the histories and the index stay;
    brokers seen healthy only gain. *)
Record scanned (w w' : router) : Prop := {
  sc_names : rt_names w' = rt_names w;
  sc_cfg : rt_cfg w' = rt_cfg w;
  sc_fills : rt_fills w' = rt_fills w;
  sc_latency : rt_latency w' = rt_latency w;
  sc_index : rt_index w' = rt_index w;
  sc_health : ∀ b, healthy b w = true → healthy b w' = true }.

#[local] Instance scanned_preorder : PreOrder scanned.
Proof.
  split; [by intros w; split|]. intros w1 w2 w3 [H1 H2 H3 H4 H5 H6] [G1 G2 G3 G4 G5 G6].
  split; try congruence. auto.
Qed.

Lemma adapter_scanned {A} (m : ST X A) : st_rel scanned (on_adapter m).
Proof. intros w. unfold on_adapter, st_zoom. destruct (m (rt_ext w)) as [r x]. by split. Qed.
Lemma time_scanned : st_rel scanned time_time.
Proof. intros w. rewrite time_time_total. by split. Qed.
Lemma healthy_scanned name : st_rel scanned (st_modify (λ w, put_health (<[name := true]> (rt_health w)) w)).
Proof.
  intros w. split; try done. intros b Hb. unfold healthy. simpl. destruct (decide (name = b)) as [->|Hne].
  - by rewrite dict_lookup_insert_eq.
  - by rewrite dict_lookup_insert_ne.
Qed.
Lemma last_scanned name now : st_rel scanned (st_modify (λ w, put_last (<[name := now]> (rt_last w)) w)).
Proof. intros w. by split. Qed.

Ltac scans := rel_auto ltac:(first [apply adapter_scanned | apply time_scanned | apply healthy_scanned | apply last_scanned]).

Lemma recheck_scanned now name : st_rel scanned (recheck now name).
Proof. unfold recheck. scans. Qed.
Lemma probe_scanned name : st_rel scanned (probe name).
Proof. unfold probe. scans. Qed.
Lemma is_available_scanned now name : st_rel scanned (is_available now name).
Proof. unfold is_available. scans; [apply recheck_scanned|apply probe_scanned]. Qed.
Lemma scan_scanned now names : st_rel scanned (scan now names).
Proof. induction names as [|n names IH]; cbn [scan]; scans; [apply is_available_scanned|exact IH]. Qed.
Lemma available_scanned : st_rel scanned available_brokers.
Proof. unfold available_brokers. scans. apply scan_scanned. Qed.
Lemma score_scanned b : st_rel scanned (score_broker b).
Proof. unfold score_broker. scans. apply available_scanned. Qed.

(** ** Who is chosen *)

(** A broker passes its health check after its timeout. *)
Definition answers_healthy (b : string) : Prop := ∃ x x', ad_health_check b 9999 x = (Ok (Some "healthy"), x').

Lemma rel_of {A} (R : router → router → Prop) (m : TM A) w r w' : st_rel R m → m w = (r, w') → R w w'.
Proof. intros H E. specialize (H w). by rewrite E in H. Qed.

Lemma recheck_true now b w w' :
  recheck now b w = (Ok true, w') → healthy b w' = true ∧ answers_healthy b.
Proof.
  unfold recheck. intros [E|(e & w1 & _ & _ & E)]%try_inv; [|done].
  apply bind_inv in E as (h & w2 & E1 & E2). case_bool_decide as Hh; [|done].
  injection E2 as <-. split.
  - unfold healthy. simpl. by rewrite dict_lookup_insert_eq.
  - unfold on_adapter, st_zoom in E1. destruct (ad_health_check b 9999 (rt_ext w)) as [r x] eqn:Ea.
    injection E1 as -> _. exists (rt_ext w), x. by rewrite Ea, Hh.
Qed.

Lemma is_available_true now b w w' :
  is_available now b w = (Ok true, w') →
  blacklisted b w = false ∧ healthy b w' = true ∧
  (healthy b w = true ∨ flt (since_healthy now b w) (ro_timeout (rt_cfg w)) = false ∧ answers_healthy b).
Proof.
  unfold is_available. rewrite (st_bind_ok st_get _ w w w) by done.
  destruct (blacklisted b w); [done|]. destruct (healthy b w) eqn:Eh; cbn [negb andb].
  - rewrite (st_bind_ok _ _ w true w) by done. intros (u & w1 & E & E')%bind_inv. injection E' as <-.
    split_and!; [done| |by left]. by apply (sc_health _ _ (rel_of _ _ _ _ _ (probe_scanned b) E)).
  - destruct (flt _ _) eqn:Et; [done|]. intros (ok & w1 & E & E')%bind_inv.
    destruct ok; [|done]. apply bind_inv in E' as (u & w2 & E1 & E2). injection E2 as <-.
    apply recheck_true in E as [H1 H2].
    split_and!; [done| |by right]. by apply (sc_health _ _ (rel_of _ _ _ _ _ (probe_scanned b) E1)).
Qed.

Lemma scan_elem now names w l w' b :
  scan now names w = (Ok l, w') → b ∈ l →
  b ∈ names ∧ ∃ w1 w2, scanned w w1 ∧ is_available now b w1 = (Ok true, w2) ∧ scanned w2 w'.
Proof.
  revert w l. induction names as [|n names IH]; intros w l; cbn [scan].
  - intros [= <- _]. by intros ?%not_elem_of_nil.
  - intros (ok & w1 & E1 & E)%bind_inv. apply bind_inv in E as (rest & w2 & E2 & E3).
    injection E3 as <- ->. intros Hb.
    assert ((b ∈ rest) ∨ ((b = n) ∧ (ok = true))) as [Hr|[-> ->]].
    { destruct ok; [|by left]. apply elem_of_cons in Hb as [->|?]; auto. }
    + destruct (IH _ _ E2 Hr) as (H1 & v1 & v2 & H2 & H3 & H4). split; [by apply elem_of_cons; right|].
      exists v1, v2. split_and!; [|done..]. etransitivity; [|exact H2].
      exact (rel_of _ _ _ _ _ (is_available_scanned now n) E1).
    + split; [apply list_elem_of_here|]. exists w, w1. split_and!; [reflexivity|done|].
      exact (rel_of _ _ _ _ _ (scan_scanned now names) E2).
Qed.

(** Every available broker may be used: registered, not blacklisted, healthy
    after the scan, and healthy before it or recovered. *)
Definition eligible (b : string) (w w' : router) : Prop :=
  b ∈ rt_names w ∧ (b ∉ ro_blacklist (rt_cfg w)) ∧ healthy b w' = true.

Lemma available_elem w l w' b :
  available_brokers w = (Ok l, w') → b ∈ l → eligible b w w'.
Proof.
  unfold available_brokers. intros (now & w1 & E1 & E)%bind_inv. apply bind_inv in E as (names & w2 & E2 & E3).
  injection E2 as <- <-. intros Hb. destruct (scan_elem _ _ _ _ _ _ E3 Hb) as (H1 & v1 & v2 & H2 & H3 & H4).
  pose proof (rel_of _ _ _ _ _ time_scanned E1) as H0.
  apply is_available_true in H3 as (H5 & H6 & H7). unfold eligible. split_and!.
  - by rewrite <- (sc_names _ _ H0).
  - intros Hin. apply str_mem_spec in Hin. unfold blacklisted in H5.
    rewrite (sc_cfg _ _ H2), (sc_cfg _ _ H0) in H5. congruence.
  - by apply (sc_health _ _ H4).
Qed.

(** *** The least fee *)

Definition cheaper (key : string → float64) (best b : string) : string :=
  if flt (key b) (key best) then b else best.
Lemma cheaper_in key x b : cheaper key x b = x ∨ cheaper key x b = b.
Proof. unfold cheaper. destruct (flt _ _); auto. Qed.
Lemma cheaper_le key x b :
  is_nan (key x) = false → is_nan (key b) = false →
  fle (key (cheaper key x b)) (key x) = true ∧ fle (key (cheaper key x b)) (key b) = true.
Proof.
  intros Hx Hb. unfold cheaper. destruct (flt (key b) (key x)) eqn:E.
  - split; [by apply flt_fle|by apply fle_refl].
  - split; [by apply fle_refl|]. by rewrite fle_flt, E.
Qed.

Lemma min_by_elem key x l : min_by key x l ∈ x :: l.
Proof.
  revert x. induction l as [|b l IH]; intros x; [apply list_elem_of_here|].
  change (min_by key x (b :: l)) with (min_by key (cheaper key x b) l).
  specialize (IH (cheaper key x b)). apply elem_of_cons in IH as [->|Hin].
  - destruct (cheaper_in key x b) as [-> | ->]; repeat constructor.
  - by do 2 (apply elem_of_cons; right).
Qed.
Lemma min_by_least key x l c :
  (∀ b, b ∈ x :: l → is_nan (key b) = false) → c ∈ x :: l → fle (key (min_by key x l)) (key c) = true.
Proof.
  revert x c. induction l as [|b l IH]; intros x c Hn Hc.
  - apply list_elem_of_singleton in Hc as ->. by apply fle_refl, Hn, list_elem_of_here.
  - change (min_by key x (b :: l)) with (min_by key (cheaper key x b) l).
    destruct (cheaper_le key x b) as [H1 H2]; [apply Hn; repeat constructor..|].
    assert (∀ z, z ∈ cheaper key x b :: l → is_nan (key z) = false) as Hn'.
    { intros z [->|Hz]%elem_of_cons; [|by apply Hn; do 2 (apply elem_of_cons; right)].
      destruct (cheaper_in key x b) as [-> | ->]; apply Hn; repeat constructor. }
    pose proof (IH _ _ Hn' (list_elem_of_here _ _)) as Hm.
    apply elem_of_cons in Hc as [->|[->|Hc]%elem_of_cons].
    + by eapply fle_trans.
    + by eapply fle_trans.
    + apply IH; [done|by apply elem_of_cons; right].
Qed.

Lemma weigh_elem best s l w b w' : weigh best s l w = (Ok b, w') → b = best ∨ b ∈ l.
Proof.
  revert best s w. induction l as [|c l IH]; intros best s w; cbn [weigh].
  - intros [= <- _]. by left.
  - intros (o & w1 & E1 & E)%bind_inv. rewrite elem_of_cons.
    destruct o as [sc|]; [destruct (fgt _ _)|]; apply IH in E as [->|?]; auto.
Qed.

Lemma mod_lookup x (l : list string) i : default x ((x :: l) !! Z.to_nat (i `mod` Z.of_nat (length (x :: l)))) ∈ x :: l.
Proof.
  destruct ((x :: l) !! _) as [y|] eqn:E; [by eapply list_elem_of_lookup_2|apply list_elem_of_here].
Qed.

Lemma scanned_fees w w' b : scanned w w' → fee_of w' b = fee_of w b.
Proof. intros H. unfold fee_of, all_fees. by rewrite (sc_cfg _ _ H). Qed.

(** How a selection comes about. *)
Lemma select_inv w b w' :
  select_broker w = (Ok (Some b), w') →
  ∃ l w1, available_brokers w = (Ok l, w1) ∧ b ∈ l ∧
    (ro_preferred (rt_cfg w) ≠ "" → ro_preferred (rt_cfg w) ∈ l → b = ro_preferred (rt_cfg w)) ∧
    (∀ c, healthy c w1 = true → healthy c w' = true) ∧
    (ro_strategy (rt_cfg w) = "lowest_fee" → (∀ c, is_nan (fee_of w c) = false) →
     ro_preferred (rt_cfg w) = b ∨ ∀ c, c ∈ l → fle (fee_of w b) (fee_of w c) = true).
Proof.
  unfold select_broker. intros (l & w1 & E1 & E)%bind_inv. destruct l as [|x l]; [done|].
  pose proof (rel_of _ _ _ _ _ available_scanned E1) as Hs.
  rewrite (st_bind_ok st_get _ w1 w1 w1) in E by done. rewrite (sc_cfg _ _ Hs) in E.
  exists (x :: l), w1. split; [done|]. destruct (truthy_str _ && _) eqn:Ep.
  { injection E as <- ->. apply andb_true_iff in Ep as [H1%truthy_str_spec H2%str_mem_spec].
    split_and!; [done..|]. by left. }
  apply bind_inv in E as (b' & w2 & E2 & E3). injection E3 as -> ->.
  assert (ro_preferred (rt_cfg w) ≠ "" → ro_preferred (rt_cfg w) ∈ x :: l → b = ro_preferred (rt_cfg w)) as Hpref.
  { intros H1%truthy_str_spec H2%str_mem_spec. by rewrite H1, H2 in Ep. }
  destruct (String.eqb_spec (ro_strategy (rt_cfg w)) "lowest_fee") as [Hf|Hf].
  { injection E2 as <- ->. split_and!; [apply min_by_elem|done|done|]. intros _ Hn. right. intros c Hc.
    rewrite <- !(scanned_fees _ _ _ Hs). apply min_by_least; [|done].
    intros d _. by rewrite (scanned_fees _ _ _ Hs). }
  assert (b ∈ x :: l ∧ ∀ c, healthy c w1 = true → healthy c w' = true) as [H1 H2].
  2:{ split_and!; [done..|]. by intros. }
  destruct (String.eqb _ "round_robin").
  { unfold select_round_robin in E2. injection E2 as <- <-. split; [apply mod_lookup|done]. }
  destruct (String.eqb _ "weighted").
  - unfold select_weighted in E2. split.
    + apply weigh_elem in E2 as [->|?]; [apply list_elem_of_here|done].
    + assert (∀ ls best s, st_rel scanned (weigh best s ls)) as Hw.
      { induction ls as [|d ls IH]; intros best s; cbn [weigh]; scans; try apply score_scanned; apply IH. }
      intros c Hc. by apply (sc_health _ _ (rel_of _ _ _ _ _ (Hw _ _ _) E2)).
  - injection E2 as <- <-. split; [apply list_elem_of_here|done].
Qed.

(** Selection respects its rules.  A selected broker is registered, not
    blacklisted and healthy after the selection; a preferred broker that is
    available is the one selected; and under the lowest-fee strategy no
    available broker is cheaper, when every fee is a number. *)
Theorem selected_is_eligible (w w' : router) (b : string) :
  select_broker w = (Ok (Some b), w') →
  ∃ l w1, available_brokers w = (Ok l, w1) ∧ b ∈ l ∧
    b ∈ rt_names w ∧ (b ∉ ro_blacklist (rt_cfg w)) ∧ healthy b w' = true ∧
    (ro_preferred (rt_cfg w) ≠ "" → ro_preferred (rt_cfg w) ∈ l → b = ro_preferred (rt_cfg w)) ∧
    (ro_strategy (rt_cfg w) = "lowest_fee" → (∀ c, is_nan (fee_of w c) = false) →
     ro_preferred (rt_cfg w) = b ∨ ∀ c, c ∈ l → fle (fee_of w b) (fee_of w c) = true).
Proof.
  intros (l & w1 & E & Hb & Hp & Hh & Hf)%select_inv.
  destruct (available_elem _ _ _ _ E Hb) as (H1 & H2 & H3).
  exists l, w1. split_and!; auto.
Qed.

(** *** Round robin *)

(** [k] selections in a row from the same available brokers. *)
Fixpoint rounds (k : nat) (x : string) (l : list string) (w : router) : list string * router :=
  match k with
  | O => ([], w)
  | S k' =>
      match select_round_robin x l w with
      | (Ok b, w') => let '(bs, w'') := rounds k' x l w' in (b :: bs, w'')
      | (Raise _, w') => ([], w')
      end
  end.

Lemma rounds_lookup k x l w :
  0 ≤ rt_index w → rt_index w + Z.of_nat k ≤ 1000 →
  (rounds k x l w).1 = ((λ j, default x ((x :: l) !! Z.to_nat ((rt_index w + Z.of_nat j) `mod` Z.of_nat (length (x :: l))))) <$> seq 0 k).
Proof.
  revert w. induction k as [|k IH]; intros w H0 H1; [done|].
  cbn [rounds]. unfold select_round_robin at 1. rewrite (st_bind_ok st_get _ w w w) by done.
  unfold mbind, st_bind, st_modify, mret, st_ret.
  destruct (decide (k = 0%nat)) as [->|Hk].
  { cbn [rounds fst]. simpl seq. simpl. by rewrite Z.add_0_r. }
  assert (rt_index (put_index ((rt_index w + 1) `mod` 1000) w) = rt_index w + 1) as Hi.
  { simpl. apply Z.mod_small. lia. }
  specialize (IH (put_index ((rt_index w + 1) `mod` 1000) w)).
  rewrite Hi in IH. specialize (IH ltac:(lia) ltac:(lia)).
  destruct (rounds k x l _) as [bs w''] eqn:E. cbn [fst] in *. subst bs.
  change (seq 0 (S k)) with (0%nat :: seq 1 k). rewrite fmap_cons. f_equal; [by rewrite Z.add_0_r|].
  rewrite <- seq_shift, <- list_fmap_compose. apply list_fmap_ext. intros j y _. unfold compose.
  by replace (rt_index w + Z.of_nat (S y)) with (rt_index w + 1 + Z.of_nat y) by lia.
Qed.

(** Round robin is fair: from any index with room before the counter
    wraps at a thousand, as many selections as there are available brokers
    choose each of them once, up to order. *)
Theorem round_robin_fair (x : string) (l : list string) (w : router) :
  let n := length (x :: l) in
  0 ≤ rt_index w → rt_index w + Z.of_nat n ≤ 1000 →
  (rounds n x l w).1 ≡ₚ x :: l.
Proof.
  intros n H0 H1. rewrite rounds_lookup by done. set (r := Z.to_nat (rt_index w `mod` Z.of_nat n)).
  assert (((λ j, default x ((x :: l) !! Z.to_nat ((rt_index w + Z.of_nat j) `mod` Z.of_nat (length (x :: l))))) <$> seq 0 n)
    = rotate r (x :: l)) as ->.
  { assert (0 < Z.of_nat n) as Hn by (unfold n; simpl; lia).
    pose proof (Z.mod_pos_bound (rt_index w) (Z.of_nat n) Hn) as Hr.
    assert ((r < n)%nat) as Hrn by (unfold r; lia). assert (Z.of_nat r = rt_index w `mod` Z.of_nat n) as Hrz by (unfold r; lia).
    apply list_eq_same_length with n; [by rewrite length_rotate|by rewrite length_fmap, length_seq|].
    intros j a b Hj Ha Hb. rewrite list_lookup_fmap, lookup_seq_lt in Ha by done. injection Ha as <-.
    rewrite lookup_rotate_r in Hb by done. change (length (x :: l)) with n in Hb |- *. cbn beta.
    change (0 + j)%nat with j. unfold rotate_nat_add in Hb. rewrite Hrz, Zplus_mod_idemp_l in Hb. unfold n in Hb. cbn [length] in Hb. by rewrite Hb. }
  unfold rotate. rewrite Permutation_app_comm. by rewrite take_drop.
Qed.

(** *** A failed broker *)

(** What runs without naming a broker for an order. *)
Inductive auto_op := AutoSelect | AutoRoute (symbol direction : string) (qty strike : Z) | AutoHealth
  | AutoFill (broker : string) (success : bool).
(** An operation, with the broker it chose or reported. *)
Definition run_auto (o : auto_op) : TM (option string) :=
  match o with
  | AutoSelect => select_broker
  | AutoRoute symbol direction qty strike => r ← route_to_best symbol direction qty strike; mret (Some (rr_broker r))
  | AutoHealth => health_check ;; mret None
  | AutoFill broker success => record_fill broker success ;; mret None
  end.
Definition run_autos (os : list auto_op) (w : router) : router := foldl (λ w o, (run_auto o w).2) w os.

(** [b] never answers its health check with ["healthy"]. *)
Definition never_recovers (b : string) : Prop := ∀ x, (ad_health_check b 9999 x).1 ≠ Ok (Some "healthy").

Definition sick (b : string) (w w' : router) : Prop := healthy b w = false → healthy b w' = false.
#[local] Instance sick_preorder b : PreOrder (sick b).
Proof. split; [by intros w|]. intros w1 w2 w3 H1 H2 H. auto. Qed.

Lemma sick_same {A} b (m : TM A) : (∀ w, rt_health (m w).2 = rt_health w) → st_rel (sick b) m.
Proof. intros H w. unfold sick, healthy. by rewrite H. Qed.
Lemma sick_adapter {A} b (m : ST X A) : st_rel (sick b) (on_adapter m).
Proof. apply sick_same. intros w. unfold on_adapter, st_zoom. by destruct (m (rt_ext w)). Qed.
Lemma sick_time b : st_rel (sick b) time_time.
Proof. apply sick_same. intros w. by rewrite time_time_total. Qed.
Lemma sick_health b c v : b ≠ c → st_rel (sick b) (st_modify (λ w, put_health (<[c := v]> (rt_health w)) w)).
Proof. intros Hne w. unfold sick, healthy. simpl. by rewrite dict_lookup_insert_ne. Qed.
Lemma sick_mark b : st_rel (sick b) (st_modify (λ w, put_health (<[b := false]> (rt_health w)) w)).
Proof. intros w _. unfold healthy. simpl. by rewrite dict_lookup_insert_eq. Qed.

Ltac sicks := rel_auto ltac:(first [apply sick_adapter | apply sick_time
  | apply sick_health; congruence | by apply sick_same]).

Section sick.
Context (b : string) (Hb : never_recovers b).

Lemma sick_recheck now c : st_rel (sick b) (recheck now c).
Proof.
  unfold recheck. destruct (decide (b = c)) as [<-|Hne]; [|sicks].
  intros w. unfold st_try, mbind, st_bind, on_adapter, st_zoom.
  pose proof (Hb (rt_ext w)) as Hx. destruct (ad_health_check b 9999 (rt_ext w)) as [[h|e] x]; simpl in *.
  - rewrite bool_decide_eq_false_2 by congruence. by intros Hs.
  - destruct (catches probe_errors e); by intros Hs.
Qed.
Lemma sick_available : st_rel (sick b) available_brokers.
Proof.
  assert (∀ now c, st_rel (sick b) (is_available now c)) as Ha.
  { intros now c. unfold is_available, probe. sicks. apply sick_recheck. }
  assert (∀ now l, st_rel (sick b) (scan now l)) as Hs.
  { intros now l. induction l as [|c l IH]; cbn [scan]; sicks; [apply Ha|exact IH]. }
  unfold available_brokers. sicks. apply Hs.
Qed.
Lemma sick_score c : st_rel (sick b) (score_broker c).
Proof. unfold score_broker. sicks. apply sick_available. Qed.
Lemma sick_select : st_rel (sick b) select_broker.
Proof.
  assert (∀ ls best s, st_rel (sick b) (weigh best s ls)) as Hw.
  { induction ls as [|d ls IH]; intros best s; cbn [weigh]; sicks; try apply sick_score; apply IH. }
  unfold select_broker, select_lowest_fee, select_round_robin, select_weighted. sicks; [apply sick_available|apply Hw].
Qed.

(** An unhealthy broker is not selected. *)
Lemma sick_not_selected w c w' : healthy b w = false → select_broker w = (Ok (Some c), w') → c ≠ b.
Proof.
  intros Hsick E ->. pose proof (rel_of _ _ _ _ _ sick_select E Hsick) as Hs.
  apply select_inv in E as (l & w1 & E & Hin & _ & Hh & _).
  destruct (available_elem _ _ _ _ E Hin) as (_ & _ & H3). rewrite (Hh _ H3) in Hs. done.
Qed.

Lemma sick_route c symbol direction qty strike :
  b ≠ c → st_rel (sick b) (route_order c symbol direction qty strike).
Proof. intros Hne. unfold route_order, elapsed_ms. sicks. Qed.
Lemma sick_auto o : st_rel (sick b) (run_auto o).
Proof.
  destruct o as [|symbol direction qty strike| |c ok]; cbn [run_auto].
  - apply sick_select.
  - sicks. intros w Hw. unfold route_to_best, mbind, st_bind.
    pose proof (sick_select w Hw) as H1. destruct (select_broker w) as [[[c|]|e] w1] eqn:E; [|done..].
    apply (sick_route c); [|done]. intros <-. by apply (sick_not_selected _ _ _ Hw E).
  - assert (∀ av ns acc, st_rel (sick b) (broker_rows av ns acc)) as Hr.
    { intros av ns. induction ns as [|n ns IH]; intros acc; cbn [broker_rows]; [sicks|].
      unfold broker_row_of. sicks; [apply sick_score|apply IH]. }
    unfold health_check. sicks; [apply sick_available|apply Hr].
  - unfold record_fill. sicks.
Qed.
End sick.

(** The broker in a result of [route_order] is the one it was asked for. *)
Lemma route_broker c symbol direction qty strike w r w' :
  route_order c symbol direction qty strike w = (Ok r, w') → rr_broker r = c.
Proof.
  unfold route_order. intros (t & w1 & _ & E)%bind_inv. inv_bind E u w2 H2.
  destruct (negb _); [by injection E as <- _|].
  apply try_inv in E as [E|(e & w3 & _ & _ & E)].
  - inv_bind E o w3 H3. inv_bind E ms w4 H4. inv_bind E v w5 H5. destruct o as [id|]; [destruct (truthy_str id)|].
    + inv_bind E a1 w6 H6. inv_bind E a2 w7 H7. inv_bind E a3 w8 H8. inv_bind E a4 w9 H9. by injection E as <- _.
    + inv_bind E a1 w6 H6. by injection E as <- _.
    + inv_bind E a1 w6 H6. by injection E as <- _.
  - inv_bind E ms w4 H4. inv_bind E a1 w6 H6. inv_bind E a2 w7 H7. by injection E as <- _.
Qed.

(** A failed broker gets no more orders by itself.  A broker marked
    unhealthy whose health check never answers "healthy" is chosen by no
    later automatic selection and named in no result of an automatic
    routing, however many selections, routings, health reports and recorded
    fills happened before, for as long as no order names it explicitly. *)
Theorem failed_broker_quarantined (b : string) (os : list auto_op) (o : auto_op) (w : router) :
  never_recovers b → b ≠ "" → healthy b w = false →
  healthy b (run_autos os w) = false ∧
  ∀ c w', run_auto o (run_autos os w) = (Ok (Some c), w') → c ≠ b.
Proof.
  intros Hb Hne Hsick.
  assert (healthy b (run_autos os w) = false) as Hs.
  { unfold run_autos. apply (foldl_inv (λ w, healthy b w = false)); [done|].
    intros w' o' _ Hw. by apply (sick_auto b Hb o' w'). }
  split; [done|]. revert Hs. generalize (run_autos os w). clear w Hsick. intros w Hs c w' E.
  destruct o as [|symbol direction qty strike| |d ok]; cbn [run_auto] in E.
  - by apply (sick_not_selected b Hb w c w').
  - inv_bind E r w1 H1. injection E as <- _. unfold route_to_best in H1. inv_bind H1 o w2 H2.
    destruct o as [d|]; [|injection H1 as <- _; done]. apply route_broker in H1 as ->.
    by apply (sick_not_selected b Hb w d w2).
  - by inv_bind E r w1 H1.
  - by inv_bind E r w1 H1.
Qed.
End router.
Arguments router X : clear implicits.

(** ** Concrete routers *)

(** The adapters of [core/adapters/broker_adapters.py]: their [health_check]
    takes no argument, so the router's call raises [TypeError]; here ANGEL is
    down and every other broker numbers its orders. *)
#[export] Instance demo_adapters : Adapters Z := {
  ad_health_check _ _ :=
    st_raise (PyExn TypeError "health_check() takes 1 positional argument but 2 were given");
  ad_get_order_status _ _ := mret "UNKNOWN"%string;
  ad_place_order broker _ _ _ _ :=
    if String.eqb broker "ANGEL" then st_raise (PyExn ConnectionError "down")
    else st_modify Z.succ ;; n ← st_get; mret (Some (String.append "ORD" (str_of_Z n)))
}.
#[export] Instance demo_sum : PySum := sum_left.

(** Sixty seconds pass between readings. *)
Definition demo_clock : clock := Clock 0 (replicate 100 (60 * usec_per_sec)).
Definition demo_router (o : option router_options) : router Z := new_router ["KITE"; "ANGEL"] o demo_clock 0.
Definition round_robin_options : option router_options :=
  Some (RouterOptions (Some "round_robin") None None None None None None None).

Definition routed (r : res route_result) : option (bool * string * string) :=
  match r with Ok r => Some (rr_success r, rr_broker r, rr_order_id r) | Raise _ => None end.
(** The cheaper broker is tried first and fails; after that it is never
    tried again, though its timeout has passed before each attempt. *)
Example demo_routing :
  let w0 := demo_router None in
  let '(r1, w1) := route_to_best "NIFTY" "CALL" 1 23600 w0 in
  let '(r2, w2) := route_to_best "NIFTY" "CALL" 1 23600 w1 in
  let '(r3, _) := route_to_best "NIFTY" "CALL" 1 23600 w2 in
  map routed [r1; r2; r3] =
    [Some (false, "ANGEL"%string, ""%string); Some (true, "KITE"%string, "ORD1"%string);
     Some (true, "KITE"%string, "ORD2"%string)].
Proof. vm_compute. reflexivity. Qed.

(** The counter wraps at a thousand: with three brokers the first is chosen
    twice in a row there. *)
Example round_robin_wraps :
  (rounds 2 "A" ["B"; "C"] (put_index 999 (demo_router round_robin_options))).1 = ["A"; "A"]%string.
Proof. vm_compute. reflexivity. Qed.

Abbreviation demo_select := (select_broker (demo_router None)).
Lemma selected_is_eligible_witness :
  match demo_select with
  | (Ok (Some b), w') => b ∈ ["KITE"; "ANGEL"]%string ∧ healthy b w' = true
  | _ => False
  end.
Proof.
  destruct demo_select as [[[b|]|e] w'] eqn:E; [|exfalso; revert E; vm_compute; discriminate..].
  destruct (selected_is_eligible _ _ _ E) as (l & w1 & _ & _ & H1 & _ & H2 & _).
  split; [exact H1|exact H2].
Defined.

Lemma round_robin_fair_witness :
  (rounds 3 "A" ["B"; "C"] (put_index 7 (demo_router round_robin_options))).1 ≡ₚ ["A"; "B"; "C"]%string.
Proof.
  apply (round_robin_fair "A" ["B"; "C"] (put_index 7 (demo_router round_robin_options))); vm_compute; discriminate.
Defined.

Lemma failed_broker_quarantined_witness :
  let w := (route_order "ANGEL" "NIFTY" "CALL" 1 23600 (demo_router None)).2 in
  let os := [AutoRoute "NIFTY" "CALL" 1 23600; AutoHealth; AutoFill "ANGEL" true; AutoSelect] in
  healthy "ANGEL" (run_autos os w) = false ∧
  ∀ c w', run_auto (AutoRoute "NIFTY" "PUT" 2 23600) (run_autos os w) = (Ok (Some c), w') → c ≠ "ANGEL"%string.
Proof.
  intros w os. refine (failed_broker_quarantined "ANGEL" os (AutoRoute "NIFTY" "PUT" 2 23600) w _ _ _).
  - intros x. discriminate.
  - discriminate.
  - vm_compute. reflexivity.
Defined.
