(* ===== verification/BrokerState.v ===== *)
(** * The broker state handler

    [core/execution/broker_state_handler.py]: [BrokerStateHandler] turns a
    broker's status, a timeout or an exception into a category and an
    advice, whether to retry among it, and counts the statuses it does not
    know. *)
From S2P Require Import Prelude PyStr Float64 PyDict PyVal CapitalManager.

Inductive BrokerStateCategory := KNOWN_TERMINAL | KNOWN_PENDING | C_TIMEOUT | NETWORK_ERROR | UNKNOWN_STATUS
  | NO_RESPONSE.
Inductive ActionRecommendation := PROCEED | RETRY | BLOCK_RETRY | MANUAL_REVIEW | A_UNKNOWN.

#[global] Instance action_eq_dec : EqDecision ActionRecommendation.
Proof. solve_decision. Defined.
#[global] Instance category_eq_dec : EqDecision BrokerStateCategory.
Proof. solve_decision. Defined.

(** [StateResolution]; its timestamp is the reading of the clock at which it
    is made. *)
Record resolution := StateResolution {
  sr_category : BrokerStateCategory; sr_action : ActionRecommendation; sr_message : string;
  sr_can_retry : bool; sr_terminal : bool; sr_timestamp : Z }.

Record handler := Handler { h_max_retries : Z; h_timeout : Z; h_counts : pydict Z; h_clk : clock }.
Definition put_counts (c : pydict Z) (h : handler) : handler :=
  Handler (h_max_retries h) (h_timeout h) c (h_clk h).

#[global] Instance handler_clock : HasClock handler :=
  {| clock_of := h_clk; set_clock := λ c h, Handler (h_max_retries h) (h_timeout h) (h_counts h) c |}.

Definition HM (A : Type) : Type := ST handler A.

Definition UNKNOWN_STATUS_THRESHOLD : Z := 3.
Definition create_state_handler (max_retries timeout : Z) (c : clock) : handler := Handler max_retries timeout ∅ c.

Definition resolve (c : BrokerStateCategory) (a : ActionRecommendation) (message : string) (can_retry terminal : bool) :
    HM resolution :=
  t ← now_ist; mret (StateResolution c a message can_retry terminal t).

(** ** [resolve_status] *)

Definition filled_words : list string := ["COMPLETE"; "FILLED"].
Definition dead_words : list string := ["REJECTED"; "CANCELLED"; "EXPIRED"].
Definition pending_words : list string := ["OPEN"; "PENDING"; "TRIGGER PENDING"; "SUBMITTED"].
Definition partial_words : list string := ["PARTIALLY FILLED"; "PARTIAL"].
Definition network_words : list string := ["NETWORK"; "CONNECTION"; "TIMEOUT"].

(** [status.upper().strip()] *)
Definition status_key (status : string) : string := strip (str_upper status).

(** An order has been pending for longer than the timeout. *)
Definition overdue (last_update : option Z) : HM bool :=
  match last_update with
  | None => mret false
  | Some t =>
      now ← now_ist;
      h ← st_get;
      mret (fgt (total_seconds (now - t)) (f_of_Z (h_timeout h)))
  end.

Definition resolve_unknown (status key : string) : HM resolution :=
  h ← st_get;
  let count := default 0 (h_counts h !! key) in
  if UNKNOWN_STATUS_THRESHOLD <=? count then
    resolve UNKNOWN_STATUS MANUAL_REVIEW
      (cat ["Unknown status '"; status; "' seen "; str_of_Z count; " times - requires manual review"]) false false
  else
    st_modify (λ h, put_counts (<[key := count + 1]> (h_counts h)) h) ;;
    resolve UNKNOWN_STATUS RETRY (cat ["Unknown status '"; status; "' - will retry"]) true false.

Definition resolve_status (status : option string) (last_update : option Z) (last_error : option string) :
    HM resolution :=
  match status with
  | None => resolve NO_RESPONSE RETRY "No status received from broker" true false
  | Some status =>
      if negb (truthy_str status) then resolve NO_RESPONSE RETRY "No status received from broker" true false
      else
        let key := status_key status in
        let word := str_lower key in
        if str_mem key filled_words then resolve KNOWN_TERMINAL PROCEED (cat ["Order "; word]) false true
        else if str_mem key dead_words then
          resolve KNOWN_TERMINAL BLOCK_RETRY (cat ["Order "; word; " - no retry allowed"]) false true
        else if str_mem key pending_words then
          late ← overdue last_update;
          h ← st_get;
          if late : bool then
            resolve C_TIMEOUT RETRY (cat ["Order "; word; " but exceeded "; str_of_Z (h_timeout h); "s timeout"]) true false
          else resolve KNOWN_PENDING PROCEED (cat ["Order "; word; " - awaiting fill"]) false false
        else if str_mem key partial_words then
          resolve KNOWN_PENDING PROCEED "Order partially filled - tracking remaining" false false
        else if any_in network_words key then
          resolve NETWORK_ERROR RETRY (cat ["Network error: "; str_or last_error status]) true false
        else resolve_unknown status key
  end.

(** [should_retry] *)
Definition should_retry (status : option string) (retry_count : Z) (r : option resolution) : HM bool :=
  r ← (match r with Some r => mret r | None => resolve_status status None None end);
  h ← st_get;
  mret (sr_can_retry r && negb (h_max_retries h <=? retry_count)).

(** ** Timeouts and exceptions *)

(** [handle_timeout] *)
Definition handle_timeout (order_id : string) (retry_count : Z) : HM resolution :=
  h ← st_get;
  if h_max_retries h <=? retry_count then
    resolve C_TIMEOUT BLOCK_RETRY (cat ["Order "; order_id; ": timeout after "; str_of_Z retry_count; " retries"]) false false
  else
    resolve C_TIMEOUT RETRY (cat ["Order "; order_id; ": timeout, retry attempt "; str_of_Z (retry_count + 1)]) true false.

(** [handle_exception] *)
Definition handle_exception (order_id : string) (e : pyexn) (retry_count : Z) : HM resolution :=
  h ← st_get;
  let msg := exn_msg e in
  let low := str_lower msg in
  let spent := h_max_retries h <=? retry_count in
  if any_in ["timeout"; "timed out"] low then handle_timeout order_id retry_count
  else if any_in ["network"; "connection"] low then
    if spent then
      resolve NETWORK_ERROR BLOCK_RETRY (cat ["Network error after "; str_of_Z retry_count; " retries: "; msg]) false false
    else resolve NETWORK_ERROR RETRY (cat ["Network error: "; msg]) true false
  else if any_in ["auth"; "token"; "unauthorized"] low then
    resolve NETWORK_ERROR BLOCK_RETRY (cat ["Auth error (non-retryable): "; msg]) false true
  else if any_in ["insufficient"; "margin"] low then
    resolve KNOWN_TERMINAL BLOCK_RETRY (cat ["Margin/balance error: "; msg]) false true
  else if spent then
    resolve UNKNOWN_STATUS BLOCK_RETRY (cat ["Max retries exceeded: "; exn_name (exn_cls e); " - "; msg]) false false
  else resolve UNKNOWN_STATUS RETRY (cat ["Error ("; exn_name (exn_cls e); "): "; msg]) true false.

(** [get_pending_orders_count], [clear_unknown_status] *)
Definition get_pending_orders_count (h : handler) : Z :=
  Z.of_nat (length (filter (λ c, c < UNKNOWN_STATUS_THRESHOLD) (dvalues (h_counts h)))).
Definition clear_unknown_status (status : string) : HM unit :=
  st_modify (λ h, put_counts (delete (status_key status) (h_counts h)) h).

(** ** Histories *)

Inductive state_op :=
| SResolve (status : option string) (last_update : option Z) (last_error : option string)
| SShould (status : option string) (retry_count : Z)
| STimeout (order_id : string) (retry_count : Z)
| SException (order_id : string) (e : pyexn) (retry_count : Z)
| SClear (status : string).

(** The key a step resolves and whether a retry is advised. *)
Definition run_state_op (o : state_op) : HM (option (string * bool)) :=
  match o with
  | SResolve status t e =>
      r ← resolve_status status t e; mret ((λ s, (status_key s, sr_can_retry r)) <$> status)
  | SShould status n => b ← should_retry status n None; mret ((λ s, (status_key s, b)) <$> status)
  | STimeout id n => handle_timeout id n ;; mret None
  | SException id e n => handle_exception id e n ;; mret None
  | SClear s => clear_unknown_status s ;; mret None
  end.
Fixpoint run_state (os : list state_op) (h : handler) : list (string * bool) * handler :=
  match os with
  | [] => ([], h)
  | o :: os' =>
      let '(r, h1) := run_state_op o h in
      let '(l, h2) := run_state os' h1 in
      (match r with Ok (Some p) => p :: l | _ => l end, h2)
  end.
(** How often a retry was advised for [key]. *)
Definition retries_of (key : string) (l : list (string * bool)) : Z :=
  Z.of_nat (length (filter (λ p, p = (key, true)) l)).

Definition known_words : list string := filled_words ++ dead_words ++ pending_words ++ partial_words.
(** A status the handler does not know: not empty, none of its words. *)
Definition unknown_key (key : string) : Prop := (key ∉ known_words) ∧ any_in network_words key = false.
Definition count_of (key : string) (h : handler) : Z := default 0 (h_counts h !! key).

(** ** What each part does to the counts *)

Definition same_counts (h h' : handler) : Prop := h_counts h' = h_counts h ∧ h_max_retries h' = h_max_retries h.
#[local] Instance same_counts_preorder : PreOrder same_counts.
Proof. split; [by intros h; split|]. intros h1 h2 h3 [A B] [C D]. split; congruence. Qed.

Lemma resolve_ok c a m b1 b2 h :
  ∃ h', resolve c a m b1 b2 h = (Ok (StateResolution c a m b1 b2 (clk_read (h_clk h)).1), h') ∧ same_counts h h'.
Proof. eexists. unfold resolve, mbind, st_bind. rewrite now_ist_total. split; [reflexivity|done]. Qed.
Lemma resolve_same c a m b1 b2 : st_rel same_counts (resolve c a m b1 b2).
Proof. intros h. destruct (resolve_ok c a m b1 b2 h) as (h' & -> & H). exact H. Qed.
Lemma now_same : st_rel same_counts now_ist.
Proof. intros h. by rewrite now_ist_total. Qed.
Ltac sames := rel_auto ltac:(first [apply resolve_same | apply now_same]).

Lemma timeout_same id n : st_rel same_counts (handle_timeout id n).
Proof. unfold handle_timeout. sames. Qed.
Lemma exception_same id e n : st_rel same_counts (handle_exception id e n).
Proof. unfold handle_exception. sames; apply timeout_same. Qed.

(** The count of one key, and the retry limit, stay. *)
Definition same_count (key : string) (h h' : handler) : Prop :=
  count_of key h' = count_of key h ∧ h_max_retries h' = h_max_retries h.
#[local] Instance same_count_preorder key : PreOrder (same_count key).
Proof. split; [by intros h; split|]. intros h1 h2 h3 [A B] [C D]. split; congruence. Qed.
Lemma same_counts_count key h h' : same_counts h h' → same_count key h h'.
Proof. intros [H1 H2]. unfold same_count, count_of. by rewrite H1. Qed.
Lemma count_of_ne key key' n h : key' ≠ key → count_of key (put_counts (<[key' := n]> (h_counts h)) h) = count_of key h.
Proof. intros H. unfold count_of. simpl. by rewrite dict_lookup_insert_ne. Qed.

Ltac same_count := rel_auto ltac:(first
  [ intros ?; apply same_counts_count, resolve_same | intros ?; apply same_counts_count, now_same ]).

Lemma resolve_unknown_other key s key' : key' ≠ key → st_rel (same_count key) (resolve_unknown s key').
Proof.
  intros Hne. unfold resolve_unknown. same_count. intros h. split; [|done]. by apply count_of_ne.
Qed.
(** Resolving a status does not count for another key, ... *)
Lemma resolve_status_other key status t e :
  (∀ s, status = Some s → status_key s ≠ key) → st_rel (same_count key) (resolve_status status t e).
Proof.
  intros Hne. destruct status as [s|]; unfold resolve_status, overdue; same_count.
  apply resolve_unknown_other. by apply Hne.
Qed.

(** ... and for an unknown key it counts the retries it advises, up to the
    threshold. *)
Lemma unknown_not_word key s words :
  unknown_key key → status_key s = key → (∀ w, w ∈ words → w ∈ known_words) → str_mem (status_key s) words = false.
Proof.
  intros [Hk _] -> Hw. destruct (str_mem key words) eqn:E; [|done]. apply str_mem_spec, Hw in E. done.
Qed.
Lemma resolve_status_unknown key s t e h :
  unknown_key key → s ≠ ""%string → status_key s = key →
  ∃ r h', resolve_status (Some s) t e h = (Ok r, h') ∧ h_max_retries h' = h_max_retries h ∧
    sr_can_retry r = (count_of key h <? UNKNOWN_STATUS_THRESHOLD) ∧
    count_of key h' = if count_of key h <? UNKNOWN_STATUS_THRESHOLD then count_of key h + 1 else count_of key h.
Proof.
  intros Hu Hs Hk. unfold resolve_status. apply truthy_str_spec in Hs. rewrite Hs. cbn [negb].
  assert (∀ words, (∀ w, w ∈ words → w ∈ known_words) → str_mem (status_key s) words = false) as Hw
    by (intros words; by apply (unknown_not_word key)).
  unfold known_words in Hw.
  rewrite (Hw filled_words), (Hw dead_words), (Hw pending_words), (Hw partial_words)
    by (intros w; rewrite !elem_of_app; tauto). rewrite Hk.
  destruct Hu as [_ ->]. unfold resolve_unknown. rewrite (st_bind_ok st_get _ h h h) by done.
  change (default 0 (h_counts h !! key)) with (count_of key h). rewrite Z.leb_antisym.
  destruct (count_of key h <? UNKNOWN_STATUS_THRESHOLD); cbn [negb].
  - rewrite (st_bind_ok (st_modify _) _ h () _) by reflexivity.
    destruct (resolve_ok UNKNOWN_STATUS RETRY (cat ["Unknown status '"; s; "' - will retry"]) true false
      (put_counts (<[key := count_of key h + 1]> (h_counts h)) h)) as (h' & E & H1 & H2).
    eexists _, h'. split_and!; [exact E|done|done|]. unfold count_of. rewrite H1. simpl. by rewrite dict_lookup_insert_eq.
  - edestruct (resolve_ok UNKNOWN_STATUS MANUAL_REVIEW) as (h' & E & H1 & H2).
    eexists _, h'. split_and!; [exact E|done|done|]. unfold count_of. by rewrite H1.
Qed.

(** A step advises a retry for [key] only when it counts one. *)
Definition advised (key : string) (r : res (option (string * bool))) : Z :=
  match r with Ok (Some p) => if bool_decide (p = (key, true)) then 1 else 0 | _ => 0 end.
Definition keeps_count (key : string) (o : state_op) : bool :=
  match o with SClear s => negb (String.eqb (status_key s) key) | _ => true end.

Definition step_bound (key : string) (o : state_op) (h : handler) : Prop :=
  count_of key h ≤ 3 →
  let '(r, h') := run_state_op o h in
  count_of key h + advised key r ≤ count_of key h' ≤ 3.

Lemma same_bound key h h' : same_count key h h' → count_of key h ≤ 3 → count_of key h + 0 ≤ count_of key h' ≤ 3.
Proof. intros [-> _]. lia. Qed.
Lemma advised_other key s b : status_key s ≠ key → advised key (Ok (Some (status_key s, b))) = 0.
Proof. intros Hne. simpl. by rewrite bool_decide_eq_false_2 by congruence. Qed.

Lemma silent_bound {A} key (m : HM A) : st_rel same_counts m →
  ∀ h, count_of key h ≤ 3 → let '(r, h') := (m ;; mret None) h in
  count_of key h + advised key r ≤ count_of key h' ≤ 3.
Proof.
  intros Hm h Hc. unfold mbind, st_bind. specialize (Hm h). destruct (m h) as [[a|e] h']; simpl in Hm |- *;
    apply same_bound; auto using same_counts_count.
Qed.

(** A status of another key advises nothing for this one. *)
Lemma other_bound {A} key (s : string) (m : HM A) (g : A → bool) h :
  status_key s ≠ key → st_rel (same_count key) m → count_of key h ≤ 3 →
  let '(r, h') := (a ← m; mret ((λ s, (status_key s, g a)) <$> Some s)) h in
  count_of key h + advised key r ≤ count_of key h' ≤ 3.
Proof.
  intros Hne Hm Hc. specialize (Hm h). unfold mbind, st_bind. destruct (m h) as [[a|e] h']; cbn [snd] in Hm.
  - cbn [mret st_ret fmap option_fmap option_map]. rewrite advised_other by done. by apply same_bound.
  - by apply same_bound.
Qed.

Lemma step_bound_ok key o h : unknown_key key → key ≠ ""%string → keeps_count key o = true → step_bound key o h.
Proof.
  intros Hu Hne Hk Hc. destruct o as [[s|] t e|[s|] n|id n|id e n|s]; cbn [run_state_op].
  - assert (status_key s = key → s ≠ ""%string) as Hs by (intros <- ->; apply Hne; reflexivity).
    destruct (decide (status_key s = key)) as [Hkey|Hkey].
    + destruct (resolve_status_unknown key s t e h Hu (Hs Hkey) Hkey) as (r & h' & E & _ & H1 & H2).
      rewrite (st_bind_ok _ _ _ _ _ E). simpl. rewrite Hkey, H1, H2. unfold UNKNOWN_STATUS_THRESHOLD in *.
      destruct (Z.ltb_spec (count_of key h) 3); case_bool_decide; try congruence; lia.
    + apply (other_bound key s (resolve_status (Some s) t e) sr_can_retry); [done| |done].
      apply resolve_status_other. by intros ? [= <-].
  - pose proof (resolve_status_other key None t e ltac:(done) h) as Hm. unfold mbind, st_bind.
    destruct (resolve_status None t e h) as [[r|err] h']; by apply same_bound.
  - assert (status_key s = key → s ≠ ""%string) as Hs by (intros <- ->; apply Hne; reflexivity).
    destruct (decide (status_key s = key)) as [Hkey|Hkey].
    + destruct (resolve_status_unknown key s None None h Hu (Hs Hkey) Hkey) as (r & h' & E & _ & H1 & H2).
      unfold should_retry, mbind, st_bind. rewrite E. simpl.
      rewrite Hkey, H1, H2. unfold UNKNOWN_STATUS_THRESHOLD in *.
      destruct (Z.ltb_spec (count_of key h) 3); case_bool_decide; try lia. simpl in *. congruence.
    + apply (other_bound key s (should_retry (Some s) n None) (λ b, b)); [done| |done].
      unfold should_retry. same_count. apply resolve_status_other. by intros ? [= <-].
  - assert (st_rel (same_count key) (should_retry None n None)) as Hm.
    { unfold should_retry. same_count. }
    specialize (Hm h). unfold mbind, st_bind. destruct (should_retry None n None h) as [[r|err] h']; by apply same_bound.
  - by apply (silent_bound key (handle_timeout id n) (timeout_same id n)).
  - by apply (silent_bound key (handle_exception id e n) (exception_same id e n)).
  - simpl in Hk |- *. bools. unfold count_of. simpl. rewrite dict_lookup_delete_ne by done.
    change (default 0 (h_counts h !! key)) with (count_of key h). lia.
Qed.

Lemma retries_of_cons key p l :
  retries_of key (p :: l) = (if bool_decide (p = (key, true)) then 1 else 0) + retries_of key l.
Proof. unfold retries_of. rewrite filter_cons. case_decide; case_bool_decide; try done. simpl. lia. Qed.

(** A status the handler does not know is retried at most three times:
    over every history in which the operator does not clear it, whatever
    statuses, timeouts and exceptions are resolved in between, the retries
    advised for it never exceed what is left of the threshold, and each is
    counted. *)
Theorem unknown_retries_bounded (key : string) (os : list state_op) (h : handler) :
  unknown_key key → key ≠ ""%string → forallb (keeps_count key) os = true → 0 ≤ count_of key h ≤ 3 →
  let '(l, h') := run_state os h in
  retries_of key l ≤ count_of key h' - count_of key h ∧ count_of key h' ≤ 3.
Proof.
  intros Hu Hne. revert h. induction os as [|o os IH]; intros h; cbn [run_state forallb].
  { intros _ Hc. unfold retries_of. simpl. lia. }
  intros [Ho Hos]%andb_true_iff Hc.
  pose proof (step_bound_ok key o h Hu Hne Ho (proj2 Hc)) as Hstep.
  destruct (run_state_op o h) as [r h1]. destruct (run_state os h1) as [l h2] eqn:E.
  specialize (IH h1 Hos). rewrite E in IH.
  assert (0 ≤ advised key r) as Hadv.
  { unfold advised. destruct r as [[p|]|]; [|lia|lia]. case_bool_decide; lia. }
  specialize (IH ltac:(lia)). destruct r as [[p|]|e]; [|simpl in Hstep; lia..].
  rewrite retries_of_cons. unfold advised in Hstep. case_bool_decide; lia.
Qed.

(** ** When a retry is advised *)

(** The advice is consistent: [can_retry] says the same as the action, and
    nothing terminal is retried. *)
Definition advice_ok (r : resolution) : Prop :=
  sr_can_retry r = bool_decide (sr_action r = RETRY) ∧ (sr_terminal r = true → sr_can_retry r = false).

Lemma resolve_post (Q : resolution → Prop) c a m b1 b2 :
  (∀ t, Q (StateResolution c a m b1 b2 t)) → st_post Q (resolve c a m b1 b2).
Proof.
  intros HQ h r h'. destruct (resolve_ok c a m b1 b2 h) as (h1 & -> & _). by intros [= <- _].
Qed.
Ltac no_retry H := exact (resolve_post (λ r, sr_can_retry r = false) _ _ _ _ _ (λ _, eq_refl) _ _ _ H).

Lemma retry_words_block key status t e h r h' :
  resolve_status (Some status) t e h = (Ok r, h') → status_key status = key →
  key ∈ filled_words ++ dead_words ++ partial_words → sr_can_retry r = false.
Proof.
  unfold resolve_status. intros H Hk Hin. destruct (negb (truthy_str status)) eqn:Es.
  { unfold truthy_str in Es. bools. subst. exfalso. revert Hin.
    apply (bool_decide_unpack (¬ (status_key "" ∈ filled_words ++ dead_words ++ partial_words))). vm_compute. exact I. }
  rewrite Hk in H. destruct (str_mem key filled_words) eqn:E1; [no_retry H|].
  destruct (str_mem key dead_words) eqn:E2; [no_retry H|].
  destruct (str_mem key pending_words) eqn:E3.
  { exfalso. apply str_mem_spec in E3.
    assert (Forall (λ k, ¬ (k ∈ filled_words ++ dead_words ++ partial_words)) pending_words) as Hd
      by (apply (bool_decide_unpack _); vm_compute; exact I).
    rewrite Forall_forall in Hd. by apply (Hd key). }
  assert (str_mem key partial_words = true) as E4.
  { apply str_mem_spec. rewrite !elem_of_app, <- !str_mem_spec, E1, E2 in Hin. destruct Hin as [?|[?|?]]; try done.
    by apply str_mem_spec. }
  rewrite E4 in H. no_retry H.
Qed.

Lemma timeout_advice id n : st_post advice_ok (handle_timeout id n).
Proof.
  unfold handle_timeout. apply st_post_bind. intros h. destruct (_ <=? _); apply resolve_post; intros t; by split.
Qed.
Lemma exception_advice id e n : st_post advice_ok (handle_exception id e n).
Proof.
  unfold handle_exception. apply st_post_bind. intros h.
  repeat match goal with |- st_post _ (if ?b then _ else _) => destruct b end;
    first [apply timeout_advice | apply resolve_post; intros t; by split].
Qed.
Lemma resolve_status_advice status t e : st_post advice_ok (resolve_status status t e).
Proof.
  destruct status as [s|]; [|apply resolve_post; intros u; by split]. unfold resolve_status, resolve_unknown.
  repeat match goal with
  | |- st_post _ (if ?b then _ else _) => destruct b
  | |- st_post _ (_ ≫= _) => apply st_post_bind; intros ?
  end; apply resolve_post; intros u; by split.
Qed.

(** A spent retry count blocks. *)
Lemma timeout_spent id n h r h' :
  handle_timeout id n h = (Ok r, h') → h_max_retries h ≤ n → sr_can_retry r = false.
Proof.
  unfold handle_timeout. rewrite (st_bind_ok st_get _ h h h) by done. intros H Hn.
  apply Z.leb_le in Hn. rewrite Hn in H. no_retry H.
Qed.
Lemma exception_spent id e n h r h' :
  handle_exception id e n h = (Ok r, h') → h_max_retries h ≤ n → sr_can_retry r = false.
Proof.
  unfold handle_exception. rewrite (st_bind_ok st_get _ h h h) by done. intros H Hn.
  pose proof Hn as Hn'. apply Z.leb_le in Hn'. rewrite Hn' in H.
  destruct (any_in _ _) in H; [by eapply timeout_spent|].
  repeat match type of H with (if ?b then _ else _) _ = _ => destruct b end; no_retry H.
Qed.
Lemma resolve_status_limit status t e : st_rel (λ h h', h_max_retries h' = h_max_retries h) (resolve_status status t e).
Proof.
  intros h. destruct status as [s|].
  - assert (∃ key, status_key s ≠ key) as [key Hkey].
    { destruct (decide (status_key s = "a"%string)) as [->|]; [by exists "b"%string|by exists "a"%string]. }
    assert (∀ s', Some s = Some s' → status_key s' ≠ key) as Hs by (by intros ? [= <-]).
    exact (proj2 (resolve_status_other key (Some s) t e Hs h)).
  - exact (proj2 (resolve_status_other "" None t e ltac:(done) h)).
Qed.

(** A retry is advised only with a reason.  Whatever is resolved, the
    advice is consistent (a retry is possible exactly when the action is to
    retry, and never in a terminal state); a spent retry count blocks a
    retry after a status, a timeout and every exception; and an order whose
    status says it was filled, partially filled, rejected, cancelled or
    expired is never retried, however the status is capitalised or padded. *)
Theorem retry_justified (status : option string) (id : string) (ex : pyexn) (n : Z) (h : handler) :
  (∀ t e r h', resolve_status status t e h = (Ok r, h') → advice_ok r) ∧
  (∀ r h', handle_timeout id n h = (Ok r, h') → advice_ok r ∧ (sr_can_retry r = true → n < h_max_retries h)) ∧
  (∀ r h', handle_exception id ex n h = (Ok r, h') → advice_ok r ∧ (sr_can_retry r = true → n < h_max_retries h)) ∧
  (∀ h', should_retry status n None h = (Ok true, h') → n < h_max_retries h ∧
     ∀ s, status = Some s → status_key s ∉ filled_words ++ dead_words ++ partial_words).
Proof.
  split_and!.
  - intros t e r h'. apply resolve_status_advice.
  - intros r h' H. split; [exact (timeout_advice id n h r h' H)|]. intros Hr.
    destruct (Z.lt_ge_cases n (h_max_retries h)) as [|Hn]; [done|].
    rewrite (timeout_spent id n h r h' H Hn) in Hr. done.
  - intros r h' H. split; [exact (exception_advice id ex n h r h' H)|]. intros Hr.
    destruct (Z.lt_ge_cases n (h_max_retries h)) as [|Hn]; [done|].
    rewrite (exception_spent id ex n h r h' H Hn) in Hr. done.
  - intros h' H. unfold should_retry in H. inv_bind H r h1 H1. unfold mbind, st_bind, st_get in H. injection H as H _.
    pose proof (resolve_status_limit status None None h) as Hl. rewrite H1 in Hl. cbn [snd] in Hl. rewrite Hl in H.
    bools. split; [lia|]. intros s -> Hin. by rewrite (retry_words_block _ _ _ _ _ _ _ H1 eq_refl Hin) in H.
Qed.

(** ** Concrete histories *)

Definition demo_handler : handler := create_state_handler 3 30 (Clock 0 []).
Definition demo_history : list state_op :=
  [SResolve (Some "weird ") None None; SShould (Some "WEIRD") 0; SResolve (Some "open") (Some (-31 * usec_per_sec)) None;
   SResolve (Some "Weird") None None; STimeout "o" 1; SShould (Some "weird") 0; SResolve None None None].
Example demo_retries : (run_state demo_history demo_handler).1 =
  [("WEIRD", true); ("WEIRD", true); ("OPEN", true); ("WEIRD", true); ("WEIRD", false)]%string.
Proof. vm_compute. reflexivity. Qed.
(** A word of the handler inside a longer message decides by its text: an
    exception that mentions "author" is an authorisation failure. *)
Example author_is_auth :
  match (handle_exception "o" (PyExn ValueError "author unknown") 0 demo_handler).1 with
  | Ok r => sr_action r = BLOCK_RETRY
  | Raise _ => False
  end.
Proof. vm_compute. reflexivity. Qed.

Lemma unknown_retries_bounded_witness :
  retries_of "WEIRD" (run_state demo_history demo_handler).1 <= 3.
Proof.
  assert (unknown_key "WEIRD") as Hu by (split; [apply (bool_decide_unpack _); vm_compute; exact I|reflexivity]).
  pose proof (unknown_retries_bounded "WEIRD" demo_history demo_handler Hu ltac:(discriminate) eq_refl
    ltac:(vm_compute; split; discriminate)) as H.
  destruct (run_state demo_history demo_handler) as [l h']. destruct H as [H1 H2].
  change (count_of "WEIRD" demo_handler) with 0 in H1. simpl. lia.
Defined.

(** An unknown status is retried while the count is below the limit, not at
    the limit. *)
Lemma retry_justified_witness :
  (should_retry (Some "weird") 0 None demo_handler).1 = Ok true ∧
  0 < h_max_retries demo_handler ∧ (should_retry (Some "weird") 3 None demo_handler).1 ≠ Ok true.
Proof.
  assert ((should_retry (Some "weird") 0 None demo_handler).1 = Ok true) as H by (vm_compute; reflexivity).
  pose proof (retry_justified (Some "weird"%string) "o" (PyExn ValueError "x") 0 demo_handler) as (_ & _ & _ & Hr).
  split; [exact H|]. split.
  - refine (proj1 (Hr (should_retry (Some "weird") 0 None demo_handler).2 _)). rewrite <- H. by destruct (should_retry _ _ _ _).
  - vm_compute. discriminate.
Defined.
