(* ===== verification/EventStore.v ===== *)
(** * The unified event store and the event bus

    [core/event_store/__init__.py]: [EventStore], streams of events chained
    by their hashes, in memory, in a SQLite table and in two JSON files; and
    [EventBus] of [core/execution/event_system.py], which stores what it
    publishes there.

    Payloads are dictionaries that the store shares with its callers: a
    dictionary is a location of the heap in the store's state. *)
From S2P Require Import Prelude PyStr Float64 PyDict PyVal CapitalManager.
From Stdlib Require Import Ascii.

(** ** JSON values *)

(** [JObj]: an object the JSON encoder does not know, with its [str] and its
    [repr].  Nested values are taken by value; dictionary keys are strings. *)
#[warnings="-register-all"]
Inductive json :=
| JNull | JBool (b : bool) | JInt (z : Z) | JFloat (x : float64) | JStr (s : string)
| JList (l : list json) | JDict (d : list (string * json)) | JObj (str repr : string).

(** Sorting by key, as [sort_keys=True] does. *)
Fixpoint insert_key {A} (p : string * A) (l : list (string * A)) : list (string * A) :=
  match l with
  | [] => [p]
  | q :: l' => if String.leb p.1 q.1 then p :: l else q :: insert_key p l'
  end.
Definition sort_keys {A} (l : list (string * A)) : list (string * A) := foldr insert_key [] l.

(** The value that [json.dumps(v, sort_keys=True, default=str)] writes. *)
Fixpoint canon (v : json) : json :=
  match v with
  | JList l => JList (map canon l)
  | JDict d => JDict (sort_keys (map (λ p, (p.1, canon p.2)) d))
  | JObj s _ => JStr s
  | _ => v
  end.

(** The value that [json.dumps(v, default=str)] writes. *)
Fixpoint plain (v : json) : json :=
  match v with
  | JList l => JList (map plain l)
  | JDict d => JDict (map (λ p, (p.1, plain p.2)) d)
  | JObj s _ => JStr s
  | _ => v
  end.

(** [json.dumps(v)] without a default: every part is known to the encoder. *)
Fixpoint serialisable (v : json) : bool :=
  match v with
  | JList l => forallb serialisable l
  | JDict d => forallb (λ p, serialisable p.2) d
  | JObj _ _ => false
  | _ => true
  end.

(** [repr] of an ASCII string and of a value. *)
Definition backslash : ascii := "092".
Definition squote : ascii := "039".
Definition dquote : ascii := "034".
Definition hex_digit (n : nat) : ascii := nth n (String.list_ascii_of_string "0123456789abcdef") "0"%char.
Definition repr_char (q c : ascii) : string :=
  let n := nat_of_ascii c in
  if Ascii.eqb c q || Ascii.eqb c backslash then String backslash (String c "")
  else if (n =? 10)%nat then String backslash "n"
  else if (n =? 13)%nat then String backslash "r"
  else if (n =? 9)%nat then String backslash "t"
  else if (n <? 32)%nat || (n =? 127)%nat then
    String backslash (String "x" (String (hex_digit (n / 16)) (String (hex_digit (n mod 16)) "")))
  else String c "".
Definition repr_str (s : string) : string :=
  let cs := String.list_ascii_of_string s in
  let q := if existsb (Ascii.eqb squote) cs && negb (existsb (Ascii.eqb dquote) cs) then dquote else squote in
  cat [String q ""; cat (map (repr_char q) cs); String q ""].
Fixpoint repr_json (v : json) : string :=
  match v with
  | JNull => "None"
  | JBool b => if b then "True" else "False"
  | JInt z => str_of_Z z
  | JFloat x => repr_float x
  | JStr s => repr_str s
  | JList l => cat ["["; join ", " (map repr_json l); "]"]
  | JDict d => cat ["{"; join ", " (map (λ p, cat [repr_str p.1; ": "; repr_json p.2]) d); "}"]
  | JObj _ r => r
  end.
(** [str(v)] *)
Definition str_json (v : json) : string :=
  match v with JStr s => s | JObj s _ => s | _ => repr_json v end.

(** ** Data *)

Definition loc := nat.
Definition payload : Type := pydict json.

Record event := StoredEvent {
  ev_id : string; ev_type : string; ev_stream : string; ev_data : loc; ev_meta : loc; ev_version : Z;
  ev_ts : float64; ev_hash : string; ev_prev : string;
  ev_agg : option string; ev_corr : option string; ev_caus : option string }.
Record snapshot := Snapshot { sn_stream : string; sn_state : loc; sn_version : Z; sn_ts : float64 }.

(** An event with its dictionaries by value: a row of the table or of the
    JSON file. *)
Record event_row := EventRow {
  er_id : string; er_type : string; er_stream : string; er_data : payload; er_meta : payload; er_version : Z;
  er_ts : float64; er_hash : string; er_prev : string;
  er_agg : option string; er_corr : option string; er_caus : option string; er_seq : Z }.
(** [Snapshot.to_dict] leaves the state out. *)
Record snapshot_row := SnapshotRow { sw_stream : string; sw_version : Z; sw_ts : float64 }.

(** How writing a JSON file ends: done, no directory, no file. *)
Inductive write_outcome := Written | NoDirectory | NoFile.

(** [TradingEvent]; the type and the priority are the values of their
    enumerations. *)
Record trading_event := TradingEvent {
  te_id : string; te_type : string; te_priority : Z; te_timestamp : tstamp; te_source : string;
  te_agg : option string; te_corr : option string; te_caus : option string; te_version : Z;
  te_intent : option string; te_client : option string; te_broker : option string;
  te_symbol : option string; te_direction : option string; te_quantity : option Z; te_price : option float64;
  te_meta : loc }.

Record estore := EStore {
  s_streams : pydict (list event);
  s_snaps : pydict snapshot;
  s_total : Z;
  s_db : option (dbase event_row);
  s_json : option (pydict (list event_row));
  s_snap_json : option (pydict snapshot_row);
  s_writes : list write_outcome;
  s_heap : gmap loc payload;
  s_clk : clock }.

Definition set_streams (d : pydict (list event)) (s : estore) : estore :=
  EStore d (s_snaps s) (s_total s) (s_db s) (s_json s) (s_snap_json s) (s_writes s) (s_heap s) (s_clk s).
Definition set_snaps (d : pydict snapshot) (s : estore) : estore :=
  EStore (s_streams s) d (s_total s) (s_db s) (s_json s) (s_snap_json s) (s_writes s) (s_heap s) (s_clk s).
Definition set_total (n : Z) (s : estore) : estore :=
  EStore (s_streams s) (s_snaps s) n (s_db s) (s_json s) (s_snap_json s) (s_writes s) (s_heap s) (s_clk s).
Definition set_db (d : option (dbase event_row)) (s : estore) : estore :=
  EStore (s_streams s) (s_snaps s) (s_total s) d (s_json s) (s_snap_json s) (s_writes s) (s_heap s) (s_clk s).
Definition set_json (j : option (pydict (list event_row))) (s : estore) : estore :=
  EStore (s_streams s) (s_snaps s) (s_total s) (s_db s) j (s_snap_json s) (s_writes s) (s_heap s) (s_clk s).
Definition set_snap_json (j : option (pydict snapshot_row)) (s : estore) : estore :=
  EStore (s_streams s) (s_snaps s) (s_total s) (s_db s) (s_json s) j (s_writes s) (s_heap s) (s_clk s).
Definition set_writes (l : list write_outcome) (s : estore) : estore :=
  EStore (s_streams s) (s_snaps s) (s_total s) (s_db s) (s_json s) (s_snap_json s) l (s_heap s) (s_clk s).
Definition set_heap (h : gmap loc payload) (s : estore) : estore :=
  EStore (s_streams s) (s_snaps s) (s_total s) (s_db s) (s_json s) (s_snap_json s) (s_writes s) h (s_clk s).

#[global] Instance estore_clock : HasClock estore :=
  {| clock_of := s_clk;
     set_clock := λ c s, EStore (s_streams s) (s_snaps s) (s_total s) (s_db s) (s_json s) (s_snap_json s)
                           (s_writes s) (s_heap s) c |}.

Definition EM (A : Type) : Type := ST estore A.

(** The dictionary at a location. *)
Definition deref (s : estore) (l : loc) : payload := default ∅ (s_heap s !! l).
(** A new dictionary. *)
Definition alloc (p : payload) : EM loc := λ s,
  let l := fresh (dom (s_heap s)) in (Ok l, set_heap (<[l := p]> (s_heap s)) s).
(** [d or {}]: an empty dictionary is replaced too. *)
Definition or_empty (o : option loc) : EM loc :=
  s ← st_get;
  match o with
  | Some l => match items (deref s l) with [] => alloc ∅ | _ => mret l end
  | None => alloc ∅
  end.

(** [datetime.fromisoformat(ts).timestamp()] of a local time depends on the
    zone of the machine. *)
Class LocalZone := { local_timestamp : Z → float64 }.
(** [hashlib.sha256(json.dumps(v, sort_keys=True, default=str).encode()).hexdigest()],
    on the value that is written. *)
Class Sha256 := { sha256_json : json → string }.

Section store.
Context `{Hsha : !Sha256, Hzone : !LocalZone}.

(** ** Hashes *)

(** What [compute_hash] digests: the fields in the order of their keys. *)
Definition content (id type stream : string) (data meta : payload) (version : Z) (ts : float64) (prev : string) : json :=
  JDict [("data", canon (JDict (items data))); ("event_id", JStr id); ("event_type", JStr type);
         ("metadata", canon (JDict (items meta))); ("previous_event_hash", JStr prev); ("stream", JStr stream);
         ("timestamp", JFloat ts); ("version", JInt version)].
Definition compute_hash (id type stream : string) (data meta : payload) (version : Z) (ts : float64) (prev : string) :
    string :=
  sha256_json (content id type stream data meta version ts prev).

(** The content of a stored event, with a previous hash given. *)
Definition event_content (s : estore) (prev : string) (e : event) : json :=
  content (ev_id e) (ev_type e) (ev_stream e) (deref s (ev_data e)) (deref s (ev_meta e)) (ev_version e) (ev_ts e) prev.

(** ** Persistence *)

Definition row_of (s : estore) (e : event) (seq : Z) : event_row :=
  EventRow (ev_id e) (ev_type e) (ev_stream e) (deref s (ev_data e)) (deref s (ev_meta e)) (ev_version e) (ev_ts e)
    (ev_hash e) (ev_prev e) (ev_agg e) (ev_corr e) (ev_caus e) seq.

(** [json.dumps(d, default=str)] of a payload. *)
Definition with_text (p : payload) : payload := PyDict (map (λ q, (q.1, plain q.2)) (items p)).

(** [SELECT MAX(sequence_number)] and one more *)
Definition next_seq (t : pydict event_row) : Z :=
  match dvalues t with
  | [] => 1
  | r :: rs => foldl (λ m r, Z.max m (er_seq r)) (er_seq r) rs + 1
  end.
(** [INSERT OR IGNORE]; the table has no columns for the three aggregate ids
    of the insert, which stay null. *)
Definition insert_row (r : event_row) (t : pydict event_row) : unit * pydict event_row :=
  ((), match t !! er_id r with
       | Some _ => t
       | None => <[er_id r := EventRow (er_id r) (er_type r) (er_stream r) (with_text (er_data r))
                     (with_text (er_meta r)) (er_version r) (er_ts r) (er_hash r) (er_prev r) None None None
                     (next_seq t)]> t
       end).
Definition db_call {A} (f : pydict event_row → A * pydict event_row) (default : A) : EM A := λ s,
  match s_db s with
  | None => (Ok default, s)
  | Some d => let '(r, d') := db_run f d in (r, set_db (Some d') s)
  end.
Definition db_errors : list exn_class := [SqliteError; OSError].
(** [_persist_to_sqlite] *)
Definition persist_to_sqlite (e : event) : EM unit :=
  st_try (s ← st_get; db_call (insert_row (row_of s e 0)) ()) db_errors (λ _, mret ()).

Definition MAX_JSON_EVENTS : Z := 10000.
(** [events[-MAX:]] *)
Definition recent {A} (l : list A) : list A := drop (Z.to_nat (Z.of_nat (length l) - MAX_JSON_EVENTS)) l.
Definition json_rows (s : estore) : pydict (list event_row) :=
  PyDict (map (λ p, (p.1, map (λ e, row_of s e 0) (recent p.2))) (items (s_streams s))).
Definition row_serialisable (r : event_row) : bool :=
  serialisable (JDict (items (er_data r))) && serialisable (JDict (items (er_meta r))).
Definition rows_serialisable (d : pydict (list event_row)) : bool :=
  forallb (λ p, forallb row_serialisable p.2) (items d).

(** How the next write of a file ends. *)
Definition next_write : EM write_outcome := λ s,
  match s_writes s with [] => (Ok Written, s) | o :: os => (Ok o, set_writes os s) end.
Definition not_serialisable : pyexn := PyExn TypeError "Object is not JSON serializable".
(** [_trim_json_persist]: the encoder runs without a default, and its
    [TypeError] is not among the errors caught. *)
Definition trim_json_persist : EM unit :=
  o ← next_write;
  s ← st_get;
  match o with
  | NoDirectory => mret ()
  | _ =>
      if negb (rows_serialisable (json_rows s)) then st_raise not_serialisable
      else match o with Written => st_modify (set_json (Some (json_rows s))) | _ => mret () end
  end.
(** [_persist_snapshots_json] *)
Definition persist_snapshots : EM unit :=
  o ← next_write;
  s ← st_get;
  match o with
  | Written => st_modify (set_snap_json (Some (PyDict
      (map (λ p, (p.1, SnapshotRow (sn_stream p.2) (sn_version p.2) (sn_ts p.2))) (items (s_snaps s))))))
  | _ => mret ()
  end.

(** ** Appending *)

Definition stream_of (s : estore) (name : string) : list event := default [] (s_streams s !! name).
Definition last_hash (l : list event) : string := match last l with Some e => ev_hash e | None => "" end.
Definition next_version (l : list event) : Z := Z.of_nat (length l) + 1.

(** Store an event under [key] and persist it. *)
Definition store_event (key : string) (e : event) : EM unit :=
  st_modify (λ s, set_streams (<[key := stream_of s key ++ [e]]> (s_streams s)) s) ;;
  st_modify (λ s, set_total (s_total s + 1) s) ;;
  persist_to_sqlite e ;;
  trim_json_persist.

(** [f"evt-{int(ts * 1000000)}-{stream}-{version}"] *)
Definition event_id_of (ts : float64) (stream : string) (version : Z) : res string :=
  match int_of_float (ts * f_of_Z 1000000)%f64 with
  | Ok n => Ok (cat ["evt-"; str_of_Z n; "-"; stream; "-"; str_of_Z version])
  | Raise e => Raise e
  end.

(** [append] *)
Definition append (type stream : string) (data meta : option loc) : EM event :=
  s ← st_get;
  let version := next_version (stream_of s stream) in
  let previous := last_hash (stream_of s stream) in
  ts ← time_time;
  id ← st_lift (event_id_of ts stream version);
  data ← or_empty data;
  meta ← or_empty meta;
  s ← st_get;
  let hash := compute_hash id (strip type) (strip stream) (deref s data) (deref s meta) version ts previous in
  let e := StoredEvent id (strip type) (strip stream) data meta version ts hash previous None None None in
  store_event stream e ;;
  mret e.

(** [append_many] *)
Fixpoint append_many (events : list (string * string * option loc)) (stream : string) : EM (list event) :=
  match events with
  | [] => mret []
  | (type, own, data) :: events' =>
      e ← append type (if truthy_str own then own else stream) data None;
      es ← append_many events' stream;
      mret (e :: es)
  end.

Definition opt_json {A} (f : A → json) (o : option A) : json := match o with Some a => f a | None => JNull end.
(** The symbol, direction, quantity and price go into the event's own
    metadata dictionary. *)
Definition enriched (te : trading_event) (p : payload) : payload :=
  <["price" := opt_json JFloat (te_price te)]> (<["quantity" := opt_json JInt (te_quantity te)]>
    (<["direction" := opt_json JStr (te_direction te)]> (<["symbol" := opt_json JStr (te_symbol te)]> p))).
(** [str(attrs.get("symbol", "default"))]: the key is always there. *)
Definition event_stream (te : trading_event) : string := default "None" (te_symbol te).

(** [append_event] *)
Definition append_errors : list exn_class := [ValueError; TypeError; AttributeError; OSError].
Definition append_event (te : trading_event) : EM bool :=
  st_try
    (let stream := event_stream te in
     st_modify (λ s, set_heap (<[te_meta te := enriched te (deref s (te_meta te))]> (s_heap s)) s) ;;
     s ← st_get;
     let version := next_version (stream_of s stream) in
     let previous := last_hash (stream_of s stream) in
     now ← time_time;
     ts ← (match te_timestamp te with TsAt t => mret (local_timestamp t) | TsRaw _ => time_time end);
     st_lift (event_id_of ts stream version) ;;
     meta ← alloc ∅;
     s ← st_get;
     let hash := compute_hash (te_id te) (te_type te) stream (deref s (te_meta te)) ∅ version ts previous in
     store_event stream (StoredEvent (te_id te) (te_type te) stream (te_meta te) meta version ts hash previous
       (te_agg te) (te_corr te) (te_caus te)) ;;
     mret true)
    append_errors (λ _, mret false).

(** ** Reading *)

(** [read_stream] *)
Definition read_stream (stream : string) (from : Z) (to : option Z) (s : estore) : list event :=
  let l := filter (λ e, from ≤ ev_version e) (stream_of s stream) in
  match to with None => l | Some t => filter (λ e, ev_version e ≤ t) l end.
(** [read_all_streams], [stream_exists], [get_stream_version] *)
Definition read_all_streams (s : estore) : pydict (list event) := s_streams s.
Definition stream_exists (stream : string) (s : estore) : bool :=
  match s_streams s !! stream with Some (_ :: _) => true | _ => false end.
Definition get_stream_version (stream : string) (s : estore) : Z := Z.of_nat (length (stream_of s stream)).

(** [delete_stream] *)
Definition delete_stream (stream : string) : EM bool :=
  s ← st_get;
  let existed := dmem stream (s_streams s) in
  st_modify (λ s, set_streams (delete stream (s_streams s)) s) ;;
  st_modify (λ s, set_snaps (delete stream (s_snaps s)) s) ;;
  (if existed then
     st_try (db_call (λ t, ((), dfilter (λ _ r, negb (String.eqb (er_stream r) stream)) t)) ()) db_errors (λ _, mret ())
   else mret ()) ;;
  mret existed.
(** [clear_all] *)
Definition clear_all : EM unit :=
  st_modify (λ s, set_total 0 (set_snaps ∅ (set_streams ∅ s))) ;;
  st_try (db_call (λ t, ((), ∅)) ()) db_errors (λ _, mret ()) ;;
  st_modify (λ s, set_snap_json None (set_json None s)).

(** All events, stream by stream. *)
Definition all_events (s : estore) : list event := concat (dvalues (s_streams s)).
(** [get_events_by_type]: the first [limit] of the type, at least one. *)
Definition by_type (type : string) (s : estore) : list event := filter (λ e, ev_type e = type) (all_events s).
Definition get_events_by_type (type : string) (limit : Z) (s : estore) : list event :=
  take (Z.to_nat (Z.max 1 limit)) (by_type type s).
(** [get_stream_events_by_type] *)
Definition get_stream_events_by_type (type stream : string) (s : estore) : list event :=
  let l := get_events_by_type type 10000 s in
  if truthy_str stream then filter (λ e, ev_stream e = stream) l else l.
(** [get_events_for_order]: the order's id and the word "client_order_id"
    are looked for in the text of the payload; the query that follows
    changes nothing. *)
Definition mentions_order (id : string) (s : estore) (e : event) : bool :=
  let d := items (deref s (ev_data e)) in
  let text := str_json (JDict d) in
  match d with [] => false | _ => str_contains "client_order_id" text && str_contains id text end.
Definition get_events_for_order (id : string) (s : estore) : list event :=
  take 100 (filter (λ e, mentions_order id s e = true) (all_events s)).
(** [get_events_in_range]: the texts of the timestamps are compared. *)
Definition get_events_in_range (start stop : string) (s : estore) : list event :=
  filter (λ e, String.leb start (repr_float (ev_ts e)) && String.leb (repr_float (ev_ts e)) stop = true) (all_events s).

(** [get_stats] *)
Record store_stats := StoreStats {
  st_total : Z; st_streams : Z; st_snapshots : Z; st_sqlite : Z; st_by_stream : pydict Z; st_by_type : pydict Z;
  st_average : float64 }.
Definition count_types (l : list event) : pydict Z :=
  foldl (λ d e, <[ev_type e := default 0 (d !! ev_type e) + 1]> d) ∅ l.
Definition get_stats : EM store_stats :=
  n ← st_try (db_call (λ t, (dlen t, t)) 0) db_errors (λ _, mret 0);
  s ← st_get;
  let streams := dlen (s_streams s) in
  mret (StoreStats (s_total s) streams (dlen (s_snaps s)) n
          (PyDict (map (λ p, (p.1, Z.of_nat (length p.2))) (items (s_streams s)))) (count_types (all_events s))
          (py_round (f_of_ratio (s_total s) (Z.max streams 1)) 1)).

(** ** Snapshots and replay *)

(** [create_snapshot] *)
Definition create_snapshot (stream : string) (state : loc) : EM snapshot :=
  s ← st_get;
  let version := get_stream_version stream s in
  ts ← time_time;
  let sn := Snapshot (strip stream) state version ts in
  st_modify (λ s, set_snaps (<[stream := sn]> (s_snaps s)) s) ;;
  persist_snapshots ;;
  mret sn.
(** [get_snapshot] *)
Definition get_snapshot (stream : string) (s : estore) : option snapshot := s_snaps s !! stream.

(** What a replay collects: the snapshot's state, the handler's values and
    its failures. *)
Inductive replayed (V : Type) := RSnapshot (state : payload) | RValue (v : V) | RError (text : string).
Arguments RSnapshot {V} state.
Arguments RValue {V} v.
Arguments RError {V} text.
Section replay.
Context {V : Type} (handler : event → EM V).
Fixpoint replay_events (l : list event) : EM (list (replayed V)) :=
  match l with
  | [] => mret []
  | e :: l' =>
      r ← st_try_any (v ← handler e; mret (RValue v)) (λ err, mret (RError (exn_msg err)));
      rs ← replay_events l';
      mret (r :: rs)
  end.
(** [replay_stream] *)
Definition replay_stream (stream : string) : EM (list (replayed V)) :=
  s ← st_get;
  let head := match get_snapshot stream s with Some sn => [RSnapshot (deref s (sn_state sn))] | None => [] end in
  rs ← replay_events (read_stream stream 1 None s);
  mret (head ++ rs).
(** [replay_all] *)
Fixpoint replay_streams (names : list string) (acc : pydict (list (replayed V))) : EM (pydict (list (replayed V))) :=
  match names with
  | [] => mret acc
  | n :: names' => rs ← replay_stream n; replay_streams names' (<[n := rs]> acc)
  end.
Definition replay_all : EM (pydict (list (replayed V))) :=
  names ← st_gets (λ s, dkeys (s_streams s)); replay_streams names ∅.
End replay.

(** ** Integrity *)

(** The events of one stream, from the hash expected and the number checked
    so far: the message of a failure, or the number after them. *)
Fixpoint check_chain (s : estore) (name prev : string) (n : Z) (l : list event) : (Z * string) + Z :=
  match l with
  | [] => inr n
  | e :: l' =>
      if negb (String.eqb (ev_prev e) prev) then
        inl (n, cat ["Chain break at stream '"; name; "' event "; ev_id e; ": expected previous_hash="; prev;
                     ", got "; ev_prev e])
      else
        let hash := sha256_json (event_content s prev e) in
        if negb (String.eqb hash (ev_hash e)) then
          inl (n, cat ["Hash mismatch at stream '"; name; "' event "; ev_id e; ": expected "; ev_hash e;
                       ", recomputed "; hash])
        else check_chain s name (ev_hash e) (n + 1) l'
  end.
Fixpoint check_streams (s : estore) (n : Z) (names : list string) : (Z * string) + Z :=
  match names with
  | [] => inr n
  | name :: names' =>
      match check_chain s name "" n (stream_of s name) with
      | inl bad => inl bad
      | inr n' => check_streams s n' names'
      end
  end.
(** [verify_chain] *)
Definition verify_chain (stream : option string) (s : estore) : bool * Z * string :=
  let names := if truthy_opt stream then [default "" stream] else dkeys (s_streams s) in
  match check_streams s 0 names with
  | inl (n, msg) => (false, n, msg)
  | inr n => (true, n, cat ["Chain valid: "; str_of_Z n; " events checked"])
  end.

(** ** Starting *)

(** The dictionaries a JSON file makes: new ones, by value. *)
Definition load_event (r : event_row) : EM event :=
  data ← alloc (er_data r);
  meta ← alloc (er_meta r);
  mret (StoredEvent (er_id r) (er_type r) (er_stream r) data meta (er_version r) (er_ts r) (er_hash r) (er_prev r)
          (er_agg r) (er_corr r) (er_caus r)).
Fixpoint load_events (l : list event_row) : EM (list event) :=
  match l with [] => mret [] | r :: l' => e ← load_event r; es ← load_events l'; mret (e :: es) end.
Definition load_stream (p : string * list event_row) : EM unit :=
  es ← load_events p.2;
  st_modify (λ s, set_streams (<[p.1 := es]> (s_streams s)) s) ;;
  st_modify (λ s, set_total (s_total s + Z.of_nat (length es)) s).
Definition load_snapshot (p : string * snapshot_row) : EM unit :=
  state ← alloc ∅;
  st_modify (λ s, set_snaps (<[p.1 := Snapshot (sw_stream p.2) state (sw_version p.2) (sw_ts p.2)]> (s_snaps s)) s).
(** [_load_json_fallback] *)
Definition load_json_fallback : EM unit :=
  s ← st_get;
  (match s_json s with Some d => st_iter load_stream (items d) | None => mret () end) ;;
  match s_snap_json s with Some d => st_iter load_snapshot (items d) | None => mret () end.
(** [EventStore()] over the files and the table of a former process. *)
Definition fresh_store (s : estore) : estore :=
  EStore ∅ ∅ 0 (s_db s) (s_json s) (s_snap_json s) (s_writes s) ∅ (s_clk s).
Definition restart (s : estore) : estore := (load_json_fallback (fresh_store s)).2.

(** ** The invariant *)

(** A chain: every event carries the hash of the one before and its own. *)
Fixpoint linked (s : estore) (prev : string) (l : list event) : Prop :=
  match l with
  | [] => True
  | e :: l' => ev_prev e = prev ∧ ev_hash e = sha256_json (event_content s prev e) ∧ linked s (ev_hash e) l'
  end.
(** Versions count the events. *)
Definition numbered (l : list event) : Prop := ∀ i e, l !! i = Some e → ev_version e = Z.of_nat i + 1.
(** The dictionaries of an event exist. *)
Definition housed (s : estore) (e : event) : Prop := ev_data e ∈ dom (s_heap s) ∧ ev_meta e ∈ dom (s_heap s).

Record stream_ok (s : estore) (l : list event) : Prop := {
  so_linked : linked s "" l; so_numbered : numbered l; so_housed : Forall (housed s) l }.
Definition store_ok (s : estore) : Prop := ∀ name l, s_streams s !! name = Some l → stream_ok s l.

(** A dictionary in use by a stored event. *)
Definition in_use (s : estore) (l : loc) : Prop :=
  ∃ name es e, s_streams s !! name = Some es ∧ e ∈ es ∧ (l = ev_data e ∨ l = ev_meta e).

(** The dictionaries of stored events are the same in both. *)
Definition agree (s s' : estore) (l : list event) : Prop :=
  ∀ e, e ∈ l → s_heap s' !! ev_data e = s_heap s !! ev_data e ∧ s_heap s' !! ev_meta e = s_heap s !! ev_meta e.

Lemma content_agree s s' e prev l : agree s s' l → e ∈ l → event_content s' prev e = event_content s prev e.
Proof. intros H He. destruct (H e He) as [H1 H2]. unfold event_content, deref. by rewrite H1, H2. Qed.
Lemma agree_cons s s' e l : agree s s' (e :: l) → agree s s' l.
Proof. intros H d Hd. apply H. by apply elem_of_cons; right. Qed.
Lemma linked_agree s s' prev l : agree s s' l → linked s prev l → linked s' prev l.
Proof.
  revert prev. induction l as [|e l IH]; intros prev Ha; [done|]. cbn [linked]. intros (H1 & H2 & H3).
  split_and!; [done| |by eapply IH, H3; eapply agree_cons].
  by rewrite (content_agree _ _ _ _ _ Ha (list_elem_of_here _ _)).
Qed.
Lemma stream_agree s s' l : agree s s' l → stream_ok s l → stream_ok s' l.
Proof.
  intros Ha [H1 H2 H3]. split; [by eapply linked_agree|done|].
  rewrite Forall_forall in H3 |- *. intros e He. destruct (Ha e He) as [Hd Hm], (H3 e He) as [G1 G2].
  unfold housed in *. rewrite !elem_of_dom in *. by rewrite Hd, Hm.
Qed.

(** Streams kept and dictionaries in use kept. *)
Lemma store_keep s s' :
  s_streams s' = s_streams s → (∀ l, in_use s l → s_heap s' !! l = s_heap s !! l) → store_ok s → store_ok s'.
Proof.
  intros Hs Hh Hok name l Hl. rewrite Hs in Hl. apply (stream_agree s); [|by eapply Hok].
  intros e He. split; apply Hh; exists name, l, e; auto.
Qed.

(** [same_events]: nothing that verification reads changes. *)
Definition same_events (s s' : estore) : Prop := s_streams s' = s_streams s ∧ s_heap s' = s_heap s.
#[local] Instance same_events_preorder : PreOrder same_events.
Proof. split; [by intros s; split|]. intros s1 s2 s3 [A B] [C D]. split; congruence. Qed.
Lemma same_events_ok s s' : same_events s s' → store_ok s → store_ok s'.
Proof. intros [H1 H2]. apply store_keep; [done|]. intros l _. by rewrite H2. Qed.

Lemma db_call_same {A} (f : pydict event_row → A * pydict event_row) d : st_rel same_events (db_call f d).
Proof. intros s. unfold db_call. destruct (s_db s) as [db|]; [|done]. by destruct (db_run f db). Qed.
Lemma write_same : st_rel same_events next_write.
Proof. intros s. unfold next_write. by destruct (s_writes s). Qed.
Lemma time_same : st_rel same_events time_time.
Proof. intros s. by rewrite time_time_total. Qed.
Ltac sames := rel_auto ltac:(first [apply db_call_same | apply write_same | apply time_same
  | by intros ? | done]).

Lemma persist_same e : st_rel same_events (persist_to_sqlite e).
Proof. unfold persist_to_sqlite. sames. Qed.
Lemma trim_same : st_rel same_events trim_json_persist.
Proof. unfold trim_json_persist. sames. Qed.
Lemma persist_snapshots_same : st_rel same_events persist_snapshots.
Proof. unfold persist_snapshots. sames. Qed.

(** ** Appending keeps it *)

Lemma linked_snoc s prev l e :
  linked s prev l →
  ev_prev e = (match last l with Some d => ev_hash d | None => prev end) →
  ev_hash e = sha256_json (event_content s (ev_prev e) e) → linked s prev (l ++ [e]).
Proof.
  revert prev. induction l as [|d l IH]; intros prev; cbn [app linked].
  - intros _ H1 H2. simpl in H1. rewrite H1 in H2. auto.
  - intros (H1 & H2 & H3) H4 H5. split_and!; [done..|]. apply IH; [done| |done].
    rewrite H4. rewrite last_cons. by destruct (last l).
Qed.
Lemma numbered_snoc l e : numbered l → ev_version e = next_version l → numbered (l ++ [e]).
Proof.
  intros Hl He i d. rewrite lookup_app_Some. intros [H|[Hi H]]; [by apply Hl|].
  apply list_lookup_singleton_Some in H as [Hi' <-]. rewrite He. unfold next_version. lia.
Qed.

Lemma stream_of_ok s name : store_ok s → stream_ok s (stream_of s name).
Proof.
  intros H. unfold stream_of. destruct (s_streams s !! name) as [l|] eqn:E; [by eapply H|].
  split; [done| |done]. intros [|i] e; discriminate.
Qed.

(** A new event whose fields fit extends its stream. *)
Definition fits (s : estore) (key : string) (e : event) : Prop :=
  ev_prev e = last_hash (stream_of s key) ∧ ev_version e = next_version (stream_of s key) ∧
  ev_hash e = sha256_json (event_content s (ev_prev e) e) ∧ housed s e.

Lemma put_event_ok s key e :
  store_ok s → fits s key e → store_ok (set_streams (<[key := stream_of s key ++ [e]]> (s_streams s)) s).
Proof.
  intros Hok (H1 & H2 & H3 & H4) name l. cbn [s_streams set_streams]. destruct (decide (key = name)) as [<-|Hne].
  - rewrite dict_lookup_insert_eq. intros [= <-]. destruct (stream_of_ok s key Hok) as [G1 G2 G3]. split.
    + apply linked_snoc; [|done|done]. by apply (linked_agree s).
    + by apply numbered_snoc.
    + apply Forall_app. by split; [|apply Forall_singleton].
  - rewrite dict_lookup_insert_ne by done. intros Hl. apply (stream_agree s); [done|by eapply Hok].
Qed.

Lemma store_event_ok key e s : store_ok s → fits s key e → store_ok (store_event key e s).2.
Proof.
  intros Hok Hf. pose proof (put_event_ok s key e Hok Hf) as H. unfold store_event.
  rewrite (st_bind_ok _ _ s () (set_streams (<[key := stream_of s key ++ [e]]> (s_streams s)) s)) by done.
  revert H. generalize (set_streams (<[key := stream_of s key ++ [e]]> (s_streams s)) s). intros s1 H.
  apply (same_events_ok s1); [|done].
  assert (st_rel same_events (st_modify (λ s, set_total (s_total s + 1) s) ;; persist_to_sqlite e ;; trim_json_persist))
    as Hr by (sames; [apply persist_same|apply trim_same]).
  apply Hr.
Qed.

(** The streams stay and the dictionaries there stay. *)
Definition grows (s s' : estore) : Prop :=
  s_streams s' = s_streams s ∧ ∀ l, l ∈ dom (s_heap s) → s_heap s' !! l = s_heap s !! l.
#[local] Instance grows_preorder : PreOrder grows.
Proof.
  split; [by intros s; split|]. intros s1 s2 s3 [A B] [C D]. split; [congruence|]. intros l Hl.
  rewrite D; [by apply B|]. apply elem_of_dom. rewrite (B l Hl). by apply elem_of_dom.
Qed.
Lemma same_grows s s' : same_events s s' → grows s s'.
Proof. intros [H1 H2]. split; [done|]. intros l _. by rewrite H2. Qed.

Lemma grows_dom s s' l : grows s s' → l ∈ dom (s_heap s) → l ∈ dom (s_heap s').
Proof. intros [_ H] Hl. apply elem_of_dom. rewrite (H l Hl). by apply elem_of_dom. Qed.
Lemma in_use_dom s l : store_ok s → in_use s l → l ∈ dom (s_heap s).
Proof.
  intros Hok (name & es & e & H1 & H2 & H3). destruct (Hok _ _ H1) as [_ _ Hh].
  rewrite Forall_forall in Hh. destruct (Hh e H2). by destruct H3 as [-> | ->].
Qed.
Lemma grows_ok s s' : grows s s' → store_ok s → store_ok s'.
Proof. intros [H1 H2] Hok. apply (store_keep s); [done| |done]. intros l Hl. apply H2. by apply in_use_dom. Qed.

Lemma alloc_spec p s : ∃ l s', alloc p s = (Ok l, s') ∧ grows s s' ∧ s_heap s' !! l = Some p ∧ l ∉ dom (s_heap s).
Proof.
  eexists _, _. split; [reflexivity|]. set (l := fresh (dom (s_heap s))).
  assert (l ∉ dom (s_heap s)) as Hl by apply is_fresh.
  split_and!; [|simpl; by rewrite lookup_insert_eq|done]. split; [done|]. intros k Hk. simpl.
  rewrite lookup_insert_ne; [done|]. by intros ->.
Qed.
Lemma or_empty_spec o s :
  ∃ l s', or_empty o s = (Ok l, s') ∧ grows s s' ∧ l ∈ dom (s_heap s').
Proof.
  assert (∃ l s', alloc ∅ s = (Ok l, s') ∧ grows s s' ∧ l ∈ dom (s_heap s')) as Ha.
  { destruct (alloc_spec ∅ s) as (l & s' & H1 & H2 & H3 & _). exists l, s'. split_and!; [done..|].
    by apply elem_of_dom; exists ∅. }
  unfold or_empty. rewrite (st_bind_ok st_get _ s s s) by done. destruct o as [l|]; [|done].
  destruct (items (deref s l)) as [|p d] eqn:E; [done|]. exists l, s. split_and!; [done|reflexivity|].
  apply elem_of_dom. unfold deref in E. destruct (s_heap s !! l) as [m|]; [by exists m|]. done.
Qed.

Lemma stream_of_grows s s' name : grows s s' → stream_of s' name = stream_of s name.
Proof. intros [H _]. unfold stream_of. by rewrite H. Qed.
Lemma deref_grows s s' l : grows s s' → l ∈ dom (s_heap s) → deref s' l = deref s l.
Proof. intros [_ H] Hl. unfold deref. by rewrite H. Qed.

(** The files wait. *)
Definition quiet (s s' : estore) : Prop := s_writes s' = s_writes s ∧ s_json s' = s_json s.
#[local] Instance quiet_preorder : PreOrder quiet.
Proof. split; [by intros s; split|]. intros s1 s2 s3 [A B] [C D]. split; congruence. Qed.
Lemma or_empty_quiet o : st_rel quiet (or_empty o).
Proof. unfold or_empty. rel_auto ltac:(by intros s). Qed.
Lemma result_rel {A} (R : estore → estore → Prop) (m : EM A) s r s' : st_rel R m → m s = (r, s') → R s s'.
Proof. intros H E. specialize (H s). by rewrite E in H. Qed.

(** Where [append] stores: the state is [grows] above the first, the event fits it. *)
Lemma append_inv type stream data meta s :
  (∃ e s', append type stream data meta s = (Raise e, s') ∧ grows s s' ∧ quiet s s') ∨
  ∃ e s1, append type stream data meta s = (store_event stream e ;; mret e) s1 ∧ grows s s1 ∧ quiet s s1 ∧ fits s1 stream e.
Proof.
  unfold append. rewrite (st_bind_ok st_get _ s s s) by done.
  rewrite (st_bind_ok _ _ _ _ _ (time_time_total s)).
  cbv beta zeta. set (s0 := set_clock _ s). assert (grows s s0) as H0 by done.
  set (ts := epoch_seconds _). set (v := next_version _).
  destruct (event_id_of ts stream v) as [id|err] eqn:Eid.
  2:{ left. exists err, s0. by split_and!. }
  right. rewrite (st_bind_ok (st_lift _) _ s0 id s0) by done.
  destruct (or_empty_spec data s0) as (ld & s1 & E1 & G1 & D1). rewrite (st_bind_ok _ _ _ _ _ E1).
  destruct (or_empty_spec meta s1) as (lm & s2 & E2 & G2 & D2). rewrite (st_bind_ok _ _ _ _ _ E2).
  rewrite (st_bind_ok st_get _ s2 s2 s2) by done.
  eexists _, s2. split; [reflexivity|]. assert (grows s s2) as G by (do 2 (etransitivity; [eassumption|]); done).
  split; [done|]. split.
  { transitivity s0; [done|]. transitivity s1; [apply (result_rel _ _ _ _ _ (or_empty_quiet data) E1)|].
    apply (result_rel _ _ _ _ _ (or_empty_quiet meta) E2). }
  unfold fits. rewrite (stream_of_grows _ _ _ G). cbn [ev_prev ev_version ev_hash].
  split_and!; [done..|]. split; [|done]. by apply (grows_dom s1).
Qed.

Lemma bind_ret_state {A B} (m : EM A) (f : A → B) s : ((a ← m; mret (f a)) s).2 = (m s).2.
Proof. unfold mbind, st_bind. by destruct (m s) as [[a|e] s']. Qed.
Lemma then_ret_state {A B} (m : EM A) (b : B) s : ((m ;; mret b) s).2 = (m s).2.
Proof. unfold mbind, st_bind. by destruct (m s) as [[a|e] s']. Qed.

Lemma append_ok type stream data meta : st_rel (λ s s', store_ok s → store_ok s') (append type stream data meta).
Proof.
  intros s Hok. destruct (append_inv type stream data meta s) as [(e & s' & -> & G & _)|(e & s1 & -> & G & _ & Hf)].
  - by apply (grows_ok s).
  - rewrite then_ret_state. apply store_event_ok; [by apply (grows_ok s)|done].
Qed.
Lemma append_many_ok events stream : st_rel (λ s s', store_ok s → store_ok s') (append_many events stream).
Proof.
  induction events as [|[[ty own] data] events IH]; cbn [append_many]; rel_auto ltac:(apply append_ok). exact IH.
Qed.

(** The dictionary written by [append_event], and the event it stores. *)
Lemma append_event_ok te s :
  ¬ in_use s (te_meta te) → store_ok s → store_ok (append_event te s).2.
Proof.
  intros Hfree Hok. unfold append_event, st_try.
  set (h := <[te_meta te := enriched te (deref s (te_meta te))]> (s_heap s)).
  rewrite (st_bind_ok (st_modify _) _ s () (set_heap h s)) by done.
  assert (store_ok (set_heap h s)) as Hok1.
  { apply (store_keep s); [done| |done]. intros l Hl. simpl. unfold h. rewrite lookup_insert_ne; [done|]. by intros <-. }
  assert (te_meta te ∈ dom (s_heap (set_heap h s))) as Hd.
  { apply elem_of_dom. simpl. unfold h. by rewrite lookup_insert_eq. }
  revert Hok1 Hd. generalize (set_heap h s). clear s Hok Hfree h. intros s Hok Hd.
  rewrite (st_bind_ok st_get _ s s s) by done. rewrite (st_bind_ok _ _ _ _ _ (time_time_total s)).
  cbv beta zeta. set (s0 := set_clock _ s). assert (grows s s0) as H0 by done.
  assert (∃ ts s1, (match te_timestamp te with TsAt t => mret (local_timestamp t) | TsRaw _ => time_time end) s0 = (Ok ts, s1)
    ∧ grows s0 s1) as (ts & s1 & E1 & G1).
  { destruct (te_timestamp te) as [t|r]; [by eexists _, _|]. eexists _, _. rewrite time_time_total. by split. }
  rewrite (st_bind_ok _ _ _ _ _ E1). cbv beta. set (v := next_version _).
  destruct (event_id_of ts (event_stream te) v) as [id|err] eqn:Eid.
  2:{ unfold st_lift, mbind at 1, st_bind at 1. simpl. destruct (catches _ _); simpl;
      (apply (grows_ok s); [by etransitivity|done]). }
  rewrite (st_bind_ok (st_lift _) _ s1 id s1) by done.
  destruct (alloc_spec ∅ s1) as (lm & s2 & E2 & G2 & D2 & _). rewrite (st_bind_ok _ _ _ _ _ E2).
  rewrite (st_bind_ok st_get _ s2 s2 s2) by done.
  assert (grows s s2) as G by (do 2 (etransitivity; [eassumption|]); done).
  set (e := StoredEvent _ _ _ _ _ _ _ _ _ _ _ _).
  assert (fits s2 (event_stream te) e) as Hf.
  { unfold fits. rewrite (stream_of_grows _ _ _ G). unfold e. cbn [ev_prev ev_version ev_hash].
    split_and!; [done..| |].
    - unfold event_content, compute_hash. cbn [ev_id ev_type ev_stream ev_data ev_meta ev_version ev_ts].
      replace (deref s2 lm) with (∅ : payload); [done|]. unfold deref. by rewrite D2.
    - split; [by apply (grows_dom s)|]. apply elem_of_dom. by exists ∅. }
  pose proof (store_event_ok (event_stream te) e s2 (grows_ok _ _ G Hok) Hf) as Hst.
  unfold mbind, st_bind. destruct (store_event (event_stream te) e s2) as [[u|err] s3]; simpl in *; [done|].
  by destruct (catches append_errors err).
Qed.

(** ** Histories *)

(** What the store and the owners of dictionaries do: a caller makes a
    dictionary or writes to one. *)
Inductive store_op :=
| OAppend (type stream : string) (data meta : option loc)
| OMany (events : list (string * string * option loc)) (stream : string)
| OEvent (te : trading_event)
| OSnapshot (stream : string) (state : loc)
| ODelete (stream : string)
| OClear
| ONew (p : payload)
| OWrite (l : loc) (p : payload).
Definition run_store_op (o : store_op) : EM unit :=
  match o with
  | OAppend type stream data meta => append type stream data meta ;; mret ()
  | OMany events stream => append_many events stream ;; mret ()
  | OEvent te => append_event te ;; mret ()
  | OSnapshot stream state => create_snapshot stream state ;; mret ()
  | ODelete stream => delete_stream stream ;; mret ()
  | OClear => clear_all
  | ONew p => alloc p ;; mret ()
  | OWrite l p => st_modify (λ s, set_heap (<[l := p]> (s_heap s)) s)
  end.
Definition run_store (os : list store_op) (s : estore) : estore := foldl (λ s o, (run_store_op o s).2) s os.

(** No dictionary of a stored event is written: not by a caller, and not by
    an [append_event] whose metadata dictionary is one of them. *)
Definition op_private (s : estore) (o : store_op) : Prop :=
  match o with OEvent te => ¬ in_use s (te_meta te) | OWrite l _ => ¬ in_use s l | _ => True end.
Fixpoint private_history (s : estore) (os : list store_op) : Prop :=
  match os with [] => True | o :: os' => op_private s o ∧ private_history (run_store_op o s).2 os' end.

(** Streams removed, dictionaries in use kept. *)
Definition shrinks (s s' : estore) : Prop :=
  (∀ name l, s_streams s' !! name = Some l → s_streams s !! name = Some l) ∧ s_heap s' = s_heap s.
#[local] Instance shrinks_preorder : PreOrder shrinks.
Proof. split; [by intros s; split|]. intros s1 s2 s3 [A B] [C D]. split; [auto|congruence]. Qed.
Lemma shrinks_ok s s' : shrinks s s' → store_ok s → store_ok s'.
Proof.
  intros [H1 H2] Hok name l Hl. apply (stream_agree s); [|by eapply Hok, H1]. intros e _. by rewrite H2.
Qed.
Lemma same_shrinks s s' : same_events s s' → shrinks s s'.
Proof. intros [H1 H2]. split; [|done]. by rewrite H1. Qed.
Lemma db_call_shrinks {A} (f : pydict event_row → A * pydict event_row) d : st_rel shrinks (db_call f d).
Proof. intros s. apply same_shrinks, db_call_same. Qed.

Lemma delete_shrinks name : st_rel shrinks (delete_stream name).
Proof.
  unfold delete_stream. rel_auto ltac:(apply db_call_shrinks); intros s; (split; [|done]); intros k l; simpl; [|done].
  destruct (decide (name = k)) as [<-|Hne]; [by rewrite dict_lookup_delete_eq|by rewrite dict_lookup_delete_ne].
Qed.
Lemma clear_shrinks : st_rel shrinks clear_all.
Proof. unfold clear_all. rel_auto ltac:(apply db_call_shrinks); intros s; by split. Qed.
Lemma snapshot_same name state : st_rel same_events (create_snapshot name state).
Proof. unfold create_snapshot. sames. apply persist_snapshots_same. Qed.

Lemma store_op_ok o s : op_private s o → store_ok s → store_ok (run_store_op o s).2.
Proof.
  intros Hp Hok. destruct o as [ty st d m|es st|te|st l|st| |p|l p]; cbn [run_store_op]; rewrite ?then_ret_state.
  - by apply append_ok.
  - by apply append_many_ok.
  - by apply append_event_ok.
  - by apply (same_events_ok s), Hok; apply snapshot_same.
  - by apply (shrinks_ok s), Hok; apply delete_shrinks.
  - by apply (shrinks_ok s), Hok; apply clear_shrinks.
  - destruct (alloc_spec p s) as (l & s' & E & G & _). rewrite E. by apply (grows_ok s).
  - apply (store_keep s); [done| |done]. intros k Hk. simpl. rewrite lookup_insert_ne; [done|]. by intros ->.
Qed.

Lemma run_store_ok s os : store_ok s → private_history s os → store_ok (run_store os s).
Proof.
  unfold run_store. revert s. induction os as [|o os IH]; intros s Hok; [done|].
  intros [H1 H2]. apply IH; [by apply store_op_ok|done].
Qed.

Lemma linked_check s name prev n l :
  linked s prev l → check_chain s name prev n l = inr (n + Z.of_nat (length l)).
Proof.
  revert prev n. induction l as [|e l IH]; intros prev n; cbn [linked check_chain].
  - intros _. f_equal. simpl. lia.
  - intros (H1 & H2 & H3). rewrite <- H2, H1, !String.eqb_refl. cbn [negb]. rewrite IH by done.
    f_equal. simpl. lia.
Qed.
Definition events_of (s : estore) (names : list string) : list event := concat (stream_of s <$> names).
Lemma check_streams_ok s n names :
  store_ok s → check_streams s n names = inr (n + Z.of_nat (length (events_of s names))).
Proof.
  intros Hok. revert n. induction names as [|name names IH]; intros n; cbn [check_streams].
  - f_equal. unfold events_of. simpl. lia.
  - rewrite linked_check by apply (stream_of_ok s name Hok). rewrite IH.
    change (events_of s (name :: names)) with (stream_of s name ++ events_of s names).
    rewrite length_app, Nat2Z.inj_add. by rewrite Z.add_assoc.
Qed.

(** An untampered store verifies.  From a store in order (the empty one,
    for instance), after any history of appends, batches, trading events,
    snapshots, deletions and clears, whatever the writes of the table and of
    the files did, [verify_chain] accepts every stream and counts every
    event, and a stream's versions count its events, provided that no
    dictionary of a stored event was written to: not by its owner, and not
    by a trading event that shares it. *)
Theorem untampered_verifies (s : estore) (os : list store_op) :
  store_ok s → private_history s os →
  let s' := run_store os s in
  verify_chain None s' = (true, Z.of_nat (length (events_of s' (dkeys (s_streams s')))),
    cat ["Chain valid: "; str_of_Z (Z.of_nat (length (events_of s' (dkeys (s_streams s'))))); " events checked"]) ∧
  (∀ name, (verify_chain (Some name) s').1.1 = true) ∧
  (∀ name, numbered (stream_of s' name)).
Proof.
  intros Hok Hp s'. assert (store_ok s') as Hok' by by apply run_store_ok.
  split_and!.
  - unfold verify_chain. by rewrite check_streams_ok.
  - intros name. unfold verify_chain. by rewrite check_streams_ok.
  - intros name. apply (stream_of_ok s' name Hok').
Qed.

(** *** Tampering *)

(** The fields that the hash covers, dictionaries up to the order of their
    keys and the text of unknown objects. *)
Definition same_record (s : estore) (e : event) (s' : estore) (e' : event) : Prop :=
  ev_id e = ev_id e' ∧ ev_type e = ev_type e' ∧ ev_stream e = ev_stream e' ∧ ev_version e = ev_version e' ∧
  ev_ts e = ev_ts e' ∧ ev_prev e = ev_prev e' ∧
  canon (JDict (items (deref s (ev_data e)))) = canon (JDict (items (deref s' (ev_data e')))) ∧
  canon (JDict (items (deref s (ev_meta e)))) = canon (JDict (items (deref s' (ev_meta e')))).

(** No two of these contents have the same hash. *)
Definition collision_free (s : estore) (l : list event) (s' : estore) (l' : list event) : Prop :=
  ∀ e e', e ∈ l → e' ∈ l' →
    sha256_json (event_content s (ev_prev e) e) = sha256_json (event_content s' (ev_prev e') e') →
    event_content s (ev_prev e) e = event_content s' (ev_prev e') e'.

Lemma check_linked s name prev n l m : check_chain s name prev n l = inr m → linked s prev l.
Proof.
  revert prev n. induction l as [|e l IH]; intros prev n; cbn [check_chain linked]; [done|].
  destruct (String.eqb_spec (ev_prev e) prev) as [H1|]; [|done]. cbn [negb].
  destruct (String.eqb_spec (sha256_json (event_content s prev e)) (ev_hash e)) as [H2|]; [|done]. cbn [negb].
  intros H. split_and!; [done..|by eapply IH].
Qed.
Lemma verified_linked s name : truthy_str name = true → (verify_chain (Some name) s).1.1 = true → linked s "" (stream_of s name).
Proof.
  intros Hn. unfold verify_chain. simpl. rewrite Hn. simpl.
  destruct (check_chain s name "" 0 (stream_of s name)) as [[n m]|n] eqn:E; [done|]. intros _. by eapply check_linked.
Qed.
Lemma linked_snoc_inv s prev l e :
  linked s prev (l ++ [e]) →
  linked s prev l ∧ ev_prev e = (match last l with Some d => ev_hash d | None => prev end) ∧
  ev_hash e = sha256_json (event_content s (ev_prev e) e).
Proof.
  revert prev. induction l as [|d l IH]; intros prev; cbn [app linked].
  - intros (H1 & H2 & _). by rewrite H1.
  - intros (H1 & H2 & H3). destruct (IH _ H3) as (G1 & G2 & G3). split_and!; [done..| |done].
    rewrite G2, last_cons. by destruct (last l).
Qed.
Lemma same_content s e s' e' :
  event_content s (ev_prev e) e = event_content s' (ev_prev e') e' → same_record s e s' e'.
Proof. unfold event_content, content. intros [=]. unfold same_record. split_and!; cbn [canon]; congruence. Qed.

Lemma linked_same s s' l l' :
  linked s "" l → linked s' "" l' → length l = length l' → last_hash l = last_hash l' →
  collision_free s l s' l' → Forall2 (λ e e', same_record s e s' e' ∧ ev_hash e = ev_hash e') l l'.
Proof.
  revert l'. induction l as [|e l IH] using rev_ind; intros l' Hl Hl' Hlen Hh Hc.
  { by destruct l'. }
  destruct l' as [|e' l' _] using rev_ind; [rewrite length_app in Hlen; simpl in Hlen; lia|].
  rewrite !length_app in Hlen. simpl in Hlen.
  destruct (linked_snoc_inv _ _ _ _ Hl) as (H1 & H2 & H3), (linked_snoc_inv _ _ _ _ Hl') as (G1 & G2 & G3).
  unfold last_hash in Hh. rewrite !last_snoc in Hh.
  assert (same_record s e s' e') as Hs.
  { apply same_content, Hc; [apply elem_of_app; right; apply list_elem_of_here..|congruence]. }
  apply Forall2_app; [|constructor; [by split|constructor]]. apply IH; [done|done|lia| |].
  - destruct Hs as (_ & _ & _ & _ & _ & Hp & _). rewrite H2, G2 in Hp. done.
  - intros d d' Hd Hd'. apply Hc; apply elem_of_app; by left.
Qed.

(** Tampering shows.  If a stream of a store and the same stream of a
    changed copy (fields edited, dictionaries rewritten, events replaced or
    reordered) both verify, have the same length and end in the same hash,
    then every event carries the same id, type, stream, version, timestamp,
    payload and metadata as before: a verified history is determined by its
    last hash and its length, as long as the hash does not collide on the
    contents at hand. *)
Theorem tampering_detected (s s' : estore) (name : string) :
  name ≠ ""%string →
  (verify_chain (Some name) s).1.1 = true → (verify_chain (Some name) s').1.1 = true →
  length (stream_of s name) = length (stream_of s' name) →
  last_hash (stream_of s name) = last_hash (stream_of s' name) →
  collision_free s (stream_of s name) s' (stream_of s' name) →
  Forall2 (λ e e', same_record s e s' e' ∧ ev_hash e = ev_hash e') (stream_of s name) (stream_of s' name).
Proof.
  intros Hn%truthy_str_spec H1%verified_linked H2%verified_linked H3 H4 H5; [|done..]. by apply linked_same.
Qed.

(** ** Reloading the JSON file *)

(** An event by value; the sequence number is the table's. *)
Definition by_value (s : estore) (e : event) : event_row := row_of s e 0.
Definition from_json (r : event_row) : Prop := er_seq r = 0.

Lemma by_value_agree s s' e l : agree s s' l → e ∈ l → by_value s' e = by_value s e.
Proof. intros H He. destruct (H e He) as [H1 H2]. unfold by_value, row_of, deref. by rewrite H1, H2. Qed.
Lemma grows_agree s s' l : grows s s' → Forall (housed s) l → agree s s' l.
Proof.
  intros [_ G] Hh e He. rewrite Forall_forall in Hh. destruct (Hh e He) as [H1 H2]. split; by apply G.
Qed.
Lemma by_values_grow s s' l : grows s s' → Forall (housed s) l → map (by_value s') l = map (by_value s) l.
Proof.
  intros G Hh. apply map_ext_in. intros e He%list_elem_of_In.
  by apply (by_value_agree s s' e l); [apply grows_agree|].
Qed.
Lemma housed_grow s s' l : grows s s' → Forall (housed s) l → Forall (housed s') l.
Proof. intros G H. eapply Forall_impl; [exact H|]. intros e [H1 H2]. split; by apply (grows_dom s). Qed.

Lemma load_event_spec r s :
  from_json r → ∃ e s', load_event r s = (Ok e, s') ∧ grows s s' ∧ housed s' e ∧ by_value s' e = r.
Proof.
  intros Hr. unfold load_event. destruct (alloc_spec (er_data r) s) as (ld & s1 & E1 & G1 & D1 & F1).
  rewrite (st_bind_ok _ _ _ _ _ E1). destruct (alloc_spec (er_meta r) s1) as (lm & s2 & E2 & G2 & D2 & F2).
  rewrite (st_bind_ok _ _ _ _ _ E2). eexists _, s2. split; [reflexivity|]. split; [by etransitivity|].
  assert (ld ∈ dom (s_heap s1)) as Hd by (apply elem_of_dom; by eexists).
  split; [split; [by apply (grows_dom s1)|apply elem_of_dom; by eexists]|].
  unfold by_value, row_of. cbn [ev_id ev_type ev_stream ev_data ev_meta ev_version ev_ts ev_hash ev_prev ev_agg ev_corr ev_caus].
  replace (deref s2 ld) with (er_data r) by (unfold deref; destruct G2 as [_ ->]; [by rewrite D1|done]).
  replace (deref s2 lm) with (er_meta r) by (unfold deref; by rewrite D2).
  unfold from_json in Hr. by destruct r; simpl in *; subst.
Qed.
Lemma load_events_spec l s :
  Forall from_json l → ∃ es s', load_events l s = (Ok es, s') ∧ grows s s' ∧ Forall (housed s') es ∧ map (by_value s') es = l.
Proof.
  intros Hl. revert s. induction Hl as [|r l Hr _ IH]; intros s; cbn [load_events].
  { by exists [], s. }
  destruct (load_event_spec r s Hr) as (e & s1 & E1 & G1 & H1 & V1). rewrite (st_bind_ok _ _ _ _ _ E1).
  destruct (IH s1) as (es & s2 & E2 & G2 & H2 & V2). rewrite (st_bind_ok _ _ _ _ _ E2).
  exists (e :: es), s2. split; [done|]. split; [by etransitivity|].
  assert (Forall (housed s1) [e]) as H1' by by apply Forall_singleton.
  assert (housed s2 e) as H1'' by (eapply Forall_singleton; by apply (housed_grow s1)).
  split; [by apply Forall_cons_2|]. simpl. f_equal; [|done].
  pose proof (by_values_grow _ _ _ G2 H1') as Hv. simpl in Hv. congruence.
Qed.

(** What loading a list of streams gives. *)
Definition holds (s : estore) (name : string) (rows : list event_row) : Prop :=
  Forall (housed s) (stream_of s name) ∧ map (by_value s) (stream_of s name) = rows.
Lemma load_streams_spec d s :
  NoDup d.*1 → Forall (λ p, Forall from_json p.2) d →
  ∃ s', st_iter load_stream d s = (Ok (), s') ∧
    (∀ name rows, (name, rows) ∈ d → holds s' name rows) ∧
    (∀ name rows, name ∉ d.*1 → holds s name rows → holds s' name rows) ∧
    (∀ name, s_streams s' !! name ≠ None → s_streams s !! name ≠ None ∨ name ∈ d.*1).
Proof.
  intros Hnd Hj. revert s Hnd. induction Hj as [|[name rows] d Hr _ IH]; intros s Hnd.
  { exists s. split; [done|]. split; [by intros ? ? ?%not_elem_of_nil|]. split; [done|by left]. }
  cbn [st_iter]. apply NoDup_cons in Hnd as [Hname Hnd].
  destruct (load_events_spec rows s Hr) as (es & s1 & E1 & G1 & H1 & V1).
  set (s2 := set_streams (<[name := es]> (s_streams s1)) s1).
  set (s3 := set_total (s_total s2 + Z.of_nat (length es)) s2).
  assert (load_stream (name, rows) s = (Ok (), s3)) as El by (unfold load_stream; by rewrite (st_bind_ok _ _ _ _ _ E1)).
  rewrite (st_bind_ok _ _ _ _ _ El).
  destruct (IH s3 Hnd) as (s' & E' & Hin & Hout & Hold). exists s'. split; [done|].
  assert (holds s3 name rows) as H3.
  { unfold holds, stream_of. simpl. rewrite dict_lookup_insert_eq. done. }
  assert (∀ n, name ≠ n → stream_of s3 n = stream_of s n) as Hother.
  { intros n Hne. unfold stream_of. simpl. rewrite dict_lookup_insert_ne by done. by destruct G1 as [-> _]. }
  split_and!.
  - intros n rs [Heq|Hd]%elem_of_cons; [|by apply Hin]. injection Heq as -> ->. by apply Hout.
  - intros n rs [Hne Hn]%not_elem_of_cons [Hh Hv]. simpl in Hne. apply Hout; [done|]. unfold holds.
    rewrite Hother by done. split; [by apply (housed_grow s s1)|]. rewrite <- Hv. by apply (by_values_grow s s1).
  - intros n Hn. destruct (Hold n Hn) as [H|H]; [|by right; apply elem_of_cons; right].
    destruct (decide (name = n)) as [<-|Hne]; [right; apply list_elem_of_here|left].
    revert H. simpl. rewrite dict_lookup_insert_ne by done. by destruct G1 as [-> _].
Qed.

(** Verification depends on the values only. *)
Definition row_content (prev : string) (r : event_row) : json :=
  content (er_id r) (er_type r) (er_stream r) (er_data r) (er_meta r) (er_version r) (er_ts r) prev.
Lemma linked_values s s' prev l l' : map (by_value s') l' = map (by_value s) l → linked s prev l → linked s' prev l'.
Proof.
  revert prev l'. induction l as [|e l IH]; intros prev [|e' l']; cbn [map]; try done.
  intros [= ? ? ? ? ? ? ? Hh Hp ? ? ? Ht]. cbn [linked]. intros (K1 & K2 & K3).
  split_and!; [congruence| |rewrite Hh; by apply IH].
  rewrite Hh, K2. unfold event_content. by f_equal; congruence.
Qed.

(** The file after a store: the streams by value. *)
Lemma trim_written s s' :
  s_writes s = [] → trim_json_persist s = (Ok (), s') → s' = set_json (Some (json_rows s)) s ∧ rows_serialisable (json_rows s) = true.
Proof.
  intros Hw. unfold trim_json_persist. rewrite (st_bind_ok _ _ s Written s) by (unfold next_write; by rewrite Hw).
  rewrite (st_bind_ok st_get _ s s s) by done.
  destruct (rows_serialisable (json_rows s)); cbn [negb]; [by intros [= <-]|done].
Qed.
Lemma json_rows_same s s' : same_events s s' → json_rows s' = json_rows s.
Proof.
  intros [H1 H2]. unfold json_rows. rewrite H1. f_equal. apply map_ext. intros p. f_equal. apply map_ext. intros e.
  unfold row_of, deref. by rewrite H2.
Qed.
Lemma persist_stays_quiet e : st_rel quiet (persist_to_sqlite e).
Proof.
  unfold persist_to_sqlite. rel_auto ltac:(fail). intros s0. unfold db_call.
  destruct (s_db s0) as [d|]; [|done]. by destruct (db_run _ d).
Qed.
Lemma store_event_json key e s s' :
  s_writes s = [] → store_event key e s = (Ok (), s') → s_json s' = Some (json_rows s') ∧
  s_streams s' = <[key := stream_of s key ++ [e]]> (s_streams s) ∧ s_heap s' = s_heap s.
Proof.
  intros Hw. unfold store_event.
  rewrite (st_bind_ok _ _ s () (set_streams (<[key := stream_of s key ++ [e]]> (s_streams s)) s)) by done.
  set (s1 := set_streams _ s). rewrite (st_bind_ok _ _ s1 () (set_total (s_total s1 + 1) s1)) by done.
  set (s2 := set_total _ s1). intros H. inv_bind H u s3 H3.
  pose proof (result_rel _ _ _ _ _ (persist_stays_quiet e) H3) as [Hq _].
  pose proof (result_rel _ _ _ _ _ (persist_same e) H3) as [Hs Hh].
  apply trim_written in H as [-> _]; [|by rewrite Hq].
  split; [|by simpl; rewrite Hs, Hh]. by simpl.
Qed.

Lemma recent_short {A} (l : list A) : Z.of_nat (length l) ≤ MAX_JSON_EVENTS → recent l = l.
Proof. intros H. unfold recent. replace (Z.to_nat _) with 0%nat by lia. done. Qed.

Lemma load_snapshot_grows p : st_rel grows (load_snapshot p).
Proof.
  intros s. unfold load_snapshot. destruct (alloc_spec ∅ s) as (l & s1 & E & G & _). by rewrite (st_bind_ok _ _ _ _ _ E).
Qed.
Lemma load_snapshots_grow d : st_rel grows (st_iter load_snapshot d).
Proof. apply st_rel_iter; [typeclasses eauto|]. intros p _. apply load_snapshot_grows. Qed.

Lemma restart_values s name :
  store_ok s → dict_wf (s_streams s) → s_json s = Some (json_rows s) →
  (∀ n l, s_streams s !! n = Some l → Z.of_nat (length l) ≤ MAX_JSON_EVENTS) →
  map (by_value (restart s)) (stream_of (restart s) name) = map (by_value s) (stream_of s name).
Proof.
  intros Hok Hwf Hj Hlen. unfold restart, load_json_fallback.
  rewrite (st_bind_ok st_get _ _ (fresh_store s) (fresh_store s)) by done. cbn [s_json fresh_store]. rewrite Hj.
  destruct (load_streams_spec (items (json_rows s)) (fresh_store s)) as (s1 & E1 & Hin & Hout & Hold).
  { unfold dict_wf, dkeys in Hwf. unfold json_rows. cbn [items]. rewrite map_map in *.
    replace (map _ _) with ((items (s_streams s)).*1); [done|]. by apply map_ext. }
  { apply Forall_forall. intros p Hp%list_elem_of_In. cbn [items json_rows] in Hp. apply in_map_iff in Hp as (q & <- & _).
    apply Forall_forall. intros r Hr%list_elem_of_In. apply in_map_iff in Hr as (e & <- & _). done. }
  rewrite (st_bind_ok _ _ _ _ _ E1).
  assert (holds s1 name (map (by_value s) (stream_of s name))) as [Hh Hv].
  { destruct (s_streams s !! name) as [l|] eqn:El.
    - apply Hin. replace (stream_of s name) with l by (unfold stream_of; by rewrite El).
      apply list_elem_of_In. cbn [items json_rows]. apply in_map_iff. exists (name, l). cbn [fst snd].
      split; [by rewrite recent_short by by eapply Hlen|]. apply list_elem_of_In. by apply dict_items_lookup.
    - apply Hout; [|unfold holds, stream_of; by rewrite El]. intros Hn. apply list_elem_of_In in Hn.
      cbn [items json_rows] in Hn. rewrite map_map in Hn. apply in_map_iff in Hn as (p & Hp & Hp').
      simpl in Hp. destruct p as [k l]. simpl in Hp. subst k. apply list_elem_of_In, dict_items_lookup in Hp'; [|done]. congruence. }
  assert (grows s1 ((match s_snap_json s with Some d => st_iter load_snapshot (items d) | None => mret () end) s1).2) as G.
  { destruct (s_snap_json s) as [d|]; [apply load_snapshots_grow|reflexivity]. }
  rewrite (stream_of_grows _ _ _ G), <- Hv. by apply (by_values_grow s1).
Qed.

Lemma append_wf type stream data meta s e s' :
  append type stream data meta s = (Ok e, s') → s_writes s = [] → store_ok s → dict_wf (s_streams s) →
  s_json s' = Some (json_rows s') ∧ dict_wf (s_streams s').
Proof.
  intros E Hw Hok Hwf. destruct (append_inv type stream data meta s) as [(err & s1 & E' & _)|(e1 & s1 & E' & G & Hq & Hf)].
  { congruence. }
  rewrite E' in E. inv_bind E u s2 E2. injection E as _ <-.
  destruct u; apply store_event_json in E2 as (H1 & H2 & _); [|destruct Hq as [-> _]; done].
  split; [done|]. rewrite H2. apply dict_insert_wf. by destruct G as [-> _].
Qed.

(** C37: A restart keeps the history while it fits.  When the streams held
    intact chains, an append returned and its file was written, and no stream
    is longer than the 10000 events the file keeps of one, a new process that
    loads the JSON file holds in every stream the same events by value, in
    the same order, and every chain verifies. *)
Theorem reload_verifies (type stream : string) (data meta : option loc) (s s' : estore) (e : event) :
  store_ok s → dict_wf (s_streams s) → s_writes s = [] →
  append type stream data meta s = (Ok e, s') →
  (∀ n l, s_streams s' !! n = Some l → Z.of_nat (length l) ≤ MAX_JSON_EVENTS) →
  (∀ name, map (by_value (restart s')) (stream_of (restart s') name) = map (by_value s') (stream_of s' name)) ∧
  ∀ name, (verify_chain name (restart s')).1.1 = true.
Proof.
  intros Hok Hwf Hw E Hlen. destruct (append_wf _ _ _ _ _ _ _ E Hw Hok Hwf) as [Hj Hwf'].
  assert (store_ok s') as Hok' by exact (result_rel _ _ _ _ _ (append_ok type stream data meta) E Hok).
  assert (∀ name, map (by_value (restart s')) (stream_of (restart s') name) = map (by_value s') (stream_of s' name)) as Hv
    by (intros name; by apply restart_values).
  split; [done|]. intros name.
  assert (∀ n, linked (restart s') "" (stream_of (restart s') n)) as Hlink.
  { intros n. apply (linked_values s' _ _ (stream_of s' n)); [apply Hv|apply (stream_of_ok s' n Hok')]. }
  assert (∀ ns m, ∃ k, check_streams (restart s') m ns = inr k) as Hc.
  { induction ns as [|n ns IH]; intros m; cbn [check_streams]; [by eexists|]. by rewrite linked_check. }
  unfold verify_chain. by destruct (Hc (if truthy_opt name then [default ""%string name] else dkeys (s_streams (restart s'))) 0)
    as [k ->].
Qed.

(** *** Payloads that the encoder does not know *)

Definition poisoned (s : estore) : Prop :=
  ∃ name l e, s_streams s !! name = Some l ∧ e ∈ l ∧ row_serialisable (by_value s e) = false.
Definition shorter (n : Z) (s : estore) : Prop :=
  ∀ name l, s_streams s !! name = Some l → Z.of_nat (length l) < n.

Lemma forallb_false {A} (f : A → bool) l x : x ∈ l → f x = false → forallb f l = false.
Proof.
  intros Hx Hf. destruct (forallb f l) eqn:E; [|done]. rewrite forallb_forall in E.
  rewrite E in Hf; [done|by apply list_elem_of_In].
Qed.
Lemma poisoned_rows s : dict_wf (s_streams s) → shorter MAX_JSON_EVENTS s → poisoned s → rows_serialisable (json_rows s) = false.
Proof.
  intros Hwf Hlen (name & l & e & Hl & He & Hb).
  apply (forallb_false _ _ (name, map (λ e, row_of s e 0) l)).
  - apply list_elem_of_In. cbn [items json_rows]. apply in_map_iff. exists (name, l). cbn [fst snd].
    split; [|by apply list_elem_of_In, dict_items_lookup]. rewrite recent_short; [done|].
    specialize (Hlen _ _ Hl). lia.
  - cbn [snd]. apply (forallb_false _ _ (by_value s e)); [|done].
    apply list_elem_of_In, in_map_iff. exists e. split; [done|by apply list_elem_of_In].
Qed.

(** What a poisoned store is like between appends. *)
Record stuck (n : Z) (file : option (pydict (list event_row))) (s : estore) : Prop := {
  sk_ok : store_ok s; sk_wf : dict_wf (s_streams s); sk_poison : poisoned s; sk_short : shorter n s;
  sk_dir : ¬ (NoDirectory ∈ s_writes s); sk_file : s_json s = file }.

Lemma poisoned_grows s s' : store_ok s → grows s s' → poisoned s → poisoned s'.
Proof.
  intros Hok G (name & l & e & Hl & He & Hb). exists name, l, e. split_and!; [by destruct G as [-> _]|done|].
  rewrite (by_value_agree s s' e l); [done| |done]. apply grows_agree; [done|]. apply (Hok _ _ Hl).
Qed.
Lemma stuck_grows n file s s' : grows s s' → quiet s s' → stuck n file s → stuck n file s'.
Proof.
  intros G [Q1 Q2] [H1 H2 H3 H4 H5 H6]. pose proof G as [Gs _]. split.
  - by apply (grows_ok s).
  - by rewrite Gs.
  - by apply (poisoned_grows s).
  - unfold shorter. by rewrite Gs.
  - by rewrite Q1.
  - by rewrite Q2.
Qed.

(** After a raising trim the file is as before. *)
Lemma trim_poisoned s :
  rows_serialisable (json_rows s) = false → ¬ (NoDirectory ∈ s_writes s) →
  ∃ s', trim_json_persist s = (Raise not_serialisable, s') ∧ s_json s' = s_json s ∧ ¬ (NoDirectory ∈ s_writes s') ∧ same_events s s'.
Proof.
  intros Hr Hw. unfold trim_json_persist.
  assert (∃ o s', next_write s = (Ok o, s') ∧ o ≠ NoDirectory ∧ s_json s' = s_json s ∧ ¬ (NoDirectory ∈ s_writes s') ∧ same_events s s')
    as (o & s' & E & Ho & Hj & Hw' & Hs).
  { unfold next_write. destruct (s_writes s) as [|o os] eqn:Ew.
    - exists Written, s. rewrite Ew. by split_and!.
    - apply not_elem_of_cons in Hw as [H1 H2]. exists o, (set_writes os s). by split_and!. }
  exists s'. rewrite (st_bind_ok _ _ _ _ _ E), (st_bind_ok st_get _ s' s' s') by done.
  rewrite (json_rows_same s s' Hs), Hr. split_and!; [by destruct o|done..].
Qed.

Lemma store_event_poisoned n file key e s :
  n <= MAX_JSON_EVENTS → stuck (n - 1) file s → fits s key e →
  ∃ err s', store_event key e s = (Raise err, s') ∧ stuck n file s' ∧
    stream_of s' key = stream_of s key ++ [e].
Proof.
  intros Hn [H1 H2 H3 H4 H5 H6] Hf. unfold store_event.
  rewrite (st_bind_ok _ _ s () (set_streams (<[key := stream_of s key ++ [e]]> (s_streams s)) s)) by done.
  set (s1 := set_streams _ s). rewrite (st_bind_ok _ _ s1 () (set_total (s_total s1 + 1) s1)) by done.
  set (s2 := set_total _ s1).
  assert (store_ok s2) as Hok by exact (same_events_ok s1 s2 (conj eq_refl eq_refl) (put_event_ok s key e H1 Hf)).
  assert (dict_wf (s_streams s2)) as Hwf by by apply dict_insert_wf.
  assert (shorter n s2) as Hlen.
  { intros name l. simpl. destruct (decide (key = name)) as [<-|Hne].
    - rewrite dict_lookup_insert_eq. intros [= <-]. rewrite length_app. simpl. unfold stream_of.
      destruct (s_streams s !! key) as [l|] eqn:El; simpl; [specialize (H4 _ _ El); lia|].
      destruct H3 as (nm & l & ? & Hl & _). specialize (H4 _ _ Hl). lia.
    - rewrite dict_lookup_insert_ne by done. intros Hl. specialize (H4 _ _ Hl). lia. }
  assert (poisoned s2) as Hp.
  { destruct H3 as (name & l & d & Hl & Hd & Hb). destruct (decide (key = name)) as [<-|Hne].
    - exists key, (stream_of s key ++ [e]), d. simpl. rewrite dict_lookup_insert_eq.
      split_and!; [done| |done]. apply elem_of_app. left. unfold stream_of. by rewrite Hl.
    - exists name, l, d. simpl. rewrite dict_lookup_insert_ne by done. done. }
  assert (stuck n file s2) as Hst by by split.
  assert (stream_of s2 key = stream_of s key ++ [e]) as Hkey.
  { unfold stream_of at 1. simpl. by rewrite dict_lookup_insert_eq. }
  destruct (persist_to_sqlite e s2) as [r s3] eqn:E3.
  pose proof (result_rel _ _ _ _ _ (persist_stays_quiet e) E3) as Hq.
  pose proof (same_grows _ _ (result_rel _ _ _ _ _ (persist_same e) E3)) as Hg.
  pose proof (stuck_grows _ _ _ _ Hg Hq Hst) as Hst3. pose proof (stream_of_grows _ _ key Hg) as Hkey3.
  destruct r as [[]|err]; [|exists err, s3; split_and!; [by unfold mbind, st_bind; rewrite E3|done|congruence]].
  rewrite (st_bind_ok _ _ _ _ _ E3). destruct Hst3 as [G1 G2 G3 G4 G5 G6].
  destruct (trim_poisoned s3) as (s4 & E4 & Hj & Hw & Hs); [apply poisoned_rows; [done| |done]|done|].
  { intros nm l Hl. specialize (G4 _ _ Hl). lia. }
  pose proof (same_grows _ _ Hs) as Hg4. exists not_serialisable, s4. split; [done|].
  pose proof (proj1 Hg4) as Hs4. split; [|by rewrite (stream_of_grows _ _ key Hg4), Hkey3]. split.
  - by apply (grows_ok s3).
  - by rewrite Hs4.
  - by apply (poisoned_grows s3).
  - unfold shorter. by rewrite Hs4.
  - done.
  - congruence.
Qed.

(** Appends by any callers, each raising or not. *)
Definition append_args : Type := string * string * option loc * option loc.
Definition append_of (a : append_args) : EM event := let '(type, stream, data, meta) := a in append type stream data meta.
Fixpoint append_all (l : list append_args) (s : estore) : list (res event) * estore :=
  match l with
  | [] => ([], s)
  | a :: l' => let '(r, s1) := append_of a s in let '(rs, s2) := append_all l' s1 in (r :: rs, s2)
  end.

Lemma append_stuck n file a s :
  n <= MAX_JSON_EVENTS → stuck (n - 1) file s → ∃ err s', append_of a s = (Raise err, s') ∧ stuck n file s'.
Proof.
  intros Hn Hst. destruct a as [[[ty st] d] m]. cbn [append_of]. pose proof (sk_ok _ _ _ Hst) as Hok.
  destruct (append_inv ty st d m s) as [(err & s' & E & G & Q)|(e & s1 & E & G & Q & Hf)].
  - exists err, s'. split; [done|]. destruct (stuck_grows _ _ _ _ G Q Hst) as [H1 H2 H3 H4 H5 H6]. split; try done.
    intros nm l Hl. specialize (H4 _ _ Hl). lia.
  - rewrite E. pose proof (stuck_grows _ _ _ _ G Q Hst) as Hst1.
    destruct (store_event_poisoned n file st e s1 Hn Hst1 Hf) as (err & s2 & E2 & H2 & _).
    exists err, s2. split; [|done]. unfold mbind, st_bind. by rewrite E2.
Qed.

(** One payload that JSON does not know stops the store.  Once a stored
    event has a dictionary the encoder cannot write, every later append, to
    any stream, with any payload, raises, and the file on disk is never
    brought up to date, although the events are added to the streams in
    memory, for as many appends as the file's cap leaves room for. *)
Theorem poisoned_store_raises (l : list append_args) (s : estore) :
  store_ok s → dict_wf (s_streams s) → poisoned s → ¬ (NoDirectory ∈ s_writes s) →
  shorter (MAX_JSON_EVENTS - Z.of_nat (length l)) s →
  let '(rs, s') := append_all l s in
  length rs = length l ∧ Forall (λ r, ∃ err, r = Raise err) rs ∧ s_json s' = s_json s ∧ poisoned s'.
Proof.
  intros H1 H2 H3 H4 H5.
  assert (stuck (MAX_JSON_EVENTS - Z.of_nat (length l)) (s_json s) s) as Hst by by split.
  clear H1 H2 H3 H4 H5. revert Hst. generalize (s_json s) as file. intros file. revert s.
  induction l as [|a l IH]; intros s Hst; cbn [append_all].
  { destruct Hst. by split_and!. }
  destruct (append_stuck (MAX_JSON_EVENTS - Z.of_nat (length l)) file a s) as (err & s1 & E & Hst1); [lia| |].
  { replace (MAX_JSON_EVENTS - Z.of_nat (length l) - 1) with (MAX_JSON_EVENTS - Z.of_nat (length (a :: l))); [done|].
    simpl. lia. }
  rewrite E. specialize (IH s1 Hst1). destruct (append_all l s1) as [rs s2]. destruct IH as (G1 & G2 & G3 & G4).
  split_and!; [simpl; lia|apply Forall_cons_2; [by exists err|done]|done|done].
Qed.
End store.

(** ** Concrete stores *)

(** A digest that keeps the whole text, and a machine on IST. *)
#[export] Instance demo_sha : Sha256 := {| sha256_json := repr_json |}.
#[export] Instance ist_zone : LocalZone := {| local_timestamp := epoch_seconds |}.

Definition demo_heap : gmap loc payload := list_to_map
  [(0%nat, PyDict [("qty", JInt 50)]); (1%nat, PyDict [("strategy", JStr "momentum")]);
   (2%nat, PyDict [("at", JObj "2026-01-05" "datetime.date(2026, 1, 5)")])].
Definition demo_store : estore :=
  EStore ∅ ∅ 0 (Some (DBase ∅ [])) None None [] demo_heap (Clock (1000000 * usec_per_sec) [usec_per_sec; usec_per_sec]).
Definition demo_event (type symbol : string) (id : string) (price : option float64) : trading_event :=
  TradingEvent id type 2 (TsAt (2000000 * usec_per_sec)) "risk" None None None 1 (Some "i1") (Some "order-7") None
    (Some symbol) (Some "CALL") (Some 1) price 1%nat.

Lemma demo_estore_ok : store_ok demo_store.
Proof. by intros name l. Qed.

Lemma shorter_dec n s :
  forallb (λ p : string * list event, Z.of_nat (length p.2) <? n) (items (s_streams s)) = true → shorter n s.
Proof.
  rewrite forallb_forall. intros H name l Hl. apply Z.ltb_lt, (H (name, l)), list_elem_of_In. by apply assoc_get_in.
Qed.
Definition demo_history : list store_op :=
  [OAppend " trade.executed" "NIFTY" (Some 0%nat) None; OEvent (demo_event "ORDER_SUBMITTED" "NIFTY" "e1" None);
   OSnapshot "NIFTY" 0%nat; OMany [("a", "", None); ("b", "BANK", None)] "NIFTY"; OWrite 2%nat ∅].
Lemma not_in_use_dec s l :
  forallb (λ p : string * list event, forallb (λ e, negb (Nat.eqb l (ev_data e) || Nat.eqb l (ev_meta e))) p.2)
    (items (s_streams s)) = true → ¬ in_use s l.
Proof.
  rewrite forallb_forall. intros H (name & es & e & H1 & H2 & H3).
  assert (In (name, es) (items (s_streams s))) as Hin.
  { apply list_elem_of_In. by apply assoc_get_in. }
  specialize (H _ Hin). simpl in H. rewrite forallb_forall in H.
  specialize (H e (proj1 (list_elem_of_In _ _) H2)). bools.
  repeat match goal with X : Nat.eqb _ _ = false |- _ => apply Nat.eqb_neq in X end. by destruct H3.
Qed.
Lemma demo_private : private_history demo_store demo_history.
Proof.
  unfold demo_history. cbn [private_history op_private].
  split_and!; try exact I; apply not_in_use_dec; vm_compute; reflexivity.
Qed.
Lemma untampered_verifies_witness :
  (verify_chain None (run_store demo_history demo_store)).1 = (true, 4).
Proof.
  destruct (untampered_verifies demo_store demo_history demo_estore_ok demo_private) as [H _].
  rewrite H. vm_compute. reflexivity.
Defined.

(** A trading event whose metadata is shared with an earlier one: the second
    append rewrites the first event's stored payload, and the chain that
    nobody tampered with no longer verifies. *)
Example shared_metadata_breaks :
  let s1 := (append_event (demo_event "SIGNAL_GENERATED" "NIFTY" "e1" None) demo_store).2 in
  let s2 := (append_event (demo_event "ORDER_SUBMITTED" "NIFTY" "e2" (Some f_one)) s1).2 in
  (verify_chain None s1).1 = (true, 1) ∧ (verify_chain None s2).1 = (false, 0).
Proof. vm_compute. by split. Qed.
(** The events of an order are looked for in a payload that does not hold
    the order's id: none is found. *)
Example order_not_found :
  let s1 := (append_event (demo_event "ORDER_SUBMITTED" "NIFTY" "e1" None) demo_store).2 in
  length (all_events s1) = 1%nat ∧ get_events_for_order "order-7" s1 = [].
Proof. vm_compute. by split. Qed.
(** A range of ISO texts selects no timestamp of this century's events. *)
Example range_by_text :
  let s1 := (append "a" "S" None None demo_store).2 in
  get_events_in_range "1970-01-01" "2099-12-31" s1 = [] ∧ length (get_events_in_range "9" "99999999" s1) = 1%nat.
Proof. vm_compute. by split. Qed.
(** A snapshot loses its state in a restart. *)
Example snapshot_state_lost :
  let s1 := (create_snapshot "NIFTY" 0%nat demo_store).2 in
  (λ sn, items (deref s1 (sn_state sn))) <$> get_snapshot "NIFTY" s1 = Some [("qty"%string, JInt 50)] ∧
  (λ sn, items (deref (restart s1) (sn_state sn))) <$> get_snapshot "NIFTY" (restart s1) = Some [].
Proof. vm_compute. by split. Qed.
(** [append_event] answers [False] for an event that it stored. *)
Example stored_but_refused :
  let s0 := set_streams (<["S" := [StoredEvent "x" "t" "S" 2%nat 0%nat 1 f_zero "h" "" None None None]]> ∅) demo_store in
  let '(r, s1) := append_event (demo_event "ORDER_SUBMITTED" "NIFTY" "e1" None) s0 in
  r = Ok false ∧ length (stream_of s1 "NIFTY") = 1%nat.
Proof. vm_compute. by split. Qed.

(** Editing a payload shows. *)
Definition two_events : estore := run_store [OAppend "a" "S" (Some 0%nat) None; OAppend "b" "S" (Some 0%nat) None] demo_store.
Lemma two_events_ok : store_ok two_events.
Proof. apply run_store_ok; [exact demo_estore_ok|]. cbn [private_history]. repeat split. Qed.
Definition edited : estore := set_heap (<[0%nat := PyDict [("qty", JInt 75)]]> (s_heap two_events)) two_events.
Example editing_shows : (verify_chain (Some "S") two_events).1.1 = true ∧ (verify_chain (Some "S") edited).1.1 = false.
Proof. vm_compute. by split. Qed.
(** A rearranged dictionary is the same record. *)
Definition with_key (k : loc) (s : estore) : estore := set_heap (<[k := PyDict [("qty", JInt 50)]]> (s_heap s)) s.
Lemma tampering_detected_witness :
  Forall2 (λ e e', same_record two_events e (with_key 0%nat two_events) e' ∧ ev_hash e = ev_hash e')
    (stream_of two_events "S") (stream_of (with_key 0%nat two_events) "S").
Proof.
  apply (tampering_detected two_events (with_key 0%nat two_events) "S").
  - discriminate.
  - vm_compute. reflexivity.
  - vm_compute. reflexivity.
  - vm_compute. reflexivity.
  - vm_compute. reflexivity.
  - intros e e' He He'. 
    let l := eval vm_compute in (stream_of two_events "S") in
      assert (stream_of two_events "S" = l) as R by (vm_compute; reflexivity);
      assert (stream_of (with_key 0%nat two_events) "S" = l) as R' by (vm_compute; reflexivity).
    rewrite R, !elem_of_cons, elem_of_nil in He. rewrite R', !elem_of_cons, elem_of_nil in He'.
    destruct He as [->|[->|[]]], He' as [->|[->|[]]]; vm_compute; intros X; first [reflexivity | discriminate X].
Defined.

Lemma reload_verifies_witness :
  match append "a" "S" (Some 0%nat) None two_events with
  | (Ok _, s') => ∀ name, (verify_chain name (restart s')).1.1 = true
  | _ => False
  end.
Proof.
  destruct (append "a" "S" (Some 0%nat) None two_events) as [[e|err] s'] eqn:E.
  2:{ exfalso. revert E. vm_compute. discriminate. }
  refine (proj2 (reload_verifies "a" "S" (Some 0%nat) None two_events s' e _ _ _ E _)).
  - exact two_events_ok.
  - vm_compute. repeat constructor. intros H. inversion H.
  - vm_compute. reflexivity.
  - intros n l Hl. apply Z.lt_le_incl, (Z.lt_trans _ 4); [|reflexivity].
    assert (shorter 4 s') as H4; [|exact (H4 n l Hl)].
    assert (shorter 4 (append "a" "S" (Some 0%nat) None two_events).2) as H by (apply shorter_dec; vm_compute; reflexivity).
    rewrite E in H. exact H.
Defined.

Definition poisoned_demo : estore := (append "a" "S" (Some 2%nat) None demo_store).2.
Lemma append_store_ok ty st d m s : store_ok s → store_ok (append ty st d m s).2.
Proof. apply append_ok. Qed.
Lemma poisoned_demo_ok : store_ok poisoned_demo.
Proof. apply append_store_ok, demo_estore_ok. Qed.
Definition later_appends : list append_args := [("b", "T", None, None); ("c", "S", Some 0%nat, None)]%string.
Lemma poisoned_store_raises_witness :
  let '(rs, s') := append_all later_appends poisoned_demo in
  length rs = length later_appends ∧ Forall (λ r, ∃ err, r = Raise err) rs ∧ s_json s' = s_json poisoned_demo ∧
  poisoned s'.
Proof.
  apply (poisoned_store_raises later_appends poisoned_demo).
  - exact poisoned_demo_ok.
  - vm_compute. repeat constructor. intros H. inversion H.
  - exists "S"%string. eexists _, _. split; [vm_compute; reflexivity|]. split; [apply list_elem_of_here|].
    vm_compute. reflexivity.
  - vm_compute. intros H. inversion H.
  - apply shorter_dec. vm_compute. reflexivity.
Defined.
