(* ===== verification/EventBus.v ===== *)
(** * The event bus

    [EventBus] of [core/execution/event_system.py]: it stores each event it
    publishes in the unified event store, keeps a history and calls the
    handlers subscribed to the event's type.  Handlers are the class
    [Handlers] on a state of their own; they do not change the event. *)
From S2P Require Import Prelude PyStr Float64 PyDict PyVal CapitalManager EventStore.

Class Handlers X := { handle : nat → trading_event → ST X unit }.

Section bus.
Context {X : Type}.

Record bus := Bus {
  b_subs : pydict (list nat); b_store : estore; b_history : list trading_event; b_ext : X }.
Definition put_subs (d : pydict (list nat)) (b : bus) : bus := Bus d (b_store b) (b_history b) (b_ext b).
Definition put_store (s : estore) (b : bus) : bus := Bus (b_subs b) s (b_history b) (b_ext b).
Definition put_history (l : list trading_event) (b : bus) : bus := Bus (b_subs b) (b_store b) l (b_ext b).
Definition put_ext (x : X) (b : bus) : bus := Bus (b_subs b) (b_store b) (b_history b) x.

Definition BM (A : Type) : Type := ST bus A.
Definition on_store {A} (m : ST estore A) : BM A := st_zoom b_store put_store m.
Definition on_handlers {A} (m : ST X A) : BM A := st_zoom b_ext put_ext m.

Context `{Hh : !Handlers X, Hsha : !Sha256, Hzone : !LocalZone}.

Definition subscribers (type : string) (b : bus) : list nat := default [] (b_subs b !! type).

(** [subscribe] *)
Definition subscribe (type : string) (h : nat) : BM unit :=
  st_modify (λ b, if dmem type (b_subs b) then b else put_subs (<[type := []]> (b_subs b)) b) ;;
  st_modify (λ b, if bool_decide (h ∈ subscribers type b) then b
                  else put_subs (<[type := subscribers type b ++ [h]]> (b_subs b)) b).
(** [list.remove]: the first occurrence, or [ValueError]. *)
Fixpoint remove_first (h : nat) (l : list nat) : option (list nat) :=
  match l with
  | [] => None
  | x :: l' => if (h =? x)%nat then Some l' else cons x <$> remove_first h l'
  end.
(** [unsubscribe] *)
Definition unsubscribe (type : string) (h : nat) : BM unit :=
  b ← st_get;
  if dmem type (b_subs b) then
    match remove_first h (subscribers type b) with
    | Some l => st_modify (put_subs (<[type := l]> (b_subs b)))
    | None => st_raise (PyExn ValueError "list.remove(x): x not in list")
    end
  else mret ().

(** The exceptions of a handler that are logged only. *)
Definition handler_errors : list exn_class := [ValueError; TypeError; KeyError; AttributeError; OSError].
Definition MAX_HISTORY : Z := 10000.
Definition last_events {A} (n : Z) (l : list A) : list A := drop (Z.to_nat (Z.of_nat (length l) - n)) l.
(** [publish]: the store's answer is not looked at. *)
Definition publish (te : trading_event) : BM bool :=
  on_store (append_event te) ;;
  st_modify (λ b, put_history (last_events MAX_HISTORY (b_history b ++ [te])) b) ;;
  handlers ← st_gets (subscribers (te_type te));
  st_iter (λ h, st_try (on_handlers (handle h te)) handler_errors (λ _, mret ())) handlers ;;
  mret true.

(** ** The helpers: the event they build and publish

    [id] and [ts] are the defaults of [TradingEvent] ([uuid4] and
    [format_ts]). *)
Definition priority_normal : Z := 2.
Definition priority_critical : Z := 0.
Definition publish_it (te : trading_event) : BM (option trading_event) :=
  ok ← publish te; mret (if ok : bool then Some te else None).
(** [publish_signal_generated] *)
Definition publish_signal_generated (id : string) (ts : tstamp) (intent symbol direction : string) (quantity : Z)
    (price : float64) (meta : loc) : BM (option trading_event) :=
  publish_it (TradingEvent id "SIGNAL_GENERATED" priority_normal ts "signal_generator" None None None 1
    (Some intent) None None (Some symbol) (Some direction) (Some quantity) (Some price) meta).
(** [publish_risk_approved] *)
Definition publish_risk_approved (id : string) (ts : tstamp) (intent client : string) (meta : loc) :
    BM (option trading_event) :=
  publish_it (TradingEvent id "RISK_APPROVED" priority_normal ts "risk_engine" None None None 1
    (Some intent) (Some client) None None None None None meta).
(** [publish_order_submitted] *)
Definition publish_order_submitted (id : string) (ts : tstamp) (intent client broker symbol direction : string)
    (quantity : Z) (price : float64) : BM (option trading_event) :=
  meta ← on_store (alloc ∅);
  publish_it (TradingEvent id "ORDER_SUBMITTED" priority_normal ts "execution_service" None None None 1
    (Some intent) (Some client) (Some broker) (Some symbol) (Some direction) (Some quantity) (Some price) meta).
(** [publish_broker_ack] *)
Definition publish_broker_ack (id : string) (ts : tstamp) (client broker : string) (meta : loc) :
    BM (option trading_event) :=
  publish_it (TradingEvent id "BROKER_ACK_RECEIVED" priority_normal ts "broker_gateway" None None None 1
    None (Some client) (Some broker) None None None None meta).
(** [publish_fill] *)
Definition publish_fill (id : string) (ts : tstamp) (client broker symbol direction : string) (filled : Z)
    (price : float64) (is_final : bool) : BM (option trading_event) :=
  meta ← on_store (alloc (PyDict [("is_final", JBool is_final)]));
  publish_it (TradingEvent id (if is_final then "FILL_RECEIVED" else "PARTIAL_FILL_RECEIVED") priority_normal ts
    "execution_service" None None None 1 None (Some client) (Some broker) (Some symbol) (Some direction)
    (Some filled) (Some price) meta).
(** [publish_risk_breached] *)
Definition publish_risk_breached (id : string) (ts : tstamp) (limit_type : string) (current threshold : float64)
    (extra : loc) : BM (option trading_event) :=
  b ← st_get;
  meta ← on_store (alloc (foldl (λ d p, <[p.1 := p.2]> d)
    (PyDict [("limit_type", JStr limit_type); ("current_value", JFloat current); ("threshold", JFloat threshold)])
    (items (deref (b_store b) extra))));
  publish_it (TradingEvent id "RISK_LIMIT_BREACHED" priority_critical ts "risk_engine" None None None 1
    None None None None None None None meta).

(** [replay_order], [get_recent_events] ([history[-0:]] is all of it) *)
Definition replay_order (client : string) (b : bus) : list event := get_events_for_order client (b_store b).
Definition get_recent_events (count : Z) (b : bus) : list trading_event :=
  if 0 <? count then last_events count (b_history b) else drop (Z.to_nat (- count)) (b_history b).

(** ** Subscriptions *)

Inductive sub_op := Sub (type : string) (h : nat) | Unsub (type : string) (h : nat) | Pub (te : trading_event).
Definition run_sub (o : sub_op) : BM unit :=
  match o with
  | Sub type h => subscribe type h
  | Unsub type h => unsubscribe type h
  | Pub te => publish te ;; mret ()
  end.
Definition run_subs (os : list sub_op) (b : bus) : bus := foldl (λ b o, (run_sub o b).2) b os.

(** No handler is subscribed twice to a type. *)
Definition subs_ok (b : bus) : Prop := ∀ type, NoDup (subscribers type b).

Lemma remove_first_sub h l l' : remove_first h l = Some l' → l' `sublist_of` l.
Proof.
  revert l'. induction l as [|x l IH]; intros l'; cbn [remove_first]; [done|].
  destruct (h =? x)%nat; [intros [= <-]; by constructor|]. destruct (remove_first h l) as [m|]; [|done].
  intros [= <-]. by apply sublist_skip, IH.
Qed.
Lemma subscribers_insert type type' l b :
  subscribers type' (put_subs (<[type := l]> (b_subs b)) b) = if String.eqb type type' then l else subscribers type' b.
Proof.
  unfold subscribers. simpl. destruct (String.eqb_spec type type') as [<-|Hne].
  - by rewrite dict_lookup_insert_eq.
  - by rewrite dict_lookup_insert_ne.
Qed.

Definition same_subs (b b' : bus) : Prop := b_subs b' = b_subs b.
#[local] Instance same_subs_preorder : PreOrder same_subs.
Proof. split; [by intros b|]. intros b1 b2 b3 H1 H2. unfold same_subs in *. congruence. Qed.
Lemma on_store_subs {A} (m : ST estore A) : st_rel same_subs (on_store m).
Proof. intros b. unfold on_store, st_zoom. by destruct (m (b_store b)). Qed.
Lemma on_handlers_subs {A} (m : ST X A) : st_rel same_subs (on_handlers m).
Proof. intros b. unfold on_handlers, st_zoom. by destruct (m (b_ext b)). Qed.
Lemma publish_subs te : st_rel same_subs (publish te).
Proof.
  unfold publish. rel_auto ltac:(first [apply on_store_subs | by intros b]).
  apply st_rel_iter; [typeclasses eauto|]. intros h _. rel_auto ltac:(apply on_handlers_subs).
Qed.

Lemma run_sub_ok o b : subs_ok b → subs_ok (run_sub o b).2.
Proof.
  intros Hok. destruct o as [type h|type h|te]; cbn [run_sub].
  - unfold subscribe. rewrite (st_bind_ok (st_modify _) _ b () _) by reflexivity. cbn [st_modify snd].
    set (b1 := if dmem type (b_subs b) then b else put_subs (<[type := []]> (b_subs b)) b).
    assert (subs_ok b1) as H1.
    { unfold b1. destruct (dmem type (b_subs b)); [done|]. intros t. rewrite subscribers_insert.
      destruct (String.eqb type t); [apply NoDup_nil_2|apply Hok]. }
    clearbody b1. case_bool_decide as Hin; [done|]. intros t. rewrite subscribers_insert.
    destruct (String.eqb_spec type t) as [<-|]; [|apply H1]. apply NoDup_app. split_and!; [apply H1| |apply NoDup_singleton].
    intros x Hx ->%list_elem_of_singleton. done.
  - unfold unsubscribe. rewrite (st_bind_ok st_get _ b b b) by done. destruct (dmem type (b_subs b)); [|done].
    destruct (remove_first h (subscribers type b)) as [l|] eqn:E; [|done]. intros t. cbn [st_modify snd].
    rewrite subscribers_insert. destruct (String.eqb_spec type t) as [<-|]; [|apply Hok].
    eapply sublist_NoDup; [apply Hok|by eapply remove_first_sub].
  - intros t. unfold subscribers, mbind, st_bind. pose proof (publish_subs te b) as H.
    destruct (publish te b) as [[r|e] b']; simpl in *; rewrite H; apply Hok.
Qed.

(** ** Delivery *)

(** The state of the handlers after each of [hs] ran once, in order. *)
Definition delivered (te : trading_event) (hs : list nat) (x : X) : X := foldl (λ x h, (handle h te x).2) x hs.

Lemma deliver_all te hs b :
  (∀ h x, h ∈ hs → match (handle h te x).1 with Ok _ => True | Raise e => catches handler_errors e = true end) →
  st_iter (λ h, st_try (on_handlers (handle h te)) handler_errors (λ _, mret ())) hs b =
    (Ok (), put_ext (delivered te hs (b_ext b)) b).
Proof.
  revert b. induction hs as [|h hs IH]; intros b Hc; cbn [st_iter].
  { by destruct b. }
  rewrite (st_bind_ok _ _ b () (put_ext (handle h te (b_ext b)).2 b)).
  - rewrite IH; [done|]. intros h' x Hh'. apply Hc. by apply elem_of_cons; right.
  - specialize (Hc h (b_ext b) (list_elem_of_here _ _)). unfold st_try, on_handlers, st_zoom.
    destruct (handle h te (b_ext b)) as [[[]|e] x]; simpl in *; [done|]. by rewrite Hc.
Qed.

(** Publishing reaches every subscriber once.  In a bus built by any
    subscriptions, removals and publications, an event whose storing returns
    is kept in the history and handed to each handler subscribed to its
    type exactly once, in the order of subscription: a handler that fails in
    a way the bus expects stops no other, and the publisher is told
    success. *)
Theorem publish_reaches_all (os : list sub_op) (b0 b : bus) (te : trading_event) (r : bool) (s : estore) :
  subs_ok b0 → b = run_subs os b0 →
  append_event te (b_store b) = (Ok r, s) →
  (∀ h x, h ∈ subscribers (te_type te) b →
     match (handle h te x).1 with Ok _ => True | Raise e => catches handler_errors e = true end) →
  NoDup (subscribers (te_type te) b) ∧
  ∃ b', publish te b = (Ok true, b') ∧ b_store b' = s ∧ b_subs b' = b_subs b ∧
    b_ext b' = delivered te (subscribers (te_type te) b) (b_ext b) ∧ last (b_history b') = Some te.
Proof.
  intros Hok -> Ha Hc. split.
  { assert (subs_ok (run_subs os b0)) as H; [|apply H]. unfold run_subs.
    apply (foldl_inv subs_ok); [done|]. intros b o _. apply run_sub_ok. }
  revert Ha Hc. generalize (run_subs os b0). intros b Ha Hc. unfold publish.
  rewrite (st_bind_ok (on_store _) _ b r (put_store s b)) by (unfold on_store, st_zoom; by rewrite Ha).
  set (b1 := put_history (last_events MAX_HISTORY (b_history b ++ [te])) (put_store s b)).
  rewrite (st_bind_ok (st_modify _) _ _ () b1) by done.
  rewrite (st_bind_ok (st_gets _) _ b1 (subscribers (te_type te) b) b1) by done.
  rewrite (st_bind_ok _ _ _ _ _ (deliver_all te (subscribers (te_type te) b) b1 Hc)).
  eexists. split; [reflexivity|]. split_and!; [done..|]. simpl. unfold last_events.
  rewrite length_app. simpl. rewrite skipn_app. 
  replace (Z.to_nat (Z.of_nat (length (b_history b) + 1) - MAX_HISTORY) - length (b_history b))%nat with 0%nat
    by (unfold MAX_HISTORY; lia). cbn [drop]. by rewrite last_snoc.
Qed.
End bus.
Arguments bus X : clear implicits.

(** ** A concrete bus *)

(** Handlers that note their number; the second always fails. *)
#[export] Instance demo_handlers : Handlers (list nat) := {
  handle h _ := st_modify (λ l, l ++ [h]) ;; if (h =? 2)%nat then st_raise (PyExn KeyError "x") else mret ()
}.
Definition demo_bus : bus (list nat) := Bus ∅ demo_store [] [].
Definition demo_subs : list sub_op :=
  [Sub "ORDER_SUBMITTED" 2; Sub "ORDER_SUBMITTED" 5; Sub "ORDER_SUBMITTED" 2; Sub "ORDER_SUBMITTED" 1;
   Unsub "ORDER_SUBMITTED" 5; Sub "OTHER" 7]%nat.
Definition demo_te : trading_event := demo_event "ORDER_SUBMITTED" "NIFTY" "e1" None.
Example demo_delivery : b_ext (publish demo_te (run_subs demo_subs demo_bus)).2 = [2; 1]%nat.
Proof. vm_compute. reflexivity. Qed.

Lemma publish_reaches_all_witness :
  ∃ b', publish demo_te (run_subs demo_subs demo_bus) = (Ok true, b') ∧ last (b_history b') = Some demo_te.
Proof.
  destruct (append_event demo_te (b_store (run_subs demo_subs demo_bus))) as [[r|e] s] eqn:E.
  2:{ exfalso. revert E. vm_compute. discriminate. }
  destruct (publish_reaches_all demo_subs demo_bus (run_subs demo_subs demo_bus) demo_te r s) as (_ & b' & H1 & _ & _ & _ & H2).
  - intros t. apply NoDup_nil_2.
  - reflexivity.
  - exact E.
  - intros h x _. cbn. destruct (h =? 2)%nat; reflexivity || exact I.
  - exists b'. split; [exact H1|exact H2].
Defined.
