(* ===== verification/HealingApproval.v ===== *)
(** * The approval gate of the self-healing actions

    [core/self_healing/approval_workflow.py]: [HealingApprovalWorkflow]
    approves low-risk recovery actions by itself, keeps a ticket for the
    others until an operator decides or the ticket expires, and answers
    whether an action may be executed.  The operator's notification function
    and the escalation callbacks are the class [HealEnv] on a state of their
    own.  A ticket is held by value: outside the workflow tickets are read
    only. *)
From S2P Require Import Prelude PyStr Float64 PyDict PyVal CapitalManager.
From Stdlib Require Import Ascii.

(** ** Data *)

Inductive ActionRiskLevel := LOW | MEDIUM | HIGH | CRITICAL.
#[global] Instance risk_level_eq_dec : EqDecision ActionRiskLevel.
Proof. solve_decision. Defined.

Definition risk_value (l : ActionRiskLevel) : string :=
  match l with LOW => "LOW" | MEDIUM => "MEDIUM" | HIGH => "HIGH" | CRITICAL => "CRITICAL" end.
(** [ActionRiskLevel(s)]; [None] where it raises. *)
Definition risk_of_value (s : string) : option ActionRiskLevel :=
  list_find (λ l, risk_value l = s) [LOW; MEDIUM; HIGH; CRITICAL] ≫= λ p, Some p.2.

Definition ACTION_RISK_MAP : pydict ActionRiskLevel := PyDict
  [("restart_stale_feed", LOW); ("clear_hard_halt", LOW); ("recycle_session", LOW); ("disk_cleanup", LOW);
   ("force_wal_checkpoint", LOW); ("clear_stale_locks", LOW); ("reload_config", MEDIUM);
   ("reconnect_database", MEDIUM); ("notify_operator", MEDIUM); ("restart_watchdog", MEDIUM);
   ("reset_circuit_breaker", HIGH); ("reconnect_broker", HIGH); ("run_runbook", HIGH)]%string.
Definition action_risk (action : string) : ActionRiskLevel := default MEDIUM (ACTION_RISK_MAP !! action).

Inductive ticket_status := T_PENDING | T_APPROVED | T_REJECTED | T_EXPIRED | T_ESCALATED.
#[global] Instance ticket_status_eq_dec : EqDecision ticket_status.
Proof. solve_decision. Defined.

(** [ApprovalTicket] *)
Record ticket := ApprovalTicket {
  tk_id : string; tk_action : string; tk_component : string; tk_reason : string; tk_risk : string;
  tk_status : ticket_status; tk_requested : float64; tk_decided : float64; tk_by : string;
  tk_rejection : string; tk_timeout : float64 }.
Definition set_status (s : ticket_status) (t : ticket) : ticket :=
  ApprovalTicket (tk_id t) (tk_action t) (tk_component t) (tk_reason t) (tk_risk t) s (tk_requested t)
    (tk_decided t) (tk_by t) (tk_rejection t) (tk_timeout t).
(** The fields a decision writes. *)
Definition decide_ticket (s : ticket_status) (by_whom rejection : string) (at_ : float64) (t : ticket) : ticket :=
  ApprovalTicket (tk_id t) (tk_action t) (tk_component t) (tk_reason t) (tk_risk t) s (tk_requested t)
    at_ by_whom rejection (tk_timeout t).

(** [to_dict]: the fields with what the clock says of them. *)
Record ticket_dict := TicketDict {
  td_ticket : ticket; td_requested_iso : string; td_age : float64; td_expired : bool }.

(** What the operator is told. *)
Inductive message :=
| ApprovalRequired (action component : string) (risk : ActionRiskLevel) (reason id : string)
| ApprovalGranted (by_whom action component : string)
| ApprovalRefused (by_whom action component reason : string)
| TicketExpired (action component reason id : string) (age : float64).

Class HealEnv X := {
  notify_fn : message → ST X unit;
  escalation_callback : nat → message → ST X unit }.
(** [datetime.fromtimestamp(t).isoformat()] depends on the zone of the machine. *)
Class LocalIso := { local_iso : float64 → string }.

(** [_ticket_config] *)
Record ticket_config := TicketConfig {
  tc_auto_low : bool; tc_auto_medium : bool; tc_require_high : bool; tc_timeout : float64;
  tc_escalation_timeout : float64; tc_max_pending : Z }.
Definition default_config : ticket_config := TicketConfig true true true (f_of_Z 300) (f_of_Z 600) 20.

(** The configuration of [__init__], from the caller's dictionary. *)
Definition read_config (cfg : pyrec) : res ticket_config :=
  rbind (py_float (rget "approval_timeout_seconds" (VFloat (f_of_Z 300)) cfg)) (λ t,
  rbind (py_float (rget "escalation_timeout_seconds" (VFloat (f_of_Z 600)) cfg)) (λ e,
  rbind (py_int (rget "max_pending_tickets" (VInt 20) cfg)) (λ n,
  Ok (TicketConfig (truthy (rget "auto_approve_low_risk" (VBool true) cfg))
        (truthy (rget "auto_approve_medium_risk" (VBool true) cfg))
        (truthy (rget "require_approval_high_risk" (VBool true) cfg)) t e n)))).

(** How writing the ticket file ends; [Truncated] leaves a file that does
    not parse. *)
Inductive disk_outcome := DiskOk | NoDirectory | NoOpen | Truncated.

Section workflow.
Context {X : Type}.

Record approvals := Approvals {
  hw_cfg : ticket_config;
  hw_pending : pydict ticket;
  hw_history : list ticket_dict;
  hw_approved : gset string;
  hw_callbacks : list nat;
  hw_notify : bool;
  hw_file : option (list ticket_dict);
  hw_disk : list disk_outcome;
  hw_uuid : nat → string;
  hw_n : nat;
  hw_clk : clock;
  hw_ext : X }.
Definition put_pending (d : pydict ticket) (w : approvals) : approvals :=
  Approvals (hw_cfg w) d (hw_history w) (hw_approved w) (hw_callbacks w) (hw_notify w) (hw_file w) (hw_disk w)
    (hw_uuid w) (hw_n w) (hw_clk w) (hw_ext w).
Definition put_history (l : list ticket_dict) (w : approvals) : approvals :=
  Approvals (hw_cfg w) (hw_pending w) l (hw_approved w) (hw_callbacks w) (hw_notify w) (hw_file w) (hw_disk w)
    (hw_uuid w) (hw_n w) (hw_clk w) (hw_ext w).
Definition put_approved (a : gset string) (w : approvals) : approvals :=
  Approvals (hw_cfg w) (hw_pending w) (hw_history w) a (hw_callbacks w) (hw_notify w) (hw_file w) (hw_disk w)
    (hw_uuid w) (hw_n w) (hw_clk w) (hw_ext w).
Definition put_file (f : option (list ticket_dict)) (w : approvals) : approvals :=
  Approvals (hw_cfg w) (hw_pending w) (hw_history w) (hw_approved w) (hw_callbacks w) (hw_notify w) f (hw_disk w)
    (hw_uuid w) (hw_n w) (hw_clk w) (hw_ext w).
Definition put_disk (l : list disk_outcome) (w : approvals) : approvals :=
  Approvals (hw_cfg w) (hw_pending w) (hw_history w) (hw_approved w) (hw_callbacks w) (hw_notify w) (hw_file w) l
    (hw_uuid w) (hw_n w) (hw_clk w) (hw_ext w).
Definition put_n (n : nat) (w : approvals) : approvals :=
  Approvals (hw_cfg w) (hw_pending w) (hw_history w) (hw_approved w) (hw_callbacks w) (hw_notify w) (hw_file w)
    (hw_disk w) (hw_uuid w) n (hw_clk w) (hw_ext w).
Definition put_ext (x : X) (w : approvals) : approvals :=
  Approvals (hw_cfg w) (hw_pending w) (hw_history w) (hw_approved w) (hw_callbacks w) (hw_notify w) (hw_file w)
    (hw_disk w) (hw_uuid w) (hw_n w) (hw_clk w) x.
Definition put_listeners (n : bool) (l : list nat) (w : approvals) : approvals :=
  Approvals (hw_cfg w) (hw_pending w) (hw_history w) (hw_approved w) l n (hw_file w) (hw_disk w)
    (hw_uuid w) (hw_n w) (hw_clk w) (hw_ext w).

#[global] Instance approvals_clock : HasClock approvals :=
  {| clock_of := hw_clk;
     set_clock := λ c w, Approvals (hw_cfg w) (hw_pending w) (hw_history w) (hw_approved w) (hw_callbacks w)
                           (hw_notify w) (hw_file w) (hw_disk w) (hw_uuid w) (hw_n w) c (hw_ext w) |}.

Definition HM (A : Type) : Type := ST approvals A.
Definition on_env {A} (m : ST X A) : HM A := st_zoom hw_ext put_ext m.

Context `{Henv : !HealEnv X, Hiso : !LocalIso}.

(** [set_notify_fn], [register_escalation_callback] *)
Definition set_notify_fn (f : bool) : HM unit := st_modify (λ w, put_listeners f (hw_callbacks w) w).
Definition register_escalation_callback (cb : nat) : HM unit :=
  st_modify (λ w, put_listeners (hw_notify w) (hw_callbacks w ++ [cb]) w).

(** ** Tickets *)

(** [age_seconds], [is_expired] *)
Definition age_seconds (t : ticket) : HM float64 := now ← time_time; mret (now - tk_requested t)%f64.
Definition is_expired (t : ticket) : HM bool :=
  now ← time_time; mret (fgt (now - tk_requested t)%f64 (tk_timeout t)).
Definition to_dict (t : ticket) : HM ticket_dict :=
  age ← age_seconds t;
  late ← is_expired t;
  mret (TicketDict t (local_iso (tk_requested t)) (py_round age 1) late).

Definition is_pending (t : ticket) : bool := bool_decide (tk_status t = T_PENDING).
Definition pending_count (w : approvals) : Z :=
  Z.of_nat (length (filter (λ t, is_pending t = true) (dvalues (hw_pending w)))).

(** [f"app_{uuid.uuid4().hex[:12]}"] *)
Definition ticket_id (hex : string) : string := String.append "app_" (str_take 12 hex).
Definition new_ticket_id : HM string :=
  w ← st_get; st_put (put_n (S (hw_n w)) w) ;; mret (ticket_id (hw_uuid w (hw_n w))).

Definition put_ticket (id : string) (t : ticket) : HM unit :=
  st_modify (λ w, put_pending (<[id := t]> (hw_pending w)) w).
Definition record_history (t : ticket) : HM unit :=
  d ← to_dict t; st_modify (λ w, put_history (hw_history w ++ [d]) w).

(** [_save_tickets]: the failures are logged only. *)
Definition disk_error : pyexn := PyExn OSError "ticket file".
Definition next_disk : HM disk_outcome := λ w,
  match hw_disk w with [] => (Ok DiskOk, w) | o :: l => (Ok o, put_disk l w) end.
Definition save_tickets : HM unit :=
  st_try
    (o ← next_disk;
     if o is NoDirectory then st_raise disk_error
     else
       w ← st_get;
       data ← mapM to_dict (filter (λ t, is_pending t = true) (dvalues (hw_pending w)));
       match o with
       | NoOpen => st_raise disk_error
       | Truncated => st_modify (put_file None) ;; st_raise disk_error
       | _ => st_modify (put_file (Some data))
       end)
    [OSError; ValueError; TypeError] (λ _, mret ()).

(** [_load_tickets]: the timeout and the decision are not read back. *)
Definition loaded (d : ticket_dict) : ticket :=
  let t := td_ticket d in
  ApprovalTicket (tk_id t) (tk_action t) (tk_component t) (tk_reason t) (tk_risk t) (tk_status t) (tk_requested t)
    f_zero "" "" (f_of_Z 300).
Definition load_tickets : HM unit :=
  st_modify (λ w,
    match hw_file w with
    | Some rows => put_pending (foldl (λ d r, <[tk_id (loaded r) := loaded r]> d) (hw_pending w) rows) w
    | None => w
    end).

(** A new workflow on what the disk holds: nothing else survives. *)
Definition restart (w : approvals) : approvals :=
  (load_tickets (Approvals (hw_cfg w) ∅ [] ∅ [] false (hw_file w) (hw_disk w) (hw_uuid w) (hw_n w) (hw_clk w)
    (hw_ext w))).2.

(** [_remove_ticket] *)
Definition remove_ticket (id : string) : HM unit :=
  st_modify (λ w, put_pending (delete id (hw_pending w)) w) ;; save_tickets.

(** A notification that fails is logged only. *)
Definition notify (m : message) : HM unit :=
  w ← st_get;
  if hw_notify w then st_try_any (on_env (notify_fn m)) (λ _, mret ()) else mret ().

(** ** [request_approval] *)

Inductive risk_arg := RiskText (s : string) | RiskLevel (l : ActionRiskLevel).
Definition effective_risk (action : string) (risk : option risk_arg) : ActionRiskLevel :=
  match risk with
  | Some (RiskLevel l) => l
  | Some (RiskText s) => default (action_risk action) (risk_of_value s)
  | None => action_risk action
  end.
Definition auto_approved (cfg : ticket_config) (risk : ActionRiskLevel) : bool :=
  match risk with
  | LOW => tc_auto_low cfg
  | MEDIUM => tc_auto_medium cfg
  | HIGH | CRITICAL => false
  end.
(** [timeout_seconds or default] *)
Definition timeout_or (o : option float64) (d : float64) : float64 :=
  match o with Some x => if is_zero x then d else x | None => d end.

Definition request_approval (action component reason : string) (risk : option risk_arg) (timeout : option float64) :
    HM ticket :=
  let level := effective_risk action risk in
  w ← st_get;
  let limit := timeout_or timeout (tc_timeout (hw_cfg w)) in
  if tc_max_pending (hw_cfg w) <=? pending_count w then
    id ← new_ticket_id;
    requested ← time_time;
    let t := ApprovalTicket id action component reason (risk_value level) T_REJECTED requested f_zero ""
               "Max pending tickets reached" (f_of_Z 300) in
    record_history t ;; mret t
  else
    id ← new_ticket_id;
    if auto_approved (hw_cfg w) level then
      decided ← time_time;
      requested ← time_time;
      let t := ApprovalTicket id action component reason (risk_value level) T_APPROVED requested decided "auto" ""
                 limit in
      record_history t ;; mret t
    else
      requested ← time_time;
      let t := ApprovalTicket id action component reason (risk_value level) T_PENDING requested f_zero "" "" limit in
      put_ticket id t ;;
      save_tickets ;;
      notify (ApprovalRequired action component level reason id) ;;
      mret t.

(** ** Decisions *)

Definition action_key (action component : string) : string := cat [action; ":"; component].

(** [approve] *)
Definition approve (id by_whom : string) : HM bool :=
  w ← st_get;
  match hw_pending w !! id with
  | None => mret false
  | Some t =>
      if negb (is_pending t) then mret false
      else
        late ← is_expired t;
        if late : bool then put_ticket id (set_status T_EXPIRED t) ;; mret false
        else
          decided ← time_time;
          let t' := decide_ticket T_APPROVED by_whom (tk_rejection t) decided t in
          put_ticket id t' ;;
          st_modify (λ w, put_approved ({[action_key (tk_action t) (tk_component t)]} ∪ hw_approved w) w) ;;
          record_history t' ;;
          remove_ticket id ;;
          notify (ApprovalGranted by_whom (tk_action t) (tk_component t)) ;;
          mret true
  end.

(** [reject] *)
Definition reject (id by_whom reason : string) : HM bool :=
  w ← st_get;
  match hw_pending w !! id with
  | None => mret false
  | Some t =>
      if negb (is_pending t) then mret false
      else
        decided ← time_time;
        let t' := decide_ticket T_REJECTED by_whom (if truthy_str reason then reason else "Rejected without reason")
                    decided t in
        put_ticket id t' ;;
        record_history t' ;;
        remove_ticket id ;;
        notify (ApprovalRefused by_whom (tk_action t) (tk_component t) reason) ;;
        mret true
  end.

(** ** Expiry *)

(** [_escalate] *)
Definition escalate (t : ticket) : HM unit :=
  age ← age_seconds t;
  let m := TicketExpired (tk_action t) (tk_component t) (tk_reason t) (tk_id t) age in
  w ← st_get;
  st_iter (λ cb, st_try_any (on_env (escalation_callback cb m)) (λ _, mret ())) (hw_callbacks w) ;;
  notify m.

(** The loop of [_check_expired], with the ids it collects. *)
Fixpoint expire_loop (l : list (string * ticket)) : HM (list string) :=
  match l with
  | [] => mret []
  | (id, t) :: l' =>
      late ← (if is_pending t then is_expired t else mret false);
      if late : bool then
        let t' := set_status T_EXPIRED t in
        put_ticket id t' ;;
        record_history t' ;;
        (if bool_decide (tk_risk t = risk_value CRITICAL) then escalate t' else mret ()) ;;
        ids ← expire_loop l';
        mret (id :: ids)
      else expire_loop l'
  end.
Definition check_expired : HM unit :=
  time_time ;;
  w ← st_get;
  ids ← expire_loop (items (hw_pending w));
  st_modify (λ w, put_pending (foldl (λ d id, delete id d) (hw_pending w) ids) w) ;;
  match ids with [] => mret () | _ => save_tickets end.

(** ** [should_execute] *)

Definition ticket_for (action component : string) (w : approvals) : option (string * ticket) :=
  snd <$> list_find (λ p : string * ticket, tk_action p.2 = action ∧ tk_component p.2 = component)
            (items (hw_pending w)).

Definition should_execute (action component : string) : HM (bool * string) :=
  match action_risk action with
  | LOW => mret (true, "Auto-approved (low risk)"%string)
  | MEDIUM => mret (true, "Auto-approved (medium risk)"%string)
  | risk =>
      w ← st_get;
      match ticket_for action component w with
      | Some (id, t) =>
          if bool_decide (tk_status t = T_APPROVED) then mret (true, cat ["Approved by "; tk_by t])
          else if bool_decide (tk_status t = T_REJECTED) then mret (false, cat ["Rejected: "; tk_rejection t])
          else
            late ← is_expired t;
            mret (false, if late : bool then "Approval ticket expired"%string
                         else cat ["Awaiting approval (ticket: "; id; ")"])
      | None =>
          if bool_decide (action_key action component ∈ hw_approved w) then
            mret (true, "Previously approved (cached)"%string)
          else
            t ← request_approval action component "Auto-requested during healing cycle" (Some (RiskLevel risk)) None;
            mret (if bool_decide (tk_status t = T_APPROVED)
                  then (true, cat ["Auto-approved (risk level: "; risk_value risk; ")"])
                  else (false, cat ["Awaiting approval (ticket: "; tk_id t; ")"]))
      end
  end.

(** ** Queries *)

Definition get_pending : HM (list ticket_dict) :=
  w ← st_get; mapM to_dict (filter (λ t, is_pending t = true) (dvalues (hw_pending w))).
Definition get_ticket (id : string) : HM (option ticket_dict) :=
  w ← st_get;
  match hw_pending w !! id with
  | Some t => d ← to_dict t; mret (Some d)
  | None => mret (snd <$> list_find (λ d, tk_id (td_ticket d) = id) (hw_history w))
  end.
Record ticket_stats := TicketStats {
  ts_pending : Z; ts_approved : Z; ts_auto : Z; ts_rejected : Z; ts_expired : Z; ts_history : Z; ts_total_pending : Z }.
Definition count_history (f : ticket → bool) (w : approvals) : Z :=
  Z.of_nat (length (filter (λ d, f (td_ticket d) = true) (hw_history w))).
Definition get_stats (w : approvals) : ticket_stats :=
  let with_status s := count_history (λ t, bool_decide (tk_status t = s)) w in
  TicketStats (pending_count w) (with_status T_APPROVED) (count_history (λ t, String.eqb (tk_by t) "auto") w)
    (with_status T_REJECTED) (with_status T_EXPIRED) (Z.of_nat (length (hw_history w))) (dlen (hw_pending w)).
(** [l[:n]] *)
Definition slice_to {A} (n : Z) (l : list A) : list A :=
  take (Z.to_nat (if 0 <=? n then n else Z.of_nat (length l) + n)) l.
Definition get_history (n : Z) (w : approvals) : list ticket_dict := slice_to n (rev (hw_history w)).
Definition clear_history : HM unit := st_modify (put_history []).

(** ** Histories *)

Inductive heal_op :=
| HRequest (action component reason : string) (risk : option risk_arg) (timeout : option float64)
| HApprove (id by_whom : string)
| HReject (id by_whom reason : string)
| HExpire
| HShould (action component : string)
| HClear
| HRestart.

(** What a step decides: a ticket was approved, an action was allowed. *)
Inductive heal_event := EApproved (action component : string) | EAllowed (action component : string) | EQuiet.

Definition run_heal_op (o : heal_op) : HM heal_event :=
  match o with
  | HRequest a c r k t => request_approval a c r k t ;; mret EQuiet
  | HApprove id who =>
      w ← st_get;
      ok ← approve id who;
      mret (if ok : bool then
              match hw_pending w !! id with
              | Some t => EApproved (tk_action t) (tk_component t)
              | None => EQuiet
              end
            else EQuiet)
  | HReject id who r => reject id who r ;; mret EQuiet
  | HExpire => check_expired ;; mret EQuiet
  | HShould a c => p ← should_execute a c; mret (if p.1 : bool then EAllowed a c else EQuiet)
  | HClear => clear_history ;; mret EQuiet
  | HRestart => st_modify restart ;; mret EQuiet
  end.
Fixpoint run_heal (os : list heal_op) (w : approvals) : list heal_event * approvals :=
  match os with
  | [] => ([], w)
  | o :: os' =>
      let '(r, w1) := run_heal_op o w in
      let '(l, w2) := run_heal os' w1 in
      (match r with Ok e => e :: l | Raise _ => l end, w2)
  end.

(** ** What each part does to the tickets *)

(** The rows of the ticket file are pending tickets. *)
Definition rows_ok (f : option (list ticket_dict)) : Prop :=
  ∀ rows d, f = Some rows → d ∈ rows → tk_status (td_ticket d) = T_PENDING.

(** The pending tickets become [P] and the approved actions [A]. *)
Definition becomes (P : pydict ticket) (A : gset string) (w w' : approvals) : Prop :=
  hw_pending w' = P ∧ hw_approved w' = A ∧ hw_cfg w' = hw_cfg w ∧ hw_uuid w' = hw_uuid w ∧
  (hw_n w ≤ hw_n w')%nat ∧ (rows_ok (hw_file w) → rows_ok (hw_file w')).
Definition kept (w w' : approvals) : Prop := becomes (hw_pending w) (hw_approved w) w w'.
(** [m] returns and leaves the tickets alone. *)
Definition calm {A} (m : HM A) : Prop := ∀ w, ∃ a w', m w = (Ok a, w') ∧ kept w w'.

Lemma becomes_trans P A P' A' w w1 w2 : becomes P A w w1 → becomes P' A' w1 w2 → becomes P' A' w w2.
Proof.
  intros (_ & _ & C1 & U1 & N1 & R1) (P2 & A2 & C2 & U2 & N2 & R2).
  repeat split; [done|done|congruence|congruence|lia|auto].
Qed.
Lemma becomes_kept P A w w1 w2 : becomes P A w w1 → kept w1 w2 → becomes P A w w2.
Proof. intros H1 H2. pose proof H1 as (<- & <- & _). by eapply becomes_trans. Qed.
Lemma kept_becomes P A w w1 w2 : kept w w1 → becomes P A w1 w2 → becomes P A w w2.
Proof. apply becomes_trans. Qed.
Lemma kept_trans w w1 w2 : kept w w1 → kept w1 w2 → kept w w2.
Proof. apply becomes_kept. Qed.
Lemma kept_refl w : kept w w.
Proof. by repeat split. Qed.

Lemma calm_ret {A} (a : A) : calm (mret a).
Proof. intros w. eexists _, _. split; [reflexivity|apply kept_refl]. Qed.
Lemma calm_bind {A B} (m : HM A) (f : A → HM B) : calm m → (∀ a, calm (f a)) → calm (m ≫= f).
Proof.
  intros Hm Hf w. destruct (Hm w) as (a & w1 & E1 & K1). destruct (Hf a w1) as (b & w2 & E2 & K2).
  exists b, w2. rewrite (st_bind_ok _ _ _ _ _ E1). split; [done|]. by eapply becomes_kept.
Qed.
Lemma calm_get : calm st_get.
Proof. intros w. eexists _, _. split; [reflexivity|apply kept_refl]. Qed.
Lemma calm_time : calm time_time.
Proof. intros w. rewrite time_time_total. eexists _, _. split; [reflexivity|by repeat split]. Qed.
Lemma calm_modify f : (∀ w, kept w (f w)) → calm (st_modify f).
Proof. intros Hf w. by eexists _, _. Qed.
Lemma calm_if {A} (b : bool) (m1 m2 : HM A) : calm m1 → calm m2 → calm (if b then m1 else m2).
Proof. by destruct b. Qed.
#[local] Hint Resolve calm_ret calm_get calm_time : core.
Ltac calm_step :=
  match goal with
  | |- calm (_ ≫= _) => apply calm_bind; [|intros ?]
  | |- calm (if _ then _ else _) => apply calm_if
  | |- calm (let _ := _ in _) => cbv zeta
  end.
Ltac calms tac := repeat first [solve [auto 1 with core] | tac | calm_step].

Lemma age_calm t : calm (age_seconds t).
Proof. unfold age_seconds. calms fail. Qed.
Lemma late_calm t : calm (is_expired t).
Proof. unfold is_expired. calms fail. Qed.
#[local] Hint Resolve age_calm late_calm : core.
Lemma to_dict_calm t : calm (to_dict t).
Proof. unfold to_dict. calms fail. Qed.
Lemma record_calm t : calm (record_history t).
Proof. unfold record_history. apply calm_bind; [apply to_dict_calm|intros d]. apply calm_modify. by repeat split. Qed.
Lemma ticket_id_calm : calm new_ticket_id.
Proof.
  intros w. eexists _, _. split; [reflexivity|]. repeat split; cbn; [lia|done].
Qed.
Lemma env_calm (m : ST X unit) : calm (st_try_any (on_env m) (λ _, mret ())).
Proof.
  intros w. unfold st_try_any, on_env, st_zoom. destruct (m (hw_ext w)) as [[[]|e] x]; by eexists _, _.
Qed.
Lemma notify_calm m : calm (notify m).
Proof. unfold notify. apply calm_bind; [auto|intros w]. apply calm_if; [apply env_calm|auto]. Qed.

Lemma dicts_of l w : ∃ data w', mapM to_dict l w = (Ok data, w') ∧ kept w w' ∧ td_ticket <$> data = l.
Proof.
  revert w. induction l as [|t l IH]; intros w; [by eexists _, _; repeat split|]. simpl.
  destruct (to_dict_calm t w) as (d & w1 & E1 & K1).
  assert (td_ticket d = t) as Hd.
  { unfold to_dict in E1. inv_bind E1 x w2 H1. inv_bind E1 y w3 H2. by injection E1 as <- _. }
  destruct (IH w1) as (data & w2 & E2 & K2 & Hdata).
  exists (d :: data), w2. rewrite (st_bind_ok _ _ _ _ _ E1), (st_bind_ok _ _ _ _ _ E2).
  split; [done|]. split; [by eapply becomes_kept|]. rewrite fmap_cons. congruence.
Qed.
Lemma pending_rows l data : td_ticket <$> data = filter (λ t, is_pending t = true) l → rows_ok (Some data).
Proof.
  intros H rows d [= <-] Hd. apply (list_elem_of_fmap_2 td_ticket) in Hd. rewrite H in Hd.
  apply list_elem_of_filter in Hd as [Hd _]. unfold is_pending in Hd. by bools.
Qed.
Lemma put_file_kept f w : rows_ok f → kept w (put_file f w).
Proof. intros Hf. by repeat split. Qed.
Lemma next_disk_calm : calm next_disk.
Proof. intros w. unfold next_disk. by destruct (hw_disk w); eexists _, _. Qed.
Lemma save_calm : calm save_tickets.
Proof.
  intros w. unfold save_tickets, st_try. destruct (next_disk_calm w) as (o & w1 & E1 & K1).
  rewrite (st_bind_ok _ _ _ _ _ E1). destruct o; try (by eexists _, _).
  all: rewrite (st_bind_ok st_get _ w1 w1 w1) by done.
  all: destruct (dicts_of (filter (λ t, is_pending t = true) (dvalues (hw_pending w1))) w1) as (data & w2 & E2 & K2 & Hd).
  all: rewrite (st_bind_ok _ _ _ _ _ E2).
  all: eexists _, _; (split; [reflexivity|]); simpl.
  all: eapply becomes_kept; [exact K1|]; first [exact K2 | eapply becomes_kept; [exact K2|]; apply put_file_kept].
  - by eapply pending_rows.
  - by intros rows d [=].
Qed.
Lemma escalate_calm t : calm (escalate t).
Proof.
  unfold escalate. calms ltac:(apply notify_calm).
  assert (∀ m l, calm (st_iter (λ cb, st_try_any (on_env (escalation_callback cb m)) (λ _, mret ())) l)) as H.
  { intros m l. induction l as [|cb l IH]; simpl; [auto|]. apply calm_bind; [apply env_calm|intros _; exact IH]. }
  apply H.
Qed.

(** Running a step that leaves the tickets alone, or one that writes them. *)
Lemma calm_then {A B} (m : HM A) (f : A → HM B) w (Q : res B * approvals → Prop) :
  calm m → (∀ a w1, m w = (Ok a, w1) → kept w w1 → Q (f a w1)) → Q ((m ≫= f) w).
Proof. intros Hm Hf. destruct (Hm w) as (a & w1 & E1 & K1). rewrite (st_bind_ok _ _ _ _ _ E1). by apply Hf. Qed.
Lemma put_ticket_becomes id t w : becomes (<[id := t]> (hw_pending w)) (hw_approved w) w (put_ticket id t w).2.
Proof. by repeat split. Qed.

Ltac step_calm tac :=
  match goal with
  | |- context [@mbind ?M ?I ?A ?B ?f ?m ?w] =>
      pattern (@mbind M I A B f m w);
      match goal with |- ?Q _ => apply (calm_then m f w Q) end;
      [solve [apply calm_time | apply late_calm | apply age_calm | tac]|let E := fresh "E" in let K := fresh "K" in intros ? ? E K; cbv beta]
  end.

Lemma new_ticket_id_eq w : new_ticket_id w = (Ok (ticket_id (hw_uuid w (hw_n w))), put_n (S (hw_n w)) w).
Proof. done. Qed.
Lemma put_n_kept w : kept w (put_n (S (hw_n w)) w).
Proof. repeat split; cbn; [lia|done]. Qed.

(** [request_approval] returns a decided ticket and leaves the others alone,
    or it adds a new pending one. *)
Definition requested (a c : string) (w w' : approvals) (x : ticket) : Prop :=
  (tk_status x ≠ T_PENDING ∧ kept w w') ∨
  (tk_status x = T_PENDING ∧ tk_id x = ticket_id (hw_uuid w (hw_n w)) ∧ tk_action x = a ∧ tk_component x = c ∧
   pending_count w < tc_max_pending (hw_cfg w) ∧ becomes (<[tk_id x := x]> (hw_pending w)) (hw_approved w) w w').

Lemma request_spec a c r k t w :
  ∃ x w', request_approval a c r k t w = (Ok x, w') ∧ requested a c w w' x ∧
    (auto_approved (hw_cfg w) (effective_risk a k) = false → tk_status x ≠ T_APPROVED).
Proof.
  unfold request_approval. rewrite (st_bind_ok st_get _ w w w) by done.
  destruct (_ <=? _) eqn:Hlim; rewrite (st_bind_ok _ _ _ _ _ (new_ticket_id_eq w)); pose proof (put_n_kept w) as K0.
  - step_calm fail. cbv zeta. step_calm ltac:(apply record_calm). eexists _, _. split; [reflexivity|].
    split; [|by intros _]. left. split; [done|]. eauto 3 using kept_trans.
  - destruct (auto_approved _ _) eqn:Ha.
    + do 2 step_calm fail. step_calm ltac:(apply record_calm). eexists _, _. split; [reflexivity|].
      split; [|done]. left. split; [done|]. eauto 6 using kept_trans.
    + step_calm fail. cbv zeta. rewrite (st_bind_ok (put_ticket _ _) _ _ _ _ eq_refl).
      step_calm ltac:(apply save_calm). step_calm ltac:(apply notify_calm). eexists _, _. split; [reflexivity|].
      split; [|by intros _]. right. cbn [tk_status tk_id tk_action tk_component]. repeat (split; [done|]). split; [bools; lia|].
      eapply becomes_kept; [|eassumption]. eapply becomes_kept; [|eassumption].
      match goal with H : kept (put_n _ _) ?w1 |- _ => pose proof (becomes_kept _ _ _ _ _ K0 H) as Kw end.
      pose proof Kw as (P1 & A1 & _). eapply kept_becomes; [exact Kw|].
      match goal with |- context [<[?i := ?y]> (hw_pending w)] => pose proof (put_ticket_becomes i y w1) as Hput end.
      rewrite P1, A1 in Hput. exact Hput.
Qed.

Lemma modify_then {B} f (g : unit → HM B) w : (@mbind HM _ _ _ g (st_modify f)) w = g () (f w).
Proof. done. Qed.

(** [approve] and [reject] decide a pending ticket and take it away; a
    ticket approved too late stays, expired. *)
Lemma approve_spec id who w :
  ∃ ok w', approve id who w = (Ok ok, w') ∧
    ((ok = false ∧ kept w w') ∨
     ∃ t, hw_pending w !! id = Some t ∧ tk_status t = T_PENDING ∧
       ((ok = false ∧ becomes (<[id := set_status T_EXPIRED t]> (hw_pending w)) (hw_approved w) w w') ∨
        (ok = true ∧
         becomes (delete id (hw_pending w)) ({[action_key (tk_action t) (tk_component t)]} ∪ hw_approved w) w w'))).
Proof.
  unfold approve. rewrite (st_bind_ok st_get _ w w w) by done.
  destruct (hw_pending w !! id) as [t|] eqn:Hid; [|eexists _, _; split; [reflexivity|]; left; by repeat split].
  destruct (is_pending t) eqn:Hp; cbv beta iota delta [negb]; [|eexists _, _; split; [reflexivity|]; left; by repeat split].
  unfold is_pending in Hp. bools.
  step_calm fail. rename a into late; destruct late.
  - rewrite (st_bind_ok (put_ticket _ _) _ _ _ _ eq_refl). eexists _, _. split; [reflexivity|]. right. exists t.
    split; [done|]. split; [done|]. left. split; [done|].
    destruct K as (B1 & B2 & B3 & B4 & B5 & B6). unfold becomes. cbn. by rewrite B1, B2.
  - step_calm fail. cbv zeta. rewrite (st_bind_ok (put_ticket _ _) _ _ _ _ eq_refl).
    rewrite modify_then. step_calm ltac:(apply record_calm).
    unfold remove_ticket. rewrite (st_bind_assoc (S:=approvals)), modify_then.
    step_calm ltac:(apply save_calm).  step_calm ltac:(apply notify_calm). eexists _, _. split; [reflexivity|]. right. exists t.
    split; [done|]. split; [done|]. right. split; [done|].
    eapply becomes_kept; [|eassumption]. eapply becomes_kept; [|eassumption].
    destruct K as (B1 & B2 & B3 & B4 & B5 & B6), K0 as (F1 & F2 & F3 & F4 & F5 & F6), K1 as (G1 & G2 & G3 & G4 & G5 & G6).
    cbn in *. unfold becomes. cbn. rewrite G1, G2, F1, F2, B1, B2, dict_delete_insert. split_and!; [done|done|congruence|congruence|lia|tauto].
Qed.
Lemma reject_spec id who r w :
  ∃ ok w', reject id who r w = (Ok ok, w') ∧
    (kept w w' ∨ ∃ t, hw_pending w !! id = Some t ∧ tk_status t = T_PENDING ∧
                   becomes (delete id (hw_pending w)) (hw_approved w) w w').
Proof.
  unfold reject. rewrite (st_bind_ok st_get _ w w w) by done.
  destruct (hw_pending w !! id) as [t|] eqn:Hid; [|eexists _, _; split; [reflexivity|]; left; by repeat split].
  destruct (is_pending t) eqn:Hp; cbv beta iota delta [negb]; [|eexists _, _; split; [reflexivity|]; left; by repeat split].
  unfold is_pending in Hp. bools.
  step_calm fail. cbv zeta. rewrite (st_bind_ok (put_ticket _ _) _ _ _ _ eq_refl).
  step_calm ltac:(apply record_calm).
  unfold remove_ticket. rewrite (st_bind_assoc (S:=approvals)), modify_then.
  step_calm ltac:(apply save_calm). step_calm ltac:(apply notify_calm). eexists _, _. split; [reflexivity|]. right. exists t.
  split; [done|]. split; [done|]. eapply becomes_kept; [|eassumption]. eapply becomes_kept; [|eassumption].
  destruct K as (B1 & B2 & B3 & B4 & B5 & B6), K0 as (F1 & F2 & F3 & F4 & F5 & F6).
  cbn in *. unfold becomes. cbn. rewrite F1, F2, B1, B2, dict_delete_insert. split_and!; [done|done|congruence|congruence|lia|tauto].
Qed.

(** The loop of [check_expired] touches pending tickets only. *)
Definition touches (ids : list string) (w w' : approvals) : Prop :=
  becomes (hw_pending w') (hw_approved w) w w' ∧
  (∀ k, k ∉ ids → hw_pending w' !! k = hw_pending w !! k) ∧
  (dict_wf (hw_pending w) → dict_wf (hw_pending w')).
Lemma touches_kept ids w w1 w2 : touches ids w w1 → kept w1 w2 → touches ids w w2.
Proof.
  intros (B & L & D) K. pose proof K as (P & A & _). unfold touches. rewrite P.
  split; [|done]. by eapply becomes_kept.
Qed.
Lemma kept_touches ids w w1 w2 : kept w w1 → touches ids w1 w2 → touches ids w w2.
Proof.
  intros K (B & L & D). pose proof K as (P & A & _). unfold touches. rewrite <- P, <- A. split; [|done].
  by eapply kept_becomes.
Qed.
Lemma touches_trans ids ids' w w1 w2 : touches ids w w1 → touches ids' w1 w2 → touches (ids ++ ids') w w2.
Proof.
  intros (B & L & D) (B' & L' & D'). pose proof B as (_ & A & _). split; [|split; [|auto]].
  - rewrite <- A. by eapply becomes_trans.
  - intros k Hk. rewrite not_elem_of_app in Hk. destruct Hk. by rewrite L', L.
Qed.
Lemma put_touches id t w : touches [id] w (put_ticket id t w).2.
Proof.
  split; [by repeat split|]. cbn. split; [|apply dict_insert_wf].
  intros k Hk. apply dict_lookup_insert_ne. intros ->. apply Hk, list_elem_of_here.
Qed.
Lemma maybe_escalate_calm t t' : calm (if bool_decide (tk_risk t = risk_value CRITICAL) then escalate t' else mret ()).
Proof. apply calm_if; [apply escalate_calm|auto]. Qed.

Lemma loop_spec l w :
  ∃ ids w', expire_loop l w = (Ok ids, w') ∧ touches ids w w' ∧
    ∀ id, id ∈ ids → ∃ t, (id, t) ∈ l ∧ tk_status t = T_PENDING.
Proof.
  revert w. induction l as [|[id t] l IH]; intros w; cbn [expire_loop].
  { exists [], w. split; [done|]. split; [by repeat split|]. by intros id Hid%not_elem_of_nil. }
  assert (∀ w1, kept w w1 → ∃ ids w', expire_loop l w1 = (Ok ids, w') ∧ touches ids w w' ∧
    ∀ id0, id0 ∈ ids → ∃ t0, (id0, t0) ∈ (id, t) :: l ∧ tk_status t0 = T_PENDING) as Hskip.
  { intros w1 K1. destruct (IH w1) as (ids & w' & E & T & Hin). exists ids, w'. split; [done|].
    split; [by eapply kept_touches|]. intros id0 Hid0. destruct (Hin id0 Hid0) as (t0 & H1 & H2).
    exists t0. split; [by apply list_elem_of_further|done]. }
  destruct (is_pending t) eqn:Hp; [|apply Hskip, kept_refl].
  step_calm fail. destruct a; [|by apply Hskip]. cbv zeta.
  rewrite (st_bind_ok (put_ticket _ _) _ _ _ _ eq_refl).
  step_calm ltac:(apply record_calm). step_calm ltac:(apply maybe_escalate_calm).
  destruct (IH w2) as (ids & w' & E3 & T & Hin). rewrite (st_bind_ok _ _ _ _ _ E3).
  exists (id :: ids), w'. split; [done|]. split.
  - change (id :: ids) with ([id] ++ ids). eapply touches_trans; [|exact T].
    eapply touches_kept; [|eassumption]. eapply touches_kept; [|eassumption].
    eapply kept_touches; [eassumption|]. apply put_touches.
  - intros id0 [->|Hid0]%elem_of_cons.
    + exists t. split; [apply list_elem_of_here|]. unfold is_pending in Hp. by bools.
    + destruct (Hin id0 Hid0) as (t0 & H1 & H2). exists t0. split; [by apply list_elem_of_further|done].
Qed.

Lemma deleted_lookup ids (d : pydict ticket) k :
  foldl (λ d id, delete id d) d ids !! k = if bool_decide (k ∈ ids) then None else d !! k.
Proof.
  revert d. induction ids as [|id ids IH]; intros d; simpl; [done|]. rewrite IH.
  destruct (decide (k = id)) as [->|Hne].
  - rewrite (bool_decide_true (id ∈ id :: ids)) by apply list_elem_of_here.
    case_bool_decide; [done|apply dict_lookup_delete_eq].
  - rewrite dict_lookup_delete_ne by done.
    rewrite (bool_decide_ext (k ∈ id :: ids) (k ∈ ids)); [done|]. rewrite elem_of_cons.
    split; [by intros [->|]|by right].
Qed.
Lemma deleted_wf ids (d : pydict ticket) : dict_wf d → dict_wf (foldl (λ d id, delete id d) d ids).
Proof. intros Hd. apply (foldl_inv dict_wf); [done|]. intros d' id _. apply dict_delete_wf. Qed.

(** [check_expired] removes pending tickets only. *)
Lemma check_expired_spec w :
  ∃ w', check_expired w = (Ok (), w') ∧ becomes (hw_pending w') (hw_approved w) w w' ∧
    (dict_wf (hw_pending w) → dict_wf (hw_pending w')) ∧
    ∀ k, hw_pending w' !! k = hw_pending w !! k ∨
         hw_pending w' !! k = None ∧ ∃ t, (k, t) ∈ items (hw_pending w) ∧ tk_status t = T_PENDING.
Proof.
  unfold check_expired. step_calm fail. rewrite (st_bind_ok st_get _ w1 w1 w1) by done.
  destruct (loop_spec (items (hw_pending w1)) w1) as (ids & w2 & E2 & T & Hin).
  rewrite (st_bind_ok _ _ _ _ _ E2), modify_then. eapply (kept_touches _ _ _ _ K) in T.
  destruct K as (P & _). rewrite P in Hin. clear E E2 P.
  set (w3 := put_pending _ w2).
  assert (∃ w', (match ids with [] => mret () | _ => save_tickets end) w3 = (Ok (), w') ∧ kept w3 w') as (w' & -> & K').
  { destruct ids; [by eexists; repeat split|]. destruct (save_calm w3) as ([] & w' & ? & ?). eauto. }
  exists w'. split; [done|]. destruct T as (B & L & D), K' as (P' & A' & C' & U' & N' & R').
  assert (hw_pending w' = foldl (λ d id, delete id d) (hw_pending w2) ids) as -> by exact P'.
  destruct B as (_ & A & C & U & N & R). split.
  { unfold becomes. rewrite P', A', C', U'. cbn in *. split_and!; [done|done|done|done|lia|auto]. }
  split; [intros Hw; apply deleted_wf; auto|]. intros k. rewrite deleted_lookup. case_bool_decide as Hk; [right; eauto|].
  left. by apply L.
Qed.

(** [should_execute] on an action that needs an approval *)
Definition gated (a : string) : Prop := action_risk a ≠ LOW ∧ action_risk a ≠ MEDIUM.
Lemma should_spec a c w :
  gated a →
  ∃ p w', should_execute a c w = (Ok p, w') ∧
    match ticket_for a c w with
    | Some (_, t) => kept w w' ∧ (p.1 = true → tk_status t = T_APPROVED)
    | None => if bool_decide (action_key a c ∈ hw_approved w) then p.1 = true ∧ kept w w'
              else p.1 = false ∧ ∃ x, requested a c w w' x
    end.
Proof.
  intros [Hl Hm]. unfold should_execute.
  assert (∃ k, auto_approved (hw_cfg w) (effective_risk a (Some (RiskLevel (action_risk a)))) = k ∧ k = false) as (k & Hk & ->).
  { eexists; split; [done|]. simpl. by destruct (action_risk a). }
  destruct (action_risk a) as [| | |] eqn:Hr; [done|done| |].
  all: rewrite (st_bind_ok st_get _ w w w) by done; destruct (ticket_for a c w) as [[id t]|];
    (case_bool_decide as Ha; [eexists _, _; split; [reflexivity|]; split; [first [apply kept_refl | done]|by eauto using kept_refl]|]).
  1, 3: case_bool_decide; [eexists _, _; split; [reflexivity|]; split; [apply kept_refl|done]|];
    step_calm fail; eexists _, _; split; [reflexivity|]; done.
  all: match goal with |- context [request_approval ?a ?c ?r ?k ?t] =>
         destruct (request_spec a c r k t w) as (x & w' & E & Hx & Hna) end;
    rewrite (st_bind_ok _ _ _ _ _ E); eexists _, _; (split; [reflexivity|]);
    rewrite bool_decide_false by (by apply Hna); split; [done|]; by exists x.
Qed.

(** ** The invariant of the tickets *)

Definition tickets_ok (w : approvals) : Prop :=
  dict_wf (hw_pending w) ∧ rows_ok (hw_file w) ∧
  ∀ id t, hw_pending w !! id = Some t → tk_status t = T_PENDING ∨ tk_status t = T_EXPIRED.

Lemma kept_ok w w' : kept w w' → tickets_ok w → tickets_ok w'.
Proof. intros (P & _ & _ & _ & _ & R) (D & F & S). unfold tickets_ok. rewrite P. auto. Qed.
Lemma deleted_ok id A w w' : becomes (delete id (hw_pending w)) A w w' → tickets_ok w → tickets_ok w'.
Proof.
  intros (P & _ & _ & _ & _ & R) (D & F & S). unfold tickets_ok. rewrite P.
  split; [by apply dict_delete_wf|]. split; [auto|]. intros j t.
  destruct (decide (id = j)) as [->|Hne]; [by rewrite dict_lookup_delete_eq|rewrite dict_lookup_delete_ne by done; apply S].
Qed.
Lemma inserted_ok id t A w w' :
  becomes (<[id := t]> (hw_pending w)) A w w' → tk_status t = T_PENDING ∨ tk_status t = T_EXPIRED →
  tickets_ok w → tickets_ok w'.
Proof.
  intros (P & _ & _ & _ & _ & R) Ht (D & F & S). unfold tickets_ok. rewrite P.
  split; [by apply dict_insert_wf|]. split; [auto|]. intros j t'.
  destruct (decide (id = j)) as [->|Hne]; [rewrite dict_lookup_insert_eq; by intros [= <-]|].
  rewrite dict_lookup_insert_ne by done. apply S.
Qed.
Lemma requested_ok a c w w' x : requested a c w w' x → tickets_ok w → tickets_ok w' ∧ hw_approved w' = hw_approved w.
Proof.
  intros [[_ K]|(Hs & _ & _ & _ & _ & B)] Hw.
  - split; [by eapply kept_ok|]. by destruct K as (_ & -> & _).
  - split; [|by destruct B as (_ & -> & _)]. eapply inserted_ok; eauto.
Qed.
Lemma restart_ok w : tickets_ok w → tickets_ok (restart w) ∧ hw_approved (restart w) = ∅.
Proof.
  intros (_ & F & _). unfold restart, load_tickets, st_modify. cbn [snd hw_file].
  destruct (hw_file w) as [rows|] eqn:Hf; [|split; [|done]; split; [apply dict_empty_wf|]; split; [done|done]].
  split; [|done]. set (P := foldl _ _ rows).
  assert (dict_wf P ∧ ∀ id t, P !! id = Some t → tk_status t = T_PENDING ∨ tk_status t = T_EXPIRED) as [D S];
    [|split; [done|]; split; [exact F|exact S]].
  apply (foldl_inv (λ d : pydict ticket, dict_wf d ∧ ∀ id t, d !! id = Some t → tk_status t = T_PENDING ∨ tk_status t = T_EXPIRED)).
  { split; [apply dict_empty_wf|done]. }
  intros d r Hr [D S]. split; [by apply dict_insert_wf|]. intros j t.
  destruct (decide (tk_id (loaded r) = j)) as [->|Hne].
  - rewrite dict_lookup_insert_eq. intros [= <-]. left. by eapply F.
  - rewrite dict_lookup_insert_ne by done. apply S.
Qed.
Lemma ticket_for_some a c w id t :
  tickets_ok w → ticket_for a c w = Some (id, t) →
  hw_pending w !! id = Some t ∧ tk_action t = a ∧ tk_component t = c.
Proof.
  unfold ticket_for. intros (D & _) H. destruct (list_find _ _) as [[i p]|] eqn:E; [|done]. injection H as ->.
  apply list_find_Some in E as (Hi & [Ha Hc] & _). split; [|done].
  apply dict_items_lookup; [done|]. by eapply list_elem_of_lookup_2.
Qed.
Lemma ticket_for_none a c w :
  tickets_ok w → ticket_for a c w = None →
  ∀ id t, hw_pending w !! id = Some t → ¬ (tk_action t = a ∧ tk_component t = c).
Proof.
  unfold ticket_for. intros (D & _) H id t Hid. destruct (list_find _ _) as [[i p]|] eqn:E; [done|].
  apply dict_items_lookup in Hid; [|done]. rewrite list_find_None, Forall_forall in E. exact (E (id, t) Hid).
Qed.
Lemma ticket_for_found a c w id t :
  tickets_ok w → hw_pending w !! id = Some t → tk_action t = a → tk_component t = c →
  ∃ p, ticket_for a c w = Some p.
Proof.
  intros Hw Hid Ha Hc. destruct (ticket_for a c w) as [p|] eqn:E; [by exists p|].
  by destruct (ticket_for_none _ _ _ Hw E id t Hid).
Qed.

Ltac quiet := split; [by auto|by intros ? ? [=]].

(** One step: it keeps the invariant, only an approval adds an approved
    action, and an action that needs an approval is allowed only when it is
    among them. *)
Lemma heal_step o w :
  tickets_ok w →
  ∃ e w', run_heal_op o w = (Ok e, w') ∧ tickets_ok w' ∧
    (∀ key, key ∈ hw_approved w' → key ∈ hw_approved w ∨ ∃ a c, e = EApproved a c ∧ action_key a c = key) ∧
    (∀ a c, e = EAllowed a c → gated a → action_key a c ∈ hw_approved w).
Proof.
  intros Hw. destruct o as [a c r k t|id who|id who r| |a c| |]; cbn [run_heal_op].
  - destruct (request_spec a c r k t w) as (x & w' & E & Hx & _). rewrite (st_bind_ok _ _ _ _ _ E).
    destruct (requested_ok _ _ _ _ _ Hx Hw) as [Hw' Ha]. eexists _, _. split; [reflexivity|].
    rewrite Ha. split; [done|quiet].
  - rewrite (st_bind_ok st_get _ w w w) by done.
    destruct (approve_spec id who w) as (ok & w' & E & Hx). rewrite (st_bind_ok _ _ _ _ _ E).
    eexists _, _. split; [reflexivity|]. destruct Hx as [[-> K]|(t & Hid & Hp & [[-> B]|[-> B]])].
    + split; [by eapply kept_ok|]. destruct K as (_ & -> & _). quiet.
    + split; [eapply inserted_ok; [exact B|by right|done]|]. destruct B as (_ & -> & _). quiet.
    + split; [by eapply deleted_ok|]. rewrite Hid. destruct B as (_ & -> & _). split; [|done].
      intros key [->%elem_of_singleton|?]%elem_of_union; [right; eauto|by left].
  - destruct (reject_spec id who r w) as (ok & w' & E & Hx). rewrite (st_bind_ok _ _ _ _ _ E).
    eexists _, _. split; [reflexivity|]. destruct Hx as [K|(t & _ & _ & B)].
    + split; [by eapply kept_ok|]. destruct K as (_ & -> & _). quiet.
    + split; [by eapply deleted_ok|]. destruct B as (_ & -> & _). quiet.
  - destruct (check_expired_spec w) as (w' & E & B & D & L). rewrite (st_bind_ok _ _ _ _ _ E).
    eexists _, _. split; [reflexivity|]. destruct B as (_ & A & _ & _ & _ & R), Hw as (D0 & F & S).
    split; [|rewrite A; quiet]. split; [auto|]. split; [auto|]. intros id t. destruct (L id) as [->|[-> _]]; [apply S|done].
  - destruct (decide (gated a)) as [Hg|Hg].
    + destruct (should_spec a c w Hg) as (p & w' & E & Hp). rewrite (st_bind_ok _ _ _ _ _ E).
      eexists _, _. split; [reflexivity|]. destruct (ticket_for a c w) as [[id t]|] eqn:Ht.
      * destruct Hp as [K Hp]. split; [by eapply kept_ok|]. pose proof K as (_ & -> & _). split; [auto|].
        destruct p as [[|] m]; [|done]. exfalso. destruct (ticket_for_some _ _ _ _ _ Hw Ht) as (Hid & _).
        destruct Hw as (_ & _ & S). specialize (Hp eq_refl). destruct (S id t Hid); congruence.
      * case_bool_decide as Hk.
        -- destruct Hp as [_ K]. split; [by eapply kept_ok|]. pose proof K as (_ & -> & _). split; [auto|].
           destruct p as [[|] m]; [|done]. by intros a' c' [= <- <-].
        -- destruct Hp as [Hp [x Hx]]. destruct (requested_ok _ _ _ _ _ Hx Hw) as [Hw' ->]. rewrite Hp. split; [done|quiet].
    + assert (∃ m, should_execute a c w = (Ok (true, m), w)) as [m E].
      { unfold should_execute. destruct (action_risk a) eqn:Hr; [by eexists|by eexists| |]; exfalso; apply Hg; unfold gated; rewrite Hr; done. }
      rewrite (st_bind_ok _ _ _ _ _ E). eexists _, _. split; [reflexivity|]. split; [done|]. split; [auto|].
      by intros a' c' [= <- <-].
  - eexists _, _. split; [reflexivity|]. split; [done|quiet].
  - destruct (restart_ok w Hw) as [Hr Ha]. eexists _, _. split; [reflexivity|]. split; [done|].
    split; [|done]. intros key Hkey. by rewrite Ha, elem_of_empty in Hkey.
Qed.

(** ** What the gate promises *)

Lemma allowed_was_approved os w a c l1 l2 :
  tickets_ok w → gated a → (run_heal os w).1 = l1 ++ EAllowed a c :: l2 →
  (∃ a' c', EApproved a' c' ∈ l1 ∧ action_key a' c' = action_key a c) ∨ action_key a c ∈ hw_approved w.
Proof.
  revert w l1. induction os as [|o os IH]; intros w l1 Hw Hg; cbn [run_heal]; [by destruct l1|].
  destruct (heal_step o w Hw) as (e & w1 & -> & Hw1 & Happ & Hall).
  specialize (IH w1). destruct (run_heal os w1) as [l w2]. cbn [fst] in *.
  destruct l1 as [|e1 l1]; intros [= -> Hl]; [by right; apply Hall|].
  destruct (IH l1 Hw1 Hg Hl) as [(a' & c' & Hin & Hk)|Hin].
  { left. exists a', c'. split; [by apply list_elem_of_further|done]. }
  destruct (Happ _ Hin) as [?|(a' & c' & -> & Hk)]; [by right|]. left. exists a', c'. split; [apply list_elem_of_here|done].
Qed.

(** Joined by a colon, an action without one and its component are told
    apart from any other such pair. *)
Definition colonless (a : string) : bool := forallb (λ ch, negb (Ascii.eqb ch ":"%char)) (String.list_ascii_of_string a).
Lemma append_nil_inj s t : String.append s "" = String.append t "" → s = t.
Proof. revert t. induction s as [|x s IH]; intros [|y t]; cbn; try done. intros [= -> H]. by rewrite (IH t). Qed.
Lemma action_key_inj a a' c c' : colonless a = true → colonless a' = true → action_key a c = action_key a' c' → a = a' ∧ c = c'.
Proof.
  unfold colonless, action_key, cat. cbn [foldr]. revert a'. induction a as [|x a IH]; intros [|y a']; cbn.
  - intros _ _ [= H]. split; [done|]. by apply append_nil_inj.
  - intros _ Hy [= <- _]. done.
  - intros Hx _ [= -> _]. done.
  - intros [_ Hx]%andb_true_iff [_ Hy]%andb_true_iff [= -> E]. by destruct (IH a' Hx Hy E) as [-> ->].
Qed.
(** The actions that need an approval are named in the risk map. *)
Lemma gated_colonless a : gated a → colonless a = true.
Proof.
  unfold gated, action_risk, ACTION_RISK_MAP, lookup, pydict_lookup. cbn [items assoc_get].
  repeat (destruct (String.eqb a _) eqn:?; bools; [subst; intros [? ?]; by vm_compute|]). cbn. tauto.
Qed.

(** C34: The gate cannot be passed without an approval.  From a workflow
    that has approved nothing, over any history of requests, decisions,
    expiries, restarts and questions, an action that is neither of low nor
    of medium risk is allowed on a component only after an operator's
    approval of a ticket, earlier in the history, whose action and component
    give the same text joined by a colon; a ticket whose action has no colon
    in its name is one for exactly that action and that component. *)
Theorem approval_gates (os : list heal_op) (w : approvals) (a c : string) (l1 l2 : list heal_event) :
  tickets_ok w → hw_approved w = ∅ → gated a → (run_heal os w).1 = l1 ++ EAllowed a c :: l2 →
  ∃ a' c', EApproved a' c' ∈ l1 ∧ cat [a'; ":"%string; c'] = cat [a; ":"%string; c] ∧
    (colonless a' = true → a' = a ∧ c' = c).
Proof.
  intros Hw Ha Hg Hl. destruct (allowed_was_approved os w a c l1 l2 Hw Hg Hl) as [(a' & c' & Hin & Hk)|Hin].
  - exists a', c'. split_and!; [done|exact Hk|]. intros Hc. apply action_key_inj; [done|by apply gated_colonless|done].
  - by rewrite Ha, elem_of_empty in Hin.
Qed.

(** *** A ticket that was approved too late *)

Definition blocked (k a c : string) (w : approvals) : Prop :=
  ∃ t, hw_pending w !! k = Some t ∧ tk_status t = T_EXPIRED ∧ tk_action t = a ∧ tk_component t = c.
(** The tickets to come get other ids. *)
Definition fresh_for (k : string) (w : approvals) : Prop := ∀ n, (hw_n w ≤ n)%nat → ticket_id (hw_uuid w n) ≠ k.
Definition no_restart (o : heal_op) : bool := match o with HRestart => false | _ => true end.

Lemma becomes_fresh k P A w w' : becomes P A w w' → fresh_for k w → fresh_for k w'.
Proof. intros (_ & _ & _ & U & N & _) F n Hn. rewrite U. apply F. lia. Qed.
Lemma requested_blocked k a c w w' a' c' x :
  requested a' c' w w' x → fresh_for k w → blocked k a c w → blocked k a c w' ∧ fresh_for k w'.
Proof.
  intros [[_ K]|(_ & Hid & _ & _ & _ & B)] F (t & Ht & Hb).
  - split; [|by eapply becomes_fresh]. exists t. destruct K as (-> & _). done.
  - split; [|by eapply becomes_fresh]. exists t. destruct B as (-> & _). split; [|done].
    rewrite dict_lookup_insert_ne; [done|]. rewrite Hid. by apply F.
Qed.
Lemma untouched_blocked k a c P A w w' :
  becomes P A w w' → P !! k = hw_pending w !! k → fresh_for k w → blocked k a c w → blocked k a c w' ∧ fresh_for k w'.
Proof.
  intros B HP F (t & Ht & Hb). split; [|by eapply becomes_fresh].
  exists t. destruct B as (-> & _). by rewrite HP.
Qed.
Lemma blocked_should k a c w :
  tickets_ok w → gated a → blocked k a c w →
  ∃ p w', should_execute a c w = (Ok p, w') ∧ p.1 = false ∧ kept w w'.
Proof.
  intros Hw Hg (t & Ht & _ & Ha & Hc). destruct (should_spec a c w Hg) as (p & w' & E & Hp). exists p, w'. split; [done|].
  destruct (ticket_for_found a c w k t Hw Ht Ha Hc) as [[id t'] Hf]. rewrite Hf in Hp. destruct Hp as [K Hp].
  split; [|done]. destruct (p.1); [|done]. destruct (ticket_for_some _ _ _ _ _ Hw Hf) as (Hid & _).
  destruct Hw as (_ & _ & S). specialize (Hp eq_refl). destruct (S _ _ Hid); congruence.
Qed.
Lemma decided_other k id a c t w : blocked k a c w → hw_pending w !! id = Some t → tk_status t = T_PENDING → id ≠ k.
Proof. intros (t' & Ht' & He & _) Hid Hp ->. congruence. Qed.

Lemma blocked_step k a c o w :
  tickets_ok w → gated a → fresh_for k w → blocked k a c w → no_restart o = true →
  ∃ e w', run_heal_op o w = (Ok e, w') ∧ e ≠ EAllowed a c ∧ blocked k a c w' ∧ fresh_for k w'.
Proof.
  intros Hw Hg F B Ho. destruct o as [a' c' r x t|id who|id who r| |a' c'| |]; cbn [run_heal_op]; [| | | | | |done].
  - destruct (request_spec a' c' r x t w) as (y & w' & E & Hy & _). rewrite (st_bind_ok _ _ _ _ _ E).
    destruct (requested_blocked k a c _ _ _ _ _ Hy F B). eexists _, _. by split; [reflexivity|].
  - rewrite (st_bind_ok st_get _ w w w) by done.
    destruct (approve_spec id who w) as (ok & w' & E & Hx). rewrite (st_bind_ok _ _ _ _ _ E).
    eexists _, _. split; [reflexivity|]. split; [destruct ok; [by case_match|done]|].
    destruct Hx as [[_ K]|(t & Hid & Hp & [[_ K]|[_ K]])]; (eapply untouched_blocked; [exact K| |done|done]).
    + done.
    + apply dict_lookup_insert_ne. by eapply decided_other.
    + apply dict_lookup_delete_ne. by eapply decided_other.
  - destruct (reject_spec id who r w) as (ok & w' & E & Hx). rewrite (st_bind_ok _ _ _ _ _ E).
    eexists _, _. split; [reflexivity|]. split; [done|].
    destruct Hx as [K|(t & Hid & Hp & K)]; (eapply untouched_blocked; [exact K| |done|done]); [done|].
    apply dict_lookup_delete_ne. by eapply decided_other.
  - destruct (check_expired_spec w) as (w' & E & K & _ & L). rewrite (st_bind_ok _ _ _ _ _ E).
    eexists _, _. split; [reflexivity|]. split; [done|]. eapply untouched_blocked; [exact K| |done|done].
    destruct (L k) as [?|(_ & t & Hin & Hp)]; [done|]. exfalso.
    apply dict_items_lookup in Hin; [|apply Hw]. by eapply (decided_other k k).
  - destruct (decide (a' = a ∧ c' = c)) as [[-> ->]|Hne].
    + destruct (blocked_should k a c w Hw Hg B) as (p & w' & E & Hp & K). rewrite (st_bind_ok _ _ _ _ _ E), Hp.
      eexists _, _. split; [reflexivity|]. split; [done|]. by eapply untouched_blocked; [exact K| | |].
    + destruct (heal_step (HShould a' c') w Hw) as (e & w' & E & _ & _ & _). exists e, w'. split; [exact E|].
      cbn [run_heal_op] in E. inv_bind E p w1 E1. injection E as <- <-.
      split; [destruct p.1; [intros [= -> ->]; tauto|done]|].
      destruct (decide (gated a')) as [Hg'|Hg'].
      * destruct (should_spec a' c' w Hg') as (p' & w2 & E2 & Hp). rewrite E1 in E2. injection E2 as <- <-.
        destruct (ticket_for a' c' w) as [[id t]|]; [destruct Hp as [K _]|].
        { by eapply untouched_blocked; [exact K| | |]. }
        case_bool_decide; [destruct Hp as [_ K]; by eapply untouched_blocked; [exact K| | |]|].
        destruct Hp as [_ [x Hx]]. by eapply requested_blocked.
      * unfold should_execute in E1. unfold gated in Hg'.
        destruct (action_risk a'); [by injection E1 as _ <-|by injection E1 as _ <-| |]; exfalso; by apply Hg'.
  - eexists _, _. by split; [reflexivity|].
Qed.

Lemma blocked_for_ever k a c os w :
  tickets_ok w → gated a → fresh_for k w → blocked k a c w → forallb no_restart os = true →
  EAllowed a c ∉ (run_heal os w).1.
Proof.
  revert w. induction os as [|o os IH]; intros w Hw Hg F B; cbn [run_heal forallb]; [intros _; apply not_elem_of_nil|].
  intros [Ho Hos]%andb_true_iff. destruct (blocked_step k a c o w Hw Hg F B Ho) as (e & w1 & E & He & B1 & F1).
  destruct (heal_step o w Hw) as (e' & w1' & E' & Hw1 & _). rewrite E in E'. injection E' as <- <-.
  rewrite E. specialize (IH w1 Hw1 Hg F1 B1 Hos). destruct (run_heal os w1) as [l w2]. cbn [fst] in *.
  intros [Heq|Hin]%elem_of_cons; [by apply He|by apply IH].
Qed.

(** A ticket that is approved too late blocks its action.  The answer
    to the approval is [False], the ticket stays behind as expired, and from
    then on, until the process restarts, the action is never allowed on that
    component again: neither the expiry check nor any later request,
    approval or rejection removes the ticket. *)
Theorem late_approval_blocks (k who a c : string) (t : ticket) (os : list heal_op) (w : approvals) :
  tickets_ok w → gated a → fresh_for k w → hw_pending w !! k = Some t → tk_status t = T_PENDING →
  tk_action t = a → tk_component t = c → (is_expired t w).1 = Ok true → forallb no_restart os = true →
  (approve k who w).1 = Ok false ∧ EAllowed a c ∉ (run_heal os (approve k who w).2).1.
Proof.
  intros Hw Hg F Ht Hp Ha Hc Hlate Hos.
  assert (∃ w', approve k who w = (Ok false, w') ∧ becomes (<[k := set_status T_EXPIRED t]> (hw_pending w)) (hw_approved w) w w')
    as (w' & E & B).
  { destruct (late_calm t w) as (b & w1 & E1 & (P & A & K)). rewrite E1 in Hlate. injection Hlate as ->.
    eexists. unfold approve. rewrite (st_bind_ok st_get _ w w w), Ht by done. unfold is_pending. rewrite bool_decide_true by done.
    cbv beta iota delta [negb]. rewrite (st_bind_ok _ _ _ _ _ E1). split; [reflexivity|].
    unfold becomes. cbn. by rewrite P, A. }
  rewrite E. split; [done|]. cbn [snd]. apply (blocked_for_ever k); [|done| | |done].
  - eapply inserted_ok; [exact B|by right|done].
  - by eapply becomes_fresh.
  - exists (set_status T_EXPIRED t). destruct B as (-> & _). by rewrite dict_lookup_insert_eq.
Qed.

(** *** An approval is not used up *)

(** Once an action is approved and no ticket for it is pending, it may be
    executed any number of times: no later call asks again. *)
Lemma approval_not_used_up a c w n :
  gated a → action_key a c ∈ hw_approved w → ticket_for a c w = None →
  run_heal (replicate n (HShould a c)) w = (replicate n (EAllowed a c), w).
Proof.
  intros [Hl Hm] Hk Hf. assert (should_execute a c w = (Ok (true, "Previously approved (cached)"%string), w)) as E.
  { unfold should_execute. destruct (action_risk a); [done|done| |];
      rewrite (st_bind_ok st_get _ w w w), Hf, bool_decide_true by done; reflexivity. }
  induction n as [|n IH]; [done|]. cbn [replicate run_heal run_heal_op]. rewrite (st_bind_ok _ _ _ _ _ E).
  cbn [fst]. unfold mret, st_ret. by rewrite IH.
Qed.
End workflow.
Arguments approvals : clear implicits.

(** ** Concrete histories *)

#[local] Instance quiet_env : HealEnv unit :=
  {| notify_fn := λ _, mret (); escalation_callback := λ _ _, mret () |}.
#[local] Instance no_iso : LocalIso := {| local_iso := λ _, ""%string |}.

(** Readings of the clock [steps] seconds apart; the first ticket is
    ["app_a"]. *)
Definition demo_approvals (steps : list Z) : approvals unit :=
  Approvals default_config ∅ [] ∅ [] true None [] (λ n, match n with O => "a" | S _ => "b" end)%string 0
    (Clock 0 ((λ s, s * usec_per_sec) <$> steps)) ().
Lemma demo_approvals_ok steps : tickets_ok (demo_approvals steps).
Proof. split; [apply dict_empty_wf|]. by split. Qed.

Definition ask : heal_op := HShould "reconnect_broker" "kite".
Definition demo_ops : list heal_op := [ask; ask; HApprove "app_a" "ops"; ask; HExpire; ask].
Example demo_gate : (run_heal demo_ops (demo_approvals [])).1 =
  [EQuiet; EQuiet; EApproved "reconnect_broker" "kite"; EAllowed "reconnect_broker" "kite"; EQuiet;
   EAllowed "reconnect_broker" "kite"]%string.
Proof. vm_compute. reflexivity. Qed.
(** The spelling of the usage example is no action of the risk map: what it
    names is executed without an approval. *)
Example unknown_action_allowed :
  (run_heal [HRequest "RECONNECT_BROKER" "kite_adapter" "lost" (Some (RiskText "HIGH")) None;
             HShould "RECONNECT_BROKER" "kite_adapter"] (demo_approvals [])).1 =
  [EQuiet; EAllowed "RECONNECT_BROKER" "kite_adapter"]%string.
Proof. vm_compute. reflexivity. Qed.

(** The key does not tell a colon of an action from the one that joins: the
    approval of an action that is in no risk map lets another one run. *)
Example approved_by_another_name : gated "reconnect_broker" ∧
  (run_heal [HRequest "reconnect_broker:kite" "x" "lost" (Some (RiskText "HIGH")) None; HApprove "app_a" "ops";
             HShould "reconnect_broker" "kite:x"] (demo_approvals [])).1 =
  [EQuiet; EApproved "reconnect_broker:kite" "x"; EAllowed "reconnect_broker" "kite:x"]%string.
Proof. split; [split; discriminate|vm_compute; reflexivity]. Qed.

Lemma approval_gates_witness :
  ∃ a' c', EApproved a' c' ∈ [EQuiet; EQuiet; EApproved "reconnect_broker" "kite"]%string ∧
    cat [a'; ":"; c']%string = "reconnect_broker:kite"%string ∧
    (colonless a' = true → a' = "reconnect_broker" ∧ c' = "kite")%string.
Proof.
  apply (approval_gates demo_ops (demo_approvals []) "reconnect_broker" "kite" _
           [EQuiet; EAllowed "reconnect_broker" "kite"]%string).
  - apply demo_approvals_ok.
  - reflexivity.
  - split; discriminate.
  - vm_compute. reflexivity.
Defined.

(** Five minutes pass between the request and the approval. *)
Definition late_world : approvals unit := (run_heal [ask] (demo_approvals [1; 1; 301])).2.
Definition late_ticket : ticket := default (ApprovalTicket "" "" "" "" "" T_REJECTED f_zero f_zero "" "" f_zero)
  (hw_pending late_world !! "app_a"%string).
Lemma late_world_ok : tickets_ok late_world.
Proof.
  destruct (heal_step ask (demo_approvals [1; 1; 301]) (demo_approvals_ok _)) as (e & w' & E & Hw & _).
  unfold late_world. cbn [run_heal]. by rewrite E.
Qed.
Lemma late_approval_blocks_witness :
  (approve "app_a" "ops" late_world).1 = Ok false ∧
  EAllowed "reconnect_broker" "kite" ∉
    (run_heal [ask; HExpire; HRequest "reconnect_broker" "kite" "again" None None; HApprove "app_b" "ops"; ask]
       (approve "app_a" "ops" late_world).2).1.
Proof.
  apply (late_approval_blocks "app_a" "ops" "reconnect_broker" "kite" late_ticket).
  - apply late_world_ok.
  - split; discriminate.
  - intros n Hn. vm_compute in Hn. destruct n as [|n]; [lia|]. discriminate.
  - vm_compute. reflexivity.
  - vm_compute. reflexivity.
  - vm_compute. reflexivity.
  - vm_compute. reflexivity.
  - vm_compute. reflexivity.
  - reflexivity.
Defined.
