(* ===== verification/StrategyApproval.v ===== *)
(** * The approval of strategy transitions

    [core/strategy/approval_workflow.py]: [StrategyApprovalWorkflow] takes
    requests to move a strategy between the states INITIALIZED, PAPER_ONLY,
    LIVE_APPROVED, DONT_RUN and DEPRECATED, checks them against a table of
    rules, and records the approvals a promotion needs.  The current state of
    a strategy is not stored: it is read off the list of requests.

    The evidence of a request is held by value, as it was when the request
    was made. *)
From S2P Require Import Prelude PyStr Float64 PyDict PyVal CapitalManager.

(** ** Data *)

Inductive ApprovalStatus := PENDING | APPROVED | REJECTED | EXPIRED.
#[global] Instance approval_status_eq_dec : EqDecision ApprovalStatus.
Proof. solve_decision. Defined.

(** [TransitionRequest] *)
Record request := TransitionRequest {
  rq_strategy : string; rq_from : string; rq_to : string; rq_by : string; rq_evidence : pyrec;
  rq_status : ApprovalStatus; rq_at : tstamp; rq_approved_by : string; rq_approved_at : option tstamp;
  rq_rejection : string; rq_count : Z }.
Definition set_rq_status (s : ApprovalStatus) (r : request) : request :=
  TransitionRequest (rq_strategy r) (rq_from r) (rq_to r) (rq_by r) (rq_evidence r) s (rq_at r) (rq_approved_by r)
    (rq_approved_at r) (rq_rejection r) (rq_count r).
Definition set_rq_count (n : Z) (r : request) : request :=
  TransitionRequest (rq_strategy r) (rq_from r) (rq_to r) (rq_by r) (rq_evidence r) (rq_status r) (rq_at r)
    (rq_approved_by r) (rq_approved_at r) (rq_rejection r) n.
Definition set_rq_approval (who : string) (t : tstamp) (r : request) : request :=
  TransitionRequest (rq_strategy r) (rq_from r) (rq_to r) (rq_by r) (rq_evidence r) APPROVED (rq_at r) who (Some t)
    (rq_rejection r) (rq_count r).
Definition set_rq_rejection (reason : string) (r : request) : request :=
  TransitionRequest (rq_strategy r) (rq_from r) (rq_to r) (rq_by r) (rq_evidence r) REJECTED (rq_at r)
    (rq_approved_by r) (rq_approved_at r) reason (rq_count r).

(** [ApprovalRule], without its text *)
Record rule := ApprovalRule {
  ru_type : string; ru_min_evidence : Z; ru_required : list string; ru_requires_approver : bool; ru_approvals : Z }.
Definition DEFAULT_APPROVAL_RULES : pydict rule := PyDict
  [("INITIALIZE", ApprovalRule "INITIALIZE" 0 [] false 1);
   ("PAPER_START", ApprovalRule "PAPER_START" 1 ["config_validated"] true 1);
   ("PROMOTE_TO_LIVE", ApprovalRule "PROMOTE_TO_LIVE" 3 ["backtest_sharpe"; "paper_trades"; "paper_win_rate"] true 2);
   ("DEMOTE_TO_PAPER", ApprovalRule "DEMOTE_TO_PAPER" 1 ["reason_for_demotion"] true 1);
   ("DEPRECATE", ApprovalRule "DEPRECATE" 1 ["deprecation_reason"] true 1);
   ("REACTIVATE", ApprovalRule "REACTIVATE" 2 ["updated_config"; "retest_results"] true 1);
   ("BLOCK", ApprovalRule "BLOCK" 1 ["block_reason"] true 1)]%string.

(** An entry of the audit log. *)
Record log_entry := LogEntry {
  le_event : string; le_timestamp : tstamp; le_strategy : string; le_from : string; le_to : string; le_by : string;
  le_approver : string; le_reason : string; le_remaining : option Z }.

Record strategy_workflow := StrategyWorkflow {
  sw_rules : pydict rule; sw_requests : list request; sw_log : list log_entry; sw_clk : clock }.
Definition put_requests (l : list request) (w : strategy_workflow) : strategy_workflow :=
  StrategyWorkflow (sw_rules w) l (sw_log w) (sw_clk w).
Definition put_log (l : list log_entry) (w : strategy_workflow) : strategy_workflow :=
  StrategyWorkflow (sw_rules w) (sw_requests w) l (sw_clk w).
#[global] Instance workflow_clock : HasClock strategy_workflow :=
  {| clock_of := sw_clk; set_clock := λ c w, StrategyWorkflow (sw_rules w) (sw_requests w) (sw_log w) c |}.

Definition AM (A : Type) : Type := ST strategy_workflow A.

(** [StrategyApprovalWorkflow(rules)]: no or empty rules mean the default ones. *)
Definition new_workflow (rules : option (pydict rule)) (c : clock) : strategy_workflow :=
  StrategyWorkflow
    (match rules with
     | Some d => match items d with [] => DEFAULT_APPROVAL_RULES | _ => d end
     | None => DEFAULT_APPROVAL_RULES
     end) [] [] c.
Definition _max_requests : Z := 1000.

(** [datetime.utcnow()] and its text *)
Definition utcnow : AM Z := t ← now_ist; mret (t - ist_offset).
Definition utc_iso : AM tstamp := t ← utcnow; mret (TsAt t).

(** ** The rules of a transition *)

(** [_get_current_state]: the newest request decides, an approved one by its
    target; without one, the oldest request's origin. *)
Fixpoint state_from (name last : string) (newest_first : list request) : string :=
  match newest_first with
  | [] => last
  | r :: l =>
      if String.eqb (rq_strategy r) name then
        if bool_decide (rq_status r = APPROVED) then rq_to r else state_from name (rq_from r) l
      else state_from name last l
  end.
Definition get_current_state (name : string) (w : strategy_workflow) : string :=
  state_from name "INITIALIZED" (reverse (sw_requests w)).

(** [_get_transition_type] *)
Definition get_transition_type (from_state to_state : string) : string :=
  if str_mem to_state ["DONT_RUN"; "DEPRECATED"] then to_state
  else if String.eqb from_state "INITIALIZED" && String.eqb to_state "PAPER_ONLY" then "PAPER_START"
  else if String.eqb to_state "LIVE_APPROVED" then "PROMOTE_TO_LIVE"
  else if String.eqb from_state "LIVE_APPROVED" && String.eqb to_state "PAPER_ONLY" then "DEMOTE_TO_PAPER"
  else "INITIALIZE".

Definition valid_transitions : pydict (list string) := PyDict
  [("INITIALIZED", ["PAPER_ONLY"; "DONT_RUN"; "DEPRECATED"]);
   ("PAPER_ONLY", ["LIVE_APPROVED"; "DONT_RUN"; "DEPRECATED"]);
   ("LIVE_APPROVED", ["PAPER_ONLY"; "DONT_RUN"; "DEPRECATED"]);
   ("DONT_RUN", ["PAPER_ONLY"; "DEPRECATED"]);
   ("DEPRECATED", ["PAPER_ONLY"])]%string.
Definition allowed_from (from_state : string) : list string := default [] (valid_transitions !! from_state).
Definition comma (l : list string) : string :=
  match l with [] => "" | x :: l' => String.append x (cat (map (String.append ", ") l')) end.

(** [_validate_transition]; [None] is a valid transition. *)
Definition validate_transition (from_state to_state : string) : option string :=
  if str_mem to_state (allowed_from from_state) then None
  else Some (cat ["Transition "; from_state; " -> "; to_state; " not allowed. Allowed from "; from_state; ": ";
                  comma (allowed_from from_state)]).
(** [_validate_evidence] *)
Definition missing_evidence (evidence : pyrec) (required : list string) : option string :=
  snd <$> list_find (λ k, dmem k evidence = false) required.
Definition validate_evidence (evidence : pyrec) (r : rule) : option string :=
  if dlen evidence <? ru_min_evidence r then
    Some (cat ["Need at least "; str_of_Z (ru_min_evidence r); " evidence items, got "; str_of_Z (dlen evidence)])
  else
    (λ k, cat ["Missing required evidence: "; k]) <$> missing_evidence evidence (ru_required r).

(** ** Requests *)

(** [_log_approval_event] *)
Definition log_approval_event (event : string) (r : request) (approver reason : string) (remaining : option Z) :
    AM unit :=
  t ← utc_iso;
  st_modify (λ w, put_log (sw_log w ++ [LogEntry event t (rq_strategy r) (rq_from r) (rq_to r) (rq_by r) approver
    reason remaining]) w).

(** The part of [request_transition] before the lock is taken: a refusal or
    the request to record. *)
Definition check_request (name to_state by_whom : string) (evidence : option pyrec) : AM (string + request) :=
  ts ← utc_iso;
  let evidence := default ∅ evidence in
  from_state ← st_gets (get_current_state name);
  match validate_transition from_state to_state with
  | Some msg => mret (inl msg)
  | None =>
      w ← st_get;
      let type := get_transition_type from_state to_state in
      let r := default (ApprovalRule type 0 [] true 1) (sw_rules w !! type) in
      match validate_evidence evidence r with
      | Some msg => mret (inl msg)
      | None =>
          mret (inr (TransitionRequest name from_state to_state by_whom evidence PENDING ts "" None "" 0))
      end
  end.
(** The part under the lock. *)
Definition record_request (r : request) : AM unit :=
  st_modify (λ w,
    let l := sw_requests w ++ [r] in
    put_requests (if _max_requests <? Z.of_nat (length l) then tail l else l) w) ;;
  log_approval_event "requested" r "" "" None.
(** [request_transition]; the id is [strategy:target:time]. *)
Definition request_transition (name to_state by_whom : string) (evidence : option pyrec) :
    AM (bool * string * option (string * string * tstamp)) :=
  checked ← check_request name to_state by_whom evidence;
  match checked with
  | inl msg => mret (false, msg, None)
  | inr r =>
      record_request r ;;
      mret (true, cat ["Request created: "; name; " -> "; to_state], Some (name, to_state, rq_at r))
  end.

(** The newest pending request of a strategy for a state, with its place in
    the list. *)
Definition wanted (name to_state : string) (r : request) : Prop :=
  rq_strategy r = name ∧ rq_to r = to_state ∧ rq_status r = PENDING.
#[global] Instance wanted_dec name to_state r : Decision (wanted name to_state r).
Proof. unfold wanted. apply _. Defined.
Definition newest_pending (name to_state : string) (l : list request) : option (nat * request) :=
  match list_find (wanted name to_state) (reverse l) with
  | Some (i, r) => Some (length l - 1 - i, r)%nat
  | None => None
  end.
Definition set_request (i : nat) (r : request) : AM unit :=
  st_modify (λ w, put_requests (<[i := r]> (sw_requests w)) w).
Definition no_pending (name to_state : string) : bool * string :=
  (false, cat ["No pending request found for "; name; " -> "; to_state]).

(** [approve_transition] *)
Definition approve_transition (name to_state who : string) : AM (bool * string) :=
  w ← st_get;
  match newest_pending name to_state (sw_requests w) with
  | None => mret (no_pending name to_state)
  | Some (i, r) =>
      let needed := default 1 (ru_approvals <$> sw_rules w !! get_transition_type (rq_from r) (rq_to r)) in
      let r1 := if 1 <? needed then set_rq_count (rq_count r + 1) r else r in
      if (1 <? needed) && (rq_count r1 <? needed) then
        set_request i r1 ;;
        let remaining := needed - rq_count r1 in
        log_approval_event "partial_approval" r1 who "" (Some remaining) ;;
        mret (true, cat ["Partial approval recorded (need "; str_of_Z remaining; " more)"])
      else
        t ← utc_iso;
        let r2 := set_rq_approval who t r1 in
        set_request i r2 ;;
        log_approval_event "approved" r2 who "" None ;;
        mret (true, cat ["Approved: "; name; " -> "; to_state])
  end.

(** [reject_transition] *)
Definition reject_transition (name to_state who reason : string) : AM (bool * string) :=
  w ← st_get;
  match newest_pending name to_state (sw_requests w) with
  | None => mret (no_pending name to_state)
  | Some (i, r) =>
      let r1 := set_rq_rejection reason r in
      set_request i r1 ;;
      log_approval_event "rejected" r1 who reason None ;;
      mret (true, cat ["Rejected: "; name; " -> "; to_state])
  end.

(** [expire_old_requests]: a time that does not parse is skipped. *)
Definition expire_one (now max_age_hours : Z) (r : request) : request :=
  if negb (bool_decide (rq_status r = PENDING)) then r
  else
    match fromisoformat (rq_at r) with
    | Ok t => if fgt (total_seconds (now - t)) (f_of_Z (max_age_hours * 3600)) then set_rq_status EXPIRED r else r
    | Raise _ => r
    end.
Definition expire_old_requests (max_age_hours : Z) : AM Z :=
  now ← utcnow;
  w ← st_get;
  let l := expire_one now max_age_hours <$> sw_requests w in
  st_put (put_requests l w) ;;
  mret (Z.of_nat (length (filter (λ p, rq_status p.1 ≠ rq_status p.2) (zip (sw_requests w) l)))).

(** ** Queries *)

Definition with_status (s : ApprovalStatus) (w : strategy_workflow) : list request :=
  filter (λ r, rq_status r = s) (sw_requests w).
Definition get_pending_approvals : strategy_workflow → list request := with_status PENDING.
Definition get_request_history (name : option string) (w : strategy_workflow) : list request :=
  match name with
  | Some n => filter (λ r, rq_strategy r = n) (reverse (sw_requests w))
  | None => reverse (sw_requests w)
  end.
(** [list(reversed(log))[:limit]] *)
Definition get_approval_log (limit : Z) (w : strategy_workflow) : list log_entry :=
  let l := reverse (sw_log w) in
  take (Z.to_nat (if 0 <=? limit then limit else Z.of_nat (length l) + limit)) l.
(** [list(dict.fromkeys(l))] *)
Fixpoint dedup (seen : list string) (l : list string) : list string :=
  match l with
  | [] => []
  | x :: l' => if str_mem x seen then dedup seen l' else x :: dedup (x :: seen) l'
  end.
Record governance_report := GovernanceReport {
  gr_total : Z; gr_pending : Z; gr_approved : Z; gr_rejected : Z; gr_pending_approvals : list request;
  gr_live : list string; gr_rules : pydict rule }.
Definition get_governance_report (w : strategy_workflow) : governance_report :=
  let n l := Z.of_nat (length l) in
  GovernanceReport (n (sw_requests w)) (n (with_status PENDING w)) (n (with_status APPROVED w))
    (n (with_status REJECTED w)) (with_status PENDING w)
    (dedup [] (rq_strategy <$> filter (λ r, rq_to r = "LIVE_APPROVED"%string) (with_status APPROVED w))) (sw_rules w).
Definition get_approval_rules (w : strategy_workflow) : pydict rule := sw_rules w.

(** ** Histories

    Several threads use one workflow.  [request_transition] checks a request
    before it takes the lock, so the history has a step for the check, whose
    outcome the thread holds, and a step that records it. *)
Inductive strat_op :=
| SCheck (name to_state by_whom : string) (evidence : option pyrec)
| SRecord (thread : nat)
| SApprove (name to_state who : string)
| SReject (name to_state who reason : string)
| SExpire (max_age_hours : Z).

Inductive strat_event := ERequested (r : request) | EPartial (name to_state : string) | EFull (name to_state : string)
  | ENothing.
#[global] Instance strat_event_eq_dec : EqDecision strat_event.
Proof.
  assert (EqDecision (pydict pyval)) by (intros [x] [y]; destruct (decide (x = y)); [left; congruence|right; congruence]).
  assert (EqDecision request) by solve_decision. solve_decision.
Defined.

(** The requests checked and not recorded yet, and the workflow. *)
Definition strat_state : Type := list request * strategy_workflow.
Definition on_workflow {A} (m : AM A) : ST strat_state A := st_zoom snd (λ w s, (s.1, w)) m.

(** Is this the last approval the newest pending request needs? *)
Definition approval_event (name to_state : string) (w : strategy_workflow) : strat_event :=
  match newest_pending name to_state (sw_requests w) with
  | None => ENothing
  | Some (_, r) =>
      let needed := default 1 (ru_approvals <$> sw_rules w !! get_transition_type (rq_from r) (rq_to r)) in
      if (1 <? needed) && (rq_count r + 1 <? needed) then EPartial name to_state else EFull name to_state
  end.
Definition run_strat_op (o : strat_op) : ST strat_state strat_event :=
  match o with
  | SCheck name to_state by_whom ev =>
      c ← on_workflow (check_request name to_state by_whom ev);
      match c with
      | inr r => st_modify (λ s : strat_state, (s.1 ++ [r], s.2)) ;; mret ENothing
      | inl _ => mret ENothing
      end
  | SRecord n =>
      s ← st_get;
      match s.1 !! n with
      | Some r => on_workflow (record_request r) ;; st_modify (λ s' : strat_state, (delete n s.1, s'.2)) ;; mret (ERequested r)
      | None => mret ENothing
      end
  | SApprove name to_state who =>
      s ← st_get; on_workflow (approve_transition name to_state who) ;; mret (approval_event name to_state s.2)
  | SReject name to_state who reason => on_workflow (reject_transition name to_state who reason) ;; mret ENothing
  | SExpire h => on_workflow (expire_old_requests h) ;; mret ENothing
  end.
Fixpoint run_strat (os : list strat_op) (s : strat_state) : list strat_event * strat_state :=
  match os with
  | [] => ([], s)
  | o :: os' =>
      let '(r, s1) := run_strat_op o s in
      let '(l, s2) := run_strat os' s1 in
      (match r with Ok e => e :: l | Raise _ => l end, s2)
  end.

(** ** Accounting

    The history so far is a list of events; for one strategy, the promotions
    to LIVE are set against the approvals and requests they use. *)

Definition LIVE : string := "LIVE_APPROVED".
(** The evidence a promotion needs. *)
Definition evidence_ok (ev : pyrec) : bool :=
  (3 <=? dlen ev) && forallb (λ k, dmem k ev) ["backtest_sharpe"; "paper_trades"; "paper_win_rate"].
(** A request for LIVE out of paper trading, with the evidence. *)
Definition live_request (name : string) (e : strat_event) : Prop :=
  match e with
  | ERequested r => rq_strategy r = name ∧ rq_to r = LIVE ∧ rq_from r = "PAPER_ONLY"%string ∧
                    evidence_ok (rq_evidence r) = true
  | _ => False
  end.
#[global] Instance live_request_dec name e : Decision (live_request name e).
Proof. destruct e; simpl; apply _. Defined.

Definition cnt {A} (P : A → Prop) `{!∀ x, Decision (P x)} (l : list A) : Z := Z.of_nat (length (filter P l)).
Definition unit_of (P : Prop) `{!Decision P} : Z := Z.b2z (bool_decide P).

Definition requests_of (name : string) : list strat_event → Z := cnt (live_request name).
Definition partials_of (name : string) : list strat_event → Z := cnt (λ e, e = EPartial name LIVE).
Definition promotions_of (name : string) : list strat_event → Z := cnt (λ e, e = EFull name LIVE).

Section count.
Context {A : Type} (P : A → Prop) `{!∀ x, Decision (P x)}.
Lemma cnt_nonneg l : 0 ≤ cnt P l.
Proof. unfold cnt. lia. Qed.
Lemma cnt_cons x l : cnt P (x :: l) = unit_of (P x) + cnt P l.
Proof. unfold cnt, unit_of. rewrite filter_cons. case_decide; [rewrite bool_decide_true by done|rewrite bool_decide_false by done]; cbn [length Z.b2z]; lia. Qed.
Lemma cnt_app l1 l2 : cnt P (l1 ++ l2) = cnt P l1 + cnt P l2.
Proof. unfold cnt. rewrite filter_app, length_app. lia. Qed.
Lemma cnt_snoc l x : cnt P (l ++ [x]) = cnt P l + unit_of (P x).
Proof. rewrite cnt_app, cnt_cons. change (cnt P []) with 0. lia. Qed.
Lemma cnt_insert i l x y : l !! i = Some x → cnt P (<[i := y]> l) = cnt P l - unit_of (P x) + unit_of (P y).
Proof.
  intros Hi. pose proof (lookup_lt_Some _ _ _ Hi) as Hlt.
  assert (cnt P l = cnt P (take i l) + (unit_of (P x) + cnt P (drop (S i) l))) as ->.
  { by rewrite <- cnt_cons, <- cnt_app, take_drop_middle. }
  rewrite insert_take_drop, cnt_app, cnt_cons by done. lia.
Qed.
Lemma unit_range (Q : Prop) `{!Decision Q} : 0 ≤ unit_of Q ≤ 1.
Proof. unfold unit_of. case_bool_decide; simpl; lia. Qed.
Lemma cnt_tail l : cnt P (tail l) ≤ cnt P l.
Proof. destruct l as [|x l]; [done|]. rewrite cnt_cons. simpl. pose proof (unit_range (P x)). lia. Qed.
Lemma cnt_fmap_le (f : A → A) l : (∀ x, P (f x) → P x) → cnt P (f <$> l) ≤ cnt P l.
Proof.
  intros Hf. induction l as [|x l IH]; [done|]. rewrite fmap_cons, !cnt_cons.
  assert (unit_of (P (f x)) ≤ unit_of (P x)); [|lia]. unfold unit_of.
  destruct (bool_decide_reflect (P (f x))) as [Hfx|]; [rewrite bool_decide_true by auto; done|].
  pose proof (unit_range (P x)). unfold unit_of in *. simpl. lia.
Qed.
End count.

(** *** What the operations do to the requests *)

Lemma utc_iso_eq w : ∃ t, utc_iso w = (Ok (TsAt t), set_clock (clk_read (sw_clk w)).2 w).
Proof. eexists. unfold utc_iso, utcnow, mbind, st_bind. rewrite now_ist_total. reflexivity. Qed.
(** The rules stay and the requests become [l]. *)
Definition books (l : list request) (w w' : strategy_workflow) : Prop := sw_rules w' = sw_rules w ∧ sw_requests w' = l.
Lemma log_books e r a s n w : ∃ w', log_approval_event e r a s n w = (Ok (), w') ∧ books (sw_requests w) w w'.
Proof.
  unfold log_approval_event. destruct (utc_iso_eq w) as [t E]. rewrite (st_bind_ok _ _ _ _ _ E). by eexists.
Qed.
Lemma newest_pending_spec name to l i r :
  newest_pending name to l = Some (i, r) → l !! i = Some r ∧ wanted name to r.
Proof.
  unfold newest_pending. destruct (list_find _ _) as [[j r']|] eqn:E; [|done]. intros [= <- <-].
  apply list_find_Some in E as (Hj & Hw & _). split; [|done].
  apply reverse_lookup_Some in Hj as [Hj _]. by replace (length l - 1 - j)%nat with (length l - S j)%nat by lia.
Qed.
Lemma set_then_log i r1 e a s n (x : bool * string) w :
  ∃ w', (set_request i r1 ;; log_approval_event e r1 a s n ;; mret x) w = (Ok x, w') ∧
    books (<[i := r1]> (sw_requests w)) w w'.
Proof.
  set (w1 := put_requests (<[i := r1]> (sw_requests w)) w).
  destruct (log_books e r1 a s n w1) as (w2 & E2 & B2). exists w2.
  rewrite (st_bind_ok (set_request i r1) _ _ () w1), (st_bind_ok _ _ _ _ _ E2) by done. by split.
Qed.

Definition needed (w : strategy_workflow) (r : request) : Z :=
  default 1 (ru_approvals <$> sw_rules w !! get_transition_type (rq_from r) (rq_to r)).
(** The request after an approval. *)
Definition after_approval (who : string) (w : strategy_workflow) (r r' : request) : Prop :=
  let r1 := if 1 <? needed w r then set_rq_count (rq_count r + 1) r else r in
  if (1 <? needed w r) && (rq_count r + 1 <? needed w r) then r' = r1 else ∃ t, r' = set_rq_approval who t r1.
Lemma approve_books name to who w :
  ∃ x w', approve_transition name to who w = (Ok x, w') ∧
    match newest_pending name to (sw_requests w) with
    | None => w' = w
    | Some (i, r) => ∃ r', after_approval who w r r' ∧ books (<[i := r']> (sw_requests w)) w w'
    end.
Proof.
  unfold approve_transition. rewrite (st_bind_ok st_get _ w w w) by done.
  destruct (newest_pending _ _ _) as [[i r]|]; [|by eexists _, _]. fold (needed w r).
  unfold after_approval. cbv zeta. destruct (1 <? needed w r); cbn [andb set_rq_count rq_count].
  - destruct (_ <? _).
    + edestruct set_then_log as (w' & E & B). eexists _, _. split; [exact E|]. by eexists.
    + destruct (utc_iso_eq w) as [t E0]. rewrite (st_bind_ok _ _ _ _ _ E0).
      edestruct set_then_log as (w' & E & B). eexists _, _. split; [exact E|]. eexists. split; [by eexists|exact B].
  - destruct (utc_iso_eq w) as [t E0]. rewrite (st_bind_ok _ _ _ _ _ E0).
    edestruct set_then_log as (w' & E & B). eexists _, _. split; [exact E|]. eexists. split; [by eexists|exact B].
Qed.
Lemma reject_books name to who reason w :
  ∃ x w', reject_transition name to who reason w = (Ok x, w') ∧
    match newest_pending name to (sw_requests w) with
    | None => w' = w
    | Some (i, r) => books (<[i := set_rq_rejection reason r]> (sw_requests w)) w w'
    end.
Proof.
  unfold reject_transition. rewrite (st_bind_ok st_get _ w w w) by done.
  destruct (newest_pending _ _ _) as [[i r]|]; [|by eexists _, _]. cbv zeta.
  edestruct set_then_log as (w' & E & B). eexists _, _. split; [exact E|exact B].
Qed.
Lemma expire_books h w :
  ∃ n now w', expire_old_requests h w = (Ok n, w') ∧ books (expire_one now h <$> sw_requests w) w w'.
Proof.
  unfold expire_old_requests. unfold utcnow. rewrite st_bind_assoc.
  rewrite (st_bind_ok _ _ _ _ _ (now_ist_total w)). by eexists _, _, _.
Qed.
Lemma expire_one_cases now h r : expire_one now h r = r ∨ (expire_one now h r = set_rq_status EXPIRED r ∧ rq_status r = PENDING).
Proof.
  unfold expire_one. case_bool_decide; simpl; [|by left]. destruct (fromisoformat _); [|by left]. case_match; auto.
Qed.
Lemma record_books r w :
  ∃ w', record_request r w = (Ok (), w') ∧
    (books (sw_requests w ++ [r]) w w' ∨ books (tail (sw_requests w ++ [r])) w w').
Proof.
  unfold record_request. set (l := if _max_requests <? Z.of_nat (length (sw_requests w ++ [r]))
    then tail (sw_requests w ++ [r]) else sw_requests w ++ [r]).
  rewrite (st_bind_ok (st_modify _) _ w () (put_requests l w)) by done.
  destruct (log_books "requested" r "" "" None (put_requests l w)) as (w' & E & B). exists w'. split; [done|].
  unfold l in B. destruct (_ <? _); [by right|by left].
Qed.
Lemma check_books name to by_whom ev w :
  ∃ c w', check_request name to by_whom ev w = (Ok c, w') ∧ books (sw_requests w) w w' ∧
    match c with
    | inl _ => True
    | inr r => rq_strategy r = name ∧ rq_to r = to ∧ rq_from r = get_current_state name w ∧ rq_status r = PENDING ∧
               rq_count r = 0 ∧ rq_evidence r = default ∅ ev ∧ to ∈ allowed_from (rq_from r) ∧
               validate_evidence (rq_evidence r)
                 (default (ApprovalRule (get_transition_type (rq_from r) to) 0 [] true 1)
                    (sw_rules w !! get_transition_type (rq_from r) to)) = None
    end.
Proof.
  unfold check_request. destruct (utc_iso_eq w) as [t E]. rewrite (st_bind_ok _ _ _ _ _ E). cbv zeta.
  set (w1 := set_clock _ w). rewrite (st_bind_ok (st_gets _) _ w1 (get_current_state name w) w1) by done.
  unfold validate_transition. destruct (str_mem _ _) eqn:Ht; [|by eexists _, _].
  rewrite (st_bind_ok st_get _ w1 w1 w1) by done. destruct (validate_evidence _ _) eqn:Hv; [by eexists _, _|].
  eexists _, _. split; [reflexivity|]. split; [done|]. cbn. repeat (split; [done|]). split; [by apply str_mem_spec|exact Hv].
Qed.

(** *** The ledger of one strategy *)

Section ledger.
Context (name : string).

Definition open_with (n : Z) (r : request) : Prop := wanted name LIVE r ∧ rq_count r = n.
#[global] Instance open_with_dec n r : Decision (open_with n r).
Proof. unfold open_with. apply _. Defined.
(** A request that says the strategy is or was live. *)
Definition claims_live (r : request) : Prop :=
  rq_strategy r = name ∧ (rq_status r = APPROVED ∧ rq_to r = LIVE ∨ rq_from r = LIVE).
Definition draft_ok (r : request) : Prop :=
  rq_status r = PENDING ∧ rq_count r = 0 ∧
  (rq_to r = LIVE → rq_from r = "PAPER_ONLY"%string ∧ evidence_ok (rq_evidence r) = true).

(** With [q] requests, [p] first approvals and [f] promotions so far: every
    promotion used a first approval, every first approval a request, and
    nothing says the strategy is live before a promotion. *)
Record ledger (q p f : Z) (s : strat_state) : Prop := Ledger {
  lg_rules : sw_rules s.2 = DEFAULT_APPROVAL_RULES;
  lg_nonneg : 0 ≤ f;
  lg_promotions : f + cnt (open_with 1) (sw_requests s.2) ≤ p;
  lg_partials : p + cnt (open_with 0) (sw_requests s.2) ≤ q;
  lg_counts : ∀ r, r ∈ sw_requests s.2 → wanted name LIVE r → rq_count r = 0 ∨ rq_count r = 1;
  lg_live : ∀ r, r ∈ sw_requests s.2 ++ s.1 → claims_live r → 1 ≤ f;
  lg_drafts : ∀ r, r ∈ s.1 → draft_ok r }.

(** A change of a request that makes it neither pending nor promoted. *)
Definition settles (r r' : request) : Prop :=
  r' = r ∨ (rq_from r' = rq_from r ∧ rq_strategy r' = rq_strategy r ∧ ¬ wanted name LIVE r' ∧
            ¬ (rq_strategy r' = name ∧ rq_status r' = APPROVED ∧ rq_to r' = LIVE)).
Lemma settles_cnt n l l' : Forall2 settles l l' → cnt (open_with n) l' ≤ cnt (open_with n) l.
Proof.
  induction 1 as [|r r' l l' Hr _ IH]; [done|]. rewrite !cnt_cons. destruct Hr as [->|(_ & _ & Hw & _)]; [lia|].
  assert (unit_of (open_with n r') = 0) as -> by (unfold unit_of; rewrite bool_decide_false; [done|by intros [??]]).
  pose proof (unit_range (open_with n r)). lia.
Qed.
Lemma settles_ledger q p f ds w w' l' :
  ledger q p f (ds, w) → books l' w w' → Forall2 settles (sw_requests w) l' → ledger q p f (ds, w').
Proof.
  intros [R N P Q C L D] [R' B] Hs. cbn [fst snd] in *.
  pose proof (settles_cnt 0 _ _ Hs). pose proof (settles_cnt 1 _ _ Hs).
  assert (∀ r', r' ∈ l' → ∃ r, r ∈ sw_requests w ∧ settles r r') as Hin.
  { intros r' [i Hi]%list_elem_of_lookup. destruct (Forall2_lookup_r _ _ _ _ _ Hs Hi) as (r & Hr & ?).
    exists r. split; [by eapply list_elem_of_lookup_2|done]. }
  split; cbn [fst snd]; rewrite ?B; [congruence|lia|lia|lia| | |done].
  - intros r' Hr' Hw. destruct (Hin r' Hr') as (r & Hr & [->|(_ & _ & Hn & _)]); [by apply C|by destruct Hn].
  - intros r' [Hr'|Hr']%elem_of_app Hc.
    + destruct (Hin r' Hr') as (r & Hr & [->|(Hf & Hs' & _ & Hn)]); [apply (L r); [apply elem_of_app; by left|done]|].
      apply (L r); [apply elem_of_app; by left|]. destruct Hc as [Hst [[Ha Ht]|Hc]]; [by destruct Hn|].
      split; [congruence|right; congruence].
    + apply (L r'); [apply elem_of_app; by right|done].
Qed.
Lemma settles_insert i r r' l : l !! i = Some r → settles r r' → Forall2 settles l (<[i := r']> l).
Proof.
  intros Hi Hr. apply Forall2_same_length_lookup_2; [by rewrite length_insert|]. intros j x y Hx Hy.
  destruct (decide (i = j)) as [<-|Hne].
  - rewrite list_lookup_insert_eq in Hy by (by eapply lookup_lt_Some). congruence.
  - rewrite list_lookup_insert_ne in Hy by done. left. congruence.
Qed.

Lemma promote_type from : get_transition_type from LIVE = "PROMOTE_TO_LIVE"%string.
Proof. unfold get_transition_type. cbn. by rewrite andb_false_r. Qed.
Lemma needed_live w r : sw_rules w = DEFAULT_APPROVAL_RULES → rq_to r = LIVE → needed w r = 2.
Proof. intros R T. unfold needed. by rewrite T, promote_type, R. Qed.
Lemma live_from_paper from : LIVE ∈ allowed_from from → from = "PAPER_ONLY"%string.
Proof.
  unfold allowed_from. destruct (valid_transitions !! from) as [l|] eqn:El; simpl; [|by intros ?%elem_of_nil].
  apply assoc_get_in in El. revert El.
  assert (Forall (λ p, LIVE ∈ p.2 → p.1 = "PAPER_ONLY"%string) (items valid_transitions)) as H
    by (apply (bool_decide_unpack _); vm_compute; exact I).
  rewrite Forall_forall in H. intros El. exact (H _ El).
Qed.
Lemma promote_evidence ev : validate_evidence ev (ApprovalRule "PROMOTE_TO_LIVE" 3
    ["backtest_sharpe"; "paper_trades"; "paper_win_rate"] true 2) = None → evidence_ok ev = true.
Proof.
  unfold validate_evidence, evidence_ok, missing_evidence. cbn [ru_min_evidence ru_required].
  destruct (dlen ev <? 3) eqn:El; [done|]. destruct (list_find _ _) eqn:Ef; [done|]. intros _.
  apply list_find_None in Ef. apply andb_true_iff. split; [bools; by apply Z.leb_le|].
  apply forallb_forall. intros k Hk. rewrite Forall_forall in Ef. apply list_elem_of_In in Hk. specialize (Ef k Hk).
  by destruct (dmem k ev).
Qed.

Lemma state_from_live last l :
  state_from name last l = LIVE → last = LIVE ∨ ∃ r, r ∈ l ∧ claims_live r.
Proof.
  revert last. induction l as [|r l IH]; intros last; cbn [state_from]; [by left|].
  destruct (String.eqb_spec (rq_strategy r) name) as [Hs|].
  - case_bool_decide as Ha; [intros Ht; right; exists r; split; [apply list_elem_of_here|split; [done|by left]]|].
    intros [Hf|(r' & Hr' & Hc)]%IH; right; [exists r|exists r']; (split; [|]).
    + apply list_elem_of_here.
    + by split; [|right].
    + by apply list_elem_of_further.
    + done.
  - intros [?|(r' & Hr' & Hc)]%IH; [by left|]. right. exists r'. split; [by apply list_elem_of_further|done].
Qed.
Lemma live_was_promoted q p f s : ledger q p f s → get_current_state name s.2 = LIVE → 1 ≤ f.
Proof.
  intros L [H|(r & Hr & Hc)]%state_from_live; [discriminate H|]. rewrite elem_of_reverse in Hr.
  eapply (lg_live _ _ _ _ L); [|done]. apply elem_of_app. by left.
Qed.

(** *** Every step keeps the ledger *)

Lemma approve_other who w r r' :
  after_approval who w r r' → ¬ (rq_strategy r = name ∧ rq_to r = LIVE) → settles r r'.
Proof.
  unfold after_approval. cbv zeta. intros H Hn. right. unfold wanted.
  assert (rq_from r' = rq_from r ∧ rq_strategy r' = rq_strategy r ∧ rq_to r' = rq_to r) as (-> & -> & ->).
  { destruct (1 <? needed w r), (_ <? _); cbn [andb] in H;
      match type of H with _ = _ => subst r' | _ => destruct H as [t ->] end; done. }
  tauto.
Qed.
Lemma approve_live who w r r' :
  sw_rules w = DEFAULT_APPROVAL_RULES → wanted name LIVE r → after_approval who w r r' →
  rq_count r = 0 ∨ rq_count r = 1 →
  rq_from r' = rq_from r ∧ rq_strategy r' = name ∧
  ((rq_count r = 0 ∧ wanted name LIVE r' ∧ rq_count r' = 1) ∨ (rq_count r = 1 ∧ rq_status r' = APPROVED)).
Proof.
  intros R (Hs & Ht & Hp) H Hc. unfold after_approval in H. cbv zeta in H. rewrite (needed_live w r R Ht) in H.
  change (1 <? 2) with true in H. cbv iota in H. cbn [andb] in H.
  destruct Hc as [Hc|Hc]; rewrite Hc in H.
  - change (0 + 1 <? 2) with true in H. cbv iota in H. subst r'. split; [done|]. split; [done|]. left. by repeat split.
  - change (1 + 1 <? 2) with false in H. cbv iota in H. destruct H as [t ->]. split; [done|]. split; [done|]. by right.
Qed.

Lemma unit_false (P : Prop) `{!Decision P} : ¬ P → unit_of P = 0.
Proof. intros H. unfold unit_of. by rewrite bool_decide_false. Qed.
Lemma unit_true (P : Prop) `{!Decision P} : P → unit_of P = 1.
Proof. intros H. unfold unit_of. by rewrite bool_decide_true. Qed.
Lemma unit_mono (P Q : Prop) `{!Decision P, !Decision Q} : (P → Q) → unit_of P ≤ unit_of Q.
Proof.
  intros H. destruct (decide P) as [HP|HP]; [rewrite !unit_true by auto; done|].
  rewrite (unit_false P) by done. apply unit_range.
Qed.
(** A step that is neither a request nor an approval for LIVE. *)
Lemma quiet_ledger e q p f s :
  ¬ live_request name e → e ≠ EPartial name LIVE → e ≠ EFull name LIVE → ledger q p f s →
  ledger (q + unit_of (live_request name e)) (p + unit_of (e = EPartial name LIVE)) (f + unit_of (e = EFull name LIVE)) s.
Proof. intros H1 H2 H3 H. by rewrite !unit_false, !Z.add_0_r. Qed.
Lemma on_workflow_eq {A} (m : AM A) s r w' : m s.2 = (r, w') → on_workflow m s = (r, (s.1, w')).
Proof. intros H. unfold on_workflow, st_zoom. by rewrite H. Qed.

Lemma settles_refl l : Forall2 settles l l.
Proof. induction l; constructor; [by left|done]. Qed.

Lemma check_ledger nm to who ev q p f s :
  ledger q p f s → ∃ s', run_strat_op (SCheck nm to who ev) s = (Ok ENothing, s') ∧ ledger q p f s'.
Proof.
  intros L. cbn [run_strat_op]. destruct s as [ds w]. destruct (check_books nm to who ev w) as (c & w' & E & B & Hc).
  rewrite (st_bind_ok _ _ _ _ _ (on_workflow_eq _ (ds, w) _ _ E)). cbn [fst].
  pose proof (settles_ledger q p f ds w w' _ L B) as L'. specialize (L' (settles_refl _)).
  destruct c as [msg|r]; [by eexists|]. eexists. split; [reflexivity|]. cbn [fst snd].
  destruct Hc as (Hs & Ht & Hf & Hp & Hn & He & Ha & Hv). pose proof L' as [R N P Q C Lv D]. cbn [fst snd] in *.
  split; cbn [fst snd]; [done..| |].
  - rewrite app_assoc. intros x [Hx| ->%list_elem_of_singleton]%elem_of_app Hx'; [by apply (Lv x)|].
    destruct Hx' as [Hn' [[Ha' _]|Hl]]; [congruence|]. rewrite Hs in Hn'. subst nm.
    apply (live_was_promoted _ _ _ _ L). cbn [snd]. congruence.
  - intros x [Hx| ->%list_elem_of_singleton]%elem_of_app; [by apply D|]. split; [done|]. split; [done|].
    intros Ht'. rewrite Ht' in Ht. subst to. pose proof (live_from_paper _ Ha) as Hpaper. split; [done|].
    pose proof (lg_rules _ _ _ _ L) as RL. cbn [snd] in RL. apply promote_evidence. rewrite promote_type, RL in Hv. exact Hv.
Qed.
Lemma record_ledger n q p f s :
  ledger q p f s →
  ∃ e s', run_strat_op (SRecord n) s = (Ok e, s') ∧ e ≠ EPartial name LIVE ∧ e ≠ EFull name LIVE ∧
    ledger (q + unit_of (live_request name e)) p f s'.
Proof.
  intros L. cbn [run_strat_op]. rewrite (st_bind_ok st_get _ s s s) by done. destruct s as [ds w]. cbn [fst snd].
  destruct (ds !! n) as [r|] eqn:Hr.
  2: { eexists _, _. repeat (split; [done|]). rewrite unit_false, Z.add_0_r by (by intros []). done. }
  destruct (record_books r w) as (w' & E & B). rewrite (st_bind_ok _ _ _ _ _ (on_workflow_eq _ (ds, w) _ _ E)).
  eexists _, _. split; [reflexivity|]. repeat (split; [done|]). cbn [fst snd].
  destruct L as [R N P Q C Lv D]. cbn [fst snd] in *. pose proof (list_elem_of_lookup_2 _ _ _ Hr) as Hin.
  destruct (D r Hin) as (Dp & Dc & Dl).
  assert (cnt (open_with 1) (sw_requests w ++ [r]) = cnt (open_with 1) (sw_requests w)) as E1.
  { rewrite cnt_snoc, unit_false; [lia|]. intros [_ ?]. congruence. }
  assert (cnt (open_with 0) (sw_requests w ++ [r]) ≤
          cnt (open_with 0) (sw_requests w) + unit_of (live_request name (ERequested r))) as E0.
  { rewrite cnt_snoc. apply Z.add_le_mono_l, unit_mono. intros [(? & Ht & ?) _]. simpl. by destruct (Dl Ht). }
  pose proof (cnt_tail (open_with 0) (sw_requests w ++ [r])). pose proof (cnt_tail (open_with 1) (sw_requests w ++ [r])).
  assert (sw_requests w' ⊆ sw_requests w ++ [r] ∧ sw_rules w' = sw_rules w ∧
    cnt (open_with 0) (sw_requests w') ≤ cnt (open_with 0) (sw_requests w ++ [r]) ∧
    cnt (open_with 1) (sw_requests w') ≤ cnt (open_with 1) (sw_requests w ++ [r])) as (Hsub & R' & Hc0 & Hc1).
  { destruct B as [[-> ->]|[-> ->]]; [done|]. split; [|done]. destruct (sw_requests w ++ [r]); [done|]. apply list_subseteq_cons; done. }
  split; cbn [fst snd]; [congruence|lia|lia|lia| | |].
  - intros x [Hx| ->%list_elem_of_singleton]%Hsub%elem_of_app Hw; [by apply C|by left].
  - intros x [[Hx| ->%list_elem_of_singleton]%Hsub%elem_of_app|Hx]%elem_of_app Hc.
    + apply (Lv x); [apply elem_of_app; by left|done].
    + apply (Lv r); [apply elem_of_app; by right|done].
    + apply (Lv x); [apply elem_of_app; right|done]. eapply sublist_subseteq; [apply sublist_delete|done].
  - intros x Hx. apply D. eapply sublist_subseteq; [apply sublist_delete|done].
Qed.
Lemma approve_ledger nm to who q p f s :
  ledger q p f s →
  ∃ e s', run_strat_op (SApprove nm to who) s = (Ok e, s') ∧ ¬ live_request name e ∧
    ledger q (p + unit_of (e = EPartial name LIVE)) (f + unit_of (e = EFull name LIVE)) s'.
Proof.
  intros L. cbn [run_strat_op]. rewrite (st_bind_ok st_get _ s s s) by done. destruct s as [ds w].
  destruct (approve_books nm to who w) as (ans & w' & E & B).
  rewrite (st_bind_ok _ _ _ _ _ (on_workflow_eq _ (ds, w) _ _ E)). eexists _, _. split; [reflexivity|]. cbn [fst snd].
  unfold approval_event. destruct (newest_pending nm to (sw_requests w)) as [[i r]|] eqn:Hnp.
  2: { subst w'. split; [by intros []|]. rewrite !unit_false, !Z.add_0_r by done. done. }
  apply newest_pending_spec in Hnp as [Hi Hw]. destruct B as (r' & Hr' & B). fold (needed w r).
  split; [destruct (_ && _); by intros []|]. destruct (decide (nm = name ∧ to = LIVE)) as [[-> ->]|Hne].
  - pose proof L as [R N P Q C Lv D]. cbn [fst snd] in *. pose proof (list_elem_of_lookup_2 _ _ _ Hi) as Hin.
    destruct (approve_live who w r r' R Hw Hr' (C r Hin Hw)) as (Hf & Hs & Hcase).
    rewrite (needed_live w r R) by apply Hw. destruct B as [R' B].
    pose proof (cnt_insert (open_with 0) i _ _ r' Hi) as C0. pose proof (cnt_insert (open_with 1) i _ _ r' Hi) as C1.
    assert (∀ n m, rq_count r = n → n ≠ m → unit_of (open_with n r) = 1 ∧ unit_of (open_with m r) = 0) as Hu.
    { intros n m Hn Hm. split; [by apply unit_true|]. apply unit_false. intros [_ ?]. congruence. }
    assert (∀ x, x ∈ sw_requests w' → x = r' ∨ x ∈ sw_requests w) as Hsub.
    { rewrite B. intros x [j Hj]%list_elem_of_lookup. destruct (decide (i = j)) as [<-|Hij].
      - rewrite list_lookup_insert_eq in Hj by (by eapply lookup_lt_Some). left. congruence.
      - rewrite list_lookup_insert_ne in Hj by done. right. by eapply list_elem_of_lookup_2. }
    destruct Hcase as [(Hc & Hw' & Hc')|(Hc & Ha)]; rewrite Hc.
    + change ((1 <? 2) && (0 + 1 <? 2)) with true. cbv iota. destruct (Hu 0 1 Hc ltac:(done)) as [U0 U1].
      rewrite (unit_true (EPartial _ _ = EPartial _ _)), (unit_false (EPartial _ _ = EFull _ _)), Z.add_0_r by done.
      assert (unit_of (open_with 0 r') = 0 ∧ unit_of (open_with 1 r') = 1) as [V0 V1].
      { split; [apply unit_false; intros [_ ?]; congruence|by apply unit_true]. }
      split; cbn [fst snd]; rewrite ?B; [congruence|lia|lia|lia| | |done].
      * rewrite <- B. intros x [->|Hx]%Hsub Hwx; [by right|by apply C].
      * rewrite <- B. intros x [[->|Hx]%Hsub|Hx]%elem_of_app Hcx; [|apply (Lv x); [apply elem_of_app; by left|done]|apply (Lv x); [apply elem_of_app; by right|done]].
        apply (Lv r); [apply elem_of_app; by left|]. destruct Hcx as [_ [[Hbad _]|Hl]]; [destruct Hw' as (_ & _ & ?); congruence|].
        split; [apply Hw|right; congruence].
    + change ((1 <? 2) && (1 + 1 <? 2)) with false. cbv iota. destruct (Hu 1 0 Hc ltac:(done)) as [U1 U0].
      rewrite (unit_true (EFull _ _ = EFull _ _)), (unit_false (EFull _ _ = EPartial _ _)), Z.add_0_r by done.
      assert (∀ n, unit_of (open_with n r') = 0) as V.
      { intros n. apply unit_false. intros [(_ & _ & ?) _]. congruence. }
      pose proof (V 0). pose proof (V 1).
      split; cbn [fst snd]; rewrite ?B; [congruence|lia|lia|lia| | |done].
      * rewrite <- B. intros x [->|Hx]%Hsub Hwx; [destruct Hwx as (_ & _ & ?); congruence|by apply C].
      * intros x _ _. lia.
  - assert (∀ b : bool, (if b then EPartial nm to else EFull nm to) ≠ EPartial name LIVE ∧
      (if b then EPartial nm to else EFull nm to) ≠ EFull name LIVE) as Hev.
    { intros []; split; intros [=]; tauto. }
    destruct (Hev ((1 <? needed w r) && (rq_count r + 1 <? needed w r))) as [H1 H2].
    rewrite (unit_false (_ = EPartial _ _)), (unit_false (_ = EFull _ _)), !Z.add_0_r by done.
    eapply settles_ledger; [exact L|exact B|]. apply settles_insert with r; [done|].
    eapply approve_other; [exact Hr'|]. destruct Hw as (<- & <- & _). tauto.
Qed.

Lemma reject_ledger nm to who reason q p f s :
  ledger q p f s → ∃ s', run_strat_op (SReject nm to who reason) s = (Ok ENothing, s') ∧ ledger q p f s'.
Proof.
  intros L. cbn [run_strat_op]. destruct s as [ds w]. destruct (reject_books nm to who reason w) as (ans & w' & E & B).
  rewrite (st_bind_ok _ _ _ _ _ (on_workflow_eq _ (ds, w) _ _ E)). eexists. split; [reflexivity|]. cbn [fst].
  destruct (newest_pending nm to (sw_requests w)) as [[i r]|] eqn:Hnp; [|by subst w'].
  apply newest_pending_spec in Hnp as [Hi _]. eapply settles_ledger; [exact L|exact B|].
  apply settles_insert with r; [done|]. right. unfold wanted. cbn. repeat (split; [done|]). split; [by intros (_ & _ & ?)|by intros (_ & ? & _)].
Qed.
Lemma expire_ledger h q p f s :
  ledger q p f s → ∃ s', run_strat_op (SExpire h) s = (Ok ENothing, s') ∧ ledger q p f s'.
Proof.
  intros L. cbn [run_strat_op]. destruct s as [ds w]. destruct (expire_books h w) as (n & now & w' & E & B).
  rewrite (st_bind_ok _ _ _ _ _ (on_workflow_eq _ (ds, w) _ _ E)). eexists. split; [reflexivity|]. cbn [fst].
  eapply settles_ledger; [exact L|exact B|]. clear. induction (sw_requests w) as [|r l IH]; constructor; [|exact IH].
  destruct (expire_one_cases now h r) as [->|[-> _]]; [by left|]. right. unfold wanted. cbn.
  repeat (split; [done|]). split; [by intros (_ & _ & ?)|by intros (_ & ? & _)].
Qed.

Lemma ledger_step o q p f s :
  ledger q p f s →
  ∃ e s', run_strat_op o s = (Ok e, s') ∧
    ledger (q + unit_of (live_request name e)) (p + unit_of (e = EPartial name LIVE)) (f + unit_of (e = EFull name LIVE)) s'.
Proof.
  intros L. destruct o as [nm to who ev|n|nm to who|nm to who reason|h].
  - destruct (check_ledger nm to who ev _ _ _ _ L) as (s' & E & L'). eexists _, _. split; [exact E|]. by apply quiet_ledger; [intros []| | |].
  - destruct (record_ledger n _ _ _ _ L) as (e & s' & E & H1 & H2 & L'). eexists _, _. split; [exact E|].
    by rewrite (unit_false (e = EPartial _ _)), (unit_false (e = EFull _ _)), !Z.add_0_r.
  - destruct (approve_ledger nm to who _ _ _ _ L) as (e & s' & E & H1 & L'). eexists _, _. split; [exact E|].
    by rewrite (unit_false (live_request _ _)), Z.add_0_r.
  - destruct (reject_ledger nm to who reason _ _ _ _ L) as (s' & E & L'). eexists _, _. split; [exact E|]. by apply quiet_ledger; [intros []| | |].
  - destruct (expire_ledger h _ _ _ _ L) as (s' & E & L'). eexists _, _. split; [exact E|]. by apply quiet_ledger; [intros []| | |].
Qed.
Lemma run_ledger os q p f s :
  ledger q p f s →
  let '(es, s') := run_strat os s in ledger (q + requests_of name es) (p + partials_of name es) (f + promotions_of name es) s'.
Proof.
  revert q p f s. induction os as [|o os IH]; intros q p f s L; cbn [run_strat].
  { unfold requests_of, partials_of, promotions_of, cnt. simpl. by rewrite !Z.add_0_r. }
  destruct (ledger_step o _ _ _ _ L) as (e & s1 & -> & L1). specialize (IH _ _ _ _ L1).
  destruct (run_strat os s1) as [es s2]. unfold requests_of, partials_of, promotions_of in *. by rewrite !cnt_cons, !Z.add_assoc.
Qed.
Lemma empty_ledger c : ledger 0 0 0 ([], new_workflow None c).
Proof. split; cbn; try done; intros r Hr; by apply elem_of_nil in Hr. Qed.
End ledger.

(** A strategy goes live by the rules only.  Over any history of checks,
    recordings, approvals, rejections and expiries by any number of threads,
    under the default rules, the promotions of a strategy to LIVE_APPROVED
    are at most as many as its partial approvals for it, and these at most as
    many as its requests out of PAPER_ONLY with all the evidence a promotion
    needs; and a strategy whose current state is LIVE_APPROVED was promoted
    at least once. *)
Theorem live_needs_two_approvals (os : list strat_op) (name : string) (c : clock) :
  let '(es, s) := run_strat os ([], new_workflow None c) in
  promotions_of name es ≤ partials_of name es ≤ requests_of name es ∧
  (get_current_state name s.2 = LIVE → 1 ≤ promotions_of name es).
Proof.
  pose proof (run_ledger name os _ _ _ _ (empty_ledger name c)) as L. destruct (run_strat os _) as [es s].
  rewrite !Z.add_0_l in L. pose proof (cnt_nonneg (open_with name 0) (sw_requests s.2)).
  pose proof (cnt_nonneg (open_with name 1) (sw_requests s.2)).
  split; [destruct L; lia|]. intros Hl. by eapply live_was_promoted.
Qed.

(** ** Where the rules do not reach *)

(** Blocking and deprecating a strategy take no evidence: the rules that ask
    for a reason are under names no transition has. *)
Lemma block_needs_no_evidence name to who w :
  sw_rules w = DEFAULT_APPROVAL_RULES → to = "DONT_RUN"%string ∨ to = "DEPRECATED"%string →
  to ∈ allowed_from (get_current_state name w) →
  ∃ msg id w', request_transition name to who None w = (Ok (true, msg, Some id), w').
Proof.
  intros R Ht Ha. unfold request_transition.
  destruct (check_books name to who None w) as (c & w1 & E & _ & Hc). rewrite (st_bind_ok _ _ _ _ _ E).
  destruct c as [msg|r].
  - exfalso. unfold check_request in E. destruct (utc_iso_eq w) as [t E0]. rewrite (st_bind_ok _ _ _ _ _ E0) in E.
    cbv zeta in E. set (w2 := set_clock _ w) in E.
    rewrite (st_bind_ok (st_gets _) _ w2 (get_current_state name w) w2) in E by done.
    unfold validate_transition in E. rewrite (proj2 (str_mem_spec _ _) Ha) in E.
    rewrite (st_bind_ok st_get _ w2 w2 w2) in E by done. change (sw_rules w2) with (sw_rules w) in E. rewrite R in E.
    unfold get_transition_type in E. destruct Ht as [->| ->]; discriminate E.
  - destruct (record_books r w1) as (w2 & E2 & _). rewrite (st_bind_ok _ _ _ _ _ E2). by eexists _, _, _.
Qed.

(** *** Concrete histories *)

Definition demo_start : strat_state := ([], new_workflow None (Clock 0 [])).
Definition paper_evidence : pyrec := PyDict [("config_validated", VBool true)]%string.
Definition live_evidence : pyrec := PyDict
  [("backtest_sharpe", VInt 2); ("paper_trades", VInt 150); ("paper_win_rate", VInt 60)]%string.
(** A request checked and recorded at once. *)
Definition ask_for (to : string) (ev : option pyrec) : list strat_op := [SCheck "ma" to "quant" ev; SRecord 0].
Definition to_paper : list strat_op := ask_for "PAPER_ONLY" (Some paper_evidence) ++ [SApprove "ma" "PAPER_ONLY" "risk"].
Definition state_after (os : list strat_op) : string := get_current_state "ma" (run_strat os demo_start).2.2.

(** Without the evidence the request is refused; with it two approvals are
    needed, and one person can give both. *)
Example promotion_needs_evidence : state_after (to_paper ++ ask_for LIVE None ++
  [SApprove "ma" LIVE "risk"; SApprove "ma" LIVE "risk"]) = "PAPER_ONLY"%string.
Proof. vm_compute. reflexivity. Qed.
Example one_person_promotes : state_after (to_paper ++ ask_for LIVE (Some live_evidence) ++
  [SApprove "ma" LIVE "quant"; SApprove "ma" LIVE "quant"]) = LIVE.
Proof. vm_compute. reflexivity. Qed.
Example one_approval_is_partial : state_after (to_paper ++ ask_for LIVE (Some live_evidence) ++
  [SApprove "ma" LIVE "risk"]) = "PAPER_ONLY"%string.
Proof. vm_compute. reflexivity. Qed.
(** A strategy is blocked and then promoted: the promotion was requested
    before, and nobody asks again whether it is still allowed. *)
Example blocked_strategy_promoted :
  let os := to_paper ++ ask_for "DONT_RUN" None ++ ask_for LIVE (Some live_evidence) ++ [SApprove "ma" "DONT_RUN" "ops"] in
  (state_after os, state_after (os ++ [SApprove "ma" LIVE "a"; SApprove "ma" LIVE "b"])) = ("DONT_RUN"%string, LIVE).
Proof. vm_compute. reflexivity. Qed.
(** The newest request decides, not the newest approval: a strategy blocked
    by an older request stays live. *)
Example older_block_ignored : state_after (to_paper ++ ask_for "DONT_RUN" None ++ ask_for LIVE (Some live_evidence) ++
  [SApprove "ma" LIVE "a"; SApprove "ma" LIVE "b"; SApprove "ma" "DONT_RUN" "ops"]) = LIVE.
Proof. vm_compute. reflexivity. Qed.
(** A thousand requests for another strategy push the approval out of the
    list: the strategy is back at the start. *)
Example state_forgotten : state_after (to_paper ++
  concat (replicate 1000 [SCheck "other" "DEPRECATED" "x" None; SRecord 0])) = "INITIALIZED"%string.
Proof. vm_compute. reflexivity. Qed.
