(* ===== verification/ManualSignal.v ===== *)
(** * The queue of manual signals

    [core/manual_signal.py]: [ManualSignalQueue] keeps signals submitted by
    people, or held back by the workflow, in a SQLite table and moves them
    through review, expiry and execution.  The texts of times sort as the
    times do, so a time is its instant. *)
From S2P Require Import Prelude PyStr Float64 PyDict PyVal CapitalManager.

(** ** Data *)

Inductive sig_status := S_PENDING | S_APPROVED | S_REJECTED | S_EXECUTED | S_EXPIRED | S_CANCELLED.
#[global] Instance sig_status_eq_dec : EqDecision sig_status.
Proof. solve_decision. Defined.

(** [ManualSignal] *)
Record msignal := ManualSignal {
  ms_id : string; ms_source : string; ms_analyst : string; ms_index : string; ms_direction : string; ms_score : Z;
  ms_reason : string; ms_submitted : Z; ms_expiry : option string; ms_lots : option Z; ms_sl : option float64;
  ms_target : option float64; ms_status : sig_status; ms_reviewed_by : option string; ms_reviewed_at : option Z;
  ms_reject_reason : option string; ms_trade : option string; ms_auto_secs : Z }.
Definition is_pending (s : msignal) : bool := bool_decide (ms_status s = S_PENDING).
Definition is_actionable (s : msignal) : bool := bool_decide (ms_status s = S_PENDING ∨ ms_status s = S_APPROVED).

(** The columns the updates write. *)
Definition reviewed (st : sig_status) (who : option string) (at_ : Z) (why : option string) (s : msignal) : msignal :=
  ManualSignal (ms_id s) (ms_source s) (ms_analyst s) (ms_index s) (ms_direction s) (ms_score s) (ms_reason s)
    (ms_submitted s) (ms_expiry s) (ms_lots s) (ms_sl s) (ms_target s) st
    (match who with Some _ => who | None => ms_reviewed_by s end) (Some at_)
    (match why with Some _ => why | None => ms_reject_reason s end) (ms_trade s) (ms_auto_secs s).
Definition overridden (lots : option Z) (sl : option float64) (s : msignal) : msignal :=
  ManualSignal (ms_id s) (ms_source s) (ms_analyst s) (ms_index s) (ms_direction s) (ms_score s) (ms_reason s)
    (ms_submitted s) (ms_expiry s) (match lots with Some _ => lots | None => ms_lots s end)
    (match sl with Some _ => sl | None => ms_sl s end) (ms_target s) (ms_status s) (ms_reviewed_by s) (ms_reviewed_at s)
    (ms_reject_reason s) (ms_trade s) (ms_auto_secs s).
Definition set_sig_status (st : sig_status) (trade : option string) (s : msignal) : msignal :=
  ManualSignal (ms_id s) (ms_source s) (ms_analyst s) (ms_index s) (ms_direction s) (ms_score s) (ms_reason s)
    (ms_submitted s) (ms_expiry s) (ms_lots s) (ms_sl s) (ms_target s) st (ms_reviewed_by s) (ms_reviewed_at s)
    (ms_reject_reason s) (match trade with Some _ => trade | None => ms_trade s end) (ms_auto_secs s).

(** The queue with the module's id counter. *)
Record msqueue := MSQueue {
  mq_timeout_mins : Z; mq_auto_secs : Z; mq_analyst : string; mq_db : dbase msignal; mq_counter : Z; mq_clk : clock }.
Definition put_mdb (d : dbase msignal) (q : msqueue) : msqueue :=
  MSQueue (mq_timeout_mins q) (mq_auto_secs q) (mq_analyst q) d (mq_counter q) (mq_clk q).
Definition put_mcounter (n : Z) (q : msqueue) : msqueue :=
  MSQueue (mq_timeout_mins q) (mq_auto_secs q) (mq_analyst q) (mq_db q) n (mq_clk q).
#[global] Instance msqueue_clock : HasClock msqueue :=
  {| clock_of := mq_clk;
     set_clock := λ c q, MSQueue (mq_timeout_mins q) (mq_auto_secs q) (mq_analyst q) (mq_db q) (mq_counter q) c |}.

Definition QM (A : Type) : Type := ST msqueue A.
(** One statement with its commit. *)
Definition sql {A} (f : pydict msignal → A * pydict msignal) : QM A := st_zoom mq_db put_mdb (db_run f).

(** [__init__], from the caller's configuration *)
Definition queue_config (cfg : pyrec) : res (Z * Z * string) :=
  rbind (py_int (rget "manual_signal_timeout_mins" (VInt 30) cfg)) (λ t,
  rbind (py_int (rget "manual_signal_auto_approve_secs" (VInt 0) cfg)) (λ a,
  Ok (t, a, py_str (rget "manual_signal_default_analyst" (VStr "Operator") cfg)))).
Definition new_queue (c : Z * Z * string) (d : dbase msignal) (counter : Z) (k : clock) : msqueue :=
  MSQueue c.1.1 c.1.2 c.2 d counter k.
(** [build_signal_queue]: opening the database may fail. *)
Definition build_errors : list exn_class := [SqliteError; OSError; ImportError].
Definition build_signal_queue (cfg : pyrec) (opened : res (dbase msignal)) (counter : Z) (k : clock) :
    res (option msqueue) :=
  if negb (truthy (rget "manual_signal_enabled" (VBool true) cfg)) then Ok None
  else
    match rbind (queue_config cfg) (λ c, rbind opened (λ d, Ok (new_queue c d counter k))) with
    | Ok q => Ok (Some q)
    | Raise e => if catches build_errors e then Ok None else Raise e
    end.

(** ** Writing *)

(** [_make_signal_id] *)
Definition make_signal_id : QM string :=
  st_modify (λ q, put_mcounter (mq_counter q + 1) q) ;;
  q ← st_get;
  t ← time_time;
  ts ← st_lift (int_of_float t);
  mret (cat ["MSQ_"; str_of_Z ts; "_"; pad_left 4 (str_of_Z (mq_counter q))]).

(** What a caller submits. *)
Record submission := Submission {
  sb_index : string; sb_direction : string; sb_score : Z; sb_reason : string; sb_source : string;
  sb_analyst : option string; sb_expiry : option string; sb_lots : option Z; sb_sl : option float64;
  sb_target : option float64; sb_auto_secs : option Z }.
Definition submitted_signal (id : string) (t : Z) (s : submission) (q : msqueue) : msignal :=
  ManualSignal id (str_upper (sb_source s)) (str_or (sb_analyst s) (mq_analyst q)) (str_upper (sb_index s))
    (str_upper (sb_direction s)) (Z.max 0 (Z.min 100 (sb_score s))) (sb_reason s) t (sb_expiry s) (sb_lots s)
    (sb_sl s) (sb_target s) S_PENDING None None None None (default (mq_auto_secs q) (sb_auto_secs s)).
(** [INSERT OR IGNORE] *)
Definition insert_or_ignore (s : msignal) (t : pydict msignal) : pydict msignal :=
  if dmem (ms_id s) t then t else <[ms_id s := s]> t.
(** [submit] *)
Definition submit (s : submission) : QM msignal :=
  id ← make_signal_id;
  t ← now_ist;
  q ← st_get;
  let sig := submitted_signal id t s q in
  sql (λ tbl, ((), insert_or_ignore sig tbl)) ;;
  mret sig.

(** [_get], [_update] *)
Definition get_by_id (id : string) : QM (option msignal) := sql (λ t, (t !! id, t)).
Definition update_row (id : string) (f : msignal → msignal) : QM unit := sql (λ t, ((), tbl_update id f t)).

(** [approve] *)
Definition approve (id reviewer : string) (lots : option Z) (sl : option float64) : QM bool :=
  now ← now_ist;
  sig ← get_by_id id;
  match sig with
  | Some s =>
      if is_pending s then
        update_row id (λ r, overridden lots sl (reviewed S_APPROVED (Some reviewer) now None r)) ;; mret true
      else mret false
  | None => mret false
  end.
(** [reject] *)
Definition reject (id reviewer reason : string) : QM bool :=
  now ← now_ist;
  sig ← get_by_id id;
  match sig with
  | Some s =>
      if is_pending s then update_row id (reviewed S_REJECTED (Some reviewer) now (Some reason)) ;; mret true
      else mret false
  | None => mret false
  end.
(** [mark_executed]: whatever the status. *)
Definition mark_executed (id trade : string) : QM unit := update_row id (set_sig_status S_EXECUTED (Some trade)).
(** [cancel] *)
Definition cancel_final : list sig_status := [S_EXECUTED; S_EXPIRED; S_CANCELLED].
Definition cancel (id reason : string) : QM bool :=
  sig ← get_by_id id;
  match sig with
  | Some s =>
      if bool_decide (ms_status s ∈ cancel_final) then mret false
      else
        now ← now_ist;
        update_row id (reviewed S_CANCELLED None now (Some (if truthy_str reason then reason else "Cancelled"%string))) ;;
        mret true
  | None => mret false
  end.
(** [expire_old] *)
Definition usec_per_min : Z := 60 * usec_per_sec.
Definition too_old (cutoff : Z) (s : msignal) : bool := is_pending s && (ms_submitted s <? cutoff).
Definition expire_rows (cutoff : Z) (t : pydict msignal) : Z * pydict msignal :=
  (Z.of_nat (length (filter (λ s, too_old cutoff s = true) (dvalues t))),
   PyDict ((λ p, (p.1, if too_old cutoff p.2 then set_sig_status S_EXPIRED None p.2 else p.2)) <$> items t)).
Definition expire_old : QM Z :=
  now ← now_ist;
  q ← st_get;
  sql (expire_rows (now - mq_timeout_mins q * usec_per_min)).
(** [maybe_auto_approve]: the rows are those read before the updates. *)
Definition auto_due (cutoff : Z) (s : msignal) : bool :=
  is_pending s && (0 <? ms_auto_secs s) && (ms_submitted s <? cutoff).
Fixpoint auto_approve_each (l : list msignal) : QM unit :=
  match l with
  | [] => mret ()
  | s :: l' =>
      now ← now_ist;
      update_row (ms_id s) (reviewed S_APPROVED (Some "AUTO"%string) now None) ;;
      auto_approve_each l'
  end.
Definition maybe_auto_approve : QM (list msignal) :=
  q ← st_get;
  if mq_auto_secs q <=? 0 then mret []
  else
    now ← now_ist;
    let cutoff := now - mq_auto_secs q * usec_per_sec in
    rows ← sql (λ t, (filter (λ s, auto_due cutoff s = true) (dvalues t), t));
    auto_approve_each rows ;;
    mret rows.

(** ** Reading *)

Definition with_status (st : sig_status) (t : pydict msignal) : list msignal :=
  order_by ms_submitted (filter (λ s, ms_status s = st) (dvalues t)).
Definition get_pending : QM (list msignal) := sql (λ t, (with_status S_PENDING t, t)).
Definition get_approved : QM (list msignal) := sql (λ t, (with_status S_APPROVED t, t)).
(** [LIMIT n]: a negative limit is none. *)
Definition limited {A} (n : Z) (l : list A) : list A := if n <? 0 then l else take (Z.to_nat n) l.
Definition get_recent (limit : Z) : QM (list msignal) :=
  sql (λ t, (limited limit (order_by (λ s, - ms_submitted s) (dvalues t)), t)).
Definition load_pending : QM Z := l ← get_pending; mret (Z.of_nat (length l)).

(** ** The life of a signal *)

(** How a status may change, when [may] says which statuses were asked for.
    [mark_executed] takes any status. *)
Inductive edge (may : sig_status → bool) : sig_status → sig_status → Prop :=
| edge_approve : may S_APPROVED = true → edge may S_PENDING S_APPROVED
| edge_reject : may S_REJECTED = true → edge may S_PENDING S_REJECTED
| edge_expire : may S_EXPIRED = true → edge may S_PENDING S_EXPIRED
| edge_cancel st : may S_CANCELLED = true → st = S_PENDING ∨ st = S_APPROVED ∨ st = S_REJECTED → edge may st S_CANCELLED
| edge_execute st : may S_EXECUTED = true → edge may st S_EXECUTED.

Lemma pending_initial may st : rtc (edge may) st S_PENDING → st = S_PENDING.
Proof.
  intros H. remember S_PENDING as a eqn:E. revert E. induction H as [a|a b c Hab _ IH]; intros ->; [done|].
  specialize (IH eq_refl). subst. by inversion Hab.
Qed.
Lemma approved_before may st : rtc (edge may) st S_APPROVED → st = S_PENDING ∨ st = S_APPROVED.
Proof.
  intros H. remember S_APPROVED as a eqn:E. revert E. induction H as [a|a b c Hab _ IH]; intros ->; [by right|].
  destruct (IH eq_refl) as [-> | ->]; inversion Hab; auto.
Qed.
Lemma executed_stays may st : rtc (edge may) S_EXECUTED st → st = S_EXECUTED.
Proof.
  intros H. remember S_EXECUTED as a eqn:E. revert E. induction H as [a|a b c Hab _ IH]; intros ->; [done|].
  assert (b = S_EXECUTED) as -> by (inversion Hab as [| | |? ? [|[|]]|]; by subst). by apply IH.
Qed.
Lemma executed_asked may st : may S_EXECUTED = false → rtc (edge may) st S_EXECUTED → st = S_EXECUTED.
Proof.
  intros Hm H. remember S_EXECUTED as a eqn:E in H |- *. revert E. induction H as [a|a b c Hab _ IH]; intros ->; [done|].
  specialize (IH eq_refl). subst. inversion Hab. congruence.
Qed.

(** What a signal says: no operation changes it. *)
Definition content (s : msignal) :=
  (ms_id s, ms_source s, ms_analyst s, ms_index s, ms_direction s, ms_score s, ms_reason s, ms_submitted s,
   ms_expiry s, ms_target s, ms_auto_secs s).
(** What it trades with: a review of a pending signal may set it. *)
Definition sizing (s : msignal) := (ms_lots s, ms_sl s).
Definition moves (may : sig_status → bool) (s s' : msignal) : Prop :=
  content s' = content s ∧ rtc (edge may) (ms_status s) (ms_status s') ∧ (ms_status s ≠ S_PENDING → sizing s' = sizing s).
#[export] Instance moves_preorder may : PreOrder (moves may).
Proof.
  split; [by intros s; split_and!|]. intros s1 s2 s3 (C1 & E1 & Z1) (C2 & E2 & Z2).
  split_and!; [congruence|by etransitivity|]. intros Hp. rewrite Z2; [by apply Z1|].
  intros H2. rewrite H2 in E1. by apply Hp, (pending_initial may).
Qed.

Definition signals_ok (t : pydict msignal) : Prop :=
  dict_wf t ∧ ∀ id s, t !! id = Some s → ms_id s = id ∧ 0 ≤ ms_score s ≤ 100.
Section moving.
(** Which statuses were asked for, for each signal. *)
Context (ex : string → sig_status → bool).

(** From a well-formed table the signals move on and none is lost. *)
Definition evolves (t t' : pydict msignal) : Prop :=
  signals_ok t → signals_ok t' ∧ ∀ id s, t !! id = Some s → ∃ s', t' !! id = Some s' ∧ moves (ex id) s s'.
#[export] Instance evolves_preorder : PreOrder evolves.
Proof.
  split; [intros t Ht; split; [done|]; intros id s Hs; by exists s|].
  intros t1 t2 t3 E1 E2 H1. destruct (E1 H1) as [H2 M1], (E2 H2) as [H3 M2]. split; [done|].
  intros id s1 Hs1. destruct (M1 id s1 Hs1) as (s2 & Hs2 & ?), (M2 id s2 Hs2) as (s3 & Hs3 & ?).
  exists s3. split; [done|by etransitivity].
Qed.

Lemma update_evolves id f t : (∀ s, t !! id = Some s → moves (ex id) s (f s)) → evolves t (tbl_update id f t).
Proof.
  intros Hf [Hw Hk]. split; [split; [by apply tbl_update_wf|]|].
  - intros j s. destruct (decide (id = j)) as [->|Hne]; [rewrite tbl_lookup_update_eq|rewrite tbl_lookup_update_ne by done; auto].
    destruct (t !! j) as [s0|] eqn:E; [|done]. intros [= <-]. destruct (Hf s0 eq_refl) as [[= C1 C2 C3 C4 C5 C6] _].
    rewrite C1, C6. auto.
  - intros j s Hs. destruct (decide (id = j)) as [->|Hne]; [rewrite tbl_lookup_update_eq, Hs|rewrite tbl_lookup_update_ne by done].
    + exists (f s). split; [done|auto].
    + by exists s.
Qed.
Lemma insert_evolves s t : 0 ≤ ms_score s ≤ 100 → evolves t (insert_or_ignore s t).
Proof.
  intros Hs. unfold insert_or_ignore. destruct (dmem (ms_id s) t) eqn:Hm; [reflexivity|]. apply dmem_false in Hm.
  intros [Hw Hk]. split; [split; [by apply dict_insert_wf|]|].
  - intros j s'. destruct (decide (ms_id s = j)) as [<-|Hne]; [rewrite dict_lookup_insert_eq; by intros [= <-]|].
    rewrite dict_lookup_insert_ne by done. auto.
  - intros j s' Hj. exists s'. split; [|done]. rewrite dict_lookup_insert_ne; [done|]. by intros <-; rewrite Hm in Hj.
Qed.
Definition expire_row (cutoff : Z) (s : msignal) : msignal :=
  if too_old cutoff s then set_sig_status S_EXPIRED None s else s.
Lemma expire_row_moves cutoff id s : ex id S_EXPIRED = true → moves (ex id) s (expire_row cutoff s).
Proof.
  intros Hx. unfold expire_row, too_old, is_pending. case_bool_decide as Hp; [|reflexivity]. cbn [andb].
  destruct (_ <? _); [|reflexivity]. split_and!; [done| |done]. rewrite Hp. apply rtc_once. by constructor.
Qed.
Lemma expire_lookup cutoff t id : (expire_rows cutoff t).2 !! id = expire_row cutoff <$> t !! id.
Proof.
  unfold expire_rows, lookup, pydict_lookup. cbn [snd items]. induction (items t) as [|[k s] l IH]; [done|].
  simpl. destruct (String.eqb id k); [done|exact IH].
Qed.
Lemma expire_evolves cutoff t : (∀ id, ex id S_EXPIRED = true) → evolves t (expire_rows cutoff t).2.
Proof.
  intros Hx [Hw Hk]. split; [split|].
  - unfold dict_wf, dkeys, expire_rows in *. cbn [snd items]. rewrite <- list_fmap_compose. exact Hw.
  - intros id s. rewrite expire_lookup. destruct (t !! id) as [s0|] eqn:E; [|done]. intros [= <-].
    destruct (expire_row_moves cutoff id s0 (Hx id)) as [[= C1 C2 C3 C4 C5 C6] _]. rewrite C1, C6. auto.
  - intros id s Hs. rewrite expire_lookup, Hs. eexists. split; [done|by apply expire_row_moves].
Qed.

(** ** Every operation moves signals on *)

Definition rows (q : msqueue) : pydict msignal := db_rows (mq_db q).
Definition onward (q q' : msqueue) : Prop := evolves (rows q) (rows q').
#[export] Instance onward_preorder : PreOrder onward.
Proof. split; [intros q; unfold onward; reflexivity|intros q1 q2 q3; unfold onward; apply transitivity]. Qed.

Lemma sql_cases {A} (f : pydict msignal → A * pydict msignal) q :
  (∃ e q', sql f q = (Raise e, q') ∧ rows q' = rows q) ∨
  (∃ q', sql f q = (Ok (f (rows q)).1, q') ∧ rows q' = (f (rows q)).2).
Proof.
  unfold sql, st_zoom. pose proof (db_run_inv f (mq_db q)) as H. destruct (db_run f (mq_db q)) as [r d]. cbn [fst snd] in H.
  destruct H as [(e & -> & H)|(-> & H)]; [left; by eexists _, _|right; by eexists].
Qed.
Lemma sql_onward {A} (f : pydict msignal → A * pydict msignal) :
  (∀ t, evolves t (f t).2) → st_rel onward (sql f).
Proof.
  intros Hf q. destruct (sql_cases f q) as [(e & q' & -> & H)|(q' & -> & H)]; unfold onward; cbn [snd]; rewrite H; [reflexivity|apply Hf].
Qed.
Lemma clock_onward : st_rel onward now_ist.
Proof. intros q. rewrite now_ist_total. unfold onward. reflexivity. Qed.
Lemma time_onward : st_rel onward time_time.
Proof. intros q. rewrite time_time_total. unfold onward. reflexivity. Qed.
Ltac onwards := rel_auto ltac:(first [apply clock_onward | apply time_onward]).

(** A read and an update that the read guards. *)
Lemma update_onward id f s q :
  rows q !! id = Some s → moves (ex id) s (f s) → onward q (update_row id f q).2.
Proof.
  intros Hs Hf. unfold update_row, onward.
  destruct (sql_cases (λ t, ((), tbl_update id f t)) q) as [(e & q' & -> & H)|(q' & -> & H)]; cbn [snd] in *; rewrite H; [reflexivity|].
  apply update_evolves. intros s' Hs'. congruence.
Qed.
Lemma read_then {A} id (k : option msignal → QM A) q :
  (∀ q1, rows q1 = rows q → onward q1 (k (rows q !! id) q1).2) → onward q ((sig ← get_by_id id; k sig) q).2.
Proof.
  intros Hk. unfold get_by_id.
  destruct (sql_cases (λ t, (t !! id, t)) q) as [(e & q1 & E & H)|(q1 & E & H)]; cbn [fst snd] in *.
  - rewrite (st_bind_raise _ _ _ _ _ E). unfold onward. cbn [snd]. by rewrite H.
  - rewrite (st_bind_ok _ _ _ _ _ E). specialize (Hk q1 H). unfold onward in *. by rewrite <- H at 1.
Qed.
Lemma then_ret_onward {A B} (m : QM A) (b : B) q : onward q (m q).2 → onward q ((m ;; mret b : QM B) q).2.
Proof. unfold mbind, st_bind. by destruct (m q) as [[a|e] q1]. Qed.

Lemma approve_onward id who lots sl : ex id S_APPROVED = true → st_rel onward (approve id who lots sl).
Proof.
  intros Hx q. unfold approve. rewrite (st_bind_ok _ _ _ _ _ (now_ist_total q)). set (q0 := set_clock _ q).
  change (onward q0 ((sig ← get_by_id id; match sig with Some s => if is_pending s then update_row id
    (λ r, overridden lots sl (reviewed S_APPROVED (Some who) (clk_read (mq_clk q)).1 None r)) ;; mret true else mret false
    | None => mret false end) q0).2).
  apply read_then. intros q1 H1. destruct (rows q0 !! id) as [s|] eqn:Hs; [|unfold onward; reflexivity].
  unfold is_pending. case_bool_decide as Hp; [|unfold onward; reflexivity]. apply then_ret_onward.
  apply (update_onward _ _ s); [congruence|]. split_and!; [done| |done]. cbn. rewrite Hp. apply rtc_once. by constructor.
Qed.
Lemma reject_onward id who reason : ex id S_REJECTED = true → st_rel onward (reject id who reason).
Proof.
  intros Hx q. unfold reject. rewrite (st_bind_ok _ _ _ _ _ (now_ist_total q)). set (q0 := set_clock _ q).
  change (onward q0 ((sig ← get_by_id id; match sig with Some s => if is_pending s then update_row id
    (reviewed S_REJECTED (Some who) (clk_read (mq_clk q)).1 (Some reason)) ;; mret true else mret false
    | None => mret false end) q0).2).
  apply read_then. intros q1 H1. destruct (rows q0 !! id) as [s|] eqn:Hs; [|unfold onward; reflexivity].
  unfold is_pending. case_bool_decide as Hp; [|unfold onward; reflexivity]. apply then_ret_onward.
  apply (update_onward _ _ s); [congruence|]. split_and!; [done| |done]. cbn. rewrite Hp. apply rtc_once. by constructor.
Qed.
Lemma cancel_onward id reason : ex id S_CANCELLED = true → st_rel onward (cancel id reason).
Proof.
  intros Hx q. unfold cancel. apply read_then. intros q1 H1. destruct (rows q !! id) as [s|] eqn:Hs; [|unfold onward; reflexivity].
  case_bool_decide as Hp; [unfold onward; reflexivity|]. rewrite (st_bind_ok _ _ _ _ _ (now_ist_total q1)).
  set (q0 := set_clock _ q1). change (onward q0 ((update_row id (reviewed S_CANCELLED None (clk_read (mq_clk q1)).1
    (Some (if truthy_str reason then reason else "Cancelled"%string))) ;; mret true : QM bool) q0).2).
  apply then_ret_onward. apply (update_onward _ _ s); [change (rows q0) with (rows q1); congruence|]. split_and!; [done| |done].
  cbn. apply rtc_once. constructor; [done|]. destruct (ms_status s); auto; exfalso; apply Hp; apply (bool_decide_unpack _); vm_compute; exact I.
Qed.
Lemma executed_onward id trade : ex id S_EXECUTED = true → st_rel onward (mark_executed id trade).
Proof.
  intros Hx q. unfold mark_executed, update_row. apply sql_onward. intros t. apply update_evolves.
  intros s _. split_and!; [done| |done]. apply rtc_once. by constructor.
Qed.
Lemma submit_onward s : st_rel onward (submit s).
Proof.
  unfold submit, make_signal_id. onwards. apply sql_onward. intros t. apply insert_evolves. cbn. lia.
Qed.
Lemma expire_onward : (∀ id, ex id S_EXPIRED = true) → st_rel onward expire_old.
Proof. intros Hx. unfold expire_old. onwards. apply sql_onward. intros t. by apply expire_evolves. Qed.

(** The rows read stay pending until their own update. *)
Lemma auto_onward l q : (∀ id, ex id S_APPROVED = true) →
  NoDup (ms_id <$> l) → (∀ s, s ∈ l → ∃ s0, rows q !! ms_id s = Some s0 ∧ ms_status s0 = S_PENDING) →
  onward q (auto_approve_each l q).2.
Proof.
  intros Hx. revert q. induction l as [|s l IH]; intros q Hnd Hl; cbn [auto_approve_each]; [unfold onward; reflexivity|].
  rewrite fmap_cons in Hnd. apply NoDup_cons in Hnd as [Hni Hnd].
  rewrite (st_bind_ok _ _ _ _ _ (now_ist_total q)). set (q0 := set_clock _ q).
  destruct (Hl s (list_elem_of_here _ _)) as (s0 & Hs0 & Hp).
  set (f := reviewed S_APPROVED (Some "AUTO"%string) (clk_read (clock_of q)).1 None).
  assert (onward q0 (update_row (ms_id s) f q0).2) as Ho.
  { apply (update_onward _ _ s0); [exact Hs0|]. split_and!; [done| |done]. cbn. rewrite Hp. apply rtc_once. by constructor. }
  unfold update_row in *.
  destruct (sql_cases (λ t, ((), tbl_update (ms_id s) f t)) q0) as [(e & q1 & E & H)|(q1 & E & H)]; cbn [fst snd] in H.
  { rewrite (st_bind_raise _ _ _ _ _ E). rewrite E in Ho. exact Ho. }
  rewrite (st_bind_ok _ _ _ _ _ E). rewrite E in Ho. change (onward q (auto_approve_each l q1).2).
  transitivity q1; [exact Ho|]. apply IH; [done|]. intros s' Hs'. rewrite H. change (rows q0) with (rows q).
  rewrite tbl_lookup_update_ne; [apply Hl; by apply list_elem_of_further|].
  intros Heq. apply Hni. rewrite Heq. by apply list_elem_of_fmap_2.
Qed.
Lemma keyed_ids t : signals_ok t → ms_id <$> dvalues t = dkeys t.
Proof.
  intros [Hw Hk]. unfold dvalues, dkeys. rewrite <- list_fmap_compose. apply list_fmap_ext. intros i [id s] Hi. simpl.
  apply (Hk id s). apply dict_items_lookup; [done|]. by eapply list_elem_of_lookup_2.
Qed.
Lemma maybe_auto_onward : (∀ id, ex id S_APPROVED = true) → st_rel onward maybe_auto_approve.
Proof.
  intros Hx q Hok. unfold maybe_auto_approve. rewrite (st_bind_ok st_get _ q q q) by done.
  destruct (_ <=? 0); [by apply (reflexivity (R:=evolves))|].
  rewrite (st_bind_ok _ _ _ _ _ (now_ist_total q)). set (q0 := set_clock _ q). cbv zeta.
  set (due := λ s, auto_due _ s = true).
  destruct (sql_cases (λ t, (filter due (dvalues t), t)) q0) as [(e & q1 & E & H)|(q1 & E & H)]; cbn [fst snd] in *.
  { rewrite (st_bind_raise _ _ _ _ _ E). cbn [snd]. rewrite H. by apply (reflexivity (R:=evolves)). }
  rewrite (st_bind_ok _ _ _ _ _ E). change (rows q0) with (rows q) in *.
  assert (onward q1 (auto_approve_each (filter due (dvalues (rows q))) q1).2) as Ho.
  { apply auto_onward; [done| |].
    - apply (sublist_NoDup _ (dkeys (rows q))); [apply Hok|]. rewrite <- (keyed_ids _ Hok). apply fmap_sublist, sublist_filter.
    - intros s [Hd Hs]%list_elem_of_filter. rewrite H. apply dict_values_elem in Hs as [id Hs]; [|apply Hok].
      rewrite (proj1 (proj2 Hok id s Hs)). exists s. split; [done|]. unfold due, auto_due, is_pending in Hd. by bools. }
  clear E. generalize dependent (filter due (dvalues (rows q))). intros L Ho. revert Hok. rewrite <- H.
  by apply (then_ret_onward (auto_approve_each L)).
Qed.

End moving.

(** ** Histories *)

Inductive msig_op :=
| MSubmit (s : submission)
| MApprove (id reviewer : string) (lots : option Z) (sl : option float64)
| MReject (id reviewer reason : string)
| MExecuted (id trade : string)
| MCancel (id reason : string)
| MExpire
| MAuto.
Definition run_msig_op (o : msig_op) : QM unit :=
  match o with
  | MSubmit s => submit s ;; mret ()
  | MApprove id who lots sl => approve id who lots sl ;; mret ()
  | MReject id who reason => reject id who reason ;; mret ()
  | MExecuted id trade => mark_executed id trade
  | MCancel id reason => cancel id reason ;; mret ()
  | MExpire => expire_old ;; mret ()
  | MAuto => maybe_auto_approve ;; mret ()
  end.
(** Operations in a row; one that raises leaves what it did. *)
Definition run_msig (os : list msig_op) (q : msqueue) : msqueue := foldl (λ q o, (run_msig_op o q).2) q os.

(** The statuses an operation asks for, of one signal or of all. *)
Definition asks (id : string) (st : sig_status) (o : msig_op) : bool :=
  match o, st with
  | MApprove i _ _ _, S_APPROVED | MReject i _ _, S_REJECTED | MExecuted i _, S_EXECUTED | MCancel i _, S_CANCELLED => String.eqb i id
  | MExpire, S_EXPIRED | MAuto, S_APPROVED => true
  | _, _ => false
  end.
Definition asked (os : list msig_op) (id : string) (st : sig_status) : bool := existsb (asks id st) os.

Lemma msig_op_onward ex o : (∀ id st, asks id st o = true → ex id st = true) → st_rel (onward ex) (run_msig_op o).
Proof.
  intros Hx. assert (∀ A (m : QM A), st_rel (onward ex) m → st_rel (onward ex) (m ;; mret () : QM unit)) as Hu.
  { intros A m Hm. apply st_rel_bind; [apply _|done|intros ?; apply st_rel_ret, _]. }
  destruct o as [s|id who lots sl|id who reason|id trade|id reason| |]; cbn [run_msig_op]; [apply Hu|apply Hu|apply Hu| |apply Hu..].
  - apply submit_onward.
  - apply approve_onward, Hx, String.eqb_refl.
  - apply reject_onward, Hx, String.eqb_refl.
  - apply executed_onward, Hx, String.eqb_refl.
  - apply cancel_onward, Hx, String.eqb_refl.
  - apply expire_onward. intros id. by apply Hx.
  - apply maybe_auto_onward. intros id. by apply Hx.
Qed.
Lemma run_msig_onward ex os q : (∀ id st, asked os id st = true → ex id st = true) → onward ex q (run_msig os q).
Proof.
  revert q. induction os as [|o os IH]; intros q Hx; [unfold onward; reflexivity|]. unfold run_msig. cbn [foldl].
  unfold asked in Hx. cbn [existsb] in Hx. transitivity ((run_msig_op o q).2).
  - apply msig_op_onward. intros id st H. apply Hx. by rewrite H.
  - apply IH. intros id st H. apply Hx. unfold asked in H. by rewrite H, orb_true_r.
Qed.

(** C35: A stored signal moves forward only, and only where it was asked to.
    Over any history of submissions, reviews, executions, cancellations,
    expiries and automatic approvals, with database calls failing at any
    point, a signal in the table stays in it and keeps what it says, but for
    the lots and the stop loss, which a review may set while it is pending
    and nothing changes afterwards.  Its status follows the edges of the
    review life cycle, each of them only if the operation it belongs to was
    called, on this signal where it names one: an executed signal stays
    executed, none becomes pending again, none that left PENDING is approved
    later, and none becomes executed unless it was marked so; scores stay
    between 0 and 100. *)
Theorem signal_lifecycle (os : list msig_op) (q : msqueue) (id : string) (s : msignal) :
  signals_ok (rows q) → rows q !! id = Some s →
  signals_ok (rows (run_msig os q)) ∧
  ∃ s', rows (run_msig os q) !! id = Some s' ∧ content s' = content s ∧
    rtc (edge (asked os id)) (ms_status s) (ms_status s') ∧
    (ms_status s = S_EXECUTED → ms_status s' = S_EXECUTED) ∧
    (ms_status s ≠ S_PENDING → ms_status s' ≠ S_PENDING ∧ ms_lots s' = ms_lots s ∧ ms_sl s' = ms_sl s ∧
      (ms_status s' = S_APPROVED → ms_status s = S_APPROVED)) ∧
    (ms_status s' = S_EXECUTED → ms_status s = S_EXECUTED ∨ asked os id S_EXECUTED = true).
Proof.
  intros Hok Hs. destruct (run_msig_onward (asked os) os q (λ _ _ H, H) Hok) as [Hok' Hm]. split; [done|].
  destruct (Hm id s Hs) as (s' & Hs' & Hc & He & Hz). exists s'. split_and!; [done..| | |].
  - intros Hx. rewrite Hx in He. by eapply executed_stays.
  - intros Hx. specialize (Hz Hx). injection Hz as Hl Hsl. split_and!; [|done|done|].
    + intros E. rewrite E in He. by eapply Hx, pending_initial.
    + intros E. rewrite E in He. by destruct (approved_before _ _ He).
  - intros Hx. rewrite Hx in He. destruct (asked os id S_EXECUTED) eqn:E; [by right|left]. by eapply executed_asked.
Qed.

(** *** Concrete histories *)

Definition demo_submission : submission :=
  Submission "nifty" "call" 120 "breakout" "telegram" None None None None None (Some 300).
Definition demo_queue (auto : Z) (steps : list Z) : msqueue :=
  MSQueue 30 auto "Operator" (DBase ∅ []) 0 (Clock (ist_offset + 1000 * usec_per_sec) ((λ s, s * usec_per_sec) <$> steps)).
Definition demo_id : string := "MSQ_1000_0001".
Definition status_of (id : string) (q : msqueue) : option sig_status := ms_status <$> rows q !! id.

(** A rejected signal can be marked executed. *)
Example rejected_executed : status_of demo_id (run_msig [MSubmit demo_submission; MReject demo_id "ops" "no";
  MExecuted demo_id "T1"] (demo_queue 0 [])) = Some S_EXECUTED.
Proof. vm_compute. reflexivity. Qed.
(** The waiting time of the signal itself is not what is waited for: with
    300 seconds asked for it is approved after the queue's 60, and with no
    time set for the queue never. *)
Example own_window_ignored : (status_of demo_id (run_msig [MSubmit demo_submission; MAuto] (demo_queue 60 [0; 61])),
  status_of demo_id (run_msig [MSubmit demo_submission; MAuto] (demo_queue 0 [0; 1000]))) = (Some S_APPROVED, Some S_PENDING).
Proof. vm_compute. reflexivity. Qed.
(** Two processes that start within a second give the same id: the second
    signal is dropped, and its submitter is told that it was recorded. *)
Example second_signal_dropped :
  let q1 := run_msig [MSubmit demo_submission] (demo_queue 0 []) in
  let put := Submission "banknifty" "put" 70 "reversal" "api" None None None None None None in
  match submit put (put_mcounter 0 q1) with
  | (Ok s, q2) => ms_id s = demo_id ∧ ms_direction s = "PUT"%string ∧ ms_direction <$> rows q2 !! demo_id = Some "CALL"%string
  | _ => False
  end.
Proof. vm_compute. repeat split. Qed.

Lemma demo_queue_ok auto steps : signals_ok (rows (demo_queue auto steps)).
Proof. split; [apply dict_empty_wf|done]. Qed.
Lemma signal_lifecycle_witness :
  let q := run_msig [MSubmit demo_submission; MExecuted demo_id "T1"] (demo_queue 60 []) in
  status_of demo_id (run_msig [MCancel demo_id ""; MApprove demo_id "ops" None None; MAuto; MExpire] q) = Some S_EXECUTED.
Proof.
  set (q := run_msig [MSubmit demo_submission; MExecuted demo_id "T1"] (demo_queue 60 [])).
  assert (signals_ok (rows q)) as Hok by (apply (run_msig_onward (λ _ _, true) _ (demo_queue 60 [])); [done|apply demo_queue_ok]).
  destruct (rows q !! demo_id) as [s|] eqn:E; [|vm_compute in E; discriminate E].
  assert (ms_status s = S_EXECUTED) as Hs by (vm_compute in E; injection E as <-; reflexivity).
  destruct (signal_lifecycle [MCancel demo_id ""; MApprove demo_id "ops" None None; MAuto; MExpire] q demo_id s Hok E)
    as (_ & s' & Hs' & _ & _ & Hx & _).
  unfold status_of. rewrite Hs'. cbn. by rewrite (Hx Hs).
Defined.
