(* ===== verification/SignalApproval.v ===== *)
(** * The routing of signals

    [core/signal_approval_workflow.py]: [SignalApprovalWorkflow] decides for
    each signal whether it is executed, queued for review, only notified or
    dropped, and escalates signals that wait too long.  The queue is the one
    of [ManualSignal]; the escalation callback is the class [Escalation] on a
    state of its own. *)
From S2P Require Import Prelude PyStr Float64 PyDict PyVal CapitalManager ManualSignal.

(** ** Data *)

Inductive workflow_mode := SIGNALS_ONLY | MANUAL_PRIORITY | FULL_MANUAL | AUTO_WITH_OVERRIDE | FULLY_AUTO.
#[global] Instance workflow_mode_eq_dec : EqDecision workflow_mode.
Proof. solve_decision. Defined.
Definition mode_name (m : workflow_mode) : string :=
  match m with
  | SIGNALS_ONLY => "SIGNALS_ONLY" | MANUAL_PRIORITY => "MANUAL_PRIORITY" | FULL_MANUAL => "FULL_MANUAL"
  | AUTO_WITH_OVERRIDE => "AUTO_WITH_OVERRIDE" | FULLY_AUTO => "FULLY_AUTO"
  end.
Definition ALL_MODES : list workflow_mode := [SIGNALS_ONLY; MANUAL_PRIORITY; FULL_MANUAL; AUTO_WITH_OVERRIDE; FULLY_AUTO].
(** An unknown mode is the safest one. *)
Definition mode_of (s : string) : workflow_mode :=
  default SIGNALS_ONLY (snd <$> list_find (λ m, mode_name m = s) ALL_MODES).

Inductive action := EXECUTE | QUEUE | NOTIFY_ONLY | SKIP.
#[global] Instance action_eq_dec : EqDecision action.
Proof. solve_decision. Defined.

(** [SignalDecision] *)
Record decision := SignalDecision {
  sd_action : action; sd_priority : Z; sd_delay : Z; sd_queue_id : option string; sd_reason : string }.
Definition should_execute (d : decision) : bool := bool_decide (sd_action d = EXECUTE).
Definition should_queue (d : decision) : bool := bool_decide (sd_action d = QUEUE).
Definition should_notify (d : decision) : bool := bool_decide (sd_action d ∈ [EXECUTE; NOTIFY_ONLY; QUEUE]).
Definition decide_as (a : action) (priority : Z) (reason : string) : decision := SignalDecision a priority 0 None reason.

(** What [__init__] reads from the configuration. *)
Record workflow_config := WorkflowConfig {
  wc_mode : workflow_mode; wc_min : Z; wc_max : Z; wc_strong : Z; wc_moderate : Z; wc_broker_enabled : bool;
  wc_execution_mode : string; wc_auto_escalate : bool; wc_escalate_secs : Z; wc_approve_score : Z;
  wc_approve_secs : Z }.
Definition read_workflow_config (cfg : pyrec) : res workflow_config :=
  let num k d := py_int (rget k (VInt d) cfg) in
  rbind (num "manual_signal_min_score" 50) (λ mn,
  rbind (num "manual_signal_max_score" 100) (λ mx,
  rbind (num "TIER_STRONG_MIN" 80) (λ st,
  rbind (num "TIER_MODERATE_MIN" 70) (λ md,
  rbind (num "manual_signal_escalate_secs" 300) (λ es,
  rbind (num "manual_signal_auto_approve_score" 90) (λ asc,
  rbind (num "manual_signal_auto_approve_secs" 120) (λ ase,
  Ok (WorkflowConfig
        (mode_of (str_upper (py_str (rget "manual_signal_workflow_mode" (VStr "SIGNALS_ONLY") cfg))))
        mn mx st md (truthy (rget "BROKER_API_ENABLED" (VBool false) cfg))
        (str_upper (py_str (rget "EXECUTION_MODE" (VStr "MANUAL") cfg)))
        (truthy (rget "manual_signal_auto_escalate" (VBool false) cfg)) es asc ase)))))))).

(** A signal whose fate is tracked. *)
Record tracked := Tracked {
  tr_score : Z; tr_reason : string; tr_queued_at : float64; tr_action : action; tr_escalated : bool; tr_approved : bool }.

(** [_escalate_callback(message, event, signal_id)] *)
Class Escalation X := { escalate_callback : string → string → string → ST X unit }.

Section workflow.
Context {X : Type}.

Record workflow := Workflow {
  wf_cfg : workflow_config;
  wf_queue : option msqueue;
  wf_callback : bool;
  wf_pending : pydict tracked;
  wf_clk : clock;
  wf_ext : X }.
Definition put_queue (q : option msqueue) (w : workflow) : workflow :=
  Workflow (wf_cfg w) q (wf_callback w) (wf_pending w) (wf_clk w) (wf_ext w).
Definition put_tracked (d : pydict tracked) (w : workflow) : workflow :=
  Workflow (wf_cfg w) (wf_queue w) (wf_callback w) d (wf_clk w) (wf_ext w).
Definition put_wext (x : X) (w : workflow) : workflow :=
  Workflow (wf_cfg w) (wf_queue w) (wf_callback w) (wf_pending w) (wf_clk w) x.
#[global] Instance workflow_clock : HasClock workflow :=
  {| clock_of := wf_clk;
     set_clock := λ c w, Workflow (wf_cfg w) (wf_queue w) (wf_callback w) (wf_pending w) c (wf_ext w) |}.

Definition WM (A : Type) : Type := ST workflow A.

(** A call on the queue that is there. *)
Definition on_queue {A} (q : msqueue) (m : ST msqueue A) : WM A := λ w,
  let '(r, q') := m q in (r, put_queue (Some q') w).

(** [build_workflow]: any failure falls back to notifications without a queue. *)
Definition build_workflow (cfg : pyrec) (queue : option msqueue) (c : clock) (x : X) : workflow :=
  match read_workflow_config cfg with
  | Ok k => Workflow k queue false ∅ c x
  | Raise _ => Workflow (WorkflowConfig SIGNALS_ONLY 50 100 80 70 false "MANUAL" false 300 90 120) None false ∅ c x
  end.

(** ** Decisions *)

(** A signal as the caller gives it. *)
Record signal := Signal {
  si_manual : bool; si_score : Z; si_tier : string; si_index : string; si_direction : string; si_reason : string;
  si_analyst : string; si_existing : option string }.

Definition can_execute (c : workflow_config) : bool :=
  wc_broker_enabled c && str_mem (wc_execution_mode c) ["AUTO"; "LIVE"].
Definition score_to_tier (c : workflow_config) (score : Z) : string :=
  if wc_strong c <=? score then "STRONG" else if wc_moderate c <=? score then "MODERATE" else "WEAK".
Definition effective_tier (c : workflow_config) (s : signal) : string :=
  if truthy_str (si_tier s) then str_upper (si_tier s) else score_to_tier c (si_score s).

Definition below_min (c : workflow_config) (s : signal) : string :=
  cat ["Score "; str_of_Z (si_score s); " < min "; str_of_Z (wc_min c)].
Definition submission_of (s : signal) (source analyst : string) : submission :=
  Submission (si_index s) (si_direction s) (si_score s) (si_reason s) source (Some analyst) None None None None None.

(** [_decide_signals_only] *)
Definition decide_signals_only (c : workflow_config) (s : signal) (tier : string) : decision :=
  decide_as NOTIFY_ONLY (if String.eqb tier "STRONG" then 1 else 2)
    (cat ["SIGNALS_ONLY mode - notify only (score="; str_of_Z (si_score s); " tier="; tier; ")"]).
(** [_decide_full_manual] *)
Definition decide_full_manual (s : signal) : WM decision :=
  w ← st_get;
  if si_score s <? wc_min (wf_cfg w) then mret (decide_as SKIP 1 (below_min (wf_cfg w) s))
  else
    match wf_queue w with
    | None => mret (decide_as NOTIFY_ONLY 1 "Queue unavailable - notify only")
    | Some q =>
        if truthy_opt (si_existing s) then
          mret (SignalDecision QUEUE 1 0 (si_existing s) "Full manual - existing signal queued")
        else
          sig ← on_queue q (submit (submission_of s (if si_manual s then "TELEGRAM" else "ENGINE") (si_analyst s)));
          mret (SignalDecision QUEUE 1 0 (Some (ms_id sig)) (cat ["Full manual - queued as "; ms_id sig]))
    end.
(** [_decide_manual_priority] *)
Definition decide_manual_priority (s : signal) (tier : string) : WM decision :=
  if si_manual s then decide_full_manual s
  else
    w ← st_get;
    let c := wf_cfg w in
    if si_score s <? wc_min c then mret (decide_as SKIP 1 (below_min c s))
    else if String.eqb tier "STRONG" && can_execute c then
      mret (decide_as EXECUTE 0 (cat ["MANUAL_PRIORITY: STRONG auto-execute (score="; str_of_Z (si_score s); ")"]))
    else
      match wf_queue w with
      | Some q =>
          if String.eqb tier "MODERATE" then
            sig ← on_queue q (submit (submission_of s "ENGINE" "AUTO_MODERATE"));
            mret (SignalDecision QUEUE 1 0 (Some (ms_id sig))
                    (cat ["MANUAL_PRIORITY: MODERATE queued (score="; str_of_Z (si_score s); ")"]))
          else mret (decide_as NOTIFY_ONLY 2 (cat ["MANUAL_PRIORITY: WEAK notify only (score="; str_of_Z (si_score s); ")"]))
      | None => mret (decide_as NOTIFY_ONLY 2 (cat ["MANUAL_PRIORITY: WEAK notify only (score="; str_of_Z (si_score s); ")"]))
      end.
(** [_decide_auto_with_override] *)
Definition decide_auto_with_override (c : workflow_config) (s : signal) (tier : string) : decision :=
  if si_manual s && can_execute c then
    decide_as EXECUTE 0 (cat ["Manual override - priority execute (score="; str_of_Z (si_score s); ")"])
  else if si_score s <? wc_min c then decide_as NOTIFY_ONLY 1 (below_min c s)
  else if can_execute c then
    decide_as EXECUTE 1 (cat ["AUTO_WITH_OVERRIDE: auto execute (score="; str_of_Z (si_score s); " tier="; tier; ")"])
  else decide_as NOTIFY_ONLY 1 "Cannot execute - broker unavailable".
(** [_decide_fully_auto] *)
Definition decide_fully_auto (c : workflow_config) (s : signal) (tier : string) : decision :=
  if negb (can_execute c) then decide_as NOTIFY_ONLY 1 "FULLY_AUTO: broker not enabled - notify only"
  else if si_score s <? wc_min c then decide_as SKIP 1 (below_min c s)
  else
    decide_as EXECUTE (if si_manual s then 0 else 1)
      (cat ["FULLY_AUTO: execute (score="; str_of_Z (si_score s); " tier="; tier; ")"]).

(** [process_signal] *)
Definition process_signal (s : signal) : WM decision :=
  w ← st_get;
  let c := wf_cfg w in
  let tier := effective_tier c s in
  match wc_mode c with
  | SIGNALS_ONLY => mret (decide_signals_only c s tier)
  | FULL_MANUAL => decide_full_manual s
  | MANUAL_PRIORITY => decide_manual_priority s tier
  | AUTO_WITH_OVERRIDE => mret (decide_auto_with_override c s tier)
  | FULLY_AUTO => mret (decide_fully_auto c s tier)
  end.

(** ** Escalation *)

Context `{Hesc : !Escalation X}.

(** [track_pending_signal] *)
Definition track_pending_signal (d : decision) (score : Z) (reason : string) : WM unit :=
  w ← st_get;
  if negb (wc_auto_escalate (wf_cfg w)) then mret ()
  else
    match sd_queue_id d with
    | None => mret ()
    | Some id =>
        t ← time_time;
        st_modify (λ w, put_tracked (<[id := Tracked score reason t (sd_action d) false false]> (wf_pending w)) w)
    end.
(** [resolve_pending_signal] *)
Definition resolve_pending_signal (id : string) : WM unit :=
  st_modify (λ w, put_tracked (delete id (wf_pending w)) w).

(** Whether a tracked signal is approved or escalated now, and what it
    becomes: the second test sees the mark of neither. *)
Definition approve_due (c : workflow_config) (now : float64) (t : tracked) : bool :=
  negb (tr_approved t) && negb (tr_escalated t) && (wc_approve_score c <=? tr_score t) &&
  fge (now - tr_queued_at t)%f64 (f_of_Z (wc_approve_secs c)).
Definition escalate_due (c : workflow_config) (now : float64) (t : tracked) : bool :=
  negb (tr_escalated t) && fge (now - tr_queued_at t)%f64 (f_of_Z (wc_escalate_secs c)).
Definition marked (c : workflow_config) (now : float64) (t : tracked) : tracked :=
  Tracked (tr_score t) (tr_reason t) (tr_queued_at t) (tr_action t) (tr_escalated t || escalate_due c now t)
    (tr_approved t || approve_due c now t).
Definition due_ids (f : tracked → bool) (d : pydict tracked) : list string :=
  (filter (λ p, f p.2 = true) (items d)).*1.

(** [_fire_escalation]: a failing callback is logged only. *)
Definition fire_escalation (id message event : string) : WM unit :=
  w ← st_get;
  if wf_callback w then
    st_try_any (st_zoom wf_ext put_wext (escalate_callback message event id)) (λ _, mret ())
  else mret ().
Definition approved_text (w : workflow) (id : string) : string :=
  cat ["[ESCALATOR] Signal "; id; " auto-approved (score="; str_of_Z (default 0 (tr_score <$> wf_pending w !! id));
       ", elapsed>"; str_of_Z (wc_approve_secs (wf_cfg w)); "s)"].
Definition escalated_text (w : workflow) (id : string) : string :=
  cat ["[ESCALATOR] Signal "; id; " escalated (score="; str_of_Z (default 0 (tr_score <$> wf_pending w !! id));
       ", queued>"; str_of_Z (wc_escalate_secs (wf_cfg w)); "s): ";
       str_take 100 (default ""%string (tr_reason <$> wf_pending w !! id))].
(** [_check_pending_signals], with the events it fires. *)
Definition check_pending_signals : WM (list (string * string)) :=
  now ← time_time;
  w ← st_get;
  let c := wf_cfg w in
  let to_approve := due_ids (approve_due c now) (wf_pending w) in
  let to_escalate := due_ids (escalate_due c now) (wf_pending w) in
  st_modify (λ w, put_tracked (PyDict ((λ p, (p.1, marked c now p.2)) <$> items (wf_pending w))) w) ;;
  st_iter (λ id, w ← st_get; fire_escalation id (approved_text w id) "AUTO_APPROVED") to_approve ;;
  st_iter (λ id, w ← st_get; fire_escalation id (escalated_text w id) "ESCALATED") to_escalate ;;
  mret (((λ id, (id, "AUTO_APPROVED"%string)) <$> to_approve) ++ ((λ id, (id, "ESCALATED"%string)) <$> to_escalate)).
(** [get_pending_signals]: a long reason is left out. *)
Definition get_pending_signals (w : workflow) : pydict (tracked * bool) :=
  PyDict ((λ p, (p.1, (p.2, bool_decide (String.length (tr_reason p.2) < 50)%nat))) <$> items (wf_pending w)).

(** ** What a decision promises *)

Lemma submit_row s q sig q' :
  submit s q = (Ok sig, q') →
  ∃ r, rows q' !! ms_id sig = Some r ∧ (rows q !! ms_id sig = None → r = sig ∧ ms_status r = S_PENDING).
Proof.
  unfold submit. intros H. inv_bind H sid q1 H1. inv_bind H at1 q2 H2. inv_bind H q3 q3' H3. injection H3 as <- <-.
  inv_bind H un1 q4 H4. injection H as <- <-.
  assert (rows q2 = rows q) as Hq.
  { unfold make_signal_id in H1. inv_bind H1 un2 p1 E1. injection E1 as _ <-. inv_bind H1 p2 p2' E2. injection E2 as <- <-.
    inv_bind H1 tm p3 E3. inv_bind H1 tsec p4 E4. apply st_lift_inv in E4 as [_ ->]. injection H1 as _ <-.
    rewrite time_time_total in E3. injection E3 as _ <-. rewrite now_ist_total in H2. by injection H2 as _ <-. }
  set (sig := submitted_signal sid at1 s q2) in *.
  destruct (sql_cases (λ tbl, ((), insert_or_ignore sig tbl)) q2) as [(e & q5 & E & _)|(q5 & E & Hr)]; rewrite E in H4; [done|].
  injection H4 as _ <-. cbn [snd] in Hr. rewrite Hr, Hq. unfold insert_or_ignore.
  destruct (dmem (ms_id sig) (rows q)) eqn:Hm.
  - apply dmem_true in Hm as [r Hr']. exists r. split; [done|]. intros Hn. congruence.
  - exists sig. split; [apply dict_lookup_insert_eq|]. by split.
Qed.

(** The signal waits in the queue under the decision's id. *)
Definition waits (w w' : workflow) (d : decision) : Prop :=
  ∃ q q' id r, wf_queue w = Some q ∧ wf_queue w' = Some q' ∧ sd_queue_id d = Some id ∧ rows q' !! id = Some r ∧
    (rows q !! id = None → ms_status r = S_PENDING).
Definition decided_ok (s : signal) (w w' : workflow) (d : decision) : Prop :=
  let c := wf_cfg w in
  match sd_action d with
  | EXECUTE =>
      can_execute c = true ∧ wc_mode c ≠ SIGNALS_ONLY ∧ wc_mode c ≠ FULL_MANUAL ∧
      (wc_min c ≤ si_score s ∨ wc_mode c = AUTO_WITH_OVERRIDE ∧ si_manual s = true) ∧
      (wc_mode c = MANUAL_PRIORITY → si_manual s = false ∧ effective_tier c s = "STRONG"%string) ∧ w' = w
  | QUEUE =>
      (wc_mode c = FULL_MANUAL ∨ wc_mode c = MANUAL_PRIORITY) ∧ wc_min c ≤ si_score s ∧
      (sd_queue_id d = si_existing s ∧ w' = w ∨ waits w w' d)
  | NOTIFY_ONLY | SKIP => w' = w
  end.

Lemma on_queue_inv q s w sig w' :
  on_queue q (submit s) w = (Ok sig, w') →
  ∃ q' r, w' = put_queue (Some q') w ∧ rows q' !! ms_id sig = Some r ∧ (rows q !! ms_id sig = None → ms_status r = S_PENDING).
Proof.
  unfold on_queue. destruct (submit s q) as [[a|e] q'] eqn:E; [|done]. intros [= <- <-].
  destruct (submit_row _ _ _ _ E) as (r & Hr & Hp). exists q', r. split; [done|]. split; [done|]. intros Hn. by apply Hp.
Qed.
Lemma full_manual_ok s w d w' :
  wc_mode (wf_cfg w) = FULL_MANUAL ∨ wc_mode (wf_cfg w) = MANUAL_PRIORITY →
  decide_full_manual s w = (Ok d, w') → decided_ok s w w' d.
Proof.
  intros Hm. unfold decide_full_manual. rewrite (st_bind_ok st_get _ w w w) by done.
  destruct (_ <? _) eqn:Es; [by intros [= <- <-]|]. bools.
  destruct (wf_queue w) as [q|] eqn:Hq; [|by intros [= <- <-]].
  destruct (truthy_opt _); [intros [= <- <-]; split; [done|]; split; [done|by left]|].
  intros H. inv_bind H sg w1 H1. injection H as <- <-. apply on_queue_inv in H1 as (q' & r & -> & Hr & Hp).
  split; [done|]. split; [done|]. right. by exists q, q', (ms_id sg), r.
Qed.
Lemma manual_priority_ok s w d w' :
  wc_mode (wf_cfg w) = MANUAL_PRIORITY →
  decide_manual_priority s (effective_tier (wf_cfg w) s) w = (Ok d, w') → decided_ok s w w' d.
Proof.
  intros Hm. unfold decide_manual_priority. destruct (si_manual s) eqn:Hs; [apply full_manual_ok; by right|].
  rewrite (st_bind_ok st_get _ w w w) by done. cbv zeta.
  destruct (_ <? _) eqn:Es; [by intros [= <- <-]|]. bools.
  destruct (String.eqb_spec (effective_tier (wf_cfg w) s) "STRONG") as [Ht|Ht]; destruct (can_execute _) eqn:Hc; cbn [andb].
  1: { intros [= <- <-]. unfold decided_ok. cbn. rewrite Hm. split_and!; auto; done. }
  all: destruct (wf_queue w) as [q|] eqn:Hq; [|by intros [= <- <-]];
    (destruct (String.eqb _ "MODERATE"); [|by intros [= <- <-]]);
    intros H; inv_bind H sg w1 H1; injection H as <- <-; apply on_queue_inv in H1 as (q' & r & -> & Hr & Hp);
    (split; [by right|]); (split; [done|]); right; by exists q, q', (ms_id sg), r.
Qed.

(** A signal is executed only where that is allowed.  Whatever the
    configuration, a decision to execute requires an enabled broker and an
    execution mode AUTO or LIVE, is never made in the modes that only notify
    or only queue, needs the minimum score unless a manual signal overrides,
    and in MANUAL_PRIORITY a strong automatic signal; a decision to queue
    leaves the signal in the queue under the id it names, pending when that
    id is new; every other decision changes nothing. *)
Theorem routing_safe (s : signal) (w w' : workflow) (d : decision) :
  process_signal s w = (Ok d, w') → decided_ok s w w' d.
Proof.
  unfold process_signal. rewrite (st_bind_ok st_get _ w w w) by done. cbv zeta.
  destruct (wc_mode (wf_cfg w)) eqn:Hm.
  - by intros [= <- <-].
  - by apply manual_priority_ok.
  - apply full_manual_ok. by left.
  - unfold decide_auto_with_override. destruct (si_manual s) eqn:Hs, (can_execute (wf_cfg w)) eqn:Hc; cbn [andb];
      destruct (si_score s <? wc_min (wf_cfg w)) eqn:Es; intros [= <- <-]; try done; bools; unfold decided_ok; cbn; rewrite Hm;
      split_and!; auto; done.
  - unfold decide_fully_auto. destruct (can_execute (wf_cfg w)) eqn:Hc; cbn [negb]; [|by intros [= <- <-]].
    destruct (_ <? _) eqn:Es; intros [= <- <-]; [done|]. bools. unfold decided_ok. cbn. rewrite Hm. split_and!; auto; done.
Qed.

(** ** Each wait is escalated once *)

Inductive flow_op :=
| GSignal (s : signal)
| GTrack (d : decision) (score : Z) (reason : string)
| GResolve (id : string)
| GCheck.
Definition run_flow_op (o : flow_op) : WM (list (string * string)) :=
  match o with
  | GSignal s => process_signal s ;; mret []
  | GTrack d n r => track_pending_signal d n r ;; mret []
  | GResolve id => resolve_pending_signal id ;; mret []
  | GCheck => check_pending_signals
  end.
Fixpoint run_flow (os : list flow_op) (w : workflow) : list (string * string) * workflow :=
  match os with
  | [] => ([], w)
  | o :: os' =>
      let '(r, w1) := run_flow_op o w in
      let '(l, w2) := run_flow os' w1 in
      (match r with Ok es => es ++ l | Raise _ => l end, w2)
  end.
(** How often [id] was reported with [event], and how often it was tracked. *)
Definition reports (id event : string) (l : list (string * string)) : nat := length (filter (λ e, e = (id, event)) l).
Definition tracked_id (o : flow_op) : option string := match o with GTrack d _ _ => sd_queue_id d | _ => None end.
Definition tracks (id : string) (os : list flow_op) : nat :=
  length (filter (λ o, tracked_id o = Some id) os).

Definition event_name (esc : bool) : string := if esc then "ESCALATED" else "AUTO_APPROVED".
Definition mark (esc : bool) (t : tracked) : bool := if esc then tr_escalated t else tr_approved t.
Definition due (esc : bool) (c : workflow_config) (now : float64) (t : tracked) : bool :=
  if esc then escalate_due c now t else approve_due c now t.
(** The signal can still be reported with this event. *)
Definition open_for (esc : bool) (id : string) (d : pydict tracked) : nat :=
  match d !! id with Some t => if mark esc t then 0 else 1 | None => 0 end.

Lemma reports_app id event l1 l2 : reports id event (l1 ++ l2) = (reports id event l1 + reports id event l2)%nat.
Proof. unfold reports. by rewrite filter_app, length_app. Qed.
Lemma reports_tagged id event event' l :
  reports id event ((λ i, (i, event')) <$> l) = if bool_decide (event = event') then length (filter (λ i, i = id) l) else 0%nat.
Proof.
  unfold reports. induction l as [|i l IH]; [by case_bool_decide|]. rewrite fmap_cons, !filter_cons.
  case_bool_decide as He; [subst; destruct (decide (i = id)) as [->|Hi]|].
  - rewrite decide_True by done. simpl. by rewrite IH.
  - rewrite decide_False by congruence. exact IH.
  - rewrite decide_False by congruence. exact IH.
Qed.
Lemma due_once f d id :
  dict_wf d →
  length (filter (λ i, i = id) (due_ids f d)) = match d !! id with Some t => if f t then 1%nat else 0%nat | None => 0%nat end.
Proof.
  unfold dict_wf, dkeys, due_ids, lookup, pydict_lookup. destruct d as [l]. cbn [items].
  induction l as [|[k t] l IH]; cbn [assoc_get]; [done|]. rewrite fmap_cons, NoDup_cons. intros [Hk Hl]. specialize (IH Hl).
  rewrite filter_cons. cbn [snd].
  destruct (String.eqb_spec id k) as [->|Hne].
  - assert (length (filter (λ i, i = k) ((filter (λ p : string * tracked, f p.2 = true) l).*1)) = 0%nat) as Hz.
    { rewrite IH. assert (assoc_get k l = None) as -> by (by apply assoc_get_none). done. }
    destruct (f t) eqn:Hf; [rewrite decide_True by done|rewrite decide_False by done; exact Hz].
    rewrite fmap_cons, filter_cons. cbn [fst]. rewrite decide_True by done. cbn [length]. by rewrite Hz.
  - destruct (f t) eqn:Hf; [rewrite decide_True by done|rewrite decide_False by done; exact IH].
    rewrite fmap_cons, filter_cons. cbn [fst]. rewrite decide_False by congruence. exact IH.
Qed.

(** Firing the callbacks leaves what is tracked alone. *)
Lemma fire_each (text : workflow → string → string) event ids w :
  ∃ w', st_iter (λ id, w ← st_get; fire_escalation id (text w id) event) ids w = (Ok (), w') ∧ wf_pending w' = wf_pending w.
Proof.
  revert w. induction ids as [|id ids IH]; intros w; cbn [st_iter]; [by eexists|].
  assert (∃ w1, (w ← st_get; fire_escalation id (text w id) event) w = (Ok (), w1) ∧ wf_pending w1 = wf_pending w) as (w1 & E & H).
  { rewrite (st_bind_ok st_get _ w w w) by done. unfold fire_escalation. rewrite (st_bind_ok st_get _ w w w) by done.
    destruct (wf_callback w); [|by eexists]. unfold st_try_any, st_zoom.
    destruct (escalate_callback _ _ _ (wf_ext w)) as [[[]|e] x]; by eexists. }
  rewrite (st_bind_ok _ _ _ _ _ E). destruct (IH w1) as (w2 & E2 & H2). exists w2. split; [done|]. by rewrite H2.
Qed.
Lemma check_eq w :
  let now := epoch_seconds (clk_read (wf_clk w)).1 in
  ∃ w', check_pending_signals w =
    (Ok (((λ id, (id, event_name false)) <$> due_ids (due false (wf_cfg w) now) (wf_pending w)) ++
         ((λ id, (id, event_name true)) <$> due_ids (due true (wf_cfg w) now) (wf_pending w))), w') ∧
    wf_pending w' = PyDict ((λ p, (p.1, marked (wf_cfg w) now p.2)) <$> items (wf_pending w)).
Proof.
  intros now. unfold check_pending_signals. rewrite (st_bind_ok _ _ _ _ _ (time_time_total w)).
  set (w1 := set_clock _ w). rewrite (st_bind_ok st_get _ w1 w1 w1) by done. cbv zeta.
  change (wf_cfg w1) with (wf_cfg w). change (wf_pending w1) with (wf_pending w). change (epoch_seconds _) with now.
  set (w2 := put_tracked (PyDict ((λ p, (p.1, marked (wf_cfg w) now p.2)) <$> items (wf_pending w))) w1).
  rewrite (st_bind_ok (st_modify _) _ w1 () w2) by done.
  destruct (fire_each approved_text "AUTO_APPROVED" (due_ids (approve_due (wf_cfg w) now) (wf_pending w)) w2) as (w3 & E3 & H3).
  destruct (fire_each escalated_text "ESCALATED" (due_ids (escalate_due (wf_cfg w) now) (wf_pending w)) w3) as (w4 & E4 & H4).
  rewrite (st_bind_ok _ _ _ _ _ E3), (st_bind_ok _ _ _ _ _ E4). exists w4. split; [reflexivity|]. by rewrite H4, H3.
Qed.
Lemma marked_lookup c now d id :
  (PyDict ((λ p, (p.1, marked c now p.2)) <$> items d)) !! id = marked c now <$> d !! id.
Proof.
  unfold lookup, pydict_lookup. cbn [items]. induction (items d) as [|[k t] l IH]; [done|]. simpl.
  by destruct (String.eqb id k).
Qed.

(** A check reports a tracked signal exactly when it is due, and what it
    reports is closed. *)
Lemma check_reports esc id w :
  dict_wf (wf_pending w) →
  ∃ es w', check_pending_signals w = (Ok es, w') ∧ dict_wf (wf_pending w') ∧
    reports id (event_name esc) es =
      match wf_pending w !! id with
      | Some t => if due esc (wf_cfg w) (epoch_seconds (clk_read (wf_clk w)).1) t then 1%nat else 0%nat
      | None => 0%nat
      end ∧
    (reports id (event_name esc) es + open_for esc id (wf_pending w') = open_for esc id (wf_pending w))%nat.
Proof.
  intros Hw. destruct (check_eq w) as (w' & E & H). eexists _, w'. split; [exact E|].
  set (c := wf_cfg w). set (now := epoch_seconds _).
  assert (∀ l1 l2, reports id (event_name esc) (((λ i, (i, event_name false)) <$> l1) ++ ((λ i, (i, event_name true)) <$> l2)) =
    length (filter (λ i, i = id) (if esc then l2 else l1))) as Hr.
  { intros l1 l2. rewrite reports_app, !reports_tagged. destruct esc; simpl; lia. }
  rewrite Hr. assert (length (filter (λ i, i = id) (if esc then due_ids (due true c now) (wf_pending w)
    else due_ids (due false c now) (wf_pending w))) = match wf_pending w !! id with
      | Some t => if due esc c now t then 1%nat else 0%nat | None => 0%nat end) as ->.
  { destruct esc; by apply due_once. }
  split.
  { rewrite H. unfold dict_wf, dkeys. cbn [items]. rewrite <- list_fmap_compose. exact Hw. }
  split; [done|]. subst c now. unfold open_for. rewrite H, marked_lookup. destruct (wf_pending w !! id) as [t|]; [|done]. cbn.
  destruct esc; cbn; unfold approve_due, escalate_due; destruct (tr_escalated t), (tr_approved t); cbn; try done;
    repeat match goal with |- context [if ?b then _ else _] => destruct b end; done.
Qed.

(** Between checks a signal is reopened only by tracking it again. *)
Lemma flow_step esc id o w :
  dict_wf (wf_pending w) →
  dict_wf (wf_pending (run_flow_op o w).2) ∧
  (reports id (event_name esc) (match (run_flow_op o w).1 with Ok es => es | Raise _ => [] end) +
   open_for esc id (wf_pending (run_flow_op o w).2) ≤ open_for esc id (wf_pending w) + tracks id [o])%nat.
Proof.
  intros Hw. destruct o as [s|d n r|id'|]; cbn [run_flow_op].
  - assert (wf_pending ((process_signal s ≫= λ _, mret []) w : res (list (string * string)) * workflow).2 = wf_pending w ∧
      match ((process_signal s ≫= λ _, mret []) w : res (list (string * string)) * workflow).1 with Ok es => es = [] | Raise _ => True end)
      as [Hp Hr].
    { assert (∀ q sb w0, wf_pending (on_queue q (submit sb) w0).2 = wf_pending w0) as Hon.
      { intros q sb w0. unfold on_queue. by destruct (submit sb q). }
      assert (st_rel (λ w w', wf_pending w' = wf_pending w) (process_signal s)) as Hs.
      { assert (PreOrder (λ w w' : workflow, wf_pending w' = wf_pending w)) by (split; [by intros ?|intros ??? -> ->; done]).
        unfold process_signal, decide_manual_priority, decide_full_manual.
        rel_auto ltac:(idtac; match goal with |- st_rel _ (on_queue _ _) => intros ?; apply Hon end). }
      specialize (Hs w). unfold mbind, st_bind. by destruct (process_signal s w) as [[a|e] w1]. }
    rewrite Hp. split; [done|]. destruct (_ w).1 as [es|e]; [rewrite Hr|]; unfold reports; simpl; lia.
  - unfold track_pending_signal. rewrite (st_bind_assoc (S:=workflow)), (st_bind_ok st_get _ w w w) by done.
    destruct (negb _); [split; [done|]; unfold reports; simpl; lia|].
    unfold tracks. rewrite filter_cons. cbn [tracked_id]. destruct (sd_queue_id d) as [id'|] eqn:Hd; [|split; [done|]; unfold reports; simpl; lia].
    rewrite (st_bind_assoc (S:=workflow)), (st_bind_ok _ _ _ _ _ (time_time_total w)).
    unfold mbind, st_bind, st_modify, mret, st_ret. cbn [fst snd put_tracked wf_pending set_clock workflow_clock].
    split; [by apply dict_insert_wf|].
    unfold reports, open_for. destruct (decide (id' = id)) as [->|Hne].
    + rewrite dict_lookup_insert_eq, decide_True by done. destruct esc; cbn; lia.
    + rewrite dict_lookup_insert_ne, decide_False by congruence. simpl. lia.
  - unfold resolve_pending_signal, mbind, st_bind, st_modify, mret, st_ret. cbn [fst snd put_tracked wf_pending].
    split; [by apply dict_delete_wf|]. unfold reports, open_for. destruct (decide (id' = id)) as [->|Hne].
    + rewrite dict_lookup_delete_eq. simpl. lia.
    + rewrite dict_lookup_delete_ne by done. simpl. lia.
  - destruct (check_reports esc id w Hw) as (es & w' & E & Hw' & _ & H). rewrite E. cbn [fst snd]. split; [done|]. lia.
Qed.
Lemma tracks_cons id o os : tracks id (o :: os) = (tracks id [o] + tracks id os)%nat.
Proof. unfold tracks. change (o :: os) with ([o] ++ os). by rewrite filter_app, length_app. Qed.
Lemma run_flow_wf os w : dict_wf (wf_pending w) → dict_wf (wf_pending (run_flow os w).2).
Proof.
  revert w. induction os as [|o os IH]; intros w Hw; cbn [run_flow]; [done|].
  destruct (flow_step true "" o w Hw) as [Hw1 _]. destruct (run_flow_op o w) as [r w1]. specialize (IH w1 Hw1).
  by destruct (run_flow os w1).
Qed.
Lemma flow_bound esc id os w :
  dict_wf (wf_pending w) →
  (reports id (event_name esc) (run_flow os w).1 ≤ open_for esc id (wf_pending w) + tracks id os)%nat.
Proof.
  revert w. induction os as [|o os IH]; intros w Hw; cbn [run_flow]; [unfold reports; simpl; lia|].
  destruct (flow_step esc id o w Hw) as [Hw1 H1]. destruct (run_flow_op o w) as [r w1]. cbn [fst snd] in *.
  specialize (IH w1 Hw1). destruct (run_flow os w1) as [l w2]. cbn [fst] in *. rewrite tracks_cons.
  destruct r as [es|e]; [rewrite reports_app; lia|]. unfold reports in H1 at 1. simpl in H1. lia.
Qed.

(** Each wait is reported at most once.  Over any history of decisions,
    tracking, resolutions and checks, a signal is escalated at most as often
    as it was tracked, and approved automatically at most as often; and a
    check reports a tracked signal exactly when its time and marks say so. *)
Theorem escalated_once (os : list flow_op) (w : workflow) (id : string) :
  wf_pending w = ∅ →
  (reports id "ESCALATED" (run_flow os w).1 ≤ tracks id os)%nat ∧
  (reports id "AUTO_APPROVED" (run_flow os w).1 ≤ tracks id os)%nat ∧
  let w1 := (run_flow os w).2 in
  ∃ es w2, check_pending_signals w1 = (Ok es, w2) ∧
    reports id "ESCALATED" es =
      match wf_pending w1 !! id with
      | Some t => if escalate_due (wf_cfg w1) (epoch_seconds (clk_read (wf_clk w1)).1) t then 1%nat else 0%nat
      | None => 0%nat
      end.
Proof.
  intros Hw. assert (dict_wf (wf_pending w)) as Hwf by (rewrite Hw; apply dict_empty_wf).
  pose proof (flow_bound true id os w Hwf) as H1. pose proof (flow_bound false id os w Hwf) as H2.
  unfold open_for in H1, H2. rewrite Hw in H1, H2. split; [exact H1|]. split; [exact H2|].
  intros w1. destruct (check_reports true id w1 (run_flow_wf os w Hwf)) as (es & w2 & E & _ & H & _). by exists es, w2.
Qed.
End workflow.
Arguments workflow : clear implicits.

(** ** Concrete histories *)

#[local] Instance silent : Escalation unit := {| escalate_callback := λ _ _ _, mret () |}.
Definition demo_workflow (mode : string) (exec : string) (auto : bool) (steps : list Z) : workflow unit :=
  build_workflow (PyDict [("manual_signal_workflow_mode", VStr mode); ("BROKER_API_ENABLED", VBool true);
    ("EXECUTION_MODE", VStr exec); ("manual_signal_auto_escalate", VBool auto)]%string) (Some (demo_queue 0 []))
    (Clock ist_offset ((λ s, s * usec_per_sec) <$> steps)) ().
Definition demo_signal (manual : bool) (score : Z) : signal :=
  Signal manual score "" "NIFTY" "CALL" "breakout" "ops" None.
Definition action_of (w : workflow unit) (s : signal) : option action :=
  match (process_signal s w).1 with Ok d => Some (sd_action d) | Raise _ => None end.
(** In AUTO_WITH_OVERRIDE a manual signal of any score is executed; an
    unknown mode only notifies. *)
Example manual_override_any_score :
  (action_of (demo_workflow "auto_with_override" "live" false []) (demo_signal true 0),
   action_of (demo_workflow "full_auto" "live" false []) (demo_signal true 99)) = (Some EXECUTE, Some NOTIFY_ONLY).
Proof. vm_compute. reflexivity. Qed.
(** The automatic approval is a message: the queue is not told, and the
    signal is escalated later as if it had not been approved. *)
Definition demo_steps : list Z := [130; 200; 10].
Definition demo_flow : list flow_op :=
  [GSignal (demo_signal false 95); GTrack (SignalDecision QUEUE 1 0 (Some demo_id) "") 95 "breakout"; GCheck; GCheck; GCheck].
Example approved_then_escalated :
  let '(es, w) := run_flow demo_flow (demo_workflow "full_manual" "live" true demo_steps) in
  es = [(demo_id, "AUTO_APPROVED"); (demo_id, "ESCALATED")]%string ∧ (q ← wf_queue w; status_of demo_id q) = Some S_PENDING.
Proof. vm_compute. split; reflexivity. Qed.

Lemma routing_safe_witness :
  match process_signal (demo_signal false 85) (demo_workflow "manual_priority" "live" false []) with
  | (Ok d, w') => decided_ok (demo_signal false 85) (demo_workflow "manual_priority" "live" false []) w' d ∧ sd_action d = EXECUTE
  | _ => False
  end.
Proof.
  destruct (process_signal (demo_signal false 85) (demo_workflow "manual_priority" "live" false [])) as [[d|e] w'] eqn:E.
  - split; [exact (routing_safe _ _ _ _ E)|]. vm_compute in E. injection E as <- _. reflexivity.
  - vm_compute in E. discriminate E.
Defined.
Lemma escalated_once_witness : (reports demo_id "ESCALATED" (run_flow demo_flow (demo_workflow "full_manual" "live" true demo_steps)).1 ≤ 1)%nat.
Proof. exact (proj1 (escalated_once demo_flow (demo_workflow "full_manual" "live" true demo_steps) demo_id eq_refl)). Defined.
