(* ===== verification/ExecutionService.v ===== *)
(** * The execution service

    [core/services/execution_service.py]: [execute_order], the single attempt
    behind it, and the wiring of the state machine's persistence hook to the
    durable store.  This is where the other components meet: the gates, the
    idempotency manager and engine, the write-ahead journal, the durable
    store, the registry of machines and the broker. *)
From S2P Require Import Prelude PyStr Float64 PyDict Broker OrderTypes DurableStore ExecState.
From S2P Require Import ExecManager Idempotency WalJournal OperatingMode SafetyState.

(** ** Data *)

(** What a duplicate check can hand back: an [OrderResult], or the text that
    [json.dumps(result, default=str)] left of one in a previous session. *)
Inductive cached := CObj (r : order_result) | CText (s : string).

(** What a broker's [place_order] returns. *)
Inductive placed :=
| PlacedResult (r : order_result)
| PlacedId (order_id : string)
| PlacedOther (type_name : string).

(** The methods of the broker adapter that the service uses; the paper
    trader, which belongs to another part, stands next to them. *)
Class ExecBroker (B : Type) := {
  eb_is_paper : bool;
  eb_place_order : option (order_request → ST B placed);
  eb_get_filled_quantity : option (string → ST B Z);
  eb_get_fill_price : option (string → ST B float64);
  eb_commission : string → order_request → ST B float64;
  eb_paper_execute : order_request → execution_context → ST B order_result
}.

(** The service's parts, apart from the registry of machines. *)
Record xworld (B : Type) := XWorld {
  x_clk : clock;
  x_store : estore;
  x_idem : idem cached;
  x_engine : engine cached;
  x_wal : option wal;
  x_modes : option mode_manager;
  x_safety : safety;
  x_uuids : list string;
  x_counter : Z;
  x_executions : pydict (option order_result);
  x_enable_duplicate_prevention : bool;
  x_enable_audit_trail : bool;
  x_cache_size : Z;
  x_broker : B
}.
Arguments XWorld {B}.
Arguments x_clk {B} x : rename.
Arguments x_store {B} x : rename.
Arguments x_idem {B} x : rename.
Arguments x_engine {B} x : rename.
Arguments x_wal {B} x : rename.
Arguments x_modes {B} x : rename.
Arguments x_safety {B} x : rename.
Arguments x_uuids {B} x : rename.
Arguments x_counter {B} x : rename.
Arguments x_executions {B} x : rename.
Arguments x_enable_duplicate_prevention {B} x : rename.
Arguments x_enable_audit_trail {B} x : rename.
Arguments x_cache_size {B} x : rename.
Arguments x_broker {B} x : rename.

Section setters.
Context {B : Type}.
Implicit Types (x : xworld B).
Definition x_set_clk c x : xworld B :=
  let '(XWorld _ st i e wa mo sa u n ex d a cs b) := x in XWorld c st i e wa mo sa u n ex d a cs b.
Definition x_set_store st x : xworld B :=
  let '(XWorld c _ i e wa mo sa u n ex d a cs b) := x in XWorld c st i e wa mo sa u n ex d a cs b.
Definition x_set_idem i x : xworld B :=
  let '(XWorld c st _ e wa mo sa u n ex d a cs b) := x in XWorld c st i e wa mo sa u n ex d a cs b.
Definition x_set_engine e x : xworld B :=
  let '(XWorld c st i _ wa mo sa u n ex d a cs b) := x in XWorld c st i e wa mo sa u n ex d a cs b.
Definition x_set_wal wa x : xworld B :=
  let '(XWorld c st i e _ mo sa u n ex d a cs b) := x in XWorld c st i e wa mo sa u n ex d a cs b.
Definition x_set_uuids u x : xworld B :=
  let '(XWorld c st i e wa mo sa _ n ex d a cs b) := x in XWorld c st i e wa mo sa u n ex d a cs b.
Definition x_set_counter n x : xworld B :=
  let '(XWorld c st i e wa mo sa u _ ex d a cs b) := x in XWorld c st i e wa mo sa u n ex d a cs b.
Definition x_set_executions ex x : xworld B :=
  let '(XWorld c st i e wa mo sa u n _ d a cs b) := x in XWorld c st i e wa mo sa u n ex d a cs b.
Definition x_set_broker (b : B) x : xworld B :=
  let '(XWorld c st i e wa mo sa u n ex d a cs _) := x in XWorld c st i e wa mo sa u n ex d a cs b.
End setters.

#[global] Instance xworld_clock B : HasClock (xworld B) :=
  {| clock_of := x_clk; set_clock := x_set_clk |}.
#[global] Instance engine_clock V : HasClock (engine V) :=
  {| clock_of := λ e, i_clk (e_manager e);
     set_clock := λ c e, Engine (set_clock c (e_manager e)) (e_cache e) (e_cache_size e)
                           (e_expiry_hours e) |}.

(** The exceptions of the two [except] clauses. *)
Definition service_errors : list exn_class :=
  [PersistenceError; ValueError; OSError; AttributeError; ConnectionError].
Definition attempt_errors : list exn_class := [ValueError; OSError; AttributeError; ConnectionError].

(** [state_map.get(machine.state, UNKNOWN)] of the persistence callback *)
Definition durable_of (s : ExecutionState) : dstate :=
  match s with
  | VALIDATED | PERSISTED => DPENDING
  | SUBMITTED | ACKNOWLEDGED => DSUBMITTED
  | PARTIAL_FILL => DPARTIALLY_FILLED
  | FILLED => DFILLED
  | REJECTED => DREJECTED
  | ExecState.FAILED => DFAILED
  | CANCELLED => DCANCELLED
  | _ => DUNKNOWN
  end.

Section service.
Context {B : Type} `{!ExecBroker B}.
(** [repr] of a float in an f-string, the key generator (a hash of the
    request) and the broker's type. *)
Context (repr_float : float64 → string)
        (generate_key : order_request → execution_context → string)
        (broker_type : BrokerType).

(** Code on one part, which reads the service's clock. *)
Definition on_part {T A} `{HasClock T} (get : xworld B → T) (put : T → xworld B → xworld B)
    (m : ST T A) : ST (xworld B) A := λ x,
  let '(r, t) := m (set_clock (x_clk x) (get x)) in (r, x_set_clk (clock_of t) (put t x)).

Definition on_dstore {A} (m : ST estore A) : ST (xworld B) A := on_part x_store x_set_store m.
Definition on_idem {A} (m : IM cached A) : ST (xworld B) A := on_part x_idem x_set_idem m.
Definition on_engine {A} (m : ST (engine cached) A) : ST (xworld B) A := on_part x_engine x_set_engine m.
Definition on_xbroker {A} (m : ST B A) : ST (xworld B) A := st_zoom x_broker x_set_broker m.

(** [if self._wal_journal is not None: ...] *)
Definition on_wal (m : WM unit) : ST (xworld B) unit := λ x,
  match x_wal x with
  | None => (Ok (), x)
  | Some w =>
      let '(r, w') := m (set_clock (x_clk x) w) in (r, x_set_clk (wl_clk w') (x_set_wal (Some w') x))
  end.

Definition next_uuid : ST (xworld B) string := λ x,
  match x_uuids x with [] => (Ok ""%string, x) | u :: us => (Ok u, x_set_uuids us x) end.

(** [_persistence_callback] *)
Definition persistence_callback (m : machine) : ST (xworld B) unit :=
  st_try
    (on_dstore (update_state (m_intent_id m) (durable_of (m_state m)) (m_broker_order_id m)
                  (m_filled_quantity m) (m_average_price m) (m_error_message m)) ;;
     mret ())
    [KeyError; AttributeError; ValueError; OSError]
    (λ _, mret ()).

(** The calls of the service run on the registry and the rest. *)
Definition ES (A : Type) : Type := ST (manager * xworld B) A.
Definition on_world {A} (m : ST (xworld B) A) : ES A := in_world m.
Definition on_order {A} (k : string) (op : MT (W:=xworld B) A) : ES A := on_machine k op.

(** [_validate_broker_result] *)
Definition validate_broker_result (result : order_result) : ST (xworld B) order_result :=
  let v := validate_order_result repr_float result broker_type in
  if av_is_valid v then mret result
  else
    now ← now_ist;
    mret (rejected (if truthy_str (or_order_id result) then or_order_id result else "validation_failed")
            (Some (String.append "Broker ACK validation failed: "
                     (match av_error_message v with Some e => e | None => "None" end))) now).

(** The result made of an order id, after asking for an immediate fill. *)
Definition placed_id_result (request : order_request) (order_id : string) : ST (xworld B) order_result :=
  filled ← match eb_get_filled_quantity with
           | Some get => on_xbroker (get order_id) | None => mret 0 end;
  price ← match eb_get_fill_price with
          | Some get => on_xbroker (get order_id) | None => mret f_zero end;
  let bid := if truthy_str order_id then Some order_id else None in
  if 0 <? filled then
    commission ← on_xbroker (eb_commission order_id request);
    t1 ← now_ist;
    t2 ← now_ist;
    mret (OrderResult order_id OrderStatus.FILLED filled price commission t1 None bid (Some t2))
  else
    t1 ← now_ist;
    mret (OrderResult order_id
            (if truthy_str order_id then OrderStatus.SUBMITTED else OrderStatus.REJECTED)
            0 f_zero f_zero t1 None bid None).

(** [_attempt_order_execution], without a smart router. *)
Definition attempt_order_execution (request : order_request) (context : execution_context) :
    ST (xworld B) order_result :=
  st_try
    (if bool_decide (cx_execution_mode context = PAPER_MODE) || eb_is_paper then
       on_xbroker (eb_paper_execute request context)
     else
       match eb_place_order with
       | None =>
           now ← now_ist; mret (rejected "" (Some "Broker port has no place_order method"%string) now)
       | Some place_order =>
           p ← on_xbroker (place_order request);
           result ← match p with
                    | PlacedResult r => mret r
                    | PlacedId order_id => placed_id_result request order_id
                    | PlacedOther t =>
                        now ← now_ist;
                        mret (rejected ""
                          (Some (String.append "Broker returned unexpected type: " t)) now)
                    end;
           validate_broker_result result
       end)
    attempt_errors
    (λ e, now ← now_ist; mret (rejected "execution_error" (Some (exn_msg e)) now)).

(** The name of an order in the journal and the durable store. *)
Definition order_intent_id (r : order_request) : string :=
  String.append (rq_symbol r) (String.append "_" (String.append (rq_direction r) (String.append "_"
    (String.append (repr_float (rq_strike_price r)) (String.append "_" (str_of_Z (rq_lot_size r))))))).

Definition finished_states : list ExecutionState := [FILLED; REJECTED; CANCELLED; ExecState.FAILED].

(** What happens to the machine after a result. *)
Definition settle_machine (k : string) (request : order_request) (result : order_result) : ES unit :=
  match or_status result with
  | OrderStatus.FILLED =>
      st_try
        (on_order k (try_transition_to persistence_callback PERSISTED) ;;
         let broker_id :=
           str_or (or_broker_order_id result)
             (if truthy_str (or_order_id result) then or_order_id result else k) in
         on_order k (record_submission persistence_callback broker_id) ;;
         on_order k (record_acknowledgment persistence_callback) ;;
         mret ())
        [ValueError; TypeError; AttributeError]
        (λ _, mret ()) ;;
      on_order k (record_fill persistence_callback (rq_lot_size request) (rq_strike_price request)) ;;
      mret ()
  | OrderStatus.PARTIALLY_FILLED =>
      on_order k (record_partial_fill persistence_callback (or_filled_quantity result) f_zero) ;; mret ()
  | OrderStatus.REJECTED =>
      on_order k (try_transition_to persistence_callback REJECTED) ;; mret ()
  | OrderStatus.SUBMITTED =>
      on_order k (record_submission persistence_callback
        (if truthy_str (or_order_id result) then or_order_id result else "unknown")) ;; mret ()
  | _ =>
      on_order k (try_transition_to persistence_callback ExecState.FAILED) ;; mret ()
  end.

(** [_execute_with_retries] after its guards: the one attempt on the machine
    [k]. *)
Definition attempt_once (k : string) (request : order_request) (context : execution_context) :
    ES order_result :=
  on_order k (try_transition_to persistence_callback VALIDATED) ;;
  st_try
    (result ← on_world (attempt_order_execution request context);
     settle_machine k request result ;;
     mret result)
    service_errors
    (λ e,
      on_order k (try_transition_to persistence_callback ExecState.FAILED) ;;
      now ← on_world now_ist;
      mret (rejected "execution_failed" (Some (String.append "Execution failed: " (exn_msg e))) now)).

(** The machine of the order and the in-progress check. *)
Definition execute_on_machine (request : order_request) (context : execution_context) : ES order_result :=
  let intent_id := str_or (rq_idempotency_key request) (order_intent_id request) in
  mn ← create_or_get intent_id (rq_symbol request) (rq_lot_size request)
         (rq_strike_price request) (rq_direction request);
  let '(m, is_new) := (mn : machine * bool) in
  if negb is_new && negb (bool_decide (m_state m ∈ finished_states)) then
    now ← on_world now_ist;
    mret (rejected (m_client_order_id m)
      (Some (String.append "Duplicate order blocked - order already in "
               (String.append (state_value (m_state m)) " state"))) now)
  else attempt_once (m_client_order_id m) request context.

(** [_execute_with_retries] *)
Definition execute_with_retries (request : order_request) (context : execution_context) :
    ES order_result :=
  halted ← on_world (st_gets (λ x, sf_halt (x_safety x)));
  if halted : bool then
    now ← on_world now_ist; mret (rejected "" (Some "Hard halt active"%string) now)
  else execute_on_machine request context.

(** [_trim_executions_cache] and [record_execution_audit], without a trade
    persistence. *)
Definition trim_executions (max_size : Z) (d : pydict (option order_result)) : pydict (option order_result) :=
  if max_size <? dlen d then
    let remove_count :=
      Z.max (match f_trunc (fmul (f_of_Z max_size) (f_of_ratio 1 5)) with Some n => n | None => 0 end) 50 in
    PyDict (drop (Z.to_nat remove_count) (items d))
  else d.

Definition record_execution_audit (execution_id : string) (r : order_result) : ST (xworld B) unit :=
  st_modify (λ x,
    if x_enable_audit_trail x then
      x_set_executions (trim_executions (x_cache_size x) (<[execution_id := Some r]> (x_executions x))) x
    else x).

(** [execute_order] after the idempotency key is known. *)
Definition execution_id_of (counter t : Z) : string :=
  String.append "exec_" (String.append (str_of_Z counter) (String.append "_"
    (str_of_Z (match f_trunc (epoch_seconds t) with Some n => n | None => 0 end)))).

Definition wal_intent (request : order_request) : intent :=
  {| in_intent_id := order_intent_id request; in_action := "place_order";
     in_params := [("symbol", JStr (rq_symbol request)); ("direction", JStr (rq_direction request));
                   ("qty", JInt (rq_lot_size request));
                   ("strike", JNum (rq_strike_price request));
                   ("order_type", JStr (rq_order_type request))];
     in_risk_verdict := None; in_config_snapshot_hash := ""; in_correlation_id := "";
     in_status := IntentStatus.PENDING; in_created_at := None; in_committed_at := None;
     in_failed_at := None; in_error_message := "" |}.

(** The part under the lock: the journal entry, the duplicate check, the
    durable record and the in-flight mark; [inl] is an early return. *)
Definition reserve (request : order_request) (key : string) : ES (cached + string) :=
  t ← on_world now_ist;
  counter ← on_world (st_gets x_counter);
  on_world (st_modify (x_set_counter (counter + 1))) ;;
  let execution_id := execution_id_of counter t in
  let intent_id := order_intent_id request in
  uuid ← on_world next_uuid;
  on_world (on_wal (WalJournal.append (wal_intent request) uuid)) ;;
  enabled ← on_world (st_gets x_enable_duplicate_prevention);
  dup ← (if enabled : bool then on_world (on_idem (idem_is_duplicate key)) else mret false);
  if dup : bool then
    on_world (on_wal (WalJournal.fail intent_id "Duplicate order detected")) ;;
    r ← on_world (on_idem (idem_get_result key));
    match r with
    | Some c => mret (inl c)
    | None =>
        now ← on_world now_ist;
        mret (inl (CObj (rejected "duplicate" (Some "Duplicate order detected"%string) now)))
    end
  else
    created ← on_world now_ist;
    updated ← on_world now_ist;
    on_world (on_dstore (save_execution
      (DRecord intent_id execution_id (rq_symbol request) (rq_direction request) (rq_lot_size request)
         (rq_strike_price request) DPENDING None 0 f_zero None created updated 0))) ;;
    on_world (on_idem (mark_in_flight key)) ;;
    mret (inr execution_id).

(** The bookkeeping after an attempt that returned. *)
Definition conclude (request : order_request) (key execution_id : string) (r : order_result) : ES cached :=
  let intent_id := order_intent_id request in
  if bool_decide (or_status r ∈ [OrderStatus.FILLED; OrderStatus.PARTIALLY_FILLED]) then
    on_world (on_wal (WalJournal.commit intent_id)) ;;
    on_world (on_idem (confirm_execution key (CObj r))) ;;
    on_world (st_try (on_engine (engine_store_result key (CObj r))) [KeyError; ValueError; OSError]
                (λ _, mret ())) ;;
    on_world (on_dstore (update_state intent_id
      (if bool_decide (or_status r = OrderStatus.FILLED) then DFILLED else DPARTIALLY_FILLED)
      (or_broker_order_id r) (or_filled_quantity r) (or_average_price r) None)) ;;
    on_world (record_execution_audit execution_id r) ;;
    mret (CObj r)
  else
    on_world (on_wal (WalJournal.fail intent_id (str_or (or_reject_reason r) "Order rejected"))) ;;
    on_world (on_dstore (update_state intent_id
      (if bool_decide (or_status r = OrderStatus.REJECTED) then DREJECTED else DFAILED)
      None 0 f_zero (or_reject_reason r))) ;;
    on_world (record_execution_audit execution_id r) ;;
    mret (CObj r).

(** [execute_order] once the gate is passed and the key is set. *)
Definition execute_keyed (request : order_request) (context : execution_context) (key : string) : ES cached :=
  reserved ← reserve request key;
  match reserved with
  | inl c => mret c
  | inr execution_id =>
      t0 ← on_world now_ist;
      st_try
        (r ← execute_with_retries request context;
         t1 ← on_world now_ist;
         conclude request key execution_id r)
        service_errors
        (λ e,
          on_world (on_wal (WalJournal.fail (order_intent_id request) (exn_msg e))) ;;
          on_world (on_idem (idem_clear_in_flight key)) ;;
          on_world (on_dstore (clear_in_flight (order_intent_id request)) ;; mret ()) ;;
          t1 ← on_world now_ist;
          now ← on_world now_ist;
          let r := rejected "error" (Some (String.append "Execution service error: " (exn_msg e))) now in
          on_world (record_execution_audit execution_id r) ;;
          mret (CObj r))
  end.

(** [execute_order]; the manual-approval branch of the gate only logs. *)
Definition execute_order (request : order_request) (context : option execution_context) : ES cached :=
  gate ← on_world (st_gets x_modes);
  match gate with
  | Some mm =>
      if negb (allows_execution mm).1 then
        now ← on_world now_ist;
        mret (Some (rejected "blocked" (Some (String.append "BLOCKED_" (allows_execution mm).2)) now))
      else mret None
  | None => mret None
  end ≫= λ blocked,
  match blocked with
  | Some r => mret (CObj r)
  | None =>
      let context := match context with Some c => c | None => default_context end in
      let key := str_or (rq_idempotency_key request) (generate_key request context) in
      execute_keyed (with_key key request) context key
  end.
End service.

(** ** What the bookkeeping leaves alone *)

Section frames.
Context {B : Type} `{!ExecBroker B}.
Context (repr_float : float64 → string)
        (generate_key : order_request → execution_context → string)
        (broker_type : BrokerType).
Implicit Types (x : xworld B) (g : manager).

(** The registry, the broker and the gates are as before. *)
Definition aside x x' : Prop :=
  x_broker x' = x_broker x ∧ x_safety x' = x_safety x ∧ x_modes x' = x_modes x.
Definition untouched (gx gx' : manager * xworld B) : Prop := gx'.1 = gx.1 ∧ aside gx.2 gx'.2.

#[global] Instance aside_preorder : PreOrder aside.
Proof. split; [by intros ?|]. intros ??? (?&?&?) (?&?&?). split_and!; congruence. Qed.
#[global] Instance untouched_preorder : PreOrder untouched.
Proof.
  split; [by intros ?|]. intros ??? [H1 ?] [H2 ?]. split; [congruence|by etransitivity].
Qed.

Lemma on_world_untouched {A} (m : ST (xworld B) A) : st_rel aside m → st_rel untouched (on_world m).
Proof.
  intros Hm [g x]. specialize (Hm x). unfold on_world, in_world, st_zoom. simpl.
  by destruct (m x) as [r x'].
Qed.

Lemma now_aside : st_rel aside (now_ist (W:=xworld B)).
Proof. intros x. rewrite now_ist_total. by destruct x. Qed.
Lemma on_dstore_aside {A} (m : ST estore A) : st_rel aside (on_dstore (B:=B) m).
Proof. intros x. unfold on_dstore, on_part. destruct (m _). by destruct x. Qed.
Lemma on_idem_aside {A} (m : IM cached A) : st_rel aside (on_idem (B:=B) m).
Proof. intros x. unfold on_idem, on_part. destruct (m _). by destruct x. Qed.
Lemma on_engine_aside {A} (m : ST (engine cached) A) : st_rel aside (on_engine (B:=B) m).
Proof. intros x. unfold on_engine, on_part. destruct (m _). by destruct x. Qed.
Lemma on_wal_aside (m : WM unit) : st_rel aside (on_wal (B:=B) m).
Proof. intros x. unfold on_wal. destruct (x_wal x); [|done]. destruct (m _). by destruct x. Qed.
Lemma next_uuid_aside : st_rel aside (next_uuid (B:=B)).
Proof. intros x. unfold next_uuid. destruct (x_uuids x); [done|]. by destruct x. Qed.
Lemma set_counter_aside (f : xworld B → Z) : st_rel aside (st_modify (λ x, x_set_counter (f x) x)).
Proof. intros x. by destruct x. Qed.
Lemma audit_aside eid r : st_rel aside (record_execution_audit (B:=B) eid r).
Proof. intros x. unfold record_execution_audit, st_modify. simpl. by destruct (x_enable_audit_trail x), x. Qed.
Lemma st_lift_aside {A} (f : xworld B → A) : st_rel aside (st_gets f).
Proof. apply st_rel_gets. apply _. Qed.
End frames.

(** Bookkeeping, by its parts. *)
Ltac aside_tac :=
  repeat first
    [ apply st_rel_ret; typeclasses eauto
    | apply on_world_untouched
    | apply now_aside
    | apply on_dstore_aside
    | apply on_idem_aside
    | apply on_engine_aside
    | apply on_wal_aside
    | apply next_uuid_aside
    | apply (set_counter_aside (λ _, _))
    | apply audit_aside
    | apply st_rel_gets; typeclasses eauto
    | apply st_rel_bind; [typeclasses eauto| |intros ?]
    | apply st_rel_try; [typeclasses eauto| |intros ?]
    | case_match ].

Section guards.
Context {B : Type} `{!ExecBroker B}.
Context (repr_float : float64 → string)
        (generate_key : order_request → execution_context → string)
        (broker_type : BrokerType).
Implicit Types (x : xworld B) (g : manager).

Lemma reserve_untouched request key :
  st_rel (untouched (B:=B)) (reserve repr_float request key).
Proof. unfold reserve. aside_tac. Qed.

Lemma conclude_untouched request key eid r :
  st_rel (untouched (B:=B)) (conclude repr_float request key eid r).
Proof. unfold conclude. aside_tac. Qed.

(** When the attempt leaves everything aside, so does the whole call. *)
Lemma execute_keyed_untouched request context key (P : manager * xworld B → Prop) :
  (∀ gx gx', untouched gx gx' → P gx → P gx') →
  (∀ gx, P gx → untouched gx (execute_with_retries repr_float broker_type request context gx).2) →
  ∀ gx, P gx → untouched gx (execute_keyed repr_float broker_type request context key gx).2.
Proof.
  intros HP Hex gx Hgx. unfold execute_keyed.
  pose proof (reserve_untouched request key gx) as H1.
  unfold mbind at 1, st_bind at 1. destruct (reserve _ _ _ gx) as [[[c0|eid]|e] gx1]; [done| |done].
  cbn [snd] in H1. assert (P gx1) as P1 by by eapply HP.
  assert (st_rel untouched (on_world (now_ist (W:=xworld B)))) as Hnow by aside_tac.
  specialize (Hnow gx1). unfold mbind at 1, st_bind at 1.
  destruct (on_world now_ist gx1) as [[t0|e] gx2]; cbn [snd] in Hnow; [|by etransitivity].
  etransitivity; [exact H1|]. etransitivity; [exact Hnow|].
  assert (P gx2) as P2 by by eapply HP.
  specialize (Hex gx2 P2). unfold st_try, mbind at 1, st_bind at 1.
  destruct (execute_with_retries _ _ _ _ gx2) as [[r|e] gx3]; cbn [snd] in Hex.
  - match goal with |- context [?m gx3] =>
      assert (st_rel untouched m) as Hm by (aside_tac; apply conclude_untouched);
      specialize (Hm gx3); destruct (m gx3) as [[o|e] gx4] end; cbn [snd] in Hm.
    + by etransitivity.
    + destruct (catches service_errors e); [|by etransitivity].
      etransitivity; [exact Hex|]. etransitivity; [exact Hm|].
      match goal with |- context [?m gx4] => assert (st_rel untouched m) as Hh by aside_tac; apply Hh end.
  - destruct (catches service_errors e); [|done]. etransitivity; [exact Hex|].
    match goal with |- context [?m gx3] => assert (st_rel untouched m) as Hh by aside_tac; apply Hh end.
Qed.

(** The gate: a refusal changes nothing but the clock. *)
Lemma execute_order_eq request context g x :
  execute_order repr_float generate_key broker_type request context (g, x) =
  match x_modes x with
  | Some mm =>
      if (allows_execution mm).1 then
        let c := match context with Some c => c | None => default_context end in
        let key := str_or (rq_idempotency_key request) (generate_key request c) in
        execute_keyed repr_float broker_type (with_key key request) c key (g, x)
      else
        (Ok (CObj (rejected "blocked" (Some (String.append "BLOCKED_" (allows_execution mm).2))
                     (clk_read (x_clk x)).1)), (g, x_set_clk (clk_read (x_clk x)).2 x))
  | None =>
      let c := match context with Some c => c | None => default_context end in
      let key := str_or (rq_idempotency_key request) (generate_key request c) in
      execute_keyed repr_float broker_type (with_key key request) c key (g, x)
  end.
Proof.
  unfold execute_order. unfold mbind at 1, st_bind at 1. unfold mbind at 1, st_bind at 1.
  unfold on_world at 1, in_world, st_zoom, st_gets. cbn [fst snd].
  destruct (x_modes x) as [mm|]; [|done]. destruct (allows_execution mm) as [[] msg]; [done|]. cbn [fst snd negb].
  unfold mbind, st_bind, on_world, in_world, st_zoom. cbn [fst snd]. by rewrite now_ist_total.
Qed.

(** A request that carries its key keeps it. *)
Lemma key_given request c key :
  rq_idempotency_key request = Some key → truthy_str key = true →
  str_or (rq_idempotency_key request) (generate_key request c) = key.
Proof. intros -> Hk. unfold str_or. by rewrite Hk. Qed.

Lemma with_key_truthy key request d :
  truthy_str key = true → str_or (rq_idempotency_key (with_key key request)) d = key.
Proof. intros Hk. unfold str_or. simpl. by rewrite Hk. Qed.

Lemma on_now_eq g x : on_world now_ist (g, x) = (Ok (clk_read (x_clk x)).1, (g, x_set_clk (clk_read (x_clk x)).2 x)).
Proof. unfold on_world, in_world, st_zoom. cbn [fst snd]. by rewrite now_ist_total. Qed.

Lemma retries_eq request c g x :
  execute_with_retries repr_float broker_type request c (g, x) =
  if sf_halt (x_safety x) then
    (Ok (rejected "" (Some "Hard halt active"%string) (clk_read (x_clk x)).1),
     (g, x_set_clk (clk_read (x_clk x)).2 x))
  else execute_on_machine repr_float broker_type request c (g, x).
Proof.
  unfold execute_with_retries, mbind at 1, st_bind at 1.
  change (on_world (st_gets (λ x : xworld B, sf_halt (x_safety x))) (g, x))
    with (Ok (sf_halt (x_safety x)), (g, x)). cbn beta iota.
  destruct (sf_halt (x_safety x)); [|done]. unfold mbind, st_bind. by rewrite on_now_eq.
Qed.

Lemma on_machine_request_eq request c key g x :
  truthy_str key = true →
  execute_on_machine repr_float broker_type (with_key key request) c (g, x) =
  match create_or_get key (rq_symbol request) (rq_lot_size request) (rq_strike_price request)
          (rq_direction request) (g, x) with
  | (Ok (m, is_new), (g1, x1)) =>
      if negb is_new && negb (bool_decide (m_state m ∈ finished_states)) then
        (Ok (rejected (m_client_order_id m)
           (Some (String.append "Duplicate order blocked - order already in "
                    (String.append (state_value (m_state m)) " state"))) (clk_read (x_clk x1)).1),
         (g1, x_set_clk (clk_read (x_clk x1)).2 x1))
      else attempt_once repr_float broker_type (m_client_order_id m) (with_key key request) c (g1, x1)
  | (Raise e, s) => (Raise e, s)
  end.
Proof.
  intros Hk. unfold execute_on_machine. rewrite with_key_truthy by done.
  cbn [rq_symbol rq_lot_size rq_strike_price rq_direction with_key].
  unfold mbind at 1, st_bind at 1. destruct (create_or_get _ _ _ _ _ (g, x)) as [[[m n]|e] [g1 x1]]; [|done].
  destruct (negb n && _); [|done]. unfold mbind, st_bind. by rewrite on_now_eq.
Qed.

(** The halt gate. *)
Lemma retries_halted request c g x :
  sf_halt (x_safety x) = true →
  untouched (g, x) (execute_with_retries repr_float broker_type request c (g, x)).2.
Proof. intros Hh. rewrite retries_eq, Hh. split; [done|]. by destruct x. Qed.

(** The in-progress check. *)
Lemma retries_in_progress request c key g x m :
  truthy_str key = true →
  g_machines g !! generate_client_order_id key = Some m → m_state m ∉ finished_states →
  untouched (g, x)
    (execute_with_retries repr_float broker_type (with_key key request) c (g, x)).2.
Proof.
  intros Hk Hm Hs. rewrite retries_eq. destruct (sf_halt (x_safety x)); [split; [done|]; by destruct x|].
  rewrite on_machine_request_eq, create_or_get_eq, Hm by done. cbn [negb andb].
  rewrite bool_decide_eq_false_2 by done. split; [done|]. by destruct x.
Qed.
End guards.

(** An order in progress is not sent again: while the registry holds a
    machine for the order's key in a state that is not finished, executing
    an order with that key places nothing at the broker and touches no
    machine, whatever the clock, the database failures, the duplicate
    caches, the journal and the mode are. *)
Theorem order_in_progress_blocks {B} `{!ExecBroker B} (repr_float : float64 → string)
    (generate_key : order_request → execution_context → string) (broker_type : BrokerType)
    (request : order_request) (context : option execution_context) (key : string)
    (g : manager) (x : xworld B) (m : machine) :
  rq_idempotency_key request = Some key → truthy_str key = true →
  g_machines g !! generate_client_order_id key = Some m → m_state m ∉ finished_states →
  untouched (g, x) (execute_order repr_float generate_key broker_type request context (g, x)).2.
Proof.
  intros Hrq Hk Hm Hs. rewrite execute_order_eq. cbv zeta. rewrite (key_given _ _ _ key Hrq Hk).
  assert (∀ c, untouched (g, x) (execute_keyed repr_float broker_type (with_key key request) c key (g, x)).2)
    as Hex.
  { intros c. apply (execute_keyed_untouched _ _ _ _ _ (λ gx, gx.1 = g)).
    - intros gx gx' [H _] <-. done.
    - intros [g1 x1]. simpl. intros ->. by eapply retries_in_progress.
    - done. }
  destruct (x_modes x) as [mm|]; [|apply Hex]. destruct (allows_execution mm).1; [apply Hex|].
  split; [done|]. by destruct x.
Qed.

(** No order passes the gates: with the hard halt active, or in a mode that
    does not allow execution, [execute_order] places nothing and touches no
    machine; a mode that refuses also leaves the durable store, the journal
    and the idempotency caches alone and answers REJECTED. *)
Theorem gates_stop_orders {B} `{!ExecBroker B} (repr_float : float64 → string)
    (generate_key : order_request → execution_context → string) (broker_type : BrokerType)
    (request : order_request) (context : option execution_context) (g : manager) (x : xworld B) :
  let out := execute_order repr_float generate_key broker_type request context (g, x) in
  (sf_halt (x_safety x) = true → untouched (g, x) out.2) ∧
  (∀ mm, x_modes x = Some mm → om_mode mm ∈ [SIGNAL_ONLY; BACKTEST] →
     out.2 = (g, x_set_clk (clk_read (x_clk x)).2 x) ∧
     ∃ r, out.1 = Ok (CObj r) ∧ or_status r = OrderStatus.REJECTED).
Proof.
  cbv zeta. rewrite execute_order_eq. cbv zeta. split.
  - intros Hh. match goal with |- context [execute_keyed _ _ ?r ?c ?k _] =>
      assert (untouched (g, x) (execute_keyed repr_float broker_type r c k (g, x)).2) as Hex end.
    { apply (execute_keyed_untouched _ _ _ _ _ (λ gx, sf_halt (x_safety gx.2) = true)).
      - intros gx gx' (_ & _ & -> & _) ?. done.
      - intros [g1 x1] ?. by apply retries_halted.
      - done. }
    destruct (x_modes x) as [mm|]; [|done]. destruct (allows_execution mm).1; [done|].
    split; [done|]. by destruct x.
  - intros mm -> Hmm. assert ((allows_execution mm).1 = false) as ->.
    { unfold allows_execution. rewrite !elem_of_cons, elem_of_nil in Hmm.
      by destruct Hmm as [->|[->|[]]]. }
    split; [done|]. eexists; by split.
Qed.

(** ** The duplicate check *)

(** No reading of the clock still to come is later than [T]. *)
Definition clock_within (T : Z) (c : clock) : Prop :=
  forward c ∧ clk_now c + foldr Z.add 0 (clk_steps c) ≤ T.

Lemma foldr_nonneg l : Forall (λ d, 0 ≤ d) l → 0 ≤ foldr Z.add 0 l.
Proof. induction 1; simpl; lia. Qed.

Lemma clock_within_read T c :
  clock_within T c → clock_within T (clk_read c).2 ∧ clk_now c ≤ T ∧ clk_now (clk_read c).2 ≤ T.
Proof.
  intros [Hf Hle]. pose proof (foldr_nonneg _ Hf). destruct (clk_read_forward c Hf) as (Hf' & _ & _).
  unfold clock_within. split; [split; [done|]|].
  - unfold clk_read. destruct (clk_steps c) as [|d ds] eqn:E; simpl; [by rewrite E|]. simpl in Hle. lia.
  - split; [lia|]. unfold clk_read. destruct (clk_steps c) as [|d ds] eqn:E; simpl in *; [lia|].
    unfold forward in Hf. rewrite E in Hf. apply Forall_cons in Hf as [_ Hds].
    pose proof (foldr_nonneg _ Hds). lia.
Qed.

Lemma write_clock o w : wl_clk (WalJournal.write o w).2 = wl_clk w.
Proof.
  unfold WalJournal.write, submit, mbind, st_bind, st_get. destruct (_ <=? _)%nat; [|done].
  unfold fallback_execute, mbind, st_bind, wal_db, st_zoom. simpl. by destruct (db_run _ (wl_db w)) as [[n|e] d].
Qed.

Lemma append_within T i u w :
  clock_within T (wl_clk w) → clock_within T (wl_clk (WalJournal.append i u w).2).
Proof.
  intros H. unfold WalJournal.append, mbind, st_bind. destruct (in_created_at i) as [t|].
  - unfold mret, st_ret. by rewrite write_clock.
  - rewrite now_ist_total, write_clock. by apply clock_within_read.
Qed.

(** The journal's failure mark reads the clock once. *)
Lemma fail_within T k e w :
  clock_within T (wl_clk w) → clock_within T (wl_clk (WalJournal.fail k e w).2).
Proof.
  intros H. unfold WalJournal.fail, mbind, st_bind. rewrite now_ist_total, write_clock.
  by apply clock_within_read.
Qed.

(** The manager has an entry for the key that is alive up to [T]: with
    [Some v] the result of an earlier execution, with [None] only the mark of
    one that is in flight. *)
Definition spoken_for (key : string) (v : option cached) (T : Z) (s : idem cached) : Prop :=
  dict_wf (i_cache s) ∧ dict_wf (i_in_flight s) ∧
  match v with
  | Some v => ∃ t, i_cache s !! key = Some (t, v) ∧ T ≤ t + i_expiry_hours s * usec_per_hour
  | None => i_cache s !! key = None ∧ ∃ t, i_in_flight s !! key = Some t ∧ T ≤ t + usec_per_hour
  end.

(** What [execute_order] answers for such a key. *)
Definition duplicate_answer (v : option cached) (c : cached) : Prop :=
  match v with
  | Some v => c = v
  | None => ∃ now, c = CObj (rejected "duplicate" (Some "Duplicate order detected"%string) now)
  end.

(** The operating mode lets the order through. *)
Definition gate_open {B} (x : xworld B) : Prop :=
  match x_modes x with Some mm => (allows_execution mm).1 = true | None => True end.

Lemma spoken_cleaned key v T s :
  spoken_for key v T s → clock_within T (i_clk s) →
  spoken_for key v T (cleaned s) ∧ clock_within T (i_clk (cleaned s)).
Proof.
  intros (Hc & Hf & H) Hw. unfold cleaned. destruct (clock_within_read _ _ Hw) as (Hw1 & _ & _).
  pose proof (clock_within_read _ _ Hw) as (_ & H1 & _).
  destruct (clock_within_read _ _ Hw1) as (Hw2 & _ & H2).
  pose proof (clk_read_forward _ (proj1 Hw)) as (_ & _ & Ht1).
  pose proof (clk_read_forward _ (proj1 Hw1)) as (_ & _ & Ht2).
  destruct (clock_within_read _ _ Hw) as (_ & _ & H3).
  destruct (clk_read (i_clk s)) as [now c1]. cbn [fst snd] in *.
  destruct (clk_read c1) as [now' c2]. cbn [fst snd] in *.
  split; [|done]. unfold spoken_for. cbn [i_cache i_in_flight i_expiry_hours].
  split; [by apply dict_filter_wf|]. split; [by apply dict_filter_wf|].
  rewrite !dict_filter_lookup by done. destruct v as [v|].
  - destruct H as (t & Ht & Hle). exists t. split; [|done]. rewrite Ht. cbn.
    by rewrite (proj2 (Z.ltb_ge _ _)) by lia.
  - destruct H as (-> & t & Ht & Hle). split; [done|]. exists t. split; [|done]. rewrite Ht.
    by rewrite (proj2 (Z.ltb_ge _ _)) by lia.
Qed.

Lemma spoken_duplicate key v T s :
  spoken_for key v T s → clock_within T (i_clk s) → idem_is_duplicate key s = (Ok true, cleaned s).
Proof.
  intros Hs Hw. destruct (spoken_cleaned _ _ _ _ Hs Hw) as [(_ & _ & H) _].
  unfold idem_is_duplicate, mbind, st_bind. rewrite idem_cleanup_eq. unfold st_get, mret, st_ret.
  do 2 f_equal. apply orb_true_iff. rewrite !dmem_true. destruct v as [v|].
  - destruct H as (t & Ht & _). left. eauto.
  - destruct H as (_ & t & Ht & _). right. eauto.
Qed.

Lemma spoken_result key v T s :
  spoken_for key v T s → clock_within T (i_clk s) → idem_get_result key s = (Ok v, cleaned s).
Proof.
  intros Hs Hw. destruct (spoken_cleaned _ _ _ _ Hs Hw) as [(_ & _ & H) _].
  unfold idem_get_result, mbind, st_bind. rewrite idem_cleanup_eq. unfold st_get, mret, st_ret.
  do 2 f_equal. destruct v as [v|]; [by destruct H as (t & -> & _)|by destruct H as (-> & _)].
Qed.

Section duplicates.
Context {B : Type} `{!ExecBroker B}.
Context (repr_float : float64 → string)
        (generate_key : order_request → execution_context → string)
        (broker_type : BrokerType).
Implicit Types (x : xworld B) (g : manager).

(** One step of the service's code. *)
Lemma wp_world {A} (m : ST (xworld B) A) g x Q :
  st_wp m x (λ r x', Q r (g, x')) → st_wp (on_world m) (g, x) Q.
Proof. intros H. by apply wp_zoom. Qed.

Lemma wp_now g x Q :
  Q (Ok (clk_read (x_clk x)).1) (g, x_set_clk (clk_read (x_clk x)).2 x) →
  st_wp (on_world now_ist) (g, x) Q.
Proof. intros H. eapply wp_eq; [apply on_now_eq|done]. Qed.

Lemma wp_part {T A} `{HasClock T} (get : xworld B → T) (put : T → xworld B → xworld B)
    (m : ST T A) x Q :
  st_wp m (set_clock (x_clk x) (get x)) (λ r t, Q r (x_set_clk (clock_of t) (put t x))) →
  st_wp (on_part get put m) x Q.
Proof. unfold st_wp, on_part. by destruct (m _). Qed.

Lemma wp_gets {A} (f : xworld B → A) g x Q :
  Q (Ok (f x)) (g, x) → st_wp (on_world (st_gets f)) (g, x) Q.
Proof. done. Qed.
Lemma wp_counter (n : Z) g x Q :
  Q (Ok ()) (g, x_set_counter n x) → st_wp (on_world (st_modify (x_set_counter n))) (g, x) Q.
Proof. done. Qed.
Lemma wp_uuid g x Q :
  (∀ v u, Q (Ok v) (g, x_set_uuids u x)) → st_wp (on_world next_uuid) (g, x) Q.
Proof.
  intros H. apply wp_world. unfold st_wp, next_uuid. destruct (x_uuids x) as [|u us] eqn:E; [|apply H].
  specialize (H ""%string []). rewrite <- E in H. by destruct x.
Qed.
Lemma wp_idem {A} (m : IM cached A) g x Q :
  st_wp m (set_clock (x_clk x) (x_idem x)) (λ r i, Q r (g, x_set_clk (i_clk i) (x_set_idem i x))) →
  st_wp (on_world (on_idem m)) (g, x) Q.
Proof. intros H. by apply wp_world, wp_part. Qed.
Lemma wp_dstore {A} (m : ST estore A) g x Q :
  st_wp m (set_clock (x_clk x) (x_store x)) (λ r w, Q r (g, x_set_clk (es_clk w) (x_set_store w x))) →
  st_wp (on_world (on_dstore m)) (g, x) Q.
Proof. intros H. by apply wp_world, wp_part. Qed.

(** A call on the journal moves the journal and the clock, and raises only
    when there is one. *)
Lemma wp_wal (m : WM unit) g x Q :
  (x_wal x = None → Q (Ok ()) (g, x)) →
  (∀ w, x_wal x = Some w →
     st_wp m (set_clock (x_clk x) w) (λ r w', Q r (g, x_set_clk (wl_clk w') (x_set_wal (Some w') x)))) →
  st_wp (on_world (on_wal m)) (g, x) Q.
Proof.
  intros Hn Hs. apply wp_world. unfold st_wp, on_wal in *. destruct (x_wal x) as [w|]; [|by apply Hn].
  specialize (Hs w eq_refl). by destruct (m _).
Qed.

(** What the steps up to the duplicate check leave as it is. *)
Definition awaiting (key : string) (v : option cached) (T : Z) (j : bool) x : Prop :=
  spoken_for key v T (x_idem x) ∧ clock_within T (x_clk x) ∧
  x_enable_duplicate_prevention x = true ∧ (is_Some (x_wal x) → j = true).

Lemma awaiting_read key v T j x :
  awaiting key v T j x → awaiting key v T j (x_set_clk (clk_read (x_clk x)).2 x).
Proof.
  intros (Hs & Hc & He & Hw). destruct x. split_and!; try done. by apply clock_within_read.
Qed.

Lemma awaiting_wal key v T j (m : WM unit) g x (Q : res unit → manager * xworld B → Prop) :
  (∀ w, clock_within T (wl_clk w) → clock_within T (wl_clk (m w).2)) →
  awaiting key v T j x →
  (∀ x', awaiting key v T j x' → Q (Ok ()) (g, x')) →
  (∀ e x', j = true → Q (Raise e) (g, x')) →
  st_wp (on_world (on_wal m)) (g, x) Q.
Proof.
  intros Hm (Hs & Hc & He & Hj) Hok Herr. apply wp_wal; [intros _; by apply Hok|].
  intros w Hw. specialize (Hm (set_clock (x_clk x) w) Hc). unfold st_wp.
  assert (j = true) as -> by (apply Hj; rewrite Hw; by eexists).
  destruct (m _) as [[[]|e] w']; cbn [fst snd] in *; [|by apply Herr].
  apply Hok. destruct x. by split_and!.
Qed.

Lemma awaiting_idem key v T j (s : idem cached) x :
  awaiting key v T j x → spoken_for key v T s ∧ clock_within T (i_clk s) →
  awaiting key v T j (x_set_clk (i_clk s) (x_set_idem s x)).
Proof. intros (_ & _ & He & Hj) [Hs Hc]. destruct x. by split_and!. Qed.

Lemma awaiting_at key v T j x :
  awaiting key v T j x →
  spoken_for key v T (set_clock (x_clk x) (x_idem x)) ∧ clock_within T (i_clk (set_clock (x_clk x) (x_idem x))).
Proof. intros (Hs & Hc & _). by destruct x as [? ? [] ? ? ? ? ? ? ? ? ? ? ?]. Qed.

(** The reservation of such a key ends early, with the answer. *)
Lemma reserve_duplicate request key v T j g x :
  awaiting key v T j x →
  st_wp (reserve repr_float request key) (g, x) (λ r _,
    match r with
    | Ok (inl c) => duplicate_answer v c
    | Ok (inr _) => False
    | Raise _ => j = true
    end).
Proof.
  intros H. unfold reserve. apply wp_bind, wp_now. apply awaiting_read in H.
  apply wp_bind, wp_gets, wp_bind, wp_counter, wp_bind, wp_uuid. intros uid us.
  set (x1 := x_set_uuids us _). assert (awaiting key v T j x1) as H1 by by destruct x.
  clearbody x1. apply wp_bind. eapply awaiting_wal; [intros w; apply append_within|exact H1| |done].
  intros x2 H2. apply wp_bind, wp_gets. destruct H2 as (Hs & Hc & He & Hj). rewrite He.
  pose proof (conj Hs (conj Hc (conj He Hj))) as H2.
  apply wp_bind, wp_idem. destruct (awaiting_at _ _ _ _ _ H2) as [Ha Hb].
  eapply wp_eq; [by eapply spoken_duplicate|]. cbv iota.
  pose proof (awaiting_idem _ _ _ _ _ _ H2 (spoken_cleaned _ _ _ _ Ha Hb)) as H3.
  apply wp_bind. eapply awaiting_wal; [intros w; apply fail_within|exact H3| |done].
  intros x4 H4. apply wp_bind, wp_idem. destruct (awaiting_at _ _ _ _ _ H4) as [Ha4 Hb4].
  eapply wp_eq; [by eapply spoken_result|]. destruct v as [v|]; [done|].
  apply wp_bind, wp_now. unfold st_wp. cbn. by eexists.
Qed.
End duplicates.

(** C1: A key that is taken is not executed again.  While the manager has the
    result of an earlier execution under the key, or the mark of one in
    flight, alive for every reading of the clock, executing an order with
    that key places nothing at the broker and touches no machine, whatever
    the databases, the journal and the registry do.  When the operating mode
    lets the order through, the call answers the earlier result, or for a
    mark the rejection as a duplicate; it raises only when there is a
    journal. *)
Theorem in_flight_order_blocks {B} `{!ExecBroker B} (repr_float : float64 → string)
    (generate_key : order_request → execution_context → string) (broker_type : BrokerType)
    (request : order_request) (context : option execution_context) (key : string) (v : option cached) (T : Z)
    (g : manager) (x : xworld B) :
  rq_idempotency_key request = Some key → truthy_str key = true →
  x_enable_duplicate_prevention x = true →
  spoken_for key v T (x_idem x) → clock_within T (x_clk x) →
  let out := execute_order repr_float generate_key broker_type request context (g, x) in
  untouched (g, x) out.2 ∧
  (∀ c, gate_open x → out.1 = Ok c → duplicate_answer v c) ∧
  (∀ e, out.1 = Raise e → is_Some (x_wal x)).
Proof.
  intros Hrq Hk Hen Hs Hc. cbv zeta. rewrite execute_order_eq. cbv zeta. rewrite (key_given _ _ _ key Hrq Hk).
  set (ctx := match context with Some c => c | None => default_context end).
  assert (st_wp (execute_keyed repr_float broker_type (with_key key request) ctx key) (g, x) (λ r gx',
    untouched (g, x) gx' ∧ (∀ c, gate_open x → r = Ok c → duplicate_answer v c) ∧
    (∀ e, r = Raise e → is_Some (x_wal x)))) as H.
  { pose proof (reserve_untouched repr_float (with_key key request) key (g, x)) as Hu.
    assert (awaiting key v T (bool_decide (is_Some (x_wal x))) x) as H.
    { split_and!; try done. apply bool_decide_eq_true_2. }
    apply reserve_duplicate with (repr_float := repr_float) (request := with_key key request) (g := g) in H.
    unfold execute_keyed. apply wp_bind. unfold st_wp in H |- * at 1.
    destruct (reserve _ _ _ (g, x)) as [[[c0|eid]|e] gx1]; cbn [fst snd] in *; [|done|].
    - split; [done|]. split; [|done]. by intros c _ [= <-].
    - split; [done|]. split; [done|]. intros _ _. by apply bool_decide_eq_true_1 in H. }
  unfold st_wp, gate_open in *. destruct (x_modes x) as [mm|]; [|done].
  destruct (allows_execution mm).1; [done|].
  split; [|by split]. split; [done|]. by destruct x.
Qed.

(** ** Stores that answer

    With or without a journal and a persistence of the idempotency keys: the
    databases answer and the journal's queue has room. *)
Section default.
Context {B : Type} `{!ExecBroker B}.
Context (repr_float : float64 → string)
        (generate_key : order_request → execution_context → string)
        (broker_type : BrokerType).
Implicit Types (x : xworld B) (g : manager) (m : machine) (w : estore).

(** The persistence of the keys, when there is one, answers. *)
Definition persists (s : idem cached) : Prop := ∀ d, i_persist s = Some d → db_faults d = [].

(** Everything that is written answers, and the journal has room for [n]
    more writes. *)
Record calm (n : nat) x : Prop := {
  calm_wal : ∀ w : wal, x_wal x = Some w → answering w ∧ (length (wl_queue w) + n <= wl_max_queue w)%nat;
  calm_store : quiet (x_store x);
  calm_idem : persists (x_idem x);
  calm_engine : persists (e_manager (x_engine x))
}.

(** What callers will find in the journal of an order. *)
Definition journal_says (k : string) (P : string → Prop) x x' : Prop :=
  match x_wal x with
  | Some _ => ∃ (w : wal) row, x_wal x' = Some w ∧ contents w !! k = Some row ∧ P (w_status row)
  | None => x_wal x' = None
  end.

(** A step that leaves the parts but the store, the broker and the clock
    alone, and removes no row of the store. *)
Record store_step x x' : Prop := {
  ss_idem : x_idem x' = x_idem x;
  ss_engine : x_engine x' = x_engine x;
  ss_wal : x_wal x' = x_wal x;
  ss_safety : x_safety x' = x_safety x;
  ss_quiet : quiet (x_store x) → quiet (x_store x');
  ss_rows : ∀ k, is_Some (rows (x_store x) !! k) → is_Some (rows (x_store x') !! k)
}.

#[local] Instance store_step_preorder : PreOrder store_step.
Proof.
  split; [by intros x|]. intros x y z [] []. split; [congruence..|auto|auto].
Qed.

Lemma store_step_calm n x x' : store_step x x' → calm n x → calm n x'.
Proof. intros [Hi He Hw _ Hq _] []. split; rewrite ?Hi, ?He, ?Hw; auto. Qed.

(** *** The durable store, when it answers *)

Lemma update_state_quiet k s b q p r w :
  quiet w →
  let now := (clk_read (es_clk w)).1 in
  update_state k s b q p r w =
  (Ok true, EStore (clk_read (es_clk w)).2
              (DBase (tbl_update k (update_row s now b q p r) (rows w)) [])).
Proof.
  intros Hq. unfold update_state, st_try, mbind, st_bind. rewrite now_ist_total. cbn zeta.
  by rewrite es_run_quiet.
Qed.

Lemma tbl_update_some {V} k f (d : pydict V) j : is_Some (d !! j) → is_Some (tbl_update k f d !! j).
Proof.
  intros [v Hv]. destruct (decide (k = j)) as [->|]; dict_simp; rewrite Hv; by eexists.
Qed.

(** The persistence hook returns and only moves the store. *)
Lemma callback_calm m x :
  quiet (x_store x) →
  (persistence_callback m x).1 = Ok () ∧ store_step x (persistence_callback m x).2.
Proof.
  intros Hq. unfold persistence_callback, st_try, mbind, st_bind, on_dstore, on_part.
  rewrite update_state_quiet by done. split; [done|].
  destruct x as [c st i e wa mo sa u n ex d a cs b]. split; try done.
  intros k. cbn. apply tbl_update_some.
Qed.

Lemma clk_store_step c x : store_step x (x_set_clk c x).
Proof. by destruct x. Qed.

(** One transition in the calm world. *)
Lemma transition_calm s m x :
  quiet (x_store x) → s ∈ VALID_TRANSITIONS (m_state m) → s ≠ m_state m →
  ∃ ts x', try_transition_to persistence_callback s (m, x)
           = (Ok true, (set_updated_at ts (set_state s m), x')) ∧ store_step x x'.
Proof.
  intros Hq Hv Hne. unfold try_transition_to, mbind, st_bind. rewrite validate_transition_eq.
  rewrite bool_decide_eq_false_2, bool_decide_eq_true_2 by done. cbn [negb].
  destruct (hooked s m).
  - destruct (callback_calm (set_state s m) x Hq) as [Hr Hs].
    destruct (persistence_callback (set_state s m) x) as [r x1]. cbn in Hr, Hs. subst r.
    do 2 eexists. split; [done|]. etransitivity; [exact Hs|]. apply clk_store_step.
  - do 2 eexists. split; [done|]. apply clk_store_step.
Qed.

(** A call on the machine of the order. *)
Lemma on_order_eq {A} k (op : MT (W:=xworld B) A) g x m r m' x' :
  g_machines g !! k = Some m → op (m, x) = (r, (m', x')) →
  on_order k op (g, x) = (r, (put_machine k m' g, x')).
Proof. intros Hk Hop. unfold on_order, on_machine. cbn [fst snd]. by rewrite Hk, Hop. Qed.

Lemma put_machine_put k m m' g : put_machine k m' (put_machine k m g) = put_machine k m' g.
Proof.
  unfold put_machine, set_machines. simpl. f_equal. unfold insert, pydict_insert. f_equal.
  induction (items (g_machines g)) as [|[j v] l IH]; cbn [assoc_set items].
  - cbn. by rewrite String.eqb_refl.
  - destruct (String.eqb_spec k j) as [->|Hne]; cbn; [by rewrite String.eqb_refl|].
    rewrite (proj2 (String.eqb_neq k j)) by done. by f_equal.
Qed.

Lemma get_put k m g : g_machines (put_machine k m g) !! k = Some m.
Proof. apply dict_lookup_insert_eq. Qed.

(** *** The machine of an immediately filled order *)

Lemma submission_calm b m x :
  quiet (x_store x) → m_state m = PERSISTED →
  ∃ m' x', record_submission persistence_callback b (m, x) = (Ok true, (m', x')) ∧
    store_step x x' ∧ m_state m' = SUBMITTED ∧ identity m' = identity m ∧
    m_filled_quantity m' = m_filled_quantity m.
Proof.
  intros Hq Hs. unfold record_submission, mbind at 1, st_bind at 1, self, st_gets. cbn [fst]. rewrite Hs.
  change (negb (bool_decide (PERSISTED = PERSISTED))) with false. cbv iota.
  unfold mbind, st_bind, outside, st_zoom, modify_self, st_modify. cbn [fst snd].
  rewrite format_ts_total. cbn [fst snd].
  set (m1 := set_submitted_at _ _).
  assert (m_state m1 = PERSISTED ∧ identity m1 = identity m ∧
          m_filled_quantity m1 = m_filled_quantity m) as (Hs1 & Hi1 & Hf1)
    by (rewrite <- Hs; by destruct m).
  destruct (transition_calm SUBMITTED m1 (tick x)) as (ts & x' & -> & Hstep);
    [by destruct x|rewrite Hs1; in_list|by rewrite Hs1|].
  do 2 eexists. split; [done|]. split; [|rewrite <- Hi1, <- Hf1; by destruct m1].
  etransitivity; [apply (clk_store_step (clk_read (x_clk x)).2)|exact Hstep].
Qed.

Lemma ack_calm m x :
  quiet (x_store x) → m_state m = SUBMITTED →
  ∃ m' x', record_acknowledgment persistence_callback (m, x) = (Ok true, (m', x')) ∧
    store_step x x' ∧ m_state m' = ACKNOWLEDGED ∧ identity m' = identity m ∧
    m_filled_quantity m' = m_filled_quantity m.
Proof.
  intros Hq Hs. unfold record_acknowledgment, mbind at 1, st_bind at 1, self, st_gets. cbn [fst]. rewrite Hs.
  change (bool_decide (SUBMITTED = SUBMITTED)) with true. cbv iota.
  unfold mbind, st_bind, outside, st_zoom, modify_self, st_modify. cbn [fst snd].
  rewrite format_ts_total. cbn [fst snd].
  set (m1 := set_acknowledged_at _ _).
  assert (m_state m1 = SUBMITTED ∧ identity m1 = identity m ∧
          m_filled_quantity m1 = m_filled_quantity m) as (Hs1 & Hi1 & Hf1)
    by (rewrite <- Hs; by destruct m).
  destruct (transition_calm ACKNOWLEDGED m1 (tick x)) as (ts & x' & -> & Hstep);
    [by destruct x|rewrite Hs1; in_list|by rewrite Hs1|].
  do 2 eexists. split; [done|]. split; [|rewrite <- Hi1, <- Hf1; by destruct m1].
  etransitivity; [apply (clk_store_step (clk_read (x_clk x)).2)|exact Hstep].
Qed.

Lemma fill_calm q p m x :
  quiet (x_store x) → m_state m = ACKNOWLEDGED → m_quantity m ≤ q →
  ∃ m' x', record_fill persistence_callback q p (m, x) = (Ok true, (m', x')) ∧
    store_step x x' ∧ m_state m' = FILLED ∧ identity m' = identity m ∧
    m_filled_quantity m' = m_filled_quantity m + q.
Proof.
  intros Hq Hs Hle. rewrite record_fill_eq. cbv zeta.
  destruct (after_fill_fields q p (ts_of x) m) as (Hf1 & Hq1 & Hs1).
  assert (identity (after_fill q p (ts_of x) m) = identity m) as Hi1 by by destruct m.
  set (m1 := after_fill q p (ts_of x) m) in *. clearbody m1. rewrite Hs1, Hs.
  change (bool_decide (ACKNOWLEDGED = ACKNOWLEDGED)) with true. cbv iota.
  rewrite (proj2 (Z.leb_le _ _)) by lia.
  destruct (transition_calm FILLED m1 (tick x)) as (ts & x' & -> & Hstep);
    [by destruct x|rewrite Hs1, Hs; in_list|by rewrite Hs1, Hs|].
  do 2 eexists. split; [done|]. split; [|rewrite <- Hi1, <- Hf1; by destruct m1].
  etransitivity; [apply (clk_store_step (clk_read (x_clk x)).2)|exact Hstep].
Qed.

(** The whole advance after a FILLED result. *)
Lemma settle_filled k request r g m x :
  or_status r = OrderStatus.FILLED → g_machines g !! k = Some m → m_state m = VALIDATED →
  m_quantity m ≤ rq_lot_size request → quiet (x_store x) →
  ∃ m' x', settle_machine k request r (g, x) = (Ok (), (put_machine k m' g, x')) ∧
    store_step x x' ∧ m_state m' = FILLED ∧ identity m' = identity m ∧
    m_filled_quantity m' = m_filled_quantity m + rq_lot_size request.
Proof.
  intros Hr Hk Hs Hle Hq. unfold settle_machine. rewrite Hr.
  destruct (transition_calm PERSISTED m x Hq) as (ts & x1 & H1 & S1); [rewrite Hs; in_list|by rewrite Hs|].
  set (m1 := set_updated_at ts (set_state PERSISTED m)) in *.
  assert (m_state m1 = PERSISTED ∧ identity m1 = identity m ∧
          m_filled_quantity m1 = m_filled_quantity m) as (Hs1 & Hi1 & Hf1) by by destruct m.
  set (b := str_or (or_broker_order_id r) _).
  destruct (submission_calm b m1 x1) as (m2 & x2 & H2 & S2 & Hs2 & Hi2 & Hf2); [by apply S1|done|].
  destruct (ack_calm m2 x2) as (m3 & x3 & H3 & S3 & Hs3 & Hi3 & Hf3); [by apply S2, S1|done|].
  destruct (fill_calm (rq_lot_size request) (rq_strike_price request) m3 x3)
    as (m4 & x4 & H4 & S4 & Hs4 & Hi4 & Hf4); [by apply S3, S2, S1|done| |].
  { assert (m_quantity m3 = m_quantity m) as ->; [|done].
    enough (identity m3 = identity m) as Hi by (unfold identity in Hi; congruence). congruence. }
  exists m4, x4. split.
  - unfold mbind, st_bind, st_try.
    rewrite (on_order_eq _ _ _ _ _ _ _ _ Hk H1).
    rewrite (on_order_eq _ _ _ _ _ _ _ _ (get_put _ _ _) H2).
    rewrite (on_order_eq _ _ _ _ _ _ _ _ (get_put _ _ _) H3). unfold mret at 1, st_ret at 1.
    rewrite (on_order_eq _ _ _ _ _ _ _ _ (get_put _ _ _) H4). by rewrite !put_machine_put.
  - split_and!; [by repeat (etransitivity; [eassumption|])|done|congruence|congruence].
Qed.

(** After a SUBMITTED result the machine is where it was: the submission is
    refused because the machine is not PERSISTED. *)
Lemma settle_submitted k request r g m x :
  or_status r = OrderStatus.SUBMITTED → g_machines g !! k = Some m → m_state m = VALIDATED →
  settle_machine k request r (g, x) = (Ok (), (g, x)).
Proof.
  intros Hr Hk Hs. unfold settle_machine. rewrite Hr.
  assert (∀ b, record_submission persistence_callback b (m, x) = (Ok false, (m, x))) as H.
  { intros b. unfold record_submission, mbind, st_bind, self, st_gets. cbn [fst]. by rewrite Hs. }
  unfold mbind, st_bind. rewrite (on_order_eq _ _ _ _ _ _ _ _ Hk (H _)).
  by rewrite put_machine_id.
Qed.

(** The attempt only reaches the broker and the clock. *)
Lemma attempt_step request c : st_rel store_step (attempt_order_execution (B:=B) repr_float broker_type request c).
Proof.
  assert (st_rel store_step (now_ist (W:=xworld B))) as Hnow.
  { intros x. rewrite now_ist_total. apply clk_store_step. }
  assert (∀ A (m : ST B A), st_rel store_step (on_xbroker m)) as Hb.
  { intros A m x. unfold on_xbroker, st_zoom. destruct (m _). by destruct x. }
  unfold attempt_order_execution, placed_id_result, validate_broker_result.
  repeat first
    [ apply st_rel_ret; typeclasses eauto
    | apply Hnow
    | apply Hb
    | apply st_rel_bind; [typeclasses eauto| |intros ?]
    | apply st_rel_try; [typeclasses eauto| |intros ?]
    | case_match ].
Qed.

(** *** Before and after the attempt *)

(** A write to a journal with room. *)
Lemma wp_journal k ev g x (n : nat) (Q : res unit → manager * xworld B → Prop) (P : string → Prop) :
  calm (S n) x →
  ev ≠ EvWorker →
  (∀ w : wal, x_wal x = Some w → ∃ row, apply_all (issued ev (set_clock (x_clk x) w)) (contents w) !! k = Some row ∧
     P (w_status row)) →
  (∀ c j, let x' := x_set_clk c (match j with None => x | Some w => x_set_wal (Some w) x end) in
     calm n x' → journal_says k P x x' → Q (Ok ()) (g, x')) →
  st_wp (on_world (on_wal (run_event ev))) (g, x) Q.
Proof.
  intros [Hw Hq Hi He] Hev Hrow H. apply wp_wal.
  - intros Hn. specialize (H (x_clk x) None). cbn in H. replace (x_set_clk (x_clk x) x) with x in H by by destruct x.
    apply H; [split; try done; by rewrite Hn|]. unfold journal_says. by rewrite Hn.
  - intros w Hsome. destruct (Hw w Hsome) as [Ha Hroom]. destruct (Hrow w Hsome) as (row & Hk & HP).
    destruct (run_event_room ev (set_clock (x_clk x) w)) as (w' & Hr & Ha' & Hc & Hl1 & Hl2); [done|done|cbn; lia|].
    eapply wp_eq; [exact Hr|]. apply (H (wl_clk w') (Some w')).
    + destruct x. cbn in *. split; cbn; try done. intros ? [= <-]. split; [done|]. rewrite Hl1, Hl2. cbn. lia.
    + unfold journal_says. rewrite Hsome. exists w', row. split; [by destruct x|].
      split; [|done]. by rewrite Hc.
Qed.

(** A check on a key that is in neither cache. *)
Lemma fresh_check key (s : idem cached) :
  dict_wf (i_cache s) → dict_wf (i_in_flight s) →
  i_cache s !! key = None → i_in_flight s !! key = None →
  idem_is_duplicate key s = (Ok false, cleaned s).
Proof. intros Hc Hf H1 H2. rewrite is_duplicate_eq by done. by rewrite H1, H2. Qed.

(** The manager knows nothing of the key: no result, no mark, and room for a
    result. *)
Definition unknown (key : string) (s : idem cached) : Prop :=
  persists s ∧ dict_wf (i_cache s) ∧ dict_wf (i_in_flight s) ∧
  i_cache s !! key = None ∧ 1 ≤ i_cache_size s.

(** The manager has the result of the key, and no mark. *)
Definition confirmed (key : string) (v : cached) (s : idem cached) : Prop :=
  (∃ t, i_cache s !! key = Some (t, v)) ∧ i_in_flight s !! key = None.

Lemma unknown_cleaned key s : unknown key s → unknown key (cleaned s).
Proof.
  intros (Hp & Hc & Hf & Hk & Hn). unfold cleaned.
  destruct (clk_read (i_clk s)) as [now c1]. destruct (clk_read c1) as [now' c2].
  split_and!; try done; cbn; [by apply dict_filter_wf|by apply dict_filter_wf|].
  by rewrite dict_filter_lookup, Hk.
Qed.

(** A write to the persistence, which answers or is not there. *)
Lemma persist_write_ok f cs (s : idem cached) :
  persists s → ∃ p, persist_write f cs s = (Ok (), set_persist p s) ∧ persists (set_persist p s).
Proof.
  intros Hp. unfold persist_write, st_try, persist_run. destruct (i_persist s) as [d|] eqn:E.
  - rewrite db_run_quiet by by apply Hp. eexists. split; [done|]. by intros ? [= <-].
  - exists None. split; [|done]. unfold set_persist. rewrite <- E. by destruct s.
Qed.

Lemma mark_plain key (s : idem cached) :
  unknown key s → ∃ s', mark_in_flight key s = (Ok (), s') ∧ unknown key s'.
Proof.
  intros (Hp & Hc & Hf & Hk & Hn). unfold mark_in_flight, mbind, st_bind, st_get, st_modify.
  rewrite now_ist_total. cbn [fst snd].
  match goal with |- context [persist_write ?f ?cs ?s1] =>
    destruct (persist_write_ok f cs s1) as (p & -> & Hp'); [done|] end.
  eexists. split; [done|]. split_and!; try done. by apply dict_insert_wf.
Qed.

(** The reservation of a fresh key. *)
Lemma reserve_fresh request key g x :
  calm 2 x → unknown key (x_idem x) → i_in_flight (x_idem x) !! key = None →
  st_wp (reserve repr_float request key) (g, x) (λ r gx',
    (∃ eid, r = Ok (inr eid)) ∧ gx'.1 = g ∧ calm 1 gx'.2 ∧ x_safety gx'.2 = x_safety x ∧
    is_Some (rows (x_store gx'.2) !! order_intent_id repr_float request) ∧
    unknown key (x_idem gx'.2) ∧ journal_says (order_intent_id repr_float request) (λ _, True) x gx'.2).
Proof.
  intros Hcalm Hun Hf. unfold reserve.
  apply wp_bind, wp_now. apply wp_bind, wp_gets. apply wp_bind, wp_counter.
  apply wp_bind, wp_uuid. intros uid us. set (x1 := x_set_uuids us _).
  assert (calm 2 x1 ∧ x_idem x1 = x_idem x ∧ x_safety x1 = x_safety x ∧ x_wal x1 = x_wal x)
    as (Hcalm1 & Hi1 & Hs1 & Hw1).
  { destruct Hcalm. unfold x1. destruct x. split_and!; try done; by split. }
  clearbody x1. apply wp_bind.
  apply (wp_journal (order_intent_id repr_float request) (EvAppend (wal_intent repr_float request) uid)
    g x1 1 _ (λ _, True)); [done|done| |].
  { intros w _. cbn [issued apply_all foldl apply_wop wal_intent in_intent_id].
    rewrite tbl_lookup_replace_eq. by eexists. }
  intros c j x2 Hcalm2 Hsays.
  assert (x_idem x2 = x_idem x ∧ x_safety x2 = x_safety x) as [Hi2 Hs2].
  { unfold x2. rewrite <- Hi1, <- Hs1. by destruct j, x1. }
  assert (journal_says (order_intent_id repr_float request) (λ _, True) x x2) as Hj2.
  { unfold journal_says in *. by rewrite Hw1 in Hsays. }
  clearbody x2. apply wp_bind, wp_gets. apply wp_bind.
  match goal with |- st_wp _ _ ?Q => enough (∀ x3, calm 1 x3 → x_wal x3 = x_wal x2 → x_safety x3 = x_safety x →
    unknown key (x_idem x3) → Q (Ok false) (g, x3)) as Hnext end.
  { destruct (x_enable_duplicate_prevention x2);
      [|unfold st_wp; cbn [fst snd mret st_ret]; apply Hnext; [done..|by rewrite Hi2]].
    apply wp_idem. rewrite Hi2. destruct Hun as (? & ? & ? & ? & ?).
    eapply wp_eq; [apply (fresh_check key (set_clock (x_clk x2) (x_idem x))); done|].
    assert (unknown key (cleaned (set_clock (x_clk x2) (x_idem x)))) as Hun' by by apply unknown_cleaned.
    destruct Hcalm2. destruct x2. apply Hnext; try done. }
  intros x3 Hcalm3 Hw3 Hs3 Hun3. cbn beta iota.
  apply wp_bind, wp_now. apply wp_bind, wp_now. apply wp_bind, wp_dstore.
  destruct x3 as [c3 st i e wa mo sa u n ex d a cs b]. destruct Hcalm3 as [Hw Hq Hi He]. cbn in *.
  unfold st_wp at 1, save_execution, st_try, mbind, st_bind.
  rewrite es_run_quiet by done. cbn [fst snd].
  apply wp_bind, wp_idem. cbn [x_set_store x_set_clk x_clk x_idem].
  match goal with |- st_wp (mark_in_flight key) (set_clock ?c _) _ =>
    destruct (mark_plain key (set_clock c i)) as (i' & Hm & Hun'); [done|] end.
  eapply wp_eq; [exact Hm|]. unfold st_wp. cbn [fst snd mret st_ret x_set_idem x_set_clk].
  split; [by eexists|]. split; [done|]. split; [split; try done; apply Hun'|]. split; [done|].
  cbn. split; [rewrite tbl_lookup_replace_eq; by eexists|]. split; [done|].
  unfold journal_says in *. cbn. by rewrite Hw3.
Qed.

(** A confirmation keeps its own entry when it evicts. *)
Lemma evict_keeps {V} key (v : Z * V) d :
  d !! key = None → 1 < dlen (<[key := v]> d) → evict_first (<[key := v]> d) !! key = Some v.
Proof.
  intros Hk. destruct d as [l]. unfold evict_first, insert, pydict_insert, dlen. cbn [items].
  destruct l as [|[k0 v0] l]; cbn [assoc_set length]; [lia|]. intros _.
  destruct (String.eqb_spec key k0) as [->|Hne].
  { exfalso. unfold lookup, pydict_lookup in Hk. cbn in Hk. by rewrite String.eqb_refl in Hk. }
  rewrite dict_lookup_delete_ne by done. unfold lookup, pydict_lookup. cbn.
  rewrite (proj2 (String.eqb_neq _ _)) by done. apply assoc_get_set.
Qed.

Lemma confirm_plain key v (s : idem cached) :
  persists s → ∃ s', confirm_execution key v s = (Ok (), s') ∧ persists s' ∧
    (unknown key s → confirmed key v s').
Proof.
  intros Hp. unfold confirm_execution, mbind, st_bind, st_get, st_modify. rewrite now_ist_total. cbn [fst snd].
  match goal with |- context [persist_write ?f ?cs ?s1] =>
    destruct (persist_write_ok f cs s1) as (p & -> & Hp'); [done|] end.
  set (s1 := set_persist _ _) in *. cbn [fst snd].
  destruct (i_cache_size s1 <? dlen (i_cache s1)) eqn:E; eexists; split; try done; split; try done;
    intros (_ & Hc & Hf & Hk & Hn); (split; [|apply dict_lookup_delete_eq]).
  - apply Z.ltb_lt in E. unfold s1 in *. cbn in *. eexists. apply evict_keeps; [done|lia].
  - eexists. apply dict_lookup_insert_eq.
Qed.

Lemma engine_store_plain key v (e : engine cached) :
  persists (e_manager e) →
  match (engine_store_result key v e).1 with Ok _ => True | Raise ex => exn_cls ex = KeyError end.
Proof.
  intros Hp. unfold engine_store_result, st_try, on_manager, st_zoom, mbind, st_bind, idem_store_result.
  destruct (confirm_plain key v (e_manager e) Hp) as (s' & -> & _).
  cbn [fst snd]. rewrite now_ist_total. unfold st_get, modify_cache, st_modify. cbn [fst snd].
  by destruct (_ <? 0).
Qed.

(** The durable state a result is recorded as. *)
Definition recorded_as (s : OrderStatus.t) : dstate :=
  match s with
  | OrderStatus.FILLED => DFILLED | OrderStatus.PARTIALLY_FILLED => DPARTIALLY_FILLED
  | OrderStatus.REJECTED => DREJECTED | _ => DFAILED
  end.

Lemma update_keeps_row k s b q p r w row :
  quiet w → rows w !! k = Some row →
  ∃ row' w', update_state k s b q p r w = (Ok true, w') ∧ rows w' !! k = Some row' ∧
    c_state row' = dstate_value s.
Proof.
  intros Hq Hk. rewrite update_state_quiet by done. do 2 eexists. split; [done|]. cbn.
  rewrite tbl_lookup_update_eq, Hk. done.
Qed.

(** The status the journal gives an attempt. *)
Definition filled_in_part (s : OrderStatus.t) : Prop := s ∈ [OrderStatus.FILLED; OrderStatus.PARTIALLY_FILLED].
Definition journal_status (s : OrderStatus.t) : string :=
  if bool_decide (filled_in_part s) then IntentStatus.COMMITTED else IntentStatus.FAILED.

(** The bookkeeping after the attempt. *)
Lemma conclude_calm request key eid r g x :
  let k := order_intent_id repr_float request in
  calm 1 x → is_Some (rows (x_store x) !! k) → (∀ w : wal, x_wal x = Some w → is_Some (contents w !! k)) →
  st_wp (conclude repr_float request key eid r) (g, x) (λ o gx',
    o = Ok (CObj r) ∧ gx'.1 = g ∧
    (∃ row, rows (x_store gx'.2) !! k = Some row ∧ c_state row = dstate_value (recorded_as (or_status r))) ∧
    journal_says k (λ s, s = journal_status (or_status r)) x gx'.2 ∧
    (filled_in_part (or_status r) → unknown key (x_idem x) → confirmed key (CObj r) (x_idem gx'.2))).
Proof.
  intros k Hcalm [row0 Hrow] Hrows.
  (* the durable record, once the journal and the key are done *)
  assert (∀ x1 ds b' q p rr (Q : idem cached → Prop), ds = recorded_as (or_status r) →
    quiet (x_store x1) → rows (x_store x1) !! k = Some row0 →
    journal_says k (λ s, s = journal_status (or_status r)) x x1 → Q (x_idem x1) →
    st_wp (on_world (on_dstore (update_state k ds b' q p rr)) ;;
           on_world (record_execution_audit eid r) ;; mret (CObj r))
      (g, x1) (λ o gx', o = Ok (CObj r) ∧ gx'.1 = g ∧
      (∃ row, rows (x_store gx'.2) !! k = Some row ∧ c_state row = dstate_value (recorded_as (or_status r))) ∧
      journal_says k (λ s, s = journal_status (or_status r)) x gx'.2 ∧ Q (x_idem gx'.2))) as Hend.
  { intros x1 ds b' q p rr Q -> Hq Hr1 Hj HQ. apply wp_bind, wp_dstore.
    destruct x1 as [c st i e wa mo sa u n ex d a cs b]. cbn [x_clk x_store] in *.
    destruct (update_keeps_row k (recorded_as (or_status r)) b' q p rr (EStore c (es_db st)) row0 Hq Hr1)
      as (row & w' & Hu & Hk & Hs).
    eapply wp_eq; [exact Hu|]. cbn [x_set_store x_set_clk]. apply wp_bind, wp_world.
    unfold st_wp, record_execution_audit, st_modify. cbn. split; [done|]. split; [done|].
    split; [exists row; by destruct a|]. split; [|by destruct a]. by destruct a. }
  set (Q := λ i, filled_in_part (or_status r) → unknown key (x_idem x) → confirmed key (CObj r) i).
  unfold conclude. fold k. destruct (bool_decide (or_status r ∈ _)) eqn:Hst.
  - assert (journal_status (or_status r) = IntentStatus.COMMITTED) as Hjs.
    { unfold journal_status, filled_in_part. by rewrite Hst. }
    apply wp_bind. apply (wp_journal k (EvCommit k) g x 0 _ (λ s, s = journal_status (or_status r)));
      [done|done| |].
    { intros w Hw. destruct (Hrows w Hw) as [row Hr]. cbn [issued apply_all foldl apply_wop].
      rewrite tbl_lookup_update_eq, Hr, Hjs. by eexists. }
    intros c j x1 Hc1 Hj1.
    assert (x_store x1 = x_store x ∧ x_idem x1 = x_idem x) as [Hs1 Hi1] by by destruct j, x.
    clearbody x1. apply wp_bind, wp_idem.
    destruct (confirm_plain key (CObj r) (set_clock (x_clk x1) (x_idem x1))) as (i' & Hcf & Hp' & Hc');
      [apply Hc1|].
    eapply wp_eq; [exact Hcf|]. destruct Hc1 as [Hw Hq Hi He].
    destruct x1 as [c1 st i e wa mo sa u n ex d a cs b]. cbn [x_store x_idem x_engine x_wal] in *. subst st i.
    apply wp_bind, wp_world, wp_try, wp_part. cbn [x_clk x_engine x_set_idem x_set_clk].
    match goal with |- st_wp (engine_store_result _ _) ?s _ =>
      pose proof (engine_store_plain key (CObj r) s He) as Hes;
      unfold st_wp at 1; destruct (engine_store_result key (CObj r) s) as [[[]|ee] e'] end;
      cbn [fst snd x_set_engine x_set_clk] in *.
    + bools. apply (Hend _ _ _ _ _ _ Q); try done; [rewrite !elem_of_cons, elem_of_nil in Hst; by destruct Hst as [->|[->|[]]]|].
      intros _. apply Hc'.
    + unfold catches. rewrite Hes. cbn. unfold st_wp at 1. cbn [fst snd mret st_ret]. bools.
      apply (Hend _ _ _ _ _ _ Q); try done; [rewrite !elem_of_cons, elem_of_nil in Hst; by destruct Hst as [->|[->|[]]]|].
      intros _. apply Hc'.
  - assert (journal_status (or_status r) = IntentStatus.FAILED) as Hjs.
    { unfold journal_status, filled_in_part. by rewrite Hst. }
    apply wp_bind.
    match goal with |- st_wp (on_world (on_wal (WalJournal.fail k ?msg))) _ _ =>
      apply (wp_journal k (EvFail k msg) g x 0 _ (λ s, s = journal_status (or_status r))) end; [done|done| |].
    { intros w Hw. destruct (Hrows w Hw) as [row Hr]. cbn [issued apply_all foldl apply_wop].
      rewrite tbl_lookup_update_eq, Hr, Hjs. by eexists. }
    intros c j x1 Hc1 Hj1. assert (x_store x1 = x_store x) as Hs1 by by destruct j, x.
    clearbody x1. apply (Hend x1 _ _ _ _ _ Q); try done.
    + bools. rewrite !elem_of_cons, elem_of_nil in Hst. destruct (or_status r); try done; tauto.
    + apply Hc1.
    + by rewrite Hs1.
    + intros Hfp. bools. by destruct Hst.
Qed.

(** *** A fresh order *)

Definition fresh_key (key : string) g x : Prop :=
  g_machines g !! generate_client_order_id key = None ∧
  i_cache (x_idem x) !! key = None ∧ i_in_flight (x_idem x) !! key = None ∧
  dict_wf (i_cache (x_idem x)) ∧ dict_wf (i_in_flight (x_idem x)) ∧ 1 ≤ i_cache_size (x_idem x).

(** The machine right after its validation. *)
Definition validated_fresh (request : order_request) m : Prop :=
  m_state m = VALIDATED ∧ m_quantity m = rq_lot_size request ∧
  m_broker_order_id m = None ∧ m_filled_quantity m = 0.

Section fresh.
Context (request : order_request) (c : execution_context) (key : string).
Context (status : OrderStatus.t) (Post : machine → Prop).
Hypothesis key_ok : truthy_str key = true.
Hypothesis attempt_ok : ∀ x, ∃ r x',
  attempt_order_execution (B:=B) repr_float broker_type (with_key key request) c x = (Ok r, x') ∧
  or_status r = status.
Hypothesis settle_ok : ∀ r g1 m x1,
  or_status r = status → g_machines g1 !! generate_client_order_id key = Some m →
  validated_fresh request m → quiet (x_store x1) →
  ∃ m' x', settle_machine (generate_client_order_id key) (with_key key request) r (g1, x1)
           = (Ok (), (put_machine (generate_client_order_id key) m' g1, x')) ∧
           store_step x1 x' ∧ Post m'.

Let k := generate_client_order_id key.

Lemma attempt_once_fresh g m x :
  g_machines g !! k = Some m → m_state m = INIT → m_quantity m = rq_lot_size request →
  m_broker_order_id m = None → m_filled_quantity m = 0 → quiet (x_store x) →
  ∃ r m' x', attempt_once repr_float broker_type k (with_key key request) c (g, x)
             = (Ok r, (put_machine k m' g, x')) ∧
    or_status r = status ∧ store_step x x' ∧ Post m'.
Proof.
  intros Hk Hs Hlot Hb Hf Hq. unfold attempt_once.
  destruct (transition_calm VALIDATED m x Hq) as (ts & x1 & H1 & S1); [rewrite Hs; in_list|by rewrite Hs|].
  set (m1 := set_updated_at ts (set_state VALIDATED m)) in *.
  assert (validated_fresh request m1) as Hm1 by by destruct m.
  unfold mbind at 1, st_bind at 1. rewrite (on_order_eq _ _ _ _ _ _ _ _ Hk H1). unfold st_try.
  destruct (attempt_ok x1) as (r & x2 & Ha & Hr).
  pose proof (attempt_step (with_key key request) c x1) as S2. rewrite Ha in S2. cbn [snd] in S2.
  destruct (settle_ok r (put_machine k m1 g) m1 x2 Hr (get_put _ _ _) Hm1) as (m' & x3 & Hset & S3 & HP).
  { by apply S2, S1. }
  exists r, m', x3. unfold mbind, st_bind, on_world, in_world, st_zoom. cbn [fst snd]. rewrite Ha.
  fold k in Hset. rewrite Hset, put_machine_put. split; [done|]. split; [done|].
  split; [|done]. by repeat (etransitivity; [eassumption|]).
Qed.

Lemma retries_fresh g x :
  g_machines g !! k = None → quiet (x_store x) → sf_halt (x_safety x) = false →
  ∃ r m' x', execute_with_retries repr_float broker_type (with_key key request) c (g, x)
             = (Ok r, (put_machine k m' g, x')) ∧
    or_status r = status ∧ store_step x x' ∧ Post m'.
Proof.
  intros Hk Hq Hh. rewrite retries_eq, Hh, on_machine_request_eq, create_or_get_eq by done.
  fold k. rewrite Hk. cbv zeta. set (m0 := set_has_callback _ _).
  change (negb true && _) with false. cbv iota.
  assert (m_client_order_id m0 = k) as -> by done.
  destruct (attempt_once_fresh (put_machine k m0 g) m0 (tick (tick x))) as (r & m' & x' & Ha & Hr & S & HP);
    [apply get_put|done..|by destruct x|].
  exists r, m', x'. rewrite Ha, put_machine_put. split; [done|]. split; [done|]. split; [|done].
  etransitivity; [apply (clk_store_step (clk_read (x_clk (tick x))).2)|].
  etransitivity; [|exact S]. destruct x. split; try done.
Qed.

(** All the books of the service after the order. *)
Definition books_say (r : order_result) x x' : Prop :=
  (∃ row, rows (x_store x') !! order_intent_id repr_float request = Some row ∧
     c_state row = dstate_value (recorded_as (or_status r))) ∧
  journal_says (order_intent_id repr_float request) (λ s, s = journal_status (or_status r)) x x' ∧
  (filled_in_part (or_status r) → confirmed key (CObj r) (x_idem x')).

Lemma execute_fresh g x :
  rq_idempotency_key request = Some key → gate_open x → calm 2 x →
  sf_halt (x_safety x) = false → fresh_key key g x →
  st_wp (execute_order repr_float generate_key broker_type request (Some c)) (g, x) (λ o gx',
    ∃ r, o = Ok (CObj r) ∧ or_status r = status ∧
      (∃ m, g_machines gx'.1 !! k = Some m ∧ Post m) ∧ books_say r x gx'.2).
Proof.
  intros Hrq Hmo Hcalm Hh (Hreg & Hc & Hf & Hwc & Hwf & Hn). unfold st_wp. rewrite execute_order_eq.
  cbv zeta. rewrite (key_given _ _ _ key Hrq key_ok).
  enough (st_wp (execute_keyed repr_float broker_type (with_key key request) c key) (g, x) (λ o gx',
    ∃ r, o = Ok (CObj r) ∧ or_status r = status ∧
      (∃ m, g_machines gx'.1 !! k = Some m ∧ Post m) ∧ books_say r x gx'.2)) as H.
  { unfold gate_open in Hmo. destruct (x_modes x); [rewrite Hmo|]; exact H. }
  unfold execute_keyed. apply wp_bind.
  eapply wp_mono; [|apply (reserve_fresh (with_key key request) key g x Hcalm); [split_and!|]; try done; apply Hcalm].
  intros ? [g1 x1] ([eid ->] & Hg1 & Hcalm1 & Hsaf & Hrow & Hun & Hj1). cbn [fst snd] in *. subst g1.
  apply wp_bind, wp_now. apply wp_try, wp_bind.
  set (x2 := x_set_clk _ x1).
  assert (store_step x1 x2) as S2 by apply clk_store_step.
  destruct (retries_fresh g x2) as (r & m' & x3 & Hrun & Hr & S3 & HP);
    [done|by apply S2, Hcalm1|by rewrite (ss_safety _ _ S2), Hsaf|].
  eapply wp_eq; [exact Hrun|]. apply wp_bind, wp_now.
  set (x4 := x_set_clk _ x3).
  assert (store_step x1 x4) as S4.
  { etransitivity; [exact S2|]. etransitivity; [exact S3|]. apply clk_store_step. }
  assert (journal_says (order_intent_id repr_float request) (λ _, True) x x4) as Hj4.
  { unfold journal_says in *. by rewrite (ss_wal _ _ S4). }
  eapply wp_mono; [|apply (conclude_calm (with_key key request) key eid r (put_machine k m' g) x4)].
  - intros o [g5 x5] (-> & Hg5 & Hrow5 & Hj5 & Hcf). cbn [fst snd] in *. subst g5.
    exists r. split; [done|]. split; [done|]. split; [exists m'; split; [apply get_put|done]|].
    split; [exact Hrow5|]. split.
    + unfold journal_says in *. destruct (x_wal x); [|by rewrite Hj4 in Hj5].
      destruct Hj4 as (w' & _ & Hw' & _). by rewrite Hw' in Hj5.
    + intros Hfp. apply Hcf; [done|]. by rewrite (ss_idem _ _ S4).
  - by eapply store_step_calm.
  - by apply S4.
  - intros w4 Hw4. unfold journal_says in Hj4. rewrite Hw4 in Hj4. destruct (x_wal x); [|done].
    destruct Hj4 as (? & row & [= <-] & Hrow4 & _). by exists row.
Qed.
End fresh.
End default.

(** C2: An order that the broker fills at once, under a fresh key, with
    databases that answer, room in the journal and no halt: [execute_order]
    returns the broker's result; the order's machine is FILLED with the whole
    lot, the durable record says FILLED, the journal, when there is one, says
    COMMITTED, and the key is confirmed with the result and no longer in
    flight. *)
Theorem filled_order_recorded {B} `{!ExecBroker B} (repr_float : float64 → string)
    (generate_key : order_request → execution_context → string) (broker_type : BrokerType)
    (request : order_request) (c : execution_context) (key : string) (g : manager) (x : xworld B) :
  rq_idempotency_key request = Some key → truthy_str key = true → gate_open x → calm 2 x →
  sf_halt (x_safety x) = false → fresh_key key g x →
  (∀ x, ∃ r x', attempt_order_execution (B:=B) repr_float broker_type (with_key key request) c x
                = (Ok r, x') ∧ or_status r = OrderStatus.FILLED) →
  ∃ r g' x', execute_order repr_float generate_key broker_type request (Some c) (g, x)
             = (Ok (CObj r), (g', x')) ∧
    or_status r = OrderStatus.FILLED ∧
    (∃ m, g_machines g' !! generate_client_order_id key = Some m ∧ m_state m = FILLED ∧
          m_filled_quantity m = rq_lot_size request) ∧
    (∃ row, rows (x_store x') !! order_intent_id repr_float request = Some row ∧
           c_state row = "FILLED"%string) ∧
    journal_says (order_intent_id repr_float request) (λ s, s = IntentStatus.COMMITTED) x x' ∧
    confirmed key (CObj r) (x_idem x').
Proof.
  intros Hrq Hk Hmo Hcalm Hh Hfresh Hatt.
  pose proof (execute_fresh repr_float generate_key broker_type request c key OrderStatus.FILLED
    (λ m, m_state m = FILLED ∧ m_filled_quantity m = rq_lot_size request) Hk Hatt) as H.
  destruct H with (g := g) (x := x) as (r & Ho & Hr & Hm & Hrow & Hj & Hcf); [|done..|].
  - intros r g1 m x1 Hr Hm (Hs & Hlot & _ & Hf) Hq.
    destruct (settle_filled (generate_client_order_id key) (with_key key request) r g1 m x1)
      as (m' & x' & Hset & S & Hs' & _ & Hf'); [done..|by rewrite Hlot|done|].
    exists m', x'. split; [done|]. split; [done|]. split; [done|]. by rewrite Hf', Hf.
  - destruct (execute_order _ _ _ _ _ (g, x)) as [o [g' x']]. cbn in *. subst o. exists r, g', x'.
    rewrite Hr in Hrow, Hj, Hcf. split_and!; try done. apply Hcf. in_list.
Qed.

(** An order that the broker accepts without filling it at once is live but
    recorded as failed: the caller gets the SUBMITTED result with the
    broker's id, the machine stays VALIDATED without that id, and the durable
    record says FAILED, so neither the sweepers nor a restart can reach the
    order. *)
Theorem submitted_order_lost {B} `{!ExecBroker B} (repr_float : float64 → string)
    (generate_key : order_request → execution_context → string) (broker_type : BrokerType)
    (request : order_request) (c : execution_context) (key : string) (g : manager) (x : xworld B) :
  rq_idempotency_key request = Some key → truthy_str key = true → gate_open x → calm 2 x →
  sf_halt (x_safety x) = false → fresh_key key g x →
  (∀ x, ∃ r x', attempt_order_execution (B:=B) repr_float broker_type (with_key key request) c x
                = (Ok r, x') ∧ or_status r = OrderStatus.SUBMITTED) →
  ∃ r g' x', execute_order repr_float generate_key broker_type request (Some c) (g, x)
             = (Ok (CObj r), (g', x')) ∧
    or_status r = OrderStatus.SUBMITTED ∧
    (∃ m, g_machines g' !! generate_client_order_id key = Some m ∧ m_state m = VALIDATED ∧
          m_broker_order_id m = None) ∧
    ∃ row, rows (x_store x') !! order_intent_id repr_float request = Some row ∧
           c_state row = "FAILED"%string.
Proof.
  intros Hrq Hk Hmo Hcalm Hh Hfresh Hatt.
  pose proof (execute_fresh repr_float generate_key broker_type request c key OrderStatus.SUBMITTED
    (λ m, m_state m = VALIDATED ∧ m_broker_order_id m = None) Hk Hatt) as H.
  destruct H with (g := g) (x := x) as (r & Ho & Hr & Hm & Hrow & _); [|done..|].
  - intros r g1 m x1 Hr Hm (Hs & _ & Hb & _) Hq. exists m, x1.
    rewrite (settle_submitted _ _ _ _ _ _ Hr Hm Hs), put_machine_id by done. by split_and!.
  - destruct (execute_order _ _ _ _ _ (g, x)) as [o [g' x']]. cbn in *. subst o. exists r, g', x'. by rewrite Hr in Hrow.
Qed.

(** ** Concrete instances *)

(** A broker that fills every order at once and one that only accepts it;
    both count the orders they get. *)
Record filling_broker := FillingBroker { fb_orders : nat }.
Record accepting_broker := AcceptingBroker { ab_orders : nat }.

#[global] Instance filling_port : ExecBroker filling_broker := {|
  eb_is_paper := false;
  eb_place_order := Some (λ r b, (Ok (PlacedId "B-001"), FillingBroker (S (fb_orders b))));
  eb_get_filled_quantity := Some (λ _ b, (Ok 50, b));
  eb_get_fill_price := Some (λ _ b, (Ok (f_of_Z 101), b));
  eb_commission := λ _ _ b, (Ok f_zero, b);
  eb_paper_execute := λ _ _ b, (Ok (rejected "paper" None 0), b)
|}.

#[global] Instance accepting_port : ExecBroker accepting_broker := {|
  eb_is_paper := false;
  eb_place_order := Some (λ r b, (Ok (PlacedId "B-001"), AcceptingBroker (S (ab_orders b))));
  eb_get_filled_quantity := None;
  eb_get_fill_price := None;
  eb_commission := λ _ _ b, (Ok f_zero, b);
  eb_paper_execute := λ _ _ b, (Ok (rejected "paper" None 0), b)
|}.

Definition demo_world {B} (b : B) : xworld B :=
  XWorld (Clock 0 [1; 1]) (EStore (Clock 0 []) (DBase ∅ [])) (Idem (Clock 0 []) ∅ ∅ 1000 24 None)
    (Engine (Idem (Clock 0 []) ∅ ∅ 1000 24 None) ∅ 1000 24) None None
    (new_safety (Clock 0 []) (Clock 0 [])) [] 0 ∅ true true 1000 b.

Definition demo_request : order_request :=
  OrderRequest "NIFTY" "BUY" (f_of_Z 22000) 50 "MARKET" (Some "k1").
Definition demo_repr (_ : float64) : string := "22000.0".
Definition demo_generate (_ : order_request) (_ : execution_context) : string := "generated".

Lemma demo_world_calm {B} (b : B) : calm 2 (demo_world b).
Proof. by split. Defined.
Lemma demo_fresh {B} (b : B) : fresh_key "k1" (new_manager true) (demo_world b).
Proof. split_and!; try done; dict_wf_eval. Defined.

(** The same with a journal. *)
Definition demo_journalled {B} (b : B) : xworld B :=
  x_set_wal (Some (Wal (Clock 0 []) (DBase ∅ []) [] 2 0 0)) (demo_world b).
Lemma demo_journalled_calm {B} (b : B) : calm 2 (demo_journalled b).
Proof. split; try done. intros w [= <-]. split; [done|]. simpl. lia. Defined.

Lemma filled_order_recorded_witness :
  let x := demo_journalled (FillingBroker 0) in
  ∃ r g' x', execute_order demo_repr demo_generate UNKNOWN_BROKER demo_request (Some default_context)
               (new_manager true, x) = (Ok (CObj r), (g', x')) ∧
    or_status r = OrderStatus.FILLED ∧
    (∃ m, g_machines g' !! generate_client_order_id "k1" = Some m ∧ m_state m = FILLED ∧
          m_filled_quantity m = 50) ∧
    (∃ row, rows (x_store x') !! order_intent_id demo_repr demo_request = Some row ∧
           c_state row = "FILLED"%string) ∧
    journal_says (order_intent_id demo_repr demo_request) (λ s, s = IntentStatus.COMMITTED) x x' ∧
    confirmed "k1" (CObj r) (x_idem x').
Proof.
  refine (filled_order_recorded demo_repr demo_generate UNKNOWN_BROKER demo_request default_context "k1"
    (new_manager true) (demo_journalled (FillingBroker 0)) eq_refl eq_refl I (demo_journalled_calm (FillingBroker 0)) eq_refl
    (demo_fresh (FillingBroker 0)) _).
  intros []. do 2 eexists. split; [reflexivity|reflexivity].
Defined.

Lemma submitted_order_lost_witness :
  ∃ r g' x', execute_order demo_repr demo_generate UNKNOWN_BROKER demo_request (Some default_context)
               (new_manager true, demo_world (AcceptingBroker 0)) = (Ok (CObj r), (g', x')) ∧
    or_status r = OrderStatus.SUBMITTED ∧
    (∃ m, g_machines g' !! generate_client_order_id "k1" = Some m ∧ m_state m = VALIDATED ∧
          m_broker_order_id m = None) ∧
    ∃ row, rows (x_store x') !! order_intent_id demo_repr demo_request = Some row ∧
           c_state row = "FAILED"%string.
Proof.
  refine (submitted_order_lost demo_repr demo_generate UNKNOWN_BROKER demo_request default_context "k1"
    (new_manager true) (demo_world (AcceptingBroker 0)) eq_refl eq_refl I (demo_world_calm _) eq_refl
    (demo_fresh _) _).
  intros []. do 2 eexists. split; [reflexivity|reflexivity].
Defined.

(** The same order, still submitted in the registry. *)
Definition demo_busy : manager :=
  put_machine (generate_client_order_id "k1")
    (set_state SUBMITTED (new_machine "k1" (generate_client_order_id "k1") "NIFTY" 50 (f_of_Z 22000) "BUY"
                            (TsAt 0) (TsAt 0))) (new_manager true).

Lemma order_in_progress_blocks_witness :
  untouched (demo_busy, demo_world (FillingBroker 0))
    (execute_order demo_repr demo_generate UNKNOWN_BROKER demo_request None
       (demo_busy, demo_world (FillingBroker 0))).2.
Proof.
  refine (order_in_progress_blocks demo_repr demo_generate UNKNOWN_BROKER demo_request None "k1"
    demo_busy (demo_world (FillingBroker 0)) _ eq_refl eq_refl eq_refl _).
  apply (bool_decide_eq_false_1 _). by vm_compute.
Defined.

(** The same order, marked in flight by another call. *)
Definition demo_in_flight : xworld filling_broker :=
  x_set_idem (Idem (Clock 0 []) ∅ (PyDict [("k1", 0)]) 1000 24 None) (demo_world (FillingBroker 0)).

Lemma in_flight_order_blocks_witness :
  let out := execute_order demo_repr demo_generate UNKNOWN_BROKER demo_request None
               (new_manager true, demo_in_flight) in
  untouched (new_manager true, demo_in_flight) out.2 ∧
  (∀ c, gate_open demo_in_flight → out.1 = Ok c → duplicate_answer None c) ∧
  (∀ e, out.1 = Raise e → is_Some (x_wal demo_in_flight)).
Proof.
  refine (in_flight_order_blocks demo_repr demo_generate UNKNOWN_BROKER demo_request None "k1" None usec_per_hour
    (new_manager true) demo_in_flight eq_refl eq_refl eq_refl _ _).
  - split; [dict_wf_eval|]. split; [dict_wf_eval|]. split; [done|]. exists 0. split; [done|]. by vm_compute.
  - split; [repeat constructor; vm_compute; done|by vm_compute].
Defined.
