(* ===== verification/RetryPolicy.v ===== *)
(** * Retrying broker calls (core/execution/retry_policy/)

    [RetryPolicy] of manager.py with its exponential backoff, the
    convenience wrapper [safe_retry_operation], and the classifier of broker
    errors of classifier.py.  The operation is any computation; the waits go
    through the events of the caller's world. *)
From S2P Require Import Prelude PyStr Float64.

(** ** Data *)

Inductive RetrySafety := SAFE | UNKNOWN | UNSAFE.

#[global] Instance RetrySafety_eq_dec : EqDecision RetrySafety.
Proof. solve_decision. Defined.

(** [RetryPolicy.__init__]; [rp_event] says whether a shutdown event was
    given. *)
Record retry_policy := RetryPolicy {
  rp_max_retries : Z; rp_base_delay : float64; rp_max_delay : float64;
  rp_exponential_base : float64; rp_allow_unknown_retry : bool; rp_event : bool }.

Definition new_retry_policy (max_retries : Z) (allow_unknown event : bool) : retry_policy :=
  RetryPolicy max_retries (f_of_Z 1) (f_of_Z 10) (f_of_Z 2) allow_unknown event.

(** What waiting does: the policy's event, the shutdown event of
    [core.safety_state] and [time.sleep]; a wait answers whether the event
    is set. *)
Class Waits (W : Type) := {
  event_wait : float64 → ST W bool;
  shutdown_wait : float64 → ST W bool;
  sleep : float64 → ST W unit }.

(** ** Classification *)

(** [str(exception).lower()] and [type(exception).__name__.lower()] *)
Definition error_msg (e : pyexn) : string := str_lower (exn_msg e).
Definition error_type (e : pyexn) : string := str_lower (exn_name (exn_cls e)).

(** [RetryPolicy.classify_error] *)
Definition safe_type_words : list string :=
  ["timeout"; "connection"; "temporary"; "unavailable"; "503"; "502"; "504"].
Definition safe_msg_words : list string := safe_type_words ++ ["network"].
Definition unknown_type_words : list string := ["unknown"; "acknowledgement"; "ack"; "uncertain"].
Definition unknown_msg_words : list string := unknown_type_words ++ ["submission status unknown"].
Definition unsafe_type_words : list string :=
  ["rejected"; "invalid"; "insufficient"; "margin"; "not found"; "auth"; "permission"].
Definition unsafe_msg_words : list string := unsafe_type_words ++ ["not allowed"; "not permitted"].

Definition classify_error (e : pyexn) : RetrySafety :=
  if any_in safe_type_words (error_type e) then SAFE
  else if any_in safe_msg_words (error_msg e) then SAFE
  else if any_in unknown_type_words (error_type e) then UNKNOWN
  else if any_in unknown_msg_words (error_msg e) then UNKNOWN
  else if any_in unsafe_type_words (error_type e) then UNSAFE
  else if any_in unsafe_msg_words (error_msg e) then UNSAFE
  else UNKNOWN.

(** [BrokerErrorClassifier] of classifier.py *)
Inductive RetryDecision := RETRY | PERMANENT | UNKNOWN_DECISION.

#[global] Instance RetryDecision_eq_dec : EqDecision RetryDecision.
Proof. solve_decision. Defined.

Definition PERMANENT_PATTERNS : list string :=
  ["auth"; "token"; "expired"; "insufficient"; "margin"; "limit"; "rejected"; "invalid";
   "not found"; "unauthorized"].
Definition RETRYABLE_PATTERNS : list string :=
  ["timeout"; "timed out"; "connection"; "refused"; "reset"; "temporary"; "busy"; "rate limit";
   "too many requests"].

Definition matches (patterns : list string) (e : pyexn) : bool :=
  existsb (λ p, str_contains p (error_msg e) || str_contains p (error_type e)) patterns.

Definition classify (e : pyexn) : RetryDecision :=
  if matches PERMANENT_PATTERNS e then PERMANENT
  else if matches RETRYABLE_PATTERNS e then RETRY
  else UNKNOWN_DECISION.

Definition should_retry (e : pyexn) : bool := bool_decide (classify e = RETRY).

(** ** Retrying *)

Section retry.
Context `{!PyPow} {W A : Type} `{!Waits W}.
Implicit Types (p : retry_policy) (op : ST W A).

(** The delay before attempt [n], from the second on. *)
Definition backoff p (n : Z) : ST W float64 :=
  match fpow (rp_exponential_base p) (n - 2) with
  | Ok x => mret (py_min (rp_base_delay p * x)%f64 (rp_max_delay p))
  | Raise e => st_raise e
  end.

(** The wait before attempt [n]; [true] when the shutdown signal cut it. *)
Definition wait_before p (n : Z) : ST W bool :=
  if 1 <? n then
    delay ← backoff p n;
    if rp_event p then event_wait delay
    else
      st_try (shutdown_wait delay ;; mret ()) [ImportError; AttributeError] (λ _, sleep delay) ;;
      mret false
  else mret false.

(** One round of the loop, the exceptions of its [try] classified: the value
    of the operation ([None] when the wait was cut), or the classification. *)
Definition attempt p op (n : Z) : ST W (option A + RetrySafety) :=
  st_try_any
    (cut ← wait_before p n;
     if cut : bool then mret (inl None) else a ← op; mret (inl (Some a)))
    (λ e, mret (inr (classify_error e))).

Fixpoint retry_loop p op (attempts : list Z) (last_safety : RetrySafety) :
    ST W (option A * bool * RetrySafety) :=
  match attempts with
  | [] => mret (None, false, last_safety)
  | n :: rest =>
      o ← attempt p op n;
      match o with
      | inl (Some a) => mret (Some a, true, SAFE)
      | inl None => mret (None, false, UNKNOWN)
      | inr safety =>
          if bool_decide (safety = UNSAFE) then mret (None, false, safety)
          else if bool_decide (safety = UNKNOWN) && negb (rp_allow_unknown_retry p) then
            mret (None, false, safety)
          else if n =? rp_max_retries p then mret (None, false, safety)
          else retry_loop p op rest safety
      end
  end.

(** [execute_with_retry]; [retry_on_error_types] is accepted and unused. *)
Definition execute_with_retry p op : ST W (option A * bool * RetrySafety) :=
  retry_loop p op (seqZ 1 (rp_max_retries p)) UNKNOWN.

(** [execute_safe_retry] *)
Definition execute_safe_retry p op : ST W (option A) :=
  r ← execute_with_retry p op;
  let '(result, succeeded, safety) := r in
  if (succeeded : bool) then mret result
  else
    st_raise (PyExn RuntimeError
      match (safety : RetrySafety) with
      | UNKNOWN => "Operation failed with unknown status - manual intervention required"
      | UNSAFE => "Operation failed with permanent error - do not retry"
      | SAFE => String.append "Operation failed after "
                  (String.append (str_of_Z (rp_max_retries p)) " retries")
      end).
End retry.

(** [RetryResult] and [safe_retry_operation]: the wrapped operation keeps
    the last exception it raised. *)
Record retry_result (A : Type) := RetryResult {
  rr_success : bool; rr_result : option A; rr_safety : RetrySafety;
  rr_attempts : Z; rr_error : option string }.
Arguments RetryResult {A}. Arguments rr_success {A}. Arguments rr_result {A}.
Arguments rr_safety {A}. Arguments rr_attempts {A}. Arguments rr_error {A}.

#[global] Instance waits_fst {W L} `{!Waits W} : Waits (W * L) := {|
  event_wait d := st_zoom fst (λ w s, (w, s.2)) (event_wait d);
  shutdown_wait d := st_zoom fst (λ w s, (w, s.2)) (shutdown_wait d);
  sleep d := st_zoom fst (λ w s, (w, s.2)) (sleep d) |}.

Definition wrapped_operation {W A} (op : ST W A) : ST (W * option pyexn) A := λ s,
  let '(r, w) := op s.1 in
  (r, (w, match r with Raise e => Some e | Ok _ => s.2 end)).

Definition safe_retry_operation `{!PyPow} {W A} `{!Waits W} (op : ST W A) (max_retries : Z) (event : bool) :
    ST W (retry_result A) := λ w,
  match execute_with_retry (new_retry_policy max_retries false event) (wrapped_operation op) (w, None) with
  | (Ok (result, success, safety), (w', last_exc)) =>
      (Ok (RetryResult success result safety max_retries
             (if success then None else exn_msg <$> last_exc)), w')
  | (Raise e, (w', _)) => (Raise e, w')
  end.

(** ** What reaches the broker *)

(** The operation with a record of the outcomes of its calls. *)
Definition traced {W A} (op : ST W A) : ST (W * list (res A)) A := λ s,
  let '(r, w) := op s.1 in (r, (w, s.2 ++ [r])).

Definition retryable (p : retry_policy) (e : pyexn) : Prop :=
  classify_error e = SAFE ∨ (rp_allow_unknown_retry p = true ∧ classify_error e = UNKNOWN).

Section traced.
Context `{!PyPow} {W A : Type} `{!Waits W} (p : retry_policy) (op : ST W A).
Implicit Types (w : W) (l : list (res A)).

Lemma wait_keeps_trace n (s : W * list (res A)) : (wait_before p n s).2.2 = s.2.
Proof.
  assert (Hz : ∀ {B} (m : ST W B), st_rel (λ s s' : W * list (res A), s'.2 = s.2)
            (st_zoom fst (λ w s, (w, s.2)) m)).
  { intros B m s'. unfold st_zoom. by destruct (m s'.1). }
  assert (PreOrder (λ s s' : W * list (res A), s'.2 = s.2)).
  { split; [by intros ?|]. intros ??? H1 H2. congruence. }
  revert s. change (st_rel (λ s s' : W * list (res A), s'.2 = s.2) (wait_before p n)).
  unfold wait_before, backoff. destruct (1 <? n); [|auto with st].
  apply st_rel_bind; [done|..].
  - destruct (fpow _ _); auto with st.
  - intros d. destruct (rp_event p); [apply Hz|].
    repeat (apply st_rel_bind || apply st_rel_try || intros); try done; try apply Hz; auto with st.
Qed.

(** One round calls the operation at most once. *)
Lemma attempt_spec n w l :
  let '(r, (w', l')) := attempt p (traced op) n (w, l) in
  ∃ o, r = Ok o ∧
    match o with
    | inl (Some a) => l' = l ++ [Ok a]
    | inl None => l' = l
    | inr s => l' = l ∨ ∃ e, l' = l ++ [Raise e] ∧ classify_error e = s
    end.
Proof.
  unfold attempt, st_try_any, mbind, st_bind.
  pose proof (wait_keeps_trace n (w, l)) as Hw.
  destruct (wait_before p n (w, l)) as [[[]|e] [w1 l1]]; simpl in *; subst.
  - eexists. done.
  - unfold traced. simpl. destruct (op w1) as [[a|e] w2]; eexists; split; [done|done|done|].
    right. by eexists.
  - eexists. split; [done|]. by left.
Qed.

Definition retryable_failure (o : res A) : Prop := ∃ e, o = Raise e ∧ retryable p e.

(** The trace of a finished run: retryable failures, then at most one more
    call, the success when there is one. *)
Definition ended (v : option A) (succeeded : bool) l : Prop :=
  ∃ l0, Forall retryable_failure l0 ∧
    if succeeded then ∃ a, v = Some a ∧ l = l0 ++ [Ok a]
    else v = None ∧ (l = l0 ∨ ∃ e, l = l0 ++ [Raise e]).

Lemma retry_loop_spec ns last w l :
  Forall retryable_failure l →
  let '(r, (w', l')) := retry_loop p (traced op) ns last (w, l) in
  (length l' ≤ length l + length ns)%nat ∧
  ∃ v succeeded s, r = Ok (v, succeeded, s) ∧ ended v succeeded l'.
Proof.
  revert last w l. induction ns as [|n ns IH]; intros last w l Hl; simpl.
  { split; [lia|]. eexists _, _, _. split; [done|]. exists l. auto. }
  pose proof (attempt_spec n w l) as Ha. unfold mbind, st_bind.
  destruct (attempt p (traced op) n (w, l)) as [r [w1 l1]].
  destruct Ha as (o & -> & Ha).
  assert (Hstop : ∀ s : RetrySafety, l1 = l ∨ (∃ e, l1 = l ++ [Raise e]) → (length l1 ≤ length l + S (length ns))%nat ∧
    ∃ v b s', Ok (None, false, s) = Ok (v, b, s') ∧ ended v b l1).
  { intros s Hor. split; [destruct Hor as [->|[e ->]]; rewrite ?length_app; simpl; lia|].
    eexists _, _, _. split; [done|]. exists l. auto. }
  destruct o as [[a|]|s].
  - subst. split; [rewrite length_app; simpl; lia|].
    eexists _, _, _. split; [done|]. exists l. eauto.
  - apply Hstop. by left.
  - assert (Hor : l1 = l ∨ ∃ e, l1 = l ++ [Raise e])
      by (destruct Ha as [->|(e & -> & _)]; eauto).
    specialize (Hstop s Hor).
    case_bool_decide as Hunsafe; [done|].
    destruct (bool_decide (s = UNKNOWN) && _) eqn:Hunk; [done|].
    destruct (n =? _); [done|].
    specialize (IH s w1 l1). destruct (retry_loop p (traced op) ns s (w1, l1)) as [r' [w2 l2]].
    destruct IH as [Hl2 Hend2].
    + destruct Ha as [->|(e & -> & He)]; [done|]. apply Forall_app. split; [done|].
      constructor; [|done]. exists e. split; [done|]. unfold retryable. rewrite He.
      destruct s; [auto| |done]. right. simpl in Hunk. by destruct (rp_allow_unknown_retry p).
    + split; [|done]. destruct Hor as [->|[e ->]]; rewrite ?length_app in *; simpl in *; lia.
Qed.
End traced.

(** C15: Whatever the broker does, the loop terminates without raising, calls the
    operation at most [max_retries] times, and calls it again only after a
    failure classified SAFE (or UNKNOWN, when the policy allows that): an
    order whose fate is unknown is not placed twice.  It reports success
    exactly when the last call returned, and hands back its value. *)
Theorem retry_only_after_safe `{!PyPow} {W A} `{!Waits W} (p : retry_policy) (op : ST W A) (w : W) :
  let '(r, (w', l)) := execute_with_retry p (traced op) (w, []) in
  ∃ v succeeded s, r = Ok (v, succeeded, s) ∧
    Z.of_nat (length l) ≤ Z.max 0 (rp_max_retries p) ∧
    (∀ i o, l !! i = Some o → (S i < length l)%nat → ∃ e, o = Raise e ∧ retryable p e) ∧
    (if (succeeded : bool) then ∃ a, v = Some a ∧ last l = Some (Ok a)
     else v = None ∧ ∀ a, last l ≠ Some (Ok a)).
Proof.
  unfold execute_with_retry.
  pose proof (retry_loop_spec p op (seqZ 1 (rp_max_retries p)) UNKNOWN w [] (Forall_nil_2 _)) as Hrun.
  destruct (retry_loop _ _ _ _ _) as [r [w' l]].
  destruct Hrun as [Hlen (v & b & s & -> & l0 & Hl0 & Hend)]. exists v, b, s.
  rewrite length_seqZ in Hlen. simpl in Hlen.
  assert (Hprefix : ∀ k i o, l = l0 ++ k → (length k ≤ 1)%nat → l !! i = Some o → (S i < length l)%nat →
    ∃ e, o = Raise e ∧ retryable p e).
  { intros k i o -> Hk Hi Hlt. rewrite length_app in Hlt. rewrite lookup_app_l in Hi by lia.
    eapply Forall_lookup in Hl0; [|done]. done. }
  split; [done|]. split; [lia|]. destruct b.
  - destruct Hend as (a & -> & Hl). split; [intros i o; by apply (Hprefix [Ok a])|].
    exists a. split; [done|]. by rewrite Hl, last_snoc.
  - destruct Hend as [-> Hl].
    destruct Hl as [Hl|[e Hl]]; (split; [|split; [done|]]).
    + intros i o. apply (Hprefix []); [by rewrite app_nil_r|simpl; lia].
    + intros a Ha. rewrite Hl in Ha. apply last_Some_elem_of in Ha.
      rewrite Forall_forall in Hl0. by destruct (Hl0 _ Ha) as (? & ? & ?).
    + intros i o. by apply (Hprefix [Raise e]).
    + intros a. by rewrite Hl, last_snoc.
Qed.

(** *** What the patterns miss *)

(** A text that names a connection is SAFE to retry even when it also says
    that the fate of the order is unknown or that it was rejected. *)
Lemma connection_text_safe (e : pyexn) :
  str_contains "connection" (error_msg e) = true → classify_error e = SAFE.
Proof.
  intros H. unfold classify_error. destruct (any_in safe_type_words _); [done|].
  assert (any_in safe_msg_words (error_msg e) = true) as ->; [|done].
  apply any_in_true. exists "connection"%string. split; [in_list|done].
Qed.

(** The pattern ["rate limit"] of the retryable errors is never reached: it
    contains the permanent pattern ["limit"]. *)
Lemma rate_limit_never_retried (e : pyexn) :
  str_contains "rate limit" (error_msg e) = true → classify e = PERMANENT.
Proof.
  intros (l & r & Heq)%str_contains_spec. unfold classify.
  assert (matches PERMANENT_PATTERNS e = true) as ->; [|done].
  apply existsb_exists. exists "limit"%string. split; [simpl; tauto|].
  apply orb_true_iff. left. apply str_contains_spec.
  exists (l +:+ "rate ")%string, r. rewrite Heq. clear Heq.
  induction l as [|c l IH]; [done|]. simpl. exact (f_equal (String c) IH).
Qed.
