(* ===== verification/BrokerGateway.v ===== *)
(** * The broker gateway (core/execution/broker_gateway.py)

    The gateway between the order manager and the broker adapters, with the
    data types of core/adapters/base_adapter.py and the TWAP engine of
    core/execution/algo_router.py it hands large orders to.  The adapters
    are an interface; a TWAP worker thread is a list of slices still to
    place, one placed per step. *)
From S2P Require Import Prelude PyStr Float64 PyDict.

(** ** Data *)

Module Adapter.
(** [OrderStatus] of base_adapter.py *)
Inductive status :=
| NEW | PENDING | VALIDATED | SUBMITTED | ACKNOWLEDGED | PARTIAL_FILL | FILLED
| CANCEL_PENDING | CANCELLED | REJECTED | FAILED | UNKNOWN | RECONCILING.

#[global] Instance status_eq_dec : EqDecision status.
Proof. solve_decision. Defined.

Definition status_all : list status :=
  [NEW; PENDING; VALIDATED; SUBMITTED; ACKNOWLEDGED; PARTIAL_FILL; FILLED; CANCEL_PENDING;
   CANCELLED; REJECTED; FAILED; UNKNOWN; RECONCILING].

(** [status.name] *)
Definition status_name (s : status) : string :=
  match s with
  | NEW => "NEW" | PENDING => "PENDING" | VALIDATED => "VALIDATED" | SUBMITTED => "SUBMITTED"
  | ACKNOWLEDGED => "ACKNOWLEDGED" | PARTIAL_FILL => "PARTIAL_FILL" | FILLED => "FILLED"
  | CANCEL_PENDING => "CANCEL_PENDING" | CANCELLED => "CANCELLED" | REJECTED => "REJECTED"
  | FAILED => "FAILED" | UNKNOWN => "UNKNOWN" | RECONCILING => "RECONCILING"
  end.

(** [OrderRequest] and [OrderResponse] of base_adapter.py *)
Record request := Request {
  q_symbol : string; q_qty : Z; q_price : float64; q_order_type : string;
  q_direction : string; q_product : string; q_variety : string; q_tag : string;
  q_idempotency_key : string }.

Record response := Response {
  p_order_id : string; p_status : status; p_filled_qty : Z; p_avg_price : float64;
  p_error : option string }.

Definition failed (order_id error : string) : response :=
  Response order_id FAILED 0 f_zero (Some error).
End Adapter.
Import Adapter.

(** A registered class by its name, an instance as a handle [H] into the
    world [W] of the broker SDKs. *)
Class AdapterPort (H W : Type) := {
  instantiate : string → ST W H;
  authenticate : H → list (string * string) → ST W bool;
  adapter_place_order : H → request → ST W response;
  adapter_get_ltp : H → string → ST W float64;
  adapter_get_positions : H → ST W (list string) }.

(** A TWAP thread: the request it slices and the quantities left. *)
Record twap := Twap { tw_request : request; tw_left : list Z }.

(** [BrokerGateway] and the engine behind [get_algo_engine]; [gw_algo] says
    whether the engine's module can be imported. *)
Record gateway (H W : Type) := Gateway {
  gw_active_adapter : option H;
  gw_adapter_registry : pydict string;
  gw_current_broker_name : option string;
  gw_algo : bool;
  gw_threads : list twap;
  gw_active_twaps : pydict nat;
  gw_env : W }.
Arguments Gateway {H W}. Arguments gw_active_adapter {H W}. Arguments gw_adapter_registry {H W}.
Arguments gw_current_broker_name {H W}. Arguments gw_algo {H W}. Arguments gw_threads {H W}.
Arguments gw_active_twaps {H W}. Arguments gw_env {H W}.

(** ** Operations *)

(** The classes [connect] and [place_order] catch; they differ in
    [KeyError]. *)
Definition place_errors : list exn_class :=
  [ValueError; TypeError; OSError; ConnectionError; TimeoutError; AttributeError].
Definition connect_errors : list exn_class := KeyError :: place_errors.

(** The slices of [execute_twap]: [total_qty // slices] each, at least one,
    the remainder on the last. *)
Definition twap_slices (total_qty slices : Z) : list Z :=
  let slice_qty := Z.max 1 (total_qty / slices) in
  let remainder := total_qty `mod` slices in
  (λ i, slice_qty + (if i =? slices - 1 then remainder else 0)) <$> seqZ 0 slices.

(** The request of one slice. *)
Definition slice_request (r : request) (q : Z) : request :=
  Request (q_symbol r) q (q_price r) "MARKET" (q_direction r) (q_product r) (q_variety r)
    (q_tag r) (q_idempotency_key r).
Definition market_request (r : request) : request := slice_request r (q_qty r).

Section gateway.
Context {H W : Type} `{!AdapterPort H W}.
Implicit Types g : gateway H W.

Definition GM (A : Type) : Type := ST (gateway H W) A.

Definition set_active (a : H) (name : string) g : gateway H W :=
  Gateway (Some a) (gw_adapter_registry g) (Some name) (gw_algo g) (gw_threads g)
    (gw_active_twaps g) (gw_env g).
Definition set_registry d g : gateway H W :=
  Gateway (gw_active_adapter g) d (gw_current_broker_name g) (gw_algo g) (gw_threads g)
    (gw_active_twaps g) (gw_env g).
Definition set_threads (ts : list twap) (d : pydict nat) g : gateway H W :=
  Gateway (gw_active_adapter g) (gw_adapter_registry g) (gw_current_broker_name g) (gw_algo g)
    ts d (gw_env g).
Definition set_env (e : W) g : gateway H W :=
  Gateway (gw_active_adapter g) (gw_adapter_registry g) (gw_current_broker_name g) (gw_algo g)
    (gw_threads g) (gw_active_twaps g) e.

Definition on_env {A} (m : ST W A) : GM A := st_zoom gw_env set_env m.

Definition register_adapter (name cls : string) : GM unit :=
  st_modify (λ g, set_registry (<[name := cls]> (gw_adapter_registry g)) g).

Definition connect (broker_name : string) (credentials : list (string * string)) : GM bool :=
  g ← st_get;
  match gw_adapter_registry g !! broker_name with
  | None => mret false
  | Some cls =>
      st_try
        (adapter ← on_env (instantiate cls);
         ok ← on_env (authenticate adapter credentials);
         if ok : bool then st_modify (set_active adapter broker_name) ;; mret true
         else mret false)
        connect_errors (λ _, mret false)
  end.

Definition switch_broker (name : string) (credentials : list (string * string)) : GM bool :=
  connect name credentials.

Definition get_ltp (symbol : string) : GM float64 :=
  g ← st_get;
  match gw_active_adapter g with
  | None => mret f_zero
  | Some a => st_try_any (on_env (adapter_get_ltp a symbol)) (λ _, mret f_zero)
  end.

Definition get_positions : GM (list string) :=
  g ← st_get;
  match gw_active_adapter g with
  | None => mret []
  | Some a => st_try_any (on_env (adapter_get_positions a)) (λ _, mret [])
  end.

(** [_twap_execute]: the adapter active when the slice is placed. *)
Definition twap_execute (r : request) (q : Z) : GM bool :=
  st_try_any
    (g ← st_get;
     match gw_active_adapter g with
     | None => st_raise (PyExn AttributeError "'NoneType' object has no attribute 'place_order'")
     | Some a =>
         res ← on_env (adapter_place_order a (slice_request r q));
         mret (negb (bool_decide (p_status res = FAILED)))
     end)
    (λ _, mret false).

(** [execute_twap]: a single slice is placed at once, more go to a thread. *)
Definition execute_twap (r : request) (slices : Z) : GM unit :=
  if slices <=? 1 then twap_execute r (q_qty r) ;; mret ()
  else
    st_modify (λ g,
      set_threads (gw_threads g ++ [Twap r (twap_slices (q_qty r) slices)])
        (<[q_symbol r := length (gw_threads g)]> (gw_active_twaps g)) g).

(** One round of the worker of thread [i]: a slice that fails ends it. *)
Definition twap_worker (i : nat) : GM unit :=
  g ← st_get;
  match gw_threads g !! i with
  | Some (Twap r (q :: qs)) =>
      success ← twap_execute r q;
      st_modify (λ g', set_threads (<[i := Twap r (if success : bool then qs else [])]> (gw_threads g'))
                         (gw_active_twaps g') g')
  | _ => mret ()
  end.

(** [n] rounds of it. *)
Fixpoint twap_run (i n : nat) : GM unit :=
  match n with O => mret () | S n' => twap_worker i ;; twap_run i n' end.

(** The plain route of [place_order]. *)
Definition route (a : H) (r : request) : GM response :=
  st_try (on_env (adapter_place_order a r)) place_errors
    (λ e, mret (failed "ERROR" (exn_msg e))).

(** [place_order]; with the response comes the request object as the call
    leaves it. *)
Definition place_order (r : request) : GM (response * request) :=
  g ← st_get;
  match gw_active_adapter g with
  | None => mret (failed "NONE" "No active broker connected", r)
  | Some a =>
      if String.eqb (q_order_type r) "TWAP" then
        if gw_algo g then
          ltp ← get_ltp (q_symbol r);
          execute_twap r 5 ;;
          mret (Response "TWAP_ALGO_ROUTED" PENDING 0 f_zero None, r)
        else
          res ← route a (market_request r);
          mret (res, market_request r)
      else
        res ← route a r;
        mret (res, r)
  end.
End gateway.

(** ** The slices of a TWAP order *)

Definition total (qs : list Z) : Z := foldr Z.add 0 qs.

Lemma total_app qs qs' : total (qs ++ qs') = total qs + total qs'.
Proof. induction qs as [|q qs IH]; simpl; lia. Qed.

Lemma total_const (c : Z) (f : Z → Z) (a : Z) (n : nat) :
  (∀ i, a ≤ i < a + Z.of_nat n → f i = c) → total (f <$> seqZ a (Z.of_nat n)) = c * Z.of_nat n.
Proof.
  revert a. induction n as [|n IH]; intros a Hf; [simpl; lia|].
  rewrite Nat2Z.inj_succ, seqZ_cons by lia. simpl. rewrite Hf by lia.
  rewrite (Z.pred_succ (Z.of_nat n)), IH; [lia|]. intros i Hi. apply Hf. lia.
Qed.

(** The slices add up to the order, unless it has fewer lots than slices:
    then every slice takes one lot and the last takes the whole order on
    top. *)
Lemma twap_slices_total (q slices : Z) :
  0 ≤ q → 1 ≤ slices →
  total (twap_slices q slices) = if q <? slices then slices + q else q.
Proof.
  intros Hq Hs. unfold twap_slices.
  replace (seqZ 0 slices) with (seqZ 0 (Z.of_nat (Z.to_nat (slices - 1)) + 1)) by (f_equal; lia).
  rewrite seqZ_app, fmap_app, total_app by lia. simpl.
  rewrite (total_const (Z.max 1 (q / slices))).
  - rewrite Z.add_0_l. rewrite (proj2 (Z.eqb_eq _ _)) by lia.
    pose proof (Z.div_mod q slices ltac:(lia)) as Hdiv.
    destruct (Z.ltb_spec q slices).
    + rewrite Z.div_small, Z.mod_small by lia. lia.
    + assert (1 ≤ q / slices) by (apply Z.div_le_lower_bound; lia). nia.
  - intros i Hi. rewrite (proj2 (Z.eqb_neq _ _)) by lia. lia.
Qed.

(** An adapter that takes every order, with a log of what it was sent; a
    price lookup sends nothing. *)
Record accepting {H W} `{!AdapterPort H W} (log : W → list request) (a : H) : Prop := {
  accepts q w : ∃ res w', adapter_place_order a q w = (Ok res, w') ∧
    p_status res ≠ FAILED ∧ log w' = log w ++ [q];
  ltp_silent s w : log (adapter_get_ltp a s w).2 = log w }.

Section accepting.
Context {H W : Type} `{!AdapterPort H W} (log : W → list request) (a : H).
Hypothesis Hacc : accepting log a.
Implicit Types g : gateway H W.

Lemma twap_execute_accepted r q g :
  gw_active_adapter g = Some a →
  ∃ w', twap_execute r q g = (Ok true, set_env w' g) ∧ log w' = log (gw_env g) ++ [slice_request r q].
Proof.
  intros Ha. destruct (accepts _ _ Hacc (slice_request r q) (gw_env g)) as (res & w' & Hp & Hs & Hl).
  exists w'. split; [|done].
  unfold twap_execute, st_try_any, mbind, st_bind, st_get, on_env, st_zoom.
  rewrite Ha, Hp. by rewrite bool_decide_eq_false_2.
Qed.

Lemma twap_worker_accepted i r q qs g :
  gw_active_adapter g = Some a → gw_threads g !! i = Some (Twap r (q :: qs)) →
  ∃ g', twap_worker i g = (Ok (), g') ∧ gw_active_adapter g' = Some a ∧
    gw_threads g' !! i = Some (Twap r qs) ∧ log (gw_env g') = log (gw_env g) ++ [slice_request r q].
Proof.
  intros Ha Hi. destruct (twap_execute_accepted r q g Ha) as (w' & He & Hl).
  eexists. split.
  - unfold twap_worker. rewrite (st_bind_ok _ _ _ g g) by done. rewrite Hi.
    rewrite (st_bind_ok _ _ _ _ _ He). done.
  - simpl. split_and!; [done| |done]. apply list_lookup_insert_eq. by eapply lookup_lt_Some.
Qed.

Lemma twap_run_accepted i n r qs g :
  gw_active_adapter g = Some a → gw_threads g !! i = Some (Twap r qs) →
  log (gw_env (twap_run i n g).2) = log (gw_env g) ++ (slice_request r <$> take n qs).
Proof.
  revert qs g. induction n as [|n IH]; intros qs g Ha Hi; simpl; [by rewrite app_nil_r|].
  destruct qs as [|q qs].
  - assert (twap_worker i g = (Ok (), g)) as Hw by (unfold twap_worker, mbind, st_bind, st_get; by rewrite Hi).
    rewrite (st_bind_ok _ _ _ _ _ Hw), (IH [] g Ha Hi). by rewrite take_nil.
  - destruct (twap_worker_accepted i r q qs g Ha Hi) as (g' & Hw & Ha' & Hi' & Hl).
    rewrite (st_bind_ok _ _ _ _ _ Hw), (IH qs g' Ha' Hi'), Hl. simpl. by rewrite <- app_assoc.
Qed.

Lemma get_ltp_silent s g :
  gw_active_adapter g = Some a →
  ∃ x w', get_ltp s g = (Ok x, set_env w' g) ∧ log w' = log (gw_env g).
Proof.
  intros Ha. unfold get_ltp, st_try_any, mbind, st_bind, st_get, on_env, st_zoom. rewrite Ha.
  pose proof (ltp_silent _ _ Hacc s (gw_env g)) as Hl.
  destruct (adapter_get_ltp a s (gw_env g)) as [[x|e] w']; by eexists _, w'.
Qed.
End accepting.

(** The answer to a TWAP order, whatever the adapter does. *)
Definition twap_response : response := Response "TWAP_ALGO_ROUTED" PENDING 0 f_zero None.

Lemma place_twap {H W} `{!AdapterPort H W} (a : H) (r : request) (g : gateway H W) :
  gw_active_adapter g = Some a → gw_algo g = true → q_order_type r = "TWAP"%string →
  ∃ g', place_order r g = (Ok (twap_response, r), g') ∧ gw_active_adapter g' = Some a ∧
    gw_algo g' = true.
Proof.
  intros Ha Hg Ht. unfold place_order, get_ltp, execute_twap, mbind, st_bind, st_get, st_try_any, on_env, st_zoom.
  rewrite Ha, Ht, Hg. simpl. rewrite Ha.
  destruct (adapter_get_ltp a (q_symbol r) (gw_env g)) as [[x|e] w'].
  all: unfold st_modify; eexists; (split; [done|split; [exact Ha|exact Hg]]).
Qed.

(** A TWAP order is answered PENDING under the same order id whatever comes
    of it, before anything is placed; its thread then places, against an
    adapter that takes every order, exactly the quantity asked for when that
    is at least five lots, and five lots more than asked for below. *)
Theorem twap_quantity {H W} `{!AdapterPort H W} (log : W → list request) (a : H) (r : request)
    (g : gateway H W) :
  accepting log a →
  gw_active_adapter g = Some a → gw_algo g = true → q_order_type r = "TWAP"%string → 0 ≤ q_qty r →
  ∃ g1, place_order r g = (Ok (Response "TWAP_ALGO_ROUTED" PENDING 0 f_zero None, r), g1) ∧
    log (gw_env g1) = log (gw_env g) ∧
    ∀ n, (5 ≤ n)%nat → ∃ placed,
      log (gw_env (twap_run (length (gw_threads g)) n g1).2) = log (gw_env g) ++ placed ∧
      total (q_qty <$> placed) = if q_qty r <? 5 then 5 + q_qty r else q_qty r.
Proof.
  intros Hacc Ha Hg Ht Hq.
  destruct (get_ltp_silent log a Hacc (q_symbol r) g Ha) as (x & w1 & Hltp & Hl1).
  eexists. split; [|split].
  - unfold place_order. rewrite (st_bind_ok _ _ _ g g) by done. rewrite Ha, Ht, Hg. simpl.
    rewrite (st_bind_ok _ _ _ _ _ Hltp). done.
  - done.
  - intros n Hn. set (g1 := set_threads _ _ _).
    exists (slice_request r <$> twap_slices (q_qty r) 5).
    rewrite (twap_run_accepted log a Hacc _ _ r (twap_slices (q_qty r) 5)); [|done|].
    + simpl. rewrite Hl1. split; [by rewrite take_ge|].
      by rewrite <- (twap_slices_total _ 5).
    + subst g1. simpl. rewrite lookup_app_r, Nat.sub_diag by done. done.
Qed.

(** ** A concrete gateway *)

(** An adapter whose world is the list of the requests it got. *)
#[global] Instance accept_all : AdapterPort unit (list request) := {|
  instantiate _ := mret ();
  authenticate _ _ := mret true;
  adapter_place_order _ r := λ l, (Ok (Response "ord" SUBMITTED 0 f_zero None), l ++ [r]);
  adapter_get_ltp _ _ := mret f_zero;
  adapter_get_positions _ := mret [] |}.

Definition demo_gateway : gateway unit (list request) :=
  Gateway (Some ()) ∅ (Some "paper"%string) true [] ∅ [].
Definition demo_twap : request :=
  Request "NIFTY" 3 f_zero "TWAP" "BUY" "MIS" "REGULAR" "OPB_BOT" "".

Lemma demo_accepting : accepting (W:=list request) id ().
Proof. split; [|done]. intros q w. by eexists _, _. Qed.

(** Three lots asked for, eight placed. *)
Example demo_twap_places :
  q_qty <$> gw_env (twap_run 0 5 (place_order demo_twap demo_gateway).2).2 = [1; 1; 1; 1; 4].
Proof. vm_compute. reflexivity. Qed.

Lemma twap_quantity_witness :
  ∃ g1, place_order demo_twap demo_gateway =
      (Ok (Response "TWAP_ALGO_ROUTED" PENDING 0 f_zero None, demo_twap), g1) ∧
    gw_env g1 = [] ∧
    ∀ n, (5 ≤ n)%nat → ∃ placed,
      gw_env (twap_run 0 n g1).2 = [] ++ placed ∧ total (q_qty <$> placed) = 8.
Proof.
  exact (twap_quantity id () demo_twap demo_gateway demo_accepting eq_refl eq_refl eq_refl
           ltac:(vm_compute; discriminate)).
Defined.
