(* ===== verification/OrderManager.v ===== *)
(** * The order manager (core/execution/order_manager.py)

    [OrderManager]: the intents of the process as shared [OrderState]
    objects, its tables of broker ids, and the table [orders] that outlives
    it.  [execute_intent] takes its lock only for parts of its work, so it
    is also given as the sequence of steps between which another thread may
    run. *)
From S2P Require Import Prelude PyStr Float64 PyDict BrokerGateway.
Import Adapter.

(** ** Data *)

(** [OrderState] *)
Record order_state := OrderState {
  os_intent_id : string; os_request : request; os_status : status;
  os_broker_order_id : option string; os_filled_qty : Z; os_avg_price : float64;
  os_created_at : tstamp; os_updated_at : tstamp; os_error : option string }.

(** A row of [orders], by its primary key [intent_id]; [request_json] is kept
    as what [json.loads] makes of it: a request, or a text that does not
    parse. *)
Inductive rjson := JRequest (r : request) | JText (s : string).

Record orow := ORow {
  o_broker_order_id : option string; o_request_json : rjson; o_status : string;
  o_filled_qty : Z; o_avg_price : float64; o_created_at : tstamp; o_updated_at : tstamp;
  o_error_text : option string }.

(** What the manager relies on: the gateway answers a request or raises, and
    leaves the request object in some state. *)
Class GatewayPort (G : Type) := { gw_place : request → ST G (response * request) }.

#[global] Instance gateway_port {H W} `{!AdapterPort H W} : GatewayPort (gateway H W) :=
  {| gw_place := place_order |}.

(** The manager: its objects, its maps (an intent's object, the intent of a
    broker id, the broker id of an intent, the events that say an intent is
    settled) and what it calls. *)
Record omgr (G : Type) := OMgr {
  om_clk : clock;
  om_db : dbase orow;
  om_objects : list order_state;
  om_orders : pydict nat;
  om_broker_map : pydict string;
  om_intent_map : pydict string;
  om_intent_events : pydict bool;
  om_uuids : list string;
  om_gateway : G }.
Arguments OMgr {G}. Arguments om_clk {G}. Arguments om_db {G}. Arguments om_objects {G}.
Arguments om_orders {G}. Arguments om_broker_map {G}. Arguments om_intent_map {G}.
Arguments om_intent_events {G}. Arguments om_uuids {G}. Arguments om_gateway {G}.

(** ** Operations *)

Section manager.
Context {G : Type} `{!GatewayPort G}.
Implicit Types w : omgr G.

#[global] Instance omgr_clock : HasClock (omgr G) :=
  {| clock_of := om_clk;
     set_clock := λ c w, OMgr c (om_db w) (om_objects w) (om_orders w) (om_broker_map w)
                           (om_intent_map w) (om_intent_events w) (om_uuids w) (om_gateway w) |}.

Definition om_set_db d w : omgr G :=
  OMgr (om_clk w) d (om_objects w) (om_orders w) (om_broker_map w) (om_intent_map w)
    (om_intent_events w) (om_uuids w) (om_gateway w).
Definition om_set_objects l w : omgr G :=
  OMgr (om_clk w) (om_db w) l (om_orders w) (om_broker_map w) (om_intent_map w)
    (om_intent_events w) (om_uuids w) (om_gateway w).
Definition om_set_orders d w : omgr G :=
  OMgr (om_clk w) (om_db w) (om_objects w) d (om_broker_map w) (om_intent_map w)
    (om_intent_events w) (om_uuids w) (om_gateway w).
Definition om_set_maps (b i : pydict string) w : omgr G :=
  OMgr (om_clk w) (om_db w) (om_objects w) (om_orders w) b i
    (om_intent_events w) (om_uuids w) (om_gateway w).
Definition om_set_events d w : omgr G :=
  OMgr (om_clk w) (om_db w) (om_objects w) (om_orders w) (om_broker_map w) (om_intent_map w)
    d (om_uuids w) (om_gateway w).
Definition om_set_uuids l w : omgr G :=
  OMgr (om_clk w) (om_db w) (om_objects w) (om_orders w) (om_broker_map w) (om_intent_map w)
    (om_intent_events w) l (om_gateway w).
Definition om_set_gateway g w : omgr G :=
  OMgr (om_clk w) (om_db w) (om_objects w) (om_orders w) (om_broker_map w) (om_intent_map w)
    (om_intent_events w) (om_uuids w) g.

Definition OMT (A : Type) : Type := ST (omgr G) A.

Definition om_run {A} (f : pydict orow → A * pydict orow) : OMT A :=
  st_zoom om_db om_set_db (db_run f).

Definition uuid4 : OMT string := λ w,
  match om_uuids w with [] => (Ok ""%string, w) | u :: us => (Ok u, om_set_uuids us w) end.

(** The object behind a reference, and an assignment to its attributes. *)
Definition the_order (ref : nat) : OMT order_state := λ w,
  match om_objects w !! ref with
  | Some o => (Ok o, w)
  | None => (Raise (PyExn RuntimeError "dangling reference"), w)
  end.
Definition assign (ref : nat) (f : order_state → order_state) : OMT unit :=
  st_modify (λ w, om_set_objects (alter f ref (om_objects w)) w).

(** [_persist_order]: [INSERT OR REPLACE] drops the row of the same intent
    and any row of the same broker order id. *)
Definition order_row (o : order_state) : orow :=
  ORow (os_broker_order_id o) (JRequest (os_request o)) (status_name (os_status o))
    (os_filled_qty o) (os_avg_price o) (os_created_at o) (os_updated_at o) (os_error o).

Definition same_broker_id (a b : option string) : bool :=
  match a, b with Some x, Some y => String.eqb x y | _, _ => false end.

Definition insert_order (k : string) (row : orow) (t : pydict orow) : pydict orow :=
  tbl_replace k row
    (dfilter (λ j r, String.eqb j k ||
                     negb (same_broker_id (o_broker_order_id row) (o_broker_order_id r))) t).

Definition persist_order (ref : nat) : OMT unit :=
  st_try
    (o ← the_order ref; om_run (λ t, ((), insert_order (os_intent_id o) (order_row o) t)))
    [JSONDecodeError; OSError] (λ _, mret ()).

(** [_validate_transition] *)
Definition transitions (s : status) : list status :=
  match s with
  | NEW => [VALIDATED; FAILED]
  | VALIDATED => [SUBMITTED; ACKNOWLEDGED; FAILED]
  | SUBMITTED => [ACKNOWLEDGED; REJECTED; FAILED]
  | ACKNOWLEDGED => [PARTIAL_FILL; FILLED; CANCEL_PENDING; FAILED]
  | PARTIAL_FILL => [PARTIAL_FILL; FILLED; CANCEL_PENDING; FAILED]
  | CANCEL_PENDING => [CANCELLED; FILLED; FAILED]
  | _ => []
  end.
Definition validate_transition (current next : status) : bool :=
  bool_decide (next ∈ transitions current).

Definition create_order_intent : OMT string := uuid4.

(** The response made of an object. *)
Definition order_response (o : order_state) (default : string) : response :=
  Response (str_or (os_broker_order_id o) default) (os_status o) (os_filled_qty o)
    (os_avg_price o) (os_error o).

(** [get_order_response] *)
Definition get_order_response (broker_order_id : string) : OMT response :=
  w ← st_get;
  let ref :=
    match om_broker_map w !! broker_order_id with
    | Some intent_id =>
        if truthy_str intent_id && dmem intent_id (om_orders w) then om_orders w !! intent_id
        else om_orders w !! broker_order_id
    | None => om_orders w !! broker_order_id
    end in
  match ref with
  | None => mret (failed "NOT_FOUND" "Order not found")
  | Some ref => o ← the_order ref; mret (order_response o broker_order_id)
  end.

(** The response of the object an intent is bound to. *)
Definition existing_response (intent_id : string) : OMT response :=
  w ← st_get;
  match om_orders w !! intent_id with
  | Some ref => o ← the_order ref; mret (order_response o "")
  | None => st_raise (PyExn KeyError intent_id)
  end.

(** *** The steps of [execute_intent] *)

(** Under the lock: the answer for an intent already known, or whether to
    wait for the thread that works on it ([true]) or to go on ([false]). *)
Definition claim (intent_id : string) : OMT (response + bool) :=
  w ← st_get;
  if dmem intent_id (om_orders w) then
    let broker_id := om_intent_map w !! intent_id in
    if truthy_opt broker_id then
      r ← get_order_response (str_or broker_id ""); mret (inl r)
    else if dmem intent_id (om_intent_events w) then mret (inr true)
    else r ← existing_response intent_id; mret (inl r)
  else mret (inr false).

(** Under the lock again, once the event is set or 20 seconds are over. *)
Definition after_wait (intent_id : string) : OMT response :=
  w ← st_get;
  let broker_id := om_intent_map w !! intent_id in
  if truthy_opt broker_id then get_order_response (str_or broker_id "")
  else existing_response intent_id.

(** Phase 1, without the lock: the new object, its entries and its row. *)
Definition register (intent_id : string) (r : request) : OMT nat :=
  created ← format_ts;
  updated ← format_ts;
  w ← st_get;
  let ref := length (om_objects w) in
  st_modify (λ w, om_set_objects
    (om_objects w ++ [OrderState intent_id r VALIDATED None 0 f_zero created updated None]) w) ;;
  st_modify (λ w, om_set_orders (<[intent_id := ref]> (om_orders w)) w) ;;
  st_modify (λ w, om_set_events (<[intent_id := false]> (om_intent_events w)) w) ;;
  st_modify (λ w, om_set_maps (om_broker_map w) (<[intent_id := ""%string]> (om_intent_map w)) w) ;;
  persist_order ref ;;
  mret ref.

(** Phase 2: the gateway, given the request object of the order. *)
Definition place (ref : nat) (r : request) : OMT response :=
  p ← st_zoom om_gateway om_set_gateway (gw_place r);
  assign ref (λ o, OrderState (os_intent_id o) p.2 (os_status o) (os_broker_order_id o)
    (os_filled_qty o) (os_avg_price o) (os_created_at o) (os_updated_at o) (os_error o)) ;;
  mret p.1.

Definition set_event (intent_id : string) : OMT unit :=
  st_modify (λ w, if dmem intent_id (om_intent_events w)
                  then om_set_events (<[intent_id := true]> (om_intent_events w)) w else w).

(** Phase 3: what the answer of the gateway makes of the order. *)
Definition settle (intent_id : string) (ref : nat) (p : response) : OMT response :=
  if bool_decide (p_status p = FAILED) then
    t ← format_ts;
    assign ref (λ o, OrderState (os_intent_id o) (os_request o) FAILED (os_broker_order_id o)
      (os_filled_qty o) (os_avg_price o) (os_created_at o) t (p_error p)) ;;
    persist_order ref ;;
    set_event intent_id ;;
    mret p
  else
    t ← format_ts;
    assign ref (λ o, OrderState (os_intent_id o) (os_request o) ACKNOWLEDGED
      (Some (p_order_id p)) (p_filled_qty p) (p_avg_price p) (os_created_at o) t (os_error o)) ;;
    st_modify (λ w,
      if truthy_str (p_order_id p) then
        om_set_maps (<[p_order_id p := intent_id]> (om_broker_map w))
          (<[intent_id := p_order_id p]> (om_intent_map w)) w
      else w) ;;
    persist_order ref ;;
    set_event intent_id ;;
    mret p.

(** [execute_intent] when no other thread runs in between. *)
Definition execute_intent (intent_id : string) (r : request) : OMT response :=
  c ← claim intent_id;
  match c with
  | inl p => mret p
  | inr true => after_wait intent_id
  | inr false =>
      ref ← register intent_id r;
      p ← place ref r;
      settle intent_id ref p
  end.

(** [update_order_status] *)
Definition update_order_status (broker_order_id : string) (new_status : status) (filled_qty : Z)
    (avg_price : float64) : OMT unit :=
  w ← st_get;
  match om_broker_map w !! broker_order_id with
  | None => mret ()
  | Some intent_id =>
      match om_orders w !! intent_id with
      | Some ref =>
          if truthy_str intent_id then
            o ← the_order ref;
            if validate_transition (os_status o) new_status then
              t ← format_ts;
              assign ref (λ o, OrderState (os_intent_id o) (os_request o) new_status
                (os_broker_order_id o) filled_qty avg_price (os_created_at o) t (os_error o)) ;;
              persist_order ref
            else mret ()
          else mret ()
      | None => mret ()
      end
  end.

(** *** Restart *)

Definition blank_request : request := Request "" 0 f_zero "MARKET" "BUY" "MIS" "REGULAR" "OPB_BOT" "".

(** [OrderStatus[status]], or UNKNOWN. *)
Definition status_of_name (s : string) : status :=
  match list_find (λ d, status_name d = s) status_all with
  | Some (_, d) => d
  | None => UNKNOWN
  end.

Definition closed_names : list string := ["FILLED"; "REJECTED"; "CANCELLED"; "FAILED"].

(** One row of [_load_orders_from_disk]. *)
Definition load_row (kr : string * orow) : OMT unit :=
  let '(k, row) := kr in
  intent_id ← (if truthy_str k then mret k else uuid4);
  w ← st_get;
  let o := OrderState intent_id
             match o_request_json row with JRequest r => r | JText _ => blank_request end
             (status_of_name (o_status row)) (o_broker_order_id row) (o_filled_qty row)
             (o_avg_price row) (o_created_at row) (o_updated_at row) (o_error_text row) in
  let ref := length (om_objects w) in
  st_modify (λ w, om_set_objects (om_objects w ++ [o]) w) ;;
  st_modify (λ w, om_set_orders (<[intent_id := ref]> (om_orders w)) w) ;;
  st_modify (λ w,
    om_set_maps
      (if truthy_opt (o_broker_order_id row)
       then <[str_or (o_broker_order_id row) "" := intent_id]> (om_broker_map w)
       else om_broker_map w)
      (if truthy_str intent_id
       then <[intent_id := str_or (o_broker_order_id row) ""]> (om_intent_map w)
       else om_intent_map w) w).

Definition open_rows (t : pydict orow) : list (string * orow) :=
  filter (λ kr, str_mem (o_status kr.2) closed_names = false) (items t).

Definition load_orders_from_disk : OMT unit :=
  st_try
    (rows ← om_run (λ t, (open_rows t, t)); st_iter load_row rows)
    [OSError; SqliteError; JSONDecodeError; ValueError; TypeError] (λ _, mret ()).

(** A new process on the same table: [__init__]. *)
Definition new_order_manager (c : clock) (d : dbase orow) (uuids : list string) (g : G) : omgr G :=
  (load_orders_from_disk (OMgr c d [] ∅ ∅ ∅ ∅ uuids g)).2.
End manager.

(** ** Threads

    A call of [execute_intent] at one of the points where another thread can
    run. *)
Inductive tstate :=
| AtClaim | AtWait | AtRegister | AtPlace (ref : nat) | AtSettle (ref : nat) (p : response)
| AtDone (p : response).

Section threads.
Context {G : Type} `{!GatewayPort G}.
Implicit Types w : omgr G.

Definition thread_step (k : string) (r : request) (t : tstate) : OMT (G:=G) tstate :=
  match t with
  | AtClaim =>
      c ← claim k;
      mret match c with inl p => AtDone p | inr true => AtWait | inr false => AtRegister end
  | AtWait => p ← after_wait k; mret (AtDone p)
  | AtRegister => ref ← register k r; mret (AtPlace ref)
  | AtPlace ref => p ← place ref r; mret (AtSettle ref p)
  | AtSettle ref p => p ← settle k ref p; mret (AtDone p)
  | AtDone p => mret (AtDone p)
  end.

Fixpoint thread_steps (n : nat) (k : string) (r : request) (t : tstate) : OMT (G:=G) tstate :=
  match n with O => mret t | S n' => t' ← thread_step k r t; thread_steps n' k r t' end.

(** Two threads on one intent, scheduled one step at a time. *)
Fixpoint interleave (sched : list bool) (k : string) (ra rb : request) (ta tb : tstate) :
    OMT (G:=G) (tstate * tstate) :=
  match sched with
  | [] => mret (ta, tb)
  | true :: s => ta' ← thread_step k ra ta; interleave s k ra rb ta' tb
  | false :: s => tb' ← thread_step k rb tb; interleave s k ra rb ta tb'
  end.

(** The call is its steps in a row. *)
Lemma execute_intent_steps k r w :
  (t ← thread_steps 4 k r AtClaim; mret match t with AtDone p => Some p | _ => None end) w =
  (p ← execute_intent k r; mret (Some p)) w.
Proof.
  unfold execute_intent. simpl. unfold mbind, st_bind. simpl. unfold mbind, st_bind.
  destruct (claim k w) as [[[p|[]]|e] w1]; simpl; unfold mbind, st_bind; try done.
  - by destruct (after_wait k w1) as [[p|e] w2].
  - destruct (register k r w1) as [[ref|e] w2]; [|done]. simpl. unfold mbind, st_bind.
    destruct (place ref r w2) as [[p|e] w3]; [|done]. simpl. unfold mbind, st_bind.
    by destruct (settle k ref p w3) as [[p'|e] w4].
Qed.
End threads.

(** ** An intent is placed once *)

(** A call of the manager's interface. *)
Inductive mop :=
| Execute (k : string) (r : request)
| Update (broker_order_id : string) (s : status) (q : Z) (p : float64)
| Respond (broker_order_id : string)
| Intent.

Section once.
Context {G : Type} `{!GatewayPort G}.
Implicit Types w : omgr G.

Definition run_mop (o : mop) : OMT (G:=G) unit :=
  match o with
  | Execute k r => execute_intent k r ;; mret ()
  | Update b s q p => update_order_status b s q p
  | Respond b => get_order_response b ;; mret ()
  | Intent => create_order_intent ;; mret ()
  end.

Fixpoint run_mops (os : list mop) w : omgr G :=
  match os with [] => w | o :: os' => run_mops os' (run_mop o w).2 end.

(** No intent is forgotten. *)
Definition keeps w w' : Prop := ∀ k, dmem k (om_orders w) = true → dmem k (om_orders w') = true.

#[global] Instance keeps_preorder : PreOrder keeps.
Proof. split; [by intros ??|]. intros ??? H1 H2 k Hk. auto. Qed.

Lemma keeps_same w w' : om_orders w' = om_orders w → keeps w w'.
Proof. intros H k. by rewrite H. Qed.

Lemma dmem_insert {V} j k (v : V) (d : pydict V) : dmem j (<[k:=v]> d) = String.eqb k j || dmem j d.
Proof.
  unfold dmem. destruct (String.eqb_spec k j) as [->|Hne]; simpl.
  - rewrite dict_lookup_insert_eq. done.
  - by rewrite dict_lookup_insert_ne.
Qed.

Lemma modify_same (f : omgr G → omgr G) :
  (∀ w, om_orders (f w) = om_orders w) → st_rel keeps (st_modify f).
Proof. intros Hf. apply st_rel_modify. intros w. apply keeps_same, Hf. Qed.
Lemma zoom_same {T A} (get : omgr G → T) put (m : ST T A) :
  (∀ t w, om_orders (put t w) = om_orders w) → st_rel keeps (st_zoom get put m).
Proof. intros Hp w. unfold st_zoom. destruct (m (get w)). apply keeps_same, Hp. Qed.
Lemma the_order_reads ref w : (the_order ref w).2 = w.
Proof. unfold the_order. by destruct (om_objects w !! ref). Qed.
Lemma the_order_keeps ref : st_rel keeps (the_order (G:=G) ref).
Proof. intros w. by rewrite the_order_reads. Qed.
Lemma format_ts_keeps : st_rel keeps (format_ts (W:=omgr G)).
Proof. intros w. rewrite format_ts_total. by apply keeps_same. Qed.
Lemma uuid4_keeps : st_rel keeps (uuid4 (G:=G)).
Proof. intros w. unfold uuid4. by destruct (om_uuids w); apply keeps_same. Qed.

Lemma get_order_response_reads b w : (get_order_response b w).2 = w.
Proof.
  unfold get_order_response, mbind, st_bind, st_get.
  match goal with |- (match ?x with _ => _ end _).2 = _ => destruct x as [ref|] end; [|done].
  pose proof (the_order_reads ref w) as Hw. destruct (the_order ref w) as [[o|e] w']; simpl in *; by subst.
Qed.
Lemma existing_response_reads k w : (existing_response k w).2 = w.
Proof.
  unfold existing_response, mbind, st_bind, st_get. destruct (om_orders w !! k) as [ref|]; [|done].
  pose proof (the_order_reads ref w) as Hw. destruct (the_order ref w) as [[o|e] w']; simpl in *; by subst.
Qed.
Lemma after_wait_reads k w : (after_wait k w).2 = w.
Proof.
  unfold after_wait, mbind, st_bind, st_get.
  destruct (truthy_opt _); [apply get_order_response_reads|apply existing_response_reads].
Qed.
Lemma claim_reads k w : (claim k w).2 = w.
Proof.
  unfold claim, mbind, st_bind, st_get. destruct (dmem k (om_orders w)); [|done].
  destruct (truthy_opt _).
  - pose proof (get_order_response_reads (str_or (om_intent_map w !! k) "") w) as Hw.
    destruct (get_order_response _ w) as [[] ?]; simpl in *; by subst.
  - destruct (dmem k (om_intent_events w)); [done|].
    pose proof (existing_response_reads k w) as Hw.
    destruct (existing_response k w) as [[] ?]; simpl in *; by subst.
Qed.

Lemma reads_keeps {A} (m : OMT (G:=G) A) : (∀ w, (m w).2 = w) → st_rel keeps m.
Proof. intros Hm w. by rewrite Hm. Qed.

Lemma persist_keeps ref : st_rel keeps (persist_order (G:=G) ref).
Proof.
  unfold persist_order. apply st_rel_try; [apply _| |intros; apply st_rel_ret, _].
  apply st_rel_bind; [apply _|apply the_order_keeps|]. intros o. by apply zoom_same.
Qed.
Lemma set_event_keeps k : st_rel keeps (set_event (G:=G) k).
Proof. apply modify_same. intros w. by destruct (dmem k _). Qed.
End once.

Create HintDb keeps.
#[export] Hint Resolve persist_keeps set_event_keeps format_ts_keeps uuid4_keeps the_order_keeps : keeps.
#[export] Hint Extern 3 (st_rel keeps (st_modify _)) =>
  (apply modify_same; intros; simpl; case_all; done) : keeps.
#[export] Hint Extern 3 (st_rel keeps (st_zoom _ _ _)) => (apply zoom_same; done) : keeps.
#[export] Hint Extern 3 (st_rel keeps (om_run _)) => (apply zoom_same; done) : keeps.

(** Go through a handler call by call. *)
Ltac keeps_auto :=
  repeat first
    [ solve [auto with keeps] | apply st_rel_ret, _ | apply st_rel_get, _ | apply st_rel_raise, _
    | apply st_rel_bind; [apply _| |intros] | apply st_rel_if; intros ].

Section once_proofs.
Context {G : Type} `{!GatewayPort G}.
Implicit Types w : omgr G.

Lemma register_keeps k r : st_rel keeps (register (G:=G) k r).
Proof.
  unfold register. keeps_auto.
  apply st_rel_modify. intros w' j Hj. simpl. by rewrite dmem_insert, Hj, orb_true_r.
Qed.
Lemma place_keeps ref r : st_rel keeps (place (G:=G) ref r).
Proof. unfold place, assign. keeps_auto. Qed.
Lemma settle_keeps k ref p : st_rel keeps (settle (G:=G) k ref p).
Proof. unfold settle, assign. keeps_auto. Qed.

(** Registering an intent makes it known, whatever becomes of its row. *)
Lemma register_known k r w : dmem k (om_orders (register k r w).2) = true.
Proof.
  unfold register, mbind, st_bind, st_get, st_modify. rewrite !format_ts_total.
  match goal with |- context [persist_order ?n ?x] => pose proof (persist_keeps n x k) as Hk;
    destruct (persist_order n x) as [[] ?] end; simpl in *; apply Hk; by rewrite dmem_insert, String.eqb_refl.
Qed.

Lemma claim_unknown k w : dmem k (om_orders w) = false → claim k w = (Ok (inr false), w).
Proof. intros Hk. unfold claim, mbind, st_bind, st_get. by rewrite Hk. Qed.

Lemma execute_keeps k r : st_rel keeps (execute_intent (G:=G) k r).
Proof.
  unfold execute_intent. apply st_rel_bind; [apply _|apply reads_keeps, claim_reads|].
  intros [p|[]]; [keeps_auto|apply reads_keeps, after_wait_reads|].
  apply st_rel_bind; [apply _|apply register_keeps|intros ref].
  apply st_rel_bind; [apply _|apply place_keeps|intros p]. apply settle_keeps.
Qed.

Lemma execute_known k r w : dmem k (om_orders (execute_intent k r w).2) = true.
Proof.
  destruct (dmem k (om_orders w)) eqn:Hk; [by apply execute_keeps|].
  unfold execute_intent, mbind, st_bind. rewrite claim_unknown by done.
  pose proof (register_known k r w) as H1. destruct (register k r w) as [[ref|e] w1]; [|done].
  pose proof (place_keeps ref r w1 k H1) as H2.
  destruct (place ref r w1) as [[p|e] w2]; [|done]. by apply settle_keeps.
Qed.

Lemma update_keeps b s q p : st_rel keeps (update_order_status (G:=G) b s q p).
Proof.
  unfold update_order_status, assign. keeps_auto.
  repeat (case_match; keeps_auto).
Qed.

Lemma run_mop_keeps o : st_rel keeps (run_mop (G:=G) o).
Proof.
  destruct o; simpl; [| |apply st_rel_bind; [apply _|apply reads_keeps, get_order_response_reads|keeps_auto]|].
  - apply st_rel_bind; [apply _|apply execute_keeps|keeps_auto].
  - apply update_keeps.
  - unfold create_order_intent. keeps_auto.
Qed.

Lemma run_mops_keeps os w : keeps w (run_mops os w).
Proof.
  revert w. induction os as [|o os IH]; intros w; simpl; [done|].
  etransitivity; [apply run_mop_keeps|apply IH].
Qed.

(** A known intent is answered from the manager alone. *)
Lemma known_answer k r w : dmem k (om_orders w) = true → (execute_intent k r w).2 = w.
Proof.
  intros Hk. pose proof (claim_reads k w) as Hc.
  unfold execute_intent, mbind, st_bind. destruct (claim k w) as [c w0] eqn:Hclaim.
  simpl in Hc. subst w0. destruct c as [[p|[]]|e]; try done; [apply after_wait_reads|].
  unfold claim, mbind, st_bind, st_get in Hclaim. rewrite Hk in Hclaim.
  destruct (truthy_opt _); [by destruct (get_order_response _ w) as [[]]|].
  destruct (dmem k (om_intent_events w)); [done|]. by destruct (existing_response k w) as [[]].
Qed.
End once_proofs.

(** C14: After one call of [execute_intent], whether it returned or raised, and
    any history of calls after it, a further call for the same intent changes
    nothing, in the manager, its table or at the broker: an intent is placed
    at most once by calls that do not overlap. *)
Theorem intent_placed_once {G} `{!GatewayPort G} (k : string) (r r' : request) (os : list mop) (w : omgr G) :
  let w1 := (execute_intent k r w).2 in
  let w2 := run_mops os w1 in
  (execute_intent k r' w2).2 = w2.
Proof. intros w1 w2. apply known_answer, run_mops_keeps, execute_known. Qed.

(** ** The steps on a table that answers *)

Section quiet.
Context {G : Type} `{!GatewayPort G}.
Implicit Types w : omgr G.

Definition om_quiet w : Prop := db_faults (om_db w) = [].
Definition om_rows w : pydict orow := db_rows (om_db w).

Lemma persist_quiet ref o w :
  om_quiet w → om_objects w !! ref = Some o →
  persist_order ref w =
    (Ok (), om_set_db (DBase (insert_order (os_intent_id o) (order_row o) (om_rows w)) []) w).
Proof.
  intros Hq Ho. unfold persist_order, st_try, mbind, st_bind, the_order, om_run, st_zoom. rewrite Ho.
  by rewrite db_run_quiet.
Qed.

(** The object [register] makes. *)
Definition new_order (k : string) (r : request) w : order_state :=
  OrderState k r VALIDATED None 0 f_zero (ts_of w) (ts_of (tick w)) None.

Lemma register_quiet k r w :
  om_quiet w →
  ∃ c, register k r w =
    (Ok (length (om_objects w)),
     OMgr c (DBase (insert_order k (order_row (new_order k r w)) (om_rows w)) [])
       (om_objects w ++ [new_order k r w]) (<[k := length (om_objects w)]> (om_orders w))
       (om_broker_map w) (<[k := ""%string]> (om_intent_map w)) (<[k := false]> (om_intent_events w))
       (om_uuids w) (om_gateway w)).
Proof.
  intros Hq. exists (clock_of (tick (tick w))).
  unfold register, mbind, st_bind, st_get, st_modify. rewrite !format_ts_total.
  rewrite (persist_quiet _ (new_order k r w)); [done|done|].
  simpl. by rewrite lookup_app_r, Nat.sub_diag by done.
Qed.

(** The object after the gateway's answer: the request as the gateway left
    it, and the answer settled into it. *)
Definition with_request (r : request) (o : order_state) : order_state :=
  OrderState (os_intent_id o) r (os_status o) (os_broker_order_id o) (os_filled_qty o)
    (os_avg_price o) (os_created_at o) (os_updated_at o) (os_error o).
Definition acknowledged (p : response) (t : tstamp) (o : order_state) : order_state :=
  OrderState (os_intent_id o) (os_request o) ACKNOWLEDGED (Some (p_order_id p)) (p_filled_qty p)
    (p_avg_price p) (os_created_at o) t (os_error o).

Lemma place_quiet ref r p r' g w :
  gw_place r (om_gateway w) = (Ok (p, r'), g) →
  place ref r w =
    (Ok p, om_set_objects (alter (with_request r') ref (om_objects w)) (om_set_gateway g w)).
Proof. intros Hp. unfold place, mbind, st_bind, st_zoom. by rewrite Hp. Qed.

Lemma settle_acknowledged k ref p o w :
  om_quiet w → om_objects w !! ref = Some o → p_status p ≠ FAILED →
  ∃ c ev, let named := truthy_str (p_order_id p) in settle k ref p w =
    (Ok p,
     let o' := acknowledged p (ts_of w) o in
     OMgr c (DBase (insert_order (os_intent_id o) (order_row o') (om_rows w)) [])
       (alter (acknowledged p (ts_of w)) ref (om_objects w)) (om_orders w)
       (if named then <[p_order_id p := k]> (om_broker_map w) else om_broker_map w)
       (if named then <[k := p_order_id p]> (om_intent_map w) else om_intent_map w) ev
       (om_uuids w) (om_gateway w)).
Proof.
  intros Hq Ho Hs. exists (clock_of (tick w)).
  unfold settle. rewrite bool_decide_eq_false_2 by done.
  unfold assign, mbind, st_bind, st_modify. rewrite format_ts_total.
  rewrite (persist_quiet _ (acknowledged p (ts_of w) o));
    [|by destruct (truthy_str _)
     |destruct (truthy_str _); simpl; by rewrite list_lookup_alter_eq, Ho].
  unfold set_event, st_modify.
  destruct (truthy_str (p_order_id p)); simpl; destruct (dmem k (om_intent_events w)); eexists; done.
Qed.

(** A fresh intent the gateway takes. *)
Lemma execute_fresh_intent k r p r' g w :
  om_quiet w → dmem k (om_orders w) = false →
  gw_place r (om_gateway w) = (Ok (p, r'), g) → p_status p ≠ FAILED → truthy_str (p_order_id p) = true →
  ∃ o w', execute_intent k r w = (Ok p, w') ∧
    os_intent_id o = k ∧ os_status o = ACKNOWLEDGED ∧ os_broker_order_id o = Some (p_order_id p) ∧
    os_request o = r' ∧
    om_quiet w' ∧ om_gateway w' = g ∧
    om_rows w' = insert_order k (order_row o) (insert_order k (order_row (new_order k r w)) (om_rows w)) ∧
    om_objects w' = om_objects w ++ [o] ∧ om_orders w' = <[k := length (om_objects w)]> (om_orders w) ∧
    om_broker_map w' = <[p_order_id p := k]> (om_broker_map w) ∧
    om_intent_map w' = <[k := p_order_id p]> (<[k := ""%string]> (om_intent_map w)).
Proof.
  intros Hq Hk Hp Hs Hid. destruct (register_quiet k r w Hq) as [c Hreg].
  set (w1 := OMgr _ _ _ _ _ _ _ _ _) in Hreg.
  pose proof (place_quiet (length (om_objects w)) r p r' g w1 Hp) as Hplace.
  set (w2 := om_set_objects _ _) in Hplace.
  assert (om_objects w2 = om_objects w ++ [with_request r' (new_order k r w)]) as Hobj.
  { subst w2 w1. simpl. replace (length (om_objects w)) with (length (om_objects w) + 0)%nat by lia.
    by rewrite alter_app_r. }
  assert (om_objects w2 !! length (om_objects w) = Some (with_request r' (new_order k r w))) as Ho.
  { rewrite Hobj, lookup_app_r, Nat.sub_diag by done. done. }
  destruct (settle_acknowledged k _ p _ w2 eq_refl Ho Hs) as (c' & ev & Hsettle).
  cbv zeta in Hsettle. rewrite Hid in Hsettle.
  exists (acknowledged p (ts_of w2) (with_request r' (new_order k r w))). eexists. split.
  - unfold execute_intent, mbind, st_bind. by rewrite claim_unknown, Hreg, Hplace.
  - split_and!; try done. cbn [om_objects]. rewrite Hobj.
    replace (length (om_objects w)) with (length (om_objects w) + 0)%nat by lia. by rewrite alter_app_r.
Qed.
End quiet.

(** ** Overlapping calls *)

Section overlap.
Context {G : Type} `{!GatewayPort G}.
Implicit Types w : omgr G.

Lemma step_ok k r t t' w w' s ra rb ta tb :
  thread_step k r t w = (Ok t', w') →
  (ra = r → ta = t → interleave (true :: s) k ra rb ta tb w = interleave s k ra rb t' tb w') ∧
  (rb = r → tb = t → interleave (false :: s) k ra rb ta tb w = interleave s k ra rb ta t' w').
Proof. intros Hs. split; intros -> ->; simpl; unfold mbind, st_bind; by rewrite Hs. Qed.

Lemma thread_claim k r w :
  dmem k (om_orders w) = false → thread_step k r AtClaim w = (Ok AtRegister, w).
Proof. intros Hk. simpl. unfold mbind, st_bind. by rewrite claim_unknown. Qed.

Lemma thread_register k r w :
  om_quiet w →
  ∃ w', thread_step k r AtRegister w = (Ok (AtPlace (length (om_objects w))), w') ∧
    om_quiet w' ∧ om_gateway w' = om_gateway w ∧
    om_rows w' = insert_order k (order_row (new_order k r w)) (om_rows w) ∧
    om_objects w' = om_objects w ++ [new_order k r w] ∧
    om_orders w' = <[k := length (om_objects w)]> (om_orders w).
Proof.
  intros Hq. destruct (register_quiet k r w Hq) as [c Hr]. eexists. split; [|split_and!].
  - simpl. unfold mbind, st_bind. by rewrite Hr.
  - done.
  - done.
  - done.
  - done.
  - done.
Qed.

Lemma thread_place k r ref p r' g w :
  gw_place r (om_gateway w) = (Ok (p, r'), g) →
  ∃ w', thread_step k r (AtPlace ref) w = (Ok (AtSettle ref p), w') ∧ om_gateway w' = g ∧
    om_db w' = om_db w ∧ om_orders w' = om_orders w ∧
    om_objects w' = alter (with_request r') ref (om_objects w).
Proof.
  intros Hp. eexists. split; [|split_and!].
  - simpl. unfold mbind, st_bind. by rewrite (place_quiet _ _ _ _ _ _ Hp).
  - done.
  - done.
  - done.
  - done.
Qed.
End overlap.

(** The lock does not cover the work: two overlapping calls for one new
    intent can both pass the duplicate check before either registers it, and
    then both reach the broker; the second object replaces the first in the
    manager. *)
Theorem overlapping_calls_place_twice {G} `{!GatewayPort G} (k : string) (ra rb : request)
    (pa pb : response) (ra' rb' : request) (ga gb : G) (w : omgr G) :
  om_quiet w → dmem k (om_orders w) = false →
  gw_place ra (om_gateway w) = (Ok (pa, ra'), ga) → gw_place rb ga = (Ok (pb, rb'), gb) →
  ∃ na nb w', na ≠ nb ∧
    interleave [true; false; true; false; true; false] k ra rb AtClaim AtClaim w =
      (Ok (AtSettle na pa, AtSettle nb pb), w') ∧
    om_gateway w' = gb ∧ om_orders w' !! k = Some nb.
Proof.
  intros Hq Hk Ha Hb.
  destruct (thread_register k ra w Hq) as (w1 & Hr1 & Hq1 & Hg1 & _ & Ho1 & Hn1).
  destruct (thread_register k rb w1 Hq1) as (w2 & Hr2 & Hq2 & Hg2 & _ & Ho2 & Hn2).
  destruct (thread_place k ra (length (om_objects w)) pa ra' ga w2) as (w3 & Hp3 & Hg3 & _ & Hn3 & _).
  { by rewrite Hg2, Hg1. }
  destruct (thread_place k rb (length (om_objects w1)) pb rb' gb w3) as (w4 & Hp4 & Hg4 & _ & Hn4 & _).
  { by rewrite Hg3. }
  exists (length (om_objects w)), (length (om_objects w1)), w4. split_and!; [| |done|].
  - rewrite Ho1, length_app. simpl. lia.
  - rewrite (proj1 (step_ok _ _ _ _ _ _ _ _ _ _ _ (thread_claim k ra w Hk))) by done.
    rewrite (proj2 (step_ok _ _ _ _ _ _ _ _ _ _ _ (thread_claim k rb w Hk))) by done.
    rewrite (proj1 (step_ok _ _ _ _ _ _ _ _ _ _ _ Hr1)), (proj2 (step_ok _ _ _ _ _ _ _ _ _ _ _ Hr2)),
      (proj1 (step_ok _ _ _ _ _ _ _ _ _ _ _ Hp3)), (proj2 (step_ok _ _ _ _ _ _ _ _ _ _ _ Hp4)) by done.
    done.
  - by rewrite Hn4, Hn3, Hn2, dict_lookup_insert_eq.
Qed.

(** ** Restart *)

Section restart.
Context {G : Type} `{!GatewayPort G}.
Implicit Types w : omgr G.

Lemma load_row_total kr w : ∃ w', load_row kr w = (Ok (), w') ∧ keeps w w' ∧
  (truthy_str kr.1 = true → dmem kr.1 (om_orders w') = true).
Proof.
  destruct kr as [k row]. unfold load_row, uuid4, mbind, st_bind, st_get, st_modify.
  assert (Hin : ∀ j (v : nat) i, dmem i (om_orders w) = true → dmem i (<[j := v]> (om_orders w)) = true).
  { intros j v i Hi. by rewrite dmem_insert, Hi, orb_true_r. }
  destruct (truthy_str k) eqn:Ht; [|destruct (om_uuids w)]; (eexists; split; [done|]); simpl;
    (split; [intros i; apply Hin|]); intros Hk; [|congruence..].
  by rewrite dmem_insert, String.eqb_refl.
Qed.

Lemma load_rows_total rows w : ∃ w', st_iter load_row rows w = (Ok (), w') ∧ keeps w w' ∧
  (∀ k row, (k, row) ∈ rows → truthy_str k = true → dmem k (om_orders w') = true).
Proof.
  revert w. induction rows as [|kr rows IH]; intros w; simpl.
  { exists w. split; [done|split; [done|]]. intros k row H. by apply not_elem_of_nil in H. }
  destruct (load_row_total kr w) as (w1 & H1 & Hk1 & Hin1).
  destruct (IH w1) as (w2 & H2 & Hk2 & Hin2). exists w2. split; [|split].
  - unfold mbind, st_bind. by rewrite H1.
  - by etransitivity.
  - intros k row [<-|Hin]%elem_of_cons Ht; [by apply Hk2, Hin1|by eapply Hin2].
Qed.

(** A restart knows every intent with an open row. *)
Lemma restart_known k row c d us g :
  db_faults d = [] → db_rows d !! k = Some row → str_mem (o_status row) closed_names = false →
  truthy_str k = true → dmem k (om_orders (new_order_manager (G:=G) c d us g)) = true.
Proof.
  intros Hq Hrow Hopen Hk. unfold new_order_manager, load_orders_from_disk, st_try, mbind, st_bind.
  unfold om_run, st_zoom. rewrite db_run_quiet by done. simpl.
  match goal with |- context [st_iter load_row ?l ?x] =>
    destruct (load_rows_total l x) as (w' & Hl & _ & Hin) end.
  rewrite Hl. simpl. eapply Hin; [|done].
  unfold open_rows. apply list_elem_of_filter. split; [done|]. by apply assoc_get_in.
Qed.

Lemma done_steps n k r p w : thread_steps (G:=G) n k r (AtDone p) w = (Ok (AtDone p), w).
Proof. induction n as [|n IH]; [done|]. simpl. unfold mbind, st_bind. simpl. apply IH. Qed.

Lemma settle_returns k ref p w p' w' : settle (G:=G) k ref p w = (Ok p', w') → p' = p.
Proof.
  unfold settle. destruct (bool_decide _); unfold assign, mbind, st_bind, st_modify;
    rewrite format_ts_total; destruct (persist_order _ _) as [[] ?]; try done;
    unfold set_event, st_modify; by intros [= ->].
Qed.

(** What the table holds of the intent once [register] has returned. *)
Lemma row_after_register n k r w t w' :
  om_quiet w → dmem k (om_orders w) = false →
  thread_steps (S (S n)) k r AtClaim w = (Ok t, w') → (∀ p, t = AtDone p → p_status p ≠ FAILED) →
  om_quiet w' ∧ ∃ row, om_rows w' !! k = Some row ∧ str_mem (o_status row) closed_names = false.
Proof.
  intros Hq Hk Hrun Hnf. destruct (thread_register k r w Hq) as (w1 & Hr & Hq1 & Hg1 & Hrows1 & Ho1 & _).
  simpl thread_steps in Hrun. unfold mbind, st_bind in Hrun.
  rewrite (thread_claim k r w Hk), Hr in Hrun.
  assert (Hrow1 : ∃ row, om_rows w1 !! k = Some row ∧ str_mem (o_status row) closed_names = false).
  { rewrite Hrows1. unfold insert_order. rewrite tbl_lookup_replace_eq. by eexists. }
  destruct n as [|n]; cbn [thread_steps] in Hrun; unfold mbind, st_bind in Hrun.
  { by injection Hrun as <- <-. }
  destruct (gw_place r (om_gateway w1)) as [[[p r']|e] g] eqn:Hp.
  2: { simpl in Hrun. unfold place, mbind, st_bind, st_zoom in Hrun. by rewrite Hp in Hrun. }
  destruct (thread_place k r (length (om_objects w)) p r' g w1 Hp) as (w2 & H2 & _ & Hdb2 & _ & Ho2).
  rewrite H2 in Hrun.
  assert (om_quiet w2 ∧ om_rows w2 = om_rows w1) as [Hq2 Hrows2].
  { unfold om_quiet, om_rows. by rewrite Hdb2. }
  destruct n as [|n]; cbn [thread_steps] in Hrun; unfold mbind, st_bind in Hrun.
  { injection Hrun as <- <-. by rewrite Hrows2. }
  cbn [thread_step] in Hrun. unfold mbind, st_bind in Hrun.
  destruct (settle k (length (om_objects w)) p w2) as [[p'|e] w3] eqn:Hs; [|done].
  simpl in Hrun. rewrite done_steps in Hrun. injection Hrun as <- <-.
  pose proof (settle_returns _ _ _ _ _ _ Hs) as ->. specialize (Hnf p eq_refl).
  assert (om_objects w2 !! length (om_objects w) = Some (with_request r' (new_order k r w))) as Hobj.
  { by rewrite Ho2, Ho1, list_lookup_alter_eq, lookup_app_r, Nat.sub_diag by done. }
  destruct (settle_acknowledged k _ p _ w2 Hq2 Hobj Hnf) as (c & ev & Hs'). cbv zeta in Hs'.
  rewrite Hs' in Hs. injection Hs as <-. split; [done|].
  unfold om_rows. simpl. unfold insert_order at 1. rewrite tbl_lookup_replace_eq. by eexists.
Qed.
End restart.

(** C13: A crash during a call places nothing twice: with a table that
    answers, when a call of [execute_intent] for a new intent is cut off at
    any point after it registered the order, or has returned with an answer
    of the gateway other than FAILED, a manager started on the table as it
    then is answers the intent without touching the broker. *)
Theorem restart_places_nothing {G} `{!GatewayPort G} (n : nat) (k : string) (r r' : request)
    (t : tstate) (w w' : omgr G) (c : clock) (us : list string) (g : G) :
  om_quiet w → dmem k (om_orders w) = false → truthy_str k = true →
  thread_steps (S (S n)) k r AtClaim w = (Ok t, w') → (∀ p, t = AtDone p → p_status p ≠ FAILED) →
  let w2 := new_order_manager c (om_db w') us g in
  (execute_intent k r' w2).2 = w2.
Proof.
  intros Hq Hk Ht Hrun Hnf w2. apply known_answer.
  destruct (row_after_register n k r w t w' Hq Hk Hrun Hnf) as (Hq' & row & Hrow & Hopen).
  by eapply restart_known.
Qed.

(** ** Two TWAP orders *)

Section rows.
Implicit Types t : pydict orow.

Lemma insert_order_eq k row t : insert_order k row t !! k = Some row.
Proof. apply tbl_lookup_replace_eq. Qed.

(** The other rows: those of another broker id stay. *)
Lemma insert_order_ne k j row t :
  dict_wf t → k ≠ j →
  insert_order k row t !! j =
    match t !! j with
    | Some r => if same_broker_id (o_broker_order_id row) (o_broker_order_id r) then None else Some r
    | None => None
    end.
Proof.
  intros Ht Hne. unfold insert_order. rewrite tbl_lookup_replace_ne, dict_filter_lookup by done.
  destruct (t !! j) as [r|]; [|done]. destruct (String.eqb_spec j k) as [->|_]; [done|].
  by destruct (same_broker_id _ _).
Qed.

Lemma insert_order_wf k row t : dict_wf t → dict_wf (insert_order k row t).
Proof. intros Ht. by apply tbl_replace_wf, dict_filter_wf. Qed.
End rows.

(** The gateway gives every TWAP order the same id, and the manager keys its
    table and its map of broker ids by it: the second of two TWAP orders
    erases the row of the first, which a restart then no longer knows, and
    takes over its broker id, so that no status report reaches the first any
    more. *)
Theorem twap_intents_collide {H W} `{!AdapterPort H W} (k1 k2 : string) (r1 r2 : request) (a : H)
    (w : omgr (gateway H W)) :
  om_quiet w → dict_wf (om_rows w) → k1 ≠ k2 →
  dmem k1 (om_orders w) = false → dmem k2 (om_orders w) = false →
  gw_active_adapter (om_gateway w) = Some a → gw_algo (om_gateway w) = true →
  q_order_type r1 = "TWAP"%string → q_order_type r2 = "TWAP"%string →
  let w1 := (execute_intent k1 r1 w).2 in
  let w2 := (execute_intent k2 r2 w1).2 in
  (∃ row, om_rows w1 !! k1 = Some row ∧ o_status row = "ACKNOWLEDGED"%string) ∧
  om_rows w2 !! k1 = None ∧
  om_intent_map w2 !! k1 = Some "TWAP_ALGO_ROUTED"%string ∧
  om_broker_map w2 !! "TWAP_ALGO_ROUTED"%string = Some k2.
Proof.
  intros Hq Hwf Hne Hk1 Hk2 Ha Hg Ht1 Ht2 w1 w2.
  destruct (place_twap a r1 (om_gateway w) Ha Hg Ht1) as (g1 & Hp1 & Ha1 & Hg1).
  change (gw_place r1 (om_gateway w) = (Ok (twap_response, r1), g1)) in Hp1.
  destruct (execute_fresh_intent k1 r1 _ _ _ w Hq Hk1 Hp1 ltac:(done) eq_refl)
    as (o1 & x1 & He1 & _ & Hs1 & Hb1 & _ & Hq1 & Hgw1 & Hrows1 & _ & Ho1 & Hbm1 & Him1).
  assert (w1 = x1) as -> by (subst w1; by rewrite He1).
  destruct (place_twap a r2 (om_gateway x1)) as (g2 & Hp2 & _ & _); [by rewrite Hgw1..|done|].
  change (gw_place r2 (om_gateway x1) = (Ok (twap_response, r2), g2)) in Hp2.
  assert (dmem k2 (om_orders x1) = false) as Hk2'.
  { rewrite Ho1, dmem_insert, Hk2, orb_false_r. by apply String.eqb_neq. }
  destruct (execute_fresh_intent k2 r2 _ _ _ x1 Hq1 Hk2' Hp2 ltac:(done) eq_refl)
    as (o2 & x2 & He2 & _ & _ & Hb2 & _ & _ & _ & Hrows2 & _ & _ & Hbm2 & Him2).
  assert (w2 = x2) as -> by (subst w2; by rewrite He2).
  assert (om_rows x1 !! k1 = Some (order_row o1)) as Hrow1 by (by rewrite Hrows1, insert_order_eq).
  assert (dict_wf (om_rows x1)) as Hwf1 by (rewrite Hrows1; by do 2 apply insert_order_wf).
  split_and!.
  - exists (order_row o1). split; [done|]. simpl. by rewrite Hs1.
  - rewrite Hrows2, insert_order_ne, insert_order_ne, Hrow1 by (done || by apply insert_order_wf).
    simpl. rewrite Hb1, Hb2. done.
  - rewrite Him2, !dict_lookup_insert_ne, Him1, dict_lookup_insert_eq by done. done.
  - by rewrite Hbm2, dict_lookup_insert_eq.
Qed.

(** ** Concrete runs *)

Definition demo_om : omgr (gateway unit (list request)) :=
  OMgr (Clock 0 []) (DBase ∅ []) [] ∅ ∅ ∅ ∅ [] demo_gateway.
Definition demo_market : request :=
  Request "NIFTY" 1 f_zero "MARKET" "BUY" "MIS" "REGULAR" "OPB_BOT" "".
Definition placed_response : response := Response "ord" SUBMITTED 0 f_zero None.
Definition sent (l : list request) : gateway unit (list request) :=
  Gateway (Some ()) ∅ (Some "paper"%string) true [] ∅ l.

(** A call cut off once the broker has answered. *)
Definition demo_cut : omgr (gateway unit (list request)) :=
  (thread_steps 3 "i1" demo_market AtClaim demo_om).2.

Lemma restart_places_nothing_witness :
  let w2 := new_order_manager (Clock 9 []) (om_db demo_cut) [] demo_gateway in
  (execute_intent "i1" demo_market w2).2 = w2 ∧ dmem "i1" (om_orders w2) = true.
Proof.
  split; [|vm_compute; reflexivity].
  refine (restart_places_nothing 1 "i1" demo_market demo_market (AtSettle 0 placed_response)
            demo_om demo_cut (Clock 9 []) [] demo_gateway _ _ _ _ _).
  - reflexivity.
  - vm_compute. reflexivity.
  - reflexivity.
  - vm_compute. reflexivity.
  - discriminate.
Defined.

(** Only the open rows are loaded: once the order is filled, a restarted
    manager does not know the intent any more and places it again. *)
Example filled_intent_placed_again :
  let w := (execute_intent "i1" demo_market demo_om).2 in
  let w := (update_order_status "ord" SUBMITTED 0 f_zero w).2 in
  let w := (update_order_status "ord" FILLED 1 f_zero w).2 in
  let w2 := (execute_intent "i1" demo_market (new_order_manager (Clock 9 []) (om_db w) [] (om_gateway w))).2 in
  o_status <$> om_rows w !! "i1"%string = Some "FILLED"%string ∧
  om_gateway w2 = sent [demo_market; demo_market].
Proof. vm_compute. done. Qed.

Lemma overlapping_calls_place_twice_witness :
  ∃ na nb w', na ≠ nb ∧
    interleave [true; false; true; false; true; false] "i1" demo_market demo_market AtClaim AtClaim demo_om =
      (Ok (AtSettle na placed_response, AtSettle nb placed_response), w') ∧
    om_gateway w' = sent [demo_market; demo_market] ∧ om_orders w' !! "i1"%string = Some nb.
Proof.
  refine (overlapping_calls_place_twice "i1" demo_market demo_market placed_response placed_response
            demo_market demo_market (sent [demo_market]) (sent [demo_market; demo_market]) demo_om _ _ _ _).
  - reflexivity.
  - vm_compute. reflexivity.
  - reflexivity.
  - reflexivity.
Defined.

Lemma twap_intents_collide_witness :
  let w1 := (execute_intent "i1" demo_twap demo_om).2 in
  let w2 := (execute_intent "i2" demo_twap w1).2 in
  om_rows w2 !! "i1"%string = None ∧
  om_broker_map w2 !! "TWAP_ALGO_ROUTED"%string = Some "i2"%string.
Proof.
  refine (let H := twap_intents_collide "i1" "i2" demo_twap demo_twap () demo_om
            eq_refl _ _ eq_refl eq_refl eq_refl eq_refl eq_refl eq_refl in
          conj (proj1 (proj2 H)) (proj2 (proj2 (proj2 H)))).
  - dict_wf_eval.
  - discriminate.
Defined.
