(* ===== verification/CircuitBreaker.v ===== *)
(** * The circuit breaker service (core/services/circuit_breaker_service.py)

    A breaker per key in front of a dependency: closed, open for a timeout
    that grows with each opening, then half open until enough calls have
    succeeded.  The protected function is any computation on the
    environment; the service holds its lock while it runs. *)
From S2P Require Import Prelude PyStr Float64 PyDict.

(** ** Data *)

(** [CircuitState], [CircuitBreakerConfig] and [CircuitBreakerStats] of
    core/ports/circuit_breaker/circuit_breaker_port.py *)
Inductive CircuitState := CLOSED | OPEN | HALF_OPEN.

#[global] Instance CircuitState_eq_dec : EqDecision CircuitState.
Proof. solve_decision. Defined.

Record config := Config {
  cf_failure_threshold : Z; cf_success_threshold : Z; cf_timeout : Z;
  cf_expected_exception : pyexn → bool; cf_sliding_window_size : Z; cf_sliding_window_type : string;
  cf_failure_rate_threshold : float64; cf_half_open_max_requests : Z;
  cf_timeout_exponential_base : float64 }.

Definition default_config : config :=
  Config 5 3 60 (λ _, true) 10 "time" (f_of_ratio 1 2) 0 (f_of_Z 2).

Record stats := Stats {
  ss_state : CircuitState; ss_failure_count : Z; ss_success_count : Z;
  ss_last_failure_time : option Z; ss_last_success_time : option Z;
  ss_next_attempt_time : option Z; ss_failure_rate : float64; ss_throughput : float64 }.

(** [_CircuitBreakerState] *)
Record breaker := Breaker {
  b_config : config; b_state : CircuitState; b_failure_count : Z; b_success_count : Z;
  b_last_failure_time : option Z; b_last_success_time : option Z; b_next_attempt_time : option Z;
  b_failure_timestamps : list float64; b_success_timestamps : list float64;
  b_consecutive_open_count : Z; b_half_open_requests : Z }.

Definition new_breaker (c : config) : breaker :=
  Breaker c CLOSED 0 0 None None None [] [] 0 0.

Definition set_b_config c (b : breaker) : breaker :=
  Breaker c (b_state b) (b_failure_count b) (b_success_count b) (b_last_failure_time b)
    (b_last_success_time b) (b_next_attempt_time b) (b_failure_timestamps b)
    (b_success_timestamps b) (b_consecutive_open_count b) (b_half_open_requests b).
Definition set_b_state s (b : breaker) : breaker :=
  Breaker (b_config b) s (b_failure_count b) (b_success_count b) (b_last_failure_time b)
    (b_last_success_time b) (b_next_attempt_time b) (b_failure_timestamps b)
    (b_success_timestamps b) (b_consecutive_open_count b) (b_half_open_requests b).
Definition set_b_next t (b : breaker) : breaker :=
  Breaker (b_config b) (b_state b) (b_failure_count b) (b_success_count b) (b_last_failure_time b)
    (b_last_success_time b) t (b_failure_timestamps b)
    (b_success_timestamps b) (b_consecutive_open_count b) (b_half_open_requests b).
Definition set_b_counts f s (b : breaker) : breaker :=
  Breaker (b_config b) (b_state b) f s (b_last_failure_time b)
    (b_last_success_time b) (b_next_attempt_time b) (b_failure_timestamps b)
    (b_success_timestamps b) (b_consecutive_open_count b) (b_half_open_requests b).
Definition set_b_opens n (b : breaker) : breaker :=
  Breaker (b_config b) (b_state b) (b_failure_count b) (b_success_count b) (b_last_failure_time b)
    (b_last_success_time b) (b_next_attempt_time b) (b_failure_timestamps b)
    (b_success_timestamps b) n (b_half_open_requests b).
Definition set_b_half n (b : breaker) : breaker :=
  Breaker (b_config b) (b_state b) (b_failure_count b) (b_success_count b) (b_last_failure_time b)
    (b_last_success_time b) (b_next_attempt_time b) (b_failure_timestamps b)
    (b_success_timestamps b) (b_consecutive_open_count b) n.
Definition set_b_failed t ts (b : breaker) : breaker :=
  Breaker (b_config b) (b_state b) (b_failure_count b) (b_success_count b) t
    (b_last_success_time b) (b_next_attempt_time b) ts
    (b_success_timestamps b) (b_consecutive_open_count b) (b_half_open_requests b).
Definition set_b_succeeded t ts (b : breaker) : breaker :=
  Breaker (b_config b) (b_state b) (b_failure_count b) (b_success_count b) (b_last_failure_time b)
    t (b_next_attempt_time b) (b_failure_timestamps b)
    ts (b_consecutive_open_count b) (b_half_open_requests b).

(** The service and the environment of the protected calls. *)
Record service (W : Type) := Service {
  cs_clk : clock; cs_breakers : pydict breaker; cs_env : W }.
Arguments Service {W}. Arguments cs_clk {W}. Arguments cs_breakers {W}. Arguments cs_env {W}.

#[global] Instance service_clock W : HasClock (service W) :=
  {| clock_of := cs_clk; set_clock := λ c s, Service c (cs_breakers s) (cs_env s) |}.

(** ** Operations on one breaker

    Code that reads the clock and the attributes of one breaker. *)

Definition BM (A : Type) : Type := ST (breaker * clock) A.

#[global] Instance breaker_clock : HasClock (breaker * clock) :=
  {| clock_of := snd; set_clock := λ c s, (s.1, c) |}.

Definition b_get {A} (f : breaker → A) : BM A := st_gets (λ s, f s.1).
Definition b_set (f : breaker → breaker) : BM unit := st_modify (λ s, (f s.1, s.2)).

(** [_trim_timestamps] *)
Fixpoint drop_older (cutoff : float64) (ts : list float64) : list float64 :=
  match ts with
  | t :: ts' => if (t <? cutoff)%f64 then drop_older cutoff ts' else ts
  | [] => []
  end.

Definition keep_last (n : Z) (ts : list float64) : list float64 :=
  drop (length ts - Z.to_nat n) ts.

(** [put] writes the deque back: it is trimmed in place, and a negative size
    empties it and raises. *)
Definition trim_timestamps (put : list float64 → breaker → breaker) (ts : list float64) : BM unit :=
  c ← b_get b_config;
  let n := cf_sliding_window_size c in
  if String.eqb (cf_sliding_window_type c) "time" then
    now ← time_time;
    b_set (put (drop_older (now - f_of_Z n)%f64 ts))
  else if n <? 0 then b_set (put []) ;; st_raise (PyExn IndexError "pop from an empty deque")
  else b_set (put (keep_last n ts)).

(** [_compute_timeout], in microseconds *)
Definition max_timeout : float64 := f_of_Z 28800.

Definition overflow (x : float64) : pyexn :=
  if is_nan x then PyExn ValueError "cannot convert float NaN to integer"
  else PyExn OverflowError "cannot convert float infinity to integer".

Definition compute_timeout `{!PyPow} : BM Z :=
  c ← b_get b_config;
  n ← b_get b_consecutive_open_count;
  b_set (set_b_opens (n + 1)) ;;
  match fpow (cf_timeout_exponential_base c) n with
  | Raise e => st_raise e
  | Ok p =>
      let delay := py_min (f_of_Z (cf_timeout c) * p)%f64 max_timeout in
      match timedelta_seconds delay with
      | Some us => mret us
      | None => st_raise (overflow delay)
      end
  end.

(** [_calculate_failure_rate]; a ratio of counts is Python's correctly
    rounded [int / int]. *)
Definition recent (cutoff : float64) (ts : list float64) : Z :=
  Z.of_nat (length (filter (λ t, (cutoff <=? t)%f64 = true) ts)).

Definition ratio (n total : Z) : float64 := if total =? 0 then f_zero else f_of_ratio n total.

Definition calculate_failure_rate : BM float64 :=
  b ← b_get id;
  let c := b_config b in
  if cf_sliding_window_size c <=? 0 then
    mret (ratio (b_failure_count b) (b_failure_count b + b_success_count b))
  else if String.eqb (cf_sliding_window_type c) "time" then
    now ← time_time;
    let cutoff := (now - f_of_Z (cf_sliding_window_size c))%f64 in
    let f := recent cutoff (b_failure_timestamps b) in
    let s := recent cutoff (b_success_timestamps b) in
    mret (ratio f (f + s))
  else
    let f := Z.of_nat (length (b_failure_timestamps b)) in
    let s := Z.of_nat (length (b_success_timestamps b)) in
    mret (ratio f (f + s)).

(** [_calculate_throughput] *)
Definition calculate_throughput : BM float64 :=
  b ← b_get id;
  let c := b_config b in
  if cf_sliding_window_size c <=? 0 then mret f_zero
  else if String.eqb (cf_sliding_window_type c) "time" then
    now ← time_time;
    let cutoff := (now - f_of_Z (cf_sliding_window_size c))%f64 in
    let n := recent cutoff (b_failure_timestamps b) + recent cutoff (b_success_timestamps b) in
    mret (f_of_ratio n (cf_sliding_window_size c))
  else
    let n := Z.of_nat (length (b_failure_timestamps b) + length (b_success_timestamps b)) in
    mret (if 0 <? n then (f_of_Z n / f_of_Z 60)%f64 else f_zero).

(** [_should_trip_breaker] *)
Definition should_trip_breaker : BM bool :=
  b ← b_get id;
  let c := b_config b in
  if cf_failure_threshold c <=? b_failure_count b then mret true
  else if 0 <? cf_sliding_window_size c then
    rate ← calculate_failure_rate;
    mret (cf_failure_rate_threshold c <? rate)%f64
  else mret false.

(** [_should_attempt_call] *)
Definition should_attempt_call : BM bool :=
  b ← b_get id;
  match b_state b with
  | CLOSED => mret true
  | OPEN =>
      match b_next_attempt_time b with
      | Some t =>
          now ← now_ist;
          if t <=? now then
            b_set (λ b, set_b_half 0 (set_b_counts (b_failure_count b) 0 (set_b_state HALF_OPEN b))) ;;
            mret true
          else mret false
      | None => mret false
      end
  | HALF_OPEN =>
      let m := cf_half_open_max_requests (b_config b) in
      mret (negb ((0 <? m) && (m <=? b_half_open_requests b)))
  end.

(** [_on_success] *)
Definition on_success : BM unit :=
  now ← now_ist;
  b_set (λ b, set_b_succeeded (Some now) (b_success_timestamps b) b) ;;
  b_set (λ b, set_b_counts (b_failure_count b) (b_success_count b + 1) b) ;;
  b_set (λ b, if bool_decide (b_state b = HALF_OPEN) then set_b_half (b_half_open_requests b + 1) b else b) ;;
  t ← time_time;
  ts ← b_get b_success_timestamps;
  trim_timestamps (λ ts b, set_b_succeeded (b_last_success_time b) ts b) (ts ++ [t]) ;;
  b_set (λ b,
    match b_state b with
    | HALF_OPEN =>
        if cf_success_threshold (b_config b) <=? b_success_count b then
          set_b_opens 0 (set_b_next None (set_b_counts 0 (b_success_count b) (set_b_state CLOSED b)))
        else b
    | CLOSED => set_b_counts 0 (b_success_count b) b
    | OPEN => b
    end).

(** The state set to OPEN, then the time of the next attempt. *)
Definition open_breaker `{!PyPow} : BM unit :=
  b_set (set_b_state OPEN) ;;
  now ← now_ist;
  d ← compute_timeout;
  b_set (set_b_next (Some (now + d))).

(** [_on_failure] *)
Definition on_failure `{!PyPow} : BM unit :=
  now ← now_ist;
  b_set (λ b, set_b_failed (Some now) (b_failure_timestamps b) b) ;;
  b_set (λ b, set_b_counts (b_failure_count b + 1) (b_success_count b) b) ;;
  t ← time_time;
  ts ← b_get b_failure_timestamps;
  trim_timestamps (λ ts b, set_b_failed (b_last_failure_time b) ts b) (ts ++ [t]) ;;
  s ← b_get b_state;
  match s with
  | HALF_OPEN => open_breaker
  | CLOSED => trip ← should_trip_breaker; if trip : bool then open_breaker else mret ()
  | OPEN => mret ()
  end.

(** ** The service *)

Section service.
Context `{!PyPow} {W : Type}.

Definition CM (A : Type) : Type := ST (service W) A.

(** The breaker of a key, made with the given configuration at first use. *)
Definition ensure (key : string) (c : config) : CM unit :=
  st_modify (λ s, match cs_breakers s !! key with
                  | Some _ => s
                  | None => Service (cs_clk s) (<[key := new_breaker c]> (cs_breakers s)) (cs_env s)
                  end).

Definition on_breaker {A} (key : string) (m : BM A) : CM A := λ s,
  match cs_breakers s !! key with
  | Some b =>
      let '(r, (b', c)) := m (b, cs_clk s) in
      (r, Service c (<[key := b']> (cs_breakers s)) (cs_env s))
  | None => (Raise (PyExn KeyError key), s)
  end.

Definition on_env {A} (m : ST W A) : CM A :=
  st_zoom cs_env (λ e s, Service (cs_clk s) (cs_breakers s) e) m.

Definition open_exception (msg : string) : pyexn :=
  PyExn (OtherException "CircuitBreakerOpenException") msg.

(** [call_with_key]; the text of the refusal leaves out the time of the next
    attempt. *)
Definition call_with_key {A} (key : string) (func : ST W A) : CM A :=
  ensure key default_config ;;
  ok ← on_breaker key should_attempt_call;
  if negb ok then
    st ← on_breaker key (b_get b_state);
    if bool_decide (st = OPEN) then
      st_raise (open_exception (String.append "Circuit breaker is OPEN for key " key))
    else
      st_raise (open_exception (String.append "Circuit breaker is not allowing calls for key " key))
  else
    t0 ← time_time;
    st_try_any
      (a ← on_env func; t1 ← time_time; on_breaker key on_success ;; mret a)
      (λ e,
        t1 ← time_time;
        expected ← on_breaker key (b_get (λ b, cf_expected_exception (b_config b) e));
        (if expected : bool then on_breaker key on_failure else on_breaker key on_failure) ;;
        st_raise e).

Definition call {A} (func : ST W A) : CM A := call_with_key "global" func.

Definition get_state (key : string) : CM CircuitState :=
  st_gets (λ s, match cs_breakers s !! key with Some b => b_state b | None => CLOSED end).

Definition get_stats (key : string) : CM stats :=
  s ← st_get;
  match cs_breakers s !! key with
  | None => mret (Stats CLOSED 0 0 None None None f_zero f_zero)
  | Some b =>
      rate ← on_breaker key calculate_failure_rate;
      throughput ← on_breaker key calculate_throughput;
      mret (Stats (b_state b) (b_failure_count b) (b_success_count b) (b_last_failure_time b)
              (b_last_success_time b) (b_next_attempt_time b) rate throughput)
  end.

Definition closed_anew (b : breaker) : breaker := new_breaker (b_config b).

Definition reset (key : string) : CM unit :=
  ensure key default_config ;; on_breaker key (b_set closed_anew).

Definition force_open (key : string) : CM unit :=
  ensure key default_config ;; on_breaker key open_breaker.

Definition force_close (key : string) : CM unit :=
  ensure key default_config ;; on_breaker key (b_set closed_anew).

Definition update_config (key : string) (c : config) : CM unit :=
  s ← st_get;
  match cs_breakers s !! key with
  | None => ensure key c
  | Some _ => on_breaker key (b_set (set_b_config c))
  end.
End service.

(** ** Sequences of calls *)

(** Reduce the attributes, not the readings of the clock. *)
Ltac b_simpl :=
  cbn -[time_time clk_read trim_timestamps now_ist f_of_Z f_of_ratio fsub fmul flt epoch_seconds
        drop_older recent ratio py_min timedelta_seconds Z.mul Z.add].

Section calls.
Context `{!PyPow} {W A : Type}.
Implicit Types (s : service W) (b : breaker) (c : config) (k : clock) (f : ST W A).

Fixpoint run_calls (key : string) (fs : list (ST W A)) s : list (res A) * service W :=
  match fs with
  | [] => ([], s)
  | f :: fs' =>
      let '(r, s1) := call_with_key key f s in
      let '(rs, s2) := run_calls key fs' s1 in
      (r :: rs, s2)
  end.

(** The environment once the calls have run, when each reaches it. *)
Definition all_run (fs : list (ST W A)) (e : W) : W := foldl (λ e f, (f e).2) e fs.

Lemma run_calls_app key fs gs s :
  run_calls key (fs ++ gs) s =
    let '(rs, s1) := run_calls key fs s in
    let '(rs', s2) := run_calls key gs s1 in (rs ++ rs', s2).
Proof.
  revert s. induction fs as [|f fs IH]; intros s; simpl; [by destruct (run_calls key gs s)|].
  destruct (call_with_key key f s) as [r s1]. rewrite IH.
  destruct (run_calls key fs s1) as [rs s2]. by destruct (run_calls key gs s2).
Qed.

Lemma on_breaker_eq {B} key b (m : BM B) r b' k' s :
  cs_breakers s !! key = Some b → m (b, cs_clk s) = (r, (b', k')) →
  on_breaker key m s = (r, Service k' (<[key := b']> (cs_breakers s)) (cs_env s)).
Proof. intros Hb Hm. unfold on_breaker. by rewrite Hb, Hm. Qed.

Lemma ensure_known key c b s : cs_breakers s !! key = Some b → ensure key c s = (Ok (), s).
Proof. intros Hb. unfold ensure, st_modify. by rewrite Hb. Qed.

(** A configuration whose window can be trimmed. *)
Definition trims c : bool :=
  String.eqb (cf_sliding_window_type c) "time" || (0 <=? cf_sliding_window_size c).

Lemma trim_ok put ts b k :
  trims (b_config b) = true → ∃ ts' k', trim_timestamps put ts (b, k) = (Ok (), (put ts' b, k')).
Proof.
  intros Ht. unfold trims in Ht. unfold trim_timestamps, mbind, st_bind, b_get, st_gets. cbn [fst].
  destruct (String.eqb _ "time"); simpl in Ht.
  - rewrite time_time_total. by eexists _, _.
  - rewrite (proj2 (Z.ltb_ge _ _)) by (by apply Z.leb_le). by eexists _, _.
Qed.

(** Half open, after [n] successes of the trial. *)
Record trial c (n : Z) b : Prop := {
  tr_config : b_config b = c;
  tr_state : b_state b = HALF_OPEN;
  tr_successes : b_success_count b = n;
  tr_requests : b_half_open_requests b = n }.

Record recovered c b : Prop := {
  rc_config : b_config b = c;
  rc_state : b_state b = CLOSED;
  rc_failures : b_failure_count b = 0;
  rc_next : b_next_attempt_time b = None;
  rc_opens : b_consecutive_open_count b = 0 }.

Lemma on_success_trial c n b k :
  trial c n b → trims c = true →
  ∃ b' k', on_success (b, k) = (Ok (), (b', k')) ∧
    if cf_success_threshold c <=? n + 1 then recovered c b' else trial c (n + 1) b'.
Proof.
  intros [Hc Hs Hn Hr] Ht.
  unfold on_success, mbind, st_bind, b_set, b_get, st_modify, st_gets. rewrite now_ist_total. b_simpl.
  rewrite Hs, bool_decide_eq_true_2 by done. rewrite time_time_total. b_simpl.
  match goal with |- context [trim_timestamps ?p ?ts (?x, ?y)] =>
    destruct (trim_ok p ts x y) as (ts' & k' & Htrim) end; [simpl; by rewrite Hc|].
  rewrite Htrim. simpl. rewrite Hs, Hc, Hn.
  destruct (_ <=? n + 1); (eexists _, _; split; [done|]); by split; simpl; rewrite ?Hn, ?Hr.
Qed.

(** The call that finds the trial open. *)
Definition ready c (n : Z) b k : Prop :=
  trial c n b ∨ (n = 0 ∧ b_config b = c ∧ b_state b = OPEN ∧
                 ∃ t, b_next_attempt_time b = Some t ∧ t ≤ clk_now k).

Lemma attempt_ready c n b k :
  ready c n b k → (cf_half_open_max_requests c = 0 ∨ n < cf_half_open_max_requests c) →
  ∃ b' k', should_attempt_call (b, k) = (Ok true, (b', k')) ∧ trial c n b'.
Proof.
  intros [[Hc Hs Hn Hr]|(-> & Hc & Hs & t & Ht & Hdue)] Hmax;
    unfold should_attempt_call, mbind, st_bind, b_get, st_gets; b_simpl; rewrite Hs.
  - exists b, k. rewrite Hc, Hr. split; [|by split].
    destruct (Z.ltb_spec 0 (cf_half_open_max_requests c)); simpl; [|done].
    by rewrite (proj2 (Z.leb_gt _ _)) by lia.
  - rewrite Ht, now_ist_total. unfold clk_read. simpl. rewrite (proj2 (Z.leb_le _ _)) by done.
    eexists _, _. split; [done|]. by split.
Qed.

Lemma call_trial key f a e' c n b s :
  cs_breakers s !! key = Some b → ready c n b (cs_clk s) → trims c = true →
  (cf_half_open_max_requests c = 0 ∨ n < cf_half_open_max_requests c) →
  f (cs_env s) = (Ok a, e') →
  ∃ b' s', call_with_key key f s = (Ok a, s') ∧ cs_env s' = e' ∧ cs_breakers s' !! key = Some b' ∧
    if cf_success_threshold c <=? n + 1 then recovered c b' else trial c (n + 1) b'.
Proof.
  intros Hb Hready Ht Hmax Hf.
  destruct (attempt_ready c n b (cs_clk s) Hready Hmax) as (b1 & k1 & Hatt & Htr).
  pose proof (on_breaker_eq key b _ _ _ _ s Hb Hatt) as H1. set (s1 := Service _ _ _) in H1.
  set (s2 := Service (clk_read k1).2 (cs_breakers s1) (cs_env s1)).
  set (s3 := Service (clk_read (cs_clk s2)).2 (cs_breakers s2) e').
  assert (cs_breakers s3 !! key = Some b1) as Hb3 by (simpl; by dict_simp).
  destruct (on_success_trial c n b1 (cs_clk s3) Htr Ht) as (b' & k' & Hok & Hafter).
  pose proof (on_breaker_eq key b1 _ _ _ _ s3 Hb3 Hok) as H3.
  exists b'. eexists. split.
  - unfold call_with_key, mbind, st_bind. rewrite (ensure_known _ _ _ _ Hb), H1. b_simpl.
    rewrite time_time_total. unfold st_try_any, mbind, st_bind, on_env, st_zoom. b_simpl.
    rewrite Hf, time_time_total. b_simpl. unfold s3, s2, s1 in H3. cbn [cs_clk cs_breakers cs_env] in H3.
    rewrite H3. done.
  - split; [done|]. split; [|done]. simpl. by dict_simp.
Qed.

Definition succeeds f : Prop := ∀ e, ∃ a e', f e = (Ok a, e').
Definition ok_result (r : res A) : Prop := is_ok r = true.

(** Successes short of the threshold keep the trial going. *)
Lemma trial_run key c fs n b s :
  cs_breakers s !! key = Some b → ready c n b (cs_clk s) → trims c = true → Forall succeeds fs →
  n + Z.of_nat (length fs) < cf_success_threshold c →
  (cf_half_open_max_requests c = 0 ∨ n + Z.of_nat (length fs) ≤ cf_half_open_max_requests c) →
  let '(rs, s') := run_calls key fs s in
  Forall ok_result rs ∧ cs_env s' = all_run fs (cs_env s) ∧
  ∃ b', cs_breakers s' !! key = Some b' ∧ ready c (n + Z.of_nat (length fs)) b' (cs_clk s').
Proof.
  intros Hb Hr Ht Hfs. revert n b s Hb Hr. induction Hfs as [|f fs Hf Hfs IH]; intros n b s Hb Hr Hn Hmax.
  { simpl. split; [done|split; [done|]]. exists b. by rewrite Z.add_0_r. }
  destruct (Hf (cs_env s)) as (a & e' & He).
  cbn [length] in *. rewrite Nat2Z.inj_succ in *.
  destruct (call_trial key f a e' c n b s Hb Hr Ht) as (b1 & s1 & Hcall & Henv & Hb1 & Hst);
    [lia|done|].
  rewrite (proj2 (Z.leb_gt _ _)) in Hst by lia. simpl. rewrite Hcall.
  specialize (IH (n + 1) b1 s1 Hb1 (or_introl Hst)).
  destruct (run_calls key fs s1) as [rs s2]. destruct IH as (Hrs & He2 & b2 & Hb2 & Hr2); [lia|lia|].
  split; [by constructor|]. split; [by rewrite He2, Henv; simpl; rewrite He|].
  exists b2. split; [done|]. by replace (n + Z.succ (Z.of_nat (length fs))) with (n + 1 + Z.of_nat (length fs)) by lia.
Qed.

Lemma ready_not_closed c n b k : ready c n b k → b_state b ≠ CLOSED.
Proof. intros [[_ -> _ _]|(_ & _ & -> & _)]; done. Qed.

(** A trial whose requests are used up refuses every call and stays as it
    is. *)
Lemma wedged_call key f b s :
  cs_breakers s !! key = Some b → b_state b = HALF_OPEN →
  0 < cf_half_open_max_requests (b_config b) ≤ b_half_open_requests b →
  ∃ msg, call_with_key key f s = (Raise (open_exception msg), s).
Proof.
  intros Hb Hs Hmax. eexists.
  assert (Hsame : ∀ B (m : BM B) r, m (b, cs_clk s) = (r, (b, cs_clk s)) → on_breaker key m s = (r, s)).
  { intros B m r Hm. rewrite (on_breaker_eq _ _ _ _ _ _ _ Hb Hm), dict_insert_id by done. by destruct s. }
  unfold call_with_key, mbind, st_bind. rewrite (ensure_known _ _ _ _ Hb).
  rewrite (Hsame _ _ (Ok false)).
  2: { unfold should_attempt_call, mbind, st_bind, b_get, st_gets. simpl. rewrite Hs.
       rewrite (proj2 (Z.ltb_lt _ _)), (proj2 (Z.leb_le _ _)) by lia. done. }
  simpl. rewrite (Hsame _ _ (Ok HALF_OPEN)) by (unfold b_get, st_gets; simpl; by rewrite Hs).
  simpl. done.
Qed.

Lemma wedged_calls key gs b s :
  cs_breakers s !! key = Some b → b_state b = HALF_OPEN →
  0 < cf_half_open_max_requests (b_config b) ≤ b_half_open_requests b →
  (run_calls key gs s).2 = s ∧
  Forall (λ r, ∃ msg, r = Raise (open_exception msg)) (run_calls key gs s).1.
Proof.
  intros Hb Hs Hmax. induction gs as [|f gs IH]; simpl; [done|].
  destruct (wedged_call key f b s Hb Hs Hmax) as [msg ->].
  destruct (run_calls key gs s) as [rs s']. simpl in *. destruct IH as [-> IH].
  split; [done|]. constructor; [by exists msg|done].
Qed.
End calls.

(** C38: Recovery: once its timeout is over, a breaker that lets enough trial
    calls through closes after exactly [success_threshold] successes in a
    row, with its failure count, its next attempt and its backoff reset; each
    of those calls reaches the dependency, and fewer leave it unclosed. *)
Theorem half_open_recovers `{!PyPow} {W A} (key : string) (c : config) (b : breaker) (t : Z)
    (fs : list (ST W A)) (s : service W) :
  cs_breakers s !! key = Some b → b_config b = c → b_state b = OPEN →
  b_next_attempt_time b = Some t → t ≤ clk_now (cs_clk s) → trims c = true →
  Forall succeeds fs → 1 ≤ cf_success_threshold c → Z.of_nat (length fs) = cf_success_threshold c →
  (cf_half_open_max_requests c = 0 ∨ cf_success_threshold c ≤ cf_half_open_max_requests c) →
  let '(rs, s') := run_calls key fs s in
  Forall ok_result rs ∧ cs_env s' = all_run fs (cs_env s) ∧
  (∃ b', cs_breakers s' !! key = Some b' ∧ recovered c b') ∧
  ∀ n, (n < length fs)%nat →
    ∃ b', cs_breakers (run_calls key (take n fs) s).2 !! key = Some b' ∧ b_state b' ≠ CLOSED.
Proof.
  intros Hb Hc Hs Ht Hdue Htr Hfs H1 Hlen Hmax.
  assert (Hready : ready c 0 b (cs_clk s)) by (right; eauto 6).
  assert (Hpart : ∀ n, (n < length fs)%nat → let '(rs, s') := run_calls key (take n fs) s in
    Forall ok_result rs ∧ cs_env s' = all_run (take n fs) (cs_env s) ∧
    ∃ b', cs_breakers s' !! key = Some b' ∧ ready c (Z.of_nat n) b' (cs_clk s')).
  { intros n Hn. pose proof (trial_run key c (take n fs) 0 b s Hb Hready Htr) as Hrun.
    rewrite length_take_le in Hrun by lia. apply Hrun; [by apply Forall_take|lia|lia]. }
  assert (Hlast : ∃ fs0 f, fs = fs0 ++ [f]).
  { destruct fs as [|f fs] using rev_ind; [simpl in Hlen; lia|by exists fs, f]. }
  destruct Hlast as (fs0 & f & ->). rewrite length_app in *. simpl in *.
  pose proof (Hpart (length fs0) ltac:(lia)) as Hp. rewrite take_app_length in Hp.
  rewrite run_calls_app. destruct (run_calls key fs0 s) as [rs s1] eqn:Hrun0.
  destruct Hp as (Hrs & Henv & b1 & Hb1 & Hready1).
  apply Forall_app in Hfs as [_ Hf]. inversion_clear Hf as [|? ? Hf' _].
  destruct (Hf' (cs_env s1)) as (a & e' & He).
  destruct (call_trial key f a e' c _ b1 s1 Hb1 Hready1 Htr) as (b2 & s2 & Hcall & He2 & Hb2 & Hst);
    [lia|done|].
  rewrite (proj2 (Z.leb_le _ _)) in Hst by lia. simpl. rewrite Hcall. split_and!.
  - apply Forall_app. split; [done|]. by repeat constructor.
  - unfold all_run in *. rewrite foldl_app, <- Henv. simpl. by rewrite He.
  - by exists b2.
  - intros n Hn. specialize (Hpart n Hn). destruct (run_calls key (take n (fs0 ++ [f])) s) as [rs' s'].
    destruct Hpart as (_ & _ & b' & Hb' & Hr'). exists b'. split; [done|]. by eapply ready_not_closed.
Qed.

(** With fewer trial requests allowed than successes required, the breaker
    never closes again: once the requests are used up, all successful, every
    later call is refused without reaching the dependency, however long one
    waits. *)
Theorem half_open_wedges `{!PyPow} {W A} (key : string) (c : config) (b : breaker) (t : Z)
    (fs gs : list (ST W A)) (s : service W) :
  cs_breakers s !! key = Some b → b_config b = c → b_state b = OPEN →
  b_next_attempt_time b = Some t → t ≤ clk_now (cs_clk s) → trims c = true →
  Forall succeeds fs → Z.of_nat (length fs) = cf_half_open_max_requests c →
  0 < cf_half_open_max_requests c < cf_success_threshold c →
  let '(rs, s1) := run_calls key fs s in
  Forall ok_result rs ∧
  ∀ k, let s2 := set_clock k s1 in
    (run_calls key gs s2).2 = s2 ∧
    Forall (λ r, ∃ msg, r = Raise (open_exception msg)) (run_calls key gs s2).1.
Proof.
  intros Hb Hc Hs Ht Hdue Htr Hfs Hlen Hmax.
  assert (Hready : ready c 0 b (cs_clk s)) by (right; eauto 6).
  pose proof (trial_run key c fs 0 b s Hb Hready Htr Hfs ltac:(lia) ltac:(lia)) as Hrun.
  destruct (run_calls key fs s) as [rs s1]. destruct Hrun as (Hrs & _ & b1 & Hb1 & Hr1).
  split; [done|]. destruct Hr1 as [[Hc1 Hs1 _ Hq1]|(? & _)]; [|lia]. intros k s2.
  apply (wedged_calls key gs b1 s2 Hb1 Hs1). rewrite Hc1. lia.
Qed.

(** ** Opening *)

Section opening.
Context `{!PyPow} {W A : Type}.
Implicit Types (s : service W) (b : breaker) (f : ST W A).

Lemma open_call key f b t s :
  cs_breakers s !! key = Some b → b_state b = OPEN → b_next_attempt_time b = Some t →
  clk_now (cs_clk s) < t →
  ∃ msg, call_with_key key f s = (Raise (open_exception msg), set_clock (clk_read (cs_clk s)).2 s).
Proof.
  intros Hb Hs Hn Ht. eexists.
  unfold call_with_key, mbind, st_bind. rewrite (ensure_known _ _ _ _ Hb).
  rewrite (on_breaker_eq key b should_attempt_call (Ok false) b (clk_read (cs_clk s)).2 s Hb).
  2: { unfold should_attempt_call, mbind, st_bind, b_get, st_gets. b_simpl.
       rewrite Hs, Hn, now_ist_total. unfold clk_read. simpl.
       by rewrite (proj2 (Z.leb_gt _ _)). }
  rewrite dict_insert_id by done. b_simpl.
  rewrite (on_breaker_eq key b _ (Ok OPEN) b (clk_read (cs_clk s)).2
    (Service (clk_read (cs_clk s)).2 (cs_breakers s) (cs_env s)) Hb);
    [|unfold b_get, st_gets; simpl; by rewrite Hs].
  b_simpl. by rewrite dict_insert_id.
Qed.
End opening.

(** An open breaker protects the dependency: until its timeout is over no
    call for its key runs the protected function or changes a breaker. *)
Theorem open_fails_fast `{!PyPow} {W A} (key : string) (b : breaker) (t : Z) (fs : list (ST W A))
    (s : service W) :
  cs_breakers s !! key = Some b → b_state b = OPEN → b_next_attempt_time b = Some t →
  (∀ n, clk_now (clock_after n (cs_clk s)) < t) →
  let '(rs, s') := run_calls key fs s in
  Forall (λ r, ∃ msg, r = Raise (open_exception msg)) rs ∧
  cs_env s' = cs_env s ∧ cs_breakers s' = cs_breakers s.
Proof.
  intros Hb Hs Hn. revert s Hb. induction fs as [|f fs IH]; intros s Hb Hclk; simpl; [done|].
  destruct (open_call key f b t s Hb Hs Hn (Hclk O)) as [msg ->].
  specialize (IH (set_clock (clk_read (cs_clk s)).2 s) Hb).
  destruct (run_calls key fs _) as [rs s']. destruct IH as (Hrs & He & Hbs).
  { intros n. cbn [cs_clk set_clock service_clock]. rewrite clock_after_S. apply Hclk. }
  split; [|done]. constructor; [by exists msg|done].
Qed.

(** *** The first failure *)

(** [t] is inside the default window of ten seconds ending at [now]. *)
Definition in_window (now t : float64) : bool := (now - f_of_Z 10 <=? t)%f64.

Lemma drop_recent now t : in_window now t = true → drop_older (now - f_of_Z 10)%f64 [t] = [t].
Proof.
  unfold in_window. intros Hin. cbn [drop_older].
  destruct (t <? now - f_of_Z 10)%f64 eqn:Hlt; [|done].
  apply flt_spec in Hlt as (_ & _ & Hlt). by apply fle_spec in Hin as (_ & _ & Hin).
Qed.

Lemma recent_one now t : in_window now t = true → recent (now - f_of_Z 10)%f64 [t] = 1.
Proof.
  intros Hin. unfold recent. by rewrite filter_cons_True by exact Hin.
Qed.

Section first.
Context `{!PyPow}.
Implicit Types k : clock.

(** One failure of a new breaker: the readings of the clock in the order the
    handler makes them. *)
Lemma on_failure_first k :
  fpow (f_of_Z 2) 0 = Ok (f_of_Z 1) →
  in_window (secs 2 k) (secs 1 k) = true → in_window (secs 3 k) (secs 1 k) = true →
  ∃ b' k', on_failure (new_breaker default_config, k) = (Ok (), (b', k')) ∧
    b_state b' = OPEN ∧ b_failure_count b' = 1 ∧
    b_next_attempt_time b' = Some (clk_now (clock_after 4 k) + 60 * usec_per_sec).
Proof.
  intros Hpow Hin1 Hin2. eexists _, _. split.
  - unfold on_failure, mbind, st_bind, b_set, b_get, st_modify, st_gets. rewrite now_ist_total. b_simpl.
    rewrite time_time_total. unfold trim_timestamps, mbind, st_bind, b_set, b_get, st_gets, st_modify.
    b_simpl. rewrite time_time_total. b_simpl.
    change (epoch_seconds (clk_read (clk_read k).2).1) with (secs 1 k).
    change (epoch_seconds (clk_read (clk_read (clk_read k).2).2).1) with (secs 2 k).
    rewrite drop_recent by done.
    unfold should_trip_breaker, calculate_failure_rate, mbind, st_bind, b_get, st_gets. b_simpl.
    change (5 <=? 0 + 1) with false. b_simpl. rewrite time_time_total. b_simpl.
    change (epoch_seconds (clk_read (clk_read (clk_read (clk_read k).2).2).2).1) with (secs 3 k).
    rewrite recent_one by done. change (recent _ []) with 0.
    change (flt (f_of_ratio 1 2) (ratio 1 (1 + 0))) with true. b_simpl.
    unfold open_breaker, compute_timeout, mbind, st_bind, b_set, b_get, st_modify, st_gets.
    rewrite now_ist_total. b_simpl. rewrite Hpow.
    change (timedelta_seconds (py_min (fmul (f_of_Z 60) (f_of_Z 1)) max_timeout))
      with (Some (60 * usec_per_sec)). done.
  - done.
Qed.
End first.

(** With the default configuration the threshold of five failures is never
    the one that counts: the failure rate of a single failed call is 1, above
    the limit of one half, so the first call for a key, if it fails, opens
    the breaker for sixty seconds (as long as the ten-second window still
    holds the failure when the rate is taken). *)
Theorem one_failure_opens `{!PyPow} {W A} (key : string) (f : ST W A) (e : pyexn) (w' : W) (s : service W) :
  let k := clock_after 2 (cs_clk s) in
  cs_breakers s !! key = None → f (cs_env s) = (Raise e, w') →
  fpow (f_of_Z 2) 0 = Ok (f_of_Z 1) →
  in_window (secs 2 k) (secs 1 k) = true → in_window (secs 3 k) (secs 1 k) = true →
  ∃ b s', call_with_key key f s = (Raise e, s') ∧ cs_env s' = w' ∧
    cs_breakers s' !! key = Some b ∧ b_state b = OPEN ∧ b_failure_count b = 1 ∧
    b_next_attempt_time b = Some (clk_now (clock_after 4 k) + 60 * usec_per_sec).
Proof.
  intros k Hnew Hf Hpow Hin1 Hin2.
  destruct (on_failure_first k Hpow Hin1 Hin2) as (b' & k' & Hfail & Hb').
  set (bs := <[key := new_breaker default_config]> (cs_breakers s)).
  assert (Hbs : bs !! key = Some (new_breaker default_config)) by (subst bs; by dict_simp).
  assert (Hread : ∀ B (m : BM B) r c (w : W),
    m (new_breaker default_config, c) = (r, (new_breaker default_config, c)) →
    on_breaker key m (Service c bs w) = (r, Service c bs w)).
  { intros B m r c w Hm. rewrite (on_breaker_eq key (new_breaker default_config) m r _ c (Service c bs w) Hbs Hm).
    simpl. by rewrite dict_insert_id. }
  exists b'. eexists. split.
  - unfold call_with_key, ensure, mbind, st_bind, st_modify. rewrite Hnew. fold bs.
    rewrite (Hread _ _ (Ok true)) by done. b_simpl. rewrite time_time_total.
    unfold st_try_any, mbind, st_bind, on_env, st_zoom. b_simpl. rewrite Hf.
    rewrite time_time_total. b_simpl. rewrite (Hread _ _ (Ok true)) by done. b_simpl.
    change ((clk_read (clk_read (cs_clk s)).2).2) with k.
    rewrite (on_breaker_eq key (new_breaker default_config) on_failure (Ok ()) b' k'
               (Service k bs w') Hbs Hfail). done.
  - split; [done|]. split; [simpl; by dict_simp|done].
Qed.

(** ** Concrete breakers *)

#[local] Existing Instance pow_by_mul.

Definition demo_config : config := Config 5 3 60 (λ _, true) 10 "time" (f_of_ratio 1 2) 0 (f_of_Z 2).
Definition demo_wedge : config := Config 5 3 60 (λ _, true) 10 "time" (f_of_ratio 1 2) 1 (f_of_Z 2).
Definition demo_breaker (c : config) : breaker :=
  Breaker c OPEN 5 0 (Some 0) None (Some 60) [] [] 1 0.
Definition demo_service (c : config) (now : Z) : service nat :=
  Service (Clock now []) (<["broker" := demo_breaker c]> ∅) O.
Definition tick_call : ST nat unit := λ n, (Ok (), S n).
Definition broken_call : ST nat unit := λ n, (Raise (PyExn ConnectionError "reset"), n).

Lemma tick_succeeds : succeeds tick_call.
Proof. intros n. by eexists _, _. Qed.

Lemma half_open_recovers_witness :
  let '(rs, s') := run_calls "broker" [tick_call; tick_call; tick_call] (demo_service demo_config 60) in
  cs_env s' = 3%nat ∧ ∃ b', cs_breakers s' !! "broker"%string = Some b' ∧ recovered demo_config b'.
Proof.
  pose proof (half_open_recovers "broker" demo_config (demo_breaker demo_config) 60
    [tick_call; tick_call; tick_call] (demo_service demo_config 60) eq_refl eq_refl eq_refl eq_refl
    ltac:(vm_compute; discriminate) eq_refl
    ltac:(repeat constructor; apply tick_succeeds) ltac:(vm_compute; discriminate) eq_refl
    ltac:(by left)) as H.
  destruct (run_calls _ _ _) as [rs s']. exact (conj (proj1 (proj2 H)) (proj1 (proj2 (proj2 H)))).
Defined.

Lemma half_open_wedges_witness :
  let '(rs, s1) := run_calls "broker" [tick_call] (demo_service demo_wedge 60) in
  ∀ k, (run_calls "broker" [tick_call; tick_call] (set_clock k s1)).2 = set_clock k s1.
Proof.
  pose proof (half_open_wedges "broker" demo_wedge (demo_breaker demo_wedge) 60
    [tick_call] [tick_call; tick_call] (demo_service demo_wedge 60) eq_refl eq_refl eq_refl eq_refl
    ltac:(vm_compute; discriminate) eq_refl
    ltac:(repeat constructor; apply tick_succeeds) eq_refl ltac:(split; vm_compute; reflexivity)) as H.
  destruct (run_calls _ _ _) as [rs s1]. intros k. exact (proj1 (proj2 H k)).
Defined.

Lemma demo_clock n : clk_now (clock_after n (Clock 5 [])) = 5.
Proof. induction n as [|n IH]; [done|]. by rewrite <- clock_after_S. Qed.

Lemma open_fails_fast_witness :
  let '(rs, s') := run_calls "broker" [tick_call; tick_call] (demo_service demo_config 5) in
  cs_env s' = O.
Proof.
  pose proof (open_fails_fast "broker" (demo_breaker demo_config) 60 [tick_call; tick_call]
    (demo_service demo_config 5) eq_refl eq_refl eq_refl
    ltac:(intros n; simpl; rewrite demo_clock; reflexivity)) as H.
  destruct (run_calls _ _ _) as [rs s']. exact (proj1 (proj2 H)).
Defined.

Lemma one_failure_opens_witness :
  ∃ b s', call_with_key "quotes" broken_call (demo_service demo_config 0) =
      (Raise (PyExn ConnectionError "reset"), s') ∧
    cs_breakers s' !! "quotes"%string = Some b ∧ b_state b = OPEN ∧ b_failure_count b = 1.
Proof.
  destruct (@one_failure_opens pow_by_mul nat unit "quotes" broken_call (PyExn ConnectionError "reset") O
    (demo_service demo_config 0) eq_refl eq_refl ltac:(reflexivity)
    ltac:(vm_compute; reflexivity) ltac:(vm_compute; reflexivity))
    as (b & s' & H1 & _ & H2 & H3 & H4 & _).
  exists b, s'. exact (conj H1 (conj H2 (conj H3 H4))).
Defined.
