(* ===== verification/OrderQueries.v ===== *)
(** * Queries and changes of placed orders (core/services/execution_service.py)

    The operations of [ExecutionService] on an order that is already with
    the broker: [get_order_status], [cancel_order], [modify_order],
    [verify_order_fill] and the polling loop behind it, with the escalation
    of a failed modification.  The broker adapter is an interface; a method
    an adapter may lack is optional in it. *)
From S2P Require Import Prelude PyStr Float64 PyDict OrderTypes.

(** ** Data *)

(** What a broker's [modify_order] returns: a [bool], an object with a
    status (an enum member or a text), or anything else. *)
Inductive status_field := SEnum (s : OrderStatus.t) | SText (s : string).
Inductive modified :=
| ModBool (b : bool)
| ModResult (status : status_field) (r : order_result)
| ModOther.

Record change := Change {
  ch_quantity : option Z; ch_price : option float64; ch_trigger_price : option float64;
  ch_order_type : option string }.

Class QueryBroker (B : Type) := {
  qb_get_order_status : option (string → ST B OrderStatus.t);
  qb_cancel_order : string → ST B bool;
  qb_modify_order : string → change → ST B modified;
  qb_wait_for_fill : option (string → Z → ST B bool);
  qb_get_filled_quantity : option (string → ST B Z);
  qb_get_fill_price : option (string → ST B float64);
  qb_verify_terminal_ok : option (string → ST B bool) }.

(** The service's view: the clock, the broker, the incidents it reported
    (order id and reason), the answers the shutdown event will still give
    ([false] once they are exhausted) and the configured fill timeout. *)
Record qworld (B : Type) := QWorld {
  qw_clk : clock;
  qw_broker : B;
  qw_alerts : list (string * string);
  qw_shutdown : list bool;
  qw_fill_timeout : Z }.
Arguments QWorld {B}. Arguments qw_clk {B}. Arguments qw_broker {B}. Arguments qw_alerts {B}.
Arguments qw_shutdown {B}. Arguments qw_fill_timeout {B}.

#[global] Instance qworld_clock B : HasClock (qworld B) :=
  {| clock_of := qw_clk;
     set_clock := λ c w, QWorld c (qw_broker w) (qw_alerts w) (qw_shutdown w) (qw_fill_timeout w) |}.

(** The report of [verify_order_fill]. *)
Record fill_report := FillReport {
  fr_ok : bool; fr_filled_quantity : Z; fr_average_price : float64; fr_status_verified : bool;
  fr_latency_ms : Z; fr_order_id : string; fr_error : option string; fr_timestamp : Z }.

(** ** Operations *)

Section queries.
Context {B : Type} `{!QueryBroker B}.
Implicit Types w : qworld B.

Definition QM (A : Type) : Type := ST (qworld B) A.

Definition set_broker (b : B) w : qworld B :=
  QWorld (qw_clk w) b (qw_alerts w) (qw_shutdown w) (qw_fill_timeout w).
Definition on_qbroker {A} (m : ST B A) : QM A := st_zoom qw_broker set_broker m.

(** [_escalate_order_modification_failed]: whatever the alerting does with
    the incident, its exceptions are swallowed. *)
Definition escalate (order_id reason : string) : QM unit :=
  st_modify (λ w, QWorld (qw_clk w) (qw_broker w) (qw_alerts w ++ [(order_id, reason)])
                    (qw_shutdown w) (qw_fill_timeout w)).

(** [is_set()] and [wait(t)] of the shutdown event *)
Definition shutdown_event : QM bool := λ w,
  match qw_shutdown w with
  | [] => (Ok false, w)
  | b :: bs => (Ok b, QWorld (qw_clk w) (qw_broker w) (qw_alerts w) bs (qw_fill_timeout w))
  end.

(** [get_order_status] *)
Definition get_order_status (order_id : string) : QM OrderStatus.t :=
  if negb (truthy_str order_id) || str_mem order_id ["duplicate"; "error"] then
    mret OrderStatus.REJECTED
  else
    st_try
      (match qb_get_order_status with
       | Some get => on_qbroker (get order_id)
       | None => mret OrderStatus.SUBMITTED
       end)
      [ValueError; OSError; AttributeError] (λ _, mret OrderStatus.REJECTED).

Definition change_errors : list exn_class := [ValueError; OSError; ConnectionError; AttributeError].

(** [cancel_order] *)
Definition cancel_order (order_id : string) : QM bool :=
  st_try
    (current ← get_order_status order_id;
     if bool_decide (current ∈ [OrderStatus.FILLED; OrderStatus.CANCELLED; OrderStatus.EXPIRED]) then
       mret false
     else
       t0 ← time_time;
       success ← on_qbroker (qb_cancel_order order_id);
       t1 ← time_time;
       mret success)
    change_errors (λ _, mret false).

(** [str(status).upper()] for a text, [str(status)] for an enum member *)
Definition status_val (s : status_field) : string :=
  match s with
  | SText t => str_upper t
  | SEnum e => String.append "OrderStatus." (OrderStatus.value e)
  end.

(** [modify_order] *)
Definition terminal_order : list OrderStatus.t :=
  [OrderStatus.FILLED; OrderStatus.CANCELLED; OrderStatus.EXPIRED; OrderStatus.REJECTED].

Definition submitted_result (order_id : string) (now : Z) : order_result :=
  OrderResult order_id OrderStatus.SUBMITTED 0 f_zero f_zero now None None None.

Definition modify_order (order_id : string) (c : change) : QM order_result :=
  st_try
    (current ← get_order_status order_id;
     if bool_decide (current ∈ terminal_order) then
       now ← now_ist;
       mret (rejected order_id
         (Some (String.append "Order " (String.append order_id
                  (String.append " has terminal status " (OrderStatus.value current))))) now)
     else
       t0 ← time_time;
       broker_result ← on_qbroker (qb_modify_order order_id c);
       t1 ← time_time;
       match broker_result with
       | ModBool true => now ← now_ist; mret (submitted_result order_id now)
       | ModBool false =>
           escalate order_id "Broker rejected modification" ;;
           now ← now_ist;
           mret (rejected order_id (Some "Broker rejected modification"%string) now)
       | ModResult s r =>
           (if str_mem (status_val s) ["REJECTED"; "CANCELLED"; "FAILED"] then
              escalate order_id (String.append "Broker returned status: " (status_val s))
            else mret ()) ;;
           mret r
       | ModOther => now ← now_ist; mret (submitted_result order_id now)
       end)
    change_errors
    (λ e, escalate order_id (exn_msg e) ;;
          now ← now_ist;
          mret (rejected order_id (Some (exn_msg e)) now)).

(** *** Waiting for a fill *)

(** One look at the broker: whether it reports a fill. *)
Definition fill_seen (order_id : string) : QM bool :=
  match qb_get_filled_quantity with
  | Some get => q ← on_qbroker (get order_id); mret (0 <? q)
  | None =>
      match qb_get_order_status with
      | Some get =>
          s ← on_qbroker (get order_id);
          mret (bool_decide (s ∈ [OrderStatus.FILLED; OrderStatus.PARTIALLY_FILLED]))
      | None => mret false
      end
  end.

Definition max_poll_interval : float64 := f_of_Z 5.

(** [_poll_for_fill_status]: rounds of the loop, [None] when the fuel is
    out before it ends. *)
Fixpoint poll_loop (fuel : nat) (order_id : string) (start : float64) (timeout : Z)
    (poll_interval : float64) : QM (option bool) :=
  match fuel with
  | O => mret None
  | S fuel' =>
      now ← time_time;
      if negb (now - start <? f_of_Z timeout)%f64 then mret (Some false)
      else
        down ← shutdown_event;
        if down : bool then mret (Some false)
        else
          r ← st_try
            (seen ← fill_seen order_id;
             if seen : bool then mret (inl true)
             else
               stop ← shutdown_event;
               if stop : bool then mret (inl false)
               else mret (inr (py_min (poll_interval * f_of_ratio 3 2)%f64 max_poll_interval)))
            [ValueError; OSError; AttributeError]
            (λ _, stop ← shutdown_event;
                  mret (if stop : bool then inl false else inr poll_interval));
          match r with
          | inl b => mret (Some b)
          | inr next => poll_loop fuel' order_id start timeout next
          end
  end.

Definition poll_for_fill_status (fuel : nat) (order_id : string) (timeout : Z) : QM (option bool) :=
  start ← time_time;
  poll_loop fuel order_id start timeout (f_of_ratio 1 2).

(** [int((time.time() - start) * 1000)] *)
Definition latency_ms (start now : float64) : Z :=
  match f_trunc ((now - start) * f_of_Z 1000)%f64 with Some n => n | None => 0 end.

(** [verify_order_fill]; [None] when the poll ran out of fuel. *)
Definition verify_order_fill (fuel : nat) (order_id : string) (timeout_seconds : option Z) :
    QM (option fill_report) :=
  w ← st_get;
  let timeout := match timeout_seconds with Some t => t | None => qw_fill_timeout w end in
  start ← time_time;
  st_try
    (fill_ok ← match qb_wait_for_fill with
               | Some wait => b ← on_qbroker (wait order_id timeout); mret (Some b)
               | None => poll_for_fill_status fuel order_id timeout
               end;
     match fill_ok with
     | None => mret None
     | Some fill_ok =>
         q ← match qb_get_filled_quantity with
             | Some get => on_qbroker (get order_id) | None => mret 0 end;
         p ← match qb_get_fill_price with
             | Some get => on_qbroker (get order_id) | None => mret f_zero end;
         verified ← match qb_verify_terminal_ok with
                    | Some check =>
                        st_try (on_qbroker (check order_id)) [ValueError; OSError; AttributeError]
                          (λ _, mret false)
                    | None => mret true
                    end;
         t1 ← time_time;
         stamp ← now_ist;
         mret (Some (FillReport (fill_ok || (0 <? q)) q p verified (latency_ms start t1) order_id None stamp))
     end)
    change_errors
    (λ e,
      t1 ← time_time;
      stamp ← now_ist;
      mret (Some (FillReport false 0 f_zero false (latency_ms start t1) order_id (Some (exn_msg e)) stamp))).
End queries.

(** ** The poll ends *)

Section poll.
Context {B : Type} `{!QueryBroker B}.
Implicit Types w : qworld B.

(** What the body of a round leaves alone: the clock. *)
Definition same_clock w w' : Prop := qw_clk w' = qw_clk w.

#[global] Instance same_clock_preorder : PreOrder same_clock.
Proof. split; [by intros ?|]. intros ??? H1 H2. unfold same_clock in *. congruence. Qed.

Lemma on_qbroker_clock {A} (m : ST B A) : st_rel same_clock (on_qbroker m).
Proof. intros w. unfold on_qbroker, st_zoom. by destruct (m (qw_broker w)). Qed.
Lemma shutdown_clock : st_rel same_clock (shutdown_event (B:=B)).
Proof. intros w. unfold shutdown_event. by destruct (qw_shutdown w). Qed.
Lemma fill_seen_clock order_id : st_rel same_clock (fill_seen (B:=B) order_id).
Proof.
  unfold fill_seen. destruct qb_get_filled_quantity as [get|].
  - apply st_rel_bind; [apply _|apply on_qbroker_clock|intros; apply st_rel_ret, _].
  - destruct qb_get_order_status as [get|]; [|apply st_rel_ret, _].
    apply st_rel_bind; [apply _|apply on_qbroker_clock|intros; apply st_rel_ret, _].
Qed.

(** The body of a round after its two guards. *)
Definition poll_round (order_id : string) (poll_interval : float64) : QM (B:=B) (bool + float64) :=
  st_try
    (seen ← fill_seen order_id;
     if seen : bool then mret (inl true)
     else
       stop ← shutdown_event;
       if stop : bool then mret (inl false)
       else mret (inr (py_min (poll_interval * f_of_ratio 3 2)%f64 max_poll_interval)))
    [ValueError; OSError; AttributeError]
    (λ _, stop ← shutdown_event;
          mret (if stop : bool then inl false else inr poll_interval)).

Lemma poll_round_clock order_id iv : st_rel same_clock (poll_round order_id iv).
Proof.
  unfold poll_round. apply st_rel_try; [apply _| |intros e].
  - apply st_rel_bind; [apply _|apply fill_seen_clock|intros []; [apply st_rel_ret, _|]].
    apply st_rel_bind; [apply _|apply shutdown_clock|intros []; apply st_rel_ret, _].
  - apply st_rel_bind; [apply _|apply shutdown_clock|intros; apply st_rel_ret, _].
Qed.

(** Once some reading of the clock is out of time, the loop ends by the round
    that makes it, and more fuel changes nothing. *)
Lemma poll_loop_ends order_id start timeout n iv w :
  (secs n (qw_clk w) - start <? f_of_Z timeout)%f64 = false →
  ∃ r w', r ≠ Ok None ∧ ∀ m, (n < m)%nat → poll_loop m order_id start timeout iv w = (r, w').
Proof.
  revert iv w. induction n as [|n IH]; intros iv w Hout.
  { eexists (Ok (Some false)), _. split; [done|]. intros [|m] Hm; [lia|].
    cbn [poll_loop]. unfold mbind, st_bind. rewrite time_time_total.
    change (epoch_seconds (clk_read (clock_of w)).1) with (secs 0 (qw_clk w)).
    rewrite Hout. done. }
  destruct (secs 0 (qw_clk w) - start <? f_of_Z timeout)%f64 eqn:Hin.
  2: { eexists (Ok (Some false)), _. split; [done|]. intros [|m] Hm; [lia|].
       cbn [poll_loop]. unfold mbind, st_bind. rewrite time_time_total.
       change (epoch_seconds (clk_read (clock_of w)).1) with (secs 0 (qw_clk w)).
       rewrite Hin. done. }
  set (w1 := set_clock (clk_read (clock_of w)).2 w).
  assert (Hround : ∀ m, (S n < S m)%nat →
    poll_loop (S m) order_id start timeout iv w =
      (down ← shutdown_event;
       if down : bool then mret (Some false)
       else r ← poll_round order_id iv;
            match r with
            | inl b => mret (Some b)
            | inr next => poll_loop m order_id start timeout next
            end) w1).
  { intros m _. cbn [poll_loop]. unfold mbind at 1, st_bind at 1. rewrite time_time_total.
    change (epoch_seconds (clk_read (clock_of w)).1) with (secs 0 (qw_clk w)).
    rewrite Hin. done. }
  pose proof (shutdown_clock w1) as H2. destruct (shutdown_event w1) as [down w2] eqn:Hdown.
  simpl in H2. destruct down as [[]|e].
  - exists (Ok (Some false)), w2. split; [done|]. intros [|m] Hm; [lia|].
    rewrite Hround by lia. unfold mbind, st_bind. by rewrite Hdown.
  - pose proof (poll_round_clock order_id iv w2) as H3.
    destruct (poll_round order_id iv w2) as [r w3] eqn:Hr. simpl in H3.
    destruct r as [[b|next]|e].
    + exists (Ok (Some b)), w3. split; [done|]. intros [|m] Hm; [lia|].
      rewrite Hround by lia. unfold mbind, st_bind. by rewrite Hdown, Hr.
    + destruct (IH next w3) as (r' & w' & Hne & Hall).
      { unfold same_clock in *. rewrite H3, H2. rewrite <- secs_S in Hout. exact Hout. }
      exists r', w'. split; [done|]. intros [|m] Hm; [lia|].
      rewrite Hround by lia. unfold mbind, st_bind. rewrite Hdown, Hr. apply Hall. lia.
    + exists (Raise e), w3. split; [done|]. intros [|m] Hm; [lia|].
      rewrite Hround by lia. unfold mbind, st_bind. by rewrite Hdown, Hr.
  - by unfold shutdown_event in Hdown; destruct (qw_shutdown w1).
Qed.
End poll.

(** C39: The polling loop terminates: if the [n]-th reading of the clock after its
    start is out of time, it ends within [n] rounds, by a fill, a shutdown,
    the timeout or an exception it does not catch, and further fuel changes
    nothing. *)
Theorem poll_terminates {B} `{!QueryBroker B} (order_id : string) (timeout : Z) (n : nat) (w : qworld B) :
  (secs (S n) (qw_clk w) - secs 0 (qw_clk w) <? f_of_Z timeout)%f64 = false →
  ∃ r w', r ≠ Ok None ∧ ∀ m, (n < m)%nat → poll_for_fill_status m order_id timeout w = (r, w').
Proof.
  intros Hout. rewrite <- secs_S in Hout.
  set (w1 := set_clock (clk_read (clock_of w)).2 w).
  destruct (poll_loop_ends order_id (secs 0 (qw_clk w)) timeout n (f_of_ratio 1 2) w1 Hout)
    as (r & w' & Hne & Hall).
  exists r, w'. split; [done|]. intros m Hm.
  unfold poll_for_fill_status, mbind, st_bind. rewrite time_time_total. by apply Hall.
Qed.

(** ** A broker with one story *)

(** An adapter that can be polled and keeps reporting quantity [q] at price
    [p] for an order. *)
Record reports {B} `{!QueryBroker B} (order_id : string) (q : Z) (p : float64) : Prop := {
  re_wait : qb_wait_for_fill = None;
  re_quantity : ∃ get, qb_get_filled_quantity = Some get ∧ ∀ b, get order_id b = (Ok q, b);
  re_price : ∃ get, qb_get_fill_price = Some get ∧ ∀ b, get order_id b = (Ok p, b);
  re_terminal : qb_verify_terminal_ok = None }.

Section reports.
Context {B : Type} `{!QueryBroker B} (order_id : string) (q : Z) (p : float64).
Hypothesis Hrep : reports order_id q p.
Implicit Types w : qworld B.

Lemma set_broker_id w : set_broker (qw_broker w) w = w.
Proof. by destruct w. Qed.

Lemma fill_seen_reports w : fill_seen order_id w = (Ok (0 <? q), w).
Proof.
  destruct (re_quantity _ _ _ Hrep) as (get & Hget & Hq).
  unfold fill_seen. rewrite Hget. unfold mbind, st_bind, on_qbroker, st_zoom. rewrite Hq.
  by rewrite set_broker_id.
Qed.

Lemma poll_loop_reports m start timeout iv w :
  ∃ o w', poll_loop m order_id start timeout iv w = (Ok o, w') ∧ (o = Some true → 0 < q).
Proof.
  revert iv w. induction m as [|m IH]; intros iv w; [by eexists _, _|].
  cbn [poll_loop]. unfold mbind, st_bind. rewrite time_time_total.
  destruct (negb _); [by eexists _, _|].
  match goal with |- context [shutdown_event ?x] => set (w1 := x) end.
  assert (∃ b w2, shutdown_event w1 = (Ok b, w2)) as (b & w2 & ->).
  { unfold shutdown_event. destruct (qw_shutdown w1); by eexists _, _. }
  destruct b; [by eexists _, _|]. unfold st_try. rewrite fill_seen_reports.
  destruct (Z.ltb_spec 0 q); [by eexists _, _|].
  assert (∃ b w3, shutdown_event w2 = (Ok b, w3)) as (b & w3 & ->).
  { unfold shutdown_event. destruct (qw_shutdown w2); by eexists _, _. }
  destruct b; [by eexists _, _|]. apply IH.
Qed.
End reports.

(** Against such a broker the verification of a fill terminates and is exact,
    whatever the timeout and whenever the shutdown signal comes: it reports a
    fill exactly when the broker reports a positive quantity, with that
    quantity and price. *)
Theorem verify_fill_exact {B} `{!QueryBroker B} (order_id : string) (q : Z) (p : float64) (timeout : Z)
    (n m : nat) (w : qworld B) :
  reports order_id q p →
  (secs (S (S n)) (qw_clk w) - secs 1 (qw_clk w) <? f_of_Z timeout)%f64 = false → (n < m)%nat →
  ∃ latency stamp w',
    verify_order_fill m order_id (Some timeout) w =
      (Ok (Some (FillReport (0 <? q) q p true latency order_id None stamp)), w').
Proof.
  intros Hrep Hout Hm. destruct (re_quantity _ _ _ Hrep) as (getq & Hgq & Hq).
  destruct (re_price _ _ _ Hrep) as (getp & Hgp & Hp).
  set (w1 := set_clock (clk_read (clock_of w)).2 w).
  set (w2 := set_clock (clk_read (clock_of w1)).2 w1).
  assert (∃ b w3, poll_for_fill_status m order_id timeout w1 = (Ok (Some b), w3) ∧ (b = true → 0 < q))
    as (b & w3 & Hpoll & Hb).
  { unfold poll_for_fill_status, mbind, st_bind. rewrite time_time_total. fold w2.
    change (epoch_seconds (clk_read (clock_of w1)).1) with (secs 0 (clk_read (qw_clk w)).2).
    rewrite secs_S.
    destruct (poll_loop_ends order_id (secs 1 (qw_clk w)) timeout n (f_of_ratio 1 2) w2) as (r & w' & Hne & Hall).
    { rewrite <- !secs_S in Hout. rewrite <- secs_S. exact Hout. }
    rewrite (Hall m Hm).
    destruct (poll_loop_reports order_id q p Hrep m (secs 1 (qw_clk w)) timeout (f_of_ratio 1 2) w2)
      as (o & w'' & Ho & Hpos).
    rewrite (Hall m Hm) in Ho. injection Ho as -> ->. destruct o as [b|]; [|done].
    exists b, w''. split; [done|]. intros ->. by apply Hpos. }
  eexists _, _, _. unfold verify_order_fill, mbind, st_bind, st_get, st_try. rewrite time_time_total.
  rewrite (re_wait _ _ _ Hrep), Hgq, Hgp, (re_terminal _ _ _ Hrep). fold w1. rewrite Hpoll.
  unfold on_qbroker, st_zoom. rewrite Hq, set_broker_id, Hp, set_broker_id.
  cbn -[time_time now_ist clk_read]. rewrite time_time_total, now_ist_total.
  destruct b; simpl; [|done].
  specialize (Hb eq_refl). by rewrite (proj2 (Z.ltb_lt _ _)).
Qed.

(** ** Changes to finished orders *)

(** A modification is never sent for an order the broker reports finished,
    nor for one whose status cannot be read; a cancellation is still sent
    for a rejected one. *)
Lemma finished_order_unmodified {B} `{!QueryBroker B} (order_id : string) (c : change) (w : qworld B) s w1 :
  get_order_status order_id w = (Ok s, w1) → s ∈ terminal_order →
  qw_broker (modify_order order_id c w).2 = qw_broker w1 ∧
  (∃ r, (modify_order order_id c w).1 = Ok r ∧ or_status r = OrderStatus.REJECTED) ∧
  (s ≠ OrderStatus.REJECTED → cancel_order order_id w = (Ok false, w1)).
Proof.
  intros Hs Hin. unfold modify_order, cancel_order, st_try, mbind, st_bind. rewrite Hs.
  rewrite (bool_decide_eq_true_2 (s ∈ terminal_order)) by done. rewrite now_ist_total.
  split; [done|split; [by eexists|]]. intros Hne.
  rewrite bool_decide_eq_true_2; [done|].
  apply (bool_decide_eq_true_2 _) in Hin. destruct s; try done; in_list.
Qed.

(** The escalation of a refused modification looks for the words REJECTED,
    CANCELLED and FAILED; the text of an enum member, which is what the
    port's results carry, is none of them. *)
Lemma enum_status_never_escalates (s : OrderStatus.t) :
  str_mem (status_val (SEnum s)) ["REJECTED"; "CANCELLED"; "FAILED"] = false.
Proof. by destruct s. Qed.

(** ** A concrete broker *)

Definition polled_port (q : Z) : QueryBroker unit := {|
  qb_get_order_status := None;
  qb_cancel_order _ := mret true;
  qb_modify_order _ _ := mret (ModBool true);
  qb_wait_for_fill := None;
  qb_get_filled_quantity := Some (λ _, mret q);
  qb_get_fill_price := Some (λ _, mret (f_of_Z 101));
  qb_verify_terminal_ok := None |}.

(** Two seconds pass between readings. *)
Definition demo_queries : qworld unit :=
  QWorld (Clock 0 (replicate 10 (2 * usec_per_sec))) () [] [] 10.

Lemma poll_terminates_witness :
  ∃ r w', r ≠ Ok None ∧
    ∀ m, (5 < m)%nat → @poll_for_fill_status _ (polled_port 0) m "ord" 10 demo_queries = (r, w').
Proof.
  refine (@poll_terminates _ (polled_port 0) "ord" 10 5 demo_queries _). vm_compute. reflexivity.
Defined.

Lemma verify_fill_exact_witness :
  ∃ latency stamp w',
    @verify_order_fill _ (polled_port 3) 6 "ord" (Some 10) demo_queries =
      (Ok (Some (FillReport true 3 (f_of_Z 101) true latency "ord" None stamp)), w').
Proof.
  refine (@verify_fill_exact _ (polled_port 3) "ord" 3 (f_of_Z 101) 10 5 6 demo_queries _ _ _).
  - split; try done; by eexists.
  - vm_compute. reflexivity.
  - lia.
Defined.
