(* ===== verification/RateLimiter.v ===== *)
(** * The rate limiting service (core/services/rate_limiting_service.py)

    Three algorithms behind one interface: fixed windows, a sliding log of
    timestamps and token buckets, each with its own table of keys; a key may
    carry a configuration of its own. *)
From S2P Require Import Prelude PyStr Float64 PyDict.

(** ** Data *)

(** [LimitResult], [RateLimitConfig] and [RateLimitStatus] of
    core/ports/rate_limiting/rate_limit_port.py; the configuration without
    the fields no algorithm reads, and the reset time as the number of
    seconds [datetime.fromtimestamp] is given. *)
Inductive LimitResult := ALLOWED | DENIED.

#[global] Instance LimitResult_eq_dec : EqDecision LimitResult.
Proof. solve_decision. Defined.

Record limit_config := LimitConfig { lc_limit : Z; lc_window : Z; lc_algorithm : string }.

Record limit_status := LimitStatus {
  ls_allowed : bool; ls_remaining : Z; ls_reset_time : float64; ls_retry_after : option float64;
  ls_limit : Z; ls_window : Z; ls_algorithm : string }.

(** [_WindowCounter] and [_TokenBucket] *)
Record counter := Counter { ct_count : Z; ct_window_start : float64 }.
Record bucket := Bucket {
  bk_capacity : Z; bk_tokens : float64; bk_refill_rate : float64; bk_last_refill : float64 }.

(** [RateLimitingService] *)
Record limiter := Limiter {
  li_clk : clock;
  li_default_config : limit_config;
  li_counters : pydict counter;
  li_sliding_windows : pydict (list float64);
  li_token_buckets : pydict bucket;
  li_custom_configs : pydict limit_config }.

#[global] Instance limiter_clock : HasClock limiter :=
  {| clock_of := li_clk;
     set_clock := λ c l, Limiter c (li_default_config l) (li_counters l) (li_sliding_windows l)
                           (li_token_buckets l) (li_custom_configs l) |}.

Definition set_counters d (l : limiter) : limiter :=
  Limiter (li_clk l) (li_default_config l) d (li_sliding_windows l) (li_token_buckets l) (li_custom_configs l).
Definition set_sliding d (l : limiter) : limiter :=
  Limiter (li_clk l) (li_default_config l) (li_counters l) d (li_token_buckets l) (li_custom_configs l).
Definition set_buckets d (l : limiter) : limiter :=
  Limiter (li_clk l) (li_default_config l) (li_counters l) (li_sliding_windows l) d (li_custom_configs l).
Definition set_configs d (l : limiter) : limiter :=
  Limiter (li_clk l) (li_default_config l) (li_counters l) (li_sliding_windows l) (li_token_buckets l) d.

(** [__init__] *)
Definition standard_config : limit_config := LimitConfig 100 60 "fixed_window".

Definition new_limiter (c : clock) (default : option limit_config) : limiter :=
  Limiter c (match default with Some d => d | None => standard_config end) ∅ ∅ ∅ ∅.

(** ** Operations *)

Definition LM (A : Type) : Type := ST limiter A.

Definition get_config (key : string) (l : limiter) : limit_config :=
  match li_custom_configs l !! key with Some c => c | None => li_default_config l end.

(** [_is_allowed_fixed_window]; a new counter reads the clock again. *)
Definition expired (c : limit_config) (now : float64) (o : option counter) : bool :=
  match o with
  | Some ct => (f_of_Z (lc_window c) <=? now - ct_window_start ct)%f64
  | None => true
  end.

Definition is_allowed_fixed_window (key : string) (cost : Z) (c : limit_config) : LM LimitResult :=
  now ← time_time;
  l ← st_get;
  let old := li_counters l !! key in
  ct ← (if expired c now old then
          start ← time_time;
          let ct := Counter 0 start in
          st_modify (λ l, set_counters (<[key := ct]> (li_counters l)) l) ;; mret ct
        else mret match old with Some ct => ct | None => Counter 0 now end);
  if lc_limit c <? ct_count ct + cost then mret DENIED
  else
    st_modify (λ l, set_counters
      (<[key := Counter (ct_count ct + cost) (ct_window_start ct)]> (li_counters l)) l) ;;
    mret ALLOWED.

(** [_is_allowed_sliding_window] *)
Fixpoint drop_before (start : float64) (ts : list float64) : list float64 :=
  match ts with
  | t :: ts' => if (t <? start)%f64 then drop_before start ts' else ts
  | [] => []
  end.

Definition is_allowed_sliding_window (key : string) (cost : Z) (c : limit_config) : LM LimitResult :=
  now ← time_time;
  let window_start := (now - f_of_Z (lc_window c))%f64 in
  l ← st_get;
  let ts := drop_before window_start match li_sliding_windows l !! key with Some ts => ts | None => [] end in
  st_modify (λ l, set_sliding (<[key := ts]> (li_sliding_windows l)) l) ;;
  if lc_limit c <? Z.of_nat (length ts) + cost then mret DENIED
  else
    st_modify (λ l, set_sliding (<[key := ts ++ replicate (Z.to_nat cost) now]> (li_sliding_windows l)) l) ;;
    mret ALLOWED.

(** The bucket of a key, made full at first use, and refilled. *)
Definition the_bucket (key : string) (c : limit_config) : LM bucket :=
  l ← st_get;
  match li_token_buckets l !! key with
  | Some b => mret b
  | None =>
      t ← time_time;
      let b := Bucket (lc_limit c) (f_of_Z (lc_limit c))
                 (if 0 <? lc_window c then f_of_ratio (lc_limit c) (lc_window c) else f_zero) t in
      st_modify (λ l, set_buckets (<[key := b]> (li_token_buckets l)) l) ;; mret b
  end.

Definition refill (now : float64) (b : bucket) : bucket :=
  let time_passed := (now - bk_last_refill b)%f64 in
  if (f_zero <? time_passed)%f64 && (f_zero <? bk_refill_rate b)%f64 then
    Bucket (bk_capacity b)
      (py_min (f_of_Z (bk_capacity b)) (bk_tokens b + time_passed * bk_refill_rate b)%f64)
      (bk_refill_rate b) now
  else b.

Definition put_bucket (key : string) (b : bucket) : LM unit :=
  st_modify (λ l, set_buckets (<[key := b]> (li_token_buckets l)) l).

(** [_is_allowed_token_bucket] *)
Definition is_allowed_token_bucket (key : string) (cost : Z) (c : limit_config) : LM LimitResult :=
  now ← time_time;
  b0 ← the_bucket key c;
  let b := refill now b0 in
  put_bucket key b ;;
  if (bk_tokens b <? f_of_Z cost)%f64 then mret DENIED
  else
    put_bucket key (Bucket (bk_capacity b) (bk_tokens b - f_of_Z cost)%f64 (bk_refill_rate b) (bk_last_refill b)) ;;
    mret ALLOWED.

(** [is_allowed]: an unknown algorithm is a fixed window. *)
Definition is_allowed (key : string) (cost : Z) : LM LimitResult :=
  l ← st_get;
  let c := get_config key l in
  if String.eqb (lc_algorithm c) "fixed_window" then is_allowed_fixed_window key cost c
  else if String.eqb (lc_algorithm c) "sliding_window" then is_allowed_sliding_window key cost c
  else if String.eqb (lc_algorithm c) "token_bucket" then is_allowed_token_bucket key cost c
  else is_allowed_fixed_window key cost c.

(** [max(0, x)] *)
Definition not_below_zero (x : float64) : float64 := py_max f_zero x.

Definition status_of (c : limit_config) (allowed : bool) (remaining : Z) (reset : float64)
    (retry : option float64) : limit_status :=
  LimitStatus allowed remaining reset retry (lc_limit c) (lc_window c) (lc_algorithm c).

(** [_get_status_fixed_window], [_get_status_sliding_window] and
    [_get_status_token_bucket] *)
Definition get_status_fixed_window (key : string) (c : limit_config) : LM limit_status :=
  l ← st_get;
  match li_counters l !! key with
  | None =>
      t ← time_time;
      mret (status_of c true (lc_limit c) (t + f_of_Z (lc_window c))%f64 None)
  | Some ct =>
      t ← time_time;
      let left := not_below_zero (f_of_Z (lc_window c) - (t - ct_window_start ct))%f64 in
      t' ← time_time;
      mret (status_of c (ct_count ct <? lc_limit c) (Z.max 0 (lc_limit c - ct_count ct)) (t' + left)%f64
              (if lc_limit c <=? ct_count ct then Some left else None))
  end.

Definition get_status_sliding_window (key : string) (c : limit_config) : LM limit_status :=
  now ← time_time;
  l ← st_get;
  let window_start := (now - f_of_Z (lc_window c))%f64 in
  let known := li_sliding_windows l !! key in
  let ts := drop_before window_start match known with Some ts => ts | None => [] end in
  st_modify (λ l, match known with
                  | Some _ => set_sliding (<[key := ts]> (li_sliding_windows l)) l
                  | None => l
                  end) ;;
  let count := Z.of_nat (length ts) in
  let remaining := Z.max 0 (lc_limit c - count) in
  match ts with
  | oldest :: _ =>
      let reset := (oldest + f_of_Z (lc_window c))%f64 in
      retry ← (if lc_limit c <=? count then
                 t ← time_time; mret (Some (not_below_zero (reset - t)%f64))
               else mret None);
      mret (status_of c (count <? lc_limit c) remaining reset retry)
  | [] => mret (status_of c (count <? lc_limit c) remaining (now + f_of_Z (lc_window c))%f64 None)
  end.

Definition get_status_token_bucket (key : string) (c : limit_config) : LM limit_status :=
  now ← time_time;
  b0 ← the_bucket key c;
  let b := refill now b0 in
  put_bucket key b ;;
  mret (status_of c (f_of_Z 1 <=? bk_tokens b)%f64
          match f_trunc (bk_tokens b) with Some n => n | None => 0 end
          (now + f_of_Z (lc_window c))%f64
          (if (bk_tokens b <? f_of_Z 1)%f64 && (f_zero <? bk_refill_rate b)%f64
           then Some ((f_of_Z 1 - bk_tokens b) / bk_refill_rate b)%f64 else None)).

(** [get_status] *)
Definition get_status (key : string) : LM limit_status :=
  l ← st_get;
  let c := get_config key l in
  if String.eqb (lc_algorithm c) "fixed_window" then get_status_fixed_window key c
  else if String.eqb (lc_algorithm c) "sliding_window" then get_status_sliding_window key c
  else if String.eqb (lc_algorithm c) "token_bucket" then get_status_token_bucket key c
  else get_status_fixed_window key c.

(** [reset] *)
Definition reset (key : string) : LM unit :=
  st_modify (λ l, set_buckets (delete key (li_token_buckets l))
    (set_sliding (delete key (li_sliding_windows l))
      (set_counters (delete key (li_counters l)) l))).

(** [get_retry_after] *)
Definition get_retry_after (key : string) : LM float64 :=
  l ← st_get;
  let c := get_config key l in
  if String.eqb (lc_algorithm c) "fixed_window" then
    match li_counters l !! key with
    | Some ct =>
        if lc_limit c <=? ct_count ct then
          t ← time_time;
          mret (not_below_zero (f_of_Z (lc_window c) - (t - ct_window_start ct))%f64)
        else mret f_zero
    | None => mret f_zero
    end
  else if String.eqb (lc_algorithm c) "sliding_window" then
    match li_sliding_windows l !! key with
    | Some (oldest :: ts) =>
        if lc_limit c <=? Z.of_nat (length (oldest :: ts)) then
          t ← time_time;
          mret (not_below_zero (f_of_Z (lc_window c) - (t - oldest))%f64)
        else mret f_zero
    | _ => mret f_zero
    end
  else if String.eqb (lc_algorithm c) "token_bucket" then
    match li_token_buckets l !! key with
    | Some b =>
        if (bk_tokens b <? f_of_Z 1)%f64 then
          mret (if (f_zero <? bk_refill_rate b)%f64
                then ((f_of_Z 1 - bk_tokens b) / bk_refill_rate b)%f64 else f_zero)
        else mret f_zero
    | None => mret f_zero
    end
  else mret f_zero.

(** [update_config] *)
Definition update_config (key : string) (c : limit_config) : LM unit :=
  st_modify (λ l, set_configs (<[key := c]> (li_custom_configs l)) l).

(** ** What a window lets through *)

(** The requests of a key in a row: the total cost of those allowed. *)
Fixpoint admit_costs (key : string) (costs : list Z) (l : limiter) : Z * limiter :=
  match costs with
  | [] => (0, l)
  | cost :: costs' =>
      let '(r, l1) := is_allowed key cost l in
      let '(total, l2) := admit_costs key costs' l1 in
      (match r with Ok ALLOWED => cost | _ => 0 end + total, l2)
  end.

(** The request that a window with [n] already used decides. *)
Definition fits (c : limit_config) (n cost : Z) : bool := n + cost <=? lc_limit c.

Lemma is_allowed_fixed key cost c l :
  get_config key l = c → lc_algorithm c = "fixed_window"%string →
  is_allowed key cost l = is_allowed_fixed_window key cost c l.
Proof. intros Hc Ha. unfold is_allowed, mbind, st_bind, st_get. by rewrite Hc, Ha. Qed.

Lemma fixed_window_step key cost c ct l :
  get_config key l = c → lc_algorithm c = "fixed_window"%string →
  li_counters l !! key = Some ct → expired c (secs 0 (li_clk l)) (Some ct) = false →
  ∃ l', is_allowed key cost l = (Ok (if fits c (ct_count ct) cost then ALLOWED else DENIED), l') ∧
    li_clk l' = (clk_read (li_clk l)).2 ∧ get_config key l' = c ∧
    li_counters l' !! key =
      Some (Counter (ct_count ct + if fits c (ct_count ct) cost then cost else 0) (ct_window_start ct)).
Proof.
  intros Hc Ha Hct Hin. rewrite (is_allowed_fixed key cost c l Hc Ha).
  unfold is_allowed_fixed_window, mbind, st_bind, st_get. rewrite time_time_total.
  change (epoch_seconds (clk_read (clock_of l)).1) with (secs 0 (li_clk l)).
  cbn [li_counters set_clock limiter_clock]. rewrite Hct, Hin. unfold fits, st_modify.
  cbn [ct_count ct_window_start]. rewrite Z.leb_antisym.
  destruct (lc_limit c <? ct_count ct + cost) eqn:Hfit; simpl; rewrite ?Hfit;
    (eexists; split; [done|split; [done|split; [exact Hc|]]]).
  - cbn [li_counters]. rewrite Hct, Z.add_0_r. by destruct ct.
  - simpl. by rewrite dict_lookup_insert_eq.
Qed.

(** Within one fixed window, whatever is asked: the counter grows by exactly
    the cost of the allowed requests, and requests of nonnegative cost never
    get more than the limit together. *)
Theorem fixed_window_total (key : string) (costs : list Z) (c : limit_config) (ct : counter) (l : limiter) :
  get_config key l = c → lc_algorithm c = "fixed_window"%string →
  li_counters l !! key = Some ct →
  (∀ i, (i < length costs)%nat → expired c (secs i (li_clk l)) (Some ct) = false) →
  Forall (λ x, 0 ≤ x) costs → ct_count ct ≤ lc_limit c →
  let '(total, l') := admit_costs key costs l in
  li_counters l' !! key = Some (Counter (ct_count ct + total) (ct_window_start ct)) ∧
  0 ≤ total ≤ lc_limit c - ct_count ct.
Proof.
  intros Hc Ha. revert ct l Hc. induction costs as [|cost costs IH]; intros ct l Hc Hct Hin Hpos Hle; simpl.
  { split; [|lia]. rewrite Z.add_0_r. by destruct ct. }
  apply Forall_cons in Hpos as [Hcost Hpos].
  destruct (fixed_window_step key cost c ct l Hc Ha Hct (Hin O ltac:(simpl; lia)))
    as (l1 & Hrun & Hclk & Hc1 & Hct1).
  rewrite Hrun. set (got := if fits c (ct_count ct) cost then cost else 0) in *.
  assert (Hgot : 0 ≤ got ∧ ct_count ct + got ≤ lc_limit c).
  { subst got. unfold fits. destruct (Z.leb_spec (ct_count ct + cost) (lc_limit c)); lia. }
  specialize (IH _ l1 Hc1 Hct1). destruct (admit_costs key costs l1) as [total l2].
  destruct IH as [Hend Hbound]; [|done|simpl; lia|].
  { intros i Hi. rewrite Hclk, secs_S. exact (Hin (S i) ltac:(simpl; lia)). }
  simpl in Hend, Hbound.
  replace (match (if fits c (ct_count ct) cost then ALLOWED else DENIED) with ALLOWED => cost | DENIED => 0 end)
    with got by (subst got; by destruct (fits _ _ _)).
  split; [rewrite Hend; do 2 f_equal; lia|lia].
Qed.

(** A sliding window never holds more timestamps than the limit, and keeps
    the timestamps inside it in order. *)
Lemma drop_before_suffix start ts : ∃ k, ts = k ++ drop_before start ts.
Proof.
  induction ts as [|t ts [k IH]]; simpl; [by exists []|].
  destruct (t <? start)%f64; [|by exists []]. exists (t :: k). simpl. by f_equal.
Qed.

Lemma sliding_window_bounded key cost c l ts :
  0 ≤ cost → 0 ≤ lc_limit c →
  (∀ ts, li_sliding_windows l !! key = Some ts → Z.of_nat (length ts) ≤ lc_limit c) →
  li_sliding_windows (is_allowed_sliding_window key cost c l).2 !! key = Some ts →
  Z.of_nat (length ts) ≤ lc_limit c.
Proof.
  intros Hcost Hlim Hold. unfold is_allowed_sliding_window, mbind, st_bind, st_get, st_modify.
  rewrite time_time_total. cbn [li_sliding_windows set_clock limiter_clock].
  set (old := match li_sliding_windows l !! key with Some ts => ts | None => [] end).
  set (start := (_ - _)%f64). destruct (drop_before_suffix start old) as [k Hk].
  assert (Z.of_nat (length old) ≤ lc_limit c).
  { subst old. destruct (li_sliding_windows l !! key) eqn:He; [by apply Hold|simpl; lia]. }
  apply (f_equal length) in Hk. rewrite length_app in Hk.
  destruct (Z.ltb_spec (lc_limit c) (Z.of_nat (length (drop_before start old)) + cost)); simpl; dict_simp;
    intros [= <-]; rewrite ?length_app, ?length_replicate; lia.
Qed.

(** ** A concrete limiter *)

Definition demo_limit : limit_config := LimitConfig 3 60 "fixed_window".
Definition demo_limiter : limiter :=
  Limiter (Clock 0 (replicate 5 usec_per_sec)) demo_limit
    (<["api" := Counter 1 (epoch_seconds 0)]> ∅) ∅ ∅ ∅.

Lemma fixed_window_total_witness :
  let '(total, l') := admit_costs "api" [1; 2; 1; 5] demo_limiter in
  li_counters l' !! "api"%string = Some (Counter (1 + total) (epoch_seconds 0)) ∧
  0 ≤ total ≤ 2.
Proof.
  refine (fixed_window_total "api" [1; 2; 1; 5] demo_limit (Counter 1 (epoch_seconds 0))
            demo_limiter eq_refl eq_refl eq_refl _ _ _).
  - intros [|[|[|[|i]]]] Hi; [vm_compute; reflexivity..|simpl in Hi; lia].
  - repeat constructor; discriminate.
  - vm_compute. discriminate.
Defined.
